(* ===== verification/_CoqProject ===== *)
-Q . S2P
Prelude.v
PyExn.v
FlexVersion.v
Datetime.v
Json.v
Ticks.v
Urls.v
TextUtil.v
Shell.v
ExtProcess.v
Xml.v
Dhcp.v
Timers.v
Policy.v
World.v
Conf.v
Machine.v
Systemd.v
CgroupApi.v
Users.v
RemoteAccess.v
Manifest.v
RestApi.v
ExtInstance.v
Cgroups.v
CgroupProcs.v
CgroupInv.v
ExtRun.v
Samples.v
ExtVersion.v
ExtCommands.v
Download.v
ExtStatus.v
ExtHandlers.v
ExtGoalState.v
GuestAgent.v
AgentUpdate.v
VmSettings.v
ExtConfig.v
History.v
Firewall.v
EnableFirewall.v
PersistFirewall.v
Http.v
HealthService.v
Imds.v
ImageOrigin.v
HostPlugin.v
WireClient.v
Certificates.v
GoalState.v
Telemetry.v
EventLog.v
Daemon.v
ExtReport.v
StatusBlob.v
Collect.v
MemoryRestart.v
MainLoop.v
Process.v
