(* ===== verification/Prelude.v ===== *)
(** * Verification of the Azure Linux Agent

    The agent (src/azurelinuxagent) runs on Azure virtual machines.  It receives goal
    states from the platform, installs, enables, updates and removes the extensions they
    name, under an optional policy of the machine's owner, and reports their status.  This
    library models the part of the agent that makes these decisions and proves the
    properties the platform and the owner rely on.

    ** The parts and how they interact

    [ExtHandlersHandler.run] (ga/exthandlers.py) processes a goal state: it reads the
    policy, sorts the extensions by dependency level and handles them one after the other.
    Handling one creates an [ExtHandlerInstance], which chooses a version, downloads and
    checks the package, runs the commands of the extension and keeps its state and status
    in files; the status files the extension writes are collected to decide whether the
    extensions that depend on it may run, and to be reported.

    - [Prelude.v]: results, the state-and-exception monad, weakest preconditions, the
      preservation of a relation along a program, Python strings.
    - [PyExn.v]: the exception classes (common/exception.py) and [try]/[except].
    - [FlexVersion.v]: [FlexibleVersion] (common/utils/flexible_version.py).
    - [Json.v]: JSON values and data contracts (common/datacontract.py).
    - [Timers.v]: [ErrorState] (common/errorstate.py) and [PeriodicOperation]
      (ga/periodic_operation.py).
    - [Policy.v]: the policy engine (ga/policy/policy_engine.py).
    - [World.v]: the machine: files (common/utils/fileutil.py), the clock and the trace of
      what the agent did.
    - [Manifest.v], [RestApi.v]: [HandlerManifest] (ga/exthandlers.py) and the objects of
      common/protocol/restapi.py.
    - [ExtInstance.v], [ExtVersion.v], [ExtCommands.v], [Download.v], [ExtStatus.v]: the
      methods of [ExtHandlerInstance] (ga/exthandlers.py), with the parts of
      ga/signature_validation_util.py and common/protocol/wire.py they call.
    - [ExtHandlers.v]: the operations of [ExtHandlersHandler] on one extension.
    - [ExtGoalState.v]: the loop over a goal state.
    - [Samples.v]: a concrete machine to apply the theorems at.
    - [GuestAgent.v]: the versions of the agent on disk (ga/guestagent.py).
    - [AgentUpdate.v]: the update of the agent (ga/agent_update_handler.py,
      ga/ga_version_updater.py, ga/rsm_version_updater.py,
      ga/self_update_version_updater.py), which runs before the extensions of a goal state
      are processed and may end the process.
    - [Datetime.v]: timestamps (common/utils/timeutil.py) over a model of Python's datetime.
    - [Urls.v], [Http.v]: common/utils/restutil.py: URLs, proxies, and requests with their
      retries.
    - [ExtReport.v]: [ExtHandlersHandler.run] around the loop of [ExtGoalState.v], the
      clean-up of outdated handlers, and the status report (ga/exthandlers.py).
    - [MainLoop.v]: the loop of [UpdateHandler.run] (ga/update.py), which fetches goal
      states and calls [AgentUpdate.v] and [ExtReport.v].
    - [MemoryRestart.v]: the check of the agent's memory and the history of its restarts
      (ga/update.py, ga/agent_memory_restart_history.py).
    - [Process.v]: threads and their shutdown, the sentinel, process id files and orphans
      (ga/update.py).
    - [Daemon.v]: the daemon, which starts the newest version of the agent and watches it
      (ga/update.py, daemon/main.py).
    - [TextUtil.v]: texts and buffers, the options of sshd and the redaction of SAS tokens
      (common/utils/textutil.py); [Dhcp.v]: the discovery of the wire server
      (common/dhcp.py).
    - [Ticks.v], [VmSettings.v]: the goal state that the host plugin serves
      (common/protocol/extensions_goal_state.py,
      common/protocol/extensions_goal_state_from_vm_settings.py).
    - [HealthService.v], [HostPlugin.v]: the client of the host plugin, its state on disk and
      its health signals (common/protocol/healthservice.py, common/protocol/hostplugin.py).
    - [StatusBlob.v]: the document of the status and its upload, to the storage service or
      through the host plugin (common/protocol/wire.py, common/protocol/hostplugin.py).
    - [Xml.v]: the XML helpers (common/utils/textutil.py) and the smaller documents of the
      fabric; [ExtConfig.v]: the goal state that the wire server serves
      (common/protocol/extensions_goal_state_from_extensions_config.py).
    - [WireClient.v]: requests to the fabric and downloads through both channels
      (common/protocol/wire.py); [Certificates.v]: the certificates of the machine
      (common/protocol/goal_state.py, common/utils/cryptutil.py).
    - [History.v]: the goal states that are kept on disk (common/utils/archive.py).
    - [GoalState.v]: [GoalState.update] (common/protocol/goal_state.py), which fetches all of
      these and chooses between the two sources of extensions.
    - [Telemetry.v]: telemetry events and the batches in which they are sent
      (common/telemetryevent.py, common/protocol/wire.py); [EventLog.v]: the events that are
      saved to disk (common/event.py); [Collect.v]: the threads that collect the events of the
      agent and of extensions and send them (ga/collect_telemetry_events.py,
      ga/send_telemetry_events.py).
    - [Shell.v]: commands and quoting (common/utils/shellutil.py); [Firewall.v]: the managers
      of firewall rules (ga/firewall_manager.py); [EnableFirewall.v]: the monitor that keeps
      the rules in place (ga/env.py) and the set-up at start and at boot (ga/update.py,
      agent.py); [PersistFirewall.v]: rules that survive a reboot
      (ga/persist_firewall_rules.py).
    - [Conf.v]: the configuration (common/conf.py); [Machine.v]: the state of code that
      writes files and runs commands; [Users.v]: accounts of the machine
      (common/osutil/default.py); [RemoteAccess.v]: the accounts of the goal state
      (ga/remoteaccess.py).
    - [ExtProcess.v]: the wait for the process of an extension and its output
      (ga/extensionprocessutil.py); [Systemd.v], [CgroupApi.v]: units and control groups
      (common/osutil/systemd.py, ga/cgroupapi.py, ga/cgroupcontroller.py,
      ga/cpucontroller.py, ga/memorycontroller.py); [Cgroups.v]: their configuration
      (ga/cgroupconfigurator.py, ga/cgroupstelemetry.py), with the check of processes in
      [CgroupProcs.v] and the invariants in [CgroupInv.v]; [ExtRun.v]: how the process of an
      extension is started, in a control group or without.
    - [Imds.v]: the client of the metadata service and the security type of the machine
      (common/protocol/imds.py, ga/confidential_vm_info.py); [ImageOrigin.v]: its table of
      endorsed images.

    ** How the code is modelled

    A method is a function in the monad [M S exn]: it maps a state to a result or an
    exception and to the state reached, which is kept when an exception is raised, as in
    Python.  For the methods of an instance the state is [ist], the attributes of the
    instance and the machine; for an update it holds the two instances; for the goal state
    loop, the handlers, which are shared objects, the policy engine and the machine.  What
    the agent does to the machine (commands started, packages validated and extracted) is
    appended to a trace, so that safety is a statement about traces.

    Code outside src/ and effects of other processes are fields of the record [env]
    ([ExtInstance.v]), of [policy_env] ([Policy.v]) and of [update_env] ([AgentUpdate.v]):
    what a command of an extension does to the file system and how it ends, which writes
    the disk refuses, the transfer of a URI, unzipping, the openssl call, what happens
    during a sleep, the published versions of the agent, random numbers.  The theorems hold
    for all of them unless they say otherwise.

    ** What the theorems show

    - Policy: the parser accepts exactly the documents of its schema, the engine answers
      what the document says, and a broken file neither disables enforcement nor loses the
      last policy ([Policy.v]); an extension that is not allowed never runs, and a
      required signature is validated before a package is extracted, through every retry
      and error path ([Download.v], [ExtHandlers.v]); nothing runs while extensions are
      disabled or the policy to enforce is invalid ([ExtGoalState.v]).
    - Ordering: extensions run in dependency order and only after the extensions they
      depend on succeeded; the commands of an update run in the documented order.
    - Versions: comparison is a total order, printing and parsing are inverse, the version
      chosen is the highest match and the installed version is the latest on disk.
    - State and status: what [enable] and the error paths leave in the state and status
      files, and the validity and size of the status that is collected.
    - Timers: error windows and periodic operations.
    - Agent update: the process exits for an update only to a version that the request of
      the update manager or the published packages permit, whatever fails on the way; the
      attempts and failures of a version and the update mode survive a restart, purging
      keeps the versions in use, and self-updates keep to their schedule ([GuestAgent.v],
      [AgentUpdate.v]).
    - Daemon and process: versions that crash are blacklisted until one works or the
      installed one is left ([Daemon.v]); threads are stopped in the order their data flows
      and the next process knows how this one ended ([Process.v]); exits for memory are
      limited across restarts and their events are throttled ([MemoryRestart.v]).
    - Main loop and report: each goal state is processed when it is new and only then, and
      a status is sent in every iteration ([MainLoop.v]); the outcome of a goal state and
      the statuses of its handlers are what is reported, and the clean-up touches nothing
      the goal state names ([ExtReport.v]); the document that is uploaded is what the storage
      service then holds ([StatusBlob.v]).
    - Network: the attempts, pauses and result of a request, the address it is sent to and
      the addresses that bypass the proxy ([Urls.v], [Http.v]); timestamps ([Datetime.v]).
    - Goal state of the host: what the host writes is what is parsed, what is accepted is
      consistent, and the text that is kept has no secrets ([VmSettings.v]); the outcomes of
      a request for it, and what survives a restart ([HostPlugin.v]).
    - Discovery: which responses of DHCP are accepted, what is read from them, and that the
      machine is left as it was ([Dhcp.v]).
    - Texts: no SAS token is left in a redacted text, and an option of sshd has its value for
      every connection ([TextUtil.v]).
    - Goal state: an update uses the most recent of what is in use, the vmSettings and the
      ExtensionsConfig, and leaves everything after an error ([GoalState.v]); the
      ExtensionsConfig that the fabric writes is what is parsed ([ExtConfig.v]); the
      certificates of the summary are on disk ([Certificates.v]); the history keeps the
      fifty newest items ([History.v]).
    - Telemetry: every event that fits is sent once, in order and in batches below the limit
      ([Telemetry.v]); the directory of saved events is bounded ([EventLog.v]); extensions are
      held to the contract of their events, and no event that was accepted is lost between the
      threads ([Collect.v]).
    - Firewall: the monitor restores the rules from any state and never claims that they are
      in place when they are not; under the rules it leaves, the wire server is reached by DNS
      and by the agent only; its reports are limited ([EnableFirewall.v]); the service at boot
      is written once and recognised afterwards ([PersistFirewall.v]); quoted words are read
      back by a shell ([Shell.v]).
    - Configuration: what is written is what is read, and the configuration that is shown is
      the one that is used, but for the options that are listed ([Conf.v]).
    - Remote access: the accounts for remote access are those of the goal state that have not
      expired, and accounts that are neither are left alone, whatever fails
      ([RemoteAccess.v]).
    - Control groups and processes of extensions: control groups are enabled only on machines
      that support them and when the configuration says so, and every failure turns them off
      ([CgroupInv.v]); a process that does not belong to the agent is reported
      ([CgroupProcs.v]); a command of an extension runs, once without systemd-run when
      systemd-run fails ([ExtRun.v]); the output that is kept has the ends of both streams and
      keeps to its limits ([ExtProcess.v]).
    - Metadata service: the service is called unhealthy only after an error of its own, as
      far as the text of the error tells ([Imds.v]); an image is endorsed exactly when the
      table says so ([ImageOrigin.v]).

    ** Bounds

    Loops over lists are structural.  The regular expression matcher is bounded by the
    length of its text, [isinstance] by the depth of the class hierarchy, and the wait for
    a dependency by the polls that fit before its deadline, which
    [wait_for_dependency_terminates] shows to be enough.  The polls of the daemon and the
    attempts of a request are bounded by their limits ([poll_fuel], [http_fuel]): the loop
    tests the same limit before the fuel ends.  The wait for an orphan has one step of fuel
    per poll of its interval.  The loops over the options and routes of a DHCP response have
    one step per byte, and every turn takes two bytes at least.  The wait for a process of an
    extension has one step per poll, one each second of its timeout.  The search for an
    ancestor of a process has one step per entry of the table of processes: a longer chain
    repeats an entry, and the code then does not return ([search_loops]).  Integers are
    Python's; times are in microseconds.

    ** What is not modelled

    Log output is left out, and so are the calls that report an event from the other
    components: the events themselves are in [Telemetry.v], [EventLog.v] and [Collect.v].
    Provisioning, the log collector, the usage of the CPU (floats) and most of the distribution
    support (the network, disks and services, and the classes of the distributions) are
    operating-system code; the modelled parts take their results, and those of the XML and JSON
    parsers, as parameters.  Signals that interrupt the daemon, and the start-up sequence of the
    main loop, are left out.
    Texts are ASCII; a file is read and written whole; [rmtree] removes all or nothing.

    ** Coverage

    Modelled: the policy, the life cycle of an extension, the goal state loop, the update of the
    agent, the daemon, the main loop and its process, the status report, HTTP requests, the goal
    state of the host and of the wire server, discovery by DHCP, the upload of the status,
    telemetry, the firewall, the configuration, remote access, control groups and the metadata
    service.  Left: the openssl call of ga/signature_validation_util.py, which is the parameter
    [validate_signature], the rest of the environment monitor (ga/env.py) and of ga/monitor.py,
    and the choice of the protocol (common/protocol/util.py). *)
From stdpp Require Export base list gmap strings pretty sorting.
From Stdlib Require Export ZArith Lia.
From Stdlib Require Import Ascii.
#[global] Open Scope Z_scope.

(** ** Results and the state-and-exception monad

    A Python statement that may raise is a value of [res]; a statement that also
    mutates state is a function of type [M S E A].  The state reached when an
    exception is raised is kept, as it is in Python. *)
Inductive res (E A : Type) : Type :=
| Ok (a : A)
| Err (e : E).
Arguments Ok {_ _} _.
Arguments Err {_ _} _.

Definition is_ok {E A} (r : res E A) : bool := match r with Ok _ => true | Err _ => false end.

#[export] Instance res_ret E : MRet (res E) := λ _ a, Ok a.
#[export] Instance res_fmap E : FMap (res E) := λ _ _ f r,
  match r with Ok a => Ok (f a) | Err e => Err e end.
#[export] Instance res_bind E : MBind (res E) := λ _ _ k r,
  match r with Ok a => k a | Err e => Err e end.

Definition M (S E A : Type) : Type := S → res E A * S.

#[export] Instance M_ret S E : MRet (M S E) := λ _ a s, (Ok a, s).
#[export] Instance M_bind S E : MBind (M S E) := λ _ _ k m s,
  match m s with
  | (Ok a, s') => k a s'
  | (Err e, s') => (Err e, s')
  end.

Section monad_ops.
Context {S E : Type}.

Definition raise {A} (e : E) : M S E A := λ s, (Err e, s).
Definition get_state : M S E S := λ s, (Ok s, s).
Definition gets {A} (f : S → A) : M S E A := λ s, (Ok (f s), s).
Definition modify (f : S → S) : M S E unit := λ s, (Ok tt, f s).
Definition lift {A} (r : res E A) : M S E A := λ s, (r, s).

(** [try: m  except: h] with the handler choosing whether to re-raise. *)
Definition catch {A} (m : M S E A) (h : E → M S E A) : M S E A := λ s,
  match m s with
  | (Ok a, s') => (Ok a, s')
  | (Err e, s') => h e s'
  end.

(** [try: m  finally: f]; an exception of [f] replaces the outcome of [m]. *)
Definition finally {A} (m : M S E A) (f : M S E unit) : M S E A := λ s,
  match m s with
  | (r, s') => match f s' with
               | (Ok _, s'') => (r, s'')
               | (Err e, s'') => (Err e, s'')
               end
  end.

Definition when (b : bool) (m : M S E unit) : M S E unit := if b then m else mret tt.

(** A Python [for] loop over a list, with no [break]. *)
Fixpoint for_each {A} (l : list A) (body : A → M S E unit) : M S E unit :=
  match l with
  | [] => mret tt
  | x :: l' => body x ;; for_each l' body
  end.
End monad_ops.

(** Running a computation on a part of a larger state. *)
Definition zoom {S T E A} (g : S → T) (u : T → S → S) (m : M T E A) : M S E A := λ s,
  match m (g s) with (r, t) => (r, u t s) end.

(** ** Weakest preconditions

    [wp m Q R s]: from [s], [m] returns with [Q] or raises with [R].  Both outcomes
    are covered, so a triple is a total-correctness statement. *)
Definition wp {S E A} (m : M S E A) (Q : A → S → Prop) (R : E → S → Prop) (s : S) : Prop :=
  match m s with
  | (Ok a, s') => Q a s'
  | (Err e, s') => R e s'
  end.

Section wp_rules.
Context {S E : Type}.
Implicit Types (s : S).

Lemma wp_mono {A} (m : M S E A) (Q Q' : A → S → Prop) (R R' : E → S → Prop) s :
  wp m Q R s → (∀ a s', Q a s' → Q' a s') → (∀ e s', R e s' → R' e s') → wp m Q' R' s.
Proof. unfold wp. destruct (m s) as [[a|e] s']; eauto. Qed.

Lemma wp_ret {A} (a : A) (Q : A → S → Prop) (R : E → S → Prop) s :
  Q a s → wp (mret a) Q R s.
Proof. done. Qed.

Lemma wp_bind {A B} (m : M S E A) (k : A → M S E B) Q R s :
  wp m (λ a s', wp (k a) Q R s') R s → wp (m ≫= k) Q R s.
Proof. unfold wp, mbind, M_bind. destruct (m s) as [[a|e] s']; done. Qed.

Lemma wp_raise {A} (e : E) (Q : A → S → Prop) (R : E → S → Prop) s :
  R e s → wp (raise e) Q R s.
Proof. done. Qed.

Lemma wp_gets {A} (f : S → A) (Q : A → S → Prop) (R : E → S → Prop) s :
  Q (f s) s → wp (gets f) Q R s.
Proof. done. Qed.

Lemma wp_modify (f : S → S) (Q : unit → S → Prop) (R : E → S → Prop) s :
  Q tt (f s) → wp (modify f) Q R s.
Proof. done. Qed.

Lemma wp_lift {A} (r : res E A) (Q : A → S → Prop) (R : E → S → Prop) s :
  (∀ a, r = Ok a → Q a s) → (∀ e, r = Err e → R e s) → wp (lift r) Q R s.
Proof. unfold wp, lift. destruct r; eauto. Qed.

Lemma wp_catch {A} (m : M S E A) h Q R s :
  wp m Q (λ e s', wp (h e) Q R s') s → wp (catch m h) Q R s.
Proof. unfold wp, catch. destruct (m s) as [[a|e] s']; done. Qed.

Lemma wp_finally {A} (m : M S E A) f Q R s :
  wp m (λ a s', wp f (λ _ s'', Q a s'') R s') (λ e s', wp f (λ _ s'', R e s'') R s') s →
  wp (finally m f) Q R s.
Proof.
  unfold wp, finally. destruct (m s) as [[a|e] s']; destruct (f s') as [[[]|e'] s'']; done.
Qed.

Lemma wp_when b (m : M S E unit) Q R s :
  (b = true → wp m Q R s) → (b = false → Q tt s) → wp (when b m) Q R s.
Proof. destruct b; simpl; [auto|]. intros _ H. by apply wp_ret, H. Qed.

(** The loop rule: [I done s] after the elements [done] were processed. *)
Lemma wp_for_each {A} (l : list A) (body : A → M S E unit) (I : list A → S → Prop)
    (R : E → S → Prop) (Q : unit → S → Prop) s :
  I [] s →
  (∀ done x rest s', l = done ++ x :: rest → I done s' →
     wp (body x) (λ _ s'', I (done ++ [x]) s'') R s') →
  (∀ s', I l s' → Q tt s') →
  wp (for_each l body) Q R s.
Proof.
  intros H0 Hstep Hend.
  assert (∀ rest done s', l = done ++ rest → I done s' → wp (for_each rest body) Q R s') as Hgo.
  { induction rest as [|x rest IH]; intros dn s' Hl HI; simpl.
    - apply wp_ret, Hend. by rewrite Hl, app_nil_r.
    - apply wp_bind. eapply wp_mono; [by eapply Hstep| |done].
      intros [] s'' HI'. apply (IH (dn ++ [x])); [|done].
      by rewrite <-app_assoc. }
  by apply (Hgo l []).
Qed.

Lemma wp_any {A} (m : M S E A) s : wp m (λ _ _, True) (λ _ _, True) s.
Proof. unfold wp. by destruct (m s) as [[a|e] s']. Qed.

Lemma wp_run {A} (m : M S E A) Q R s r s' :
  wp m Q R s → m s = (r, s') → match r with Ok a => Q a s' | Err e => R e s' end.
Proof. unfold wp. intros H Hm. by rewrite Hm in H. Qed.
End wp_rules.

Lemma wp_zoom {S T E A} (g : S → T) (u : T → S → S) (m : M T E A) Q R s :
  wp m (λ a t, Q a (u t s)) (λ e t, R e (u t s)) (g s) → wp (zoom g u m) Q R s.
Proof. unfold wp, zoom. destruct (m (g s)) as [[a|e] t]; done. Qed.

(** One step of symbolic execution of a monadic program. *)
Ltac wp_step :=
  lazymatch goal with
  | |- wp (mbind _ _) _ _ _ => apply wp_bind
  | |- wp (mret _) _ _ _ => apply wp_ret
  | |- wp (raise _) _ _ _ => apply wp_raise
  | |- wp (gets _) _ _ _ => apply wp_gets
  | |- wp get_state _ _ _ => apply (wp_gets id)
  | |- wp (modify _) _ _ _ => apply wp_modify
  | |- wp (catch _ _) _ _ _ => apply wp_catch
  | |- wp (finally _ _) _ _ _ => apply wp_finally
  | |- wp (zoom _ _ _) _ _ _ => apply wp_zoom
  | |- wp (if ?b then _ else _) _ _ _ => destruct b eqn:?
  | |- wp (match ?x with _ => _ end) _ _ _ => destruct x eqn:?
  | |- wp (when _ _) _ _ _ => apply wp_when; intros ?
  | |- wp (lift _) _ _ _ => apply wp_lift; intros ? ?
  end; cbv beta.
Ltac wp_steps := repeat wp_step.

(** ** Relations every computation preserves

    [pres R m]: from any state [m] ends, with a result or an exception, in a state
    related to the first by [R].  With a preorder [R] the property composes along the
    program, so that a fact such as "this code starts no command" is proved by walking
    over its syntax ([pres_auto]). *)
Definition pres {S E A} (R : relation S) (m : M S E A) : Prop := ∀ s, R s (m s).2.

Section pres_rules.
Context {S E : Type} (R : relation S) `{!PreOrder R}.

Lemma pres_ret {A} (a : A) : pres R (mret a : M S E A).
Proof. by intros s. Qed.

Lemma pres_raise {A} (e : E) : pres R (raise e : M S E A).
Proof. by intros s. Qed.

Lemma pres_gets {A} (f : S → A) : pres R (gets f : M S E A).
Proof. by intros s. Qed.

Lemma pres_lift {A} (r : res E A) : pres R (lift r : M S E A).
Proof. by intros s. Qed.

Lemma pres_modify (f : S → S) : (∀ s, R s (f s)) → pres R (modify f : M S E unit).
Proof. by intros H s. Qed.

Lemma pres_bind {A B} (m : M S E A) (k : A → M S E B) :
  pres R m → (∀ a, pres R (k a)) → pres R (m ≫= k).
Proof.
  intros Hm Hk s. specialize (Hm s). unfold mbind, M_bind.
  destruct (m s) as [[a|e] s'] eqn:Eq; simpl in *; [|done]. etrans; [exact Hm|]. apply Hk.
Qed.

Lemma pres_catch {A} (m : M S E A) h : pres R m → (∀ e, pres R (h e)) → pres R (catch m h).
Proof.
  intros Hm Hh s. specialize (Hm s). unfold catch.
  destruct (m s) as [[a|e] s'] eqn:Eq; simpl in *; [done|]. etrans; [exact Hm|]. apply Hh.
Qed.

Lemma pres_finally {A} (m : M S E A) f : pres R m → pres R f → pres R (finally m f).
Proof.
  intros Hm Hf s. specialize (Hm s). unfold finally. destruct (m s) as [r s']. simpl in Hm.
  specialize (Hf s'). destruct (f s') as [[[]|e] s'']; simpl in *; by etrans.
Qed.

Lemma pres_when b (m : M S E unit) : pres R m → pres R (when b m).
Proof. intros Hm. destruct b; [done|]. apply pres_ret. Qed.

Lemma pres_for_each {A} (l : list A) (body : A → M S E unit) :
  (∀ x, pres R (body x)) → pres R (for_each l body).
Proof.
  intros Hb. induction l as [|x l IH]; [apply pres_ret|]. apply pres_bind; [apply Hb|done].
Qed.

Lemma pres_for_each_in {A} (l : list A) (body : A → M S E unit) :
  (∀ x, x ∈ l → pres R (body x)) → pres R (for_each l body).
Proof.
  intros Hb. induction l as [|x l IH]; [apply pres_ret|].
  apply pres_bind; [apply Hb; by left|]. intros _. apply IH. intros y Hy. apply Hb. by right.
Qed.
End pres_rules.

Lemma pres_zoom {S T E A} (R : relation S) (RT : relation T) (g : S → T) (u : T → S → S) (m : M T E A) :
  pres RT m → (∀ s t, RT (g s) t → R s (u t s)) → pres R (zoom g u m).
Proof.
  intros Hm H s. specialize (Hm (g s)). unfold zoom. destruct (m (g s)) as [r t]. by apply H.
Qed.

(** A property of the final state, whatever the outcome. *)
Lemma wp_end {S E A} (P : S → Prop) (m : M S E A) s :
  wp m (λ _ s', P s') (λ _ s', P s') s ↔ P (m s).2.
Proof. unfold wp. by destruct (m s) as [[a|e] s']. Qed.

(** The outcome of a computation that preserves [R]. *)
Lemma pres_wp {S E A} (R : relation S) (m : M S E A) s :
  pres R m → wp m (λ _ s', R s s') (λ _ s', R s s') s.
Proof. intros H. specialize (H s). unfold wp. by destruct (m s) as [[a|e] s']. Qed.

Lemma pres_wp_from {S E A} (R : relation S) `{!PreOrder R} (m : M S E A) s0 s :
  pres R m → R s0 s → wp m (λ _ s', R s0 s') (λ _ s', R s0 s') s.
Proof.
  intros H H0. eapply wp_mono; [by apply (pres_wp R)|..]; intros ? s'; intros; by etrans.
Qed.

(** The converse: a triple over the initial state gives preservation. *)
Lemma wp_pres {S E A} (R : relation S) (m : M S E A) :
  (∀ s, wp m (λ _ s', R s s') (λ _ s', R s s') s) → pres R m.
Proof. intros H s. specialize (H s). unfold wp in H. by destruct (m s) as [[a|e] s']. Qed.

Create HintDb pres discriminated.
#[export] Hint Resolve pres_ret pres_raise pres_gets pres_lift : pres.

Ltac pres_step :=
  lazymatch goal with
  | |- pres _ (mbind _ _) => apply pres_bind; [apply _| |intros ?]
  | |- pres _ (catch _ _) => apply pres_catch; [apply _| |intros ?]
  | |- pres _ (finally _ _) => apply pres_finally; [apply _| |]
  | |- pres _ (when _ _) => apply pres_when; [apply _|]
  | |- pres _ (for_each _ _) => apply pres_for_each; [apply _|intros ?]
  | |- pres _ (if ?b then _ else _) => destruct b
  | |- pres _ (match ?x with _ => _ end) => destruct x
  | |- pres _ (let '(_, _) := ?x in _) => destruct x
  | |- pres _ _ => solve [eauto with pres typeclass_instances]
  end; cbv beta.
Ltac pres_auto := intros; repeat pres_step.

(** ** Python strings *)

Definition is_digit (c : ascii) : bool := bool_decide (48 ≤ nat_of_ascii c ≤ 57)%nat.

Definition digit_value (c : ascii) : Z := Z.of_nat (nat_of_ascii c) - 48.

Fixpoint str_forallb (p : ascii → bool) (s : string) : bool :=
  match s with
  | EmptyString => true
  | String c s' => p c && str_forallb p s'
  end.

Definition is_digits (s : string) : bool := negb (String.eqb s "") && str_forallb is_digit s.

Fixpoint int_go (acc : Z) (s : string) : Z :=
  match s with
  | EmptyString => acc
  | String c s' => int_go (acc * 10 + digit_value c) s'
  end.

(** [int(s)] on a string of decimal digits. *)
Definition int_of_digits (s : string) : Z := int_go 0 s.

(** [sep.join(l)] *)
Fixpoint str_join (sep : string) (l : list string) : string :=
  match l with
  | [] => ""
  | [x] => x
  | x :: l' => x +:+ sep +:+ str_join sep l'
  end.

(** [p.startswith] as the remainder after the prefix. *)
Fixpoint strip_prefix (p s : string) : option string :=
  match p, s with
  | EmptyString, _ => Some s
  | String a p', String b s' => if Ascii.eqb a b then strip_prefix p' s' else None
  | String _ _, EmptyString => None
  end.

Definition starts_with (p s : string) : bool := bool_decide (is_Some (strip_prefix p s)).

Definition ascii_lower (c : ascii) : ascii :=
  let n := nat_of_ascii c in
  if bool_decide (65 ≤ n ≤ 90)%nat then ascii_of_nat (n + 32) else c.

Fixpoint str_map (f : ascii → ascii) (s : string) : string :=
  match s with
  | EmptyString => ""
  | String c s' => String (f c) (str_map f s')
  end.

(** [s.lower()] and, on ASCII, [s.casefold()]. *)
Definition str_lower (s : string) : string := str_map ascii_lower s.

(** [s[:n]] for a non-negative [n]. *)
Fixpoint str_take (n : nat) (s : string) : string :=
  match n, s with
  | S n', String c s' => String c (str_take n' s')
  | _, _ => ""
  end.
Lemma str_take_length n s : (String.length (str_take n s) ≤ n)%nat.
Proof. revert s. induction n as [|n IH]; intros [|c s]; simpl; try lia. specialize (IH s). lia. Qed.

Definition str_len (s : string) : Z := Z.of_nat (String.length s).

(** The longest prefix of characters satisfying [p], and the rest *)
Fixpoint span (p : ascii → bool) (s : string) : string * string :=
  match s with
  | EmptyString => ("", "")
  | String c s' => if p c then let '(a, b) := span p s' in (String c a, b) else ("", s)
  end.

(** [s.endswith(p)] *)
Definition ends_with (p s : string) : bool :=
  bool_decide (String.length p ≤ String.length s)%nat &&
  String.eqb (String.substring (String.length s - String.length p) (String.length p) s) p.

(** [key in s] *)
Fixpoint str_contains (key s : string) : bool :=
  starts_with key s || match s with EmptyString => false | String _ s' => str_contains key s' end.

(** ** Lemmas on strings *)

Lemma string_app_cons (c : ascii) (s1 s2 : string) : String c s1 +:+ s2 = String c (s1 +:+ s2).
Proof. done. Qed.

Lemma string_app_nil_r (s : string) : s +:+ "" = s.
Proof. induction s as [|c s IH]; [done|]. by rewrite string_app_cons, IH. Qed.

Lemma string_app_assoc (s1 s2 s3 : string) : (s1 +:+ s2) +:+ s3 = s1 +:+ s2 +:+ s3.
Proof. induction s1 as [|c s1 IH]; [done|]. by rewrite !string_app_cons, IH. Qed.

Lemma str_forallb_app p (s1 s2 : string) :
  str_forallb p (s1 +:+ s2) = str_forallb p s1 && str_forallb p s2.
Proof.
  induction s1 as [|c s1 IH]; [done|]. rewrite string_app_cons. simpl. rewrite IH. by destruct (p c).
Qed.

Lemma strip_prefix_app (p s : string) : strip_prefix p (p +:+ s) = Some s.
Proof. induction p as [|c p IH]; [by destruct s|]. rewrite string_app_cons. simpl. by rewrite Ascii.eqb_refl. Qed.

Lemma strip_prefix_Some (p s r : string) : strip_prefix p s = Some r → s = p +:+ r.
Proof.
  revert s. induction p as [|c p IH]; intros [|d s] H; simpl in *; simplify_eq; try done.
  destruct (Ascii.eqb c d) eqn:E; [|done]. apply Ascii.eqb_eq in E as ->.
  by rewrite string_app_cons, (IH s).
Qed.

Lemma string_length_app (s1 s2 : string) :
  String.length (s1 +:+ s2) = (String.length s1 + String.length s2)%nat.
Proof. induction s1 as [|c s1 IH]; [done|]. rewrite string_app_cons. simpl. by rewrite IH. Qed.

Lemma int_go_acc (acc : Z) (s : string) :
  int_go acc s = acc * 10 ^ Z.of_nat (String.length s) + int_go 0 s.
Proof.
  revert acc. induction s as [|c s IH]; intros acc; simpl; [lia|].
  rewrite IH, (IH (0 * 10 + digit_value c)).
  rewrite Nat2Z.inj_succ, Z.pow_succ_r by lia. lia.
Qed.

Lemma int_of_digits_cons (c : ascii) (s : string) :
  int_of_digits (String c s) = digit_value c * 10 ^ Z.of_nat (String.length s) + int_of_digits s.
Proof. unfold int_of_digits. simpl. by rewrite int_go_acc. Qed.

Lemma pretty_N_char_digit (x : N) :
  (x < 10)%N → is_digit (pretty_N_char x) = true ∧ digit_value (pretty_N_char x) = Z.of_N x.
Proof.
  intros Hx.
  assert (x = 0 ∨ x = 1 ∨ x = 2 ∨ x = 3 ∨ x = 4 ∨ x = 5 ∨ x = 6 ∨ x = 7 ∨ x = 8 ∨ x = 9)%N
    as Hcases by lia.
  by repeat destruct Hcases as [->|Hcases]; [..|subst x]; vm_compute.
Qed.

Lemma pretty_N_go_spec (x : N) (s : string) :
  str_forallb is_digit s = true →
  str_forallb is_digit (pretty_N_go x s) = true ∧
  int_of_digits (pretty_N_go x s) = Z.of_N x * 10 ^ Z.of_nat (String.length s) + int_of_digits s.
Proof.
  revert s. induction (N.lt_wf_0 x) as [x _ IH]; intros s Hs.
  assert (x = 0 ∨ 0 < x)%N as [->|Hpos] by lia; [by rewrite pretty_N_go_0|].
  rewrite pretty_N_go_step by done.
  destruct (pretty_N_char_digit (x `mod` 10)) as [Hd Hv]; [by apply N.mod_lt|].
  destruct (IH (x `div` 10)%N) with (s := String (pretty_N_char (x `mod` 10)) s) as [H1 H2];
    [by apply N.div_lt|simpl; by rewrite Hd|].
  split; [done|]. rewrite H2, int_of_digits_cons, Hv. simpl.
  rewrite Nat2Z.inj_succ, Z.pow_succ_r by lia.
  rewrite (N.div_mod x 10) at 3 by done. rewrite N2Z.inj_add, N2Z.inj_mul. lia.
Qed.

Lemma pretty_N_go_ne_nil (x : N) (s : string) : s ≠ "" → pretty_N_go x s ≠ "".
Proof.
  revert s. induction (N.lt_wf_0 x) as [x _ IH]; intros s Hs.
  assert (x = 0 ∨ 0 < x)%N as [->|Hpos] by lia; [by rewrite pretty_N_go_0|].
  rewrite pretty_N_go_step by done. apply IH; [by apply N.div_lt|done].
Qed.

(** Printing a natural number gives its digits, and reading them gives it back. *)
Lemma pretty_Z_digits (z : Z) : 0 ≤ z → is_digits (pretty z) = true.
Proof.
  intros Hz. destruct z as [|p|p]; [done| |lia].
  unfold is_digits. change (pretty (Z.pos p)) with (pretty_N_go (N.pos p) "").
  rewrite (proj1 (pretty_N_go_spec (N.pos p) "" eq_refl)), andb_true_r.
  apply negb_true_iff, String.eqb_neq.
  rewrite pretty_N_go_step by lia. by apply pretty_N_go_ne_nil.
Qed.

Lemma int_of_pretty_Z (z : Z) : 0 ≤ z → int_of_digits (pretty z) = z.
Proof.
  intros Hz. destruct z as [|p|p]; [done| |lia].
  change (pretty (Z.pos p)) with (pretty_N_go (N.pos p) "").
  rewrite (proj2 (pretty_N_go_spec (N.pos p) "" eq_refl)).
  change (int_of_digits "") with 0. change (10 ^ Z.of_nat (String.length "")) with 1. lia.
Qed.

(** ** Lemmas on lists *)

Lemma Sorted_snoc_last {A} (R : relation A) (l : list A) (y : A) :
  Sorted R l → (∀ x, last l = Some x → R x y) → Sorted R (l ++ [y]).
Proof.
  induction 1 as [|x l Hs IH Hx]; intros Hl; simpl; [by repeat constructor|].
  constructor.
  - apply IH. intros z Hz. apply Hl. by rewrite last_cons, Hz.
  - destruct l as [|z l]; [by constructor; apply Hl|].
    inversion Hx; subst. by constructor.
Qed.

Lemma pres_and {S E A} (R1 R2 : relation S) (m : M S E A) :
  pres R1 m → pres R2 m → pres (λ s s', R1 s s' ∧ R2 s s') m.
Proof. intros H1 H2 s. split; [apply H1|apply H2]. Qed.

(** ** Sorting: [list.sort(key=...)] is stable. *)

(** A stable sort by key: [x] goes after the items of equal key *)
Fixpoint insert_by_key {A} (key : A → Z) (x : A) (l : list A) : list A :=
  match l with
  | [] => [x]
  | y :: l' => if key x <? key y then x :: y :: l' else y :: insert_by_key key x l'
  end.

Definition sort_by_key {A} (key : A → Z) (l : list A) : list A :=
  foldl (λ acc x, insert_by_key key x acc) [] l.

Section sort.
Context {A : Type} (key : A → Z).

Lemma insert_by_key_perm x l : insert_by_key key x l ≡ₚ x :: l.
Proof.
  induction l as [|y l IH]; simpl; [done|]. destruct (key x <? key y); [done|].
  rewrite IH. apply Permutation_swap.
Qed.

Notation sorted := (StronglySorted (λ a b, key a ≤ key b)).

Lemma insert_by_key_sorted x l : sorted l → sorted (insert_by_key key x l).
Proof.
  induction 1 as [|y l Hs IH Hy]; simpl; [repeat constructor|].
  destruct (Z.ltb_spec (key x) (key y)).
  - constructor; [by constructor|]. constructor; [lia|].
    eapply Forall_impl; [exact Hy|]. simpl. intros; lia.
  - constructor; [done|]. rewrite insert_by_key_perm. constructor; [lia|done].
Qed.

Lemma insert_by_key_stable k x l :
  sorted l →
  filter (λ t, key t = k) (insert_by_key key x l) = filter (λ t, key t = k) (l ++ [x]).
Proof.
  induction 1 as [|y l Hs IH Hy]; simpl; [done|].
  destruct (Z.ltb_spec (key x) (key y)); [|by rewrite !filter_cons, IH].
  change (y :: l ++ [x]) with ((y :: l) ++ [x]). rewrite filter_app, (filter_cons _ x), (filter_cons _ x []).
  case_decide as Hx; [|by rewrite filter_nil, app_nil_r].
  assert (filter (λ t, key t = k) (y :: l) = []) as Hnil; [|by rewrite Hnil].
  assert (Forall (λ t, key t ≠ k) (y :: l)) as Hall.
  { constructor; [lia|]. eapply Forall_impl; [exact Hy|]. simpl. intros; lia. }
  clear -Hall. induction Hall as [|z l' ?? IH]; [done|]. by rewrite filter_cons, decide_False.
Qed.

Lemma sort_by_key_spec l :
  sort_by_key key l ≡ₚ l ∧ sorted (sort_by_key key l) ∧
  ∀ k, filter (λ t, key t = k) (sort_by_key key l) = filter (λ t, key t = k) l.
Proof.
  unfold sort_by_key. induction l as [|x l (IH1 & IH2 & IH3)] using rev_ind; [by repeat constructor|].
  rewrite foldl_snoc. split_and!.
  - rewrite insert_by_key_perm, IH1. by rewrite Permutation_app_comm.
  - by apply insert_by_key_sorted.
  - intros k. rewrite insert_by_key_stable by done. by rewrite !filter_app, IH3.
Qed.
End sort.
