(* ===== verification/PyExn.v ===== *)
(** * The exceptions of the agent

    [exception.py] and the exception classes that [policy_engine.py],
    [signature_validation_util.py] and [exthandlers.py] derive from it, with the
    built-in exceptions the modelled code raises or catches.  An [except C] clause
    catches the instances of the subclasses of [C], so a class is an inductive
    value and [isinstance] walks its chain of parents. *)
From S2P Require Import Prelude.

Inductive exn_class : Set :=
(* built-in *)
| BaseException | Exception_ | ValueError | TypeError | KeyError | IndexError
| ArithmeticError | AttributeError | StopIteration | NotImplementedError | OSError
(* exception.py *)
| ExitException | AgentUpgradeExitException
| AgentError | AgentUpdateError | AgentFamilyMissingError | UpdateError
| ExtensionError | ExtensionOperationError | ExtensionUpdateError | ExtensionDownloadError
| ExtensionsGoalStateError | ExtensionsConfigError | MultiConfigExtensionEnableError
| ProtocolError | ProtocolNotFoundError | HttpError | ResourceGoneError
| InvalidContainerError
| AgentConfigError | AgentMemoryExceededException | AgentNetworkError | CGroupsException | ProvisionError
| ResourceDiskError | DhcpError | OSUtilError | EventError | CryptError
| InvalidExtensionEventError | ServiceStoppedError
(* exthandlers.py *)
| ExtensionStatusError
(* policy_engine.py *)
| PolicyError | InvalidPolicyError | ExtensionSignaturePolicyError | ExtensionUnsignedError
| ExtensionSignatureNotValidatedError | ExtensionDisallowedError | ExtensionRuntimePolicyError
(* signature_validation_util.py *)
| PackageValidationError | SignatureValidationError | ManifestValidationError
| SignatureValidationTimeoutError
(* http.client; [RemoteDisconnected] counts as [BadStatusLine] *)
| HTTPException | NotConnected | IncompleteRead | ImproperConnectionState | BadStatusLine
(* extensions_goal_state.py, hostplugin.py, shellutil.py *)
| VmSettingsParseError | VmSettingsNotSupported | VmSettingsSupportStopped | CommandError
(* built-in, struct, wire.py *)
| NameError | StructError | UnicodeError | UploadError | RuntimeError
(* subprocess, firewall_manager.py, cgroupapi.py, cgroupcontroller.py *)
| TimeoutExpired | FirewallManagerNotAvailableError | FirewallStateError | FirewallRulesMissingError | IptablesInconsistencyError
| SystemdRunError | InvalidCgroupMountpointException | CounterNotFound.

#[export] Instance exn_class_eq_dec : EqDecision exn_class.
Proof. unfold EqDecision, Decision. decide equality. Defined.

(** The base class of each class ([IOError] is [OSError] in Python 3). *)
Definition parent (c : exn_class) : option exn_class :=
  match c with
  | BaseException => None
  | Exception_ => Some BaseException
  | ValueError | TypeError | ArithmeticError | AttributeError
  | StopIteration | OSError => Some Exception_
  | KeyError | IndexError => Some Exception_
  | RuntimeError => Some Exception_
  | NotImplementedError => Some RuntimeError
  | ExitException => Some BaseException
  | AgentUpgradeExitException => Some ExitException
  | AgentError => Some Exception_
  | AgentUpdateError | AgentFamilyMissingError | UpdateError => Some AgentError
  | AgentConfigError | AgentMemoryExceededException | AgentNetworkError | CGroupsException | ProvisionError
  | ResourceDiskError | DhcpError | OSUtilError | EventError | CryptError
  | InvalidExtensionEventError | ServiceStoppedError => Some AgentError
  | ExtensionError => Some AgentError
  | ExtensionOperationError | ExtensionUpdateError | ExtensionDownloadError
  | ExtensionsGoalStateError | MultiConfigExtensionEnableError => Some ExtensionError
  | ExtensionsConfigError => Some ExtensionsGoalStateError
  | ProtocolError => Some AgentError
  | ProtocolNotFoundError => Some ProtocolError
  | HttpError => Some AgentError
  | ResourceGoneError | InvalidContainerError => Some HttpError
  | ExtensionStatusError => Some ExtensionError
  | PolicyError => Some AgentError
  | InvalidPolicyError | ExtensionSignaturePolicyError | ExtensionDisallowedError
  | ExtensionRuntimePolicyError => Some PolicyError
  | ExtensionUnsignedError | ExtensionSignatureNotValidatedError => Some ExtensionSignaturePolicyError
  | PackageValidationError => Some AgentError
  | SignatureValidationError | ManifestValidationError => Some PackageValidationError
  | SignatureValidationTimeoutError => Some SignatureValidationError
  | HTTPException => Some Exception_
  | NotConnected | IncompleteRead | ImproperConnectionState | BadStatusLine => Some HTTPException
  | VmSettingsParseError => Some AgentError
  | VmSettingsNotSupported => Some TypeError
  | VmSettingsSupportStopped => Some VmSettingsNotSupported
  | CommandError => Some Exception_
  | NameError | StructError => Some Exception_
  | UnicodeError => Some ValueError
  | UploadError => Some HttpError
  | TimeoutExpired | FirewallManagerNotAvailableError | FirewallStateError | CounterNotFound => Some Exception_
  | FirewallRulesMissingError | IptablesInconsistencyError => Some FirewallStateError
  | SystemdRunError | InvalidCgroupMountpointException => Some CGroupsException
  end.

(** Number of proper ancestors; the chains of [parent] are at most this long. *)
Fixpoint subclass_fuel (n : nat) (c d : exn_class) : bool :=
  bool_decide (c = d) ||
  match n with
  | O => false
  | S n' => match parent c with Some p => subclass_fuel n' p d | None => false end
  end.

(** [issubclass(c, d)].  Six parent links suffice: the longest chain is
    [SignatureValidationTimeoutError] up to [BaseException]. *)
Definition subclass (c d : exn_class) : bool := subclass_fuel 6 c d.

(** An exception object: its class, [str(e)], and the attributes some classes carry
    ([code] of [ExtensionError] and [PackageValidationError], [exit_code] of
    [ExtensionOperationError], [etag] and [vm_settings_text] of [VmSettingsParseError] and
    [timestamp] of [VmSettingsSupportStopped] in [e_args]). *)
Record exn := mkExn {
  e_class : exn_class;
  e_msg : string;
  e_code : Z;
  e_exit_code : Z;
  e_args : list string
}.

Definition isinstance (e : exn) (c : exn_class) : bool := subclass (e_class e) c.

(** A built-in exception. *)
Definition py_error (c : exn_class) (msg : string) : exn := mkExn c msg (-1) (-1) [].

(** [type(self).__name__] *)
Definition class_name (c : exn_class) : string :=
  match c with
  | BaseException => "BaseException" | Exception_ => "Exception"
  | ValueError => "ValueError" | TypeError => "TypeError" | KeyError => "KeyError"
  | IndexError => "IndexError" | ArithmeticError => "ArithmeticError"
  | AttributeError => "AttributeError" | StopIteration => "StopIteration"
  | NotImplementedError => "NotImplementedError" | OSError => "OSError"
  | ExitException => "ExitException" | AgentUpgradeExitException => "AgentUpgradeExitException"
  | AgentError => "AgentError" | AgentUpdateError => "AgentUpdateError"
  | AgentFamilyMissingError => "AgentFamilyMissingError" | UpdateError => "UpdateError"
  | ExtensionError => "ExtensionError" | ExtensionOperationError => "ExtensionOperationError"
  | ExtensionUpdateError => "ExtensionUpdateError"
  | ExtensionDownloadError => "ExtensionDownloadError"
  | ExtensionsGoalStateError => "ExtensionsGoalStateError"
  | ExtensionsConfigError => "ExtensionsConfigError"
  | MultiConfigExtensionEnableError => "MultiConfigExtensionEnableError"
  | ProtocolError => "ProtocolError" | ProtocolNotFoundError => "ProtocolNotFoundError"
  | HttpError => "HttpError" | ResourceGoneError => "ResourceGoneError"
  | InvalidContainerError => "InvalidContainerError"
  | ExtensionStatusError => "ExtensionStatusError"
  | AgentConfigError => "AgentConfigError"
  | AgentMemoryExceededException => "AgentMemoryExceededException"
  | AgentNetworkError => "AgentNetworkError"
  | CGroupsException => "CGroupsException"
  | ProvisionError => "ProvisionError"
  | ResourceDiskError => "ResourceDiskError"
  | DhcpError => "DhcpError"
  | OSUtilError => "OSUtilError"
  | EventError => "EventError"
  | CryptError => "CryptError"
  | InvalidExtensionEventError => "InvalidExtensionEventError"
  | ServiceStoppedError => "ServiceStoppedError"
  | PolicyError => "PolicyError" | InvalidPolicyError => "InvalidPolicyError"
  | ExtensionSignaturePolicyError => "ExtensionSignaturePolicyError"
  | ExtensionUnsignedError => "ExtensionUnsignedError"
  | ExtensionSignatureNotValidatedError => "ExtensionSignatureNotValidatedError"
  | ExtensionDisallowedError => "ExtensionDisallowedError"
  | ExtensionRuntimePolicyError => "ExtensionRuntimePolicyError"
  | PackageValidationError => "PackageValidationError"
  | SignatureValidationError => "SignatureValidationError"
  | ManifestValidationError => "ManifestValidationError"
  | SignatureValidationTimeoutError => "SignatureValidationTimeoutError"
  | HTTPException => "HTTPException" | NotConnected => "NotConnected"
  | IncompleteRead => "IncompleteRead" | ImproperConnectionState => "ImproperConnectionState"
  | BadStatusLine => "BadStatusLine"
  | VmSettingsParseError => "VmSettingsParseError" | VmSettingsNotSupported => "VmSettingsNotSupported"
  | VmSettingsSupportStopped => "VmSettingsSupportStopped" | CommandError => "CommandError"
  | NameError => "NameError" | StructError => "struct.error" | UnicodeError => "UnicodeError" | UploadError => "UploadError"
  | TimeoutExpired => "TimeoutExpired" | FirewallManagerNotAvailableError => "FirewallManagerNotAvailableError"
  | FirewallStateError => "FirewallStateError" | FirewallRulesMissingError => "FirewallRulesMissingError"
  | IptablesInconsistencyError => "IptablesInconsistencyError" | SystemdRunError => "SystemdRunError"
  | InvalidCgroupMountpointException => "InvalidCgroupMountpointException" | CounterNotFound => "CounterNotFound" | RuntimeError => "RuntimeError"
  end.

(** [AgentError.__init__]: the class name is prefixed and the inner error appended. *)
Definition agent_error_msg (c : exn_class) (msg : string) (inner : option exn) : string :=
  let m := "[" +:+ class_name c +:+ "] " +:+ msg in
  match inner with
  | Some i => m +:+ "
Inner error: " +:+ e_msg i
  | None => m
  end.

Definition agent_error (c : exn_class) (msg : string) (inner : option exn) (code : Z) : exn :=
  mkExn c (agent_error_msg c msg inner) code (-1) [].

(** [ExtensionOperationError(msg, inner, code, exit_code)] *)
Definition operation_error (msg : string) (code exit_code : Z) : exn :=
  mkExn ExtensionOperationError (agent_error_msg ExtensionOperationError msg None) code exit_code [].

(** [ExtensionErrorCodes] *)
Module ErrorCodes.
Definition PluginUnknownFailure : Z := -1.
Definition PluginSuccess : Z := 0.
Definition PluginProcessingError : Z := 1000.
Definition PluginManifestDownloadError : Z := 1001.
Definition PluginHandlerManifestNotFound : Z := 1002.
Definition PluginHandlerManifestDeserializationError : Z := 1003.
Definition PluginPackageDownloadFailed : Z := 1004.
Definition PluginPackageExtractionFailed : Z := 1005.
Definition PluginInstallProcessingFailed : Z := 1007.
Definition PluginUpdateProcessingFailed : Z := 1008.
Definition PluginEnableProcessingFailed : Z := 1009.
Definition PluginDisableProcessingFailed : Z := 1010.
Definition PluginHandlerScriptTimedout : Z := 1011.
Definition PluginSettingsStatusInvalid : Z := 1012.
End ErrorCodes.

(** [try: m  except c as e: h e]: exceptions of other classes propagate. *)
Definition except {S A} (c : exn_class) (m : M S exn A) (h : exn → M S exn A) : M S exn A :=
  catch m (λ e, if isinstance e c then h e else raise e).

(** ** Facts about the hierarchy *)

Lemma subclass_refl c : subclass c c = true.
Proof. by destruct c. Qed.

(** The fuel of [subclass] is enough: every class reaches [BaseException]. *)
Lemma subclass_BaseException c : subclass c BaseException = true.
Proof. by destruct c. Qed.

(** [except Exception] catches every class but those that exit the process. *)
Lemma subclass_Exception c :
  subclass c Exception_ = false ↔ c ∈ [BaseException; ExitException; AgentUpgradeExitException].
Proof. rewrite !elem_of_cons, elem_of_nil. destruct c; vm_compute; naive_solver. Qed.

Lemma wp_except {S A} c (m : M S exn A) h Q R s :
  wp m Q (λ e s', (isinstance e c = true → wp (h e) Q R s') ∧
                  (isinstance e c = false → R e s')) s →
  wp (except c m h) Q R s.
Proof.
  intros H. apply wp_catch. eapply wp_mono; [exact H|done|].
  intros e s' [H1 H2]. destruct (isinstance e c); [by apply H1|by apply wp_raise, H2].
Qed.

Lemma pres_except {S A} (R : relation S) `{!PreOrder R} c (m : M S exn A) h :
  pres R m → (∀ e, pres R (h e)) → pres R (except c m h).
Proof.
  intros Hm Hh. apply pres_catch; [done..|]. intros e.
  destruct (isinstance e c); [done|]. by apply pres_raise.
Qed.

Ltac pres_step ::=
  lazymatch goal with
  | |- pres _ (mbind _ _) => apply pres_bind; [apply _| |intros ?]
  | |- pres _ (except _ _ _) => apply pres_except; [apply _| |intros ?]
  | |- pres _ (catch _ _) => apply pres_catch; [apply _| |intros ?]
  | |- pres _ (finally _ _) => apply pres_finally; [apply _| |]
  | |- pres _ (when _ _) => apply pres_when; [apply _|]
  | |- pres _ (for_each _ _) => apply pres_for_each; [apply _|intros ?]
  | |- pres _ (if ?b then _ else _) => destruct b
  | |- pres _ (match ?x with _ => _ end) => destruct x
  | |- pres _ _ => solve [eauto with pres typeclass_instances]
  end; cbv beta.

(** ** The exceptions a computation may raise

    [raises P m]: whatever [m] raises satisfies [P].  [fails_with] is the same for a
    statement without state. *)
Definition raises {S A} (P : exn → Prop) (m : M S exn A) : Prop := ∀ s e, (m s).1 = Err e → P e.
Definition fails_with {A} (P : exn → Prop) (r : res exn A) : Prop := ∀ e, r = Err e → P e.

Section raises_rules.
Context {S : Type} (P : exn → Prop).

Lemma raises_ret {A} (a : A) : raises P (mret a : M S exn A).
Proof. by intros s e. Qed.

Lemma raises_raise {A} (e : exn) : P e → raises P (raise e : M S exn A).
Proof. by intros H s e' [= <-]. Qed.

Lemma raises_gets {A} (f : S → A) : raises P (gets f : M S exn A).
Proof. by intros s e. Qed.

Lemma raises_modify (f : S → S) : raises P (modify f : M S exn unit).
Proof. by intros s e. Qed.

Lemma raises_lift {A} (r : res exn A) : fails_with P r → raises P (lift r : M S exn A).
Proof. intros H s e. apply H. Qed.

Lemma raises_bind {A B} (m : M S exn A) (k : A → M S exn B) :
  raises P m → (∀ a, raises P (k a)) → raises P (m ≫= k).
Proof.
  intros Hm Hk s e. specialize (Hm s). unfold mbind, M_bind. destruct (m s) as [[a|x] s']; simpl in *; [apply Hk|].
  intros [= <-]. by apply Hm.
Qed.

(** The handler needs to be considered for the exceptions it catches only. *)
Lemma raises_except {A} (Q : exn → Prop) c (m : M S exn A) h :
  raises Q m → (∀ e, Q e → isinstance e c = false → P e) →
  (∀ e, Q e → isinstance e c = true → raises P (h e)) → raises P (except c m h).
Proof.
  intros Hm Ho Hh s e. specialize (Hm s). unfold except, catch. destruct (m s) as [[a|x] s']; simpl in *; [done|].
  destruct (isinstance x c) eqn:Hc; [by apply Hh; [apply Hm|]|]. simpl. intros [= <-]. apply Ho; [by apply Hm|done].
Qed.

Lemma raises_except_same {A} c (m : M S exn A) h :
  raises P m → (∀ e, raises P (h e)) → raises P (except c m h).
Proof. intros Hm Hh. by apply (raises_except P). Qed.

Lemma raises_catch {A} (m : M S exn A) h :
  raises P m → (∀ e, P e → raises P (h e)) → raises P (catch m h).
Proof.
  intros Hm Hh s e. specialize (Hm s). unfold catch. destruct (m s) as [[a|x] s']; simpl in *; [done|].
  apply Hh. by apply Hm.
Qed.

Lemma raises_finally {A} (m : M S exn A) f : raises P m → raises P f → raises P (finally m f).
Proof.
  intros Hm Hf s e. specialize (Hm s). unfold finally. destruct (m s) as [r s']. specialize (Hf s').
  destruct (f s') as [[[]|x] s'']; simpl in *; [apply Hm|]. intros [= <-]. by apply Hf.
Qed.

Lemma raises_when b (m : M S exn unit) : raises P m → raises P (when b m).
Proof. destruct b; [done|]. intros _. apply raises_ret. Qed.

Lemma raises_for_each {A} (l : list A) (body : A → M S exn unit) :
  (∀ x, raises P (body x)) → raises P (for_each l body).
Proof. intros Hb. induction l as [|x l IH]; [apply raises_ret|]. apply raises_bind; [apply Hb|done]. Qed.

Lemma fails_bind {A B} (r : res exn A) (k : A → res exn B) :
  fails_with P r → (∀ a, fails_with P (k a)) → fails_with P (r ≫= k).
Proof. intros Hr Hk e. destruct r as [a|x]; [apply Hk|]. intros [= <-]. by apply Hr. Qed.

Lemma fails_ok {A} (a : A) : fails_with P (Ok a).
Proof. by intros e. Qed.

Lemma fails_err {A} (e : exn) : P e → fails_with P (Err e : res exn A).
Proof. by intros H x [= <-]. Qed.
End raises_rules.

Lemma raises_zoom {S T A} P (g : S → T) (u : T → S → S) (m : M T exn A) : raises P m → raises P (zoom g u m).
Proof. intros Hm s e. specialize (Hm (g s)). unfold zoom. destruct (m (g s)) as [r t]. apply Hm. Qed.

Lemma raises_wp {S A} P (m : M S exn A) s : raises P m → wp m (λ _ _, True) (λ e _, P e) s.
Proof. intros H. specialize (H s). unfold wp. destruct (m s) as [[a|e] s']; [done|]. by apply H. Qed.

Lemma wp_raises {S A} P (m : M S exn A) : (∀ s, wp m (λ _ _, True) (λ e _, P e) s) → raises P m.
Proof. intros H s e. specialize (H s). unfold wp in H. destruct (m s) as [[a|x] s']; [done|]. by intros [= <-]. Qed.

(** An exception that [except Exception] catches: it does not end the process. *)
Definition ordinary (e : exn) : Prop := isinstance e Exception_ = true.

Create HintDb raises discriminated.
#[export] Hint Resolve raises_ret raises_gets raises_modify fails_ok : raises.

Ltac raises_step :=
  lazymatch goal with
  | |- raises _ (mbind _ _) => apply raises_bind; [|intros ?]
  | |- raises _ (except _ _ _) => apply raises_except_same; [|intros ?]
  | |- raises _ (finally _ _) => apply raises_finally
  | |- raises _ (when _ _) => apply raises_when
  | |- raises _ (for_each _ _) => apply raises_for_each; intros ?
  | |- raises _ (zoom _ _ _) => apply raises_zoom
  | |- raises _ (raise _) => apply raises_raise; try reflexivity
  | |- raises _ (lift _) => apply raises_lift
  | |- raises _ (if ?b then _ else _) => destruct b
  | |- raises _ (match ?x with _ => _ end) => destruct x eqn:?
  | |- fails_with _ (mbind _ _) => apply fails_bind; [|intros ?]
  | |- fails_with _ (Err _) => apply fails_err; try reflexivity
  | |- fails_with _ (Ok _) => apply fails_ok
  | |- fails_with _ (if ?b then _ else _) => destruct b
  | |- fails_with _ (match ?x with _ => _ end) => destruct x eqn:?
  | |- _ => solve [eauto with raises]
  end; cbv beta.
Ltac raises_auto := intros; repeat raises_step.
