(* ===== verification/FlexVersion.v ===== *)
(** * Version numbers ([common/utils/flexible_version.py])

    [FlexibleVersion] parses and compares the versions of the agent, of the
    extensions and of the policy file.  The class compiles a regular expression
    from its separator and its pre-release tags; [version_re] below is that
    expression as a backtracking matcher: a matcher maps a text to the list of its
    ways to match a prefix, in the order in which Python's [re] tries them. *)
From S2P Require Import Prelude PyExn.
From Stdlib Require Import Ascii.

Module Re.
(** The text matched and the text that remains, in order of preference. *)
Definition matcher := string → list (string * string).

Definition lit (p : string) : matcher := λ s,
  match strip_prefix p s with Some r => [(p, r)] | None => [] end.

Definition seq (m1 m2 : matcher) : matcher := λ s,
  '(a, r) ← m1 s; '(b, r') ← m2 r; [(a +:+ b, r')].

Definition alt (ms : list matcher) : matcher := λ s, m ← ms; m s.

(** A greedy [m*]; [n] bounds the number of iterations. *)
Fixpoint star (n : nat) (m : matcher) : matcher := λ s,
  match n with
  | O => [("", s)]
  | S n' => seq m (star n' m) s ++ [("", s)]
  end.

(** The greedy [\d*] and [\d+], on ASCII digits. *)
Fixpoint digits_star (s : string) : list (string * string) :=
  match s with
  | EmptyString => [("", "")]
  | String c s' =>
      if is_digit c then (prod_map (String c) id <$> digits_star s') ++ [("", s)]
      else [("", s)]
  end.

Definition digits_plus : matcher := λ s,
  match s with
  | EmptyString => []
  | String c s' => if is_digit c then prod_map (String c) id <$> digits_star s' else []
  end.

(** [$] matches at the end, and before a final newline. *)
Definition at_end (s : string) : bool := String.eqb s "" || String.eqb s (String "010" "").
End Re.
Import Re.

Record FlexibleVersion := mkFV {
  fv_sep : string;
  fv_prerel_sep : option string;
  fv_prerel_tags : list string;
  fv_prerelease : option (string * option Z);
  fv_version : list Z
}.

#[export] Instance FlexibleVersion_eq_dec : EqDecision FlexibleVersion.
Proof. solve_decision. Defined.

(** The groups of a match of the pattern: [version], and, when the optional
    pre-release part took part in the match, [prerel_sep], [tag] and [tag_num]. *)
Definition version_groups : Type := string * option (option string * string * string).

(** The [version] group: digits, then any number of separators followed by digits. *)
Definition version_group (sep : string) : matcher := λ s,
  seq digits_plus (star (String.length s) (seq (lit sep) digits_plus)) s.

(** The optional [prerel_sep] group: a dot or a dash. *)
Definition prerel_sep_group (s : string) : list (option string * string) :=
  (prod_map Some id <$> alt [lit "."; lit "-"] s) ++ [(None, s)].

(** The optional pre-release part: a separator group, one of the tags, and a possibly
    empty run of digits.  The pattern is empty when there are no tags. *)
Definition release_group (tags : list string) (s : string)
    : list (option (option string * string * string) * string) :=
  match tags with
  | [] => [(None, s)]
  | _ =>
      ('(ps, r1) ← prerel_sep_group s;
       '(tag, r2) ← alt (lit <$> tags) r1;
       '(num, r3) ← digits_star r2;
       [(Some (ps, tag, num), r3)]) ++ [(None, s)]
  end.

(** [_compile_pattern] and [version_re.match(vstring)] *)
Definition version_re (sep : string) (tags : list string) (vstring : string)
    : option version_groups :=
  head ('(v, r1) ← version_group sep vstring;
        '(rel, r2) ← release_group tags r1;
        if at_end r2 then [(v, rel)] else []).

(** [sep_re.split(s)] for a non-empty separator. *)
Fixpoint split_fuel (n : nat) (sep s : string) : list string :=
  match n with
  | O => [s]
  | S n' =>
      match strip_prefix sep s with
      | Some r => "" :: split_fuel n' sep r
      | None =>
          match s with
          | EmptyString => [""]
          | String c s' =>
              match split_fuel n' sep s' with
              | [] => [String c ""]
              | x :: l => String c x :: l
              end
          end
      end
  end.

Definition str_split (sep s : string) : list string := split_fuel (S (String.length s)) sep s.

Definition py_int (s : string) : res exn Z :=
  if is_digits s then Ok (int_of_digits s)
  else Err (py_error ValueError ("invalid literal for int() with base 10: '" +:+ s +:+ "'")).

Fixpoint map_res {A B} (f : A → res exn B) (l : list A) : res exn (list B) :=
  match l with
  | [] => Ok []
  | x :: l' => y ← f x; ys ← map_res f l'; Ok (y :: ys)
  end.

(** [_parse] *)
Definition parse (sep : string) (tags : list string) (vstring : string)
    : res exn FlexibleVersion :=
  match version_re sep tags vstring with
  | None => Err (py_error ValueError ("Invalid version number '" +:+ vstring +:+ "'"))
  | Some (vtext, rel) =>
      nums ← map_res py_int (str_split sep vtext);
      match rel with
      | Some (ps, tag, tag_num) =>
          num ← (if String.eqb tag_num "" then Ok None
                 else n ← py_int tag_num; Ok (Some n));
          Ok (mkFV sep ps tags (Some (tag, num)) nums)
      | None => Ok (mkFV sep None tags None nums)
      end
  end.

(** [FlexibleVersion(vstring, sep, prerel_tags)]; [None] and the empty string both
    give the version with no components. *)
Definition new_version (vstring : string) (sep : string) (tags : list string)
    : res exn FlexibleVersion :=
  if String.eqb vstring "" then Ok (mkFV sep (Some "") tags None [])
  else parse sep tags vstring.

Definition default_tags : list string := ["alpha"; "beta"; "rc"].

(** [FlexibleVersion(s)], the only form the agent uses. *)
Definition FV (s : string) : res exn FlexibleVersion := new_version s "." default_tags.

Definition fv_major (v : FlexibleVersion) : Z := default 0 (fv_version v !! 0%nat).
Definition fv_minor (v : FlexibleVersion) : Z := default 0 (fv_version v !! 1%nat).
Definition fv_patch (v : FlexibleVersion) : Z := default 0 (fv_version v !! 2%nat).

(** [_assemble] *)
Definition assemble (version : list Z) (sep : string) (prerel_sep : option string)
    (prerelease : option (string * option Z)) : string :=
  let s := str_join sep (pretty <$> version) in
  match prerelease with
  | None => s
  | Some (tag, num) =>
      s +:+ default "" prerel_sep +:+ tag +:+ match num with Some n => pretty n | None => "" end
  end.

(** [__str__] *)
Definition fv_str (v : FlexibleVersion) : string :=
  assemble (fv_version v) (fv_sep v) (fv_prerel_sep v) (fv_prerelease v).

(** [version[-1] += d], on a list that must not be empty. *)
Definition bump_last (l : list Z) (d : Z) : res exn (list Z) :=
  match reverse l with
  | [] => Err (py_error IndexError "list index out of range")
  | x :: r => Ok (reverse (x + d :: r))
  end.

(** [__add__] *)
Definition fv_add (v : FlexibleVersion) (increment : Z) : res exn FlexibleVersion :=
  version ← bump_last (fv_version v) increment;
  new_version (assemble version (fv_sep v) (fv_prerel_sep v) (fv_prerelease v))
    (fv_sep v) (fv_prerel_tags v).

(** [__sub__] *)
Definition fv_sub (v : FlexibleVersion) (decrement : Z) : res exn FlexibleVersion :=
  match last (fv_version v) with
  | None => Err (py_error IndexError "list index out of range")
  | Some x =>
      if x <=? 0 then
        Err (py_error ArithmeticError
               ("Cannot decrement final numeric component of " +:+ fv_str v +:+ " below zero"))
      else
        version ← bump_last (fv_version v) (- decrement);
        new_version (assemble version (fv_sep v) (fv_prerel_sep v) (fv_prerelease v))
          (fv_sep v) (fv_prerel_tags v)
  end.

(** [while len(l) < n: l.append(0)] *)
Definition pad (n : nat) (l : list Z) : list Z := l ++ replicate (n - length l) 0.

(** [_ensure_compatible] *)
Definition ensure_compatible (self that : FlexibleVersion) : res exn (list Z * list Z) :=
  if bool_decide (fv_prerel_tags self ≠ fv_prerel_tags that ∨ fv_sep self ≠ fv_sep that) then
    Err (py_error ValueError "Unable to compare: versions have different structures")
  else
    Ok (pad (length (fv_version that)) (fv_version self),
        pad (length (fv_version self)) (fv_version that)).

(** Python's [<] on lists of integers. *)
Fixpoint list_ltb (l1 l2 : list Z) : bool :=
  match l1, l2 with
  | _, [] => false
  | [], _ :: _ => true
  | x :: l1', y :: l2' => if x =? y then list_ltb l1' l2' else x <? y
  end.

(** [prerel_tags_set[tag]]: the dictionary is built from [zip(tags, range(len(tags)))],
    so a repeated tag has its last index. *)
Fixpoint last_index (tag : string) (tags : list string) (i : nat) : option nat :=
  match tags with
  | [] => None
  | t :: tags' =>
      match last_index tag tags' (S i) with
      | Some j => Some j
      | None => if String.eqb t tag then Some i else None
      end
  end.

Definition tag_index (tags : list string) (tag : string) : res exn nat :=
  match last_index tag tags 0 with
  | Some i => Ok i
  | None => Err (py_error KeyError tag)
  end.

(** [<] on the numbers of two pre-releases: [None] is not ordered (Python 3). *)
Definition opt_ltb (a b : option Z) : res exn bool :=
  match a, b with
  | Some x, Some y => Ok (x <? y)
  | _, _ => Err (py_error TypeError "'<' not supported between these types")
  end.

(** [__lt__] *)
Definition fv_lt (self that : FlexibleVersion) : res exn bool :=
  '(this_version, that_version) ← ensure_compatible self that;
  if bool_decide (this_version ≠ that_version) ||
     bool_decide (fv_prerelease self = None ∧ fv_prerelease that = None)
  then Ok (list_ltb this_version that_version)
  else
    match fv_prerelease self, fv_prerelease that with
    | Some _, None => Ok true
    | None, Some _ => Ok false
    | Some (t1, n1), Some (t2, n2) =>
        this_index ← tag_index (fv_prerel_tags self) t1;
        that_index ← tag_index (fv_prerel_tags self) t2;
        if bool_decide (this_index = that_index) then opt_ltb n1 n2
        else Ok (bool_decide (this_index < that_index)%nat)
    | None, None => Ok (list_ltb this_version that_version)
    end.

(** [__eq__] *)
Definition fv_eq (self that : FlexibleVersion) : res exn bool :=
  '(this_version, that_version) ← ensure_compatible self that;
  if bool_decide (this_version ≠ that_version) then Ok false
  else if bool_decide (fv_prerelease self ≠ fv_prerelease that) then Ok false
  else Ok true.

(** [__ne__], [__ge__], [__gt__], [__le__] *)
Definition fv_ne (self that : FlexibleVersion) : res exn bool := b ← fv_eq self that; Ok (negb b).
Definition fv_ge (self that : FlexibleVersion) : res exn bool := b ← fv_lt self that; Ok (negb b).
Definition fv_gt (self that : FlexibleVersion) : res exn bool :=
  b ← fv_lt self that;
  if negb b then (c ← fv_eq self that; Ok (negb c)) else Ok false.
Definition fv_le (self that : FlexibleVersion) : res exn bool :=
  b ← fv_lt self that; if (b : bool) then Ok true else fv_eq self that.

(** [matches]: the components of [self] are the first components of [that]. *)
Fixpoint matches_components (l1 l2 : list Z) : bool :=
  match l1, l2 with
  | [], _ => true
  | x :: l1', y :: l2' => if x =? y then matches_components l1' l2' else false
  | _ :: _, [] => false
  end.

Definition matches (self that : FlexibleVersion) : bool :=
  if bool_decide (fv_sep self ≠ fv_sep that) ||
     bool_decide (length (fv_version that) < length (fv_version self))%nat then false
  else if negb (matches_components (fv_version self) (fv_version that)) then false
  else match fv_prerel_tags self with
       | [] => true
       | _ => bool_decide (fv_prerel_tags self = fv_prerel_tags that)
       end.

Example FV_ex1 : fv_str <$> FV "1.2.3" = Ok "1.2.3".
Proof. vm_compute. reflexivity. Qed.
Example FV_ex2 : FV "1.02-rc3" = Ok (mkFV "." (Some "-") default_tags (Some ("rc", Some 3)) [1; 2]).
Proof. vm_compute. reflexivity. Qed.
Example FV_ex3 : is_ok (FV "1.2.") = false ∧ is_ok (FV "v1") = false ∧ is_ok (FV "1.2.foo") = false.
Proof. vm_compute. auto. Qed.

(** ** Well-formed versions *)

(** What [FlexibleVersion(s)] returns for a non-empty [s]. *)
Definition wf_version (v : FlexibleVersion) : Prop :=
  fv_sep v = "." ∧ fv_prerel_tags v = default_tags ∧
  fv_version v ≠ [] ∧ Forall (λ n, 0 ≤ n) (fv_version v) ∧
  match fv_prerelease v with
  | None => fv_prerel_sep v = None
  | Some (tag, num) =>
      fv_prerel_sep v ∈ [None; Some "."; Some "-"] ∧ tag ∈ default_tags ∧
      match num with Some n => 0 ≤ n | None => True end
  end.

(** ** Lemmas on the matcher *)

Lemma elem_of_three {A} (x a b c : A) : x ∈ [a; b; c] ↔ x = a ∨ x = b ∨ x = c.
Proof. set_solver. Qed.

Lemma head_bind {A B} (l l' : list A) (x : A) (f : A → list B) (y : B) :
  l = x :: l' → head (f x) = Some y → head (l ≫= f) = Some y.
Proof. intros -> Hf. simpl. destruct (f x); [done|]. by simplify_eq/=. Qed.

Lemma list_in_bind {A B} (l : list A) (f : A → list B) (y : B) :
  y ∈ l ≫= f ↔ ∃ x, y ∈ f x ∧ x ∈ l.
Proof. apply list_elem_of_bind. Qed.

(** No digit at the front. *)
Definition no_digit_head (s : string) : Prop :=
  match s with EmptyString => True | String c _ => is_digit c = false end.

Lemma digits_star_app (d r : string) :
  str_forallb is_digit d = true → no_digit_head r →
  ∃ l, digits_star (d +:+ r) = (d, r) :: l.
Proof.
  intros Hd Hr. induction d as [|c d IH].
  - exists []. destruct r as [|c r]; [done|]. simpl in *. by rewrite Hr.
  - rewrite string_app_cons. simpl in *. apply andb_true_iff in Hd as [Hc Hd].
    destruct (IH Hd) as [l Hl]. rewrite Hc, Hl. simpl. eauto.
Qed.

Lemma digits_plus_app (d r : string) :
  is_digits d = true → no_digit_head r → ∃ l, digits_plus (d +:+ r) = (d, r) :: l.
Proof.
  intros Hd Hr. destruct d as [|c d]; [done|].
  unfold is_digits in Hd. simpl in Hd. apply andb_true_iff in Hd as [Hc Hd].
  destruct (digits_star_app d r Hd Hr) as [l Hl].
  rewrite string_app_cons. simpl. rewrite Hc, Hl. simpl. eauto.
Qed.

Lemma digits_plus_no_digit (s : string) : no_digit_head s → digits_plus s = [].
Proof. destruct s as [|c s]; simpl; [done|]. by intros ->. Qed.

(** The text that follows the numeric part: nothing more for [version] to take. *)
Definition version_stop (r : string) : Prop :=
  no_digit_head r ∧ seq (lit ".") digits_plus r = [].

Lemma seq_head (m1 m2 : matcher) (s a r b r' : string) l1 l2 :
  m1 s = (a, r) :: l1 → m2 r = (b, r') :: l2 → ∃ l, seq m1 m2 s = (a +:+ b, r') :: l.
Proof. intros H1 H2. unfold seq. rewrite H1. simpl. rewrite H2. simpl. eauto. Qed.

Lemma lit_app (p r : string) : lit p (p +:+ r) = [(p, r)].
Proof. unfold lit. by rewrite strip_prefix_app. Qed.

Lemma star_components (ds : list string) (n : nat) (r : string) :
  Forall (λ d, is_digits d = true) ds → version_stop r → (length ds ≤ n)%nat →
  ∃ l, star n (seq (lit ".") digits_plus) (foldr (λ d s, "." +:+ d +:+ s) r ds)
       = (foldr (λ d s, "." +:+ d +:+ s) "" ds, r) :: l.
Proof.
  intros Hds [Hr1 Hr2]. revert n. induction Hds as [|d ds Hd Hds IH]; intros n Hn; simpl.
  - destruct n as [|n]; [by exists []|]. exists []. simpl. unfold seq at 1. by rewrite Hr2.
  - destruct n as [|n]; [simpl in Hn; lia|]. simpl in Hn.
    destruct (IH n) as [l Hl]; [lia|].
    destruct (digits_plus_app d (foldr (λ d s, "." +:+ d +:+ s) r ds) Hd) as [l' Hl'].
    { destruct Hds; [done|done]. }
    destruct (seq_head (lit ".") digits_plus _ _ _ _ _ _ _ (lit_app "." _) Hl') as [l1 Hl1].
    destruct (seq_head _ (star n (seq (lit ".") digits_plus)) _ _ _ _ _ _ _ Hl1 Hl) as [l2 Hl2].
    simpl. rewrite Hl2. rewrite string_app_assoc. simpl. eauto.
Qed.

Lemma str_join_foldr (d : string) (ds : list string) :
  str_join "." (d :: ds) = d +:+ foldr (λ d s, "." +:+ d +:+ s) "" ds.
Proof.
  revert d. induction ds as [|e ds IH]; intros d; [simpl; by rewrite string_app_nil_r|].
  change (str_join "." (d :: e :: ds)) with (d +:+ "." +:+ str_join "." (e :: ds)).
  by rewrite IH.
Qed.

Lemma foldr_app_rest (ds : list string) (r : string) :
  foldr (λ d s, "." +:+ d +:+ s) "" ds +:+ r = foldr (λ d s, "." +:+ d +:+ s) r ds.
Proof. induction ds as [|e ds IH]; [done|]. simpl. by rewrite <-IH, !string_app_assoc. Qed.

Lemma foldr_components_length (ds : list string) (r : string) :
  (length ds ≤ String.length (foldr (λ d s, "." +:+ d +:+ s) r ds))%nat.
Proof. induction ds as [|e ds IH]; simpl; [lia|]. rewrite !string_length_app. simpl. lia. Qed.

Lemma version_group_components (d : string) (ds : list string) (r : string) :
  Forall (λ d, is_digits d = true) (d :: ds) → version_stop r →
  ∃ l, version_group "." (str_join "." (d :: ds) +:+ r) = (str_join "." (d :: ds), r) :: l.
Proof.
  intros Hds Hr. inversion_clear Hds as [|? ? Hd Hds'].
  rewrite str_join_foldr, string_app_assoc, foldr_app_rest. unfold version_group.
  set (n := String.length _).
  destruct (digits_plus_app d (foldr (λ d s, "." +:+ d +:+ s) r ds) Hd) as [l Hl].
  { destruct Hds' as [|e ds' ]; [by destruct Hr|done]. }
  destruct (star_components ds n r Hds' Hr) as [l' Hl'].
  { unfold n. rewrite string_length_app.
    pose proof (foldr_components_length ds r). lia. }
  destruct (seq_head _ _ _ _ _ _ _ _ _ Hl Hl') as [l2 Hl2]. rewrite Hl2. eauto.
Qed.

(** The pre-release texts that [_assemble] writes. *)
Definition release_text (ps : option string) (tag num : string) : string :=
  default "" ps +:+ tag +:+ num.

Lemma release_text_stop ps tag num :
  ps ∈ [None; Some "."; Some "-"] → tag ∈ default_tags → version_stop (release_text ps tag num).
Proof.
  unfold default_tags, release_text. rewrite !elem_of_three.
  intros [->|[->| ->]] [->|[->| ->]]; done.
Qed.

Lemma release_group_text ps tag num :
  ps ∈ [None; Some "."; Some "-"] → tag ∈ default_tags → str_forallb is_digit num = true →
  ∃ l, release_group default_tags (release_text ps tag num) = (Some (ps, tag, num), "") :: l.
Proof.
  intros Hps Htag Hnum.
  destruct (digits_star_app num "" Hnum I) as [l Hl]. rewrite string_app_nil_r in Hl.
  apply elem_of_three in Hps. apply elem_of_three in Htag. unfold release_text.
  destruct Hps as [->|[->| ->]], Htag as [->|[->| ->]];
    eexists; cbv -[digits_star]; rewrite Hl; cbv -[digits_star]; reflexivity.
Qed.

(** ** Lemmas on splitting and reading the components *)

Definition no_char (x : ascii) (s : string) : Prop := str_forallb (λ c, negb (Ascii.eqb c x)) s = true.

Lemma is_digits_no_dot (s : string) : is_digits s = true → no_char "." s.
Proof.
  unfold is_digits, no_char. rewrite andb_true_iff. intros [_ H].
  induction s as [|c s IH]; simpl in *; [done|]. apply andb_true_iff in H as [Hc H].
  rewrite IH by done. rewrite andb_true_r. apply negb_true_iff, Ascii.eqb_neq. by intros ->.
Qed.

Lemma strip_char_String (x c : ascii) (s : string) : c ≠ x → strip_prefix (String x "") (String c s) = None.
Proof. intros Hc. cbn [strip_prefix]. destruct (Ascii.eqb_spec x c); [congruence|done]. Qed.

Lemma split_no_char (x : ascii) (n : nat) (d : string) :
  no_char x d → (String.length d < n)%nat → split_fuel n (String x "") d = [d].
Proof.
  unfold no_char. revert d. induction n as [|n IH]; intros d Hd Hn; [lia|].
  destruct d as [|c d]; [done|]. simpl in Hd, Hn. apply andb_true_iff in Hd as [Hc Hd].
  apply negb_true_iff, Ascii.eqb_neq in Hc.
  cbn [split_fuel]. rewrite strip_char_String by done. rewrite IH by (done || lia). done.
Qed.

Lemma split_component (x : ascii) (n : nat) (d rest : string) :
  no_char x d → (String.length (d +:+ String x "" +:+ rest) < n)%nat →
  split_fuel n (String x "") (d +:+ String x "" +:+ rest) = d :: split_fuel (n - S (String.length d)) (String x "") rest.
Proof.
  unfold no_char. revert d. induction n as [|n IH]; intros d Hd Hn; [lia|].
  destruct d as [|c d].
  - change (("" : string) +:+ String x "" +:+ rest) with (String x rest). cbn [split_fuel].
    pose proof (strip_prefix_app (String x "") rest) as Hp. change (String x "" +:+ rest) with (String x rest) in Hp. rewrite Hp. simpl. by rewrite Nat.sub_0_r.
  - simpl in Hd. apply andb_true_iff in Hd as [Hc Hd]. apply negb_true_iff, Ascii.eqb_neq in Hc.
    rewrite string_app_cons in Hn |- *. cbn [split_fuel]. rewrite strip_char_String by done.
    rewrite IH; [done|done|]. simpl in Hn. lia.
Qed.

Lemma split_fuel_join (x : ascii) (ds : list string) (n : nat) :
  ds ≠ [] → Forall (no_char x) ds → (String.length (str_join (String x "") ds) < n)%nat →
  split_fuel n (String x "") (str_join (String x "") ds) = ds.
Proof.
  intros Hne Hds. revert n. induction Hds as [|d ds Hd Hds IH]; intros n Hn; [done|].
  destruct ds as [|e ds]; [by apply split_no_char|].
  change (str_join (String x "") (d :: e :: ds)) with (d +:+ String x "" +:+ str_join (String x "") (e :: ds)) in Hn |- *.
  rewrite split_component by done. f_equal. apply IH; [done|].
  rewrite !string_length_app in Hn. simpl in *. lia.
Qed.

Lemma str_split_join (x : ascii) (ds : list string) :
  ds ≠ [] → Forall (no_char x) ds → str_split (String x "") (str_join (String x "") ds) = ds.
Proof. intros. apply split_fuel_join; auto. Qed.

Lemma py_int_pretty (z : Z) : 0 ≤ z → py_int (pretty z) = Ok z.
Proof. intros Hz. unfold py_int. by rewrite pretty_Z_digits, int_of_pretty_Z. Qed.

Lemma map_res_py_int (l : list Z) : Forall (λ n, 0 ≤ n) l → map_res py_int (pretty <$> l) = Ok l.
Proof.
  induction 1 as [|z l Hz Hl IH]; [done|].
  rewrite fmap_cons. cbn [map_res]. rewrite py_int_pretty by done. cbn. by rewrite IH.
Qed.

Lemma pretty_all_digits (l : list Z) :
  Forall (λ n, 0 ≤ n) l → Forall (λ d, is_digits d = true) (pretty <$> l).
Proof. intros Hl. apply Forall_fmap. eapply Forall_impl; [exact Hl|]. apply pretty_Z_digits. Qed.

(** ** Printing and parsing *)

Lemma version_re_str (v : FlexibleVersion) :
  wf_version v →
  version_re "." default_tags (fv_str v) =
  Some (str_join "." (pretty <$> fv_version v),
        (λ p, (fv_prerel_sep v, p.1, from_option pretty "" p.2)) <$> fv_prerelease v).
Proof.
  intros (Hsep & Htags & Hne & Hpos & Hpre). unfold fv_str, assemble. rewrite Hsep.
  destruct (fv_version v) as [|n ns] eqn:Hv; [done|].
  pose proof (pretty_all_digits _ Hpos) as Hd. rewrite fmap_cons in *.
  unfold version_re. destruct (fv_prerelease v) as [[tag num]|].
  - destruct Hpre as (Hps & Htag & Hnum).
    set (numt := match num with Some n => pretty n | None => "" end).
    replace (from_option pretty "" num) with numt by (by destruct num).
    assert (str_forallb is_digit numt = true) as Hnt.
    { unfold numt. destruct num as [m|]; [|done].
      pose proof (pretty_Z_digits m Hnum) as Hm. unfold is_digits in Hm.
      by apply andb_true_iff in Hm as [_ Hm]. }
    change (default "" (fv_prerel_sep v) +:+ tag +:+ numt)
      with (release_text (fv_prerel_sep v) tag numt).
    destruct (version_group_components _ _ _ Hd (release_text_stop _ _ numt Hps Htag)) as [l Hl].
    destruct (release_group_text _ _ numt Hps Htag Hnt) as [l' Hl'].
    eapply head_bind; [exact Hl|]. eapply head_bind; [exact Hl'|]. done.
  - destruct (version_group_components _ _ "" Hd) as [l Hl]; [done|].
    rewrite string_app_nil_r in Hl. eapply head_bind; [exact Hl|]. done.
Qed.

Lemma fv_str_ne_nil (v : FlexibleVersion) : wf_version v → fv_str v ≠ "".
Proof.
  intros Hv Heq. pose proof (version_re_str v Hv) as H. rewrite Heq in H. done.
Qed.

Lemma FV_str (v : FlexibleVersion) : wf_version v → FV (fv_str v) = Ok v.
Proof.
  intros Hv. unfold FV, new_version.
  rewrite (proj2 (String.eqb_neq _ _) (fv_str_ne_nil v Hv)).
  unfold parse. rewrite version_re_str by done.
  destruct Hv as (Hsep & Htags & Hne & Hpos & Hpre).
  rewrite str_split_join; [|by destruct (fv_version v)|].
  2:{ eapply Forall_impl; [by apply pretty_all_digits|]. apply is_digits_no_dot. }
  rewrite map_res_py_int by done. cbn [mbind res_bind].
  destruct v as [sep ps tags [[tag num]|] l]; simpl in *; subst; [|done].
  destruct Hpre as (_ & _ & Hnum). destruct num as [m|]; [|done].
  cbn [fmap option_fmap option_map from_option fst snd]. rewrite py_int_pretty by done.
  pose proof (pretty_Z_digits m Hnum) as Hm. unfold is_digits in Hm.
  apply andb_true_iff in Hm as [Hm _]. by destruct (String.eqb (pretty m) "").
Qed.

(** A version written as dot-separated runs of digits, leading zeros included, possibly
    followed by a newline. *)
Lemma FV_components (ds : list string) (r : string) :
  ds ≠ [] → Forall (λ d, is_digits d = true) ds → at_end r = true →
  FV (str_join "." ds +:+ r) = Ok (mkFV "." None default_tags None (int_of_digits <$> ds)).
Proof.
  intros Hne Hds Hr.
  assert (version_stop r) as Hstop.
  { unfold at_end in Hr. apply orb_true_iff in Hr as [->%String.eqb_eq | ->%String.eqb_eq]; done. }
  destruct ds as [|d ds]; [done|]. clear Hne.
  assert (version_re "." default_tags (str_join "." (d :: ds) +:+ r) = Some (str_join "." (d :: ds), None)) as Hre.
  { destruct (version_group_components d ds r Hds Hstop) as [l Hl].
    unfold version_re. eapply head_bind; [exact Hl|].
    unfold at_end in Hr. by apply orb_true_iff in Hr as [->%String.eqb_eq | ->%String.eqb_eq]. }
  unfold FV, new_version.
  destruct (String.eqb_spec (str_join "." (d :: ds) +:+ r) "") as [E|_]; [by rewrite E in Hre|].
  unfold parse. rewrite Hre, str_split_join; [|done|].
  2:{ eapply Forall_impl; [exact Hds|]. apply is_digits_no_dot. }
  assert (map_res py_int (d :: ds) = Ok (int_of_digits <$> (d :: ds))) as ->; [|done].
  clear Hre. revert Hds. generalize (d :: ds). intros l Hl.
  induction Hl as [|x l Hx Hl IH]; [done|].
  rewrite fmap_cons. cbn [map_res].
  assert (py_int x = Ok (int_of_digits x)) as -> by (unfold py_int; by rewrite Hx).
  cbn [mbind res_bind]. by rewrite IH.
Qed.

Lemma int_of_digits_nonneg (s : string) : str_forallb is_digit s = true → 0 ≤ int_of_digits s.
Proof.
  induction s as [|c s IH]; [done|]. cbn [str_forallb]. intros [Hc Hs]%andb_true_iff.
  rewrite int_of_digits_cons. specialize (IH Hs).
  unfold is_digit in Hc. apply bool_decide_eq_true in Hc. unfold digit_value.
  apply Z.add_nonneg_nonneg; [|done]. apply Z.mul_nonneg_nonneg; lia.
Qed.

Lemma py_int_nonneg (s : string) (z : Z) : py_int s = Ok z → 0 ≤ z.
Proof.
  unfold py_int, is_digits. destruct (_ && _) eqn:E; [|done].
  intros [= <-]. apply andb_true_iff in E as [_ E]. by apply int_of_digits_nonneg.
Qed.

Lemma map_res_nonneg (l : list string) (zs : list Z) :
  map_res py_int l = Ok zs → Forall (λ n, 0 ≤ n) zs ∧ length zs = length l.
Proof.
  revert zs. induction l as [|s l IH]; intros zs H; cbn [map_res] in H.
  { injection H as <-. done. }
  destruct (py_int s) as [z|] eqn:Hz; [|done]. cbn in H.
  destruct (map_res py_int l) as [zs'|] eqn:Hzs; [|done]. cbn in H. injection H as <-.
  destruct (IH _ eq_refl) as [H1 H2]. split; [|by simpl; rewrite H2].
  constructor; [by eapply py_int_nonneg|done].
Qed.

Lemma split_fuel_ne_nil (n : nat) (sep s : string) : split_fuel n sep s ≠ [].
Proof. destruct n; simpl; [done|]. repeat case_match; done. Qed.

Lemma release_group_in (tags : list string) (s : string) ps tag num r :
  (Some (ps, tag, num), r) ∈ release_group tags s →
  ps ∈ [None; Some "."; Some "-"] ∧ tag ∈ tags.
Proof.
  destruct tags as [|t tags]; unfold release_group; [set_solver|]. set (ts := t :: tags).
  rewrite elem_of_app, list_in_bind. intros [([ps' r1] & H & H1)|H]; [|set_solver].
  apply list_in_bind in H as ([tag' r2] & H & H2).
  apply list_in_bind in H as ([num' r3] & H & H3).
  apply list_elem_of_singleton in H. simplify_eq. split.
  - unfold prerel_sep_group in H1. apply elem_of_app in H1 as [H1|H1]; [|set_solver].
    apply list_elem_of_fmap in H1 as ([p q] & Heq & H1). simpl in Heq. simplify_eq.
    unfold alt in H1. apply list_in_bind in H1 as (m & Hm & Hin).
    rewrite elem_of_cons, list_elem_of_singleton in Hin.
    destruct Hin as [->| ->]; unfold lit in Hm; destruct (strip_prefix _ s); set_solver.
  - unfold alt in H2. apply list_in_bind in H2 as (m & Hm & Hin).
    apply list_elem_of_fmap in Hin as (t' & -> & Hin).
    unfold lit in Hm. destruct (strip_prefix t' r1); set_solver.
Qed.

Lemma FV_wf (s : string) (v : FlexibleVersion) : s ≠ "" → FV s = Ok v → wf_version v.
Proof.
  intros Hs. unfold FV, new_version. rewrite (proj2 (String.eqb_neq _ _) Hs). unfold parse.
  destruct (version_re "." default_tags s) as [[vt rel]|] eqn:Hre; [|done].
  destruct (map_res py_int (str_split "." vt)) as [zs|] eqn:Hzs; cbn; [|done].
  apply map_res_nonneg in Hzs as [Hpos Hlen].
  assert (zs ≠ []) as Hne.
  { intros ->. symmetry in Hlen. apply length_zero_iff_nil in Hlen.
    by apply split_fuel_ne_nil in Hlen. }
  destruct rel as [[[ps tag] num]|]; [|by intros [= <-]].
  assert (ps ∈ [None; Some "."; Some "-"] ∧ tag ∈ default_tags) as [Hps Htag].
  { unfold version_re in Hre. apply head_Some_elem_of in Hre.
    apply list_in_bind in Hre as ([v1 r1] & Hre & _).
    apply list_in_bind in Hre as ([rel r2] & Hre & Hin). destruct (at_end r2); [|set_solver].
    apply list_elem_of_singleton in Hre. simplify_eq. by eapply release_group_in. }
  destruct (String.eqb num ""); cbn; [by intros [= <-]|].
  destruct (py_int num) as [z|] eqn:Hz; cbn; [|done]. intros [= <-].
  apply py_int_nonneg in Hz. done.
Qed.

(** ** The order

    The reference order compares the components as sequences extended with zeros
    for ever, so that [1.2] and [1.2.0] are the same release. *)
Definition component (l : list Z) (i : nat) : Z := default 0 (l !! i).

Definition lex_lt (l1 l2 : list Z) : Prop :=
  ∃ i, (∀ j, (j < i)%nat → component l1 j = component l2 j) ∧ component l1 i < component l2 i.

Definition lex_eq (l1 l2 : list Z) : Prop := ∀ i, component l1 i = component l2 i.

Lemma component_pad n l i : component (pad n l) i = component l i.
Proof.
  unfold component, pad. destruct (decide (i < length l)%nat) as [H|H].
  - by rewrite lookup_app_l.
  - rewrite lookup_app_r by lia. rewrite (lookup_ge_None_2 l) by lia. simpl.
    destruct (replicate _ _ !! _) eqn:E; [|done]. by apply lookup_replicate in E as [-> _].
Qed.

Lemma length_pad_pair (l1 l2 : list Z) : length (pad (length l2) l1) = length (pad (length l1) l2).
Proof. unfold pad. rewrite !length_app, !length_replicate. lia. Qed.

Lemma list_ltb_lex (l1 l2 : list Z) :
  length l1 = length l2 → list_ltb l1 l2 = true ↔ lex_lt l1 l2.
Proof.
  revert l2. induction l1 as [|x l1 IH]; intros [|y l2] Hlen; simplify_eq/=.
  - split; [done|]. intros (i & _ & H). unfold component in H. rewrite !lookup_nil in H. simpl in H. lia.
  - destruct (Z.eqb_spec x y) as [->|Hne].
    + rewrite (IH l2) by done. split; intros (i & H1 & H2).
      * exists (S i). split; [|done]. intros [|j] Hj; [done|]. apply H1. lia.
      * destruct i as [|i]; [unfold component in H2; simpl in H2; lia|].
        exists i. split; [|done]. intros j Hj. apply (H1 (S j)). lia.
    + rewrite Z.ltb_lt. split.
      * intros Hlt. exists O. split; [lia|done].
      * intros ([|i] & H1 & H2); [done|]. specialize (H1 O ltac:(lia)). done.
Qed.

Lemma list_eq_lex (l1 l2 : list Z) : length l1 = length l2 → l1 = l2 ↔ lex_eq l1 l2.
Proof.
  intros Hlen. split; [by intros ->|]. intros H. apply list_eq_same_length with (length l1); [done..|].
  intros i x y Hi Hx Hy. specialize (H i). unfold component in H. rewrite Hx, Hy in H. done.
Qed.

Lemma lex_lt_trans l1 l2 l3 : lex_lt l1 l2 → lex_lt l2 l3 → lex_lt l1 l3.
Proof.
  intros (i & Hi & Hlt) (k & Hk & Hlt').
  destruct (Nat.lt_trichotomy i k) as [H|[->|H]].
  - exists i. split; [|rewrite <-Hk; done]. intros j Hj. rewrite Hi, Hk; lia.
  - exists k. split; [|lia]. intros j Hj. rewrite Hi, Hk; lia.
  - exists k. split; [|rewrite Hi; done]. intros j Hj. rewrite Hi, Hk; lia.
Qed.

Lemma lex_lt_eq_l l1 l2 l3 : lex_eq l1 l2 → lex_lt l2 l3 → lex_lt l1 l3.
Proof. intros H (i & Hi & Hlt). exists i. rewrite H. split; [|done]. intros. rewrite H. by apply Hi. Qed.

Lemma lex_lt_eq_r l1 l2 l3 : lex_lt l1 l2 → lex_eq l2 l3 → lex_lt l1 l3.
Proof. intros (i & Hi & Hlt) H. exists i. rewrite <-H. split; [|done]. intros. rewrite <-H. by apply Hi. Qed.

Lemma lex_lt_irrefl l1 l2 : lex_eq l1 l2 → ¬ lex_lt l1 l2.
Proof. intros H (i & _ & Hlt). rewrite H in Hlt. lia. Qed.

Lemma lex_lt_asym l1 l2 : lex_lt l1 l2 → ¬ lex_lt l2 l1.
Proof. intros H1 H2. by eapply (lex_lt_irrefl l1 l1), lex_lt_trans. Qed.

#[export] Instance lex_eq_equiv : Equivalence lex_eq.
Proof. split; red; unfold lex_eq; [done|by intros|]. intros ??? H1 H2 i. by rewrite H1. Qed.

Lemma list_ltb_total (l1 l2 : list Z) :
  length l1 = length l2 → list_ltb l1 l2 = true ∨ l1 = l2 ∨ list_ltb l2 l1 = true.
Proof.
  revert l2. induction l1 as [|x l1 IH]; intros [|y l2] Hlen; simplify_eq/=; [auto|].
  rewrite (Z.eqb_sym y x). destruct (Z.eqb_spec x y) as [->|Hne].
  - destruct (IH l2 Hlen) as [|[->|]]; auto.
  - rewrite !Z.ltb_lt. lia.
Qed.

(** Two versions compare without an error when they have the same structure and
    their pre-releases, if any, carry a known tag and a number. *)
Definition same_structure (v w : FlexibleVersion) : Prop :=
  fv_prerel_tags v = fv_prerel_tags w ∧ fv_sep v = fv_sep w.

Definition numbered (v : FlexibleVersion) : Prop :=
  match fv_prerelease v with
  | None => True
  | Some (tag, num) => tag ∈ fv_prerel_tags v ∧ is_Some num
  end.

(** The reference order: components first, then a pre-release before the release,
    pre-releases by the position of their tag and then by number. *)
Definition pre_lt (tags : list string) (p q : option (string * option Z)) : Prop :=
  match p, q with
  | Some _, None => True
  | Some (t1, n1), Some (t2, n2) =>
      (∃ i j, last_index t1 tags 0 = Some i ∧ last_index t2 tags 0 = Some j ∧ (i < j)%nat) ∨
      (t1 = t2 ∧ ∃ x y, n1 = Some x ∧ n2 = Some y ∧ x < y)
  | None, _ => False
  end.

Definition version_lt (v w : FlexibleVersion) : Prop :=
  lex_lt (fv_version v) (fv_version w) ∨
  (lex_eq (fv_version v) (fv_version w) ∧
   pre_lt (fv_prerel_tags v) (fv_prerelease v) (fv_prerelease w)).

Definition version_eq (v w : FlexibleVersion) : Prop :=
  lex_eq (fv_version v) (fv_version w) ∧ fv_prerelease v = fv_prerelease w.

Lemma last_index_spec tag tags k :
  tag ∈ tags → ∃ i, last_index tag tags k = Some (i + k)%nat ∧ tags !! i = Some tag.
Proof.
  revert k. induction tags as [|t tags IH]; intros k Hin; [by apply not_elem_of_nil in Hin|].
  simpl. destruct (decide (tag ∈ tags)) as [Hin'|Hnin].
  - destruct (IH (S k) Hin') as (i & -> & Hi). exists (S i). split; [f_equal; lia|done].
  - assert (last_index tag tags (S k) = None) as ->.
    { clear -Hnin. generalize (S k). induction tags as [|t tags IH]; intros n; [done|]. simpl.
      rewrite IH by set_solver. destruct (String.eqb_spec t tag); [set_solver|done]. }
    apply elem_of_cons in Hin as [->|]; [|done]. rewrite String.eqb_refl. by exists O.
Qed.

Lemma ensure_compatible_ok v w :
  same_structure v w →
  ensure_compatible v w = Ok (pad (length (fv_version w)) (fv_version v),
                              pad (length (fv_version v)) (fv_version w)).
Proof.
  intros [H1 H2]. unfold ensure_compatible. rewrite bool_decide_eq_false_2; [done|].
  intros [?|?]; congruence.
Qed.

Lemma padded_eq v w :
  pad (length (fv_version w)) (fv_version v) = pad (length (fv_version v)) (fv_version w) ↔
  lex_eq (fv_version v) (fv_version w).
Proof.
  rewrite list_eq_lex by apply length_pad_pair. unfold lex_eq.
  by setoid_rewrite component_pad.
Qed.

Lemma padded_ltb v w :
  list_ltb (pad (length (fv_version w)) (fv_version v)) (pad (length (fv_version v)) (fv_version w))
    = true ↔ lex_lt (fv_version v) (fv_version w).
Proof.
  rewrite list_ltb_lex by apply length_pad_pair. unfold lex_lt.
  by setoid_rewrite component_pad.
Qed.

Lemma fv_eq_spec v w :
  same_structure v w → ∃ b, fv_eq v w = Ok b ∧ (b = true ↔ version_eq v w).
Proof.
  intros Hs. unfold fv_eq, version_eq. rewrite ensure_compatible_ok by done. cbn.
  setoid_rewrite <-padded_eq. case_bool_decide as H1; [exists false; naive_solver|].
  case_bool_decide as H2; [exists false; naive_solver|]. exists true. naive_solver.
Qed.

Lemma fv_lt_spec v w :
  same_structure v w → numbered v → numbered w →
  ∃ b, fv_lt v w = Ok b ∧ (b = true ↔ version_lt v w).
Proof.
  intros Hs Hv Hw. unfold fv_lt, version_lt. rewrite ensure_compatible_ok by done. cbn.
  setoid_rewrite <-padded_ltb. setoid_rewrite <-padded_eq.
  set (l1 := pad _ (fv_version v)). set (l2 := pad _ (fv_version w)).
  case_bool_decide as Hne; simpl.
  { eexists. split; [done|]. split; [auto|]. intros [?|[? _]]; done. }
  assert (list_ltb l1 l2 = true ↔ False) as Hirr.
  { unfold l1, l2 in *. rewrite padded_ltb. split; [|done]. intros Hlt.
    by eapply lex_lt_irrefl; [|exact Hlt]; apply padded_eq. }
  unfold numbered in Hv, Hw.
  destruct (fv_prerelease v) as [[t1 n1]|], (fv_prerelease w) as [[t2 n2]|];
    (case_bool_decide as Hnn; simpl; [destruct Hnn; try done|]); unfold pre_lt.
  - destruct Hv as [Ht1 [x ->]], Hw as [Ht2 [y ->]]. rewrite <-(proj1 Hs) in Ht2.
    destruct (last_index_spec _ _ 0 Ht1) as (i & Hi & Hti).
    destruct (last_index_spec _ _ 0 Ht2) as (j & Hj & Htj).
    unfold tag_index. rewrite Hi, Hj. cbn. rewrite !Nat.add_0_r in *.
    case_bool_decide as Hij.
    + subst j. assert (t1 = t2) by congruence. subst t2. exists (x <? y).
      split; [done|]. rewrite Z.ltb_lt, Hirr. split.
      * intros Hlt. right. split; [done|]. right. eauto 10.
      * intros [[]|[_ [(i' & j' & ? & ? & ?)|(_ & x' & y' & ? & ? & ?)]]]; simplify_eq; lia.
    + exists (bool_decide (i < j)%nat). split; [done|]. rewrite bool_decide_eq_true, Hirr. split.
      * intros Hlt. right. split; [done|]. left. eauto 10.
      * intros [[]|[_ [(i' & j' & ? & ? & ?)|(<- & ?)]]]; simplify_eq; first [done|congruence].
  - exists true. naive_solver.
  - exists false. naive_solver.
  - exists (list_ltb l1 l2). naive_solver.
  - exfalso. apply Hnn. done.
Qed.

Lemma same_structure_sym v w : same_structure v w → same_structure w v.
Proof. intros [H1 H2]. by split. Qed.

Lemma version_lt_trans u v w :
  same_structure u v → same_structure v w → version_lt u v → version_lt v w → version_lt u w.
Proof.
  intros [Ht _] _ [H1|[H1 P1]] [H2|[H2 P2]].
  - left. by eapply lex_lt_trans.
  - left. by eapply lex_lt_eq_r.
  - left. by eapply lex_lt_eq_l.
  - right. split; [by etrans|]. rewrite <-Ht in P2. revert P1 P2. unfold pre_lt.
    destruct (fv_prerelease u) as [[t1 n1]|], (fv_prerelease v) as [[t2 n2]|],
      (fv_prerelease w) as [[t3 n3]|]; try done.
    intros [(i & j & Hi & Hj & Hij)|(-> & x & y & -> & -> & Hxy)]
           [(j' & k & Hj' & Hk & Hjk)|(-> & y' & z & Hy' & -> & Hyz)]; simplify_eq.
    + left. exists i, k. auto with lia.
    + left. eauto 10.
    + left. eauto 10.
    + right. split; [done|]. exists x, z. auto with lia.
Qed.

Lemma version_lt_irrefl u v : same_structure u v → version_eq u v → ¬ version_lt u v.
Proof.
  intros _ [Heq Hpre] [H|[_ H]]; [by eapply lex_lt_irrefl|].
  rewrite Hpre in H. unfold pre_lt in H. destruct (fv_prerelease v) as [[t n]|]; [|done].
  destruct H as [(i & j & Hi & Hj & Hlt)|(_ & x & y & -> & ? & Hlt)]; simplify_eq; lia.
Qed.

Lemma version_trichotomy u v :
  same_structure u v → numbered u → numbered v →
  version_lt u v ∨ version_eq u v ∨ version_lt v u.
Proof.
  intros [Ht _] Hu Hv. unfold version_lt, version_eq.
  destruct (list_ltb_total _ _ (length_pad_pair (fv_version u) (fv_version v))) as [H|[H|H]].
  - left. left. by apply padded_ltb.
  - apply padded_eq in H. rewrite <-!Ht. unfold numbered in *. unfold pre_lt.
    destruct (fv_prerelease u) as [[t1 n1]|], (fv_prerelease v) as [[t2 n2]|]; [|naive_solver..].
    destruct Hu as [Ht1 [x ->]], Hv as [Ht2 [y ->]]. rewrite <-Ht in Ht2.
    destruct (last_index_spec _ _ 0 Ht1) as (i & Hi & Hti).
    destruct (last_index_spec _ _ 0 Ht2) as (j & Hj & Htj). rewrite Nat.add_0_r in Hi, Hj.
    destruct (Nat.lt_trichotomy i j) as [Hij|[->|Hij]].
    + left. right. split; [done|]. left. eauto 10.
    + simplify_eq. destruct (Z.lt_trichotomy x y) as [Hxy|[->|Hxy]]; [|by auto|].
      * left. right. split; [done|]. right. eauto 10.
      * do 2 right. right. split; [done|]. right. eauto 10.
    + do 2 right. right. split; [done|]. left. eauto 10.
  - do 2 right. left. by apply padded_ltb.
Qed.

(** The versions of packages and of installed extensions: what [FlexibleVersion(s)]
    gives for a text whose pre-release, if any, has a number. *)
Definition comparable (v : FlexibleVersion) : Prop :=
  fv_sep v = "." ∧ fv_prerel_tags v = default_tags ∧ numbered v.

Lemma comparable_lt u v :
  comparable u → comparable v → ∃ b, fv_lt u v = Ok b ∧ (b = true ↔ version_lt u v).
Proof. intros (? & ? & ?) (? & ? & ?). apply fv_lt_spec; [split; congruence|done..]. Qed.

Lemma comparable_eq u v :
  comparable u → comparable v → ∃ b, fv_eq u v = Ok b ∧ (b = true ↔ version_eq u v).
Proof. intros (? & ? & ?) (? & ? & ?). apply fv_eq_spec. split; congruence. Qed.

Lemma version_nlt_trans u v w :
  comparable u → comparable v → comparable w →
  ¬ version_lt v u → ¬ version_lt w v → ¬ version_lt w u.
Proof.
  intros (?&?&Hu) (?&?&Hv) (?&?&Hw) Hvu Hwv Hwu.
  assert (same_structure u v ∧ same_structure v w ∧ same_structure w u ∧ same_structure v u ∧
          same_structure w v) as (S1 & S2 & S3 & S4 & S5) by (repeat split; congruence).
  destruct (version_trichotomy u v S1 Hu Hv) as [Huv|[[Huv Puv]|?]]; [|..|done].
  - apply Hwv. by eapply version_lt_trans with u.
  - destruct (version_trichotomy v w S2 Hv Hw) as [Hvw|[[Hvw Pvw]|?]]; [..|done].
    + apply Hvu. by eapply version_lt_trans with w.
    + eapply (version_lt_irrefl w u S3); [|exact Hwu]. split; [|congruence].
      intros k. by rewrite <-Hvw, <-Huv.
Qed.

Lemma version_lt_nlt u v : comparable u → comparable v → version_lt u v → ¬ version_lt v u.
Proof.
  intros (?&?&Hu) (?&?&Hv) Huv Hvu. eapply (version_lt_irrefl u u); [done| |].
  - split; [|done]. by intros k.
  - eapply version_lt_trans with v; [split; congruence..|done|done].
Qed.

Lemma version_nlt_refl u : comparable u → ¬ version_lt u u.
Proof. intros Hu H. by eapply version_lt_nlt; [exact Hu|exact Hu|..]. Qed.

(** ** Properties *)

(** A version that was parsed prints to a text that parses to the same version:
    [str] loses nothing (leading zeros apart, which parsing already dropped). *)
Theorem version_roundtrip (s : string) (v : FlexibleVersion) :
  s ≠ "" → FV s = Ok v → FV (fv_str v) = Ok v.
Proof. intros Hs Hv. apply FV_str. by eapply FV_wf. Qed.

Lemma version_roundtrip_witness :
  ∃ v, fv_str v = "1.2-rc3" ∧ FV (fv_str v) = Ok v.
Proof.
  exists (mkFV "." (Some "-") default_tags (Some ("rc", Some 3)) [1; 2]). split; [reflexivity|].
  apply (version_roundtrip "01.2-rc3"); [discriminate|vm_compute; reflexivity].
Defined.

(** On versions of one structure whose pre-releases are numbered, comparison
    never raises, exactly one of [u < v], [u == v], [v < u] holds, and [<] is
    transitive: sorting a manifest by version is well defined. *)
Theorem version_total_order (u v w : FlexibleVersion) :
  same_structure u v → same_structure v w → numbered u → numbered v → numbered w →
  (∃ a b c, fv_lt u v = Ok a ∧ fv_eq u v = Ok b ∧ fv_lt v u = Ok c ∧
     (a, b, c) ∈ [(true, false, false); (false, true, false); (false, false, true)]) ∧
  (fv_lt u v = Ok true → fv_lt v w = Ok true → fv_lt u w = Ok true).
Proof.
  intros Huv Hvw Hu Hv Hw.
  destruct (fv_lt_spec u v Huv Hu Hv) as (a & Ea & Ha).
  destruct (fv_lt_spec v u (same_structure_sym _ _ Huv) Hv Hu) as (c & Ec & Hc).
  destruct (fv_eq_spec u v Huv) as (b & Eb & Hb).
  destruct (fv_lt_spec v w Hvw Hv Hw) as (d & Ed & Hd).
  assert (same_structure u w) as Huw by (destruct Huv, Hvw; split; congruence).
  destruct (fv_lt_spec u w Huw Hu Hw) as (e & Ee & He).
  split.
  - exists a, b, c. split_and!; [done..|]. rewrite elem_of_three.
    pose proof (version_trichotomy u v Huv Hu Hv) as Htri.
    pose proof (version_lt_irrefl u v Huv) as Hirr.
    assert (version_lt u v → ¬ version_lt v u) as Hasym.
    { intros H1 H2. apply (version_lt_irrefl u u); [done|by split|].
      apply (version_lt_trans u v u); auto using same_structure_sym. }
    assert (version_eq u v → ¬ version_lt v u) as Hirr'.
    { intros [H1 H2]. apply version_lt_irrefl; [by apply same_structure_sym|].
      by split; [intros i; rewrite H1|]. }
    destruct a, b, c; naive_solver.
  - rewrite Ea, Ed, Ee. intros [= ->] [= ->]. f_equal. apply He.
    apply (version_lt_trans u v w); naive_solver.
Qed.

Lemma version_total_order_witness :
  fv_lt <$> FV "1.9" = Ok (fv_lt (mkFV "." None default_tags None [1; 9])) ∧
  fv_lt (mkFV "." None default_tags None [1; 9])
        (mkFV "." None default_tags (Some ("rc", Some 1)) [1; 11]) = Ok true.
Proof.
  split; [vm_compute; reflexivity|].
  apply (version_total_order _ (mkFV "." None default_tags None [1; 10; 0]) _);
    first [by split|done|split; [unfold default_tags; apply elem_of_three; auto|by eexists]|
           vm_compute; reflexivity].
Defined.

(** [<] raises [TypeError] on two pre-releases of the same release and tag when
    one of them has no number: [1.0alpha < 1.0alpha1] does not compare, although
    [1.0alpha] is accepted by the parser. *)
Theorem unnumbered_prerelease_lt_raises (v w : FlexibleVersion) (tag : string) (n m : option Z) :
  same_structure v w → lex_eq (fv_version v) (fv_version w) →
  fv_prerelease v = Some (tag, n) → fv_prerelease w = Some (tag, m) →
  tag ∈ fv_prerel_tags v → n = None ∨ m = None →
  ∃ e, fv_lt v w = Err e ∧ e_class e = TypeError.
Proof.
  intros Hs Heq Hv Hw Htag Hnm. unfold fv_lt. rewrite ensure_compatible_ok by done. cbn.
  apply padded_eq in Heq. rewrite Heq, Hv, Hw.
  destruct (last_index_spec _ _ 0 Htag) as (i & Hi & _). unfold tag_index. rewrite Hi.
  rewrite bool_decide_eq_false_2 by tauto. rewrite bool_decide_eq_false_2 by naive_solver. cbn.
  rewrite bool_decide_eq_true_2 by done.
  destruct n, m; naive_solver.
Qed.

Lemma unnumbered_prerelease_lt_raises_witness :
  ∃ v w e, FV "1.0alpha" = Ok v ∧ FV "1.0alpha1" = Ok w ∧ fv_lt v w = Err e ∧ e_class e = TypeError.
Proof.
  exists (mkFV "." None default_tags (Some ("alpha", None)) [1; 0]),
         (mkFV "." None default_tags (Some ("alpha", Some 1)) [1; 0]).
  destruct (unnumbered_prerelease_lt_raises
    (mkFV "." None default_tags (Some ("alpha", None)) [1; 0])
    (mkFV "." None default_tags (Some ("alpha", Some 1)) [1; 0]) "alpha" None (Some 1))
    as (e & He & Hc); [done|done|done|done|unfold default_tags; apply elem_of_three; auto|auto|].
  exists e. split; [vm_compute; reflexivity|]. split; [vm_compute; reflexivity|]. done.
Defined.

(** A requested version matches a package exactly when its components are a
    prefix of the package's: [1.2] selects every [1.2.x]. *)
Theorem matches_prefix (v w : FlexibleVersion) :
  same_structure v w → matches v w = true ↔ fv_version v `prefix_of` fv_version w.
Proof.
  intros [Ht Hs]. unfold matches. rewrite bool_decide_eq_false_2 by naive_solver. simpl.
  assert (∀ l1 l2, matches_components l1 l2 = true ↔ l1 `prefix_of` l2) as Hmc.
  { induction l1 as [|x l1 IH]; intros [|y l2]; simpl.
    - split; [intros; apply prefix_nil|done].
    - split; [intros; apply prefix_nil|done].
    - split; [done|]. by intros ?%prefix_nil_not.
    - destruct (Z.eqb_spec x y) as [->|Hne].
      + rewrite IH. split; [apply prefix_cons|apply prefix_cons_inv_2].
      + split; [done|]. by intros ?%prefix_cons_inv_1. }
  rewrite <-Hmc. case_bool_decide as Hlen.
  - split; [done|]. rewrite Hmc. intros ?%prefix_length. lia.
  - destruct (matches_components _ _) eqn:E; simpl; [|naive_solver].
    rewrite bool_decide_eq_true_2 by done. by destruct (fv_prerel_tags v).
Qed.

Lemma matches_prefix_witness :
  matches (mkFV "." None default_tags None [1; 2]) (mkFV "." None default_tags None [1; 2; 7]) = true.
Proof. apply matches_prefix; [by split|]. by exists [7]. Defined.

Lemma bump_last_app (l : list Z) (x d : Z) : bump_last (l ++ [x]) d = Ok (l ++ [x + d]).
Proof. unfold bump_last. rewrite reverse_app. simpl. by rewrite reverse_cons, reverse_involutive. Qed.

Lemma wf_version_bump (v : FlexibleVersion) (l : list Z) (x y : Z) :
  wf_version v → fv_version v = l ++ [x] → 0 ≤ y →
  wf_version (mkFV (fv_sep v) (fv_prerel_sep v) (fv_prerel_tags v) (fv_prerelease v) (l ++ [y])).
Proof.
  intros (H1 & H2 & H3 & H4 & H5) Hv Hy. rewrite Hv in H4.
  apply Forall_app in H4 as [H4 _]. split_and!; simpl; [done|done| | |done].
  - by destruct l.
  - apply Forall_app. split; [done|]. by constructor.
Qed.

(** Adding to a version adds to its last component, and subtracting at most the
    last component subtracts from it; everything else of the version is kept. *)
Theorem add_sub_last_component (v : FlexibleVersion) (l : list Z) (x d : Z) :
  wf_version v → fv_version v = l ++ [x] → 0 ≤ d →
  fv_add v d = Ok (mkFV (fv_sep v) (fv_prerel_sep v) (fv_prerel_tags v) (fv_prerelease v) (l ++ [x + d]))
  ∧ (0 < x → d ≤ x →
     fv_sub v d = Ok (mkFV (fv_sep v) (fv_prerel_sep v) (fv_prerel_tags v) (fv_prerelease v) (l ++ [x - d]))).
Proof.
  intros Hwf Hv Hd.
  assert (0 ≤ x) as Hx.
  { destruct Hwf as (_ & _ & _ & H4 & _). rewrite Hv in H4. apply Forall_app in H4 as [_ H4].
    by inversion H4. }
  assert (∀ y, 0 ≤ y →
    new_version (assemble (l ++ [y]) (fv_sep v) (fv_prerel_sep v) (fv_prerelease v)) (fv_sep v)
      (fv_prerel_tags v) =
    Ok (mkFV (fv_sep v) (fv_prerel_sep v) (fv_prerel_tags v) (fv_prerelease v) (l ++ [y]))) as Hnew.
  { intros y Hy. pose proof (wf_version_bump v l x y Hwf Hv Hy) as Hwf'.
    pose proof (FV_str _ Hwf') as H. destruct Hwf as (Hs & Ht & _). rewrite Hs, Ht in *. exact H. }
  split.
  - unfold fv_add. rewrite Hv, bump_last_app. cbn. apply Hnew. lia.
  - intros Hpos Hdx. unfold fv_sub. rewrite Hv, last_snoc.
    rewrite (proj2 (Z.leb_gt x 0) Hpos), bump_last_app. cbn. rewrite Z.add_opp_r. apply Hnew. lia.
Qed.

Lemma add_sub_last_component_witness :
  fv_add (mkFV "." None default_tags None [2; 7]) 3 = Ok (mkFV "." None default_tags None [2; 10]).
Proof.
  apply (add_sub_last_component (mkFV "." None default_tags None [2; 7]) [2] 7 3).
  - unfold wf_version; simpl. split_and!; [done|done|done|repeat constructor; lia|done].
  - done.
  - lia.
Defined.

(** ** The exceptions of parsing and comparing are ordinary ones *)

Lemma map_res_fails {A B} P (f : A → res exn B) l : (∀ x, fails_with P (f x)) → fails_with P (map_res f l).
Proof. intros Hf. induction l as [|x l IH]; simpl; raises_auto; by try apply Hf. Qed.

Lemma py_int_ordinary s : fails_with ordinary (py_int s).
Proof. unfold py_int. raises_auto. Qed.
#[export] Hint Resolve py_int_ordinary map_res_fails : raises.

Lemma FV_ordinary s : fails_with ordinary (FV s).
Proof. unfold FV, new_version, parse. raises_auto. Qed.

Lemma ensure_compatible_ordinary u v : fails_with ordinary (ensure_compatible u v).
Proof. unfold ensure_compatible. raises_auto. Qed.
#[export] Hint Resolve FV_ordinary ensure_compatible_ordinary : raises.

Lemma fv_eq_ordinary u v : fails_with ordinary (fv_eq u v).
Proof. unfold fv_eq. raises_auto. Qed.

Lemma fv_lt_ordinary u v : fails_with ordinary (fv_lt u v).
Proof. unfold fv_lt, tag_index, opt_ltb. raises_auto. Qed.
#[export] Hint Resolve fv_eq_ordinary fv_lt_ordinary : raises.

Lemma fv_ne_ordinary u v : fails_with ordinary (fv_ne u v).
Proof. unfold fv_ne. raises_auto. Qed.
Lemma fv_gt_ordinary u v : fails_with ordinary (fv_gt u v).
Proof. unfold fv_gt. raises_auto. Qed.
Lemma fv_le_ordinary u v : fails_with ordinary (fv_le u v).
Proof. unfold fv_le. raises_auto. Qed.
#[export] Hint Resolve fv_ne_ordinary fv_gt_ordinary fv_le_ordinary : raises.

(** ** Versions without a dash

    The directory of a handler is named [<name>-<version>]: the version is what follows
    the last dash, so that printing it must not add one. *)
Definition no_dash (s : string) : bool := str_forallb (λ c, negb (Ascii.eqb c "-")) s.

(** A match splits the text. *)
Definition splits (m : matcher) : Prop := ∀ s a r, (a, r) ∈ m s → s = a +:+ r.

Lemma lit_splits p : splits (lit p).
Proof.
  intros s a r. unfold lit. destruct (strip_prefix p s) as [t|] eqn:Ht; [|by intros ?%elem_of_nil].
  intros [= -> ->]%list_elem_of_singleton. by apply strip_prefix_Some.
Qed.

Lemma seq_splits m1 m2 : splits m1 → splits m2 → splits (seq m1 m2).
Proof.
  intros H1 H2 s a r. unfold seq. rewrite list_in_bind. intros ([x r1] & H & Hx).
  apply list_in_bind in H as ([y r2] & H & Hy). apply list_elem_of_singleton in H as [= -> ->].
  rewrite (H1 _ _ _ Hx), (H2 _ _ _ Hy). by rewrite string_app_assoc.
Qed.

Lemma star_splits n m : splits m → splits (star n m).
Proof.
  intros Hm. induction n as [|n IH]; intros s a r; simpl.
  - by intros [= -> ->]%list_elem_of_singleton.
  - rewrite elem_of_app. intros [H|[= -> ->]%list_elem_of_singleton]; [|done].
    exact (seq_splits m (star n m) Hm IH _ _ _ H).
Qed.

Lemma digits_star_splits : splits digits_star.
Proof.
  intros s. induction s as [|c s IH]; intros a r; simpl.
  - by intros [= -> ->]%list_elem_of_singleton.
  - destruct (is_digit c); [|by intros [= -> ->]%list_elem_of_singleton].
    rewrite elem_of_app. intros [H|[= -> ->]%list_elem_of_singleton]; [|done].
    apply list_elem_of_fmap in H as ([x y] & [= -> ->] & H). unfold id.
    by rewrite string_app_cons, <-(IH _ _ H).
Qed.

Lemma digits_plus_splits : splits digits_plus.
Proof.
  intros [|c s] a r; simpl; [by intros ?%elem_of_nil|]. destruct (is_digit c); [|by intros ?%elem_of_nil].
  intros ([x y] & [= -> ->] & H)%list_elem_of_fmap. unfold id.
  by rewrite string_app_cons, <-(digits_star_splits _ _ _ H).
Qed.

Lemma version_group_splits sep : splits (version_group sep).
Proof.
  intros s. unfold version_group. apply seq_splits; [apply digits_plus_splits|].
  apply star_splits, seq_splits; [apply lit_splits|apply digits_plus_splits].
Qed.

Lemma release_sep_in tags s ps tag num r :
  (Some (ps, tag, num), r) ∈ release_group tags s → no_dash s = true → ps ≠ Some "-".
Proof.
  destruct tags as [|t tags]; unfold release_group; [set_solver|]. set (ts := t :: tags).
  rewrite elem_of_app, list_in_bind. intros [([ps' r1] & H & H1)|H]; [|set_solver].
  apply list_in_bind in H as ([tag' r2] & H & _). apply list_in_bind in H as ([num' r3] & H & _).
  apply list_elem_of_singleton in H. simplify_eq. intros Hs ->.
  unfold prerel_sep_group in H1. apply elem_of_app in H1 as [H1|H1]; [|set_solver].
  apply list_elem_of_fmap in H1 as ([p q] & Heq & H1). simpl in Heq. simplify_eq.
  unfold alt in H1. apply list_in_bind in H1 as (m & Hm & Hin).
  rewrite elem_of_cons, list_elem_of_singleton in Hin.
  destruct Hin as [->| ->]; pose proof (lit_splits _ _ _ _ Hm) as ->; [|done].
  unfold lit in Hm. destruct (strip_prefix _ _); set_solver.
Qed.

Lemma FV_sep_no_dash s v : FV s = Ok v → no_dash s = true → fv_prerel_sep v ≠ Some "-".
Proof.
  unfold FV, new_version. destruct (String.eqb_spec s "") as [->|Hs]; [by intros [= <-]|]. unfold parse.
  destruct (version_re "." default_tags s) as [[vt rel]|] eqn:Hre; [|done].
  destruct (map_res py_int (str_split "." vt)) as [zs|] eqn:Hzs; cbn; [|done].
  destruct rel as [[[ps tag] num]|]; [|by intros [= <-]]. intros Hv Hd.
  assert (ps ≠ Some "-") as Hps.
  { unfold version_re in Hre. apply head_Some_elem_of in Hre.
    apply list_in_bind in Hre as ([v1 r1] & Hre & Hv1).
    apply list_in_bind in Hre as ([rel r2] & Hre & Hin). destruct (at_end r2); [|set_solver].
    apply list_elem_of_singleton in Hre. simplify_eq. eapply release_sep_in; [done|].
    pose proof (version_group_splits _ _ _ _ Hv1) as ->. unfold no_dash in *.
    rewrite str_forallb_app in Hd. by apply andb_true_iff in Hd as [_ ?]. }
  destruct (String.eqb num ""); cbn in Hv; [by simplify_eq|]. destruct (py_int num); by simplify_eq/=.
Qed.

Lemma no_dash_app a b : no_dash (a +:+ b) = no_dash a && no_dash b.
Proof. apply str_forallb_app. Qed.

Lemma digits_no_dash s : str_forallb is_digit s = true → no_dash s = true.
Proof.
  unfold no_dash. induction s as [|c s IH]; simpl; [done|]. intros [Hc Hs]%andb_true_iff.
  rewrite IH by done. rewrite andb_true_r. destruct (Ascii.eqb_spec c "-"); [by subst|done].
Qed.

Lemma pretty_no_dash (z : Z) : 0 ≤ z → no_dash (pretty z) = true.
Proof. intros Hz. apply digits_no_dash. apply pretty_Z_digits in Hz. by apply andb_true_iff in Hz as [_ ?]. Qed.

Lemma join_no_dash l : Forall (λ n, 0 ≤ n) l → no_dash (str_join "." (pretty <$> l)) = true.
Proof.
  induction 1 as [|z l Hz Hl IH]; [done|]. destruct l as [|y l]; [by apply pretty_no_dash|].
  change (str_join "." (pretty <$> z :: y :: l)) with (pretty z +:+ "." +:+ str_join "." (pretty <$> y :: l)).
  rewrite !no_dash_app, IH, pretty_no_dash by done. done.
Qed.

Lemma fv_str_no_dash s v : FV s = Ok v → no_dash s = true → no_dash (fv_str v) = true.
Proof.
  intros Hv Hs. destruct (decide (s = "")) as [->|Hne]; [by injection Hv as <-|].
  pose proof (FV_sep_no_dash _ _ Hv Hs) as Hsep. apply FV_wf in Hv as (Hdot & _ & _ & Hpos & Hpre); [|done].
  unfold fv_str, assemble. rewrite Hdot. destruct (fv_prerelease v) as [[tag num]|]; [|by apply join_no_dash].
  destruct Hpre as (Hps & Htag & Hnum). rewrite !no_dash_app, join_no_dash by done.
  assert (no_dash (match num with Some n => pretty n | None => "" end) = true) as ->
    by (destruct num; [by apply pretty_no_dash|done]).
  rewrite andb_true_r, andb_true_l. apply andb_true_iff. split.
  - apply elem_of_three in Hps as [Hps|[Hps|Hps]]; rewrite Hps in *; [done..|congruence].
  - apply elem_of_three in Htag as [->|[->| ->]]; done.
Qed.
