(* ===== verification/Datetime.v ===== *)
(** * Timestamps (common/utils/timeutil.py)

    A UTC [datetime] as Python keeps it, field by field, with the two conversions the agent
    uses for the files it keeps: [create_utc_timestamp], which goes through
    [datetime.isoformat], and [strptime] with the format [%Y-%m-%dT%H:%M:%S.%fZ].
    Differences of datetimes are differences of [to_us], in microseconds. *)
From S2P Require Import Prelude PyExn FlexVersion.
From Stdlib Require Import Ascii.

Record datetime := mkDatetime {
  dt_year : Z;
  dt_month : Z;
  dt_day : Z;
  dt_hour : Z;
  dt_minute : Z;
  dt_second : Z;
  dt_microsecond : Z
}.

#[export] Instance datetime_eq_dec : EqDecision datetime.
Proof. solve_decision. Defined.

(** ** The calendar *)

Definition is_leap (y : Z) : bool := (y mod 4 =? 0) && (negb (y mod 100 =? 0) || (y mod 400 =? 0)).

Definition month_lengths (y : Z) : list Z :=
  [31; if is_leap y then 29 else 28; 31; 30; 31; 30; 31; 31; 30; 31; 30; 31].

Definition days_in_month (y m : Z) : Z := default 0 (month_lengths y !! Z.to_nat (m - 1)).

Definition days_before_month (y m : Z) : Z := foldr Z.add 0 (take (Z.to_nat (m - 1)) (month_lengths y)).

Definition days_before_year (y : Z) : Z :=
  let p := y - 1 in p * 365 + p / 4 - p / 100 + p / 400.

(** [date.toordinal] *)
Definition toordinal (y m d : Z) : Z := days_before_year y + days_before_month y m + d.

Definition to_us (t : datetime) : Z :=
  (((toordinal (dt_year t) (dt_month t) (dt_day t) * 24 + dt_hour t) * 60 + dt_minute t) * 60 + dt_second t) * 1000000
  + dt_microsecond t.

(** What the constructor of [datetime] accepts *)
Definition valid_datetime (t : datetime) : bool :=
  (1 <=? dt_year t) && (dt_year t <=? 9999) && (1 <=? dt_month t) && (dt_month t <=? 12) &&
  (1 <=? dt_day t) && (dt_day t <=? days_in_month (dt_year t) (dt_month t)) &&
  (0 <=? dt_hour t) && (dt_hour t <=? 23) && (0 <=? dt_minute t) && (dt_minute t <=? 59) &&
  (0 <=? dt_second t) && (dt_second t <=? 59) && (0 <=? dt_microsecond t) && (dt_microsecond t <=? 999999).

(** ** Printing *)

Definition digit_char (z : Z) : ascii := ascii_of_nat (48 + Z.to_nat z).

(** ["%0nd" % z] for a number of at most [n] digits *)
Fixpoint fixed (n : nat) (z : Z) : string :=
  match n with
  | O => ""
  | S n' => fixed n' (z / 10) +:+ String (digit_char (z mod 10)) ""
  end.

(** [isoformat()] of a datetime without a time zone *)
Definition isoformat (t : datetime) : string :=
  fixed 4 (dt_year t) +:+ "-" +:+ fixed 2 (dt_month t) +:+ "-" +:+ fixed 2 (dt_day t) +:+ "T" +:+
  fixed 2 (dt_hour t) +:+ ":" +:+ fixed 2 (dt_minute t) +:+ ":" +:+ fixed 2 (dt_second t) +:+
  (if dt_microsecond t =? 0 then "" else "." +:+ fixed 6 (dt_microsecond t)).

(** [create_utc_timestamp], for a datetime in UTC *)
Definition create_utc_timestamp (t : datetime) : string :=
  isoformat t +:+ (if dt_microsecond t =? 0 then ".000000Z" else "Z").

(** ** Parsing

    The fields of [strptime] as its regular expression has them: a number of one or two
    digits in a range, two digits being tried first.  Letters match in either case. *)

Definition lit_ci (c : ascii) (s : string) : list string :=
  match s with
  | String d r => if Ascii.eqb (ascii_lower d) (ascii_lower c) then [r] else []
  | EmptyString => []
  end.

Definition in_range (lo hi v : Z) : bool := (lo <=? v) && (v <=? hi).

Definition num_field (lo hi : Z) (s : string) : list (Z * string) :=
  match s with
  | String a (String b r) =>
      let v := digit_value a * 10 + digit_value b in
      if is_digit a && is_digit b && in_range lo hi v then [(v, r)] else []
  | _ => []
  end ++
  match s with
  | String a r => if is_digit a && in_range lo hi (digit_value a) then [(digit_value a, r)] else []
  | EmptyString => []
  end.

Definition year_field (s : string) : list (Z * string) :=
  let y := str_take 4 s in
  if bool_decide (String.length y = 4%nat) && is_digits y
  then [(int_of_digits y, String.substring 4 (String.length s - 4) s)] else [].

(** A day may also be a space and a digit. *)
Definition day_field (s : string) : list (Z * string) :=
  num_field 1 31 s ++
  match s with
  | String " " (String a r) => if is_digit a && in_range 1 9 (digit_value a) then [(digit_value a, r)] else []
  | _ => []
  end.

(** One to six digits, the first of which are tenths; a letter follows. *)
Definition micro_field (s : string) : list (Z * string) :=
  let '(d, r) := span is_digit s in
  let n := String.length d in
  if bool_decide (1 ≤ n ≤ 6)%nat then [(int_of_digits d * 10 ^ Z.of_nat (6 - n), r)] else [].

Definition parse_datetime (s : string) : list datetime :=
  '(y, s) ← year_field s; s ← lit_ci "-" s;
  '(m, s) ← num_field 1 12 s; s ← lit_ci "-" s;
  '(d, s) ← day_field s; s ← lit_ci "T" s;
  '(h, s) ← num_field 0 23 s; s ← lit_ci ":" s;
  '(mi, s) ← num_field 0 59 s; s ← lit_ci ":" s;
  '(sec, s) ← num_field 0 59 s; s ← lit_ci "." s;
  '(us, s) ← micro_field s; s ← lit_ci "Z" s;
  if String.eqb s "" then [mkDatetime y m d h mi sec us] else [].

(** [datetime.strptime(s, "%Y-%m-%dT%H:%M:%S.%fZ")] *)
Definition strptime (s : string) : res exn datetime :=
  match head (parse_datetime s) with
  | Some t => if valid_datetime t then Ok t else Err (py_error ValueError "day is out of range for month")
  | None => Err (py_error ValueError ("time data '" +:+ s +:+ "' does not match format '%Y-%m-%dT%H:%M:%S.%fZ'"))
  end.

Example strptime_ex :
  strptime "2024-02-29T09:08:07.000065Z" = Ok (mkDatetime 2024 2 29 9 8 7 65) ∧
  strptime "2024-2-9t9:8:7.5z" = Ok (mkDatetime 2024 2 9 9 8 7 500000) ∧
  is_ok (strptime "2023-02-29T00:00:00.0Z") = false ∧
  create_utc_timestamp (mkDatetime 2024 2 29 9 8 7 65) = "2024-02-29T09:08:07.000065Z".
Proof. vm_compute. auto. Qed.

(** ** Printed numbers *)

Lemma digit_char_spec z : 0 ≤ z < 10 → is_digit (digit_char z) = true ∧ digit_value (digit_char z) = z.
Proof.
  intros Hz. assert (z = 0 ∨ z = 1 ∨ z = 2 ∨ z = 3 ∨ z = 4 ∨ z = 5 ∨ z = 6 ∨ z = 7 ∨ z = 8 ∨ z = 9) as H by lia.
  by repeat destruct H as [->|H]; [..|subst z]; vm_compute.
Qed.

Lemma fixed_length n z : String.length (fixed n z) = n.
Proof. revert z. induction n as [|n IH]; intros z; [done|]. simpl. rewrite string_length_app, IH. simpl. lia. Qed.

Lemma fixed_digits n z : str_forallb is_digit (fixed n z) = true.
Proof.
  revert z. induction n as [|n IH]; intros z; [done|]. cbn [fixed]. rewrite str_forallb_app, IH. cbn [str_forallb].
  by rewrite (proj1 (digit_char_spec (z mod 10) ltac:(apply Z.mod_pos_bound; lia))).
Qed.

Lemma int_go_app acc a b : int_go acc (a +:+ b) = int_go (int_go acc a) b.
Proof. revert acc. induction a as [|c a IH]; intros acc; [done|]. rewrite string_app_cons. simpl. apply IH. Qed.

Lemma int_of_fixed n z : 0 ≤ z < 10 ^ Z.of_nat n → int_of_digits (fixed n z) = z.
Proof.
  revert z. induction n as [|n IH]; intros z Hz; [simpl in Hz; unfold int_of_digits; simpl; lia|].
  rewrite Nat2Z.inj_succ, Z.pow_succ_r in Hz by lia. cbn [fixed]. unfold int_of_digits. rewrite int_go_app.
  cbn [int_go]. fold (int_of_digits (fixed n (z / 10))). rewrite IH.
  - rewrite (proj2 (digit_char_spec (z mod 10) ltac:(apply Z.mod_pos_bound; lia))).
    pose proof (Z.div_mod z 10). lia.
  - split; [apply Z.div_pos; lia|]. apply Z.div_lt_upper_bound; lia.
Qed.

Lemma fixed_two z : 0 ≤ z < 100 →
  ∃ a b, fixed 2 z = String a (String b "") ∧ is_digit a = true ∧ is_digit b = true ∧
         digit_value a * 10 + digit_value b = z.
Proof.
  intros Hz. exists (digit_char (z / 10 mod 10)), (digit_char (z mod 10)). split; [done|].
  destruct (digit_char_spec (z / 10 mod 10)) as [-> ->]; [apply Z.mod_pos_bound; lia|].
  destruct (digit_char_spec (z mod 10)) as [-> ->]; [apply Z.mod_pos_bound; lia|].
  split_and!; [done..|]. rewrite (Z.mod_small (z / 10)).
  - pose proof (Z.div_mod z 10). lia.
  - split; [apply Z.div_pos; lia|]. apply Z.div_lt_upper_bound; lia.
Qed.

Lemma num_field_fixed lo hi z r : lo ≤ z ≤ hi → 0 ≤ z < 100 →
  ∃ l, num_field lo hi (fixed 2 z +:+ r) = (z, r) :: l.
Proof.
  intros Hr Hz. destruct (fixed_two z Hz) as (a & b & -> & Ha & Hb & Hv). rewrite !string_app_cons.
  unfold num_field. rewrite Ha, Hb, Hv. unfold in_range at 1.
  rewrite (proj2 (Z.leb_le lo z)), (proj2 (Z.leb_le z hi)) by lia. simpl. by eexists.
Qed.

Lemma str_take_app_length a b : str_take (String.length a) (a +:+ b) = a.
Proof. induction a as [|c a IH]; [by destruct b|]. rewrite string_app_cons. simpl. by rewrite IH. Qed.

Lemma substring_all n s : (String.length s ≤ n)%nat → String.substring 0 n s = s.
Proof. revert n. induction s as [|c s IH]; intros [|n] Hn; simpl in *; [done..|lia|]. rewrite IH; [done|lia]. Qed.

Lemma substring_app a b n : (String.length b ≤ n)%nat → String.substring (String.length a) n (a +:+ b) = b.
Proof. intros Hn. induction a as [|c a IH]; [by apply substring_all|]. rewrite string_app_cons. simpl. apply IH. Qed.

Lemma year_field_fixed y r : 0 ≤ y < 10000 → year_field (fixed 4 y +:+ r) = [(y, r)].
Proof.
  intros Hy. unfold year_field.
  assert (str_take 4 (fixed 4 y +:+ r) = fixed 4 y) as ->.
  { rewrite <-(fixed_length 4 y) at 1. apply str_take_app_length. }
  rewrite fixed_length, bool_decide_true by done. unfold is_digits. rewrite fixed_digits.
  assert (fixed 4 y ≠ "") as Hne by (intros H; pose proof (fixed_length 4 y) as Hl; by rewrite H in Hl).
  rewrite (proj2 (String.eqb_neq _ _) Hne). cbn [negb andb]. rewrite int_of_fixed by lia. do 2 f_equal.
  rewrite <-(fixed_length 4 y) at 1. apply substring_app. rewrite string_length_app, fixed_length. lia.
Qed.

Lemma span_digits d r :
  str_forallb is_digit d = true → (∀ c s, r = String c s → is_digit c = false) → span is_digit (d +:+ r) = (d, r).
Proof.
  intros Hd Hr. induction d as [|c d IH].
  - change ("" +:+ r) with r. destruct r as [|c r]; [done|]. simpl. by rewrite (Hr c r).
  - rewrite string_app_cons. simpl in *. apply andb_true_iff in Hd as [-> Hd]. by rewrite IH.
Qed.

Lemma micro_field_fixed us r : 0 ≤ us < 1000000 → (∀ c s, r = String c s → is_digit c = false) →
  micro_field (fixed 6 us +:+ r) = [(us, r)].
Proof.
  intros Hu Hr. unfold micro_field. rewrite span_digits; [|apply fixed_digits|done].
  rewrite fixed_length, bool_decide_true by lia. rewrite int_of_fixed by (simpl; lia).
  change (10 ^ Z.of_nat (6 - 6)) with 1. by rewrite Z.mul_1_r.
Qed.

Lemma timestamp_text t :
  create_utc_timestamp t =
  fixed 4 (dt_year t) +:+ "-" +:+ fixed 2 (dt_month t) +:+ "-" +:+ fixed 2 (dt_day t) +:+ "T" +:+
  fixed 2 (dt_hour t) +:+ ":" +:+ fixed 2 (dt_minute t) +:+ ":" +:+ fixed 2 (dt_second t) +:+ "." +:+
  fixed 6 (dt_microsecond t) +:+ "Z".
Proof.
  unfold create_utc_timestamp, isoformat. rewrite !string_app_assoc. do 11 f_equal.
  destruct (Z.eqb_spec (dt_microsecond t) 0) as [->|]; [done|]. by rewrite !string_app_assoc.
Qed.

Lemma days_in_month_le y m : days_in_month y m ≤ 31.
Proof.
  unfold days_in_month. destruct (month_lengths y !! Z.to_nat (m - 1)) as [n|] eqn:Hn; [|simpl; lia].
  apply list_elem_of_lookup_2 in Hn. unfold month_lengths in Hn. rewrite !elem_of_cons, elem_of_nil in Hn. simpl.
  destruct (is_leap y); lia.
Qed.

Lemma timestamp_parses t : valid_datetime t = true → head (parse_datetime (create_utc_timestamp t)) = Some t.
Proof.
  intros Hv. unfold valid_datetime in Hv. rewrite !andb_true_iff, !Z.leb_le in Hv.
  destruct Hv as [[[[[[[[[[[[[Hy1 Hy2] Hm1] Hm2] Hd1] Hd2] Hh1] Hh2] Hi1] Hi2] Hs1] Hs2] Hu1] Hu2].
  pose proof (days_in_month_le (dt_year t) (dt_month t)) as Hdim. rewrite timestamp_text. unfold parse_datetime.
  rewrite year_field_fixed by lia. eapply head_bind; [done|]. eapply head_bind; [done|].
  edestruct (num_field_fixed 1 12 (dt_month t)) as [lm Em]; [lia..|]. eapply head_bind; [exact Em|]. eapply head_bind; [done|].
  edestruct (num_field_fixed 1 31 (dt_day t)) as [ld Ed]; [lia..|]. unfold day_field.
  eapply head_bind; [rewrite Ed; done|]. eapply head_bind; [done|].
  edestruct (num_field_fixed 0 23 (dt_hour t)) as [lh Eh]; [lia..|]. eapply head_bind; [exact Eh|]. eapply head_bind; [done|].
  edestruct (num_field_fixed 0 59 (dt_minute t)) as [li Ei]; [lia..|]. eapply head_bind; [exact Ei|]. eapply head_bind; [done|].
  edestruct (num_field_fixed 0 59 (dt_second t)) as [ls Es]; [lia..|]. eapply head_bind; [exact Es|]. eapply head_bind; [done|].
  eapply head_bind; [apply micro_field_fixed; [lia|by intros c s [= <- <-]]|]. eapply head_bind; [done|].
  simpl. by destruct t.
Qed.

Lemma strptime_timestamp t : valid_datetime t = true → strptime (create_utc_timestamp t) = Ok t.
Proof. intros Hv. unfold strptime. by rewrite timestamp_parses, Hv. Qed.

(** ** The order

    The fields of valid datetimes compare, from the year down, as the microseconds do. *)

Definition fields (t : datetime) : list Z :=
  [dt_year t; dt_month t; dt_day t; dt_hour t; dt_minute t; dt_second t; dt_microsecond t].

Lemma days_before_year_succ y : days_before_year (y + 1) = days_before_year y + (if is_leap y then 366 else 365).
Proof.
  unfold days_before_year, is_leap. replace (y + 1 - 1) with y by lia.
  assert (∀ n, 0 < n → y / n = (y - 1) / n + (if y mod n =? 0 then 1 else 0)) as Hd.
  { intros n Hn. destruct (Z.eqb_spec (y mod n) 0); Z.to_euclidean_division_equations; nia. }
  rewrite (Hd 4), (Hd 100), (Hd 400) by lia.
  assert (y mod 400 = 0 → y mod 100 = 0) by (Z.to_euclidean_division_equations; lia).
  assert (y mod 100 = 0 → y mod 4 = 0) by (Z.to_euclidean_division_equations; lia).
  destruct (Z.eqb_spec (y mod 4) 0), (Z.eqb_spec (y mod 100) 0), (Z.eqb_spec (y mod 400) 0); simpl; lia.
Qed.

Lemma days_before_year_mono y y' : y < y' → days_before_year y + (if is_leap y then 366 else 365) ≤ days_before_year y'.
Proof.
  intros Hy. rewrite <-days_before_year_succ. replace y' with (y + 1 + Z.of_nat (Z.to_nat (y' - y - 1))) by lia.
  induction (Z.to_nat (y' - y - 1)) as [|n IH]; [by rewrite Z.add_0_r|].
  rewrite Nat2Z.inj_succ. unfold Z.succ. rewrite Z.add_assoc, (days_before_year_succ (y + 1 + Z.of_nat n)).
  destruct (is_leap _); lia.
Qed.

Ltac each_month m := assert (m = 1 ∨ m = 2 ∨ m = 3 ∨ m = 4 ∨ m = 5 ∨ m = 6 ∨ m = 7 ∨ m = 8 ∨ m = 9 ∨ m = 10 ∨
  m = 11 ∨ m = 12) as Hmonth by lia; repeat (destruct Hmonth as [->|Hmonth]); [..|subst m].

Lemma days_before_month_range y m : 1 ≤ m ≤ 12 →
  0 ≤ days_before_month y m ∧ days_before_month y m + days_in_month y m ≤ (if is_leap y then 366 else 365).
Proof.
  intros Hm. unfold days_before_month, days_in_month, month_lengths.
  each_month m; destruct (is_leap y); vm_compute; split; discriminate.
Qed.

Lemma days_before_month_succ y m : 1 ≤ m ≤ 11 →
  days_before_month y (m + 1) = days_before_month y m + days_in_month y m ∧ 0 ≤ days_in_month y m.
Proof.
  intros Hm. unfold days_before_month, days_in_month, month_lengths.
  assert (1 ≤ m ≤ 12) as Hm' by lia. each_month m; [..|lia]; destruct (is_leap y); vm_compute; split; done.
Qed.

Lemma days_before_month_mono y m m' : 1 ≤ m → m < m' → m' ≤ 12 →
  days_before_month y m + days_in_month y m ≤ days_before_month y m'.
Proof.
  intros H1 H2 H3. rewrite <-(proj1 (days_before_month_succ y m ltac:(lia))).
  replace m' with (m + 1 + Z.of_nat (Z.to_nat (m' - m - 1))) in * by lia.
  assert (∀ n, m + 1 + Z.of_nat n ≤ 12 → days_before_month y (m + 1) ≤ days_before_month y (m + 1 + Z.of_nat n)) as Hn.
  { induction n as [|n IH]; intros Hn; [by rewrite Z.add_0_r|].
    rewrite Nat2Z.inj_succ in *. unfold Z.succ in *. rewrite Z.add_assoc in *.
    destruct (days_before_month_succ y (m + 1 + Z.of_nat n)) as [-> ?]; lia. }
  apply Hn. lia.
Qed.

(** The ordinals of two valid dates *)
Lemma toordinal_lt y m d y' m' d' :
  1 ≤ m ≤ 12 → 1 ≤ d ≤ days_in_month y m → 1 ≤ m' ≤ 12 → 1 ≤ d' →
  y < y' ∨ (y = y' ∧ (m < m' ∨ (m = m' ∧ d < d'))) → toordinal y m d < toordinal y' m' d'.
Proof.
  intros Hm Hd Hm' Hd' H. unfold toordinal.
  pose proof (days_before_month_range y m Hm). pose proof (days_before_month_range y' m' Hm').
  destruct H as [Hy|[<- [Hlt|[<- Hlt]]]]; [|pose proof (days_before_month_mono y m m'); lia|lia].
  pose proof (days_before_year_mono y y' Hy). lia.
Qed.

Lemma list_ltb_irrefl l : list_ltb l l = false.
Proof. induction l as [|x l IH]; [done|]. simpl. by rewrite Z.eqb_refl. Qed.

Lemma to_us_lt t u : valid_datetime t = true → valid_datetime u = true →
  list_ltb (fields t) (fields u) = true → to_us t < to_us u.
Proof.
  unfold valid_datetime. rewrite !andb_true_iff, !Z.leb_le. intros Ht Hu.
  assert (∀ x y r, (if x =? y then r else x <? y) = true ↔ x < y ∨ (x = y ∧ r = true)) as Hif.
  { intros x y r. destruct (Z.eqb_spec x y) as [->|]; [|rewrite Z.ltb_lt]; naive_solver lia. }
  unfold fields. cbn [list_ltb]. rewrite !Hif.
  pose proof (toordinal_lt (dt_year t) (dt_month t) (dt_day t) (dt_year u) (dt_month u) (dt_day u)) as Hord.
  unfold to_us. intros Hlt.
  assert (toordinal (dt_year t) (dt_month t) (dt_day t) < toordinal (dt_year u) (dt_month u) (dt_day u) ∨
    (toordinal (dt_year t) (dt_month t) (dt_day t) = toordinal (dt_year u) (dt_month u) (dt_day u) ∧
     (dt_hour t < dt_hour u ∨ (dt_hour t = dt_hour u ∧ (dt_minute t < dt_minute u ∨ (dt_minute t = dt_minute u ∧
      (dt_second t < dt_second u ∨ (dt_second t = dt_second u ∧ dt_microsecond t < dt_microsecond u)))))))) as Hcase.
  { destruct Hlt as [Hlt|[Hy [Hlt|[Hm [Hlt|[Hd Hlt]]]]]]; [left; apply Hord; lia..|].
    right. rewrite Hy, Hm, Hd. split; [done|]. naive_solver. }
  lia.
Qed.

(** ** Timestamps as texts: the agent compares them with [<]. *)

(** Python's [<] on strings *)
Fixpoint str_ltb (s t : string) : bool :=
  match s, t with
  | _, EmptyString => false
  | EmptyString, String _ _ => true
  | String a s', String b t' => if Ascii.eqb a b then str_ltb s' t' else (nat_of_ascii a <? nat_of_ascii b)%nat
  end.

Lemma str_ltb_app p a b : str_ltb (p +:+ a) (p +:+ b) = str_ltb a b.
Proof. induction p as [|c p IH]; [done|]. rewrite !string_app_cons. simpl. by rewrite Ascii.eqb_refl. Qed.

Lemma str_ltb_irrefl s : str_ltb s s = false.
Proof. induction s as [|c s IH]; [done|]. simpl. by rewrite Ascii.eqb_refl. Qed.

Lemma str_ltb_asym s t : str_ltb s t = true → str_ltb t s = false.
Proof.
  revert t. induction s as [|x s IH]; intros [|y t]; simpl; try done.
  destruct (Ascii.eqb_spec x y), (Ascii.eqb_spec y x); subst; try done; [by apply IH|]. rewrite Nat.ltb_lt, Nat.ltb_ge. lia.
Qed.

(** The order of texts is total: its negation is transitive. *)
Lemma str_ltb_negtrans s t u : str_ltb s t = false → str_ltb t u = false → str_ltb s u = false.
Proof.
  revert t u. induction s as [|a s IH]; intros [|b t] [|c u]; try done. simpl.
  destruct (Ascii.eqb_spec a b), (Ascii.eqb_spec b c), (Ascii.eqb_spec a c); subst; try done; try by apply IH.
  all: rewrite ?Nat.ltb_ge; intros; try lia.
  exfalso. assert (nat_of_ascii b = nat_of_ascii c) as Hbc by lia.
  apply (f_equal ascii_of_nat) in Hbc. rewrite !ascii_nat_embedding in Hbc. done.
Qed.

Lemma digit_char_ltb x y a b : 0 ≤ x < 10 → 0 ≤ y < 10 →
  str_ltb (String (digit_char x) a) (String (digit_char y) b) = if x =? y then str_ltb a b else x <? y.
Proof.
  intros Hx Hy. cbn [str_ltb]. assert (∀ z, 0 ≤ z < 10 → nat_of_ascii (digit_char z) = (48 + Z.to_nat z)%nat) as Hc.
  { intros z Hz. unfold digit_char. apply nat_ascii_embedding. lia. }
  destruct (Z.eqb_spec x y) as [->|Hne]; [by rewrite Ascii.eqb_refl|]. rewrite (proj2 (Ascii.eqb_neq _ _)).
  - rewrite !Hc by done. destruct (Nat.ltb_spec (48 + Z.to_nat x) (48 + Z.to_nat y)), (Z.ltb_spec x y); lia.
  - intros He. apply (f_equal nat_of_ascii) in He. rewrite !Hc in He by done. lia.
Qed.

Lemma fixed_ltb n x y a b : 0 ≤ x < 10 ^ Z.of_nat n → 0 ≤ y < 10 ^ Z.of_nat n →
  str_ltb (fixed n x +:+ a) (fixed n y +:+ b) = if x =? y then str_ltb a b else x <? y.
Proof.
  revert x y a b. induction n as [|n IH]; intros x y a b Hx Hy.
  - simpl in *. assert (x = 0) as -> by lia. by assert (y = 0) as -> by lia.
  - rewrite Nat2Z.inj_succ, Z.pow_succ_r in Hx, Hy by lia. cbn [fixed]. rewrite !string_app_assoc, !string_app_cons.
    assert (∀ z, 0 ≤ z < 10 * 10 ^ Z.of_nat n → 0 ≤ z / 10 < 10 ^ Z.of_nat n) as Hd.
    { intros z Hz. split; [apply Z.div_pos; lia|]. apply Z.div_lt_upper_bound; lia. }
    rewrite IH by auto. rewrite digit_char_ltb by (apply Z.mod_pos_bound; lia).
    pose proof (Z.div_mod x 10). pose proof (Z.div_mod y 10).
    pose proof (Z.mod_pos_bound x 10). pose proof (Z.mod_pos_bound y 10).
    destruct (Z.eqb_spec (x / 10) (y / 10)), (Z.eqb_spec (x mod 10) (y mod 10)), (Z.eqb_spec x y); first [lia|done].
Qed.

Lemma timestamp_ltb t u : valid_datetime t = true → valid_datetime u = true →
  str_ltb (create_utc_timestamp t) (create_utc_timestamp u) = list_ltb (fields t) (fields u).
Proof.
  unfold valid_datetime. rewrite !andb_true_iff, !Z.leb_le. intros Ht Hu. rewrite !timestamp_text.
  pose proof (days_in_month_le (dt_year t) (dt_month t)). pose proof (days_in_month_le (dt_year u) (dt_month u)).
  repeat (rewrite fixed_ltb by (simpl; lia); rewrite str_ltb_app). rewrite fixed_ltb by (simpl; lia).
  rewrite str_ltb_irrefl. reflexivity.
Qed.

Lemma to_us_list_ltb t u : valid_datetime t = true → valid_datetime u = true →
  list_ltb (fields t) (fields u) = true ↔ to_us t < to_us u.
Proof.
  intros Ht Hu. split; [by apply to_us_lt|]. intros Hlt.
  destruct (list_ltb (fields t) (fields u)) eqn:Hf; [done|].
  destruct (list_ltb_total (fields t) (fields u) eq_refl) as [H|[H|H]]; [congruence| |].
  - assert (t = u) as -> by (destruct t, u; unfold fields in H; simpl in H; by simplify_eq). lia.
  - pose proof (to_us_lt u t Hu Ht H). lia.
Qed.

Lemma timestamp_lt t u : valid_datetime t = true → valid_datetime u = true →
  str_ltb (create_utc_timestamp t) (create_utc_timestamp u) = true ↔ to_us t < to_us u.
Proof. intros Ht Hu. rewrite timestamp_ltb by done. by apply to_us_list_ltb. Qed.

(** A timestamp that the agent writes is read back as the datetime it was made from,
    and the texts of two datetimes compare as the datetimes do, from the first year of the
    calendar to the last. *)
Theorem timestamps_round_trip_and_order (t u : datetime) :
  valid_datetime t = true → valid_datetime u = true →
  strptime (create_utc_timestamp t) = Ok t ∧
  (str_ltb (create_utc_timestamp t) (create_utc_timestamp u) = true ↔ to_us t < to_us u).
Proof. intros Ht Hu. split; [by apply strptime_timestamp|by apply timestamp_lt]. Qed.

Lemma timestamps_round_trip_and_order_witness :
  let t := mkDatetime 2024 2 29 9 8 7 65 in
  let u := mkDatetime 2024 3 1 0 0 0 0 in
  strptime (create_utc_timestamp t) = Ok t ∧
  (str_ltb (create_utc_timestamp t) (create_utc_timestamp u) = true ↔ to_us t < to_us u).
Proof. apply timestamps_round_trip_and_order; vm_compute; reflexivity. Defined.

Lemma strptime_ordinary s : fails_with ordinary (strptime s).
Proof. unfold strptime. raises_auto. Qed.
