(* ===== verification/Json.v ===== *)
(** * JSON documents and data contracts

    The values [json.loads] builds, the operations of Python dictionaries the agent
    applies to them, and [datacontract.py]: the conversion between JSON documents and
    the objects exchanged with the host ([set_properties], [get_properties]).

    A dictionary is the list of its items in insertion order; [dict_set] replaces an
    item in place, as Python does, so keys stay distinct.  A float is kept as its
    decimal literal: the agent prints and compares floats of status files but never
    computes with them. *)
From S2P Require Import Prelude PyExn.
From Stdlib Require Import Ascii.

Inductive json : Type :=
| JNull
| JBool (b : bool)
| JInt (z : Z)
| JFloat (literal : string)
| JStr (s : string)
| JArr (l : list json)
| JObj (d : list (string * json)).

(** [type(v).__name__] *)
Definition type_name (j : json) : string :=
  match j with
  | JNull => "NoneType" | JBool _ => "bool" | JInt _ => "int" | JFloat _ => "float"
  | JStr _ => "str" | JArr _ => "list" | JObj _ => "dict"
  end.

(** [bool(v)] *)
Definition truthy (j : json) : bool :=
  match j with
  | JNull => false
  | JBool b => b
  | JInt z => negb (z =? 0)
  | JFloat l => negb (bool_decide (l ∈ ["0.0"; "-0.0"]))
  | JStr s => negb (String.eqb s "")
  | JArr l => negb (bool_decide (length l = 0%nat))
  | JObj d => negb (bool_decide (length d = 0%nat))
  end.

Definition is_null (j : json) : bool := match j with JNull => true | _ => false end.

Section json_ind.
Variable P : json → Prop.
Hypothesis Hnull : P JNull.
Hypothesis Hbool : ∀ b, P (JBool b).
Hypothesis Hint : ∀ z, P (JInt z).
Hypothesis Hfloat : ∀ l, P (JFloat l).
Hypothesis Hstr : ∀ s, P (JStr s).
Hypothesis Harr : ∀ l, Forall P l → P (JArr l).
Hypothesis Hobj : ∀ d, Forall (λ kv, P kv.2) d → P (JObj d).

Fixpoint json_ind' (j : json) : P j :=
  match j with
  | JNull => Hnull
  | JBool b => Hbool b
  | JInt z => Hint z
  | JFloat l => Hfloat l
  | JStr s => Hstr s
  | JArr l => Harr l ((fix go l := match l return Forall P l with
                                   | [] => Forall_nil_2 _
                                   | x :: l' => Forall_cons_2 _ _ _ (json_ind' x) (go l')
                                   end) l)
  | JObj d => Hobj d ((fix go d := match d return Forall (λ kv, P kv.2) d with
                                   | [] => Forall_nil_2 _
                                   | (k, x) :: d' => Forall_cons_2 (λ kv, P kv.2) (k, x) _ (json_ind' x) (go d')
                                   end) d)
  end.
End json_ind.

(** ** [json.dumps] *)

Definition hex_digit (n : nat) : ascii :=
  if bool_decide (n < 10)%nat then ascii_of_nat (48 + n) else ascii_of_nat (87 + n).

Definition dquote : ascii := ascii_of_nat 34.

Definition json_char (c : ascii) : string :=
  let n := nat_of_ascii c in
  if bool_decide (n = 34 ∨ n = 92)%nat then String "\" (String c "")
  else if bool_decide (n = 10%nat) then "\n"
  else if bool_decide (n = 13%nat) then "\r"
  else if bool_decide (n = 9%nat) then "\t"
  else if bool_decide (n = 8%nat) then "\b"
  else if bool_decide (n = 12%nat) then "\f"
  else if bool_decide (n < 32 ∨ 126 < n)%nat
       then "\u00" +:+ String (hex_digit (n / 16)) (String (hex_digit (n mod 16)) "")
  else String c "".

Fixpoint json_chars (s : string) : string :=
  match s with
  | EmptyString => ""
  | String c s' => json_char c +:+ json_chars s'
  end.

Definition json_str (s : string) : string := String dquote (json_chars s +:+ String dquote "").

(** [json.dumps(v)] with its default separators, on ASCII text *)
Fixpoint json_dumps (j : json) : string :=
  match j with
  | JNull => "null"
  | JBool true => "true"
  | JBool false => "false"
  | JInt z => pretty z
  | JFloat l => l
  | JStr s => json_str s
  | JArr l => "[" +:+ str_join ", " (json_dumps <$> l) +:+ "]"
  | JObj d => "{" +:+ str_join ", " ((λ '(k, v), json_str k +:+ ": " +:+ json_dumps v) <$> d) +:+ "}"
  end.

(** ** Dictionaries *)

Section dict.
Context {V : Type}.

(** [d.get(k)] *)
Fixpoint dict_get (k : string) (d : list (string * V)) : option V :=
  match d with
  | [] => None
  | (k', v) :: d' => if String.eqb k k' then Some v else dict_get k d'
  end.

(** [d[k] = v] *)
Fixpoint dict_set (k : string) (v : V) (d : list (string * V)) : list (string * V) :=
  match d with
  | [] => [(k, v)]
  | (k', v') :: d' => if String.eqb k k' then (k, v) :: d' else (k', v') :: dict_set k v d'
  end.

Definition dict_keys (d : list (string * V)) : list string := d.*1.

Lemma dict_get_set_eq k v d : dict_get k (dict_set k v d) = Some v.
Proof.
  induction d as [|[k' v'] d IH]; simpl; [by rewrite String.eqb_refl|].
  destruct (String.eqb k k') eqn:E; simpl; [by rewrite String.eqb_refl|by rewrite E].
Qed.

Lemma dict_get_set_ne k k' v d : k ≠ k' → dict_get k (dict_set k' v d) = dict_get k d.
Proof.
  intros Hne. induction d as [|[j w] d IH]; simpl; [by rewrite (proj2 (String.eqb_neq k k'))|].
  destruct (String.eqb k' j) eqn:E; simpl; [|by rewrite IH].
  apply String.eqb_eq in E as ->. by rewrite (proj2 (String.eqb_neq k j)).
Qed.

Lemma dict_get_None k d : dict_get k d = None ↔ k ∉ dict_keys d.
Proof.
  induction d as [|[k' v] d IH]; simpl; [split; [by intros _ ?%elem_of_nil|done]|].
  rewrite not_elem_of_cons. destruct (String.eqb_spec k k') as [->|Hne]; [naive_solver|].
  rewrite IH. naive_solver.
Qed.

Lemma dict_set_app k v (d1 d2 : list (string * V)) v0 :
  k ∉ dict_keys d1 → dict_set k v (d1 ++ (k, v0) :: d2) = d1 ++ (k, v) :: d2.
Proof.
  induction d1 as [|[k' v'] d1 IH]; simpl; [by rewrite String.eqb_refl|].
  rewrite not_elem_of_cons. intros [Hne Hn].
  by rewrite (proj2 (String.eqb_neq k k')), IH.
Qed.

Lemma dict_set_new k v (d : list (string * V)) : k ∉ dict_keys d → dict_set k v d = d ++ [(k, v)].
Proof.
  induction d as [|[k' v'] d IH]; simpl; [done|]. rewrite not_elem_of_cons. intros [Hne Hn].
  by rewrite (proj2 (String.eqb_neq k k')), IH.
Qed.

Lemma elem_of_dict_set k v (d : list (string * V)) x : x ∈ dict_set k v d → x = (k, v) ∨ x ∈ d.
Proof.
  induction d as [|[k' v'] d IH]; cbn [dict_set]; [set_solver|].
  destruct (String.eqb k k'); rewrite !elem_of_cons; naive_solver.
Qed.

Lemma NoDup_dict_set k v (d : list (string * V)) : NoDup (dict_keys d) → NoDup (dict_keys (dict_set k v d)).
Proof.
  unfold dict_keys. induction d as [|[k' v'] d IH]; cbn [dict_set]; intros Hd; [by apply NoDup_singleton|].
  rewrite fmap_cons in Hd. apply NoDup_cons in Hd as [Hk Hd]. simpl in Hk.
  destruct (String.eqb_spec k k') as [->|Hne]; rewrite fmap_cons; apply NoDup_cons; simpl; [done|]. split; [|by apply IH].
  intros ([k1 v1] & -> & [[= -> ->]|Hx]%elem_of_dict_set)%list_elem_of_fmap; [done|]. apply Hk, list_elem_of_fmap. by exists (k1, v1).
Qed.

Lemma dict_get_elem k v (d : list (string * V)) : dict_get k d = Some v → (k, v) ∈ d.
Proof.
  induction d as [|[k' v'] d IH]; simpl; [done|]. destruct (String.eqb_spec k k') as [->|]; [intros [= ->]; left|right; by apply IH].
Qed.

Lemma dict_get_Some_2 k v (d : list (string * V)) : NoDup (dict_keys d) → (k, v) ∈ d → dict_get k d = Some v.
Proof.
  unfold dict_keys. induction d as [|[k' v'] d IH]; [by intros _ ?%elem_of_nil|]. rewrite fmap_cons, NoDup_cons. simpl. intros [Hk Hd].
  intros [[= -> ->]|Hx]%elem_of_cons; [by rewrite String.eqb_refl|]. destruct (String.eqb_spec k k') as [->|Hne]; [|by apply IH].
  destruct Hk. apply list_elem_of_fmap. by exists (k', v).
Qed.

Lemma dict_get_app k (d1 d2 : list (string * V)) v0 :
  k ∉ dict_keys d1 → dict_get k (d1 ++ (k, v0) :: d2) = Some v0.
Proof.
  induction d1 as [|[k' v'] d1 IH]; simpl; [by rewrite String.eqb_refl|].
  rewrite not_elem_of_cons. intros [Hne Hn]. by rewrite (proj2 (String.eqb_neq k k')), IH.
Qed.
End dict.

(** [v.get(k)] on a value that may not be a dictionary. *)
Definition json_get (k : string) (j : json) : res exn json :=
  match j with
  | JObj d => Ok (default JNull (dict_get k d))
  | _ => Err (py_error AttributeError ("'" +:+ type_name j +:+ "' object has no attribute 'get'"))
  end.

(** [obj.get(key, default)] *)
Definition json_get_default (key : string) (dflt obj : json) : res exn json :=
  match obj with
  | JObj d => Ok (default dflt (dict_get key d))
  | _ => json_get key obj
  end.

(** [v[k]] on a value that may not be a dictionary. *)
Definition json_getitem (k : string) (j : json) : res exn json :=
  match j with
  | JObj d => match dict_get k d with
              | Some v => Ok v
              | None => Err (py_error KeyError k)
              end
  | _ => Err (py_error TypeError ("'" +:+ type_name j +:+ "' object is not subscriptable"))
  end.

(** ** Data contracts *)

(** An attribute of a contract: another contract, a [DataContractList] with a fresh
    instance of its [item_cls], or plain data. *)
Inductive contract : Type :=
| CData (v : json)
| CObj (fields : list (string * contract))
| CList (item_cls : contract) (items : list contract).

Definition validate_param (name : string) (val : json) (is_expected : json → bool)
    (expected_name : string) : res exn unit :=
  if is_null val then
    Err (agent_error ProtocolError (name +:+ " is None") None (-1))
  else if negb (is_expected val) then
    Err (agent_error ProtocolError
           (name +:+ " type should be <class '" +:+ expected_name +:+ "'> not <class '" +:+ type_name val +:+ "'>")
           None (-1))
  else Ok tt.

Definition is_dict (j : json) : bool := match j with JObj _ => true | _ => false end.
Definition is_list (j : json) : bool := match j with JArr _ => true | _ => false end.

(** The loops of [set_properties], over the recursive call. *)
Section set_loops.
Variable rec : string → contract → json → res exn contract.
Variable name : string.

Fixpoint set_fields (d : list (string * json)) (fs : list (string * contract))
    : res exn (list (string * contract)) :=
  match d with
  | [] => Ok fs
  | (prob_name, prob_val) :: d' =>
      match dict_get prob_name fs with
      | None => set_fields d' fs
      | Some prob =>
          prob' ← rec (name +:+ "." +:+ prob_name) prob prob_val;
          set_fields d' (dict_set prob_name prob' fs)
      end
  end.

Fixpoint set_items (item_cls : contract) (l : list json) (its : list contract)
    : res exn (list contract) :=
  match l with
  | [] => Ok its
  | item_data :: l' =>
      item ← rec name item_cls item_data;
      set_items item_cls l' (its ++ [item])
  end.
End set_loops.

(** [set_properties(name, obj, data)].  The object is returned; in Python it is also
    mutated in place.  A property the object does not have is skipped with a warning. *)
Fixpoint set_properties (name : string) (obj : contract) (data : json) {struct data}
    : res exn contract :=
  match obj with
  | CObj fields =>
      _ ← validate_param ("Property '" +:+ name +:+ "'") data is_dict "dict";
      match data with
      | JObj d => CObj <$> set_fields set_properties name d fields
      | _ => Ok obj
      end
  | CList item_cls items =>
      _ ← validate_param ("List '" +:+ name +:+ "'") data is_list "list";
      match data with
      | JArr l => CList item_cls <$> set_items set_properties name item_cls l items
      | _ => Ok obj
      end
  | CData _ => Ok (CData data)
  end.

(** [get_properties(obj)] *)
Fixpoint get_properties (obj : contract) : json :=
  match obj with
  | CObj fields => JObj ((λ '(k, c), (k, get_properties c)) <$> fields)
  | CList _ items => JArr (get_properties <$> items)
  | CData v => v
  end.

(** [instance_of fresh obj]: [obj] is [fresh], the object its constructor builds, after
    its attributes were assigned: same attributes, lists filled with instances of their
    item class. *)
Inductive instance_of : contract → contract → Prop :=
| inst_data v v' : instance_of (CData v) (CData v')
| inst_obj fs fs' :
    NoDup fs.*1 →
    Forall2 (λ f f', f.1 = f'.1 ∧ instance_of f.2 f'.2) fs fs' →
    instance_of (CObj fs) (CObj fs')
| inst_list item items :
    Forall (instance_of item) items →
    instance_of (CList item []) (CList item items).

Section contract_ind.
Variable P : contract → Prop.
Hypothesis Hdata : ∀ v, P (CData v).
Hypothesis Hobj : ∀ fs, Forall (λ kv, P kv.2) fs → P (CObj fs).
Hypothesis Hlist : ∀ item items, Forall P items → P (CList item items).

Fixpoint contract_ind' (c : contract) : P c :=
  match c with
  | CData v => Hdata v
  | CObj fs => Hobj fs ((fix go fs := match fs return Forall (λ kv, P kv.2) fs with
                                      | [] => Forall_nil_2 _
                                      | (k, x) :: fs' => Forall_cons_2 (λ kv, P kv.2) (k, x) _ (contract_ind' x) (go fs')
                                      end) fs)
  | CList item items => Hlist item items
      ((fix go l := match l return Forall P l with
                    | [] => Forall_nil_2 _
                    | x :: l' => Forall_cons_2 _ _ _ (contract_ind' x) (go l')
                    end) items)
  end.
End contract_ind.

(** Reading back the fields one at a time: the fields [dn] already read keep their
    values, the others still have those of the fresh object. *)
Lemma set_fields_roundtrip name (fs fs' dn : list (string * contract)) :
  Forall (λ kv, ∀ fresh name, instance_of fresh kv.2 →
            set_properties name fresh (get_properties kv.2) = Ok kv.2) fs' →
  Forall2 (λ f f', f.1 = f'.1 ∧ instance_of f.2 f'.2) fs fs' →
  NoDup (dict_keys dn ++ dict_keys fs) →
  set_fields set_properties name ((λ '(k, c), (k, get_properties c)) <$> fs') (dn ++ fs)
  = Ok (dn ++ fs').
Proof.
  intros IH Hf. revert dn IH.
  induction Hf as [|[k f] [k' f'] fs fs' [Hk Hi] _ IHf]; intros dn IH Hnd; [done|].
  apply Forall_cons in IH as [IH1 IH2]. simpl in Hk, Hi, IH1; subst k'.
  assert (k ∉ dict_keys dn) as Hn.
  { intros Hin. apply NoDup_app in Hnd as (_ & Hd & _). apply (Hd k Hin). by left. }
  simpl. rewrite dict_get_app by done. rewrite (IH1 f) by done. simpl.
  rewrite dict_set_app by done.
  specialize (IHf (dn ++ [(k, f')]) IH2). rewrite <-!app_assoc in IHf. simpl in IHf. apply IHf.
  unfold dict_keys in *. by rewrite fmap_app, <-app_assoc.
Qed.

Lemma set_items_roundtrip name item (items dn : list contract) :
  Forall (λ c, ∀ fresh name, instance_of fresh c →
            set_properties name fresh (get_properties c) = Ok c) items →
  Forall (instance_of item) items →
  set_items set_properties name item (get_properties <$> items) dn = Ok (dn ++ items).
Proof.
  revert dn. induction items as [|c items IHl]; intros dn IH Hi; simpl; [by rewrite app_nil_r|].
  apply Forall_cons in IH as [IH1 IH2]. apply Forall_cons in Hi as [Hi1 Hi2].
  rewrite (IH1 item) by done. simpl. rewrite IHl by done. by rewrite <-app_assoc.
Qed.

Lemma set_get_properties (obj fresh : contract) (name : string) :
  instance_of fresh obj → set_properties name fresh (get_properties obj) = Ok obj.
Proof.
  revert fresh name. induction obj as [v|fs' IH|item items IH] using contract_ind';
    intros fresh name Hi; inversion Hi as [v0 v0'|fs fs2 Hnd Hf|it its Hits]; subst.
  - by destruct v.
  - pose proof (set_fields_roundtrip name fs fs' [] IH Hf Hnd) as H. simpl in *. by rewrite H.
  - pose proof (set_items_roundtrip name item items [] IH Hits) as H. simpl in *. by rewrite H.
Qed.

(** [set_properties] rebuilds an object from the document [get_properties] made of
    it: for every object [obj] that is an instance of the class whose constructor gives
    [fresh], reading the written document into [fresh] returns exactly [obj], without
    raising. *)
Theorem properties_roundtrip (obj fresh : contract) (name : string) :
  instance_of fresh obj → set_properties name fresh (get_properties obj) = Ok obj.
Proof. apply set_get_properties. Qed.

Definition sample_fresh : contract :=
  CObj [("name", CData JNull); ("extensions", CList (CObj [("seq", CData JNull)]) [])].
Definition sample_object : contract :=
  CObj [("name", CData (JStr "vmaccess"));
        ("extensions", CList (CObj [("seq", CData JNull)]) [CObj [("seq", CData (JInt 3))]])].

Lemma properties_roundtrip_witness :
  instance_of sample_fresh sample_object ∧
  set_properties "h" sample_fresh (get_properties sample_object) = Ok sample_object.
Proof.
  assert (instance_of sample_fresh sample_object) as H.
  { apply inst_obj; [apply (bool_decide_unpack _); vm_compute; exact I|].
    repeat constructor. apply (bool_decide_unpack _); vm_compute; exact I. }
  split; [exact H|]. apply properties_roundtrip. exact H.
Defined.

(** ** The exceptions of [set_properties] are ordinary ones *)

Lemma set_properties_ordinary (data : json) name obj : fails_with ordinary (set_properties name obj data).
Proof.
  revert name obj. induction data as [| | | | |l IH|d IH] using json_ind';
    intros name [v|fields|cls items]; simpl; try (by raises_auto).
  - assert (∀ its, fails_with ordinary (set_items set_properties name cls l its)) as Hs.
    { induction IH as [|x l Hx Hl IH']; intros its; simpl; raises_auto; eauto. }
    intros e. specialize (Hs items e). destruct (set_items _ _ _ _ _); [done|]. intros [= <-]. by apply Hs.
  - assert (∀ fs, fails_with ordinary (set_fields set_properties name d fs)) as Hs.
    { induction IH as [|[k x] d Hx Hd IH']; intros fs; simpl; raises_auto; eauto. }
    intros e. specialize (Hs fields e). destruct (set_fields _ _ _ _); [done|]. intros [= <-]. by apply Hs.
Qed.

(** [list(v)] *)
Definition py_list (j : json) : res exn (list json) :=
  match j with
  | JArr l => Ok l
  | JObj d => Ok (JStr <$> dict_keys d)
  | JStr s => Ok ((λ c, JStr (String c "")) <$> String.list_ascii_of_string s)
  | _ => Err (py_error TypeError ("'" +:+ type_name j +:+ "' object is not iterable"))
  end.

(** ** [==] of JSON values: dictionaries compare without their order, booleans with
    integers; floats by their literals *)
Fixpoint json_eqb (a b : json) : bool :=
  match a, b with
  | JNull, JNull => true
  | JBool x, JBool y => Bool.eqb x y
  | JInt x, JInt y => x =? y
  | JBool x, JInt y | JInt y, JBool x => (if x then 1 else 0) =? y
  | JFloat x, JFloat y => String.eqb x y
  | JStr x, JStr y => String.eqb x y
  | JArr l, JArr m =>
      (fix go l m := match l, m with
                     | [], [] => true
                     | x :: l', y :: m' => json_eqb x y && go l' m'
                     | _, _ => false
                     end) l m
  | JObj d, JObj e =>
      bool_decide (length d = length e) &&
      (fix go d := match d with
                   | [] => true
                   | (k, x) :: d' => match dict_get k e with Some y => json_eqb x y | None => false end && go d'
                   end) d
  | _, _ => false
  end.
