(* ===== verification/Ticks.v ===== *)
(** * The creation time of a goal state (common/protocol/extensions_goal_state.py)

    A goal state says when it was created in ticks, tenths of microseconds since the start
    of the calendar; [_ticks_to_utc_timestamp] converts them to a timestamp in floating
    point, and the agent compares the timestamps of goal states to use the latest one.
    This file has the floating-point arithmetic involved, the conversion of microseconds to
    a datetime, and the proof that the conversion keeps the order.

    A double is an integer number of units of 2^-100.  The doubles that occur are integers,
    quotients of integers by 10^7 (which are zero or at least 2^-24, hence multiples of
    2^-77), their fractional parts and the products of these by 10^6: all are multiples of
    the unit. *)
From S2P Require Import Prelude PyExn FlexVersion Json Datetime.
From Stdlib Require Import Ascii.

(** ** Floating point *)

Definition unit_exp : Z := 100.
Definition one : Z := 2 ^ unit_exp.

(** The integer nearest to [a / b], the even one of two *)
Definition rne (a b : Z) : Z :=
  let q := a / b in
  let r := a mod b in
  if 2 * r <? b then q else if b <? 2 * r then q + 1 else if Z.even q then q else q + 1.

(** The double nearest to [n / d] units: 53 significant bits *)
Definition rnd (n d : Z) : Z :=
  let k := Z.max 0 (Z.log2 (n / d) - 52) in
  rne n (d * 2 ^ k) * 2 ^ k.

(** [float(z)] *)
Definition float_of_int (z : Z) : Z := rnd (z * one) 1.

(** [timedelta(seconds=x / 10 ** 7)] in microseconds: the integer and the fractional part of
    the seconds are converted apart, and the sum is rounded to even. *)
Definition ticks_us (x : Z) : Z :=
  let seconds := rnd x (10 ^ 7) in
  let fraction := rnd ((seconds mod one) * 10 ^ 6) 1 in
  rne (seconds / one * 10 ^ 6 * one + fraction) one.

(** ** From microseconds to fields *)

(** [date.fromordinal], as the interpreter computes it *)
Definition month_day (leap : bool) (n : Z) : Z * Z :=
  let month := (n + 50) / 32 in
  let lengths := [31; if leap then 29 else 28; 31; 30; 31; 30; 31; 31; 30; 31; 30; 31] in
  let before (m : Z) := foldr Z.add 0 (take (Z.to_nat (m - 1)) lengths) in
  if n <? before month then (month - 1, n - before (month - 1) + 1) else (month, n - before month + 1).

Definition fromordinal (ordinal : Z) : Z * Z * Z :=
  let n := ordinal - 1 in
  let n400 := n / 146097 in let n := n mod 146097 in
  let n100 := n / 36524 in let n := n mod 36524 in
  let n4 := n / 1461 in let n := n mod 1461 in
  let n1 := n / 365 in let n := n mod 365 in
  let year := n400 * 400 + 1 + n100 * 100 + n4 * 4 + n1 in
  if (n1 =? 4) || (n100 =? 4) then (year - 1, 12, 31)
  else
    let leap := (n1 =? 3) && (negb (n4 =? 24) || (n100 =? 3)) in
    let '(month, day) := month_day leap n in (year, month, day).

Definition DAY_US : Z := 24 * 60 * 60 * 1000000.

(** [datetime.min + timedelta(microseconds=us)]; [None] is an [OverflowError]. *)
Definition from_us (us : Z) : option datetime :=
  let '(y, m, d) := fromordinal (us / DAY_US + 1) in
  let s := us mod DAY_US / 1000000 in
  if (0 <=? us) && (us <? 3652059 * DAY_US)
  then Some (mkDatetime y m d (s / 3600) (s / 60 mod 60) (s mod 60) (us mod 1000000)) else None.

Definition datetime_min_utc : datetime := mkDatetime 1 1 1 0 0 0 0.

(** ** [_ticks_to_utc_timestamp] *)

Section ticks.
(** [float(text)] of a text that is not made of digits only, in units: [None] when it is
    not a finite number. *)
Context (float_text : string → option Z).

(** [float(ticks_string)]; [None] is an exception, or a value no timedelta can have. *)
Definition float_ticks (ticks : json) : option Z :=
  match ticks with
  | JInt z => Some (float_of_int z)
  | JBool b => Some (float_of_int (if b then 1 else 0))
  | JStr s => if is_digits s then Some (float_of_int (int_of_digits s)) else float_text s
  | JFloat s => float_text s
  | _ => None
  end.

Definition ticks_to_utc_timestamp (ticks : json) : string :=
  let as_date_time :=
    if is_null ticks || json_eqb ticks (JStr "") then None
    else x ← float_ticks ticks; if x <? 0 then None else from_us (ticks_us x) in
  create_utc_timestamp (default datetime_min_utc as_date_time).
End ticks.

Example ticks_ex :
  ticks_to_utc_timestamp (λ _, None) (JInt 637726657706205217) = "2021-11-16T13:22:50.620522Z" ∧
  ticks_to_utc_timestamp (λ _, None) (JStr "637726657706215277") = "2021-11-16T13:22:50.621529Z" ∧
  ticks_to_utc_timestamp (λ _, None) (JInt 123456789) = "0001-01-01T00:00:12.345679Z" ∧
  ticks_to_utc_timestamp (λ _, None) JNull = "0001-01-01T00:00:00.000000Z" ∧
  ticks_to_utc_timestamp (λ _, None) (JInt (10 ^ 30)) = "0001-01-01T00:00:00.000000Z".
Proof. vm_compute. split_and!; reflexivity. Qed.

(** ** Rounding keeps the order *)

Lemma rne_mono a a' b : 0 < b → a ≤ a' → rne a b ≤ rne a' b.
Proof.
  intros Hb Ha. unfold rne. pose proof (Z.div_le_mono a a' b Hb Ha) as Hq.
  pose proof (Z.div_mod a b). pose proof (Z.div_mod a' b).
  destruct (Z.eq_dec (a / b) (a' / b)) as [He|Hne].
  - assert (a mod b ≤ a' mod b) by nia. rewrite He. destruct (Z.even (a' / b)); repeat case_match; lia.
  - repeat case_match; lia.
Qed.

Lemma rne_exact m b : 0 < b → rne (m * b) b = m.
Proof.
  intros Hb. unfold rne. rewrite Z.div_mul, Z.mod_mul by lia. by rewrite (proj2 (Z.ltb_lt (2 * 0) b)) by lia.
Qed.

Lemma rne_le a b m : 0 < b → a ≤ m * b → rne a b ≤ m.
Proof. intros Hb Ha. rewrite <-(rne_exact m b) by done. by apply rne_mono. Qed.

Lemma rne_ge a b m : 0 < b → m * b ≤ a → m ≤ rne a b.
Proof. intros Hb Ha. rewrite <-(rne_exact m b) by done. by apply rne_mono. Qed.

Lemma rnd_mono n n' d : 0 < d → 0 ≤ n → n ≤ n' → rnd n d ≤ rnd n' d.
Proof.
  intros Hd Hn Hnn. unfold rnd. pose proof (Z.div_le_mono n n' d Hd Hnn) as Hq.
  pose proof (Z.log2_le_mono _ _ Hq) as Hl. pose proof (Z.div_pos n d Hn Hd).
  set (k := Z.max 0 (Z.log2 (n / d) - 52)). set (k' := Z.max 0 (Z.log2 (n' / d) - 52)).
  assert (0 ≤ k ≤ k') as Hk by lia. pose proof (Z.pow_pos_nonneg 2 k). pose proof (Z.pow_pos_nonneg 2 k').
  destruct (Z.eq_dec k k') as [->|Hne].
  { apply Z.mul_le_mono_nonneg_r; [lia|]. apply rne_mono; [nia|done]. }
  transitivity (2 ^ 53 * 2 ^ k).
  - apply Z.mul_le_mono_nonneg_r; [lia|]. apply rne_le; [nia|]. rewrite Z.mul_assoc, (Z.mul_comm _ d), <-Z.mul_assoc.
    rewrite <-Z.pow_add_r by lia. assert (n / d < 2 ^ (53 + k)) as Hlt.
    { destruct (Z.eq_dec (n / d) 0) as [->|]; [apply Z.pow_pos_nonneg; lia|]. apply Z.log2_lt_pow2; lia. }
    pose proof (Z.mod_pos_bound n d Hd). pose proof (Z.div_mod n d). nia.
  - transitivity (2 ^ 52 * 2 ^ k').
    + rewrite <-!Z.pow_add_r by lia. apply Z.pow_le_mono_r; lia.
    + apply Z.mul_le_mono_nonneg_r; [lia|]. apply rne_ge; [nia|]. rewrite Z.mul_assoc, (Z.mul_comm _ d), <-Z.mul_assoc.
      rewrite <-Z.pow_add_r by lia. assert (2 ^ (52 + k') ≤ n' / d) as Hge.
      { apply Z.log2_le_pow2; [|lia]. destruct (Z.le_gt_cases (n' / d) 0); [|done].
        pose proof (Z.log2_nonpos (n' / d)). pose proof (Z.log2_nonneg (n / d)). lia. }
      pose proof (Z.mod_pos_bound n' d Hd). pose proof (Z.div_mod n' d). nia.
Qed.

Lemma rnd_nonneg n d : 0 < d → 0 ≤ n → 0 ≤ rnd n d.
Proof.
  intros Hd Hn. unfold rnd. pose proof (Z.pow_pos_nonneg 2 (Z.max 0 (Z.log2 (n / d) - 52))).
  apply Z.mul_nonneg_nonneg; [|lia]. apply rne_ge; nia.
Qed.

Lemma one_pos : 0 < one.
Proof. done. Qed.
#[global] Opaque one.

Lemma ticks_us_mono x y : 0 ≤ x → x ≤ y → ticks_us x ≤ ticks_us y.
Proof.
  intros Hx Hxy. unfold ticks_us. pose proof one_pos.
  assert (rnd x (10 ^ 7) ≤ rnd y (10 ^ 7)) as Hs by (apply rnd_mono; lia).
  set (a := rnd x (10 ^ 7)) in *. set (b := rnd y (10 ^ 7)) in *.
  assert (∀ c, 0 ≤ rnd (c mod one * 10 ^ 6) 1 ≤ 10 ^ 6 * one) as Hf.
  { intros c. pose proof (Z.mod_pos_bound c one). split; [apply rnd_nonneg; lia|].
    transitivity (rnd (10 ^ 6 * one) 1); [apply rnd_mono; lia|by vm_compute]. }
  apply rne_mono; [lia|]. pose proof (Z.div_le_mono a b one). pose proof (Hf a). pose proof (Hf b).
  pose proof (Z.div_mod a one). pose proof (Z.div_mod b one). pose proof (Z.mod_pos_bound a one).
  destruct (Z.eq_dec (a / one) (b / one)) as [He|Hne]; [|nia]. rewrite He.
  apply Z.add_le_mono_l, rnd_mono; lia.
Qed.

Lemma float_of_int_mono z z' : 0 ≤ z → z ≤ z' → 0 ≤ float_of_int z ≤ float_of_int z'.
Proof.
  intros Hz Hzz. unfold float_of_int. pose proof one_pos. split; [apply rnd_nonneg|apply rnd_mono]; lia || nia.
Qed.

(** ** The fields of a date are those of its ordinal *)

Definition lengths_of (leap : bool) : list Z := [31; if leap then 29 else 28; 31; 30; 31; 30; 31; 31; 30; 31; 30; 31].

(** [month_day] is checked for every day of the two kinds of year. *)
Definition month_day_ok (leap : bool) (n : Z) : bool :=
  let '(m, d) := month_day leap n in
  (1 <=? m) && (m <=? 12) && (1 <=? d) && (d <=? default 0 (lengths_of leap !! Z.to_nat (m - 1))) &&
  (foldr Z.add 0 (take (Z.to_nat (m - 1)) (lengths_of leap)) + d =? n + 1).

Lemma month_day_checked : ∀ leap, forallb (month_day_ok leap) (seqZ 0 (if leap then 366 else 365)) = true.
Proof. intros []; vm_compute; reflexivity. Qed.

Lemma month_day_spec y n m d : 0 ≤ n < (if is_leap y then 366 else 365) → month_day (is_leap y) n = (m, d) →
  1 ≤ m ≤ 12 ∧ 1 ≤ d ≤ days_in_month y m ∧ days_before_month y m + d = n + 1.
Proof.
  intros Hn Hmd. pose proof (month_day_checked (is_leap y)) as H.
  rewrite forallb_forall in H. specialize (H n). rewrite <-list_elem_of_In, elem_of_seqZ in H.
  specialize (H ltac:(lia)). unfold month_day_ok in H. rewrite Hmd, !andb_true_iff, !Z.leb_le, Z.eqb_eq in H.
  unfold days_in_month, days_before_month, month_lengths. unfold lengths_of in H. lia.
Qed.

Lemma cycles a b c d : 0 ≤ b ≤ 3 → 0 ≤ c ≤ 24 → 0 ≤ d ≤ 3 →
  let y := a * 400 + 1 + b * 100 + c * 4 + d in
  days_before_year y = a * 146097 + b * 36524 + c * 1461 + d * 365 ∧
  is_leap y = (d =? 3) && (negb (c =? 24) || (b =? 3)).
Proof.
  intros Hb Hc Hd y. subst y. unfold days_before_year, is_leap.
  replace (a * 400 + 1 + b * 100 + c * 4 + d - 1) with (a * 400 + b * 100 + c * 4 + d) by lia.
  assert ((a * 400 + b * 100 + c * 4 + d) / 4 = a * 100 + b * 25 + c) as -> by (Z.div_mod_to_equations; lia).
  assert ((a * 400 + b * 100 + c * 4 + d) / 100 = a * 4 + b) as -> by (Z.div_mod_to_equations; lia).
  assert ((a * 400 + b * 100 + c * 4 + d) / 400 = a) as -> by (Z.div_mod_to_equations; lia).
  split; [lia|]. set (y := a * 400 + 1 + b * 100 + c * 4 + d).
  assert (y mod 4 = (d + 1) mod 4) as -> by (subst y; Z.div_mod_to_equations; lia).
  assert (y mod 100 = (c * 4 + d + 1) mod 100) as -> by (subst y; Z.div_mod_to_equations; lia).
  assert (y mod 400 = (b * 100 + c * 4 + d + 1) mod 400) as -> by (subst y; Z.div_mod_to_equations; lia).
  destruct (Z.eqb_spec ((d + 1) mod 4) 0), (Z.eqb_spec ((c * 4 + d + 1) mod 100) 0),
    (Z.eqb_spec ((b * 100 + c * 4 + d + 1) mod 400) 0), (Z.eqb_spec d 3), (Z.eqb_spec c 24), (Z.eqb_spec b 3);
    simpl; try done; exfalso; Z.div_mod_to_equations; lia.
Qed.

Lemma fromordinal_spec o y m d : 1 ≤ o → fromordinal o = (y, m, d) →
  1 ≤ y ∧ 1 ≤ m ≤ 12 ∧ 1 ≤ d ≤ days_in_month y m ∧ toordinal y m d = o.
Proof.
  intros Ho. unfold fromordinal.
  set (a := (o - 1) / 146097). set (r := (o - 1) mod 146097). set (b := r / 36524). set (r1 := r mod 36524).
  set (c := r1 / 1461). set (r2 := r1 mod 1461). set (e := r2 / 365). set (r3 := r2 mod 365).
  assert (0 ≤ a ∧ o - 1 = a * 146097 + r ∧ 0 ≤ r < 146097) as (Ha & Er & Hr) by (subst a r; Z.div_mod_to_equations; lia).
  assert (r = b * 36524 + r1 ∧ 0 ≤ r1 < 36524 ∧ 0 ≤ b ≤ 4) as (Eb & Hr1 & Hb) by (subst b r1; Z.div_mod_to_equations; lia).
  assert (r1 = c * 1461 + r2 ∧ 0 ≤ r2 < 1461 ∧ 0 ≤ c ≤ 24) as (Ec & Hr2 & Hc) by (subst c r2; Z.div_mod_to_equations; lia).
  assert (r2 = e * 365 + r3 ∧ 0 ≤ r3 < 365 ∧ 0 ≤ e ≤ 4) as (Ee & Hr3 & He) by (subst e r3; Z.div_mod_to_equations; lia).
  clearbody a r b r1 c r2 e r3. unfold toordinal.
  destruct (Z.eqb_spec e 4) as [->|Hne]; simpl.
  { intros [= <- <- <-]. assert (b ≤ 3 ∧ r3 = 0) as [Hb3 ->] by lia.
    replace (a * 400 + 1 + b * 100 + c * 4 + 4 - 1) with (a * 400 + 1 + b * 100 + c * 4 + 3) by lia.
    destruct (cycles a b c 3) as [-> Hl]; [lia..|].
    destruct (month_day_spec (a * 400 + 1 + b * 100 + c * 4 + 3) 365 12 31) as (? & ? & ?); [| |lia].
    - rewrite Hl. destruct (Z.eqb_spec c 24), (Z.eqb_spec b 3); simpl; lia.
    - rewrite Hl. destruct (Z.eqb_spec c 24), (Z.eqb_spec b 3); simpl; try done; lia. }
  destruct (Z.eqb_spec b 4) as [->|Hnb].
  { intros [= <- <- <-]. assert (c = 0 ∧ e = 0 ∧ r3 = 0) as (-> & -> & ->) by lia.
    replace (a * 400 + 1 + 4 * 100 + 0 * 4 + 0 - 1) with (a * 400 + 1 + 3 * 100 + 24 * 4 + 3) by lia.
    destruct (cycles a 3 24 3) as [-> Hl]; [lia..|].
    destruct (month_day_spec (a * 400 + 1 + 3 * 100 + 24 * 4 + 3) 365 12 31) as (? & ? & ?); [| |lia]; by rewrite Hl. }
  destruct (cycles a b c e) as [Hy Hl]; [lia..|]. rewrite <-Hl.
  destruct (month_day _ r3) as [m' d'] eqn:Hmd. intros [= <- <- <-]. rewrite Hy.
  apply month_day_spec in Hmd; [lia|]. destruct (is_leap _); lia.
Qed.

Lemma days_before_year_lt y y' : days_before_year y < days_before_year y' → y < y'.
Proof.
  intros H. destruct (Z.le_gt_cases y' y); [|done]. destruct (Z.eq_dec y' y) as [->|]; [lia|].
  pose proof (days_before_year_mono y' y). destruct (is_leap y'); lia.
Qed.

Lemma from_us_spec us t : from_us us = Some t → valid_datetime t = true ∧ to_us t = us + DAY_US.
Proof.
  unfold from_us. destruct (fromordinal _) as [[y m] d] eqn:Ho.
  destruct (_ && _) eqn:Hr; [|done]. rewrite andb_true_iff, Z.leb_le, Z.ltb_lt in Hr. intros [= <-].
  assert (0 ≤ us / DAY_US < 3652059 ∧ us = us / DAY_US * DAY_US + us mod DAY_US ∧ 0 ≤ us mod DAY_US < DAY_US) as (Hd & Hu & Hm).
  { unfold DAY_US in *. Z.div_mod_to_equations. lia. }
  apply fromordinal_spec in Ho as (Hy & Hmo & Hda & Hord); [|lia].
  assert (y ≤ 9999) as Hy2.
  { pose proof (days_before_month_range y m Hmo). assert (days_before_year y < days_before_year 10000).
    { change (days_before_year 10000) with 3652059. unfold toordinal in Hord. lia. }
    apply days_before_year_lt in H0. lia. }
  assert (us mod 1000000 = (us mod DAY_US) mod 1000000) as ->.
  { unfold DAY_US in *. Z.div_mod_to_equations. lia. }
  set (v := us mod DAY_US) in *. unfold valid_datetime, to_us. simpl. rewrite Hord, !andb_true_iff, !Z.leb_le.
  unfold DAY_US in *. clearbody v. split; [|Z.div_mod_to_equations; lia].
  split_and!; try lia; Z.div_mod_to_equations; lia.
Qed.

Lemma from_us_some us : 0 ≤ us < 3652059 * DAY_US → is_Some (from_us us).
Proof.
  intros Hu. unfold from_us. destruct (fromordinal _) as [[y m] d].
  rewrite (proj2 (Z.leb_le _ _)), (proj2 (Z.ltb_lt _ _)) by lia. by eexists.
Qed.

(** ** The error of the conversion *)

Lemma rne_error a b : 0 < b → 2 * Z.abs (rne a b * b - a) ≤ b.
Proof.
  intros Hb. unfold rne. pose proof (Z.div_mod a b). pose proof (Z.mod_pos_bound a b Hb).
  destruct (Z.ltb_spec (2 * (a mod b)) b); [nia|]. destruct (Z.ltb_spec b (2 * (a mod b))); [nia|].
  destruct (Z.even (a / b)); nia.
Qed.

Lemma rnd_error n d : 0 < d → 0 ≤ n → d = 1 ∨ n = 0 ∨ 2 ^ 53 * d ≤ n → Z.abs (rnd n d * d - n) * 2 ^ 53 ≤ n.
Proof.
  intros Hd Hn Hcase. unfold rnd. set (k := Z.max 0 (Z.log2 (n / d) - 52)).
  pose proof (Z.pow_pos_nonneg 2 k). pose proof (rne_error n (d * 2 ^ k) ltac:(nia)) as He.
  replace (rne n (d * 2 ^ k) * 2 ^ k * d) with (rne n (d * 2 ^ k) * (d * 2 ^ k)) by ring.
  destruct (Z.eq_dec k 0) as [Hk|Hk].
  { rewrite Hk in *. change (2 ^ 0) with 1 in *. rewrite Z.mul_1_r in *.
    destruct Hcase as [->|[->|Hge]]; [|pose proof (rne_exact 0 d Hd) as E0; rewrite Z.mul_0_l in E0; rewrite E0; lia|].
    - lia.
    - exfalso. assert (2 ^ 53 ≤ n / d) by (apply Z.div_le_lower_bound; lia).
      assert (53 ≤ Z.log2 (n / d)) by (apply Z.log2_le_pow2; lia). lia. }
  assert (2 ^ (52 + k) ≤ n / d) as Hge.
  { apply Z.log2_le_pow2; [|lia]. pose proof (Z.div_pos n d Hn Hd). pose proof (Z.log2_nonpos (n / d)). lia. }
  rewrite Z.pow_add_r in Hge by lia. pose proof (Z.mul_div_le n d Hd). nia.
Qed.

Lemma ticks_us_error z : 0 ≤ z < 2 ^ 62 → Z.abs (10 * ticks_us (float_of_int z) - z) ≤ 1040.
Proof.
  intros Hz. unfold ticks_us, float_of_int. pose proof one_pos as Ho. assert (2 ^ 100 = one) as E1 by reflexivity.
  set (x := rnd (z * one) 1). assert (Z.abs (x - z * one) * 2 ^ 53 ≤ z * one) as Hx.
  { pose proof (rnd_error (z * one) 1) as H. rewrite !Z.mul_1_r in H. apply H; [lia|nia|by left]. }
  assert (Z.abs (x - z * one) ≤ 2 ^ 9 * one) as Hx1 by nia.
  set (y := rnd x (10 ^ 7)). assert (Z.abs (y * 10 ^ 7 - x) * 2 ^ 53 ≤ x) as Hy.
  { assert (z = 0 ∨ 1 ≤ z) as [->|H1] by lia; [by vm_compute|]. apply rnd_error; [lia|nia|]. right; right. nia. }
  assert (Z.abs (y * 10 ^ 7 - x) ≤ 513 * one) as Hy1 by nia.
  assert (y = y / one * one + y mod one ∧ 0 ≤ y mod one < one) as [Ey Hm] by (pose proof (Z.div_mod y one); pose proof (Z.mod_pos_bound y one); lia).
  set (p := rnd (y mod one * 10 ^ 6) 1). assert (Z.abs (p - y mod one * 10 ^ 6) * 2 ^ 53 ≤ y mod one * 10 ^ 6) as Hp.
  { pose proof (rnd_error (y mod one * 10 ^ 6) 1) as H. rewrite !Z.mul_1_r in H. apply H; [lia|lia|by left]. }
  assert (Z.abs (p - y mod one * 10 ^ 6) ≤ one) as Hp1 by lia.
  set (t := y / one * 10 ^ 6 * one + p). pose proof (rne_error t one Ho) as Hr. set (r := rne t one) in *.
  assert (Z.abs (t - y * 10 ^ 6) ≤ one) as Ht by lia.
  assert (Z.abs (10 * r - z) * one ≤ 1040 * one); [|nia].
  replace (Z.abs (10 * r - z) * one) with (Z.abs ((10 * r - z) * one)) by nia. lia.
Qed.

(** ** The order of goal states *)

Definition MAX_TICKS : Z := 3155378975999990000.

Lemma ticks_to_datetime float_text z : 0 ≤ z < MAX_TICKS →
  ∃ t, ticks_to_utc_timestamp float_text (JInt z) = create_utc_timestamp t ∧ valid_datetime t = true ∧
       to_us t = ticks_us (float_of_int z) + DAY_US.
Proof.
  intros Hz. unfold MAX_TICKS in Hz. pose proof (ticks_us_error z ltac:(lia)) as He.
  pose proof (float_of_int_mono 0 z ltac:(lia) ltac:(lia)) as [_ Hf]. change (float_of_int 0) with 0 in Hf.
  assert (0 ≤ ticks_us (float_of_int z)) as H0.
  { change 0 with (ticks_us 0). by apply ticks_us_mono. }
  unfold ticks_to_utc_timestamp. simpl. rewrite (proj2 (Z.ltb_ge _ _)) by done.
  destruct (from_us_some (ticks_us (float_of_int z))) as [t Ht]; [unfold DAY_US; lia|]. rewrite Ht.
  exists t. split; [done|]. by apply from_us_spec.
Qed.

(** Of two goal states, the one that was created later never gets the earlier
    timestamp, although the conversion of its ticks goes through floating point, up to the
    end of the calendar; and when it was created more than 0.2 milliseconds later its
    timestamp is later. *)
Theorem timestamps_follow_ticks (float_text : string → option Z) (z z' : Z) :
  0 ≤ z → z ≤ z' → z' < MAX_TICKS →
  let timestamp := λ z, ticks_to_utc_timestamp float_text (JInt z) in
  str_ltb (timestamp z') (timestamp z) = false ∧ (z + 2080 < z' → str_ltb (timestamp z) (timestamp z') = true).
Proof.
  intros Hz Hzz Hmax timestamp. unfold timestamp. clear timestamp.
  destruct (ticks_to_datetime float_text z) as (t & -> & Ht & Et); [lia|].
  destruct (ticks_to_datetime float_text z') as (u & -> & Hu & Eu); [lia|].
  pose proof (float_of_int_mono z z' Hz Hzz) as [Hf Hff]. pose proof (ticks_us_mono _ _ Hf Hff) as Hm.
  split.
  - apply not_true_is_false. rewrite timestamp_lt by done. lia.
  - intros Hlt. apply timestamp_lt; [done..|]. unfold MAX_TICKS in Hmax.
    pose proof (ticks_us_error z ltac:(lia)). pose proof (ticks_us_error z' ltac:(lia)). lia.
Qed.

Lemma timestamps_follow_ticks_witness :
  let timestamp := λ z, ticks_to_utc_timestamp (λ _, None) (JInt z) in
  str_ltb (timestamp 637726657706215277) (timestamp 637726657706205217) = false ∧
  (637726657706205217 + 2080 < 637726657706215277 →
   str_ltb (timestamp 637726657706205217) (timestamp 637726657706215277) = true).
Proof. apply (timestamps_follow_ticks (λ _, None) 637726657706205217 637726657706215277); reflexivity || (unfold MAX_TICKS; lia). Defined.
