(* ===== verification/Urls.v ===== *)
(** * URLs, addresses and proxies (common/utils/restutil.py)

    The part of the HTTP client that decides where a request goes: [urlparse] and what the
    agent makes of it, the [no_proxy] variable with its networks in CIDR notation, and the
    choice of the proxy.  Addresses are kept as the four bytes [inet_aton] returns; the
    byte order of the machine is a parameter, because the code unpacks them natively. *)
From S2P Require Import Prelude PyExn FlexVersion Json.
From Stdlib Require Import Ascii.

(** ** Texts *)

Definition is_char (c : string) (x : ascii) : bool := str_contains (String x "") c.

(** [s.partition(c)]: the text before the first [c], and the text after it if there is one *)
Definition partition_at (c : ascii) (s : string) : string * option string :=
  match span (λ x, negb (Ascii.eqb x c)) s with
  | (a, String _ b) => (a, Some b)
  | (a, EmptyString) => (a, None)
  end.

(** [s.rpartition(c)[2]] *)
Fixpoint after_last (c : ascii) (s : string) : string :=
  match s with
  | EmptyString => ""
  | String x s' =>
      if Ascii.eqb x c then (if str_forallb (λ y, negb (Ascii.eqb y c)) s' then s' else after_last c s')
      else if str_forallb (λ y, negb (Ascii.eqb y c)) s' then s else after_last c s'
  end.

Fixpoint str_filter (p : ascii → bool) (s : string) : string :=
  match s with
  | EmptyString => ""
  | String c s' => if p c then String c (str_filter p s') else str_filter p s'
  end.

Definition count_char (c : ascii) (s : string) : Z := str_len (str_filter (Ascii.eqb c) s).

Definition code (c : ascii) : Z := Z.of_nat (nat_of_ascii c).
Definition is_letter (c : ascii) : bool :=
  ((65 <=? code c) && (code c <=? 90)) || ((97 <=? code c) && (code c <=? 122)).

(** ** [urlparse]

    The result of [urllib.parse.urlparse] on ASCII texts; the text between the brackets of
    an IPv6 address is not checked. *)
Record url := mkUrl {
  u_scheme : string;
  u_netloc : string;
  u_path : string;
  u_query : string;
  u_fragment : string
}.

Definition is_space_or_control (c : ascii) : bool := code c <=? 32.
Definition is_tab_or_newline (c : ascii) : bool := (code c =? 9) || (code c =? 10) || (code c =? 13).

Definition is_scheme_char (c : ascii) : bool := is_letter c || is_digit c || is_char "+-." c.

Definition split_scheme (s : string) : string * string :=
  match partition_at ":" s with
  | (String c a, Some r) =>
      if is_letter c && str_forallb is_scheme_char a then (str_lower (String c a), r) else ("", s)
  | _ => ("", s)
  end.

(** [_splitparams]: the parameters of the last segment of the path are cut off. *)
Fixpoint cut_params (s : string) : string :=
  match s with
  | EmptyString => ""
  | String c s' =>
      if str_contains "/" s then String c (cut_params s')
      else if Ascii.eqb c ";" then "" else String c (cut_params s')
  end.

Definition uses_params : list string :=
  [""; "ftp"; "hdl"; "prospero"; "http"; "https"; "shttp"; "rtsp"; "rtsps"; "rtspu"; "sip"; "sips"; "mms"; "sftp"; "tel"].

Definition urlparse (s : string) : res exn url :=
  let s := str_filter (λ c, negb (is_tab_or_newline c)) (span is_space_or_control s).2 in
  let '(scheme, s) := split_scheme s in
  let '(netloc, s) := match strip_prefix "//" s with
                      | Some r => span (λ c, negb (is_char "/?#" c)) r
                      | None => ("", s)
                      end in
  if xorb (str_contains "[" netloc) (str_contains "]" netloc) then Err (py_error ValueError "Invalid IPv6 URL")
  else
    let '(s, fragment) := partition_at "#" s in
    let '(s, query) := partition_at "?" s in
    let path := if bool_decide (scheme ∈ uses_params) then cut_params s else s in
    Ok (mkUrl scheme netloc path (default "" query) (default "" fragment)).

(** [_hostinfo], [hostname] and [port] *)
Definition hostinfo (o : url) : string * string :=
  let h := after_last "@" (u_netloc o) in
  match partition_at "[" h with
  | (_, Some bracketed) =>
      let '(name, rest) := partition_at "]" bracketed in
      (name, default "" (partition_at ":" (default "" rest)).2)
  | (_, None) => let '(name, port) := partition_at ":" h in (name, default "" port)
  end.

Definition hostname (o : url) : option string :=
  let name := (hostinfo o).1 in
  if String.eqb name "" then None
  else match partition_at "%" name with
       | (h, Some zone) => Some (str_lower h +:+ "%" +:+ zone)
       | (h, None) => Some (str_lower h)
       end.

Definition port (o : url) : res exn (option Z) :=
  let p := (hostinfo o).2 in
  if String.eqb p "" then Ok None
  else if negb (is_digits p) then
    Err (py_error ValueError ("Port could not be cast to integer value as '" +:+ p +:+ "'"))
  else if int_of_digits p <=? 65535 then Ok (Some (int_of_digits p))
  else Err (py_error ValueError "Port out of range 0-65535").

(** [_parse_url]: host, port, whether the scheme is https, and what is requested of the
    host.  The fragment goes before the query. *)
Definition parse_url (s : string) : res exn (option string * option Z * bool * string) :=
  o ← urlparse s;
  let rel_uri := u_path o in
  let rel_uri := if String.eqb (u_fragment o) "" then rel_uri else rel_uri +:+ "#" +:+ u_fragment o in
  let rel_uri := if String.eqb (u_query o) "" then rel_uri else rel_uri +:+ "?" +:+ u_query o in
  let secure := String.eqb (str_lower (u_scheme o)) "https" in
  p ← port o;
  Ok (hostname o, p, secure, rel_uri).

(** [_trim_url_parameters] *)
Definition trim_url_parameters (s : string) : res exn string :=
  o ← urlparse s;
  match hostname o with
  | Some h =>
      p ← port o;
      Ok (match p with
          | Some p => if p =? 0 then u_scheme o +:+ "://" +:+ h +:+ u_path o
                      else u_scheme o +:+ "://" +:+ h +:+ ":" +:+ pretty p +:+ u_path o
          | None => u_scheme o +:+ "://" +:+ h +:+ u_path o
          end)
  | None => Ok s
  end.

(** ** Addresses *)

(** A part of an address: decimal, octal with a leading 0, hexadecimal with 0x *)
Definition digit_in (base : Z) (c : ascii) : option Z :=
  let v := if is_digit c then digit_value c
           else if (97 <=? code c) && (code c <=? 102) then code c - 87
           else if (65 <=? code c) && (code c <=? 70) then code c - 55 else 99 in
  if v <? base then Some v else None.

Fixpoint number_go (base acc : Z) (s : string) : option Z :=
  match s with
  | EmptyString => Some acc
  | String c s' => d ← digit_in base c; number_go base (acc * base + d) s'
  end.

Definition address_part (s : string) : option Z :=
  match s with
  | String "0" (String x r) =>
      if is_char "xX" x then (if String.eqb r "" then None else number_go 16 0 r)
      else number_go 8 0 (String x r)
  | String c _ => if is_digit c then number_go 10 0 s else None
  | EmptyString => None
  end.

(** [socket.inet_aton], on texts without white space: up to four parts, the last of which
    fills the bytes that are left *)
Definition be_bytes (n : nat) (z : Z) : list Z :=
  (λ i, Z.land (Z.shiftr z (8 * Z.of_nat i)) 255) <$> reverse (seq 0 n).

Definition inet_aton (s : string) : option (list Z) :=
  parts ← mapM address_part (str_split "." s);
  let n := length parts in
  if (4 <? Z.of_nat n) then None
  else
    let init := take (n - 1) parts in
    let rest := (5 - n)%nat in
    last_part ← last parts;
    if forallb (λ z, z <=? 255) init && (last_part <? 2 ^ (8 * Z.of_nat rest))
    then Some (init ++ be_bytes rest last_part) else None.

(** [struct.unpack('=L', bytes)[0]] and [socket.inet_ntoa(struct.pack('>I', bits))] *)
Fixpoint le_word (l : list Z) : Z :=
  match l with
  | [] => 0
  | b :: l' => Z.lor b (Z.shiftl (le_word l') 8)
  end.

Definition unpack (little_endian : bool) (l : list Z) : Z :=
  if little_endian then le_word l else le_word (reverse l).

Definition dotted_netmask (mask : Z) : string :=
  let bits := Z.lxor 0xffffffff (Z.shiftl 1 (32 - mask) - 1) in
  str_join "." (pretty <$> be_bytes 4 bits).

Definition socket_error : exn := py_error OSError "illegal IP address string passed to inet_aton".
Definition aton (s : string) : res exn (list Z) :=
  match inet_aton s with Some l => Ok l | None => Err socket_error end.

(** [int(s)] *)
Fixpoint underscored_digits (s : string) : option string :=
  match s with
  | String c s' =>
      if is_digit c then
        match s' with
        | EmptyString => Some (String c "")
        | String "_" s'' => r ← underscored_digits s''; Some (String c r)
        | _ => r ← underscored_digits s'; Some (String c r)
        end
      else None
  | EmptyString => None
  end.

Definition is_py_space (c : ascii) : bool := ((9 <=? code c) && (code c <=? 13)) || ((28 <=? code c) && (code c <=? 32)).

Fixpoint strip_right (s : string) : string :=
  match s with
  | EmptyString => ""
  | String c s' => if str_forallb is_py_space s then "" else String c (strip_right s')
  end.

Definition int_text (s : string) : option Z :=
  match strip_right (span is_py_space s).2 with
  | String "-" r => d ← underscored_digits r; Some (- int_of_digits d)
  | String "+" r => d ← underscored_digits r; Some (int_of_digits d)
  | r => d ← underscored_digits r; Some (int_of_digits d)
  end.

(** [is_valid_cidr] *)
Definition is_valid_cidr (network : string) : bool :=
  if count_char "/" network =? 1 then
    let '(address, mask) := partition_at "/" network in
    match int_text (default "" mask) with
    | None => false
    | Some m => if (m <? 1) || (32 <? m) then false else bool_decide (is_Some (inet_aton address))
    end
  else false.

(** [address_in_network], for a network that [is_valid_cidr] accepted *)
Definition address_in_network (little_endian : bool) (ip net : string) : res exn bool :=
  ipbytes ← aton ip;
  let '(netaddr, bits) := partition_at "/" net in
  match int_text (default "" bits) with
  | None => Err (py_error ValueError ("invalid literal for int() with base 10: '" +:+ default "" bits +:+ "'"))
  | Some bits =>
      maskbytes ← aton (dotted_netmask bits);
      netbytes ← aton netaddr;
      let netmask := unpack little_endian maskbytes in
      let network := Z.land (unpack little_endian netbytes) netmask in
      Ok (Z.land (unpack little_endian ipbytes) netmask =? Z.land network netmask)
  end.

Definition is_ipv4_address (s : string) : bool := bool_decide (is_Some (inet_aton s)).

(** ** Proxies *)

(** The configuration and the environment of the process *)
Record proxy_conf := mkProxyConf {
  httpproxy_host : option string;
  httpproxy_port : option Z;
  environ : list (string * string);
  little_endian : bool
}.

Section proxies.
Context (C : proxy_conf).

(** [a or b] on texts that may be missing *)
Definition or_text (a b : option string) : option string :=
  match a with Some (String _ _) => a | _ => b end.

(** [get_no_proxy]; [None] also stands for the empty text *)
Definition get_no_proxy : list string :=
  match or_text (dict_get "no_proxy" (environ C)) (dict_get "NO_PROXY" (environ C)) with
  | Some s => filter (λ h, h ≠ "") (str_split "," (str_filter (λ c, negb (Ascii.eqb c " ")) s))
  | None => []
  end.

(** The loop of [bypass_proxy] over networks and addresses *)
Fixpoint bypass_address (host : string) (l : list string) : res exn bool :=
  match l with
  | [] => Ok false
  | p :: l' =>
      if is_valid_cidr p then
        b ← address_in_network (little_endian C) host p;
        if (b : bool) then Ok true else bypass_address host l'
      else if String.eqb host p then Ok true else bypass_address host l'
  end.

(** [bypass_proxy]; a URL without a host gives [None]. *)
Definition bypass_proxy (host : option string) : res exn bool :=
  match get_no_proxy, host with
  | [], _ => Ok false
  | _, None => Err (py_error TypeError "inet_aton() argument 1 must be str, not None")
  | l, Some host =>
      if is_ipv4_address host then bypass_address host l
      else Ok (existsb (λ d, ends_with (str_lower d) (str_lower host)) l)
  end.

(** [_get_http_proxy] *)
Definition get_http_proxy (secure : bool) : res exn (option string * option Z) :=
  match httpproxy_host C with
  | Some h => Ok (Some h, httpproxy_port C)
  | None =>
      let found := if secure
        then match dict_get "https_proxy" (environ C) with Some u => Some u | None => dict_get "HTTPS_PROXY" (environ C) end
        else match dict_get "http_proxy" (environ C) with Some u => Some u | None => dict_get "HTTP_PROXY" (environ C) end in
      match found with
      | Some u => '(h, p, _, _) ← parse_url u; Ok (h, p)
      | None => Ok (None, None)
      end
  end.
End proxies.

(** ** Networks

    A mask selects the leading bits of an address, whatever the byte order of the machine:
    the conjunction of words is the conjunction of their bytes, in either order. *)

Definition is_byte (b : Z) : Prop := 0 ≤ b < 256.

Lemma testbit_byte b i : is_byte b → 8 ≤ i → Z.testbit b i = false.
Proof.
  intros [H0 H1] Hi. destruct (Z.eq_dec b 0) as [->|Hb]; [apply Z.bits_0|].
  apply Z.bits_above_log2; [done|]. assert (Z.log2 b < 8); [|lia]. apply Z.log2_lt_pow2; lia.
Qed.

Lemma land_byte a b : is_byte a → is_byte b → is_byte (Z.land a b).
Proof.
  intros Ha Hb. split; [apply Z.land_nonneg; left; apply Ha|].
  destruct (Z.eq_dec (Z.land a b) 0) as [->|Hn]; [lia|].
  apply Z.log2_lt_cancel. pose proof (Z.log2_land a b) as Hl. destruct Ha as [Ha0 Ha1], Hb as [Hb0 Hb1].
  specialize (Hl Ha0 Hb0). change (Z.log2 256) with 8.
  assert (Z.log2 a < 8); [|lia]. destruct (Z.eq_dec a 0) as [->|]; [simpl; lia|]. apply Z.log2_lt_pow2; lia.
Qed.

Lemma le_word_testbit b l i :
  is_byte b → 0 ≤ i →
  Z.testbit (le_word (b :: l)) i = if i <? 8 then Z.testbit b i else Z.testbit (le_word l) (i - 8).
Proof.
  intros Hb Hi. simpl. rewrite Z.lor_spec, Z.shiftl_spec by done. destruct (Z.ltb_spec i 8).
  - rewrite (Z.testbit_neg_r _ (i - 8)) by lia. apply orb_false_r.
  - by rewrite testbit_byte.
Qed.

Lemma le_word_land l k :
  Forall is_byte l → Forall is_byte k → length l = length k →
  Z.land (le_word l) (le_word k) = le_word (zip_with Z.land l k).
Proof.
  intros Hl. revert k. induction Hl as [|a l Ha Hl IH]; intros [|b k] Hk Hlen; try done.
  apply Forall_cons in Hk as [Hb Hk]. cbn [zip_with]. injection Hlen as Hlen.
  apply Z.bits_inj'. intros i Hi. rewrite Z.land_spec, !le_word_testbit by (try apply land_byte; done).
  destruct (i <? 8); [by rewrite Z.land_spec|]. by rewrite <-IH, Z.land_spec.
Qed.

Lemma le_word_inj l k :
  Forall is_byte l → Forall is_byte k → length l = length k → le_word l = le_word k → l = k.
Proof.
  intros Hl. revert k. induction Hl as [|a l Ha Hl IH]; intros [|b k] Hk Hlen Heq; try done.
  apply Forall_cons in Hk as [Hb Hk]. injection Hlen as Hlen. f_equal.
  - apply Z.bits_inj'. intros i Hi. destruct (Z.ltb_spec i 8) as [H8|H8].
    + apply (f_equal (λ z, Z.testbit z i)) in Heq. rewrite !le_word_testbit in Heq by done.
      by rewrite (proj2 (Z.ltb_lt i 8)) in Heq.
    + by rewrite !testbit_byte.
  - apply IH; [done..|]. apply Z.bits_inj'. intros i Hi.
    apply (f_equal (λ z, Z.testbit z (i + 8))) in Heq. rewrite !le_word_testbit in Heq by (done || lia).
    rewrite (proj2 (Z.ltb_ge (i + 8) 8)) in Heq by lia. by rewrite Z.add_simpl_r in Heq.
Qed.

Lemma zip_with_reverse' (l k : list Z) :
  length l = length k → zip_with Z.land (reverse l) (reverse k) = reverse (zip_with Z.land l k).
Proof.
  revert k. induction l as [|a l IH]; intros [|b k] Hlen; try done. injection Hlen as Hlen.
  rewrite !reverse_cons, zip_with_app by (by rewrite !length_reverse). cbn [zip_with]. by rewrite reverse_cons, IH.
Qed.

Lemma zip_with_land_bytes (l k : list Z) :
  Forall is_byte l → Forall is_byte k → Forall is_byte (zip_with Z.land l k).
Proof.
  intros Hl. revert k. induction Hl as [|a l Ha Hl IH]; intros [|b k] Hk; try constructor.
  - apply Forall_cons in Hk as [Hb Hk]. by apply land_byte.
  - apply Forall_cons in Hk as [Hb Hk]. by apply IH.
Qed.

(** Masked words agree in one byte order exactly when they agree in the other. *)
Lemma masked_order le a b k :
  Forall is_byte a → Forall is_byte b → Forall is_byte k → length a = length k → length b = length k →
  Z.land (unpack le a) (unpack le k) = Z.land (unpack le b) (unpack le k) ↔
  Z.land (unpack false a) (unpack false k) = Z.land (unpack false b) (unpack false k).
Proof.
  intros Ha Hb Hk La Lb.
  assert (∀ l, Z.land (unpack l a) (unpack l k) = Z.land (unpack l b) (unpack l k) ↔
               zip_with Z.land a k = zip_with Z.land b k) as H.
  { intros l. destruct l; unfold unpack.
    - rewrite !le_word_land by done. split; [|congruence].
      apply le_word_inj; [by apply zip_with_land_bytes..|]. rewrite !length_zip_with. lia.
    - rewrite !le_word_land by (try apply Forall_reverse; rewrite ?length_reverse; done).
      rewrite !zip_with_reverse' by done. split; [|congruence].
      intros Heq%le_word_inj; [by apply (inj reverse)|..].
      + by apply Forall_reverse, zip_with_land_bytes.
      + by apply Forall_reverse, zip_with_land_bytes.
      + rewrite !length_reverse, !length_zip_with. lia. }
  by rewrite !H.
Qed.

(** The words of four bytes *)
Lemma mask_of_netmask m : 1 ≤ m ≤ 32 →
  ∃ k, inet_aton (dotted_netmask m) = Some k ∧ Forall is_byte k ∧ length k = 4%nat ∧
       unpack false k = Z.lxor (Z.ones 32) (Z.ones (32 - m)).
Proof.
  intros Hm. assert (forallb (λ m, match inet_aton (dotted_netmask m) with
    | Some k => forallb (λ b, (0 <=? b) && (b <? 256)) k && (Nat.eqb (length k) 4) &&
                (unpack false k =? Z.lxor (Z.ones 32) (Z.ones (32 - m)))
    | None => false end) (seqZ 1 32) = true) as H by (vm_compute; reflexivity).
  rewrite forallb_forall in H. specialize (H m). rewrite <-list_elem_of_In, elem_of_seqZ in H.
  specialize (H ltac:(lia)). destruct (inet_aton (dotted_netmask m)) as [k|]; [|done].
  apply andb_true_iff in H as [H1 H3]. apply andb_true_iff in H1 as [H1 H2].
  exists k. split_and!; [done| |by apply Nat.eqb_eq|by apply Z.eqb_eq].
  apply Forall_forall. intros b Hb. rewrite forallb_forall in H1. specialize (H1 b). rewrite <-list_elem_of_In in H1.
  specialize (H1 Hb). unfold is_byte. lia.
Qed.

Lemma land_mask x k : 0 ≤ x < 2 ^ 32 → 0 ≤ k ≤ 32 →
  Z.land x (Z.lxor (Z.ones 32) (Z.ones k)) = Z.shiftl (Z.shiftr x k) k.
Proof.
  intros Hx Hk. apply Z.bits_inj'. intros i Hi. rewrite Z.land_spec, Z.lxor_spec, Z.shiftl_spec by done.
  rewrite !Z.testbit_ones_nonneg by lia. destruct (Z.ltb_spec i k).
  - rewrite (Z.testbit_neg_r _ (i - k)) by lia. rewrite (proj2 (Z.ltb_lt i 32)) by lia. apply andb_false_r.
  - rewrite Z.shiftr_spec, Z.sub_add by lia. destruct (Z.ltb_spec i 32); [by rewrite andb_true_r|].
    rewrite andb_false_r. symmetry. destruct (Z.eq_dec x 0) as [->|]; [apply Z.bits_0|].
    apply Z.bits_above_log2; [lia|]. assert (Z.log2 x < 32); [|lia]. apply Z.log2_lt_pow2; lia.
Qed.

Lemma le_word_cons b l : is_byte b → le_word (b :: l) = b + 256 * le_word l.
Proof.
  intros Hb. assert (Z.land b (Z.shiftl (le_word l) 8) = 0) as Hd.
  { apply Z.bits_inj'. intros i Hi. rewrite Z.land_spec, Z.shiftl_spec, Z.bits_0 by done. destruct (Z.ltb_spec i 8).
    - rewrite (Z.testbit_neg_r _ (i - 8)) by lia. apply andb_false_r.
    - by rewrite testbit_byte. }
  cbn [le_word]. rewrite <-Z.lxor_lor, <-Z.add_nocarry_lxor by done. rewrite Z.shiftl_mul_pow2 by lia. lia.
Qed.

Lemma le_word_bound l : Forall is_byte l → 0 ≤ le_word l < 2 ^ (8 * Z.of_nat (length l)).
Proof.
  induction 1 as [|b l Hb Hl IH]; [simpl; lia|]. rewrite le_word_cons by done. cbn [length].
  rewrite Nat2Z.inj_succ, <-Z.add_1_r, Z.mul_add_distr_l, Z.pow_add_r by lia.
  change (2 ^ (8 * 1)) with 256. destruct Hb. nia.
Qed.

Lemma be_bytes_bytes n z : Forall is_byte (be_bytes n z).
Proof.
  unfold be_bytes. apply Forall_fmap, Forall_forall. intros i _. unfold is_byte. simpl.
  change 255 with (Z.ones 8). rewrite Z.land_ones by lia. apply Z.mod_pos_bound. lia.
Qed.

Lemma number_go_nonneg base acc s z : 0 ≤ acc → 0 ≤ base → number_go base acc s = Some z → 0 ≤ z.
Proof.
  intros Ha Hb. revert acc Ha. induction s as [|c s IH]; intros acc Ha; simpl; [by intros [= <-]|].
  unfold digit_in. destruct (_ <? base) eqn:Hd; simpl; [|done]. apply IH.
  assert (0 ≤ (if is_digit c then digit_value c else if (97 <=? code c) && (code c <=? 102) then code c - 87
      else if (65 <=? code c) && (code c <=? 70) then code c - 55 else 99)); [|nia].
  destruct (is_digit c) eqn:H1.
  { apply bool_decide_eq_true in H1. unfold digit_value. lia. }
  repeat (case_match; [lia|]); lia.
Qed.

Lemma address_part_nonneg s z : address_part s = Some z → 0 ≤ z.
Proof.
  unfold address_part. intros H. repeat case_match; try done;
    by (eapply number_go_nonneg; [..|exact H]; lia).
Qed.

Lemma inet_aton_bytes s l : inet_aton s = Some l → Forall is_byte l ∧ length l = 4%nat.
Proof.
  unfold inet_aton. destruct (mapM address_part (str_split "." s)) as [parts|] eqn:Hp; simpl; [|done].
  assert (Forall (λ z, 0 ≤ z) parts) as Hnn.
  { apply mapM_Some_1 in Hp. clear -Hp. induction Hp; constructor; [by eapply address_part_nonneg|done]. }
  destruct (4 <? Z.of_nat (length parts)) eqn:H4; [done|]. apply Z.ltb_ge in H4.
  destruct (last parts) as [z|] eqn:Hl; simpl; [|done].
  destruct (forallb _ _) eqn:Hf; [|done]. simpl. destruct (z <? _); [|done]. intros [= <-].
  assert (parts ≠ []) by (by intros ->). assert (length parts ≠ 0%nat) by (by destruct parts).
  split.
  - apply Forall_app. split; [|apply be_bytes_bytes]. apply Forall_forall. intros b Hb.
    rewrite forallb_forall in Hf. specialize (Hf b). rewrite <-list_elem_of_In in Hf. specialize (Hf Hb).
    apply (Forall_take _ (length parts - 1)%nat) in Hnn. rewrite Forall_forall in Hnn. specialize (Hnn b Hb). unfold is_byte. lia.
  - rewrite length_app, length_take. unfold be_bytes. rewrite length_fmap, length_reverse, length_seq. lia.
Qed.

Lemma span_app p s : s = (span p s).1 +:+ (span p s).2.
Proof. induction s as [|c s IH]; [done|]. simpl. destruct (p c); [|done]. destruct (span p s). simpl in *. by rewrite IH at 1. Qed.

Lemma span_rest p s c r : (span p s).2 = String c r → p c = false.
Proof. induction s as [|x s IH]; [done|]. simpl. destruct (p x) eqn:Hx; [destruct (span p s)|]; simpl in *; [done|]. by intros [= -> ->]. Qed.

Lemma partition_at_Some c s a b : partition_at c s = (a, Some b) → s = a +:+ String c b.
Proof.
  unfold partition_at. pose proof (span_app (λ x, negb (Ascii.eqb x c)) s) as H.
  pose proof (span_rest (λ x, negb (Ascii.eqb x c)) s) as Hr.
  destruct (span _ s) as [a' [|x b']]; simpl in *; [done|]. intros [= -> ->].
  specialize (Hr _ _ eq_refl). apply negb_false_iff, Ascii.eqb_eq in Hr as ->. done.
Qed.

(** An address is in a network of the [no_proxy] variable exactly when its leading bits
    are those of the network, on machines of either byte order; for a network that passed
    the check of its format the comparison raises no exception. *)
Theorem address_in_network_prefix (le : bool) (ip net : string) (a : list Z) :
  is_valid_cidr net = true → inet_aton ip = Some a →
  ∃ netaddr bits m n,
    net = netaddr +:+ "/" +:+ bits ∧ int_text bits = Some m ∧ 1 ≤ m ≤ 32 ∧ inet_aton netaddr = Some n ∧
    address_in_network le ip net = Ok (Z.shiftr (unpack false a) (32 - m) =? Z.shiftr (unpack false n) (32 - m)).
Proof.
  intros Hc Ha. unfold is_valid_cidr in Hc. destruct (count_char "/" net =? 1) eqn:Hn; [|done].
  destruct (partition_at "/" net) as [netaddr [bits|]] eqn:Hp; [|done]. simpl in Hc.
  destruct (int_text bits) as [m|] eqn:Hm; [|done]. destruct ((m <? 1) || (32 <? m)) eqn:Hr; [done|].
  apply bool_decide_eq_true in Hc as [n Hnet]. exists netaddr, bits, m, n.
  split_and!; [by apply partition_at_Some|done|lia|lia|done|].
  destruct (mask_of_netmask m) as (k & Hmask & Hk & Lk & Hw); [lia|].
  unfold address_in_network, aton, mbind, res_bind. rewrite Ha, Hp. change (default "" (Some bits)) with bits.
  rewrite Hm, Hmask, Hnet. f_equal.
  destruct (inet_aton_bytes _ _ Ha) as [Ba La], (inet_aton_bytes _ _ Hnet) as [Bn Ln].
  rewrite <-Z.land_assoc, Z.land_diag. apply eq_true_iff_eq. rewrite !Z.eqb_eq, masked_order, Hw by (done || lia).
  assert (∀ l, Forall is_byte l → length l = 4%nat → 0 ≤ unpack false l < 2 ^ 32) as Hb.
  { intros l Hl Hlen. pose proof (le_word_bound (reverse l)) as H. rewrite length_reverse, Hlen in H.
    apply H. by apply Forall_reverse. }
  rewrite !land_mask by (try apply Hb; done || lia). split; [|congruence].
  intros Heq%(f_equal (λ z, Z.shiftr z (32 - m))). by rewrite !Z.shiftr_shiftl_l, Z.sub_diag, !Z.shiftl_0_r in Heq by lia.
Qed.

Lemma address_in_network_prefix_witness :
  address_in_network true "168.63.129.16" "168.63.0.0/16" = Ok true ∧
  address_in_network false "168.64.129.16" "168.63.0.0/16" = Ok false.
Proof.
  destruct (address_in_network_prefix true "168.63.129.16" "168.63.0.0/16" [168; 63; 129; 16])
    as (x & b & m & n & Hx & Hb & Hm & Hn & Hr); [vm_compute; reflexivity..|].
  split; vm_compute; reflexivity.
Defined.

(** ** Well-formed URLs *)

Lemma span_stop p a b :
  str_forallb p a = true → match b with String c _ => p c = false | EmptyString => True end → span p (a +:+ b) = (a, b).
Proof.
  intros Ha Hb. induction a as [|c a IH].
  - destruct b as [|c b]; [done|]. change ("" +:+ String c b) with (String c b). simpl. by rewrite Hb.
  - simpl in Ha. apply andb_true_iff in Ha as [Hc Ha]. rewrite string_app_cons. simpl. by rewrite Hc, IH.
Qed.

Lemma partition_at_stop c a b :
  str_forallb (λ x, negb (Ascii.eqb x c)) a = true → partition_at c (a +:+ String c b) = (a, Some b).
Proof. intros Ha. unfold partition_at. by rewrite span_stop by (try done; simpl; by rewrite Ascii.eqb_refl). Qed.

Lemma partition_at_none c a :
  str_forallb (λ x, negb (Ascii.eqb x c)) a = true → partition_at c a = (a, None).
Proof. intros Ha. unfold partition_at. rewrite <-(string_app_nil_r a) at 1. by rewrite span_stop. Qed.

Lemma str_forallb_impl (p q : ascii → bool) s :
  (∀ c, p c = true → q c = true) → str_forallb p s = true → str_forallb q s = true.
Proof. intros H. induction s as [|c s IH]; [done|]. simpl. intros [Hc Hs]%andb_true_iff. by rewrite H, IH. Qed.

Lemma str_filter_id p s : str_forallb p s = true → str_filter p s = s.
Proof. induction s as [|c s IH]; [done|]. simpl. intros [-> Hs]%andb_true_iff. by rewrite IH. Qed.

Lemma not_contains c s : str_forallb (λ x, negb (Ascii.eqb x c)) s = true → str_contains (String c "") s = false.
Proof.
  induction s as [|x s IH]; [done|]. simpl. intros [Hc Hs]%andb_true_iff. rewrite IH by done.
  rewrite orb_false_r. unfold starts_with. apply bool_decide_eq_false. simpl.
  apply negb_true_iff in Hc. rewrite Ascii.eqb_sym, Hc. by intros [].
Qed.

Lemma after_last_none c s : str_forallb (λ x, negb (Ascii.eqb x c)) s = true → after_last c s = s.
Proof.
  destruct s as [|x s]; [done|]. simpl. intros [Hc Hs]%andb_true_iff. apply negb_true_iff in Hc. by rewrite Hc, Hs.
Qed.

Lemma cut_params_none s : str_forallb (λ x, negb (Ascii.eqb x ";")) s = true → cut_params s = s.
Proof.
  induction s as [|c s IH]; [done|]. cbn [cut_params str_forallb]. intros [Hc Hs]%andb_true_iff. rewrite IH by done.
  apply negb_true_iff in Hc. rewrite Hc. by destruct (str_contains "/" (String c s)).
Qed.

Definition is_host_char (c : ascii) : bool := is_letter c || is_digit c || is_char "-." c.
Definition is_path_char (c : ascii) : bool := negb (is_char "?#;" c) && negb (is_tab_or_newline c).
Definition is_query_char (c : ascii) : bool := negb (is_char "#" c) && negb (is_tab_or_newline c).

Definition port_text (p : option Z) : string := match p with Some p => ":" +:+ pretty p | None => "" end.
Definition scheme_text (secure : bool) : string := if secure then "https" else "http".

(** A URL of a service: a host name, perhaps a port, a path and a query *)
Record service_url := mkService {
  sv_secure : bool;
  sv_host : string;
  sv_port : option Z;
  sv_path : string;
  sv_query : string
}.

Definition wf_service (v : service_url) : bool :=
  negb (String.eqb (sv_host v) "") && str_forallb is_host_char (sv_host v)
  && match sv_port v with Some p => (1 <=? p) && (p <=? 65535) | None => true end
  && match sv_path v with String "/" _ => str_forallb is_path_char (sv_path v) | _ => false end
  && negb (String.eqb (sv_query v) "") && str_forallb is_query_char (sv_query v).

Definition service_text (v : service_url) : string :=
  scheme_text (sv_secure v) +:+ "://" +:+ sv_host v +:+ port_text (sv_port v) +:+ sv_path v +:+ "?" +:+ sv_query v.

Ltac chars := let c := fresh in intros c; destruct c as [[] [] [] [] [] [] [] []]; vm_compute; (reflexivity || discriminate).

Lemma host_char_other c : is_host_char c = true → str_forallb (λ x, negb (Ascii.eqb c x)) ":@[]%/?#" = true.
Proof. revert c. chars. Qed.

Lemma digit_other c : is_digit c = true → str_forallb (λ x, negb (Ascii.eqb c x)) "@[]/?#%" = true.
Proof. revert c. chars. Qed.

Lemma path_char_other c : is_path_char c = true → str_forallb (λ x, negb (Ascii.eqb c x)) "?#;" = true.
Proof. revert c. chars. Qed.

Section service.
Context (v : service_url) (Hwf : wf_service v = true).
Notation netloc := (sv_host v +:+ port_text (sv_port v)).

Lemma wf_service_spec :
  sv_host v ≠ "" ∧ str_forallb is_host_char (sv_host v) = true ∧
  match sv_port v with Some p => 1 ≤ p ≤ 65535 | None => True end ∧
  (∃ r, sv_path v = String "/" r) ∧ str_forallb is_path_char (sv_path v) = true ∧
  sv_query v ≠ "" ∧ str_forallb is_query_char (sv_query v) = true.
Proof.
  unfold wf_service in Hwf. repeat (apply andb_true_iff in Hwf as [Hwf ?]).
  assert (∀ s, negb (String.eqb s "") = true → s ≠ "") as Hne by (intros s Hs ->; done).
  split_and!; auto.
  - destruct (sv_port v); [|done]. lia.
  - destruct (sv_path v) as [|c r]; [done|]. exists r. f_equal.
    revert H1. destruct c as [[] [] [] [] [] [] [] []]; try done.
  - destruct (sv_path v) as [|c r]; [done|]. revert H1. destruct c as [[] [] [] [] [] [] [] []]; try done.
Qed.

Lemma netloc_chars q :
  (∀ c, is_host_char c = true → q c = true) → (∀ c, is_digit c = true → q c = true) → q ":"%char = true →
  str_forallb q netloc = true.
Proof.
  intros Hh Hd Hc. destruct wf_service_spec as (_ & H2 & H3 & _). rewrite str_forallb_app, (str_forallb_impl _ _ _ Hh H2).
  destruct (sv_port v) as [p|]; [|done]. cbn [port_text]. change (":" +:+ pretty p) with (String ":" (pretty p)).
  cbn [str_forallb]. rewrite Hc.
  pose proof (pretty_Z_digits p ltac:(lia)) as Hp. unfold is_digits in Hp. apply andb_true_iff in Hp as [_ Hp].
  by rewrite (str_forallb_impl _ _ _ Hd Hp).
Qed.

Lemma netloc_without (x : ascii) :
  x = "@"%char ∨ x = "["%char ∨ x = "]"%char ∨ x = "/"%char ∨ x = "?"%char ∨ x = "#"%char →
  str_forallb (λ c, negb (Ascii.eqb c x)) netloc = true.
Proof.
  intros Hx. apply netloc_chars.
  - intros c H%host_char_other. simpl in H. rewrite !andb_true_iff in H. destruct_and!. by destruct Hx as [-> | [-> | [-> | [-> | [-> | ->]]]]].
  - intros c H%digit_other. simpl in H. rewrite !andb_true_iff in H. destruct_and!. by destruct Hx as [-> | [-> | [-> | [-> | [-> | ->]]]]].
  - by destruct Hx as [-> | [-> | [-> | [-> | [-> | ->]]]]].
Qed.

Lemma urlparse_service :
  urlparse (service_text v) = Ok (mkUrl (scheme_text (sv_secure v)) netloc (sv_path v) (sv_query v) "").
Proof.
  destruct wf_service_spec as (Hh & Hhc & Hp & (r & Hr) & Hpath & Hq & Hqc).
  set (rest := sv_path v +:+ "?" +:+ sv_query v).
  assert (service_text v = scheme_text (sv_secure v) +:+ String ":" ("//" +:+ (netloc +:+ rest))) as ->
    by (unfold service_text, rest; by rewrite string_app_assoc).
  set (body := "//" +:+ (netloc +:+ rest)).
  assert (str_forallb (λ c, negb (is_tab_or_newline c)) rest = true) as Hrest.
  { unfold rest. rewrite !str_forallb_app. rewrite (str_forallb_impl _ _ _ (λ c H, proj2 (andb_prop _ _ H)) Hpath).
    by rewrite (str_forallb_impl _ _ _ (λ c H, proj2 (andb_prop _ _ H)) Hqc). }
  assert (str_forallb (λ c, negb (is_tab_or_newline c)) netloc = true) as Hnet.
  { apply netloc_chars; [chars|chars|done]. }
  assert (str_filter (λ c, negb (is_tab_or_newline c)) (scheme_text (sv_secure v) +:+ String ":" body)
          = scheme_text (sv_secure v) +:+ String ":" body) as Hfilter.
  { apply str_filter_id. unfold body. rewrite str_forallb_app. cbn [str_forallb]. rewrite (str_forallb_app _ "//"), (str_forallb_app _ netloc), Hnet, Hrest.
    by destruct (sv_secure v). }
  assert ((span is_space_or_control (scheme_text (sv_secure v) +:+ String ":" body)).2
          = scheme_text (sv_secure v) +:+ String ":" body) as Hspan by (by destruct (sv_secure v)).
  unfold urlparse. rewrite Hspan, Hfilter. unfold split_scheme.
  rewrite partition_at_stop by (by destruct (sv_secure v)).
  assert (match scheme_text (sv_secure v) with
          | String c a => if is_letter c && str_forallb is_scheme_char a then (str_lower (String c a), body)
                          else ("", scheme_text (sv_secure v) +:+ String ":" body)
          | EmptyString => ("", scheme_text (sv_secure v) +:+ String ":" body)
          end = (scheme_text (sv_secure v), body)) as -> by (by destruct (sv_secure v)).
  unfold body. rewrite strip_prefix_app, span_stop.
  2:{ apply (str_forallb_impl (λ c, negb (Ascii.eqb c "/") && (negb (Ascii.eqb c "?") && negb (Ascii.eqb c "#")))); [chars|].
      assert (∀ p q s, str_forallb (λ c, p c && q c) s = str_forallb p s && str_forallb q s) as Hand.
      { intros p q s. induction s as [|c s IH]; [done|]. simpl. rewrite IH. by destruct (p c), (q c), (str_forallb p s). }
      rewrite !Hand, !netloc_without by tauto. done. }
  2:{ unfold rest. rewrite Hr. done. }
  rewrite !not_contains by (apply netloc_without; tauto). cbn [xorb].
  rewrite partition_at_none.
  2:{ unfold rest. rewrite !str_forallb_app. rewrite (str_forallb_impl is_path_char _ _); [|chars|done].
      rewrite (str_forallb_impl is_query_char _ (sv_query v)); [done|chars|done]. }
  unfold rest. change ("?" +:+ sv_query v) with (String "?" (sv_query v)). rewrite partition_at_stop.
  2:{ apply (str_forallb_impl is_path_char); [chars|done]. }
  rewrite cut_params_none by (apply (str_forallb_impl is_path_char); [chars|done]).
  by destruct (sv_secure v).
Qed.

Lemma hostinfo_service sc pa q f :
  hostinfo (mkUrl sc netloc pa q f) = (sv_host v, match sv_port v with Some p => pretty p | None => "" end).
Proof.
  destruct wf_service_spec as (Hh & Hhc & Hp & _). unfold hostinfo. cbn [u_netloc].
  rewrite after_last_none, partition_at_none by (apply netloc_without; tauto).
  assert (str_forallb (λ c, negb (Ascii.eqb c ":")) (sv_host v) = true) as Hc
    by (apply (str_forallb_impl is_host_char); [chars|done]).
  destruct (sv_port v) as [p|]; cbn [port_text].
  - change (":" +:+ pretty p) with (String ":" (pretty p)). by rewrite partition_at_stop.
  - by rewrite string_app_nil_r, partition_at_none.
Qed.

Lemma hostname_service sc pa q f : hostname (mkUrl sc netloc pa q f) = Some (str_lower (sv_host v)).
Proof.
  destruct wf_service_spec as (Hh & Hhc & _). unfold hostname. rewrite hostinfo_service. cbn [fst].
  rewrite (proj2 (String.eqb_neq _ _) Hh). rewrite partition_at_none; [done|].
  apply (str_forallb_impl is_host_char); [chars|done].
Qed.

Lemma port_service sc pa q f : port (mkUrl sc netloc pa q f) = Ok (sv_port v).
Proof.
  destruct wf_service_spec as (_ & _ & Hp & _). unfold port. rewrite hostinfo_service. cbn [snd].
  destruct (sv_port v) as [p|]; [|done]. pose proof (pretty_Z_digits p ltac:(lia)) as Hd.
  rewrite Hd, int_of_pretty_Z by lia. unfold is_digits in Hd. apply andb_true_iff in Hd as [Hd _].
  apply negb_true_iff in Hd. rewrite Hd. simpl. by rewrite (proj2 (Z.leb_le p 65535)) by lia.
Qed.
End service.

(** A request to a well-formed URL goes to the host, port and path it names, with its
    query, over TLS exactly when its scheme is https; the form of the URL that is put into
    error messages has everything but the query, which holds the access token. *)
Theorem request_goes_to_url (v : service_url) :
  wf_service v = true →
  parse_url (service_text v)
  = Ok (Some (str_lower (sv_host v)), sv_port v, sv_secure v, sv_path v +:+ "?" +:+ sv_query v) ∧
  trim_url_parameters (service_text v)
  = Ok (scheme_text (sv_secure v) +:+ "://" +:+ str_lower (sv_host v) +:+ port_text (sv_port v) +:+ sv_path v).
Proof.
  intros Hwf. unfold parse_url, trim_url_parameters. rewrite (urlparse_service v Hwf). unfold mbind, res_bind.
  rewrite (hostname_service v Hwf), (port_service v Hwf). cbn [u_path u_fragment u_query u_scheme].
  destruct (wf_service_spec v Hwf) as (_ & _ & Hp & _ & _ & Hq & _). split.
  - rewrite (proj2 (String.eqb_neq _ _) Hq). by destruct (sv_secure v).
  - destruct (sv_port v) as [p|]; [|done]. rewrite (proj2 (Z.eqb_neq p 0)) by lia. cbn [port_text].
    by rewrite (string_app_assoc ":").
Qed.

Lemma request_goes_to_url_witness :
  parse_url "https://Acme.Blob.core.windows.net:8443/c/pkg.zip?sig=1%2F" =
    Ok (Some "acme.blob.core.windows.net", Some 8443, true, "/c/pkg.zip?sig=1%2F").
Proof.
  destruct (request_goes_to_url (mkService true "Acme.Blob.core.windows.net" (Some 8443) "/c/pkg.zip" "sig=1%2F")) as [H _];
    [vm_compute; reflexivity|exact H].
Defined.
