(* ===== verification/TextUtil.v ===== *)
(** * Texts and bytes (common/utils/textutil.py)

    The functions on texts and buffers that the rest of the agent uses: numbers in network
    order, hexadecimal dumps, edits of configuration files, the byte order mark, and the
    redaction of the SAS tokens of URLs.  A buffer is a list of bytes, each in 0..255. *)
From S2P Require Import Prelude PyExn FlexVersion Json Urls.
From Stdlib Require Import Ascii.

(** [s.split()] *)
Fixpoint py_words (cur : string) (s : string) : list string :=
  match s with
  | "" => if String.eqb cur "" then [] else [cur]
  | String x s' =>
      if is_py_space x then (if String.eqb cur "" then py_words "" s' else cur :: py_words "" s')
      else py_words (cur +:+ String x "") s'
  end.

(** [[p]*], [[p]+] and the first match of a pattern in a text *)
Fixpoint class_star (p : ascii → bool) (s : string) : list (string * string) :=
  match s with
  | EmptyString => [("", "")]
  | String c s' => (if p c then prod_map (String c) id <$> class_star p s' else []) ++ [("", s)]
  end.
Definition class_plus (p : ascii → bool) (s : string) : list (string * string) :=
  match s with
  | EmptyString => []
  | String c s' => if p c then prod_map (String c) id <$> class_star p s' else []
  end.
Fixpoint re_search {A} (m : string → list A) (s : string) : option A :=
  match m s with
  | x :: _ => Some x
  | [] => match s with EmptyString => None | String _ s' => re_search m s' end
  end.

(** ** SAS tokens *)

Definition sas_keys : list string := ["sv"; "st"; "se"; "sr"; "sp"; "sip"; "spr"; "sig"].

(** What [SAS_TOKEN_RE] takes as a value: up to a quote, a bracket or white space *)
Definition is_token_char (c : ascii) : bool := negb (Ascii.eqb c dquote) && negb (Ascii.eqb c "]"%char) && negb (is_py_space c).

Notation chars := (list ascii).
Notation explode := String.list_ascii_of_string.
Notation implode := String.string_of_list_ascii.

(** [s.startswith(p)], ignoring the case; the rest *)
Fixpoint strip_prefix_ci (p s : chars) : option chars :=
  match p, s with
  | [], _ => Some s
  | a :: p', b :: s' => if Ascii.eqb (ascii_lower a) (ascii_lower b) then strip_prefix_ci p' s' else None
  | _ :: _, [] => None
  end.

(** The longest prefix of characters satisfying [p], and the rest *)
Fixpoint lspan (p : ascii → bool) (s : chars) : chars * chars :=
  match s with
  | [] => ([], [])
  | c :: s' => if p c then let '(a, b) := lspan p s' in (c :: a, b) else ([], s)
  end.

(** [((sv|...|sig)=[^...]+)+] at the start of [s]: the rest.  The first value takes every
    character it can, so there is no second one. *)
Definition match_token (s : chars) : option chars :=
  match omap (λ k, strip_prefix_ci (explode (k +:+ "=")) s) sas_keys with
  | value :: _ => match lspan is_token_char value with ([], _) => None | (_, rest) => Some rest end
  | [] => None
  end.

(** [\S*\?] and a token, the longest first: the text up to the question mark, and the rest *)
Fixpoint match_query (s : chars) : option (chars * chars) :=
  match s with
  | [] => None
  | c :: s' =>
      match (if is_py_space c then None else match_query s') with
      | Some (url, rest) => Some (c :: url, rest)
      | None => if Ascii.eqb c "?"%char then (λ rest, (["?"%char], rest)) <$> match_token s' else None
      end
  end.

(** [SAS_TOKEN_RE] at the start of [s]: the first group, and the rest *)
Definition match_sas (s : chars) : option (chars * chars) :=
  match strip_prefix_ci (explode "https://") s with
  | Some (c :: s') =>
      if is_py_space c then None
      else '(url, rest) ← match_query s'; Some (take 8 s ++ c :: url, rest)
  | _ => None
  end.

Definition redaction : chars := explode "<redacted>".

(** [SAS_TOKEN_RE.sub(r'\1<redacted>', s)] *)
Fixpoint redact_go (fuel : nat) (s : chars) : chars :=
  match fuel, s with
  | O, _ => s
  | S fuel', [] => []
  | S fuel', c :: s' =>
      match match_sas s with
      | Some (url, rest) => url ++ redaction ++ redact_go fuel' rest
      | None => c :: redact_go fuel' s'
      end
  end.

(** [redact_sas_token], on a text; [None] is returned as it is. *)
Definition redact_sas_token (s : string) : string := implode (redact_go (String.length s) (explode s)).

Example redact_one :
  redact_sas_token "GET https://md.blob.core.windows.net/status?sv=2018-03-28&sig=k8%3D failed" =
  "GET https://md.blob.core.windows.net/status?<redacted> failed".
Proof. vm_compute. reflexivity. Qed.

(** Two URLs with no white space between them: the text before the last question mark is
    taken to be one URL, and the token of the first stays. *)
Example adjacent_tokens_are_kept :
  redact_sas_token "https://a/?sv=1&sig=SECRET],https://b/?sv=1&sig=OTHER" =
  "https://a/?sv=1&sig=SECRET],https://b/?<redacted>".
Proof. vm_compute. reflexivity. Qed.

(** *** What a redacted text has left *)

Definition space (c : ascii) : Prop := is_py_space c = true.
Definition nonspace (s : chars) : Prop := Forall (λ c, is_py_space c = false) s.
Definition queries (s : chars) : nat := length (filter (λ c, c = "?"%char) s).

(** No word has two question marks. *)
Definition one_query (s : chars) : Prop := ∀ a w b, s = a ++ w ++ b → nonspace w → (queries w ≤ 1)%nat.

(** [SAS_TOKEN_RE] matches nowhere. *)
Definition sas_free (s : chars) : Prop := ∀ a b, s = a ++ b → match_sas b = None.

Lemma lspan_app p s : s = (lspan p s).1 ++ (lspan p s).2.
Proof. induction s as [|c s IH]; [done|]. simpl. destruct (p c); [|done]. destruct (lspan p s). simpl in *. by rewrite IH. Qed.

Lemma lspan_forall p s : Forall (λ c, p c = true) (lspan p s).1.
Proof. induction s as [|c s IH]; [constructor|]. simpl. destruct (p c) eqn:Hc; [|constructor]. destruct (lspan p s). by constructor. Qed.

Lemma strip_ci_app p s r : strip_prefix_ci p s = Some r → ∃ h, s = h ++ r ∧ map ascii_lower h = map ascii_lower p.
Proof.
  revert s. induction p as [|a p IH]; intros s H; [exists []; by simplify_eq/=|]. destruct s as [|b s]; [done|]. simpl in H.
  destruct (Ascii.eqb _ _) eqn:E; [|done]. apply Ascii.eqb_eq in E. destruct (IH s H) as (h & -> & Hh).
  exists (b :: h). split; [done|]. simpl. by rewrite Hh, E.
Qed.

Lemma strip_ci_of p h r : map ascii_lower h = map ascii_lower p → strip_prefix_ci p (h ++ r) = Some r.
Proof.
  revert h. induction p as [|a p IH]; intros [|b h] H; try discriminate; [done|].
  injection H as H1 H2. simpl. rewrite H1, Ascii.eqb_refl. by apply IH.
Qed.

Lemma lower_space c : is_py_space (ascii_lower c) = is_py_space c.
Proof. revert c. intros [[] [] [] [] [] [] [] []]; reflexivity. Qed.

Lemma lower_nonspace h p : map ascii_lower h = map ascii_lower p → nonspace p → nonspace h.
Proof.
  revert p. induction h as [|a h IH]; intros [|b p] H Hp; try discriminate; [constructor|]. injection H as H1 H2.
  inversion Hp; subst. constructor; [|by apply (IH p)]. by rewrite <- lower_space, H1, lower_space.
Qed.

(** The shape of a match: [w] is the URL up to its question mark. *)
Definition url_shape (w : chars) : Prop :=
  ∃ h c a, w = h ++ c :: a ∧ map ascii_lower h = map ascii_lower (explode "https://") ∧ nonspace w.

Lemma match_query_Some s url rest :
  match_query s = Some (url, rest) → ∃ a t, s = a ++ "?"%char :: t ∧ url = a ++ ["?"%char] ∧ nonspace a ∧ match_token t = Some rest.
Proof.
  revert url rest. induction s as [|c s IH]; intros url rest H; [done|]. simpl in H.
  destruct (is_py_space c) eqn:Hc; [|destruct (match_query s) as [[u r]|]].
  2: { simplify_eq. destruct (IH _ _ eq_refl) as (a & t & -> & -> & Ha & Ht). exists (c :: a), t. split_and!; try done. by constructor. }
  all: destruct (Ascii.eqb c "?") eqn:E; [|done]; apply Ascii.eqb_eq in E as ->;
    destruct (match_token s) eqn:Ht; simplify_eq/=; exists [], s; split_and!; try done; constructor.
Qed.

Lemma match_query_is_Some a t : nonspace a → is_Some (match_token t) → is_Some (match_query (a ++ "?"%char :: t)).
Proof.
  intros Ha [r Ht]. induction Ha as [|c a Hc _ IH]; simpl.
  - destruct (match_query t) as [[? ?]|]; [by eexists|]. rewrite Ht. by eexists.
  - rewrite Hc. destruct IH as [[u r'] ->]. by eexists.
Qed.

Lemma match_sas_Some s url rest :
  match_sas s = Some (url, rest) →
  ∃ w t, url_shape w ∧ s = w ++ "?"%char :: t ∧ url = w ++ ["?"%char] ∧ match_token t = Some rest.
Proof.
  unfold match_sas. intros H. destruct (strip_prefix_ci _ s) as [[|c s']|] eqn:Hs; try done.
  apply strip_ci_app in Hs as (h & -> & Hh).
  destruct (is_py_space c) eqn:Hc; [done|]. destruct (match_query s') as [[u r]|] eqn:Hq; [|done].
  cbn [mbind option_bind] in H. injection H as <- <-. apply match_query_Some in Hq as (a & t & -> & -> & Ha & Ht).
  assert (Hl : length h = 8%nat) by (apply (f_equal length) in Hh; by rewrite !length_map in Hh).
  exists (h ++ c :: a), t. split_and!; try done.
  - exists h, c, a. split_and!; try done. apply Forall_app. split; [|by constructor].
    eapply lower_nonspace; [done|]. by repeat constructor.
  - by rewrite <- app_assoc.
  - rewrite <- !app_assoc, take_app_le, take_ge by lia. done.
Qed.

Lemma match_sas_is_Some w t : url_shape w → is_Some (match_token t) → is_Some (match_sas (w ++ "?"%char :: t)).
Proof.
  intros (h & c & a & -> & Hh & Hw) Ht. apply Forall_app in Hw as [_ Hw]. inversion Hw as [|? ? Hc Ha]; subst.
  unfold match_sas. rewrite <- app_assoc, (strip_ci_of _ _ _ Hh). simpl. rewrite Hc.
  destruct (match_query_is_Some a t Ha Ht) as [[u r] ->]. by eexists.
Qed.

(** A token is found in the word that starts the text. *)
Definition word (s : chars) : chars := (lspan (λ c, negb (is_py_space c)) s).1.

Lemma word_cons c s : word (c :: s) = if is_py_space c then [] else c :: word s.
Proof. unfold word. simpl. destruct (is_py_space c); [done|]. simpl. by destruct (lspan _ s). Qed.

Lemma strip_ci_word p s : nonspace p → strip_prefix_ci p (word s) = word <$> strip_prefix_ci p s.
Proof.
  intros Hp. revert s. induction Hp as [|a p Ha Hp IH]; intros s; [done|]. destruct s as [|b s]; [done|].
  rewrite word_cons. simpl. destruct (is_py_space b) eqn:Hb; simpl.
  - destruct (Ascii.eqb (ascii_lower a) (ascii_lower b)) eqn:E; [|done]. apply Ascii.eqb_eq in E.
    rewrite <- lower_space, E, lower_space in Ha. congruence.
  - destruct (Ascii.eqb _ _); [apply IH|done].
Qed.

Lemma lspan_head p s : (lspan p s).1 = [] ↔ match s with [] => True | c :: _ => p c = false end.
Proof. destruct s as [|c s]; [done|]. simpl. destruct (p c); [|done]. by destruct (lspan p s). Qed.

Lemma token_head_word v : (lspan is_token_char (word v)).1 = [] ↔ (lspan is_token_char v).1 = [].
Proof.
  rewrite !lspan_head. destruct v as [|c v]; [done|]. rewrite word_cons. unfold is_token_char.
  destruct (is_py_space c) eqn:Hc; [|by rewrite Hc]. simpl. by rewrite andb_false_r.
Qed.

Lemma match_token_word s : is_Some (match_token (word s)) ↔ is_Some (match_token s).
Proof.
  unfold match_token.
  assert (H : omap (λ k, strip_prefix_ci (explode (k +:+ "=")) (word s)) sas_keys
              = word <$> omap (λ k, strip_prefix_ci (explode (k +:+ "=")) s) sas_keys).
  { assert (Hk : Forall (λ k, nonspace (explode (k +:+ "="))) sas_keys) by (repeat constructor).
    revert Hk. generalize sas_keys. induction 1 as [|k l Hk _ IH]; [done|]. cbn [omap list_omap].
    rewrite strip_ci_word by done. destruct (strip_prefix_ci _ s); simpl; by rewrite IH. }
  rewrite H. clear H. destruct (omap _ _) as [|v l]; [reflexivity|]. cbn [fmap list_fmap].
  pose proof (token_head_word v) as Hv. destruct (lspan is_token_char (word v)) as [[|? ?] ?], (lspan is_token_char v) as [[|? ?] ?];
    simpl in Hv; split; intros [? ?]; simplify_eq; try (by eexists); naive_solver.
Qed.

Lemma queries_app a b : queries (a ++ b) = (queries a + queries b)%nat.
Proof. unfold queries. by rewrite filter_app, length_app. Qed.

Lemma queries_in a b : (1 ≤ queries (a ++ "?"%char :: b))%nat.
Proof. rewrite queries_app. unfold queries at 2. rewrite filter_cons_True by done. simpl. lia. Qed.

Lemma one_query_suffix a b : one_query (a ++ b) → one_query b.
Proof. intros H x w y ->. apply (H (a ++ x) w y). by rewrite <- app_assoc. Qed.

(** A word with no question mark stays. *)
Lemma redact_word n s : (length s ≤ n)%nat → queries (word s) = 0%nat → word (redact_go n s) = word s.
Proof.
  revert s. induction n as [|n IH]; intros [|c s] Hn Hq; simpl in Hn; try done. cbn [redact_go].
  destruct (match_sas (c :: s)) as [[url rest]|] eqn:Hm.
  - apply match_sas_Some in Hm as (w & t & (h & d & a & _ & _ & Hw) & Hs & _). exfalso.
    rewrite Hs in Hq. clear -Hq Hw. induction Hw as [|x w Hx Hw IHw]; cbn [app] in Hq; rewrite word_cons in Hq.
    + done.
    + rewrite Hx in Hq. apply IHw. change (x :: ?l) with ([x] ++ l) in Hq. rewrite queries_app in Hq. lia.
  - rewrite !word_cons in *. destruct (is_py_space c); [done|]. f_equal. apply IH; [lia|].
    change (c :: ?l) with ([c] ++ l) in Hq. rewrite queries_app in Hq. lia.
Qed.

Lemma word_split s : ∃ r, s = word s ++ r ∧ nonspace (word s).
Proof.
  exists (lspan (λ c, negb (is_py_space c)) s).2. split; [apply lspan_app|].
  eapply Forall_impl; [apply lspan_forall|]. by intros c H%negb_true_iff.
Qed.

Lemma token_rest t rest : match_token t = Some rest → ∃ tok, t = tok ++ rest ∧ nonspace tok.
Proof.
  unfold match_token. assert (Hk : Forall (λ k, nonspace (explode (k +:+ "="))) sas_keys) by (repeat constructor).
  revert Hk. generalize sas_keys. intros l Hl. destruct (omap _ l) as [|v vs] eqn:Ho; [done|].
  assert (Hv : v ∈ omap (λ k, strip_prefix_ci (explode (k +:+ "=")) t) l) by (rewrite Ho; left).
  apply list_elem_of_omap in Hv as (k & Hk & Hs). rewrite Forall_forall in Hl. specialize (Hl k Hk).
  apply strip_ci_app in Hs as (h & -> & Hh). intros Hrest. pose proof (lspan_app is_token_char v) as Hv.
  pose proof (lspan_forall is_token_char v) as Ht. destruct (lspan is_token_char v) as [[|x tok] r]; simplify_eq/=.
  exists (h ++ x :: tok). split; [by rewrite <- app_assoc|]. apply Forall_app. split; [by eapply lower_nonspace|].
  eapply Forall_impl; [exact Ht|]. unfold is_token_char. intros c Hc. apply andb_true_iff in Hc as [_ Hc]. by apply negb_true_iff.
Qed.

Lemma redacted_no_token r : match_token (redaction ++ r) = None.
Proof. reflexivity. Qed.

(** The parts of a text around two question marks *)
Lemma app_query_cases (a b x y : chars) :
  a ++ "?"%char :: b = x ++ "?"%char :: y →
  (a = x ∧ b = y) ∨ (∃ m, x = a ++ "?"%char :: m ∧ b = m ++ "?"%char :: y) ∨ (∃ m, a = x ++ "?"%char :: m ∧ y = m ++ "?"%char :: b).
Proof.
  revert x. induction a as [|c a IH]; intros [|d x] H; simplify_eq/=.
  - by left.
  - right; left. by exists x.
  - right; right. by exists a.
  - destruct (IH x) as [[-> ->]|[(m & -> & ->)|(m & -> & ->)]]; [done|by left| |].
    + right; left. by exists m.
    + right; right. by exists m.
Qed.

Lemma two_queries w m : ¬ (queries (w ++ "?"%char :: m ++ ["?"%char]) ≤ 1)%nat.
Proof. rewrite queries_app. change ("?"%char :: m ++ ["?"%char]) with (["?"%char] ++ m ++ "?"%char :: []).
  rewrite queries_app. pose proof (queries_in m []). change (queries ["?"%char]) with 1%nat. lia. Qed.

Lemma app_query_split (a b m t : chars) :
  queries a = 0%nat → a ++ b = m ++ "?"%char :: t → ∃ m', m = a ++ m' ∧ b = m' ++ "?"%char :: t.
Proof.
  revert m. induction a as [|c a IH]; intros m Ha H; [by exists m|]. change (c :: a) with ([c] ++ a) in Ha.
  rewrite queries_app in Ha. destruct m as [|d m]; simplify_eq/=.
  destruct (IH m) as (m' & -> & ->); [lia|done|]. by exists m'.
Qed.

Lemma nonspace_two w m : nonspace w → nonspace m → nonspace (w ++ "?"%char :: m ++ ["?"%char]).
Proof. intros Hw Hm. apply Forall_app. split; [done|]. apply Forall_cons. split; [done|]. apply Forall_app. split; [done|by repeat constructor]. Qed.

(** After the redaction of a URL [v] and its token [tok], no question mark of its word is
    followed by a token. *)
Lemma no_token_left v tok rest R a l w t :
  one_query (v ++ "?"%char :: tok ++ rest) → nonspace v → nonspace tok →
  (∀ m t, R = m ++ "?"%char :: t → nonspace m → is_Some (match_token t) → ∃ t', rest = m ++ "?"%char :: t') →
  v ++ "?"%char :: redaction ++ R = a ++ w ++ "?"%char :: t →
  v ++ "?"%char :: redaction = a ++ l → nonspace w → match_token t = None.
Proof.
  intros Hq Hv Htok HR Heq Hal Hw. destruct (match_token t) eqn:Ht; [exfalso|done].
  rewrite (app_assoc a) in Heq. apply app_query_cases in Heq as [[_ <-]|[(m & Haw & Hr)|(m & -> & _)]].
  - by rewrite redacted_no_token in Ht.
  - apply app_query_split in Hr as (m' & -> & Hr); [|done]. rewrite app_comm_cons, app_assoc, Hal, <- app_assoc in Haw.
    apply app_inv_head in Haw as ->. apply Forall_app in Hw as [_ Hm'].
    destruct (HR m' t Hr Hm') as [t' ->]; [by eexists|].
    apply (two_queries v (tok ++ m')), (Hq [] _ t'); [simpl; rewrite <- !app_assoc; simpl; by rewrite <- !app_assoc|].
    apply nonspace_two; [done|]. by apply Forall_app.
  - apply Forall_app in Hv as [Haw Hm]. apply Forall_cons in Hm as [_ Hm].
    apply (two_queries (a ++ w) m), (Hq [] _ (tok ++ rest)); [simpl; rewrite <- !app_assoc; simpl; by rewrite <- !app_assoc|].
    by apply nonspace_two.
Qed.

(** A question mark that has a token behind it in the redacted text had one in the text,
    and the word before it is the same. *)
Lemma redact_go_keeps n s w t :
  (length s ≤ n)%nat → one_query s → redact_go n s = w ++ "?"%char :: t → nonspace w → is_Some (match_token t) →
  ∃ t', s = w ++ "?"%char :: t' ∧ is_Some (match_token t').
Proof.
  revert s w t. induction n as [|n IH]; intros [|c s] w t Hn Hq Hr Hw Ht; simpl in Hn; try lia; try (by destruct w).
  cbn [redact_go] in Hr. destruct (match_sas (c :: s)) as [[url rest]|] eqn:Hm.
  - exfalso. apply match_sas_Some in Hm as (v & t0 & (h & d & a & _ & _ & Hv) & Hs & -> & Hrest).
    apply token_rest in Hrest as (tok & -> & Htok).
    rewrite <- !app_assoc in Hr. simpl in Hr. rewrite Hs in Hq. apply (f_equal length) in Hs.
    rewrite !length_app in Hs. simpl in Hs. rewrite length_app in Hs.
    assert (H : match_token t = None); [|rewrite H in Ht; by destruct Ht].
    eapply (no_token_left v tok rest (redact_go n rest) []); [done..| |exact Hr|reflexivity|done]. intros m t1 HR Hm Ht1. destruct (IH rest m t1) as (t' & -> & _); [lia| |done..|by eexists].
    apply (one_query_suffix (v ++ "?"%char :: tok)). by rewrite <- app_assoc.
  - destruct w as [|d w]; simplify_eq/=.
    + exists s. split; [done|]. rewrite <- match_token_word, <- (redact_word n s); [by apply match_token_word|lia|].
      destruct (word_split s) as (r & Hs & Hws). pose proof (Hq [] ("?"%char :: word s) r) as H. simpl in H.
      change ("?"%char :: word s) with (["?"%char] ++ word s) in H. rewrite queries_app in H. change (queries ["?"%char]) with 1%nat in H.
      rewrite <- Hs in H. specialize (H eq_refl). opose proof (H _) as H'; [by constructor|lia].
    + inversion Hw; subst. destruct (IH s w t) as (t' & -> & Ht'); try done; [lia|by apply (one_query_suffix [d])|]. by exists t'.
Qed.

Lemma url_nonspace w : url_shape w → nonspace w.
Proof. by intros (? & ? & ? & _ & _ & ?). Qed.

Lemma sas_free_cons c s : match_sas (c :: s) = None → sas_free s → sas_free (c :: s).
Proof. intros Hm Hs [|x a] b H; simplify_eq/=; [done|]. by apply (Hs a). Qed.

(** Every SAS token is found. *)
Lemma redact_go_free n s : (length s ≤ n)%nat → one_query s → sas_free (redact_go n s).
Proof.
  revert s. induction n as [|n IH]; intros [|c s] Hn Hq; simpl in Hn; try lia; try (intros [|] [|]; done).
  cbn [redact_go]. destruct (match_sas (c :: s)) as [[url rest]|] eqn:Hm.
  - intros a b Hab. destruct (match_sas b) as [[u r]|] eqn:Hb; [|done]. exfalso.
    apply match_sas_Some in Hm as (v & t0 & Hv%url_nonspace & Hs & -> & Hrest). apply token_rest in Hrest as (tok & -> & Htok).
    rewrite Hs in Hq. apply (f_equal length) in Hs. rewrite !length_app in Hs. simpl in Hs. rewrite length_app in Hs.
    assert (Hqr : one_query rest) by (apply (one_query_suffix (v ++ "?"%char :: tok)); by rewrite <- app_assoc).
    rewrite app_assoc in Hab. apply app_eq_inv in Hab as Hcase. destruct Hcase as [(l & Hal & Hl)|(l & -> & Hl)].
    + clear Hl. apply match_sas_Some in Hb as (w & t & Hw%url_nonspace & -> & _ & Ht).
      rewrite <- !app_assoc in Hab. rewrite <- app_assoc in Hal.
      rewrite (no_token_left v tok rest (redact_go n rest) a l w t Hq Hv Htok) in Ht; [done| |exact Hab|exact Hal|done].
      intros m t1 HR Hm Ht1. destruct (redact_go_keeps n rest m t1) as (t' & -> & _); [lia|done..|by eexists].
    + rewrite (IH rest) with (a := l) (b := b) in Hb; [done|lia|done|done].
  - apply sas_free_cons; [|apply IH; [lia|by apply (one_query_suffix [c])]].
    destruct (match_sas (c :: redact_go n s)) as [[u r]|] eqn:Hb; [|done]. exfalso.
    apply match_sas_Some in Hb as (w & t & Hw & Hs & _ & Ht). destruct w as [|d w].
    { by destruct Hw as ([|] & ? & ? & ? & _). }
    simplify_eq/=. destruct (redact_go_keeps n s w t) as (t' & -> & Ht').
    { lia. } { by apply (one_query_suffix [d]). } { done. } { apply url_nonspace in Hw. by inversion Hw. } { by eexists. }
    destruct (match_sas_is_Some (d :: w) t' Hw Ht') as [? H]. simpl in H. congruence.
Qed.

Lemma explode_length s : length (explode s) = String.length s.
Proof. induction s as [|c s IH]; [done|]. simpl. by rewrite IH. Qed.

(** A token in a text: a URL, a question mark, one of the keys and a value; letters in either
    case *)
Definition has_sas_token (s : chars) : Prop :=
  ∃ a h c u k v r, s = a ++ h ++ c :: u ++ "?"%char :: k ++ "="%char :: v :: r ∧
    map ascii_lower h = explode "https://" ∧ nonspace (c :: u) ∧
    map ascii_lower k ∈ explode <$> ["sv"; "st"; "se"; "sr"; "sp"; "sip"; "spr"; "sig"] ∧
    v ≠ dquote ∧ v ≠ "]"%char ∧ is_py_space v = false.

Lemma lower_idem c : ascii_lower (ascii_lower c) = ascii_lower c.
Proof. revert c. intros [[] [] [] [] [] [] [] []]; reflexivity. Qed.

Lemma lower_token_char c : is_token_char (ascii_lower c) = is_token_char c.
Proof. revert c. intros [[] [] [] [] [] [] [] []]; reflexivity. Qed.

Lemma strip_ci_lower p s t r :
  map ascii_lower s = map ascii_lower t → strip_prefix_ci p s = Some r →
  ∃ r', strip_prefix_ci p t = Some r' ∧ map ascii_lower r = map ascii_lower r'.
Proof.
  revert s t. induction p as [|a p IH]; intros s t Hst H; [injection H as <-; by exists t|].
  destruct s as [|b s], t as [|b' t]; try discriminate. injection Hst as Hb Hst. simpl in *. rewrite <- Hb.
  destruct (Ascii.eqb _ _); [|discriminate]. by apply (IH s t).
Qed.

(** Whether there is a token does not depend on the case of the letters. *)
Lemma match_token_lower s t : map ascii_lower s = map ascii_lower t → is_Some (match_token s) → is_Some (match_token t).
Proof.
  unfold match_token. intros Hst. generalize sas_keys. induction l as [|k l IH]; [by intros []|]. cbn [omap list_omap].
  destruct (strip_prefix_ci _ s) as [r|] eqn:Hs.
  - destruct (strip_ci_lower _ _ _ _ Hst Hs) as (r' & -> & Hr). pose proof (lspan_head is_token_char r) as H1.
    pose proof (lspan_head is_token_char r') as H2. destruct r as [|x r], r' as [|x' r']; try discriminate; [by intros []|].
    injection Hr as Hx _. rewrite <- (lower_token_char x), Hx, (lower_token_char x') in H1.
    destruct (lspan is_token_char (x :: r)) as [[|? ?] ?], (lspan is_token_char (x' :: r')) as [[|? ?] ?]; simpl in *;
      intros [? Hsome]; try discriminate Hsome; [|by eexists]. exfalso. destruct H2 as [H2 _]. specialize (H2 eq_refl). by apply H1 in H2.
  - destruct (strip_prefix_ci _ t) as [r'|] eqn:Ht; [|exact IH]. exfalso.
    destruct (strip_ci_lower _ _ _ _ (eq_sym Hst) Ht) as (? & ? & _). congruence.
Qed.

Lemma token_matches k v r :
  map ascii_lower k ∈ explode <$> ["sv"; "st"; "se"; "sr"; "sp"; "sip"; "spr"; "sig"] →
  is_token_char v = true → is_Some (match_token (k ++ "="%char :: v :: r)).
Proof.
  intros Hk Hv. apply (match_token_lower (map ascii_lower k ++ "="%char :: v :: r)).
  { rewrite !map_app. f_equal. clear. induction k as [|c k IH]; [done|]. simpl. by rewrite lower_idem, IH. }
  assert (Hone : match_token (map ascii_lower k ++ "="%char :: v :: r) =
                 match lspan is_token_char (v :: r) with ([], _) => None | (_, rest) => Some rest end).
  { rewrite !list_fmap_cons in Hk || cbn [fmap list_fmap] in Hk.
    repeat (apply elem_of_cons in Hk as [->|Hk]; [reflexivity|]). by apply elem_of_nil in Hk. }
  rewrite Hone. simpl. rewrite Hv. destruct (lspan is_token_char r). by eexists.
Qed.

(** The text that [redact_sas_token] returns has no SAS token: every one of every URL is
    replaced, wherever it stands, if no word of the text (a run without white space) has more
    than one question mark. *)
Theorem no_sas_token_is_left s : one_query (explode s) → ¬ has_sas_token (explode (redact_sas_token s)).
Proof.
  intros Hq (a & h & c & u & k & v & r & Hs & Hh & Hu & Hk & Hv1 & Hv2 & Hv3).
  unfold redact_sas_token in Hs. rewrite String.list_ascii_of_string_of_list_ascii in Hs.
  apply redact_go_free in Hs; [|by rewrite explode_length|done].
  assert (Hw : url_shape (h ++ c :: u)).
  { exists h, c, u. split_and!; [done|done|]. apply Forall_app. split; [|done]. apply (lower_nonspace h (explode "https://")); [exact Hh|by repeat constructor]. }
  destruct (match_sas_is_Some _ (k ++ "="%char :: v :: r) Hw) as [x Hx].
  - apply token_matches; [done|]. unfold is_token_char. rewrite Hv3.
    by rewrite (proj2 (Ascii.eqb_neq _ _) Hv1), (proj2 (Ascii.eqb_neq _ _) Hv2).
  - rewrite <- app_assoc in Hx. simpl in Hx. congruence.
Qed.

Fixpoint one_queryb (s : chars) : bool :=
  match s with [] => true | _ :: s' => bool_decide (queries (word s) ≤ 1)%nat && one_queryb s' end.

Lemma word_prefix w b : nonspace w → ∃ r, word (w ++ b) = w ++ r.
Proof.
  induction 1 as [|c w Hc Hw [r IH]]; [by eexists|]. exists r. cbn [app]. by rewrite word_cons, Hc, IH.
Qed.

Lemma one_queryb_sound s : one_queryb s = true → one_query s.
Proof.
  intros H a w b -> Hw. induction a as [|c a IH].
  - destruct w as [|x w]; [unfold queries; simpl; lia|]. simpl in H. apply andb_true_iff in H as [H _].
    apply bool_decide_eq_true in H. change (x :: w ++ b) with ((x :: w) ++ b) in H.
    destruct (word_prefix (x :: w) b Hw) as [r Hr]. rewrite Hr, queries_app in H. lia.
  - apply IH. simpl in H. by apply andb_true_iff in H as [_ H].
Qed.

Lemma no_sas_token_is_left_witness :
  let s := "GET https://md.blob.core.windows.net/status?sv=2018-03-28&sig=k8%3D failed; see https://b/?SIG=x]" in
  redact_sas_token s = "GET https://md.blob.core.windows.net/status?<redacted> failed; see https://b/?<redacted>]" ∧
  ¬ has_sas_token (explode (redact_sas_token s)).
Proof.
  split; [vm_compute; reflexivity|]. apply no_sas_token_is_left, one_queryb_sound. vm_compute. reflexivity.
Defined.

(** ** Numbers in buffers *)

Notation buffer := (list Z).
Definition is_byte (z : Z) : Prop := 0 ≤ z < 256.

(** [buf[i]] *)
Definition byte_at (buf : buffer) (i : Z) : res exn Z :=
  let i := if i <? 0 then i + Z.of_nat (length buf) else i in
  match (if i <? 0 then None else buf !! Z.to_nat i) with
  | Some b => Ok b
  | None => Err (py_error IndexError "index out of range")
  end.

(** [unpack] *)
Fixpoint unpack_go (buf : buffer) (offset result : Z) (value_range : list Z) : res exn Z :=
  match value_range with
  | [] => Ok result
  | i :: r => b ← byte_at buf (offset + i); unpack_go buf offset (Z.lor (Z.shiftl result 8) b) r
  end.
Definition unpack (buf : buffer) (offset : Z) (value_range : list Z) : res exn Z := unpack_go buf offset 0 value_range.

(** [range(0, n)] *)
Definition range (n : Z) : list Z := Z.of_nat <$> seq 0 (Z.to_nat n).

Definition unpack_little_endian (buf : buffer) (offset length : Z) : res exn Z := unpack buf offset (reverse (range length)).
Definition unpack_big_endian (buf : buffer) (offset length : Z) : res exn Z := unpack buf offset (range length).

(** [buf[offset:offset + length]], for a non-negative offset and length *)
Definition slice (buf : buffer) (offset length : Z) : buffer := take (Z.to_nat length) (drop (Z.to_nat offset) buf).

(** ['%02X' % b], for a byte *)
Definition upper_hex_digit (n : Z) : ascii := ascii_of_nat (Z.to_nat (if n <? 10 then 48 + n else 55 + n)).
Definition format_02X (b : Z) : string := String (upper_hex_digit (b / 16)) (String (upper_hex_digit (b mod 16)) "").

Definition hex_dump3 (buf : buffer) (offset length : Z) : string := String.concat "" (format_02X <$> slice buf offset length).
Definition hex_dump2 (buf : buffer) : string := hex_dump3 buf 0 (Z.of_nat (length buf)).

Definition is_in_range (a low high : Z) : bool := (low <=? a) && (a <=? high).
Definition is_printable (ch : Z) : bool := is_in_range ch 65 90 || is_in_range ch 97 122 || is_in_range ch 48 57.

(** [compare_bytes] *)
Fixpoint compare_bytes_go (a b : buffer) (offsets : list Z) : res exn bool :=
  match offsets with
  | [] => Ok true
  | o :: r =>
      x ← byte_at a o; y ← byte_at b o;
      if x =? y then compare_bytes_go a b r else Ok false
  end.
Definition compare_bytes (a b : buffer) (start length : Z) : res exn bool :=
  compare_bytes_go a b ((λ i, start + i) <$> range length).

(** [int_to_ip4_addr] *)
Definition int_to_ip4_addr (a : Z) : string :=
  pretty (Z.land (Z.shiftr a 24) 255) +:+ "." +:+ pretty (Z.land (Z.shiftr a 16) 255) +:+ "." +:+
  pretty (Z.land (Z.shiftr a 8) 255) +:+ "." +:+ pretty (Z.land a 255).

(** [int(text, 16)] on two characters: digits, or a digit next to a space or after a sign *)
Definition int16 (c d : ascii) : option Z :=
  match digit_in 16 c, digit_in 16 d with
  | Some x, Some y => Some (x * 16 + y)
  | None, Some y => if is_py_space c || Ascii.eqb c "+"%char then Some y else if Ascii.eqb c "-"%char then Some (- y) else None
  | Some x, None => if is_py_space d then Some x else None
  | None, None => None
  end.

(** [struct.pack("B", z)] *)
Definition pack_B (z : Z) : res exn Z :=
  if is_in_range z 0 255 then Ok z else Err (py_error StructError "ubyte format requires 0 <= number <= 255").

(** [hexstr_to_bytearray]; an odd last character is dropped. *)
Fixpoint hexstr_to_bytearray (a : string) : res exn buffer :=
  match a with
  | String c (String d r) =>
      match int16 c d with
      | Some z => b ← pack_B z; l ← hexstr_to_bytearray r; Ok (b :: l)
      | None => Err (py_error ValueError ("invalid literal for int() with base 16: '" +:+ String c (String d "") +:+ "'"))
      end
  | _ => Ok []
  end.

(** [swap_hexstring]: the groups of [width] digits, the last first; text that is not a digit
    is skipped. *)
Fixpoint hex_groups (fuel width : nat) (s : string) : list string :=
  match fuel with
  | O => []
  | S fuel' =>
      let g := str_take width s in
      if bool_decide (String.length g = width) && str_forallb (λ c, bool_decide (is_Some (digit_in 16 c))) g
      then g :: hex_groups fuel' width (String.substring width (String.length s) s)
      else match s with EmptyString => [] | String _ s' => hex_groups fuel' width s' end
  end.
Fixpoint zeros (n : nat) : string := match n with O => "" | S n' => String "0"%char (zeros n') end.
Definition swap_hexstring (s : string) (width : nat) : string :=
  let r := (String.length s mod width)%nat in
  let s := if bool_decide (r = 0)%nat then s else zeros (width - r) +:+ s in
  String.concat "" (reverse (hex_groups (S (String.length s)) width s)).

Example swap_hexstring_ex : (swap_hexstring "0a1B2c" 2, swap_hexstring "abc" 2) = ("2c1B0a", "bc0a").
Proof. vm_compute. reflexivity. Qed.

(** The value of bytes in network order *)
Definition be_value (l : buffer) : Z := foldl (λ r b, r * 256 + b) 0 l.

Lemma lor_shift r b : is_byte b → Z.lor (Z.shiftl r 8) b = r * 256 + b.
Proof.
  intros [H0 H1]. rewrite <- Z.add_nocarry_lor; [by rewrite Z.shiftl_mul_pow2 by lia|].
  apply Z.bits_inj'. intros n Hn. rewrite Z.land_spec, Z.bits_0, Z.shiftl_spec by done.
  destruct (Z.lt_ge_cases n 8); [rewrite Z.testbit_neg_r by lia; done|].
  replace b with (b mod 2 ^ 8) by (apply Z.mod_small; lia). rewrite Z.mod_pow2_bits_high by lia. apply andb_false_r.
Qed.

Lemma byte_at_nat buf (i : nat) b : buf !! i = Some b → byte_at buf (Z.of_nat i) = Ok b.
Proof. intros H. unfold byte_at. destruct (Z.ltb_spec (Z.of_nat i) 0); [lia|]. destruct (Z.ltb_spec (Z.of_nat i) 0); [lia|]. by rewrite Nat2Z.id, H. Qed.

Lemma byte_at_beyond buf i : Z.of_nat (length buf) ≤ i → ∃ e, byte_at buf i = Err e ∧ e_class e = IndexError.
Proof.
  intros H. unfold byte_at. destruct (Z.ltb_spec i 0); [lia|]. destruct (Z.ltb_spec i 0); [lia|].
  rewrite lookup_ge_None_2 by lia. by eexists.
Qed.

Lemma unpack_go_spec buf offset (ix : list nat) r l :
  Forall is_byte buf → mapM (λ i, buf !! (offset + i)%nat) ix = Some l →
  unpack_go buf (Z.of_nat offset) r (Z.of_nat <$> ix) = Ok (foldl (λ r b, r * 256 + b) r l).
Proof.
  intros Hb. revert r l. induction ix as [|i ix IH]; intros r l H; [by injection H as <-|].
  simpl in H. apply bind_Some in H as (b & Hi & H). apply bind_Some in H as (l' & Hl & H). injection H as <-.
  cbn [fmap list_fmap unpack_go]. rewrite <- Nat2Z.inj_add, (byte_at_nat _ _ _ Hi). simpl.
  rewrite lor_shift by (by eapply Forall_lookup_1). by apply IH.
Qed.

Lemma mapM_seq (buf : buffer) offset n : (offset + n ≤ length buf)%nat →
  mapM (λ i, buf !! (offset + i)%nat) (seq 0 n) = Some (take n (drop offset buf)).
Proof.
  intros H. apply mapM_Some. apply Forall2_same_length_lookup_2; [rewrite length_seq, length_take, length_drop; lia|].
  intros i x y Hx Hy. apply lookup_seq in Hx as [-> Hi]. rewrite lookup_take_lt, lookup_drop in Hy by done. done.
Qed.

(** Numbers in network order and in the order of the machine *)
Lemma unpack_spec buf offset n :
  Forall is_byte buf → (offset + n ≤ length buf)%nat →
  let l := take n (drop offset buf) in
  unpack_big_endian buf (Z.of_nat offset) (Z.of_nat n) = Ok (be_value l) ∧
  unpack_little_endian buf (Z.of_nat offset) (Z.of_nat n) = Ok (be_value (reverse l)).
Proof.
  intros Hb Hn l. pose proof (mapM_seq buf offset n Hn) as Hm. unfold unpack_big_endian, unpack_little_endian, unpack, range.
  rewrite Nat2Z.id. split; [by apply unpack_go_spec|]. rewrite <- fmap_reverse. apply unpack_go_spec; [done|].
  apply mapM_Some. apply mapM_Some in Hm. by apply Forall2_reverse.
Qed.

Lemma hex_byte b : is_byte b → int16 (upper_hex_digit (b / 16)) (upper_hex_digit (b mod 16)) = Some b.
Proof.
  intros [H0 H1]. assert (Hall : Forall (λ n, int16 (upper_hex_digit (Z.of_nat n / 16)) (upper_hex_digit (Z.of_nat n mod 16)) = Some (Z.of_nat n)) (seq 0 256)).
  { apply (bool_decide_unpack _). vm_compute. exact I. }
  rewrite Forall_forall in Hall. specialize (Hall (Z.to_nat b)). rewrite Z2Nat.id in Hall by lia. apply Hall, elem_of_seq. lia.
Qed.

Lemma concat_cons_nil s l : String.concat "" (s :: l) = s +:+ String.concat "" l.
Proof. destruct l; simpl; [by rewrite string_app_nil_r|done]. Qed.

(** What a dump in hexadecimal shows is read back. *)
Lemma hex_dump_roundtrip buf : Forall is_byte buf → hexstr_to_bytearray (hex_dump2 buf) = Ok buf.
Proof.
  intros Hb. unfold hex_dump2, hex_dump3, slice. rewrite Nat2Z.id, drop_0, take_ge by lia.
  induction Hb as [|b l Hb _ IH]; [done|]. rewrite fmap_cons, concat_cons_nil. unfold format_02X at 1.
  change (hexstr_to_bytearray _) with
    (match int16 (upper_hex_digit (b / 16)) (upper_hex_digit (b mod 16)) with
     | Some z => b ← pack_B z; l ← hexstr_to_bytearray (String.concat "" (format_02X <$> l)); Ok (b :: l)
     | None => Err (py_error ValueError ("invalid literal for int() with base 16: '" +:+
                 String (upper_hex_digit (b / 16)) (String (upper_hex_digit (b mod 16)) "") +:+ "'"))
     end).
  rewrite (hex_byte b Hb). unfold pack_B, is_in_range. destruct Hb. rewrite (proj2 (Z.leb_le 0 b)), (proj2 (Z.leb_le b 255)) by lia.
  simpl. by rewrite IH.
Qed.

(** ** Other texts *)

(** [s.isspace()], and the helpers on empty texts *)
Definition is_str_none_or_whitespace (s : option string) : bool :=
  match s with None => true | Some s => str_forallb is_py_space s end.

(** [s.lstrip()], [s.rstrip()] *)
Fixpoint drop_spaces (s : string) : string :=
  match s with String c s' => if is_py_space c then drop_spaces s' else s | "" => "" end.
Fixpoint drop_spaces_end (s : string) : string :=
  match s with
  | "" => ""
  | String c s' => match drop_spaces_end s' with "" => if is_py_space c then "" else String c "" | t => String c t end
  end.

(** [s.rstrip(' \t\r\n\0')] *)
Definition is_trailing (c : ascii) : bool := bool_decide (code c ∈ [32; 9; 13; 10; 0]).
Fixpoint rstrip_nul (s : string) : string :=
  match s with
  | EmptyString => ""
  | String c s' => if str_forallb is_trailing s then "" else String c (rstrip_nul s')
  end.
Definition is_str_empty (s : option string) : bool :=
  is_str_none_or_whitespace s || is_str_none_or_whitespace (rstrip_nul <$> s).

(** [replace_non_ascii], with the empty replacement as default *)
Fixpoint replace_non_ascii (incoming replace_char : string) : string :=
  match incoming with
  | EmptyString => ""
  | String c s' => (if 128 <? code c then replace_char else String c "") +:+ replace_non_ascii s' replace_char
  end.

(** [remove_bom] *)
Definition remove_bom (c : string) : string :=
  if negb (is_str_none_or_whitespace (Some c)) && (2 <? str_len c) then
    match c with
    | String x (String y (String z r)) => if (128 <? code x) && (128 <? code y) && (128 <? code z) then r else c
    | _ => c
    end
  else c.

(** The mark is removed, and so is any other character that UTF-8 encodes in three bytes. *)
Example remove_bom_removes_more :
  remove_bom (String (ascii_of_nat 228) (String (ascii_of_nat 184) (String (ascii_of_nat 173) "1"))) = "1".
Proof. reflexivity. Qed.

(** [get_bytes_from_pem] *)
Definition get_bytes_from_pem (lines : list string) : string :=
  String.concat "" (filter (λ l, str_contains "----" l = false) lines).

(** *** Configuration files *)

(** The loop of [set_ssh_config]: the lines from index [i] on; [match_start] is the start of
    the [Match] block that the line is in. *)
Fixpoint set_ssh_loop (name text : string) (i : Z) (match_start : Z) (found : bool) (config : list string)
    : list string * Z * bool :=
  match config with
  | [] => ([], match_start, found)
  | line :: rest =>
      if starts_with name line && (match_start =? -1) then
        let '(out, m, f) := set_ssh_loop name text (i + 1) match_start true rest in (text :: out, m, f)
      else
        let match_start :=
          if starts_with "match" (str_lower line) then
            if starts_with "match all" (str_lower line) then -1
            else if match_start =? -1 then i else match_start
          else match_start in
        let '(out, m, f) := set_ssh_loop name text (i + 1) match_start found rest in (line :: out, m, f)
  end.

(** [set_ssh_config]: the new list; [i] is not bound if there is no line. *)
Definition set_ssh_config (config : list string) (name val : string) : res exn (list string) :=
  let text := name +:+ " " +:+ val in
  let '(out, match_start, found) := set_ssh_loop name text 0 (-1) false config in
  if (found : bool) then Ok out
  else
    match config with
    | [] => Err (py_error NameError "cannot access local variable 'i' where it is not associated with a value")
    | _ => let i := if match_start =? -1 then (length config - 1)%nat else Z.to_nat match_start in
           Ok (take i out ++ text :: drop i out)
    end.

(** [set_ini_config]: the last line that sets [name], or a new line before the last *)
Fixpoint replace_last (p : string → bool) (text : string) (config : list string) : option (list string) :=
  match config with
  | [] => None
  | line :: rest =>
      match replace_last p text rest with
      | Some out => Some (line :: out)
      | None => if p line then Some (text :: rest) else None
      end
  end.
Definition set_ini_config (config : list string) (name val : string) : list string :=
  let text := name +:+ "=" +:+ String dquote (val +:+ String dquote "") in
  match replace_last (starts_with (name +:+ "=")) text config with
  | Some out => out
  | None => let i := (length config - 1)%nat in take i config ++ text :: drop i config
  end.

(** **** What sshd reads

    A line belongs to every connection unless it is in a [Match] block that is not
    [Match all].  [block] tells whether the lines before ended in such a block. *)
Definition ssh_step (block : bool) (line : string) : bool :=
  if starts_with "match" (str_lower line) then negb (starts_with "match all" (str_lower line)) else block.
Definition ssh_block (block : bool) (config : list string) : bool := foldl ssh_step block config.
Fixpoint ssh_globals (name : string) (block : bool) (config : list string) : list string :=
  match config with
  | [] => []
  | line :: rest =>
      (if starts_with name line && negb block then [line] else []) ++ ssh_globals name (ssh_step block line) rest
  end.

Section ssh.
Context (name val : string).
Notation text := (name +:+ " " +:+ val).
(** [name] is not a [Match] keyword. *)
Hypothesis plain : ∀ x, starts_with "match" (str_lower (name +:+ x)) = false.

Lemma starts_with_app p x : starts_with p (p +:+ x) = true.
Proof. unfold starts_with. rewrite strip_prefix_app. by apply bool_decide_eq_true. Qed.

Lemma starts_with_Some p s : starts_with p s = true → ∃ x, s = p +:+ x.
Proof. unfold starts_with. rewrite bool_decide_eq_true. intros [x H]. exists x. by apply strip_prefix_Some. Qed.

Lemma ssh_step_name block line : starts_with name line = true → ssh_step block line = block.
Proof. intros [x ->]%starts_with_Some. unfold ssh_step. by rewrite plain. Qed.

Lemma ssh_globals_app block a b :
  ssh_globals name block (a ++ b) = ssh_globals name block a ++ ssh_globals name (ssh_block block a) b.
Proof. revert block. induction a as [|l a IH]; intros block; [done|]. simpl. by rewrite IH, app_assoc. Qed.

(** The start of the block after a line *)
Lemma match_start_step i m line :
  -1 ≤ m → 0 ≤ i →
  let m2 := if starts_with "match" (str_lower line) then
              if starts_with "match all" (str_lower line) then -1 else if m =? -1 then i else m
            else m in
  -1 ≤ m2 ∧ negb (m2 =? -1) = ssh_step (negb (m =? -1)) line ∧ (m2 = -1 ∨ m2 = m ∨ (m2 = i ∧ m = -1)).
Proof.
  intros Hm Hi. unfold ssh_step. destruct (starts_with "match" _); [|split_and!; by auto].
  destruct (starts_with "match all" _); [split_and!; by auto|]. destruct (Z.eqb_spec m (-1)); simpl.
  - split_and!; [lia| |by auto]. destruct (Z.eqb_spec i (-1)); [lia|done].
  - split_and!; [lia| |by auto]. destruct (Z.eqb_spec m (-1)); [lia|done].
Qed.

(** The loop, from line [i] on, in a block iff [m] is its start *)
Lemma set_ssh_loop_spec i m found config out m' f :
  -1 ≤ m → 0 ≤ i → set_ssh_loop name text i m found config = (out, m', f) →
  let block := negb (m =? -1) in
  Forall (eq text) (ssh_globals name block out) ∧
  ssh_block block config = negb (m' =? -1) ∧
  f = found || negb (bool_decide (ssh_globals name block config = [])) ∧
  (ssh_globals name block config = [] → out = config) ∧
  (f = true → found = false → ssh_globals name block out ≠ []) ∧
  (m' = -1 ∨ m' = m ∨ ∃ k, m' = i + Z.of_nat k ∧ (k < length config)%nat ∧ ssh_block block (take k config) = false).
Proof.
  revert i m found out m' f. induction config as [|line rest IH]; intros i m found out m' f Hm Hi H.
  { simplify_eq/=. split_and!; try done; [by rewrite orb_false_r|congruence|by right; left]. }
  cbn [set_ssh_loop] in H. destruct (starts_with name line && (m =? -1)) eqn:Hl.
  - apply andb_true_iff in Hl as [Hn Hm1]. destruct (set_ssh_loop name text (i + 1) m true rest) as [[o m1] f1] eqn:Hr. simplify_eq.
    apply IH in Hr as (H1 & H2 & H3 & H4 & H5 & H6); [|lia..]. rewrite Hm1 in *. cbn [negb] in *.
    cbn [ssh_globals ssh_block foldl] in *. rewrite (ssh_step_name _ line Hn), starts_with_app, Hn. simpl.
    rewrite (ssh_step_name _ text) by apply starts_with_app. split_and!; try done.
    + by constructor.
    + rewrite H3. simpl. by rewrite orb_true_r.
    + destruct H6 as [H6|[H6|(k & -> & Hk & Hb)]]; [by left|by right; left|]. right; right. exists (S k).
      split_and!; [lia|simpl; lia|]. simpl. by rewrite (ssh_step_name _ line Hn).
  - destruct (match_start_step i m line Hm Hi) as (Hm2 & Hb2 & Hc2).
    set (m2 := if starts_with "match" (str_lower line) then _ else m) in *.
    destruct (set_ssh_loop name text (i + 1) m2 found rest) as [[o m1] f1] eqn:Hr. simplify_eq.
    apply IH in Hr as (H1 & H2 & H3 & H4 & H5 & H6); [|lia..]. rewrite Hb2 in *.
    cbn [ssh_globals ssh_block foldl] in *. rewrite negb_involutive, Hl. simpl. split_and!; try done.
    + intros ?. f_equal. by apply H4.
    + destruct H6 as [H6|[->|(k & -> & Hk & Hb)]]; [by left| |].
      * destruct Hc2 as [?|[?|[-> ->]]]; [by left|by right; left|]. right; right. exists 0%nat. split_and!; [lia|simpl; lia|done].
      * right; right. exists (S k). split_and!; [lia|simpl; lia|done].
Qed.

(** The last line is not a [Match all] that ends a block. *)
Definition ends_plain (config : list string) : Prop :=
  ssh_block false config = false → ssh_block false (take (length config - 1) config) = false.

Lemma insert_globals i config :
  ssh_globals name false config = [] → ssh_block false (take i config) = false →
  ssh_globals name false (take i config ++ text :: drop i config) = [text].
Proof.
  intros Hg Hb. rewrite <- (take_drop i config), ssh_globals_app, Hb in Hg. apply app_eq_nil in Hg as [H1 H2].
  rewrite ssh_globals_app, H1, Hb. cbn [ssh_globals]. rewrite starts_with_app, (ssh_step_name _ text) by apply starts_with_app.
  simpl. by rewrite H2.
Qed.

(** [set_ssh_config] makes [name val] what sshd reads for every connection: after it, at
    least one line sets [name] outside the [Match] blocks, and all those lines are the new
    one.  A file that has no such line gets exactly one and keeps every other line. *)
Theorem ssh_option_is_set config :
  config ≠ [] → ends_plain config →
  ∃ out, set_ssh_config config name val = Ok out ∧ ssh_globals name false out ≠ [] ∧ Forall (eq text) (ssh_globals name false out) ∧
    (ssh_globals name false config = [] → ∃ i, out = take i config ++ text :: drop i config).
Proof.
  intros Hne Hend. unfold set_ssh_config. destruct (set_ssh_loop name text 0 (-1) false config) as [[out m'] f] eqn:Hl.
  apply set_ssh_loop_spec in Hl as (H1 & H2 & H3 & H4 & H5 & H6); [|lia..]. cbn in H1, H2, H3, H4, H5, H6.
  destruct f.
  - exists out. split_and!; [done|by apply H5|done|]. intros Hg. rewrite Hg in H3. by rewrite bool_decide_eq_true_2 in H3.
  - symmetry in H3. apply negb_false_iff, bool_decide_eq_true in H3. rewrite (H4 H3).
    set (i := if m' =? -1 then (length config - 1)%nat else Z.to_nat m').
    assert (Hi : ssh_block false (take i config) = false).
    { subst i. destruct (Z.eqb_spec m' (-1)) as [->|Hm]; [by apply Hend; rewrite H2|].
      destruct H6 as [?|[?|(k & -> & _ & Hb)]]; [done..|]. by rewrite Z.add_0_l, Nat2Z.id. }
    pose proof (insert_globals i config H3 Hi) as Hg. destruct config as [|l config]; [done|]. eexists. split_and!; [done|..].
    + by rewrite Hg.
    + rewrite Hg. by repeat constructor.
    + by eexists.
Qed.
End ssh.

(** [Match all] as the last line ends the block before it, but the new line is put before
    it, into the block. *)
Example ssh_option_set_in_a_block :
  match set_ssh_config ["Port 22"; "Match user bob"; "X11Forwarding no"; "Match all"] "PasswordAuthentication" "no" with
  | Ok out => ssh_globals "PasswordAuthentication" false out = []
  | Err _ => False
  end.
Proof. vm_compute. reflexivity. Qed.

Lemma ssh_option_is_set_witness :
  ∃ out, set_ssh_config ["Port 22"; "Match user bob"; "PasswordAuthentication yes"] "PasswordAuthentication" "no" = Ok out ∧
    ssh_globals "PasswordAuthentication" false out ≠ [] ∧
    Forall (eq "PasswordAuthentication no") (ssh_globals "PasswordAuthentication" false out) ∧
    out = ["Port 22"; "PasswordAuthentication no"; "Match user bob"; "PasswordAuthentication yes"].
Proof.
  destruct (ssh_option_is_set "PasswordAuthentication" "no" ltac:(done)
    ["Port 22"; "Match user bob"; "PasswordAuthentication yes"]) as (out & H1 & H2 & H3 & _); [discriminate|done|].
  exists out. split_and!; [exact H1|exact H2|exact H3|]. vm_compute in H1. by injection H1 as <-.
Defined.
