(* ===== verification/Shell.v ===== *)
(** * Commands of the operating system (common/utils/shellutil.py)

    [run_command], [run_pipe], [run_get_output] and [run_command_get_output] start processes and keep
    the list of those that run, [_running_commands], which the check of the agent's cgroup consults.
    What a process does to the machine, of state [K], and how it ends is the parameter [popen].
    [quote] writes a list of words for the shell.  Log output is omitted. *)
From S2P Require Import Prelude PyExn Json Urls TextUtil.
From Stdlib Require Import Ascii.

(** How a process ends: with an exit code and what it wrote, or with an exception of [communicate].
    The arguments of [TimeoutExpired] are what the process wrote until it was killed. *)
Inductive ending := Exited (returncode : Z) (stdout stderr : string) | Broken (e : exn).
(** What [subprocess.Popen] and [communicate] do *)
Inductive process := NotStarted (e : exn) | Started (pid : Z) (r : ending).

Record shell (K : Type) := mkShell { sh_running : list Z; sh_machine : K }.
Arguments mkShell {K}.
Arguments sh_running {K}.
Arguments sh_machine {K}.

(** The lines of a text, without their ends *)
Fixpoint lines_go (cur : string) (s : string) : list string :=
  match s with
  | EmptyString => if String.eqb cur "" then [] else [cur]
  | String c s' => if Ascii.eqb c "010" then cur :: lines_go "" s' else lines_go (cur +:+ String c "") s'
  end.
Definition lines : string → list string := lines_go "".

(** [__format_command] of a command and of a pipe *)
Definition format_command (command : list string) : string := str_join " " command.
Definition format_pipe (pipe : list (list string)) : string := str_join " | " (format_command <$> pipe).

(** [CommandError]: the exit code is in [e_exit_code], stdout and stderr in [e_args]. *)
Definition command_error (command : string) (return_code : Z) (stdout stderr : string) : exn :=
  mkExn CommandError ("'" +:+ command +:+ "' failed: " +:+ pretty return_code +:+ " (" +:+ drop_spaces_end stderr +:+ ")")
    (-1) return_code [stdout; stderr].
Definition returncode (e : exn) : Z := e_exit_code e.

Section commands.
Context {K : Type}.
(** The arguments of a command and what is written to its standard input *)
Context (popen : list string → option string → K → process * K).
Notation SH X := (M (shell K) exn X).

(** [list.remove]: the first occurrence *)
Fixpoint remove_first (x : Z) (l : list Z) : list Z :=
  match l with [] => [] | y :: l' => if x =? y then l' else y :: remove_first x l' end.
(** [_on_command_completed] *)
Definition on_command_completed (pid : Z) : SH unit :=
  s ← get_state;
  if bool_decide (pid ∈ sh_running s) then modify (λ s, mkShell (remove_first pid (sh_running s)) (sh_machine s))
  else raise (py_error ValueError "list.remove(x): x not in list").

(** [_popen], and what becomes of the process *)
Definition spawn (command : list string) (input : option string) : SH (Z * ending) := λ s,
  match popen command input (sh_machine s) with
  | (NotStarted e, k) => (Err e, mkShell (sh_running s) k)
  | (Started pid r, k) => (Ok (pid, r), mkShell (sh_running s ++ [pid]) k)
  end.

(** [__run_command], for what [command_action] returned *)
Definition check_result (command : string) (return_code : Z) (stdout stderr : string) : SH string :=
  if return_code =? 0 then mret stdout else raise (command_error command return_code stdout stderr).

Definition killed_output (e : exn) : string * string := match e_args e with out :: err :: _ => (out, err) | _ => ("", "") end.

(** [run_command]: a process that timed out is killed. *)
Definition run_command (command : list string) (input : option string) : SH string :=
  '(pid, r) ← spawn command input;
  match r with
  | Broken e =>
      if isinstance e TimeoutExpired
      then raise (command_error (format_command command) (-1) (killed_output e).1 ("command timeout" +:+ String "010" (killed_output e).2))
      else raise e
  | Exited return_code stdout stderr =>
      on_command_completed pid ;; check_result (format_command command) return_code stdout stderr
  end.

(** [run_pipe]: all processes are started, the last one is waited for; standard error is shared. *)
Fixpoint spawn_all (pipe : list (list string)) : SH (list (Z * ending)) :=
  match pipe with
  | [] => mret []
  | command :: pipe' => p ← spawn command None; ps ← spawn_all pipe'; mret (p :: ps)
  end.
Definition stderr_of_ending (r : ending) : string := match r with Exited _ _ err => err | Broken _ => "" end.
Definition run_pipe (pipe : list (list string)) : SH string :=
  if bool_decide (length pipe < 2)%nat then raise (py_error ValueError "The pipe must consist of at least 2 commands")
  else
    ps ← spawn_all pipe;
    match last ps with
    | None => mret ""
    | Some (_, Broken e) => raise e
    | Some (_, Exited return_code stdout _) =>
        for_each ps.*1 on_command_completed ;;
        check_result (format_pipe pipe) return_code stdout (foldr String.append "" (stderr_of_ending <$> ps.*2))
    end.

(** [run_command_get_output]: the lines of the output are handed over one by one. *)
Definition run_command_get_output (command : list string) (on_output_line : string → SH unit) : SH unit :=
  '(pid, r) ← spawn command None;
  finally
    match r with
    | Broken e => raise e
    | Exited return_code stdout stderr =>
        for_each (lines stdout) on_output_line ;;
        if return_code =? 0 then mret tt else raise (command_error (format_command command) return_code "" stderr)
    end
    (on_command_completed pid).

(** [run_get_output]: the exit code and the output, with stdout and stderr in one stream *)
Definition run_get_output (cmd : string) : SH (Z * string) :=
  except Exception_
    ('(pid, r) ← spawn ["/bin/sh"; "-c"; cmd] None;
     match r with
     | Broken e => raise e
     | Exited return_code output _ => on_command_completed pid ;; mret (return_code, output)
     end)
    (λ e, mret (-1, e_msg e)).
(** [run], [has_command] *)
Definition run (cmd : string) : SH Z := r ← run_get_output cmd; mret r.1.
Definition has_command (cmd : string) : SH bool := rc ← run cmd; mret (rc =? 0).

(** [get_running_commands] *)
Definition get_running_commands : SH (list Z) := gets sh_running.
End commands.

(** ** Words of the shell *)

(** [quote] *)
Fixpoint escape_quotes (s : string) : string :=
  match s with
  | EmptyString => ""
  | String c s' => if Ascii.eqb c "'" then "'\''" +:+ escape_quotes s' else String c (escape_quotes s')
  end.
Definition quote_word (s : string) : string := "'" +:+ escape_quotes s +:+ "'".
Definition quote (word_list : list string) : string := str_join " " (quote_word <$> word_list).

(** The words of a command line, as [shlex.split] and the shell read them *)
Inductive quoting := Unquoted | Single | Double.
Definition snoc (cur : option string) (c : ascii) : option string := Some (default "" cur +:+ String c "").
Fixpoint words (q : quoting) (cur : option string) (s : string) : option (list string) :=
  match s with
  | EmptyString => match q with Unquoted => Some (match cur with Some w => [w] | None => [] end) | _ => None end
  | String c s' =>
      match q with
      | Single => if Ascii.eqb c "'" then words Unquoted cur s' else words Single (snoc cur c) s'
      | Double =>
          if Ascii.eqb c dquote then words Unquoted cur s'
          else match s' with
               | String d s'' =>
                   if Ascii.eqb c "\" && (Ascii.eqb d dquote || Ascii.eqb d "\") then words Double (snoc cur d) s'' else words Double (snoc cur c) s'
               | EmptyString => None
               end
      | Unquoted =>
          if Ascii.eqb c "'" then words Single (Some (default "" cur)) s'
          else if Ascii.eqb c dquote then words Double (Some (default "" cur)) s'
          else if Ascii.eqb c "\" then match s' with String d s'' => words Unquoted (snoc cur d) s'' | EmptyString => None end
          else if is_py_space c then match cur with
                                     | Some w => cons w <$> words Unquoted None s'
                                     | None => words Unquoted None s'
                                     end
          else words Unquoted (snoc cur c) s'
      end
  end.
Definition shell_split (s : string) : option (list string) := words Unquoted None s.

Lemma words_escaped s w rest : words Single (Some w) (escape_quotes s +:+ rest) = words Single (Some (w +:+ s)) rest.
Proof.
  revert w. induction s as [|c s IH]; intros w; simpl; [by rewrite string_app_nil_r|].
  destruct (Ascii.eqb_spec c "'") as [->|Hc].
  - simpl. rewrite IH. unfold snoc. simpl. by rewrite string_app_assoc.
  - simpl. destruct (Ascii.eqb_spec c "'"); [done|]. unfold snoc. simpl. rewrite IH. by rewrite string_app_assoc.
Qed.

Lemma words_quoted s rest : words Unquoted None (quote_word s +:+ rest) = words Unquoted (Some s) rest.
Proof. unfold quote_word. rewrite !string_app_assoc. simpl. change ("" +:+ escape_quotes s +:+ "'" +:+ rest) with (escape_quotes s +:+ "'" +:+ rest). by rewrite words_escaped. Qed.

(** What [quote] writes is read back by the shell as the same words, whatever characters they
    have. *)
Theorem quoted_words_are_read_back l : shell_split (quote l) = Some l.
Proof.
  unfold shell_split, quote. induction l as [|s l IH]; [done|]. destruct l as [|s' l].
  - change (str_join " " (quote_word <$> [s])) with (quote_word s). rewrite <-(string_app_nil_r (quote_word s)). by rewrite words_quoted.
  - change (str_join " " (quote_word <$> s :: s' :: l)) with (quote_word s +:+ " " +:+ str_join " " (quote_word <$> s' :: l)).
    rewrite words_quoted. transitivity (cons s <$> words Unquoted None (str_join " " (quote_word <$> s' :: l))); [done|]. by rewrite IH.
Qed.

(** ** The list of running commands *)

Section running.
Context {K : Type} (popen : list string → option string → K → process * K).

Lemma remove_first_perm x l : x ∈ l → x :: remove_first x l ≡ₚ l.
Proof.
  induction l as [|y l IH]; [by intros ?%elem_of_nil|]. rewrite elem_of_cons. simpl. destruct (Z.eqb_spec x y) as [->|H]; [done|].
  intros [->|Hx]; [done|]. by rewrite Permutation_swap, IH.
Qed.

Lemma completed_perm pid s l : sh_running s ≡ₚ pid :: l →
  wp (on_command_completed pid) (λ _ s', sh_running s' ≡ₚ l ∧ sh_machine s' = sh_machine s) (λ _ _, False) (s : shell K).
Proof.
  intros Hs. unfold wp, on_command_completed, mbind, M_bind, get_state.
  rewrite (bool_decide_eq_true_2 (pid ∈ _)) by (rewrite Hs; set_solver). simpl. split; [|done].
  apply (Permutation_cons_inv (a := pid)). by rewrite remove_first_perm by (rewrite Hs; set_solver).
Qed.

(** What [run_command] does, for every way the process can end *)
Lemma run_command_spec command input s :
  match popen command input (sh_machine s) with
  | (NotStarted e, k) => run_command popen command input s = (Err e, mkShell (sh_running s) k)
  | (Started pid (Exited rc out err), k) =>
      ∃ l, l ≡ₚ sh_running s ∧
      run_command popen command input s =
        (if rc =? 0 then Ok out else Err (command_error (format_command command) rc out err), mkShell l k)
  | (Started pid (Broken e), k) =>
      ∃ e', (e' = e ∨ ∃ out err, e' = command_error (format_command command) (-1) out err) ∧ run_command popen command input s = (Err e', mkShell (sh_running s ++ [pid]) k)
  end.
Proof.
  unfold run_command, spawn, mbind, M_bind.
  destruct (popen _ _ _) as [[e|pid [rc out err|e]] k]; [done| |destruct (isinstance e TimeoutExpired); eexists; split; try done; eauto].
  assert (sh_running (mkShell (sh_running s ++ [pid]) k) ≡ₚ pid :: sh_running s) as Hs by (symmetry; apply Permutation_cons_append).
  apply completed_perm in Hs. unfold wp in Hs. destruct (on_command_completed _ _) as [[[]|e] [l k']]; [|done].
  destruct Hs as [Hl Hk]. simpl in *. subst k'. exists l. split; [done|]. unfold check_result. by destruct (rc =? 0).
Qed.

(** [Popen] and [communicate] raise built-in exceptions ([BaseException] stands for those that end
    the process). *)
Definition builtin_error (e : exn) : Prop := e_class e ∈ [OSError; ValueError; TypeError; UnicodeError; TimeoutExpired; BaseException].
Definition builtin_errors : Prop := ∀ c i k,
  match (popen c i k).1 with NotStarted e | Started _ (Broken e) => builtin_error e | _ => True end.

(** A rule for [run_command]: [P] holds of how the process ended and of the machine it left. *)
Lemma wp_run_command c input (P : process → K → Prop) (Q : string → shell K → Prop) R s :
  builtin_errors →
  P (popen c input (sh_machine s)).1 (popen c input (sh_machine s)).2 →
  (∀ pid out err h, P (Started pid (Exited 0 out err)) (sh_machine h) → Q out h) →
  (∀ pid rc out err h, rc ≠ 0 → P (Started pid (Exited rc out err)) (sh_machine h) → R (command_error (format_command c) rc out err) h) →
  (∀ r e h, P r (sh_machine h) → match r with Started _ (Exited _ _ _) => False | _ => True end →
            (builtin_error e ∨ ∃ out err, e = command_error (format_command c) (-1) out err) → R e h) →
  wp (run_command popen c input) Q R s.
Proof.
  intros Hn HP H0 H1 H2. unfold wp. pose proof (run_command_spec c input s) as Hs. specialize (Hn c input (sh_machine s)).
  destruct (popen c input (sh_machine s)) as [[e|pid [rc out err|e]] k]; simpl in *.
  - rewrite Hs. apply (H2 (NotStarted e)); auto.
  - destruct Hs as (l & _ & ->). destruct (Z.eqb_spec rc 0) as [->|Hrc]; [by apply (H0 pid out err)|by apply (H1 pid rc out err)].
  - destruct Hs as (e' & He & ->). apply (H2 (Started pid (Broken e))); [done..|]. destruct He as [->|?]; auto.
Qed.

Lemma builtin_not_command e : builtin_error e → isinstance e CommandError = false.
Proof. unfold builtin_error, isinstance. rewrite !elem_of_cons, elem_of_nil. intros H. repeat destruct H as [->|H]; done. Qed.

(** A command that timed out stays in the list of running commands. *)
Example timed_out_command_is_still_running (k : K) :
  let timeout := λ _ _ k, (Started 7 (Broken (mkExn TimeoutExpired "timed out" (-1) (-1) ["";""])), k) in
  sh_running (run_command timeout ["sleep"; "60"] None (mkShell [] k)).2 = [7].
Proof. reflexivity. Qed.
End running.
