(* ===== verification/ExtProcess.v ===== *)
(** * Processes of extensions (ga/extensionprocessutil.py)

    A command of an extension writes its output to two temporary files, whose position it shares with
    the agent.  [wait_for_process_completion_or_timeout] polls it once a second and kills it when its
    time is up, [handle_process_completion] turns the end of the process into a text or an error, and
    [read_output] keeps as much of the output as telemetry takes.  The time a process has run is in
    whole seconds.  [decode] is the decoding of bytes with escapes for those that are not UTF-8. *)
From S2P Require Import Prelude PyExn FlexVersion Json Urls TextUtil Shell.
From Stdlib Require Import Ascii.

Definition TELEMETRY_MESSAGE_MAX_LEN : nat := 3200.
Definition nl : string := String "010" "".

(** [s[n:]] *)
Fixpoint str_drop (n : nat) (s : string) : string :=
  match n, s with
  | S n', String _ s' => str_drop n' s'
  | _, _ => s
  end.
(** [s[offset:]], also for a negative offset *)
Definition slice_from (offset : Z) (s : string) : string :=
  str_drop (if offset <? 0 then String.length s - Z.to_nat (- offset) else Z.to_nat offset) s.

(** ** Temporary files *)

Record tmpfile := mkTmp { tf_data : string; tf_pos : nat }.
Definition seek0 (f : tmpfile) : tmpfile := mkTmp (tf_data f) 0.
Definition file_read (n : nat) (f : tmpfile) : string * tmpfile :=
  let t := str_take n (str_drop (tf_pos f) (tf_data f)) in (t, mkTmp (tf_data f) (tf_pos f + String.length t)).
(** [truncate(0)] leaves the position where it is. *)
Definition truncate0 (f : tmpfile) : tmpfile := mkTmp "" (tf_pos f).
Fixpoint zeros (n : nat) : string := match n with O => "" | S n' => String "000" (zeros n') end.
(** A process writes at the position of the file; a gap before it is filled with zeros. *)
Definition file_write (t : string) (f : tmpfile) : tmpfile :=
  if String.eqb t "" then f
  else mkTmp (str_take (tf_pos f) (tf_data f) +:+ zeros (tf_pos f - String.length (tf_data f)) +:+ t +:+
              str_drop (tf_pos f + String.length t) (tf_data f)) (tf_pos f + String.length t).

(** ** A process *)

(** [ch_ends] is the second in which it ends, with its exit code; [ch_out] and [ch_err] are what it
    and its children have written by a given second. *)
Record child := mkChild { ch_pid : Z; ch_ends : option (Z * Z); ch_out : Z → string; ch_err : Z → string }.

(** [process.poll()] in second [t]; [process.wait()]: the exit code, and when it returns *)
Definition poll (p : child) (t : Z) : option Z := '(s, code) ← ch_ends p; if s <=? t then Some code else None.
Definition process_wait (p : child) (t : Z) : option Z * Z :=
  match ch_ends p with Some (s, code) => (Some code, Z.max s t) | None => (None, t) end.

Record run_state := mkRun {
  r_stdout : tmpfile; r_stderr : tmpfile;
  r_time : Z;                  (* seconds spent waiting *)
  r_killed : list Z;           (* the process groups that were killed *)
  r_collect : bool;            (* _COLLECT_NOEXEC_ERRORS *)
  r_events : list string       (* events of [_check_noexec] *)
}.
Definition set_files (out err : tmpfile) (s : run_state) : run_state := mkRun out err (r_time s) (r_killed s) (r_collect s) (r_events s).
Definition send_noexec (collect : bool) (ev : list string) (s : run_state) : run_state :=
  mkRun (r_stdout s) (r_stderr s) (r_time s) (r_killed s) collect (r_events s ++ ev).
Notation RUN X := (M run_state exn X).

(** What the process has done after [t] seconds *)
Definition has_run (p : child) (t : Z) (killed : bool) (s : run_state) : run_state :=
  mkRun (file_write (ch_out p t) (r_stdout s)) (file_write (ch_err p t) (r_stderr s)) (r_time s + t)
    (r_killed s ++ (if killed then [ch_pid p] else [])) (r_collect s) (r_events s).

(** [get_cpu_throttled_time]: the answer of the controller, if there is one *)
Definition get_cpu_throttled_time (cpu_controller : option (res exn string)) : res exn string :=
  match cpu_controller with
  | None => Ok "0"
  | Some (Ok t) => Ok t
  | Some (Err e) => if isinstance e Exception_ then Ok "0" else Err e
  end.

(** [while timeout > 0 and process.poll() is None]: what is left of the timeout, and the time *)
Fixpoint process_wait_loop (timeout : nat) (t : Z) (p : child) : nat * Z :=
  match timeout with
  | O => (O, t)
  | S n => match poll p t with None => process_wait_loop n (t + 1) p | Some _ => (timeout, t) end
  end.

(** The result: whether it timed out, the exit code, the throttled time.  The callers pass a constant
    number of seconds. *)
Definition wait_for_process_completion_or_timeout (p : child) (timeout : nat) (cpu_controller : option (res exn string))
    : RUN (bool * option Z * string) := λ s,
  let '(remaining, t) := process_wait_loop timeout 0 p in
  match remaining with
  | O => match get_cpu_throttled_time cpu_controller with
         | Ok throttled_time => (Ok (true, None, throttled_time), has_run p t true s)
         | Err e => (Err e, has_run p t false s)
         end
  | S _ => let '(return_code, t') := process_wait p (t + 1) in (Ok (false, return_code, "0"), has_run p t' false s)
  end.

(** [format_stdout_stderr] *)
Definition template (out err : string) : string := "[stdout]" +:+ nl +:+ out +:+ nl +:+ nl +:+ "[stderr]" +:+ nl +:+ err.
(** [int((max_len - len(template) + 6) / 2)]; the template has 26 characters. *)
Definition max_len_each : nat := (TELEMETRY_MESSAGE_MAX_LEN - 26 + 6) / 2.
Definition to_s (out : string) (out_offset : Z) (err : string) (err_offset : Z) : string :=
  template (slice_from out_offset out) (slice_from err_offset err).
Definition format_stdout_stderr (stdout stderr : string) : string :=
  let n := String.length stdout in
  let m := String.length stderr in
  if bool_decide (n + m < TELEMETRY_MESSAGE_MAX_LEN)%nat then to_s stdout 0 stderr 0
  else if bool_decide (n < max_len_each)%nat then
    to_s stdout 0 stderr (- Z.of_nat (Nat.min (max_len_each + (max_len_each - n)) m))
  else if bool_decide (m < max_len_each)%nat then
    to_s stdout (- Z.of_nat (Nat.min (max_len_each + (max_len_each - m)) n)) stderr 0
  else to_s stdout (- Z.of_nat max_len_each) stderr (- Z.of_nat max_len_each).

Arguments format_stdout_stderr : simpl never.
Arguments str_take : simpl nomatch.

Section output.
Context (decode : string → string).

(** [read_output], on files that can be read *)
Definition read_output : RUN string := λ s,
  let '(out, f) := file_read TELEMETRY_MESSAGE_MAX_LEN (seek0 (r_stdout s)) in
  let '(err, g) := file_read TELEMETRY_MESSAGE_MAX_LEN (seek0 (r_stderr s)) in
  (Ok (format_stdout_stderr (decode out) (decode err)), set_files f g s).

(** [_check_noexec]: [lib_dir] is the agent's directory, [mounts] is /proc/mounts. *)
Context (lib_dir : string) (mounts : res exn string).

Definition noexec_message (mount_point : string) : string :=
  "The noexec flag is set on " +:+ mount_point +:+ ". This can prevent extensions from executing.".
Fixpoint find_noexec (l : list string) : res exn (option string) :=
  match l with
  | [] => Ok None
  | line :: l' =>
      match py_words "" line with
      | _ :: mount_point :: _ :: flags :: _ =>
          if starts_with mount_point lib_dir && str_contains "noexec" flags then Ok (Some mount_point) else find_noexec l'
      | _ => Err (py_error IndexError "list index out of range")
      end
  end.
Definition check_noexec : RUN (option string) := λ s,
  match (text ← mounts; find_noexec (lines text)) with
  | Ok (Some mount_point) => (Ok (Some mount_point), send_noexec (r_collect s) [noexec_message mount_point] s)
  | Ok None => (Ok None, s)
  | Err e =>
      if isinstance e Exception_
      then (Ok None, send_noexec false (if r_collect s then ["Error while checking the noexec flag: " +:+ e_msg e] else []) s)
      else (Err e, s)
  end.

(** [handle_process_completion] *)
Definition timeout_message (timeout : nat) (cpu_controller : option (res exn string)) (throttled_time command output : string) : string :=
  match cpu_controller with
  | Some _ => "Timeout(" +:+ pretty (Z.of_nat timeout) +:+ ");CPUThrottledTime(" +:+ throttled_time +:+ "secs): " +:+ command +:+ nl +:+ output
  | None => "Timeout(" +:+ pretty (Z.of_nat timeout) +:+ "): " +:+ command +:+ nl +:+ output
  end.
Definition noexec_warning (noexec_path : option string) : string :=
  from_option (λ p, nl +:+ "WARNING: " +:+ p +:+ " is mounted with the noexec flag, which can prevent execution of VM Extensions.") "" noexec_path.
Definition exit_message (return_code : Z) (command warning output : string) : string :=
  "Non-zero exit code: " +:+ pretty return_code +:+ ", " +:+ command +:+ warning +:+ nl +:+ output.
Definition handle_process_completion (p : child) (command : string) (timeout : nat) (error_code : Z)
    (cpu_controller : option (res exn string)) : RUN string :=
  '(timed_out, return_code, throttled_time) ← wait_for_process_completion_or_timeout p timeout cpu_controller;
  process_output ← read_output;
  if (timed_out : bool)
  then raise (agent_error ExtensionError (timeout_message timeout cpu_controller throttled_time command process_output)
                None ErrorCodes.PluginHandlerScriptTimedout)
  else
    match return_code with
    | Some code =>
        if code =? 0 then mret process_output else
        noexec_path ← (if code =? 126 then check_noexec else mret None);
        raise (operation_error (exit_message code command (noexec_warning noexec_path) process_output) error_code code)
    | None => raise (py_error BaseException "not reached: the process had ended")
    end.
End output.

(** ** The text that telemetry gets *)

Lemma str_take_drop n s : str_take n s +:+ str_drop n s = s.
Proof. revert s. induction n as [|n IH]; intros [|c s]; try done. simpl. rewrite string_app_cons. by rewrite IH. Qed.

Lemma str_drop_length n s : String.length (str_drop n s) = (String.length s - n)%nat.
Proof. revert s. induction n as [|n IH]; intros [|c s]; try done. simpl. by rewrite IH. Qed.

Definition is_end_of (a s : string) : Prop := ∃ b, s = b +:+ a.

Lemma slice_from_end offset s : is_end_of (slice_from offset s) s.
Proof. eexists. symmetry. apply str_take_drop. Qed.

Lemma slice_from_0 s : slice_from 0 s = s.
Proof. by destruct s. Qed.

(** [s[-n:]] *)
Lemma slice_from_neg (n : nat) s : (0 < n ≤ String.length s)%nat → String.length (slice_from (- Z.of_nat n) s) = n.
Proof.
  intros H. unfold slice_from. rewrite str_drop_length. destruct (Z.ltb_spec (- Z.of_nat n) 0); lia.
Qed.

Lemma template_length out err : String.length (template out err) = (20 + String.length out + String.length err)%nat.
Proof. unfold template. rewrite !string_length_app. simpl. lia. Qed.


(** ** The end of a process *)

Section completion.
Context (decode : string → string) (lib_dir : string) (mounts : res exn string) (p : child) (timeout : nat).
Context (cpu_controller : option (res exn string)).

(** The exit code of a process that ends before the last second of its time *)
Definition ends_in_time : option Z := '(second, code) ← ch_ends p; if second <? Z.of_nat timeout then Some code else None.

Lemma wait_loop_ended n t second code : ch_ends p = Some (second, code) → second < t + Z.of_nat n → (0 < n)%nat →
  ∃ k, process_wait_loop n t p = (S k, Z.max second t) ∧ Z.max second t < t + Z.of_nat n.
Proof.
  intros Hp. revert t. induction n as [|n IH]; intros t Hs Hn; [lia|]. simpl. unfold poll. rewrite Hp. simpl.
  destruct (Z.leb_spec second t); [exists n; split; [f_equal; lia|lia]|].
  destruct (IH (t + 1) ltac:(lia) ltac:(lia)) as (k & -> & Hk). exists k. split; [f_equal; lia|lia].
Qed.

Lemma wait_loop_running n t : (∀ second code, ch_ends p = Some (second, code) → t + Z.of_nat n ≤ second) →
  process_wait_loop n t p = (O, t + Z.of_nat n).
Proof.
  revert t. induction n as [|n IH]; intros t H; [simpl; f_equal; lia|]. simpl. unfold poll.
  destruct (ch_ends p) as [[second code]|] eqn:Hp; simpl.
  - specialize (H _ _ eq_refl). destruct (Z.leb_spec second t); [lia|]. rewrite IH by (intros ?? [= <- <-]; lia). f_equal. lia.
  - rewrite IH by done. f_equal. lia.
Qed.

(** The text about the output once the process has run for [t] seconds *)
Definition text_after (t : Z) (killed : bool) (s : run_state) : string :=
  let s' := has_run p t killed s in
  format_stdout_stderr (decode (str_take TELEMETRY_MESSAGE_MAX_LEN (tf_data (r_stdout s'))))
    (decode (str_take TELEMETRY_MESSAGE_MAX_LEN (tf_data (r_stderr s')))).

Lemma read_output_spec s (Q : string → run_state → Prop) R :
  (∀ f g, Q (format_stdout_stderr (decode (str_take TELEMETRY_MESSAGE_MAX_LEN (tf_data (r_stdout s))))
               (decode (str_take TELEMETRY_MESSAGE_MAX_LEN (tf_data (r_stderr s))))) (set_files f g s)) →
  wp (read_output decode) Q R s.
Proof. intros H. apply H. Qed.

Definition ordinary_result {A} (r : res exn A) : Prop := match r with Err e => ordinary e | Ok _ => True end.
Context (Hcpu : from_option ordinary_result True cpu_controller) (Hmounts : ordinary_result mounts).

Lemma find_noexec_ordinary l : ordinary_result (find_noexec lib_dir l).
Proof. induction l as [|line l IH]; [done|]. simpl. repeat case_match; done. Qed.

Lemma check_noexec_spec s (Q : option string → run_state → Prop) R :
  (∀ x c ev, Q x (send_noexec c ev s)) → wp (check_noexec lib_dir mounts) Q R s.
Proof.
  intros H. unfold wp, check_noexec. pose proof (find_noexec_ordinary) as Hf.
  assert (s = send_noexec (r_collect s) [] s) as Hs by (destruct s; unfold send_noexec; simpl; by rewrite app_nil_r).
  destruct mounts as [text|e]; simpl.
  - specialize (Hf (lines text)). destruct (find_noexec _ _) as [[m|]|e]; [apply H|rewrite Hs; apply H|]. simpl in Hf. rewrite Hf. apply H.
  - simpl in Hmounts. rewrite Hmounts. apply H.
Qed.

(** What is reported of a process, and what has become of it *)
Definition reported (command : string) (error_code : Z) (s : run_state) (r : res exn string) (s' : run_state) : Prop :=
  match ends_in_time with
  | Some code =>
      r_killed s' = r_killed s ∧ r_time s' ≤ r_time s + Z.of_nat timeout ∧
      let output := text_after (r_time s' - r_time s) false s in
      if code =? 0 then r = Ok output
      else ∃ warning, r = Err (operation_error (exit_message code command warning output) error_code code) ∧ (code ≠ 126 → warning = "")
  | None =>
      r_killed s' = r_killed s ++ [ch_pid p] ∧ r_time s' = r_time s + Z.of_nat timeout ∧
      ∃ throttled_time, r = Err (agent_error ExtensionError
        (timeout_message timeout cpu_controller throttled_time command (text_after (Z.of_nat timeout) true s)) None ErrorCodes.PluginHandlerScriptTimedout)
  end.

Lemma throttled_total : ∃ t, get_cpu_throttled_time cpu_controller = Ok t.
Proof. unfold get_cpu_throttled_time. destruct cpu_controller as [[t|e]|]; simpl in *; [eauto| |eauto]. rewrite Hcpu. eauto. Qed.

Notation completion command error_code s :=
  (wp (handle_process_completion decode lib_dir mounts p command timeout error_code cpu_controller)
     (λ x, reported command error_code s (Ok x)) (λ e, reported command error_code s (Err e)) s).

Lemma handle_timed_out command error_code s : ends_in_time = None → (0 < timeout)%nat → completion command error_code s.
Proof.
  intros He Hn. unfold reported. rewrite He. destruct throttled_total as [t Ht]. unfold handle_process_completion. apply wp_bind.
  unfold wp at 1, wait_for_process_completion_or_timeout. rewrite wait_loop_running.
  - rewrite Ht. wp_step. apply read_output_spec. intros f g. wp_step. split_and!; [done|cbn [r_time set_files has_run]; lia|by eexists].
  - intros second code Hp. unfold ends_in_time in He. rewrite Hp in He. simpl in He. destruct (Z.ltb_spec second (Z.of_nat timeout)); [done|lia].
Qed.

Lemma handle_ended command error_code s : is_Some ends_in_time → (0 < timeout)%nat → completion command error_code s.
Proof.
  intros [code Hc] Hn. unfold reported. rewrite Hc. unfold ends_in_time in Hc. destruct (ch_ends p) as [[second c]|] eqn:Hp; [|done].
  simpl in Hc. destruct (Z.ltb_spec second (Z.of_nat timeout)); [|done]. injection Hc as ->.
  unfold handle_process_completion. apply wp_bind. unfold wp at 1, wait_for_process_completion_or_timeout.
  destruct (wait_loop_ended timeout 0 second code Hp ltac:(lia) Hn) as (k & -> & Hk). unfold process_wait. rewrite Hp.
  set (t := Z.max second (Z.max second 0 + 1)). assert (t ≤ Z.of_nat timeout) by lia. assert (r_time s + t - r_time s = t) as Ht by lia.
  wp_step. apply read_output_spec. intros f g. cbn [r_killed r_time set_files has_run].
  destruct (code =? 0).
  { wp_step. cbn [r_killed r_time set_files has_run]. rewrite Ht, app_nil_r.
 split_and!; [done|lia|]. cbv zeta. unfold text_after. idtac. reflexivity.  }
  wp_step. destruct (Z.eqb_spec code 126).
  - apply check_noexec_spec. intros x b ev. wp_step. cbn [r_killed r_time set_files has_run send_noexec]. rewrite Ht, app_nil_r.
    split_and!; [done|lia|by eexists].
  - wp_step. wp_step. cbn [r_killed r_time set_files has_run send_noexec]. rewrite Ht, app_nil_r. split_and!; [done|lia|by eexists].
Qed.

(** A process is waited for at most as long as its timeout.  One that ends in time, with exit code
    zero, gives its output; with another exit code it gives an [ExtensionOperationError] with that
    exit code and the error code of the command.  One that does not is killed, and reported with the
    code of a timeout. *)
Lemma handle_reported command error_code s : (0 < timeout)%nat →
  let '(r, s') := handle_process_completion decode lib_dir mounts p command timeout error_code cpu_controller s in
  reported command error_code s r s'.
Proof.
  intros Hn. assert (completion command error_code s) as H; [|unfold wp in H; by destruct (handle_process_completion _ _ _ _ _ _ _ _ _) as [[] ?]].
  destruct ends_in_time eqn:He; [apply handle_ended; [by rewrite He|done]|by apply handle_timed_out].
Qed.

(** The error output is in its file. *)
Definition has_written (s s' : run_state) : Prop := ∃ t, tf_data (r_stderr s') = tf_data (file_write (ch_err p t) (r_stderr s)).
Lemma handle_written command error_code s :
  has_written s (handle_process_completion decode lib_dir mounts p command timeout error_code cpu_controller s).2.
Proof.
  apply (wp_end (has_written s)). unfold handle_process_completion, has_written. wp_step.
  unfold wp at 1, wait_for_process_completion_or_timeout.
  destruct (process_wait_loop timeout 0 p) as [[|n] t].
  { destruct throttled_total as [u Hu]. rewrite Hu. wp_step. unfold wp at 1, read_output. simpl. wp_step. by exists t. }
  destruct (process_wait p (t + 1)) as [code t']. wp_step. unfold wp at 1, read_output. simpl. destruct code as [code|]; [|wp_step; by exists t'].
  destruct (code =? 0); [wp_step; by exists t'|]. wp_step. destruct (code =? 126).
  - apply check_noexec_spec. intros x b ev. wp_step. by exists t'.
  - wp_step. wp_step. by exists t'.
Qed.
End completion.

(** *** Samples *)

Module SampleProcess.
Definition quick : child := mkChild 700 (Some (3, 1)) (λ _, "started") (λ _, "no disk").
Definition at_the_end : child := mkChild 701 (Some (5, 0)) (λ _, "done") (λ _, "").
Definition idle : run_state := mkRun (mkTmp "" 0) (mkTmp "" 0) 0 [] true [].
Definition mounts : res exn string := Ok ("/dev/sda1 / ext4 rw,noexec 0 0" +:+ nl +:+ "/dev/sdb1 /var ext4 rw 0 0" +:+ nl).

Example quick_process_is_reported :
  reported id quick 5 None "enable.sh" 1009 idle
    (handle_process_completion id "/var/lib/waagent" mounts quick "enable.sh" 5 1009 None idle).1
    (handle_process_completion id "/var/lib/waagent" mounts quick "enable.sh" 5 1009 None idle).2.
Proof. exact (handle_reported id "/var/lib/waagent" mounts quick 5 None I I "enable.sh" 1009 idle ltac:(lia)). Qed.

(** A process that ends in the last second is not polled again: it is reported as timed out. *)
Example finished_process_times_out :
  (λ e, e_code e) <$> match (handle_process_completion id "/var/lib/waagent" mounts at_the_end "enable.sh" 5 1009 None idle).1 with
                      | Ok _ => None | Err e => Some e end = Some ErrorCodes.PluginHandlerScriptTimedout ∧
  poll at_the_end 5 = Some 0.
Proof. vm_compute. split; reflexivity. Qed.

(** The text can be longer than the 3200 characters of telemetry, by up to 19. *)
Fixpoint letters (n : nat) : string := match n with O => "" | S n' => String "a" (letters n') end.
Example text_too_long : Z.of_nat (String.length (format_stdout_stderr (letters 1600) (letters 1599))) = 3219.
Proof. vm_compute. reflexivity. Qed.

(** The flag of a file system is reported although another one, mounted below it, holds the agent's
    directory. *)
Example covered_mount_is_reported : (check_noexec "/var/lib/waagent" mounts idle).1 = Ok (Some "/").
Proof. vm_compute. reflexivity. Qed.

(** After [truncate(0)] the next process writes where the last one stopped. *)
Example truncated_file_has_zeros :
  tf_data (file_write "ok" (truncate0 (mkTmp "abc" 3))) = zeros 3 +:+ "ok".
Proof. reflexivity. Qed.
End SampleProcess.
