(* ===== verification/Xml.v ===== *)
(** * XML documents (common/utils/textutil.py, common/protocol/goal_state.py, wire.py)

    The goal state of the wire server, the manifests of extensions and the versions of the
    protocol are XML.  The agent reads them with [xml.dom.minidom]: a document is a tree of
    nodes, and [getElementsByTagName] finds descendants at any depth, in document order.
    This file has the nodes, the helpers of textutil.py and the small documents. *)
From S2P Require Import Prelude PyExn Json TextUtil.
From Stdlib Require Import Ascii.

(** ** The document *)

(** [Other] stands for the nodes that are neither elements nor texts: CDATA sections, comments
    and processing instructions.  The document itself is an element that has the root as a child. *)
Inductive xml :=
| Elem (tag : string) (attrs : list (string * string)) (children : list xml)
| Text (data : string)
| Other (data : string).

Definition tag_of (n : xml) : option string := match n with Elem t _ _ => Some t | _ => None end.
Definition children_of (n : xml) : list xml := match n with Elem _ _ cs => cs | _ => [] end.
Definition attrs_of (n : xml) : list (string * string) := match n with Elem _ a _ => a | _ => [] end.

(** [node.getElementsByTagName(tag)]: the descendants; [hits] has the node itself, too. *)
Fixpoint get_elements_by_tag_name (tag : string) (n : xml) : list xml :=
  match n with
  | Elem _ _ cs =>
      flat_map (λ c, match c with
                     | Elem t _ _ => (if String.eqb t tag then [c] else []) ++ get_elements_by_tag_name tag c
                     | _ => []
                     end) cs
  | _ => []
  end.

Definition hits (tag : string) (c : xml) : list xml :=
  match c with
  | Elem t _ _ => (if String.eqb t tag then [c] else []) ++ get_elements_by_tag_name tag c
  | _ => []
  end.

#[global] Arguments get_elements_by_tag_name : simpl never.
#[global] Arguments hits : simpl never.

(** ** The helpers of textutil.py; [None] is a node that was not found. *)

Definition findall (root : option xml) (tag : string) : list xml :=
  match root with Some n => get_elements_by_tag_name tag n | None => [] end.

Definition find (root : option xml) (tag : string) : option xml := head (findall root tag).

(** The text of the first child that is a text *)
Definition gettext (node : option xml) : option string :=
  n ← node; head (omap (λ c, match c with Text s => Some s | _ => None end) (children_of n)).

Definition findtext (root : option xml) (tag : string) : option string := gettext (find root tag).

Fixpoint assoc (k : string) (l : list (string * string)) : option string :=
  match l with
  | [] => None
  | (k', v) :: l' => if String.eqb k k' then Some v else assoc k l'
  end.

(** [node.getAttribute(name)] is empty when there is no such attribute. *)
Definition get_attribute (attr_name : string) (n : xml) : string := default "" (assoc attr_name (attrs_of n)).
Definition getattrib (node : option xml) (attr_name : string) : option string := get_attribute attr_name <$> node.
Definition hasattrib (node : option xml) (attr_name : string) : bool :=
  match node with Some n => bool_decide (is_Some (assoc attr_name (attrs_of n))) | None => false end.

(** [Text.toxml()] (Python up to 3.12 also escapes quotes) *)
Fixpoint xml_escape (s : string) : string :=
  match s with
  | EmptyString => ""
  | String c s' =>
      (if Ascii.eqb c "&" then "&amp;" else if Ascii.eqb c "<" then "&lt;" else if Ascii.eqb c ">" then "&gt;"
       else if Ascii.eqb c (ascii_of_nat 34) then "&quot;" else String c "") +:+ xml_escape s'
  end.
Definition gettextxml (node : option xml) : option string := xml_escape <$> gettext node.

(** ** Searching *)

Lemma elements_hits tag t a cs : get_elements_by_tag_name tag (Elem t a cs) = flat_map (hits tag) cs.
Proof. reflexivity. Qed.

Lemma hits_elem tag t a cs :
  hits tag (Elem t a cs) = (if String.eqb t tag then [Elem t a cs] else []) ++ flat_map (hits tag) cs.
Proof. reflexivity. Qed.

Lemma hits_text tag s : hits tag (Text s) = [].
Proof. reflexivity. Qed.

Lemma flat_map_same {A} (f : A → xml) tag l : (∀ x, x ∈ l → hits tag (f x) = [f x]) → flat_map (hits tag) (f <$> l) = f <$> l.
Proof.
  induction l as [|x l IH]; intros H; [done|]. rewrite fmap_cons. cbn [flat_map].
  rewrite (H x) by set_solver. rewrite IH; [done|]. intros y Hy. apply H. set_solver.
Qed.

Lemma flat_map_none {A} (f : A → xml) tag l : (∀ x, x ∈ l → hits tag (f x) = []) → flat_map (hits tag) (f <$> l) = [].
Proof.
  induction l as [|x l IH]; intros H; [done|]. rewrite fmap_cons. cbn [flat_map].
  rewrite (H x) by set_solver. rewrite IH; [done|]. intros y Hy. apply H. set_solver.
Qed.

(** An element with a text, and what is found of it *)
Definition leaf (tag text : string) : xml := Elem tag [] [Text text].
Definition opt_leaf (tag : string) (text : option string) : list xml := match text with Some s => [leaf tag s] | None => [] end.

Lemma hits_leaf tag t s : hits tag (leaf t s) = if String.eqb t tag then [leaf t s] else [].
Proof. unfold leaf. rewrite hits_elem. cbn [flat_map]. by rewrite hits_text, !app_nil_r. Qed.

Lemma hits_opt_leaf tag t o : flat_map (hits tag) (opt_leaf t o) = if String.eqb t tag then opt_leaf t o else [].
Proof. destruct o; cbn [opt_leaf flat_map]; [|by destruct (t =? tag)%string]. rewrite hits_leaf, app_nil_r. done. Qed.

Lemma gettext_leaf t s : gettext (Some (leaf t s)) = Some s.
Proof. reflexivity. Qed.

Lemma gettext_opt_leaf t o : gettext (head (opt_leaf t o)) = o.
Proof. by destruct o. Qed.

Create HintDb xml.
#[export] Hint Rewrite elements_hits hits_elem hits_text hits_leaf hits_opt_leaf gettext_leaf gettext_opt_leaf
  @flat_map_app @app_nil_r : xml.

(** Decides the comparisons of constant names. *)
Ltac name_eqb :=
  repeat match goal with
         | |- context [String.eqb (String ?c ?a') (String ?d ?b')] =>
             let a := constr:(String c a') in let b := constr:(String d b') in
             let v := eval vm_compute in (String.eqb a b) in
             match v with
             | true => change (String.eqb a b) with true
             | false => change (String.eqb a b) with false
             end
         end; cbv beta iota.

Ltac unfold_head f := lazymatch f with ?g _ => unfold_head g | _ => unfold f end.

(** Searches a document whose lists of elements are [f <$> l]: the elements [f x] are what is
    looked for, or have nothing of it in them. *)
Ltac xml_search :=
  repeat (progress (autorewrite with xml; cbn [flat_map app head findall]; name_eqb));
  try match goal with
      | |- context [flat_map (hits ?t) (?f <$> ?l)] =>
          first [rewrite (flat_map_none f t l) by (intros; unfold_head f; xml_search; reflexivity)
                |rewrite (flat_map_same f t l) by (intros; unfold_head f; xml_search; reflexivity)]; xml_search
      end.

(** ** The small documents

    [parse_doc] is [minidom.parseString]. *)
Section documents.
Context (parse_doc : string → res exn xml).

(** *** [VersionInfo] (wire.py): the preferred version of the protocol and the supported ones *)
Definition parse_version_info (xml_text : string) : res exn (option string * list (option string)) :=
  doc ← parse_doc xml_text;
  Ok (findtext (find (Some doc) "Preferred") "Version",
      (λ n, gettext (Some n)) <$> findall (find (Some doc) "Supported") "Version").

(** *** [HostingEnv] *)
Record HostingEnv := mkHostingEnv {
  he_xml_text : string;
  he_vm_name : option string;
  he_role_name : option string;
  he_deployment_name : option string
}.

Definition parse_hosting_env (xml_text : string) : res exn HostingEnv :=
  doc ← parse_doc xml_text;
  Ok (mkHostingEnv xml_text (getattrib (find (Some doc) "Incarnation") "instance")
        (getattrib (find (Some doc) "Role") "name") (getattrib (find (Some doc) "Deployment") "name")).

(** *** [RemoteAccess] *)
Record RemoteAccessUser := mkRemoteAccessUser {
  ru_name : option string;
  ru_encrypted_password : option string;
  ru_expiration : option string
}.
Record RemoteAccess := mkRemoteAccess {
  ra_version : option string;
  ra_incarnation : option string;
  ra_users : list RemoteAccessUser
}.

Definition parse_user (user : xml) : RemoteAccessUser :=
  mkRemoteAccessUser (findtext (Some user) "Name") (findtext (Some user) "Password") (findtext (Some user) "Expiration").

Definition parse_remote_access (xml_text : option string) : res exn RemoteAccess :=
  match xml_text with
  | None | Some "" => Ok (mkRemoteAccess None None [])
  | Some text =>
      doc ← parse_doc text;
      Ok (mkRemoteAccess (findtext (Some doc) "Version") (findtext (Some doc) "Incarnation")
            (parse_user <$> findall (find (Some doc) "Users") "User"))
  end.

(** *** [ExtensionManifest]: the published packages, the internal ones last *)
Record manifest_package := mkManifestPackage {
  mp_version : option string;
  mp_uris : list (option string);
  mp_isinternal : bool;
  mp_disallow_major_upgrade : bool
}.

Definition handle_package (isinternal : bool) (package : xml) : manifest_package :=
  let disallow := default "" (findtext (Some package) "DisallowMajorVersionUpgrade") in
  mkManifestPackage (findtext (Some package) "Version")
    ((λ n, gettext (Some n)) <$> findall (find (Some package) "Uris") "Uri") isinternal (String.eqb (str_lower disallow) "true").

Definition handle_packages (packages : list xml) (isinternal : bool) : list manifest_package := handle_package isinternal <$> packages.

Definition parse_extension_manifest (xml_text : option string) : res exn (list manifest_package) :=
  match xml_text with
  | None => Err (py_error ValueError "ExtensionManifest is None")
  | Some text =>
      doc ← parse_doc text;
      Ok (handle_packages (findall (find (Some doc) "Plugins") "Plugin") false ++
          handle_packages (findall (find (Some doc) "InternalPlugins") "Plugin") true)
  end.
End documents.

(** ** A manifest is read back *)

(** A package as it is published, and the document *)
Record package := mkPublished { pb_version : string; pb_uris : list string; pb_disallow_major_upgrade : bool }.

Definition package_xml (p : package) : xml :=
  Elem "Plugin" [] [leaf "Version" (pb_version p);
                    leaf "DisallowMajorVersionUpgrade" (if pb_disallow_major_upgrade p then "True" else "false");
                    Elem "Uris" [] (leaf "Uri" <$> pb_uris p)].

Definition manifest_xml (published internal : list package) : xml :=
  Elem "#document" [] [Elem "PluginVersionManifest" [] [Elem "Plugins" [] (package_xml <$> published);
                                                        Elem "InternalPlugins" [] (package_xml <$> internal)]].

Definition of_package (isinternal : bool) (p : package) : manifest_package :=
  mkManifestPackage (Some (pb_version p)) (Some <$> pb_uris p) isinternal (pb_disallow_major_upgrade p).

Lemma hits_leaves tag t l : flat_map (hits tag) (leaf t <$> l) = if String.eqb t tag then leaf t <$> l else [].
Proof.
  destruct (String.eqb t tag) eqn:E.
  - apply flat_map_same. intros x _. by rewrite hits_leaf, E.
  - apply flat_map_none. intros x _. by rewrite hits_leaf, E.
Qed.
#[export] Hint Rewrite hits_leaves : xml.

Lemma gettext_leaves t (l : list string) : (λ n, gettext (Some n)) <$> (leaf t <$> l) = Some <$> l.
Proof. by rewrite <- list_fmap_compose. Qed.

Lemma handle_package_xml b p : handle_package b (package_xml p) = of_package b p.
Proof.
  unfold handle_package, of_package, findtext, find, package_xml. xml_search.
  rewrite gettext_leaves. simpl. by destruct (pb_disallow_major_upgrade p).
Qed.

(** The packages that are published are the packages that are read. *)
Lemma manifest_is_read_back parse_doc text published internal :
  parse_doc text = Ok (manifest_xml published internal) →
  parse_extension_manifest parse_doc (Some text) = Ok ((of_package false <$> published) ++ (of_package true <$> internal)).
Proof.
  intros H. unfold parse_extension_manifest. rewrite H. cbn [mbind res_bind].
  unfold find, manifest_xml, handle_packages. xml_search. rewrite <- !list_fmap_compose. do 2 f_equal.
  all: apply list_fmap_ext; intros; apply handle_package_xml.
Qed.
