(* ===== verification/Dhcp.v ===== *)
(** * Discovery of the wire server by DHCP (common/dhcp.py)

    The agent asks DHCP for option 245, the address of the wire server, unless the routing
    table or the lease of the DHCP client tells it already.  The packets are buffers of
    bytes.  What the distribution provides ([osutil]) and the network are parameters that
    may depend on everything done before; what the agent does to the machine is recorded. *)
From S2P Require Import Prelude PyExn FlexVersion Json Urls TextUtil.
From Stdlib Require Import Ascii.

Definition KNOWN_WIRESERVER_IP : string := "168.63.129.16".
Definition KNOWN_WIRESERVER_IP_ENTRY : string := "10813FA8".

Notation route := (Z * Z * Z)%type.

(** ** Packets *)

Definition dhcp_error (msg : string) : exn := agent_error DhcpError msg None (-1).

(** [validate_dhcp_resp]: [False] for a response that is too short, [None] (here [true]) for
    one that answers the request *)
Definition validate_dhcp_resp (request response : buffer) : res exn bool :=
  if Z.of_nat (length response) <? 246 then Ok false
  else
    cookie ← compare_bytes request response 236 4;
    if negb cookie then Err (dhcp_error "Cookie in dhcp respones doesn't match the request")
    else
      xid ← compare_bytes request response 4 4;
      if negb xid then Err (dhcp_error "TransactionID in dhcp respones doesn't match the request")
      else
        mac ← compare_bytes request response 28 6;
        if negb mac then Err (dhcp_error "Mac Addr in dhcp respones doesn't match the request") else Ok true.

(** [0xFFFFFFFF & (0xFFFFFFFF << (32 - mask_len_bits))] *)
Definition route_mask (mask_len_bits : Z) : res exn Z :=
  if 32 <? mask_len_bits then Err (py_error ValueError "negative shift count")
  else Ok (Z.land 4294967295 (Z.shiftl 4294967295 (32 - mask_len_bits))).

(** [parse_route]: the loop from [j] to [stop]; every turn moves [j] by 5 at least. *)
Fixpoint parse_route_loop (fuel : nat) (response : buffer) (stop j : Z) (routes : list route) : res exn (list route) :=
  match fuel with
  | O => Ok routes
  | S fuel' =>
      if j <? stop then
        mask_len_bits ← byte_at response j;
        let mask_len_bytes := Z.shiftr (Z.land (mask_len_bits + 7) (Z.lnot 7)) 3 in
        mask ← route_mask mask_len_bits;
        let j := j + 1 in
        net ← unpack_big_endian response j mask_len_bytes;
        let net := Z.land (Z.shiftl net (32 - mask_len_bytes * 8)) mask in
        let j := j + mask_len_bytes in
        gateway ← unpack_big_endian response j 4;
        parse_route_loop fuel' response stop (j + 4) (routes ++ [(net, mask, gateway)])
      else Ok routes
  end.
Definition parse_route (response : buffer) (i length : Z) : res exn (list route) :=
  parse_route_loop (S (Z.to_nat length)) response (i + length + 2) (i + 2) [].

(** [parse_ip_addr] *)
Definition parse_ip_addr (response : buffer) (i length bytes_recv : Z) : res exn (option string) :=
  if i + 5 <? bytes_recv then
    if negb (length =? 4) then Ok None
    else addr ← unpack_big_endian response (i + 2) 4; Ok (Some (int_to_ip4_addr addr))
  else Ok None.

(** What the options of a response give: endpoint, gateway, routes *)
Notation lease := (option string * option string * option (list route))%type.

(** [parse_dhcp_resp]: the loop from [i]; every turn moves [i] by 2 at least. *)
Fixpoint parse_options (fuel : nat) (response : buffer) (i : Z) (l : lease) : res exn lease :=
  match fuel with
  | O => Ok l
  | S fuel' =>
      let bytes_recv := Z.of_nat (length response) in
      if i <? bytes_recv then
        option ← byte_at response i;
        length ← (if i + 1 <? bytes_recv then byte_at response (i + 1) else Ok 0);
        let '(endpoint, gateway, routes) := l in
        if option =? 255 then Ok l
        else
          l ← (if option =? 249 then r ← parse_route response i length; Ok (endpoint, gateway, Some r)
               else if option =? 3 then g ← parse_ip_addr response i length bytes_recv; Ok (endpoint, g, routes)
               else if option =? 245 then e ← parse_ip_addr response i length bytes_recv; Ok (e, gateway, routes)
               else Ok l);
          parse_options fuel' response (i + (length + 2)) l
      else Ok l
  end.
Definition parse_dhcp_resp (response : buffer) : res exn lease :=
  parse_options (S (length response)) response 240 (None, None, None).

(** [request[i + a] = l[a]] for [a] in [range(0, n)] *)
Fixpoint store_bytes (request : buffer) (i : nat) (l : buffer) (n : nat) {struct n} : res exn buffer :=
  match n, l with
  | O, _ => Ok request
  | S n', b :: l' => store_bytes (<[i := b]> request) (S i) l' n'
  | S _, [] => Err (py_error IndexError "index out of range")
  end.

(** [build_dhcp_request], with the transaction ID that [gen_trans_id] drew *)
Definition build_dhcp_request (trans_id mac_addr : buffer) (request_broadcast : bool) : res exn buffer :=
  request ← store_bytes (replicate 244 0) 0 [1; 1; 6] 3;
  request ← store_bytes request 4 trans_id 4;
  let request := if request_broadcast then <[10%nat := 128]> request else request in
  request ← store_bytes request 28 mac_addr 6;
  store_bytes request 236 [99; 130; 83; 99; 53; 1; 1; 255] 8.

(** ** The handler *)

(** What is done to the machine *)
Inductive os_event :=
| RouteAdd (net mask : Z) (gateway : string + Z)
| SetBroadcastRoute (ifname : string)
| RemoveBroadcastRoute (ifname : string)
| StopService
| StartService
| AllowBroadcast
| Send (request : buffer)
| Sleep (seconds : Z).

(** [osutil], the socket and the configuration; each answer may depend on what was done.
    [os_fault] is the exception that an operation ends with. *)
Record os := mkOs {
  os_route_table : list os_event → res exn (list string);
  os_lease_endpoint : list os_event → res exn (option string);
  os_dhcp_available : bool;
  os_dhcp_enabled : list os_event → bool;
  os_missing_default_route : list os_event → bool;
  os_mac_addr : res exn buffer;
  os_if_name : string;
  conf_dhcp_discovery_enabled : bool;
  os_random : buffer;
  os_socket : list os_event → buffer → res exn buffer;
  os_fault : list os_event → os_event → option exn
}.

Record dhcp_handler := mkHandler {
  dh_endpoint : option string;
  dh_gateway : option string;
  dh_routes : option (list route);
  dh_request_broadcast : bool;
  dh_skip_cache : bool;
  dh_trace : list os_event
}.
Notation DH X := (M dhcp_handler exn X).

Definition new_dhcp_handler : dhcp_handler := mkHandler None None None false false [].
Definition set_lease (e g : option string) (r : option (list route)) (h : dhcp_handler) : dhcp_handler :=
  mkHandler e g r (dh_request_broadcast h) (dh_skip_cache h) (dh_trace h).
Definition set_endpoint (e : option string) (h : dhcp_handler) : dhcp_handler := set_lease e (dh_gateway h) (dh_routes h) h.
Definition set_broadcast (h : dhcp_handler) : dhcp_handler :=
  mkHandler (dh_endpoint h) (dh_gateway h) (dh_routes h) true (dh_skip_cache h) (dh_trace h).
Definition push_event (v : os_event) (h : dhcp_handler) : dhcp_handler :=
  mkHandler (dh_endpoint h) (dh_gateway h) (dh_routes h) (dh_request_broadcast h) (dh_skip_cache h) (dh_trace h ++ [v]).

Section handler.
Context (O : os).

(** An operation on the machine *)
Definition act (v : os_event) : DH unit :=
  t ← gets dh_trace;
  modify (push_event v) ;;
  match os_fault O t v with Some e => raise e | None => mret tt end.

(** [wireserver_route_exists] *)
Definition wireserver_route_exists : DH bool :=
  t ← gets dh_trace;
  except Exception_
    (table ← lift (os_route_table O t);
     if existsb (str_contains KNOWN_WIRESERVER_IP_ENTRY) table then
       modify (set_lease (Some KNOWN_WIRESERVER_IP) None None) ;; mret true
     else mret false)
    (λ _, mret false).

(** [dhcp_cache_exists] *)
Definition dhcp_cache_exists : DH bool :=
  skip ← gets dh_skip_cache;
  if (skip : bool) then mret false
  else
    t ← gets dh_trace;
    cached ← lift (os_lease_endpoint O t);
    match cached with
    | Some e => modify (set_endpoint (Some e)) ;; mret true
    | None => mret false
    end.

(** [conf_routes] *)
Definition conf_routes : DH unit :=
  gateway ← gets dh_gateway;
  t ← gets dh_trace;
  match gateway with
  | Some g => when (os_missing_default_route O t) (act (RouteAdd 0 0 (inl g)))
  | None => mret tt
  end ;;
  routes ← gets dh_routes;
  match routes with
  | Some l => for_each l (λ '(net, mask, g), act (RouteAdd net mask (inr g)))
  | None => mret tt
  end.

(** [socket_send]: [os_socket] fails with [DhcpError] where the socket fails with [IOError]. *)
Definition socket_send (request : buffer) : DH buffer :=
  t ← gets dh_trace;
  modify (push_event (Send request)) ;;
  match os_socket O t request with
  | Ok r => mret r
  | Err e => if isinstance e OSError then raise (dhcp_error (e_msg e)) else raise e
  end.

(** [_send_dhcp_req]: what [validate_dhcp_resp] returns is not looked at. *)
Fixpoint try_dhcp_req (request : buffer) (durations : list Z) : DH (option buffer) :=
  match durations with
  | [] => mret None
  | d :: rest =>
      response ← except DhcpError
        (act AllowBroadcast ;;
         response ← socket_send request;
         lift (validate_dhcp_resp request response) ;;
         mret (Some response))
        (λ _, mret None);
      match response with
      | Some r => mret (Some r)
      | None => act (Sleep d) ;; try_dhcp_req request rest
      end
  end.
Definition waiting_duration : list Z := [0; 10; 30; 60; 60].

(** [send_dhcp_req] *)
Definition send_dhcp_req : DH unit :=
  if negb (os_dhcp_available O) || negb (conf_dhcp_discovery_enabled O) then modify (set_endpoint (Some KNOWN_WIRESERVER_IP))
  else
    mac_addr ← lift (os_mac_addr O);
    broadcast ← gets dh_request_broadcast;
    req ← lift (build_dhcp_request (os_random O) mac_addr broadcast);
    modify set_broadcast ;;
    t ← gets dh_trace;
    let missing_default_route := os_missing_default_route O t in
    when missing_default_route (act (SetBroadcastRoute (os_if_name O))) ;;
    t ← gets dh_trace;
    when (os_dhcp_enabled O t) (act StopService) ;;
    resp ← try_dhcp_req req waiting_duration;
    t ← gets dh_trace;
    when (os_dhcp_enabled O t) (act StartService) ;;
    when missing_default_route (act (RemoveBroadcastRoute (os_if_name O))) ;;
    match resp with
    | None => raise (dhcp_error "Failed to receive dhcp response.")
    | Some resp =>
        '(e, g, r) ← lift (parse_dhcp_resp resp);
        modify (set_lease e g r)
    end.

(** [run] *)
Definition run_dhcp : DH unit :=
  known ← wireserver_route_exists;
  cached ← (if (known : bool) then mret true else dhcp_cache_exists);
  if (cached : bool) then mret tt
  else
    send_dhcp_req ;;
    conf_routes.
End handler.

(** ** Encoded options are read back

    A server's options, and how they stand in a packet.  An address is four bytes; a route of
    option 249 is the number of bits of its mask, the bytes of the network that they cover,
    and the gateway. *)

Definition address_bytes (a : Z) : buffer := [a / 16777216 mod 256; a / 65536 mod 256; a / 256 mod 256; a mod 256].

Record dhcp_route := mkRoute { dr_bits : Z; dr_net : Z; dr_gateway : Z }.

Inductive dhcp_option :=
| Endpoint (a : Z)
| Gateway (a : Z)
| Routes (l : list dhcp_route)
| Other (code : Z) (data : buffer).

Definition mask_of (bits : Z) : Z := 4294967296 - 2 ^ (32 - bits).
Definition route_bytes (r : dhcp_route) : buffer :=
  dr_bits r :: take (Z.to_nat ((dr_bits r + 7) / 8)) (address_bytes (dr_net r)) ++ address_bytes (dr_gateway r).
Definition routes_bytes (l : list dhcp_route) : buffer := concat (route_bytes <$> l).

Definition option_code (o : dhcp_option) : Z :=
  match o with Endpoint _ => 245 | Gateway _ => 3 | Routes _ => 249 | Other c _ => c end.
Definition option_data (o : dhcp_option) : buffer :=
  match o with Endpoint a | Gateway a => address_bytes a | Routes l => routes_bytes l | Other _ d => d end.
Definition option_bytes (o : dhcp_option) : buffer :=
  option_code o :: Z.of_nat (length (option_data o)) :: option_data o.

Definition is_address (a : Z) : Prop := 0 ≤ a < 4294967296.
Definition wf_route (r : dhcp_route) : Prop :=
  0 ≤ dr_bits r ≤ 32 ∧ is_address (dr_net r) ∧ dr_net r mod 2 ^ (32 - dr_bits r) = 0 ∧ is_address (dr_gateway r).
Definition wf_option (o : dhcp_option) : Prop :=
  (length (option_data o) ≤ 255)%nat ∧
  match o with
  | Endpoint a | Gateway a => is_address a
  | Routes l => Forall wf_route l
  | Other c d => is_byte c ∧ c ∉ [3; 245; 249; 255] ∧ Forall is_byte d
  end.

Definition dotted (a : Z) : string :=
  pretty (a / 16777216 mod 256) +:+ "." +:+ pretty (a / 65536 mod 256) +:+ "." +:+ pretty (a / 256 mod 256) +:+ "." +:+ pretty (a mod 256).
Definition take_option (l : lease) (o : dhcp_option) : lease :=
  let '(e, g, r) := l in
  match o with
  | Endpoint a => (Some (dotted a), g, r)
  | Gateway a => (e, Some (dotted a), r)
  | Routes rs => (e, g, Some ((λ r, (dr_net r, mask_of (dr_bits r), dr_gateway r)) <$> rs))
  | Other _ _ => l
  end.

Lemma address_bytes_wf a : Forall is_byte (address_bytes a).
Proof. repeat constructor; apply Z.mod_pos_bound; lia. Qed.

Lemma address_value a : is_address a → be_value (address_bytes a) = a.
Proof. unfold is_address, be_value, address_bytes. simpl. intros H. Z.to_euclidean_division_equations; lia. Qed.

Lemma dotted_text a : is_address a → int_to_ip4_addr a = dotted a.
Proof.
  intros H. unfold int_to_ip4_addr, dotted. change 255 with (Z.ones 8). rewrite !Z.land_ones by lia.
  rewrite !Z.shiftr_div_pow2 by lia. done.
Qed.

(** The bytes [l] stand in [b] at [i]. *)
Definition stands (b l : buffer) (i : nat) : Prop := take (length l) (drop i b) = l.

Lemma stands_at a l c : stands (a ++ l ++ c) l (length a).
Proof. unfold stands. rewrite drop_app_length. apply take_app_length. Qed.

Lemma stands_bound b l i : stands b l i → (i + length l ≤ length b ∨ l = [])%nat.
Proof.
  intros H. destruct l as [|x l]; [by right|left]. apply (f_equal length) in H. rewrite length_take, length_drop in H. cbn [length] in *. lia.
Qed.

Lemma stands_cons b x l i : stands b (x :: l) i → b !! i = Some x ∧ stands b l (S i).
Proof.
  unfold stands. intros H. destruct (drop i b) as [|y d] eqn:Hd; [done|]. simpl in H. injection H as -> Hl. split.
  - by rewrite <- (Nat.add_0_r i), <- lookup_drop, Hd.
  - by rewrite <- Nat.add_1_r, <- drop_drop, Hd.
Qed.

Lemma stands_app b l m i : stands b (l ++ m) i → stands b l i ∧ stands b m (i + length l).
Proof.
  unfold stands. rewrite length_app. intros H. split.
  - apply (f_equal (take (length l))) in H. rewrite take_take, take_app_length in H. by rewrite Nat.min_l in H by lia.
  - apply (f_equal (drop (length l))) in H. rewrite drop_app_length, skipn_firstn_comm, drop_drop in H.
    by replace (length l + length m - length l)%nat with (length m) in H by lia.
Qed.

Lemma unpack_stands b l i n :
  Forall is_byte b → stands b l i → n = Z.of_nat (length l) → unpack_big_endian b (Z.of_nat i) n = Ok (be_value l).
Proof.
  intros Hb Hs ->. destruct (stands_bound b l i Hs) as [H| ->]; [|done].
  destruct (unpack_spec b i (length l) Hb H) as [-> _]. by rewrite Hs.
Qed.

Lemma mask_table bits :
  0 ≤ bits ≤ 32 →
  route_mask bits = Ok (mask_of bits) ∧ Z.shiftr (Z.land (bits + 7) (Z.lnot 7)) 3 = (bits + 7) / 8 ∧
  mask_of bits = Z.shiftl (Z.ones bits) (32 - bits).
Proof.
  intros Hb. assert (Hall : Forall (λ n, route_mask (Z.of_nat n) = Ok (mask_of (Z.of_nat n)) ∧
    Z.shiftr (Z.land (Z.of_nat n + 7) (Z.lnot 7)) 3 = (Z.of_nat n + 7) / 8 ∧
    mask_of (Z.of_nat n) = Z.shiftl (Z.ones (Z.of_nat n)) (32 - Z.of_nat n)) (seq 0 33)).
  { repeat (constructor; [split_and!; vm_compute; reflexivity|]). constructor. }
  rewrite Forall_forall in Hall. specialize (Hall (Z.to_nat bits)). rewrite Z2Nat.id in Hall by lia. apply Hall, elem_of_seq. lia.
Qed.

Lemma masked m bits : 0 ≤ bits ≤ 32 → 0 ≤ m < 2 ^ bits → Z.land (m * 2 ^ (32 - bits)) (mask_of bits) = m * 2 ^ (32 - bits).
Proof.
  intros Hb Hm. destruct (mask_table bits Hb) as (_ & _ & ->). rewrite <- Z.shiftl_mul_pow2 by lia.
  rewrite <- Z.shiftl_land, Z.land_ones, Z.mod_small by lia. done.
Qed.

Lemma network_of net bits :
  0 ≤ bits ≤ 32 → is_address net → net mod 2 ^ (32 - bits) = 0 → ∃ m, net = m * 2 ^ (32 - bits) ∧ 0 ≤ m < 2 ^ bits.
Proof.
  unfold is_address. intros Hb Hn H. exists (net / 2 ^ (32 - bits)). assert (0 < 2 ^ (32 - bits)) by (apply Z.pow_pos_nonneg; lia).
  split; [pose proof (Z.div_mod net (2 ^ (32 - bits))); lia|]. split; [apply Z.div_pos; lia|].
  apply Z.div_lt_upper_bound; [done|]. rewrite <- Z.pow_add_r by lia. replace (32 - bits + bits) with 32 by lia. change (2 ^ 32) with 4294967296. lia.
Qed.

Lemma prefix_value net k :
  (k ≤ 4)%nat → is_address net → be_value (take k (address_bytes net)) = net / 2 ^ (32 - Z.of_nat k * 8).
Proof.
  unfold is_address. intros Hk Hn. assert (k = 0 ∨ k = 1 ∨ k = 2 ∨ k = 3 ∨ k = 4)%nat as Hc by lia.
  destruct Hc as [->|[->|[->|[->| ->]]]]; unfold be_value, address_bytes;
    simpl; Z.to_euclidean_division_equations; lia.
Qed.

Lemma network_shift net bits k :
  0 ≤ bits ≤ 32 → is_address net → net mod 2 ^ (32 - bits) = 0 → k = (bits + 7) / 8 →
  Z.land (Z.shiftl (net / 2 ^ (32 - k * 8)) (32 - k * 8)) (mask_of bits) = net.
Proof.
  intros Hb Hn H ->. destruct (network_of net bits Hb Hn H) as (m & -> & Hm).
  assert (Hk : bits ≤ (bits + 7) / 8 * 8 ≤ 32) by (Z.to_euclidean_division_equations; lia).
  set (s := 32 - (bits + 7) / 8 * 8). rewrite Z.shiftl_mul_pow2 by lia.
  replace (m * 2 ^ (32 - bits)) with (m * 2 ^ (32 - bits - s) * 2 ^ s) at 1.
  - rewrite Z.div_mul by (apply Z.pow_nonzero; lia). rewrite <- Z.mul_assoc, <- Z.pow_add_r by lia.
    replace (32 - bits - s + s) with (32 - bits) by lia. by apply masked.
  - rewrite <- Z.mul_assoc, <- Z.pow_add_r by lia. by replace (32 - bits - s + s) with (32 - bits) by lia.
Qed.

Definition parsed_route (r : dhcp_route) : route := (dr_net r, mask_of (dr_bits r), dr_gateway r).

Lemma byte_at_stands b x l i : stands b (x :: l) i → byte_at b (Z.of_nat i) = Ok x.
Proof. intros [H _]%stands_cons. by apply byte_at_nat. Qed.

Lemma route_step fuel b stop j rs r :
  Forall is_byte b → stands b (route_bytes r) j → wf_route r → Z.of_nat j < stop →
  parse_route_loop (S fuel) b stop (Z.of_nat j) rs =
  parse_route_loop fuel b stop (Z.of_nat (j + length (route_bytes r))) (rs ++ [parsed_route r]).
Proof.
  intros Hb Hs (Hbits & Hnet & Hmod & Hgw) Hj. cbn [parse_route_loop]. rewrite (proj2 (Z.ltb_lt _ _) Hj).
  unfold route_bytes in Hs. rewrite (byte_at_stands _ _ _ _ Hs). apply stands_cons in Hs as [_ Hs].
  apply stands_app in Hs as [Hn Hg]. destruct (mask_table _ Hbits) as (Hm & Hk & _). cbn [mbind res_bind]. 
  rewrite Hm, Hk. set (k := (dr_bits r + 7) / 8) in *. assert (0 ≤ k ≤ 4) by (subst k; Z.to_euclidean_division_equations; lia).
  assert (Hl : length (take (Z.to_nat k) (address_bytes (dr_net r))) = Z.to_nat k) by (rewrite length_take; simpl; lia).
  replace (Z.of_nat j + 1) with (Z.of_nat (S j)) by lia.
  rewrite (unpack_stands b _ (S j) k Hb Hn) by (rewrite Hl; lia). rewrite prefix_value by (lia || done).
  rewrite Hl in Hg. replace (Z.of_nat (S j) + k) with (Z.of_nat (S j + Z.to_nat k)) by lia.
  rewrite (unpack_stands b _ _ 4 Hb Hg) by done. rewrite address_value by done. cbn [mbind res_bind].
  rewrite Z2Nat.id by lia. rewrite network_shift by done. f_equal. unfold route_bytes. cbn [length]. rewrite length_app.
  fold k. rewrite Hl. cbn [length address_bytes]. lia.
Qed.

Lemma routes_loop fuel b stop j rs l :
  Forall is_byte b → stands b (routes_bytes l) j → Forall wf_route l → stop = Z.of_nat (j + length (routes_bytes l)) →
  (length l < fuel)%nat → parse_route_loop fuel b stop (Z.of_nat j) rs = Ok (rs ++ (parsed_route <$> l)).
Proof.
  intros Hb. revert fuel j rs. induction l as [|r l IH]; intros fuel j rs Hs Hl Hstop Hf; (destruct fuel as [|fuel]; [simpl in Hf; lia|]).
  - simpl in Hstop. cbn [parse_route_loop]. rewrite (proj2 (Z.ltb_ge _ _)) by lia. by rewrite app_nil_r.
  - apply Forall_cons in Hl as [Hr Hl]. unfold routes_bytes in *. cbn [fmap list_fmap concat] in *.
    apply stands_app in Hs as [H1 H2]. rewrite length_app in Hstop.
    rewrite (route_step fuel b stop j rs r) by (done || (subst; unfold route_bytes; cbn [length]; lia)).
    rewrite IH; [|done..|lia|simpl in Hf; lia]. by rewrite <- app_assoc.
Qed.

Lemma routes_count l : (length l ≤ length (routes_bytes l))%nat.
Proof. induction l as [|r l IH]; [done|]. unfold routes_bytes in *. cbn [fmap list_fmap concat]. rewrite length_app. unfold route_bytes at 1. cbn [length]. lia. Qed.

(** One turn of the loop over the options *)
Lemma option_step fuel b i l o next :
  Forall is_byte b → stands b (option_bytes o ++ [next]) i → wf_option o →
  parse_options (S fuel) b (Z.of_nat i) l = parse_options fuel b (Z.of_nat (i + length (option_bytes o))) (take_option l o).
Proof.
  intros Hb Hs [Hlen Ho]. destruct (stands_bound _ _ _ Hs) as [Hbound|Hnil]; [|by apply app_eq_nil in Hnil as [_ ?]].
  rewrite length_app in Hbound. cbn [length] in Hbound. apply stands_app in Hs as [Hs _].
  unfold option_bytes in Hs, Hbound. cbn [length] in Hbound. cbn [parse_options].
  rewrite (proj2 (Z.ltb_lt _ _)) by lia. rewrite (byte_at_stands _ _ _ _ Hs). apply stands_cons in Hs as [_ Hs].
  rewrite (proj2 (Z.ltb_lt _ _)) by lia. replace (Z.of_nat i + 1) with (Z.of_nat (S i)) by lia.
  rewrite (byte_at_stands _ _ _ _ Hs). apply stands_cons in Hs as [_ Hs]. cbn [mbind res_bind].
  assert (Hnext : Z.of_nat i + (Z.of_nat (length (option_data o)) + 2) = Z.of_nat (i + length (option_bytes o)))
    by (unfold option_bytes; cbn [length]; lia).
  rewrite Hnext. destruct l as [[e g] r].
  assert (Hip : ∀ a, option_data o = address_bytes a → is_address a →
    parse_ip_addr b (Z.of_nat i) (Z.of_nat (length (option_data o))) (Z.of_nat (length b)) = Ok (Some (dotted a))).
  { intros a Ha Haddr. rewrite Ha in *. cbn [length address_bytes] in *. unfold parse_ip_addr. rewrite (proj2 (Z.ltb_lt _ _)) by lia. simpl negb.
    replace (Z.of_nat i + 2) with (Z.of_nat (S (S i))) by lia. cbn iota. rewrite (unpack_stands b _ _ 4 Hb Hs) by done.
    rewrite address_value, <- dotted_text by done. done. }
  destruct o as [a|a|rs|c d]; cbn [option_code take_option].
  - rewrite Hip with (a := a) by done. done.
  - rewrite Hip with (a := a) by done. done.
  - unfold parse_route. replace (Z.of_nat i + 2) with (Z.of_nat (S (S i))) by lia.
    rewrite (routes_loop _ _ _ _ _ rs); [done|done|done|done| |pose proof (routes_count rs); simpl option_data; lia].
    cbn [option_data]. lia.
  - destruct Ho as (_ & Hc & _). rewrite !not_elem_of_cons in Hc. destruct Hc as (? & ? & ? & ? & _).
    rewrite !(proj2 (Z.eqb_neq _ _)) by done. done.
Qed.

Lemma options_loop fuel b i l opts :
  Forall is_byte b → stands b (concat (option_bytes <$> opts) ++ [255]) i → Forall wf_option opts → (length opts < fuel)%nat →
  parse_options fuel b (Z.of_nat i) l = Ok (foldl take_option l opts).
Proof.
  intros Hb. revert fuel i l. induction opts as [|o opts IH]; intros fuel i l Hs Hopts Hf; (destruct fuel as [|fuel]; [simpl in Hf; lia|]).
  - destruct (stands_bound _ _ _ Hs) as [Hl|]; [|done]. cbn [parse_options]. simpl in Hl. rewrite (proj2 (Z.ltb_lt _ _)) by lia.
    rewrite (byte_at_stands _ _ _ _ Hs). cbn [mbind res_bind]. destruct l as [[e g] r].
    destruct (Z.ltb_spec (Z.of_nat i + 1) (Z.of_nat (length b))) as [Hi|]; [|done].
    destruct (lookup_lt_is_Some_2 b (S i)) as [x Hx]; [lia|]. replace (Z.of_nat i + 1) with (Z.of_nat (S i)) by lia.
    by rewrite (byte_at_nat _ _ _ Hx).
  - apply Forall_cons in Hopts as [Ho Hopts]. cbn [fmap list_fmap concat] in Hs. rewrite <- app_assoc in Hs.
    destruct (concat (option_bytes <$> opts) ++ [255]) as [|n m] eqn:Hrest; [by apply app_eq_nil in Hrest as [_ ?]|].
    rewrite (option_step fuel b i l o n); [|done| |done].
    + rewrite IH; [done| |done|simpl in Hf; lia]. by apply stands_app in Hs as [_ Hs].
    + change (n :: m) with ([n] ++ m) in Hs. rewrite app_assoc in Hs. by apply stands_app in Hs as [Hs _].
Qed.

Lemma route_bytes_wf r : wf_route r → Forall is_byte (route_bytes r).
Proof.
  intros (Hb & _). constructor; [unfold is_byte; lia|]. apply Forall_app. split; [apply Forall_take|]; apply address_bytes_wf.
Qed.

Lemma option_bytes_wf o : wf_option o → Forall is_byte (option_bytes o).
Proof.
  intros [Hl Ho]. constructor; [destruct o; cbn; unfold is_byte; try lia; by destruct Ho|]. constructor; [unfold is_byte; lia|].
  destruct o as [a|a|rs|c d]; [apply address_bytes_wf..| |by destruct Ho as (_ & _ & ?)].
  cbn. unfold routes_bytes. apply Forall_concat, Forall_fmap. eapply Forall_impl; [exact Ho|]. apply route_bytes_wf.
Qed.

(** The options of a DHCP response are read as the server wrote them: whatever the header
    of 240 bytes, whatever follows the end mark and in whatever order the options come, the
    endpoint is the address of the last option 245, the gateway that of the last option 3, and
    the routes those of the last option 249, each with its network, mask and gateway. *)
Theorem dhcp_options_are_read_back header opts trailing :
  length header = 240%nat → Forall is_byte header → Forall is_byte trailing → Forall wf_option opts →
  parse_dhcp_resp (header ++ concat (option_bytes <$> opts) ++ 255 :: trailing) = Ok (foldl take_option (None, None, None) opts).
Proof.
  intros Hh Hhb Htb Hopts. unfold parse_dhcp_resp. 
  set (body := concat (option_bytes <$> opts)). change (255 :: trailing) with ([255] ++ trailing).
  replace 240 with (Z.of_nat (length header)) by (by rewrite Hh). rewrite (app_assoc body). apply options_loop.
  - rewrite !Forall_app. split_and!; try done; [|repeat constructor; lia].
    apply Forall_concat, Forall_fmap. eapply Forall_impl; [exact Hopts|]. apply option_bytes_wf.
  - apply stands_at.
  - done.
  - rewrite !length_app. assert (length opts ≤ length body)%nat; [|simpl; lia]. subst body. clear.
    induction opts as [|o opts IH]; [done|]. cbn [fmap list_fmap concat]. rewrite length_app. unfold option_bytes at 1. cbn [length]. lia.
Qed.

(** ** Which responses answer a request *)

Lemma compare_bytes_spec a b s n :
  (s + n ≤ length a)%nat → (s + n ≤ length b)%nat →
  compare_bytes a b (Z.of_nat s) (Z.of_nat n) = Ok (bool_decide (take n (drop s a) = take n (drop s b))).
Proof.
  intros Ha Hb. unfold compare_bytes, range. rewrite Nat2Z.id.
  assert (Hgo : ∀ k m, (s + k + m ≤ length a)%nat → (s + k + m ≤ length b)%nat →
    compare_bytes_go a b ((λ i, Z.of_nat s + i) <$> (Z.of_nat <$> seq k m)) =
    Ok (bool_decide (take m (drop (s + k) a) = take m (drop (s + k) b)))).
  { intros k m. revert k. induction m as [|m IH]; intros k H1 H2; [done|].
    destruct (lookup_lt_is_Some_2 a (s + k)) as [x Hx]; [lia|]. destruct (lookup_lt_is_Some_2 b (s + k)) as [y Hy]; [lia|].
    cbn [seq fmap list_fmap compare_bytes_go]. rewrite <- Nat2Z.inj_add, (byte_at_nat _ _ _ Hx), (byte_at_nat _ _ _ Hy).
    cbn [mbind res_bind]. rewrite (drop_S _ _ _ Hx), (drop_S _ _ _ Hy), !firstn_cons. destruct (Z.eqb_spec x y) as [->|Hne].
    - rewrite IH by lia. rewrite Nat.add_succ_r. f_equal. apply bool_decide_ext. split; [by intros ->|by intros [= ?]].
    - rewrite bool_decide_eq_false_2; [done|]. by intros [= ? _]. }
  specialize (Hgo 0%nat n). rewrite Nat.add_0_r in Hgo. by apply Hgo.
Qed.

(** The parts of a request that a response must repeat *)
Lemma request_layout xid mac broadcast req :
  build_dhcp_request xid mac broadcast = Ok req →
  length req = 244%nat ∧ slice req 236 4 = [99; 130; 83; 99] ∧ slice req 4 4 = take 4 xid ∧ slice req 28 6 = take 6 mac ∧
  slice req 240 4 = [53; 1; 1; 255] ∧ slice req 0 3 = [1; 1; 6] ∧ slice req 10 1 = [if broadcast then 128 else 0].
Proof.
  intros H. destruct xid as [|x0 [|x1 [|x2 [|x3 xid]]]]; try done.
  destruct mac as [|m0 [|m1 [|m2 [|m3 [|m4 [|m5 mac]]]]]]; try (by destruct broadcast).
  destruct broadcast; vm_compute in H; injection H as <-; split_and!; reflexivity.
Qed.

Lemma dhcp_response_checked xid mac broadcast req resp :
  build_dhcp_request xid mac broadcast = Ok req → (246 ≤ length resp)%nat →
  if bool_decide (slice resp 236 4 = [99; 130; 83; 99] ∧ slice resp 4 4 = take 4 xid ∧ slice resp 28 6 = take 6 mac)
  then validate_dhcp_resp req resp = Ok true
  else ∃ e, validate_dhcp_resp req resp = Err e ∧ e_class e = DhcpError.
Proof.
  intros (Hlen & Hcookie & Hxid & Hmac & _)%request_layout Hresp.
  unfold validate_dhcp_resp. rewrite (proj2 (Z.ltb_ge _ _)) by lia.
  change 236 with (Z.of_nat 236). change 28 with (Z.of_nat 28). change 4 with (Z.of_nat 4). change 6 with (Z.of_nat 6).
  rewrite !compare_bytes_spec by lia. unfold slice in *. rewrite !Nat2Z.id.
  change (Z.to_nat 236) with 236%nat in *. change (Z.to_nat 28) with 28%nat in *. change (Z.to_nat 4) with 4%nat in *.
  change (Z.to_nat 6) with 6%nat in *.
  rewrite Hcookie, Hxid, Hmac.
  repeat case_bool_decide; cbn; try done; try (by eexists); naive_solver.
Qed.

(** [build_dhcp_request] writes a DHCPDISCOVER of 244 bytes with the hardware address, the
    transaction ID and the broadcast flag, and [validate_dhcp_resp] accepts a response of at
    least 246 bytes exactly when it repeats the magic cookie, the transaction ID and the
    hardware address; it refuses every other one with [DhcpError] and reads no byte that is
    not there. *)
Theorem dhcp_response_accepted xid mac broadcast req resp :
  build_dhcp_request xid mac broadcast = Ok req → (246 ≤ length resp)%nat →
  slice req 240 4 = [53; 1; 1; 255] ∧ slice req 10 1 = [if broadcast then 128 else 0] ∧
  if bool_decide (slice resp 236 4 = [99; 130; 83; 99] ∧ slice resp 4 4 = take 4 xid ∧ slice resp 28 6 = take 6 mac)
  then validate_dhcp_resp req resp = Ok true
  else ∃ e, validate_dhcp_resp req resp = Err e ∧ e_class e = DhcpError.
Proof.
  intros Hreq Hresp. destruct (request_layout _ _ _ _ Hreq) as (_ & _ & _ & _ & Hopt & _ & Hflag). split_and!; [done..|].
  by apply (dhcp_response_checked xid mac broadcast).
Qed.

(** ** What a request leaves on the machine *)

Definition is_attempt (req : buffer) (v : os_event) : Prop :=
  match v with AllowBroadcast | Sleep _ => True | Send r => r = req | _ => False end.
Definition is_send (v : os_event) : bool := match v with Send _ => true | _ => false end.
Definition sends (l : list os_event) : nat := length (filter (λ v, is_send v = true) l).
Definition guarded (b : bool) (l : list os_event) : list os_event := if b then l else [].

Section restoration.
Context (O : os).
Hypothesis no_faults : ∀ t v, os_fault O t v = None.
Hypothesis enabled_constant : ∀ t t', os_dhcp_enabled O t = os_dhcp_enabled O t'.
Hypothesis socket_errors : ∀ t r e, os_socket O t r = Err e → isinstance e OSError = true.

Lemma wp_act v (Q : unit → dhcp_handler → Prop) R h : Q tt (push_event v h) → wp (act O v) Q R h.
Proof. intros HQ. unfold act. wp_steps; [|exact HQ]. rewrite no_faults in *. done. Qed.

(** The errors of an exchange are those of DHCP. *)
Lemma validate_errors xid mac b req resp e :
  build_dhcp_request xid mac b = Ok req → validate_dhcp_resp req resp = Err e → e_class e = DhcpError.
Proof.
  intros Hreq He. destruct (Nat.le_gt_cases 246 (length resp)) as [Hl|Hl].
  - pose proof (dhcp_response_checked _ _ _ _ _ Hreq Hl) as H. revert H. case_bool_decide; [congruence|].
    intros (e' & He' & Hc). congruence.
  - unfold validate_dhcp_resp in He. rewrite (proj2 (Z.ltb_lt _ _)) in He by lia. done.
Qed.

Lemma dhcp_error_caught e : e_class e = DhcpError → isinstance e DhcpError = true.
Proof. unfold isinstance. by intros ->. Qed.

Definition pushed (h : dhcp_handler) (l : list os_event) : dhcp_handler :=
  mkHandler (dh_endpoint h) (dh_gateway h) (dh_routes h) (dh_request_broadcast h) (dh_skip_cache h) (dh_trace h ++ l).

Lemma pushed_pushed h l m : pushed (pushed h l) m = pushed h (l ++ m).
Proof. unfold pushed. cbn. by rewrite <- app_assoc. Qed.

Lemma sends_app l m : sends (l ++ m) = (sends l + sends m)%nat.
Proof. unfold sends. by rewrite filter_app, length_app. Qed.

(** One exchange *)
Lemma exchange_spec xid mac b req h :
  build_dhcp_request xid mac b = Ok req →
  wp (except DhcpError
        (act O AllowBroadcast ;; response ← socket_send O req; lift (validate_dhcp_resp req response) ;; mret (Some response))
        (λ _, mret None))
    (λ _ h', h' = pushed h [AllowBroadcast; Send req]) (λ _ _, False) h.
Proof.
  intros Hreq. apply wp_except, wp_bind, wp_act, wp_bind. unfold socket_send. apply wp_bind, wp_gets, wp_bind, wp_modify.
  assert (Hh : push_event (Send req) (push_event AllowBroadcast h) = pushed h [AllowBroadcast; Send req])
    by (unfold push_event, pushed; cbn; by rewrite <- app_assoc).
  rewrite Hh. destruct (os_socket O _ req) as [r|e] eqn:Hs.
  - apply wp_ret, wp_bind, wp_lift; [intros ? _; by apply wp_ret|]. intros e He.
    rewrite (dhcp_error_caught e) by (by eapply validate_errors). by split; [intros _; apply wp_ret|].
  - rewrite (socket_errors _ _ _ Hs). apply wp_raise. split; [intros _; by apply wp_ret|done].
Qed.

Lemma try_spec xid mac b req ds h :
  build_dhcp_request xid mac b = Ok req →
  wp (try_dhcp_req O req ds)
    (λ r h', ∃ a, h' = pushed h a ∧ Forall (is_attempt req) a ∧ (sends a ≤ length ds)%nat ∧ (r = None → sends a = length ds))
    (λ _ _, False) h.
Proof.
  intros Hreq. revert h. induction ds as [|d ds IH]; intros h; cbn [try_dhcp_req].
  { apply wp_ret. exists []. unfold pushed. rewrite app_nil_r. by destruct h. }
  apply wp_bind. eapply wp_mono; [by eapply exchange_spec| |done]. intros [r|] h' ->.
  - apply wp_ret. exists [AllowBroadcast; Send req]. split_and!; [done|by rewrite !Forall_cons|change (sends _) with 1%nat; simpl; lia|done].
  - apply wp_bind, wp_act. eapply wp_mono; [apply IH| |done]. intros r h' (a & -> & Ha & Hs & Hn).
    exists ([AllowBroadcast; Send req; Sleep d] ++ a). split_and!.
    + change (push_event (Sleep d) (pushed h [AllowBroadcast; Send req])) with (pushed (pushed h [AllowBroadcast; Send req]) [Sleep d]).
      by rewrite !pushed_pushed.
    + apply Forall_app. split; [by rewrite !Forall_cons|done].
    + rewrite sends_app. change (sends [AllowBroadcast; Send req; Sleep d]) with 1%nat. simpl. lia.
    + intros ->. rewrite sends_app, Hn by done. done.
Qed.

Lemma wp_guard (b : bool) v (Q : unit → dhcp_handler → Prop) R h : Q tt (pushed h (guarded b [v])) → wp (when b (act O v)) Q R h.
Proof.
  intros HQ. apply wp_when; intros ->; [by apply wp_act|]. unfold pushed in HQ. cbn in HQ. rewrite app_nil_r in HQ. by destruct h.
Qed.

Lemma build_ok xid mac b : (4 ≤ length xid)%nat → (6 ≤ length mac)%nat → ∃ req, build_dhcp_request xid mac b = Ok req.
Proof.
  intros Hx Hm. destruct xid as [|x0 [|x1 [|x2 [|x3 xid]]]]; try (simpl in Hx; lia).
  destruct mac as [|m0 [|m1 [|m2 [|m3 [|m4 [|m5 mac]]]]]]; try (simpl in Hm; lia). eexists. reflexivity.
Qed.

(** Asking DHCP leaves the machine as it was: whatever the network answers (nothing,
    garbage, a response to another request), [send_dhcp_req] sends the same request five times
    at most, starts the DHCP service again if it stopped it, removes the broadcast route if it
    added it, and only then reads the response or fails. *)
Theorem dhcp_request_restores mac h :
  os_dhcp_available O = true → conf_dhcp_discovery_enabled O = true → os_mac_addr O = Ok mac →
  (4 ≤ length (os_random O))%nat → (6 ≤ length mac)%nat →
  let missing := os_missing_default_route O (dh_trace h) in
  let enabled := os_dhcp_enabled O (dh_trace h) in
  let left (h' : dhcp_handler) := ∃ req a,
    build_dhcp_request (os_random O) mac (dh_request_broadcast h) = Ok req ∧ Forall (is_attempt req) a ∧ (sends a ≤ 5)%nat ∧
    dh_trace h' = dh_trace h ++ guarded missing [SetBroadcastRoute (os_if_name O)] ++ guarded enabled [StopService] ++ a ++
                  guarded enabled [StartService] ++ guarded missing [RemoveBroadcastRoute (os_if_name O)] in
  wp (send_dhcp_req O) (λ _, left) (λ _, left) h.
Proof.
  intros Ha Hc Hm Hr Hl missing enabled left. unfold send_dhcp_req. rewrite Ha, Hc, Hm. cbn [negb orb].
  destruct (build_ok (os_random O) mac (dh_request_broadcast h) Hr Hl) as [req Hreq].
  apply wp_bind, wp_lift; [|done]. intros ? [= <-]. apply wp_bind, wp_gets. rewrite Hreq.
  apply wp_bind, wp_lift; [|done]. intros ? [= <-]. apply wp_bind, wp_modify, wp_bind, wp_gets.
  cbn [dh_trace set_broadcast]. fold missing. apply wp_bind, wp_guard, wp_bind, wp_gets, wp_bind, wp_guard.
  rewrite (enabled_constant _ (dh_trace h)). fold enabled. rewrite pushed_pushed.
  apply wp_bind. eapply wp_mono; [by eapply try_spec| |done]. intros resp h' (a & -> & Hat & Hs & _). rewrite pushed_pushed.
  apply wp_bind, wp_gets, wp_bind, wp_guard. rewrite (enabled_constant _ (dh_trace h)). fold enabled.
  apply wp_bind, wp_guard. rewrite !pushed_pushed. set (tr := _ ++ _) at 1.
  assert (Hleft : ∀ h', dh_trace h' = dh_trace h ++ tr → left h').
  { intros h' Hh. exists req, a. split_and!; try done. rewrite Hh. subst tr. by rewrite <- !app_assoc. }
  destruct resp as [resp|]; [|by apply wp_raise, Hleft].
  apply wp_bind, wp_lift; [|intros e _; by apply Hleft]. intros [[e g] r] _. by apply wp_modify, Hleft.
Qed.
End restoration.

(** ** Concrete runs *)

Definition sample_mac : buffer := [0; 13; 58; 1; 2; 3].
Definition sample_xid : buffer := [222; 173; 190; 239].
Definition sample_request : buffer := Eval vm_compute in default [] (match build_dhcp_request sample_xid sample_mac false with Ok r => Some r | Err _ => None end).

(** A server that answers with the address of the wire server and a route *)
Definition sample_options : list dhcp_option :=
  [Other 53 [2]; Endpoint 2822734096; Gateway 167772161; Routes [mkRoute 12 180355072 167772161; mkRoute 32 2852039166 167772161]].
Definition sample_response : buffer := take 240 sample_request ++ concat (option_bytes <$> sample_options) ++ [255].

Definition sample_os (answer : buffer) : os :=
  mkOs (λ _, Ok []) (λ _, Ok None) true (λ _, true) (λ _, true) (Ok sample_mac) "eth0" true sample_xid (λ _ _, Ok answer) (λ _ _, None).

(** The first run sends one request, takes the lease and adds the routes. *)
Example dhcp_run :
  let '(r, h) := run_dhcp (sample_os sample_response) new_dhcp_handler in
  r = Ok tt ∧ dh_endpoint h = Some "168.63.129.16" ∧
  dh_trace h = [SetBroadcastRoute "eth0"; StopService; AllowBroadcast; Send sample_request; StartService; RemoveBroadcastRoute "eth0";
                RouteAdd 0 0 (inl "10.0.0.1"); RouteAdd 180355072 4293918720 (inr 167772161);
                RouteAdd 2852039166 4294967295 (inr 167772161)].
Proof. vm_compute. auto. Qed.

(** A response that is too short is reported by [validate_dhcp_resp], and taken all the same:
    the request succeeds and there is no endpoint. *)
Example short_response_is_taken :
  let '(r, h) := run_dhcp (sample_os [2; 1; 6]) new_dhcp_handler in r = Ok tt ∧ dh_endpoint h = None.
Proof. vm_compute. auto. Qed.

(** A pad option is one byte (RFC 2132), but is read as if a length followed. *)
Example pad_option_hides_endpoint :
  parse_dhcp_resp (take 240 sample_request ++ [0; 245; 4; 168; 63; 129; 16; 255]) = Ok (None, None, None).
Proof. vm_compute. reflexivity. Qed.

Lemma dhcp_options_are_read_back_witness :
  parse_dhcp_resp sample_response =
  Ok (Some "168.63.129.16", Some "10.0.0.1", Some [(180355072, 4293918720, 167772161); (2852039166, 4294967295, 167772161)]).
Proof.
  unfold sample_response. rewrite (dhcp_options_are_read_back (take 240 sample_request) sample_options []).
  - vm_compute. reflexivity.
  - vm_compute. reflexivity.
  - apply (bool_decide_unpack (Forall (λ z, 0 ≤ z < 256) _)). vm_compute. exact I.
  - apply Forall_nil_2.
  - repeat apply Forall_cons_2; [..|apply Forall_nil_2]; (split; [vm_compute; repeat constructor|]).
    + split; [done|]. split; [apply (bool_decide_unpack _); vm_compute; exact I|]. apply Forall_cons_2; [done|apply Forall_nil_2].
    + done.
    + done.
    + repeat apply Forall_cons_2; [..|apply Forall_nil_2]; done.
Defined.

Lemma dhcp_response_accepted_witness :
  (246 ≤ length sample_response)%nat ∧ validate_dhcp_resp sample_request sample_response = Ok true ∧
  slice sample_request 240 4 = [53; 1; 1; 255].
Proof.
  destruct (dhcp_response_accepted sample_xid sample_mac false sample_request sample_response) as (H1 & _ & H3).
  - vm_compute. reflexivity.
  - vm_compute. repeat constructor.
  - split_and!; [vm_compute; repeat constructor| |exact H1]. rewrite bool_decide_eq_true_2 in H3; [exact H3|]. by vm_compute.
Defined.

Lemma dhcp_request_restores_witness :
  ∃ req a, Forall (is_attempt req) a ∧ (sends a ≤ 5)%nat ∧
    dh_trace (send_dhcp_req (sample_os [2; 1; 6]) new_dhcp_handler).2 =
    [SetBroadcastRoute "eth0"; StopService] ++ a ++ [StartService; RemoveBroadcastRoute "eth0"].
Proof.
  pose proof (dhcp_request_restores (sample_os [2; 1; 6]) ltac:(done) ltac:(done) ltac:(done) sample_mac new_dhcp_handler
    eq_refl eq_refl eq_refl ltac:(simpl; lia) ltac:(simpl; lia)) as H. apply wp_end in H.
  destruct H as (req & a & _ & Ha & Hs & Ht). exists req, a. split_and!; [exact Ha|exact Hs|exact Ht].
Defined.
