(* ===== verification/Timers.v ===== *)
(** * Error windows and periodic operations

    [errorstate.py] ([ErrorState]: an error is reported once errors have persisted for a
    minimum time) and [periodic_operation.py] ([PeriodicOperation]: tasks of the agent's
    threads that run at most once per period).

    Times and time spans are integers in microseconds, the resolution of [datetime].
    Each read of the clock in the code is an argument of the definition. *)
From S2P Require Import Prelude PyExn.

Definition minutes (n : Z) : Z := n * 60 * 1000000.

(** ** ErrorState *)
Module ErrorState.

Definition ERROR_STATE_DELTA_DEFAULT : Z := minutes 15.
Definition ERROR_STATE_DELTA_INSTALL : Z := minutes 5.
Definition ERROR_STATE_HOST_PLUGIN_FAILURE : Z := minutes 5.

Record ErrorState := mk {
  min_timedelta : Z;
  count : Z;
  timestamp : option Z
}.

Definition init (min_timedelta : Z) : ErrorState := mk min_timedelta 0 None.

Definition incr (now : Z) (s : ErrorState) : ErrorState :=
  let ts := if count s =? 0 then Some now else timestamp s in
  mk (min_timedelta s) (count s + 1) ts.

Definition reset (s : ErrorState) : ErrorState := mk (min_timedelta s) 0 None.

Definition is_triggered (now : Z) (s : ErrorState) : bool :=
  match timestamp s with
  | None => false
  | Some t => min_timedelta s <=? now - t
  end.

(** A history of calls, oldest first. *)
Inductive event := Incr (now : Z) | Reset.

Definition step (s : ErrorState) (e : event) : ErrorState :=
  match e with Incr now => incr now s | Reset => reset s end.

Definition run (delta : Z) (h : list event) : ErrorState := foldl step (init delta) h.

(** The abstract state: the times of the errors since the last reset, oldest first. *)
Definition errors_step (l : list Z) (e : event) : list Z :=
  match e with Incr now => l ++ [now] | Reset => [] end.

Definition errors_since_reset (h : list event) : list Z := foldl errors_step [] h.

Definition represents (s : ErrorState) (l : list Z) : Prop :=
  count s = Z.of_nat (length l) ∧ timestamp s = head l.

Lemma step_represents s l e : represents s l → represents (step s e) (errors_step l e).
Proof.
  intros [Hc Ht]. destruct e as [now|]; [|done].
  unfold represents. simpl. rewrite length_app. simpl. rewrite Hc.
  split; [lia|]. rewrite Ht. by destruct l.
Qed.

Lemma run_represents delta h :
  represents (run delta h) (errors_since_reset h) ∧ min_timedelta (run delta h) = delta.
Proof.
  unfold run, errors_since_reset.
  induction h as [|e h [IH Hd]] using rev_ind; [done|].
  rewrite !foldl_snoc. split; [by apply step_represents|]. by destruct e.
Qed.

(** After any history of [incr] and [reset] calls, [is_triggered] holds exactly when
    an error was recorded since the last reset and the first of them is at least
    [min_timedelta] old; later errors do not restart the window, and [count] is the
    number of errors since the reset. *)
Theorem is_triggered_iff_first_error_old (delta now : Z) (h : list event) :
  is_triggered now (run delta h) =
    match errors_since_reset h with
    | [] => false
    | first :: _ => delta <=? now - first
    end ∧
  count (run delta h) = Z.of_nat (length (errors_since_reset h)).
Proof.
  destruct (run_represents delta h) as [[Hc Ht] Hd]. split; [|done].
  unfold is_triggered. rewrite Ht, Hd. by destruct (errors_since_reset h).
Qed.
End ErrorState.

(** ** PeriodicOperation *)
Module Periodic.

Record PeriodicOperation := mk {
  name : string;
  period : Z;
  next_run_time : Z;
  last_warning : option string;
  last_warning_time : option Z
}.

Definition LOG_WARNING_PERIOD : Z := minutes 60.

Definition init (name : string) (period now : Z) : PeriodicOperation :=
  mk name period now None None.

Section run.
Context {W : Type}.
(** [self._operation]: overridden by each derived class. *)
Variable operation : M W exn unit.

(** The state a run changes: the timer, the world of the operation, the start times of
    the executed operations and the warnings logged with their times. *)
Record state := mkState {
  st_op : PeriodicOperation;
  st_world : W;
  st_started : list Z;
  st_logged : list (Z * string)
}.

(** The clock reads of [run]: in the guard, in the [finally] clause, in the condition
    on the last warning, and after logging it. *)
Record clock := mkClock { t_guard : Z; t_finally : Z; t_cond : Z; t_warned : Z }.

Definition set_next (t : Z) (o : PeriodicOperation) : PeriodicOperation :=
  mk (name o) (period o) t (last_warning o) (last_warning_time o).

Definition warning_text (o : PeriodicOperation) (e : exn) : string :=
  "Error in " +:+ name o +:+ ": " +:+ e_msg e +:+
  " --- [NOTE: Will not log the same error for the next hour]".

Definition should_warn (o : PeriodicOperation) (warning : string) (now : Z) : bool :=
  bool_decide (Some warning ≠ last_warning o) ||
  match last_warning_time o with
  | None => true
  | Some t => t + LOG_WARNING_PERIOD <=? now
  end.

Definition run (c : clock) : M state exn unit :=
  except Exception_
    (due ← gets (λ s, next_run_time (st_op s) <=? t_guard c);
     when due
       (finally
          (modify (λ s, mkState (st_op s) (st_world s) (st_started s ++ [t_guard c]) (st_logged s)) ;;
           zoom st_world (λ w s, mkState (st_op s) w (st_started s) (st_logged s)) operation)
          (modify (λ s, mkState (set_next (t_finally c + period (st_op s)) (st_op s))
                          (st_world s) (st_started s) (st_logged s)))))
    (λ e,
       o ← gets st_op;
       let warning := warning_text o e in
       when (should_warn o warning (t_cond c))
         (modify (λ s, mkState (mk (name o) (period o) (next_run_time o) (Some warning) (Some (t_warned c)))
                         (st_world s) (st_started s) (st_logged s ++ [(t_warned c, warning)])))).

(** Successive calls of [run]. *)
Definition run_all (cs : list clock) : M state exn unit := for_each cs run.

(** The clock does not go back within a call of [run]. *)
Definition monotone (c : clock) : Prop := t_guard c ≤ t_finally c ∧ t_cond c ≤ t_warned c.

Definition apart (d a b : Z) : Prop := a + d ≤ b.
(** The same warning is not repeated before [LOG_WARNING_PERIOD]. *)
Definition warn_apart (a b : Z * string) : Prop := a.2 = b.2 → a.1 + LOG_WARNING_PERIOD ≤ b.1.

Record inv (p : Z) (s : state) : Prop := {
  inv_period : period (st_op s) = p;
  inv_started : Sorted (apart p) (st_started s);
  inv_next : ∀ t, last (st_started s) = Some t → t + p ≤ next_run_time (st_op s);
  inv_logged : Sorted warn_apart (st_logged s);
  inv_warning : ∀ t m, last (st_logged s) = Some (t, m) →
    last_warning (st_op s) = Some m ∧ last_warning_time (st_op s) = Some t
}.

Hypothesis operation_raises_Exception :
  ∀ w, wp operation (λ _ _, True) (λ e _, isinstance e Exception_ = true) w.

(** The guarded operation: [next_run_time] moves past the start by a period whether the
    operation returns or raises. *)
Lemma run_guarded_inv p c s o t l w :
  inv p s → monotone c → st_op s = o → next_run_time o ≤ t_guard c →
  st_started s = t → st_logged s = l →
  inv p (mkState (set_next (t_finally c + period o) o) w (t ++ [t_guard c]) l).
Proof.
  intros [Hp Hs Hn Hl Hw] [Hm _] <- Hdue <- <-. split; simpl; try done.
  - apply Sorted_snoc_last; [done|]. intros x Hx. unfold apart. specialize (Hn x Hx). lia.
  - intros u Hu. rewrite last_snoc in Hu. simplify_eq. lia.
Qed.

Lemma run_warn_inv p c s warning :
  inv p s → monotone c → should_warn (st_op s) warning (t_cond c) = true →
  inv p (mkState (mk (name (st_op s)) (period (st_op s)) (next_run_time (st_op s))
                    (Some warning) (Some (t_warned c)))
           (st_world s) (st_started s) (st_logged s ++ [(t_warned c, warning)])).
Proof.
  intros [Hp Hs Hn Hl Hw] [_ Hm] Hb. split; simpl; try done.
  - apply Sorted_snoc_last; [done|]. intros [t m] Hlast. unfold warn_apart. simpl. intros ->.
    destruct (Hw t warning Hlast) as [H1 H2]. unfold should_warn in Hb. rewrite H1, H2 in Hb.
    rewrite bool_decide_eq_false_2 in Hb by tauto. simpl in Hb. lia.
  - intros t m. rewrite last_snoc. by intros [= <- <-].
Qed.

Lemma run_inv p c s : inv p s → monotone c → wp (run c) (λ _ s', inv p s') (λ _ _, False) s.
Proof.
  intros Hi Hc. unfold run. apply wp_except. wp_step. wp_step.
  apply wp_when; [|done]. intros Hdue%Z.leb_le. apply wp_finally.
  wp_step. wp_step. wp_step. simpl.
  eapply wp_mono; [apply operation_raises_Exception|..].
  - intros [] w _. wp_step. simpl. by apply (run_guarded_inv p c s).
  - intros e w He. wp_step. simpl. split; [|by rewrite He]. intros _.
    wp_step. wp_step. simpl. apply wp_when; intros Hb.
    + wp_step. simpl.
      apply (run_warn_inv p c (mkState (set_next (t_finally c + period (st_op s)) (st_op s)) w
               (st_started s ++ [t_guard c]) (st_logged s))); try done.
      by apply (run_guarded_inv p c s).
    + by apply (run_guarded_inv p c s).
Qed.

Lemma run_all_inv p cs s :
  inv p s → Forall monotone cs → wp (run_all cs) (λ _ s', inv p s') (λ _ _, False) s.
Proof.
  intros Hi Hcs. unfold run_all. apply (wp_for_each _ _ (λ _ s', inv p s')); [done| |done].
  intros dn c rest s' -> Hs'. apply Forall_app in Hcs as [_ [Hc _]%Forall_cons].
  by apply run_inv.
Qed.

(** Any number of calls of [run] return normally when the operation raises only
    subclasses of [Exception]; two executions of the operation start at least a period
    apart, also after failures, and a warning is not logged again within the hour unless
    a different one was logged in between. *)
Theorem operation_at_most_once_per_period nm p now w0 (cs : list clock) :
  Forall monotone cs →
  ∃ s, run_all cs (mkState (init nm p now) w0 [] []) = (Ok tt, s) ∧
       Sorted (apart p) (st_started s) ∧ Sorted warn_apart (st_logged s).
Proof.
  intros Hcs.
  assert (inv p (mkState (init nm p now) w0 [] [])) as Hi by (split; simpl; try done; constructor).
  pose proof (run_all_inv p cs _ Hi Hcs) as H. unfold wp in H.
  destruct (run_all cs _) as [[[]|e] s]; [|done]. exists s. by destruct H.
Qed.
End run.

(** An operation that always fails, started with a period of 10 and called every 4
    units, runs in the first, fourth and seventh call and warns once. *)
Definition failing_operation : M unit exn unit := raise (py_error ValueError "failed").
Definition every_4 : list clock := (λ i, mkClock (4 * i) (4 * i) (4 * i) (4 * i)) <$> [0; 1; 2; 3; 4; 5; 6].

Lemma operation_at_most_once_per_period_witness :
  (∀ w, wp failing_operation (λ _ _, True) (λ e _, isinstance e Exception_ = true) w) ∧
  (∃ s, run_all failing_operation every_4 (mkState (init "op" 10 0) tt [] []) = (Ok tt, s) ∧
        Sorted (apart 10) (st_started s) ∧ Sorted warn_apart (st_logged s)) ∧
  (run_all failing_operation every_4 (mkState (init "op" 10 0) tt [] [])).2.(st_started) = [0; 12; 24].
Proof.
  assert (∀ w, wp failing_operation (λ _ _, True) (λ e _, isinstance e Exception_ = true) w) as H
    by (intros w; reflexivity).
  split; [exact H|]. split; [|vm_compute; reflexivity].
  apply (operation_at_most_once_per_period failing_operation H "op" 10 0 tt every_4).
  repeat constructor; apply Z.le_refl.
Defined.

(** [sleep_until_next_operation]: [None] when no sleep is needed; [min] of an empty
    sequence raises. *)
Definition sleep_until_next_operation (ops : list PeriodicOperation) (now : Z) : res exn (option Z) :=
  match next_run_time <$> ops with
  | [] => Err (py_error ValueError "min() arg is an empty sequence")
  | t :: ts =>
      let next := foldr Z.min t ts in
      let sleep := next - now in
      Ok (if 0 <? sleep then Some sleep else None)
  end.

Lemma foldr_min_le t ts : foldr Z.min t ts ∈ t :: ts ∧ Forall (λ x, foldr Z.min t ts ≤ x) (t :: ts).
Proof.
  induction ts as [|x ts [IH1 IH2]]; simpl; [split; [by left|repeat constructor; lia]|].
  apply Forall_cons in IH2 as [Ht Hts]. split.
  - destruct (Z.min_spec x (foldr Z.min t ts)) as [[_ ->]|[_ ->]]; [by right; left|].
    apply elem_of_cons in IH1 as [->|]; [by left|by right; right].
  - constructor; [lia|]. constructor; [lia|]. eapply Forall_impl; [exact Hts|]. simpl. intros; lia.
Qed.

(** The agent's threads never oversleep: at the end of the sleep some operation is
    due, and before it none is, whatever the operations' times are. *)
Theorem sleep_ends_when_next_is_due ops now :
  ops ≠ [] →
  ∃ s, sleep_until_next_operation ops now = Ok s ∧
       (∃ o, o ∈ ops ∧ next_run_time o ≤ now + default 0 s) ∧
       (∀ d, s = Some d → 0 < d ∧ ∀ o, o ∈ ops → now + d ≤ next_run_time o).
Proof.
  unfold sleep_until_next_operation. intros Hne.
  destruct (next_run_time <$> ops) as [|t ts] eqn:E; [by destruct ops|].
  destruct (foldr_min_le t ts) as [H1 H2]. rewrite <-E in H1, H2.
  eexists; split; [done|]. split.
  - apply list_elem_of_fmap in H1 as (o & Ho & Hin). exists o. split; [done|].
    rewrite <-Ho. destruct (Z.ltb_spec 0 (foldr Z.min t ts - now)); simpl; lia.
  - intros d Hd. destruct (Z.ltb_spec 0 (foldr Z.min t ts - now)); simplify_eq. split; [done|].
    intros o Ho. rewrite Forall_forall in H2.
    pose proof (H2 _ (list_elem_of_fmap_2 next_run_time ops o Ho)). simpl in *. lia.
Qed.

Lemma sleep_ends_when_next_is_due_witness :
  ∃ s, sleep_until_next_operation [init "a" 5 30; init "b" 5 20] 3 = Ok s ∧
       (∃ o, o ∈ [init "a" 5 30; init "b" 5 20] ∧ next_run_time o ≤ 3 + default 0 s) ∧
       (∀ d, s = Some d → 0 < d ∧ ∀ o, o ∈ [init "a" 5 30; init "b" 5 20] → 3 + d ≤ next_run_time o).
Proof. apply sleep_ends_when_next_is_due. discriminate. Defined.
End Periodic.
