(* ===== verification/Policy.v ===== *)
(** * The extension policy ([ga/policy/policy_engine.py])

    The customer's policy file says which extensions may run, which must be signed, and
    gives each an opaque runtime policy.  [_PolicyEngine] reads, validates and
    normalises the document ([_parse_policy]); [ExtensionPolicyEngine] answers the
    questions the extension handlers ask before every operation.  The allow list is a
    [_CaseFoldedDict] (extensions_goal_state_from_vm_settings.py): names are
    looked up by their case folding, which on ASCII names is [str_lower].

    Reading the environment is a parameter: the configuration flag and the existence of
    the file, the file's contents, [json.loads], whether the machine is a confidential VM
    and whether its OpenSSL supports signature validation. *)
From S2P Require Import Prelude PyExn Json FlexVersion.
From Stdlib Require Import Ascii.

(** ** Text of values in error messages *)

Fixpoint str_exists (p : ascii → bool) (s : string) : bool :=
  match s with
  | EmptyString => false
  | String c s' => p c || str_exists p s'
  end.

Definition quote : ascii := "'"%char.

(** [repr] of an ASCII string: double quotes only if it has single and no double ones. *)
Definition repr_char (q c : ascii) : string :=
  let n := nat_of_ascii c in
  if Ascii.eqb c q || Ascii.eqb c "\"%char then String "\" (String c "")
  else if bool_decide (n = 10%nat) then "\n"
  else if bool_decide (n = 13%nat) then "\r"
  else if bool_decide (n = 9%nat) then "\t"
  else if bool_decide (n < 32 ∨ 126 < n)%nat
       then "\x" +:+ String (hex_digit (n / 16)) (String (hex_digit (n mod 16)) "")
  else String c "".

Fixpoint repr_chars (q : ascii) (s : string) : string :=
  match s with
  | EmptyString => String q ""
  | String c s' => repr_char q c +:+ repr_chars q s'
  end.

Definition repr_str (s : string) : string :=
  let q := if str_exists (Ascii.eqb quote) s && negb (str_exists (Ascii.eqb dquote) s)
           then dquote else quote in
  String q (repr_chars q s).

(** [repr(v)] of a JSON value *)
Fixpoint py_repr (j : json) : string :=
  match j with
  | JNull => "None"
  | JBool true => "True"
  | JBool false => "False"
  | JInt z => pretty z
  | JFloat l => l
  | JStr s => repr_str s
  | JArr l => "[" +:+ str_join ", " (py_repr <$> l) +:+ "]"
  | JObj d => "{" +:+ str_join ", " ((λ '(k, v), repr_str k +:+ ": " +:+ py_repr v) <$> d) +:+ "}"
  end.

(** ** Case-folded dictionaries *)
Module CaseFolded.
(** [_casefold] on ASCII strings *)
Definition casefold (s : string) : string := str_lower s.

Definition get {V} (key : string) (d : list (string * V)) : option V := dict_get (casefold key) d.
Definition setitem {V} (key : string) (v : V) (d : list (string * V)) : list (string * V) :=
  dict_set (casefold key) v d.
Definition contains {V} (key : string) (d : list (string * V)) : bool :=
  bool_decide (is_Some (dict_get (casefold key) d)).

(** [_to_case_folded_dict_item]: the keys are folded again by [__setitem__]. *)
Fixpoint to_case_folded_dict_item (item : json) : json :=
  match item with
  | JObj d => JObj (foldl (λ acc '(k, v), setitem (casefold k) v acc) []
                     ((λ '(k, v), (k, to_case_folded_dict_item v)) <$> d))
  | JArr l => JArr (to_case_folded_dict_item <$> l)
  | _ => item
  end.

Definition from_dict (d : list (string * json)) : list (string * json) :=
  foldl (λ acc '(k, v), setitem k (to_case_folded_dict_item v) acc) [] d.
End CaseFolded.

(** ** The policy *)

(** A parsed entry of [extensions]: absent attributes are [None]. *)
Record ExtensionPolicy := mkExtensionPolicy {
  ep_signatureRequired : option bool;
  ep_runtimePolicy : option json
}.

Record Policy := mkPolicy {
  policyVersion : string;
  allowListedExtensionsOnly : bool;
  signatureRequired : bool;
  extensions : list (string * ExtensionPolicy)
}.

Definition DEFAULT_ALLOW_LISTED_EXTENSIONS_ONLY : bool := false.
Definition DEFAULT_SIGNATURE_REQUIRED : bool := false.
Definition MAX_SUPPORTED_POLICY_VERSION : string := "0.1.0".

Definition default_policy : Policy :=
  mkPolicy MAX_SUPPORTED_POLICY_VERSION DEFAULT_ALLOW_LISTED_EXTENSIONS_ONLY
    DEFAULT_SIGNATURE_REQUIRED [].

(** What the engine reads of its environment. *)
Record policy_env := mkPolicyEnv {
  policy_file_path : string;
  extension_policy_enabled : bool;      (* conf.get_extension_policy_enabled() *)
  policy_file_exists : bool;            (* os.path.isfile(policy_file_path) *)
  read_policy_file : res exn string;    (* open(policy_file_path).read() *)
  json_loads : string → res exn json;   (* json.loads *)
  is_confidential_vm : bool;
  openssl_supported : bool
}.

Section parser.
Context (env : policy_env).

Definition InvalidPolicy (msg : string) (inner : option exn) : exn :=
  agent_error InvalidPolicyError
    ("Customer-provided policy file ('" +:+ policy_file_path env
     +:+ "') is invalid, please correct the following error: " +:+ msg) inner (-1).

Definition invalid {A} (msg : string) : res exn A := Err (InvalidPolicy msg None).

Fixpoint check_attributes (d : list (string * json)) (object_name : string) (valid : list string)
    : res exn unit :=
  match d with
  | [] => Ok tt
  | (k, _) :: d' =>
      if bool_decide (k ∈ valid) then check_attributes d' object_name valid
      else invalid ("unrecognized attribute '" +:+ k +:+ "' in " +:+ object_name)
  end.

Definition validate_signature_required (d : list (string * json)) : res exn unit :=
  match dict_get "signatureRequired" d with
  | Some (JBool true) =>
      if negb (is_confidential_vm env) then
        invalid "setting 'signatureRequired' to true is only supported on confidential virtual machines (CVMs)."
      else if negb (openssl_supported env) then
        invalid "setting 'signatureRequired' to true requires OpenSSL >= 1.1.0; the OpenSSL version on this system does not support signature validation."
      else Ok tt
  | _ => Ok tt
  end.

(** [_get_value] with [isinstance(value, type_)] as a projection to the type; [default]
    is [None] for a required attribute.  The guard against a default of a required
    attribute is a check on its callers, none of which passes one. *)
Definition get_value {T} (d : list (string * json)) (attribute name_prefix : string)
    (proj : json → option T) (tname : string) (optional : bool) (dflt : option T)
    : res exn (option T) :=
  match default JNull (dict_get attribute d) with
  | JNull =>
      if negb optional then
        invalid ("missing required attribute '" +:+ name_prefix +:+ attribute +:+ "'")
      else Ok dflt
  | value =>
      match proj value with
      | Some v => Ok (Some v)
      | None => invalid ("invalid type " +:+ type_name value +:+ " for attribute '" +:+ name_prefix
                         +:+ attribute +:+ "'; must be '" +:+ tname +:+ "'")
      end
  end.

Definition as_dict (j : json) : option (list (string * json)) := match j with JObj d => Some d | _ => None end.
Definition as_str (j : json) : option string := match j with JStr s => Some s | _ => None end.
Definition as_bool (j : json) : option bool := match j with JBool b => Some b | _ => None end.

Definition get_dictionary d attribute name_prefix optional dflt :=
  get_value d attribute name_prefix as_dict "object" optional dflt.
Definition get_string d attribute name_prefix optional dflt :=
  get_value d attribute name_prefix as_str "string" optional dflt.
Definition get_boolean d attribute name_prefix optional dflt :=
  get_value d attribute name_prefix as_bool "boolean" optional dflt.

(** [re.match(r"^\d+(\.\d+(\.\d+)?)?$", version)] *)
Definition policy_version_re (version : string) : bool :=
  let comp := Re.seq (Re.lit ".") Re.digits_plus in
  let opt (m : Re.matcher) : Re.matcher := λ s, m s ++ [("", s)] in
  existsb (λ '(_, r), Re.at_end r) (Re.seq Re.digits_plus (opt (Re.seq comp (opt comp))) version).

Definition parse_policy_version (policy : list (string * json)) : res exn string :=
  v ← get_string policy "policyVersion" "" false None;
  let version := default "" v in
  if negb (policy_version_re version) then
    invalid ("invalid value for attribute 'policyVersion': '" +:+ version
             +:+ "'; it should be in format 'major[.minor[.patch]]' (e.g., '1', '1.0', '1.0.0')")
  else
    max_v ← FV MAX_SUPPORTED_POLICY_VERSION;
    this ← FV version;
    too_new ← fv_lt max_v this;
    if (too_new : bool) then
      invalid ("policy version '" +:+ version
               +:+ "' is not supported. The agent supports policy versions up to '"
               +:+ MAX_SUPPORTED_POLICY_VERSION +:+ "'.")
    else Ok version.

(** [_parse_extension]; the name used in its messages is the text of the policy itself. *)
Definition parse_extension (extension : list (string * json)) : res exn ExtensionPolicy :=
  let name := "extensionPolicies.extensions." +:+ py_repr (JObj extension) in
  _ ← check_attributes extension name ["signatureRequired"; "runtimePolicy"];
  _ ← validate_signature_required extension;
  signature_required ← get_boolean extension "signatureRequired" name true None;
  Ok (mkExtensionPolicy signature_required
        (match dict_get "runtimePolicy" extension with
         | Some JNull | None => None
         | Some r => Some r
         end)).

(** [_parse_extensions]; [parsed] is the case-folded dictionary built so far. *)
Fixpoint parse_extensions_from (parsed : list (string * ExtensionPolicy))
    (exts : list (string * json)) : res exn (list (string * ExtensionPolicy)) :=
  match exts with
  | [] => Ok parsed
  | (extension, extension_policy) :: exts' =>
      match extension_policy with
      | JObj d =>
          p ← parse_extension d;
          parse_extensions_from (CaseFolded.setitem extension p parsed) exts'
      | _ => invalid ("invalid type " +:+ type_name extension_policy
                      +:+ " for attribute 'extensionPolicies.extensions." +:+ extension
                      +:+ "'; must be 'object'")
      end
  end.

Definition parse_extensions (exts : list (string * json)) : res exn (list (string * ExtensionPolicy)) :=
  parse_extensions_from [] exts.

(** [_parse_extension_policies] *)
Definition parse_extension_policies (policy : list (string * json))
    : res exn (bool * bool * list (string * ExtensionPolicy)) :=
  ep ← get_dictionary policy "extensionPolicies" "" true (Some []);
  let extension_policies := default [] ep in
  _ ← check_attributes extension_policies "extensionPolicies"
        ["allowListedExtensionsOnly"; "signatureRequired"; "extensions"];
  _ ← validate_signature_required extension_policies;
  allow ← get_boolean extension_policies "allowListedExtensionsOnly" "extensionPolicies." true
            (Some DEFAULT_ALLOW_LISTED_EXTENSIONS_ONLY);
  signature ← get_boolean extension_policies "signatureRequired" "extensionPolicies." true
            (Some DEFAULT_SIGNATURE_REQUIRED);
  ed ← get_dictionary extension_policies "extensions" "extensionPolicies." true (Some []);
  exts ← parse_extensions (default [] ed);
  Ok (default false allow, default false signature, exts).

(** [_parse_policy] *)
Definition parse_policy (policy : json) : res exn Policy :=
  match policy with
  | JObj d =>
      _ ← check_attributes d "policy" ["policyVersion"; "extensionPolicies"];
      version ← parse_policy_version d;
      '(allow, signature, exts) ← parse_extension_policies d;
      Ok (mkPolicy version allow signature exts)
  | _ => invalid ("expected an object describing a Policy; got " +:+ type_name policy +:+ ".")
  end.

(** [__get_policy_enforcement_enabled] *)
Definition get_policy_enforcement_enabled : bool :=
  extension_policy_enabled env && policy_file_exists env.

(** [__read_policy]: a [ValueError] of [json.loads] and any other exception both become
    [InvalidPolicyError]. *)
Definition read_policy : res exn json :=
  match read_policy_file env with
  | Err ex =>
      if isinstance ex Exception_ then
        Err (InvalidPolicy (if isinstance ex ValueError
                            then "policy file does not conform to valid json syntax."
                            else "unable to read or load policy file.") (Some ex))
      else Err ex
  | Ok contents =>
      match json_loads env contents with
      | Ok j => Ok j
      | Err ex =>
          if isinstance ex Exception_ then
            Err (InvalidPolicy ((if isinstance ex ValueError
                                 then "policy file does not conform to valid json syntax."
                                 else "unable to read or load policy file.")
                                +:+ " File contents: " +:+ contents) (Some ex))
          else Err ex
      end
  end.
End parser.

(** ** The engine *)

Record PolicyEngine := mkEngine {
  policy_enforcement_enabled : bool;
  policy : Policy
}.

Definition init_engine (env : policy_env) : PolicyEngine :=
  mkEngine (get_policy_enforcement_enabled env) default_policy.

(** [update_policy]: the flag is refreshed first, and kept when parsing raises. *)
Definition update_policy (env : policy_env) : M PolicyEngine exn unit :=
  modify (λ e, mkEngine (get_policy_enforcement_enabled env) (policy e)) ;;
  if negb (get_policy_enforcement_enabled env) then mret tt
  else
    document ← lift (read_policy env);
    p ← lift (parse_policy env document);
    modify (λ e, mkEngine (policy_enforcement_enabled e) p).

Section engine.
Context (self : PolicyEngine).

Definition should_allow_extension (extension_name : string) : bool :=
  if negb (policy_enforcement_enabled self) then true
  else negb (allowListedExtensionsOnly (policy self)) ||
       bool_decide (is_Some (CaseFolded.get extension_name (extensions (policy self)))).

Definition should_enforce_signature_validation (extension_name : string) : bool :=
  if negb (policy_enforcement_enabled self) then false
  else
    match CaseFolded.get extension_name (extensions (policy self)) with
    | Some individual_policy =>
        default (signatureRequired (policy self)) (ep_signatureRequired individual_policy)
    | None => signatureRequired (policy self)
    end.

Definition check_extension_policy (extension_name : string) (extension_is_signed : bool) : res exn unit :=
  if negb (policy_enforcement_enabled self) then Ok tt
  else if negb (should_allow_extension extension_name) then
    Err (agent_error ExtensionDisallowedError "None" None (-1))
  else if should_enforce_signature_validation extension_name && negb extension_is_signed then
    Err (agent_error ExtensionSignaturePolicyError "None" None (-1))
  else Ok tt.

(** The contents of the runtime policy file: [None] when none should be written. *)
Definition get_extension_runtime_policy (policy_path extension_name : string) (supports_policy : bool)
    : res exn (option json) :=
  if negb (policy_enforcement_enabled self) then Ok None
  else
    let runtime_policy := CaseFolded.get extension_name (extensions (policy self)) ≫= ep_runtimePolicy in
    if supports_policy then
      Ok (Some (default (JObj []) runtime_policy))
    else
      match runtime_policy with
      | Some _ =>
          Err (agent_error ExtensionRuntimePolicyError
                 ("Runtime policy is specified for extension '" +:+ extension_name +:+
                  "', but this extension does not support runtime policy enforcement. To continue enabling the extension without runtime policy, remove the 'runtimePolicy' property for extension '"
                  +:+ extension_name +:+ "' from the policy file (" +:+ policy_path +:+ ").")
                 None (-1))
      | None => Ok None
      end.
End engine.

(** ** The version attribute *)

Lemma digits_star_in (s a r : string) :
  (a, r) ∈ Re.digits_star s → str_forallb is_digit a = true ∧ s = a +:+ r.
Proof.
  revert a r. induction s as [|c s IH]; intros a r; cbn [Re.digits_star].
  { rewrite list_elem_of_singleton. by intros [= -> ->]. }
  destruct (is_digit c) eqn:Hc.
  - rewrite elem_of_app. intros [H|H]; [|by apply list_elem_of_singleton in H as [= -> ->]].
    apply list_elem_of_fmap in H as ([a' r'] & Heq & Hin). simpl in Heq. simplify_eq.
    apply IH in Hin as [H1 ->]. cbn [str_forallb]. by rewrite Hc, H1.
  - rewrite list_elem_of_singleton. by intros [= -> ->].
Qed.

Lemma digits_plus_in (s a r : string) :
  (a, r) ∈ Re.digits_plus s → is_digits a = true ∧ s = a +:+ r.
Proof.
  destruct s as [|c s]; cbn [Re.digits_plus]; [set_solver|].
  destruct (is_digit c) eqn:Hc; [|set_solver].
  intros ([a' r'] & Heq & Hin)%list_elem_of_fmap. simpl in Heq. simplify_eq.
  apply digits_star_in in Hin as [H1 ->]. unfold is_digits. cbn [str_forallb]. by rewrite Hc, H1.
Qed.

Lemma seq_in (m1 m2 : Re.matcher) (s a r : string) :
  (a, r) ∈ Re.seq m1 m2 s →
  ∃ a1 r1 a2, (a1, r1) ∈ m1 s ∧ (a2, r) ∈ m2 r1 ∧ a = a1 +:+ a2.
Proof.
  unfold Re.seq. intros ([a1 r1] & H & H1)%list_in_bind.
  apply list_in_bind in H as ([a2 r2] & H & H2). apply list_elem_of_singleton in H. simplify_eq.
  eauto 10.
Qed.

Lemma in_seq (m1 m2 : Re.matcher) (s a1 r1 a2 r : string) :
  (a1, r1) ∈ m1 s → (a2, r) ∈ m2 r1 → (a1 +:+ a2, r) ∈ Re.seq m1 m2 s.
Proof.
  intros H1 H2. unfold Re.seq. apply list_in_bind. exists (a1, r1). split; [|done].
  apply list_in_bind. exists (a2, r). split; [by apply list_elem_of_singleton|done].
Qed.

Lemma in_digits_plus (d r : string) : is_digits d = true → (d, r) ∈ Re.digits_plus (d +:+ r).
Proof.
  assert (∀ d, str_forallb is_digit d = true → (d, r) ∈ Re.digits_star (d +:+ r)) as Hstar.
  { clear d. induction d as [|c d IH]; intros Hd.
    - change ("" +:+ r) with r. destruct r as [|c r]; cbn [Re.digits_star]; [by left|].
      destruct (is_digit c); set_solver.
    - cbn [str_forallb] in Hd. apply andb_true_iff in Hd as [Hc Hd].
      rewrite string_app_cons. cbn [Re.digits_star]. rewrite Hc. apply elem_of_app. left.
      apply list_elem_of_fmap. exists (d, r). auto. }
  unfold is_digits. intros [Hne Hd]%andb_true_iff. destruct d as [|c d]; [done|].
  cbn [str_forallb] in Hd. apply andb_true_iff in Hd as [Hc Hd].
  rewrite string_app_cons. cbn [Re.digits_plus]. rewrite Hc.
  apply list_elem_of_fmap. exists (d, r). auto.
Qed.

Lemma component_in (s a r : string) :
  (a, r) ∈ Re.seq (Re.lit ".") Re.digits_plus s ↔
  ∃ d, a = "." +:+ d ∧ is_digits d = true ∧ s = a +:+ r.
Proof.
  split.
  - intros (a1 & r1 & a2 & H1 & H2 & ->)%seq_in. unfold Re.lit in H1.
    destruct (strip_prefix "." s) as [r0|] eqn:E; [|set_solver].
    apply list_elem_of_singleton in H1. simplify_eq. apply strip_prefix_Some in E as ->.
    pose proof (digits_plus_in _ _ _ H2) as [Hd ->]. exists a2. by rewrite string_app_assoc.
  - intros (d & -> & Hd & ->). rewrite string_app_assoc.
    apply in_seq with (d +:+ r); [|by apply in_digits_plus]. rewrite lit_app. by left.
Qed.

(** One to three runs of digits separated by dots, and nothing but a newline after. *)
Definition version_text (version : string) (ds : list string) : Prop :=
  (1 ≤ length ds ≤ 3)%nat ∧ Forall (λ d, is_digits d = true) ds ∧
  ∃ r, Re.at_end r = true ∧ version = str_join "." ds +:+ r.

Lemma policy_version_re_spec (version : string) :
  policy_version_re version = true ↔ ∃ ds, version_text version ds.
Proof.
  unfold policy_version_re. rewrite existsb_exists. split.
  - intros ([a r] & Hin & Hr). apply list_elem_of_In in Hin.
    apply seq_in in Hin as (d1 & r1 & a2 & H1 & H2 & ->). apply digits_plus_in in H1 as [Hd1 ->].
    apply elem_of_app in H2 as [H2|H2].
    + apply seq_in in H2 as (a3 & r3 & a4 & H3 & H4 & ->).
      apply component_in in H3 as (d2 & -> & Hd2 & ->). apply elem_of_app in H4 as [H4|H4].
      * apply component_in in H4 as (d3 & -> & Hd3 & ->). exists [d1; d2; d3].
        split_and!; [simpl; lia..|by repeat constructor|]. exists r. split; [done|].
        cbn [str_join]. by rewrite !string_app_assoc.
      * apply list_elem_of_singleton in H4. simplify_eq. exists [d1; d2].
        split_and!; [simpl; lia..|by repeat constructor|]. exists r3. split; [done|].
        cbn [str_join]. by rewrite !string_app_assoc.
    + apply list_elem_of_singleton in H2. simplify_eq. exists [d1].
      split_and!; [simpl; lia..|by repeat constructor|]. by exists r1.
  - intros (ds & Hlen & Hds & r & Hr & ->).
    destruct ds as [|d1 [|d2 [|d3 [|]]]]; simpl in Hlen; try lia; rewrite ?Forall_cons in Hds;
      destruct_and!.
    + exists (d1 +:+ "", r). split; [|done]. apply list_elem_of_In.
      eapply in_seq; [by apply in_digits_plus|]. apply elem_of_app. right. by left.
    + exists (d1 +:+ ("." +:+ d2) +:+ "", r). split; [|done]. apply list_elem_of_In.
      cbn [str_join]. rewrite !string_app_assoc.
      eapply in_seq; [by apply in_digits_plus|]. apply elem_of_app. left.
      apply (in_seq _ _ _ ("." +:+ d2) r "" r).
      * apply component_in. exists d2. by rewrite string_app_assoc.
      * apply elem_of_app. right. by left.
    + exists (d1 +:+ ("." +:+ d2) +:+ "." +:+ d3, r). split; [|done]. apply list_elem_of_In.
      cbn [str_join]. rewrite !string_app_assoc.
      eapply in_seq; [by apply in_digits_plus|]. apply elem_of_app. left.
      apply (in_seq _ _ _ ("." +:+ d2) ("." +:+ d3 +:+ r) ("." +:+ d3) r).
      * apply component_in. exists d2. by rewrite string_app_assoc.
      * apply elem_of_app. left. apply component_in. exists d3. by rewrite string_app_assoc.
Qed.

(** Comparing with the supported version cannot raise once the pattern matched. *)
Lemma policy_version_compare (version : string) (ds : list string) :
  version_text version ds →
  ∃ b, (max_v ← FV MAX_SUPPORTED_POLICY_VERSION; this ← FV version; fv_lt max_v this) = Ok b ∧
       (b = true ↔ lex_lt [0; 1; 0] (int_of_digits <$> ds)).
Proof.
  intros (Hlen & Hds & r & Hr & ->).
  assert (FV MAX_SUPPORTED_POLICY_VERSION = Ok (mkFV "." None default_tags None [0; 1; 0])) as -> by done.
  rewrite FV_components by (done || by destruct ds; simpl in *; [lia|]).
  cbn [mbind res_bind]. set (v := mkFV _ _ _ _ [0; 1; 0]). set (w := mkFV _ _ _ _ _).
  destruct (fv_lt_spec v w) as (b & Hb & Hspec); [done..|]. exists b. split; [done|].
  rewrite Hspec. unfold version_lt, pre_lt. simpl. naive_solver.
Qed.

(** ** The schema of the document and its meaning

    The declarative reading of the schema in the comment of [_parse_policy]: an
    attribute is absent when it is missing or [null]. *)
Section schema.
Context (env : policy_env).

Definition doc_attr (d : list (string * json)) (k : string) : option json :=
  match dict_get k d with Some JNull | None => None | Some v => Some v end.

Definition only_attributes (d : list (string * json)) (valid : list string) : Prop :=
  ∀ k, k ∈ dict_keys d → k ∈ valid.

Definition attr_ok {T} (proj : json → option T) (d : list (string * json)) (k : string) : Prop :=
  ∀ v, doc_attr d k = Some v → is_Some (proj v).

Definition signature_supported (d : list (string * json)) : Prop :=
  doc_attr d "signatureRequired" = Some (JBool true) →
  is_confidential_vm env = true ∧ openssl_supported env = true.

Definition entry_ok (kv : string * json) : Prop :=
  ∃ d, kv.2 = JObj d ∧ only_attributes d ["signatureRequired"; "runtimePolicy"] ∧
       signature_supported d ∧ attr_ok as_bool d "signatureRequired".

Definition doc_dict (d : list (string * json)) (k : string) : list (string * json) :=
  default [] (doc_attr d k ≫= as_dict).

Definition version_ok (d : list (string * json)) : Prop :=
  ∃ v ds, dict_get "policyVersion" d = Some (JStr v) ∧ version_text v ds ∧
          ¬ lex_lt [0; 1; 0] (int_of_digits <$> ds).

Definition extension_policies_ok (d : list (string * json)) : Prop :=
  let ep := doc_dict d "extensionPolicies" in
  attr_ok as_dict d "extensionPolicies" ∧
  only_attributes ep ["allowListedExtensionsOnly"; "signatureRequired"; "extensions"] ∧
  signature_supported ep ∧
  attr_ok as_bool ep "allowListedExtensionsOnly" ∧
  attr_ok as_bool ep "signatureRequired" ∧
  attr_ok as_dict ep "extensions" ∧
  Forall entry_ok (doc_dict ep "extensions").

Definition valid_policy (j : json) : Prop :=
  ∃ d, j = JObj d ∧ only_attributes d ["policyVersion"; "extensionPolicies"] ∧
       version_ok d ∧ extension_policies_ok d.

(** What the document says of one extension: the last entry whose name is equal up to
    case. *)
Definition entry_policy (j : json) : ExtensionPolicy :=
  let d := default [] (as_dict j) in
  mkExtensionPolicy (doc_attr d "signatureRequired" ≫= as_bool) (doc_attr d "runtimePolicy").

Definition doc_flag (d : list (string * json)) (k : string) : bool :=
  default false (doc_attr (doc_dict d "extensionPolicies") k ≫= as_bool).

Definition doc_entry (d : list (string * json)) (name : string) : option ExtensionPolicy :=
  (λ kv, entry_policy kv.2) <$>
    last (filter (λ kv, CaseFolded.casefold kv.1 = CaseFolded.casefold name)
            (doc_dict (doc_dict d "extensionPolicies") "extensions")).

(** [sound r P v]: [r] is [v] when [P] holds and raises [InvalidPolicyError] otherwise. *)
Definition sound {A} (r : res exn A) (P : Prop) (v : A) : Prop :=
  (P ∧ r = Ok v) ∨ (¬ P ∧ ∃ msg, r = invalid env msg).

Lemma sound_bind {A B} (r : res exn A) (k : A → res exn B) P Q v w :
  sound r P v → (P → sound (k v) Q w) → sound (r ≫= k) (P ∧ Q) w.
Proof.
  intros [[HP ->]|[HP [msg ->]]] Hk; [|right; split; [tauto|by exists msg]].
  destruct (Hk HP) as [[HQ H]|[HQ [msg H]]]; [left|right; split; [tauto|exists msg]];
    by cbn [mbind res_bind].
Qed.

Lemma sound_ret {A} (v : A) : sound (Ok v) True v.
Proof. by left. Qed.

Lemma sound_iff {A} (r : res exn A) P Q v : sound r P v → (P ↔ Q) → sound r Q v.
Proof. unfold sound. tauto. Qed.

Lemma check_attributes_sound d name valid :
  sound (check_attributes env d name valid) (only_attributes d valid) tt.
Proof.
  unfold only_attributes. induction d as [|[k v] d IH]; simpl; [left; split; [set_solver|done]|].
  case_bool_decide as Hk; [|right; split; [set_solver|by eexists]].
  eapply sound_iff; [exact IH|]. set_solver.
Qed.

Lemma validate_signature_sound d :
  sound (validate_signature_required env d) (signature_supported d) tt.
Proof.
  unfold validate_signature_required, signature_supported, doc_attr, sound.
  destruct (dict_get "signatureRequired" d) as [[|[]| | | | |]|];
    try (left; split; [intros ?; congruence|done]).
  destruct (is_confidential_vm env), (openssl_supported env); simpl;
    first [left; split; [auto|done]|right; split; [naive_solver|by eexists]].
Qed.

Lemma get_optional_sound {T} (d : list (string * json)) k pre (proj : json → option T) tn (dflt : option T) :
  sound (get_value env d k pre proj tn true dflt) (attr_ok proj d k)
    (match doc_attr d k with None => dflt | Some v => proj v end).
Proof.
  unfold get_value, attr_ok, doc_attr, sound.
  destruct (dict_get k d) as [v|]; simpl; [|by left].
  destruct v; simpl; try (by left; split; [intros ? ?; congruence|done]);
    (match goal with |- context [proj ?x] => destruct (proj x) eqn:E end;
     [left; split; [intros ? [= <-]; by rewrite E|done]
     |right; split; [intros H; destruct (H _ eq_refl); congruence|by eexists]]).
Qed.

Lemma res_bind_compare {A B C D} (a : res exn A) (b : res exn B) (f : A → B → res exn C)
    (k : C → res exn D) :
  (x ← a; y ← b; t ← f x y; k t) = (x ← a; y ← b; f x y) ≫= k.
Proof. by destruct a, b. Qed.

Lemma parse_policy_version_sound d :
  sound (parse_policy_version env d) (version_ok d)
    (match dict_get "policyVersion" d with Some (JStr v) => v | _ => "" end).
Proof.
  unfold parse_policy_version, get_string, get_value, version_ok, sound.
  destruct (dict_get "policyVersion" d) as [[| | | |s| |]|];
    cbn [from_option id as_str mbind res_bind negb];
    try (by right; split; [intros (? & ? & ? & _); congruence|eexists]).
  rewrite res_bind_compare.
  destruct (policy_version_re s) eqn:Hre; cbn [negb].
  - apply policy_version_re_spec in Hre as [ds Hds].
    destruct (policy_version_compare s ds Hds) as (b & Hb & Hspec). rewrite Hb. cbn [mbind res_bind].
    destruct b; [right|left].
    + split; [|by eexists]. intros (v & ds' & [= <-] & Hds' & Hn). apply Hn.
      destruct (policy_version_compare s ds' Hds') as (b' & Hb' & Hspec').
      rewrite Hb in Hb'. simplify_eq. tauto.
    + split; [|done]. exists s, ds. split_and!; [done..|]. intros Hlt%Hspec. done.
  - right. split; [|by eexists]. intros (v & ds & [= <-] & Hds & _).
    rewrite (proj2 (policy_version_re_spec s)) in Hre by eauto. done.
Qed.

Lemma parse_extension_sound d :
  sound (parse_extension env d) (entry_ok ("", JObj d)) (entry_policy (JObj d)).
Proof.
  unfold parse_extension. eapply sound_iff.
  - eapply sound_bind; [apply check_attributes_sound|intros _].
    eapply sound_bind; [apply validate_signature_sound|intros _].
    eapply sound_bind; [apply get_optional_sound|intros H].
    unfold entry_policy, doc_attr at 1 3. simpl.
    replace (match doc_attr d "signatureRequired" with Some v => as_bool v | None => None end)
      with (doc_attr d "signatureRequired" ≫= as_bool) by (by destruct (doc_attr d "signatureRequired")).
    apply sound_ret.
  - unfold entry_ok. simpl. naive_solver.
Qed.
Definition set_entry (acc : list (string * ExtensionPolicy)) (kv : string * json) :=
  CaseFolded.setitem kv.1 (entry_policy kv.2) acc.

Lemma parse_extensions_sound exts acc :
  sound (parse_extensions_from env acc exts) (Forall entry_ok exts) (foldl set_entry acc exts).
Proof.
  revert acc. induction exts as [|[k j] exts IH]; intros acc; [by left|].
  cbn [parse_extensions_from]. destruct j as [| | | | | |d];
    try (right; split; [intros [(? & ? & _) _]%Forall_cons; done|by eexists]).
  eapply sound_iff; [eapply sound_bind; [apply parse_extension_sound|intros _; apply IH]|].
  rewrite Forall_cons. done.
Qed.

Definition doc_extensions (d : list (string * json)) : list (string * ExtensionPolicy) :=
  foldl set_entry [] (doc_dict (doc_dict d "extensionPolicies") "extensions").

Lemma doc_dict_default d k :
  default [] (match doc_attr d k with None => Some [] | Some v => as_dict v end) = doc_dict d k.
Proof. unfold doc_dict. by destruct (doc_attr d k). Qed.

Lemma doc_flag_default ep k :
  default false (match doc_attr ep k with None => Some false | Some v => as_bool v end)
  = default false (doc_attr ep k ≫= as_bool).
Proof. by destruct (doc_attr ep k). Qed.

Lemma parse_extension_policies_sound d :
  sound (parse_extension_policies env d) (extension_policies_ok d)
    (doc_flag d "allowListedExtensionsOnly", doc_flag d "signatureRequired", doc_extensions d).
Proof.
  unfold parse_extension_policies, extension_policies_ok, doc_flag, doc_extensions.
  eapply sound_iff.
  - eapply sound_bind; [apply get_optional_sound|intros _]. rewrite doc_dict_default.
    eapply sound_bind; [apply check_attributes_sound|intros _].
    eapply sound_bind; [apply validate_signature_sound|intros _].
    eapply sound_bind; [apply get_optional_sound|intros _].
    eapply sound_bind; [apply get_optional_sound|intros _].
    eapply sound_bind; [apply get_optional_sound|intros _]. rewrite doc_dict_default.
    eapply sound_bind; [apply parse_extensions_sound|intros _].
    rewrite !doc_flag_default. apply sound_ret.
  - simpl. tauto.
Qed.

Definition doc_policy (d : list (string * json)) : Policy :=
  mkPolicy (match dict_get "policyVersion" d with Some (JStr v) => v | _ => "" end)
    (doc_flag d "allowListedExtensionsOnly") (doc_flag d "signatureRequired") (doc_extensions d).

Lemma parse_policy_sound j :
  sound (parse_policy env j) (valid_policy j) (doc_policy (default [] (as_dict j))).
Proof.
  destruct j as [| | | | | |d]; try (right; split; [intros (? & ? & _); done|by eexists]).
  unfold parse_policy, doc_policy. eapply sound_iff.
  - eapply sound_bind; [apply check_attributes_sound|intros _].
    eapply sound_bind; [apply parse_policy_version_sound|intros _].
    eapply sound_bind; [apply parse_extension_policies_sound|intros _]. apply sound_ret.
  - unfold valid_policy. naive_solver.
Qed.

Lemma lookup_set_entries name exts acc :
  CaseFolded.get name (foldl set_entry acc exts) =
  match last (filter (λ kv, CaseFolded.casefold kv.1 = CaseFolded.casefold name) exts) with
  | Some kv => Some (entry_policy kv.2)
  | None => CaseFolded.get name acc
  end.
Proof.
  induction exts as [|[k j] exts IH] using rev_ind; [done|].
  rewrite foldl_snoc, filter_app, filter_cons, filter_nil. simpl.
  unfold set_entry at 1, CaseFolded.setitem, CaseFolded.get. simpl. case_decide as Hk.
  - rewrite last_snoc, Hk. apply dict_get_set_eq.
  - rewrite app_nil_r, dict_get_set_ne by done. apply IH.
Qed.

Lemma doc_policy_entry d name :
  CaseFolded.get name (extensions (doc_policy d)) = doc_entry d name.
Proof.
  simpl. unfold doc_extensions. rewrite lookup_set_entries. unfold doc_entry.
  by destruct (last _).
Qed.
End schema.

Lemma update_policy_unfold (env : policy_env) (e0 : PolicyEngine) :
  update_policy env e0 =
  if get_policy_enforcement_enabled env then
    match j ← read_policy env; parse_policy env j with
    | Ok p => (Ok tt, mkEngine true p)
    | Err x => (Err x, mkEngine true (policy e0))
    end
  else (Ok tt, mkEngine false (policy e0)).
Proof.
  unfold update_policy. cbv [mbind M_bind modify lift res_bind].
  destruct (get_policy_enforcement_enabled env); [|done]. cbn [negb].
  destruct (read_policy env) as [j|]; [|done]. by destruct (parse_policy env j).
Qed.

(** C40: the policy document is accepted exactly when it conforms to the documented
    schema (known attributes of the right types, a supported version, signatures required
    only where they can be validated); every other document raises
    [InvalidPolicyError], and no other exception escapes the parser. *)
Theorem parse_policy_accepts_schema (env : policy_env) (j : json) :
  (is_ok (parse_policy env j) = true ↔ valid_policy env j) ∧
  (∀ e, parse_policy env j = Err e → e_class e = InvalidPolicyError).
Proof.
  destruct (parse_policy_sound env j) as [[HP ->]|[HP [msg ->]]].
  - split; [done|]. by intros e.
  - split; [done|]. by intros e [= <-].
Qed.

(** What the engine enforces after [update_policy] accepted a document is what the
    document says, names compared without regard to case and the last of two entries that
    differ only in case winning.  An extension passes the check exactly when it is on the
    list (or the list is not exclusive) and it is signed or need not be; an individual
    [signatureRequired] takes precedence over the global one. *)
Theorem enforced_policy_is_document (env : policy_env) (e0 : PolicyEngine) d e name signed :
  get_policy_enforcement_enabled env = true →
  read_policy env = Ok (JObj d) →
  update_policy env e0 = (Ok tt, e) →
  let entry := doc_entry d name in
  let need_signature := default (doc_flag d "signatureRequired") (entry ≫= ep_signatureRequired) in
  should_enforce_signature_validation e name = need_signature ∧
  match check_extension_policy e name signed with
  | Ok _ => (doc_flag d "allowListedExtensionsOnly" = true → is_Some entry) ∧
            (need_signature = true → signed = true)
  | Err x =>
      (e_class x = ExtensionDisallowedError ∧
       doc_flag d "allowListedExtensionsOnly" = true ∧ entry = None) ∨
      (e_class x = ExtensionSignaturePolicyError ∧
       (doc_flag d "allowListedExtensionsOnly" = true → is_Some entry) ∧
       need_signature = true ∧ signed = false)
  end.
Proof.
  intros Hen Hrd Hup. rewrite update_policy_unfold, Hen, Hrd in Hup. cbn [mbind res_bind] in Hup.
  destruct (parse_policy_sound env (JObj d)) as [[HP Hp]|[HP [msg Hp]]];
    rewrite Hp in Hup; [|done]. injection Hup as <-.
  unfold check_extension_policy, should_enforce_signature_validation, should_allow_extension.
  cbn [policy_enforcement_enabled policy negb]. rewrite doc_policy_entry.
  cbn [allowListedExtensionsOnly signatureRequired doc_policy].
  destruct (doc_entry d name) as [[sr rp]|]; simpl.
  - split; [done|]. rewrite orb_true_r. simpl.
    destruct (default (doc_flag d "signatureRequired") sr) eqn:E, signed; simpl; naive_solver.
  - split; [done|].
    destruct (doc_flag d "allowListedExtensionsOnly"); simpl; [left; naive_solver|].
    destruct (doc_flag d "signatureRequired"), signed; simpl; naive_solver.
Qed.

(** A policy file that cannot be read or parsed never leaves the agent without
    enforcement: [update_policy] raises [InvalidPolicyError], enforcement is on and the
    last good policy stays in force.  With the feature off or no file, nothing is
    enforced. *)
Theorem update_policy_failure_keeps_policy (env : policy_env) (e0 : PolicyEngine) x e :
  (∀ y, read_policy_file env = Err y → isinstance y Exception_ = true) →
  (∀ s y, json_loads env s = Err y → isinstance y Exception_ = true) →
  update_policy env e0 = (Err x, e) →
  e_class x = InvalidPolicyError ∧ policy e = policy e0 ∧ policy_enforcement_enabled e = true.
Proof.
  intros Hrd Hjs Hup. rewrite update_policy_unfold in Hup.
  destruct (get_policy_enforcement_enabled env) eqn:Hen; [|done].
  assert (∀ y, read_policy env = Err y → e_class y = InvalidPolicyError) as Hread.
  { unfold read_policy. intros y. destruct (read_policy_file env) as [s|z] eqn:Hs.
    - destruct (json_loads env s) as [j|z] eqn:Hj; [done|]. rewrite (Hjs _ _ Hj). by intros [= <-].
    - rewrite (Hrd _ eq_refl). by intros [= <-]. }
  destruct (read_policy env) as [j|y]; cbn [mbind res_bind] in Hup; [|injection Hup as <- <-; auto].
  destruct (parse_policy_sound env j) as [[_ Hp]|[_ [msg Hp]]]; rewrite Hp in Hup; [done|].
  injection Hup as <- <-. auto.
Qed.

(** The table in the comment of [get_extension_runtime_policy], for every engine
    state: a configured runtime policy is never silently ignored. *)
Theorem runtime_policy_table (e : PolicyEngine) path name (supports : bool) :
  let configured := CaseFolded.get name (extensions (policy e)) ≫= ep_runtimePolicy in
  match policy_enforcement_enabled e, supports, configured with
  | false, _, _ => get_extension_runtime_policy e path name supports = Ok None
  | true, true, Some r => get_extension_runtime_policy e path name supports = Ok (Some r)
  | true, true, None => get_extension_runtime_policy e path name supports = Ok (Some (JObj []))
  | true, false, Some _ => ∃ x, get_extension_runtime_policy e path name supports = Err x ∧
                                e_class x = ExtensionRuntimePolicyError
  | true, false, None => get_extension_runtime_policy e path name supports = Ok None
  end.
Proof.
  unfold get_extension_runtime_policy.
  destruct (policy_enforcement_enabled e), supports, (_ ≫= _); simpl; eauto.
Qed.

(** A policy file of a confidential VM: two entries differ only in case. *)
Definition sample_policy : list (string * json) :=
  [("policyVersion", JStr "0.1.0");
   ("extensionPolicies",
     JObj [("allowListedExtensionsOnly", JBool true); ("signatureRequired", JBool true);
           ("extensions", JObj [("Contoso.Backup", JObj []);
                                ("contoso.BACKUP", JObj [("signatureRequired", JBool false)])])])].

Definition sample_env : policy_env :=
  mkPolicyEnv "/etc/waagent_policy.json" true true (Ok "{...}") (λ _, Ok (JObj sample_policy)) true true.

Definition broken_env : policy_env :=
  mkPolicyEnv "/etc/waagent_policy.json" true true (Ok "{")
    (λ _, Err (py_error ValueError "Expecting property name")) true true.

Definition sample_engine : PolicyEngine := mkEngine true (doc_policy sample_policy).

Lemma enforced_policy_is_document_witness :
  update_policy sample_env (init_engine sample_env) = (Ok tt, sample_engine) ∧
  (match check_extension_policy sample_engine "CONTOSO.backup" false with
   | Ok _ => (doc_flag sample_policy "allowListedExtensionsOnly" = true →
                is_Some (doc_entry sample_policy "CONTOSO.backup")) ∧
             (false = true → false = true)
   | Err _ => False end).
Proof.
  assert (update_policy sample_env (init_engine sample_env) = (Ok tt, sample_engine)) as H
    by (vm_compute; reflexivity).
  split; [exact H|].
  pose proof (enforced_policy_is_document sample_env (init_engine sample_env) sample_policy
                sample_engine "CONTOSO.backup" false eq_refl eq_refl H) as [_ H2].
  vm_compute. vm_compute in H2. exact H2.
Defined.

Lemma update_policy_failure_keeps_policy_witness :
  ∃ x e, update_policy broken_env sample_engine = (Err x, e) ∧
         e_class x = InvalidPolicyError ∧ policy e = policy sample_engine ∧
         policy_enforcement_enabled e = true.
Proof.
  eexists _, _. split; [vm_compute; reflexivity|].
  eapply (update_policy_failure_keeps_policy broken_env sample_engine).
  - intros y H. discriminate H.
  - intros s y H. injection H as <-. vm_compute. reflexivity.
  - vm_compute. reflexivity.
Defined.
