(* ===== verification/World.v ===== *)
(** * The machine the agent runs on

    The file system, the clock and the record of what the agent does to the machine
    outside its own files (commands of extensions, cgroup settings, sleeps).  The file
    operations are those of [os], [shutil], [glob] and [fileutil.py].

    A path is the list of its components.  A file holds a text and what [json.loads]
    makes of it; texts the agent writes come from [json.dumps] or are plain state names.
    Any write may fail as [write_fault] says, before or after truncating the file. *)
From S2P Require Import Prelude PyExn Json.
From Stdlib Require Import Ascii.

Notation path := (list string).

(** [os.path.join] with the separator, for messages and command lines *)
Definition path_str (p : path) : string := "/" +:+ str_join "/" p.

(** [c_json] is [None] when [json.loads(c_text)] raises. *)
Record content := mkContent { c_text : string; c_json : option json }.

(** A state name such as ["Enabled"], or the empty text; neither is JSON. *)
Definition plain (s : string) : content := mkContent s None.

Inductive node :=
| Dir
| File (c : content) (mtime : Z).

Notation fs := (gmap path node).

(** A command of an extension, as passed to [start_extension_command]. *)
Record command := mkCommand {
  cmd_handler : string;                  (* extension_name: name and version *)
  cmd_path : string;                     (* command *)
  cmd_name : string;
  cmd_timeout : Z;
  cmd_env : list (string * string);
  cmd_error_code : Z
}.

(** What the agent did, oldest first: ran a command, found the signature of a package
    valid, extracted a package, configured a cgroup, slept. *)
Inductive event :=
| ECommand (c : command)
| EVerified (package : path) (signature : string)
| EExtracted (package target : path)
| ECgroup (op : string) (target : string)
| ESleep (seconds : Z).

(** [w_ext_validation_disabled] is the process-wide flag of
    [SignatureValidationTimeout]. *)
Record world := mkWorld {
  w_fs : fs;
  w_now : Z;
  w_trace : list event;
  w_ext_validation_disabled : bool
}.

Definition with_fs (f : fs → fs) (w : world) : world :=
  mkWorld (f (w_fs w)) (w_now w) (w_trace w) (w_ext_validation_disabled w).
Definition log_event (e : event) (w : world) : world :=
  mkWorld (w_fs w) (w_now w) (w_trace w ++ [e]) (w_ext_validation_disabled w).
Definition disable_ext_validation (w : world) : world :=
  mkWorld (w_fs w) (w_now w) (w_trace w) true.

(** [OSError] with its [errno] *)
Definition os_error (errno : Z) (msg : string) : exn := mkExn OSError msg errno (-1) [].
Definition ENOENT : Z := 2.
Definition EIO : Z := 5.
Definition EEXIST : Z := 17.
Definition ENOTDIR : Z := 20.
Definition EISDIR : Z := 21.
Definition ENOSPC : Z := 28.

(** ** Queries *)

Definition isfile (p : path) (f : fs) : bool := match f !! p with Some (File _ _) => true | _ => false end.
Definition isdir (p : path) (f : fs) : bool := match f !! p with Some Dir => true | _ => false end.
Definition exists_path (p : path) (f : fs) : bool := match f !! p with Some _ => true | None => false end.

(** [fileutil.read_file] *)
Definition read_file (p : path) (f : fs) : res exn content :=
  match f !! p with
  | Some (File c _) => Ok c
  | Some Dir => Err (os_error EISDIR "Is a directory")
  | None => Err (os_error ENOENT "No such file or directory")
  end.

(** The name of [p] in directory [d], when it is directly in it *)
Definition child_of (d p : path) : option string :=
  match last p with
  | Some x => if decide (p = d ++ [x]) then Some x else None
  | None => None
  end.

(** [os.listdir] *)
Definition listdir (d : path) (f : fs) : list string :=
  omap (λ '(p, _), child_of d p) (map_to_list f).

(** [fileutil.get_all_files] *)
Definition get_all_files (d : path) (f : fs) : list path :=
  omap (λ '(p, n), match n with
                   | File _ _ => if decide (d `prefix_of` p) then Some p else None
                   | Dir => None
                   end) (map_to_list f).

(** [fileutil.search_file]: the walk is top-down and the order of the directories is
    that of the file system; the shallowest match is the first for one such order. *)
Definition search_file (d : path) (name : string) (f : fs) : option path :=
  foldr (λ p best, match best with
                   | Some q => if bool_decide (length p ≤ length q)%nat then Some p else best
                   | None => Some p
                   end) None
    (filter (λ p, last p = Some name) (get_all_files d f)).

(** ** Updates *)

Section updates.
(** [None]: the write succeeds; [Some (truncated, e)]: it raises [e], after truncating
    the file when [truncated]. *)
Variable write_fault : path → option (bool * exn).

Definition parent_dir (p : path) : path := take (length p - 1) p.

(** [fileutil.write_file] *)
Definition write_file (p : path) (c : content) : M world exn unit := λ w,
  if isdir p (w_fs w) then (Err (os_error EISDIR "Is a directory"), w)
  else if negb (isdir (parent_dir p) (w_fs w)) then (Err (os_error ENOENT "No such file or directory"), w)
  else
    match write_fault p with
    | Some (truncated, e) =>
        (Err e, if (truncated : bool) then with_fs <[p := File (plain "") (w_now w)]> w else w)
    | None => (Ok tt, with_fs <[p := File c (w_now w)]> w)
    end.

(** The ancestors of [p] below the root, and [p] itself *)
Definition dirs_upto (p : path) : list path := (λ n, take (S n) p) <$> seq 0 (length p).

(** [fileutil.mkdir] ([os.makedirs] when the directory does not exist) *)
Definition mkdir (p : path) : M world exn unit := λ w,
  if isdir p (w_fs w) then (Ok tt, w)
  else if existsb (λ d, isfile d (w_fs w)) (dirs_upto p) then
    (Err (os_error (if isfile p (w_fs w) then EEXIST else ENOTDIR) "cannot create directory"), w)
  else
    match write_fault p with
    | Some (_, e) => (Err e, w)
    | None => (Ok tt, with_fs (λ f, foldr (λ d f, <[d := Dir]> f) f (dirs_upto p)) w)
    end.

(** [os.remove] *)
Definition remove_file (p : path) : M world exn unit := λ w,
  if isfile p (w_fs w) then
    match write_fault p with
    | Some (_, e) => (Err e, w)
    | None => (Ok tt, with_fs (delete p) w)
    end
  else (Err (os_error (if isdir p (w_fs w) then EISDIR else ENOENT) "cannot remove"), w).

Definition remove_tree (p : path) (f : fs) : fs := filter (λ kv, ¬ p `prefix_of` kv.1) f.

(** [shutil.rmtree]; on an error the tree may be partly removed, here not at all. *)
Definition rmtree (p : path) : M world exn unit := λ w,
  if isdir p (w_fs w) then
    match write_fault p with
    | Some (_, e) => (Err e, w)
    | None => (Ok tt, with_fs (remove_tree p) w)
    end
  else (Err (os_error (if isfile p (w_fs w) then ENOTDIR else ENOENT) "cannot remove"), w).

(** [fileutil.rm_files] for patterns that stand for the files of [d] whose names satisfy
    [glob] *)
Definition rm_files (d : path) (glob : string → bool) : M world exn unit := λ w,
  for_each (filter (λ x, glob x = true) (listdir d (w_fs w)))
    (λ x w, if isfile (d ++ [x]) (w_fs w) then remove_file (d ++ [x]) w else (Ok tt, w)) w.

(** [shutil.copy2(src, dst)]: into [dst] when it is a directory, otherwise to a file of
    that name; the copy keeps the time of the original. *)
Definition copy2 (src dst : path) : M world exn unit := λ w,
  match w_fs w !! src, last src with
  | Some (File c t), Some name =>
      let target := if isdir dst (w_fs w) then dst ++ [name] else dst in
      if isdir target (w_fs w) then (Err (os_error EISDIR "Is a directory"), w)
      else if negb (isdir (parent_dir target) (w_fs w)) then
        (Err (os_error ENOENT "No such file or directory"), w)
      else
        match write_fault target with
        | Some (truncated, e) =>
            (Err e, if (truncated : bool) then with_fs <[target := File (plain "") (w_now w)]> w else w)
        | None => (Ok tt, with_fs <[target := File c t]> w)
        end
  | _, _ => (Err (os_error ENOENT "No such file or directory"), w)
  end.

Definition KNOWN_IOERRORS : list Z := [5; 12; 23; 24; 28; 36; 40; 121].

(** [fileutil.clean_ioerror]: errors while cleaning are swallowed. *)
Definition clean_ioerror (e : exn) (paths : list (option path)) : M world exn unit :=
  when (isinstance e OSError && bool_decide (e_code e ∈ KNOWN_IOERRORS))
    (for_each paths
       (λ po, match po with
              | None => mret tt
              | Some p =>
                  except Exception_
                    (λ w, if isdir p (w_fs w)
                          then match rmtree p w with (_, w') => (Ok tt, w') end
                          else remove_file p w)
                    (λ _, mret tt)
              end)).
End updates.

(** [time.sleep]: other processes, the extensions among them, change the file system
    meanwhile. *)
Definition sleep (background : list event → Z → fs → fs) (seconds : Z) : M world exn unit := λ w,
  (Ok tt, mkWorld (background (w_trace w) seconds (w_fs w)) (w_now w + seconds * 1000000)
            (w_trace w ++ [ESleep seconds]) (w_ext_validation_disabled w)).

(** ** What the trace may contain

    [P] holds of the events added by a piece of code.  Recording a cgroup call or a sleep
    is always allowed. *)
Class TraceProp (P : list event → Prop) : Prop := {
  tp_nil : P [];
  tp_app a b : P a → P b → P (a ++ b);
  tp_cgroup op t : P [ECgroup op t];
  tp_sleep d : P [ESleep d]
}.

Definition grows (P : list event → Prop) (w w' : world) : Prop :=
  ∃ evs, w_trace w' = w_trace w ++ evs ∧ P evs.

#[export] Instance grows_preorder P `{!TraceProp P} : PreOrder (grows P).
Proof.
  split.
  - intros w. exists []. rewrite app_nil_r. split; [done|apply tp_nil].
  - intros w1 w2 w3 (e1 & H1 & P1) (e2 & H2 & P2). exists (e1 ++ e2).
    rewrite H2, H1, app_assoc. split; [done|by apply tp_app].
Qed.

Lemma grows_same P `{!TraceProp P} w w' : w_trace w' = w_trace w → grows P w w'.
Proof. intros H. exists []. rewrite app_nil_r. split; [done|apply tp_nil]. Qed.

Section grows_world.
Context (P : list event → Prop) `{!TraceProp P} (fault : path → option (bool * exn)).

Lemma write_file_grows p c : pres (grows P) (write_file fault p c).
Proof. intros w. apply grows_same; [done|]. unfold write_file. by repeat case_match. Qed.

Lemma mkdir_grows p : pres (grows P) (mkdir fault p).
Proof. intros w. apply grows_same; [done|]. unfold mkdir. by repeat case_match. Qed.

Lemma remove_file_grows p : pres (grows P) (remove_file fault p).
Proof. intros w. apply grows_same; [done|]. unfold remove_file. by repeat case_match. Qed.

Lemma rmtree_grows p : pres (grows P) (rmtree fault p).
Proof. intros w. apply grows_same; [done|]. unfold rmtree. by repeat case_match. Qed.

Lemma copy2_grows p q : pres (grows P) (copy2 fault p q).
Proof. intros w. apply grows_same; [done|]. unfold copy2. by repeat case_match. Qed.

Lemma rm_files_grows d g : pres (grows P) (rm_files fault d g).
Proof.
  intros w. unfold rm_files. apply (pres_for_each (grows P)). intros x w'.
  destruct (isfile _ _); [apply remove_file_grows|by apply grows_same].
Qed.

Lemma clean_ioerror_grows e ps : pres (grows P) (clean_ioerror fault e ps).
Proof.
  unfold clean_ioerror. apply pres_when; [apply _|]. apply pres_for_each; [apply _|].
  intros [p|]; [|by apply pres_ret; apply _]. apply pres_except; [apply _| |by intros; apply pres_ret; apply _].
  intros w. destruct (isdir _ _); [|apply remove_file_grows].
  pose proof (rmtree_grows p w). by destruct (rmtree fault p w).
Qed.

Lemma sleep_grows background d : pres (grows P) (sleep background d).
Proof. intros w. exists [ESleep d]. split; [done|apply tp_sleep]. Qed.
End grows_world.

#[export] Hint Resolve write_file_grows mkdir_grows remove_file_grows rmtree_grows copy2_grows
  rm_files_grows clean_ioerror_grows sleep_grows : pres.

(** ** Writing a file in a directory that may have to be created *)

Lemma dirs_upto_last p : p ≠ [] → p ∈ dirs_upto p.
Proof.
  intros Hp. unfold dirs_upto. apply list_elem_of_fmap. exists (length p - 1)%nat. split.
  - rewrite take_ge; [done|]. destruct p; simpl; [done|lia].
  - apply elem_of_seq. destruct p; simpl; [done|lia].
Qed.

Lemma dirs_upto_length d p : d ∈ dirs_upto p → (length d ≤ length p)%nat.
Proof.
  intros (n & -> & Hn%elem_of_seq)%list_elem_of_fmap. rewrite length_take. lia.
Qed.

Lemma lookup_mkdirs (ds : list path) (f : fs) p :
  foldr (λ d f, <[d := Dir]> f) f ds !! p = if decide (p ∈ ds) then Some Dir else f !! p.
Proof.
  induction ds as [|d ds IH]; simpl; [done|].
  destruct (decide (p = d)) as [->|Hne].
  - rewrite lookup_insert_eq. rewrite decide_True; [done|by left].
  - rewrite lookup_insert_ne by done. rewrite IH. repeat case_decide; set_solver.
Qed.

Lemma parent_dir_snoc (d : path) x : parent_dir (d ++ [x]) = d.
Proof. unfold parent_dir. rewrite length_app. simpl. rewrite Nat.add_sub. by rewrite take_app_length. Qed.

(** No file is in the way of directory [d]. *)
Definition clear_dir (d : path) (f : fs) : Prop := d ≠ [] ∧ ∀ p, p ∈ dirs_upto d → isfile p f = false.

Section write_in_dir.
Context (fault : path → option (bool * exn)) (Hfault : ∀ p, fault p = None).

(** [if not exists(d): mkdir(d)] and [write_file(d/x)]: the file has the contents, and
    nothing else changed but directories on the way. *)
Definition write_in (d : path) (x : string) (c : content) : M world exn unit :=
  missing ← gets (λ w, negb (exists_path d (w_fs w)));
  when missing (mkdir fault d) ;; write_file fault (d ++ [x]) c.

Definition wrote (d : path) (x : string) (c : content) (w w' : world) : Prop :=
  (∃ t, w_fs w' !! (d ++ [x]) = Some (File c t)) ∧
  (∀ p, p ≠ d ++ [x] → p ∉ dirs_upto d → w_fs w' !! p = w_fs w !! p) ∧
  (∀ p, p ∈ dirs_upto d → isfile p (w_fs w') = false) ∧
  isdir d (w_fs w') = true ∧ w_trace w' = w_trace w.

Lemma not_dir_upto (d : path) x : d ++ [x] ∉ dirs_upto d.
Proof. intros H%dirs_upto_length. rewrite length_app in H. simpl in H. lia. Qed.

Lemma write_file_in_dir d x c w :
  clear_dir d (w_fs w) → isdir d (w_fs w) = true → isdir (d ++ [x]) (w_fs w) = false →
  wp (write_file fault (d ++ [x]) c) (λ _ w', wrote d x c w w') (λ _ _, False) w.
Proof.
  intros [Hne Hc] Hd Hx. unfold wp, write_file. rewrite Hx, parent_dir_snoc, Hd, Hfault. simpl.
  pose proof (not_dir_upto d x) as Hnu.
  split; [eexists; apply lookup_insert_eq|]. split; [intros; by apply lookup_insert_ne|].
  split; [|split; [|done]].
  - intros p Hp. unfold isfile. cbn [w_fs with_fs]. rewrite lookup_insert_ne by set_solver. by apply Hc.
  - unfold isdir. cbn [w_fs with_fs]. rewrite lookup_insert_ne; [done|].
    intros Heq. apply Hnu. rewrite Heq. by apply dirs_upto_last.
Qed.

Lemma write_in_wrote d x c w :
  clear_dir d (w_fs w) → isdir (d ++ [x]) (w_fs w) = false →
  wp (write_in d x c) (λ _ w', wrote d x c w w') (λ _ _, False) w.
Proof.
  intros [Hne Hc] Hx. unfold write_in. apply wp_bind, wp_gets, wp_bind. apply wp_when; intros Hm.
  - apply negb_true_iff in Hm. unfold wp, mkdir.
    assert (isdir d (w_fs w) = false) as Hnd.
    { unfold exists_path in Hm. unfold isdir. by destruct (w_fs w !! d) as [[]|]. }
    assert (existsb (λ d, isfile d (w_fs w)) (dirs_upto d) = false) as Hex.
    { apply not_true_is_false. rewrite existsb_exists. intros (p & Hp%list_elem_of_In & Hf).
      rewrite Hc in Hf; done. }
    rewrite Hnd, Hex, Hfault. set (w1 := with_fs _ w).
    assert (∀ p, w_fs w1 !! p = if decide (p ∈ dirs_upto d) then Some Dir else w_fs w !! p) as Hl
      by (intros p; apply lookup_mkdirs).
    eapply wp_mono; [apply (write_file_in_dir d x c w1)|..]; [| | | |done].
    + split; [done|]. intros p Hp. unfold isfile. by rewrite Hl, decide_True.
    + unfold isdir. rewrite Hl, decide_True; [done|]. by apply dirs_upto_last.
    + unfold isdir. rewrite Hl, decide_False; [exact Hx|apply not_dir_upto].
    + intros [] w' (H1 & H2 & H3). split; [done|]. split; [|done].
      intros p Hp Hpu. rewrite H2 by done. by rewrite Hl, decide_False.
  - apply (write_file_in_dir d x c w); [done| |done]. apply negb_false_iff in Hm.
    unfold exists_path, isdir in *. pose proof (Hc d (dirs_upto_last d Hne)) as Hfd. unfold isfile in Hfd.
    by destruct (w_fs w !! d) as [[]|].
Qed.
End write_in_dir.

(** ** Files that a piece of code leaves alone *)

Definition keeps_file (p : path) (w w' : world) : Prop :=
  ∀ c t, w_fs w !! p = Some (File c t) → w_fs w' !! p = Some (File c t).

#[export] Instance keeps_file_preorder p : PreOrder (keeps_file p).
Proof. split; [by intros w c t|]. intros w1 w2 w3 H1 H2 c t Hp. auto. Qed.

Lemma write_file_keeps fault p q c : p ≠ q → pres (keeps_file p) (write_file fault q c).
Proof.
  intros Hpq w c' t Hp. unfold write_file. repeat case_match; simpl; try done;
    unfold with_fs; simpl; by rewrite lookup_insert_ne.
Qed.

Lemma foldr_dirs_lookup (l : list path) (f : fs) p :
  p ∉ l → foldr (λ d f, <[d := Dir]> f) f l !! p = f !! p.
Proof.
  induction l as [|d l IH]; [done|]. rewrite not_elem_of_cons. intros [Hd Hl]. simpl.
  rewrite lookup_insert_ne by done. auto.
Qed.

Lemma mkdir_keeps fault p d : pres (keeps_file p) (mkdir fault d).
Proof.
  intros w c t Hp. unfold mkdir. destruct (isdir d (w_fs w)); [done|].
  destruct (existsb _ (dirs_upto d)) eqn:Hex; [done|]. destruct (fault d) as [[]|]; [done|]. simpl.
  rewrite foldr_dirs_lookup; [done|]. intros Hin. apply not_true_iff_false in Hex. apply Hex.
  apply existsb_exists. exists p. split; [by apply list_elem_of_In|]. unfold isfile. by rewrite Hp.
Qed.

(** ** The exceptions of the file operations *)

Section world_raises.
Context (fault : path → option (bool * exn)).
Context (Hfault : ∀ p b e, fault p = Some (b, e) → ordinary e).

Lemma write_file_ordinary p c : raises ordinary (write_file fault p c).
Proof. intros w e. unfold write_file. repeat case_match; simpl; intros [= <-]; eauto; done. Qed.

Lemma mkdir_ordinary p : raises ordinary (mkdir fault p).
Proof. intros w e. unfold mkdir. repeat case_match; simpl; intros [= <-]; eauto; done. Qed.

Lemma remove_file_ordinary p : raises ordinary (remove_file fault p).
Proof. intros w e. unfold remove_file. repeat case_match; simpl; intros [= <-]; eauto; done. Qed.

Lemma rmtree_ordinary p : raises ordinary (rmtree fault p).
Proof. intros w e. unfold rmtree. repeat case_match; simpl; intros [= <-]; eauto; done. Qed.
End world_raises.

(** ** [os.rename] *)

Definition ENOTEMPTY : Z := 39.

(** The tree under [src], moved to [dst] *)
Definition move_tree (src dst : path) (f : fs) : fs :=
  list_to_map ((λ '(p, n), (if decide (src `prefix_of` p) then dst ++ drop (length src) p else p, n)) <$> map_to_list f).

(** A file replaces a file, a directory an empty directory. *)
Definition rename (fault : path → option (bool * exn)) (src dst : path) : M world exn unit := λ w,
  match w_fs w !! src with
  | None => (Err (os_error ENOENT "No such file or directory"), w)
  | Some n =>
      if match n, w_fs w !! dst with File _ _, Some Dir => true | _, _ => false end
      then (Err (os_error EISDIR "Is a directory"), w)
      else if match n, w_fs w !! dst with Dir, Some (File _ _) => true | _, _ => false end
      then (Err (os_error ENOTDIR "Not a directory"), w)
      else if match n with Dir => existsb (λ '(p, _), bool_decide (dst `prefix_of` p ∧ dst ≠ p)) (map_to_list (w_fs w)) | _ => false end
      then (Err (os_error ENOTEMPTY "Directory not empty"), w)
      else if negb (isdir (parent_dir dst) (w_fs w)) then (Err (os_error ENOENT "No such file or directory"), w)
      else
        match fault dst with
        | Some (_, e) => (Err e, w)
        | None =>
            (Ok tt, with_fs (match n with
                             | File _ _ => λ f, <[dst := n]> (delete src f)
                             | Dir => move_tree src dst
                             end) w)
        end
  end.

Lemma rename_grows P `{!TraceProp P} fault src dst : pres (grows P) (rename fault src dst).
Proof. intros w. apply grows_same; [done|]. unfold rename. by repeat case_match. Qed.
#[export] Hint Resolve rename_grows : pres.

(** ** [os.listdir] *)

Lemma listdir_elem d x f : is_Some (f !! (d ++ [x])) → x ∈ listdir d f.
Proof.
  intros [n Hn]. unfold listdir. apply list_elem_of_omap. exists (d ++ [x], n).
  split; [by apply elem_of_map_to_list|]. unfold child_of. by rewrite last_snoc, decide_True.
Qed.

Lemma listdir_inv d x f : x ∈ listdir d f → is_Some (f !! (d ++ [x])).
Proof.
  unfold listdir. intros ([p n] & Hp%elem_of_map_to_list & Hc)%list_elem_of_omap. unfold child_of in Hc.
  destruct (last p); [|done]. case_decide; [|done]. simplify_eq. by exists n.
Qed.

Lemma NoDup_omap {X Y} (f : X → option Y) (l : list X) :
  NoDup l → (∀ x y z, x ∈ l → y ∈ l → f x = Some z → f y = Some z → x = y) → NoDup (omap f l).
Proof.
  induction 1 as [|x l Hx Hl IH]; intros Hf; [constructor|]. simpl.
  assert (NoDup (omap f l)) by (apply IH; intros a b z Ha Hb; apply Hf; set_solver).
  destruct (f x) as [z|] eqn:Hz; [|done]. constructor; [|done]. intros (y & Hy & Hyz)%list_elem_of_omap.
  assert (x = y) as -> by (apply (Hf x y z); set_solver). done.
Qed.

Lemma NoDup_listdir d f : NoDup (listdir d f).
Proof.
  apply NoDup_omap; [apply NoDup_map_to_list|]. intros [p n] [q m] z Hp Hq H1 H2.
  apply elem_of_map_to_list in Hp, Hq. unfold child_of in *.
  destruct (last p); [|done]. destruct (last q); [|done]. case_decide; [|done]. case_decide; [|done].
  simplify_eq. done.
Qed.

(** ** What the operations raise, with a disk whose errors are [OSError]s *)

Definition os_errors (e : exn) : Prop := isinstance e OSError = true.

Section raised.
Context (wf : path → option (bool * exn)) (disk_errors : ∀ p b e, wf p = Some (b, e) → isinstance e OSError = true).
Ltac by_cases := intros w e; repeat case_match; simpl; intros [= <-]; unfold os_errors; eauto; done.

Lemma mkdir_os p : raises os_errors (mkdir wf p).
Proof. unfold mkdir. by_cases. Qed.
Lemma remove_file_os p : raises os_errors (remove_file wf p).
Proof. unfold remove_file. by_cases. Qed.
Lemma rmtree_os p : raises os_errors (rmtree wf p).
Proof. unfold rmtree. by_cases. Qed.
Lemma write_file_os p c : raises os_errors (write_file wf p c).
Proof. unfold write_file. by_cases. Qed.
Lemma rename_os p q : raises os_errors (rename wf p q).
Proof. unfold rename. by_cases. Qed.
End raised.
