(* ===== verification/Conf.v ===== *)
(** * The configuration of the agent (common/conf.py)

    A configuration file has lines [key=value]; the values are texts, or [None].  The module keeps one
    [ConfigurationProvider], which the functions of the module read; here it is an argument of each of
    them.  The tables of options serve the command that shows the configuration; each function has a
    default of its own. *)
From S2P Require Import Prelude PyExn FlexVersion Datetime Json Urls TextUtil World.
From Stdlib Require Import Ascii.

Definition DISABLE_AGENT_FILE : string := "disable_agent".

(** ** The provider *)

Record ConfigurationProvider := mkConf { values : gmap string (option string) }.
Implicit Types c : ConfigurationProvider.
Definition new_conf : ConfigurationProvider := mkConf ∅.

Definition conf_error (msg : string) : exn := agent_error AgentConfigError msg None (-1).

Definition newline : string := String "010" "".

(** [s.strip(chars)] *)
Fixpoint lstrip (p : ascii → bool) (s : string) : string :=
  match s with String x s' => if p x then lstrip p s' else s | "" => "" end.
Fixpoint rstrip (p : ascii → bool) (s : string) : string :=
  match s with
  | "" => ""
  | String x s' => match rstrip p s' with "" => if p x then "" else String x "" | t => String x t end
  end.
Definition strip (p : ascii → bool) (s : string) : string := rstrip p (lstrip p s).
Definition is_quote_or_space (x : ascii) : bool := Ascii.eqb x "034" || Ascii.eqb x " ".

(** One line of [load]: [line.split('=', 1)] and [parts[1].split('#')[0]] take the text before the first
    separator. *)
Definition parse_line (line : string) : option (string * option string) :=
  if str_contains "=" line && negb (bool_decide (is_Some (strip_prefix "#" line))) then
    match partition_at "=" line with
    | (key, Some rest) =>
        let value := strip is_py_space (strip is_quote_or_space (partition_at "#" rest).1) in
        Some (strip is_py_space key, if String.eqb value "None" then None else Some value)
    | (_, None) => None
    end
  else None.

Fixpoint load_lines (lines : list string) (m : gmap string (option string)) : gmap string (option string) :=
  match lines with
  | [] => m
  | line :: l => load_lines l (match parse_line line with Some (key, value) => <[key := value]> m | None => m end)
  end.

(** [load] *)
Definition load (content : string) c : res exn ConfigurationProvider :=
  if String.eqb content "" then Err (conf_error "Can't not parse empty configuration")
  else Ok (mkConf (load_lines (str_split newline content) (values c))).

(** [self.values.get(key)] *)
Definition lookup_value c (key : string) : option string := mjoin (values c !! key).

(** [get], with a text or with [None] as default *)
Definition get_or_none c (key : string) : option string := lookup_value c key.
Definition get c (key : string) (default_value : string) : string := default default_value (lookup_value c key).

(** [get_switch]; a value that is neither [y] nor [n] counts as absent *)
Definition get_switch c (key : string) (default_value : bool) : bool :=
  match lookup_value c key with
  | Some val =>
      if String.eqb (str_lower val) "y" then true else if String.eqb (str_lower val) "n" then false else default_value
  | None => default_value
  end.

(** [get_int]: [int] raises [TypeError] for [None] and [ValueError] for other texts; both give the default *)
Definition get_int_or_none c (key : string) : option Z := val ← lookup_value c key; int_text val.
Definition get_int c (key : string) (default_value : Z) : Z := default default_value (get_int_or_none c key).

(** [load_conf_from_file] *)
Definition load_conf_from_file (conf_file_path : path) (f : fs) c : res exn ConfigurationProvider :=
  if negb (isfile conf_file_path f) then
    Err (conf_error ("Missing configuration in " +:+ path_str conf_file_path))
  else
    match (content ← read_file conf_file_path f; load (c_text content) c) with
    | Err e =>
        if isinstance e OSError then
          Err (conf_error ("Failed to load conf file:" +:+ path_str conf_file_path +:+ ", " +:+ e_msg e))
        else Err e
    | r => r
    end.

(** [os.path.join] *)
Fixpoint ends_with_slash (s : string) : bool :=
  match s with "" => false | String x "" => Ascii.eqb x "/" | String _ s' => ends_with_slash s' end.
Definition path_join (a b : string) : string :=
  if bool_decide (is_Some (strip_prefix "/" b)) then b
  else if String.eqb a "" || ends_with_slash a then a +:+ b
  else a +:+ "/" +:+ b.

(** ** The tables of options *)

Definition SWITCH_OPTIONS : list (string * bool) :=
  [("OS.AllowHTTP", false);
   ("OS.EnableFirewall", false);
   ("OS.EnableFIPS", false);
   ("OS.EnableRDMA", false);
   ("OS.UpdateRdmaDriver", false);
   ("OS.CheckRdmaDriver", false);
   ("Logs.Verbose", false);
   ("Logs.Console", true);
   ("Logs.Collect", true);
   ("Extensions.Enabled", true);
   ("Extensions.WaitForCloudInit", false);
   ("Provisioning.AllowResetSysUser", false);
   ("Provisioning.RegenerateSshHostKeyPair", false);
   ("Provisioning.DeleteRootPassword", false);
   ("Provisioning.DecodeCustomData", false);
   ("Provisioning.ExecuteCustomData", false);
   ("Provisioning.MonitorHostName", false);
   ("DetectScvmmEnv", false);
   ("ResourceDisk.Format", false);
   ("ResourceDisk.EnableSwap", false);
   ("ResourceDisk.EnableSwapEncryption", false);
   ("AutoUpdate.Enabled", true);
   ("AutoUpdate.UpdateToLatestVersion", true);
   ("EnableOverProvisioning", true);
   ("Debug.CgroupLogMetrics", false);
   ("Debug.CgroupDisableOnProcessCheckFailure", true);
   ("Debug.CgroupDisableOnQuotaCheckFailure", true);
   ("Debug.EnableAgentMemoryUsageCheck", true);
   ("Debug.EnableAgentSignatureValidation", false);
   ("Debug.EnableFastTrack", true);
   ("Debug.EnableGAVersioning", true);
   ("Debug.EnableCgroupV2ResourceLimiting", false);
   ("Debug.EnableExtensionPolicy", true);
   ("Debug.EnableExtSignatureValidation", true);
   ("Debug.IgnoreExtSignatureValidationErrors", true)].

Definition STRING_OPTIONS : list (string * option string) :=
  [("Lib.Dir", Some "/var/lib/waagent");
   ("DVD.MountPoint", Some "/mnt/cdrom/secure");
   ("Pid.File", Some "/var/run/waagent.pid");
   ("Extension.LogDir", Some "/var/log/azure");
   ("OS.OpensslPath", Some "/usr/bin/openssl");
   ("OS.SshDir", Some "/etc/ssh");
   ("OS.HomeDir", Some "/home");
   ("OS.PasswordPath", Some "/etc/shadow");
   ("OS.SudoersDir", Some "/etc/sudoers.d");
   ("OS.RootDeviceScsiTimeout", None);
   ("Provisioning.Agent", Some "auto");
   ("Provisioning.SshHostKeyPairType", Some "rsa");
   ("Provisioning.PasswordCryptId", Some "6");
   ("HttpProxy.Host", None);
   ("ResourceDisk.MountPoint", Some "/mnt/resource");
   ("ResourceDisk.MountOptions", None);
   ("ResourceDisk.Filesystem", Some "ext3");
   ("AutoUpdate.GAFamily", Some "Prod");
   ("Policy.PolicyFilePath", Some "/etc/waagent_policy.json");
   ("Protocol.EndpointDiscovery", Some "dhcp");
   ("Debug.SignatureValidationTelemetryExpiryTime", Some "2027-06-01")].

Definition INTEGER_OPTIONS : list (string * option Z) :=
  [("Extensions.GoalStatePeriod", Some 6);
   ("Extensions.InitialGoalStatePeriod", Some 6);
   ("Extensions.WaitForCloudInitTimeout", Some 3600);
   ("OS.EnableFirewallPeriod", Some 300);
   ("OS.RemovePersistentNetRulesPeriod", Some 30);
   ("OS.RootDeviceScsiTimeoutPeriod", Some 30);
   ("OS.MonitorDhcpClientRestartPeriod", Some 30);
   ("OS.SshClientAliveInterval", Some 180);
   ("Provisioning.MonitorHostNamePeriod", Some 30);
   ("Provisioning.PasswordCryptSaltLength", Some 10);
   ("HttpProxy.Port", None);
   ("ResourceDisk.SwapSizeMB", Some 0);
   ("Autoupdate.Frequency", Some 3600);
   ("Logs.CollectPeriod", Some 3600);
   ("Debug.CgroupCheckPeriod", Some 300);
   ("Debug.AgentCpuQuota", Some 50);
   ("Debug.AgentCpuThrottledTimeThreshold", Some 120);
   ("Debug.AgentAnonMemoryQuota", Some (300 * 1024 ^ 2));
   ("Debug.AgentMemoryConsecutiveBreachCount", Some 3);
   ("Debug.AgentMemoryMaxRestartsPerVersion", Some 5);
   ("Debug.AgentMemoryMinRestartIntervalSeconds", Some (3 * 24 * 60 * 60));
   ("Debug.EtpCollectionPeriod", Some 300);
   ("Debug.AutoUpdateHotfixFrequency", Some 14400);
   ("Debug.AutoUpdateNormalFrequency", Some 86400);
   ("Debug.FirewallRulesLogPeriod", Some 86400);
   ("Debug.LogCollectorInitialDelay", Some (5 * 60));
   ("Debug.SignatureValidationInitialDelay", Some (10 * 60));
   ("Debug.SignatureValidationTimeout", Some 10)].

(** [get_configuration]: the options as a dictionary *)
Definition json_opt {A} (f : A → json) (v : option A) : json := from_option f JNull v.
Definition conf_entries c : list (string * json) :=
  ((λ '(o, d), (o, JBool (get_switch c o d))) <$> SWITCH_OPTIONS) ++
  ((λ '(o, d), (o, json_opt JStr (match get_or_none c o with Some v => Some v | None => d end))) <$> STRING_OPTIONS) ++
  ((λ '(o, d), (o, json_opt JInt (match get_int_or_none c o with Some v => Some v | None => d end))) <$> INTEGER_OPTIONS).
Definition get_configuration c : gmap string json :=
  foldl (λ options '(o, v), <[o := v]> options) ∅ (conf_entries c).

Fixpoint find_option {A} (option_name : string) (l : list (string * A)) : option A :=
  match l with [] => None | (o, d) :: l' => if String.eqb o option_name then Some d else find_option option_name l' end.
Definition invalid_parameter (option_name : string) : exn := py_error ValueError (option_name +:+ " is not a valid configuration parameter.").

Definition get_default_value (option_name : string) : res exn (option string) :=
  match find_option option_name STRING_OPTIONS with Some d => Ok d | None => Err (invalid_parameter option_name) end.
Definition get_int_default_value (option_name : string) : res exn Z :=
  match find_option option_name INTEGER_OPTIONS with
  | Some (Some d) => Ok d
  | Some None => Err (py_error TypeError "int() argument must be a string, a bytes-like object or a number, not 'NoneType'")
  | None => Err (invalid_parameter option_name)
  end.
Definition get_switch_default_value (option_name : string) : res exn bool :=
  match find_option option_name SWITCH_OPTIONS with Some d => Ok d | None => Err (invalid_parameter option_name) end.

(** ** The values the agent uses *)

Definition is_present (key : string) c : bool := bool_decide (is_Some (lookup_value c key)).
Definition enable_firewall c : bool := get_switch c "OS.EnableFirewall" false.
Definition get_enable_firewall_period c : Z := get_int c "OS.EnableFirewallPeriod" 300.
Definition get_remove_persistent_net_rules_period c : Z := get_int c "OS.RemovePersistentNetRulesPeriod" 30.
Definition get_monitor_dhcp_client_restart_period c : Z := get_int c "OS.MonitorDhcpClientRestartPeriod" 30.
Definition enable_rdma c : bool :=
  get_switch c "OS.EnableRDMA" false || get_switch c "OS.UpdateRdmaDriver" false || get_switch c "OS.CheckRdmaDriver" false.
Definition enable_rdma_update c : bool := get_switch c "OS.UpdateRdmaDriver" false.
Definition enable_check_rdma_driver c : bool := get_switch c "OS.CheckRdmaDriver" true.
Definition get_logs_verbose c : bool := get_switch c "Logs.Verbose" false.
Definition get_logs_console c : bool := get_switch c "Logs.Console" true.
Definition get_collect_logs c : bool := get_switch c "Logs.Collect" true.
Definition get_collect_logs_period c : Z := get_int c "Logs.CollectPeriod" 3600.
Definition get_lib_dir c : string := get c "Lib.Dir" "/var/lib/waagent".
Definition get_published_hostname c : string := path_join (get_lib_dir c) "published_hostname".
Definition get_dvd_mount_point c : string := get c "DVD.MountPoint" "/mnt/cdrom/secure".
Definition get_agent_pid_file_path c : string := get c "Pid.File" "/var/run/waagent.pid".
Definition get_ext_log_dir c : string := get c "Extension.LogDir" "/var/log/azure".
Definition get_agent_log_file : string := "/var/log/waagent.log".
Definition get_policy_file_path c : string := get c "Policy.PolicyFilePath" "/etc/waagent_policy.json".
Definition get_fips_enabled c : bool := get_switch c "OS.EnableFIPS" false.
Definition get_openssl_cmd c : string := get c "OS.OpensslPath" "/usr/bin/openssl".
Definition get_ssh_client_alive_interval c : json := from_option JStr (JInt 180) (get_or_none c "OS.SshClientAliveInterval").
Definition get_ssh_dir c : string := get c "OS.SshDir" "/etc/ssh".
Definition get_home_dir c : string := get c "OS.HomeDir" "/home".
Definition get_passwd_file_path c : string := get c "OS.PasswordPath" "/etc/shadow".
Definition get_sudoers_dir c : string := get c "OS.SudoersDir" "/etc/sudoers.d".
Definition get_sshd_conf_file_path c : string := path_join (get_ssh_dir c) "sshd_config".
Definition get_ssh_key_glob c : string := path_join (get_ssh_dir c) "ssh_host_*key*".
Definition get_ssh_host_keypair_type c : string :=
  let keypair_type := get c "Provisioning.SshHostKeyPairType" "rsa" in if String.eqb keypair_type "auto" then "rsa" else keypair_type.
Definition get_ssh_key_private_path c : string := path_join (get_ssh_dir c) ("ssh_host_" +:+ get_ssh_host_keypair_type c +:+ "_key").
Definition get_ssh_key_public_path c : string := path_join (get_ssh_dir c) ("ssh_host_" +:+ get_ssh_host_keypair_type c +:+ "_key.pub").
Definition get_root_device_scsi_timeout c : option string := get_or_none c "OS.RootDeviceScsiTimeout".
Definition get_root_device_scsi_timeout_period c : Z := get_int c "OS.RootDeviceScsiTimeoutPeriod" 30.
Definition get_ssh_host_keypair_mode c : string := get c "Provisioning.SshHostKeyPairType" "rsa".
Definition get_extensions_enabled c : bool := get_switch c "Extensions.Enabled" true.
Definition get_wait_for_cloud_init c : bool := get_switch c "Extensions.WaitForCloudInit" false.
Definition get_wait_for_cloud_init_timeout c : Z := get_int c "Extensions.WaitForCloudInitTimeout" 3600.
Definition get_goal_state_period c : Z := get_int c "Extensions.GoalStatePeriod" 6.
Definition get_initial_goal_state_period c : Z := get_int c "Extensions.InitialGoalStatePeriod" (get_goal_state_period c).
Definition get_allow_reset_sys_user c : bool := get_switch c "Provisioning.AllowResetSysUser" false.
Definition get_regenerate_ssh_host_key c : bool := get_switch c "Provisioning.RegenerateSshHostKeyPair" false.
Definition get_delete_root_password c : bool := get_switch c "Provisioning.DeleteRootPassword" false.
Definition get_decode_customdata c : bool := get_switch c "Provisioning.DecodeCustomData" false.
Definition get_execute_customdata c : bool := get_switch c "Provisioning.ExecuteCustomData" false.
Definition get_password_cryptid c : string := get c "Provisioning.PasswordCryptId" "6".
Definition get_provisioning_agent c : string := get c "Provisioning.Agent" "auto".
Definition get_provision_enabled c : bool := bool_decide (get_provisioning_agent c ∈ ["auto"; "waagent"]).
Definition get_password_crypt_salt_len c : Z := get_int c "Provisioning.PasswordCryptSaltLength" 10.
Definition get_monitor_hostname c : bool := get_switch c "Provisioning.MonitorHostName" false.
Definition get_monitor_hostname_period c : Z := get_int c "Provisioning.MonitorHostNamePeriod" 30.
Definition get_httpproxy_host c : option string := get_or_none c "HttpProxy.Host".
Definition get_httpproxy_port c : option Z := get_int_or_none c "HttpProxy.Port".
Definition get_detect_scvmm_env c : bool := get_switch c "DetectScvmmEnv" false.
Definition get_resourcedisk_format c : bool := get_switch c "ResourceDisk.Format" false.
Definition get_resourcedisk_enable_swap c : bool := get_switch c "ResourceDisk.EnableSwap" false.
Definition get_resourcedisk_enable_swap_encryption c : bool := get_switch c "ResourceDisk.EnableSwapEncryption" false.
Definition get_resourcedisk_mountpoint c : string := get c "ResourceDisk.MountPoint" "/mnt/resource".
Definition get_resourcedisk_mountoptions c : option string := get_or_none c "ResourceDisk.MountOptions".
Definition get_resourcedisk_filesystem c : string := get c "ResourceDisk.Filesystem" "ext3".
Definition get_resourcedisk_swap_size_mb c : Z := get_int c "ResourceDisk.SwapSizeMB" 0.
Definition get_autoupdate_gafamily c : string := get c "AutoUpdate.GAFamily" "Prod".
Definition get_autoupdate_enabled c : bool := get_switch c "AutoUpdate.Enabled" true.
Definition get_autoupdate_frequency c : Z := get_int c "Autoupdate.Frequency" 3600.
Definition get_enable_overprovisioning c : bool := get_switch c "EnableOverProvisioning" true.
Definition get_allow_http c : bool := get_switch c "OS.AllowHTTP" false.
Definition get_disable_agent_file_path c : string := path_join (get_lib_dir c) DISABLE_AGENT_FILE.
Definition get_cgroups_enabled c : bool := get_switch c "CGroups.Enabled" true.
Definition get_monitor_network_configuration_changes c : bool := get_switch c "Monitor.NetworkConfigurationChanges" false.
Definition get_auto_update_to_latest_version c : bool := get_switch c "AutoUpdate.UpdateToLatestVersion" (get_autoupdate_enabled c).
Definition get_protocol_endpoint_discovery c : string := get c "Protocol.EndpointDiscovery" "dhcp".
Definition get_dhcp_discovery_enabled c : bool := String.eqb (get_protocol_endpoint_discovery c) "dhcp".
Definition get_cgroup_check_period c : Z := get_int c "Debug.CgroupCheckPeriod" 300.
Definition get_cgroup_log_metrics c : bool := get_switch c "Debug.CgroupLogMetrics" false.
Definition get_cgroup_disable_on_process_check_failure c : bool := get_switch c "Debug.CgroupDisableOnProcessCheckFailure" true.
Definition get_cgroup_disable_on_quota_check_failure c : bool := get_switch c "Debug.CgroupDisableOnQuotaCheckFailure" true.
Definition get_agent_cpu_quota c : Z := get_int c "Debug.AgentCpuQuota" 50.
Definition get_agent_anon_memory_quota c : Z := get_int c "Debug.AgentAnonMemoryQuota" (300 * 1024 ^ 2).
Definition get_agent_memory_consecutive_breach_count c : Z := get_int c "Debug.AgentMemoryConsecutiveBreachCount" 3.
Definition get_agent_memory_max_restarts_per_version c : Z := get_int c "Debug.AgentMemoryMaxRestartsPerVersion" 5.
Definition get_agent_memory_min_restart_interval_seconds c : Z := get_int c "Debug.AgentMemoryMinRestartIntervalSeconds" (3 * 24 * 60 * 60).
Definition get_agent_cpu_throttled_time_threshold c : Z := get_int c "Debug.AgentCpuThrottledTimeThreshold" 120.
Definition get_enable_agent_memory_usage_check c : bool := get_switch c "Debug.EnableAgentMemoryUsageCheck" true.
Definition get_enable_fast_track c : bool := get_switch c "Debug.EnableFastTrack" true.
Definition get_etp_collection_period c : Z := get_int c "Debug.EtpCollectionPeriod" 300.
Definition get_self_update_hotfix_frequency c : Z := get_int c "Debug.SelfUpdateHotfixFrequency" (4 * 60 * 60).
Definition get_self_update_regular_frequency c : Z := get_int c "Debug.SelfUpdateRegularFrequency" (24 * 60 * 60).
Definition get_enable_ga_versioning c : bool := get_switch c "Debug.EnableGAVersioning" true.
Definition get_firewall_rules_log_period c : Z := get_int c "Debug.FirewallRulesLogPeriod" 86400.
Definition get_extension_policy_enabled c : bool := get_switch c "Debug.EnableExtensionPolicy" true.
Definition get_enable_cgroup_v2_resource_limiting c : bool := get_switch c "Debug.EnableCgroupV2ResourceLimiting" true.
Definition get_log_collector_initial_delay c : Z := get_int c "Debug.LogCollectorInitialDelay" (5 * 60).
Definition get_ext_signature_validation_enabled c : bool := get_switch c "Debug.EnableExtSignatureValidation" true.
Definition get_agent_signature_validation_enabled c : bool := get_switch c "Debug.EnableAgentSignatureValidation" false.
Definition get_signature_validation_telemetry_expiry_time c : string := get c "Debug.SignatureValidationTelemetryExpiryTime" "2027-06-01".
Definition get_ignore_ext_signature_validation_errors c : bool := get_switch c "Debug.IgnoreExtSignatureValidationErrors" true.
Definition get_signature_validation_initial_delay c : Z := get_int c "Debug.SignatureValidationInitialDelay" (10 * 60).
Definition get_signature_validation_timeout c : Z := get_int c "Debug.SignatureValidationTimeout" 10.
Definition get_enable_rsm_downgrade c : bool := get_switch c "Debug.EnableRsmDowngrade" false.

(** ** What the configuration shows and what the agent uses

    [option_readers] lists the functions above by the option they read. *)
Definition option_readers : list (string * (ConfigurationProvider → json)) :=
  [("OS.EnableFirewall", λ c, JBool (enable_firewall c));
   ("OS.EnableFirewallPeriod", λ c, JInt (get_enable_firewall_period c));
   ("OS.RemovePersistentNetRulesPeriod", λ c, JInt (get_remove_persistent_net_rules_period c));
   ("OS.MonitorDhcpClientRestartPeriod", λ c, JInt (get_monitor_dhcp_client_restart_period c));
   ("OS.UpdateRdmaDriver", λ c, JBool (enable_rdma_update c));
   ("OS.CheckRdmaDriver", λ c, JBool (enable_check_rdma_driver c));
   ("Logs.Verbose", λ c, JBool (get_logs_verbose c));
   ("Logs.Console", λ c, JBool (get_logs_console c));
   ("Logs.Collect", λ c, JBool (get_collect_logs c));
   ("Logs.CollectPeriod", λ c, JInt (get_collect_logs_period c));
   ("Lib.Dir", λ c, JStr (get_lib_dir c));
   ("DVD.MountPoint", λ c, JStr (get_dvd_mount_point c));
   ("Pid.File", λ c, JStr (get_agent_pid_file_path c));
   ("Extension.LogDir", λ c, JStr (get_ext_log_dir c));
   ("Policy.PolicyFilePath", λ c, JStr (get_policy_file_path c));
   ("OS.EnableFIPS", λ c, JBool (get_fips_enabled c));
   ("OS.OpensslPath", λ c, JStr (get_openssl_cmd c));
   ("OS.SshDir", λ c, JStr (get_ssh_dir c));
   ("OS.HomeDir", λ c, JStr (get_home_dir c));
   ("OS.PasswordPath", λ c, JStr (get_passwd_file_path c));
   ("OS.SudoersDir", λ c, JStr (get_sudoers_dir c));
   ("OS.RootDeviceScsiTimeout", λ c, json_opt JStr (get_root_device_scsi_timeout c));
   ("OS.RootDeviceScsiTimeoutPeriod", λ c, JInt (get_root_device_scsi_timeout_period c));
   ("Provisioning.SshHostKeyPairType", λ c, JStr (get_ssh_host_keypair_mode c));
   ("Extensions.Enabled", λ c, JBool (get_extensions_enabled c));
   ("Extensions.WaitForCloudInit", λ c, JBool (get_wait_for_cloud_init c));
   ("Extensions.WaitForCloudInitTimeout", λ c, JInt (get_wait_for_cloud_init_timeout c));
   ("Extensions.GoalStatePeriod", λ c, JInt (get_goal_state_period c));
   ("Provisioning.AllowResetSysUser", λ c, JBool (get_allow_reset_sys_user c));
   ("Provisioning.RegenerateSshHostKeyPair", λ c, JBool (get_regenerate_ssh_host_key c));
   ("Provisioning.DeleteRootPassword", λ c, JBool (get_delete_root_password c));
   ("Provisioning.DecodeCustomData", λ c, JBool (get_decode_customdata c));
   ("Provisioning.ExecuteCustomData", λ c, JBool (get_execute_customdata c));
   ("Provisioning.PasswordCryptId", λ c, JStr (get_password_cryptid c));
   ("Provisioning.Agent", λ c, JStr (get_provisioning_agent c));
   ("Provisioning.PasswordCryptSaltLength", λ c, JInt (get_password_crypt_salt_len c));
   ("Provisioning.MonitorHostName", λ c, JBool (get_monitor_hostname c));
   ("Provisioning.MonitorHostNamePeriod", λ c, JInt (get_monitor_hostname_period c));
   ("HttpProxy.Host", λ c, json_opt JStr (get_httpproxy_host c));
   ("HttpProxy.Port", λ c, json_opt JInt (get_httpproxy_port c));
   ("DetectScvmmEnv", λ c, JBool (get_detect_scvmm_env c));
   ("ResourceDisk.Format", λ c, JBool (get_resourcedisk_format c));
   ("ResourceDisk.EnableSwap", λ c, JBool (get_resourcedisk_enable_swap c));
   ("ResourceDisk.EnableSwapEncryption", λ c, JBool (get_resourcedisk_enable_swap_encryption c));
   ("ResourceDisk.MountPoint", λ c, JStr (get_resourcedisk_mountpoint c));
   ("ResourceDisk.MountOptions", λ c, json_opt JStr (get_resourcedisk_mountoptions c));
   ("ResourceDisk.Filesystem", λ c, JStr (get_resourcedisk_filesystem c));
   ("ResourceDisk.SwapSizeMB", λ c, JInt (get_resourcedisk_swap_size_mb c));
   ("AutoUpdate.GAFamily", λ c, JStr (get_autoupdate_gafamily c));
   ("AutoUpdate.Enabled", λ c, JBool (get_autoupdate_enabled c));
   ("Autoupdate.Frequency", λ c, JInt (get_autoupdate_frequency c));
   ("EnableOverProvisioning", λ c, JBool (get_enable_overprovisioning c));
   ("OS.AllowHTTP", λ c, JBool (get_allow_http c));
   ("CGroups.Enabled", λ c, JBool (get_cgroups_enabled c));
   ("Monitor.NetworkConfigurationChanges", λ c, JBool (get_monitor_network_configuration_changes c));
   ("Protocol.EndpointDiscovery", λ c, JStr (get_protocol_endpoint_discovery c));
   ("Debug.CgroupCheckPeriod", λ c, JInt (get_cgroup_check_period c));
   ("Debug.CgroupLogMetrics", λ c, JBool (get_cgroup_log_metrics c));
   ("Debug.CgroupDisableOnProcessCheckFailure", λ c, JBool (get_cgroup_disable_on_process_check_failure c));
   ("Debug.CgroupDisableOnQuotaCheckFailure", λ c, JBool (get_cgroup_disable_on_quota_check_failure c));
   ("Debug.AgentCpuQuota", λ c, JInt (get_agent_cpu_quota c));
   ("Debug.AgentAnonMemoryQuota", λ c, JInt (get_agent_anon_memory_quota c));
   ("Debug.AgentMemoryConsecutiveBreachCount", λ c, JInt (get_agent_memory_consecutive_breach_count c));
   ("Debug.AgentMemoryMaxRestartsPerVersion", λ c, JInt (get_agent_memory_max_restarts_per_version c));
   ("Debug.AgentMemoryMinRestartIntervalSeconds", λ c, JInt (get_agent_memory_min_restart_interval_seconds c));
   ("Debug.AgentCpuThrottledTimeThreshold", λ c, JInt (get_agent_cpu_throttled_time_threshold c));
   ("Debug.EnableAgentMemoryUsageCheck", λ c, JBool (get_enable_agent_memory_usage_check c));
   ("Debug.EnableFastTrack", λ c, JBool (get_enable_fast_track c));
   ("Debug.EtpCollectionPeriod", λ c, JInt (get_etp_collection_period c));
   ("Debug.SelfUpdateHotfixFrequency", λ c, JInt (get_self_update_hotfix_frequency c));
   ("Debug.SelfUpdateRegularFrequency", λ c, JInt (get_self_update_regular_frequency c));
   ("Debug.EnableGAVersioning", λ c, JBool (get_enable_ga_versioning c));
   ("Debug.FirewallRulesLogPeriod", λ c, JInt (get_firewall_rules_log_period c));
   ("Debug.EnableExtensionPolicy", λ c, JBool (get_extension_policy_enabled c));
   ("Debug.EnableCgroupV2ResourceLimiting", λ c, JBool (get_enable_cgroup_v2_resource_limiting c));
   ("Debug.LogCollectorInitialDelay", λ c, JInt (get_log_collector_initial_delay c));
   ("Debug.EnableExtSignatureValidation", λ c, JBool (get_ext_signature_validation_enabled c));
   ("Debug.EnableAgentSignatureValidation", λ c, JBool (get_agent_signature_validation_enabled c));
   ("Debug.SignatureValidationTelemetryExpiryTime", λ c, JStr (get_signature_validation_telemetry_expiry_time c));
   ("Debug.IgnoreExtSignatureValidationErrors", λ c, JBool (get_ignore_ext_signature_validation_errors c));
   ("Debug.SignatureValidationInitialDelay", λ c, JInt (get_signature_validation_initial_delay c));
   ("Debug.SignatureValidationTimeout", λ c, JInt (get_signature_validation_timeout c));
   ("Debug.EnableRsmDowngrade", λ c, JBool (get_enable_rsm_downgrade c));
   ("AutoUpdate.UpdateToLatestVersion", λ c, JBool (get_auto_update_to_latest_version c));
   ("Extensions.InitialGoalStatePeriod", λ c, JInt (get_initial_goal_state_period c));
   ("OS.SshClientAliveInterval", get_ssh_client_alive_interval)].

(** Options whose readers have another default than the table, and one that is read as a text. *)
Definition other_defaults : list string :=
  ["OS.CheckRdmaDriver"; "Debug.EnableCgroupV2ResourceLimiting"; "AutoUpdate.UpdateToLatestVersion"; "Extensions.InitialGoalStatePeriod"].
Definition read_as_text : list string := ["OS.SshClientAliveInterval"].

(** The file sets the option to a value of its type. *)
Definition is_set c (o : string) : Prop :=
  if bool_decide (o ∈ INTEGER_OPTIONS.*1) then is_Some (get_int_or_none c o)
  else ∃ v, lookup_value c o = Some v ∧ (str_lower v = "y" ∨ str_lower v = "n").

(** Options that are read and are not in the tables. *)
Definition hidden_options : list string :=
  ["CGroups.Enabled"; "Monitor.NetworkConfigurationChanges"; "Debug.SelfUpdateHotfixFrequency"; "Debug.SelfUpdateRegularFrequency"; "Debug.EnableRsmDowngrade"].

(** ** A file and what is read from it *)

(** A line of a configuration file: a comment, or a setting whose value may be in quotes and may be
    followed by a comment. *)
Inductive conf_line := CommentLine (text : string) | Setting (key value : string) (quoted : bool) (comment : option string).
Definition print_line (l : conf_line) : string :=
  match l with
  | CommentLine text => "#" +:+ text
  | Setting key value quoted comment =>
      key +:+ "=" +:+ (if quoted then String "034" (value +:+ String "034" "") else value) +:+ from_option (λ t, " #" +:+ t) "" comment
  end.
Definition print_conf (l : list conf_line) : string := str_join newline (print_line <$> l).

(** What can be written: keys and values without the characters that end them or are stripped. *)
Definition wf_line (l : conf_line) : Prop :=
  match l with
  | CommentLine text => no_char "010" text
  | Setting key value _ comment =>
      no_char "010" key ∧ no_char "=" key ∧ strip_prefix "#" key = None ∧ strip is_py_space key = key ∧
      no_char "010" value ∧ no_char "#" value ∧ strip is_quote_or_space value = value ∧ strip is_py_space value = value ∧
      from_option (no_char "010") True comment
  end.

Definition setting (l : conf_line) : option (string * option string) :=
  match l with
  | CommentLine _ => None
  | Setting key value _ _ => Some (key, if String.eqb value "None" then None else Some value)
  end.
Definition apply_settings (l : list conf_line) (m : gmap string (option string)) : gmap string (option string) :=
  foldl (λ m '(k, v), <[k := v]> m) m (omap setting l).

Lemma lstrip_app p a s : str_forallb p a = true → lstrip p (a +:+ s) = lstrip p s.
Proof. induction a as [|x a IH]; [done|]. rewrite string_app_cons. simpl. rewrite andb_true_iff. intros [Hx Ha]. rewrite Hx. auto. Qed.

Lemma rstrip_all p b : str_forallb p b = true → rstrip p b = "".
Proof. induction b as [|x b IH]; [done|]. simpl. rewrite andb_true_iff. intros [Hx Hb]. by rewrite IH, Hx. Qed.

Lemma rstrip_app p s b : str_forallb p b = true → rstrip p (s +:+ b) = rstrip p s.
Proof. intros Hb. induction s as [|x s IH]; [by apply rstrip_all|]. rewrite string_app_cons. simpl. by rewrite IH. Qed.

Lemma strip_head p x s : strip p (String x s) = String x s → p x = false.
Proof.
  unfold strip. intros H. destruct (p x) eqn:Hx; [|done]. exfalso. simpl in H. rewrite Hx in H.
  assert (∀ t, (String.length (lstrip p t) ≤ String.length t)%nat) as Hl by (intros t; induction t as [|y t IH]; simpl; [lia|destruct (p y); simpl; lia]).
  assert (∀ t, (String.length (rstrip p t) ≤ String.length t)%nat) as Hr
    by (intros t; induction t as [|y t IH]; simpl; [lia|destruct (rstrip p t); [destruct (p y)|]; simpl in *; lia]).
  specialize (Hl s). specialize (Hr (lstrip p s)). rewrite H in Hr. simpl in Hr. lia.
Qed.

Lemma strip_around p a v b : str_forallb p a = true → str_forallb p b = true → strip p v = v → strip p (a +:+ v +:+ b) = v.
Proof.
  intros Ha Hb Hv. unfold strip. rewrite lstrip_app by done. destruct v as [|x v].
  - change (("" : string) +:+ b) with b. replace (lstrip p b) with ("" : string); [done|]. rewrite <-(string_app_nil_r b). by rewrite lstrip_app.
  - pose proof (strip_head _ _ _ Hv) as Hx. rewrite string_app_cons. simpl. rewrite Hx. rewrite <-string_app_cons, rstrip_app by done.
    unfold strip in Hv. simpl in Hv. by rewrite Hx in Hv.
Qed.

Lemma contains_char x a b : str_contains (String x "") (a +:+ String x b) = true.
Proof.
  induction a as [|y a IH].
  - change (("" : string) +:+ String x b) with (String x b). cbn [str_contains]. apply orb_true_iff. left. apply bool_decide_eq_true.
    exists b. apply (strip_prefix_app (String x "") b).
  - rewrite string_app_cons. cbn [str_contains]. rewrite IH. apply orb_true_r.
Qed.

Lemma no_char_app x a b : no_char x a → no_char x b → no_char x (a +:+ b).
Proof. unfold no_char. intros Ha Hb. by rewrite str_forallb_app, Ha, Hb. Qed.

Lemma not_a_comment k r : strip_prefix "#" k = None → strip_prefix "#" (k +:+ String "=" r) = None.
Proof. destruct k as [|x k]; [done|]. rewrite string_app_cons. cbn [strip_prefix]. by destruct (Ascii.eqb "#" x). Qed.

(** The text before and after a value, up to the comment *)
Definition before_value (quoted : bool) : string := if quoted then String "034" "" else "".
Definition after_value (quoted : bool) (comment : option string) : string := before_value quoted +:+ from_option (λ _, " ") "" comment.

Lemma printed_value (v : string) (q : bool) (co : option string) :
  (if q then String "034" (v +:+ String "034" "") else v) +:+ from_option (λ t, " #" +:+ t) "" co =
  (before_value q +:+ v +:+ after_value q co) +:+ from_option (String "#") "" co.
Proof. unfold after_value, before_value. destruct q, co as [t|]; cbn [from_option]; rewrite ?string_app_nil_r, ?string_app_cons, ?string_app_assoc; reflexivity. Qed.

Lemma parse_value v q co :
  no_char "#" v → strip is_quote_or_space v = v →
  strip is_quote_or_space (partition_at "#" ((before_value q +:+ v +:+ after_value q co) +:+ from_option (String "#") "" co)).1 = v.
Proof.
  intros Hv Hs. assert (no_char "#" (before_value q +:+ v +:+ after_value q co)) as Hn.
  { apply no_char_app; [by destruct q|]. apply no_char_app; [done|]. by destruct q, co. }
  transitivity (strip is_quote_or_space (before_value q +:+ v +:+ after_value q co)); [|by apply strip_around; [destruct q|destruct q, co|]].
  destruct co as [t|]; simpl from_option; [by rewrite partition_at_stop|by rewrite string_app_nil_r, partition_at_none].
Qed.

Lemma parse_print_line l : wf_line l → parse_line (print_line l) = setting l.
Proof.
  destruct l as [t|k v q co]; simpl wf_line.
  - intros _. unfold parse_line, print_line. rewrite strip_prefix_app. by rewrite andb_false_r.
  - intros (_ & Hk & Hh & Hks & _ & Hv & Hq & Hs & _). unfold parse_line, print_line. rewrite printed_value.
    set (r := (before_value q +:+ _) +:+ _). change ("=" +:+ r) with (String "=" r). rewrite contains_char, not_a_comment, partition_at_stop by done.
    unfold r. rewrite parse_value by done. by rewrite Hks, Hs.
Qed.

Lemma print_line_no_newline l : wf_line l → no_char "010" (print_line l).
Proof.
  destruct l as [t|k v q co]; simpl wf_line; [intros; by apply no_char_app|].
  intros (Hk & _ & _ & _ & Hv & _ & _ & _ & Hc). unfold print_line. apply no_char_app; [done|]. apply no_char_app; [done|].
  rewrite printed_value. apply no_char_app; [|by destruct co]. apply no_char_app; [by destruct q|]. apply no_char_app; [done|by destruct q, co].
Qed.

Lemma load_printed_lines l m : Forall wf_line l → load_lines (print_line <$> l) m = apply_settings l m.
Proof.
  intros Hl. revert m. unfold apply_settings. induction Hl as [|x l Hx Hl IH]; [done|]. intros m. simpl. rewrite parse_print_line, IH by done.
  by destruct (setting x) as [[k v]|].
Qed.

(** The value that a line gives to a key *)
Definition setting_of (k : string) (x : conf_line) : option (option string) :=
  '(k', v) ← setting x; if String.eqb k' k then Some v else None.

Lemma apply_settings_last l m k :
  apply_settings l m !! k = match last (omap (setting_of k) l) with Some v => Some v | None => m !! k end.
Proof.
  unfold apply_settings. induction l as [|x l IH] using rev_ind; [done|]. rewrite !omap_app, foldl_app. simpl. unfold setting_of at 2.
  destruct (setting x) as [[k' v]|]; simpl; [|by rewrite app_nil_r]. destruct (String.eqb_spec k' k) as [->|Hk].
  - by rewrite last_snoc, lookup_insert_eq.
  - by rewrite app_nil_r, lookup_insert_ne.
Qed.

(** C27: a configuration is read as it is written.  Loading a file of comments and settings, with the
    values in quotes or not and with comments after them, gives each key the value of its last setting,
    [None] for the word None, and leaves the other keys as they were. *)
Theorem configuration_is_read_back l c :
  Forall wf_line l → print_conf l ≠ "" →
  ∃ c', load (print_conf l) c = Ok c' ∧
    ∀ k, values c' !! k = match last (omap (setting_of k) l) with Some v => Some v | None => values c !! k end.
Proof.
  intros Hl Hne. exists (mkConf (apply_settings l (values c))). split; [|intros k; apply apply_settings_last].
  unfold load. destruct (String.eqb_spec (print_conf l) ""); [done|]. unfold print_conf, newline. rewrite str_split_join.
  - by rewrite load_printed_lines.
  - intros He. apply fmap_nil_inv in He as ->. done.
  - apply Forall_fmap. eapply Forall_impl; [done|]. apply print_line_no_newline.
Qed.

Definition sample_lines : list conf_line :=
  [CommentLine " Azure Linux Agent"; Setting "OS.EnableFirewall" "y" false None; Setting "HttpProxy.Host" "None" false None;
   Setting "Lib.Dir" "/var/lib/agent" true (Some " moved"); Setting "OS.EnableFirewall" "n" false None].
Lemma configuration_is_read_back_witness :
  ∃ c', load (print_conf sample_lines) new_conf = Ok c' ∧
    ∀ k, values c' !! k = match last (omap (setting_of k) sample_lines) with Some v => Some v | None => None end.
Proof.
  apply (configuration_is_read_back sample_lines new_conf); [|discriminate]. unfold sample_lines, wf_line.
  repeat constructor.
Defined.

(** ** What is shown and what is used *)

Lemma foldl_insert_lookup {A} (l : list (string * A)) (m : gmap string A) o :
  NoDup l.*1 → foldl (λ m '(o, v), <[o := v]> m) m l !! o = match find_option o l with Some v => Some v | None => m !! o end.
Proof.
  revert m. induction l as [|[o' v] l IH]; intros m; [done|]. simpl. intros [Hn Hd]%NoDup_cons. rewrite IH by done.
  destruct (String.eqb_spec o' o) as [->|Ho]; [|by rewrite lookup_insert_ne]. rewrite lookup_insert_eq.
  replace (find_option o l) with (None : option A); [done|]. symmetry. clear -Hn. induction l as [|[o' w] l IH]; [done|]. simpl in *.
  apply not_elem_of_cons in Hn as [Hne Hn]. destruct (String.eqb_spec o' o) as [->|]; [done|auto].
Qed.

Lemma find_option_app {A} o (l k : list (string * A)) :
  find_option o (l ++ k) = match find_option o l with Some v => Some v | None => find_option o k end.
Proof. induction l as [|[o' v] l IH]; [done|]. simpl. by destruct (String.eqb o' o). Qed.

Lemma find_option_fmap {A B} o (f : string → A → B) (l : list (string * A)) :
  find_option o ((λ '(o, d), (o, f o d)) <$> l) = f o <$> find_option o l.
Proof. induction l as [|[o' v] l IH]; [done|]. simpl. by destruct (String.eqb_spec o' o) as [->|]. Qed.

Definition option_names : list string := SWITCH_OPTIONS.*1 ++ STRING_OPTIONS.*1 ++ INTEGER_OPTIONS.*1.
Lemma option_names_distinct : NoDup option_names.
Proof. apply (bool_decide_eq_true_1 _). vm_compute. reflexivity. Qed.

Lemma conf_entries_names c : (conf_entries c).*1 = option_names.
Proof. reflexivity. Qed.

(** What [get_configuration] shows for an option *)
Lemma shown_option c o :
  get_configuration c !! o =
  match find_option o SWITCH_OPTIONS with
  | Some d => Some (JBool (get_switch c o d))
  | None =>
      match find_option o STRING_OPTIONS with
      | Some d => Some (json_opt JStr (match get_or_none c o with Some v => Some v | None => d end))
      | None => (λ d, json_opt JInt (match get_int_or_none c o with Some v => Some v | None => d end)) <$> find_option o INTEGER_OPTIONS
      end
  end.
Proof.
  unfold get_configuration. rewrite foldl_insert_lookup by (rewrite conf_entries_names; apply option_names_distinct).
  unfold conf_entries. rewrite !find_option_app.
  rewrite (find_option_fmap o (λ o d, JBool (get_switch c o d))).
  rewrite (find_option_fmap o (λ o d, json_opt JStr (match get_or_none c o with Some v => Some v | None => d end))).
  rewrite (find_option_fmap o (λ o d, json_opt JInt (match get_int_or_none c o with Some v => Some v | None => d end))).
  destruct (find_option o SWITCH_OPTIONS); [done|]. destruct (find_option o STRING_OPTIONS); [done|]. by destruct (find_option o INTEGER_OPTIONS).
Qed.

Lemma shown_switch c o d : find_option o SWITCH_OPTIONS = Some d → get_configuration c !! o = Some (JBool (get_switch c o d)).
Proof. intros H. by rewrite shown_option, H. Qed.
Lemma shown_text c o d :
  find_option o SWITCH_OPTIONS = None → find_option o STRING_OPTIONS = Some (Some d) → get_configuration c !! o = Some (JStr (get c o d)).
Proof. intros H1 H2. rewrite shown_option, H1, H2. unfold get, get_or_none. by destruct (lookup_value c o). Qed.
Lemma shown_text_or_none c o :
  find_option o SWITCH_OPTIONS = None → find_option o STRING_OPTIONS = Some None → get_configuration c !! o = Some (json_opt JStr (get_or_none c o)).
Proof. intros H1 H2. rewrite shown_option, H1, H2. by destruct (get_or_none c o). Qed.
Lemma shown_int c o d :
  find_option o SWITCH_OPTIONS = None → find_option o STRING_OPTIONS = None → find_option o INTEGER_OPTIONS = Some (Some d) →
  get_configuration c !! o = Some (JInt (get_int c o d)).
Proof. intros H1 H2 H3. rewrite shown_option, H1, H2, H3. unfold get_int. simpl. by destruct (get_int_or_none c o). Qed.
Lemma shown_int_or_none c o :
  find_option o SWITCH_OPTIONS = None → find_option o STRING_OPTIONS = None → find_option o INTEGER_OPTIONS = Some None →
  get_configuration c !! o = Some (json_opt JInt (get_int_or_none c o)).
Proof. intros H1 H2 H3. rewrite shown_option, H1, H2, H3. simpl. by destruct (get_int_or_none c o). Qed.

Lemma set_switch c o d d' : bool_decide (o ∈ INTEGER_OPTIONS.*1) = false → is_set c o → get_switch c o d = get_switch c o d'.
Proof. unfold is_set, get_switch. intros ->. by intros (v & -> & [->| ->]). Qed.
Lemma set_int c o d d' : bool_decide (o ∈ INTEGER_OPTIONS.*1) = true → is_set c o → get_int c o d = get_int c o d'.
Proof. unfold is_set, get_int. intros ->. by intros [v ->]. Qed.

(** The configuration that is shown is the one that is used.  For every option that the agent reads,
    [get_configuration] has the value that the agent uses, whatever the file says; but four options have
    another default (the values agree when the file sets them), one is shown as a number and used as a
    text, and five are not shown. *)
Theorem shown_configuration_is_used c :
  Forall (λ '(o, read),
      (o ∈ hidden_options ∧ get_configuration c !! o = None) ∨
      (o ∈ other_defaults ∧ (is_set c o → get_configuration c !! o = Some (read c))) ∨
      o ∈ read_as_text ∨
      get_configuration c !! o = Some (read c))
    option_readers.
Proof.
  assert (∀ (o : string) (l : list string), bool_decide (o ∈ l) = true → o ∈ l) as Hin by (intros o l; apply bool_decide_eq_true_1).
  unfold option_readers.
  repeat (apply Forall_cons; split;
    [first [left; split; [apply Hin; reflexivity|by rewrite shown_option]
           |right; left; split; [apply Hin; reflexivity|intros Hs; first
              [etransitivity; [refine (shown_switch c _ _ _); reflexivity|do 2 f_equal; by apply set_switch]
              |etransitivity; [refine (shown_int c _ _ _ _ _); reflexivity|do 2 f_equal; by apply set_int]]]
           |right; right; left; apply Hin; reflexivity
           |right; right; right; first [refine (shown_switch c _ _ _)|refine (shown_text c _ _ _ _)|refine (shown_text_or_none c _ _ _)
             |refine (shown_int c _ _ _ _ _)|refine (shown_int_or_none c _ _ _ _)]; reflexivity]|]).
  constructor.
Qed.

(** Where they differ: updates are off and shown as on, the first period is that of the goal state, and
    two switches are on that are shown as off; the frequencies of updates that are shown are not read. *)
Example shown_configuration_differs :
  let c := mkConf {["AutoUpdate.Enabled" := Some "n"; "Extensions.GoalStatePeriod" := Some "60"; "Debug.AutoUpdateHotfixFrequency" := Some "60"]} in
  (get_configuration c !! "AutoUpdate.UpdateToLatestVersion", get_auto_update_to_latest_version c) = (Some (JBool true), false) ∧
  (get_configuration c !! "Extensions.InitialGoalStatePeriod", get_initial_goal_state_period c) = (Some (JInt 6), 60) ∧
  (get_configuration c !! "OS.CheckRdmaDriver", enable_check_rdma_driver c) = (Some (JBool false), true) ∧
  (get_configuration c !! "Debug.EnableCgroupV2ResourceLimiting", get_enable_cgroup_v2_resource_limiting c) = (Some (JBool false), true) ∧
  (get_configuration c !! "Debug.AutoUpdateHotfixFrequency", get_self_update_hotfix_frequency c) = (Some (JInt 60), 14400).
Proof. vm_compute. done. Qed.

(** The port of the proxy has no default as a number, though it is in the table. *)
Example int_default_of_none_raises : ∃ e, get_int_default_value "HttpProxy.Port" = Err e ∧ e_class e = TypeError.
Proof. by eexists. Qed.

(** A present but malformed [AutoUpdate.UpdateToLatestVersion] does not override [AutoUpdate.Enabled]. *)
Example malformed_switch_does_not_override :
  let c := mkConf {["AutoUpdate.Enabled" := Some "n"; "AutoUpdate.UpdateToLatestVersion" := Some "yes"]} in
  is_present "AutoUpdate.UpdateToLatestVersion" c = true ∧ get_auto_update_to_latest_version c = false.
Proof. vm_compute. done. Qed.

(** ** Changes that are reported at the start (ga/update.py) *)

(** [log_if_int_changed_from_default] and [log_if_op_disabled] *)
Definition log_if_int_changed_from_default (name : string) (current : Z) (message : string) : res exn (list string) :=
  d ← get_int_default_value name;
  Ok (if d =? current then []
      else [name +:+ " changed from its default: " +:+ pretty d +:+ ". New value: " +:+ pretty current +:+ ". " +:+ message]).
Definition log_if_op_disabled (name : string) (value : bool) : list string :=
  if value then [] else [name +:+ " is set to False, not processing the operation"].

(** [_emit_changes_in_default_configuration]: the messages of the events; an exception ends the list *)
Definition period_message : string :=
  "Changing this value affects how often extensions are processed and status for the VM is reported. Too small a value may report the VM as unresponsive".
Definition deprecated_message : string :=
  "AutoUpdate.Enabled property is **Deprecated** now but it's set to different value from AutoUpdate.UpdateToLatestVersion. Please consider removing it if added by mistake".
Definition config_changes (current_version : string) (supports_ga_versioning : bool) c : list (res exn (list string)) :=
  [log_if_int_changed_from_default "Extensions.GoalStatePeriod" (get_goal_state_period c) period_message;
   log_if_int_changed_from_default "Extensions.InitialGoalStatePeriod" (get_initial_goal_state_period c) period_message;
   Ok (log_if_op_disabled "OS.EnableFirewall" (enable_firewall c));
   Ok (log_if_op_disabled "Extensions.Enabled" (get_extensions_enabled c));
   Ok (log_if_op_disabled "AutoUpdate.Enabled" (get_autoupdate_enabled c));
   Ok (log_if_op_disabled "AutoUpdate.UpdateToLatestVersion" (get_auto_update_to_latest_version c));
   Ok (if is_present "AutoUpdate.Enabled" c && negb (Bool.eqb (get_autoupdate_enabled c) (get_auto_update_to_latest_version c)) then [deprecated_message] else []);
   (if enable_firewall c then log_if_int_changed_from_default "OS.EnableFirewallPeriod" (get_enable_firewall_period c) "" else Ok []);
   (if get_autoupdate_enabled c then log_if_int_changed_from_default "Autoupdate.Frequency" (get_autoupdate_frequency c) "" else Ok []);
   Ok (if get_enable_fast_track c then log_if_op_disabled "Debug.EnableFastTrack" (get_enable_fast_track c) else []);
   Ok (if String.eqb (get_lib_dir c) "/var/lib/waagent" then [] else ["lib dir is in an unexpected location: " +:+ get_lib_dir c]);
   Ok (if supports_ga_versioning then [] else ["Agent : " +:+ current_version +:+ " doesn't support GA Versioning"])].
Fixpoint until_error (l : list (res exn (list string))) : list string :=
  match l with Ok m :: l' => m ++ until_error l' | _ => [] end.
Definition emit_changes_in_default_configuration (current_version : string) (supports_ga_versioning : bool) c : list string :=
  until_error (config_changes current_version supports_ga_versioning c).

(** No message says that Fast Track is disabled: the switch is looked at only when it is on. *)
Example disabled_fast_track_is_not_reported :
  let c := mkConf {["Debug.EnableFastTrack" := Some "n"]} in
  get_enable_fast_track c = false ∧
  emit_changes_in_default_configuration "9.9.9.9" true c = emit_changes_in_default_configuration "9.9.9.9" true new_conf.
Proof. vm_compute. done. Qed.
