(* ===== verification/Machine.v ===== *)
(** * A machine: its file system and the commands of its shell

    Code that writes files and runs commands has both as its state; [K] is the rest of the machine,
    which the commands change. *)
From S2P Require Import Prelude PyExn FlexVersion Datetime Json Urls TextUtil World Shell.

Record pstate (K : Type) := mkPState { ps_world : world; ps_shell : shell K }.
Arguments mkPState {K} _ _.
Arguments ps_world {K} _.
Arguments ps_shell {K} _.

Section machine.
Context {K : Type}.
Notation PS X := (M (pstate K) exn X).

Definition set_ps_world (w : world) (s : pstate K) : pstate K := mkPState w (ps_shell s).
Definition set_ps_shell (h : shell K) (s : pstate K) : pstate K := mkPState (ps_world s) h.
Definition on_ps_world {A} (m : M world exn A) : PS A := zoom ps_world set_ps_world m.
Definition on_ps_shell {A} (m : M (shell K) exn A) : PS A := zoom ps_shell set_ps_shell m.
Definition ps_fs (s : pstate K) : fs := w_fs (ps_world s).

Lemma wp_ps_shell {A} (m : M (shell K) exn A) (Q : A → pstate K → Prop) R s :
  (∀ x s', ps_world s' = ps_world s → Q x s') → (∀ e s', ps_world s' = ps_world s → R e s') → wp (on_ps_shell m) Q R s.
Proof. intros HQ HR. unfold on_ps_shell. wp_step. unfold wp. destruct (m (ps_shell s)) as [[x|e] h]; [by apply HQ|by apply HR]. Qed.
End machine.

(** [try: m  except Exception: pass] raises nothing ordinary. *)
Lemma wp_swallow {S} (m : M S exn unit) s : wp (except Exception_ m (λ _, mret tt)) (λ _ _, True) (λ e _, isinstance e Exception_ = false) s.
Proof. apply wp_except. eapply wp_mono; [apply wp_any|done|]. intros e s' _. by split; [intros _; wp_step|]. Qed.
