(* ===== verification/Systemd.v ===== *)
(** * systemd and the units of the agent and of extensions
    (common/osutil/systemd.py, [CGroupUtil] of ga/cgroupapi.py, ga/resourcequota.py)

    Properties of units are read with [systemctl show] and set with [systemctl set-property].  The
    directory of unit files and the name of the agent's service depend on the distribution and are
    parameters; so is [percent], the arithmetic of floats that turns a number and the microseconds of
    its unit into a percentage ([None] when the number is malformed). *)
From S2P Require Import Prelude PyExn FlexVersion Json Urls TextUtil Shell ExtProcess World Conf Machine.
From Stdlib Require Import Ascii.

(** The path of a file name *)
Definition fs_path (s : string) : path := filter (λ x, x ≠ "") (str_split "/" s).
(** [os.path.join] of a directory that may be empty, and a name that is not absolute *)
Definition join_path (dir name : string) : string := if String.eqb dir "" then name else path_join dir name.
Definition py_strip (s : string) : string := drop_spaces_end (drop_spaces s).
(** [s.replace(a, b)] for characters *)
Definition replace_char (a b : ascii) (s : string) : string := str_map (λ c, if Ascii.eqb c a then b else c) s.
(** [s.rsplit("-", 1)[0]] *)
Fixpoint before_last (a : ascii) (s : string) : option string :=
  match s with
  | EmptyString => None
  | String c s' =>
      match before_last a s' with
      | Some t => Some (String c t)
      | None => if Ascii.eqb c a then Some "" else None
      end
  end.

Section systemd.
Context {K : Type} (popen : list string → option string → K → process * K).
Context (unit_file_install_path service_name : string) (percent : string → Z → option string).
Notation PS X := (M (pstate K) exn X).
Notation run_command cmd := (on_ps_shell (Shell.run_command popen cmd None)).

(** ** common/osutil/systemd.py *)

Definition is_systemd (f : fs) : bool := exists_path ["run"; "systemd"; "system"] f.
Definition get_systemd_version : PS string :=
  except Exception_ (output ← run_command ["systemctl"; "--version"]; mret (default "" (head (str_split newline output)))) (λ _, mret "unknown").
Definition get_agent_unit_name : string := service_name +:+ ".service".
Definition get_agent_unit_file : string := path_join unit_file_install_path get_agent_unit_name.
Definition get_agent_drop_in_path : string := path_join unit_file_install_path (get_agent_unit_name +:+ ".d").

(** [re.match("[^=]+=(?P<value>.+)", output)] *)
Definition property_value (output : string) : option string :=
  match span (λ c, negb (Ascii.eqb c "=")) output with
  | (String _ _, String _ rest) => let v := (span (λ c, negb (Ascii.eqb c "010")) rest).1 in if String.eqb v "" then None else Some v
  | _ => None
  end.
Definition get_unit_property (unit_name property_name : string) : PS string :=
  output ← run_command ["systemctl"; "show"; unit_name; "--property"; property_name];
  match property_value output with
  | Some v => mret v
  | None => raise (py_error ValueError ("Can't find property " +:+ property_name +:+ " of " +:+ unit_name))
  end.

Definition set_unit_run_time_property (unit_name property_name value : string) : PS unit :=
  except CommandError (_ ← run_command ["systemctl"; "set-property"; unit_name; property_name +:+ "=" +:+ value; "--runtime"]; mret tt)
    (λ e, raise (py_error ValueError ("Can't set property " +:+ property_name +:+ " of " +:+ unit_name +:+ ": " +:+ e_msg e))).
Definition set_unit_run_time_properties (unit_name : string) (property_names values : list string) : PS unit :=
  if bool_decide (length property_names = length values) then
    let properties := zip_with (λ name value, name +:+ "=" +:+ value) property_names values in
    except CommandError (_ ← run_command (["systemctl"; "set-property"; unit_name] ++ properties ++ ["--runtime"]); mret tt)
      (λ e, raise (py_error ValueError ("Can't set properties " +:+ str_join ", " properties +:+ " of " +:+ unit_name +:+ ": " +:+ e_msg e)))
  else raise (py_error ValueError "The number of property names and values must be the same").

Definition is_unit_loaded (unit_name : string) : PS bool :=
  except CommandError (value ← get_unit_property unit_name "LoadState"; mret (String.eqb (str_lower value) "loaded")) (λ _, mret false).

(** [is_systemd_run_failure], of the text of stderr *)
Definition is_systemd_run_failure (unit_name stderr : string) : bool :=
  str_contains ("Unit " +:+ unit_name +:+ " not found.") stderr || negb (str_contains unit_name stderr).

(** ** [CGroupUtil] *)

Definition EXTENSION_SLICE_PREFIX : string := "azure-vmextensions".
Definition CGROUP_FILE_SYSTEM_ROOT : string := "/sys/fs/cgroup".

Definition distro_supported (distro_name distro_version : string) : bool :=
  match FV distro_version with
  | Err _ => false
  | Ok v =>
      let name := str_lower distro_name in
      (String.eqb name "ubuntu" && (16 <=? fv_major v)) ||
      (bool_decide (name ∈ ["centos"; "redhat"]) && (fv_major v =? 8)) ||
      (String.eqb name "rhel" && (9 <=? fv_major v)) ||
      (String.eqb name "azurelinux" && (3 <=? fv_major v)) ||
      (String.eqb name "sles" && (((fv_major v =? 15) && (6 <=? fv_minor v)) || (15 <? fv_major v))) ||
      (String.eqb name "oracle" && (((fv_major v =? 9) && (5 <=? fv_minor v)) || (9 <? fv_major v))) ||
      String.eqb name "chainguard"
  end.

Definition get_extension_slice_name (extension_name : string) (old_slice : bool) : string :=
  let name := if old_slice then extension_name else default extension_name (before_last "-" extension_name) in
  EXTENSION_SLICE_PREFIX +:+ "-" +:+ replace_char "-" "_" name +:+ ".slice".

(** [get_daemon_pid] *)
Definition get_daemon_pid (pid_file : path) (f : fs) : res exn Z :=
  content ← read_file pid_file f;
  match Urls.int_text (py_strip (c_text content)) with
  | Some z => Ok z
  | None => Err (py_error ValueError "invalid literal for int()")
  end.

(** [_foreach_legacy_cgroup], with an operation that does nothing; [rmtree] ignores errors. *)
Definition legacy_cgroup (controller : string) : path := fs_path CGROUP_FILE_SYSTEM_ROOT ++ [controller; "WALinuxAgent"; "WALinuxAgent"].
Definition check_legacy (pid_file cgroup : path) : PS unit :=
  f ← gets ps_fs;
  if exists_path (cgroup ++ ["cgroup.procs"]) f
  then lift (content ← read_file (cgroup ++ ["cgroup.procs"]) f; get_daemon_pid pid_file f) ;; mret tt
  else mret tt.
Definition cleanup_legacy_cgroups (wf : path → option (bool * exn)) (pid_file : path) : PS Z :=
  f ← gets ps_fs;
  let legacy_cgroups := filter (λ p, exists_path p f = true) (legacy_cgroup <$> ["cpu"; "memory"]) in
  finally (for_each legacy_cgroups (check_legacy pid_file))
    (for_each legacy_cgroups (λ cgroup, except Exception_ (on_ps_world (rmtree wf cgroup)) (λ _, mret tt))) ;;
  mret (Z.of_nat (length legacy_cgroups)).

(** [get_current_cpu_quota]: the text before the unit, and the microseconds of the unit *)
Definition str_init (n : nat) (s : string) : string := str_take (String.length s - n) s.
Definition parse_cpu_quota (quota : string) : option string :=
  if String.eqb quota "infinity" then Some quota
  else
    '(number, scale) ← (if ends_with "us" quota then Some (str_init 2 quota, 1)
                        else if ends_with "ms" quota then Some (str_init 2 quota, 1000)
                        else if ends_with "s" quota then Some (str_init 1 quota, 1000000) else None);
    percent number scale.
Definition get_current_cpu_quota (unit_name : string) : PS string :=
  except Exception_ (v ← get_unit_property unit_name "CPUQuotaPerSecUSec";
                     match parse_cpu_quota (str_lower (py_strip v)) with
                     | Some q => mret q
                     | None => raise (py_error ValueError "Invalid format. Expected 's', 'ms', 'us', or 'infinity'.")
                     end)
    (λ _, mret "unknown").
Definition has_cpu_quota (unit_name : string) : PS bool :=
  q ← get_current_cpu_quota unit_name; mret (negb (bool_decide (q ∈ ["infinity"; "unknown"]))).

(** [get_current_memory_quota] *)
Definition parse_memory_quota (quota : string) : option string :=
  let scaled (power : Z) := (λ z, pretty (z * 1024 ^ power)) <$> Urls.int_text (str_init 1 quota) in
  if String.eqb quota "infinity" then Some quota
  else if ends_with "k" quota then scaled 1
  else if ends_with "m" quota then scaled 2
  else if ends_with "g" quota then scaled 3
  else if ends_with "t" quota then scaled 4
  else Some quota.
Definition get_current_memory_quota (unit_name : string) : PS string :=
  except Exception_ (v ← get_unit_property unit_name "MemoryHigh";
                     match parse_memory_quota (str_lower (py_strip v)) with
                     | Some q => mret q
                     | None => raise (py_error ValueError "invalid literal for int()")
                     end)
    (λ _, mret "unknown").
End systemd.

Example slice_names :
  get_extension_slice_name "Microsoft.Azure.Monitor-1.2.3" false = "azure-vmextensions-Microsoft.Azure.Monitor.slice" ∧
  get_extension_slice_name "Microsoft.Azure-Monitor-1.2.3" true = "azure-vmextensions-Microsoft.Azure_Monitor_1.2.3.slice" ∧
  property_value ("CPUQuotaPerSecUSec=50ms" +:+ newline) = Some "50ms" ∧
  parse_memory_quota "300m" = Some "314572800".
Proof. vm_compute. done. Qed.
