(* ===== verification/CgroupApi.v ===== *)
(** * Control groups (ga/cgroupapi.py, ga/cgroupcontroller.py, ga/cpucontroller.py, ga/memorycontroller.py)

    The two versions of the interface of control groups, the paths of a cgroup, its processes, and the
    controllers that read its counters.  An [Api] is the object [create_cgroup_api] returns; its list
    of running [systemd-run] commands is part of the state of [Cgroups].  Values that the agent keeps
    as floats are in thousandths; [uptime_ok] tells whether the text of /proc/uptime is a number, and
    [pressure] gives the thousandths of a second of a memory pressure. *)
From S2P Require Import Prelude PyExn FlexVersion Json Urls TextUtil Shell ExtProcess World Conf Machine Systemd.
From Stdlib Require Import Ascii.
Import Re.

Inductive Api :=
| ApiV1 (cgroup_mountpoints : list (string * string))
| ApiV2 (root_cgroup_path : string) (controllers_enabled_at_root : list string).

Inductive Cgroup :=
| CgroupV1 (cgroup_name : string) (controller_mountpoints controller_paths : list (string * string))
| CgroupV2 (cgroup_name root_cgroup_path cgroup_path : string) (enabled_controllers : list string).

Definition CPU_CONTROLLER_V1 : string := "cpu,cpuacct".
Definition CPU_CONTROLLER_V2 : string := "cpu".
Definition MEMORY_CONTROLLER : string := "memory".
Definition supported_v1 : list string := [CPU_CONTROLLER_V1; MEMORY_CONTROLLER].
Definition supported_v2 : list string := [CPU_CONTROLLER_V2; MEMORY_CONTROLLER].

Definition not_space (c : ascii) : bool := negb (is_py_space c).
Definition not_newline (c : ascii) : bool := negb (Ascii.eqb c "010").
(** [s.lstrip('/')] *)
Fixpoint lstrip_slashes (s : string) : string := match s with String c s' => if Ascii.eqb c "/" then lstrip_slashes s' else s | "" => "" end.
(** [s[1:]] *)
Definition str_tail (s : string) : string := match s with String _ s' => s' | "" => "" end.

Definition cgroups_error (msg : string) : exn := agent_error CGroupsException msg None (-1).
Definition mountpoint_error (msg : string) : exn := agent_error InvalidCgroupMountpointException msg None (-1).

(** ** The version in use *)

(** [r'(?P<path>\S+\/(?P<controller>\S+))\s+cgroup'] *)
Definition mount_regex (s : string) : list (string * string) :=
  '(a, r1) ← class_plus not_space s;
  '(_, r2) ← lit "/" r1;
  '(controller, r3) ← class_plus not_space r2;
  '(_, r4) ← class_plus is_py_space r3;
  '(_, _) ← lit "cgroup" r4;
  [(controller, a +:+ "/" +:+ controller)].
(** [_get_controller_mountpoints], of the output of [findmnt] *)
Fixpoint mountpoints_of (l : list string) (mount_points : list (string * string)) : list (string * string) :=
  match l with
  | [] => mount_points
  | line :: l' =>
      mountpoints_of l' match re_search mount_regex line with
                        | Some (controller, path) => if bool_decide (controller ∈ supported_v1) then dict_set controller path mount_points else mount_points
                        | None => mount_points
                        end
  end.
(** [r'(?P<path>\/sys\/fs\/cgroup)\s+cgroup2'] *)
Definition root_regex (s : string) : list string :=
  '(path, r1) ← lit CGROUP_FILE_SYSTEM_ROOT s; '(_, r2) ← class_plus is_py_space r1; '(_, _) ← lit "cgroup2" r2; [path].
(** [_get_root_cgroup_path] *)
Fixpoint root_of (l : list string) : string :=
  match l with [] => "" | line :: l' => match re_search root_regex line with Some path => path | None => root_of l' end end.

(** [are_mountpoints_systemd_created] *)
Definition are_mountpoints_systemd_created (mountpoints : list (string * string)) : bool :=
  forallb (λ '(controller, mount_point), String.eqb mount_point (path_join CGROUP_FILE_SYSTEM_ROOT controller)) mountpoints.

(** [_get_controllers_enabled_at_root] *)
Definition get_controllers_enabled_at_root (root_cgroup_path : string) (f : fs) : res exn (list string) :=
  let p := fs_path (join_path root_cgroup_path "cgroup.subtree_control") in
  if exists_path p f
  then content ← read_file p f; Ok (filter (λ c, c ∈ py_words "" (c_text content)) supported_v2)
  else Ok [].

Section api.
Context {K : Type} (popen : list string → option string → K → process * K).
Notation PS X := (M (pstate K) exn X).
Notation run_command cmd := (on_ps_shell (Shell.run_command popen cmd None)).

Definition findmnt (type : string) : PS string := run_command ["findmnt"; "-t"; type; "--noheadings"].
Definition stat_type (path : string) : PS string := out ← run_command ["stat"; "-f"; "--format=%T"; path]; mret (drop_spaces_end out).
Definition is_cgroup2fs (mode : string) : bool :=
  String.eqb mode "cgroup2fs" || (starts_with "UNKNOWN" mode && str_contains "0x63677270" mode).

Definition SystemdCgroupApiv1 : PS Api := out ← findmnt "cgroup"; mret (ApiV1 (mountpoints_of (lines out) [])).
Definition SystemdCgroupApiv2 : PS Api :=
  out ← findmnt "cgroup2";
  let root := root_of (lines out) in
  f ← gets ps_fs;
  controllers ← (if String.eqb root "" then mret [] else lift (get_controllers_enabled_at_root root f));
  mret (ApiV2 root controllers).

(** [create_cgroup_api]; the check of a hybrid hierarchy *)
Definition unified_hierarchy_path : string := path_join CGROUP_FILE_SYSTEM_ROOT "unified".
Definition check_hybrid : PS unit :=
  f ← gets ps_fs;
  if exists_path (fs_path unified_hierarchy_path) f then
    unified_hierarchy_mode ← stat_type unified_hierarchy_path;
    if is_cgroup2fs unified_hierarchy_mode then
      f ← gets ps_fs;
      let p := fs_path (path_join unified_hierarchy_path "cgroup.controllers") in
      if exists_path p f then
        content ← lift (read_file p f);
        let available := drop_spaces_end (c_text content) in
        if String.eqb available "" then mret tt
        else raise (cgroups_error ("Detected hybrid cgroup mode, but there are controllers available to be enabled in unified hierarchy: " +:+ available))
      else mret tt
    else mret tt
  else mret tt.
Definition create_cgroup_api : PS Api :=
  f ← gets ps_fs;
  if negb (exists_path (fs_path CGROUP_FILE_SYSTEM_ROOT) f) then
    v1_mount_point ← findmnt "cgroup";
    v2_mount_point ← findmnt "cgroup2";
    raise (mountpoint_error ("Expected cgroup filesystem to be mounted at '/sys/fs/cgroup', but it is not." +:+ newline +:+ " v1 mount point: " +:+ newline +:+
                             v1_mount_point +:+ newline +:+ " v2 mount point: " +:+ newline +:+ v2_mount_point))
  else
    root_hierarchy_mode ← stat_type CGROUP_FILE_SYSTEM_ROOT;
    if is_cgroup2fs root_hierarchy_mode then SystemdCgroupApiv2
    else if String.eqb root_hierarchy_mode "tmpfs" then
      check_hybrid ;;
      api ← SystemdCgroupApiv1;
      match api with
      | ApiV1 mountpoints =>
          if are_mountpoints_systemd_created mountpoints then mret api
          else raise (mountpoint_error "Expected cgroup controllers to be mounted at '/sys/fs/cgroup', but at least one is not.")
      | ApiV2 _ _ => mret api
      end
    else raise (cgroups_error (CGROUP_FILE_SYSTEM_ROOT +:+ " has an unexpected file type: " +:+ root_hierarchy_mode)).

(** ** The cgroup of a unit, of a path and of a process *)

Definition at_mountpoints (relative_path : string) (mountpoints : list (string * string)) : list (string * string) :=
  prod_map id (λ m, path_join m relative_path) <$> mountpoints.
Definition get_cgroup_from_relative_path (api : Api) (relative_path cgroup_name : string) : Cgroup :=
  match api with
  | ApiV1 mountpoints => CgroupV1 cgroup_name mountpoints (at_mountpoints relative_path mountpoints)
  | ApiV2 root controllers => CgroupV2 cgroup_name root (if String.eqb root "" then "" else path_join root relative_path) controllers
  end.
Definition get_unit_cgroup (api : Api) (unit_name cgroup_name : string) : PS Cgroup :=
  relative_path ← get_unit_property popen unit_name "ControlGroup";
  mret (get_cgroup_from_relative_path api (str_tail relative_path) cgroup_name).
End api.

(** [_get_process_relative_controller_paths]: [r'\d+:(?P<controller>.+):(?P<path>.+)'] *)
Definition process_regex (s : string) : option (string * string) :=
  head ('(_, r1) ← digits_plus s; '(_, r2) ← lit ":" r1; '(controller, r3) ← class_plus not_newline r2; '(_, r4) ← lit ":" r3;
        '(path, _) ← class_plus not_newline r4; [(controller, path)]).
Fixpoint relative_controller_paths (l : list string) (paths : list (string * string)) : list (string * string) :=
  match l with
  | [] => paths
  | line :: l' =>
      relative_controller_paths l'
        match process_regex line with
        | Some (controller, path) =>
            if negb (String.eqb path "/") && bool_decide (controller ∈ supported_v1) then dict_set controller (lstrip_slashes path) paths else paths
        | None => paths
        end
  end.
(** [_get_process_relative_cgroup_path]: [r'0::(?P<path>\S+)'] *)
Definition relative_cgroup_path (l : list string) : string :=
  foldl (λ relative_path line,
           match strip_prefix "0::" line with
           | Some rest => let path := (span not_space rest).1 in
               if String.eqb path "" then relative_path else if String.eqb path "/" then "" else lstrip_slashes path
           | None => relative_path
           end) "" l.
Definition get_process_cgroup (api : Api) (process_id cgroup_name : string) (f : fs) : res exn Cgroup :=
  content ← read_file ["proc"; process_id; "cgroup"] f;
  let l := lines (c_text content) in
  Ok match api with
     | ApiV1 mountpoints =>
         let relative := relative_controller_paths l [] in
         CgroupV1 cgroup_name mountpoints
           (omap (λ '(controller, m), (λ p, (controller, path_join m p)) <$> dict_get controller relative) mountpoints)
     | ApiV2 root controllers =>
         CgroupV2 cgroup_name root (if String.eqb root "" then "" else path_join root (relative_cgroup_path l)) controllers
     end.

Definition using_cgroup_v2 (api : option Api) : bool := match api with Some (ApiV2 _ _) => true | _ => false end.
Definition can_enforce_cpu (api : Api) : bool :=
  match api with
  | ApiV1 mountpoints => bool_decide (is_Some (dict_get CPU_CONTROLLER_V1 mountpoints))
  | ApiV2 _ controllers => bool_decide (CPU_CONTROLLER_V2 ∈ controllers)
  end.
Definition can_enforce_memory (api : Api) : bool :=
  match api with ApiV1 _ => false | ApiV2 _ controllers => bool_decide (MEMORY_CONTROLLER ∈ controllers) end.
Definition get_accounting_properties (api : Api) : list (string * string) :=
  match api with ApiV1 _ => [("CPUAccounting", "yes"); ("MemoryAccounting", "yes")] | ApiV2 _ _ => [] end.

(** [check_in_expected_slice] *)
Definition check_in_expected_slice (c : Cgroup) (expected_slice : string) : bool :=
  match c with
  | CgroupV1 _ _ paths => forallb (λ '(_, path), str_contains expected_slice path) paths
  | CgroupV2 _ _ path _ => str_contains expected_slice path
  end.

(** ** Processes *)

(** [int(pid)] of every word of a [cgroup.procs] file, if it is there *)
Definition pids_of_file (p : string) (f : fs) : res exn (list Z) :=
  if negb (String.eqb p "") && exists_path (fs_path p) f then
    content ← read_file (fs_path p) f;
    map_res (λ w, match Urls.int_text w with Some z => Ok z | None => Err (py_error ValueError "invalid literal for int() with base 10") end)
      (py_words "" (c_text content))
  else Ok [].
Definition procs_paths (c : Cgroup) : list string :=
  match c with
  | CgroupV1 _ _ paths => (λ '(_, path), if String.eqb path "" then "" else path_join path "cgroup.procs") <$> paths
  | CgroupV2 _ _ path _ => [if String.eqb path "" then "" else path_join path "cgroup.procs"]
  end.
(** [get_processes]; [set_order] is the order of a set of numbers. *)
Definition get_processes (set_order : list Z → list Z) (c : Cgroup) (f : fs) : res exn (list Z) :=
  pids ← map_res (λ p, pids_of_file p f) (procs_paths c);
  Ok (set_order (remove_dups (mjoin pids))).

(** ** Controllers *)

Inductive controller_type := CpuController | MemoryController.
#[export] Instance controller_type_eq_dec : EqDecision controller_type.
Proof. solve_decision. Defined.

(** [ct_usage] is the CPU time of the cgroup (ticks, or microseconds in version 2) and of the system
    (the text of its ticks, or of its uptime), once they have been read. *)
Record Controller := mkController {
  ct_type : controller_type; ct_v2 : bool; ct_name : string; ct_path : string;
  ct_usage : option (Z * string); ct_track_throttle_time : bool
}.
Definition new_controller (t : controller_type) (v2 : bool) (name path : string) : Controller := mkController t v2 name path None false.
Definition set_throttle (b : bool) (c : Controller) : Controller := mkController (ct_type c) (ct_v2 c) (ct_name c) (ct_path c) (ct_usage c) b.
Definition set_usage (u : Z * string) (c : Controller) : Controller :=
  mkController (ct_type c) (ct_v2 c) (ct_name c) (ct_path c) (Some u) (ct_track_throttle_time c).
Definition get_controller_type (c : Controller) : string := match ct_type c with CpuController => "cpu" | MemoryController => "memory" end.
Definition get_unit_properties (c : Controller) : list string :=
  match ct_type c, ct_v2 c with
  | CpuController, false => ["CPUQuotaPerSecUSec"; "CPUAccounting"]
  | CpuController, true => ["CPUQuotaPerSecUSec"]
  | MemoryController, false => ["MemoryAccounting"]
  | MemoryController, true => ["MemoryHigh"]
  end.

(** [get_controllers] *)
Definition type_of_name (v2 : bool) (name : string) : option controller_type :=
  if String.eqb name (if v2 then CPU_CONTROLLER_V2 else CPU_CONTROLLER_V1) then Some CpuController
  else if String.eqb name MEMORY_CONTROLLER then Some MemoryController else None.
Definition get_controllers (c : Cgroup) : list Controller :=
  match c with
  | CgroupV1 name mountpoints paths =>
      omap (λ supported, _ ← dict_get supported mountpoints; path ← dict_get supported paths;
                         t ← type_of_name false supported; Some (new_controller t false name path)) supported_v1
  | CgroupV2 name _ path enabled =>
      omap (λ supported, if bool_decide (supported ∈ enabled) && negb (String.eqb path "")
                         then t ← type_of_name true supported; Some (new_controller t true name path) else None) supported_v2
  end.

Definition is_enoent (e : exn) : bool := isinstance e OSError && (e_code e =? ENOENT).
Definition cgroup_file (c : Controller) (file_name : string) : path := fs_path (join_path (ct_path c) file_name).
(** The digits at the start of a text *)
Definition leading_int (s : string) : option (Z * string) := let '(d, r) := span is_digit s in if String.eqb d "" then None else Some (int_of_digits d, r).

Section counters.
Context (f : fs) (uptime_ok : string → bool) (pressure : string → option Z).

(** [r'{0}\s+(\d+)'], at the start of a line; the first line that matches *)
Definition counter_line (counter_name line : string) : option Z :=
  rest ← strip_prefix counter_name line;
  match span is_py_space rest with
  | ("", _) => None
  | (_, r) => fst <$> leading_int r
  end.
Definition find_counter (counter_name : string) (l : list string) : option Z := head (omap (counter_line counter_name) l).

(** [_get_cpu_stat_counter] *)
Definition get_cpu_stat_counter (c : Controller) (counter_name : string) : res exn Z :=
  match read_file (cgroup_file c "cpu.stat") f with
  | Ok content =>
      match find_counter counter_name (lines (c_text content)) with
      | Some z => Ok z
      | None => Err (cgroups_error ("Failed to read cpu.stat: Cannot find " +:+ counter_name))
      end
  | Err e => if is_enoent e then Ok 0 else if isinstance e Exception_ then Err (cgroups_error ("Failed to read cpu.stat: " +:+ e_msg e)) else Err e
  end.

(** [_get_cpu_ticks] and [_get_cpu_time], before the cgroup may exist *)
Definition parse_cpuacct (text : string) : option Z :=
  r1 ← strip_prefix "user " text; '(user, r2) ← leading_int r1; r3 ← strip_prefix (newline +:+ "system ") r2;
  '(system, r4) ← leading_int r3; _ ← strip_prefix newline r4; Some (user + system).
(** The last [usage_usec] of the text *)
Fixpoint parse_usage_usec (text : string) : option Z :=
  match text with
  | EmptyString => None
  | String _ text' =>
      match parse_usage_usec text' with
      | Some z => Some z
      | None => r ← strip_prefix "usage_usec " text; fst <$> leading_int r
      end
  end.
Definition initial_usage (c : Controller) : res exn Z :=
  let '(file, parse) := if ct_v2 c then ("cpu.stat", parse_usage_usec) else ("cpuacct.stat", parse_cpuacct) in
  match read_file (cgroup_file c file) f with
  | Ok content =>
      match parse (c_text content) with
      | Some z => Ok z
      | None => Err (cgroups_error ("The contents of " +:+ join_path (ct_path c) file +:+ " are invalid: " +:+ c_text content))
      end
  | Err e => if is_enoent e then Ok 0 else if isinstance e Exception_ then Err (cgroups_error ("Failed to read " +:+ file +:+ ": " +:+ e_msg e)) else Err e
  end.

(** [get_total_cpu_ticks_since_boot] *)
Definition get_total_cpu_ticks_since_boot : res exn Z :=
  content ← read_file ["proc"; "stat"] f;
  match List.find (starts_with "cpu ") (lines (c_text content)) with
  | None => Ok 0
  | Some line =>
      l ← map_res (λ w, match Urls.int_text w with Some z => Ok z | None => Err (py_error ValueError "invalid literal for int()") end)
            (take 7 (drop 1 (py_words "" line)));
      Ok (foldr Z.add 0 l)
  end.
(** [_get_system_usage] of version 2 *)
Definition get_system_uptime : res exn string :=
  match read_file ["proc"; "uptime"] f with
  | Err e => if isinstance e OSError then Err (cgroups_error ("Couldn't read /proc/uptime: " +:+ e_msg e))
             else if isinstance e Exception_ then Err (cgroups_error ("Couldn't parse /proc/uptime: " +:+ e_msg e)) else Err e
  | Ok content =>
      match py_words "" (c_text content) with
      | t :: _ => if uptime_ok t then Ok t else Err (cgroups_error "Couldn't parse /proc/uptime: could not convert string to float")
      | [] => Err (cgroups_error "Couldn't parse /proc/uptime: list index out of range")
      end
  end.

(** [initialize_cpu_usage] *)
Definition initialize_cpu_usage (c : Controller) : res exn Controller :=
  match ct_usage c with
  | Some _ => Err (cgroups_error "initialize_cpu_usage() should be invoked only once")
  | None =>
      usage ← initial_usage c;
      system ← (if ct_v2 c then get_system_uptime else t ← get_total_cpu_ticks_since_boot; Ok (pretty t));
      Ok (set_usage (usage, system) c)
  end.

(** [is_active]: a process in the cgroup or in one below it *)
Definition found_cgroup_procs (p : path) : res exn bool :=
  match read_file p f with
  | Ok content => Ok (bool_decide (lines (c_text content) ≠ []))
  | Err e => if is_enoent e then Ok false else Err e
  end.
Fixpoint any_found (l : list path) : res exn bool :=
  match l with [] => Ok false | p :: l' => b ← found_cgroup_procs p; if (b : bool) then Ok true else any_found l' end.
Definition is_active (c : Controller) : res exn bool :=
  let d := fs_path (ct_path c) in
  let below := filter (λ p, exists_path p f = true) ((λ x, d ++ [x; "cgroup.procs"]) <$> listdir d f) in
  match any_found ((d ++ ["cgroup.procs"]) :: below) with
  | Err e => if isinstance e Exception_ then Ok false else Err e
  | r => r
  end.

(** *** Metrics of memory *)

(** A whole number, or thousandths *)
Inductive number := Whole (z : Z) | Milli (z : Z).
Record MetricValue := mkMetric { mv_category : string; mv_counter : string; mv_instance : string; mv_value : number }.
Definition number_gt (n : number) (z : Z) : bool := match n with Whole a => z <? a | Milli a => 1000 * z <? a end.

Definition not_found (msg : string) : exn := py_error CounterNotFound msg.
(** [_get_memory_stat_counter], [get_memory_throttled_events] *)
Definition memory_counter (c : Controller) (file counter_name : string) : res exn Z :=
  match read_file (cgroup_file c file) f with
  | Ok content =>
      match find_counter counter_name (lines (c_text content)) with Some z => Ok z | None => Err (not_found ("Cannot find counter: " +:+ counter_name)) end
  | Err e => if is_enoent e then Err e else if isinstance e Exception_ then Err (cgroups_error ("Failed to read " +:+ file +:+ ": " +:+ e_msg e)) else Err e
  end.
(** [int(self._get_parameters(name, first_line_only=True))], with the errors of its callers *)
Definition first_int (c : Controller) (name : string) : res exn Z :=
  match read_file (cgroup_file c name) f with
  | Ok content =>
      match (l ← head (lines (c_text content)); Urls.int_text l) with
      | Some z => Ok z
      | None => Err (cgroups_error ("Exception while attempting to read " +:+ name))
      end
  | Err e => if is_enoent e then Err e else if isinstance e Exception_ then Err (cgroups_error ("Exception while attempting to read " +:+ name)) else Err e
  end.
Definition zero_if (p : exn → bool) (r : res exn Z) : res exn Z := match r with Err e => if p e then Ok 0 else Err e | _ => r end.
Definition try_swap_memory_usage (c : Controller) : res exn Z :=
  if ct_v2 c then first_int c "memory.swap.current" else zero_if (λ e, isinstance e CounterNotFound) (memory_counter c "memory.stat" "swap").
Definition get_max_memory_usage (c : Controller) : res exn Z :=
  zero_if is_enoent (first_int c (if ct_v2 c then "memory.peak" else "memory.max_usage_in_bytes")).
Definition EOPNOTSUPP : Z := 95.
(** [get_memory_pressure_events] *)
Definition avg300_regex (s : string) : list string :=
  '(_, r) ← lit "avg300=" s; match span (λ c, is_digit c || Ascii.eqb c ".") r with ("", _) => [] | (t, _) => [t] end.
Definition get_memory_pressure_events (c : Controller) : res exn Z :=
  match read_file (cgroup_file c "memory.pressure") f with
  | Ok content =>
      match head (omap (re_search avg300_regex) (lines (c_text content))) with
      | Some t => match pressure t with Some z => Ok z | None => Err (cgroups_error "Failed to read memory.pressure: could not convert string to float") end
      | None => Ok 0
      end
  | Err e => if isinstance e OSError && bool_decide (e_code e ∈ [ENOENT; EOPNOTSUPP]) then Ok 0
             else if isinstance e Exception_ then Err (cgroups_error ("Failed to read memory.pressure: " +:+ e_msg e)) else Err e
  end.

(** [get_tracked_metrics] of a controller of memory *)
Definition memory_metric (c : Controller) (counter : string) (n : number) : MetricValue := mkMetric "Memory" counter (ct_name c) n.
Definition ANON_MEM_USAGE : string := "Anon Memory Usage (B)".
Definition memory_metrics (c : Controller) : res exn (list MetricValue) :=
  anon ← memory_counter c "memory.stat" (if ct_v2 c then "anon" else "rss");
  cache ← memory_counter c "memory.stat" (if ct_v2 c then "file" else "cache");
  max ← get_max_memory_usage c;
  swap ← try_swap_memory_usage c;
  let tracked := [memory_metric c "Total Memory Usage (B)" (Whole (anon + cache)); memory_metric c ANON_MEM_USAGE (Whole anon);
                  memory_metric c "Cache Memory Usage (B)" (Whole cache); memory_metric c "Swap Memory Usage (B)" (Whole swap)] ++
                 (if 0 <? max then [memory_metric c "Max Memory Usage (B)" (Whole max)] else []) in
  if ct_v2 c then
    throttled ← memory_counter c "memory.events" "high";
    p ← get_memory_pressure_events c;
    Ok (tracked ++ [memory_metric c "Total Memory Throttled Events" (Whole throttled)] ++
        (if 0 <? p then [memory_metric c "Memory Pressure (s)" (Milli p)] else []))
  else Ok tracked.
End counters.

(** *** Samples *)

Example mountpoints_sample :
  mountpoints_of ["/sys/fs/cgroup/systemd          cgroup cgroup rw,name=systemd"; "/sys/fs/cgroup/memory           cgroup cgroup rw,memory";
                  "/sys/fs/cgroup/cpu,cpuacct      cgroup cgroup rw,cpu,cpuacct"] [] =
  [("memory", "/sys/fs/cgroup/memory"); ("cpu,cpuacct", "/sys/fs/cgroup/cpu,cpuacct")].
Proof. vm_compute. reflexivity. Qed.

Example cgroup_samples :
  root_of ["/sys/fs/cgroup cgroup2 cgroup2 rw,nosuid"] = "/sys/fs/cgroup" ∧
  relative_controller_paths ["10:memory:/system.slice/walinuxagent.service"; "3:cpu,cpuacct:/"] [] = [("memory", "system.slice/walinuxagent.service")] ∧
  parse_cpuacct ("user 10190" +:+ newline +:+ "system 3160" +:+ newline) = Some 13350 ∧
  parse_usage_usec ("usage_usec 1990707" +:+ newline +:+ "user_usec 1939858") = Some 1990707 ∧
  find_counter "throttled_usec" ["nr_throttled 397"; "throttled_usec 37994949"] = Some 37994949.
Proof. vm_compute. done. Qed.
