(* ===== verification/Users.v ===== *)
(** * Accounts of the machine (common/osutil/default.py, common/utils/fileutil.py, common/utils/cryptutil.py)

    Accounts are created, changed and removed with the tools of the system.  [accounts] is the database
    of users as [pwd] reads it, with the fields the tools set.  Random salts, the hash functions, base64
    and UTF-16 are parameters; modes of files and log output are omitted. *)
From S2P Require Import Prelude PyExn FlexVersion Datetime Json Urls TextUtil World Conf Shell Machine.
From Stdlib Require Import Ascii.

Record account := mkAccount {
  ac_name : string;
  ac_uid : Z;
  ac_comment : string;               (* pw_gecos *)
  ac_expiration : option string;
  ac_password : option string        (* the hash *)
}.
#[export] Instance account_eq_dec : EqDecision account.
Proof. solve_decision. Defined.

Definition osutil_error (msg : string) : exn := agent_error OSUtilError msg None (-1).

(** ** Files of text *)

(** [fileutil.get_line_startingwith] *)
Definition get_line_startingwith (prefix : string) (p : path) (f : fs) : res exn (option string) :=
  content ← read_file p f;
  Ok (List.find (starts_with prefix) (str_split newline (c_text content))).

(** [fileutil.findstr_in_file]: a line that is the text, but for spaces at its end *)
Definition findstr_in_file (p : path) (line_str : string) (f : fs) : bool :=
  match read_file p f with
  | Ok content => existsb (λ line, String.eqb line_str (drop_spaces_end line)) (lines (c_text content))
  | Err _ => false
  end.

(** The hash function at hand *)
Inductive hash_method := Crypt | Passlib | NoHash.

Section users.
Context {K : Type} (popen : list string → option string → K → process * K).
Context (accounts : K → list account) (wf : path → option (bool * exn)).
Context (c : ConfigurationProvider) (sudoers_dir : path).
Context (hash : hash_method) (salt : K → Z → string) (crypt sha512_crypt : string → string → string).
Context (b64decode decode_utf16 : string → res exn string).
Notation PS X := (M (pstate K) exn X).
Notation run_command cmd := (on_ps_shell (Shell.run_command popen cmd None)).
Definition users_of (s : pstate K) : list account := accounts (sh_machine (ps_shell s)).

(** [fileutil.append_file] *)
Definition append_file (p : path) (t : string) : M world exn unit := λ w,
  if isdir p (w_fs w) then (Err (os_error EISDIR "Is a directory"), w)
  else if negb (isdir (parent_dir p) (w_fs w)) then (Err (os_error ENOENT "No such file or directory"), w)
  else
    match wf p with
    | Some (_, e) => (Err e, w)
    | None =>
        let old := match w_fs w !! p with Some (File x _) => c_text x | _ => "" end in
        (Ok tt, with_fs <[p := File (plain (old +:+ t)) (w_now w)]> w)
    end.

(** [_run_command_without_raising], [_run_command_raising_OSUtilError] *)
Definition run_without_raising (cmd : list string) : PS unit :=
  except Exception_ (run_command cmd ;; mret tt) (λ _, mret tt).
Definition run_raising_OSUtilError (cmd : list string) (err_msg : string) : PS string :=
  catch (run_command cmd) (λ e,
    if isinstance e CommandError then
      raise (osutil_error (err_msg +:+ ", Retcode: " +:+ pretty (returncode e) +:+ ", Error: " +:+ e_msg e))
    else if isinstance e Exception_ then raise (osutil_error (err_msg +:+ ", Retcode: -1, Error: " +:+ e_msg e))
    else raise e).

(** [get_userentry]; [pwd.getpwnam(None)] raises [TypeError] *)
Definition find_account (name : string) (l : list account) : option account := List.find (λ a, String.eqb (ac_name a) name) l.
Definition get_userentry (username : option string) : PS (option account) :=
  match username with
  | None => raise (py_error TypeError "getpwnam() argument must be str, not None")
  | Some name => gets (λ s, find_account name (users_of s))
  end.

(** [is_sys_user]: below [UID_MIN] of /etc/login.defs; only an [IOError] is caught *)
Definition login_defs : path := ["etc"; "login.defs"].
Definition read_uid_min (f : fs) : res exn (option Z) :=
  line ← get_line_startingwith "UID_MIN" login_defs f;
  match line with
  | None => Ok None
  | Some line =>
      match py_words "" line !! 1%nat with
      | None => Err (py_error IndexError "list index out of range")
      | Some w =>
          match int_text w with
          | Some z => Ok (Some z)
          | None => Err (py_error ValueError ("invalid literal for int() with base 10: '" +:+ w +:+ "'"))
          end
      end
  end.
Definition is_sys_user (username : string) : PS bool :=
  if get_allow_reset_sys_user c then mret false
  else
    userentry ← get_userentry (Some username);
    f ← gets ps_fs;
    uidmin ← except OSError (lift (read_uid_min f)) (λ _, mret None);
    mret (match userentry with Some a => ac_uid a <? default 100 uidmin | None => false end).

(** [useradd] *)
Definition useradd_command (username : string) (expiration comment : option string) : list string :=
  ["useradd"; "-m"; username] ++ from_option (λ e, ["-e"; e]) [] expiration ++ from_option (λ t, ["-c"; t]) [] comment.
Definition useradd (username : option string) (expiration comment : option string) : PS unit :=
  userentry ← get_userentry username;
  match userentry, username with
  | None, Some name =>
      run_raising_OSUtilError (useradd_command name expiration comment) ("Failed to create user account:" +:+ name) ;; mret tt
  | _, _ => mret tt
  end.

(** [gen_password_hash], [chpasswd] *)
Definition gen_password_hash (password crypt_id : string) (salt_len : Z) (k : K) : res exn string :=
  match hash with
  | Crypt => Ok (crypt password ("$" +:+ crypt_id +:+ "$" +:+ salt k salt_len))
  | Passlib => Ok (sha512_crypt password (salt k salt_len))
  | NoHash => Err (osutil_error "This feature requires one of the 'crypt', 'legacycrypt', 'crypt-r', or passlib Python packages to be installed.")
  end.
Definition chpasswd (username password crypt_id : string) (salt_len : Z) : PS unit :=
  sys ← is_sys_user username;
  if (sys : bool) then raise (osutil_error ("User " +:+ username +:+ " is a system user, will not set password."))
  else
    k ← gets (λ s, sh_machine (ps_shell s));
    passwd_hash ← lift (gen_password_hash password crypt_id salt_len k);
    run_raising_OSUtilError ["usermod"; "-p"; passwd_hash; username] ("Failed to set password for " +:+ username) ;; mret tt.

(** [conf_sudoer] *)
Definition sudoers_wagent : path := sudoers_dir ++ ["waagent"].
Definition sudoer_line (username : string) (nopasswd : bool) : string :=
  username +:+ (if nopasswd then " ALL=(ALL) NOPASSWD: ALL" else " ALL=(ALL) ALL").
Definition add_sudoer (username : string) (nopasswd : bool) : PS unit :=
  f ← gets ps_fs;
  when (negb (isdir sudoers_dir f))
    (on_ps_world (mkdir wf sudoers_dir) ;;
     on_ps_world (append_file (parent_dir sudoers_dir ++ ["sudoers"]) (newline +:+ "#includedir " +:+ path_str sudoers_dir +:+ newline))) ;;
  f ← gets ps_fs;
  let sudoer := sudoer_line username nopasswd in
  when (negb (isfile sudoers_wagent f) || negb (findstr_in_file sudoers_wagent sudoer f))
    (on_ps_world (append_file sudoers_wagent (sudoer +:+ newline))).
Definition remove_sudoer (username : string) : PS unit :=
  f ← gets ps_fs;
  when (isfile sudoers_wagent f)
    (except OSError
       (content ← lift (read_file sudoers_wagent f);
        on_ps_world (write_file wf sudoers_wagent
          (plain (str_join newline (filter (λ x, str_contains username x = false) (str_split newline (c_text content)))))))
       (λ e, raise (osutil_error ("Failed to remove sudoer: " +:+ e_msg e)))).
Definition conf_sudoer (username : string) (nopasswd remove : bool) : PS unit :=
  if remove then remove_sudoer username else add_sudoer username nopasswd.

(** [del_account] *)
Definition del_account (username : string) : PS unit :=
  is_sys_user username ;;
  run_without_raising ["touch"; "/var/run/utmp"] ;;
  run_without_raising ["userdel"; "-f"; "-r"; username] ;;
  conf_sudoer username false true.

(** [CryptUtil.decrypt_secret] *)
Definition decrypt_secret (encrypted_password : option string) (private_key : string) : PS string :=
  catch
    (decoded ← lift (match encrypted_password with Some t => b64decode t | None => Err (py_error TypeError "argument should be a bytes-like object or ASCII string, not 'NoneType'") end);
     output ← on_ps_shell (Shell.run_command popen
                (str_split " " (get_openssl_cmd c +:+ " cms -decrypt -inform DER -inkey " +:+ private_key +:+ " -in /dev/stdin")) (Some decoded));
     lift (decode_utf16 output))
    (λ e,
      if isinstance e CommandError then
        raise (py_error Exception_ ("Command 'openssl cms -decrypt' returned non-zero exit status " +:+ pretty (returncode e)))
      else if isinstance e Exception_ then raise (agent_error CryptError "Error decoding secret" (Some e) (-1))
      else raise e).

(** [del_root_password] *)
Definition del_root_password (passwd_file_path : path) : PS unit :=
  except OSError
    (f ← gets ps_fs;
     content ← lift (read_file passwd_file_path f);
     let new_passwd := filter (λ x, starts_with "root:" x = false) (str_split newline (c_text content)) in
     on_ps_world (write_file wf passwd_file_path (plain (str_join newline ("root:*LOCK*:14600::::::" :: new_passwd)))))
    (λ e, raise (osutil_error ("Failed to delete root password:" +:+ e_msg e))).
End users.
