(* ===== verification/RemoteAccess.v ===== *)
(** * Accounts for remote access (ga/remoteaccess.py)

    The goal state may name accounts that exist until a point in time.  The agent creates them with a
    comment, by which it recognises them, and removes those that expired or that the goal state does not
    name any more.  [clock] is the time of the machine in microseconds; [order] is the order in which a
    set of names is traversed. *)
From S2P Require Import Prelude PyExn FlexVersion Datetime Json Urls TextUtil Xml World Conf Shell Machine Users.
From Stdlib Require Import Ascii.

Definition REMOTE_ACCESS_ACCOUNT_COMMENT : string := "JIT_Account".
Definition TRANSPORT_PRIVATE_CERT : string := "TransportPrivate.pem".

(** ** Dates *)

(** The names of [%a], [%b] and [%Z], in either case *)
Fixpoint lit_text_ci (t s : string) : list string :=
  match t with "" => [s] | String x t' => r ← lit_ci x s; lit_text_ci t' r end.
Definition name_field (names : list string) (s : string) : list (Z * string) :=
  '(i, n) ← imap (λ i n, (Z.of_nat i + 1, n)) names; r ← lit_text_ci n s; [(i, r)].
Definition weekday_names : list string := ["mon"; "tue"; "wed"; "thu"; "fri"; "sat"; "sun"].
Definition month_names : list string := ["jan"; "feb"; "mar"; "apr"; "may"; "jun"; "jul"; "aug"; "sep"; "oct"; "nov"; "dec"].

(** [\s+]: the longest run of spaces first *)
Fixpoint some_spaces (s : string) : list string :=
  match s with String x s' => if is_py_space x then some_spaces s' ++ [s'] else [] | "" => [] end.

(** [datetime.strptime(s, "%a, %d %b %Y %H:%M:%S %Z")]; [zones] are the names of the local time zone *)
Definition parse_expiration (zones : list string) (s : string) : list datetime :=
  '(_, s) ← name_field weekday_names s; s ← lit_ci "," s; s ← some_spaces s;
  '(d, s) ← day_field s; s ← some_spaces s;
  '(m, s) ← name_field month_names s; s ← some_spaces s;
  '(y, s) ← year_field s; s ← some_spaces s;
  '(h, s) ← num_field 0 23 s; s ← lit_ci ":" s;
  '(mi, s) ← num_field 0 59 s; s ← lit_ci ":" s;
  '(sec, s) ← num_field 0 61 s; s ← some_spaces s;
  '(_, s) ← name_field (zones ++ ["utc"; "gmt"]) s;
  if String.eqb s "" then [mkDatetime y m d h mi sec 0] else [].
Definition strptime_expiration (zones : list string) (s : option string) : res exn datetime :=
  match s with
  | None => Err (py_error TypeError "strptime() argument 1 must be str, not None")
  | Some s =>
      match head (parse_expiration zones s) with
      | Some t => if valid_datetime t then Ok t else Err (py_error ValueError "day is out of range for month")
      | None => Err (py_error ValueError ("time data '" +:+ s +:+ "' does not match format '%a, %d %b %Y %H:%M:%S %Z'"))
      end
  end.
Example strptime_expiration_ex :
  strptime_expiration [] (Some "Tue, 01 Jan 2019 00:00:00 UTC") = Ok (mkDatetime 2019 1 1 0 0 0 0) ∧
  is_ok (strptime_expiration [] (Some "2019-01-01")) = false.
Proof. by vm_compute. Qed.

(** [(t + timedelta(days=1)).strftime("%Y-%m-%d")]; [OverflowError] is an [ArithmeticError] *)
Definition next_day (t : datetime) : Z * Z * Z :=
  if dt_day t <? days_in_month (dt_year t) (dt_month t) then (dt_year t, dt_month t, dt_day t + 1)
  else if dt_month t <? 12 then (dt_year t, dt_month t + 1, 1) else (dt_year t + 1, 1, 1).
Definition expiration_date (t : datetime) : res exn string :=
  let '(y, m, d) := next_day t in
  if 9999 <? y then Err (py_error ArithmeticError "date value out of range")
  else Ok (fixed 4 y +:+ "-" +:+ fixed 2 m +:+ "-" +:+ fixed 2 d).

(** ** The handler *)

Record handler (K : Type) := mkHandler {
  rh_check_existing_jit_users : bool;
  rh_remote_access : option RemoteAccess;
  rh_machine : pstate K
}.
Arguments mkHandler {K} _ _ _.
Arguments rh_check_existing_jit_users {K} _.
Arguments rh_remote_access {K} _.
Arguments rh_machine {K} _.

(** [_is_jit_user] *)
Definition is_jit_user (comment : string) : bool := String.eqb comment REMOTE_ACCESS_ACCOUNT_COMMENT.

Section remote_access.
Context {K : Type} (popen : list string → option string → K → process * K).
Context (accounts : K → list account) (clock : K → Z) (wf : path → option (bool * exn)).
Context (c : ConfigurationProvider) (sudoers_dir : path).
Context (hash : hash_method) (salt : K → Z → string) (crypt sha512_crypt : string → string → string).
Context (b64decode decode_utf16 : string → res exn string).
Context (jit_enabled : bool) (zones : list string) (order : list string → list string).
Notation PS X := (M (pstate K) exn X).
Notation RA X := (M (handler K) exn X).

Definition new_handler (s : pstate K) : handler K := mkHandler true None s.
Definition set_check (b : bool) (h : handler K) : handler K := mkHandler b (rh_remote_access h) (rh_machine h).
Definition set_remote_access (r : option RemoteAccess) (h : handler K) : handler K := mkHandler (rh_check_existing_jit_users h) r (rh_machine h).
Definition set_machine (s : pstate K) (h : handler K) : handler K := mkHandler (rh_check_existing_jit_users h) (rh_remote_access h) s.
Definition on_machine {A} (m : PS A) : RA A := zoom rh_machine set_machine m.

(** [_get_existing_jit_users] *)
Definition jit_names (l : list account) : list string := ac_name <$> filter (λ a, is_jit_user (ac_comment a) = true) l.
Definition get_existing_jit_users : PS (list string) := gets (λ s, order (jit_names (users_of accounts s))).

(** [_remove_user] *)
Definition remove_user (username : string) : PS unit := del_account popen accounts wf c sudoers_dir username.

(** [_add_user] *)
Definition set_up_user (username : string) (encrypted_password : option string) : PS unit :=
  pwd ← decrypt_secret popen c b64decode decode_utf16 encrypted_password (path_join (get_lib_dir c) TRANSPORT_PRIVATE_CERT);
  chpasswd popen accounts c hash salt crypt sha512_crypt username pwd (get_password_cryptid c) (get_password_crypt_salt_len c) ;;
  conf_sudoer wf sudoers_dir username false false.
Definition add_user (username encrypted_password : option string) (account_expiration : datetime) : PS unit :=
  date ← lift (expiration_date account_expiration);
  useradd popen accounts username (Some date) (Some REMOTE_ACCESS_ACCOUNT_COMMENT) ;;
  match username with
  | Some name => except Exception_ (set_up_user name encrypted_password) (λ e, remove_user name ;; raise e)
  | None => mret tt     (* useradd raised *)
  end.

(** One account of the goal state in [_handle_remote_access] *)
Definition process_user (existing_jit_users : list string) (acc : RemoteAccessUser) : PS unit :=
  except Exception_
    (account_expiration ← lift (strptime_expiration zones (ru_expiration acc));
     now ← gets (λ s, clock (sh_machine (ps_shell s)));
     let existing := match ru_name acc with Some n => bool_decide (n ∈ existing_jit_users) | None => false end in
     if negb existing && (now <? to_us account_expiration) then
       add_user (ru_name acc) (ru_encrypted_password acc) account_expiration
     else if existing && (to_us account_expiration <? now) then
       match ru_name acc with Some n => remove_user n | None => mret tt end
     else mret tt)
    (λ _, mret tt).

(** An account that the goal state does not name *)
Definition remove_unnamed (goal_state_users : list (option string)) (user : string) : PS unit :=
  except Exception_ (when (negb (bool_decide (Some user ∈ goal_state_users))) (remove_user user)) (λ _, mret tt).

(** The loop without accounts in the goal state; returns [remove_user_errors] *)
Fixpoint remove_all (users : list string) (remove_user_errors : bool) : PS bool :=
  match users with
  | [] => mret remove_user_errors
  | user :: users' =>
      failed ← except Exception_ (remove_user user ;; mret false) (λ _, mret true);
      remove_all users' (remove_user_errors || failed)
  end.

(** [_handle_remote_access] *)
Definition handle_remote_access : RA unit :=
  r ← gets rh_remote_access;
  match r with
  | Some ra =>
      modify (set_check true) ;;
      on_machine
        (existing_jit_users ← get_existing_jit_users;
         for_each (ra_users ra) (process_user existing_jit_users) ;;
         for_each existing_jit_users (remove_unnamed (ru_name <$> ra_users ra)))
  | None =>
      check ← gets rh_check_existing_jit_users;
      when check
        (errors ← on_machine (existing_jit_users ← get_existing_jit_users; remove_all existing_jit_users false);
         when (negb errors) (modify (set_check false)))
  end.

(** [run] *)
Definition run (remote_access : option RemoteAccess) : RA unit :=
  except Exception_
    (when jit_enabled (modify (set_remote_access remote_access) ;; handle_remote_access))
    (λ _, mret tt).
End remote_access.

(** ** What the tools promise

    A command changes the database of users as documented, or leaves it, whatever its exit code is. *)
Definition set_password (name hash : string) (a : account) : account :=
  if String.eqb (ac_name a) name then mkAccount (ac_name a) (ac_uid a) (ac_comment a) (ac_expiration a) (Some hash) else a.
Definition without_user (name : string) (l : list account) : list account := filter (λ a, ac_name a ≠ name) l.

Class UserTools {K} (popen : list string → option string → K → process * K) (accounts : K → list account) : Prop := {
  ut_useradd name date comment k :
    let k' := (popen (useradd_command name (Some date) (Some comment)) None k).2 in
    accounts k' = accounts k ∨ ∃ uid, accounts k' = accounts k ++ [mkAccount name uid comment (Some date) None];
  ut_usermod name h k :
    let k' := (popen ["usermod"; "-p"; h; name] None k).2 in
    accounts k' = accounts k ∨ accounts k' = set_password name h <$> accounts k;
  ut_userdel name k :
    let k' := (popen ["userdel"; "-f"; "-r"; name] None k).2 in
    accounts k' = accounts k ∨ accounts k' = without_user name (accounts k);
  ut_other command input k :
    head command ∉ Some <$> ["useradd"; "usermod"; "userdel"] → accounts (popen command input k).2 = accounts k
}.

(** ** Accounts that are left alone *)

Lemma same_name_same (l : list account) a b : NoDup (ac_name <$> l) → a ∈ l → b ∈ l → ac_name a = ac_name b → a = b.
Proof.
  induction l as [|x l IH]; [by intros _ ?%elem_of_nil|]. rewrite fmap_cons, NoDup_cons, !elem_of_cons. intros [Hx Hl] [->|Ha] [->|Hb] He; [done| | |auto];
    destruct Hx; apply list_elem_of_fmap; eauto.
Qed.

Section spared.
Context {K : Type} (popen : list string → option string → K → process * K) (accounts : K → list account).
Context `{!UserTools popen accounts} (clock : K → Z) (wf : path → option (bool * exn)).
Context (c : ConfigurationProvider) (sudoers_dir : path).
Context (hash : hash_method) (salt : K → Z → string) (crypt sha512_crypt : string → string → string).
Context (b64decode decode_utf16 : string → res exn string).
Context (jit_enabled : bool) (zones : list string) (order : list string → list string) (order_perm : ∀ l x, x ∈ order l ↔ x ∈ l).
(** The openssl command is not one of the tools. *)
Context (Hssl : ∀ key, head (str_split " " (get_openssl_cmd c +:+ " cms -decrypt -inform DER -inkey " +:+ key +:+ " -in /dev/stdin"))
                       ∉ Some <$> ["useradd"; "usermod"; "userdel"]).
Notation machine s := (sh_machine (ps_shell s)).
Notation users s := (accounts (machine s)).
Implicit Types (N G : list string) (name : string) (l : list account).

Lemma run_machine cmd input (h : shell K) : sh_machine (Shell.run_command popen cmd input h).2 = (popen cmd input (sh_machine h)).2.
Proof.
  pose proof (run_command_spec popen cmd input h) as H. destruct (popen cmd input (sh_machine h)) as [[e|pid [rc out err|e]] k].
  - by rewrite H.
  - by destruct H as (l & _ & ->).
  - by destruct H as (e' & _ & ->).
Qed.

(** The accounts with the names [N] are as they were, and those with names not in [G] were there. *)
Definition spared N G (s s' : pstate K) : Prop :=
  filter (λ a, ac_name a ∈ N) (users s') = filter (λ a, ac_name a ∈ N) (users s) ∧
  ∀ a, a ∈ users s' → ac_name a ∉ G → a ∈ users s.
#[local] Instance spared_preorder N G : PreOrder (spared N G).
Proof. split; [by intros s|]. unfold spared. intros s1 s2 s3 [H1 G1] [H2 G2]. split; [by rewrite H2|eauto]. Qed.

Lemma spared_run N G cmd input :
  (∀ k, filter (λ a, ac_name a ∈ N) (accounts (popen cmd input k).2) = filter (λ a, ac_name a ∈ N) (accounts k) ∧
        ∀ a, a ∈ accounts (popen cmd input k).2 → ac_name a ∉ G → a ∈ accounts k) →
  pres (spared N G) (on_ps_shell (Shell.run_command popen cmd input)).
Proof.
  intros H s. unfold spared, on_ps_shell, zoom. pose proof (run_machine cmd input (ps_shell s)) as Hr.
  destruct (Shell.run_command popen cmd input (ps_shell s)) as [r h]. simpl in *. by rewrite Hr.
Qed.

Lemma filter_without N name l : name ∉ N → filter (λ a, ac_name a ∈ N) (without_user name l) = filter (λ a, ac_name a ∈ N) l.
Proof.
  intros Hn. unfold without_user. induction l as [|a l IH]; [done|]. rewrite !filter_cons. destruct (decide (ac_name a ≠ name)).
  - rewrite filter_cons. by rewrite IH.
  - rewrite decide_False by naive_solver. done.
Qed.

Lemma filter_set_password N name h l : name ∉ N → filter (λ a, ac_name a ∈ N) (set_password name h <$> l) = filter (λ a, ac_name a ∈ N) l.
Proof.
  intros Hn. induction l as [|a l IH]; [done|]. rewrite fmap_cons, !filter_cons, IH. unfold set_password.
  destruct (String.eqb_spec (ac_name a) name) as [Ha|]; [|done]. simpl. rewrite !decide_False by congruence. done.
Qed.

Lemma spared_useradd N G name date comment : name ∉ N → name ∈ G →
  pres (spared N G) (on_ps_shell (Shell.run_command popen (useradd_command name (Some date) (Some comment)) None)).
Proof.
  intros Hn Hg. apply spared_run. intros k. destruct (ut_useradd name date comment k) as [->|[uid ->]]; [done|].
  rewrite filter_app, filter_cons, decide_False, app_nil_r by done. split; [done|]. set_solver.
Qed.
Lemma spared_usermod N G name h : name ∉ N → name ∈ G → pres (spared N G) (on_ps_shell (Shell.run_command popen ["usermod"; "-p"; h; name] None)).
Proof.
  intros Hn Hg. apply spared_run. intros k. destruct (ut_usermod name h k) as [->| ->]; [done|]. split; [by apply filter_set_password|].
  intros a (a' & -> & Ha)%list_elem_of_fmap. unfold set_password. by destruct (String.eqb_spec (ac_name a') name) as [<-|].
Qed.
Lemma spared_userdel N G name : name ∉ N → pres (spared N G) (on_ps_shell (Shell.run_command popen ["userdel"; "-f"; "-r"; name] None)).
Proof.
  intros Hn. apply spared_run. intros k. destruct (ut_userdel name k) as [->| ->]; [done|]. split; [by apply filter_without|].
  by intros a [_ Ha]%list_elem_of_filter.
Qed.
Lemma spared_other N G cmd input : head cmd ∉ Some <$> ["useradd"; "usermod"; "userdel"] → pres (spared N G) (on_ps_shell (Shell.run_command popen cmd input)).
Proof. intros Hc. apply spared_run. intros k. by rewrite ut_other. Qed.
Lemma spared_world {A} N G (m : M world exn A) : pres (spared N G) (on_ps_world m).
Proof. intros s. unfold on_ps_world, zoom, spared. by destruct (m (ps_world s)). Qed.

#[local] Hint Resolve spared_useradd spared_usermod spared_userdel spared_world : pres.

Lemma spared_is_sys_user N G name : pres (spared N G) (is_sys_user accounts c name).
Proof. unfold is_sys_user, get_userentry, except. pres_auto. Qed.
#[local] Hint Resolve spared_is_sys_user : pres.
Lemma spared_touch N G : pres (spared N G) (on_ps_shell (Shell.run_command popen ["touch"; "/var/run/utmp"] None)).
Proof. apply spared_other. set_solver. Qed.
#[local] Hint Resolve spared_touch : pres.

Lemma spared_remove N G name : name ∉ N → pres (spared N G) (remove_user popen accounts wf c sudoers_dir name).
Proof. intros Hn. unfold remove_user, del_account, run_without_raising, conf_sudoer, remove_sudoer, except. pres_auto. Qed.
#[local] Hint Resolve spared_remove : pres.

Lemma spared_decrypt N G t key : pres (spared N G) (decrypt_secret popen c b64decode decode_utf16 t key).
Proof. unfold decrypt_secret. pres_auto; apply spared_other, Hssl. Qed.
#[local] Hint Resolve spared_decrypt : pres.

Lemma spared_add N G name t e : name ∉ N → name ∈ G →
  pres (spared N G) (add_user popen accounts wf c sudoers_dir hash salt crypt sha512_crypt b64decode decode_utf16 (Some name) t e).
Proof.
  intros Hn Hg. unfold add_user, useradd, get_userentry, set_up_user, chpasswd, run_raising_OSUtilError, conf_sudoer, add_sudoer, except. pres_auto.
Qed.

Lemma spared_process N G E u : (∀ n, ru_name u = Some n → n ∉ N ∧ n ∈ G) →
  pres (spared N G) (process_user popen accounts clock wf c sudoers_dir hash salt crypt sha512_crypt b64decode decode_utf16 zones E u).
Proof.
  intros Hu. unfold process_user, except. destruct (ru_name u) as [n|] eqn:Hn.
  - destruct (Hu n) as [??]; [done|]. pose proof (spared_add N G n) as Ha. pres_auto; eauto with pres.
  - unfold add_user, useradd, get_userentry. pres_auto.
Qed.

Lemma spared_unnamed N G goal user : (Some user ∉ goal → user ∉ N) →
  pres (spared N G) (remove_unnamed popen accounts wf c sudoers_dir goal user).
Proof. intros Hu. unfold remove_unnamed, except. destruct (bool_decide_reflect (Some user ∈ goal)); simpl; pres_auto; auto with pres. Qed.

Lemma spared_remove_all N G (l : list string) b : (∀ x, x ∈ l → x ∉ N) → pres (spared N G) (remove_all popen accounts wf c sudoers_dir l b).
Proof.
  revert b. induction l as [|x l IH]; intros b Hl; simpl; [apply pres_ret, _|]. assert (x ∉ N) by set_solver.
  assert (∀ b, pres (spared N G) (remove_all popen accounts wf c sudoers_dir l b)) by (intros b'; apply IH; set_solver). unfold except. pres_auto.
Qed.

Notation run r := (run popen accounts clock wf c sudoers_dir hash salt crypt sha512_crypt b64decode decode_utf16 jit_enabled zones order r).

(** C26: accounts that are not for remote access are left alone.  Whatever commands and writes fail and
    whatever the goal state says, every account that was not made for remote access and that the goal
    state does not name is as it was, and no account appears that the goal state does not name. *)
Theorem other_accounts_are_spared r h :
  NoDup (ac_name <$> users (rh_machine h)) →
  let named := from_option (λ ra, ru_name <$> ra_users ra) [] r in
  let users' := users (rh_machine (run r h).2) in
  (∀ a, a ∈ users (rh_machine h) → is_jit_user (ac_comment a) = false → Some (ac_name a) ∉ named → a ∈ users') ∧
  (∀ a, a ∈ users' → Some (ac_name a) ∉ named → a ∈ users (rh_machine h)).
Proof.
  intros Hnd named.
  set (N := ac_name <$> filter (λ a, is_jit_user (ac_comment a) = false ∧ Some (ac_name a) ∉ named) (users (rh_machine h))).
  set (G := omap id named).
  assert (∀ x, x ∈ order (jit_names (users (rh_machine h))) → x ∉ N) as HE.
  { intros x Hx%(proj1 (order_perm _ _)) (a & -> & [[Hj _] Ha]%list_elem_of_filter)%list_elem_of_fmap.
    apply list_elem_of_fmap in Hx as (b & Hb & [Hjb Hbu]%list_elem_of_filter). assert (a = b) as <-; [|congruence].
    by eapply same_name_same. }
  assert (∀ n, Some n ∈ named → n ∉ N ∧ n ∈ G) as HG.
  { intros n Hn. split; [|by apply list_elem_of_omap; exists (Some n)].
    intros (a & -> & [[_ Hg] _]%list_elem_of_filter)%list_elem_of_fmap. done. }
  assert (spared N G (rh_machine h) (rh_machine (run r h).2)) as [H1 H2].
  { apply (wp_end (λ h', spared N G (rh_machine h) (rh_machine h'))). unfold run. apply wp_except.
    apply wp_when; intros _; [|done]. wp_step. wp_step. unfold handle_remote_access. wp_step. wp_step. simpl. destruct r as [ra|].
    - wp_step. wp_step. unfold on_machine. wp_step. simpl. unfold get_existing_jit_users. wp_step. wp_step.
      change (users_of accounts (rh_machine h)) with (users (rh_machine h)).
      eapply wp_mono; [apply (pres_wp (spared N G)), pres_bind; [apply _| |intros _]; apply pres_for_each_in; try apply _|done|].
      + intros u Hu. apply spared_process. intros n Hn. apply HG, list_elem_of_fmap. eauto.
      + intros x Hx. apply spared_unnamed. auto.
      + intros e s' Hs'. split; intros _; [by wp_step|done].
    - wp_step. wp_step. apply wp_when; intros _; [|done]. wp_step. unfold on_machine. wp_step. simpl. unfold get_existing_jit_users. wp_step. wp_step.
      change (users_of accounts (rh_machine h)) with (users (rh_machine h)).
      eapply wp_mono; [apply (pres_wp (spared N G)), spared_remove_all, HE|..].
      + intros b s' Hs'. simpl in *. apply wp_when; intros _; [by wp_step|done].
      + intros e s' Hs'. split; intros _; [by wp_step|done]. }
  split.
  - intros a Ha Hj Hn. assert (a ∈ filter (λ a, ac_name a ∈ N) (users (rh_machine h))) as Hf.
    { apply list_elem_of_filter. split; [|done]. apply list_elem_of_fmap. exists a. split; [done|]. by apply list_elem_of_filter. }
    rewrite <-H1 in Hf. by apply list_elem_of_filter in Hf as [_ ?].
  - intros a Ha Hn. apply H2; [done|]. intros ([n|] & Hin & [= ->])%list_elem_of_omap. done.
Qed.
End spared.

(** ** A machine to try the code on *)
Module Sample.
Definition exited (rc : Z) (out : string) : process := Started 1 (Exited rc out "").

(** [locked]: [userdel] fails. *)
Definition sim (locked : bool) (command : list string) (input : option string) (l : list account) : process * list account :=
  if bool_decide (head command = Some "useradd") then
    match command with
    | [_; _; name; _; date; _; comment] =>
        if find_account name l then (exited 9 "", l) else (exited 0 "", l ++ [mkAccount name 1001 comment (Some date) None])
    | _ => (exited 2 "", l)
    end
  else if bool_decide (head command = Some "usermod") then
    match command with
    | [_; _; h; name] => if find_account name l then (exited 0 "", set_password name h <$> l) else (exited 6 "", l)
    | _ => (exited 2 "", l)
    end
  else if bool_decide (head command = Some "userdel") then
    match command with
    | [_; _; _; name] =>
        if locked then (exited 10 "", l)
        else if find_account name l then (exited 0 "", without_user name l) else (exited 6 "", l)
    | _ => (exited 2 "", l)
    end
  else if bool_decide (head command = Some "/usr/bin/openssl") then (exited (if bool_decide (input = Some "secret") then 0 else 4) "password", l)
  else (exited 0 "", l).

Lemma sim_useradd locked name date comment l :
  sim locked (useradd_command name (Some date) (Some comment)) None l =
  if find_account name l then (exited 9 "", l) else (exited 0 "", l ++ [mkAccount name 1001 comment (Some date) None]).
Proof. reflexivity. Qed.
Lemma sim_usermod locked name h l :
  sim locked ["usermod"; "-p"; h; name] None l =
  if find_account name l then (exited 0 "", set_password name h <$> l) else (exited 6 "", l).
Proof. reflexivity. Qed.
Lemma sim_userdel locked name l :
  sim locked ["userdel"; "-f"; "-r"; name] None l =
  if locked then (exited 10 "", l) else if find_account name l then (exited 0 "", without_user name l) else (exited 6 "", l).
Proof. reflexivity. Qed.

#[export] Instance sim_tools locked : UserTools (sim locked) id.
Proof.
  constructor.
  - intros name date comment l. rewrite sim_useradd. destruct (find_account name l); [by left|by right; exists 1001].
  - intros name h l. rewrite sim_usermod. destruct (find_account name l); [by right|by left].
  - intros name l. rewrite sim_userdel. destruct locked, (find_account name l); [by left..|by right|by left].
  - intros command input l Hc. unfold sim. rewrite !bool_decide_eq_false_2 by set_solver. by case_bool_decide.
Qed.

Definition sudoers_dir : path := ["etc"; "sudoers.d"].
Definition disk : world :=
  mkWorld (<[["etc"] := Dir]> (<[sudoers_dir := Dir]> (<[sudoers_dir ++ ["waagent"] := File (plain ("alice ALL=(ALL) ALL" +:+ newline +:+ "bobby ALL=(ALL) ALL" +:+ newline)) 0]> ∅))) 0 [] false.
Definition start (l : list account) : handler (list account) := new_handler (mkPState disk (mkShell [] l)).
Definition run_once (locked : bool) (r : option RemoteAccess) (l : list account) : handler (list account) :=
  (run (sim locked) id (λ _, 0) (λ _, None) new_conf sudoers_dir Crypt (λ _ _, "salt") (λ p s, s +:+ "$" +:+ p) (λ p _, p) Ok Ok true [] remove_dups r (start l)).2.
Definition accounts_after (h : handler (list account)) : list account := sh_machine (ps_shell (rh_machine h)).

Definition goal (name password : string) : option RemoteAccess :=
  Some (mkRemoteAccess None None [mkRemoteAccessUser (Some name) (Some password) (Some "Tue, 01 Jan 2030 00:00:00 UTC")]).
Definition jit (name : string) : account := mkAccount name 1001 REMOTE_ACCESS_ACCOUNT_COMMENT (Some "2030-01-02") None.
Definition daemon : account := mkAccount "daemon" 1 "daemon" None None.
Definition alice : account := mkAccount "alice" 1000 "Alice" None None.

Example user_is_added :
  accounts_after (run_once false (goal "bob" "secret") [daemon; alice; jit "eve"]) =
  [daemon; alice; mkAccount "bob" 1001 REMOTE_ACCESS_ACCOUNT_COMMENT (Some "2030-01-02") (Some "$6$salt$password")].
Proof. vm_compute. reflexivity. Qed.

(** A goal state that names an existing account: a system account is deleted, because its password must
    not be set; another one gets the password of the goal state, or is deleted when there is none. *)
Example named_account_is_deleted :
  accounts_after (run_once false (goal "daemon" "secret") [daemon; alice]) = [alice] ∧
  accounts_after (run_once false (goal "alice" "other") [daemon; alice]) = [daemon] ∧
  ac_password <$> accounts_after (run_once false (goal "alice" "secret") [daemon; alice]) = [None; Some "$6$salt$password"].
Proof. vm_compute. done. Qed.

(** [userdel] fails, and the accounts are not looked at again. *)
Example failed_removal_is_forgotten :
  let h := run_once true None [jit "eve"] in
  accounts_after h = [jit "eve"] ∧ rh_check_existing_jit_users h = false.
Proof. vm_compute. done. Qed.

(** Removing a user removes the lines of every user whose name contains the name. *)
Example sudoers_of_others_are_removed :
  read_file (sudoers_dir ++ ["waagent"]) (ps_fs (rh_machine (run_once false None [jit "bob"]))) = Ok (plain ("alice ALL=(ALL) ALL" +:+ newline)).
Proof. vm_compute. reflexivity. Qed.

Lemma sample_openssl key :
  head (str_split " " (get_openssl_cmd new_conf +:+ " cms -decrypt -inform DER -inkey " +:+ key +:+ " -in /dev/stdin")) = Some "/usr/bin/openssl".
Proof.
  replace (get_openssl_cmd new_conf +:+ " cms -decrypt -inform DER -inkey " +:+ key +:+ " -in /dev/stdin")
    with ("/usr/bin/openssl" +:+ " " +:+ "cms -decrypt -inform DER -inkey " +:+ key +:+ " -in /dev/stdin") by reflexivity.
  unfold str_split. by rewrite split_component by (done || lia).
Qed.

Lemma other_accounts_are_spared_witness :
  let h := start [daemon; alice; jit "eve"] in
  let r := goal "bob" "secret" in
  NoDup (ac_name <$> id (sh_machine (ps_shell (rh_machine h)))) ∧
  let named := from_option (λ ra, ru_name <$> ra_users ra) [] r in
  let users' := id (sh_machine (ps_shell (rh_machine (run (sim false) id (λ _, 0) (λ _, None) new_conf sudoers_dir Crypt (λ _ _, "salt") (λ p s, s +:+ "$" +:+ p)
                  (λ p _, p) Ok Ok true [] remove_dups r h).2))) in
  (∀ a, a ∈ id (sh_machine (ps_shell (rh_machine h))) → is_jit_user (ac_comment a) = false → Some (ac_name a) ∉ named → a ∈ users') ∧
  (∀ a, a ∈ users' → Some (ac_name a) ∉ named → a ∈ id (sh_machine (ps_shell (rh_machine h)))).
Proof.
  intros h r. assert (NoDup (ac_name <$> id (sh_machine (ps_shell (rh_machine h))))) as Hnd by (apply (bool_decide_eq_true_1 _); vm_compute; reflexivity).
  split; [exact Hnd|].
  refine (other_accounts_are_spared (sim false) id (λ _, 0) (λ _, None) new_conf sudoers_dir Crypt (λ _ _, "salt") (λ p s, s +:+ "$" +:+ p) (λ p _, p) Ok Ok true []
    remove_dups _ _ r h Hnd); [intros l x; apply elem_of_remove_dups|intros key; rewrite sample_openssl; set_solver].
Defined.
End Sample.

(** ** Accounts are as the goal state says *)

(** Tools that work: they end with an exit code, create and change accounts that can be, and remove. *)
Class WorkingTools {K} (popen : list string → option string → K → process * K) (accounts : K → list account) (clock : K → Z) (min_uid : Z) : Prop := {
  wt_tools :: UserTools popen accounts;
  wt_exits command input k : ∃ pid rc out err, (popen command input k).1 = Started pid (Exited rc out err);
  wt_useradd name date comment k :
    find_account name (accounts k) = None →
    let r := popen (useradd_command name (Some date) (Some comment)) None k in
    (∃ pid out err, r.1 = Started pid (Exited 0 out err)) ∧
    ∃ uid, min_uid ≤ uid ∧ accounts r.2 = accounts k ++ [mkAccount name uid comment (Some date) None];
  wt_usermod name h k :
    is_Some (find_account name (accounts k)) →
    let r := popen ["usermod"; "-p"; h; name] None k in
    (∃ pid out err, r.1 = Started pid (Exited 0 out err)) ∧ accounts r.2 = set_password name h <$> accounts k;
  wt_userdel name k : accounts (popen ["userdel"; "-f"; "-r"; name] None k).2 = without_user name (accounts k);
  wt_clock command input k : clock k ≤ clock (popen command input k).2
}.

Lemma find_without name n l : find_account n (without_user name l) = if decide (n = name) then None else find_account n l.
Proof.
  unfold without_user. induction l as [|a l IH]; [by case_decide|]. rewrite filter_cons. destruct (decide (ac_name a ≠ name)) as [Ha|Ha].
  - simpl. rewrite IH. destruct (String.eqb_spec (ac_name a) n) as [<-|]; [by rewrite decide_False|done].
  - apply dec_stable in Ha. rewrite IH. simpl. destruct (String.eqb_spec (ac_name a) n) as [<-|]; [by rewrite !decide_True|done].
Qed.

Lemma find_app n l k : find_account n (l ++ k) = match find_account n l with Some a => Some a | None => find_account n k end.
Proof. induction l as [|a l IH]; [done|]. simpl. by destruct (String.eqb _ _). Qed.

Lemma find_fmap n name h l : find_account n (set_password name h <$> l) = set_password name h <$> find_account n l.
Proof.
  unfold find_account. induction l as [|a l IH]; [done|]. rewrite fmap_cons. simpl. rewrite IH.
  replace (ac_name (set_password name h a)) with (ac_name a) by (unfold set_password; by destruct (String.eqb _ _)). by destruct (String.eqb (ac_name a) n).
Qed.

Lemma find_filter n l : find_account n l = head (filter (λ a, ac_name a ∈ [n]) l).
Proof.
  induction l as [|a l IH]; [done|]. rewrite filter_cons. simpl. destruct (String.eqb_spec (ac_name a) n) as [<-|Ha].
  - rewrite decide_True by set_solver. done.
  - rewrite decide_False by set_solver. done.
Qed.

Lemma without_absent name l : find_account name l = None → without_user name l = l.
Proof.
  unfold without_user. induction l as [|a l IH]; [done|]. simpl. destruct (String.eqb_spec (ac_name a) name); [done|]. intros H.
  rewrite filter_cons, decide_True by done. by rewrite IH.
Qed.

Lemma set_password_absent name h l : find_account name l = None → set_password name h <$> l = l.
Proof.
  unfold find_account. induction l as [|a l IH]; [done|]. rewrite fmap_cons. simpl. unfold set_password at 1. destruct (String.eqb (ac_name a) name); [done|].
  intros H. f_equal. auto.
Qed.

Section enforced.
Context {K : Type} (popen : list string → option string → K → process * K) (accounts : K → list account) (clock : K → Z) (min_uid : Z).
Context `{!WorkingTools popen accounts clock min_uid}.
Context (c : ConfigurationProvider) (sudoers_dir : path) (login_uid_min : option Z).
Context (hash : hash_method) (salt : K → Z → string) (crypt sha512_crypt : string → string → string).
Context (b64decode decode_utf16 : string → res exn string).
Context (b64decode_ordinary : ∀ t, fails_with ordinary (b64decode t)) (decode_utf16_ordinary : ∀ t, fails_with ordinary (decode_utf16 t)).
Context (zones : list string) (order : list string → list string) (order_perm : ∀ l x, x ∈ order l ↔ x ∈ l).
Notation openssl_args key := (str_split " " (get_openssl_cmd c +:+ " cms -decrypt -inform DER -inkey " +:+ key +:+ " -in /dev/stdin")).
Context (Hssl : ∀ key, head (openssl_args key) ∉ Some <$> ["useradd"; "usermod"; "userdel"]).
Context (Huid : default 100 login_uid_min ≤ min_uid).
Notation machine s := (sh_machine (ps_shell s)).
Notation users s := (accounts (machine s)).
Notation now s := (clock (machine s)).
Notation wf := (λ _, None).

(** The directory of the sudoers exists, and the definitions of logins are well-formed. *)
Definition sane_fs (f : fs) : Prop :=
  isdir sudoers_dir f = true ∧ isdir (sudoers_wagent sudoers_dir) f = false ∧
  match read_uid_min f with Ok m => m = login_uid_min | Err e => isinstance e OSError = true ∧ login_uid_min = None end.
Definition sane (s : pstate K) : Prop := sane_fs (ps_fs s).

(** What every step keeps *)
Definition steady (s s' : pstate K) : Prop := sane s → sane s' ∧ now s ≤ now s'.
#[local] Instance steady_preorder : PreOrder steady.
Proof. split; [by intros s; split|]. intros s1 s2 s3 H1 H2 Hs. destruct (H1 Hs) as [H3 ?]. destruct (H2 H3). split; [done|lia]. Qed.

Lemma steady_run cmd input : pres steady (on_ps_shell (Shell.run_command popen cmd input)).
Proof.
  intros s Hs. unfold on_ps_shell, zoom. pose proof (run_machine popen cmd input (ps_shell s)) as Hr.
  destruct (Shell.run_command popen cmd input (ps_shell s)) as [r h]. simpl in *. split; [done|]. rewrite Hr. apply wt_clock.
Qed.

Lemma sane_write p x t f :
  p ≠ sudoers_dir → p ≠ login_defs → sane_fs f → sane_fs (<[p := File x t]> f).
Proof.
  intros Hp Hl (H1 & H2 & H3). unfold sane_fs, isdir, read_uid_min, get_line_startingwith, read_file in *.
  rewrite (lookup_insert_ne _ p sudoers_dir), (lookup_insert_ne _ p login_defs) by done. split_and!; [done| |done].
  destruct (decide (p = sudoers_wagent sudoers_dir)) as [->|]; [by rewrite lookup_insert_eq|by rewrite lookup_insert_ne].
Qed.

Lemma not_login (d : path) x : x ≠ "login.defs" → d ++ [x] ≠ login_defs.
Proof. intros Hx H. apply Hx. apply (f_equal last) in H. rewrite last_snoc in H. by injection H. Qed.

Lemma steady_world {A} (m : M world exn A) : (∀ w, sane_fs (w_fs w) → sane_fs (w_fs (m w).2)) → pres steady (on_ps_world m).
Proof. intros H s Hs. unfold on_ps_world, zoom. specialize (H (ps_world s) Hs). destruct (m (ps_world s)) as [r w]. by split. Qed.

Lemma wagent_not_dir : sudoers_wagent sudoers_dir ≠ sudoers_dir.
Proof. unfold sudoers_wagent. intros H%(f_equal length). rewrite length_app in H. simpl in H. lia. Qed.
Lemma wagent_not_login : sudoers_wagent sudoers_dir ≠ login_defs.
Proof. by apply not_login. Qed.

Lemma steady_write x : pres steady (on_ps_world (write_file wf (sudoers_wagent sudoers_dir) x)).
Proof.
  apply steady_world. intros w Hw. unfold write_file. destruct (isdir (sudoers_wagent sudoers_dir) (w_fs w)); [done|]. destruct (negb _); [done|]. simpl.
  apply sane_write; [apply wagent_not_dir|apply wagent_not_login|done].
Qed.
Lemma steady_append d x t : x ≠ "login.defs" → pres steady (on_ps_world (append_file wf (d ++ [x]) t)).
Proof.
  intros Hx. apply steady_world. intros w Hw. unfold append_file. destruct (isdir (d ++ [x]) (w_fs w)) eqn:Hd; [done|]. destruct (negb _); [done|]. simpl.
  apply sane_write; [|by apply not_login|done]. intros He. rewrite He in Hd. destruct Hw as [Hw _]. congruence.
Qed.
Lemma steady_append_wagent t : pres steady (on_ps_world (append_file wf (sudoers_wagent sudoers_dir) t)).
Proof. by apply steady_append. Qed.
Lemma steady_append_sudoers t : pres steady (on_ps_world (append_file wf (parent_dir sudoers_dir ++ ["sudoers"]) t)).
Proof. by apply steady_append. Qed.
Lemma steady_mkdir : pres steady (on_ps_world (mkdir wf sudoers_dir)).
Proof. apply steady_world. intros w Hw. unfold mkdir. destruct Hw as [Hd Hw]. rewrite Hd. by split. Qed.
#[local] Hint Resolve steady_run steady_write steady_append_wagent steady_append_sudoers steady_mkdir : pres.

Lemma steady_remove name : pres steady (remove_user popen accounts wf c sudoers_dir name).
Proof. unfold remove_user, del_account, is_sys_user, get_userentry, run_without_raising, conf_sudoer, remove_sudoer, except. pres_auto. Qed.
#[local] Hint Resolve steady_remove : pres.
Lemma steady_process E u :
  pres steady (process_user popen accounts clock wf c sudoers_dir hash salt crypt sha512_crypt b64decode decode_utf16 zones E u).
Proof.
  unfold process_user, add_user, useradd, get_userentry, set_up_user, decrypt_secret, chpasswd, is_sys_user, get_userentry, run_raising_OSUtilError, conf_sudoer, add_sudoer, except.
  pres_auto.
Qed.
Lemma steady_unnamed goal user : pres steady (remove_unnamed popen accounts wf c sudoers_dir goal user).
Proof. unfold remove_unnamed, except. pres_auto. Qed.

(** Nothing but ordinary exceptions is raised, and these are caught. *)
Lemma run_ordinary cmd input : raises ordinary (on_ps_shell (K := K) (Shell.run_command popen cmd input)).
Proof.
  apply raises_zoom. intros h e. pose proof (run_command_spec popen cmd input h) as H. destruct (wt_exits (popen := popen) cmd input (sh_machine h)) as (pid & rc & out & err & Hr).
  destruct (popen cmd input (sh_machine h)) as [r k]. simpl in Hr. subst r. destruct H as (l & _ & ->). simpl. destruct (rc =? 0); [done|]. by intros [= <-].
Qed.
Lemma append_ordinary p t : raises ordinary (append_file wf p t).
Proof. intros w e. unfold append_file. repeat case_match; simpl; intros [= <-]; done. Qed.
Lemma write_ordinary p x : raises ordinary (write_file wf p x).
Proof. by apply write_file_ordinary. Qed.
Lemma make_dir_ordinary p : raises ordinary (mkdir wf p).
Proof. by apply mkdir_ordinary. Qed.
#[local] Hint Resolve run_ordinary append_ordinary b64decode_ordinary decode_utf16_ordinary : raises.
#[local] Hint Resolve write_ordinary make_dir_ordinary : raises.

Lemma remove_user_ordinary name : raises ordinary (remove_user popen accounts wf c sudoers_dir name).
Proof.
  unfold remove_user, del_account, is_sys_user, get_userentry, run_without_raising, conf_sudoer, remove_sudoer, read_uid_min, get_line_startingwith, read_file, on_ps_world. raises_auto.
Qed.

(** A command that ends, with and without success *)
Lemma wp_cmd cmd input (Q : string → pstate K → Prop) R s :
  (∀ s' out pid err, ps_world s' = ps_world s → machine s' = (popen cmd input (machine s)).2 →
     (popen cmd input (machine s)).1 = Started pid (Exited 0 out err) → Q out s') →
  (∀ s' e, ps_world s' = ps_world s → machine s' = (popen cmd input (machine s)).2 → e_class e = CommandError →
     (∀ pid out err, (popen cmd input (machine s)).1 ≠ Started pid (Exited 0 out err)) → R e s') →
  wp (on_ps_shell (Shell.run_command popen cmd input)) Q R s.
Proof.
  intros HQ HR. unfold on_ps_shell. wp_step. unfold wp. pose proof (run_command_spec popen cmd input (ps_shell s)) as H.
  destruct (wt_exits (popen := popen) cmd input (machine s)) as (pid & rc & out & err & Hr).
  destruct (popen cmd input (machine s)) as [r k]. simpl in *. subst r. destruct H as (l & _ & ->).
  destruct (Z.eqb_spec rc 0) as [->|Hrc]; [by eapply HQ|]. apply HR; [done..|]. intros pid' out' err' [=]. done.
Qed.

Lemma wp_sys name s : sane s →
  wp (is_sys_user accounts c name) (λ b s', s' = s ∧ (b = true → ∃ a, find_account name (users s) = Some a ∧ ac_uid a < min_uid)) (λ _ _, False) s.
Proof.
  intros (_ & _ & Hl). unfold is_sys_user. wp_step; [by wp_step|]. wp_step. unfold get_userentry. wp_step. wp_step. wp_step. wp_step. apply wp_except.
  assert (∀ m, m = login_uid_min → wp (mret match find_account name (users s) with Some a => ac_uid a <? default 100 m | None => false end)
    (λ b s', s' = s ∧ (b = true → ∃ a, find_account name (users s) = Some a ∧ ac_uid a < min_uid)) (λ (_ : exn) _, False) s) as Hend.
  { intros m ->. wp_step. split; [done|]. destruct (find_account name (users s)) as [a|]; [|done]. intros Ha. exists a. split; [done|]. lia. }
  apply wp_lift; [intros m Hm|intros e He]; rewrite ?Hm, ?He in Hl; [by apply Hend|].
  destruct Hl as [Hc Hl]. split; [|by rewrite Hc]. intros _. wp_step. by apply Hend.
Qed.

Lemma wp_run_quietly cmd (Q : unit → pstate K → Prop) R s :
  (∀ s', ps_world s' = ps_world s → machine s' = (popen cmd None (machine s)).2 → Q tt s') → wp (run_without_raising popen cmd) Q R s.
Proof.
  intros HQ. unfold run_without_raising. apply wp_except. wp_step. apply wp_cmd; [intros; wp_step; by apply HQ|].
  intros s' e Hw Hm He _. split; [intros _; wp_step; by apply HQ|]. unfold isinstance. by rewrite He.
Qed.

Lemma wp_remove_user name s : sane s →
  wp (remove_user popen accounts wf c sudoers_dir name) (λ _ s', users s' = without_user name (users s)) (λ _ _, False) s.
Proof.
  intros Hs. unfold remove_user, del_account. wp_step. eapply wp_mono; [by apply wp_sys| |done]. intros b s0 [-> _]. cbv beta. wp_step.
  apply wp_run_quietly. intros s1 Hw1 Hm1. wp_step. apply wp_run_quietly. intros s2 Hw2 Hm2.
  assert (users s2 = without_user name (users s)) as Hu by (rewrite Hm2, wt_userdel, Hm1; by rewrite (ut_other (accounts := accounts)) by set_solver).
  unfold conf_sudoer, remove_sudoer. wp_step. wp_step. apply wp_when; intros Hf; [|done]. apply wp_except. wp_step.
  unfold read_file. assert (ps_fs s2 = ps_fs s) as Hfs by (unfold ps_fs; congruence). unfold isfile in Hf.
  destruct (ps_fs s2 !! sudoers_wagent sudoers_dir) as [[|x t]|] eqn:Hl; [done| |done]. wp_step; [|done]. injection H as <-.
  unfold on_ps_world. wp_step. unfold wp, write_file. change (w_fs (ps_world s2)) with (ps_fs s2). rewrite Hfs. destruct Hs as (Hd & Hwd & _). rewrite Hwd.
  unfold sudoers_wagent at 1. rewrite parent_dir_snoc, Hd. done.
Qed.

(** The password of the goal state can be decrypted and set. *)
Notation key := (path_join (get_lib_dir c) TRANSPORT_PRIVATE_CERT).
Definition decryptable (t : option string) : Prop :=
  hash ≠ NoHash ∧ ∃ x d, t = Some x ∧ b64decode x = Ok d ∧
    ∀ k, ∃ pid out err p, (popen (openssl_args key) (Some d) k).1 = Started pid (Exited 0 out err) ∧ decode_utf16 out = Ok p.

Lemma wp_decrypt t s :
  wp (decrypt_secret popen c b64decode decode_utf16 t key)
    (λ _ s', ps_world s' = ps_world s ∧ users s' = users s)
    (λ e s', ps_world s' = ps_world s ∧ users s' = users s ∧ ordinary e ∧ ¬ decryptable t) s.
Proof.
  unfold decrypt_secret. wp_step.
  assert (∀ e s', ordinary e → ps_world s' = ps_world s → users s' = users s → ¬ decryptable t →
    wp (if isinstance e CommandError then raise (py_error Exception_ ("Command 'openssl cms -decrypt' returned non-zero exit status " +:+ pretty (returncode e)))
        else if isinstance e Exception_ then raise (agent_error CryptError "Error decoding secret" (Some e) (-1)) else raise e)
      (λ (_ : string) s', ps_world s' = ps_world s ∧ users s' = users s)
      (λ e s', ps_world s' = ps_world s ∧ users s' = users s ∧ ordinary e ∧ ¬ decryptable t) s') as Herr.
  { intros e s' He Hw Hu Hd. destruct (isinstance e CommandError); [by wp_step|]. rewrite He. by wp_step. }
  wp_step. apply wp_lift.
  2:{ intros e He. apply Herr; [|done|done|].
      - destruct t as [x|]; [by eapply b64decode_ordinary|]. by injection He as <-.
      - intros (_ & x & d & -> & Hx & _). congruence. }
  intros d Hd. wp_step. apply wp_cmd.
  - intros s1 out pid err Hw Hm Hp. assert (users s1 = users s) as Hu by (rewrite Hm; by apply ut_other). apply wp_lift; [by intros|].
    intros e He. apply Herr; [by eapply decode_utf16_ordinary|done..|]. intros (_ & x & d' & -> & Hx & Hk).
    destruct (Hk (machine s)) as (? & ? & ? & p & Hk1 & Hk2). assert (d' = d) as -> by congruence. rewrite Hp in Hk1. congruence.
  - intros s1 e Hw Hm He Hp. apply Herr; [unfold ordinary, isinstance; by rewrite He|done| |].
    + rewrite Hm. by apply ut_other.
    + intros (_ & x & d' & -> & Hx & Hk). destruct (Hk (machine s)) as (? & ? & ? & p & Hk1 & Hk2). assert (d' = d) as -> by congruence. by eapply Hp.
Qed.

Lemma wp_raising cmd msg (Q : string → pstate K → Prop) R s :
  (∃ pid out err, (popen cmd None (machine s)).1 = Started pid (Exited 0 out err)) →
  (∀ s' out, ps_world s' = ps_world s → machine s' = (popen cmd None (machine s)).2 → Q out s') →
  wp (run_raising_OSUtilError popen cmd msg) Q R s.
Proof.
  intros (pid & out & err & Hp) HQ. unfold run_raising_OSUtilError. wp_step. apply wp_cmd; [intros; by apply HQ|]. intros s' e _ _ _ Hn. by destruct (Hn pid out err).
Qed.

Lemma wp_append_sudoer t (Q : unit → pstate K → Prop) R s : sane s →
  (∀ s', machine s' = machine s → Q tt s') → wp (on_ps_world (append_file wf (sudoers_wagent sudoers_dir) t)) Q R s.
Proof.
  intros (Hd & Hw & _) HQ. unfold on_ps_world. wp_step. unfold wp, append_file. change (w_fs (ps_world s)) with (ps_fs s). rewrite Hw.
  unfold sudoers_wagent at 1. rewrite parent_dir_snoc, Hd. by apply HQ.
Qed.

Lemma wp_set_up_user name t s a : sane s → find_account name (users s) = Some a → min_uid ≤ ac_uid a →
  wp (set_up_user popen accounts wf c sudoers_dir hash salt crypt sha512_crypt b64decode decode_utf16 name t)
    (λ _ s', ∃ h, users s' = set_password name h <$> users s)
    (λ e s', sane s' ∧ users s' = users s ∧ ordinary e ∧ ¬ decryptable t) s.
Proof.
  intros Hs Ha Hu. unfold set_up_user. wp_step. eapply wp_mono; [apply wp_decrypt|..].
  2:{ intros e s' (Hw & Hus & ? & ?). split_and!; [unfold sane, ps_fs; by rewrite Hw|done..]. }
  intros pw s1 [Hw1 Hu1]. cbv beta. assert (sane s1) as Hs1 by (unfold sane, ps_fs; by rewrite Hw1). wp_step. unfold chpasswd. wp_step.
  eapply wp_mono; [by apply wp_sys| |done]. intros b s' [-> Hb]. cbv beta. destruct b.
  { destruct (Hb eq_refl) as (a' & Ha' & Hlt). rewrite Hu1, Ha in Ha'. injection Ha' as <-. lia. }
  wp_step. wp_step. wp_step. apply wp_lift.
  2:{ intros e. unfold gen_password_hash. destruct hash eqn:Hh; [done..|]. intros [= <-]. split_and!; [done|done|done|]. intros [? _]. congruence. }
  intros h _. wp_step. destruct (wt_usermod name h (machine s1)) as [Hok Hmod]; [rewrite Hu1, Ha; eauto|]. apply wp_raising; [done|].
  intros s2 out Hw2 Hm2. wp_step. assert (sane s2) as Hs2 by (unfold sane, ps_fs; by rewrite Hw2).
  assert (users s2 = set_password name h <$> users s) as Hu2 by (by rewrite Hm2, Hmod, Hu1). unfold conf_sudoer, add_sudoer. wp_step. wp_step.
  destruct Hs2 as (Hd & Hrest). rewrite Hd. wp_step. wp_step; [done|]. wp_step. wp_step. apply wp_when; intros _; [|by exists h].
  apply wp_append_sudoer; [by split|]. intros s3 Hm3. exists h. by rewrite Hm3.
Qed.

Lemma wp_add_user name t e s : sane s → find_account name (users s) = None →
  wp (add_user popen accounts wf c sudoers_dir hash salt crypt sha512_crypt b64decode decode_utf16 (Some name) t e)
    (λ _ s', ∃ date uid pw, expiration_date e = Ok date ∧
       users s' = users s ++ [mkAccount name uid REMOTE_ACCESS_ACCOUNT_COMMENT (Some date) (Some pw)])
    (λ err s', users s' = users s ∧ ordinary err ∧ ¬ (is_ok (expiration_date e) = true ∧ decryptable t)) s.
Proof.
  intros Hs Hn. unfold add_user. wp_step. apply wp_lift.
  2:{ intros err He. split_and!; [done| |rewrite He; by intros [? _]]. unfold expiration_date in He. destruct (next_day e) as [[y m] d]. destruct (9999 <? y); [|done]. by injection He as <-. }
  intros date Hdate. wp_step. unfold useradd. wp_step. unfold get_userentry. wp_step. unfold users_of. rewrite Hn. wp_step.
  destruct (wt_useradd name date REMOTE_ACCESS_ACCOUNT_COMMENT (machine s)) as [Hok (uid & Huid' & Hadd)]; [done|]. apply wp_raising; [done|].
  intros s1 out Hw1 Hm1. wp_step. set (a := mkAccount name uid REMOTE_ACCESS_ACCOUNT_COMMENT (Some date) None) in *.
  assert (users s1 = users s ++ [a]) as Hu1 by (by rewrite Hm1, Hadd). assert (sane s1) as Hs1 by (unfold sane, ps_fs; by rewrite Hw1).
  assert (find_account name (users s1) = Some a) as Ha by (rewrite Hu1, find_app, Hn; simpl; by rewrite String.eqb_refl).
  apply wp_except. eapply wp_mono; [by eapply wp_set_up_user|..].
  - intros [] s2 [h Hu2]. exists date, uid, h. split; [done|]. rewrite Hu2, Hu1, fmap_app. f_equal.
    + by apply set_password_absent.
    + simpl. unfold set_password. simpl. by rewrite String.eqb_refl.
  - intros err s2 (Hs2 & Hu2 & He & Hd). split; [intros _|by rewrite He]. wp_step. eapply wp_mono; [by apply wp_remove_user| |done].
    intros [] s3 Hu3. cbv beta. wp_step. split_and!; [|done|naive_solver]. rewrite Hu3, Hu2, Hu1. unfold without_user. rewrite filter_app, filter_cons, decide_False by (simpl; tauto).
    rewrite app_nil_r. by apply without_absent.
Qed.

Lemma add_ordinary name t e :
  raises ordinary (add_user popen accounts wf c sudoers_dir hash salt crypt sha512_crypt b64decode decode_utf16 name t e).
Proof.
  assert (∀ cmd msg, raises ordinary (run_raising_OSUtilError popen cmd msg)) as Hrun.
  { intros cmd msg. apply raises_catch; [apply run_ordinary|]. intros err He. rewrite He. raises_auto. }
  assert (raises ordinary (decrypt_secret popen c b64decode decode_utf16 t key)) as Hdec.
  { apply raises_catch; [raises_auto|]. intros err He. rewrite He. raises_auto. }
  unfold add_user. apply raises_bind; [unfold expiration_date; raises_auto|intros date].
  apply raises_bind; [unfold useradd, get_userentry; raises_auto|intros _]. destruct name as [name|]; [|apply raises_ret].
  apply (raises_except ordinary ordinary); [|done|intros err He _; apply raises_bind; [apply remove_user_ordinary|intros _; by apply raises_raise]].
  unfold set_up_user, chpasswd, is_sys_user, get_userentry, read_uid_min, get_line_startingwith, read_file, gen_password_hash, conf_sudoer, add_sudoer, on_ps_world.
  raises_auto.
Qed.

Notation process E u := (process_user popen accounts clock wf c sudoers_dir hash salt crypt sha512_crypt b64decode decode_utf16 zones E u).

(** What happens to the account that the goal state names *)
Definition is_jit (o : option account) : bool := from_option (λ a, is_jit_user (ac_comment a)) false o.
Definition settled (E : list string) (u : RemoteAccessUser) (n : string) (s s' : pstate K) : Prop :=
  (∀ e, strptime_expiration zones (ru_expiration u) = Ok e → to_us e < now s →
     find_account n (users s') = if bool_decide (n ∈ E) then None else find_account n (users s)) ∧
  (∀ e, strptime_expiration zones (ru_expiration u) = Ok e → now s < to_us e →
     if bool_decide (n ∈ E) then find_account n (users s') = find_account n (users s)
     else find_account n (users s) = None → decryptable (ru_encrypted_password u) →
          ∀ date, expiration_date e = Ok date →
          ∃ a, find_account n (users s') = Some a ∧ ac_comment a = REMOTE_ACCESS_ACCOUNT_COMMENT ∧ ac_expiration a = Some date).

Lemma wp_process E u n s : ru_name u = Some n → sane s →
  wp (process E u) (λ _ s', settled E u n s s') (λ _ _, False) s.
Proof.
  intros Hn Hs. unfold process_user. apply wp_except. wp_step. unfold settled. apply wp_lift.
  2:{ intros e He. split; [intros _; wp_step; rewrite He; by split|]. intros Hc. unfold strptime_expiration in He.
      repeat case_match; try done; by injection He as <-. }
  intros e He. wp_step. wp_step. rewrite Hn, He. destruct (bool_decide (n ∈ E)) eqn:HE; simpl negb; simpl andb.
  - destruct (to_us e <? now s) eqn:Hlt.
    + eapply wp_mono; [by apply wp_remove_user| |done]. intros [] s' Hu. split; intros ? [= <-] ?; [|lia]. by rewrite Hu, find_without, decide_True.
    + wp_step. split; intros ? [= <-] ?; [lia|done].
  - destruct (now s <? to_us e) eqn:Hlt; [|wp_step; split; intros ? [= <-] ?; [done|lia]].
    destruct (find_account n (users s)) as [a|] eqn:Ha.
    + eapply wp_mono; [apply (raises_wp ordinary), add_ordinary|..]; [intros [] s' _|intros err s' Ho; split; [intros _; wp_step|by rewrite Ho]];
        (split; intros ? [= <-] ?; [lia|done]).
    + eapply wp_mono; [by apply wp_add_user|..].
      * intros [] s' (date & uid & pw & Hd & Hu). split; intros ? [= <-] ?; [lia|]. intros _ _ date'. rewrite Hd. intros [= <-].
        eexists. split; [rewrite Hu, find_app, Ha; simpl; by rewrite String.eqb_refl|done].
      * intros err s' (Hu & Ho & Hd). split; [intros _; wp_step|by rewrite Ho]. split; intros ? [= <-] ?; [lia|]. intros _ Hdec date Hdate.
        destruct Hd. split; [by rewrite Hdate|done].
Qed.

Lemma never_raises {A} (m : M (pstate K) exn A) s : raises (λ _, False) m → ∃ a s', m s = (Ok a, s').
Proof. intros Hm. specialize (Hm s). destruct (m s) as [[a|e] s']; [eauto|]. by destruct (Hm e). Qed.

Lemma find_spared n G s s' : spared accounts [n] G s s' → find_account n (users s') = find_account n (users s).
Proof. intros [H _]. rewrite !find_filter. by rewrite H. Qed.

(** One account of the goal state: what happens to it and to the others *)
Lemma process_spec E u s : sane s →
  ∃ s', process E u s = (Ok tt, s') ∧ sane s' ∧ now s ≤ now s' ∧
    (∀ n, ru_name u ≠ Some n → find_account n (users s') = find_account n (users s)) ∧
    (∀ n, ru_name u = Some n → settled E u n s s').
Proof.
  intros Hs. destruct (never_raises (process E u) s) as ([] & s' & Hp).
  { unfold process_user. apply (raises_except _ ordinary); [|by intros e ->|intros e _ _; apply raises_ret].
    pose proof (λ n t e, add_ordinary n t e). pose proof remove_user_ordinary. unfold strptime_expiration. raises_auto. }
  exists s'. split; [done|]. pose proof (steady_process E u s Hs) as Hst. rewrite Hp in Hst. destruct Hst as [Hs' Hnow]. split_and!; [done|done|..].
  - intros n Hn. apply (find_spared n (omap id [ru_name u])).
    assert (pres (spared accounts [n] (omap id [ru_name u])) (process E u)) as H.
    { eapply spared_process; eauto; [apply _|]. intros m Hm. rewrite Hm in *. set_solver. }
    specialize (H s). by rewrite Hp in H.
  - intros n Hn. pose proof (wp_process E u n s Hn Hs) as H. unfold wp in H. by rewrite Hp in H.
Qed.

Lemma unnamed_spec goal x s : sane s →
  ∃ s', remove_unnamed popen accounts wf c sudoers_dir goal x s = (Ok tt, s') ∧ sane s' ∧ now s ≤ now s' ∧
    ∀ n, find_account n (users s') = if bool_decide (x = n ∧ Some x ∉ goal) then None else find_account n (users s).
Proof.
  intros Hs. pose proof (steady_unnamed goal x s Hs) as Hst.
  assert (wp (remove_unnamed popen accounts wf c sudoers_dir goal x)
    (λ _ s', ∀ n, find_account n (users s') = if bool_decide (x = n ∧ Some x ∉ goal) then None else find_account n (users s)) (λ _ _, False) s) as H.
  { unfold remove_unnamed. apply wp_except. apply wp_when; intros Hg.
    - eapply wp_mono; [by apply wp_remove_user| |done]. intros [] s' Hu n. rewrite Hu, find_without. apply negb_true_iff, bool_decide_eq_false in Hg.
      destruct (decide (n = x)) as [->|]; [by rewrite bool_decide_eq_true_2|rewrite bool_decide_eq_false_2; naive_solver].
    - intros n. apply negb_false_iff, bool_decide_eq_true in Hg. rewrite bool_decide_eq_false_2; naive_solver. }
  unfold wp in H. destruct (remove_unnamed _ _ _ _ _ _ _ s) as [[[]|e] s']; [|done]. exists s'. split; [done|]. by destruct Hst.
Qed.

Lemma for_each_snoc {A} (l : list A) x (f : A → M (pstate K) exn unit) s s1 s2 :
  for_each l f s = (Ok tt, s1) → f x s1 = (Ok tt, s2) → for_each (l ++ [x]) f s = (Ok tt, s2).
Proof.
  revert s. induction l as [|y l IH]; intros s; simpl; unfold mbind, M_bind.
  - intros [= ->] ->. done.
  - destruct (f y s) as [[[]|e] s']; [|done]. intros Hl Hx. by apply IH.
Qed.

(** What the first loop makes of an account, from its state at the start *)
Lemma process_loop E l s : sane s → NoDup (ru_name <$> l) →
  ∃ s', for_each l (process_user popen accounts clock wf c sudoers_dir hash salt crypt sha512_crypt b64decode decode_utf16 zones E) s = (Ok tt, s') ∧ sane s' ∧ now s ≤ now s' ∧
    (∀ n, Some n ∉ ru_name <$> l → find_account n (users s') = find_account n (users s)) ∧
    (∀ u n, u ∈ l → ru_name u = Some n → ∃ s1 s2, now s ≤ now s1 ∧ now s1 ≤ now s' ∧ settled E u n s1 s2 ∧
       find_account n (users s1) = find_account n (users s) ∧ find_account n (users s') = find_account n (users s2)).
Proof.
  intros Hs. induction l as [|u l IH] using rev_ind; intros Hnd.
  { exists s. split_and!; [done|done|lia|done|]. by intros u n ?%elem_of_nil. }
  rewrite fmap_app, NoDup_app in Hnd. destruct Hnd as (Hnd & Hdis & _). destruct (IH Hnd) as (s1 & Hf & Hs1 & Hn1 & Ho1 & Hset1).
  destruct (process_spec E u s1 Hs1) as (s2 & Hp & Hs2 & Hn2 & Ho2 & Hset2).
  exists s2. split_and!; [by eapply for_each_snoc|done|lia|..].
  - intros n Hn. rewrite fmap_app in Hn. rewrite Ho2, Ho1; set_solver.
  - intros v n [Hv|Hv]%elem_of_app Hvn.
    + destruct (Hset1 v n Hv Hvn) as (a & b & H1 & H2 & H3 & H4 & H5). exists a, b. split_and!; [done|lia|done|done|]. rewrite Ho2; [done|].
      intros Hu. apply (Hdis (Some n)); [apply list_elem_of_fmap; by exists v|]. apply list_elem_of_fmap. exists u. split; [done|set_solver].
    + apply list_elem_of_singleton in Hv as ->. exists s1, s2. split_and!; [done|done|by apply Hset2| |done]. apply Ho1. intros Hin. apply (Hdis _ Hin). apply list_elem_of_fmap. exists u. split; [done|set_solver].
Qed.

Lemma unnamed_loop goal l s : sane s →
  ∃ s', for_each l (remove_unnamed popen accounts wf c sudoers_dir goal) s = (Ok tt, s') ∧ now s ≤ now s' ∧ sane s' ∧
    ∀ n, find_account n (users s') = if bool_decide (n ∈ l ∧ Some n ∉ goal) then None else find_account n (users s).
Proof.
  intros Hs. induction l as [|x l IH] using rev_ind.
  { exists s. split_and!; [done|lia|done|]. intros n. rewrite bool_decide_eq_false_2; [done|]. set_solver. }
  destruct IH as (s1 & Hf & Hn1 & Hs1 & Ho1). destruct (unnamed_spec goal x s1 Hs1) as (s2 & Hp & Hs2 & Hn2 & Ho2).
  exists s2. split_and!; [by eapply for_each_snoc|lia|done|]. intros n. rewrite Ho2, Ho1. repeat case_bool_decide; set_solver.
Qed.

Lemma in_jit_names n l : NoDup (ac_name <$> l) → n ∈ jit_names l ↔ is_jit (find_account n l) = true.
Proof.
  intros Hnd. unfold jit_names, is_jit, find_account. split.
  - intros (a & -> & [Hj Ha]%list_elem_of_filter)%list_elem_of_fmap. destruct (List.find _ l) as [b|] eqn:Hf.
    + apply List.find_some in Hf as [Hb%list_elem_of_In He%String.eqb_eq]. assert (a = b) as <- by (by eapply same_name_same). done.
    + exfalso. pose proof (List.find_none _ _ Hf a (proj1 (list_elem_of_In _ _) Ha)) as H. simpl in H. by rewrite String.eqb_refl in H.
  - destruct (List.find _ l) as [b|] eqn:Hf; [|done]. apply List.find_some in Hf as [Hb%list_elem_of_In He%String.eqb_eq]. intros Hj.
    apply list_elem_of_fmap. exists b. split; [done|]. by apply list_elem_of_filter.
Qed.

End enforced.

Module SampleEnforced.
Import Sample.

#[export] Instance sim_working : WorkingTools (sim false) id (λ _, 0) 1000.
Proof.
  constructor.
  - apply sim_tools.
  - intros command input l. unfold sim, exited. repeat case_match; simpl; eauto.
  - intros name date comment l Hn. rewrite sim_useradd. unfold id in Hn. rewrite Hn. split; [by eexists _, _, _|]. by exists 1001.
  - intros name h l [a Ha]. rewrite sim_usermod. unfold id in Ha. rewrite Ha. split; [by eexists _, _, _|done].
  - intros name l. rewrite sim_userdel. unfold id. destruct (find_account name l) eqn:Hn; [done|]. simpl. by rewrite without_absent.
  - done.
Qed.

Definition sample_goal : RemoteAccess :=
  mkRemoteAccess None None [mkRemoteAccessUser (Some "bob") (Some "secret") (Some "Tue, 01 Jan 2030 00:00:00 UTC")].

End SampleEnforced.
