(* ===== verification/Manifest.v ===== *)
(** * The handler manifest ([HandlerManifest] and [ResourceLimits] of exthandlers.py)

    The document [HandlerManifest.json] of an extension package: the commands the agent
    runs and the flags that drive the update sequence.  The accessors index the parsed
    document directly, so a malformed manifest raises where it is read. *)
From S2P Require Import Prelude PyExn Json.

(** [data[0]] *)
Definition index0 (j : json) : res exn json :=
  match j with
  | JArr (x :: _) => Ok x
  | JArr [] => Err (py_error IndexError "list index out of range")
  | JStr (String c _) => Ok (JStr (String c ""))
  | JStr "" => Err (py_error IndexError "string index out of range")
  | JObj _ => Err (py_error KeyError "0")
  | _ => Err (py_error TypeError ("'" +:+ type_name j +:+ "' object is not subscriptable"))
  end.

(** The manifest is the [data] attribute. *)
Notation HandlerManifest := json (only parsing).

(** [HandlerManifest.__init__] *)
Definition new_manifest (data : json) : res exn HandlerManifest :=
  if is_null data then Err (agent_error ExtensionError "Malformed manifest file." None (-1))
  else
    hm ← json_getitem "handlerManifest" data;
    if is_null hm then Err (agent_error ExtensionError "Malformed manifest file." None (-1))
    else Ok data.

Section manifest.
Variable self : HandlerManifest.

Definition get_manifest_command (key : string) : res exn json :=
  hm ← json_getitem "handlerManifest" self; json_getitem key hm.

Definition get_install_command : res exn json := get_manifest_command "installCommand".
Definition get_uninstall_command : res exn json := get_manifest_command "uninstallCommand".
Definition get_update_command : res exn json := get_manifest_command "updateCommand".
Definition get_enable_command : res exn json := get_manifest_command "enableCommand".
Definition get_disable_command : res exn json := get_manifest_command "disableCommand".

(** [_parse_boolean_value] *)
Definition parse_boolean_value (value : json) (default_val : bool) : bool :=
  match value with
  | JBool b => b
  | JStr s => if String.eqb (str_lower s) "true" then true else default_val
  | _ => default_val
  end.

(** [self.data['handlerManifest'].get(key, False)] *)
Definition manifest_value (key : string) : res exn json :=
  hm ← json_getitem "handlerManifest" self;
  match hm with
  | JObj d => Ok (default (JBool false) (dict_get key d))
  | _ => json_get key hm
  end.

Definition is_report_heartbeat : res exn bool :=
  v ← manifest_value "reportHeartbeat"; Ok (parse_boolean_value v false).

Definition is_continue_on_update_failure : res exn bool :=
  v ← manifest_value "continueOnUpdateFailure"; Ok (parse_boolean_value v false).

Definition supports_multiple_extensions : res exn bool :=
  v ← manifest_value "supportsMultipleExtensions"; Ok (parse_boolean_value v false).

(** Unlike the older flags, only a JSON boolean counts. *)
Definition supports_policy_flag : res exn bool :=
  v ← manifest_value "supportsPolicy";
  Ok (match v with JBool b => b | _ => false end).

Definition is_update_with_install : res exn bool :=
  hm ← json_getitem "handlerManifest" self;
  update_mode ← json_get "updateMode" hm;
  match update_mode with
  | JNull => Ok true
  | JStr s => Ok (String.eqb (str_lower s) "updatewithinstall")
  | j => Err (py_error AttributeError ("'" +:+ type_name j +:+ "' object has no attribute 'lower'"))
  end.

(** [get_resource_limits]: the [data] of a [ResourceLimits], possibly [None] *)
Definition get_resource_limits : res exn json := json_get "resourceLimits" self.

(** [report_invalid_boolean_properties]: the keys it reports *)
Definition report_invalid_boolean_properties : res exn (list string) :=
  hm ← json_getitem "handlerManifest" self;
  match hm with
  | JObj d =>
      Ok (List.filter (λ key, match dict_get key d with
                              | None | Some JNull | Some (JBool _) => false
                              | _ => true
                              end)
            ["reportHeartbeat"; "continueOnUpdateFailure"; "supportsMultipleExtensions"; "supportsPolicy"])
  | _ => _ ← json_get "reportHeartbeat" hm; Ok []
  end.
End manifest.

(** ** ResourceLimits *)

Definition resource_limit (key : string) (limits : json) : res exn json :=
  if is_null limits then Ok JNull else json_get key limits.

Definition get_extension_slice_cpu_quota := resource_limit "cpuQuotaPercentage".
Definition get_extension_slice_memory_quota := resource_limit "memoryQuotaInMB".
Definition get_service_list := resource_limit "services".
