(* ===== verification/RestApi.v ===== *)
(** * The objects of the goal state and of the status reports ([restapi.py])

    What the goal state asks of each extension ([Extension], the handler, and
    [ExtensionSettings], its configurations) and the status objects sent back.  The
    status objects are data contracts; their fields hold whatever an extension wrote in
    its status file, hence JSON values. *)
From S2P Require Import Prelude PyExn Json.

Module ExtensionState.
Definition Enabled : string := "enabled".
Definition Disabled : string := "disabled".
End ExtensionState.

Module ExtensionRequestedState.
Definition Enabled : string := "enabled".
Definition Disabled : string := "disabled".
Definition Uninstall : string := "uninstall".
End ExtensionRequestedState.

(** [sequenceNumber] is an integer or a string, depending on the goal state's format. *)
Record ExtensionSettings := mkSettings {
  es_name : string;
  es_sequenceNumber : json;
  es_publicSettings : json;
  es_protectedSettings : json;
  es_certificateThumbprint : json;
  es_dependencyLevel : Z;
  es_state : string
}.

Record Extension := mkExtension {
  eh_name : string;
  eh_version : string;
  eh_state : string;
  eh_settings : list ExtensionSettings;
  eh_manifest_uris : list string;
  eh_supports_multi_config : bool;
  eh_encoded_signature : string;
  eh_invalid_setting_reason : option string
}.

Definition set_eh_version (v : string) (e : Extension) : Extension :=
  mkExtension (eh_name e) v (eh_state e) (eh_settings e) (eh_manifest_uris e)
    (eh_supports_multi_config e) (eh_encoded_signature e) (eh_invalid_setting_reason e).

Definition is_invalid_setting (e : Extension) : bool :=
  match eh_invalid_setting_reason e with Some _ => true | None => false end.

(** [ExtensionSettings.dependency_level_sort_key] *)
Definition settings_sort_key (s : ExtensionSettings) (handler_state : string) : Z :=
  let level := es_dependencyLevel s in
  if negb (String.eqb handler_state ExtensionRequestedState.Enabled)
     || negb (String.eqb (es_state s) ExtensionState.Enabled)
  then (0 - level) - 1 else level.

(** [Extension.dependency_level_sort_key] *)
Definition extension_sort_key (e : Extension) : Z :=
  let level := match es_dependencyLevel <$> eh_settings e with
               | [] => 0
               | l :: ls => foldr Z.min l ls
               end in
  if negb (String.eqb (eh_state e) "enabled") then (0 - level) - 1 else level.

(** A package of the extension manifest *)
Record ExtHandlerPackage := mkPackage { pkg_version : string; pkg_uris : list string }.

(** ** Status objects *)

Record ExtensionSubStatus := mkSubStatus {
  ss_name : json;
  ss_status : json;
  ss_code : json;
  ss_message : json
}.

Record ExtensionStatus := mkStatus {
  xs_name : string;
  xs_configurationAppliedTime : json;
  xs_operation : json;
  xs_status : json;
  xs_sequenceNumber : json;
  xs_code : json;
  xs_message : json;
  xs_substatusList : list ExtensionSubStatus
}.

(** [ExtensionStatus(name, seq_no)] *)
Definition new_ext_status (name : string) (seq_no : json) : ExtensionStatus :=
  mkStatus name JNull JNull JNull seq_no JNull JNull [].

Record ExtHandlerStatus := mkHandlerStatus {
  hs_name : json;
  hs_version : json;
  hs_status : json;
  hs_code : json;
  hs_message : json;
  hs_supports_multi_config : json;
  hs_extension_status : json;
  hs_signature_validated : json
}.

(** [ExtHandlerStatus()] *)
Definition new_handler_status : ExtHandlerStatus :=
  mkHandlerStatus JNull JNull JNull (JInt 0) JNull (JBool false) JNull (JBool false).

(** The object as a data contract: its attributes in the order of the constructor *)
Definition handler_status_contract (h : ExtHandlerStatus) : contract :=
  CObj [("name", CData (hs_name h)); ("version", CData (hs_version h)); ("status", CData (hs_status h));
        ("code", CData (hs_code h)); ("message", CData (hs_message h));
        ("supports_multi_config", CData (hs_supports_multi_config h));
        ("extension_status", CData (hs_extension_status h));
        ("signature_validated", CData (hs_signature_validated h))].

Definition contract_field (k : string) (c : contract) : json :=
  match c with
  | CObj fs => match dict_get k fs with Some (CData v) => v | _ => JNull end
  | _ => JNull
  end.

Definition handler_status_of_contract (c : contract) : ExtHandlerStatus :=
  mkHandlerStatus (contract_field "name" c) (contract_field "version" c) (contract_field "status" c)
    (contract_field "code" c) (contract_field "message" c) (contract_field "supports_multi_config" c)
    (contract_field "extension_status" c) (contract_field "signature_validated" c).

Definition handler_status_json (h : ExtHandlerStatus) : json :=
  get_properties (handler_status_contract h).

Definition handler_status_of_json (j : json) : res exn ExtHandlerStatus :=
  c ← set_properties "ExtHandlerStatus" (handler_status_contract new_handler_status) j;
  Ok (handler_status_of_contract c).

(** Reading the written status gives it back, whatever its fields hold. *)
Lemma handler_status_roundtrip (h : ExtHandlerStatus) :
  handler_status_of_json (handler_status_json h) = Ok h.
Proof.
  unfold handler_status_of_json, handler_status_json.
  rewrite set_get_properties; [by destruct h|].
  apply inst_obj; [apply (bool_decide_unpack _); vm_compute; exact I|].
  repeat constructor.
Qed.

Lemma handler_status_of_json_ordinary j : fails_with ordinary (handler_status_of_json j).
Proof. unfold handler_status_of_json. apply fails_bind; [apply set_properties_ordinary|]. intros. apply fails_ok. Qed.
