(* ===== verification/ExtInstance.v ===== *)
(** * An extension on disk ([ExtHandlerInstance] of exthandlers.py, first part)

    [ExtHandlerInstance] wraps one handler of the goal state: it names the handler's
    files and directories, keeps the handler's state and status files, its settings and
    its runtime policy, loads its manifest, decides which version to use and starts its
    commands.  The commands themselves are in [ExtCommands.v], downloading is in
    [Download.v] and the status files in [ExtStatus.v].

    A method runs in the monad [I]: it reads and changes the attributes of the instance
    ([inst], with the [Extension] it refers to) and the machine ([world]), and may raise.
    Log files and telemetry are not part of the state. *)
From S2P Require Import Prelude PyExn Json TextUtil FlexVersion World Manifest RestApi.
From Stdlib Require Import Ascii.

(** The parts of the machine and of the agent that the extension code calls. *)
Record env := mkEnv {
  lib_dir : path;
  ext_log_dir : path;
  wire_endpoint : string;
  os_environ : list (string * string);
  supported_features : list (string * string);
  telemetry_pipeline_supported : bool;
  (** What the file system refuses *)
  write_fault : path → option (bool * exn);
  (** An extension command: its result, the file system it leaves and the time it took;
      it may depend on everything done before. *)
  run_command : list event → command → fs → res exn string * fs * Z;
  (** What other processes do to the file system while the agent sleeps *)
  background : list event → Z → fs → fs;
  (** [goal_state.fetch_extension_manifest(name, uris).pkg_list.versions] *)
  fetch_extension_manifest : string → list string → res exn (list ExtHandlerPackage);
  (** Downloading one URI to a file ([_download_using_appropriate_channel]) *)
  fetch_uri : list event → string → path → fs → res exn unit * fs * Z;
  (** [zipfile.ZipFile(file).extractall(directory)] *)
  unzip : path → path → fs → res exn unit * fs;
  (** [validate_signature(file, signature, name)]: an openssl call *)
  validate_signature : path → string → string → fs → res exn unit;
  (** The conditions of [ext_signature_validation_enabled] other than the timeout flag *)
  ext_validation_configured : Z → bool;
  format_time : Z → string              (* strftime("%Y-%m-%dT%H:%M:%SZ") *)
}.

Record inst := mkInst {
  ext_handler : Extension;
  operation : option string;
  pkg : option ExtHandlerPackage;
  pkg_file : option path;
  signature_validated : json;
  (** The handler was appended to [_disallowed_ext_handlers] through this instance *)
  is_disallowed : bool
}.

Definition set_ext_handler (e : Extension) (i : inst) : inst :=
  mkInst e (operation i) (pkg i) (pkg_file i) (signature_validated i) (is_disallowed i).
Definition set_op (op : string) (i : inst) : inst :=
  mkInst (ext_handler i) (Some op) (pkg i) (pkg_file i) (signature_validated i) (is_disallowed i).
Definition set_pkg (p : option ExtHandlerPackage) (i : inst) : inst :=
  mkInst (ext_handler i) (operation i) p (pkg_file i) (signature_validated i) (is_disallowed i).
Definition set_pkg_file (p : option path) (i : inst) : inst :=
  mkInst (ext_handler i) (operation i) (pkg i) p (signature_validated i) (is_disallowed i).
Definition set_signature_validated (b : json) (i : inst) : inst :=
  mkInst (ext_handler i) (operation i) (pkg i) (pkg_file i) b (is_disallowed i).
Definition set_is_disallowed (i : inst) : inst :=
  mkInst (ext_handler i) (operation i) (pkg i) (pkg_file i) (signature_validated i) true.

Record ist := mkIst { s_inst : inst; s_world : world }.

Notation I A := (M ist exn A).

Definition on_world {A} (m : M world exn A) : I A :=
  zoom s_world (λ w s, mkIst (s_inst s) w) m.
Definition on_inst (f : inst → inst) : I unit := modify (λ s, mkIst (f (s_inst s)) (s_world s)).
Definition self {A} (f : inst → A) : I A := gets (λ s, f (s_inst s)).
Definition files {A} (f : fs → A) : I A := gets (λ s, f (w_fs (s_world s))).

(** [ExtHandlerState] *)
Module ExtHandlerState.
Definition NotInstalled : string := "NotInstalled".
Definition Installed : string := "Installed".
Definition Enabled : string := "Enabled".
Definition FailedUpgrade : string := "FailedUpgrade".
End ExtHandlerState.

(** [ExtHandlerStatusValue] *)
Module ExtHandlerStatusValue.
Definition ready : string := "Ready".
Definition not_ready : string := "NotReady".
End ExtHandlerStatusValue.

Definition NOT_RUN : string := "NOT_RUN".
Definition DEFAULT_SEQ_NO : string := "0".

(** [ExtCommandEnvVariable] *)
Module EnvVar.
Definition DisableReturnCode : string := "AZURE_GUEST_AGENT_DISABLE_CMD_EXIT_CODE".
Definition DisableReturnCodeMultipleExtensions : string :=
  "AZURE_GUEST_AGENT_DISABLE_CMD_EXIT_CODES_MULTIPLE_EXTENSIONS".
Definition UninstallReturnCode : string := "AZURE_GUEST_AGENT_UNINSTALL_CMD_EXIT_CODE".
Definition ExtensionPath : string := "AZURE_GUEST_AGENT_EXTENSION_PATH".
Definition ExtensionVersion : string := "AZURE_GUEST_AGENT_EXTENSION_VERSION".
Definition ExtensionSeqNumber : string := "ConfigSequenceNumber".
Definition ExtensionName : string := "ConfigExtensionName".
Definition UpdatingFromVersion : string := "AZURE_GUEST_AGENT_UPDATING_FROM_VERSION".
Definition WireProtocolAddress : string := "AZURE_GUEST_AGENT_WIRE_PROTOCOL_ADDRESS".
Definition ExtensionSupportedFeatures : string := "AZURE_GUEST_AGENT_EXTENSION_SUPPORTED_FEATURES".
End EnvVar.

(** [str(v)] of the values the code formats: sequence numbers and codes *)
Definition py_str (j : json) : string :=
  match j with
  | JNull => "None"
  | JBool b => if b then "True" else "False"
  | JInt z => pretty z
  | JFloat l => l
  | JStr s => s
  | _ => json_dumps j
  end.

(** [d.update(e)] *)
Definition dict_update {V} (d e : list (string * V)) : list (string * V) :=
  foldl (λ acc kv, dict_set kv.1 kv.2 acc) d e.

(** [s.lstrip('/')] *)
Fixpoint lstrip_slash (s : string) : string :=
  match s with
  | String c s' => if Ascii.eqb c "/" then lstrip_slash s' else s
  | EmptyString => ""
  end.

(** [s[s.rfind('-') + 1:]] for a string that contains a dash *)
Fixpoint after_last_dash (s : string) : option string :=
  match s with
  | EmptyString => None
  | String c s' =>
      match after_last_dash s' with
      | Some r => Some r
      | None => if Ascii.eqb c "-" then Some s' else None
      end
  end.

(** A file name that matches [<prefix>*<suffix>] *)
Definition glob_match (prefix suffix x : string) : bool :=
  starts_with prefix x && ends_with suffix x &&
  bool_decide (String.length prefix + String.length suffix ≤ String.length x)%nat.

Section instance.
Context (E : env).

(** ** Names and paths *)

Definition supports_multi_config (i : inst) : bool := eh_supports_multi_config (ext_handler i).
Definition extensions (i : inst) : list ExtensionSettings := eh_settings (ext_handler i).

Definition should_perform_multi_config_op (i : inst) (extension : option ExtensionSettings) : bool :=
  supports_multi_config i && match extension with Some _ => true | None => false end.

Definition get_extension_full_name (i : inst) (extension : option ExtensionSettings) : string :=
  match extension with
  | Some x => if supports_multi_config i
              then eh_name (ext_handler i) +:+ "." +:+ es_name x
              else eh_name (ext_handler i)
  | None => eh_name (ext_handler i)
  end.

Definition get_full_name (i : inst) (extension : option ExtensionSettings) : string :=
  get_extension_full_name i extension +:+ "-" +:+ eh_version (ext_handler i).

Definition get_extension_package_zipfile_name (i : inst) : string :=
  eh_name (ext_handler i) +:+ "__" +:+ eh_version (ext_handler i) +:+ ".zip".

Definition get_base_dir (i : inst) : path := lib_dir E ++ [get_full_name i None].
Definition get_status_dir (i : inst) : path := get_base_dir i ++ ["status"].
Definition get_conf_dir (i : inst) : path := get_base_dir i ++ ["config"].
Definition get_log_dir (i : inst) : path := ext_log_dir E ++ [eh_name (ext_handler i)].
Definition get_extension_events_dir (i : inst) : path := get_log_dir i ++ ["events"].
Definition get_heartbeat_file (i : inst) : path := get_base_dir i ++ ["heartbeat.log"].
Definition get_manifest_file (i : inst) : path := get_base_dir i ++ ["HandlerManifest.json"].
Definition get_env_file (i : inst) : path := get_base_dir i ++ ["HandlerEnvironment.json"].
Definition get_runtime_policy_file (i : inst) : path := get_conf_dir i ++ ["runtime_policy.json"].

(** ** State files *)

Definition get_handler_state_file_name (i : inst) (extension : option ExtensionSettings) : string :=
  match extension with
  | Some x => if supports_multi_config i then es_name x +:+ ".HandlerState" else "HandlerState"
  | None => "HandlerState"
  end.

(** [__set_state]: an [IOError] is logged and swallowed. *)
Definition set_state (name : string) (value : string) : I unit :=
  state_dir ← self get_conf_dir;
  let state_file := state_dir ++ [name] in
  except OSError
    (missing ← files (λ f, negb (exists_path state_dir f));
     when missing (on_world (mkdir (write_fault E) state_dir)) ;;
     on_world (write_file (write_fault E) state_file (plain value)))
    (λ e, on_world (clean_ioerror (write_fault E) e [Some state_file])).

(** [__get_state] *)
Definition get_state_file (name : string) (dflt : string) : I string :=
  state_dir ← self get_conf_dir;
  let state_file := state_dir ++ [name] in
  is_file ← files (isfile state_file);
  if negb is_file then mret dflt
  else
    except OSError
      (f ← files id; c ← lift (read_file state_file f); mret (c_text c))
      (λ _, mret dflt).

Definition set_handler_state (handler_state : string) : I unit :=
  name ← self (λ i, get_handler_state_file_name i None);
  set_state name handler_state.

Definition get_handler_state : I string :=
  name ← self (λ i, get_handler_state_file_name i None);
  get_state_file name ExtHandlerState.NotInstalled.

Definition set_extension_state (extension : option ExtensionSettings) (extension_state : string) : I unit :=
  name ← self (λ i, get_handler_state_file_name i extension);
  set_state name extension_state.

Definition get_extension_state (extension : option ExtensionSettings) : I string :=
  name ← self (λ i, get_handler_state_file_name i extension);
  get_state_file name ExtensionState.Disabled.

(** [__remove_extension_state_files]: any error is reported and swallowed. *)
Definition remove_extension_state_files (x : ExtensionSettings) : I unit :=
  i ← self id;
  except Exception_
    (on_world (rm_files (write_fault E) (get_base_dir i) (String.eqb (es_name x +:+ ".mrseq"))) ;;
     on_world (rm_files (write_fault E) (get_conf_dir i) (glob_match (es_name x +:+ ".") ".settings")) ;;
     on_world (rm_files (write_fault E) (get_status_dir i) (glob_match (es_name x +:+ ".") ".status")) ;;
     on_world (rm_files (write_fault E) (get_conf_dir i)
                 (String.eqb (get_handler_state_file_name i (Some x)))))
    (λ _, mret tt).

(** [enabled_extensions] *)
Fixpoint filter_enabled (l : list ExtensionSettings) : I (list ExtensionSettings) :=
  match l with
  | [] => mret []
  | x :: l' =>
      st ← get_extension_state (Some x);
      rest ← filter_enabled l';
      mret (if String.eqb st ExtensionState.Enabled then x :: rest else rest)
  end.

Definition enabled_extensions : I (list ExtensionSettings) :=
  i ← self id;
  if supports_multi_config i then filter_enabled (extensions i) else mret (extensions i).

(** ** Handler status *)

Definition json_content (j : json) : content := mkContent (json_dumps j) (Some j).

(** [set_handler_status]: an error while saving is logged and swallowed. *)
Definition set_handler_status (status message : string) (code : Z) : I unit :=
  i ← self id;
  let state_dir := get_conf_dir i in
  let h := mkHandlerStatus (JStr (eh_name (ext_handler i))) (JStr (eh_version (ext_handler i)))
             (JStr status) (JInt code) (JStr (redact_sas_token message))
             (JBool (eh_supports_multi_config (ext_handler i))) JNull (signature_validated i) in
  let status_file := state_dir ++ ["HandlerStatus"] in
  catch
    (missing ← files (λ f, negb (exists_path state_dir f));
     when missing (on_world (mkdir (write_fault E) state_dir)) ;;
     on_world (write_file (write_fault E) status_file (json_content (handler_status_json h))))
    (λ e, if isinstance e OSError || isinstance e ValueError || isinstance e ProtocolError
          then on_world (clean_ioerror (write_fault E) e [Some status_file])
          else raise e).

(** [get_handler_status]: a missing or unparsable file gives [None]; a document that is
    not an object raises. *)
Definition read_handler_status (conf_dir : path) (f : fs) : res exn (option ExtHandlerStatus) :=
  let status_file := conf_dir ++ ["HandlerStatus"] in
  if negb (isfile status_file f) then Ok None
  else
    match read_file status_file f with
    | Err e => if isinstance e OSError then Ok None else Err e
    | Ok c =>
        match c_json c with
        | None => Ok None
        | Some data =>
            match handler_status_of_json data with
            | Ok h => Ok (Some h)
            | Err e => if isinstance e OSError || isinstance e ValueError then Ok None else Err e
            end
        end
    end.

Definition get_handler_status : I (option ExtHandlerStatus) :=
  conf_dir ← self get_conf_dir; f ← files id; lift (read_handler_status conf_dir f).

(** [__get_signature_validated] *)
Definition get_signature_validated (conf_dir : path) (f : fs) : res exn json :=
  h ← read_handler_status conf_dir f;
  Ok (match h with None => JBool false | Some h => hs_signature_validated h end).

(** [ExtHandlerInstance(ext_handler, protocol, extension)] *)
Definition new_instance (e : Extension) (f : fs) : res exn inst :=
  let i := mkInst e None None None (JBool false) false in
  sv ← get_signature_validated (get_conf_dir i) f;
  Ok (set_signature_validated sv i).

(** ** Settings, environment and runtime policy files *)

Definition update_settings_file (name : string) (c : content) : I unit :=
  conf_dir ← self get_conf_dir;
  let settings_file := conf_dir ++ [name] in
  except OSError
    (on_world (write_file (write_fault E) settings_file c))
    (λ e, on_world (clean_ioerror (write_fault E) e [Some settings_file]) ;;
          raise (agent_error ExtensionError "Failed to update settings file" (Some e) (-1))).

Definition update_settings (extension : option ExtensionSettings) : I unit :=
  i ← self id;
  match extension, extensions i with
  | Some x, _ :: _ =>
      let settings := JObj [("publicSettings", es_publicSettings x);
                            ("protectedSettings", es_protectedSettings x);
                            ("protectedSettingsCertThumbprint", es_certificateThumbprint x)] in
      let ext_settings := JObj [("runtimeSettings", JArr [JObj [("handlerSettings", settings)]])] in
      let seq := py_str (es_sequenceNumber x) in
      let settings_file := if supports_multi_config i
                           then es_name x +:+ "." +:+ seq +:+ ".settings"
                           else seq +:+ ".settings" in
      update_settings_file settings_file (json_content ext_settings)
  | _, _ => update_settings_file (DEFAULT_SEQ_NO +:+ ".settings") (plain "")
  end.

Definition handler_env_json (i : inst) : json :=
  let handler_env := [("logFolder", JStr (path_str (get_log_dir i)));
                      ("configFolder", JStr (path_str (get_conf_dir i)));
                      ("statusFolder", JStr (path_str (get_status_dir i)));
                      ("heartbeatFile", JStr (path_str (get_heartbeat_file i)))] in
  let events := if telemetry_pipeline_supported E then
                  [("eventsFolder", JStr (path_str (get_extension_events_dir i)));
                   ("eventsFolder_preview", JStr (path_str (get_extension_events_dir i)))]
                else [] in
  JArr [JObj [("name", JStr (eh_name (ext_handler i))); ("version", JFloat "1.0");
              ("handlerEnvironment", JObj (handler_env ++ events))]].

Definition create_handler_env : I unit :=
  i ← self id;
  except OSError
    (on_world (write_file (write_fault E) (get_env_file i) (json_content (handler_env_json i))))
    (λ e, on_world (clean_ioerror (write_fault E) e [Some (get_base_dir i); pkg_file i]) ;;
          raise (agent_error ExtensionDownloadError "Failed to save handler environment" (Some e) (-1))).

Definition runtime_policy_exists : I bool :=
  p ← self get_runtime_policy_file; files (isfile p).

Definition update_runtime_policy (runtime_policy : json) : I unit :=
  p ← self get_runtime_policy_file;
  except OSError
    (on_world (write_file (write_fault E) p (json_content runtime_policy)))
    (λ e, raise (agent_error ExtensionRuntimePolicyError
                   ("Failed to save extension runtime policy file: " +:+ path_str p +:+ ". Error: "
                    +:+ e_msg e) None (-1))).

Definition remove_runtime_policy : I unit :=
  i ← self id;
  except OSError
    (on_world (rm_files (write_fault E) (get_conf_dir i) (String.eqb "runtime_policy.json")))
    (λ e, if e_code e =? ENOENT then mret tt
          else raise (agent_error ExtensionRuntimePolicyError
                        ("Failed to remove extension runtime policy file: "
                         +:+ path_str (get_runtime_policy_file i) +:+ ". Error: " +:+ e_msg e) None (-1))).

(** ** Manifest *)

Definition load_manifest : I json :=
  man_file ← self get_manifest_file;
  f ← files id;
  match read_file man_file f with
  | Err e =>
      if isinstance e OSError then
        raise (agent_error ExtensionError
                 ("Failed to load manifest file (" +:+ path_str man_file +:+ "): " +:+ e_msg e)
                 None ErrorCodes.PluginHandlerManifestNotFound)
      else raise e
  | Ok c =>
      match c_json c with
      | None => raise (agent_error ExtensionError
                         ("Malformed manifest file (" +:+ path_str man_file +:+ ").")
                         None ErrorCodes.PluginHandlerManifestDeserializationError)
      | Some data => lift (data0 ← index0 data; new_manifest data0)
      end
  end.

Definition supports_policy : I bool :=
  man ← load_manifest; lift (supports_policy_flag man).

Definition ensure_consistent_data_for_mc : I unit :=
  i ← self id;
  if supports_multi_config i then
    man ← load_manifest;
    ok ← lift (supports_multiple_extensions man);
    if (ok : bool) then mret tt
    else raise (agent_error ExtensionsGoalStateError
                  ("Handler " +:+ eh_name (ext_handler i) +:+
                   " does not support MultiConfig but CRP expects it, failing due to inconsistent data")
                  None (-1))
  else mret tt.
End instance.

(** Symbolic execution of the instance's primitives *)
Lemma wp_on_world {A} (m : M world exn A) Q R s :
  wp m (λ a w, Q a (mkIst (s_inst s) w)) (λ e w, R e (mkIst (s_inst s) w)) (s_world s) →
  wp (on_world m) Q R s.
Proof. apply (wp_zoom s_world (λ w s, mkIst (s_inst s) w)). Qed.

Ltac wp_step ::=
  lazymatch goal with
  | |- wp (mbind _ _) _ _ _ => apply wp_bind
  | |- wp (mret _) _ _ _ => apply wp_ret
  | |- wp (raise _) _ _ _ => apply wp_raise
  | |- wp (gets _) _ _ _ => apply wp_gets
  | |- wp (self _) _ _ _ => apply wp_gets
  | |- wp (files _) _ _ _ => apply wp_gets
  | |- wp get_state _ _ _ => apply (wp_gets id)
  | |- wp (modify _) _ _ _ => apply wp_modify
  | |- wp (on_inst _) _ _ _ => apply wp_modify
  | |- wp (on_world _) _ _ _ => apply wp_on_world
  | |- wp (except _ _ _) _ _ _ => apply wp_except
  | |- wp (catch _ _) _ _ _ => apply wp_catch
  | |- wp (finally _ _) _ _ _ => apply wp_finally
  | |- wp (zoom _ _ _) _ _ _ => apply wp_zoom
  | |- wp (if ?b then _ else _) _ _ _ => destruct b eqn:?
  | |- wp (match ?x with _ => _ end) _ _ _ => destruct x eqn:?
  | |- wp (when _ _) _ _ _ => apply wp_when; intros ?
  | |- wp (lift _) _ _ _ => apply wp_lift; intros ? ?
  end; cbv beta.

(** ** The methods of this file start no command

    [grows_i P]: the trace grows by events satisfying [P].  Every method above leaves the
    trace as it is; the lemmas feed [pres_auto]. *)
Definition grows_i (P : list event → Prop) (s s' : ist) : Prop := grows P (s_world s) (s_world s').

#[export] Instance grows_i_preorder P `{!TraceProp P} : PreOrder (grows_i P).
Proof. split; [intros s; unfold grows_i; reflexivity|intros a b c; unfold grows_i; apply transitivity]. Qed.

Section grows_instance.
Context (E : env) (P : list event → Prop) `{!TraceProp P}.

Lemma on_world_grows {A} (m : M world exn A) : pres (grows P) m → pres (grows_i P) (on_world m).
Proof. intros H. by apply (pres_zoom _ (grows P)). Qed.

Lemma on_inst_grows f : pres (grows_i P) (on_inst f).
Proof. apply pres_modify. intros s. unfold grows_i. simpl. reflexivity. Qed.

Lemma self_grows {A} (f : inst → A) : pres (grows_i P) (self f).
Proof. apply pres_gets. apply _. Qed.

Lemma files_grows {A} (f : fs → A) : pres (grows_i P) (files f).
Proof. apply pres_gets. apply _. Qed.
End grows_instance.
#[export] Hint Resolve on_world_grows on_inst_grows self_grows files_grows : pres.

Section grows_methods.
Context (E : env) (P : list event → Prop) `{!TraceProp P}.

Lemma set_state_grows n v : pres (grows_i P) (set_state E n v).
Proof. unfold set_state. pres_auto. Qed.
Lemma get_state_file_grows n d : pres (grows_i P) (get_state_file E n d).
Proof. unfold get_state_file. pres_auto. Qed.
Hint Resolve set_state_grows get_state_file_grows : pres.
Lemma set_handler_state_grows st : pres (grows_i P) (set_handler_state E st).
Proof. unfold set_handler_state. pres_auto. Qed.
Lemma get_handler_state_grows : pres (grows_i P) (get_handler_state E).
Proof. unfold get_handler_state. pres_auto. Qed.
Lemma set_extension_state_grows x st : pres (grows_i P) (set_extension_state E x st).
Proof. unfold set_extension_state. pres_auto. Qed.
Lemma get_extension_state_grows x : pres (grows_i P) (get_extension_state E x).
Proof. unfold get_extension_state. pres_auto. Qed.
Hint Resolve get_extension_state_grows : pres.
Lemma remove_extension_state_files_grows x : pres (grows_i P) (remove_extension_state_files E x).
Proof. unfold remove_extension_state_files. pres_auto. Qed.
Lemma enabled_extensions_grows : pres (grows_i P) (enabled_extensions E).
Proof.
  assert (∀ l, pres (grows_i P) (filter_enabled E l)) as Hf by (induction l; simpl; pres_auto; done).
  unfold enabled_extensions. pres_auto; apply Hf.
Qed.
Lemma set_handler_status_grows st m c : pres (grows_i P) (set_handler_status E st m c).
Proof. unfold set_handler_status. pres_auto. Qed.
Lemma get_handler_status_grows : pres (grows_i P) (get_handler_status E).
Proof. unfold get_handler_status. pres_auto. Qed.
Lemma update_settings_grows x : pres (grows_i P) (update_settings E x).
Proof. unfold update_settings, update_settings_file. pres_auto. Qed.
Lemma create_handler_env_grows : pres (grows_i P) (create_handler_env E).
Proof. unfold create_handler_env. pres_auto. Qed.
Lemma runtime_policy_exists_grows : pres (grows_i P) (runtime_policy_exists E).
Proof. unfold runtime_policy_exists. pres_auto. Qed.
Lemma update_runtime_policy_grows j : pres (grows_i P) (update_runtime_policy E j).
Proof. unfold update_runtime_policy. pres_auto. Qed.
Lemma remove_runtime_policy_grows : pres (grows_i P) (remove_runtime_policy E).
Proof. unfold remove_runtime_policy. pres_auto. Qed.
Lemma load_manifest_grows : pres (grows_i P) (load_manifest E).
Proof. unfold load_manifest. pres_auto. Qed.
Hint Resolve load_manifest_grows : pres.
Lemma supports_policy_grows : pres (grows_i P) (supports_policy E).
Proof. unfold supports_policy. pres_auto. Qed.
Lemma ensure_consistent_data_for_mc_grows : pres (grows_i P) (ensure_consistent_data_for_mc E).
Proof. unfold ensure_consistent_data_for_mc. pres_auto. Qed.
End grows_methods.
#[export] Hint Resolve set_state_grows get_state_file_grows set_handler_state_grows get_handler_state_grows
  set_extension_state_grows get_extension_state_grows remove_extension_state_files_grows
  enabled_extensions_grows set_handler_status_grows get_handler_status_grows update_settings_grows
  create_handler_env_grows runtime_policy_exists_grows update_runtime_policy_grows
  remove_runtime_policy_grows load_manifest_grows supports_policy_grows
  ensure_consistent_data_for_mc_grows : pres.

(** ** Methods that only read

    [pres eq m]: [m] leaves the instance and the machine as they are. *)
Lemma self_pure {A} (f : inst → A) : pres eq (self f).
Proof. by intros s. Qed.
Lemma files_pure {A} (f : fs → A) : pres eq (files f).
Proof. by intros s. Qed.
#[export] Hint Resolve self_pure files_pure : pres.

Lemma get_state_file_pure E n d : pres eq (get_state_file E n d).
Proof. unfold get_state_file. pres_auto. Qed.
#[export] Hint Resolve get_state_file_pure : pres.
Lemma get_handler_state_pure E : pres eq (get_handler_state E).
Proof. unfold get_handler_state. pres_auto. Qed.
Lemma get_extension_state_pure E x : pres eq (get_extension_state E x).
Proof. unfold get_extension_state. pres_auto. Qed.
#[export] Hint Resolve get_handler_state_pure get_extension_state_pure : pres.
Lemma enabled_extensions_pure E : pres eq (enabled_extensions E).
Proof.
  assert (∀ l, pres eq (filter_enabled E l)) as Hf by (induction l; simpl; pres_auto; done).
  unfold enabled_extensions. pres_auto; apply Hf.
Qed.
Lemma get_handler_status_pure E : pres eq (get_handler_status E).
Proof. unfold get_handler_status. pres_auto. Qed.
Lemma load_manifest_pure E : pres eq (load_manifest E).
Proof. unfold load_manifest. pres_auto. Qed.
#[export] Hint Resolve enabled_extensions_pure get_handler_status_pure load_manifest_pure : pres.

Lemma wp_pure {A} (m : I A) (Q : A → ist → Prop) (R : exn → ist → Prop) s :
  pres eq m → (∀ a, Q a s) → (∀ e, R e s) → wp m Q R s.
Proof.
  intros Hm HQ HR. eapply wp_mono; [by apply (pres_wp eq)|..]; intros ? ? <-; auto.
Qed.

(** ** Reading back the state and the status *)

Section readback.
Context (E : env) (Hfault : ∀ p, write_fault E p = None).

Lemma on_world_write_in d x c s :
  (missing ← files (λ f, negb (exists_path d f));
   when missing (on_world (mkdir (write_fault E) d)) ;;
   on_world (write_file (write_fault E) (d ++ [x]) c)) s = on_world (write_in (write_fault E) d x c) s.
Proof.
  unfold on_world, files, write_in, zoom, mbind, M_bind, gets, when. simpl.
  destruct (negb _); simpl; [|done]. by destruct (mkdir _ _ _) as [[[]|] w].
Qed.

Lemma wp_ext {A} (m m' : I A) Q R s : m s = m' s → wp m' Q R s → wp m Q R s.
Proof. unfold wp. by intros ->. Qed.

(** Nothing is in the way of the handler's state and status files. *)
Definition unobstructed (i : inst) (f : fs) : Prop :=
  clear_dir (get_conf_dir E i) f ∧
  isdir (get_conf_dir E i ++ ["HandlerState"]) f = false ∧
  isdir (get_conf_dir E i ++ ["HandlerStatus"]) f = false.

Lemma wrote_unobstructed i x c w w' :
  wrote (get_conf_dir E i) x c w w' → unobstructed i (w_fs w) → unobstructed i (w_fs w').
Proof.
  intros ([t Ht] & Hother & Hdirs & _ & _) ([Hne Hc] & H1 & H2).
  assert (∀ y, isdir (get_conf_dir E i ++ [y]) (w_fs w) = false →
               isdir (get_conf_dir E i ++ [y]) (w_fs w') = false) as Hy.
  { intros y Hy. destruct (decide (y = x)) as [->|Hyx]; [unfold isdir; by rewrite Ht|].
    unfold isdir. rewrite Hother; [exact Hy| |apply not_dir_upto]. intros ?. by simplify_list_eq. }
  split; [by split|]. auto.
Qed.

Lemma set_state_writes n v s :
  clear_dir (get_conf_dir E (s_inst s)) (w_fs (s_world s)) →
  isdir (get_conf_dir E (s_inst s) ++ [n]) (w_fs (s_world s)) = false →
  wp (set_state E n v)
    (λ _ s', s_inst s' = s_inst s ∧ wrote (get_conf_dir E (s_inst s)) n (plain v) (s_world s) (s_world s'))
    (λ _ _, False) s.
Proof.
  intros Hc Hd. unfold set_state. wp_step. wp_step. wp_step.
  eapply wp_ext; [apply on_world_write_in|]. wp_step.
  eapply wp_mono; [by apply (write_in_wrote _ Hfault)|..]; [|done]. by intros [] w' Hw.
Qed.

Lemma get_state_file_reads n v dflt s c t :
  w_fs (s_world s) !! (get_conf_dir E (s_inst s) ++ [n]) = Some (File c t) → c_text c = v →
  get_state_file E n dflt s = (Ok v, s).
Proof.
  intros Hf <-. unfold get_state_file, mbind, M_bind, self, files, gets.
  unfold isfile, read_file, except, catch, lift, id, mret, M_ret. cbv beta iota zeta.
  rewrite Hf. cbn [negb]. by rewrite Hf.
Qed.

Lemma set_handler_status_writes st m code s :
  unobstructed (s_inst s) (w_fs (s_world s)) →
  wp (set_handler_status E st m code)
    (λ _ s', s_inst s' = s_inst s ∧
       ∃ h, wrote (get_conf_dir E (s_inst s)) "HandlerStatus" (json_content (handler_status_json h))
              (s_world s) (s_world s') ∧
            hs_status h = JStr st ∧ hs_code h = JInt code ∧ hs_message h = JStr (redact_sas_token m) ∧
            hs_signature_validated h = signature_validated (s_inst s))
    (λ _ _, False) s.
Proof.
  intros (Hc & _ & Hd). unfold set_handler_status. wp_step. wp_step. wp_step. unfold id.
  eapply wp_ext; [apply on_world_write_in|]. wp_step.
  eapply wp_mono; [by apply (write_in_wrote _ Hfault)|..]; [|done]. intros [] w' Hw.
  split; [done|]. eexists. split; [exact Hw|]. done.
Qed.

(** The handler's state and status as the agent reads them *)
Definition reads (state : string) (P : ExtHandlerStatus → Prop) (s : ist) : Prop :=
  get_handler_state E s = (Ok state, s) ∧ ∃ h, get_handler_status E s = (Ok (Some h), s) ∧ P h.

Lemma set_state_and_status_read state st m code s :
  unobstructed (s_inst s) (w_fs (s_world s)) →
  wp (set_handler_state E state ;; set_handler_status E st m code)
    (λ _ s', s_inst s' = s_inst s ∧
       reads state (λ h, hs_status h = JStr st ∧ hs_code h = JInt code) s')
    (λ _ _, False) s.
Proof.
  intros Hu. wp_step. unfold set_handler_state. wp_step. wp_step. simpl.
  eapply wp_mono; [apply set_state_writes; apply Hu|..]; [|done].
  intros [] s1 [Hi1 Hw1]. pose proof (wrote_unobstructed _ _ _ _ _ Hw1 Hu) as Hu1. rewrite <-Hi1 in Hu1.
  eapply wp_mono; [by apply set_handler_status_writes|..]; [|done].
  intros [] s2 [Hi2 (h & Hw2 & Hst & Hcode & _)]. rewrite Hi1 in *. split; [done|]. split.
  - unfold get_handler_state, mbind, M_bind, self, gets. simpl. destruct Hw1 as ([t Ht] & _).
    apply (get_state_file_reads _ _ _ _ (plain state) t); [|reflexivity]. rewrite Hi2.
    destruct Hw2 as (_ & Hother & _). rewrite Hother; [exact Ht| |apply not_dir_upto].
    intros ?. by simplify_list_eq.
  - exists h. split; [|done]. destruct Hw2 as ([t Ht] & _).
    unfold get_handler_status, mbind, M_bind, self, files, gets, lift, id, read_handler_status, isfile, read_file.
    rewrite Hi2, Ht. simpl. by rewrite handler_status_roundtrip.
Qed.
End readback.

(** ** Creating an instance raises ordinary exceptions only *)

Lemma read_file_ordinary p f : fails_with ordinary (read_file p f).
Proof. unfold read_file. raises_auto. Qed.

Lemma read_handler_status_ordinary d f : fails_with ordinary (read_handler_status d f).
Proof.
  unfold read_handler_status. raises_auto.
  - eapply handler_status_of_json_ordinary. eassumption.
  - eapply read_file_ordinary. eassumption.
Qed.

Lemma new_instance_ordinary E e f : fails_with ordinary (new_instance E e f).
Proof.
  unfold new_instance, get_signature_validated.
  repeat (apply fails_bind; [|intros ?]); [apply read_handler_status_ordinary|apply fails_ok..].
Qed.
