(* ===== verification/Cgroups.v ===== *)
(** * The configuration of control groups (ga/cgroupconfigurator.py, ga/cgroupstelemetry.py, ga/resourcequota.py)

    [CGroupConfigurator._Impl]: which cgroups are enabled, the controllers that are tracked, the quotas
    of the units of the agent and of extensions, the check for processes that do not belong to the
    agent's cgroup, and the setup of the slices.  Processes are read from the files of /proc.  The
    commands of extensions are in [ExtRun].  Log output and the events that only repeat it are
    omitted. *)
From S2P Require Import Prelude PyExn FlexVersion Json Urls TextUtil Shell ExtProcess World Conf Machine Systemd CgroupApi Manifest RestApi ExtInstance.
From Stdlib Require Import Ascii.
Import Re.

Record cgstate (K : Type) := mkCg {
  cg_ps : pstate K;
  cg_initialized : bool;
  cg_supported : bool;
  cg_agent_enabled : bool;
  cg_extensions_enabled : bool;
  cg_api : option Api;
  cg_agent_cgroup : option Cgroup;
  cg_memory_metrics : option Controller;
  cg_unexpected : list (Z * string);       (* _unexpected_processes *)
  cg_tracked : list (string * Controller); (* CGroupsTelemetry._tracked *)
  cg_systemd_run : list Z                  (* _systemd_run_commands of the api *)
}.
Arguments mkCg {K}. Arguments cg_ps {K}. Arguments cg_initialized {K}. Arguments cg_supported {K}. Arguments cg_agent_enabled {K}.
Arguments cg_extensions_enabled {K}. Arguments cg_api {K}. Arguments cg_agent_cgroup {K}. Arguments cg_memory_metrics {K}.
Arguments cg_unexpected {K}. Arguments cg_tracked {K}. Arguments cg_systemd_run {K}.

Section setters.
Context {K : Type}.
Notation cg := (cgstate K).
Definition set_ps (p : pstate K) (s : cg) : cg :=
  mkCg p (cg_initialized s) (cg_supported s) (cg_agent_enabled s) (cg_extensions_enabled s) (cg_api s) (cg_agent_cgroup s) (cg_memory_metrics s) (cg_unexpected s) (cg_tracked s) (cg_systemd_run s).
Definition set_initialized (s : cg) : cg :=
  mkCg (cg_ps s) true (cg_supported s) (cg_agent_enabled s) (cg_extensions_enabled s) (cg_api s) (cg_agent_cgroup s) (cg_memory_metrics s) (cg_unexpected s) (cg_tracked s) (cg_systemd_run s).
Definition set_supported (b : bool) (s : cg) : cg :=
  mkCg (cg_ps s) (cg_initialized s) b (cg_agent_enabled s) (cg_extensions_enabled s) (cg_api s) (cg_agent_cgroup s) (cg_memory_metrics s) (cg_unexpected s) (cg_tracked s) (cg_systemd_run s).
Definition set_enabled (agent extensions : bool) (s : cg) : cg :=
  mkCg (cg_ps s) (cg_initialized s) (cg_supported s) agent extensions (cg_api s) (cg_agent_cgroup s) (cg_memory_metrics s) (cg_unexpected s) (cg_tracked s) (cg_systemd_run s).
Definition set_api (a : option Api) (s : cg) : cg :=
  mkCg (cg_ps s) (cg_initialized s) (cg_supported s) (cg_agent_enabled s) (cg_extensions_enabled s) a (cg_agent_cgroup s) (cg_memory_metrics s) (cg_unexpected s) (cg_tracked s) (cg_systemd_run s).
Definition set_agent_cgroup (c : option Cgroup) (s : cg) : cg :=
  mkCg (cg_ps s) (cg_initialized s) (cg_supported s) (cg_agent_enabled s) (cg_extensions_enabled s) (cg_api s) c (cg_memory_metrics s) (cg_unexpected s) (cg_tracked s) (cg_systemd_run s).
Definition set_memory_metrics (c : option Controller) (s : cg) : cg :=
  mkCg (cg_ps s) (cg_initialized s) (cg_supported s) (cg_agent_enabled s) (cg_extensions_enabled s) (cg_api s) (cg_agent_cgroup s) c (cg_unexpected s) (cg_tracked s) (cg_systemd_run s).
Definition set_unexpected (l : list (Z * string)) (s : cg) : cg :=
  mkCg (cg_ps s) (cg_initialized s) (cg_supported s) (cg_agent_enabled s) (cg_extensions_enabled s) (cg_api s) (cg_agent_cgroup s) (cg_memory_metrics s) l (cg_tracked s) (cg_systemd_run s).
Definition set_tracked (l : list (string * Controller)) (s : cg) : cg :=
  mkCg (cg_ps s) (cg_initialized s) (cg_supported s) (cg_agent_enabled s) (cg_extensions_enabled s) (cg_api s) (cg_agent_cgroup s) (cg_memory_metrics s) (cg_unexpected s) l (cg_systemd_run s).
Definition set_systemd_run (l : list Z) (s : cg) : cg :=
  mkCg (cg_ps s) (cg_initialized s) (cg_supported s) (cg_agent_enabled s) (cg_extensions_enabled s) (cg_api s) (cg_agent_cgroup s) (cg_memory_metrics s) (cg_unexpected s) (cg_tracked s) l.
Definition cg_fs (s : cg) : fs := ps_fs (cg_ps s).
(** [enabled] *)
Definition enabled (s : cg) : bool := cg_agent_enabled s || cg_extensions_enabled s.
End setters.

(** ** Files of /proc *)

Section proc.
Context (f : fs).
Definition proc_file (pid : Z) (name : string) : path := ["proc"; pretty pid; name].
(** The text of a file, if it is there and can be read *)
Definition text_of (p : path) : option string := match read_file p f with Ok c => Some (c_text c) | Err _ => None end.
Definition strip_nul (s : string) : string :=
  if ends_with (String "000" "") s then str_take (String.length s - 1) s else s.

Definition get_command (pid : Z) : string :=
  match text_of (proc_file pid "comm") with Some comm => drop_spaces_end (strip_nul comm) | None => "UNKNOWN" end.
(** ["{1:64.64}"]: cut to 64 characters, and filled up to them *)
Fixpoint blanks (n : nat) : string := match n with O => "" | S n' => String " " (blanks n') end.
Definition width64 (s : string) : string := str_take 64 s +:+ blanks (64 - String.length s).
Definition format_process (pid : Z) : string :=
  "[PID: " +:+ pretty pid +:+ "] " +:+ match text_of (proc_file pid "cmdline") with Some cmdline => width64 cmdline | None => "UNKNOWN" end.
Definition agent_marker : string := "AZURE_GUEST_AGENT_PARENT_PROCESS_NAME=AZURE_GUEST_AGENT".
Definition is_process_descendant_of_the_agent (pid : Z) : bool :=
  match text_of (proc_file pid "environ") with Some environ => str_contains agent_marker (strip_nul environ) | None => false end.
Definition is_zombie_process (pid : Z) : bool :=
  match text_of (proc_file pid "stat") with Some t => bool_decide (py_words "" t !! 2%nat = Some "Z") | None => false end.
(** [r'systemd-run.*--unit=.*--scope.*--slice=azure-vmextensions.*'] *)
Definition systemd_run_regex (s : string) : list unit :=
  '(_, r1) ← lit "systemd-run" s; '(_, r2) ← class_star not_newline r1; '(_, r3) ← lit "--unit=" r2; '(_, r4) ← class_star not_newline r3;
  '(_, r5) ← lit "--scope" r4; '(_, r6) ← class_star not_newline r5; '(_, _) ← lit "--slice=azure-vmextensions" r6; [tt].
Definition check_systemd_run_process (pid : Z) : bool :=
  match text_of (proc_file pid "cmdline") with Some t => bool_decide (is_Some (re_search systemd_run_regex t)) | None => false end.
(** [_get_parent]: zero when it cannot be determined *)
Definition get_parent (pid : Z) : Z :=
  default 0 (t ← text_of (proc_file pid "stat"); w ← py_words "" t !! 3%nat; Urls.int_text w).

(** [while current != 0 and current not in agent_commands]; [None] is a loop that has not ended *)
Fixpoint find_ancestor (fuel : nat) (agent_commands : list Z) (current : Z) : option Z :=
  if (current =? 0) || bool_decide (current ∈ agent_commands) then Some current
  else match fuel with O => None | S n => find_ancestor n agent_commands (get_parent current) end.
(** Every process of the chain but the last has its file: a longer chain is a cycle. *)
Definition chain_bound : nat := S (size f).

(** What the check knows: the daemon, the agent, the commands they started *)
Record known := mkKnown { kn_daemon : Z; kn_self : Z; kn_commands : list Z; kn_systemd_run : list Z }.

(** One process: whether it is unexpected; [None] when the check does not return *)
Definition is_unexpected (k : known) (pid : Z) : option bool :=
  if (pid =? kn_daemon k) || (pid =? kn_self k) || bool_decide (pid ∈ kn_systemd_run k) then Some false
  else if check_systemd_run_process pid then Some false
  else if bool_decide (get_parent pid ∈ kn_systemd_run k) && String.eqb (get_command pid) "systemd-run" then Some false
  else
    current ← find_ancestor chain_bound (kn_commands k) pid;
    Some ((current =? 0) && negb (is_process_descendant_of_the_agent pid || is_zombie_process pid)).
Fixpoint unexpected_processes (k : known) (pids : list Z) : option (list (Z * string)) :=
  match pids with
  | [] => Some []
  | pid :: pids' =>
      b ← is_unexpected k pid;
      l ← unexpected_processes k pids';
      Some (if (b : bool) then (pid, format_process pid) :: l else l)
  end.
End proc.

(** At most five of the processes that were unexpected the last time too *)
Definition seen_again (previous current : list (Z * string)) : list string :=
  take 5 (snd <$> filter (λ p, p.1 ∈ previous.*1) current).

Section configurator.
Context {K : Type} (popen : list string → option string → K → process * K).
Context (wf : path → option (bool * exn)) (c : ConfigurationProvider).
Context (unit_file_install_path service_name distro_name distro_version : string) (pid_file : path).
Context (percent : string → Z → option string) (uptime_ok : string → bool) (pressure : string → option Z).
Context (set_order : list Z → list Z) (daemon_pid self_pid : Z) (lib_dir : path).
Notation CG X := (M (cgstate K) exn X).
Notation PS X := (M (pstate K) exn X).
Definition on_ps {A} (m : PS A) : CG A := zoom cg_ps set_ps m.
Notation unit_name := (get_agent_unit_name service_name).
Notation get_property u p := (on_ps (get_unit_property popen u p)).
(** [try: m  except Exception: log] *)
Definition guarded (m : CG unit) : CG unit := except Exception_ m (λ _, mret tt).
Definition exists_file (p : path) : CG bool := gets (λ s, exists_path p (cg_fs s)).
(** An attribute of [self._cgroups_api], which may be [None] *)
Definition the_api : CG Api :=
  s ← get_state; match cg_api s with Some a => mret a | None => raise (py_error AttributeError "'NoneType' object has no attribute") end.
Definition the_agent_cgroup : CG Cgroup :=
  s ← get_state; match cg_agent_cgroup s with Some a => mret a | None => raise (py_error AttributeError "'NoneType' object has no attribute") end.

(** ** [CGroupsTelemetry] *)

Definition tracking_id (k : Controller) : string := get_controller_type k +:+ ":" +:+ ct_path k.
Definition track_cgroup_controller (k : Controller) : CG unit :=
  s ← get_state;
  k ← lift (match ct_type k with CpuController => initialize_cpu_usage (cg_fs s) uptime_ok k | MemoryController => Ok k end);
  modify (λ s, match dict_get (tracking_id k) (cg_tracked s) with
               | Some _ => s
               | None => set_tracked (dict_set (tracking_id k) k (cg_tracked s)) s
               end).
Definition untrack (id : string) (l : list (string * Controller)) : list (string * Controller) := filter (λ p, p.1 ≠ id) l.
Definition stop_tracking (k : Controller) : CG unit := modify (λ s, set_tracked (untrack (tracking_id k) (cg_tracked s)) s).
Definition reset_tracking : CG unit := modify (set_tracked []).
(** [poll_all_tracked]; [metrics] are the values of a controller, whose errors are ignored. *)
Definition poll_all_tracked (metrics : Controller → fs → res exn (list MetricValue)) : CG (list MetricValue) :=
  s ← get_state;
  let f := cg_fs s in
  l ← lift (map_res (λ k, m ← match metrics k f with Err e => if isinstance e Exception_ then Ok [] else Err e | r => r end;
                          active ← is_active f k; Ok (m, if (active : bool) then [] else [k])) (cg_tracked s).*2);
  for_each (mjoin l.*2) stop_tracking ;;
  mret (mjoin l.*1).

(** ** Quotas *)

Inductive resource := CpuQuota | MemoryQuota.
Definition rq_property (r : resource) : string := match r with CpuQuota => "CPUQuota" | MemoryQuota => "MemoryHigh" end.
Definition rq_format (r : resource) (quota : Z) : string := match r with CpuQuota => pretty quota +:+ "%" | MemoryQuota => pretty quota end.
Definition rq_can_enforce (r : resource) (a : Api) : bool := match r with CpuQuota => can_enforce_cpu a | MemoryQuota => can_enforce_memory a end.
Definition rq_current (r : resource) (u : string) : CG string :=
  on_ps (match r with CpuQuota => get_current_cpu_quota popen percent u | MemoryQuota => get_current_memory_quota popen u end).

(** [_get_resource_quotas] *)
Definition quotas_of (names : list resource) : CG (list (resource * Api)) :=
  s ← get_state; mret (match cg_api s with None => [] | Some a => (λ r, (r, a)) <$> names end).

Fixpoint collect {A B} (l : list A) (step : A → CG (list B)) : CG (list B) :=
  match l with [] => mret [] | x :: l' => y ← step x; ys ← collect l' step; mret (y ++ ys) end.
(** [set_unit_run_time_properties], when there is something to set *)
Definition set_unit_properties (u : string) (l : list (string * string)) : CG unit :=
  if bool_decide (l = []) then mret tt else on_ps (set_unit_run_time_properties popen u l.*1 l.*2).

(** [_set_resource_quota]: the new quota of a resource, if it is given *)
Definition set_resource_quota (u : string) (new_quotas : resource → option Z) : CG unit :=
  guarded (
    quotas ← quotas_of [CpuQuota; MemoryQuota];
    l ← collect quotas (λ '(r, a),
          match new_quotas r with
          | Some q => if rq_can_enforce r a
                      then current ← rq_current r u; mret (if String.eqb current (rq_format r q) then [] else [(rq_property r, rq_format r q)])
                      else mret []
          | None => mret []
          end);
    set_unit_properties u l).
(** [_reset_resource_quota]; the quotas are read once more, for the log. *)
Definition reset_resource_quota (u : string) (names : list resource) (ignore_enforce_check : bool) : CG unit :=
  guarded (
    quotas ← quotas_of names;
    l ← collect quotas (λ '(r, a),
          if ignore_enforce_check || rq_can_enforce r a
          then current ← rq_current r u; mret (if String.eqb current "infinity" then [] else [(rq_property r, "")])
          else mret []);
    set_unit_properties u l ;;
    for_each quotas (λ '(r, _), if bool_decide (rq_property r ∈ l.*1) then _ ← rq_current r u; mret tt else mret tt)).

(** ** Extensions *)

(** [get_extension_services_list]: ["(?P<extname>[\\w+\\.-]+).HandlerManifest\\.json"] *)
Definition is_name_char (x : ascii) : bool :=
  let n := nat_of_ascii x in
  is_digit x || bool_decide (65 ≤ n ≤ 90)%nat || bool_decide (97 ≤ n ≤ 122)%nat || existsb (Ascii.eqb x) ["_"; "+"; "."; "-"]%char.
Definition extname_regex (s : string) : list string :=
  '(name, r) ← class_plus is_name_char s;
  match r with String x r' => if not_newline x then '(_, _) ← lit "HandlerManifest.json" r'; [name] else [] | "" => [] end.
Definition services_of (data : json) : res exn json :=
  data0 ← index0 data; limits ← json_get "resourceLimits" data0; if truthy limits then json_get "services" limits else Ok JNull.
Fixpoint services_list (l : list path) (f : fs) (acc : list (string * json)) : res exn (list (string * json)) :=
  match l with
  | [] => Ok acc
  | p :: l' =>
      match re_search extname_regex (path_str p) with
      | Some name =>
          if starts_with "WALinuxAgent" name then services_list l' f acc
          else
            match read_file p f with
            | Ok content =>
                match c_json content with
                | Some data =>
                    match services_of data with
                    | Ok services => services_list l' f (dict_set name services acc)
                    | Err e => if isinstance e OSError || isinstance e ValueError then services_list l' f acc else Err e
                    end
                | None => services_list l' f acc
                end
            | Err e => if isinstance e OSError then services_list l' f acc else Err e
            end
      | None => services_list l' f acc
      end
  end.
Definition manifest_paths (f : fs) : list path :=
  filter (λ p, exists_path p f = true) ((λ x, lib_dir ++ [x; "HandlerManifest.json"]) <$> filter (λ x, starts_with "." x = false) (listdir lib_dir f)).
Definition get_extension_services_list (f : fs) : res exn (list (string * json)) := services_list (manifest_paths f) f [].

(** The services of a list: [for service in services_list: service.get('name', None)] *)
Definition iterate (j : json) : res exn (list json) :=
  match j with
  | JArr l => Ok l
  | JObj d => Ok (JStr <$> d.*1)
  | JStr s => Ok ((λ x, JStr (String x "")) <$> String.list_ascii_of_string s)
  | _ => Err (py_error TypeError ("'" +:+ type_name j +:+ "' object is not iterable"))
  end.
Definition for_services (services : json) (body : json → string → CG unit) : CG unit :=
  if is_null services then mret tt
  else
    l ← lift (iterate services);
    for_each l (λ service,
      name ← lift (json_get "name" service);
      match name with
      | JNull => mret tt
      | JStr n => body service n
      | _ => raise (py_error TypeError "expected str, bytes or os.PathLike object")
      end).

Definition when_enabled (m : CG unit) : CG unit := s ← get_state; if enabled s then m else mret tt.

Definition reset_extension_quota (extension_name : string) : CG unit :=
  when_enabled (reset_resource_quota (get_extension_slice_name extension_name false) [CpuQuota] false).
Definition reset_extension_services_quota (services : json) : CG unit :=
  when_enabled (guarded (for_services services (λ _ name,
    loaded ← on_ps (is_unit_loaded popen name);
    if (loaded : bool) then reset_resource_quota name [CpuQuota] false else mret tt))).

(** ** Enabling and disabling *)

Inductive DisableCgroups := ALL | AGENT | EXTENSIONS.

Definition enable_cgroups : CG unit :=
  s ← get_state;
  if cg_supported s then modify (set_enabled true true)
  else raise (cgroups_error "Attempted to enable cgroups, but they are not supported on the current platform").

Definition is_cpu (k : Controller) : bool := bool_decide (ct_type k = CpuController).
Definition disable_cgroups (which : DisableCgroups) : CG unit :=
  guarded (
    reset_resource_quota unit_name [CpuQuota; MemoryQuota] false ;;
    match which with
    | ALL =>
        s ← get_state;
        extension_services ← lift (get_extension_services_list (cg_fs s));
        for_each extension_services (λ '(extension, services),
          reset_extension_quota extension ;; reset_extension_services_quota services) ;;
        reset_tracking ;;
        modify (set_enabled false false)
    | AGENT =>
        cgroup ← the_agent_cgroup;
        match List.find is_cpu (get_controllers cgroup) with Some k => stop_tracking k | None => mret tt end ;;
        modify (λ s, set_enabled false (cg_extensions_enabled s) s)
    | EXTENSIONS => mret tt
    end).

(** ** The check of the agent's cgroup *)

(** [_check_processes_in_agent_cgroup]: [None] when it does not return.  An error while the processes
    are looked at gives no report. *)
Definition look_at_processes : CG (option (list (Z * string))) :=
  a ← the_api;
  cgroup ← the_agent_cgroup;
  s ← get_state;
  pids ← lift (get_processes set_order cgroup (cg_fs s));
  mret (unexpected_processes (cg_fs s) (mkKnown daemon_pid self_pid (sh_running (ps_shell (cg_ps s))) (cg_systemd_run s)) pids).
Definition unexpected_error (report : list string) : exn :=
  cgroups_error ("The agent's cgroup includes unexpected processes: " +:+ str_join ", " report).
Definition check_processes_in_agent_cgroup (report_immediately : bool) : CG (option unit) :=
  r ← except Exception_
        (current ← look_at_processes;
         match current with
         | None => mret None
         | Some current =>
             if report_immediately then mret (Some current.*2)
             else
               s ← get_state;
               modify (set_unexpected current) ;;
               mret (Some (seen_again (cg_unexpected s) current))
         end)
        (λ _, mret (Some []));
  match r with
  | None => mret None
  | Some [] => mret (Some tt)
  | Some report => raise (unexpected_error report)
  end.

(** [_check_agent_throttled_time] *)
Definition AGENT_NAME_TELEMETRY : string := "walinuxagent.service".
Definition THROTTLED_TIME : string := "Throttled Time (s)".
Definition check_agent_throttled_time (metrics : list MetricValue) : res exn unit :=
  match List.find (λ m, String.eqb (mv_instance m) AGENT_NAME_TELEMETRY && String.eqb (mv_counter m) THROTTLED_TIME &&
                        number_gt (mv_value m) (get_agent_cpu_throttled_time_threshold c)) metrics with
  | Some m => Err (cgroups_error "The agent has been throttled")
  | None => Ok tt
  end.

(** The result of a check that only [CGroupsException] fails *)
Definition succeeds {A} (m : CG A) (failed : A) : CG (A * bool) :=
  except CGroupsException (x ← m; mret (x, true)) (λ _, mret (failed, false)).
(** [check_cgroups] *)
Definition check_cgroups (metrics : list MetricValue) : CG (option unit) :=
  s ← get_state;
  if negb (enabled s) then mret (Some tt)
  else
    '(r, process_check_success) ← succeeds (check_processes_in_agent_cgroup false) (Some tt);
    match r with
    | None => mret None
    | Some _ =>
        '(_, quota_check_success) ← succeeds (lift (check_agent_throttled_time metrics)) tt;
        when (negb process_check_success && get_cgroup_disable_on_process_check_failure c) (disable_cgroups ALL) ;;
        when (negb quota_check_success && get_cgroup_disable_on_quota_check_failure c) (disable_cgroups AGENT) ;;
        mret (Some tt)
    end.

(** [_check_fails_if_processes_found_in_agent_cgroup_before_enable] *)
Definition check_fails_before_enable : CG (option bool) :=
  '(r, success) ← succeeds (check_processes_in_agent_cgroup true) (Some tt);
  mret ((λ _, negb success) <$> r).

(** [check_agent_memory_usage], of the metrics of the agent's cgroup *)
Definition memory_exceeded (anon limit : Z) : exn :=
  agent_error AgentMemoryExceededException
    ("The agent anon memory limit " +:+ pretty limit +:+ " bytes exceeded. The current reported anon usage is " +:+ pretty anon +:+ " bytes.") None (-1).
Definition check_memory_quota : CG unit :=
  s ← get_state;
  match cg_memory_metrics s with
  | Some k =>
      if enabled s then
        metrics ← lift (memory_metrics (cg_fs s) pressure k);
        let anon := match List.find (λ m, String.eqb (mv_counter m) ANON_MEM_USAGE) metrics with
                    | Some m => match mv_value m with Whole z => z | Milli z => z / 1000 end
                    | None => 0
                    end in
        if get_agent_anon_memory_quota c <? anon then raise (memory_exceeded anon (get_agent_anon_memory_quota c)) else mret tt
      else mret tt
  | None => mret tt
  end.

(** ** Unit files *)

Definition AZURE_SLICE : string := "azure.slice".
Definition VMEXTENSIONS_SLICE : string := EXTENSION_SLICE_PREFIX +:+ ".slice".
Definition AZURE_VMEXTENSIONS_SLICE : string := AZURE_SLICE +:+ "/" +:+ VMEXTENSIONS_SLICE.
Definition LOGCOLLECTOR_SLICE : string := "azure-walinuxagent-logcollector.slice".
Definition text_lines (l : list string) : string := newline +:+ str_join newline l +:+ newline.
Definition AZURE_SLICE_CONTENTS : string :=
  text_lines ["[Unit]"; "Description=Slice for Azure VM Agent and Extensions"; "DefaultDependencies=no"; "Before=slices.target"].
Definition VMEXTENSIONS_SLICE_CONTENTS : string :=
  text_lines ["[Unit]"; "Description=Slice for Azure VM Extensions"; "DefaultDependencies=no"; "Before=slices.target"; "[Slice]"; "CPUAccounting=yes"; "MemoryAccounting=yes"].
Definition AGENT_DROP_IN_FILE_SLICE : string := "10-Slice.conf".
Definition AGENT_DROP_IN_FILE_SLICE_CONTENTS : string :=
  text_lines ["# This drop-in unit file was created by the Azure VM Agent."; "# Do not edit."; "[Service]"; "Slice=azure.slice"].
Definition DROP_IN_FILE_CPU_ACCOUNTING : string := "11-CPUAccounting.conf".
Definition DROP_IN_FILE_CPU_QUOTA : string := "12-CPUQuota.conf".
Definition DROP_IN_FILE_MEMORY_ACCOUNTING : string := "13-MemoryAccounting.conf".

Notation on_files m := (on_ps (on_ps_world m)).
Definition in_unit_path (name : string) : path := fs_path (path_join unit_file_install_path name).
Definition in_drop_in (name : string) : path := fs_path (path_join (get_agent_drop_in_path unit_file_install_path service_name) name).

(** [_create_unit_file], [_cleanup_unit_file], [_cleanup_all_files] *)
Definition create_unit_file (p : path) (contents : string) : CG unit :=
  b ← exists_file (parent_dir p);
  when (negb b) (on_files (mkdir wf (parent_dir p))) ;;
  on_files (write_file wf p (plain contents)).
Definition cleanup_unit_file (p : path) : CG unit := b ← exists_file p; if (b : bool) then guarded (on_files (remove_file wf p)) else mret tt.
Definition cleanup_all_files (l : list path) : CG unit := for_each l cleanup_unit_file.

(** [_cleanup_old_agent_setup] *)
Definition old_agent_files : list path :=
  ["etc"; "systemd"; "system"; "system-walinuxagent.extensions.slice"] :: in_unit_path LOGCOLLECTOR_SLICE ::
  (in_drop_in <$> [DROP_IN_FILE_CPU_ACCOUNTING; DROP_IN_FILE_MEMORY_ACCOUNTING; DROP_IN_FILE_CPU_QUOTA]).
Definition cleanup_old_agent_setup : CG unit := for_each old_agent_files cleanup_unit_file.

(** [_setup_azure_slice].  After an error the clean-up hands a pair of a path and a text to
    [os.path.exists], which raises. *)
Definition has_line_with (p : path) (t : string) (f : fs) : bool :=
  match read_file p f with Ok content => existsb (str_contains t) (lines (c_text content)) | Err _ => false end.
Definition setup_azure_slice : CG unit :=
  s ← get_state;
  let missing p := negb (exists_path p (cg_fs s)) in
  a ← the_api;
  let files1 := (if missing (in_unit_path AZURE_SLICE) then [(in_unit_path AZURE_SLICE, AZURE_SLICE_CONTENTS)] else []) ++
                (if missing (in_unit_path VMEXTENSIONS_SLICE) && bool_decide (get_accounting_properties a ≠ [])
                 then [(in_unit_path VMEXTENSIONS_SLICE, VMEXTENSIONS_SLICE_CONTENTS)] else []) in
  files_to_create ←
    (if has_line_with (fs_path (get_agent_unit_file unit_file_install_path service_name)) "Slice=" (cg_fs s)
     then cleanup_unit_file (in_drop_in AGENT_DROP_IN_FILE_SLICE) ;; mret files1
     else mret (files1 ++ (if missing (in_drop_in AGENT_DROP_IN_FILE_SLICE)
                           then [(in_drop_in AGENT_DROP_IN_FILE_SLICE, AGENT_DROP_IN_FILE_SLICE_CONTENTS)] else [])));
  except Exception_ (for_each files_to_create (λ '(p, contents), create_unit_file p contents))
    (λ _, raise (py_error TypeError "stat: path should be string, bytes, os.PathLike or integer, not tuple")).

(** [_reset_agent_cgroup_setup] *)
Definition reset_agent_cgroup_setup : CG unit :=
  guarded (
    s ← get_state;
    let f := cg_fs s in
    let drop_in := fs_path (get_agent_drop_in_path unit_file_install_path service_name) in
    if isdir drop_in f && bool_decide (listdir drop_in f ≠ []) then
      let files_to_cleanup := filter (λ p, exists_path p f = true)
        (in_drop_in <$> [AGENT_DROP_IN_FILE_SLICE; DROP_IN_FILE_CPU_ACCOUNTING; DROP_IN_FILE_MEMORY_ACCOUNTING; DROP_IN_FILE_CPU_QUOTA]) in
      if bool_decide (files_to_cleanup = []) then mret tt
      else cleanup_all_files files_to_cleanup ;; reset_resource_quota unit_name [CpuQuota] true
    else mret tt).

(** [_enable_accounting] *)
Definition enable_accounting (u : string) : CG unit := guarded (a ← the_api; set_unit_properties u (get_accounting_properties a)).

(** ** Initialization *)

(** [_check_cgroups_supported] *)
Definition check_cgroups_supported : CG bool :=
  s ← get_state;
  if negb (distro_supported distro_name distro_version) then mret false
  else if negb (is_systemd (cg_fs s)) then mret false
  else
    legacy_cgroups ← on_ps (cleanup_legacy_cgroups wf pid_file);
    if 0 <? legacy_cgroups then mret false
    else
      except CGroupsException (a ← on_ps (create_cgroup_api popen); modify (set_api (Some a)) ;; mret true) (λ _, mret false).

(** What [initialize_cgroups] does with one controller of the agent's cgroup *)
Definition setup_agent_controller (k : Controller) : CG unit :=
  for_each (get_unit_properties k) (λ prop, _ ← get_property unit_name prop; mret tt) ;;
  a ← the_api;
  if is_cpu k && can_enforce_cpu a then
    set_resource_quota unit_name (λ r, match r with CpuQuota => Some (get_agent_cpu_quota c) | MemoryQuota => None end) ;;
    track_cgroup_controller (set_throttle true k)
  else
    (if is_cpu k then mret tt else modify (set_memory_metrics (Some k))) ;;
    track_cgroup_controller k.

(** The body of [initialize_cgroups]; [None] when it does not return *)
Definition initialize_body : CG (option unit) :=
  supported ← check_cgroups_supported;
  modify (set_supported supported) ;;
  if negb supported then reset_agent_cgroup_setup ;; mret (Some tt)
  else
    agent_control_group ← get_property unit_name "ControlGroup";
    if negb (bool_decide (agent_control_group ∈ ["/" +:+ AZURE_SLICE +:+ "/" +:+ unit_name; "/system.slice/" +:+ unit_name])) then mret (Some tt)
    else
      cleanup_old_agent_setup ;;
      s ← get_state;
      when (using_cgroup_v2 (cg_api s)) (reset_resource_quota unit_name [MemoryQuota] true) ;;
      setup_azure_slice ;;
      a ← the_api;
      cgroup ← on_ps (get_unit_cgroup popen a unit_name AGENT_NAME_TELEMETRY);
      modify (set_agent_cgroup (Some cgroup)) ;;
      fails ← (if get_cgroup_disable_on_process_check_failure c then check_fails_before_enable else mret (Some false));
      match fails with
      | None => mret None
      | Some true => disable_cgroups ALL ;; mret (Some tt)
      | Some false =>
          let agent_controllers := get_controllers cgroup in
          when (bool_decide (agent_controllers ≠ [])) (enable_cgroups ;; enable_accounting unit_name) ;;
          for_each agent_controllers setup_agent_controller ;;
          mret (Some tt)
      end.
(** Its [finally] block, which runs unless the body does not return *)
Definition initialize_end : CG unit :=
  modify set_initialized ;;
  s ← get_state;
  match cg_api s with
  | Some a => when (negb (cg_agent_enabled s) || negb (can_enforce_cpu a)) (reset_resource_quota unit_name [CpuQuota] true)
  | None => mret tt
  end.
Definition initialize_cgroups : CG (option unit) :=
  s ← get_state;
  r ← catch (if cg_initialized s then mret (Some tt) else except Exception_ initialize_body (λ _, mret (Some tt)))
        (λ e, initialize_end ;; raise e);
  match r with
  | None => mret None
  | Some _ => initialize_end ;; mret (Some tt)
  end.

(** ** The slices and the services of extensions *)

(** [_get_unit_properties_requiring_update] *)
Definition properties_requiring_update (u cpu_quota : string) : CG (list (string * string)) :=
  a ← the_api;
  l ← collect (get_accounting_properties a) (λ '(prop, val),
        current ← get_property u prop; mret (if String.eqb current val then [] else [(prop, val)]));
  current_cpu_quota ← rq_current CpuQuota u;
  mret (l ++ (if String.eqb current_cpu_quota cpu_quota then []
              else [("CPUQuota", if String.eqb cpu_quota "infinity" then "" else cpu_quota)])).
Definition quota_text (a : Api) (cpu_quota : json) : string :=
  if negb (is_null cpu_quota) && can_enforce_cpu a then py_str cpu_quota +:+ "%" else "infinity".

Definition setup_extension_slice (extension_name : string) (cpu_quota : json) : CG unit :=
  when_enabled (guarded (
    let extension_slice := get_extension_slice_name extension_name false in
    cleanup_unit_file (in_unit_path extension_slice) ;;
    cleanup_unit_file (in_unit_path (get_extension_slice_name extension_name true)) ;;
    quota ← (if is_null cpu_quota then mret "infinity" else a ← the_api; mret (quota_text a cpu_quota));
    l ← properties_requiring_update extension_slice quota;
    set_unit_properties extension_slice l)).

(** [set_extension_services_cpu_memory_quota] *)
Definition set_service_quota (service : json) (service_name : string) : CG unit :=
  cleanup_all_files ((λ x, fs_path (path_join (path_join unit_file_install_path (service_name +:+ ".d")) x)) <$>
                     [DROP_IN_FILE_CPU_ACCOUNTING; DROP_IN_FILE_MEMORY_ACCOUNTING; DROP_IN_FILE_CPU_QUOTA]) ;;
  cpu_quota ← lift (json_get "cpuQuotaPercentage" service);
  quota ← (if is_null cpu_quota then mret "infinity" else a ← the_api; mret (quota_text a cpu_quota));
  properties ← except Exception_ (l ← properties_requiring_update service_name quota; mret (Some l)) (λ _, mret None);
  match properties with
  | None => mret tt
  | Some l =>
      loaded ← on_ps (is_unit_loaded popen service_name);
      if (loaded : bool) then guarded (set_unit_properties service_name l) else mret tt
  end.
Definition set_extension_services_cpu_memory_quota (services : json) : CG unit := when_enabled (for_services services set_service_quota).

(** Tracking *)
Definition start_tracking_unit_cgroups (u : string) : CG unit :=
  when_enabled (guarded (
    a ← the_api;
    cgroup ← on_ps (get_unit_cgroup popen a u u);
    quota ← on_ps (has_cpu_quota popen percent u);
    for_each (get_controllers cgroup) (λ k, track_cgroup_controller (if is_cpu k && quota then set_throttle true k else k)))).
Definition stop_tracking_unit_cgroups (u : string) : CG unit :=
  when_enabled (guarded (a ← the_api; cgroup ← on_ps (get_unit_cgroup popen a u u); for_each (get_controllers cgroup) stop_tracking)).
Definition extension_cgroup (a : Api) (extension_name : string) : Cgroup :=
  get_cgroup_from_relative_path a (path_join AZURE_VMEXTENSIONS_SLICE (get_extension_slice_name extension_name false)) extension_name.
Definition stop_tracking_extension_cgroups (extension_name : string) : CG unit :=
  when_enabled (guarded (a ← the_api; for_each (get_controllers (extension_cgroup a extension_name)) stop_tracking)).
Definition stop_tracking_extension_services_cgroups (services : json) : CG unit := when_enabled (for_services services (λ _ n, stop_tracking_unit_cgroups n)).
Definition start_tracking_extension_services_cgroups (services : json) : CG unit := when_enabled (for_services services (λ _ n, start_tracking_unit_cgroups n)).

(** [get_logcollector_unit_properties] *)
Definition get_logcollector_unit_properties (a : Api) : list string :=
  ["--property=CPUQuota=5%"] ++ ((λ '(prop, val), "--property=" +:+ prop +:+ "=" +:+ val) <$> get_accounting_properties a) ++
  (if using_cgroup_v2 (Some a) then ["--property=MemoryHigh=170M"] else []).
End configurator.
