(* ===== verification/CgroupProcs.v ===== *)
(** * Which processes belong to the agent's cgroup

    The check of [Cgroups] against the relation "is a process of the agent": the search for an
    ancestor, when it ends, and what a check reports. *)
From S2P Require Import Prelude PyExn FlexVersion Json Urls TextUtil Shell ExtProcess World Conf Machine Systemd CgroupApi Manifest RestApi ExtInstance Cgroups.

(** ** The search for an ancestor *)

Section ancestors.
Context (f : fs) (commands : list Z).

Definition stops (p : Z) : Prop := p = 0 ∨ p ∈ commands.
(** The [n]-th ancestor *)
Definition ancestor (n : nat) (p : Z) : Z := Nat.iter n (get_parent f) p.

Lemma stops_dec p : (p =? 0) || bool_decide (p ∈ commands) = true ↔ stops p.
Proof. unfold stops. rewrite orb_true_iff, Z.eqb_eq, bool_decide_eq_true. done. Qed.

Lemma ancestor_S n p : ancestor (S n) p = ancestor n (get_parent f p).
Proof. unfold ancestor. by rewrite Nat.iter_succ_r. Qed.

Lemma find_ancestor_None fuel p : find_ancestor f fuel commands p = None ↔ ∀ n, (n ≤ fuel)%nat → ¬ stops (ancestor n p).
Proof.
  revert p. induction fuel as [|fuel IH]; intros p; simpl; destruct (_ || _) eqn:Hs.
  - split; [done|]. intros H. apply stops_dec in Hs. by destruct (H 0%nat).
  - split; [|done]. intros _ n Hn. assert (n = 0%nat) as -> by lia. change (ancestor 0 p) with p. intros ?%stops_dec. congruence.
  - split; [done|]. intros H. apply stops_dec in Hs. by destruct (H 0%nat ltac:(lia)).
  - rewrite IH. split.
    + intros H [|n] Hn; [change (ancestor 0 p) with p; intros ?%stops_dec; congruence|]. rewrite ancestor_S. apply H. lia.
    + intros H n Hn. rewrite <-ancestor_S. apply H. lia.
Qed.

Lemma find_ancestor_more fuel fuel' p x : find_ancestor f fuel commands p = Some x → (fuel ≤ fuel')%nat → find_ancestor f fuel' commands p = Some x.
Proof.
  revert fuel' p. induction fuel as [|fuel IH]; intros fuel' p; destruct fuel' as [|fuel']; simpl; destruct (_ || _); try done; [lia|].
  intros H Hle. apply IH; [done|lia].
Qed.

Lemma parent_has_file p : get_parent f p ≠ 0 → proc_file p "stat" ∈ dom f.
Proof.
  unfold get_parent, text_of, read_file. intros H. apply elem_of_dom. destruct (f !! proc_file p "stat"); [done|]. by destruct H.
Qed.

Lemma repeated {A} `{EqDecision A} (l : list A) : ¬ NoDup l → ∃ i j x, (i < j)%nat ∧ l !! i = Some x ∧ l !! j = Some x.
Proof.
  induction l as [|y l IH]; intros H; [destruct H; constructor|]. destruct (decide (y ∈ l)) as [Hy|Hy].
  - apply list_elem_of_lookup in Hy as [j Hj]. exists 0%nat, (S j), y. split; [lia|done].
  - destruct IH as (i & j & x & Hij & Hi & Hj); [by intros Hl; apply H; constructor|]. exists (S i), (S j), x. split; [lia|done].
Qed.

Lemma proc_file_inj p q : proc_file p "stat" = proc_file q "stat" → p = q.
Proof. unfold proc_file. intros H. injection H as H. by apply (inj pretty) in H. Qed.

(** A chain longer than the files of /proc repeats a process. *)
Lemma chain_repeats p : (∀ n, (n ≤ S (size f))%nat → ancestor n p ≠ 0) →
  ∃ i j, (i < j ≤ size f)%nat ∧ ancestor i p = ancestor j p.
Proof.
  intros H. set (l := (λ n, proc_file (ancestor n p) "stat") <$> seq 0 (S (size f))).
  assert (¬ NoDup l) as Hl.
  { intros Hl. assert (l ⊆+ elements (dom f)) as Hsub.
    { apply NoDup_submseteq; [done|]. intros x (n & -> & Hn%elem_of_seq)%list_elem_of_fmap. apply elem_of_elements, parent_has_file.
      specialize (H (S n) ltac:(lia)). unfold ancestor in *. by rewrite Nat.iter_succ in H. }
    apply submseteq_length in Hsub. unfold l in Hsub. rewrite length_fmap, length_seq in Hsub.
    change (length (elements (dom f))) with (size (dom f)) in Hsub. rewrite size_dom in Hsub. lia. }
  apply repeated in Hl as (i & j & x & Hij & Hi & Hj). unfold l in *. rewrite list_lookup_fmap in Hi, Hj.
  apply fmap_Some in Hi as (i' & Hi & ->), Hj as (j' & Hj & Hx). apply lookup_seq in Hi as [-> ?], Hj as [-> ?].
  exists i, j. split; [lia|]. by apply proc_file_inj.
Qed.

Lemma chain_periodic p i j n : (i < j)%nat → ancestor i p = ancestor j p → (j ≤ n)%nat → ancestor n p = ancestor (n - (j - i)) p.
Proof.
  intros Hij H Hn. replace n with ((n - j) + j)%nat at 1 by lia. replace (n - (j - i))%nat with ((n - j) + i)%nat by lia.
  unfold ancestor in *. by rewrite !Nat.iter_add, H.
Qed.

(** The bound is exact: a search that has not ended by then never ends. *)
Lemma search_loops p fuel : find_ancestor f (chain_bound f) commands p = None → find_ancestor f fuel commands p = None.
Proof.
  rewrite !find_ancestor_None. intros H n _. destruct (chain_repeats p) as (i & j & Hij & Heq).
  { intros m Hm Hz. apply (H m); [done|by left]. }
  induction n as [n IH] using lt_wf_ind. destruct (decide (n ≤ chain_bound f)%nat) as [Hn|Hn]; [by apply H|].
  unfold chain_bound in Hn. rewrite (chain_periodic p i j) by (done || lia). apply IH. lia.
Qed.

(** Without a cycle among the parents the search ends. *)
Lemma search_ends (rank : Z → nat) p : (∀ q, get_parent f q ≠ 0 → (rank (get_parent f q) < rank q)%nat) →
  is_Some (find_ancestor f (chain_bound f) commands p).
Proof.
  intros Hrank. assert (is_Some (find_ancestor f (S (rank p)) commands p)) as [x Hx].
  { remember (rank p) as r eqn:Hr. assert (rank p ≤ r)%nat as Hle by lia. clear Hr. revert p Hle.
    induction r as [|r IH]; intros p Hle; simpl; destruct (_ || _) eqn:Hs; try by eexists.
    - destruct (decide (get_parent f p = 0)) as [->|Hp]; [by eexists|]. specialize (Hrank p Hp). lia.
    - destruct (decide (get_parent f p = 0)) as [->|Hp]; [by eexists|]. apply (IH (get_parent f p)). specialize (Hrank p Hp). lia. }
  destruct (find_ancestor f (chain_bound f) commands p) eqn:H; [by eexists|]. by rewrite (search_loops p (S (rank p)) H) in Hx.
Qed.

(** A process that one of the commands started, directly or not *)
Inductive descends : Z → Prop :=
| descends_here p : p ≠ 0 → p ∈ commands → descends p
| descends_parent p : p ≠ 0 → descends (get_parent f p) → descends p.

Lemma find_ancestor_spec fuel p x : find_ancestor f fuel commands p = Some x → x ≠ 0 ↔ descends p.
Proof.
  revert p. induction fuel as [|fuel IH]; intros p; simpl; destruct (_ || _) eqn:Hs; try done.
  1, 2: intros [= <-]; split; [|by intros []]; intros Hp; apply stops_dec in Hs as [|Hs]; [done|by apply descends_here].
  intros ->%IH. apply orb_false_iff in Hs as [Hp%Z.eqb_neq Hc%bool_decide_eq_false]. split; [by apply descends_parent|].
  intros Hd. inversion Hd; subst; done.
Qed.
End ancestors.

(** ** What belongs to the agent *)

Section belongs.
Context (f : fs) (k : known).

Definition belongs (pid : Z) : Prop :=
  pid = kn_daemon k ∨ pid = kn_self k ∨ pid ∈ kn_systemd_run k ∨ check_systemd_run_process f pid = true ∨
  (get_parent f pid ∈ kn_systemd_run k ∧ get_command f pid = "systemd-run") ∨
  descends f (kn_commands k) pid ∨ is_process_descendant_of_the_agent f pid = true ∨ is_zombie_process f pid = true.

Lemma is_unexpected_spec pid b : is_unexpected f k pid = Some b → b = true ↔ ¬ belongs pid.
Proof.
  unfold is_unexpected, belongs. destruct (_ || _ || _) eqn:H1.
  { intros [= <-]. split; [done|]. intros H. destruct H. apply orb_true_iff in H1 as [H1|H1%bool_decide_eq_true]; [|tauto].
    apply orb_true_iff in H1 as [?%Z.eqb_eq|?%Z.eqb_eq]; tauto. }
  apply orb_false_iff in H1 as [H1 Hr%bool_decide_eq_false]. apply orb_false_iff in H1 as [Hd%Z.eqb_neq Hs%Z.eqb_neq].
  destruct (check_systemd_run_process f pid); [intros [= <-]; split; [done|tauto]|].
  destruct (_ && String.eqb _ _) eqn:H2.
  { apply andb_true_iff in H2 as [?%bool_decide_eq_true ?%String.eqb_eq]. intros [= <-]. split; [done|tauto]. }
  assert (¬ (get_parent f pid ∈ kn_systemd_run k ∧ get_command f pid = "systemd-run")) as Hp.
  { intros [Ha Hb]. apply andb_false_iff in H2 as [?%bool_decide_eq_false|?%String.eqb_neq]; done. }
  destruct (find_ancestor _ _ _ _) as [x|] eqn:Hx; [|done]. apply find_ancestor_spec in Hx. simpl. intros [= <-].
  destruct (Z.eqb_spec x 0) as [->|Hne]; simpl.
  - rewrite negb_true_iff, orb_false_iff. destruct (is_process_descendant_of_the_agent f pid), (is_zombie_process f pid); naive_solver.
  - split; [done|]. tauto.
Qed.

Lemma unexpected_processes_spec pids l : unexpected_processes f k pids = Some l →
  ∀ p, p ∈ l ↔ p.1 ∈ pids ∧ ¬ belongs p.1 ∧ p.2 = format_process f p.1.
Proof.
  revert l. induction pids as [|pid pids IH]; intros l; simpl; [by intros [= <-] p; rewrite !elem_of_nil; tauto|].
  destruct (is_unexpected f k pid) as [b|] eqn:Hb; [|done]. apply is_unexpected_spec in Hb. simpl.
  destruct (unexpected_processes f k pids) as [l'|]; [|done]. specialize (IH _ eq_refl). intros [= <-] [q t]. specialize (IH (q, t)). simpl in *.
  rewrite elem_of_cons. destruct b; [|].
  - rewrite elem_of_cons, IH. assert (¬ belongs pid) as Hn by tauto. split; [intros [[= -> ->]|?]; tauto|].
    intros ([->|Hq] & H1 & ->); [by left|tauto].
  - rewrite IH. assert (¬ ¬ belongs pid) as Hn by (intros ?%Hb; done). split; [tauto|]. intros ([->|Hq] & H1 & ->); tauto.
Qed.

Lemma unexpected_processes_total (rank : Z → nat) pids : (∀ q, get_parent f q ≠ 0 → (rank (get_parent f q) < rank q)%nat) →
  is_Some (unexpected_processes f k pids).
Proof.
  intros H. induction pids as [|pid pids [l Hl]]; [by eexists|]. simpl. rewrite Hl.
  assert (is_Some (is_unexpected f k pid)) as [b ->]; [|by eexists]. unfold is_unexpected.
  repeat (destruct (_ : bool); [by eexists|]). destruct (search_ends f (kn_commands k) rank pid H) as [x ->]. by eexists.
Qed.
End belongs.

(** ** A check *)

Section check.
Context {K : Type} (set_order : list Z → list Z) (daemon_pid self_pid : Z).
Notation known_of s := (mkKnown daemon_pid self_pid (sh_running (ps_shell (cg_ps s))) (cg_systemd_run s)).

Lemma seen_again_nil previous current : seen_again previous current = [] ↔ ∀ p, p ∈ current → p.1 ∉ previous.*1.
Proof.
  unfold seen_again. split.
  - intros H p Hp Hin. assert (filter (λ p, p.1 ∈ previous.*1) current = []) as Hn.
    { destruct (filter _ current) as [|q l]; [done|]. done. }
    apply (not_elem_of_nil p). rewrite <-Hn. by apply list_elem_of_filter.
  - intros H. assert (filter (λ p, p.1 ∈ previous.*1) current = []) as ->; [|done].
    destruct (filter _ current) as [|q l] eqn:Hq; [done|]. assert (q ∈ q :: l) as Hin by left. rewrite <-Hq in Hin.
    apply list_elem_of_filter in Hin as [H1 H2]. by destruct (H q).
Qed.

End check.

(** *** Samples *)

Module SampleCheck.
Definition text (t : string) : node := File (plain t) 0.
Definition agent_cgroup : Cgroup := CgroupV2 AGENT_NAME_TELEMETRY "/sys/fs/cgroup" "/sys/fs/cgroup/azure.slice/walinuxagent.service" ["cpu"].
Definition procs : path := ["sys"; "fs"; "cgroup"; "azure.slice"; "walinuxagent.service"; "cgroup.procs"].
Definition files (rest : fs) : fs := <[procs := text "10 20 500 501 600"]> rest.
Definition stat_501 : path := proc_file 501 "stat".
Definition stat_600 : path := proc_file 600 "stat".
Definition quiet : fs := <[stat_501 := text "501 (sh) S 500 500"]> (<[stat_600 := text "600 (stray) S 1 600"]> ∅).
Definition state (f : fs) (seen : list (Z * string)) : cgstate unit :=
  mkCg (mkPState (mkWorld f 0 [] false) (mkShell [500] tt)) true true true true (Some (ApiV2 "/sys/fs/cgroup" ["cpu"])) (Some agent_cgroup) None seen [] [].

Lemma parents q : get_parent (files quiet) q ≠ 0 → q ∈ [501; 600].
Proof.
  unfold get_parent, text_of, read_file, files, quiet. rewrite lookup_insert_ne by done.
  destruct (decide (q = 501)) as [->|H1]; [by left|]. rewrite lookup_insert_ne by (intros H; apply H1; symmetry; exact (proc_file_inj 501 q H)).
  destruct (decide (q = 600)) as [->|H2]; [by right; left|]. rewrite lookup_insert_ne by (intros H; apply H2; symmetry; exact (proc_file_inj 600 q H)).
  rewrite lookup_empty. simpl. done.
Qed.
Definition rank (q : Z) : nat := if q =? 501 then 2 else if q =? 600 then 2 else 1.


(** The name of a process may have spaces, and its parent is then not found: a command that the agent
    runs is taken for a stray process. *)
Definition spaces : fs := <[proc_file 501 "stat" := text "501 (tmux: server) S 500 500"]> ∅.
Example spaces_hide_the_parent : get_parent spaces 501 = 0 ∧ is_unexpected spaces (mkKnown 10 20 [500] []) 501 = Some true.
Proof. vm_compute. split; reflexivity. Qed.

(** A process can choose a name with which the search for its ancestor never ends. *)
Definition cycle : fs := <[proc_file 501 "stat" := text "501 (a 501 501 b) S 500 500"]> ∅.
Example check_never_returns : ∀ fuel, find_ancestor cycle fuel [500] 501 = None.
Proof. intros fuel. apply search_loops. vm_compute. reflexivity. Qed.
End SampleCheck.
