(* ===== verification/CgroupInv.v ===== *)
(** * Invariants of the configuration of control groups

    Cgroups are enabled only after [initialize_cgroups] found them supported, with the interface and the
    cgroup of the agent at hand; and disabling them all leaves nothing tracked. *)
From S2P Require Import Prelude PyExn FlexVersion Json Urls TextUtil Shell ExtProcess World Conf Machine Systemd CgroupApi Manifest RestApi ExtInstance Cgroups.

Section invariant.
Context {K : Type} (popen : list string → option string → K → process * K).
Context (wf : path → option (bool * exn)) (c : ConfigurationProvider).
Context (unit_file_install_path service_name distro_name distro_version : string) (pid_file : path).
Context (percent : string → Z → option string) (uptime_ok : string → bool) (pressure : string → option Z).
Context (set_order : list Z → list Z) (daemon_pid self_pid : Z) (lib_dir : path).
Notation CG X := (M (cgstate K) exn X).
Notation initialize_body := (initialize_body popen wf c unit_file_install_path service_name distro_name distro_version pid_file percent uptime_ok set_order daemon_pid self_pid lib_dir).
Notation initialize_cgroups := (initialize_cgroups popen wf c unit_file_install_path service_name distro_name distro_version pid_file percent uptime_ok set_order daemon_pid self_pid lib_dir).
Notation disable_cgroups := (disable_cgroups popen service_name percent lib_dir).

(** ** Operations that enable nothing *)

Definition lowers (s s' : cgstate K) : Prop :=
  cg_initialized s' = cg_initialized s ∧ cg_supported s' = cg_supported s ∧ cg_api s' = cg_api s ∧ cg_agent_cgroup s' = cg_agent_cgroup s ∧
  cg_systemd_run s' = cg_systemd_run s ∧ (cg_agent_enabled s' = true → cg_agent_enabled s = true) ∧ (cg_extensions_enabled s' = true → cg_extensions_enabled s = true).
#[local] Instance lowers_preorder : PreOrder lowers.
Proof. split; [done|]. intros x y z (? & ? & ? & ? & ? & ? & ?) (? & ? & ? & ? & ? & ? & ?). repeat split; (congruence || auto). Qed.

Lemma modify_lowers (f : cgstate K → cgstate K) : (∀ s, lowers s (f s)) → pres lowers (modify f : CG unit).
Proof. intros H s. apply H. Qed.
Lemma get_state_lowers : pres lowers (get_state : CG _).
Proof. done. Qed.
Lemma on_ps_lowers {A} (m : M (pstate K) exn A) : pres lowers (on_ps m).
Proof. intros s. unfold on_ps, zoom. by destruct (m (cg_ps s)) as [r p]. Qed.
#[local] Hint Resolve get_state_lowers : pres.
#[local] Hint Extern 1 (pres lowers (on_ps _)) => apply on_ps_lowers : pres.
#[local] Hint Extern 1 (pres lowers (modify _)) => (apply modify_lowers; intros [] ; repeat case_match; done) : pres.

Lemma guarded_lowers m : pres lowers m → pres lowers (guarded m : CG unit).
Proof. intros H. unfold guarded. pres_auto. Qed.
#[local] Hint Resolve guarded_lowers : pres.
Lemma when_enabled_lowers m : pres lowers m → pres lowers (when_enabled m : CG unit).
Proof. intros H. unfold when_enabled. pres_auto. Qed.
#[local] Hint Resolve when_enabled_lowers : pres.
Lemma the_api_lowers : pres lowers (the_api : CG Api).
Proof. unfold the_api. pres_auto. Qed.
Lemma the_agent_cgroup_lowers : pres lowers (the_agent_cgroup : CG Cgroup).
Proof. unfold the_agent_cgroup. pres_auto. Qed.
#[local] Hint Resolve the_api_lowers the_agent_cgroup_lowers : pres.
Lemma collect_lowers {A B} (l : list A) (step : A → CG (list B)) : (∀ x, pres lowers (step x)) → pres lowers (collect l step).
Proof. intros H. induction l; simpl; pres_auto. Qed.
Lemma set_properties_lowers u l : pres lowers (set_unit_properties popen u l).
Proof. unfold set_unit_properties. pres_auto. Qed.
#[local] Hint Resolve set_properties_lowers : pres.
Lemma quotas_of_lowers l : pres lowers (quotas_of l : CG _).
Proof. unfold quotas_of. pres_auto. Qed.
Lemma rq_current_lowers r u : pres lowers (rq_current popen percent r u).
Proof. unfold rq_current. pres_auto. Qed.
#[local] Hint Resolve quotas_of_lowers rq_current_lowers : pres.
Lemma set_resource_quota_lowers u q : pres lowers (set_resource_quota popen percent u q).
Proof. apply guarded_lowers. pres_auto. apply collect_lowers. intros []. pres_auto. Qed.
Lemma reset_resource_quota_lowers u l b : pres lowers (reset_resource_quota popen percent u l b).
Proof. apply guarded_lowers. pres_auto. apply collect_lowers. intros []. pres_auto. Qed.
#[local] Hint Resolve set_resource_quota_lowers reset_resource_quota_lowers : pres.

Lemma track_lowers k : pres lowers (track_cgroup_controller uptime_ok k : CG unit).
Proof. unfold track_cgroup_controller. pres_auto. Qed.
Lemma stop_tracking_lowers k : pres lowers (stop_tracking k : CG unit).
Proof. unfold stop_tracking. pres_auto. Qed.
#[local] Hint Resolve track_lowers stop_tracking_lowers : pres.
Lemma for_services_lowers j body : (∀ x n, pres lowers (body x n)) → pres lowers (for_services j body : CG unit).
Proof. intros H. unfold for_services. pres_auto. Qed.
Lemma exists_file_lowers p : pres lowers (exists_file p : CG bool).
Proof. unfold exists_file. pres_auto. Qed.
#[local] Hint Resolve exists_file_lowers : pres.
Lemma cleanup_unit_file_lowers p : pres lowers (cleanup_unit_file wf p : CG unit).
Proof. unfold cleanup_unit_file. pres_auto. Qed.
#[local] Hint Resolve cleanup_unit_file_lowers : pres.
Lemma reset_extension_quota_lowers n : pres lowers (reset_extension_quota popen percent n).
Proof. unfold reset_extension_quota. pres_auto. Qed.
Lemma reset_extension_services_quota_lowers j : pres lowers (reset_extension_services_quota popen percent j).
Proof. apply when_enabled_lowers, guarded_lowers, for_services_lowers. pres_auto. Qed.
#[local] Hint Resolve reset_extension_quota_lowers reset_extension_services_quota_lowers : pres.

Lemma disable_lowers which : pres lowers (disable_cgroups which).
Proof. apply guarded_lowers. unfold reset_tracking. pres_auto. Qed.
#[local] Hint Resolve disable_lowers : pres.

Lemma check_processes_lowers b : pres lowers (check_processes_in_agent_cgroup set_order daemon_pid self_pid b : CG _).
Proof. unfold check_processes_in_agent_cgroup, look_at_processes. pres_auto. Qed.
#[local] Hint Resolve check_processes_lowers : pres.
Lemma succeeds_lowers {A} (m : CG A) x : pres lowers m → pres lowers (succeeds m x).
Proof. intros H. unfold succeeds. pres_auto. Qed.
#[local] Hint Resolve succeeds_lowers : pres.
Lemma check_cgroups_lowers metrics : pres lowers (check_cgroups popen c service_name percent set_order daemon_pid self_pid lib_dir metrics).
Proof. unfold check_cgroups. pres_auto. Qed.
Lemma poll_lowers metrics : pres lowers (poll_all_tracked metrics : CG _).
Proof. unfold poll_all_tracked. pres_auto. Qed.
Lemma check_memory_lowers : pres lowers (check_memory_quota c pressure : CG _).
Proof. unfold check_memory_quota. pres_auto. Qed.
Lemma properties_lowers u q : pres lowers (properties_requiring_update popen percent u q).
Proof. unfold properties_requiring_update. pres_auto. apply collect_lowers. intros []. pres_auto. Qed.
#[local] Hint Resolve check_cgroups_lowers poll_lowers check_memory_lowers properties_lowers : pres.
Lemma setup_extension_slice_lowers n q : pres lowers (setup_extension_slice popen wf unit_file_install_path percent n q).
Proof. apply when_enabled_lowers, guarded_lowers. cbv zeta. pres_auto. Qed.
Lemma set_services_lowers j : pres lowers (set_extension_services_cpu_memory_quota popen wf unit_file_install_path percent j).
Proof. apply when_enabled_lowers, for_services_lowers. intros x n. unfold set_service_quota, cleanup_all_files. pres_auto. Qed.
Lemma start_tracking_unit_lowers u : pres lowers (start_tracking_unit_cgroups popen percent uptime_ok u).
Proof. apply when_enabled_lowers, guarded_lowers. pres_auto. Qed.
Lemma stop_tracking_unit_lowers u : pres lowers (stop_tracking_unit_cgroups popen u).
Proof. apply when_enabled_lowers, guarded_lowers. pres_auto. Qed.
Lemma stop_tracking_extension_lowers n : pres lowers (stop_tracking_extension_cgroups n : CG unit).
Proof. apply when_enabled_lowers, guarded_lowers. pres_auto. Qed.
#[local] Hint Resolve start_tracking_unit_lowers stop_tracking_unit_lowers : pres.
Lemma start_services_lowers j : pres lowers (start_tracking_extension_services_cgroups popen percent uptime_ok j).
Proof. apply when_enabled_lowers, for_services_lowers. pres_auto. Qed.
Lemma stop_services_lowers j : pres lowers (stop_tracking_extension_services_cgroups popen j).
Proof. apply when_enabled_lowers, for_services_lowers. pres_auto. Qed.
#[local] Hint Resolve setup_extension_slice_lowers set_services_lowers stop_tracking_extension_lowers start_services_lowers stop_services_lowers : pres.

(** ** The operations of the configurator *)

Inductive cg_op :=
| OpInitialize
| OpCheckCgroups (metrics : list MetricValue)
| OpCheckMemory
| OpPoll (metrics : Controller → fs → res exn (list MetricValue))
| OpDisable (which : DisableCgroups)
| OpSetupExtensionSlice (extension_name : string) (cpu_quota : json)
| OpResetExtensionQuota (extension_name : string)
| OpSetServicesQuota (services : json)
| OpResetServicesQuota (services : json)
| OpStartTracking (services : json)
| OpStopTracking (services : json)
| OpStopTrackingExtension (extension_name : string).

Definition returns (m : CG unit) : CG (option unit) := m ;; mret (Some tt).
Definition do_op (o : cg_op) : CG (option unit) :=
  match o with
  | OpInitialize => initialize_cgroups
  | OpCheckCgroups metrics => check_cgroups popen c service_name percent set_order daemon_pid self_pid lib_dir metrics
  | OpCheckMemory => returns (check_memory_quota c pressure)
  | OpPoll metrics => returns (_ ← poll_all_tracked metrics; mret tt)
  | OpDisable which => returns (disable_cgroups which)
  | OpSetupExtensionSlice n q => returns (setup_extension_slice popen wf unit_file_install_path percent n q)
  | OpResetExtensionQuota n => returns (reset_extension_quota popen percent n)
  | OpSetServicesQuota j => returns (set_extension_services_cpu_memory_quota popen wf unit_file_install_path percent j)
  | OpResetServicesQuota j => returns (reset_extension_services_quota popen percent j)
  | OpStartTracking j => returns (start_tracking_extension_services_cgroups popen percent uptime_ok j)
  | OpStopTracking j => returns (stop_tracking_extension_services_cgroups popen j)
  | OpStopTrackingExtension n => returns (stop_tracking_extension_cgroups n)
  end.

(** [_Impl.__init__] *)
Definition new_configurator (p : pstate K) : cgstate K := mkCg p false false false false None None None [] [] [].
(** Any sequence of operations, whatever they return *)
Inductive reachable (p : pstate K) : cgstate K → Prop :=
| reachable_new : reachable p (new_configurator p)
| reachable_op o s : reachable p s → reachable p (do_op o s).2.

(** ** What is at hand when cgroups are enabled *)

Definition ready (s : cgstate K) : Prop := cg_supported s = true ∧ is_Some (cg_api s) ∧ is_Some (cg_agent_cgroup s).
Definition ready_if_enabled (s : cgstate K) : Prop := enabled s = true → ready s.

Lemma lowers_enabled s s' : lowers s s' → enabled s' = true → enabled s = true.
Proof. intros (_ & _ & _ & _ & _ & H1 & H2). unfold enabled. rewrite !orb_true_iff. tauto. Qed.
Lemma lowers_off s s' : lowers s s' → enabled s = false → enabled s' = false.
Proof. intros H Hs. destruct (enabled s') eqn:E; [|done]. apply (lowers_enabled s s' H) in E. congruence. Qed.
Lemma lowers_ready s s' : lowers s s' → ready s → ready s'.
Proof. intros (_ & H1 & H2 & H3 & _). unfold ready. by rewrite H1, H2, H3. Qed.
Lemma lowers_ready_if s s' : lowers s s' → ready_if_enabled s → ready_if_enabled s'.
Proof. intros H Hs He. apply (lowers_ready s s' H), Hs. by apply (lowers_enabled s s'). Qed.

Lemma wp_lowers {A} (m : CG A) s (Q : A → cgstate K → Prop) R :
  pres lowers m → (∀ x s', lowers s s' → Q x s') → (∀ e s', lowers s s' → R e s') → wp m Q R s.
Proof. intros H HQ HR. eapply wp_mono; [by apply pres_wp|apply HQ|apply HR]. Qed.

Lemma supported_spec s : enabled s = false →
  wp (check_cgroups_supported popen wf distro_name distro_version pid_file)
    (λ b s', enabled s' = false ∧ (b = true → is_Some (cg_api s'))) (λ _ s', enabled s' = false) s.
Proof.
  intros Hs. unfold check_cgroups_supported. wp_step. wp_step. destruct (negb _); [by wp_step|]. destruct (negb _); [by wp_step|].
  wp_step. apply wp_lowers; [pres_auto|intros n s1 H1|intros e s1 H1; by apply (lowers_off s)].
  assert (enabled s1 = false) as Hs1 by by apply (lowers_off s). destruct (0 <? n); [by wp_step|].
  apply wp_except. wp_step. apply wp_lowers; [pres_auto|intros a s2 H2|intros e s2 H2].
  - wp_step. wp_step. wp_step. split; [exact (lowers_off s1 s2 H2 Hs1)|by eexists].
  - assert (enabled s2 = false) by by apply (lowers_off s1). split; [intros _; by wp_step|done].
Qed.

(** Steps of [initialize_cgroups] before and after cgroups are enabled *)
Lemma off_ready s : enabled s = false → ready_if_enabled s.
Proof. intros H He. congruence. Qed.
Lemma wp_off {A} (m : CG A) s0 s Q : enabled s0 = false → lowers s0 s → pres lowers m →
  (∀ x s', lowers s0 s' → Q x s') → wp m Q (λ _, ready_if_enabled) s.
Proof. intros H0 Hs Hm HQ. apply wp_lowers; [done|intros x s' H; apply HQ; by etrans|]. intros e s' H. apply off_ready, (lowers_off s0); [by etrans|done]. Qed.
Lemma wp_ready {A} (m : CG A) s Q : ready_if_enabled s → pres lowers m →
  (∀ x s', ready_if_enabled s' → Q x s') → wp m Q (λ _, ready_if_enabled) s.
Proof. intros Hs Hm HQ. apply wp_lowers; [done|intros x s' H; apply HQ|intros e s' H]; by apply (lowers_ready_if s s'). Qed.

Lemma setup_agent_controller_spec k s : ready_if_enabled s →
  wp (setup_agent_controller popen c service_name percent uptime_ok k) (λ _, ready_if_enabled) (λ _, ready_if_enabled) s.
Proof.
  intros Hs. unfold setup_agent_controller. wp_step. apply wp_ready; [done|pres_auto|intros _ s1 H1].
  wp_step. apply wp_ready; [done|pres_auto|intros a s2 H2]. destruct (_ && _); [apply wp_ready; [done|pres_auto|done]|].
  wp_step. destruct (is_cpu k); wp_step; (apply wp_ready; [exact H2|pres_auto|done]).
Qed.

Lemma setup_azure_slice_lowers : pres lowers (setup_azure_slice wf unit_file_install_path service_name : CG unit).
Proof. unfold setup_azure_slice, create_unit_file. pres_auto. Qed.
#[local] Hint Resolve setup_azure_slice_lowers : pres.

Lemma initialize_body_spec s : enabled s = false →
  wp initialize_body (λ r s', ready_if_enabled s' ∧ (r = None → enabled s' = false)) (λ _, ready_if_enabled) s.
Proof.
  intros Hs. unfold Cgroups.initialize_body. wp_step. eapply wp_mono; [by apply supported_spec| |intros e s1 H1; by apply off_ready].
  intros supported s1 [H1 Hapi]. wp_step. wp_step. set (s2 := set_supported supported s1). assert (enabled s2 = false) as H2 by exact H1.
  assert (∀ s' (r : option unit), lowers s2 s' → ready_if_enabled s' ∧ (r = None → enabled s' = false)) as Hoff.
  { intros s' r H. apply (lowers_off s2) in H; [|done]. split; [by apply off_ready|done]. }
  assert (lowers s2 s2) as H22 by reflexivity.
  destruct supported; simpl negb; cbv iota.
  2: { wp_step. apply (wp_off _ s2); [done..| |intros _ s3 H3; wp_step; by apply Hoff]. unfold reset_agent_cgroup_setup, cleanup_all_files.
       apply guarded_lowers. pres_auto. }
  assert (cg_supported s2 = true ∧ is_Some (cg_api s2)) as [Hsup Hapi2] by (split; [done|by apply Hapi]). clearbody s2.
  wp_step. apply (wp_off _ s2); [done..|pres_auto|intros g s3 H3]. destruct (negb _); [wp_step; by apply Hoff|].
  wp_step. apply (wp_off _ s2); [done..|unfold cleanup_old_agent_setup; pres_auto|intros _ s4 H4].
  wp_step. wp_step. wp_step. apply (wp_off _ s2); [done..|pres_auto|intros _ s5 H5].
  wp_step. apply (wp_off _ s2); [done..|pres_auto|intros _ s6 H6].
  wp_step. apply (wp_off _ s2); [done..|pres_auto|intros a s7 H7].
  wp_step. apply (wp_off _ s2); [done..|pres_auto|intros cgroup s8 H8].
  wp_step. wp_step. set (s9 := set_agent_cgroup (Some cgroup) s8).
  assert (enabled s9 = false) as H9 by exact (lowers_off s2 s8 H8 H2).
  assert (ready s9) as R9. { destruct H8 as (_ & Ha & Hb & _). split_and!; [simpl; congruence|simpl; by rewrite Hb|by eexists]. }
  clearbody s9. clear Hoff H8 H7 H6 H5 H4 H3 Hsup Hapi2 H2 H22 s2.
  assert (lowers s9 s9) as H99 by reflexivity.
  wp_step. apply (wp_off _ s9); [done..|unfold check_fails_before_enable; pres_auto|intros fails s10 H10].
  assert (ready_if_enabled s10 ∧ enabled s10 = false ∧ ready s10) as (I10 & O10 & R10).
  { split_and!; [by apply off_ready, (lowers_off s9)|by apply (lowers_off s9)|by apply (lowers_ready s9)]. }
  destruct fails as [[]|]; [|..].
  - wp_step. apply wp_ready; [done|pres_auto|intros _ s11 H11]. by wp_step.
  - wp_step. assert (∀ s11, ready s11 → wp (for_each (get_controllers cgroup) (setup_agent_controller popen c service_name percent uptime_ok) ;; mret (Some tt))
      (λ r s', ready_if_enabled s' ∧ (r = None → enabled s' = false)) (λ _, ready_if_enabled) s11) as Hrest.
    { intros s11 H11. wp_step. apply (wp_for_each _ _ (λ _, ready_if_enabled)); [by intros _|..].
      - intros _ k _ s12 _ H12. by apply setup_agent_controller_spec.
      - intros s12 H12. by wp_step. }
    apply wp_when; [intros _|intros _; by apply Hrest]. wp_step. unfold enable_cgroups. wp_step. wp_step.
    destruct R10 as (E1 & E2 & E3). unfold id. rewrite E1. wp_step. set (s11 := set_enabled true true s10).
    assert (ready s11) as R11 by done. clearbody s11.
    apply wp_lowers; [apply guarded_lowers; pres_auto|intros _ s12 H12|intros e s12 H12].
    + by apply Hrest, (lowers_ready s11).
    + intros _. by apply (lowers_ready s11).
  - wp_step. done.
Qed.

(** [_initialized] is set whenever cgroups are enabled. *)
Definition configured (s : cgstate K) : Prop := enabled s = true → cg_initialized s = true ∧ ready s.

Lemma initialize_end_spec s Q R : ready_if_enabled s → (∀ x s', configured s' → Q x s') → (∀ e s', configured s' → R e s') →
  wp (initialize_end popen service_name percent) Q R s.
Proof.
  intros H1 HQ HR. assert (∀ s2, lowers (set_initialized s) s2 → configured s2) as Hc.
  { intros s2 H2 He. split; [by destruct H2 as [-> _]|]. apply (lowers_ready _ _ H2). exact (H1 (lowers_enabled _ _ H2 He)). }
  unfold initialize_end. wp_step. wp_step. wp_step. wp_step. unfold id.
  apply wp_lowers; [pres_auto|intros x s2 H2; by apply HQ, Hc|intros e s2 H2; by apply HR, Hc].
Qed.

Lemma initialize_configured s : configured s → wp initialize_cgroups (λ _, configured) (λ _, configured) s.
Proof.
  intros Hs. unfold Cgroups.initialize_cgroups. wp_step. wp_step. unfold id. wp_step. wp_step.
  assert (∀ s1, ready_if_enabled s1 → wp (initialize_end popen service_name percent ;; mret (Some tt)) (λ _, configured) (λ _, configured) s1) as Hend.
  { intros s1 H1. wp_step. apply initialize_end_spec; [done| |done]. intros _ s2 H2. by wp_step. }
  destruct (cg_initialized s) eqn:Hi.
  { wp_step. apply Hend. intros He. by apply Hs. }
  assert (enabled s = false) as Hoff. { destruct (enabled s) eqn:He; [|done]. apply Hs in He as [? _]. congruence. }
  apply wp_except. eapply wp_mono; [by apply initialize_body_spec| |].
  - intros [[]|] s1 [H1 H2]; [by apply Hend|]. wp_step. intros He. rewrite H2 in He by done. done.
  - intros e s1 H1. split; intros _; [wp_step; by apply Hend|]. wp_step. apply initialize_end_spec; [done| |done].
    intros _ s2 H2. by wp_step.
Qed.

Lemma lowers_configured s s' : lowers s s' → configured s → configured s'.
Proof. intros H Hs He. apply (lowers_enabled s s' H) in He as He0. destruct (Hs He0) as [Hi Hr]. split; [by destruct H as [-> _]|by apply (lowers_ready s)]. Qed.

Lemma do_op_lowers o : o ≠ OpInitialize → pres lowers (do_op o).
Proof. destruct o; [done|..]; intros _; unfold do_op, returns; pres_auto. Qed.

(** C23: whatever the operations do and return, cgroups are enabled only when they were found to be
    supported, [initialize_cgroups] has run, and the interface and the cgroup of the agent are at hand. *)
Theorem cgroups_are_enabled_when_configured p s : reachable p s → configured s.
Proof.
  induction 1 as [|o s Hs IH]; [done|]. assert (o = OpInitialize ∨ o ≠ OpInitialize) as [->|Ho] by (destruct o; auto).
  - apply (wp_end configured). by apply initialize_configured.
  - apply (lowers_configured s); [by apply do_op_lowers|done].
Qed.
End invariant.

(** ** Disabling *)

Section disabling.
Context {K : Type} (popen : list string → option string → K → process * K).
(** Commands fail with ordinary exceptions. *)
Context (popen_ordinary : ∀ cmd i k, match (popen cmd i k).1 with NotStarted e | Started _ (Broken e) => ordinary e | _ => True end).
Context (service_name : string) (percent : string → Z → option string) (lib_dir : path).
Notation CG X := (M (cgstate K) exn X).
Notation PS X := (M (pstate K) exn X).

Lemma completed_ordinary pid : raises ordinary (on_command_completed pid : M (shell K) exn unit).
Proof. intros s e. unfold on_command_completed, get_state, mbind, M_bind. simpl. case_bool_decide; simpl; [done|]. by intros [= <-]. Qed.
Lemma run_command_ordinary cmd i : raises ordinary (Shell.run_command popen cmd i).
Proof.
  apply wp_raises. intros s. unfold Shell.run_command. wp_step. unfold wp at 1, spawn. specialize (popen_ordinary cmd i (sh_machine s)).
  destruct (popen cmd i (sh_machine s)) as [[e|pid []] k]; simpl in *; [done|..].
  - wp_step. eapply wp_mono; [apply raises_wp, completed_ordinary| |done].
    intros _ s' _. unfold check_result. wp_step; by wp_step.
  - wp_step; by wp_step.
Qed.
Lemma on_ps_shell_raises {A} (m : M (shell K) exn A) : raises ordinary m → raises ordinary (on_ps_shell m).
Proof. apply raises_zoom. Qed.
Lemma on_ps_raises {A} (m : PS A) : raises ordinary m → raises ordinary (on_ps m).
Proof. apply raises_zoom. Qed.
#[local] Hint Resolve run_command_ordinary on_ps_shell_raises on_ps_raises : raises.
Lemma get_unit_property_ordinary u p : raises ordinary (get_unit_property popen u p).
Proof. unfold get_unit_property. raises_auto. Qed.
#[local] Hint Resolve get_unit_property_ordinary : raises.
Lemma rq_current_ordinary r u : raises ordinary (rq_current popen percent r u).
Proof. apply on_ps_raises. unfold get_current_cpu_quota, get_current_memory_quota. raises_auto. Qed.
Lemma collect_raises {A B} (l : list A) (step : A → CG (list B)) : (∀ x, raises ordinary (step x)) → raises ordinary (collect l step).
Proof. intros H. induction l; simpl; raises_auto. Qed.
Lemma get_state_raises P : raises P (get_state : CG _).
Proof. done. Qed.
#[local] Hint Resolve rq_current_ordinary get_state_raises : raises.
Lemma unit_properties_ordinary u l : raises ordinary (set_unit_properties popen u l).
Proof. unfold set_unit_properties, set_unit_run_time_properties. raises_auto. apply on_ps_raises. raises_auto. Qed.
#[local] Hint Resolve unit_properties_ordinary : raises.

(** [try ... except Exception] raises nothing. *)
Definition never (e : exn) : Prop := False.
Lemma guarded_never (m : CG unit) : raises ordinary m → raises never (guarded m).
Proof. intros H. apply (raises_except never ordinary); [done|unfold ordinary; congruence|intros; apply raises_ret]. Qed.
Lemma never_ordinary {A} (m : CG A) : raises never m → raises ordinary m.
Proof. intros H s e He. by destruct (H s e He). Qed.

Lemma reset_quota_never u l b : raises never (reset_resource_quota popen percent u l b).
Proof. apply guarded_never. unfold quotas_of. raises_auto. apply collect_raises. intros []. raises_auto. Qed.
#[local] Hint Resolve reset_quota_never : raises.
Lemma reset_extension_quota_never n : raises never (reset_extension_quota popen percent n).
Proof. unfold reset_extension_quota, when_enabled. raises_auto. Qed.
Lemma iterate_ordinary j : fails_with ordinary (iterate j).
Proof. unfold iterate. raises_auto. Qed.
Lemma json_get_ordinary k j : fails_with ordinary (json_get k j).
Proof. unfold json_get. raises_auto. Qed.
#[local] Hint Resolve iterate_ordinary json_get_ordinary : raises.
Lemma reset_services_never j : raises never (reset_extension_services_quota popen percent j).
Proof.
  unfold reset_extension_services_quota, when_enabled. raises_auto. apply guarded_never. unfold for_services. raises_auto.
  - apply on_ps_raises. unfold is_unit_loaded. raises_auto.
  - apply never_ordinary. raises_auto.
Qed.
#[local] Hint Resolve reset_extension_quota_never reset_services_never : raises.

(** Quotas are set by commands: the files and the configurator stay as they are. *)
Definition same_files (s s' : cgstate K) : Prop := ps_world (cg_ps s') = ps_world (cg_ps s).
#[local] Instance same_files_preorder : PreOrder same_files.
Proof. split; [done|]. intros x y z. unfold same_files. congruence. Qed.
Lemma shell_same_files {A} (m : M (shell K) exn A) : pres (λ s s' : pstate K, ps_world s' = ps_world s) (on_ps_shell m).
Proof. intros s. unfold on_ps_shell, zoom. by destruct (m (ps_shell s)). Qed.
Lemma on_ps_same_files {A} (m : PS A) : pres (λ s s' : pstate K, ps_world s' = ps_world s) m → pres same_files (on_ps m).
Proof. intros H s. specialize (H (cg_ps s)). unfold on_ps, zoom, same_files. by destruct (m (cg_ps s)). Qed.
#[local] Instance same_world_preorder : PreOrder (λ s s' : pstate K, ps_world s' = ps_world s).
Proof. split; [done|]. intros x y z. congruence. Qed.
Lemma get_state_same_files : pres same_files (get_state : CG _).
Proof. done. Qed.
#[local] Hint Resolve get_state_same_files shell_same_files : pres.
#[local] Hint Extern 2 (pres same_files (on_ps _)) => apply on_ps_same_files : pres.
Lemma rq_current_same_files r u : pres same_files (rq_current popen percent r u).
Proof. apply on_ps_same_files. unfold get_current_cpu_quota, get_current_memory_quota, get_unit_property. pres_auto. Qed.
Lemma set_properties_same_files u l : pres same_files (set_unit_properties popen u l).
Proof. unfold set_unit_properties. case_bool_decide; [pres_auto|]. apply on_ps_same_files. unfold set_unit_run_time_properties. pres_auto. Qed.
#[local] Hint Resolve rq_current_same_files set_properties_same_files : pres.
Lemma collect_same_files {A B} (l : list A) (step : A → CG (list B)) : (∀ x, pres same_files (step x)) → pres same_files (collect l step).
Proof. intros H. induction l; simpl; pres_auto. Qed.
Lemma reset_quota_same_files u l b : pres same_files (reset_resource_quota popen percent u l b).
Proof. unfold reset_resource_quota, guarded, quotas_of. pres_auto. apply collect_same_files. intros []. pres_auto. Qed.

Lemma wp_never {A} (m : CG A) (Q : A → cgstate K → Prop) R s : raises never m → (∀ x, Q x (m s).2) → wp m Q R s.
Proof. intros Hm HQ. specialize (Hm s). unfold wp. destruct (m s) as [[a|e] s']; [apply HQ|by destruct (Hm e)]. Qed.

(** Disabling all cgroups returns, with nothing enabled and nothing tracked, when the manifests of the
    extensions can be read. *)
Theorem disable_turns_everything_off s services :
  get_extension_services_list lib_dir (cg_fs s) = Ok services →
  let '(r, s') := disable_cgroups popen service_name percent lib_dir ALL s in r = Ok tt ∧ enabled s' = false ∧ cg_tracked s' = [].
Proof.
  intros Hl. assert (wp (disable_cgroups popen service_name percent lib_dir ALL) (λ _ s', enabled s' = false ∧ cg_tracked s' = []) (λ _ _, False) s) as H.
  2: { unfold wp in H. by destruct (disable_cgroups _ _ _ _ _ _) as [[[]|] s']. }
  unfold disable_cgroups, guarded. apply wp_except. wp_step. apply wp_never; [apply reset_quota_never|]. intros _.
  pose proof (reset_quota_same_files (get_agent_unit_name service_name) [CpuQuota; MemoryQuota] false s) as Hw.
  set (s1 := (reset_resource_quota _ _ _ _ _ s).2) in *. wp_step. wp_step. unfold id.
  assert (cg_fs s1 = cg_fs s) as -> by (unfold cg_fs, ps_fs; by rewrite Hw).
  rewrite Hl. wp_step. apply wp_lift; [|done]. intros _ [= <-]. wp_step.
  apply wp_never; [raises_auto|]. intros _. wp_step. unfold reset_tracking. wp_step. wp_step. done.
Qed.
End disabling.

(** *** Samples *)

Module SampleDisable.
Definition systemctl (cmd : list string) (input : option string) (k : list (list string)) : process * list (list string) :=
  (Started 99 (Exited 0 (match cmd with ["systemctl"; "show"; _; _; p] => p +:+ "=infinity" | _ => "" end) ""), k ++ [cmd]).
Lemma systemctl_ordinary cmd i k : match (systemctl cmd i k).1 with NotStarted e | Started _ (Broken e) => ordinary e | _ => True end.
Proof. done. Qed.
Definition state (f : fs) : cgstate (list (list string)) :=
  mkCg (mkPState (mkWorld f 0 [] false) (mkShell [] [])) true true true true (Some (ApiV2 "/sys/fs/cgroup" ["cpu"])) None None []
    [("cpu:/sys/fs/cgroup/a", new_controller CpuController true "a" "/sys/fs/cgroup/a")] [].
Definition manifest : path := ["var"; "lib"; "waagent"; "Ext-1.0"; "HandlerManifest.json"].
Definition with_manifest (j : json) : fs :=
  <[manifest := File (mkContent (json_dumps j) (Some j)) 0]> (<[["var"; "lib"; "waagent"; "Ext-1.0"] := Dir]> ∅).

Lemma disable_turns_everything_off_witness :
  let f := with_manifest (JArr [JObj [("resourceLimits", JObj [("services", JArr [JObj [("name", JStr "ext.service")]])])]]) in
  enabled (disable_cgroups systemctl "walinuxagent" (λ _ _, None) ["var"; "lib"; "waagent"] ALL (state f)).2 = false.
Proof.
  intros f. pose proof (disable_turns_everything_off systemctl systemctl_ordinary "walinuxagent" (λ _ _, None) ["var"; "lib"; "waagent"] (state f)
    [("Ext-1.0", JArr [JObj [("name", JStr "ext.service")]])] ltac:(vm_compute; reflexivity)) as H.
  destruct (disable_cgroups systemctl "walinuxagent" (λ _ _, None) ["var"; "lib"; "waagent"] ALL (state f)) as [r s']. simpl. apply H.
Defined.

(** One malformed manifest, of any extension, leaves cgroups enabled. *)
Example malformed_manifest_keeps_cgroups :
  (disable_cgroups systemctl "walinuxagent" (λ _ _, None) ["var"; "lib"; "waagent"] ALL (state (with_manifest (JObj [])))).1 = Ok tt ∧
  enabled (disable_cgroups systemctl "walinuxagent" (λ _ _, None) ["var"; "lib"; "waagent"] ALL (state (with_manifest (JObj [])))).2 = true.
Proof. vm_compute. split; reflexivity. Qed.

(** When a unit file of the slices cannot be written, the files written before it are left behind,
    and the setup ends with a [TypeError]. *)
Definition no_drop_in (p : path) : option (bool * exn) :=
  if bool_decide (last p = Some AGENT_DROP_IN_FILE_SLICE) then Some (false, os_error ENOSPC "No space left on device") else None.
Definition system_dir : fs := <[["lib"; "systemd"; "system"] := Dir]> (<[["lib"; "systemd"] := Dir]> (<[["lib"] := Dir]> ∅)).
Definition setup : res exn unit * cgstate (list (list string)) :=
  setup_azure_slice no_drop_in "/lib/systemd/system" "walinuxagent" (state system_dir).
Example files_are_left_behind :
  (e_class <$> match setup.1 with Err e => Some e | Ok _ => None end) = Some TypeError ∧
  isfile ["lib"; "systemd"; "system"; "azure.slice"] (cg_fs setup.2) = true.
Proof. vm_compute. split; reflexivity. Qed.
End SampleDisable.

Module SampleInitialize.
Definition machine (cmd : list string) (input : option string) (k : list (list string)) : process * list (list string) :=
  (Started 99 (Exited 0 (match cmd with
                         | ["stat"; _; _; _] => "cgroup2fs" +:+ newline
                         | ["findmnt"; _; "cgroup2"; _] => "/sys/fs/cgroup cgroup2 cgroup2 rw,nosuid" +:+ newline
                         | ["systemctl"; "show"; _; _; "ControlGroup"] => "ControlGroup=/azure.slice/walinuxagent.service" +:+ newline
                         | ["systemctl"; "show"; _; _; p] => p +:+ "=infinity" +:+ newline
                         | _ => ""
                         end) ""), k ++ [cmd]).
Definition text (t : string) : node := File (plain t) 0.
Definition files : fs :=
  list_to_map [(["run"; "systemd"; "system"], Dir); (["sys"; "fs"; "cgroup"], Dir); (["sys"; "fs"; "cgroup"; "cgroup.subtree_control"], text "cpuset cpu io memory");
               (["sys"; "fs"; "cgroup"; "azure.slice"; "walinuxagent.service"; "cgroup.procs"], text "10 20"); (["proc"; "uptime"], text "365380.48 722644.81");
               (["lib"], Dir); (["lib"; "systemd"], Dir); (["lib"; "systemd"; "system"], Dir)].
Definition start : pstate (list (list string)) := mkPState (mkWorld files 0 [] false) (mkShell [] []).
Definition op (o : cg_op) : M (cgstate (list (list string))) exn (option unit) :=
  do_op machine (λ _, None) new_conf "/lib/systemd/system" "walinuxagent" "ubuntu" "22.04" ["var"; "run"; "waagent.pid"] (λ _ _, Some "50%") (λ _, true) (λ _, None)
    id 10 20 ["var"; "lib"; "waagent"] o.
Definition initialized : cgstate (list (list string)) := (op OpInitialize (new_configurator start)).2.

Lemma cgroups_are_enabled_when_configured_witness :
  enabled initialized = true ∧ (cg_initialized initialized = true ∧ ready initialized) ∧ cg_tracked initialized <> [].
Proof.
  split; [vm_compute; reflexivity|split; [|vm_compute; discriminate]].
  apply (cgroups_are_enabled_when_configured machine (λ _, None) new_conf "/lib/systemd/system" "walinuxagent" "ubuntu" "22.04" ["var"; "run"; "waagent.pid"]
    (λ _ _, Some "50%") (λ _, true) (λ _, None) id 10 20 ["var"; "lib"; "waagent"] start initialized).
  - unfold initialized, op. apply reachable_op, reachable_new.
  - vm_compute. reflexivity.
Defined.
End SampleInitialize.
