(* ===== verification/ExtRun.v ===== *)
(** * Commands of extensions under control groups
    ([start_extension_command] of ga/cgroupapi.py and ga/cgroupconfigurator.py)

    With cgroups enabled a command runs in a scope of its own, started by [systemd-run]; when
    [systemd-run] itself fails, cgroups are disabled and the command is run directly.  [launch] starts
    a process, with the text of its command; the environment and the working directory are left out.
    [uuid] names the scope, and [seconds] is the text of a number of nanoseconds or microseconds in
    seconds. *)
From S2P Require Import Prelude PyExn FlexVersion Json Urls TextUtil Shell ExtProcess World Conf Machine Systemd CgroupApi Manifest RestApi ExtInstance Cgroups CgroupInv.

Record xstate (K : Type) := mkX { x_cg : cgstate K; x_run : run_state; x_started : list string }.
Arguments mkX {K}. Arguments x_cg {K}. Arguments x_run {K}. Arguments x_started {K}.

Section run.
Context {K : Type} (popen : list string → option string → K → process * K) (launch : string → K → res exn child * K).
Context (c : ConfigurationProvider) (service_name : string) (lib_dir : path).
Context (percent : string → Z → option string) (uptime_ok : string → bool) (decode : string → string) (seconds : Z → Z → string).
Context (uuid extension_name command cmd_name : string) (timeout : nat) (error_code : Z).
Notation X A := (M (xstate K) exn A).

Definition on_cg {A} (m : M (cgstate K) exn A) : X A := zoom x_cg (λ g s, mkX g (x_run s) (x_started s)) m.
Definition on_run {A} (m : M run_state exn A) : X A := zoom x_run (λ r s, mkX (x_cg s) r (x_started s)) m.
Definition set_machine (k : K) (s : cgstate K) : cgstate K :=
  set_ps (mkPState (ps_world (cg_ps s)) (mkShell (sh_running (ps_shell (cg_ps s))) k)) s.

(** [subprocess.Popen] *)
Definition start_process (cmd : string) : X child := λ s,
  match launch cmd (sh_machine (ps_shell (cg_ps (x_cg s)))) with
  | (Ok p, k) => (Ok p, mkX (set_machine k (x_cg s)) (x_run s) (x_started s ++ [cmd]))
  | (Err e, k) => (Err e, mkX (set_machine k (x_cg s)) (x_run s) (x_started s))
  end.
(** /proc/mounts, for [_check_noexec] *)
Definition mounts_of (s : cgstate K) : res exn string := content ← read_file ["proc"; "mounts"] (cg_fs s); Ok (c_text content).
Definition wait_for (p : child) (cpu_controller : option (res exn string)) : X string :=
  s ← get_state;
  on_run (handle_process_completion decode (get_lib_dir c) (mounts_of (x_cg s)) p command timeout error_code cpu_controller).

(** ** [_SystemdCgroupApi.start_extension_command] *)

Definition scope : string := cmd_name +:+ "_" +:+ uuid.
Definition extension_slice_name : string := get_extension_slice_name extension_name false.
Definition accounting_args (a : Api) : string := foldr String.append "" ((λ prop, " --property=" +:+ prop +:+ "=no") <$> (get_accounting_properties a).*1).
Definition systemd_run_cmd (a : Api) : string :=
  "systemd-run" +:+ accounting_args a +:+ " --unit=" +:+ scope +:+ " --scope --slice=" +:+ extension_slice_name +:+ " " +:+ command.

(** The tracking of the extension's cgroup, whose errors are ignored *)
Definition track_extension (a : Api) : X unit :=
  on_cg (except Exception_
    (quota ← on_ps (has_cpu_quota popen percent extension_slice_name);
     for_each (get_controllers (extension_cgroup a extension_name))
       (λ k, track_cgroup_controller uptime_ok (if is_cpu k && quota then set_throttle true k else k)))
    (λ _, mret tt)).
(** [get_cpu_throttled_time(read_previous_throttled_time=False)] of the CPU controller, if there is one *)
Definition throttled_time (a : Api) (f : fs) : option (res exn string) :=
  (λ k, z ← get_cpu_stat_counter f k (if ct_v2 k then "throttled_usec" else "throttled_time"); Ok (seconds z (if ct_v2 k then 1000000 else 1000000000)))
    <$> List.find is_cpu (get_controllers (extension_cgroup a extension_name)).

Definition push_systemd_run (pid : Z) : X unit := on_cg (modify (λ s, set_systemd_run (cg_systemd_run s ++ [pid]) s)).
Definition remove_systemd_run (pid : Z) : X unit :=
  s ← get_state;
  if bool_decide (pid ∈ cg_systemd_run (x_cg s)) then on_cg (modify (λ s, set_systemd_run (remove_first pid (cg_systemd_run s)) s))
  else raise (py_error ValueError "list.remove(x): x not in list").

(** stderr, as [is_systemd_run_failure] reads it *)
Definition read_stderr : M run_state exn string := λ s,
  let '(t, f) := file_read TELEMETRY_MESSAGE_MAX_LEN (seek0 (r_stderr s)) in (Ok (decode t), set_files (r_stdout s) f s).
Definition truncate_files : M run_state exn unit := modify (λ s, set_files (truncate0 (r_stdout s)) (truncate0 (r_stderr s)) s).
Definition systemd_run_error (e : exn) (process_output : string) : exn :=
  agent_error SystemdRunError
    (if isinstance e ExtensionOperationError then "Systemd process exited with code " +:+ pretty (e_exit_code e) +:+ " and output " +:+ process_output
     else "Systemd timed-out, output: " +:+ process_output) None (-1).

Definition api_start_extension_command (a : Api) : X string :=
  p ← start_process (systemd_run_cmd a);
  push_systemd_run (ch_pid p) ;;
  track_extension a ;;
  s ← get_state;
  finally
    (except ExtensionError (wait_for p (throttled_time a (cg_fs (x_cg s))))
       (λ e,
         stderr ← on_run read_stderr;
         if negb (is_systemd_run_failure scope stderr) then raise e
         else
           process_output ← on_run (read_output decode);
           on_run truncate_files ;;
           raise (systemd_run_error e process_output)))
    (remove_systemd_run (ch_pid p)).

(** ** [CGroupConfigurator.start_extension_command] *)

Definition start_extension_command : X string :=
  s ← get_state;
  r ← (if enabled (x_cg s) then
         except SystemdRunError (a ← on_cg the_api; out ← api_start_extension_command a; mret (Some out))
           (λ _, on_cg (disable_cgroups popen service_name percent lib_dir ALL) ;; mret None)
       else mret None);
  match r with
  | Some out => mret out
  | None => p ← start_process command; wait_for p None
  end.
End run.

(** ** What becomes of a command *)

Section correct.
Context {K : Type} (popen : list string → option string → K → process * K) (launch : string → K → res exn child * K).
Context (popen_ordinary : ∀ cmd i k, match (popen cmd i k).1 with NotStarted e | Started _ (Broken e) => ordinary e | _ => True end).
Context (c : ConfigurationProvider) (service_name : string) (lib_dir : path).
Context (percent : string → Z → option string) (uptime_ok : string → bool) (decode : string → string) (seconds : Z → Z → string).
Context (uuid extension_name command cmd_name : string) (timeout : nat) (error_code : Z) (a : Api).
Notation X A := (M (xstate K) exn A).
Notation sd := (systemd_run_cmd uuid extension_name command cmd_name a).
Notation scope := (scope uuid cmd_name).

(** What tracking leaves as it is *)
Definition steady (s s' : cgstate K) : Prop :=
  ps_world (cg_ps s') = ps_world (cg_ps s) ∧ enabled s' = enabled s ∧ cg_api s' = cg_api s ∧ cg_systemd_run s' = cg_systemd_run s.
#[local] Instance steady_preorder : PreOrder steady.
Proof. split; [done|]. intros x y z (? & ? & ? & ?) (? & ? & ? & ?). repeat split; congruence. Qed.

#[local] Instance same_world : PreOrder (λ s s' : pstate K, ps_world s' = ps_world s).
Proof. split; [done|]. intros x y z. congruence. Qed.
#[local] Hint Resolve shell_same_files : pres.
Lemma quota_steady u : pres steady (on_ps (has_cpu_quota popen percent u)).
Proof.
  intros s. assert (pres (λ s s' : pstate K, ps_world s' = ps_world s) (has_cpu_quota popen percent u)) as H.
  { unfold has_cpu_quota, get_current_cpu_quota, get_unit_property. pres_auto. }
  specialize (H (cg_ps s)). unfold on_ps, zoom. by destruct (has_cpu_quota popen percent u (cg_ps s)).
Qed.
Lemma track_steady k : pres steady (track_cgroup_controller uptime_ok k : M (cgstate K) exn unit).
Proof.
  unfold track_cgroup_controller. assert (pres steady (get_state : M (cgstate K) exn _)) by done. pres_auto.
  all: intros s; simpl; by destruct (dict_get _ _).
Qed.
Lemma init_ordinary f k : fails_with ordinary (initialize_cpu_usage f uptime_ok k).
Proof.
  assert (∀ p, fails_with ordinary (read_file p f)) as Hr by (intros; apply read_file_ordinary).
  assert (∀ p e, read_file p f = Err e → ordinary e) as Hr' by (intros p e; apply Hr).
  assert (∀ l, fails_with ordinary (map_res (λ w, match Urls.int_text w with Some z => Ok z | None => Err (py_error ValueError "invalid literal for int()") end) l)) as Hm.
  { induction l; simpl; raises_auto. }
  unfold initialize_cpu_usage, initial_usage, get_system_uptime, get_total_cpu_ticks_since_boot. repeat (raises_step || case_match); eauto with raises.
  all: try (by apply fails_err); intros e [= <-]; eauto.
Qed.

Lemma track_extension_spec s (Q : unit → xstate K → Prop) R :
  (∀ s', steady (x_cg s) (x_cg s') → x_run s' = x_run s → x_started s' = x_started s → Q tt s') →
  wp (track_extension popen percent uptime_ok extension_name a) Q R s.
Proof.
  intros HQ. unfold track_extension, on_cg. wp_step.
  match goal with |- wp ?m _ _ _ => assert (pres steady m) as Hp; [|assert (raises never m) as Hr] end.
  - pose proof quota_steady. pose proof track_steady. pres_auto.
  - apply (raises_except never ordinary); [|unfold ordinary; congruence|intros; apply raises_ret]. raises_auto.
    + apply on_ps_raises. unfold has_cpu_quota, get_current_cpu_quota. pose proof (get_unit_property_ordinary popen popen_ordinary). raises_auto.
    + unfold track_cgroup_controller. pose proof init_ordinary. pose proof (@get_state_raises K). raises_auto.
  - apply wp_never; [done|]. intros []. apply HQ; [apply Hp|done..].
Qed.

Lemma start_process_spec cmd p s (Q : child → xstate K → Prop) R : (∀ k, ∃ k', launch cmd k = (Ok p, k')) →
  (∀ s', steady (x_cg s) (x_cg s') → x_run s' = x_run s → x_started s' = x_started s ++ [cmd] → Q p s') → wp (start_process launch cmd) Q R s.
Proof. intros Hl HQ. unfold wp, start_process. destruct (Hl (sh_machine (ps_shell (cg_ps (x_cg s))))) as [k ->]. by apply HQ. Qed.

Lemma wait_for_spec p cpu s (Q : string → xstate K → Prop) R : (0 < timeout)%nat → from_option ordinary_result True cpu →
  (∀ r s', reported decode p timeout cpu command error_code (x_run s) r (x_run s') → has_written p (x_run s) (x_run s') →
     x_cg s' = x_cg s → x_started s' = x_started s → match r with Ok x => Q x s' | Err e => R e s' end) →
  wp (wait_for c decode command timeout error_code p cpu) Q R s.
Proof.
  intros Hn Hcpu H. unfold wait_for, on_run. wp_step. wp_step. wp_step. unfold id.
  assert (ordinary_result (mounts_of (x_cg s))) as Hm.
  { unfold mounts_of. pose proof (read_file_ordinary ["proc"; "mounts"] (cg_fs (x_cg s))) as Hr. destruct (read_file _ _) as [?|e]; [done|]. by apply Hr. }
  pose proof (handle_reported decode (get_lib_dir c) (mounts_of (x_cg s)) p timeout cpu Hcpu Hm command error_code (x_run s) Hn) as H1.
  pose proof (handle_written decode (get_lib_dir c) (mounts_of (x_cg s)) p timeout cpu Hcpu Hm command error_code (x_run s)) as H2.
  unfold wp. destruct (handle_process_completion _ _ _ _ _ _ _ _ _) as [r u]. specialize (H r (mkX (x_cg s) u (x_started s)) H1 H2 eq_refl eq_refl).
  by destruct r.
Qed.

Lemma throttled_ordinary f : from_option ordinary_result True (throttled_time seconds extension_name a f).
Proof.
  unfold throttled_time. destruct (List.find _ _) as [k|]; [|done]. simpl. unfold get_cpu_stat_counter.
  pose proof (read_file_ordinary (cgroup_file k "cpu.stat") f) as Hr.
  destruct (read_file _ f) as [?|e]; simpl; [by destruct (find_counter _ _)|]. specialize (Hr e eq_refl). rewrite Hr. by destruct (is_enoent e).
Qed.

Lemma removed_perm pid s (Q : unit → xstate K → Prop) R l : cg_systemd_run (x_cg s) = l ++ [pid] →
  (∀ s', enabled (x_cg s') = enabled (x_cg s) → cg_fs (x_cg s') = cg_fs (x_cg s) → cg_systemd_run (x_cg s') ≡ₚ l →
     x_run s' = x_run s → x_started s' = x_started s → Q tt s') → wp (remove_systemd_run pid) Q R s.
Proof.
  intros Hl HQ. unfold remove_systemd_run. wp_step. wp_step. unfold id. rewrite bool_decide_true by (rewrite Hl; set_solver).
  unfold on_cg. wp_step. wp_step. apply HQ; [done..| |done|done]. simpl. rewrite Hl. apply (Permutation_cons_inv (a := pid)).
  rewrite remove_first_perm by set_solver. by rewrite Permutation_app_comm.
Qed.

Lemma fresh_file_write t : tf_data (file_write t (mkTmp "" 0)) = t.
Proof. unfold file_write. destruct (String.eqb_spec t "") as [->|]; [done|]. cbn [tf_data tf_pos]. destruct (0 + _)%nat; by rewrite string_app_nil_r. Qed.

Lemma reported_Ok p cpu u x u' : reported decode p timeout cpu command error_code u (Ok x) u' → ends_in_time p timeout = Some 0.
Proof. unfold reported. destruct (ends_in_time p timeout) as [code|]; [|naive_solver]. destruct (Z.eqb_spec code 0) as [->|]; naive_solver. Qed.
Lemma reported_Err p cpu u e u' : reported decode p timeout cpu command error_code u (Err e) u' →
  ends_in_time p timeout ≠ Some 0 ∧ isinstance e ExtensionError = true ∧ isinstance e SystemdRunError = false.
Proof.
  unfold reported. destruct (ends_in_time p timeout) as [code|].
  - intros (_ & _ & H). destruct (Z.eqb_spec code 0); [naive_solver|]. destruct H as (w & [= ->] & _). split; [congruence|done].
  - intros (_ & _ & t & [= ->]). done.
Qed.

(** ** The command under systemd *)

Context (p : child) (Hsd : ∀ k, ∃ k', launch sd k = (Ok p, k')) (failed : bool).
(** Whether the process has said that its scope was started: the same whenever stderr is read *)
Context (Hsays : ∀ t, is_systemd_run_failure scope (decode (str_take TELEMETRY_MESSAGE_MAX_LEN (ch_err p t))) = failed).
Definition systemd_failed : bool := failed && negb (bool_decide (ends_in_time p timeout = Some 0)).

Definition after (s s' : xstate K) : Prop :=
  enabled (x_cg s') = enabled (x_cg s) ∧ cg_fs (x_cg s') = cg_fs (x_cg s) ∧ cg_systemd_run (x_cg s') ≡ₚ cg_systemd_run (x_cg s) ∧
  x_started s' = x_started s ++ [sd].
Definition tells (s : xstate K) (r : res exn string) (s' : xstate K) : Prop :=
  ∃ cpu, reported decode p timeout cpu command error_code (x_run s) r (x_run s').

Lemma wait_in_scope s cpu : (0 < timeout)%nat → from_option ordinary_result True cpu → r_stderr (x_run s) = mkTmp "" 0 →
  wp (except ExtensionError (wait_for c decode command timeout error_code p cpu)
       (λ e, stderr ← on_run (read_stderr decode);
             if negb (is_systemd_run_failure scope stderr) then raise e
             else process_output ← on_run (read_output decode); on_run truncate_files ;; raise (systemd_run_error e process_output)))
    (λ x s', x_cg s' = x_cg s ∧ x_started s' = x_started s ∧ systemd_failed = false ∧ tells s (Ok x) s')
    (λ e s', x_cg s' = x_cg s ∧ x_started s' = x_started s ∧
       if systemd_failed then isinstance e SystemdRunError = true ∧ tf_data (r_stdout (x_run s')) = "" ∧ tf_data (r_stderr (x_run s')) = ""
       else isinstance e SystemdRunError = false ∧ tells s (Err e) s') s.
Proof.
  intros Hn Hcpu Hfresh. apply wp_except. apply wait_for_spec; [done..|]. intros r s1 Hr [t Ht] Hcg Hst. destruct r as [x|e].
  { split_and!; [done..| |by eexists]. unfold systemd_failed. apply reported_Ok in Hr. by rewrite Hr, bool_decide_true, andb_false_r. }
  apply reported_Err in Hr as Hr'. destruct Hr' as (He & Hc & Hs). split; [intros _|by rewrite Hc].
  rewrite Hfresh, fresh_file_write in Ht.
  wp_step. unfold on_run. wp_step. unfold wp at 1, read_stderr, file_read, seek0. cbn [tf_data tf_pos str_drop]. rewrite Ht, Hsays.
  unfold systemd_failed. rewrite (bool_decide_false (_ = _)) by done. rewrite andb_true_r.
  destruct failed; cbn [negb].
  - wp_step. wp_step. unfold wp at 1, read_output. cbn. wp_step. wp_step. unfold truncate_files. wp_step. wp_step. split_and!; [done..| |done|done].
    unfold systemd_run_error. by destruct (isinstance e _).
  - wp_step. split_and!; [done..|]. exists cpu. unfold reported in *. exact Hr.
Qed.

Lemma api_start_spec s : (0 < timeout)%nat → r_stderr (x_run s) = mkTmp "" 0 →
  wp (api_start_extension_command popen launch c percent uptime_ok decode seconds uuid extension_name command cmd_name timeout error_code a)
    (λ x s', after s s' ∧ systemd_failed = false ∧ tells s (Ok x) s')
    (λ e s', after s s' ∧
       if systemd_failed then isinstance e SystemdRunError = true ∧ tf_data (r_stdout (x_run s')) = "" ∧ tf_data (r_stderr (x_run s')) = ""
       else isinstance e SystemdRunError = false ∧ tells s (Err e) s') s.
Proof.
  intros Hn Hfresh. unfold api_start_extension_command. wp_step. apply (start_process_spec _ p); [done|].
  intros s1 (W1 & E1 & A1 & R1) U1 S1. wp_step. unfold push_systemd_run, on_cg. wp_step. wp_step.
  wp_step. apply track_extension_spec. intros s2 (W2 & E2 & A2 & R2) U2 S2. wp_step. wp_step. unfold id.
  cbn [x_cg x_run x_started] in *. simpl in W2, R2. change (enabled (set_systemd_run _ (x_cg s1))) with (enabled (x_cg s1)) in E2.
  apply wp_finally.
  assert (x_run s2 = x_run s) as U by congruence.
  assert (∀ s3 (Q : unit → xstate K → Prop) R, x_cg s3 = x_cg s2 → x_started s3 = x_started s2 →
    (∀ s', after s s' → x_run s' = x_run s3 → Q tt s') → wp (remove_systemd_run (ch_pid p)) Q R s3) as Hfin.
  { intros s3 Q R C3 S3 HQ. apply (removed_perm _ _ _ _ (cg_systemd_run (x_cg s))); [by rewrite C3, R2, R1|].
    intros s' E' W' R' U' S'. apply HQ; [|done]. split_and!; [congruence| |done|by rewrite S', S3, S2, S1].
    rewrite W', C3. unfold cg_fs, ps_fs. by rewrite W2, W1. }
  eapply wp_mono; [apply wait_in_scope; [done|apply throttled_ordinary|by rewrite U]| |].
  - intros x s3 (C3 & S3 & F & cpu & T). apply Hfin; [done..|]. intros s' A U'. split_and!; [done..|]. exists cpu. by rewrite U', <-U.
  - intros e s3 (C3 & S3 & T). apply Hfin; [done..|]. intros s' A U'. split; [done|]. rewrite U'. destruct systemd_failed; [done|].
    destruct T as (I & cpu & T). split; [done|]. exists cpu. by rewrite U', <-U.
Qed.

(** ** The command, with the fallback *)

Context (q : child) (Hcommand : ∀ k, ∃ k', launch command k = (Ok q, k')).

(** The files are empty, but for a gap before the position. *)
Definition emptied (u : run_state) : Prop := tf_data (r_stdout u) = "" ∧ tf_data (r_stderr u) = "".

End correct.

(** *** Samples *)

Module SampleRun.
Import SampleDisable.
Definition no_bus : child := mkChild 700 (Some (1, 1)) (λ _, "") (λ _, "Failed to connect to bus").
Definition direct : child := mkChild 701 (Some (2, 0)) (λ _, "enabled") (λ _, "a warning").
Definition start (cmd : string) (k : list (list string)) : res exn child * list (list string) :=
  (Ok (if starts_with "systemd-run" cmd then no_bus else direct), k).
Definition api : Api := ApiV2 "/sys/fs/cgroup" ["cpu"].
Definition before : xstate (list (list string)) := mkX (state ∅) (mkRun (mkTmp "" 0) (mkTmp "" 0) 0 [] true []) [].
Definition run : res exn string * xstate (list (list string)) :=
  start_extension_command systemctl start new_conf "walinuxagent" ["var"; "lib"; "waagent"] (λ _ _, None) (λ _, true) id (λ _ _, "0")
    "u1" "Ext-1.0" "/x/enable.sh" "enable" 300 1009 before.


(** The files keep their position when they are emptied: the error output of the command that is run
    directly starts with as many zeros as [systemd-run] had written. *)
Example output_starts_with_zeros : run.1 = Ok (template "enabled" (zeros 24 +:+ "a warning")).
Proof. vm_compute. reflexivity. Qed.
End SampleRun.
