(* ===== verification/Samples.v ===== *)
(** * A machine with one extension

    A concrete environment, used to apply the theorems at: the disk takes every write,
    the extension has two settings, its packages are published, and each command
    succeeds. *)
From S2P Require Import Prelude PyExn Json World Manifest RestApi ExtInstance.

Definition sample_manifest : json :=
  JArr [JObj [("version", JFloat "1.0");
              ("signingInfo", JObj [("type", JStr "sample"); ("publisher", JStr "Acme"); ("version", JStr "1.1.0")]);
              ("handlerManifest", JObj [("installCommand", JStr "bin/install"); ("uninstallCommand", JStr "bin/uninstall");
                                        ("updateCommand", JStr "bin/update"); ("enableCommand", JStr "bin/enable");
                                        ("disableCommand", JStr "bin/disable")])]].

Definition sample_base : path := ["var"; "lib"; "waagent"; "Acme.Sample-1.1.0"].

(** The files of the installed version 1.1.0 *)
Definition sample_files : fs :=
  list_to_map [(["var"; "lib"; "waagent"], Dir); (sample_base, Dir); (sample_base ++ ["config"], Dir);
               (sample_base ++ ["status"], Dir);
               (sample_base ++ ["config"; "HandlerState"], File (plain "Installed") 0);
               (sample_base ++ ["HandlerManifest.json"], File (json_content sample_manifest) 0)].

Definition sample_packages : list ExtHandlerPackage :=
  [mkPackage "1.0.0" ["https://a/1.0.0"]; mkPackage "2.0.0" ["https://a/2.0.0"]; mkPackage "1.1.0" ["https://a/1.1.0"]].

Definition sample_env_with (run : list event → command → fs → res exn string * fs * Z) : env :=
  mkEnv ["var"; "lib"; "waagent"] ["var"; "log"; "azure"] "168.63.129.16" [("PATH", "/usr/bin")] [] false
    (λ _, None)
    run
    (λ _ _ f, f)
    (λ _ _, Ok sample_packages)
    (λ _ _ p f, (Ok tt, <[p := File (plain "zip") 0]> f, 1000000))
    (λ _ d f, (Ok tt, <[d := Dir]> (<[d ++ ["HandlerManifest.json"] := File (json_content sample_manifest) 0]> f)))
    (λ _ _ _ _, Ok tt)
    (λ _, false)
    (λ _, "2024-01-01T00:00:00Z").

Definition sample_env : env := sample_env_with (λ _ _ f, (Ok "", f, 1000000)).

(** An extension that reports its status when it is enabled *)
Definition sample_status : json :=
  JArr [JObj [("version", JFloat "1.0"); ("timestampUTC", JStr "2024-01-01T00:00:00Z");
              ("status", JObj [("operation", JStr "enable"); ("status", JStr "success"); ("code", JInt 0);
                               ("formattedMessage", JObj [("lang", JStr "en-US"); ("message", JStr "done")])])]].

Definition reporting_env : env :=
  sample_env_with (λ _ c f,
    (Ok "", if String.eqb (cmd_name c) "enable"
            then <[sample_base ++ ["status"; "3.status"] := File (json_content sample_status) 0]> f else f, 1000000)).

Definition sample_settings (seq : Z) (level : Z) : ExtensionSettings :=
  mkSettings "Acme.Sample" (JInt seq) (JObj [("k", JStr "v")]) JNull JNull level "enabled".

Definition sample_extension (state : string) : Extension :=
  mkExtension "Acme.Sample" "1.1.0" state [sample_settings 3 1] ["https://a/manifest"] false "MIInRAYJ" None.

Definition sample_world : world := mkWorld sample_files 1000000 [] false.

Definition sample_inst (state : string) : inst :=
  mkInst (sample_extension state) None None None (JBool false) false.

Definition sample_state (state : string) : ist := mkIst (sample_inst state) sample_world.

(** The same machine before the extension was installed *)
Definition fresh_state (state : string) : ist :=
  mkIst (sample_inst state) (mkWorld {[ ["var"; "lib"; "waagent"] := Dir ]} 1000000 [] false).
