(* ===== verification/ExtVersion.v ===== *)
(** * Choosing the version of an extension

    [get_installed_version], [get_installed_ext_handler] and [decide_version] of
    [ExtHandlerInstance]: which version is on the machine, and which version of the
    extension manifest (the list of published packages) the goal state asks for. *)
From S2P Require Import Prelude PyExn Json FlexVersion World Manifest RestApi ExtInstance Samples.

Section version.
Context (E : env).

(** One directory of the glob [<lib>/<name>-*] in [get_installed_version] *)
Definition installed_version_step (f : fs) (latest : option FlexibleVersion) (x : string)
    : res exn (option FlexibleVersion) :=
  let p := lib_dir E ++ [x] in
  if negb (isdir p f) then Ok latest
  else
    version_from_path ← FV (default "" (after_last_dash x));
    let state_path := p ++ ["config"; "HandlerState"] in
    if negb (exists_path state_path f) then Ok latest
    else
      c ← read_file state_path f;
      if String.eqb (c_text c) ExtHandlerState.NotInstalled then Ok latest
      else if String.eqb (c_text c) ExtHandlerState.FailedUpgrade then Ok latest
      else
        match latest with
        | None => Ok (Some version_from_path)
        | Some l =>
            lt ← fv_lt l version_from_path;
            Ok (if (lt : bool) then Some version_from_path else latest)
        end.

Fixpoint installed_version_loop (f : fs) (latest : option FlexibleVersion) (xs : list string)
    : res exn (option FlexibleVersion) :=
  match xs with
  | [] => Ok latest
  | x :: xs' => l ← installed_version_step f latest x; installed_version_loop f l xs'
  end.

(** The directory entries the glob yields *)
Definition handler_entries (name : string) (f : fs) : list string :=
  filter (λ x, starts_with (name +:+ "-") x = true) (listdir (lib_dir E) f).

(** [get_installed_version] *)
Definition get_installed_version (name : string) (f : fs) : res exn (option string) :=
  v ← installed_version_loop f None (handler_entries name f);
  Ok (option_map fv_str v).

(** [get_installed_ext_handler]: an instance of a copy of the handler *)
Definition get_installed_ext_handler : I (option inst) :=
  e ← self ext_handler;
  f ← files id;
  latest ← lift (get_installed_version (eh_name e) f);
  match latest with
  | None => mret None
  | Some v => i ← lift (new_instance E (set_eh_version v e) f); mret (Some i)
  end.

(** [version_gt], [version_ne] *)
Definition version_gt (i other : inst) : res exn bool :=
  a ← FV (eh_version (ext_handler i)); b ← FV (eh_version (ext_handler other)); fv_gt a b.
Definition version_ne (i other : inst) : res exn bool :=
  a ← FV (eh_version (ext_handler i)); b ← FV (eh_version (ext_handler other)); fv_ne a b.

(** [pkg_list.versions.sort(key=...)]: the keys are computed first; the sort is stable.
    An insertion sort gives the same list as Python's whenever no comparison raises. *)
Fixpoint insert_by_version {A} (x : FlexibleVersion * A)
    (l : list (FlexibleVersion * A))
    : res exn (list (FlexibleVersion * A)) :=
  match l with
  | [] => Ok [x]
  | y :: l' =>
      lt ← fv_lt x.1 y.1;
      if (lt : bool) then Ok (x :: y :: l') else r ← insert_by_version x l'; Ok (y :: r)
  end.

Fixpoint sort_by_version {A} (acc l : list (FlexibleVersion * A))
    : res exn (list (FlexibleVersion * A)) :=
  match l with
  | [] => Ok acc
  | x :: l' => acc' ← insert_by_version x acc; sort_by_version acc' l'
  end.

Definition package_key (p : ExtHandlerPackage) : res exn (FlexibleVersion * ExtHandlerPackage) :=
  v ← FV (pkg_version p); Ok (v, p).

(** The loop of [decide_version]: the last package equal to the installed version and the
    last that matches the requested one *)
Fixpoint choose_packages (requested installed : FlexibleVersion)
    (acc : option ExtHandlerPackage * option ExtHandlerPackage)
    (l : list (FlexibleVersion * ExtHandlerPackage))
    : res exn (option ExtHandlerPackage * option ExtHandlerPackage) :=
  match l with
  | [] => Ok acc
  | (v, p) :: l' =>
      eq ← fv_eq v installed;
      choose_packages requested installed
        (if (eq : bool) then Some p else acc.1, if matches requested v then Some p else acc.2) l'
  end.

(** [decide_version] *)
Definition decide_version (target_state : string) : I (option ExtHandlerPackage) :=
  e ← self ext_handler;
  versions ← match fetch_extension_manifest E (eh_name e) (eh_manifest_uris e) with
             | Ok l => mret l
             | Err x =>
                 if isinstance x ProtocolError then
                   raise (agent_error ExtensionError "Failed to get ext handler pkgs" (Some x) (-1))
                 else if isinstance x ExtensionDownloadError then
                   on_inst (set_op "Download") ;; raise x
                 else raise x
             end;
  requested ← lift (FV (eh_version e));
  f ← files id;
  installed_string ← lift (get_installed_version (eh_name e) f);
  installed ← match installed_string with
              | None => mret requested
              | Some s => lift (FV s)
              end;
  keyed ← lift (map_res package_key versions);
  sorted ← lift (sort_by_version [] keyed);
  '(installed_pkg, selected_pkg) ← lift (choose_packages requested installed (None, None) sorted);
  (if bool_decide (target_state ∈ [ExtensionRequestedState.Uninstall; ExtensionRequestedState.Disabled]) then
     on_inst (set_pkg installed_pkg) ;;
     on_inst (λ i, set_ext_handler (set_eh_version (fv_str installed) (ext_handler i)) i) ;;
     conf_dir ← self (get_conf_dir E);
     sv ← lift (get_signature_validated conf_dir f);
     on_inst (set_signature_validated sv)
   else
     on_inst (set_pkg selected_pkg) ;;
     match selected_pkg with
     | Some p => on_inst (λ i, set_ext_handler (set_eh_version (pkg_version p) (ext_handler i)) i)
     | None => mret tt
     end) ;;
  self pkg.
End version.

(** ** The installed version *)

Section installed.
Context (E : env).

(** Entry [x] of the library directory holds an installed version [v]. *)
Definition installed_entry (f : fs) (x : string) (v : FlexibleVersion) : Prop :=
  isdir (lib_dir E ++ [x]) f = true ∧ FV (default "" (after_last_dash x)) = Ok v ∧
  ∃ c t, f !! (lib_dir E ++ [x; "config"; "HandlerState"]) = Some (File c t) ∧
         c_text c ∉ [ExtHandlerState.NotInstalled; ExtHandlerState.FailedUpgrade].

(** The directories of the handler carry comparable versions and their state is a file,
    as the agent creates them. *)
Definition entry_ok (f : fs) (x : string) : Prop :=
  isdir (lib_dir E ++ [x]) f = true →
  isdir (lib_dir E ++ [x; "config"; "HandlerState"]) f = false ∧
  ∃ v, FV (default "" (after_last_dash x)) = Ok v ∧ comparable v.

(** [latest] is the greatest version installed among the entries [xs]. *)
Definition latest_of (f : fs) (xs : list string) (latest : option FlexibleVersion) : Prop :=
  match latest with
  | None => ∀ x v, x ∈ xs → ¬ installed_entry f x v
  | Some l => comparable l ∧ (∃ x, x ∈ xs ∧ installed_entry f x l) ∧
              ∀ x v, x ∈ xs → installed_entry f x v → ¬ version_lt l v
  end.

Lemma installed_entry_fun f x v w : installed_entry f x v → installed_entry f x w → v = w.
Proof. intros (_ & H1 & _) (_ & H2 & _). congruence. Qed.

Lemma latest_of_skip f xs latest x :
  latest_of f xs latest → (∀ v, ¬ installed_entry f x v) → latest_of f (xs ++ [x]) latest.
Proof.
  unfold latest_of. intros H Hx. destruct latest as [l|].
  - destruct H as (Hc & (y & Hy & Hi) & Hmax). split; [done|]. split.
    + exists y. set_solver.
    + intros z v [Hz|Hz%list_elem_of_singleton]%elem_of_app Hi'; [by eapply Hmax|].
      subst. by apply Hx in Hi'.
  - intros y v [Hy|Hy%list_elem_of_singleton]%elem_of_app; [by apply H|]. subst. apply Hx.
Qed.

Lemma installed_entry_comparable f x v : entry_ok f x → installed_entry f x v → comparable v.
Proof. intros Hx (Hd & Hv & _). destruct (Hx Hd) as (_ & w & Hw & ?). congruence. Qed.

Lemma latest_of_update f xs latest x v :
  Forall (entry_ok f) xs → installed_entry f x v → comparable v → latest_of f xs latest →
  ∃ latest', (match latest with
              | None => Ok (Some v)
              | Some l => lt ← fv_lt l v; Ok (if (lt : bool) then Some v else latest)
              end : res exn (option FlexibleVersion)) = Ok latest' ∧ latest_of f (xs ++ [x]) latest'.
Proof.
  intros Hxs Hi Hcv Hl. rewrite Forall_forall in Hxs. destruct latest as [l|].
  - destruct Hl as (Hcl & (y & Hy & Hyi) & Hmax).
    destruct (comparable_lt l v Hcl Hcv) as (b & Hb & Hspec). rewrite Hb. simpl.
    destruct b; eexists; (split; [done|]); (split; [done|]); (split; [set_solver|]);
      intros z w [Hz|Hz%list_elem_of_singleton]%elem_of_app Hzi.
    + apply (version_nlt_trans w l v); eauto using installed_entry_comparable.
      apply version_lt_nlt; [done..|]. by apply Hspec.
    + subst z. rewrite (installed_entry_fun f x w v) by done. by apply version_nlt_refl.
    + eauto.
    + subst z. rewrite (installed_entry_fun f x w v) by done. intros H%Hspec. done.
  - eexists. split; [done|]. split; [done|]. split; [set_solver|].
    intros z w [Hz|Hz%list_elem_of_singleton]%elem_of_app Hzi; [by destruct (Hl z w)|].
    subst z. rewrite (installed_entry_fun f x w v) by done. by apply version_nlt_refl.
Qed.

Lemma installed_version_step_latest f xs latest x :
  Forall (entry_ok f) xs → entry_ok f x → latest_of f xs latest →
  ∃ latest', installed_version_step E f latest x = Ok latest' ∧ latest_of f (xs ++ [x]) latest'.
Proof.
  intros Hxs Hx Hl. unfold installed_version_step.
  assert ((∀ v, ¬ installed_entry f x v) → ∃ latest', Ok (E:=exn) latest = Ok latest' ∧ latest_of f (xs ++ [x]) latest')
    as Hskip by (intros; eexists; split; [done|by apply latest_of_skip]).
  destruct (isdir (lib_dir E ++ [x]) f) eqn:Hd; simpl.
  2:{ apply Hskip. intros v (? & _). congruence. }
  destruct (Hx Hd) as (Hs & v & Hv & Hcv). rewrite Hv. simpl.
  rewrite <-app_assoc. simpl. unfold exists_path, read_file, isdir in *.
  destruct (f !! (lib_dir E ++ [x; "config"; "HandlerState"])) as [[|c t]|] eqn:Hf; [done|..]; simpl.
  2:{ apply Hskip. intros w (_ & _ & ? & ? & ? & _). congruence. }
  destruct (String.eqb_spec (c_text c) ExtHandlerState.NotInstalled) as [H1|H1]; simpl.
  { apply Hskip. intros w (_ & _ & ? & ? & ? & Hn). simplify_eq. set_solver. }
  destruct (String.eqb_spec (c_text c) ExtHandlerState.FailedUpgrade) as [H2|H2]; simpl.
  { apply Hskip. intros w (_ & _ & ? & ? & ? & Hn). simplify_eq. set_solver. }
  apply latest_of_update; [done| |done..].
  split; [unfold isdir; by destruct (f !! _) as [[]|]|]. split; [done|]. exists c, t.
  split; [done|]. set_solver.
Qed.

Lemma installed_version_loop_latest f dn xs latest :
  Forall (entry_ok f) (dn ++ xs) → latest_of f dn latest →
  ∃ latest', installed_version_loop E f latest xs = Ok latest' ∧ latest_of f (dn ++ xs) latest'.
Proof.
  revert dn latest. induction xs as [|x xs IH]; intros dn latest Hok Hl; simpl.
  { rewrite app_nil_r. eauto. }
  pose proof Hok as [Hdn [Hx _]%Forall_cons]%Forall_app.
  destruct (installed_version_step_latest f dn latest x Hdn Hx Hl) as (l' & -> & Hl'). simpl.
  destruct (IH (dn ++ [x]) l') as (r & Hr & Hlr); rewrite <-?app_assoc; simpl; [done..|].
  rewrite <-app_assoc in Hlr. eauto.
Qed.
End installed.

(** [get_installed_version] returns the greatest version of the handler that is on
    disk and neither [NotInstalled] nor [FailedUpgrade], and [None] exactly when there is
    none, whatever the order in which the directories are listed. *)
Theorem installed_version_is_latest (E : env) (name : string) (f : fs) :
  Forall (entry_ok E f) (handler_entries E name f) →
  ∃ latest, get_installed_version E name f = Ok (option_map fv_str latest) ∧
            latest_of E f (handler_entries E name f) latest.
Proof.
  intros Hok. unfold get_installed_version.
  destruct (installed_version_loop_latest E f [] _ None Hok) as (l & -> & Hl).
  { intros x v []%elem_of_nil. }
  by exists l.
Qed.

(** ** The chosen version *)

Definition keyed_ok {A} (l : list (FlexibleVersion * A)) : Prop :=
  Forall (λ vp, comparable vp.1) l.

#[export] Instance keyed_ok_proper {A} : Proper (Permutation ==> iff) (keyed_ok (A:=A)).
Proof. intros l1 l2 Hp. unfold keyed_ok. by rewrite Hp. Qed.

Definition version_sorted {A} (l : list (FlexibleVersion * A)) : Prop :=
  StronglySorted (λ a b, ¬ version_lt b.1 a.1) l.

Lemma insert_by_version_spec {A} (x : FlexibleVersion * A) l :
  comparable x.1 → keyed_ok l → version_sorted l →
  ∃ r, insert_by_version x l = Ok r ∧ r ≡ₚ x :: l ∧ version_sorted r.
Proof.
  intros Hx Hl Hs. induction Hs as [|y l Hs IH Hy]; simpl.
  { exists [x]. split; [done|]. split; [done|]. repeat constructor. }
  apply Forall_cons in Hl as [Hcy Hl]. destruct (comparable_lt x.1 y.1 Hx Hcy) as (b & Hb & Hspec).
  rewrite Hb. simpl. destruct b.
  - eexists. split; [done|]. split; [done|]. constructor; [by constructor|].
    assert (¬ version_lt y.1 x.1) as Hyx by (apply version_lt_nlt; [done..|by apply Hspec]).
    constructor; [done|]. rewrite Forall_forall in Hy, Hl. rewrite Forall_forall. intros z Hz.
    by eapply version_nlt_trans with y.1; eauto.
  - destruct (IH Hl) as (r & Hr & Hp & Hsr). rewrite Hr. simpl. eexists. split; [done|].
    split; [rewrite Hp; apply Permutation_swap|]. constructor; [done|].
    rewrite Hp. constructor; [|done]. intros H%Hspec. done.
Qed.

Lemma sort_by_version_spec {A} (l acc : list (FlexibleVersion * A)) :
  keyed_ok acc → keyed_ok l → version_sorted acc →
  ∃ r, sort_by_version acc l = Ok r ∧ r ≡ₚ acc ++ l ∧ version_sorted r.
Proof.
  revert acc. induction l as [|x l IH]; intros acc Ha Hl Hs; simpl.
  { exists acc. by rewrite app_nil_r. }
  apply Forall_cons in Hl as [Hx Hl].
  destruct (insert_by_version_spec x acc Hx Ha Hs) as (r & Hr & Hp & Hsr). rewrite Hr. simpl.
  destruct (IH r) as (r' & Hr' & Hp' & Hs'); [|done..|].
  { rewrite Hp. by constructor. }
  exists r'. split; [done|]. split; [|done]. rewrite Hp', Hp. simpl. by rewrite <-Permutation_middle.
Qed.

Lemma choose_packages_spec requested installed l acc :
  comparable installed → keyed_ok l →
  ∃ i, choose_packages requested installed acc l =
       Ok (i, match last (filter (λ vp, matches requested vp.1 = true) l) with
              | Some vp => Some vp.2
              | None => acc.2
              end).
Proof.
  intros Hi Hl. revert acc. induction Hl as [|[v p] l Hv Hl IH]; intros acc; simpl.
  { exists acc.1. by destruct acc. }
  destruct (comparable_eq v installed Hv Hi) as (b & Hb & _). rewrite Hb. simpl.
  destruct (IH (if b then Some p else acc.1, if matches requested v then Some p else acc.2)) as [i Hc].
  exists i. rewrite Hc. rewrite filter_cons. simpl.
  destruct (matches requested v) eqn:Hm; case_decide; simpl; try done.
  rewrite last_cons. by destruct (last _).
Qed.

Lemma last_filter_max requested (l : list (FlexibleVersion * ExtHandlerPackage)) vp :
  version_sorted l → last (filter (λ vp, matches requested vp.1 = true) l) = Some vp →
  vp ∈ l ∧ matches requested vp.1 = true ∧
  ∀ wq, wq ∈ l → matches requested wq.1 = true → wq = vp ∨ ¬ version_lt vp.1 wq.1.
Proof.
  induction 1 as [|x l Hs IH Hx]; [done|]. rewrite filter_cons. case_decide as Hm.
  - rewrite last_cons. destruct (last (filter _ l)) as [y|] eqn:Hlast.
    + intros [= ->]. destruct (IH eq_refl) as (H1 & H2 & H3). split; [by right|]. split; [done|].
      intros wq [->|Hwq]%elem_of_cons Hmq; [|by apply H3]. right.
      rewrite Forall_forall in Hx. by apply Hx.
    + intros [= ->]. split; [by left|]. split; [done|].
      intros wq [->|Hwq]%elem_of_cons Hmq; [by left|].
      apply last_None in Hlast. assert (wq ∈ filter (λ vp, matches requested vp.1 = true) l) as Hin.
      { apply list_elem_of_filter. done. }
      rewrite Hlast in Hin. by apply elem_of_nil in Hin.
  - intros Hlast. destruct (IH Hlast) as (H1 & H2 & H3). split; [by right|]. split; [done|].
    intros wq [->|Hwq]%elem_of_cons Hmq; [done|]. by apply H3.
Qed.

Lemma map_res_package_key versions keyed :
  map_res package_key versions = Ok keyed →
  keyed.*2 = versions ∧ Forall (λ vp, FV (pkg_version vp.2) = Ok vp.1) keyed.
Proof.
  revert keyed. induction versions as [|p versions IH]; intros keyed H; simpl in H; [by simplify_eq|].
  destruct (package_key p) as [vp|] eqn:Hvp; cbn in H; [|done].
  destruct (map_res package_key versions) as [k|] eqn:Hk; cbn in H; [|done]. injection H as <-.
  unfold package_key in Hvp. destruct (FV (pkg_version p)) as [v|] eqn:Hv; cbn in Hvp; [|done].
  injection Hvp as <-. destruct (IH _ eq_refl) as [<- H2]. split; [done|]. by constructor.
Qed.

(** The highest package that matches the request: what the goal state asks for. *)
Definition highest_match (requested : FlexibleVersion) (versions : list ExtHandlerPackage)
    (r : option ExtHandlerPackage) : Prop :=
  match r with
  | None => ∀ q w, q ∈ versions → FV (pkg_version q) = Ok w → matches requested w = false
  | Some p => p ∈ versions ∧ ∃ v, FV (pkg_version p) = Ok v ∧ matches requested v = true ∧
      ∀ q w, q ∈ versions → FV (pkg_version q) = Ok w → matches requested w = true → ¬ version_lt v w
  end.

Lemma choose_highest requested installed versions keyed :
  map_res package_key versions = Ok keyed → keyed_ok keyed → comparable installed →
  ∃ sorted i r, sort_by_version [] keyed = Ok sorted ∧
    choose_packages requested installed (None, None) sorted = Ok (i, r) ∧
    highest_match requested versions r.
Proof.
  intros Hkey Hok Hi. destruct (map_res_package_key _ _ Hkey) as [Hv Hfv].
  destruct (sort_by_version_spec keyed []) as (sorted & Hs & Hp & Hss); [constructor|done|constructor|].
  simpl in Hp. exists sorted.
  destruct (choose_packages_spec requested installed sorted (None, None) Hi) as [i Hc].
  { by rewrite Hp. }
  exists i. eexists. split; [done|]. split; [exact Hc|].
  assert (∀ q w, q ∈ versions → FV (pkg_version q) = Ok w → (w, q) ∈ sorted) as Hin.
  { intros q w Hq Hw. rewrite Hp. rewrite <-Hv in Hq. apply list_elem_of_fmap in Hq as ([w' q'] & -> & Hq).
    rewrite Forall_forall in Hfv. pose proof (Hfv _ Hq) as H. simpl in *. rewrite Hw in H. by injection H as ->. }
  rewrite <-Hp in Hfv, Hok. unfold keyed_ok in Hok. rewrite Forall_forall in Hfv, Hok.
  destruct (last (filter _ sorted)) as [[v p]|] eqn:Hlast; simpl.
  - destruct (last_filter_max _ _ _ Hss Hlast) as (H1 & H2 & H3). simpl in *. split.
    + rewrite <-Hv. rewrite Hp in H1. by apply (list_elem_of_fmap_2 snd) in H1.
    + exists v. split; [by apply (Hfv (v, p))|]. split; [done|]. intros q w Hq Hw Hm.
      destruct (H3 _ (Hin _ _ Hq Hw) Hm) as [[= -> ->]|]; [|done].
      apply version_nlt_refl. by apply (Hok (v, p)).
  - intros q w Hq Hw. apply last_None in Hlast. apply not_true_is_false. intros Hm.
    assert ((w, q) ∈ filter (λ vp, matches requested vp.1 = true) sorted) as H.
    { apply list_elem_of_filter. eauto. }
    rewrite Hlast in H. by apply elem_of_nil in H.
Qed.

(** When the goal state asks to enable the extension, [decide_version] picks the
    highest published package that matches the requested version (same leading
    components), sets the handler's version to it, and returns [None] exactly when no
    published package matches; it never raises for well-formed versions. *)
Theorem decide_version_picks_highest_match (E : env) (s : ist) versions requested keyed installed_s :
  let e := ext_handler (s_inst s) in
  fetch_extension_manifest E (eh_name e) (eh_manifest_uris e) = Ok versions →
  FV (eh_version e) = Ok requested → comparable requested →
  map_res package_key versions = Ok keyed → keyed_ok keyed →
  get_installed_version E (eh_name e) (w_fs (s_world s)) = Ok installed_s →
  (∀ t, installed_s = Some t → ∃ v, FV t = Ok v ∧ comparable v) →
  ∃ r s', decide_version E ExtensionRequestedState.Enabled s = (Ok r, s') ∧
          highest_match requested versions r ∧ s_world s' = s_world s ∧ pkg (s_inst s') = r ∧
          eh_version (ext_handler (s_inst s')) =
            match r with Some p => pkg_version p | None => eh_version e end.
Proof.
  intros e Hfetch Hreq Hcr Hkey Hok Hinst Hit.
  assert (∃ iv, match installed_s with None => mret requested | Some t => lift (FV t) end s = (Ok iv, s)
                ∧ comparable iv) as (iv & Hiv & Hciv).
  { destruct installed_s as [t|]; [|by exists requested].
    destruct (Hit t eq_refl) as (v & Hv & Hc). exists v. unfold lift. by rewrite Hv. }
  destruct (choose_highest requested iv versions keyed Hkey Hok Hciv) as (sorted & i & r & Hs & Hc & Hr).
  unfold decide_version, self, files, gets, mbind, M_bind. fold e. rewrite Hfetch.
  cbn [mret M_ret lift]. rewrite Hreq. cbn [lift]. unfold id. rewrite Hinst. cbn [lift].
  rewrite Hiv, Hkey. cbn [lift]. rewrite Hs. cbn [lift]. rewrite Hc. cbn [lift].
  rewrite bool_decide_eq_false_2 by (vm_compute; set_solver).
  destruct r as [p|]; eexists _, _; (split; [reflexivity|]); done.
Qed.

(** ** What choosing a version may change *)

Lemma get_installed_ext_handler_pure (E : env) : pres eq (get_installed_ext_handler E).
Proof. unfold get_installed_ext_handler. pres_auto. Qed.
#[export] Hint Resolve get_installed_ext_handler_pure : pres.

(** The machine and the handler are the same, its version apart. *)
Definition same_handler (s s' : ist) : Prop :=
  s_world s' = s_world s ∧
  set_eh_version "" (ext_handler (s_inst s')) = set_eh_version "" (ext_handler (s_inst s)).

#[export] Instance same_handler_preorder : PreOrder same_handler.
Proof. split; [done|]. intros a b c [? ?] [? ?]. split; congruence. Qed.

Lemma same_handler_name s s' :
  same_handler s s' →
  eh_name (ext_handler (s_inst s')) = eh_name (ext_handler (s_inst s)) ∧
  eh_state (ext_handler (s_inst s')) = eh_state (ext_handler (s_inst s)).
Proof. intros [_ H]. destruct (ext_handler (s_inst s)), (ext_handler (s_inst s')). by simplify_eq/=. Qed.

Lemma decide_version_same_handler (E : env) t : pres same_handler (decide_version E t).
Proof.
  assert (∀ {A} (m : I A), pres eq m → pres same_handler m) as Heq.
  { intros A m Hm s. by rewrite (Hm s) at 1. }
  unfold decide_version.
  pose proof (Heq _ _ (self_pure ext_handler)). pose proof (Heq _ _ (self_pure pkg)).
  pose proof (Heq _ _ (files_pure id)). pose proof (Heq _ _ (self_pure (get_conf_dir E))).
  pres_auto; apply pres_modify; intros s; (split; [done|]); by destruct s as [[]].
Qed.

(** ** The theorems on the sample machine *)

Definition plain_version (l : list Z) : FlexibleVersion := mkFV "." None default_tags None l.

Lemma plain_comparable l : comparable (plain_version l).
Proof. done. Qed.

Lemma installed_version_is_latest_witness :
  ∃ latest, get_installed_version sample_env "Acme.Sample" sample_files = Ok (option_map fv_str latest) ∧
            latest_of sample_env sample_files (handler_entries sample_env "Acme.Sample" sample_files) latest ∧
            fv_str <$> latest = Some "1.1.0".
Proof.
  destruct (installed_version_is_latest sample_env "Acme.Sample" sample_files) as (l & H1 & H2).
  - assert (handler_entries sample_env "Acme.Sample" sample_files = ["Acme.Sample-1.1.0"]) as -> by (vm_compute; reflexivity).
    constructor; [|constructor]. intros _. split; [vm_compute; reflexivity|]. exists (plain_version [1; 1; 0]). split; [vm_compute; reflexivity|apply plain_comparable].
  - exists l. split_and!; [exact H1|exact H2|].
    assert (get_installed_version sample_env "Acme.Sample" sample_files = Ok (Some "1.1.0")) as H by (vm_compute; reflexivity).
    rewrite H in H1. destruct l; simpl in *; congruence.
Defined.

Lemma decide_version_picks_highest_match_witness :
  ∃ r s', decide_version sample_env ExtensionRequestedState.Enabled (sample_state "enabled") = (Ok r, s') ∧
          highest_match (plain_version [1; 1; 0]) sample_packages r ∧ s_world s' = sample_world ∧ pkg (s_inst s') = r ∧
          eh_version (ext_handler (s_inst s')) = match r with Some p => pkg_version p | None => "1.1.0" end.
Proof.
  eapply (decide_version_picks_highest_match sample_env (sample_state "enabled") sample_packages
           (plain_version [1; 1; 0])).
  - reflexivity.
  - vm_compute; reflexivity.
  - apply plain_comparable.
  - vm_compute; reflexivity.
  - repeat constructor.
  - vm_compute; reflexivity.
  - intros t [= <-]. exists (plain_version [1; 1; 0]). split; [vm_compute; reflexivity|apply plain_comparable].
Defined.
