(* ===== verification/ExtCommands.v ===== *)
(** * The commands of an extension ([ExtHandlerInstance] of exthandlers.py, second part)

    Launching the commands named in the handler manifest and the state transitions around
    them: install, enable, disable, update, uninstall and removal.  Every command that is
    started is recorded in the trace of the world as an [ECommand] event before its
    outcome is known. *)
From S2P Require Import Prelude PyExn Json FlexVersion World Manifest RestApi ExtInstance Samples.

Section commands.
Context (E : env).

(** The environment variables of a command; those of the agent's own process are added
    last and win. *)
Definition command_environment (i : inst) (extension : option ExtensionSettings)
    (env : list (string * string)) : list (string * string) :=
  let base :=
    dict_update env
      [(EnvVar.ExtensionPath, path_str (get_base_dir E i));
       (EnvVar.ExtensionVersion, eh_version (ext_handler i));
       (EnvVar.WireProtocolAddress, wire_endpoint E);
       (EnvVar.ExtensionSeqNumber,
         match extension with Some x => py_str (es_sequenceNumber x) | None => DEFAULT_SEQ_NO end)] in
  let named := match extension with
               | Some x => if supports_multi_config i
                           then dict_set EnvVar.ExtensionName (es_name x) base else base
               | None => base
               end in
  let features := match supported_features E with
                  | [] => named
                  | l => dict_set EnvVar.ExtensionSupportedFeatures
                           (json_dumps (JArr ((λ '(k, v), JObj [("Key", JStr k); ("Value", JStr v)]) <$> l)))
                           named
                  end in
  dict_update features (os_environ E).

(** [start_extension_command]: the command runs, with its effects on the file system. *)
Definition start_extension_command (c : command) : M world exn string := λ w,
  let '(r, f, dt) := run_command E (w_trace w) c (w_fs w) in
  (r, mkWorld f (w_now w + dt) (w_trace w ++ [ECommand c]) (w_ext_validation_disabled w)).

(** [launch_command]: the temporary files for the output need the base directory, and
    their errors are not translated. *)
Definition launch_command (cmd : json) (name : string) (timeout extension_error_code : Z)
    (env : list (string * string)) (extension : option ExtensionSettings) : I string :=
  i ← self id;
  let base_dir := get_base_dir E i in
  has_dir ← files (isdir base_dir);
  if negb has_dir then raise (os_error ENOENT "No such file or directory")
  else
    match write_fault E (base_dir ++ ["<temporary>"]) with
    | Some (_, e) => raise e
    | None =>
        match cmd with
        | JStr cmd_text =>
            let command_full_path := path_str base_dir +:+ "/" +:+ lstrip_slash cmd_text in
            except OSError
              (on_world (start_extension_command
                 (mkCommand (get_full_name i None) command_full_path name timeout
                    (command_environment i extension env) extension_error_code)))
              (λ e, raise (agent_error ExtensionError
                             ("Failed to launch '" +:+ command_full_path +:+ "': " +:+ e_msg e)
                             None extension_error_code))
        | j => raise (py_error AttributeError ("'" +:+ type_name j +:+ "' object has no attribute 'lstrip'"))
        end
    end.

(** Calls of [CGroupConfigurator] are recorded, not interpreted. *)
Definition cgroup (op target : string) : I unit := on_world (modify (log_event (ECgroup op target))).

Definition set_extension_resource_limits : I unit :=
  man ← load_manifest E;
  name ← self (λ i, get_full_name i None);
  resource_limits ← lift (get_resource_limits man);
  quota ← lift (get_extension_slice_cpu_quota resource_limits);
  cgroup "setup_extension_slice" (name +:+ " " +:+ json_dumps quota) ;;
  services ← lift (get_service_list resource_limits);
  cgroup "set_extension_services_cpu_memory_quota" (json_dumps services).

Definition exit_code_text (code : option Z) : string :=
  match code with Some z => pretty z | None => NOT_RUN end.

(** ** Enable *)

Definition enable_extension (extension : option ExtensionSettings) (uninstall_exit_code : option Z) : I unit :=
  let env := [(EnvVar.UninstallReturnCode, exit_code_text uninstall_exit_code)] in
  set_extension_resource_limits ;;
  on_inst (set_op "Enable") ;;
  man ← load_manifest E;
  enable_cmd ← lift (get_enable_command man);
  _ ← launch_command enable_cmd "enable" 300 ErrorCodes.PluginEnableProcessingFailed env extension;
  mc ← self (λ i, should_perform_multi_config_op i extension);
  when mc (set_extension_state E extension ExtensionState.Enabled) ;;
  resource_limits ← lift (get_resource_limits man);
  services ← lift (get_service_list resource_limits);
  cgroup "start_tracking_extension_services_cgroups" (json_dumps services).

Definition enable (extension : option ExtensionSettings) (uninstall_exit_code : option Z) : I unit :=
  except ExtensionError
    (enable_extension extension uninstall_exit_code)
    (λ error,
       mc ← self (λ i, should_perform_multi_config_op i extension);
       if (mc : bool) then raise (agent_error MultiConfigExtensionEnableError (e_msg error) None (-1))
       else raise error) ;;
  set_handler_state E ExtHandlerState.Enabled ;;
  set_handler_status E ExtHandlerStatusValue.ready "Plugin enabled" 0.

(** ** Disable *)

Definition disable_extension (extension : option ExtensionSettings) : I unit :=
  on_inst (set_op "Disable") ;;
  man ← load_manifest E;
  disable_cmd ← lift (get_disable_command man);
  _ ← launch_command disable_cmd "disable" 900 ErrorCodes.PluginDisableProcessingFailed [] extension;
  mret tt.

Definition disable (extension : option ExtensionSettings) (ignore_error : bool) : I unit :=
  except ExtensionError
    (disable_extension extension)
    (λ error, if negb ignore_error then raise error else mret tt) ;;
  i ← self id;
  match extension with
  | Some x =>
      when (supports_multi_config i)
        (if String.eqb (es_state x) ExtensionRequestedState.Disabled
         then remove_extension_state_files E x
         else set_extension_state E extension ExtensionState.Disabled)
  | None => mret tt
  end ;;
  to_installed ← (if negb (supports_multi_config i) then mret true
                  else enabled ← enabled_extensions E;
                       mret (match enabled with [] => true | _ => false end));
  when to_installed
    (set_handler_state E ExtHandlerState.Installed ;;
     set_handler_status E ExtHandlerStatusValue.not_ready "Plugin disabled" 0).

(** ** Install, uninstall, removal *)

Definition install (uninstall_exit_code : option Z) (extension : option ExtensionSettings) : I unit :=
  let env := [(EnvVar.UninstallReturnCode, exit_code_text uninstall_exit_code)] in
  man ← load_manifest E;
  install_cmd ← lift (get_install_command man);
  on_inst (set_op "Install") ;;
  _ ← launch_command install_cmd "install" 900 ErrorCodes.PluginInstallProcessingFailed env extension;
  set_handler_state E ExtHandlerState.Installed ;;
  set_handler_status E ExtHandlerStatusValue.not_ready "Plugin installed but not enabled" 0.

Definition uninstall (extension : option ExtensionSettings) : I unit :=
  on_inst (set_op "UnInstall") ;;
  man ← load_manifest E;
  resource_limits ← lift (get_resource_limits man);
  services ← lift (get_service_list resource_limits);
  cgroup "stop_tracking_extension_services_cgroups" (json_dumps services) ;;
  cgroup "reset_extension_services_quota" (json_dumps services) ;;
  uninstall_cmd ← lift (get_uninstall_command man);
  _ ← launch_command uninstall_cmd "uninstall" 300 ErrorCodes.PluginProcessingError [] extension;
  mret tt.

(** [remove_ext_handler]: an [IOError] is reported and swallowed; a file that disappears
    while the tree is removed is ignored. *)
Definition remove_ext_handler : I unit :=
  i ← self id;
  except OSError
    (let zip_filename := lib_dir E ++ [get_extension_package_zipfile_name i] in
     zip_exists ← files (exists_path zip_filename);
     when zip_exists (on_world (remove_file (write_fault E) zip_filename)) ;;
     let base_dir := get_base_dir E i in
     has_dir ← files (isdir base_dir);
     when has_dir
       (except OSError (on_world (rmtree (write_fault E) base_dir))
          (λ e, if e_code e =? ENOENT then mret tt else raise e)) ;;
     cgroup "stop_tracking_extension_cgroups" (get_full_name i None) ;;
     cgroup "reset_extension_quota" (get_full_name i None))
    (λ _, mret tt).

(** ** Update *)

(** [disable_exit_codes.get(name)] on a [defaultdict]: [get] does not call the default
    factory, so a missing name gives [None]. *)
Definition disable_code_text (disable_exit_codes : list (string * Z)) (name : string) : string :=
  match dict_get name disable_exit_codes with Some z => pretty z | None => "None" end.

Definition update_environment (i : inst) (updating_from_version updating_to_version : string)
    (disable_exit_codes : list (string * Z)) : list (string * string) :=
  let env := [("VERSION", updating_to_version); (EnvVar.UpdatingFromVersion, updating_from_version)] in
  if negb (supports_multi_config i) then
    dict_set EnvVar.DisableReturnCode (disable_code_text disable_exit_codes (eh_name (ext_handler i))) env
  else
    dict_set EnvVar.DisableReturnCodeMultipleExtensions
      (json_dumps (JArr ((λ x, JObj [("extensionName", JStr (es_name x));
                                     ("exitCode", JStr (disable_code_text disable_exit_codes (es_name x)))])
                         <$> extensions i))) env.

Definition update (updating_from_version updating_to_version : string)
    (extension : option ExtensionSettings) (disable_exit_codes : list (string * Z)) : I unit :=
  env ← self (λ i, update_environment i updating_from_version updating_to_version disable_exit_codes);
  except ExtensionError
    (on_inst (set_op "Update") ;;
     man ← load_manifest E;
     update_cmd ← lift (get_update_command man);
     _ ← launch_command update_cmd "update" 900 ErrorCodes.PluginUpdateProcessingFailed env extension;
     mret tt)
    (λ error, set_handler_state E ExtHandlerState.FailedUpgrade ;; raise error).

Definition update_with_install (uninstall_exit_code : option Z) (extension : option ExtensionSettings) : I unit :=
  man ← load_manifest E;
  with_install ← lift (is_update_with_install man);
  when with_install (install uninstall_exit_code extension) ;;
  set_handler_state E ExtHandlerState.Installed.

(** ** Migrating files of the old version *)

Definition copy_status_files (old : inst) : I unit :=
  new_base ← self (get_base_dir E);
  new_status ← self (get_status_dir E);
  let mrseq := get_base_dir E old ++ ["mrseq"] in
  has_mrseq ← files (isfile mrseq);
  when has_mrseq (on_world (copy2 (write_fault E) mrseq new_base)) ;;
  let old_status := get_status_dir E old in
  has_status ← files (isdir old_status);
  when has_status
    (names ← files (listdir old_status);
     for_each names (λ x,
       is_file ← files (isfile (old_status ++ [x]));
       when is_file (on_world (copy2 (write_fault E) (old_status ++ [x]) new_status)))).
End commands.

(** ** Which events the methods add *)

Section grows_commands.
Context (E : env) (P : list event → Prop) `{!TraceProp P}.

Lemma cgroup_grows op t : pres (grows_i P) (cgroup op t).
Proof.
  apply on_world_grows, pres_modify. intros w. exists [ECgroup op t]. split; [done|apply tp_cgroup].
Qed.
Hint Resolve cgroup_grows : pres.

Lemma set_extension_resource_limits_grows : pres (grows_i P) (set_extension_resource_limits E).
Proof. unfold set_extension_resource_limits. pres_auto. Qed.
Hint Resolve set_extension_resource_limits_grows : pres.

Lemma remove_ext_handler_grows : pres (grows_i P) (remove_ext_handler E).
Proof. unfold remove_ext_handler. pres_auto. Qed.

Lemma copy_status_files_grows old : pres (grows_i P) (copy_status_files E old).
Proof. unfold copy_status_files. pres_auto. Qed.

(** A launch adds the command it starts, and only that. *)
Lemma launch_command_grows cmd name timeout code env extension :
  (∀ c, cmd_name c = name → P [ECommand c]) →
  pres (grows_i P) (launch_command E cmd name timeout code env extension).
Proof.
  intros HP. unfold launch_command. pres_auto. apply on_world_grows. intros w.
  unfold start_extension_command. destruct (run_command _ _ _ _) as [[r f] dt]. simpl.
  eexists. split; [done|]. by apply HP.
Qed.
End grows_commands.
#[export] Hint Resolve cgroup_grows set_extension_resource_limits_grows remove_ext_handler_grows
  copy_status_files_grows : pres.

(** Code that may start any command *)
Class AnyCommand (P : list event → Prop) : Prop := any_command c : P [ECommand c].

Section grows_any.
Context (E : env) (P : list event → Prop) `{!TraceProp P} `{!AnyCommand P}.

Lemma launch_any cmd name timeout code env extension :
  pres (grows_i P) (launch_command E cmd name timeout code env extension).
Proof. apply launch_command_grows; [done|]. intros c _. apply any_command. Qed.
Hint Resolve launch_any : pres.

Lemma enable_any x c : pres (grows_i P) (enable E x c).
Proof. unfold enable, enable_extension. pres_auto. Qed.
Lemma disable_any x b : pres (grows_i P) (disable E x b).
Proof. unfold disable, disable_extension. pres_auto. Qed.
Lemma install_any c x : pres (grows_i P) (install E c x).
Proof. unfold install. pres_auto. Qed.
Hint Resolve install_any : pres.
Lemma uninstall_any x : pres (grows_i P) (uninstall E x).
Proof. unfold uninstall. pres_auto. Qed.
Lemma update_any a b x cs : pres (grows_i P) (update E a b x cs).
Proof. unfold update. pres_auto. Qed.
Lemma update_with_install_any c x : pres (grows_i P) (update_with_install E c x).
Proof. unfold update_with_install. pres_auto. Qed.
End grows_any.
#[export] Hint Resolve enable_any disable_any install_any uninstall_any update_any
  update_with_install_any : pres.

(** ** The commands a method starts

    [commands w]: the commands started so far, as (handler and version, operation).
    [quietly]: the handler the instance refers to stays the same and only cgroup calls
    and sleeps are added to the trace. *)
Definition command_of (e : event) : option (string * string) :=
  match e with ECommand c => Some (cmd_handler c, cmd_name c) | _ => None end.
Definition commands (w : world) : list (string * string) := omap command_of (w_trace w).

Definition same_ext (s s' : ist) : Prop := ext_handler (s_inst s') = ext_handler (s_inst s).
#[export] Instance same_ext_preorder : PreOrder same_ext.
Proof. split; [done|]. intros a b c; unfold same_ext; congruence. Qed.

Definition no_command (evs : list event) : Prop := omap command_of evs = [].
#[export] Instance no_command_trace : TraceProp no_command.
Proof. split; [done|intros a b; unfold no_command; rewrite omap_app; by intros -> ->|done..]. Qed.

Definition quietly (s s' : ist) : Prop := same_ext s s' ∧ grows_i no_command s s'.
#[export] Instance quietly_preorder : PreOrder quietly.
Proof.
  split; [intros s; split; reflexivity|].
  intros a b c [H1 H2] [H3 H4]. split; by etrans.
Qed.

Lemma pure_quietly {A} (m : I A) : pres eq m → pres quietly m.
Proof. intros Hm s. specialize (Hm s). rewrite <-Hm. reflexivity. Qed.

Lemma on_world_quietly {A} (m : M world exn A) : pres (grows no_command) m → pres quietly (on_world m).
Proof. intros H. apply (pres_zoom _ (grows no_command)); [done|]. intros s t Hg. by split. Qed.

Lemma on_inst_quietly f : (∀ i, ext_handler (f i) = ext_handler i) → pres quietly (on_inst f).
Proof. intros Hf. apply pres_modify. intros s. split; [by apply Hf|]. unfold grows_i. simpl. reflexivity. Qed.

Lemma set_op_quietly op : pres quietly (on_inst (set_op op)).
Proof. by apply on_inst_quietly. Qed.
#[export] Hint Resolve on_world_quietly set_op_quietly : pres.

Lemma self_quietly {A} (f : inst → A) : pres quietly (self f).
Proof. apply pure_quietly, self_pure. Qed.
Lemma files_quietly {A} (f : fs → A) : pres quietly (files f).
Proof. apply pure_quietly, files_pure. Qed.
#[export] Hint Resolve self_quietly files_quietly : pres.

Section quiet_methods.
Context (E : env).

Lemma set_state_quietly n v : pres quietly (set_state E n v).
Proof. unfold set_state. pres_auto. Qed.
Hint Resolve set_state_quietly : pres.
Lemma set_handler_state_quietly v : pres quietly (set_handler_state E v).
Proof. unfold set_handler_state. pres_auto. Qed.
Lemma set_extension_state_quietly x v : pres quietly (set_extension_state E x v).
Proof. unfold set_extension_state. pres_auto. Qed.
Lemma set_handler_status_quietly a b c : pres quietly (set_handler_status E a b c).
Proof. unfold set_handler_status. pres_auto. Qed.
Lemma remove_extension_state_files_quietly x : pres quietly (remove_extension_state_files E x).
Proof. unfold remove_extension_state_files. pres_auto. Qed.
Lemma load_manifest_quietly : pres quietly (load_manifest E).
Proof. apply pure_quietly, load_manifest_pure. Qed.
Lemma enabled_extensions_quietly : pres quietly (enabled_extensions E).
Proof. apply pure_quietly, enabled_extensions_pure. Qed.
Lemma get_handler_state_quietly : pres quietly (get_handler_state E).
Proof. apply pure_quietly, get_handler_state_pure. Qed.
Hint Resolve load_manifest_quietly : pres.
Lemma cgroup_quietly op t : pres quietly (cgroup op t).
Proof.
  apply on_world_quietly, pres_modify. intros w. exists [ECgroup op t]. split; [done|apply tp_cgroup].
Qed.
Hint Resolve cgroup_quietly : pres.
Lemma set_extension_resource_limits_quietly : pres quietly (set_extension_resource_limits E).
Proof. unfold set_extension_resource_limits. pres_auto. Qed.
Lemma remove_ext_handler_quietly : pres quietly (remove_ext_handler E).
Proof. unfold remove_ext_handler. pres_auto. Qed.
Lemma copy_status_files_quietly old : pres quietly (copy_status_files E old).
Proof. unfold copy_status_files. pres_auto. Qed.
End quiet_methods.
#[export] Hint Resolve set_state_quietly set_handler_state_quietly set_extension_state_quietly
  set_handler_status_quietly remove_extension_state_files_quietly load_manifest_quietly
  enabled_extensions_quietly get_handler_state_quietly cgroup_quietly
  set_extension_resource_limits_quietly remove_ext_handler_quietly copy_status_files_quietly : pres.

(** [did L s s']: the commands [L] were started between [s] and [s'], for the same
    handler. *)
Definition did (L : list (string * string)) (s s' : ist) : Prop :=
  same_ext s s' ∧ commands (s_world s') = commands (s_world s) ++ L.

Lemma quietly_did s s' : quietly s s' → did [] s s'.
Proof.
  intros [H1 (evs & Ht & Hc)]. split; [done|]. unfold commands. by rewrite Ht, omap_app, Hc.
Qed.

Lemma did_app L1 L2 s1 s2 s3 : did L1 s1 s2 → did L2 s2 s3 → did (L1 ++ L2) s1 s3.
Proof.
  intros [H1 C1] [H2 C2]. split; [by etrans|]. by rewrite C2, C1, app_assoc.
Qed.

Definition full_name (s : ist) : string := get_full_name (s_inst s) None.

Lemma same_ext_full_name s s' : same_ext s s' → full_name s' = full_name s.
Proof. unfold same_ext, full_name, get_full_name, get_extension_full_name. by intros ->. Qed.

(** [runs_one name m]: [m] starts exactly one command, [name] of the instance's handler,
    when it returns, and at most that one when it raises. *)
Definition runs_one {A} (name : string) (m : I A) : Prop :=
  ∀ s, wp m (λ _ s', did [(full_name s, name)] s s')
            (λ _ s', did [] s s' ∨ did [(full_name s, name)] s s') s.

Lemma runs_one_pre {A B} name (m : I A) (k : A → I B) :
  pres quietly m → (∀ a, runs_one name (k a)) → runs_one name (m ≫= k).
Proof.
  intros Hm Hk s. wp_step. eapply wp_mono; [by apply (pres_wp quietly)|..].
  2:{ intros e s' H. left. by apply quietly_did. }
  intros a s1 H1. rewrite <-(same_ext_full_name s s1) by apply H1. apply quietly_did in H1.
  eapply wp_mono; [apply Hk|..].
  - intros b s2 H2. apply (did_app [] _ _ _ _ H1 H2).
  - intros e s2 [H2|H2]; [left|right]; apply (did_app [] _ _ _ _ H1 H2).
Qed.

Lemma runs_one_post {A B} name (m : I A) (k : A → I B) :
  runs_one name m → (∀ a, pres quietly (k a)) → runs_one name (m ≫= k).
Proof.
  intros Hm Hk s. wp_step. eapply wp_mono; [apply Hm|..]; [|done].
  intros a s1 H1.
  assert (∀ s2, quietly s1 s2 → did [(full_name s, name)] s s2) as Hq.
  { intros s2 H2%quietly_did. pose proof (did_app _ _ _ _ _ H1 H2) as H. by rewrite app_nil_r in H. }
  eapply wp_mono; [by apply (pres_wp quietly)|..]; intros ? s2 H2; [|right]; by apply Hq.
Qed.

(** A handler that does not run anything and re-raises *)
Lemma runs_one_except {A} name c (m : I A) h :
  runs_one name m → (∀ e s, wp (h e) (λ _ _, False) (λ _ s', quietly s s') s) →
  runs_one name (except c m h).
Proof.
  intros Hm Hh s. wp_step. eapply wp_mono; [apply Hm|done|]. intros e s1 H1. split; [|done]. intros _.
  eapply wp_mono; [apply Hh|done|]. intros e' s2 H2%quietly_did.
  destruct H1 as [H1|H1]; [left|right]; pose proof (did_app _ _ _ _ _ H1 H2) as H;
    by rewrite app_nil_r in H.
Qed.

Ltac runs_pre := apply runs_one_pre; [solve [eauto with pres typeclass_instances]|intros ?].

Section runs.
Context (E : env).

Lemma launch_runs cmd name timeout code env extension :
  runs_one name (launch_command E cmd name timeout code env extension).
Proof.
  intros s. unfold launch_command. wp_step. wp_step. wp_step. wp_step. unfold id.
  assert (did [] s s) as Hs by (apply quietly_did; reflexivity).
  wp_step; [wp_step; by left|]. destruct (write_fault E _) as [[b e]|]; [wp_step; by left|].
  destruct cmd as [| | | |cmd_text| |]; try (wp_step; by left).
  wp_step. wp_step. unfold wp, start_extension_command.
  destruct (run_command E _ _ _) as [[r f] dt].
  set (s' := mkIst _ _). assert (did [(full_name s, name)] s s') as Hd.
  { split; [done|]. unfold commands. simpl. by rewrite omap_app. }
  destruct r; [done|]. split; intros _; [|by right]. by right.
Qed.

Lemma install_runs c x : runs_one "install" (install E c x).
Proof.
  unfold install. do 3 runs_pre.
  apply runs_one_post; [apply launch_runs|]. pres_auto.
Qed.

Lemma uninstall_runs x : runs_one "uninstall" (uninstall E x).
Proof.
  unfold uninstall. do 7 runs_pre.
  apply runs_one_post; [apply launch_runs|]. pres_auto.
Qed.

Lemma disable_runs x : runs_one "disable" (disable E x false).
Proof.
  unfold disable. apply runs_one_post; [|pres_auto].
  apply runs_one_except; [|intros e s; cbn [negb]; wp_step; reflexivity].
  unfold disable_extension. do 3 runs_pre.
  apply runs_one_post; [apply launch_runs|]. pres_auto.
Qed.

Lemma update_runs a b x cs : runs_one "update" (update E a b x cs).
Proof.
  unfold update. runs_pre.
  apply runs_one_except.
  - do 3 runs_pre.
    apply runs_one_post; [apply launch_runs|]. pres_auto.
  - intros e s. wp_step. eapply wp_mono; [apply (pres_wp quietly); auto with pres|..]; [|done].
    intros [] s' H. by wp_step.
Qed.

(** [enable] runs the enable command once; it may fail after it. *)
Lemma enable_runs x c : runs_one "enable" (enable E x c).
Proof.
  unfold enable. apply runs_one_post; [|pres_auto]. apply runs_one_except.
  - unfold enable_extension. do 4 runs_pre.
    apply runs_one_post; [apply launch_runs|]. pres_auto.
  - intros e s. wp_step. wp_step. wp_step; wp_step; reflexivity.
Qed.
End runs.

(** ** The state after a successful enable *)

Section enabled_state.
Context (E : env) (Hfault : ∀ p, write_fault E p = None) (x : option ExtensionSettings).

(** The agent's own files of the handler can be written. *)
Definition clear_files (i : inst) (f : fs) : Prop :=
  unobstructed E i f ∧ isdir (get_conf_dir E i ++ [get_handler_state_file_name i x]) f = false.

Definition clear_state (s : ist) : Prop := clear_files (s_inst s) (w_fs (s_world s)).

(** The commands of the extension do not put a directory in their place. *)
Hypothesis commands_keep_clear : ∀ i tr c f r f' dt,
  run_command E tr c f = (r, f', dt) → clear_files i f → clear_files i f'.

Definition keeps (s s' : ist) : Prop := same_ext s s' ∧ (clear_state s → clear_state s').

Instance keeps_preorder : PreOrder keeps.
Proof.
  split; [intros s; by split|]. intros a b c [H1 H2] [H3 H4]. split; [by etrans|auto].
Qed.

Lemma clear_files_same i i' f : ext_handler i' = ext_handler i → clear_files i f → clear_files i' f.
Proof.
  unfold clear_files, unobstructed, get_conf_dir, get_base_dir, get_full_name, get_extension_full_name,
    get_handler_state_file_name, supports_multi_config. by intros ->.
Qed.

Lemma pure_keeps {A} (m : I A) : pres eq m → pres keeps m.
Proof. intros Hm s. specialize (Hm s). by rewrite <-Hm. Qed.

Lemma set_op_keeps op : pres keeps (on_inst (set_op op)).
Proof. apply pres_modify. intros s. split; [done|]. by apply clear_files_same. Qed.

Lemma cgroup_keeps op t : pres keeps (cgroup op t).
Proof. intros s. by split. Qed.

Lemma launch_keeps cmd name timeout code env : pres keeps (launch_command E cmd name timeout code env x).
Proof.
  intros s. unfold launch_command, mbind, M_bind, self, files, gets, id. cbv beta iota.
  destruct (isdir _ _); [|by split]. cbn [negb].
  destruct (write_fault E _) as [[b e]|]; [by split|]. destruct cmd; try by split.
  unfold except, catch, on_world, zoom, start_extension_command.
  destruct (run_command E _ _ _) as [[r f] dt] eqn:Hr.
  assert (keeps s (mkIst (s_inst s) (mkWorld f (w_now (s_world s) + dt)
            (w_trace (s_world s) ++ [ECommand (mkCommand (get_full_name (s_inst s) None)
               (path_str (get_base_dir E (s_inst s)) +:+ "/" +:+ lstrip_slash s0) name timeout
               (command_environment E (s_inst s) x env) code)]) (w_ext_validation_disabled (s_world s))))) as Hk.
  { split; [done|]. intros Hc. by eapply commands_keep_clear. }
  destruct r; simpl; [exact Hk|]. destruct (isinstance _ _); exact Hk.
Qed.

Lemma set_extension_state_keeps v : pres keeps (set_extension_state E x v).
Proof.
  intros s. split; [apply (set_extension_state_quietly E x v s)|]. intros [Hu Hd].
  assert (wp (set_extension_state E x v) (λ _ s', clear_state s') (λ _ _, False) s) as H.
  { unfold set_extension_state. wp_step. wp_step.
    eapply wp_mono; [apply (set_state_writes E Hfault); [apply Hu|exact Hd]|..]; [|done].
    intros [] s' [Hi Hw]. unfold clear_state. rewrite Hi. split; [by eapply wrote_unobstructed|].
    destruct Hw as ([t Ht] & _). unfold isdir. by rewrite Ht. }
  unfold wp in H. by destruct (set_extension_state E x v s) as [[]].
Qed.

Lemma enable_extension_keeps c : pres keeps (enable_extension E x c).
Proof.
  pose proof (pure_keeps _ (load_manifest_pure E)).
  pose proof (λ A (f : inst → A), pure_keeps _ (self_pure f)).
  pose proof set_op_keeps. pose proof cgroup_keeps. pose proof launch_keeps.
  pose proof set_extension_state_keeps.
  unfold enable_extension, set_extension_resource_limits. pres_auto.
Qed.

Lemma enable_sets_state c s :
  clear_state s →
  wp (enable E x c)
    (λ _ s', reads E ExtHandlerState.Enabled
               (λ h, hs_status h = JStr ExtHandlerStatusValue.ready ∧ hs_code h = JInt 0) s')
    (λ _ _, True) s.
Proof.
  intros Hc. unfold enable. wp_step. wp_step.
  eapply wp_mono; [apply (pres_wp keeps), enable_extension_keeps|..].
  - intros [] s1 [_ Hk]. eapply wp_mono; [apply (set_state_and_status_read E Hfault)|..]; [|by intros [] s2 [_ ?]|done].
    apply (Hk Hc).
  - intros e s1 _. split; [|done]. intros _. wp_step. wp_step. by wp_step; wp_step.
Qed.
End enabled_state.

(** When [enable] returns, the handler's state file says [Enabled] and its status file
    says [Ready] with code 0, whatever the extension's command did in between, provided
    the disk takes writes and the command leaves room for the two files. *)
Theorem enable_records_state (E : env) x c (s : ist) :
  (∀ p, write_fault E p = None) →
  (∀ i tr cmd f r f' dt, run_command E tr cmd f = (r, f', dt) → clear_files E x i f → clear_files E x i f') →
  clear_state E x s →
  wp (enable E x c)
    (λ _ s', reads E ExtHandlerState.Enabled
               (λ h, hs_status h = JStr ExtHandlerStatusValue.ready ∧ hs_code h = JInt 0) s')
    (λ _ _, True) s.
Proof. intros H1 H2 H3. by apply enable_sets_state. Qed.

Lemma enable_records_state_witness :
  wp (enable sample_env (Some (sample_settings 3 1)) None)
    (λ _ s', reads sample_env ExtHandlerState.Enabled
               (λ h, hs_status h = JStr ExtHandlerStatusValue.ready ∧ hs_code h = JInt 0) s')
    (λ _ _, True) (sample_state "enabled") ∧
  is_ok (enable sample_env (Some (sample_settings 3 1)) None (sample_state "enabled")).1 = true.
Proof.
  split; [|vm_compute; reflexivity]. apply enable_records_state.
  - reflexivity.
  - intros i tr cmd f r f' dt [= <- <- <-]. done.
  - split; [|vm_compute; reflexivity]. split; [|split; vm_compute; reflexivity]. split; [discriminate|].
    apply Forall_forall, (bool_decide_unpack _). vm_compute; exact Logic.I.
Defined.
