(* ===== verification/Download.v ===== *)
(** * Downloading and validating an extension package

    [WireClient.download_zip_package] and its helpers (wire.py), the validation of the
    manifest's [signingInfo] (signature_validation_util.py), and [download] and
    [initialize] of [ExtHandlerInstance] (exthandlers.py).

    The network ([fetch_uri]), the extraction of ZIP files ([unzip]) and the openssl call
    ([validate_signature]) are parameters; a successful validation and every extraction
    are recorded in the trace, so that their order can be stated. *)
From S2P Require Import Prelude PyExn Json FlexVersion World Manifest RestApi ExtInstance ExtCommands.
From Stdlib Require Import Ascii.

(** [SignatureValidationError] and [ManifestValidationError] *)
Definition validation_error (c : exn_class) (msg : string) : exn := agent_error c msg None (-1).

Section download.
Context (E : env).

(** [validate_signature], recording its success *)
Definition check_signature (package : path) (signature name : string) : M world exn unit := λ w,
  match validate_signature E package signature name (w_fs w) with
  | Ok _ => (Ok tt, log_event (EVerified package signature) w)
  | Err e => (Err e, w)
  end.

(** [zipfile.ZipFile(package).extractall(target)], recorded when it starts writing *)
Definition extract (package target : path) : M world exn unit := λ w,
  let '(r, f) := unzip E package target (w_fs w) in
  (r, log_event (EExtracted package target) (with_fs (λ _, f) w)).

(** [cleanup_package_with_invalid_signature] *)
Definition cleanup_package_with_invalid_signature (package : path) : M world exn unit :=
  except Exception_ (remove_file (write_fault E) package) (λ _, mret tt).

(** [_try_expand_zip_package] *)
Definition try_expand_zip_package (target_file target_directory : path) : M world exn unit :=
  finally
    (except Exception_
       (extract target_file target_directory)
       (λ e,
          has_dir ← gets (λ w, exists_path target_directory (w_fs w));
          when has_dir (except Exception_ (rmtree (write_fault E) target_directory) (λ _, mret tt)) ;;
          raise e))
    (except Exception_ (remove_file (write_fault E) target_file) (λ _, mret tt)).

(** The [on_downloaded] closure of [download_zip_package] *)
Definition on_downloaded (package_name : string) (target_file target_directory : path)
    (signature : string) (ignore_signature_validation_errors : bool) : M world exn unit :=
  validation_error ←
    (if negb (String.eqb signature "") then
       except SignatureValidationError
         (check_signature target_file signature package_name ;; mret None)
         (λ ex, if negb ignore_signature_validation_errors
                then cleanup_package_with_invalid_signature target_file ;; raise ex
                else mret (Some ex))
     else mret None);
  try_expand_zip_package target_file target_directory ;;
  match validation_error with
  | Some ex => raise ex
  | None => mret tt
  end.

Definition download_one (uri : string) (target_file : path) : M world exn unit := λ w,
  let '(r, f, dt) := fetch_uri E (w_trace w) uri target_file (w_fs w) in
  (r, mkWorld f (w_now w + dt) (w_trace w) (w_ext_validation_disabled w)).

(** [_DOWNLOAD_TIMEOUT], in microseconds *)
Definition DOWNLOAD_TIMEOUT : Z := 5 * 60 * 1000000.

(** [_download_with_fallback_channel] over the shuffled URIs *)
Fixpoint download_with_fallback_channel (download_type : string) (start_time : Z) (uris : list string)
    (target_file : path) (downloaded : M world exn unit) (most_recent_error : string) : M world exn unit :=
  match uris with
  | [] => raise (agent_error ExtensionDownloadError
                   ("Failed to download " +:+ download_type +:+ " from all URIs. Last error: " +:+ most_recent_error)
                   None ErrorCodes.PluginManifestDownloadError)
  | uri :: uris' =>
      now ← gets w_now;
      if DOWNLOAD_TIMEOUT <? now - start_time then
        raise (agent_error ExtensionDownloadError
                 ("Timeout downloading " +:+ download_type +:+ ". Last error: " +:+ most_recent_error)
                 None ErrorCodes.PluginManifestDownloadError)
      else
        catch (download_one uri target_file ;; downloaded)
          (λ e, if isinstance e SignatureValidationError then raise e
                else if isinstance e Exception_ then
                  download_with_fallback_channel download_type start_time uris' target_file downloaded (e_msg e)
                else raise e)
  end.

Definition download_zip_package (package_name : string) (uris : list string)
    (target_file target_directory : path) (signature : string)
    (ignore_signature_validation_errors : bool) : M world exn unit :=
  start ← gets w_now;
  download_with_fallback_channel package_name start uris target_file
    (on_downloaded package_name target_file target_directory signature ignore_signature_validation_errors)
    "None".

(** ** [signingInfo] *)

(** [s.rsplit(".", 1)] *)
Fixpoint rsplit_dot (s : string) : option (string * string) :=
  match s with
  | EmptyString => None
  | String c s' =>
      match rsplit_dot s' with
      | Some (a, b) => Some (String c a, b)
      | None => if Ascii.eqb c "." then Some ("", s') else None
      end
  end.

Definition ext_text (e : Extension) : string := eh_name e +:+ "-" +:+ eh_version e.

Definition validate_attribute (e : Extension) (man_signing_info : json) (attribute extension_value : string)
    : res exn unit :=
  v ← json_get attribute man_signing_info;
  match v with
  | JNull => Err (validation_error ManifestValidationError
                    ("HandlerManifest.json does not contain attribute 'signingInfo." +:+ attribute
                     +:+ "' for extension '" +:+ ext_text e +:+ "'"))
  | JStr s =>
      if String.eqb (str_lower extension_value) (str_lower s) then Ok tt
      else Err (validation_error ManifestValidationError
                  ("expected extension " +:+ attribute +:+ " '" +:+ extension_value
                   +:+ "' does not match downloaded package " +:+ attribute +:+ " '" +:+ s
                   +:+ "' for extension '" +:+ ext_text e +:+ "'"))
  | j => Err (py_error AttributeError ("'" +:+ type_name j +:+ "' object has no attribute 'lower'"))
  end.

(** [validate_extension_manifest_signing_info]: any other exception is translated. *)
Definition validate_extension_manifest_signing_info (manifest : json) (e : Extension) : res exn unit :=
  let checks :=
    man_signing_info ← json_get "signingInfo" manifest;
    if is_null man_signing_info then
      Err (validation_error ManifestValidationError
             ("HandlerManifest.json does not contain 'signingInfo' for extension '" +:+ ext_text e +:+ "'"))
    else
      match rsplit_dot (eh_name e) with
      | None => Err (py_error ValueError "not enough values to unpack (expected 2, got 1)")
      | Some (ext_publisher, ext_type) =>
          _ ← validate_attribute e man_signing_info "type" ext_type;
          _ ← validate_attribute e man_signing_info "publisher" ext_publisher;
          validate_attribute e man_signing_info "version" (eh_version e)
      end in
  match checks with
  | Ok _ => Ok tt
  | Err x =>
      if isinstance x ManifestValidationError then Err x
      else if isinstance x Exception_ then
        Err (validation_error ManifestValidationError
               ("Error during manifest 'signingInfo' validation for extension '" +:+ ext_text e
                +:+ "'. Error: " +:+ e_msg x))
      else Err x
  end.

(** ** [ExtHandlerInstance.download] *)

Definition ext_signature_validation_enabled (w : world) : bool :=
  ext_validation_configured E (w_now w) && negb (w_ext_validation_disabled w).

(** [_handle_signature_validation_error] *)
Definition handle_signature_validation_error (ex : exn) (ignore_errors : bool) (package_file : option path)
    : I unit :=
  if negb ignore_errors then
    match package_file with
    | Some p => on_world (cleanup_package_with_invalid_signature p)
    | None => mret tt
    end ;; raise ex
  else
    when (isinstance ex SignatureValidationTimeoutError) (on_world (modify disable_ext_validation)).

(** [_unzip_extension_package]; the errors of the clean-up itself propagate. *)
Definition unzip_extension_package (source_file target_directory : path) : I bool :=
  except Exception_
    (on_world (extract source_file target_directory) ;; mret true)
    (λ _,
       on_world (remove_file (write_fault E) source_file) ;;
       has_dir ← files (exists_path target_directory);
       when has_dir (on_world (rmtree (write_fault E) target_directory)) ;;
       mret false).

(** The branch for a package that is already on disk: whether it was extracted, and
    whether its signature was found valid *)
Definition use_existing_package (package_file : path) (should_validate ignore_errors : bool) : I (bool * bool) :=
  i ← self id;
  succeeded ←
    (if should_validate then
       except SignatureValidationError
         (on_world (check_signature package_file (eh_encoded_signature (ext_handler i)) (get_full_name i None)) ;;
          mret true)
         (λ ex, handle_signature_validation_error ex ignore_errors (Some package_file) ;; mret false)
     else mret false);
  expanded ← unzip_extension_package package_file (get_base_dir E i);
  mret (expanded, if (expanded : bool) then succeeded else false).

(** The branch that downloads the package *)
Definition fetch_package (p : ExtHandlerPackage) (package_file : path) (should_validate ignore_errors : bool)
    (succeeded : bool) : I bool :=
  i ← self id;
  let signature := if should_validate then eh_encoded_signature (ext_handler i) else "" in
  except SignatureValidationError
    (on_world (download_zip_package (get_full_name i None) (pkg_uris p) package_file (get_base_dir E i)
                 signature ignore_errors) ;;
     mret (if should_validate then true else succeeded))
    (λ ex, handle_signature_validation_error ex ignore_errors None ;; mret false).

(** The validation of [signingInfo] at the end of [download] *)
Definition validate_signing_info (ignore_errors succeeded : bool) : I unit :=
  i ← self id;
  except ManifestValidationError
    (man ← load_manifest E;
     lift (validate_extension_manifest_signing_info man (ext_handler i)) ;;
     on_inst (set_signature_validated (JBool succeeded)))
    (λ ex, if negb ignore_errors then raise ex else mret tt).

(** [download] *)
Definition download (ignore_errors : bool) : I unit :=
  on_inst (set_op "Download") ;;
  i ← self id;
  match pkg i with
  | None => raise (agent_error ExtensionDownloadError "No package uri found" None (-1))
  | Some p =>
      match pkg_uris p with
      | [] => raise (agent_error ExtensionDownloadError "No package uri found" None (-1))
      | _ =>
          let package_file := lib_dir E ++ [get_extension_package_zipfile_name i] in
          let signed := negb (String.eqb (eh_encoded_signature (ext_handler i)) "") in
          if negb ignore_errors && negb signed then
            raise (validation_error SignatureValidationError
                     ("Signature validation is required for extension '" +:+ get_full_name i None
                      +:+ "', but no signature was provided in the goal state."))
          else
            enabled ← gets (λ s, ext_signature_validation_enabled (s_world s));
            let should_validate := if negb ignore_errors then true else enabled && signed in
            already ← files (exists_path package_file);
            '(package_exists, succeeded) ←
              (if (already : bool) then use_existing_package package_file should_validate ignore_errors
               else mret (false, false));
            succeeded ← (if (package_exists : bool) then mret succeeded
                         else fetch_package p package_file should_validate ignore_errors succeeded);
            when should_validate (validate_signing_info ignore_errors succeeded) ;;
            on_inst (set_pkg_file (Some package_file))
      end
  end.

(** ** [ExtHandlerInstance.initialize] *)

(** Adding the execute permission to the files is not modelled: permissions are not part
    of the file system.  [remove_bom] is the identity on text without a byte order mark. *)
Definition initialize : I unit :=
  i ← self id;
  f ← files id;
  match search_file (get_base_dir E i) "HandlerManifest.json" f with
  | None => raise (agent_error ExtensionDownloadError "HandlerManifest.json not found" None (-1))
  | Some man_file =>
      except OSError
        (c ← lift (read_file man_file f);
         on_world (write_file (write_fault E) (get_manifest_file E i) c))
        (λ e, on_world (clean_ioerror (write_fault E) e [Some (get_base_dir E i); pkg_file i]) ;;
              raise (agent_error ExtensionDownloadError "Failed to save HandlerManifest.json" (Some e) (-1))) ;;
      man ← load_manifest E;
      _ ← lift (report_invalid_boolean_properties man);
      ensure_consistent_data_for_mc E ;;
      except OSError
        (on_world (mkdir (write_fault E) (get_status_dir E i)) ;;
         on_world (mkdir (write_fault E) (get_conf_dir E i)) ;;
         when (telemetry_pipeline_supported E)
           (on_world (mkdir (write_fault E) (get_extension_events_dir E i))))
        (λ e, on_world (clean_ioerror (write_fault E) e [Some (get_base_dir E i); pkg_file i]) ;;
              raise (agent_error ExtensionDownloadError
                       ("Failed to initialize extension '" +:+ get_full_name i None +:+ "'") (Some e) (-1))) ;;
      create_handler_env E ;;
      man2 ← load_manifest E;
      limits ← lift (get_resource_limits man2);
      _ ← lift (get_extension_slice_cpu_quota limits);
      set_extension_resource_limits E
  end.
End download.

(** ** Extraction follows validation

    [verified sig evs]: in [evs] every extraction of a package comes right after the
    validation of that package against the signature [sig]. *)
Definition verified (sig : string) (evs : list event) : Prop :=
  ∀ pre package target post, evs = pre ++ EExtracted package target :: post →
  ∃ pre', pre = pre' ++ [EVerified package sig].

Lemma verified_app sig a b : verified sig a → verified sig b → verified sig (a ++ b).
Proof.
  intros Ha Hb pre p t post Heq. symmetry in Heq.
  apply app_eq_inv in Heq as [(k & -> & Heq)|(k & -> & Heq)].
  - destruct (Hb _ _ _ _ Heq) as [pre' ->]. exists (a ++ pre'). by rewrite app_assoc.
  - destruct k as [|x k]; simpl in Heq.
    + destruct (Hb [] p t post) as [pre' H]; [done|]. by destruct pre'.
    + injection Heq as <- ->. by apply (Ha pre p t k).
Qed.

Lemma verified_single sig e : (∀ p t, e ≠ EExtracted p t) → verified sig [e].
Proof. intros He [|x pre] p t post Heq; simplify_eq/=; [|by destruct pre].
  exfalso. by eapply He.
Qed.

#[export] Instance verified_trace sig : TraceProp (verified sig).
Proof.
  split.
  - intros pre p t post Heq. by destruct pre.
  - apply verified_app.
  - intros. by apply verified_single.
  - intros. by apply verified_single.
Qed.

Section security.
Context (E : env).

(** What is documented of the openssl wrapper: it raises only [SignatureValidationError]. *)
Definition validator_documented : Prop :=
  ∀ p sig n f e, validate_signature E p sig n f = Err e → isinstance e SignatureValidationError = true.

Section enforced.
Context (sig : string) (Hsig : sig ≠ "").
Notation G := (grows (verified sig)).

Lemma cleanup_package_grows p : pres G (cleanup_package_with_invalid_signature E p).
Proof. unfold cleanup_package_with_invalid_signature. pres_auto. Qed.
Hint Resolve cleanup_package_grows : pres.

Lemma download_one_grows u p : pres G (download_one E u p).
Proof.
  intros w. unfold download_one. destruct (fetch_uri _ _ _ _ _) as [[r f] dt].
  by apply grows_same; [apply _|].
Qed.
Hint Resolve download_one_grows : pres.

(** Extraction right after validation keeps the trace verified, whether it succeeds or
    raises. *)
Lemma extract_after_verify p t w :
  wp (extract E p t) (λ _ w', G w w') (λ _ w', G w w') (log_event (EVerified p sig) w).
Proof.
  unfold wp, extract. set (w1 := log_event _ w). destruct (unzip E p t (w_fs w1)) as [r f].
  assert (G w (log_event (EExtracted p t) (with_fs (λ _, f) w1))) as HG.
  { exists [EVerified p sig; EExtracted p t]. split; [simpl; by rewrite <-app_assoc|].
    intros pre q u post Heq. destruct pre as [|x [|y pre]]; simplify_eq/=; [by exists []|].
    by destruct pre. }
  by destruct r.
Qed.

Lemma try_expand_after_verify p t w :
  wp (try_expand_zip_package E p t) (λ _ w', G w w') (λ _ w', G w w') (log_event (EVerified p sig) w).
Proof.
  unfold try_expand_zip_package.
  assert (∀ w', G w w' → wp (except Exception_ (remove_file (write_fault E) p) (λ _, mret tt))
            (λ _ w'', G w w'') (λ _ w'', G w w'') w') as Hfin.
  { intros w' Hw'. apply (pres_wp_from G); [pres_auto|done]. }
  apply wp_finally, wp_except. eapply wp_mono; [apply extract_after_verify|..].
  - intros [] w' Hw'. by apply Hfin.
  - intros e w' Hw'. split; [|by intros; apply Hfin]. intros _.
    eapply wp_mono; [apply (pres_wp_from G); [pres_auto|exact Hw']|..];
      intros ? w''; intros; by apply Hfin.
Qed.

(** The trace grew by verified extractions and the package [p] was validated. *)
Definition validated (p : path) (w w' : world) : Prop :=
  ∃ evs, w_trace w' = w_trace w ++ evs ∧ verified sig evs ∧ EVerified p sig ∈ evs.

Lemma grows_validated p w1 w2 w3 : G w1 w2 → validated p w2 w3 → validated p w1 w3.
Proof.
  intros (e1 & H1 & P1) (e2 & H2 & P2 & Hin). exists (e1 ++ e2).
  rewrite H2, H1, app_assoc. split; [done|]. split; [by apply tp_app|]. set_solver.
Qed.

Lemma validated_grows p w1 w2 w3 : validated p w1 w2 → G w2 w3 → validated p w1 w3.
Proof.
  intros (e1 & H1 & P1 & Hin) (e2 & H2 & P2). exists (e1 ++ e2).
  rewrite H2, H1, app_assoc. split; [done|]. split; [by apply tp_app|]. set_solver.
Qed.

Lemma after_verify_validated p w w' :
  G w w' → G (log_event (EVerified p sig) w) w' ∨ (∃ evs, w_trace w' = w_trace w ++ EVerified p sig :: evs) →
  validated p w w'.
Proof.
  intros (e1 & H1 & P1) Hv. exists e1. split; [done|]. split; [done|]. destruct Hv as [(e2 & H2 & _)|(e2 & H2)].
  - rewrite H2 in H1. simpl in H1. rewrite <-app_assoc in H1. simplify_list_eq. by left.
  - rewrite H2 in H1. simplify_list_eq. by left.
Qed.

(** Code that starts after the validation event keeps it in the trace. *)
Definition any_trace : list event → Prop := λ _, True.
#[local] Instance any_trace_prop : TraceProp any_trace.
Proof. by split. Qed.

Lemma extract_any p t : pres (grows any_trace) (extract E p t).
Proof.
  intros w. unfold extract. destruct (unzip _ _ _ _) as [r f]. exists [EExtracted p t]. done.
Qed.
#[local] Hint Resolve extract_any : pres.

Lemma try_expand_any p t : pres (grows any_trace) (try_expand_zip_package E p t).
Proof. unfold try_expand_zip_package. pres_auto. Qed.

Lemma validated_intro p w w' :
  G w w' → grows any_trace (log_event (EVerified p sig) w) w' → validated p w w'.
Proof.
  intros HG (evs & Hw & _). apply after_verify_validated; [done|]. right. exists evs.
  rewrite Hw. simpl. by rewrite <-app_assoc.
Qed.

Lemma wp_and {S A} (m : M S exn A) (Q Q' : A → S → Prop) (R R' : exn → S → Prop) s :
  wp m Q R s → wp m Q' R' s → wp m (λ a s', Q a s' ∧ Q' a s') (λ e s', R e s' ∧ R' e s') s.
Proof. unfold wp. by destruct (m s) as [[a|e] s']. Qed.

Lemma on_downloaded_validated name p t w :
  wp (on_downloaded E name p t sig false) (λ _ w', validated p w w') (λ _ w', G w w') w.
Proof.
  unfold on_downloaded.
  rewrite (proj2 (String.eqb_neq sig "")) by done. cbn [negb]. wp_step. apply wp_except. wp_step.
  unfold wp at 1, check_signature. destruct (validate_signature E p sig name (w_fs w)) as [[]|e].
  - wp_step. wp_step.
    eapply wp_mono; [apply wp_and; [apply try_expand_after_verify|apply (pres_wp (grows any_trace)), try_expand_any]|..].
    + intros [] w' [H1 H2]. wp_step. by apply validated_intro.
    + by intros e w' [H1 _].
  - split; [|intros; reflexivity]. intros _. cbn [negb]. wp_step.
    eapply wp_mono; [apply (pres_wp G); pres_auto|..]; [|done]. intros [] w' Hw'. by wp_step.
Qed.

Lemma fallback_channel_validated ty st us p d err w0 w :
  G w0 w →
  (∀ w, wp d (λ _ w', validated p w w') (λ _ w', G w w') w) →
  wp (download_with_fallback_channel E ty st us p d err)
    (λ _ w', validated p w0 w') (λ _ w', G w0 w') w.
Proof.
  intros Hw Hd. revert err w Hw. induction us as [|u us IH]; intros err w Hw; simpl.
  { by wp_step. }
  wp_step. wp_step. wp_step; [by wp_step|]. wp_step. wp_step.
  assert (∀ e w', G w0 w' → wp (if isinstance e SignatureValidationError then raise e
            else if isinstance e Exception_
                 then download_with_fallback_channel E ty st us p d (e_msg e) else raise e)
            (λ _ w', validated p w0 w') (λ _ w', G w0 w') w') as Hh.
  { intros e w' Hw'. wp_step; [by wp_step|]. wp_step; [by apply IH|by wp_step]. }
  eapply wp_mono; [apply (pres_wp_from G); [apply download_one_grows|exact Hw]|..]; [|auto].
  intros [] w' Hw'. eapply wp_mono; [apply Hd|..].
  - intros [] w'' H. by eapply grows_validated.
  - intros e w'' H. apply Hh. by etrans.
Qed.

Lemma download_zip_package_validated name us p t w :
  wp (download_zip_package E name us p t sig false) (λ _ w', validated p w w') (λ _ w', G w w') w.
Proof.
  unfold download_zip_package. wp_step. wp_step.
  apply fallback_channel_validated; [reflexivity|]. intros. apply on_downloaded_validated.
Qed.

(** ** The instance *)

Notation GI := (grows_i (verified sig)).

Lemma unzip_after_verify p t s :
  let s1 := mkIst (s_inst s) (log_event (EVerified p sig) (s_world s)) in
  wp (unzip_extension_package E p t)
    (λ _ s', validated p (s_world s) (s_world s') ∧ s_inst s' = s_inst s) (λ _ s', GI s s') s1.
Proof.
  intros s1. unfold unzip_extension_package. wp_step. wp_step. wp_step. simpl.
  eapply wp_mono; [apply wp_and; [apply extract_after_verify|apply (pres_wp (grows any_trace)), extract_any]|..].
  - intros [] w' [H1 H2]. wp_step. split; [by apply validated_intro|done].
  - intros e w' [H1 H2]. pose proof (validated_intro _ _ _ H1 H2) as Hv. split; [|done]. intros _.
    wp_step. wp_step. simpl.
    eapply wp_mono; [apply (pres_wp G); eauto with pres typeclass_instances|..].
    2:{ intros e' w'' H. unfold grows_i. simpl. by etrans. }
    intros [] w'' Hw''. wp_step. wp_step. wp_step. apply wp_when; intros _.
    + wp_step. simpl. eapply wp_mono; [apply (pres_wp G); eauto with pres typeclass_instances|..].
      * intros [] w3 Hw3. wp_step. split; [|done]. simpl.
        eapply validated_grows; [exact Hv|]. by etrans.
      * intros e' w3 Hw3. unfold grows_i. simpl. etrans; [exact H1|]. by etrans.
    + wp_step. split; [|done]. simpl. by eapply validated_grows.
Qed.

Lemma use_existing_enforced p s :
  eh_encoded_signature (ext_handler (s_inst s)) = sig →
  wp (use_existing_package E p true false)
    (λ r s', r.1 = r.2 ∧ s_inst s' = s_inst s ∧
             (if r.1 then validated p (s_world s) (s_world s') else GI s s'))
    (λ _ s', GI s s') s.
Proof.
  intros Hs. unfold use_existing_package. wp_step. wp_step. wp_step. wp_step. wp_step. wp_step.
  unfold id. rewrite Hs. unfold wp at 1, check_signature.
  destruct (validate_signature E p sig _ _) as [[]|e]; simpl.
  - wp_step. wp_step.
    eapply wp_mono; [apply (unzip_after_verify p)|..]; [|done].
    intros b s' [H1 H2]. wp_step. destruct b; [done|]. simpl. split_and!; [done..|].
    destruct H1 as (evs & ? & ? & _). by exists evs.
  - split; [|intros; unfold grows_i; simpl; reflexivity]. intros _. wp_step.
    unfold handle_signature_validation_error. cbn [negb]. wp_step. wp_step.
    eapply wp_mono; [apply (pres_wp G); eauto with pres|..]; [|by intros].
    intros [] w' Hw'. by wp_step.
Qed.

Lemma fetch_package_enforced q p b s :
  eh_encoded_signature (ext_handler (s_inst s)) = sig →
  wp (fetch_package E q p true false b)
    (λ r s', r = true ∧ s_inst s' = s_inst s ∧ validated p (s_world s) (s_world s'))
    (λ _ s', GI s s') s.
Proof.
  intros Hs. unfold fetch_package. wp_step. wp_step. wp_step. wp_step. wp_step. unfold id. rewrite Hs.
  eapply wp_mono; [apply download_zip_package_validated|..].
  - intros [] w' Hw'. by wp_step.
  - intros e w' Hw'. split; [|done]. intros _. wp_step.
    unfold handle_signature_validation_error. cbn [negb]. wp_step. wp_step. by wp_step.
Qed.

(** Outside the branch just above, the agent never overrides a failed manifest check. *)
Lemma validate_signing_info_enforced b s :
  wp (validate_signing_info E false b)
    (λ _ s', signature_validated (s_inst s') = JBool b ∧ s_world s' = s_world s ∧
             ext_handler (s_inst s') = ext_handler (s_inst s))
    (λ _ s', s_world s' = s_world s) s.
Proof.
  unfold validate_signing_info. wp_step. wp_step. wp_step. wp_step.
  eapply (wp_mono _ (λ _ s', s' = s) _ (λ _ s', s' = s)).
  { unfold load_manifest. repeat wp_step; done. }
  - intros man s' ->. wp_step. wp_step.
    + wp_step. done.
    + split; [|done]. intros _. cbn [negb]. by wp_step.
  - intros e s' ->. split; [|done]. intros _. cbn [negb]. by wp_step.
Qed.
End enforced.

Lemma download_verified (s : ist) :
  let e := ext_handler (s_inst s) in
  let sig := eh_encoded_signature e in
  let package_file := lib_dir E ++ [get_extension_package_zipfile_name (s_inst s)] in
  wp (download E false)
    (λ _ s', sig ≠ "" ∧ validated sig package_file (s_world s) (s_world s') ∧
             signature_validated (s_inst s') = JBool true)
    (λ _ s', grows (verified sig) (s_world s) (s_world s')) s.
Proof.
  intros e sig package_file. unfold download. wp_step. wp_step. wp_step. wp_step. simpl.
  wp_step; [|wp_step; unfold grows_i; simpl; reflexivity]. wp_step; [wp_step; simpl; reflexivity|].
  fold e. fold sig. unfold id. simpl.
  destruct (String.eqb_spec sig "") as [Hs|Hs]; simpl.
  { wp_step. simpl. reflexivity. }
  wp_step. wp_step. wp_step. wp_step. wp_step.
  set (s1 := mkIst _ (s_world s)).
  set (pf := lib_dir E ++ _).
  assert (∀ ex suc s2,
    s_inst s2 = s_inst s1 → ex = suc →
    (if (ex : bool) then validated sig pf (s_world s1) (s_world s2) else grows_i (verified sig) s1 s2) →
    wp (suc' ← (if ex then mret suc else fetch_package E e0 pf true false suc);
        when true (validate_signing_info E false suc') ;; on_inst (set_pkg_file (Some pf)))
      (λ _ s', sig ≠ "" ∧ validated sig package_file (s_world s) (s_world s') ∧
               signature_validated (s_inst s') = JBool true)
      (λ _ s', grows (verified sig) (s_world s) (s_world s')) s2) as Hrest.
  { intros ex suc s2 Hi2 <- Hex. wp_step.
    eapply (wp_mono _ (λ r s3, r = true ∧ validated sig pf (s_world s1) (s_world s3)) _
              (λ _ s3, grows (verified sig) (s_world s) (s_world s3))).
    - destruct ex; [by wp_step|].
      eapply wp_mono; [apply (fetch_package_enforced sig Hs)|..].
      + by rewrite Hi2.
      + intros r s3 (-> & _ & Hv). split; [done|]. by eapply grows_validated.
      + intros x s3 H3. simpl. etrans; [exact Hex|exact H3].
    - intros r s3 [-> Hv]. cbn [when]. wp_step.
      eapply wp_mono; [apply validate_signing_info_enforced|..].
      + intros [] s4 (H1 & H2 & _). wp_step. simpl. split; [done|]. split; [|done].
        rewrite H2. exact Hv.
      + intros x s4 H4. simpl. rewrite H4. destruct Hv as (evs & ? & ? & _). by exists evs.
    - done. }
  wp_step.
  - eapply wp_mono; [apply (use_existing_enforced sig Hs pf s1)|..]; [done| |done].
    intros [ex suc] s2 (H1 & H2 & H3). simpl in *. by apply Hrest.
  - wp_step. apply (Hrest false false s1); [done..|]. unfold grows_i. reflexivity.
Qed.

(** C3: when signature errors may not be ignored (the policy requires a signature),
    [download] extracts a package only right after that very file was validated against
    the signature of the goal state, on every path including failures; and when it
    returns, the goal state had a signature, the package was validated, and the instance
    records the signature as validated. *)
Theorem download_extracts_only_validated (s : ist) :
  let e := ext_handler (s_inst s) in
  let sig := eh_encoded_signature e in
  let package_file := lib_dir E ++ [get_extension_package_zipfile_name (s_inst s)] in
  wp (download E false)
    (λ _ s', sig ≠ "" ∧ validated sig package_file (s_world s) (s_world s') ∧
             signature_validated (s_inst s') = JBool true)
    (λ _ s', grows (verified sig) (s_world s) (s_world s')) s.
Proof. apply download_verified. Qed.
End security.

#[export] Instance verified_any sig : AnyCommand (verified sig).
Proof. intros c. by apply verified_single. Qed.

Lemma initialize_grows (E : env) P `{!TraceProp P} : pres (grows_i P) (initialize E).
Proof. unfold initialize. pres_auto. Qed.
#[export] Hint Resolve initialize_grows : pres.

(** ** The exceptions of a download *)

(** What the environment raises does not end the process. *)
Class OrdinaryEnv (E : env) : Prop := {
  ordinary_write p b e : write_fault E p = Some (b, e) → ordinary e;
  ordinary_fetch tr uri p f e f' dt : fetch_uri E tr uri p f = (Err e, f', dt) → ordinary e;
  ordinary_unzip p d f e f' : unzip E p d f = (Err e, f') → ordinary e;
  ordinary_validate p s n f e : validate_signature E p s n f = Err e → ordinary e
}.

Section download_raises.
Context (E : env) `{!OrdinaryEnv E}.

Lemma extract_ordinary p d : raises ordinary (extract E p d).
Proof.
  intros w e. unfold extract. destruct (unzip E p d (w_fs w)) as [r f] eqn:Hu. simpl. intros ->. by eapply ordinary_unzip.
Qed.

Lemma check_signature_ordinary p s n : raises ordinary (check_signature E p s n).
Proof.
  intros w e. unfold check_signature. destruct (validate_signature E p s n (w_fs w)) eqn:Hv; [done|].
  intros [= <-]. by eapply ordinary_validate.
Qed.

Lemma remove_ordinary p : raises ordinary (remove_file (write_fault E) p).
Proof. apply remove_file_ordinary, ordinary_write. Qed.

Lemma rmtree_env_ordinary p : raises ordinary (rmtree (write_fault E) p).
Proof. apply rmtree_ordinary, ordinary_write. Qed.
Hint Resolve extract_ordinary check_signature_ordinary remove_ordinary rmtree_env_ordinary : raises.

Lemma cleanup_ordinary p : raises ordinary (cleanup_package_with_invalid_signature E p).
Proof. unfold cleanup_package_with_invalid_signature. raises_auto. Qed.

Lemma try_expand_ordinary p d : raises ordinary (try_expand_zip_package E p d).
Proof.
  unfold try_expand_zip_package. apply raises_finally; [|by raises_auto].
  apply (raises_except _ ordinary); [auto with raises|done|]. intros e He _. raises_auto.
Qed.

Lemma on_downloaded_ordinary n p d s i : raises ordinary (on_downloaded E n p d s i).
Proof.
  apply wp_raises. intros w. unfold on_downloaded. wp_step.
  eapply (wp_mono _ (λ o _, ∀ x, o = Some x → ordinary x) _ (λ e _, ordinary e)); [|intros o w1 Ho|done].
  - destruct (negb _); [|by wp_step]. apply wp_except. wp_step.
    eapply wp_mono; [apply (raises_wp ordinary), check_signature_ordinary|..].
    + intros [] w1 _. by wp_step.
    + intros e w1 He. split; [|done]. intros _. wp_step; [|wp_step; by intros x [= <-]].
      wp_step. eapply wp_mono; [apply (raises_wp ordinary), cleanup_ordinary| |done]. intros [] w2 _. by wp_step.
  - wp_step. eapply wp_mono; [apply (raises_wp ordinary), try_expand_ordinary| |done]. intros [] w2 _.
    destruct o as [x|]; wp_step; [|done]. by apply Ho.
Qed.

Lemma download_one_ordinary uri p : raises ordinary (download_one E uri p).
Proof.
  intros w e. unfold download_one. destruct (fetch_uri E _ uri p _) as [[r f] dt] eqn:Hf. simpl. intros ->.
  by eapply ordinary_fetch.
Qed.

Lemma download_zip_package_ordinary n uris p d s i : raises ordinary (download_zip_package E n uris p d s i).
Proof.
  unfold download_zip_package. apply raises_bind; [auto with raises|]. intros start. generalize "None".
  induction uris as [|u uris IH]; intros msg; simpl; [by raises_auto|].
  apply raises_bind; [auto with raises|]. intros now. destruct (_ <? _); [by raises_auto|].
  apply raises_catch.
  - apply raises_bind; [apply download_one_ordinary|]. intros _. apply on_downloaded_ordinary.
  - intros e He. raises_auto.
Qed.
End download_raises.
