(* ===== verification/ExtStatus.v ===== *)
(** * Status files of extensions (exthandlers.py)

    The status an extension reports in [status/<seq>.status]: finding the file, reading it
    with retries, validating and truncating its contents ([collect_ext_status]), and the
    placeholder files the agent writes on behalf of an extension
    ([create_status_file]). *)
From S2P Require Import Prelude PyExn Json TextUtil FlexVersion World Manifest RestApi ExtInstance Samples.
From Stdlib Require Import Ascii.

Module StatusValue.
Definition transitioning : string := "transitioning".
Definition warning : string := "warning".
Definition error : string := "error".
Definition success : string := "success".
Definition STRINGS : list string := [transitioning; warning; error; success].
End StatusValue.

Definition EXTENSION_TERMINAL_STATUSES : list string := [StatusValue.error; StatusValue.success].

(** [ExtensionStatusError] and its codes *)
Module StatusErr.
Definition CouldNotReadStatusFile : Z := 1.
Definition InvalidJsonFile : Z := 2.
Definition StatusFileMalformed : Z := 3.
Definition MaxSizeExceeded : Z := 4.
Definition FileNotExists : Z := 5.
End StatusErr.

Definition status_error (msg : string) (inner : option exn) (code : Z) : exn :=
  agent_error ExtensionStatusError msg inner code.

Definition MAX_STATUS_FILE_SIZE_IN_BYTES : Z := 128 * 1024.
Definition MAX_STATUS_MESSAGE_LENGTH : Z := 1024.
Definition MAX_SUBSTATUS_FIELD_LENGTH : Z := 10 * 1024.
Definition TRUNCATED_SUFFIX : string := " ... [TRUNCATED]".
Definition NUM_OF_STATUS_FILE_RETRIES : nat := 5.
Definition STATUS_FILE_RETRY_DELAY : Z := 2.

(** ** Parsing *)

(** [key not in obj] for the values a status document holds *)
Definition json_in (key : string) (obj : json) : res exn bool :=
  match obj with
  | JObj d => Ok (bool_decide (is_Some (dict_get key d)))
  | JArr l => Ok (existsb (λ j, match j with JStr s => String.eqb s key | _ => false end) l)
  | JStr s => Ok (str_contains key s)
  | _ => Err (py_error TypeError ("argument of type '" +:+ type_name obj +:+ "' is not iterable"))
  end.

Definition validate_has_key (obj : json) (key full_key_path : string) : res exn unit :=
  b ← json_in key obj;
  if (b : bool) then Ok tt
  else Err (status_error ("Invalid status format by extension: Missing " +:+ full_key_path +:+ " key")
              None StatusErr.StatusFileMalformed).

(** [val in ExtensionStatusValue.STRINGS] *)
Definition valid_status (val : json) : bool :=
  match val with JStr s => bool_decide (s ∈ StatusValue.STRINGS) | _ => false end.

Definition validate_in_range (val : json) (name : string) : res exn unit :=
  if valid_status val then Ok tt
  else Err (status_error ("Invalid value " +:+ py_str val +:+ " in range " +:+
              json_dumps (JArr (JStr <$> StatusValue.STRINGS)) +:+ " at the node " +:+ name)
              None StatusErr.StatusFileMalformed).

Definition parse_formatted_message (formatted_message : json) : res exn json :=
  if is_null formatted_message then Ok JNull
  else
    _ ← validate_has_key formatted_message "lang" "formattedMessage/lang";
    _ ← validate_has_key formatted_message "message" "formattedMessage/message";
    json_get "message" formatted_message.

Definition parse_ext_substatus (substatus : json) : res exn ExtensionSubStatus :=
  _ ← validate_has_key substatus "status" "substatus/status";
  st ← json_getitem "status" substatus;
  _ ← validate_in_range st "substatus/status";
  name ← json_get "name" substatus;
  status ← json_get "status" substatus;
  code ← json_get_default "code" (JInt 0) substatus;
  formatted_message ← json_get "formattedMessage" substatus;
  message ← parse_formatted_message formatted_message;
  Ok (mkSubStatus name status code message).

(** The loop over the substatus list; a value that is not a list cannot be iterated, an
    object iterates over its keys. *)
Fixpoint parse_substatus_items (acc : list ExtensionSubStatus) (l : list json)
    : list ExtensionSubStatus * option exn :=
  match l with
  | [] => (acc, None)
  | j :: l' =>
      if is_null j then parse_substatus_items acc l'
      else match parse_ext_substatus j with
           | Ok s => parse_substatus_items (acc ++ [s]) l'
           | Err e => (acc, Some e)
           end
  end.

Definition json_items (j : json) : res exn (list json) :=
  match j with
  | JNull => Ok []
  | JArr l => Ok l
  | JObj d => Ok (JStr <$> dict_keys d)
  | JStr s => Ok ((λ c, JStr (String c "")) <$> String.list_ascii_of_string s)
  | _ => Err (py_error TypeError ("'" +:+ type_name j +:+ "' object is not iterable"))
  end.

(** [parse_ext_status(ext_status, data)]: the fields assigned before an exception stay
    assigned. *)
Definition parse_ext_status (data : json) : M ExtensionStatus exn unit :=
  match data with
  | JNull => mret tt
  | JArr [] => mret tt
  | JArr (first :: _) =>
      lift (validate_has_key first "status" "status") ;;
      status_data ← lift (json_getitem "status" first);
      lift (validate_has_key status_data "status" "status/status") ;;
      st ← lift (json_getitem "status" status_data);
      let status := if valid_status st then st else JStr StatusValue.error in
      applied_time ← lift (json_get "configurationAppliedTime" status_data);
      operation ← lift (json_get "operation" status_data);
      code ← lift (json_get_default "code" (JInt 0) status_data);
      modify (λ x, mkStatus (xs_name x) applied_time operation status (xs_sequenceNumber x) code
                     (xs_message x) (xs_substatusList x)) ;;
      formatted_message ← lift (json_get "formattedMessage" status_data);
      message ← lift (parse_formatted_message formatted_message);
      modify (λ x, mkStatus (xs_name x) (xs_configurationAppliedTime x) (xs_operation x) (xs_status x)
                     (xs_sequenceNumber x) (xs_code x) message (xs_substatusList x)) ;;
      substatus_list ← lift (json_get_default "substatus" (JArr []) status_data);
      items ← lift (json_items substatus_list);
      acc ← gets xs_substatusList;
      let '(subs, err) := parse_substatus_items acc items in
      modify (λ x, mkStatus (xs_name x) (xs_configurationAppliedTime x) (xs_operation x) (xs_status x)
                     (xs_sequenceNumber x) (xs_code x) (xs_message x) subs) ;;
      match err with None => mret tt | Some e => raise e end
  | _ => raise (status_error ("The extension status must be an array: " +:+ str_take 4096 (py_str data))
                  None StatusErr.StatusFileMalformed)
  end.

(** ** Truncation *)

Definition str_slice (n : Z) (s : string) : string := str_take (Z.to_nat n) s.

(** [_truncate_message]: [None] for a field that is [None]; [len] of a field that is
    neither a text nor a container raises. *)
Definition truncate_message (field : json) (truncate_size : Z) : res exn (option (json * Z)) :=
  match field with
  | JNull => Ok None
  | JStr s =>
      let t := if str_len s <? truncate_size then s else str_slice truncate_size s +:+ TRUNCATED_SUFFIX in
      Ok (Some (JStr t, str_len t))
  | JArr l =>
      if Z.of_nat (length l) <? truncate_size then Ok (Some (field, Z.of_nat (length l)))
      else Err (py_error TypeError "can only concatenate list (not 'str') to list")
  | JObj d =>
      if Z.of_nat (length d) <? truncate_size then Ok (Some (field, Z.of_nat (length d)))
      else Err (py_error TypeError "unhashable type: 'slice'")
  | _ => Err (py_error TypeError ("object of type '" +:+ type_name field +:+ "' has no len()"))
  end.

(** [a, b = self._truncate_message(...)]: unpacking [None] raises. *)
Definition unpack_truncated (r : res exn (option (json * Z))) : res exn (json * Z) :=
  o ← r;
  match o with
  | Some p => Ok p
  | None => Err (py_error TypeError "cannot unpack non-iterable NoneType object")
  end.

(** [_process_substatus_list] *)
Fixpoint process_substatus_list (l : list ExtensionSubStatus) (current_status_size : Z)
    : res exn (list ExtensionSubStatus) :=
  match l with
  | [] => Ok []
  | s :: l' =>
      '(name, n1) ← unpack_truncated (truncate_message (ss_name s) MAX_SUBSTATUS_FIELD_LENGTH);
      '(message, n2) ← unpack_truncated (truncate_message (ss_message s) MAX_SUBSTATUS_FIELD_LENGTH);
      let size := current_status_size + n1 + n2 in
      if size <=? MAX_STATUS_FILE_SIZE_IN_BYTES then
        rest ← process_substatus_list l' size;
        Ok (mkSubStatus name (ss_status s) (ss_code s) message :: rest)
      else Ok []
  end.

(** ** Finding the status file *)

Definition is_word (c : ascii) : bool :=
  let n := nat_of_ascii c in
  is_digit c || bool_decide (65 ≤ n ≤ 90)%nat || bool_decide (97 ≤ n ≤ 122)%nat || bool_decide (n = 95%nat).

(** [((?P<ext_name>\w+)\.)*(?P<seq_no>\d+)\.settings] at the start of [s]: the greedy loop
    tries one more iteration first.  A run of word characters is followed by a dot only at
    its end, so that there is nothing else to backtrack over. *)
Fixpoint match_settings (fuel : nat) (ext_name : option string) (s : string)
    : option (option string * string) :=
  let here :=
    let '(d, r) := span is_digit s in
    if negb (String.eqb d "") && starts_with ".settings" r then Some (ext_name, d) else None in
  match fuel with
  | O => here
  | S fuel' =>
      let '(w, r) := span is_word s in
      match (if String.eqb w "" then None else strip_prefix "." r) with
      | Some r' => match match_settings fuel' (Some w) r' with Some x => Some x | None => here end
      | None => here
      end
  end.

(** [re.search]: the leftmost match.  The directory part of the path cannot take part, a
    slash being neither a word character nor a dot. *)
Fixpoint search_settings (s : string) : option (option string * string) :=
  match match_settings (String.length s) None s with
  | Some x => Some x
  | None => match s with EmptyString => None | String _ s' => search_settings s' end
  end.

(** [int(v)] *)
Definition py_int_signed (s : string) : res exn Z :=
  match strip_prefix "-" s with
  | Some r => if is_digits r then Ok (- int_of_digits r)
              else Err (py_error ValueError ("invalid literal for int() with base 10: '" +:+ s +:+ "'"))
  | None => py_int s
  end.

Definition int_of_json (j : json) : res exn Z :=
  match j with
  | JInt z => Ok z
  | JBool b => Ok (if b then 1 else 0)
  | JFloat l => py_int_signed (span (λ c, negb (Ascii.eqb c ".")) l).1
  | JStr s => py_int_signed s
  | _ => Err (py_error TypeError ("int() argument must be a string, a bytes-like object or a real number, not '"
                                  +:+ type_name j +:+ "'"))
  end.

Section status.
Context (E : env).

(** [_get_last_modified_seq_no_from_config_files] *)
Definition last_modified_seq_no (i : inst) (extension : option ExtensionSettings) (f : fs) : Z :=
  if supports_multi_config i && match extension with None => true | Some _ => false end then -1
  else
    let conf_dir := get_conf_dir E i in
    if negb (isdir conf_dir f) then -1
    else
      (foldl (λ '(seq_no, largest) item,
         match f !! (conf_dir ++ [item]), search_settings item with
         | Some (File _ mtime), Some (ext_name, d) =>
             if supports_multi_config i && negb (bool_decide (ext_name = es_name <$> extension))
             then (seq_no, largest)
             else if largest <? mtime then (int_of_digits d, mtime) else (seq_no, largest)
         | _, _ => (seq_no, largest)
         end) (-1, 0) (listdir conf_dir f)).1.

(** [get_status_file_path] *)
Definition get_status_file_path (i : inst) (extension : option ExtensionSettings) (f : fs)
    : res exn (Z * option path) :=
  from_gs ← match extension with
            | Some x =>
                if is_null (es_sequenceNumber x) then Ok None
                else match int_of_json (es_sequenceNumber x) with
                     | Ok z => Ok (Some z)
                     | Err e => if isinstance e ValueError then Ok None else Err e
                     end
            | None => Ok None
            end;
  let seq_no := match from_gs with
                | Some z => z
                | None => last_modified_seq_no i extension f
                end in
  let p :=
    if -1 <? seq_no then
      match extension with
      | Some x => if supports_multi_config i
                  then Some (get_status_dir E i ++ [es_name x +:+ "." +:+ pretty seq_no +:+ ".status"])
                  else Some (get_status_dir E i ++ [pretty seq_no +:+ ".status"])
      | None => if supports_multi_config i then None
                else Some (get_status_dir E i ++ [pretty seq_no +:+ ".status"])
      end
    else None in
  Ok (seq_no, p).

(** [create_status_file] *)
Definition create_status_file (extension : option ExtensionSettings) (status : string) (code : Z)
    (op : json) (message : string) (overwrite : bool) : I unit :=
  i ← self id;
  f ← files id;
  '(_, status_path) ← lift (get_status_file_path i extension f);
  match status_path with
  | None => mret tt
  | Some p =>
      present ← files (exists_path p);
      if overwrite || negb present then
        now ← gets (λ s, w_now (s_world s));
        let contents :=
          JArr [JObj [("version", JFloat "1.0"); ("timestampUTC", JStr (format_time E now));
                      ("status", JObj [("name", JStr (get_extension_full_name i extension));
                                       ("operation", op); ("status", JStr status); ("code", JInt code);
                                       ("formattedMessage",
                                         JObj [("lang", JStr "en-US");
                                               ("message", JStr (redact_sas_token message))])])]] in
        has_dir ← files (exists_path (parent_dir p));
        when (negb has_dir) (on_world (mkdir (write_fault E) (parent_dir p))) ;;
        on_world (write_file (write_fault E) p (json_content contents))
      else mret tt
  end.

(** ** Reading the status file *)

(** [_read_and_parse_json_status_file] *)
Definition read_and_parse_json_status_file (po : option path) (f : fs) : res exn (string * json) :=
  match po with
  | None => Err (py_error TypeError "stat: path should be string, bytes, os.PathLike or integer, not NoneType")
  | Some p =>
  if negb (exists_path p f) then
    Err (status_error ("Status file " +:+ path_str p +:+ " does not exist") None StatusErr.FileNotExists)
  else
    match read_file p f with
    | Err e => if isinstance e OSError
               then Err (status_error (e_msg e) (Some e) StatusErr.CouldNotReadStatusFile)
               else Err e
    | Ok c =>
        match c_json c with
        | Some j => Ok (c_text c, j)
        | None => Err (status_error ("Invalid JSON
 First 2000 Bytes of status file:
 " +:+ str_take 2000 (c_text c))
                         None StatusErr.InvalidJsonFile)
        end
    end
  end.

(** [_read_status_file]: [attempts] reads are left, with a pause between them. *)
Fixpoint read_status_file (attempts : nat) (p : option path) : M world exn (string * json) :=
  except Exception_
    (f ← gets w_fs; lift (read_and_parse_json_status_file p f))
    (λ e, match attempts with
          | O | S O => raise e
          | S n => sleep (background E) STATUS_FILE_RETRY_DELAY ;; read_status_file n p
          end).

(** ** [collect_ext_status] *)

Definition set_xs_message (m : json) (x : ExtensionStatus) : ExtensionStatus :=
  mkStatus (xs_name x) (xs_configurationAppliedTime x) (xs_operation x) (xs_status x)
    (xs_sequenceNumber x) (xs_code x) m (xs_substatusList x).
Definition set_xs_error (status code message : json) (x : ExtensionStatus) : ExtensionStatus :=
  mkStatus (xs_name x) (xs_configurationAppliedTime x) (xs_operation x) status
    (xs_sequenceNumber x) code message (xs_substatusList x).
Definition set_xs_substatus (l : list ExtensionSubStatus) (x : ExtensionStatus) : ExtensionStatus :=
  mkStatus (xs_name x) (xs_configurationAppliedTime x) (xs_operation x) (xs_status x)
    (xs_sequenceNumber x) (xs_code x) (xs_message x) l.

(** The status reported when the file cannot be read *)
Definition unreadable_status (i : inst) (x : ExtensionSettings) (seq_no : Z) (e : exn) : ExtensionStatus :=
  let xs := new_ext_status (es_name x) (JInt seq_no) in
  let full_name := get_full_name i (Some x) in
  if e_code e =? StatusErr.CouldNotReadStatusFile then
    set_xs_error (JStr StatusValue.error) (JInt ErrorCodes.PluginUnknownFailure)
      (JStr ("We couldn't read any status for " +:+ full_name +:+ " extension, for the sequence number "
             +:+ pretty seq_no +:+ ". It failed due to " +:+ e_msg e)) xs
  else if e_code e =? StatusErr.InvalidJsonFile then
    set_xs_error (JStr StatusValue.error) (JInt ErrorCodes.PluginSettingsStatusInvalid)
      (JStr ("The status reported by the extension " +:+ full_name +:+ "(Sequence number " +:+ pretty seq_no
             +:+ "), was in an incorrect format and the agent could not parse it correctly. Failed due to "
             +:+ e_msg e)) xs
  else if e_code e =? StatusErr.FileNotExists then
    set_xs_error (JStr StatusValue.transitioning) (JInt ErrorCodes.PluginSuccess)
      (JStr ("This status is being reported by the Guest Agent since no status file was reported by extension "
             +:+ get_extension_full_name i (Some x) +:+ ": " +:+ e_msg e)) xs
  else set_xs_error (JStr StatusValue.error) JNull (JStr "") xs.

(** The status reported for the contents of a file that was read *)
Definition parsed_status (i : inst) (x : ExtensionSettings) (seq_no : Z) (p : path)
    (data_str : string) (data : json) : res exn ExtensionStatus :=
  let '(r, xs) := parse_ext_status data (new_ext_status (es_name x) (JInt seq_no)) in
  let r := match r with
           | Ok _ =>
               if MAX_STATUS_FILE_SIZE_IN_BYTES <? str_len data_str then
                 Err (status_error
                        ("For Extension Handler " +:+ get_full_name i (Some x) +:+ " for the sequence number "
                         +:+ pretty seq_no +:+ ", the status file " +:+ path_str p +:+ " of size "
                         +:+ pretty (str_len data_str) +:+ " bytes is too big. Max Limit allowed is "
                         +:+ pretty MAX_STATUS_FILE_SIZE_IN_BYTES +:+ " bytes")
                        None StatusErr.MaxSizeExceeded)
               else Ok tt
           | Err e => Err e
           end in
  match r with
  | Ok _ => Ok xs
  | Err e =>
      if isinstance e ExtensionStatusError then
        if e_code e =? StatusErr.MaxSizeExceeded then
          '(message, field_size) ← unpack_truncated (truncate_message (xs_message xs) MAX_STATUS_MESSAGE_LENGTH);
          subs ← process_substatus_list (xs_substatusList xs) field_size;
          Ok (set_xs_substatus subs (set_xs_message message xs))
        else if e_code e =? StatusErr.StatusFileMalformed then
          Ok (set_xs_error (JStr StatusValue.error) (JInt ErrorCodes.PluginSettingsStatusInvalid)
                (JStr ("Could not get a valid status from the extension " +:+ get_full_name i (Some x)
                       +:+ ". Encountered the following error: " +:+ e_msg e)) xs)
        else Ok xs
      else Err e
  end.

Definition collect_ext_status (extension : option ExtensionSettings) : I (option ExtensionStatus) :=
  i ← self id;
  f ← files id;
  '(seq_no, ext_status_file) ← lift (get_status_file_path i extension f);
  match extension with
  | None => mret None
  | Some x =>
      if seq_no =? -1 then mret None
      else
        except ExtensionStatusError
          ('(data_str, data) ← on_world (read_status_file NUM_OF_STATUS_FILE_RETRIES ext_status_file);
           mret (inl (data_str, data)))
          (λ e, mret (inr (unreadable_status i x seq_no e))) ≫= λ r,
        match r with
        | inr xs => mret (Some xs)
        | inl (data_str, data) => xs ← lift (parsed_status i x seq_no (default [] ext_status_file) data_str data); mret (Some xs)
        end
  end.

(** ** Completion *)

(** [get_ext_handling_status] *)
Definition get_ext_handling_status (extension : option ExtensionSettings) : I json :=
  i ← self id;
  f ← files id;
  '(seq_no, ext_status_file) ← lift (get_status_file_path i extension f);
  match ext_status_file with
  | None => mret JNull
  | Some p =>
      if seq_no <? 0 then mret JNull
      else if negb (exists_path p f) then mret (JStr StatusValue.warning)
      else
        xs ← collect_ext_status extension;
        mret (match xs with Some xs => xs_status xs | None => JNull end)
  end.

(** [is_ext_handling_complete] *)
Definition is_ext_handling_complete (extension : option ExtensionSettings) : I (bool * json) :=
  status ← get_ext_handling_status extension;
  mret (match status with
        | JNull => (true, JNull)
        | JStr s => (bool_decide (s ∈ EXTENSION_TERMINAL_STATUSES), status)
        | _ => (false, status)
        end).
End status.

Section grows_status.
Context (E : env) (P : list event → Prop) `{!TraceProp P}.
Lemma create_status_file_grows x st c op m o : pres (grows_i P) (create_status_file E x st c op m o).
Proof. unfold create_status_file. pres_auto. Qed.

Lemma read_status_file_pres (R : relation world) `{!PreOrder R} n p :
  pres R (sleep (background E) STATUS_FILE_RETRY_DELAY) → pres R (read_status_file E n p).
Proof. intros Hs. induction n as [|n IH]; simpl; [|destruct n]; pres_auto; done. Qed.

(** Collecting the status of an extension only reads files and sleeps. *)
Lemma is_ext_handling_complete_pres (R : relation ist) (RW : relation world) `{!PreOrder R, !PreOrder RW} x :
  (∀ i w w', RW w w' → R (mkIst i w) (mkIst i w')) →
  pres RW (sleep (background E) STATUS_FILE_RETRY_DELAY) → pres R (is_ext_handling_complete E x).
Proof.
  intros HR Hs.
  assert (∀ p, pres R (on_world (read_status_file E NUM_OF_STATUS_FILE_RETRIES p))) as Hread.
  { intros p. apply (pres_zoom _ RW); [by apply read_status_file_pres|]. intros [i w] w'. apply HR. }
  unfold is_ext_handling_complete, get_ext_handling_status, collect_ext_status, self, files. pres_auto.
Qed.

Lemma is_ext_handling_complete_grows x : pres (grows_i P) (is_ext_handling_complete E x).
Proof. apply (is_ext_handling_complete_pres _ (grows P)); [done|]. by apply sleep_grows. Qed.
End grows_status.
#[export] Hint Resolve create_status_file_grows is_ext_handling_complete_grows : pres.

(** "success" is a terminal status. *)
Lemma success_is_complete E x s b s' :
  is_ext_handling_complete E x s = (Ok (b, JStr StatusValue.success), s') → b = true.
Proof.
  unfold is_ext_handling_complete, mbind, M_bind. destruct (get_ext_handling_status E x s) as [[st|e] s1]; [|done].
  destruct st; simpl; cbv [mret M_ret]; intros [= Hb H' Hs]; simplify_eq. done.
Qed.

Lemma get_status_file_path_in E i x f n p :
  get_status_file_path E i x f = Ok (n, Some p) → ∃ y, p = get_status_dir E i ++ [y].
Proof.
  unfold get_status_file_path. destruct (match x with Some _ => _ | None => _ end) as [o|e]; [|done]. cbn.
  repeat case_match; intros [= <- <-]; eauto.
Qed.

(** ** Oversize statuses *)

Definition json_text (j : json) : string := match j with JStr s => s | _ => "" end.

Definition truncated (n : Z) (j : json) : json :=
  match j with
  | JStr s => JStr (if str_len s <? n then s else str_slice n s +:+ TRUNCATED_SUFFIX)
  | _ => j
  end.

Definition truncated_substatus (s : ExtensionSubStatus) : ExtensionSubStatus :=
  mkSubStatus (truncated MAX_SUBSTATUS_FIELD_LENGTH (ss_name s)) (ss_status s) (ss_code s)
    (truncated MAX_SUBSTATUS_FIELD_LENGTH (ss_message s)).

Definition text_len (j : json) : Z := str_len (json_text j).
Definition is_text (j : json) : bool := match j with JStr _ => true | _ => false end.

(** The size of the text fields that the truncation counts *)
Definition substatus_size (s : ExtensionSubStatus) : Z := text_len (ss_name s) + text_len (ss_message s).
Definition substatuses_size (l : list ExtensionSubStatus) : Z := foldr (λ s n, substatus_size s + n) 0 l.
Definition reported_size (x : ExtensionStatus) : Z :=
  text_len (xs_message x) + substatuses_size (xs_substatusList x).

Lemma truncated_length n j : 0 ≤ n → text_len (truncated n j) ≤ n + 16.
Proof.
  intros Hn. unfold text_len, str_len. destruct j; simpl; try lia.
  destruct (Z.ltb_spec (str_len s) n); unfold str_len in *; [lia|].
  rewrite string_length_app. pose proof (str_take_length (Z.to_nat n) s). unfold str_slice. simpl. lia.
Qed.

Lemma truncate_text n j :
  is_text j = true → unpack_truncated (truncate_message j n) = Ok (truncated n j, text_len (truncated n j)).
Proof. by destruct j. Qed.

Lemma text_len_nonneg j : 0 ≤ text_len j.
Proof. unfold text_len, str_len. lia. Qed.

(** The longest prefix that fits is kept. *)
Lemma process_substatus_list_spec l size :
  Forall (λ s, is_text (ss_name s) = true ∧ is_text (ss_message s) = true) l → size ≤ MAX_STATUS_FILE_SIZE_IN_BYTES →
  let l' := truncated_substatus <$> l in
  ∃ k, process_substatus_list l size = Ok (take k l') ∧ (k ≤ length l)%nat ∧
       size + substatuses_size (take k l') ≤ MAX_STATUS_FILE_SIZE_IN_BYTES ∧
       ((k < length l)%nat → MAX_STATUS_FILE_SIZE_IN_BYTES < size + substatuses_size (take (S k) l')).
Proof.
  simpl. revert size. induction l as [|s l IH]; intros size Hl Hsize; [exists 0%nat; simpl; split_and!; [done..|lia|lia]|].
  apply Forall_cons in Hl as [[Hn Hm] Hl]. cbn [process_substatus_list].
  rewrite !truncate_text by done. cbn [mbind res_bind].
  change (text_len (truncated MAX_SUBSTATUS_FIELD_LENGTH (ss_name s))) with (text_len (ss_name (truncated_substatus s))).
  change (text_len (truncated MAX_SUBSTATUS_FIELD_LENGTH (ss_message s))) with (text_len (ss_message (truncated_substatus s))).
  rewrite <-Z.add_assoc. fold (substatus_size (truncated_substatus s)).
  destruct (Z.leb_spec (size + substatus_size (truncated_substatus s)) MAX_STATUS_FILE_SIZE_IN_BYTES) as [Hle|Hgt].
  - destruct (IH _ Hl Hle) as (k & Hk & Hlen & Hfit & Hmax). exists (S k). rewrite Hk. split_and!; [done|simpl; lia|..];
      cbn [fmap list_fmap take substatuses_size foldr] in *; fold (substatuses_size (take k (truncated_substatus <$> l))); [lia|].
    intros Hk'. simpl in Hk'. specialize (Hmax ltac:(lia)). unfold substatuses_size in *. lia.
  - exists 0%nat. split_and!; [done|simpl; lia|simpl; lia|]. intros _. simpl. unfold substatuses_size, substatus_size in *. simpl in *. lia.
Qed.

(** A status file over 128 KiB is still reported: the message is cut to 1,024
    characters and each substatus field to 10,240 (plus the suffix that says so), and
    substatuses are kept, in order, as long as the total stays within 128 KiB; the status,
    code, operation and sequence number are those the extension reported. *)
Theorem oversize_status_is_truncated i x seq_no p data_str data xs :
  parse_ext_status data (new_ext_status (es_name x) (JInt seq_no)) = (Ok tt, xs) →
  MAX_STATUS_FILE_SIZE_IN_BYTES < str_len data_str →
  is_text (xs_message xs) = true →
  Forall (λ s, is_text (ss_name s) = true ∧ is_text (ss_message s) = true) (xs_substatusList xs) →
  ∃ xs' k, parsed_status i x seq_no p data_str data = Ok xs' ∧
    (xs_status xs', xs_code xs', xs_operation xs', xs_sequenceNumber xs')
      = (xs_status xs, xs_code xs, xs_operation xs, xs_sequenceNumber xs) ∧
    xs_message xs' = truncated MAX_STATUS_MESSAGE_LENGTH (xs_message xs) ∧
    xs_substatusList xs' = take k (truncated_substatus <$> xs_substatusList xs) ∧
    text_len (xs_message xs') ≤ 1040 ∧
    Forall (λ s, text_len (ss_name s) ≤ 10256 ∧ text_len (ss_message s) ≤ 10256) (xs_substatusList xs') ∧
    reported_size xs' ≤ MAX_STATUS_FILE_SIZE_IN_BYTES ∧
    ((k < length (xs_substatusList xs))%nat →
       MAX_STATUS_FILE_SIZE_IN_BYTES < text_len (xs_message xs') +
         substatuses_size (take (S k) (truncated_substatus <$> xs_substatusList xs))).
Proof.
  intros Hp Hbig Hm Hs. unfold parsed_status. rewrite Hp. apply Z.ltb_lt in Hbig. rewrite Hbig. cbn.
  rewrite truncate_text by done. cbn [mbind res_bind].
  pose proof (truncated_length MAX_STATUS_MESSAGE_LENGTH (xs_message xs) ltac:(done)) as Hlen.
  change (MAX_STATUS_MESSAGE_LENGTH + 16) with 1040 in Hlen.
  destruct (process_substatus_list_spec _ (text_len (truncated MAX_STATUS_MESSAGE_LENGTH (xs_message xs))) Hs)
    as (k & Hk & _ & Hfit & Hmax); [unfold MAX_STATUS_FILE_SIZE_IN_BYTES; lia|].
  rewrite Hk. eexists _, k. split_and!; [done..|simpl; lia| |exact Hfit|exact Hmax]. simpl.
  apply Forall_take, Forall_fmap, Forall_true. intros s. simpl.
  by split; apply (truncated_length MAX_SUBSTATUS_FIELD_LENGTH).
Qed.

(** ** The reported status is one of the four values *)

(** An exception of the parser is a format error, or not an [ExtensionStatusError]. *)
Definition format_error (e : exn) : Prop :=
  isinstance e ExtensionStatusError = true → e_code e = StatusErr.StatusFileMalformed.

Lemma json_get_format k j : fails_with format_error (json_get k j).
Proof. intros e. destruct j; simpl; intros [= <-]; done. Qed.

Lemma json_get_default_format k d j : fails_with format_error (json_get_default k d j).
Proof. destruct j; try apply json_get_format. by intros e. Qed.

Lemma json_getitem_format k j : fails_with format_error (json_getitem k j).
Proof. intros e. unfold json_getitem. repeat case_match; intros [= <-]; done. Qed.

Lemma validate_has_key_format j k p : fails_with format_error (validate_has_key j k p).
Proof.
  apply fails_bind; [|intros []; by intros e [= <-]].
  intros e. destruct j; simpl; intros [= <-]; done.
Qed.

Lemma parse_formatted_message_format j : fails_with format_error (parse_formatted_message j).
Proof.
  unfold parse_formatted_message. destruct (is_null j); [by intros e|].
  repeat (apply fails_bind; [apply validate_has_key_format|intros ?]). apply json_get_format.
Qed.

Lemma parse_ext_substatus_format j : fails_with format_error (parse_ext_substatus j).
Proof.
  unfold parse_ext_substatus.
  repeat (apply fails_bind; [first [apply validate_has_key_format|apply json_getitem_format|apply json_get_format
    |apply json_get_default_format|apply parse_formatted_message_format
    |unfold validate_in_range; case_match; by intros e [= <-]]|intros ?]). by intros e.
Qed.

Lemma parse_substatus_items_format l acc : ∀ e, (parse_substatus_items acc l).2 = Some e → format_error e.
Proof.
  revert acc. induction l as [|j l IH]; intros acc e; simpl; [done|].
  destruct (is_null j); [apply IH|]. destruct (parse_ext_substatus j) as [s|x] eqn:Hs; [apply IH|].
  intros [= <-]. by apply (parse_ext_substatus_format _ _ Hs).
Qed.

Lemma json_items_format j : fails_with format_error (json_items j).
Proof. intros e. destruct j; simpl; intros [= <-]; done. Qed.

Lemma parse_ext_status_outcome data xs0 :
  wp (parse_ext_status data)
    (λ _ xs, valid_status (xs_status xs) = true ∨ (data = JNull ∨ data = JArr []) ∧ xs = xs0)
    (λ e _, format_error e) xs0.
Proof.
  destruct data as [| | | | |[|j l]|]; simpl; try (wp_step; by auto); try (wp_step; intros _; done).
  wp_steps; try (match goal with H : _ = Err _ |- format_error _ => revert H end;
    first [apply validate_has_key_format|apply json_getitem_format|apply json_get_format
          |apply json_get_default_format|apply parse_formatted_message_format|apply json_items_format]).
  - match goal with H : parse_substatus_items ?acc ?l = _ |- _ =>
      apply (parse_substatus_items_format l acc); by rewrite H end.
  - left. simpl. match goal with |- valid_status (if ?b then _ else _) = _ => by destruct b eqn:? end.
Qed.

Lemma parsed_status_valid i x seq_no p data_str data xs :
  parsed_status i x seq_no p data_str data = Ok xs →
  valid_status (xs_status xs) = true ∨
  xs_status xs = JNull ∧ (data = JNull ∨ data = JArr []).
Proof.
  unfold parsed_status. pose proof (parse_ext_status_outcome data (new_ext_status (es_name x) (JInt seq_no))) as Ho.
  unfold wp in Ho. destruct (parse_ext_status data _) as [[[]|e] xs0].
  - assert (valid_status (xs_status xs0) = true ∨ xs_status xs0 = JNull ∧ (data = JNull ∨ data = JArr []))
      as Ho' by (destruct Ho as [Ho|[? ->]]; auto).
    destruct (MAX_STATUS_FILE_SIZE_IN_BYTES <? str_len data_str); cbn; [|by intros [= <-]].
    destruct (unpack_truncated _) as [[m n]|]; [|done]. cbn.
    destruct (process_substatus_list _ _); [|done]. by intros [= <-].
  - destruct (isinstance e ExtensionStatusError) eqn:He; [|done]. rewrite (Ho He). cbn.
    intros [= <-]. by left.
Qed.

(** The status that is collected for an extension is one of "transitioning", "warning",
    "error" and "success", whatever the file holds and whether or not it can be read; the
    only exception is a file whose document is [null] or an empty list, which gives a
    status object with nothing assigned.  No status is collected only when there is no
    sequence number. *)
Theorem collected_status_is_valid (E : env) x (s : ist) :
  wp (collect_ext_status E (Some x))
    (λ o _, ∃ seq_no file, get_status_file_path E (s_inst s) (Some x) (w_fs (s_world s)) = Ok (seq_no, file) ∧
            match o with
            | Some xs => valid_status (xs_status xs) = true ∨
                xs_status xs = JNull ∧ ∃ text data,
                  (read_status_file E NUM_OF_STATUS_FILE_RETRIES file (s_world s)).1 = Ok (text, data) ∧
                  (data = JNull ∨ data = JArr [])
            | None => seq_no = -1
            end)
    (λ _ _, True) s.
Proof.
  unfold collect_ext_status. wp_step. wp_step. wp_step. wp_step. wp_step. wp_step; [|done].
  destruct a as [seq_no sf]. wp_step. { wp_step. apply Z.eqb_eq in Heqb as ->. eauto. }
  wp_step. apply wp_except. wp_step.
  eapply (wp_mono _ (λ td _, (read_status_file E NUM_OF_STATUS_FILE_RETRIES sf (s_world s)).1 = Ok td) _ (λ _ _, True)).
  { wp_step. unfold wp. by destruct (read_status_file _ _ _ _) as [[]]. }
  2:{ intros e s' _. split; [|done]. intros _. wp_step. wp_step. exists seq_no, sf. split; [done|].
      left. unfold unreadable_status. by repeat case_match. }
  intros [data_str data] s' Hrd. wp_step. wp_step. wp_step; [|done]. wp_step. exists seq_no, sf. split; [done|].
  destruct (parsed_status_valid _ _ _ _ _ _ _ H0) as [Hv|[Hn Hs]]; eauto 10.
Qed.

(** [_truncate_message] returns nothing for a field that is absent and its caller
    unpacks the result: a status file over 128 KiB without a formatted message raises a
    [TypeError] instead of being truncated. *)
Theorem oversize_status_without_message_raises i x seq_no p data_str data xs :
  parse_ext_status data (new_ext_status (es_name x) (JInt seq_no)) = (Ok tt, xs) →
  MAX_STATUS_FILE_SIZE_IN_BYTES < str_len data_str → xs_message xs = JNull →
  ∃ e, parsed_status i x seq_no p data_str data = Err e ∧ e_class e = TypeError.
Proof.
  intros Hp Hbig Hm. unfold parsed_status. rewrite Hp. apply Z.ltb_lt in Hbig. rewrite Hbig. cbn.
  rewrite Hm. eexists. done.
Qed.

(** A status document as extensions write it, and a text of [n] characters *)
Definition sample_document (message : list (string * json)) (substatuses : list json) : json :=
  JArr [JObj [("version", JFloat "1.0");
              ("status", JObj ([("operation", JStr "enable"); ("status", JStr "success"); ("code", JInt 0)] ++ message
                               ++ [("substatus", JArr substatuses)]))]].
Definition text_of (n : Z) : string := Z.iter n (String "x") "".
Definition sample_message (n : Z) : list (string * json) :=
  [("formattedMessage", JObj [("lang", JStr "en"); ("message", JStr (text_of n))])].
Definition sample_substatus (n : Z) : json :=
  JObj ([("name", JStr "part"); ("status", JStr "success")] ++ sample_message n).

Definition parse_result (data : json) : res exn unit * ExtensionStatus :=
  parse_ext_status data (new_ext_status (es_name (sample_settings 3 1)) (JInt 3)).

Lemma oversize_status_is_truncated_witness :
  let data := sample_document (sample_message 2000) (replicate 14 (sample_substatus 10240)) in
  ∃ xs, parsed_status (sample_inst "enabled") (sample_settings 3 1) 3 [] (text_of 140000) data = Ok xs ∧
        reported_size xs ≤ MAX_STATUS_FILE_SIZE_IN_BYTES ∧ text_len (xs_message xs) ≤ 1040.
Proof.
  intros data.
  destruct (oversize_status_is_truncated (sample_inst "enabled") (sample_settings 3 1) 3 [] (text_of 140000) data
              (parse_result data).2) as (xs' & k & H1 & H2 & H3 & H4 & H5 & H6 & H7 & H8).
  - change ((parse_result data) = (Ok tt, (parse_result data).2)).
    assert ((parse_result data).1 = Ok tt) as H by (vm_compute; reflexivity).
    rewrite <-H. apply surjective_pairing.
  - apply Z.ltb_lt. vm_compute; reflexivity.
  - vm_compute; reflexivity.
  - apply (bool_decide_unpack _). vm_compute; exact Logic.I.
  - exists xs'. split_and!; [exact H1|exact H7|exact H5].
Defined.

Lemma oversize_status_without_message_raises_witness :
  let data := sample_document [] (replicate 14 (sample_substatus 10240)) in
  ∃ e, parsed_status (sample_inst "enabled") (sample_settings 3 1) 3 [] (text_of 140000) data = Err e ∧ e_class e = TypeError.
Proof.
  intros data.
  apply (oversize_status_without_message_raises (sample_inst "enabled") (sample_settings 3 1) 3 [] (text_of 140000) data
           (parse_result data).2).
  - change ((parse_result data) = (Ok tt, (parse_result data).2)).
    assert ((parse_result data).1 = Ok tt) as H by (vm_compute; reflexivity).
    rewrite <-H. apply surjective_pairing.
  - apply Z.ltb_lt. vm_compute; reflexivity.
  - vm_compute; reflexivity.
Defined.
