(* ===== verification/ExtHandlers.v ===== *)
(** * Processing one extension ([ExtHandlersHandler] of exthandlers.py)

    Enabling, disabling, updating and uninstalling an extension under the policy of
    [Policy.v], and the error handling around it ([handle_ext_handler]), which turns every
    exception into a handler status for the service.

    During an update two instances exist, the old version's and the new one's; they share
    the machine.  [U] is the monad of that situation. *)
From S2P Require Import Policy Prelude PyExn Json FlexVersion World Manifest RestApi ExtInstance.
From S2P Require Import Samples ExtVersion ExtCommands Download ExtStatus.

(** The two instances of an update *)
Record ust := mkUst { u_old : inst; u_new : inst; u_world : world }.
Notation U A := (M ust exn A).

Definition on_old {A} (m : I A) : U A :=
  zoom (λ u, mkIst (u_old u) (u_world u)) (λ s u, mkUst (s_inst s) (u_new u) (s_world s)) m.
Definition on_new {A} (m : I A) : U A :=
  zoom (λ u, mkIst (u_new u) (u_world u)) (λ s u, mkUst (u_old u) (s_inst s) (s_world s)) m.

(** Running the update from the new instance's side *)
Definition with_old {A} (old : inst) (m : U A) : I A := λ s,
  match m (mkUst old (s_inst s) (s_world s)) with
  | (r, u) => (r, mkIst (u_new u) (u_world u))
  end.

Section handlers.
Context (E : env) (pe : PolicyEngine) (policy_path : string).
(** [conf.get_ignore_ext_signature_validation_errors()] *)
Context (conf_ignore_signature_errors : bool).

(** ** Update *)

(** [execute_old_handler_command_and_return_if_succeeds]: the flag is read from the
    manifest of the new version; an error in reading it counts as "do not continue". *)
Definition update_error (e : exn) (cont : bool) : exn :=
  agent_error ExtensionUpdateError
    (e_msg e +:+ "; ContinueOnUpdate: " +:+ (if cont then "True" else "False"))
    None ErrorCodes.PluginUpdateProcessingFailed.

Definition execute_old_handler_command (func : I unit) : U Z :=
  cont ← except ExtensionError
           (on_new (man ← load_manifest E; lift (is_continue_on_update_failure man)))
           (λ e, raise (update_error e false));
  except ExtensionError
    (on_old func ;; mret 0)
    (λ e, if negb cont then raise (update_error e false)
          else mret (if isinstance e ExtensionOperationError then e_exit_code e else e_code e)).

(** Disabling every enabled extension of the old version; the exit codes by name *)
Fixpoint disable_old_extensions (l : list ExtensionSettings) (codes : list (string * Z)) : U (list (string * Z)) :=
  match l with
  | [] => mret codes
  | x :: l' =>
      code ← execute_old_handler_command (disable E (Some x) false);
      disable_old_extensions l' (dict_set (es_name x) code codes)
  end.

Definition disable_old_handler : U (list (string * Z)) :=
  st ← on_old (get_handler_state E);
  if String.eqb st ExtHandlerState.Enabled then
    old ← gets u_old;
    codes ← (if negb (supports_multi_config old) && match extensions old with [] => true | _ => false end then
               code ← execute_old_handler_command (disable E None false);
               mret [(eh_name (ext_handler old), code)]
             else mret []);
    enabled ← on_old (enabled_extensions E);
    disable_old_extensions enabled codes
  else mret [].

(** [_update_extension_handler_and_return_if_failed] *)
Definition update_extension_handler (extension : option ExtensionSettings) : U Z :=
  disable_exit_codes ← disable_old_handler;
  old ← gets u_old;
  on_new (copy_status_files E old) ;;
  new ← gets u_new;
  let from_version := eh_version (ext_handler old) in
  let to_version := eh_version (ext_handler new) in
  upgrade ← lift (version_gt new old);
  (if (upgrade : bool)
   then on_new (update E from_version to_version extension disable_exit_codes)
   else on_old (update E from_version to_version extension disable_exit_codes)) ;;
  uninstall_exit_code ← execute_old_handler_command (uninstall E extension);
  on_old (remove_ext_handler E) ;;
  on_new (update_with_install E (Some uninstall_exit_code) extension) ;;
  mret uninstall_exit_code.

(** ** Enable *)

(** The policy check before an operation; [sig_error] is the class the caller raises when
    the signature is what is missing. *)
Definition check_policy (name : string) (signed : bool) (sig_error : exn_class) : I unit :=
  except ExtensionSignaturePolicyError
    (lift (check_extension_policy pe name signed))
    (λ _, raise (agent_error sig_error "None" None (-1))).

(** [__should_ignore_ext_signature_validation_errors] *)
Definition should_ignore_signature_errors (name : string) : bool :=
  conf_ignore_signature_errors && negb (should_enforce_signature_validation pe name).

(** [__update_extension_runtime_policy] *)
Definition update_extension_runtime_policy : I unit :=
  let remove_stale := present ← runtime_policy_exists E; when present (remove_runtime_policy E) in
  if negb (policy_enforcement_enabled pe) then remove_stale
  else
    name ← self (λ i, eh_name (ext_handler i));
    supports ← supports_policy E;
    rp ← lift (get_extension_runtime_policy pe policy_path name supports);
    match rp with
    | Some j => update_runtime_policy E j
    | None => remove_stale
    end.

(** [__setup_new_handler] *)
Definition setup_new_handler (extension : option ExtensionSettings) (ignore_signature_errors : bool) : I unit :=
  set_handler_state E ExtHandlerState.NotInstalled ;;
  download E ignore_signature_errors ;;
  initialize E ;;
  update_settings E extension ;;
  update_extension_runtime_policy.

(** [__handle_extension] *)
Definition handle_extension (extension : option ExtensionSettings) (uninstall_exit_code : option Z) : I unit :=
  match extension with
  | None => enable E None None
  | Some x =>
      if String.eqb (es_state x) ExtensionState.Enabled then enable E extension uninstall_exit_code
      else if String.eqb (es_state x) ExtensionState.Disabled then
        st ← get_extension_state E extension;
        when (negb (String.eqb st ExtensionState.Disabled)) (disable E extension true)
      else raise (agent_error ExtensionsGoalStateError
                    ("Unknown requested state for Extension " +:+ es_name x +:+ ": " +:+ es_state x) None (-1))
  end.

(** [handle_enable] *)
Definition handle_enable (extension : option ExtensionSettings) : I unit :=
  old ← get_installed_ext_handler E;
  st ← get_handler_state E;
  i ← self id;
  let name := eh_name (ext_handler i) in
  uninstall_exit_code ←
    (if String.eqb st ExtHandlerState.NotInstalled || String.eqb st ExtHandlerState.FailedUpgrade then
       check_policy name (negb (String.eqb (eh_encoded_signature (ext_handler i)) "")) ExtensionUnsignedError ;;
       setup_new_handler extension (should_ignore_signature_errors name) ;;
       match old with
       | None => install E None extension ;; mret None
       | Some o =>
           i2 ← self id;
           ne ← lift (version_ne i2 o);
           if (ne : bool) then
             check_policy (eh_name (ext_handler o)) (truthy (signature_validated o))
               ExtensionSignatureNotValidatedError ;;
             code ← with_old o (update_extension_handler extension);
             mret (Some code)
           else mret None
       end
     else
       check_policy name (truthy (signature_validated i)) ExtensionSignatureNotValidatedError ;;
       ensure_consistent_data_for_mc E ;;
       update_settings E extension ;;
       update_extension_runtime_policy ;;
       mret None);
  handle_extension extension uninstall_exit_code.

(** ** Disable and uninstall *)

Definition handle_disable (extension : option ExtensionSettings) : I unit :=
  st ← get_handler_state E;
  when (String.eqb st ExtHandlerState.Enabled) (disable E extension false).

Definition handle_uninstall (extension : option ExtensionSettings) : I unit :=
  st ← get_handler_state E;
  when (negb (String.eqb st ExtHandlerState.NotInstalled))
    (i ← self id;
     check_policy (eh_name (ext_handler i)) (truthy (signature_validated i))
       ExtensionSignatureNotValidatedError ;;
     when (String.eqb st ExtHandlerState.Enabled)
       (when (negb (supports_multi_config i) && match extensions i with [] => true | _ => false end)
          (disable E None false) ;;
        enabled ← enabled_extensions E;
        for_each enabled (λ x, disable E (Some x) false)) ;;
     except ExtensionError (uninstall E extension) (λ _, mret tt)) ;;
  remove_ext_handler E.

(** ** Error reporting *)

(** [_EXT_DISALLOWED_ERROR_MAP.get(state)]: the name of the operation and the error code;
    unpacking the [None] of an unknown state raises. *)
Definition ext_disallowed_error_map (state : string) : res exn (string * Z) :=
  if String.eqb state ExtensionRequestedState.Enabled then Ok ("run", ErrorCodes.PluginEnableProcessingFailed)
  else if String.eqb state ExtensionRequestedState.Uninstall
  then Ok ("uninstall", ErrorCodes.PluginDisableProcessingFailed)
  else if String.eqb state ExtensionRequestedState.Disabled
  then Ok ("uninstall", ErrorCodes.PluginDisableProcessingFailed)
  else Err (py_error TypeError "cannot unpack non-iterable NoneType object").

Definition op_json (i : inst) : json := match operation i with Some op => JStr op | None => JNull end.

(** [__handle_and_report_ext_handler_errors]; the event it sends is telemetry. *)
Definition handle_and_report_errors (code : Z) (report_op : option string) (message : string)
    (extension : option ExtensionSettings) : I unit :=
  set_handler_status E ExtHandlerStatusValue.not_ready message code ;;
  i ← self id;
  when (should_perform_multi_config_op i extension)
    (create_status_file E extension StatusValue.error code
       (match report_op with Some op => JStr op | None => op_json i end) message false).

(** [__handle_ext_disallowed_error] *)
Definition handle_ext_disallowed_error (code : Z) (message : string)
    (extension : option ExtensionSettings) : I unit :=
  on_inst set_is_disallowed ;;
  set_handler_status E ExtHandlerStatusValue.not_ready message code ;;
  i ← self id;
  when (match extension with
        | Some _ => String.eqb (eh_state (ext_handler i)) ExtensionRequestedState.Enabled
        | None => false
        end)
    (create_status_file E extension StatusValue.error code (op_json i) message true).

(** ** [handle_ext_handler] *)

(** The body of the [try] *)
Definition process_ext_handler (extension : option ExtensionSettings) : I unit :=
  i ← self id;
  match eh_invalid_setting_reason (ext_handler i) with
  | Some reason => raise (agent_error ExtensionsGoalStateError reason None (-1))
  | None =>
      let handler_state := eh_state (ext_handler i) in
      p ← decide_version E handler_state;
      (match p with
       | None =>
           when (String.eqb handler_state ExtensionRequestedState.Enabled)
             (i2 ← self id;
              on_inst (set_op "Download") ;;
              raise (agent_error ExtensionError
                       ("Unable to find version " +:+ eh_version (ext_handler i2) +:+
                        " in manifest for extension " +:+ eh_name (ext_handler i2)) None (-1)))
       | Some _ => mret tt
       end) ;;
      if String.eqb handler_state ExtensionRequestedState.Enabled then handle_enable extension
      else if String.eqb handler_state ExtensionRequestedState.Disabled then handle_disable extension
      else if String.eqb handler_state ExtensionRequestedState.Uninstall then handle_uninstall extension
      else raise (agent_error ExtensionError ("Unknown ext handler state:" +:+ handler_state) None (-1))
  end.

(** The message for an extension the policy does not allow *)
Definition policy_message (operation name reason remedy : string) : string :=
  "Extension will not be processed: failed to " +:+ operation +:+ " extension '" +:+ name +:+
  "' because " +:+ reason +:+ " To " +:+ operation +:+ ", " +:+ remedy.

(** A branch for an extension that is not allowed to run *)
Definition disallowed (extension : option ExtensionSettings) (message : string → string → string) : I bool :=
  i ← self id;
  '(op, error_code) ← lift (ext_disallowed_error_map (eh_state (ext_handler i)));
  handle_ext_disallowed_error error_code (message op (eh_name (ext_handler i))) extension ;;
  mret false.

Definition reported (extension : option ExtensionSettings) (code : Z) (report_op : option string)
    (message : string) : I bool :=
  handle_and_report_errors code report_op message extension ;;
  mret false.

(** The [except] clauses, in their order *)
Definition handle_error (extension : option ExtensionSettings) (error : exn) : I bool :=
  let caught c := isinstance error c in
  if caught MultiConfigExtensionEnableError then
    i ← self id;
    create_status_file E extension StatusValue.error (e_code error) (op_json i)
      ("Error processing MultiConfig extension " +:+ get_extension_full_name i extension +:+ ": " +:+ e_msg error)
      false ;;
    mret false
  else if caught ExtensionsGoalStateError then
    reported extension (e_code error) (Some "InvalidExtensionConfig")
      ("Ran into config errors: " +:+ e_msg error +:+ ". 
Please retry again as another operation with updated settings")
  else if caught ExtensionUpdateError then reported extension (e_code error) None (e_msg error)
  else if caught ExtensionDownloadError then
    reported extension (e_code error) (Some "Download") ("Failed to download artifacts: " +:+ e_msg error)
  else if caught ExtensionDisallowedError then
    disallowed extension (λ op name, policy_message op name
      "it is not specified as an allowed extension."
      ("add the extension to the list of allowed extensions in the policy file ('" +:+ policy_path +:+ "')."))
  else if caught ExtensionUnsignedError then
    disallowed extension (λ op name, policy_message op name
      "policy specifies that extension must be signed, but extension package signature could not be found."
      ("set 'signatureRequired' to false in the policy file ('" +:+ policy_path +:+ "')."))
  else if caught ExtensionRuntimePolicyError then
    disallowed extension (λ _ _, "Extension will not be processed: " +:+ e_msg error)
  else if caught ExtensionSignatureNotValidatedError then
    disallowed extension (λ op name, policy_message op name
      "policy specifies that extension must be signed, but the installed extension's signature was not previously validated by the agent."
      ("set 'signatureRequired' to false in the policy file ('" +:+ policy_path +:+ "'), then retry the operation."))
  else if caught PackageValidationError then
    handle_ext_disallowed_error ErrorCodes.PluginInstallProcessingFailed (e_msg error) extension ;;
    mret false
  else if caught ExtensionError then reported extension (e_code error) None (e_msg error)
  else if caught Exception_ then reported extension (-1) None (e_msg error)
  else raise error.

(** [handle_ext_handler]: whether the operation succeeded *)
Definition handle_ext_handler (extension : option ExtensionSettings) : I bool :=
  catch (process_ext_handler extension ;; mret true) (handle_error extension).
End handlers.

(** ** The policy is enforced before anything runs

    [inert evs]: no command was started, nothing was validated or extracted. *)
Definition inert_event (e : event) : Prop :=
  match e with ECgroup _ _ | ESleep _ => True | _ => False end.
Definition inert (evs : list event) : Prop := Forall inert_event evs.

#[export] Instance inert_trace : TraceProp inert.
Proof.
  split; [constructor|intros a b Ha Hb; by apply Forall_app|..]; intros; repeat constructor.
Qed.

Lemma pure_grows {A} P `{!TraceProp P} (m : I A) : pres eq m → pres (grows_i P) m.
Proof. intros Hm s. specialize (Hm s). rewrite <-Hm. reflexivity. Qed.

Lemma same_handler_grows P `{!TraceProp P} s s' : same_handler s s' → grows_i P s s'.
Proof. intros [Hw _]. unfold grows_i. rewrite Hw. reflexivity. Qed.

Lemma handle_error_any (E : env) P `{!TraceProp P} policy_path x e :
  pres (grows_i P) (handle_error E policy_path x e).
Proof.
  unfold handle_error, disallowed, reported, handle_and_report_errors, handle_ext_disallowed_error.
  pres_auto.
Qed.

Section gate.
Context (E : env) (pe : PolicyEngine) (policy_path : string) (conf_ignore : bool).

(** The policy refuses the extension whatever is known of its signature. *)
Definition disallowed_by_policy (name : string) : Prop :=
  policy_enforcement_enabled pe = true ∧ Policy.should_allow_extension pe name = false.

Lemma check_policy_disallowed name signed c s :
  disallowed_by_policy name →
  ∃ e, check_policy pe name signed c s = (Err e, s) ∧ e_class e = ExtensionDisallowedError.
Proof.
  intros [Hen Hal]. unfold check_policy, check_extension_policy. rewrite Hen, Hal. simpl.
  eexists. split; [reflexivity|done].
Qed.

Notation G := (grows_i inert).

Lemma handle_enable_gate x s :
  disallowed_by_policy (eh_name (ext_handler (s_inst s))) →
  wp (handle_enable E pe policy_path conf_ignore x) (λ _ _, False) (λ _ s', s' = s) s.
Proof.
  intros Hd. unfold handle_enable. wp_step. apply wp_pure; [auto with pres| |done]. intros old.
  wp_step. apply wp_pure; [auto with pres| |done]. intros st. wp_step. wp_step. unfold id.
  wp_step. wp_step; wp_step; unfold wp at 1;
    match goal with |- context [check_policy pe ?n ?b ?c s] =>
      destruct (check_policy_disallowed n b c s Hd) as (e & -> & _) end; done.
Qed.

Lemma handle_uninstall_gate x s :
  disallowed_by_policy (eh_name (ext_handler (s_inst s))) →
  wp (handle_uninstall E pe x) (λ _ s', G s s') (λ _ s', G s s') s.
Proof.
  intros Hd. unfold handle_uninstall. wp_step.
  apply wp_pure; [auto with pres| |intros; reflexivity]. intros st. wp_step. wp_step.
  - wp_step. wp_step. wp_step. unfold wp at 1, id.
    match goal with |- context [check_policy pe ?n ?b ?c s] =>
      destruct (check_policy_disallowed n b c s Hd) as (e & -> & _) end. reflexivity.
  - apply (pres_wp G). auto with pres typeclass_instances.
Qed.

(** Without a request to disable, a disallowed extension is left alone. *)
Lemma process_gate x s :
  disallowed_by_policy (eh_name (ext_handler (s_inst s))) →
  eh_state (ext_handler (s_inst s)) ≠ ExtensionRequestedState.Disabled →
  wp (process_ext_handler E pe policy_path conf_ignore x) (λ _ s', G s s') (λ _ s', G s s') s.
Proof.
  intros Hd Hst. unfold process_ext_handler. wp_step. wp_step. unfold id.
  destruct (eh_invalid_setting_reason (ext_handler (s_inst s))); [wp_step; reflexivity|].
  wp_step. eapply wp_mono; [apply (pres_wp same_handler), decide_version_same_handler|..].
  2:{ intros e s' H. by apply same_handler_grows; [apply _|]. }
  intros p s1 H1. destruct (same_handler_name _ _ H1) as [Hn Hs].
  pose proof (same_handler_grows inert _ _ H1) as G1.
  wp_step. eapply (wp_mono _ (λ _ s2, s2 = s1) _ (λ _ s2, G s s2)); [|intros [] s2 ->|done].
  { destruct p; [by wp_step|]. wp_step; [|done]. wp_step. wp_step. wp_step. wp_step. wp_step.
    etrans; [exact G1|]. unfold grows_i. simpl. reflexivity. }
  rewrite <-Hn in Hd. wp_step; [|wp_step; [|wp_step]].
  - eapply wp_mono; [by apply handle_enable_gate|done|]. by intros e s2 ->.
  - apply String.eqb_eq in Heqb0. congruence.
  - eapply wp_mono; [by apply handle_uninstall_gate|..]; intros ? s2 ?; by etrans.
  - by wp_step.
Qed.
End gate.

(** C1: an extension that the policy in force does not allow is never run: whatever the
    files on disk and however its package behaves, processing it for a requested state
    other than "disabled" starts no command, validates and extracts no package. *)
Theorem disallowed_extension_never_runs (E : env) (pe : PolicyEngine) policy_path conf_ignore x (s : ist) :
  disallowed_by_policy pe (eh_name (ext_handler (s_inst s))) →
  eh_state (ext_handler (s_inst s)) ≠ ExtensionRequestedState.Disabled →
  ∃ evs, w_trace (s_world (handle_ext_handler E pe policy_path conf_ignore x s).2)
         = w_trace (s_world s) ++ evs ∧ inert evs.
Proof.
  intros Hd Hst.
  assert (wp (handle_ext_handler E pe policy_path conf_ignore x)
            (λ _ s', grows_i inert s s') (λ _ s', grows_i inert s s') s) as H.
  { unfold handle_ext_handler. wp_step. wp_step. eapply wp_mono; [by apply process_gate|..].
    - intros [] s' Hs'. by wp_step.
    - intros e s' Hs'. apply (pres_wp_from (grows_i inert)); [|done]. apply handle_error_any, _. }
  by apply wp_end in H.
Qed.

(** ** A required signature is validated before extraction *)

(** The relation of [grows] on the state of an update *)
Definition grows_u (P : list event → Prop) (u u' : ust) : Prop := grows P (u_world u) (u_world u').

#[export] Instance grows_u_preorder P `{!TraceProp P} : PreOrder (grows_u P).
Proof. split; [intros s; unfold grows_u; reflexivity|intros a b c; unfold grows_u; apply transitivity]. Qed.

Section grows_update.
Context (E : env) (P : list event → Prop) `{!TraceProp P} `{!AnyCommand P}.

Lemma on_old_grows {A} (m : I A) : pres (grows_i P) m → pres (grows_u P) (on_old m).
Proof. intros H. by apply (pres_zoom _ (grows_i P)). Qed.
Lemma on_new_grows {A} (m : I A) : pres (grows_i P) m → pres (grows_u P) (on_new m).
Proof. intros H. by apply (pres_zoom _ (grows_i P)). Qed.
Hint Resolve on_old_grows on_new_grows : pres.

Lemma with_old_grows {A} old (m : U A) : pres (grows_u P) m → pres (grows_i P) (with_old old m).
Proof.
  intros H s. specialize (H (mkUst old (s_inst s) (s_world s))). unfold with_old.
  by destruct (m _) as [r u].
Qed.

Lemma execute_old_grows func : pres (grows_i P) func → pres (grows_u P) (execute_old_handler_command E func).
Proof.
  intros H. unfold execute_old_handler_command.
  assert (pres (grows_i P) (man ← load_manifest E; lift (is_continue_on_update_failure man))) by pres_auto.
  pres_auto.
Qed.
Hint Resolve execute_old_grows : pres.

Lemma update_extension_handler_grows x : pres (grows_u P) (update_extension_handler E x).
Proof.
  assert (∀ l cs, pres (grows_u P) (disable_old_extensions E l cs)) as Hd.
  { induction l as [|y l IH]; intros cs; simpl; pres_auto. }
  unfold update_extension_handler, disable_old_handler. pres_auto; apply Hd.
Qed.
End grows_update.
#[export] Hint Resolve with_old_grows update_extension_handler_grows : pres.

Section signature_required.
Context (E : env) (pe : PolicyEngine) (policy_path : string) (conf_ignore : bool).

Lemma should_not_ignore name :
  should_enforce_signature_validation pe name = true →
  should_ignore_signature_errors pe conf_ignore name = false.
Proof. intros H. unfold should_ignore_signature_errors. rewrite H. by rewrite andb_false_r. Qed.

Lemma runtime_policy_grows P `{!TraceProp P} : pres (grows_i P) (update_extension_runtime_policy E pe policy_path).
Proof. unfold update_extension_runtime_policy. pres_auto. Qed.
Hint Resolve runtime_policy_grows : pres.

Lemma check_policy_pure n b c : pres eq (check_policy pe n b c).
Proof. unfold check_policy. pres_auto. Qed.

(** Setting the state of the handler does not touch the instance. *)
Lemma set_state_inst n v s :
  wp (set_state E n v) (λ _ s', s_inst s' = s_inst s) (λ _ s', s_inst s' = s_inst s) s.
Proof.
  assert (pres (λ s s', s_inst s' = s_inst s) (set_state E n v)) as H.
  { assert (PreOrder (λ s s', s_inst s' = s_inst s)) by (split; [done|intros a b c; simpl; congruence]).
    assert (∀ A (m : M world exn A), pres (λ s s', s_inst s' = s_inst s) (on_world m)) as Hw.
    { intros A m t. unfold on_world, zoom. by destruct (m _). }
    unfold set_state, self, files. pres_auto. }
  exact (pres_wp _ _ s H).
Qed.

Lemma setup_new_handler_verified x s :
  let sig := eh_encoded_signature (ext_handler (s_inst s)) in
  wp (setup_new_handler E pe policy_path x false) (λ _ s', grows_i (verified sig) s s')
    (λ _ s', grows_i (verified sig) s s') s.
Proof.
  intros sig. unfold setup_new_handler. wp_step.
  eapply wp_mono; [apply wp_and; [apply (pres_wp (grows_i (verified sig))); auto with pres typeclass_instances|]|..].
  { unfold set_handler_state. wp_step. wp_step. apply set_state_inst. }
  2:{ by intros e s' [? _]. }
  intros [] s1 [G1 H1]. wp_step.
  pose proof (download_verified E s1) as Hd. simpl in Hd. rewrite H1 in Hd. fold sig in Hd.
  eapply wp_mono; [exact Hd|..].
  2:{ intros e s2 G2. simpl in G2. unfold grows_i in *. by etrans. }
  intros [] s2 (_ & (evs & Ht & Hv & _) & _).
  apply (pres_wp_from (grows_i (verified sig))); [pres_auto|].
  etrans; [exact G1|]. by exists evs.
Qed.

Lemma handle_extension_grows P `{!TraceProp P} `{!AnyCommand P} x c : pres (grows_i P) (handle_extension E x c).
Proof. unfold handle_extension. pres_auto. Qed.
Hint Resolve handle_extension_grows : pres.

Lemma handle_enable_verified x s :
  let e := ext_handler (s_inst s) in
  should_enforce_signature_validation pe (eh_name e) = true →
  wp (handle_enable E pe policy_path conf_ignore x)
    (λ _ s', grows_i (verified (eh_encoded_signature e)) s s')
    (λ _ s', grows_i (verified (eh_encoded_signature e)) s s') s.
Proof.
  intros e Hreq. set (sig := eh_encoded_signature e). unfold handle_enable. wp_step.
  apply wp_pure; [auto with pres| |intros; reflexivity]. intros old. wp_step.
  apply wp_pure; [auto with pres| |intros; reflexivity]. intros st. wp_step. wp_step. unfold id.
  fold e. rewrite (should_not_ignore _ Hreq).
  wp_step. eapply (wp_mono _ (λ _ s1, grows_i (verified sig) s s1) _ (λ _ s1, grows_i (verified sig) s s1)).
  - wp_step.
    + wp_step. apply wp_pure; [apply check_policy_pure| |intros; reflexivity]. intros [].
      wp_step. eapply wp_mono; [apply setup_new_handler_verified|..]; [|done].
      intros [] s1 G1. pose proof (check_policy_pure) as Hpure.
      apply (pres_wp_from (grows_i (verified sig))); [|exact G1].
      pres_auto. apply pure_grows; [apply _|]. apply Hpure.
    + wp_step. apply wp_pure; [apply check_policy_pure| |intros; reflexivity]. intros [].
      apply (pres_wp (grows_i (verified sig))). pres_auto.
  - intros c s1 G1. apply (pres_wp_from (grows_i (verified sig))); [|exact G1]. pres_auto.
  - done.
Qed.

(** Uninstall and disable extract nothing. *)
Lemma handle_uninstall_any P `{!TraceProp P} `{!AnyCommand P} x : pres (grows_i P) (handle_uninstall E pe x).
Proof.
  pose proof (λ n b c, pure_grows P _ (check_policy_pure n b c)) as Hc.
  unfold handle_uninstall. pres_auto.
Qed.
Lemma handle_disable_any P `{!TraceProp P} `{!AnyCommand P} x : pres (grows_i P) (handle_disable E x).
Proof. unfold handle_disable. pres_auto. Qed.

Lemma process_verified x s :
  let e := ext_handler (s_inst s) in
  let G := grows_i (verified (eh_encoded_signature e)) in
  should_enforce_signature_validation pe (eh_name e) = true →
  wp (process_ext_handler E pe policy_path conf_ignore x) (λ _ s', G s s') (λ _ s', G s s') s.
Proof.
  intros e G Hreq. unfold process_ext_handler. wp_step. wp_step. unfold id. fold e.
  destruct (eh_invalid_setting_reason e); [wp_step; unfold G; reflexivity|].
  wp_step. eapply wp_mono; [apply (pres_wp same_handler), decide_version_same_handler|..].
  2:{ intros y s' H. by apply same_handler_grows; [apply _|]. }
  intros p s1 H1. pose proof (same_handler_grows (verified (eh_encoded_signature e)) _ _ H1) as G1.
  assert (eh_name (ext_handler (s_inst s1)) = eh_name e ∧
          eh_encoded_signature (ext_handler (s_inst s1)) = eh_encoded_signature e) as [Hn Hs].
  { destruct H1 as [_ H1]. unfold e. destruct (ext_handler (s_inst s)), (ext_handler (s_inst s1)).
    by simplify_eq/=. }
  wp_step. eapply (wp_mono _ (λ _ s2, s2 = s1) _ (λ _ s2, G s s2)); [|intros [] s2 ->|done].
  { destruct p; [by wp_step|]. wp_step; [|done]. wp_step. wp_step. wp_step. wp_step. wp_step.
    exact G1. }
  rewrite <-Hn in Hreq. wp_step; [|wp_step; [|wp_step]].
  - eapply wp_mono; [by apply handle_enable_verified|..]; rewrite Hs; intros ? s2 ?; unfold G in *; by etrans.
  - apply (pres_wp_from G); [apply handle_disable_any; apply _|done].
  - apply (pres_wp_from G); [apply handle_uninstall_any; apply _|done].
  - by wp_step.
Qed.
End signature_required.

(** C2: when the policy requires a signature for the extension, processing the goal state
    extracts a package only right after that file was validated against the signature the
    goal state carries, whatever the configuration flags for ignoring signature errors
    say; this covers retries, existing packages, updates and every error path. *)
Theorem required_signature_is_validated (E : env) (pe : PolicyEngine) policy_path conf_ignore x (s : ist) :
  let e := ext_handler (s_inst s) in
  should_enforce_signature_validation pe (eh_name e) = true →
  ∃ evs, w_trace (s_world (handle_ext_handler E pe policy_path conf_ignore x s).2)
         = w_trace (s_world s) ++ evs ∧ verified (eh_encoded_signature e) evs.
Proof.
  intros e Hreq. set (G := grows_i (verified (eh_encoded_signature e))).
  assert (wp (handle_ext_handler E pe policy_path conf_ignore x) (λ _ s', G s s') (λ _ s', G s s') s) as H.
  { unfold handle_ext_handler. wp_step. wp_step.
    eapply wp_mono; [by apply process_verified|..].
    - intros [] s' Hs'. by wp_step.
    - intros y s' Hs'. apply (pres_wp_from (grows_i (verified _))); [|done]. apply handle_error_any, _. }
  by apply wp_end in H.
Qed.

(** ** The order of an update *)

Definition old_name (u : ust) : string := get_full_name (u_old u) None.
Definition new_name (u : ust) : string := get_full_name (u_new u) None.

(** The commands [L] were started between [u] and [u'], for the same two versions. *)
Definition did_u (L : list (string * string)) (u u' : ust) : Prop :=
  ext_handler (u_old u') = ext_handler (u_old u) ∧ ext_handler (u_new u') = ext_handler (u_new u) ∧
  commands (u_world u') = commands (u_world u) ++ L.

Lemma did_u_app L1 L2 u1 u2 u3 : did_u L1 u1 u2 → did_u L2 u2 u3 → did_u (L1 ++ L2) u1 u3.
Proof.
  intros (H1 & H2 & C1) (H3 & H4 & C2). split_and!; [congruence..|]. by rewrite C2, C1, app_assoc.
Qed.

#[export] Instance did_u_nil_preorder : PreOrder (did_u []).
Proof.
  split; [intros u; split_and!; [done..|by rewrite app_nil_r]|].
  intros a b c H1 H2. exact (did_u_app [] [] _ _ _ H1 H2).
Qed.

Lemma did_u_names L u u' : did_u L u u' → old_name u' = old_name u ∧ new_name u' = new_name u.
Proof.
  intros (H1 & H2 & _). unfold old_name, new_name, get_full_name, get_extension_full_name.
  by rewrite H1, H2.
Qed.

Section update_order.
Context (E : env).

Lemma on_old_quietly {A} (m : I A) : pres quietly m → pres (did_u []) (on_old m).
Proof.
  intros H. apply (pres_zoom _ quietly); [done|]. intros u s [H1 H2]%quietly_did. by split_and!.
Qed.
Lemma on_new_quietly {A} (m : I A) : pres quietly m → pres (did_u []) (on_new m).
Proof.
  intros H. apply (pres_zoom _ quietly); [done|]. intros u s [H1 H2]%quietly_did. by split_and!.
Qed.
Hint Resolve on_old_quietly on_new_quietly : pres.

Lemma on_old_runs {A} name (m : I A) u :
  runs_one name m →
  wp (on_old m) (λ _ u', did_u [(old_name u, name)] u u')
    (λ _ u', did_u [] u u' ∨ did_u [(old_name u, name)] u u') u.
Proof.
  intros H. apply wp_zoom. eapply wp_mono; [apply H|..].
  - intros a s [H1 H2]. by split_and!.
  - intros e s [[H1 H2]|[H1 H2]]; [left|right]; by split_and!.
Qed.
Lemma on_new_runs {A} name (m : I A) u :
  runs_one name m →
  wp (on_new m) (λ _ u', did_u [(new_name u, name)] u u')
    (λ _ u', did_u [] u u' ∨ did_u [(new_name u, name)] u u') u.
Proof.
  intros H. apply wp_zoom. eapply wp_mono; [apply H|..].
  - intros a s [H1 H2]. by split_and!.
  - intros e s [[H1 H2]|[H1 H2]]; [left|right]; by split_and!.
Qed.

(** A guarded command of the old version runs at most once. *)
Definition opt (b : bool) (c : string * string) : list (string * string) := if b then [c] else [].

Lemma execute_old_runs name func u :
  runs_one name func →
  wp (execute_old_handler_command E func)
    (λ _ u', ∃ b, did_u (opt b (old_name u, name)) u u')
    (λ _ u', ∃ b, did_u (opt b (old_name u, name)) u u') u.
Proof.
  intros Hf. unfold execute_old_handler_command. wp_step.
  assert (pres quietly (man ← load_manifest E; lift (is_continue_on_update_failure man))) as Hq by pres_auto.
  wp_step. eapply wp_mono; [apply (pres_wp (did_u [])); by apply on_new_quietly|..].
  2:{ intros e u1 H1. split; [intros _; wp_step|intros _]; by exists false. }
  intros cont u1 H1. pose proof (did_u_names _ _ _ H1) as [Hn _].
  assert (∀ b u2, did_u (opt b (old_name u1, name)) u1 u2 → ∃ b, did_u (opt b (old_name u, name)) u u2) as Hadd.
  { intros b u2 H2. exists b. rewrite <-Hn. exact (did_u_app [] _ _ _ _ H1 H2). }
  wp_step. wp_step. eapply wp_mono; [by apply on_old_runs|..].
  - intros [] u2 H2. wp_step. by apply (Hadd true).
  - intros e u2 H2.
    assert (∃ b, did_u (opt b (old_name u, name)) u u2) as Hb
      by (destruct H2; [by apply (Hadd false)|by apply (Hadd true)]).
    split; [|done]. intros _. wp_step; by wp_step.
Qed.

Lemma disable_old_runs l cs u :
  let Q := λ u', ∃ k, did_u (replicate k (old_name u, "disable")) u u' in
  wp (disable_old_extensions E l cs) (λ _ u', Q u') (λ _ u', Q u') u.
Proof.
  revert cs u. induction l as [|x l IH]; intros cs u; simpl.
  { wp_step. exists 0%nat. reflexivity. }
  assert (∀ b u1 k u2, did_u (opt b (old_name u, "disable")) u u1 →
            did_u (replicate k (old_name u1, "disable")) u1 u2 →
            ∃ k, did_u (replicate k (old_name u, "disable")) u u2) as Hadd.
  { intros b u1 k u2 H1 H2. pose proof (did_u_names _ _ _ H1) as [Hn _]. rewrite Hn in H2.
    pose proof (did_u_app _ _ _ _ _ H1 H2) as H. destruct b; [by exists (S k)|by exists k]. }
  wp_step. eapply wp_mono; [apply execute_old_runs, disable_runs|..].
  - intros code u1 [b H1]. eapply wp_mono; [apply IH|..]; intros ? u2 [k H2]; by eapply Hadd.
  - intros e u1 [b H1]. apply (Hadd b u1 0%nat u1 H1). reflexivity.
Qed.

Lemma disable_old_handler_runs u :
  let Q := λ u', ∃ k, did_u (replicate k (old_name u, "disable")) u u' in
  wp (disable_old_handler E) (λ _ u', Q u') (λ _ u', Q u') u.
Proof.
  intros Q. unfold disable_old_handler. wp_step.
  eapply wp_mono; [apply (pres_wp (did_u [])); auto with pres|..].
  2:{ intros e u1 H1. by exists 0%nat. }
  intros st u1 H1. pose proof (did_u_names _ _ _ H1) as [Hn _].
  wp_step; [|wp_step; by exists 0%nat]. wp_step. wp_step. wp_step.
  assert (∀ k u2, did_u (replicate k (old_name u, "disable")) u1 u2 → Q u2) as HQ.
  { intros k u2 H2. exists k. exact (did_u_app [] _ _ _ _ H1 H2). }
  eapply (wp_mono _ (λ _ u2, ∃ k, did_u (replicate k (old_name u, "disable")) u1 u2) _ (λ _ u2, Q u2)); [| |done].
  - wp_step; [|wp_step; exists 0%nat; reflexivity].
    wp_step. eapply wp_mono; [apply execute_old_runs, disable_runs|..]; rewrite Hn.
    + intros c u2 [b H2]. wp_step. destruct b; [by exists 1%nat|by exists 0%nat].
    + intros e u2 [b H2]. destruct b; [by apply (HQ 1%nat)|by apply (HQ 0%nat)].
  - intros codes u2 [k H2]. pose proof (did_u_names _ _ _ H2) as [Hn2 _]. wp_step.
    eapply wp_mono; [apply (pres_wp (did_u [])); auto with pres|..].
    + intros en u3 H3. pose proof (did_u_names _ _ _ H3) as [Hn3 _].
      pose proof (did_u_app _ _ _ _ _ H2 H3) as H23. rewrite app_nil_r in H23.
      eapply wp_mono; [apply disable_old_runs|..]; rewrite Hn3, Hn2, Hn; intros ? u4 [k' H4];
        apply (HQ (k + k')%nat); rewrite replicate_add; by eapply did_u_app.
    + intros e u3 H3. apply (HQ k). pose proof (did_u_app _ _ _ _ _ H2 H3) as H23.
      by rewrite app_nil_r in H23.
Qed.
End update_order.

(** The order of the commands of an update: the enabled extensions of the old version are
    disabled, then the update command of the greater version runs, then the old version
    is uninstalled, then the new one may be installed. *)
Definition update_order (old new upd : string) (L : list (string * string)) : Prop :=
  ∃ k b1 b2, L = replicate k (old, "disable") ++ [(upd, "update")] ++
                 opt b1 (old, "uninstall") ++ opt b2 (new, "install").

Definition update_started (old new upd : string) (L : list (string * string)) : Prop :=
  ∃ L0, update_order old new upd L0 ∧ L `prefix_of` L0.

Section update_theorem.
Context (E : env).

Lemma update_with_install_runs c x u :
  wp (on_new (update_with_install E c x))
    (λ _ u', ∃ b, did_u (opt b (new_name u, "install")) u u')
    (λ _ u', ∃ b, did_u (opt b (new_name u, "install")) u u') u.
Proof.
  apply wp_zoom. set (s := mkIst _ _).
  assert (wp (update_with_install E c x) (λ _ s', ∃ b, did (opt b (full_name s, "install")) s s')
            (λ _ s', ∃ b, did (opt b (full_name s, "install")) s s') s) as H.
  { unfold update_with_install. wp_step. apply wp_pure; [auto with pres| |intros; exists false; apply quietly_did; reflexivity].
    intros man. wp_step. wp_step; [|exists false; apply quietly_did; reflexivity].
    wp_step.
    assert (∀ b s1, did (opt b (full_name s, "install")) s s1 →
              wp (set_handler_state E ExtHandlerState.Installed)
                (λ _ s', ∃ b, did (opt b (full_name s, "install")) s s')
                (λ _ s', ∃ b, did (opt b (full_name s, "install")) s s') s1) as Hend.
    { intros b s1 H1. eapply wp_mono; [apply (pres_wp quietly); auto with pres|..];
        intros ? s2 H2%quietly_did; exists b; pose proof (did_app _ _ _ _ _ H1 H2) as H0;
        by rewrite app_nil_r in H0. }
    wp_step; [|apply (Hend false); apply quietly_did; reflexivity].
    eapply wp_mono; [apply install_runs|..].
    - intros [] s1 H1. by apply (Hend true).
    - intros e s1 [H1|H1]; [by exists false|by exists true]. }
  eapply wp_mono; [exact H|..]; intros ? s' [b [H1 H2]]; exists b; by split_and!.
Qed.

Lemma version_gt_did L u u' :
  did_u L u u' → version_gt (u_new u') (u_old u') = version_gt (u_new u) (u_old u).
Proof. intros (H1 & H2 & _). unfold version_gt. by rewrite H1, H2. Qed.

(** The update command runs on one of the two versions. *)
Lemma run_update_runs (up : bool) a b x cs u :
  let upd := if up then new_name u else old_name u in
  wp (if up then on_new (update E a b x cs) else on_old (update E a b x cs))
    (λ _ u', did_u [(upd, "update")] u u')
    (λ _ u', did_u [] u u' ∨ did_u [(upd, "update")] u u') u.
Proof. destruct up; [apply on_new_runs|apply on_old_runs]; apply update_runs. Qed.

Section steps.
Context (u : ust) (upd : string).
Notation order := (update_order (old_name u) (new_name u) upd).
Notation started := (update_started (old_name u) (new_name u) upd).

Lemma started_intro k b0 b1 b2 L :
  L `prefix_of` replicate k (old_name u, "disable") ++ opt b0 (upd, "update") ++
    opt b1 (old_name u, "uninstall") ++ opt b2 (new_name u, "install") →
  (b0 = true ∨ (b1 = false ∧ b2 = false)) → started L.
Proof.
  intros HL Hb. destruct Hb as [->|[-> ->]].
  - eexists. split; [by exists k, b1, b2|]. exact HL.
  - simpl in HL. rewrite app_nil_r in HL. exists (replicate k (old_name u, "disable") ++ [(upd, "update")]).
    split; [exists k, false, false; by rewrite !app_nil_r|].
    etrans; [exact HL|]. apply prefix_app. destruct b0; [done|]. apply prefix_nil.
Qed.

(** From the uninstall command on *)
Lemma update_tail x k u1 :
  did_u (replicate k (old_name u, "disable") ++ [(upd, "update")]) u u1 →
  wp (uninstall_exit_code ← execute_old_handler_command E (uninstall E x);
      on_old (remove_ext_handler E) ;;
      on_new (update_with_install E (Some uninstall_exit_code) x) ;;
      mret uninstall_exit_code)
    (λ _ u', ∃ L, order L ∧ did_u L u u') (λ _ u', ∃ L, started L ∧ did_u L u u') u1.
Proof.
  intros H1. pose proof (did_u_names _ _ _ H1) as [Hn1 Hn1'].
  set (L1 := replicate k (old_name u, "disable") ++ [(upd, "update")]) in *.
  assert (∀ b1 b2 u', did_u (L1 ++ opt b1 (old_name u, "uninstall") ++ opt b2 (new_name u, "install")) u u' →
            ∃ L, started L ∧ did_u L u u') as Hst.
  { intros b1 b2 u' Hd. eexists. split; [|exact Hd].
    apply (started_intro k true b1 b2); [|by left]. unfold L1. by rewrite <-app_assoc. }
  wp_step. eapply wp_mono; [apply execute_old_runs, uninstall_runs|..]; rewrite Hn1.
  2:{ intros e u2 [b1 H2]. apply (Hst b1 false). simpl. rewrite app_nil_r. by eapply did_u_app. }
  intros code u2 [b1 H2]. pose proof (did_u_app _ _ _ _ _ H1 H2) as H12.
  wp_step. eapply wp_mono; [apply (pres_wp (did_u [])); apply on_old_quietly; auto with pres|..].
  2:{ intros e u3 H3. apply (Hst b1 false). simpl. rewrite app_nil_r.
      pose proof (did_u_app _ _ _ _ _ H12 H3) as H. by rewrite app_nil_r in H. }
  intros [] u3 H3. pose proof (did_u_app _ _ _ _ _ H12 H3) as H13. rewrite app_nil_r in H13.
  pose proof (did_u_names _ _ _ H13) as [_ Hn3].
  wp_step. eapply wp_mono; [apply update_with_install_runs|..]; rewrite Hn3.
  - intros [] u4 [b2 H4]. wp_step. eexists. split; [|by eapply did_u_app].
    exists k, b1, b2. unfold L1. by rewrite <-!app_assoc.
  - intros e u4 [b2 H4]. apply (Hst b1 b2). rewrite app_assoc. by eapply did_u_app.
Qed.
End steps.

(** C35: an update runs the commands of the two versions in the documented order: disables
    of the old version first, then the update command of the greater version (on
    downgrades that is the old one), the uninstall of the old version after it, the
    install of the new version last, each at most once per extension; when a step fails,
    what ran is a prefix of that order. *)
Theorem update_runs_in_order x (u : ust) :
  let upd := match version_gt (u_new u) (u_old u) with Ok true => new_name u | _ => old_name u end in
  wp (update_extension_handler E x)
    (λ _ u', ∃ L, update_order (old_name u) (new_name u) upd L ∧ did_u L u u')
    (λ _ u', ∃ L, update_started (old_name u) (new_name u) upd L ∧ did_u L u u') u.
Proof.
  intros upd. unfold update_extension_handler.
  assert (∀ k b u', did_u (replicate k (old_name u, "disable") ++ opt b (upd, "update")) u u' →
            ∃ L, update_started (old_name u) (new_name u) upd L ∧ did_u L u u') as Hst.
  { intros k b u' Hd. eexists. split; [|exact Hd]. apply (started_intro u upd k b false false); [|by right].
    simpl. by rewrite app_nil_r. }
  wp_step. eapply wp_mono; [apply disable_old_handler_runs|..].
  2:{ intros e u1 [k H1]. apply (Hst k false). simpl. by rewrite app_nil_r. }
  intros codes u1 [k H1]. wp_step. wp_step. wp_step.
  eapply wp_mono; [apply (pres_wp (did_u [])); apply on_new_quietly; auto with pres|..].
  2:{ intros e u2 H2. apply (Hst k false). exact (did_u_app _ _ _ _ _ H1 H2). }
  intros [] u2 H2. pose proof (did_u_app _ _ _ _ _ H1 H2) as H12. rewrite app_nil_r in H12.
  pose proof (did_u_names _ _ _ H12) as [Hn2 Hn2'].
  wp_step. wp_step. wp_step. wp_step.
  2:{ apply (Hst k false). simpl. by rewrite app_nil_r. }
  assert (upd = if a then new_name u2 else old_name u2) as Hupd.
  { unfold upd. assert (version_gt (u_new u2) (u_old u1) = version_gt (u_new u) (u_old u)) as Hv.
    { destruct H1 as (G1 & _ & _), H12 as (_ & G2 & _). unfold version_gt. by rewrite G1, G2. }
    rewrite <-Hv, H. by destruct a. }
  wp_step. eapply wp_mono; [apply run_update_runs|..]; rewrite <-Hupd.
  - intros [] u3 H3. apply (update_tail u upd x k). by eapply did_u_app.
  - intros e u3 [H3|H3]; [apply (Hst k false)|apply (Hst k true)]; by eapply did_u_app.
Qed.
End update_theorem.

(** ** The theorems on the sample machine *)

Lemma disallowed_extension_never_runs_witness :
  ∃ evs, w_trace (s_world (handle_ext_handler sample_env Policy.sample_engine "/etc/waagent_policy.json" false
                             (Some (sample_settings 3 1)) (sample_state "enabled")).2) = evs ∧ inert evs.
Proof.
  apply (disallowed_extension_never_runs sample_env Policy.sample_engine "/etc/waagent_policy.json" false
           (Some (sample_settings 3 1)) (sample_state "enabled")).
  - split; vm_compute; reflexivity.
  - discriminate.
Defined.

(** A policy under which the sample extension may run when its package is signed *)
Definition signed_policy : PolicyEngine :=
  Policy.mkEngine true (Policy.doc_policy [("policyVersion", JStr "0.1.0");
    ("extensionPolicies", JObj [("allowListedExtensionsOnly", JBool true); ("signatureRequired", JBool true);
       ("extensions", JObj [("Acme.Sample", JObj [])])])]).

Definition extracted_packages (evs : list event) : list path :=
  omap (λ e, match e with EExtracted p _ => Some p | _ => None end) evs.

Lemma required_signature_is_validated_witness :
  ∃ evs, w_trace (s_world (handle_ext_handler sample_env signed_policy "/etc/waagent_policy.json" true
                             (Some (sample_settings 3 1)) (fresh_state "enabled")).2) = evs ∧
         verified "MIInRAYJ" evs ∧ extracted_packages evs ≠ [] ∧ is_ok (handle_ext_handler sample_env signed_policy
           "/etc/waagent_policy.json" true (Some (sample_settings 3 1)) (fresh_state "enabled")).1 = true.
Proof.
  destruct (required_signature_is_validated sample_env signed_policy "/etc/waagent_policy.json" true
           (Some (sample_settings 3 1)) (fresh_state "enabled")) as (evs & H1 & H2); [vm_compute; reflexivity|].
  exists evs. split_and!; [exact H1|exact H2| |vm_compute; reflexivity].
  simpl in H1. rewrite <-H1. vm_compute. discriminate.
Defined.

(** ** A failure is reported *)

Section reporting.
Context (E : env) (pe : PolicyEngine) (policy_path : string) (conf_ignore : bool).
Context (Hfault : ∀ p, write_fault E p = None).

Definition status_file (i : inst) : path := get_conf_dir E i ++ ["HandlerStatus"].

(** The status file of the handler says "NotReady", with this code. *)
Definition not_ready (code : Z) (s : ist) : Prop :=
  ∃ h, get_handler_status E s = (Ok (Some h), s) ∧
       hs_status h = JStr ExtHandlerStatusValue.not_ready ∧ hs_code h = JInt code.

Definition keeps_status (s s' : ist) : Prop :=
  s_inst s' = s_inst s ∧ keeps_file (status_file (s_inst s)) (s_world s) (s_world s').

Instance keeps_status_preorder : PreOrder keeps_status.
Proof.
  split; [intros s; by split|]. intros a b c [H1 H2] [H3 H4]. split; [congruence|].
  rewrite H1 in H4. by etrans.
Qed.

Lemma create_status_file_keeps x st c op m o : pres keeps_status (create_status_file E x st c op m o).
Proof.
  assert (∀ (w : M world exn unit) i, pres (keeps_file (status_file i)) w →
    ∀ s, s_inst s = i → wp (on_world w) (λ _ s', keeps_status s s') (λ _ s', keeps_status s s') s) as Hon.
  { intros w i Hw s <-. wp_step. apply (wp_end (λ w', keeps_status s (mkIst (s_inst s) w'))). by split; [|apply Hw]. }
  apply wp_pres. intros s. unfold create_status_file. wp_step. wp_step. wp_step. wp_step. wp_step. unfold id.
  wp_step; [|reflexivity]. destruct a as [n [p|]]; [|wp_step; reflexivity].
  apply get_status_file_path_in in H as [y ->].
  assert (status_file (s_inst s) ≠ get_status_dir E (s_inst s) ++ [y]) as Hne.
  { unfold status_file, get_status_dir, get_conf_dir. rewrite <-!app_assoc. intros Heq. by simplify_list_eq. }
  wp_step. wp_step. wp_step; [|wp_step; reflexivity]. wp_step. wp_step. wp_step. wp_step. wp_step.
  eapply (wp_mono _ (λ _ s', keeps_status s s') _ (λ _ s', keeps_status s s')); [|intros [] s1 H1|done].
  - wp_step; [|reflexivity]. by apply (Hon _ (s_inst s) (mkdir_keeps _ _ _)).
  - eapply wp_mono; [apply (Hon _ (s_inst s) (write_file_keeps _ _ _ _ Hne)), H1|..];
      intros ? s2 ?; by etrans.
Qed.

Lemma keeps_not_ready code s s' : not_ready code s → keeps_status s s' → not_ready code s'.
Proof.
  intros (h & Hh & Hst) [Hi Hk]. exists h. split; [|exact Hst]. revert Hh.
  unfold get_handler_status, mbind, M_bind, self, files, gets, lift, id, read_handler_status, isfile, read_file.
  rewrite Hi. fold (status_file (s_inst s)).
  destruct (w_fs (s_world s) !! status_file (s_inst s)) as [[|c t]|] eqn:Hf; [done| |done].
  rewrite (Hk c t Hf). simpl. by intros [= ->].
Qed.

Lemma set_not_ready m code s :
  unobstructed E (s_inst s) (w_fs (s_world s)) →
  wp (set_handler_status E ExtHandlerStatusValue.not_ready m code)
    (λ _ s', s_inst s' = s_inst s ∧ not_ready code s') (λ _ _, False) s.
Proof.
  intros Hu. eapply wp_mono; [by apply set_handler_status_writes| |done].
  intros [] s' [Hi (h & ([t Ht] & _) & Hst & Hc & _)]. split; [done|]. exists h. split; [|done].
  unfold get_handler_status, mbind, M_bind, self, files, gets, lift, id, read_handler_status, isfile, read_file.
  rewrite Hi, Ht. simpl. by rewrite handler_status_roundtrip.
Qed.

Lemma reported_not_ready x code op m s :
  unobstructed E (s_inst s) (w_fs (s_world s)) →
  wp (reported E x code op m) (λ r s', r = false ∧ not_ready code s') (λ _ s', not_ready code s') s.
Proof.
  intros Hu. unfold reported, handle_and_report_errors. wp_step. wp_step.
  eapply wp_mono; [by apply set_not_ready| |done]. intros [] s1 [_ H1]. wp_step. wp_step.
  wp_step; [|by wp_step].
  eapply wp_mono; [apply (pres_wp _ _ _ (create_status_file_keeps _ _ _ _ _ _))|..];
    intros ? s2 H2; [wp_step; split; [done|]|]; by eapply keeps_not_ready.
Qed.

Lemma disallowed_not_ready x code m s :
  unobstructed E (s_inst s) (w_fs (s_world s)) →
  wp (handle_ext_disallowed_error E code m x) (λ _ s', not_ready code s') (λ _ s', not_ready code s') s.
Proof.
  intros Hu. unfold handle_ext_disallowed_error. wp_step. wp_step. wp_step.
  eapply wp_mono; [by apply set_not_ready| |done]. intros [] s1 [_ H1]. wp_step. wp_step.
  wp_step; [|done].
  eapply wp_mono; [apply (pres_wp _ _ _ (create_status_file_keeps _ _ _ _ _ _))|..];
    intros ? s2 H2; by eapply keeps_not_ready.
Qed.

Lemma handle_error_not_ready x e s :
  unobstructed E (s_inst s) (w_fs (s_world s)) →
  isinstance e Exception_ = true → isinstance e MultiConfigExtensionEnableError = false →
  is_ok (ext_disallowed_error_map (eh_state (ext_handler (s_inst s)))) = true →
  wp (handle_error E policy_path x e) (λ r s', r = false ∧ ∃ code, not_ready code s')
    (λ _ s', ∃ code, not_ready code s') s.
Proof.
  intros Hu He Hm Hst.
  assert (∀ code op m, wp (reported E x code op m) (λ r s', r = false ∧ ∃ code, not_ready code s')
    (λ _ s', ∃ code, not_ready code s') s) as Hrep.
  { intros code op m. eapply wp_mono; [by apply reported_not_ready|naive_solver..]. }
  assert (∀ code m, wp (handle_ext_disallowed_error E code m x ;; mret false)
    (λ r s', r = false ∧ ∃ code, not_ready code s') (λ _ s', ∃ code, not_ready code s') s) as Hdis'.
  { intros code m. wp_step. eapply wp_mono; [by apply disallowed_not_ready| |naive_solver].
    intros [] s' H. wp_step. eauto. }
  assert (∀ m, wp (disallowed E x m) (λ r s', r = false ∧ ∃ code, not_ready code s')
    (λ _ s', ∃ code, not_ready code s') s) as Hdis.
  { intros m. unfold disallowed. wp_step. wp_step. unfold id. wp_step.
    destruct (ext_disallowed_error_map _) as [[op code]|]; [|done]. wp_step; [|done]. simplify_eq. apply Hdis'. }
  unfold handle_error. rewrite Hm, He. by repeat (case_match; [by auto|]).
Qed.
End reporting.



(** The exit codes of the old version's disable commands are kept in a [defaultdict]
    whose default is "NOT_RUN", but they are read with [get], which does not use the
    default: when the old version is not enabled, so that no disable command runs, the
    update command of a single-config extension is told that the exit code is "None". *)
Theorem disable_not_run_is_reported_as_none (E : env) (u : ust) st s1 i from_version to_version :
  get_handler_state E (mkIst (u_old u) (u_world u)) = (Ok st, s1) → st ≠ ExtHandlerState.Enabled →
  supports_multi_config i = false →
  ∃ codes u', disable_old_handler E u = (Ok codes, u') ∧
    dict_get EnvVar.DisableReturnCode (update_environment i from_version to_version codes) = Some "None" ∧
    "None" ≠ NOT_RUN.
Proof.
  intros Hst Hne Hmc. unfold disable_old_handler, mbind, M_bind, on_old, zoom. rewrite Hst.
  apply String.eqb_neq in Hne. rewrite Hne. eexists _, _. split_and!; [done| |done].
  unfold update_environment. by rewrite Hmc.
Qed.

Lemma disable_not_run_is_reported_as_none_witness :
  ∃ codes u', disable_old_handler sample_env (mkUst (sample_inst "enabled") (sample_inst "enabled") sample_world)
                = (Ok codes, u') ∧
    dict_get EnvVar.DisableReturnCode (update_environment (sample_inst "enabled") "1.1.0" "2.0.0" codes) = Some "None" ∧
    "None" ≠ NOT_RUN.
Proof.
  apply (disable_not_run_is_reported_as_none sample_env
           (mkUst (sample_inst "enabled") (sample_inst "enabled") sample_world) "Installed" (sample_state "enabled")
           (sample_inst "enabled")).
  - vm_compute; reflexivity.
  - discriminate.
  - reflexivity.
Defined.
