(* ===== verification/ExtGoalState.v ===== *)
(** * Processing the extensions of a goal state ([ExtHandlersHandler] of exthandlers.py)

    The loop over the extensions of a goal state: the order given by their dependency
    levels, the policy update before it, the waits between levels, and the aggregate
    status of the goal state.  The handlers of the goal state are shared objects: choosing
    a version for one setting of a handler changes the handler for the next, so an
    instance is created from, and written back to, the list of handlers. *)
From S2P Require Import Policy Prelude PyExn Json FlexVersion World Manifest RestApi ExtInstance.
From S2P Require Import Samples ExtVersion ExtCommands Download ExtStatus ExtHandlers.

(** [GoalStateAggregateStatus] *)
Record aggregate_status := mkAggregate {
  ag_status : string;
  ag_seq_no : string;
  ag_code : Z;
  ag_message : string
}.

(** [GoalStateAggregateStatusCodes] *)
Module AggregateCodes.
Definition Success : Z := 0.
Definition GoalStateUnknownFailure : Z := -1.
Definition GoalStateUnsupportedRequiredFeatures : Z := 2001.
End AggregateCodes.

Record gst := mkGst {
  g_handlers : list Extension;
  g_disallowed : list nat;
  g_engine : PolicyEngine;
  g_aggregate : option aggregate_status;
  g_world : world
}.
Notation GS A := (M gst exn A).

Definition set_aggregate (a : option aggregate_status) (g : gst) : gst :=
  mkGst (g_handlers g) (g_disallowed g) (g_engine g) a (g_world g).

(** A setting to process, with the index of its handler; [None] for a handler without
    settings *)
Notation work_item := (option ExtensionSettings * nat)%type.

(** ** The order of processing *)

(** [__get_dependency_level] *)
Definition get_dependency_level (handlers : list Extension) (t : work_item) : Z :=
  match handlers !! t.2 with
  | Some handler =>
      match t.1 with
      | Some x => settings_sort_key x (eh_state handler)
      | None => extension_sort_key handler
      end
  | None => 0
  end.

Definition all_extensions (handlers : list Extension) : list work_item :=
  mjoin (imap (λ n h, match eh_settings h with
                      | [] => [(None, n)]
                      | l => (λ x, (Some x, n)) <$> l
                      end) handlers).

(** [__get_sorted_extensions_for_processing] *)
Definition get_sorted_extensions_for_processing (handlers : list Extension) : list work_item :=
  sort_by_key (get_dependency_level handlers) (all_extensions handlers).

Section goal_state.
Context (E : env) (penv : policy_env).
(** [conf.get_ignore_ext_signature_validation_errors()], [conf.get_extensions_enabled()],
    the path of the configuration file *)
Context (conf_ignore extensions_enabled : bool) (conf_file : string).

Definition policy_path : string := Policy.policy_file_path penv.

(** ** Waiting for a dependency *)

(** The polling loop of [wait_for_handler_completion]; [fuel] iterations at most *)
Fixpoint wait_loop (fuel : nat) (wait_until : Z) (extension : option ExtensionSettings)
    (last : bool * json) : I (bool * json) :=
  match fuel with
  | O => mret last
  | S fuel' =>
      now ← gets (λ s, w_now (s_world s));
      if now <=? wait_until then
        r ← is_ext_handling_complete E extension;
        if (r.1 : bool) then mret r
        else on_world (sleep (background E) 5) ;; wait_loop fuel' wait_until extension r
      else mret last
  end.

(** Each iteration sleeps for five seconds: this many reach the deadline. *)
Definition wait_fuel (now wait_until : Z) : nat := S (Z.to_nat ((wait_until - now) / 5000000 + 1)).

Definition py_exception (msg : string) : exn := py_error Exception_ msg.

(** [wait_for_handler_completion] *)
Definition wait_for_handler_completion (wait_until : Z) (extension : option ExtensionSettings) : I unit :=
  i ← self id;
  let name := get_extension_full_name i extension in
  match extension with
  | None => mret tt
  | Some _ =>
      start ← gets (λ s, w_now (s_world s));
      '(ext_completed, status) ←
        except Exception_
          (wait_loop (wait_fuel start wait_until) wait_until extension (false, JNull))
          (λ e, raise (py_exception
                  ("Failed to wait for Handler completion due to unknown error. Marking the dependent extension as failed: "
                   +:+ name +:+ ", " +:+ e_msg e)));
      now ← gets (λ s, w_now (s_world s));
      if negb ext_completed && (wait_until <? now) then
        raise (py_exception ("Dependent Extension " +:+ name +:+
                 " did not reach a terminal state within the allowed timeout. Last status was " +:+ py_str status))
      else
        match status with
        | JStr s =>
            if String.eqb s StatusValue.success then mret tt
            else raise (py_exception ("Dependent Extension " +:+ name +:+ " did not succeed. Status was " +:+ s))
        | j => raise (py_exception ("Dependent Extension " +:+ name +:+ " did not succeed. Status was " +:+ py_str j))
        end
  end.

(** ** The loop *)

(** A fresh [ExtHandlerInstance] of handler [n]; the handler is written back, and
    recorded in [_disallowed_ext_handlers] if the instance did so. *)
Definition run_inst {A} (n : nat) (m : I A) : GS A := λ g,
  match g_handlers g !! n with
  | None => (Err (py_error IndexError "list index out of range"), g)
  | Some e =>
      match new_instance E e (w_fs (g_world g)) with
      | Err x => (Err x, g)
      | Ok i =>
          match m (mkIst i (g_world g)) with
          | (r, s) => (r, mkGst (<[n := ext_handler (s_inst s)]> (g_handlers g))
                            (g_disallowed g ++ if is_disallowed (s_inst s) then [n] else [])
                            (g_engine g) (g_aggregate g) (s_world s))
          end
      end
  end.

Record loop_env := mkLoop {
  l_wait_until : Z;
  l_max_dep_level : Z;
  l_policy_error : option exn
}.

(** The branch for an extension whose dependency failed *)
Definition report_dependency_error (extension : option ExtensionSettings) (msg : string) : I unit :=
  i ← self id;
  if should_perform_multi_config_op i extension then
    h ← get_handler_status E;
    when (match h with None => true | Some _ => false end)
      (set_handler_status E ExtHandlerStatusValue.not_ready msg (-1)) ;;
    create_status_file E extension StatusValue.error (-1) (JStr "ExtensionProcessing") msg false
  else set_handler_status E ExtHandlerStatusValue.not_ready msg (-1).

(** The wait after an extension that others depend on: the message for the dependents
    when it failed *)
Definition check_dependency (l : loop_env) (extension : option ExtensionSettings) (success : bool) : I (option string) :=
  i ← self id;
  except Exception_
    ((if success then wait_for_handler_completion (l_wait_until l) extension
      else raise (py_exception ("Skipping processing of extensions since execution of dependent extension "
                                +:+ get_extension_full_name i extension +:+ " failed"))) ;;
     mret None)
    (λ e, mret (Some (e_msg e))).

(** Processing one extension whose dependencies succeeded *)
Definition process_extension (l : loop_env) (pe : PolicyEngine) (dep_level : Z)
    (extension : option ExtensionSettings) : I (option string) :=
  success ← handle_ext_handler E pe policy_path conf_ignore extension;
  if (0 <=? dep_level) && (dep_level <? l_max_dep_level l)
  then check_dependency l extension success else mret None.

(** One iteration; the argument and the result are [depends_on_err_msg]. *)
Definition handle_one (l : loop_env) (t : work_item) (depends_on_err_msg : option string) : GS (option string) :=
  let '(extension, n) := t in
  g ← get_state;
  match g_handlers g !! n with
  | None => raise (py_error IndexError "list index out of range")
  | Some handler =>
      run_inst n (mret tt) ;;
      '(_, error_code) ← lift (ext_disallowed_error_map (eh_state handler));
      if negb extensions_enabled then
        run_inst n (i ← self id;
          handle_ext_disallowed_error E error_code
            ("Extension '" +:+ get_extension_full_name i extension +:+
             "' will not be processed since extension processing is disabled. To enable extension processing, set Extensions.Enabled=y in '"
             +:+ conf_file +:+ "'") extension) ;;
        mret depends_on_err_msg
      else
        match (if policy_enforcement_enabled (g_engine g) then l_policy_error l else None) with
        | Some policy_error =>
                run_inst n (handle_ext_disallowed_error E error_code
              ("Extension will not be processed due to an error verifying extension policy: "
               +:+ e_msg policy_error) extension) ;;
            mret depends_on_err_msg
        | None =>
            match depends_on_err_msg with
            | Some msg => run_inst n (report_dependency_error extension msg) ;; mret depends_on_err_msg
            | None =>
                run_inst n (process_extension l (g_engine g) (get_dependency_level (g_handlers g) t) extension)
            end
        end
  end.

Fixpoint handle_all (l : loop_env) (ts : list work_item) (depends_on_err_msg : option string) : GS unit :=
  match ts with
  | [] => mret tt
  | t :: ts' => err ← handle_one l t depends_on_err_msg; handle_all l ts' err
  end.

Definition DEFAULT_EXT_TIMEOUT : Z := 90 * 60 * 1000000.

(** Running [update_policy] on the engine of the handler *)
Definition update_engine : GS unit :=
  zoom g_engine (λ e g, mkGst (g_handlers g) (g_disallowed g) e (g_aggregate g) (g_world g))
    (Policy.update_policy penv).

(** [handle_ext_handlers] *)
Definition handle_ext_handlers : GS unit :=
  g ← get_state;
  match g_handlers g with
  | [] => mret tt
  | handlers =>
      let wait_until := w_now (g_world g) + DEFAULT_EXT_TIMEOUT in
      let items := get_sorted_extensions_for_processing handlers in
      let max_dep_level := match last items with
                           | Some t => get_dependency_level handlers t
                           | None => 0
                           end in
      policy_error ← except Exception_ (update_engine ;; mret None) (λ e, mret (Some e));
      handle_all (mkLoop wait_until max_dep_level policy_error) items None
  end.

(** [__process_and_handle_extensions] *)
Definition process_and_handle_extensions (required_features supported : list string)
    (svd_sequence_number goal_state_id : string) : GS unit :=
  except Exception_
    (let unsupported := filter (λ f, f ∉ supported) required_features in
     match unsupported with
     | _ :: _ =>
         modify (set_aggregate (Some (mkAggregate "Failed" svd_sequence_number
           AggregateCodes.GoalStateUnsupportedRequiredFeatures
           ("Failing GS " +:+ goal_state_id +:+ " as Unsupported features found: " +:+ str_join ", " unsupported))))
     | [] =>
         handle_ext_handlers ;;
         modify (set_aggregate (Some (mkAggregate "Success" svd_sequence_number
           AggregateCodes.Success "GoalState executed successfully")))
     end)
    (λ error,
       modify (set_aggregate (Some (mkAggregate "Failed" svd_sequence_number
         AggregateCodes.GoalStateUnknownFailure
         ("Unexpected error when processing goal state:" +:+ e_msg error))))).
End goal_state.


(** ** What is not processed starts nothing *)

Definition grows_g (P : list event → Prop) (g g' : gst) : Prop := grows P (g_world g) (g_world g').

#[export] Instance grows_g_preorder P `{!TraceProp P} : PreOrder (grows_g P).
Proof. split; [intros g; unfold grows_g; reflexivity|intros a b c; unfold grows_g; apply transitivity]. Qed.

Section blocked.
Context (E : env) (penv : policy_env) (conf_ignore extensions_enabled : bool) (conf_file : string).
Notation one := (handle_one E penv conf_ignore extensions_enabled conf_file).
Notation all := (handle_all E penv conf_ignore extensions_enabled conf_file).

Lemma run_inst_grows P `{!TraceProp P} {A} n (m : I A) : pres (grows_i P) m → pres (grows_g P) (run_inst E n m).
Proof.
  intros Hm g. unfold run_inst. destruct (g_handlers g !! n) as [e|]; [|reflexivity].
  destruct (new_instance E e (w_fs (g_world g))) as [i|x]; [|reflexivity].
  specialize (Hm (mkIst i (g_world g))). by destruct (m _).
Qed.
Hint Resolve run_inst_grows : pres.

Lemma report_dependency_error_grows P `{!TraceProp P} x msg : pres (grows_i P) (report_dependency_error E x msg).
Proof. unfold report_dependency_error. pres_auto. Qed.

Lemma handle_ext_disallowed_error_grows P `{!TraceProp P} c msg x :
  pres (grows_i P) (handle_ext_disallowed_error E c msg x).
Proof. unfold handle_ext_disallowed_error, handle_and_report_errors. pres_auto. Qed.
Hint Resolve report_dependency_error_grows handle_ext_disallowed_error_grows : pres.

(** The conditions under which an iteration does not process its extension *)
Definition blocked (l : loop_env) (g : gst) (err : option string) : Prop :=
  extensions_enabled = false ∨
  policy_enforcement_enabled (g_engine g) = true ∧ is_Some (l_policy_error l) ∨
  is_Some err.

Lemma run_inst_engine {A} n (m : I A) g : g_engine (run_inst E n m g).2 = g_engine g.
Proof. unfold run_inst. by repeat case_match. Qed.

Lemma handle_one_blocked l t err g :
  blocked l g err →
  wp (one l t err) (λ err' g', grows_g inert g g' ∧ g_engine g' = g_engine g ∧ err' = err)
    (λ _ g', grows_g inert g g') g.
Proof.
  intros Hb. destruct t as [x n]. unfold handle_one. cbv beta iota. wp_step.
  wp_step. unfold id.
  assert (∀ {A} (m : I A) R, pres (grows_i inert) m → grows_g inert g R →
    wp (run_inst E n m) (λ _ g', grows_g inert g g' ∧ g_engine g' = g_engine R) (λ _ g', grows_g inert g g') R) as Hrun.
  { intros A m R Hm HR. pose proof (run_inst_grows inert n m Hm R) as H1.
    pose proof (run_inst_engine n m R) as H2. unfold wp.
    destruct (run_inst E n m R) as [[] ?]; simpl in *; repeat split; try done; by etrans. }
  wp_step; [|wp_step; reflexivity]. wp_step.
  eapply wp_mono; [apply Hrun; [auto with pres typeclass_instances|reflexivity]| |done].
  intros _ g1 [H1 He1]. wp_step. wp_step; [|done]. destruct a as [c code]. wp_step.
  - wp_step. eapply wp_mono; [apply Hrun; [pres_auto|done]| |done].
    intros _ g2 [H2 He2]. wp_step. rewrite He2. auto.
  - destruct Hb as [Hb|[[Hb1 [pe' Hb2]]|[msg ->]]]; [by rewrite Hb in *|..].
    + rewrite Hb1, Hb2. wp_step. eapply wp_mono; [apply Hrun; [pres_auto|done]| |done].
      intros _ g2 [H2 He2]. wp_step. rewrite He2. auto.
    + wp_step; wp_step; (eapply wp_mono; [apply Hrun; [pres_auto|done]| |done]);
        intros _ g2 [H2 He2]; wp_step; rewrite He2; auto.
Qed.

Lemma handle_all_blocked l ts err g :
  blocked l g err → grows_g inert g (all l ts err g).2.
Proof.
  intros Hb.
  assert (wp (all l ts err) (λ _ g', grows_g inert g g') (λ _ g', grows_g inert g g') g) as H.
  { revert g Hb. induction ts as [|t ts IH]; intros g Hb; simpl; [wp_step; reflexivity|].
    wp_step. eapply wp_mono; [by apply handle_one_blocked| |done].
    intros err' g' (Hg & He & ->). eapply wp_mono; [apply IH|..].
    - unfold blocked. by rewrite He.
    - intros ? g2 ?. by etrans.
    - intros ? g2 ?. by etrans. }
  by apply wp_end in H.
Qed.
End blocked.

(** ** The wait for a dependency *)

Section wait.
Context (E : env).

(** What the loop returns was returned by a poll of the extension, except when the
    deadline had passed at once; when the poll says that the extension is complete, the
    loop stops there. *)
Lemma wait_loop_polls fuel wu x last s0 s :
  grows_i inert s0 s →
  wp (wait_loop E fuel wu x last)
    (λ r s', r = last ∨ ∃ s1 s2, grows_i inert s0 s1 ∧ is_ext_handling_complete E x s1 = (Ok r, s2) ∧
               (r.1 = true → s' = s2))
    (λ _ _, True) s.
Proof.
  revert last s. induction fuel as [|fuel IH]; intros last s Hs; simpl; [wp_step; by left|].
  wp_step. wp_step. wp_step; [|wp_step; by left]. wp_step.
  pose proof (is_ext_handling_complete_grows E inert x s) as Hp.
  destruct (is_ext_handling_complete E x s) as [[r|e] s1] eqn:Hr; unfold wp at 1; rewrite Hr; [|done].
  simpl in Hp. wp_step.
  { wp_step. right. exists s, s1. auto. }
  wp_step. eapply wp_mono; [apply (pres_wp_from (grows_i inert) _ s0)| |done].
  { apply on_world_grows, sleep_grows, _. } { by etrans. }
  intros [] s2 H2. eapply wp_mono; [by apply IH| |done].
  intros r' s' [->|H']; [|by right]. right. exists s, s1. split_and!; [done..|]. by rewrite Heqb0.
Qed.

(** The wait succeeds only when the extension reported success. *)
Lemma wait_success wu x s0 :
  wp (wait_for_handler_completion E wu (Some x))
    (λ _ s', ∃ s1, grows_i inert s0 s1 ∧
       is_ext_handling_complete E (Some x) s1 = (Ok (true, JStr StatusValue.success), s'))
    (λ _ _, True) s0.
Proof.
  unfold wait_for_handler_completion. wp_step. wp_step. wp_step. wp_step. wp_step.
  apply wp_except. eapply wp_mono; [apply wait_loop_polls; reflexivity| |].
  2:{ intros e s' _. split; [intros; by wp_step|done]. }
  intros [b status] s' H. wp_step. wp_step. wp_step; [by wp_step|].
  wp_step; [by wp_step..| |by wp_step|by wp_step]. wp_step; [|by wp_step]. wp_step.
  apply String.eqb_eq in Heqb1 as ->. destruct H as [|(s1 & s2 & Hg & Hp & Hs)]; [done|].
  pose proof (success_is_complete _ _ _ _ _ Hp) as ->. rewrite Hs by done. eauto.
Qed.

Definition not_earlier (s s' : ist) : Prop := w_now (s_world s) ≤ w_now (s_world s').

#[export] Instance not_earlier_preorder : PreOrder not_earlier.
Proof. split; unfold not_earlier; [intros s; lia|intros a b c; lia]. Qed.

Lemma poll_not_earlier x : pres not_earlier (is_ext_handling_complete E x).
Proof.
  assert (PreOrder (λ w w' : world, w_now w ≤ w_now w')) by (split; [intros w; lia|intros a b c; lia]).
  apply (is_ext_handling_complete_pres _ _ (λ w w', w_now w ≤ w_now w')).
  - done.
  - intros w. simpl. unfold STATUS_FILE_RETRY_DELAY. lia.
Qed.

Lemma wait_loop_fuel wu x n m last s :
  wu - w_now (s_world s) < 5000000 * Z.of_nat n → (n ≤ m)%nat →
  wait_loop E m wu x last s = wait_loop E n wu x last s.
Proof.
  revert m last s. induction n as [|n IH]; intros m last s Hwu Hm; (destruct m as [|m]; [done || lia|]).
  - simpl. unfold mbind, M_bind, gets. destruct (Z.leb_spec (w_now (s_world s)) wu); [lia|done].
  - simpl. unfold mbind, M_bind, gets. destruct (Z.leb_spec (w_now (s_world s)) wu); [|done].
    pose proof (poll_not_earlier x s) as Hp. unfold not_earlier in Hp.
    destruct (is_ext_handling_complete E x s) as [[r|e] s1]; [|done]. simpl in Hp.
    destruct (r.1); [done|]. simpl. apply IH; [|lia]. simpl. lia.
Qed.
End wait.

(** ** The theorems *)

(** What blocks every extension of a goal state: the configuration, or a policy that the
    user wants enforced and that cannot be read or is not a valid policy *)
Definition processing_blocked (penv : policy_env) (extensions_enabled : bool) : Prop :=
  extensions_enabled = false ∨
  (Policy.get_policy_enforcement_enabled penv = true ∧
   ∃ x, (j ← Policy.read_policy penv; Policy.parse_policy penv j) = Err x ∧ isinstance x Exception_ = true).

Lemma policy_update_blocks penv extensions_enabled g :
  processing_blocked penv extensions_enabled →
  wp (except Exception_ (update_engine penv ;; mret None) (λ e, mret (Some e)))
    (λ pe g1, g_world g1 = g_world g ∧ ∀ wu d, blocked extensions_enabled (mkLoop wu d pe) g1 None)
    (λ _ g1, g_world g1 = g_world g) g.
Proof.
  intros Hb. unfold wp, except, catch, update_engine, zoom, mbind, M_bind.
  rewrite Policy.update_policy_unfold. unfold processing_blocked, blocked in *.
  destruct (Policy.get_policy_enforcement_enabled penv); [|naive_solver].
  destruct (Policy.read_policy penv ≫= _) as [p|x]; [naive_solver|].
  destruct (isinstance x Exception_); [|done]. simpl. split; [done|]. intros wu d. right. left. split; [done|]. by eexists.
Qed.

(** C5: when extensions are disabled in the configuration, or when the user enabled policy
    enforcement and the policy cannot be read or is not a valid policy, processing a goal
    state starts no command and extracts nothing, for any goal state. *)
Theorem blocked_goal_state_runs_nothing (E : env) (penv : policy_env) conf_ignore extensions_enabled conf_file (g : gst) :
  processing_blocked penv extensions_enabled →
  ∃ evs, w_trace (g_world (handle_ext_handlers E penv conf_ignore extensions_enabled conf_file g).2)
         = w_trace (g_world g) ++ evs ∧ inert evs.
Proof.
  intros Hb.
  assert (wp (handle_ext_handlers E penv conf_ignore extensions_enabled conf_file)
            (λ _ g', grows_g inert g g') (λ _ g', grows_g inert g g') g) as H.
  { unfold handle_ext_handlers. wp_step. wp_step. unfold id.
    destruct (g_handlers g) as [|h hs]; [wp_step; reflexivity|]. wp_step.
    eapply wp_mono; [by apply policy_update_blocks|..].
    - intros pe g1 [Hw Hg]. match goal with |- wp (handle_all _ _ _ _ _ ?l ?ts _) _ _ _ =>
        pose proof (handle_all_blocked E penv conf_ignore _ conf_file l ts _ _ (Hg _ _)) as Hall end.
      apply wp_end. unfold grows_g in *. by rewrite Hw in Hall.
    - intros e g1 Hw. unfold grows_g. by rewrite Hw. }
  by apply wp_end in H.
Qed.


(** C39: the wait for a dependency ends: each poll that does not find the extension in a
    terminal state is followed by five seconds of sleep, so the polls that fit before the
    deadline are bounded, and allowing more changes nothing. *)
Theorem wait_for_dependency_terminates (E : env) (wait_until : Z) x last (s : ist) (extra : nat) :
  wait_loop E (wait_fuel (w_now (s_world s)) wait_until + extra) wait_until x last s =
  wait_loop E (wait_fuel (w_now (s_world s)) wait_until) wait_until x last s.
Proof.
  apply wait_loop_fuel; [|lia]. unfold wait_fuel.
  pose proof (Z.mul_succ_div_gt (wait_until - w_now (s_world s)) 5000000). lia.
Qed.

(** ** The theorems on the sample machine *)

Definition sample_goal_state : gst :=
  mkGst [sample_extension "enabled"] [] (Policy.init_engine Policy.broken_env) None sample_world.

Lemma blocked_goal_state_runs_nothing_witness :
  processing_blocked Policy.broken_env true ∧
  ∃ evs, w_trace (g_world (handle_ext_handlers sample_env Policy.broken_env false true "/etc/waagent.conf"
                             sample_goal_state).2) = evs ∧ inert evs.
Proof.
  assert (processing_blocked Policy.broken_env true) as H.
  { right. split; [reflexivity|]. eexists. split; vm_compute; reflexivity. }
  split; [exact H|]. apply (blocked_goal_state_runs_nothing sample_env _ false true "/etc/waagent.conf" sample_goal_state H).
Defined.

Definition sample_loop : loop_env := mkLoop 100000000 2 None.
Definition no_policy : PolicyEngine := Policy.mkEngine false Policy.default_policy.

