(* ===== verification/GuestAgent.v ===== *)
(** * The versions of the agent on disk ([ga/guestagent.py])

    Each version of the agent is a directory with a handler manifest, a record of its
    failures ([GuestAgentError], error.json) and a count of the updates attempted to it
    ([GuestAgentUpdateAttempt], update_attempt.json).  A version whose record says that it
    failed fatally, or three times, is blacklisted and not started again.

    The two records hold what [json.load] returns, as the agent uses it; an object is a
    value that the methods return changed. *)
From S2P Require Import Prelude PyExn Json FlexVersion World Manifest RestApi ExtInstance.
From S2P Require Import Download Samples.

(** What JSON numbers are: the value of a number in microseconds ([None] for what is not
    a number), the number written for a time, and the integer part of a float literal. *)
Record numbers := mkNumbers {
  json_time : json → option Z;
  time_json : Z → json;
  float_floor : string → Z
}.

Definition MAX_FAILURE : Z := 3.
Definition AGENT_NAME : string := "WALinuxAgent".

(** The integer part of a number; booleans are numbers in Python. *)
Definition json_count (N : numbers) (j : json) : option Z :=
  match j with
  | JInt z => Some z
  | JBool b => Some (if b then 1 else 0)
  | JFloat l => Some (float_floor N l)
  | _ => None
  end.

Definition number_error (op : string) (j : json) : exn :=
  py_error TypeError ("'" +:+ op +:+ "' not supported between instances of '" +:+ type_name j +:+ "' and 'int'").

(** ** [GuestAgentError] *)

Record GuestAgentError := mkGAError {
  last_failure : Z;
  failure_count : Z;
  was_fatal : json;
  ge_reason : json
}.

(** [GuestAgentError.clear], also the state after [__init__] *)
Definition cleared_error : GuestAgentError := mkGAError 0 0 (JBool false) (JStr "").

(** [GuestAgentError.mark_failure] *)
Definition error_mark_failure (now : Z) (is_fatal : bool) (reason : string) (e : GuestAgentError) : GuestAgentError :=
  mkGAError now (failure_count e + 1) (JBool is_fatal) (JStr reason).

(** [GuestAgentError.is_blacklisted] *)
Definition error_is_blacklisted (e : GuestAgentError) : bool :=
  truthy (was_fatal e) || (MAX_FAILURE <=? failure_count e).

Section guest_agent.
Context (E : env) (N : numbers).

(** [GuestAgentError.from_json]: the attributes assigned before an exception stay. *)
Definition error_from_json (data : json) : M GuestAgentError exn unit :=
  t ← lift (json_get_default "last_failure" (time_json N 0) data);
  t ← match json_time N t with Some t => mret t | None => raise (number_error ">" t) end;
  modify (λ e, mkGAError (Z.max (last_failure e) t) (failure_count e) (was_fatal e) (ge_reason e)) ;;
  c ← lift (json_get_default "failure_count" (JInt 0) data);
  c ← match json_count N c with Some c => mret c | None => raise (number_error ">" c) end;
  modify (λ e, mkGAError (last_failure e) (Z.max (failure_count e) c) (was_fatal e) (ge_reason e)) ;;
  fatal ← lift (json_get_default "was_fatal" (JBool false) data);
  modify (λ e, mkGAError (last_failure e) (failure_count e)
                 (if truthy (was_fatal e) then was_fatal e else fatal) (ge_reason e)) ;;
  reason ← lift (json_get_default "reason" (JStr "") data);
  modify (λ e, mkGAError (last_failure e) (failure_count e) (was_fatal e)
                 (match reason with JStr "" => ge_reason e | _ => reason end)).

(** [GuestAgentError.to_json] *)
Definition error_to_json (e : GuestAgentError) : json :=
  JObj [("last_failure", time_json N (last_failure e)); ("failure_count", JInt (failure_count e));
        ("was_fatal", was_fatal e); ("reason", JStr (py_str (ge_reason e)))].

(** Reading a record: [json.load] and [from_json]; a file that is malformed is deleted,
    if possible, and what was assigned from it before the error is kept. *)
Definition load_record {A} (p : path) (from_json : json → M A exn unit) (a : A) : M world exn A := λ w,
  match w_fs w !! p with
  | Some (File c _) =>
      let '(r, a') := match c_json c with
                      | Some j => from_json j a
                      | None => (Err (py_error ValueError "Expecting value"), a)
                      end in
      match r with
      | Ok _ => (Ok a', w)
      | Err e =>
          if isinstance e Exception_
          then (Ok a', (except Exception_ (remove_file (write_fault E) p) (λ _, mret tt) w).2)
          else (Err e, w)
      end
  | _ => (Ok a, w)
  end.

(** Writing a record, when its directory exists *)
Definition save_record (p : path) (j : json) : M world exn unit :=
  has_dir ← gets (λ w, isdir (parent_dir p) (w_fs w));
  when has_dir (write_file (write_fault E) p (json_content j)).

(** ** [GuestAgentUpdateAttempt]: the [count] attribute *)

Definition attempt_from_json (data : json) : M json exn unit :=
  c ← lift (json_get_default "count" (JInt 0) data); modify (λ _, c).
Definition attempt_to_json (count : json) : json := JObj [("count", count)].

(** [inc_count]: a number that is not an integer counts by its integer part. *)
Definition inc_count (count : json) : res exn json :=
  match json_count N count with
  | Some z => Ok (JInt (z + 1))
  | None => Err (number_error "+" count)
  end.

(** ** [GuestAgent] *)

Record GuestAgent := mkGuestAgent {
  ga_pkg : option ExtHandlerPackage;
  ga_version : FlexibleVersion;
  ga_error : GuestAgentError;
  ga_attempts : json;
  ga_manifest : option json
}.

Definition agent_name (v : FlexibleVersion) : string := AGENT_NAME +:+ "-" +:+ fv_str v.
Definition get_agent_dir (v : FlexibleVersion) : path := lib_dir E ++ [agent_name v].
Definition get_agent_error_file (v : FlexibleVersion) : path := get_agent_dir v ++ ["error.json"].
Definition get_agent_update_count_file (v : FlexibleVersion) : path := get_agent_dir v ++ ["update_attempt.json"].
Definition get_agent_manifest_path (v : FlexibleVersion) : path := get_agent_dir v ++ ["HandlerManifest.json"].

Definition update_error (msg : string) : exn := agent_error UpdateError msg None (-1).

(** [len(x)] of the enable command *)
Definition json_len (j : json) : res exn Z :=
  match j with
  | JStr s => Ok (str_len s)
  | JArr l => Ok (Z.of_nat (length l))
  | JObj d => Ok (Z.of_nat (length d))
  | _ => Err (py_error TypeError ("object of type '" +:+ type_name j +:+ "' has no len()"))
  end.

Definition checked_manifest (manifest : json) : res exn json :=
  man ← new_manifest manifest;
  cmd ← get_enable_command man;
  n ← json_len cmd;
  if n <=? 0 then Err (py_error Exception_ "Manifest is missing the enable command") else Ok man.

(** [_load_manifest]: the manifest of the file, or the error *)
Definition agent_load_manifest (v : FlexibleVersion) (f : fs) : res exn json :=
  let name := agent_name v in
  match f !! get_agent_manifest_path v with
  | Some (File c _) =>
      match c_json c with
      | None => Err (update_error ("Agent " +:+ name +:+ " has a malformed HandlerManifest.json (Expecting value)"))
      | Some (JArr []) => Err (update_error ("Agent " +:+ name +:+ " has an empty HandlerManifest.json"))
      | Some j =>
          let manifest := match j with JArr (x :: _) => x | _ => j end in
          match checked_manifest manifest with
          | Ok man => Ok man
          | Err e => if isinstance e Exception_
                     then Err (update_error ("Agent " +:+ name +:+ " has an illegal HandlerManifest.json: " +:+ e_msg e))
                     else Err e
          end
      end
  | _ => Err (update_error ("Agent " +:+ name +:+ " is missing the HandlerManifest.json file"))
  end.

(** [shutil.rmtree(p, ignore_errors=True)] *)
Definition rmtree_ignore (p : path) : M world exn unit := λ w, (Ok tt, (rmtree (write_fault E) p w).2).

(** [GuestAgent.__init__] once the version is known: a version that cannot be loaded is
    deleted from the disk and the object is returned all the same. *)
Definition load_agent (p : option ExtHandlerPackage) (v : FlexibleVersion) : M world exn GuestAgent :=
  error ← load_record (get_agent_error_file v) error_from_json cleared_error;
  attempts ← load_record (get_agent_update_count_file v) attempt_from_json (JInt 0);
  f ← gets w_fs;
  match agent_load_manifest v f with
  | Ok man =>
      error ← load_record (get_agent_error_file v) error_from_json cleared_error;
      mret (mkGuestAgent p v error attempts (Some man))
  | Err e =>
      if isinstance e Exception_ then
        has_dir ← gets (λ w, isdir (get_agent_dir v) (w_fs w));
        when has_dir (rmtree_ignore (get_agent_dir v)) ;;
        mret (mkGuestAgent p v error attempts None)
      else raise e
  end.

(** The version in the name of an agent directory: the group of [AGENT_DIR_PATTERN] *)
Definition version_of_dir (name : string) : option string := strip_prefix (AGENT_NAME +:+ "-") name.

(** [from_installed_agent] for a directory of the library directory *)
Definition from_installed_agent (name : string) : M world exn GuestAgent :=
  match version_of_dir name with
  | None => raise (update_error ("Illegal agent directory: " +:+ name))
  | Some s => v ← lift (FV s); load_agent None v
  end.

(** [from_agent_package] *)
Definition from_agent_package (p : ExtHandlerPackage) : M world exn GuestAgent :=
  v ← lift (FV (pkg_version p)); load_agent (Some p) v.

Definition set_error (e : GuestAgentError) (a : GuestAgent) : GuestAgent :=
  mkGuestAgent (ga_pkg a) (ga_version a) e (ga_attempts a) (ga_manifest a).

Definition is_blacklisted (a : GuestAgent) : bool := error_is_blacklisted (ga_error a).
Definition is_downloaded (a : GuestAgent) (f : fs) : bool :=
  is_blacklisted a || isfile (get_agent_manifest_path (ga_version a)) f.
Definition is_available (a : GuestAgent) (f : fs) : bool := is_downloaded a f && negb (is_blacklisted a).

(** [clear_error] *)
Definition clear_error (a : GuestAgent) : M world exn GuestAgent :=
  save_record (get_agent_error_file (ga_version a)) (error_to_json cleared_error) ;;
  mret (set_error cleared_error a).

(** [GuestAgent.mark_failure]: an error in recording the failure is only logged; the
    object has the failure whenever the directory could be created. *)
Definition mark_failure (is_fatal : bool) (reason : string) (a : GuestAgent) : M world exn GuestAgent := λ w,
  let d := get_agent_dir (ga_version a) in
  match (if isdir d (w_fs w) then (Ok tt, w) else mkdir (write_fault E) d w) with
  | (Err e, w1) => if isinstance e Exception_ then (Ok a, w1) else (Err e, w1)
  | (Ok _, w1) =>
      let a' := set_error (error_mark_failure (w_now w1) is_fatal reason (ga_error a)) a in
      match save_record (get_agent_error_file (ga_version a)) (error_to_json (ga_error a')) w1 with
      | (Ok _, w2) => (Ok a', w2)
      | (Err e, w2) => if isinstance e Exception_ then (Ok a', w2) else (Err e, w2)
      end
  end.

(** [inc_update_attempt_count]: errors are only logged. *)
Definition inc_update_attempt_count (a : GuestAgent) : M world exn GuestAgent := λ w,
  match inc_count (ga_attempts a) with
  | Err e => if isinstance e Exception_ then (Ok a, w) else (Err e, w)
  | Ok c =>
      let a' := mkGuestAgent (ga_pkg a) (ga_version a) (ga_error a) c (ga_manifest a) in
      match save_record (get_agent_update_count_file (ga_version a)) (attempt_to_json c) w with
      | (Ok _, w') => (Ok a', w')
      | (Err e, w') => if isinstance e Exception_ then (Ok a', w') else (Err e, w')
      end
  end.

(** ** [GuestAgentUpdateUtil] *)

Definition get_initial_update_state_file : path := lib_dir E ++ ["waagent_initial_update"].
Definition get_rsm_update_state_file : path := lib_dir E ++ ["waagent_rsm_update"].

(** Creating an empty state file; errors are only logged. *)
Definition save_state_file (p : path) : M world exn unit :=
  except Exception_ (write_file (write_fault E) p (plain "")) (λ _, mret tt).

Definition save_initial_update_state_file : M world exn unit := save_state_file get_initial_update_state_file.
Definition save_rsm_update_state_file : M world exn unit := save_state_file get_rsm_update_state_file.
Definition remove_rsm_update_state_file : M world exn unit :=
  except Exception_
    (present ← gets (λ w, exists_path get_rsm_update_state_file (w_fs w));
     when present (remove_file (write_fault E) get_rsm_update_state_file))
    (λ _, mret tt).
Definition is_initial_update (f : fs) : bool := negb (exists_path get_initial_update_state_file f).
Definition is_last_update_with_rsm (f : fs) : bool := exists_path get_rsm_update_state_file f.
End guest_agent.

(** ** Errors *)

Section agent_raises.
Context (E : env) (N : numbers) `{!OrdinaryEnv E}.

Lemma json_get_default_ordinary k d j : fails_with ordinary (json_get_default k d j).
Proof. unfold json_get_default, json_get. raises_auto. Qed.
Hint Resolve json_get_default_ordinary : raises.

Lemma error_from_json_ordinary j : raises ordinary (error_from_json N j).
Proof. unfold error_from_json. raises_auto. Qed.

Lemma attempt_from_json_ordinary j : raises ordinary (attempt_from_json j).
Proof. unfold attempt_from_json. raises_auto. Qed.

(** Loading a record never raises. *)
Lemma load_record_ok {A} p (from_json : json → M A exn unit) a w :
  (∀ j, raises ordinary (from_json j)) → ∃ a' w', load_record E p from_json a w = (Ok a', w').
Proof.
  intros Hj. unfold load_record. destruct (w_fs w !! p) as [[|c t]|]; eauto.
  destruct (c_json c) as [j|]; [|simpl; eauto]. specialize (Hj j a).
  destruct (from_json j a) as [[[]|e] a'] eqn:Hr; eauto. rewrite (Hj e eq_refl). eauto.
Qed.

Lemma load_record_ordinary {A} p (from_json : json → M A exn unit) a :
  (∀ j, raises ordinary (from_json j)) → raises ordinary (load_record E p from_json a).
Proof. intros Hj w e. destruct (load_record_ok p from_json a w Hj) as (a' & w' & ->). done. Qed.

Lemma json_getitem_ordinary k j : fails_with ordinary (json_getitem k j).
Proof. unfold json_getitem. raises_auto. Qed.
Hint Resolve json_getitem_ordinary : raises.

Lemma checked_manifest_ordinary j : fails_with ordinary (checked_manifest j).
Proof. unfold checked_manifest, new_manifest, get_enable_command, get_manifest_command, json_len. raises_auto. Qed.

Lemma agent_load_manifest_ordinary v f : fails_with ordinary (agent_load_manifest E v f).
Proof.
  unfold agent_load_manifest. intros e. repeat case_match; intros [= <-]; try done;
    by eapply checked_manifest_ordinary.
Qed.

Lemma load_agent_ordinary p v : raises ordinary (load_agent E N p v).
Proof.
  unfold load_agent. raises_auto;
    first [ by eapply agent_load_manifest_ordinary | by intros w x
          | apply load_record_ordinary; auto using error_from_json_ordinary, attempt_from_json_ordinary ].
Qed.

Lemma save_record_ordinary p j : raises ordinary (save_record E p j).
Proof. unfold save_record. raises_auto. apply write_file_ordinary, ordinary_write. Qed.

Lemma from_agent_package_ordinary p : raises ordinary (from_agent_package E N p).
Proof. unfold from_agent_package. raises_auto. apply load_agent_ordinary. Qed.

Lemma from_installed_agent_ordinary x : raises ordinary (from_installed_agent E N x).
Proof. unfold from_installed_agent. raises_auto. apply load_agent_ordinary. Qed.

Lemma clear_error_ordinary a : raises ordinary (clear_error E N a).
Proof. unfold clear_error. raises_auto. apply save_record_ordinary. Qed.

(** Recording a failure or an attempt never raises. *)
Ltac saved := match goal with |- context [save_record E ?p ?j ?w] =>
  let H := fresh in pose proof (save_record_ordinary p j w) as H;
  destruct (save_record E p j w) as [[[]|?] ?]; simpl in *; [|rewrite (H _ eq_refl)] end.

Lemma mark_failure_ok b r a w : ∃ a' w', mark_failure E N b r a w = (Ok a', w').
Proof.
  unfold mark_failure.
  pose proof (mkdir_ordinary _ ordinary_write (get_agent_dir E (ga_version a)) w) as Hm.
  destruct (isdir _ _); [saved; eauto|].
  destruct (mkdir _ _ w) as [[[]|e] w1]; simpl in Hm; [saved; eauto|rewrite (Hm e eq_refl); eauto].
Qed.

Lemma inc_update_attempt_count_ok a w : ∃ a' w', inc_update_attempt_count E N a w = (Ok a', w').
Proof.
  unfold inc_update_attempt_count, inc_count. destruct (json_count N (ga_attempts a)); [|simpl; eauto].
  saved; eauto.
Qed.
End agent_raises.

(** ** What is remembered across restarts *)

Section remembered.
Context (E : env) (N : numbers).
Context (Hfault : ∀ p, write_fault E p = None).
Context (Htime : ∀ t, json_time N (time_json N t) = Some t).

(** The record of failures, written and read again *)
Lemma error_roundtrip e :
  0 ≤ last_failure e → 0 ≤ failure_count e →
  (∃ b, was_fatal e = JBool b) → (∃ r, ge_reason e = JStr r) →
  error_from_json N (error_to_json N e) cleared_error = (Ok tt, e).
Proof.
  intros Hl Hc [b Hb] [r Hr]. destruct e as [l c f rs]. simpl in *. subst.
  unfold error_from_json, mbind, M_bind, lift, modify, mret, M_ret. simpl. rewrite Htime. simpl.
  rewrite !Z.max_r by done. do 2 f_equal. by destruct r.
Qed.

Lemma save_record_writes p j w :
  isdir (parent_dir p) (w_fs w) = true → isdir p (w_fs w) = false →
  save_record E p j w = (Ok tt, with_fs <[p := File (json_content j) (w_now w)]> w).
Proof.
  intros Hd Hp. unfold save_record, mbind, M_bind, gets, when. rewrite Hd. unfold write_file.
  by rewrite Hp, Hd, Hfault.
Qed.

Lemma load_record_reads {A} p (from_json : json → M A exn unit) a w c t a' j :
  w_fs w !! p = Some (File c t) → c_json c = Some j → from_json j a = (Ok tt, a') →
  load_record E p from_json a w = (Ok a', w).
Proof. intros Hp Hc Hj. unfold load_record. by rewrite Hp, Hc, Hj. Qed.

(** Loading a record leaves the other files alone. *)
Lemma load_record_other {A} p q (from_json : json → M A exn unit) a w :
  q ≠ p → w_fs (load_record E p from_json a w).2 !! q = w_fs w !! q.
Proof.
  intros Hq.
  assert (w_fs (except Exception_ (remove_file (write_fault E) p) (λ _, mret tt) w).2 !! q = w_fs w !! q) as Hr.
  { unfold except, catch, remove_file. rewrite Hfault. destruct (isfile p (w_fs w)); simpl; [by rewrite lookup_delete_ne|done]. }
  unfold load_record. by repeat case_match.
Qed.

Lemma agent_load_manifest_file v f g :
  g !! get_agent_manifest_path E v = f !! get_agent_manifest_path E v →
  agent_load_manifest E v g = agent_load_manifest E v f.
Proof. intros H. unfold agent_load_manifest. by rewrite H. Qed.

Lemma agent_file_ne v x y : x ≠ y → get_agent_dir E v ++ [x] ≠ get_agent_dir E v ++ [y].
Proof. intros H ?. by simplify_list_eq. Qed.

(** Loading a version whose record of failures can be read and whose manifest is legal *)
Lemma load_agent_reads pk v w e man c t :
  agent_load_manifest E v (w_fs w) = Ok man →
  w_fs w !! get_agent_error_file E v = Some (File c t) → c_json c = Some (error_to_json N e) →
  error_from_json N (error_to_json N e) cleared_error = (Ok tt, e) →
  ∃ a w', load_agent E N pk v w = (Ok a, w') ∧ ga_error a = e ∧ ga_version a = v ∧
          w_fs w' !! get_agent_manifest_path E v = w_fs w !! get_agent_manifest_path E v.
Proof.
  intros Hman Hf Hc Hrt. unfold load_agent, mbind, M_bind.
  rewrite (load_record_reads (get_agent_error_file E v) _ _ w c t e (error_to_json N e)) by done.
  destruct (load_record_ok E (get_agent_update_count_file E v) attempt_from_json (JInt 0) w) as (n & w1 & H1);
    [apply attempt_from_json_ordinary|].
  pose proof (λ q Hq, load_record_other (get_agent_update_count_file E v) q attempt_from_json (JInt 0) w Hq) as Ho.
  rewrite H1 in Ho |- *. simpl in Ho. unfold gets.
  rewrite (agent_load_manifest_file v (w_fs w)) by (apply Ho, agent_file_ne; done).
  rewrite Hman, (load_record_reads (get_agent_error_file E v) _ _ w1 c t e (error_to_json N e));
    [|by rewrite Ho by (by apply agent_file_ne)|done..].
  eexists _, w1. split_and!; [done..|]. apply Ho. by apply agent_file_ne.
Qed.

(** Loading a version whose two records are as the agent writes them *)
Lemma load_agent_full pk v w e c man ce te cc tc :
  agent_load_manifest E v (w_fs w) = Ok man →
  w_fs w !! get_agent_error_file E v = Some (File ce te) → c_json ce = Some (error_to_json N e) →
  error_from_json N (error_to_json N e) cleared_error = (Ok tt, e) →
  w_fs w !! get_agent_update_count_file E v = Some (File cc tc) → c_json cc = Some (attempt_to_json c) →
  load_agent E N pk v w = (Ok (mkGuestAgent pk v e c (Some man)), w).
Proof.
  intros Hman He Hej Hrt Hc Hcj. unfold load_agent, mbind, M_bind.
  rewrite (load_record_reads (get_agent_error_file E v) _ _ w ce te e (error_to_json N e)) by done.
  rewrite (load_record_reads (get_agent_update_count_file E v) _ _ w cc tc c (attempt_to_json c)) by done.
  unfold gets. rewrite Hman.
  by rewrite (load_record_reads (get_agent_error_file E v) _ _ w ce te e (error_to_json N e)).
Qed.
End remembered.

(** A failure recorded for a version survives a restart: loading the version again
    gives the same record with one more failure, so a fatal failure, or the third one,
    blacklists the version for good, and a blacklisted version is never available. *)
Theorem failures_survive_restart (E : env) (N : numbers) pk a fatal reason w man :
  (∀ p, write_fault E p = None) → (∀ t, json_time N (time_json N t) = Some t) →
  0 ≤ w_now w → 0 ≤ failure_count (ga_error a) →
  isdir (get_agent_dir E (ga_version a)) (w_fs w) = true →
  isdir (get_agent_error_file E (ga_version a)) (w_fs w) = false →
  agent_load_manifest E (ga_version a) (w_fs w) = Ok man →
  ∃ a' w' a'' w'', mark_failure E N fatal reason a w = (Ok a', w') ∧
    load_agent E N pk (ga_version a) w' = (Ok a'', w'') ∧
    ga_error a'' = ga_error a' ∧ failure_count (ga_error a'') = failure_count (ga_error a) + 1 ∧
    is_blacklisted a'' = fatal || (MAX_FAILURE <=? failure_count (ga_error a) + 1) ∧
    is_available E a'' (w_fs w'') = negb (is_blacklisted a'').
Proof.
  intros Hf Ht Hnow Hcnt Hd He Hman. set (v := ga_version a) in *.
  set (e' := error_mark_failure (w_now w) fatal reason (ga_error a)).
  assert (mark_failure E N fatal reason a w = (Ok (set_error e' a),
            with_fs <[get_agent_error_file E v := File (json_content (error_to_json N e')) (w_now w)]> w)) as Hm.
  { unfold mark_failure. fold v. rewrite Hd, (save_record_writes E Hf); [done| |done].
    unfold get_agent_error_file. by rewrite parent_dir_snoc. }
  destruct (load_agent_reads E N Hf pk v (with_fs <[get_agent_error_file E v := File (json_content (error_to_json N e')) (w_now w)]> w)
              e' man (json_content (error_to_json N e')) (w_now w)) as (a'' & w'' & Hl & Hga & Hv & Hmf).
  - rewrite <-Hman. apply agent_load_manifest_file. simpl. rewrite lookup_insert_ne; [done|]. by apply agent_file_ne.
  - simpl. by rewrite lookup_insert_eq.
  - done.
  - apply (error_roundtrip N Ht); simpl; [done|lia|eauto..].
  - eexists _, _, a'', w''. split; [exact Hm|]. split; [exact Hl|]. rewrite Hga. split_and!; [done..| |].
    + unfold is_blacklisted. rewrite Hga. done.
    + unfold is_available, is_downloaded. rewrite Hv.
      assert (isfile (get_agent_manifest_path E v) (w_fs w'') = true) as ->; [|by destruct (is_blacklisted a'')].
      unfold isfile. rewrite Hmf. simpl. rewrite lookup_insert_ne by (by apply agent_file_ne).
      unfold agent_load_manifest in Hman. by destruct (w_fs w !! get_agent_manifest_path E v) as [[]|].
Qed.

(** A version that was downloaded but cannot be loaded (its manifest is not legal) is
    deleted from the disk, yet the constructor returns it as any other; clearing its
    errors and counting the attempt to update to it then write nothing, so the limit on
    the number of attempts never applies to such a version. *)
Theorem unloadable_version_is_not_counted (E : env) (N : numbers) pk v w e :
  (∀ p, write_fault E p = None) →
  isdir (get_agent_dir E v) (w_fs w) = true →
  agent_load_manifest E v (w_fs w) = Err e →
  ∃ a w', load_agent E N pk v w = (Ok a, w') ∧ ga_manifest a = None ∧
    (∀ p, get_agent_dir E v `prefix_of` p → w_fs w' !! p = None) ∧
    clear_error E N a w' = (Ok (set_error cleared_error a), w') ∧
    ∃ a2, inc_update_attempt_count E N (set_error cleared_error a) w' = (Ok a2, w').
Proof.
  intros Hf Hd Hman. unfold load_agent, mbind, M_bind.
  destruct (load_record_ok E (get_agent_error_file E v) (error_from_json N) cleared_error w) as (er & w1 & H1);
    [apply error_from_json_ordinary|].
  pose proof (λ q Hq, load_record_other E Hf (get_agent_error_file E v) q (error_from_json N) cleared_error w Hq) as Ho1.
  rewrite H1 in Ho1 |- *.
  destruct (load_record_ok E (get_agent_update_count_file E v) attempt_from_json (JInt 0) w1) as (n & w2 & H2);
    [apply attempt_from_json_ordinary|].
  pose proof (λ q Hq, load_record_other E Hf (get_agent_update_count_file E v) q attempt_from_json (JInt 0) w1 Hq) as Ho2.
  rewrite H2 in Ho2 |- *. simpl in Ho1, Ho2. unfold gets.
  assert (agent_load_manifest E v (w_fs w2) = Err e) as Hman2.
  { rewrite <-Hman. apply agent_load_manifest_file. rewrite Ho2, Ho1 by (by apply agent_file_ne). done. }
  rewrite Hman2. rewrite (agent_load_manifest_ordinary E v (w_fs w) e Hman).
  assert (isdir (get_agent_dir E v) (w_fs w2) = true) as Hd2.
  { unfold isdir. rewrite Ho2, Ho1; [done|..]; intros Heq; unfold get_agent_error_file, get_agent_update_count_file in Heq; apply (f_equal length) in Heq;
      rewrite length_app in Heq; simpl in Heq; lia. }
  cbv zeta beta. rewrite Hd2. cbn [when]. unfold rmtree_ignore, rmtree. rewrite Hd2, Hf. simpl.
  set (w' := with_fs (remove_tree (get_agent_dir E v)) w2).
  assert (∀ p, get_agent_dir E v `prefix_of` p → w_fs w' !! p = None) as Hgone.
  { intros p Hp. simpl. unfold remove_tree. apply map_lookup_filter_None. right. by intros x _ []. }
  assert (∀ x j, save_record E (get_agent_dir E v ++ [x]) j w' = (Ok tt, w')) as Hsave.
  { intros x j. unfold save_record, mbind, M_bind, gets. rewrite parent_dir_snoc.
    unfold isdir. by rewrite (Hgone (get_agent_dir E v)). }
  eexists _, w'. split_and!; [done|done|done|..].
  - unfold clear_error, mbind, M_bind, get_agent_error_file. simpl. by rewrite Hsave.
  - unfold inc_update_attempt_count, get_agent_update_count_file. simpl.
    destruct (inc_count N n) as [c|x] eqn:Hn; [rewrite Hsave; eauto|].
    unfold inc_count in Hn. destruct (json_count N n); [done|]. injection Hn as <-. simpl. eauto.
Qed.

(** ** The theorems on the sample machine *)

Definition sample_numbers : numbers :=
  mkNumbers (λ j, match j with JInt z => Some z | _ => None end) JInt (λ _, 0).

Definition agent_version (l : list Z) : FlexibleVersion := mkFV "." None default_tags None l.

(** A machine with version 2.9.0.1 of the agent, and its manifest *)
Definition agent_files (manifest : json) : fs :=
  list_to_map [(["var"; "lib"; "waagent"], Dir); (["var"; "lib"; "waagent"; "WALinuxAgent-2.9.0.1"], Dir);
               (["var"; "lib"; "waagent"; "WALinuxAgent-2.9.0.1"; "HandlerManifest.json"], File (json_content manifest) 0)].
Definition agent_world (manifest : json) : world := mkWorld (agent_files manifest) 5000000 [] false.

Definition sample_agent (failures : Z) : GuestAgent :=
  mkGuestAgent None (agent_version [2; 9; 0; 1]) (mkGAError 0 failures (JBool false) (JStr "")) (JInt 0) None.

Lemma failures_survive_restart_witness :
  ∃ a' w' a'' w'', mark_failure sample_env sample_numbers false "crash" (sample_agent 2) (agent_world sample_manifest) = (Ok a', w') ∧
    load_agent sample_env sample_numbers None (agent_version [2; 9; 0; 1]) w' = (Ok a'', w'') ∧
    is_blacklisted a'' = true ∧ is_available sample_env a'' (w_fs w'') = false.
Proof.
  destruct (failures_survive_restart sample_env sample_numbers None (sample_agent 2) false "crash"
              (agent_world sample_manifest) (match sample_manifest with JArr (x :: _) => x | j => j end))
    as (a' & w' & a'' & w'' & H1 & H2 & H3 & H4 & H5 & H6).
  - reflexivity.
  - reflexivity.
  - vm_compute; discriminate.
  - vm_compute; discriminate.
  - vm_compute; reflexivity.
  - vm_compute; reflexivity.
  - vm_compute; reflexivity.
  - exists a', w', a'', w''. rewrite H5 in H6. split_and!; [exact H1|exact H2|exact H5|exact H6].
Defined.

Lemma unloadable_version_is_not_counted_witness :
  ∃ a w', load_agent sample_env sample_numbers None (agent_version [2; 9; 0; 1]) (agent_world (JObj [])) = (Ok a, w') ∧
    ga_manifest a = None ∧ w_fs w' !! get_agent_dir sample_env (agent_version [2; 9; 0; 1]) = None.
Proof.
  destruct (unloadable_version_is_not_counted sample_env sample_numbers None (agent_version [2; 9; 0; 1]) (agent_world (JObj []))
              (update_error "Agent WALinuxAgent-2.9.0.1 has an illegal HandlerManifest.json: handlerManifest"))
    as (a & w' & H1 & H2 & H3 & _).
  - reflexivity.
  - vm_compute; reflexivity.
  - vm_compute; reflexivity.
  - exists a, w'. split_and!; [exact H1|exact H2|]. apply H3. reflexivity.
Defined.
