(* ===== verification/AgentUpdate.v ===== *)
(** * The update of the agent itself

    [AgentUpdateHandler] (ga/agent_update_handler.py) and its two updaters: updates driven
    by the platform's update manager ([RSMVersionUpdater], ga/rsm_version_updater.py) and
    updates to the latest published version ([SelfUpdateVersionUpdater],
    ga/self_update_version_updater.py), with what they share (ga/ga_version_updater.py).

    The updater is an object that the handler replaces when the goal state enables or
    disables RSM updates; the choice is recorded in a state file so that it survives a
    restart.  An update ends with [AgentUpgradeExitException], which ends the process; the
    daemon then starts the latest version that is not blacklisted. *)
From S2P Require Import Prelude PyExn Json FlexVersion World Manifest RestApi ExtInstance.
From S2P Require Import ExtVersion Download GuestAgent Samples.
From Stdlib Require Import Ascii.

(** The running version, the configuration, and the parts of the agent and of the
    platform that are outside this component *)
Record update_env := mkUpdateEnv {
  CURRENT_VERSION : FlexibleVersion;
  (** The daemon's version in the environment of the process *)
  daemon_version_variable : option string;
  auto_update_to_latest_version : bool;
  autoupdate_gafamily : string;
  enable_ga_versioning : bool;
  (** Frequencies, in seconds *)
  autoupdate_frequency : Z;
  self_update_hotfix_frequency : Z;
  self_update_regular_frequency : Z;
  (** [random.randint(0, n)] at a time *)
  randint : Z → Z → Z;
  (** [goal_state.fetch_agent_manifest(family, uris).pkg_list.versions] at a time *)
  fetch_agent_manifest : Z → string → list string → res exn (list ExtHandlerPackage);
  (** The conditions of [agent_signature_validation_enabled] other than the timeout flag *)
  agent_validation_configured : Z → bool;
  (** The traceback of an exception that was caught, as text *)
  traceback_text : exn → string
}.

(** [VMAgentFamily] *)
Record VMAgentFamily := mkFamily {
  vf_name : string;
  vf_version : option string;
  vf_from_version : option string;
  vf_is_version_from_rsm : option bool;
  vf_is_vm_enabled_for_rsm_upgrades : option bool;
  vf_ga_version_to_signature_mapping : list (string * string);
  vf_uris : list string
}.

Record goal_state := mkGoalState {
  gs_id : string;
  gs_agent_families : list VMAgentFamily;
  gs_supports_agent_signature_mapping : bool
}.

(** [None] is [datetime_min_utc]. *)
Inductive updater_kind :=
| SelfUpdate (last_attempted_manifest_download_time next_update_time : option Z)
| RSM (daemon_version : FlexibleVersion).

Record updater := mkUpdater {
  up_gs_id : string;
  up_version : FlexibleVersion;
  up_manifest : option (list ExtHandlerPackage);
  up_kind : updater_kind
}.

(** The state of the handler, the flag of [SignatureValidationTimeout] and the machine *)
Record aust := mkAust {
  a_updater : updater;
  a_gs_id : string;
  a_last_error : string;
  a_validation_disabled : bool;
  a_world : world
}.
Notation A X := (M aust exn X).

Definition set_updater (f : updater → updater) (s : aust) : aust :=
  mkAust (f (a_updater s)) (a_gs_id s) (a_last_error s) (a_validation_disabled s) (a_world s).
Definition set_last_error (msg : string) (s : aust) : aust :=
  mkAust (a_updater s) (a_gs_id s) msg (a_validation_disabled s) (a_world s).
Definition disable_agent_validation (s : aust) : aust :=
  mkAust (a_updater s) (a_gs_id s) (a_last_error s) true (a_world s).
Definition on_machine {X} (m : M world exn X) : A X :=
  zoom a_world (λ w s, mkAust (a_updater s) (a_gs_id s) (a_last_error s) (a_validation_disabled s) w) m.

Definition set_version (v : FlexibleVersion) (u : updater) : updater :=
  mkUpdater (up_gs_id u) v (up_manifest u) (up_kind u).
Definition set_manifest (m : list ExtHandlerPackage) (u : updater) : updater :=
  mkUpdater (up_gs_id u) (up_version u) (Some m) (up_kind u).
Definition set_kind (k : updater_kind) (u : updater) : updater :=
  mkUpdater (up_gs_id u) (up_version u) (up_manifest u) k.
Definition sync_new_gs_id (id : string) (u : updater) : updater :=
  mkUpdater id (up_version u) (up_manifest u) (up_kind u).

Definition newline : string := String "010" "".

Definition VERSION_0 : FlexibleVersion := mkFV "." None default_tags None [0; 0; 0; 0].

(** The constructors of the updaters *)
Definition new_self_updater (id : string) : updater := mkUpdater id VERSION_0 None (SelfUpdate None None).
Definition new_rsm_updater (id : string) (daemon : FlexibleVersion) : updater := mkUpdater id VERSION_0 None (RSM daemon).

Definition is_rsm (u : updater) : bool := match up_kind u with RSM _ => true | SelfUpdate _ _ => false end.

Definition agent_update_error (msg : string) : exn := agent_error AgentUpdateError msg None (-1).
(** The reason of an exit is not part of its message; it is kept here for reading. *)
Definition upgrade_exit (reason : string) : exn := mkExn AgentUpgradeExitException reason (-1) (-1) [].

Section update.
Context (E : env) (N : numbers) (U : update_env).
Notation current := (CURRENT_VERSION U).

(** ** What the updaters share *)

(** [_get_agent_package_to_download] *)
Fixpoint get_agent_package_to_download (pkgs : list ExtHandlerPackage) (v : FlexibleVersion) (id : string)
    : res exn ExtHandlerPackage :=
  match pkgs with
  | [] => Err (agent_update_error ("No matching package found in the agent manifest for version: " +:+ fv_str v
                 +:+ " in goal state incarnation: " +:+ id +:+ ", skipping agent update"))
  | p :: pkgs' =>
      w ← FV (pkg_version p);
      b ← fv_eq w v;
      if (b : bool) then Ok p else get_agent_package_to_download pkgs' v id
  end.

(** [_get_agent_package_signature] *)
Definition get_agent_package_signature (v : FlexibleVersion) (family : VMAgentFamily) (gs : goal_state)
    (s : aust) : string :=
  if negb (agent_validation_configured U (w_now (a_world s)) && negb (a_validation_disabled s)) then ""
  else if negb (gs_supports_agent_signature_mapping gs) then ""
  else default "" (dict_get (fv_str v) (vf_ga_version_to_signature_mapping family)).

(** [download_new_agent_pkg]; the check of the manifest's signing information only sends
    telemetry and is left out. *)
Definition download_new_agent_pkg (p : ExtHandlerPackage) (signature : string) : A unit :=
  let name := AGENT_NAME +:+ "-" +:+ pkg_version p in
  let agent_dir := lib_dir E ++ [name] in
  let agent_pkg_path := lib_dir E ++ [name +:+ ".zip"] in
  let manifest_file := agent_dir ++ ["HandlerManifest.json"] in
  f ← gets (λ s, w_fs (a_world s));
  when (negb (exists_path agent_dir f) || negb (isfile manifest_file f))
    (except SignatureValidationError
       (on_machine (download_zip_package E name (pkg_uris p) agent_pkg_path agent_dir signature true))
       (λ ex, when (isinstance ex SignatureValidationTimeoutError) (modify disable_agent_validation))) ;;
  f ← gets (λ s, w_fs (a_world s));
  when (negb (isfile manifest_file f))
    (when (isdir agent_dir f) (on_machine (rmtree_ignore E agent_dir)) ;;
     raise (agent_update_error ("Downloaded agent package: " +:+ name
              +:+ " is missing agent handler manifest file: " +:+ path_str manifest_file))).

(** [_download_and_get_new_agent]: the manifest is fetched unless the updater has one. *)
Definition download_and_get_new_agent (family : VMAgentFamily) (gs : goal_state) : A GuestAgent :=
  u ← gets a_updater;
  now ← gets (λ s, w_now (a_world s));
  pkgs ← match up_manifest u with
         | Some pkgs => mret pkgs
         | None =>
             pkgs ← lift (fetch_agent_manifest U now (vf_name family) (vf_uris family));
             modify (set_updater (set_manifest pkgs)) ;; mret pkgs
         end;
  p ← lift (get_agent_package_to_download pkgs (up_version u) (up_gs_id u));
  signature ← gets (get_agent_package_signature (up_version u) family gs);
  download_new_agent_pkg p signature ;;
  on_machine (from_agent_package E N p).

(** [fileutil.trim_ext(path, "zip")] on the name *)
Fixpoint before_zip (s : string) : string :=
  match strip_prefix ".zip" s, s with
  | Some _, _ | None, EmptyString => ""
  | None, String c s' => String c (before_zip s')
  end.
Definition trim_zip (s : string) : string := if ends_with ".zip" s then before_zip s else s.

(** [v in l] *)
Fixpoint version_in (v : FlexibleVersion) (l : list FlexibleVersion) : res exn bool :=
  match l with
  | [] => Ok false
  | x :: l' => b ← fv_eq v x; if (b : bool) then Ok true else version_in v l'
  end.

(** The body of the loop of [_purge_unknown_agents_from_disk] *)
Definition purge_one (known : list FlexibleVersion) (entry : string) : M world exn unit :=
  match version_of_dir (trim_zip entry) with
  | None => mret tt
  | Some s =>
      v ← lift (FV s);
      b ← lift (version_in v known);
      if (b : bool) then mret tt
      else
        let p := lib_dir E ++ [entry] in
        file ← gets (λ w, isfile p (w_fs w));
        if (file : bool) then remove_file (write_fault E) p else rmtree (write_fault E) p
  end.

Definition agent_entries (f : fs) : list string :=
  filter (λ x, starts_with (AGENT_NAME +:+ "-") x = true) (listdir (lib_dir E) f).

(** [_purge_unknown_agents_from_disk] *)
Definition purge_unknown_agents_from_disk (known : list FlexibleVersion) : M world exn unit :=
  entries ← gets (λ w, agent_entries (w_fs w));
  for_each entries (λ x, except Exception_ (purge_one known x) (λ _, mret tt)).

(** [purge_extra_agents_from_disk] *)
Definition purge_extra_agents_from_disk : A unit :=
  v ← gets (λ s, up_version (a_updater s));
  on_machine (purge_unknown_agents_from_disk [current; v]).

(** ** RSM updates *)

(** [_get_all_agents_on_disk] *)
Fixpoint load_agents (names : list string) : M world exn (list GuestAgent) :=
  match names with
  | [] => mret []
  | x :: l => a ← from_installed_agent E N x; r ← load_agents l; mret (a :: r)
  end.

Definition get_all_agents_on_disk : M world exn (list GuestAgent) :=
  entries ← gets (λ w, filter (λ x, isdir (lib_dir E ++ [x]) (w_fs w) = true) (agent_entries (w_fs w)));
  load_agents entries.

(** [sorted(l, reverse=True)]: equal elements keep their order. *)
Definition sorted_reverse {X} (l : list (FlexibleVersion * X)) : res exn (list (FlexibleVersion * X)) :=
  r ← sort_by_version [] (reverse l); Ok (reverse r).

(** [_get_available_agents_on_disk] *)
Definition get_available_agents_on_disk : M world exn (list GuestAgent) :=
  agents ← get_all_agents_on_disk;
  f ← gets w_fs;
  sorted ← lift (sorted_reverse ((λ a, (ga_version a, a)) <$> filter (λ a, is_available E a f = true) agents));
  mret sorted.*2.

(** [RSMVersionUpdater.is_rsm_update_enabled] *)
Definition rsm_is_rsm_update_enabled (id : string) (family : VMAgentFamily) (ext_gs_updated : bool) : res exn bool :=
  let missing p := agent_update_error ("Received invalid goal state:" +:+ id +:+ ", missing " +:+ p
                                       +:+ " property. So, skipping agent update") in
  if ext_gs_updated then
    if negb (enable_ga_versioning U) then Ok false
    else
      match vf_is_vm_enabled_for_rsm_upgrades family with
      | None => Err (missing "isVMEnabledForRSMUpgrades")
      | Some false => Ok false
      | Some true =>
          match vf_is_version_from_rsm family, vf_version family with
          | None, _ => Err (missing "isVersionFromRSM")
          | _, None => Err (missing "version")
          | _, _ => Ok true
          end
      end
  else Ok true.

(** [RSMVersionUpdater._is_retrieved_version_allowed_to_update] *)
Definition is_retrieved_version_allowed_to_update (id : string) (v daemon : FlexibleVersion)
    (family : VMAgentFamily) : res exn bool :=
  if negb (default false (vf_is_version_from_rsm family)) then Ok false
  else
    same ← fv_eq v current;
    if (same : bool) then Ok false
    else
      below ← fv_lt v daemon;
      if (below : bool) then
        Err (agent_update_error ("Received invalid update request:" +:+ id +:+ ", new version " +:+ fv_str v
               +:+ " is below the daemon version " +:+ fv_str daemon))
      else
        down ← fv_lt v current;
        if (down : bool) then
          from ← FV (default "" (vf_from_version family));
          other ← fv_ne current from;
          if (other : bool) then
            Err (agent_update_error ("Received invalid update request:" +:+ id +:+ ", downgrade " +:+ fv_str v
                   +:+ " is not allowed to update from " +:+ default "None" (vf_from_version family)
                   +:+ ". Current agent version running: " +:+ fv_str current))
          else Ok true
        else Ok true.

(** [RSMVersionUpdater.retrieve_and_download_agent] *)
Definition rsm_retrieve_and_download_agent (daemon : FlexibleVersion) (family : VMAgentFamily) (gs : goal_state)
    : A (option GuestAgent) :=
  v ← lift (FV (default "" (vf_version family)));
  modify (set_updater (set_version v)) ;;
  id ← gets (λ s, up_gs_id (a_updater s));
  allowed ← lift (is_retrieved_version_allowed_to_update id v daemon family);
  if negb allowed then mret None
  else a ← download_and_get_new_agent family gs; mret (Some a).

(** The agent to mark as bad on a downgrade: the first of the current version *)
Fixpoint find_version (l : list GuestAgent) (v : FlexibleVersion) : res exn (option GuestAgent) :=
  match l with
  | [] => Ok None
  | a :: l' => b ← fv_eq (ga_version a) v; if (b : bool) then Ok (Some a) else find_version l' v
  end.

Definition downgrade_reason : string :=
  "Marking the agent " +:+ fv_str current +:+ " as bad version since a downgrade was requested in the GoalState, "
  +:+ "suggesting that we really don't want to execute any extensions using this version".

Definition exit_reason (prefix : string) (v : FlexibleVersion) : string :=
  "Current Agent " +:+ fv_str current +:+ " completed all update checks, exiting current process to "
  +:+ prefix +:+ " to the new Agent version " +:+ fv_str v.

(** [RSMVersionUpdater.proceed_with_update] *)
Definition rsm_proceed_with_update : A unit :=
  v ← gets (λ s, up_version (a_updater s));
  down ← lift (fv_lt v current);
  if (down : bool) then
    agents ← on_machine get_available_agents_on_disk;
    found ← lift (find_version agents current);
    match found with
    | Some a => _ ← on_machine (mark_failure E N true downgrade_reason a); mret tt
    | None => mret tt
    end ;;
    raise (upgrade_exit (exit_reason "downgrade" v))
  else raise (upgrade_exit (exit_reason "upgrade" v)).

(** ** Self-update *)

(** [_get_agent_upgrade_type] and [_get_next_process_time] *)
Definition is_hotfix (v : FlexibleVersion) : bool :=
  (fv_major v =? fv_major current) && (fv_minor v =? fv_minor current) && (fv_patch v =? fv_patch current).

Definition get_next_process_time (hotfix : bool) (now : Z) : Z :=
  let frequency := if hotfix then self_update_hotfix_frequency U else self_update_regular_frequency U in
  now + randint U now frequency * 1000000.

(** [_new_agent_allowed_now_to_update]: the time is drawn once and kept until it has come. *)
Definition new_agent_allowed_now_to_update (v : FlexibleVersion) (last next : option Z) (now : Z) : bool * updater_kind :=
  let next := default (get_next_process_time (is_hotfix v) now) next in
  if next <=? now then (true, SelfUpdate last None) else (false, SelfUpdate last (Some next)).

(** [_should_agent_attempt_manifest_download] *)
Definition should_agent_attempt_manifest_download (last next : option Z) (now : Z) : bool * updater_kind :=
  let next_attempt_time := match last with
                           | Some t => t + autoupdate_frequency U * 1000000
                           | None => now
                           end in
  if now <? next_attempt_time then (false, SelfUpdate last next) else (true, SelfUpdate (Some now) next).

(** [SelfUpdateVersionUpdater.is_rsm_update_enabled] *)
Definition self_is_rsm_update_enabled (id : string) (family : VMAgentFamily) (ext_gs_updated : bool) : res exn bool :=
  let missing p := agent_update_error ("Received invalid goal state:" +:+ id +:+ ", missing " +:+ p
                                       +:+ " property. So, skipping agent update") in
  if ext_gs_updated && enable_ga_versioning U && default false (vf_is_vm_enabled_for_rsm_upgrades family) then
    match vf_is_version_from_rsm family, vf_version family with
    | None, _ => Err (missing "isVersionFromRSM")
    | _, None => Err (missing "version")
    | _, _ => Ok true
    end
  else Ok false.

(** The loop over the candidates: an error in preparing one moves on to the next. *)
Fixpoint try_candidates (family : VMAgentFamily) (gs : goal_state) (l : list FlexibleVersion)
    : A (option GuestAgent) :=
  match l with
  | [] => mret None
  | v :: l' =>
      modify (set_updater (set_version v)) ;;
      except Exception_
        (a ← download_and_get_new_agent family gs; mret (Some a))
        (λ e, match l' with [] => raise e | _ => try_candidates family gs l' end)
  end.

(** [v for v in versions if v > CURRENT_VERSION] *)
Fixpoint newer_versions (l : list FlexibleVersion) : res exn (list FlexibleVersion) :=
  match l with
  | [] => Ok []
  | v :: l' => b ← fv_gt v current; r ← newer_versions l'; Ok (if (b : bool) then v :: r else r)
  end.

(** [SelfUpdateVersionUpdater.retrieve_and_download_agent] *)
Definition self_retrieve_and_download_agent (family : VMAgentFamily) (gs : goal_state) : A (option GuestAgent) :=
  now ← gets (λ s, w_now (a_world s));
  pkgs ← lift (fetch_agent_manifest U now (vf_name family) (vf_uris family));
  modify (set_updater (set_manifest pkgs)) ;;
  keyed ← lift (map_res package_key pkgs);
  sorted ← lift (sorted_reverse keyed);
  let v := match sorted with x :: _ => x.1 | [] => VERSION_0 end in
  modify (set_updater (set_version v)) ;;
  old ← lift (fv_le v current);
  if (old : bool) then mret None
  else
    initial ← gets (λ s, is_initial_update E (w_fs (a_world s)));
    k ← gets (λ s, up_kind (a_updater s));
    let '(allowed, k') :=
      if (initial : bool) then (true, k)
      else match k with
           | SelfUpdate last next => new_agent_allowed_now_to_update v last next now
           | RSM _ => (true, k)
           end in
    modify (set_updater (set_kind k')) ;;
    if negb allowed then mret None
    else candidates ← lift (newer_versions sorted.*1); try_candidates family gs candidates.

(** [SelfUpdateVersionUpdater.proceed_with_update] *)
Definition self_proceed_with_update : A unit :=
  v ← gets (λ s, up_version (a_updater s));
  up ← lift (fv_gt v current);
  if (up : bool) then raise (upgrade_exit (exit_reason "upgrade" v)) else mret tt.

(** ** The handler *)

(** The methods of the updater in use *)
Definition is_rsm_update_enabled (family : VMAgentFamily) (ext_gs_updated : bool) (u : updater) : res exn bool :=
  if is_rsm u then rsm_is_rsm_update_enabled (up_gs_id u) family ext_gs_updated
  else self_is_rsm_update_enabled (up_gs_id u) family ext_gs_updated.

Definition is_update_allowed_this_time (ext_gs_updated : bool) : A bool :=
  now ← gets (λ s, w_now (a_world s));
  k ← gets (λ s, up_kind (a_updater s));
  match k with
  | RSM _ => mret ext_gs_updated
  | SelfUpdate last next =>
      let '(b, k') := should_agent_attempt_manifest_download last next now in
      modify (set_updater (set_kind k')) ;; mret b
  end.

Definition retrieve_and_download_agent (family : VMAgentFamily) (gs : goal_state) : A (option GuestAgent) :=
  k ← gets (λ s, up_kind (a_updater s));
  match k with
  | RSM daemon => rsm_retrieve_and_download_agent daemon family gs
  | SelfUpdate _ _ => self_retrieve_and_download_agent family gs
  end.

Definition proceed_with_update : A unit :=
  u ← gets a_updater;
  if is_rsm u then rsm_proceed_with_update else self_proceed_with_update.

(** [_get_daemon_version_for_update] *)
Definition get_daemon_version_for_update : res exn FlexibleVersion :=
  d ← FV (default "0.0.0.0" (daemon_version_variable U));
  set ← fv_ne d VERSION_0;
  if (set : bool) then Ok d else FV "2.2.53".

(** [AgentUpdateHandler.__init__] *)
Definition new_handler (w : world) : res exn aust :=
  daemon ← get_daemon_version_for_update;
  let u := if negb (is_last_update_with_rsm E (w_fs w)) || is_initial_update E (w_fs w)
           then new_self_updater "unknown" else new_rsm_updater "unknown" daemon in
  Ok (mkAust u "unknown" "" false w).

Definition permanent_note (will : string) : string :=
  newline +:+ "[Note: This error is permanent for this goal state and " +:+ will
  +:+ " not log same error until we receive new goal state]".

(** [_get_agent_family_manifest] *)
Definition get_agent_family_manifest (id : string) (gs : goal_state) : res exn VMAgentFamily :=
  let family := autoupdate_gafamily U in
  let named := filter (λ m, vf_name m = family) (gs_agent_families gs) in
  match named with
  | [] => Err (agent_error AgentFamilyMissingError
                 ("Agent family: " +:+ family +:+ " not found in the goal state: " +:+ id +:+ ", skipping agent update "
                  +:+ permanent_note "Will")
                 None (-1))
  | _ =>
      match filter (λ m, vf_uris m ≠ []) named with
      | m :: _ => Ok m
      | [] => Err (agent_error AgentFamilyMissingError
                     ("No manifest links found for agent family: " +:+ family +:+ " for goal state: " +:+ id
                      +:+ ", skipping agent update " +:+ permanent_note "will") None (-1))
      end
  end.

(** Switching between the updaters *)
Definition switch_updater (daemon : FlexibleVersion) (family : VMAgentFamily) (ext_gs_updated : bool) : A unit :=
  u ← gets a_updater;
  id ← gets a_gs_id;
  enabled ← lift (is_rsm_update_enabled family ext_gs_updated u);
  when (negb enabled && is_rsm u)
    (modify (set_updater (λ _, new_self_updater id)) ;; on_machine (remove_rsm_update_state_file E)) ;;
  when (enabled && negb (is_rsm u))
    (modify (set_updater (λ _, new_rsm_updater id daemon)) ;; on_machine (save_rsm_update_state_file E)).

(** [agent.get_update_attempt_count() >= 3] *)
Definition too_many_attempts (a : GuestAgent) : res exn bool :=
  match json_count N (ga_attempts a) with
  | Some z => Ok (3 <=? z)
  | None => Err (number_error ">=" (ga_attempts a))
  end.

(** What [run] does before it proceeds with the update to the version of [a] *)
Definition record_attempt (a : GuestAgent) : A unit :=
  a ← on_machine (clear_error E N a);
  _ ← on_machine (inc_update_attempt_count E N a);
  purge_extra_agents_from_disk.

(** The body of the [try] of [run]; the agent signature telemetry is left out. *)
Definition run_body (daemon : FlexibleVersion) (gs : goal_state) (ext_gs_updated : bool) : A unit :=
  if negb (auto_update_to_latest_version U) then
    modify (set_last_error "Auto update is disabled, skipping agent update")
  else
    when ext_gs_updated
      (modify (λ s, mkAust (sync_new_gs_id (gs_id gs) (a_updater s)) (gs_id gs) "" (a_validation_disabled s) (a_world s))) ;;
    id ← gets a_gs_id;
    family ← lift (get_agent_family_manifest id gs);
    initial ← gets (λ s, is_initial_update E (w_fs (a_world s)));
    when (negb initial) (switch_updater daemon family ext_gs_updated) ;;
    allowed ← is_update_allowed_this_time ext_gs_updated;
    if negb allowed then mret tt
    else
      o ← retrieve_and_download_agent family gs;
      match o with
      | None => mret tt
      | Some a =>
          enough ← lift (too_many_attempts a);
          if (enough : bool) then
            raise (agent_update_error ("Attempted enough update retries for version: " +:+ fv_str (ga_version a)
                     +:+ " but still agent not recovered from bad state. So, we stop updating to this version"))
          else
            record_attempt a ;;
            proceed_with_update
      end.

Definition update_mode (u : updater) : string := if is_rsm u then "RSM" else "SelfUpdate".

(** [textutil.format_exception] *)
Definition format_exception (err : exn) : string := e_msg err +:+ newline +:+ traceback_text U err.

(** The [except] clause of [run]; the exit of the process is not an [Exception] and does
    not reach it. *)
Definition handle_update_error (ext_gs_updated : bool) (err : exn) : A unit :=
  u ← gets a_updater;
  let msg := if isinstance err AgentUpdateError || isinstance err AgentFamilyMissingError then e_msg err
             else "Unable to update Agent: " +:+ format_exception err in
  let log_error := if isinstance err AgentUpdateError then true
                   else if isinstance err AgentFamilyMissingError then ext_gs_updated else true in
  modify (set_last_error (if log_error then "[" +:+ update_mode u +:+ "] " +:+ msg else msg)).

(** [run] *)
Definition run (daemon : FlexibleVersion) (gs : goal_state) (ext_gs_updated : bool) : A unit :=
  finally
    (except Exception_ (run_body daemon gs ext_gs_updated) (handle_update_error ext_gs_updated))
    (initial ← gets (λ s, is_initial_update E (w_fs (a_world s)));
     when initial (on_machine (save_initial_update_state_file E))).

(** [get_vmagent_update_status] *)
Record VMAgentUpdateStatus := mkUpdateStatus {
  us_expected_version : string;
  us_status : string;
  us_message : string;
  us_code : Z
}.

Definition get_vmagent_update_status (s : aust) : option VMAgentUpdateStatus :=
  if is_rsm (a_updater s) then
    Some (if String.eqb (a_last_error s) "" then mkUpdateStatus (fv_str current) "Success" "" 0
          else mkUpdateStatus (fv_str current) "Error" (a_last_error s) 1)
  else None.
End update.

(** ** When the agent exits to update *)

(** What the environment of the update raises does not end the process. *)
Class OrdinaryUpdate (U : update_env) : Prop :=
  ordinary_manifest now name uris : fails_with ordinary (fetch_agent_manifest U now name uris).

(** A request of the update manager that may be followed *)
Definition rsm_request_ok (U : update_env) (daemon v : FlexibleVersion) (family : VMAgentFamily) : Prop :=
  vf_is_version_from_rsm family = Some true ∧ FV (default "" (vf_version family)) = Ok v ∧
  fv_eq v (CURRENT_VERSION U) = Ok false ∧ fv_lt v daemon = Ok false ∧
  (fv_lt v (CURRENT_VERSION U) = Ok false ∨
   ∃ from, FV (default "" (vf_from_version family)) = Ok from ∧ fv_eq (CURRENT_VERSION U) from = Ok true).

(** A version of the published packages that is newer than the running one *)
Definition self_update_ok (U : update_env) (u : updater) : Prop :=
  fv_gt (up_version u) (CURRENT_VERSION U) = Ok true ∧
  ∃ pkgs p, up_manifest u = Some pkgs ∧ p ∈ pkgs ∧ FV (pkg_version p) = Ok (up_version u).

Definition target_ok (U : update_env) (family : VMAgentFamily) (u : updater) : Prop :=
  match up_kind u with
  | RSM daemon => rsm_request_ok U daemon (up_version u) family
  | SelfUpdate _ _ => self_update_ok U u
  end.

(** The target of the updater is unchanged *)
Definition same_target (s s' : aust) : Prop :=
  a_gs_id s' = a_gs_id s ∧ up_version (a_updater s') = up_version (a_updater s) ∧
  up_kind (a_updater s') = up_kind (a_updater s) ∧
  ∀ m, up_manifest (a_updater s) = Some m → up_manifest (a_updater s') = Some m.

#[export] Instance same_target_preorder : PreOrder same_target.
Proof.
  split; [by intros s|]. intros a b c (H1 & H2 & H3 & H4) (H5 & H6 & H7 & H8).
  split_and!; [congruence..|auto].
Qed.

Lemma same_target_ok U family s s' : same_target s s' → target_ok U family (a_updater s) → target_ok U family (a_updater s').
Proof.
  intros (_ & Hv & Hk & Hm). unfold target_ok, self_update_ok. rewrite Hv, Hk.
  destruct (up_kind (a_updater s)); [|done]. intros (H1 & pkgs & p & H2 & H3). split; [done|]. exists pkgs, p. auto.
Qed.

Lemma on_machine_target {X} (m : M world exn X) : pres same_target (on_machine m).
Proof. intros s. unfold on_machine, zoom. destruct (m (a_world s)). done. Qed.

Lemma modify_target f : (∀ s, same_target s (f s)) → pres same_target (modify f : A unit).
Proof. intros H s. apply H. Qed.

Lemma insert_by_version_perm {X} (x : FlexibleVersion * X) l r : insert_by_version x l = Ok r → r ≡ₚ x :: l.
Proof.
  revert r. induction l as [|y l IH]; intros r; simpl; [by intros [= <-]|].
  destruct (fv_lt x.1 y.1) as [[]|]; cbn; [by intros [= <-]| |done].
  destruct (insert_by_version x l) as [r'|]; cbn; [|done]. intros [= <-]. rewrite (IH r' eq_refl). apply Permutation_swap.
Qed.

Lemma sort_by_version_perm {X} (l acc r : list (FlexibleVersion * X)) : sort_by_version acc l = Ok r → r ≡ₚ acc ++ l.
Proof.
  revert acc. induction l as [|x l IH]; intros acc; simpl; [intros [= <-]; by rewrite app_nil_r|].
  destruct (insert_by_version x acc) as [acc'|] eqn:Hi; cbn; [|done]. intros Hr.
  rewrite (IH _ Hr), (insert_by_version_perm _ _ _ Hi). simpl. by rewrite Permutation_middle.
Qed.

Lemma sorted_reverse_perm {X} (l r : list (FlexibleVersion * X)) : sorted_reverse l = Ok r → r ≡ₚ l.
Proof.
  unfold sorted_reverse. destruct (sort_by_version [] (reverse l)) as [r'|] eqn:Hs; cbn; [|done]. intros [= <-].
  apply sort_by_version_perm in Hs. rewrite !reverse_Permutation, Hs. simpl. apply reverse_Permutation.
Qed.

Section exits.
Context (E : env) (N : numbers) (U : update_env) `{!OrdinaryEnv E, !OrdinaryUpdate U}.
Notation current := (CURRENT_VERSION U).

Lemma insert_by_version_ordinary {X} (x : FlexibleVersion * X) l : fails_with ordinary (insert_by_version x l).
Proof. induction l; simpl; raises_auto. Qed.
Hint Resolve @insert_by_version_ordinary : raises.

Lemma sort_by_version_ordinary {X} (l acc : list (FlexibleVersion * X)) : fails_with ordinary (sort_by_version acc l).
Proof. revert acc. induction l; intros acc; simpl; raises_auto. Qed.
Hint Resolve @sort_by_version_ordinary : raises.

Lemma sorted_reverse_ordinary {X} (l : list (FlexibleVersion * X)) : fails_with ordinary (sorted_reverse l).
Proof. unfold sorted_reverse. raises_auto. Qed.

Lemma version_in_ordinary v l : fails_with ordinary (version_in v l).
Proof. induction l; simpl; raises_auto. Qed.

Lemma find_version_ordinary l v : fails_with ordinary (find_version l v).
Proof. induction l; simpl; raises_auto. Qed.

Lemma newer_versions_ordinary l : fails_with ordinary (newer_versions U l).
Proof. induction l; simpl; raises_auto. Qed.

Lemma get_package_ordinary l v id : fails_with ordinary (get_agent_package_to_download l v id).
Proof. induction l; simpl; raises_auto. Qed.
Hint Resolve @sorted_reverse_ordinary version_in_ordinary find_version_ordinary newer_versions_ordinary
  get_package_ordinary : raises.

Lemma package_key_ordinary p : fails_with ordinary (package_key p).
Proof. unfold package_key. raises_auto. Qed.
Hint Resolve package_key_ordinary : raises.

Lemma on_machine_ordinary {X} (m : M world exn X) : raises ordinary m → raises ordinary (on_machine m).
Proof. apply raises_zoom. Qed.
Hint Resolve @on_machine_ordinary download_zip_package_ordinary from_agent_package_ordinary
  from_installed_agent_ordinary clear_error_ordinary : raises.

Lemma write_env_ordinary p c : raises ordinary (write_file (write_fault E) p c).
Proof. apply write_file_ordinary, ordinary_write. Qed.
Hint Resolve write_env_ordinary remove_ordinary rmtree_env_ordinary : raises.

Lemma rmtree_ignore_ordinary p : raises ordinary (rmtree_ignore E p).
Proof. by intros w e. Qed.
Hint Resolve rmtree_ignore_ordinary : raises.

Lemma download_new_agent_pkg_ordinary p s : raises ordinary (download_new_agent_pkg E p s).
Proof. unfold download_new_agent_pkg. raises_auto. Qed.

Lemma download_new_agent_pkg_target p s : pres same_target (download_new_agent_pkg E p s).
Proof.
  unfold download_new_agent_pkg. pose proof (@on_machine_target).
  pres_auto; eauto. by apply modify_target.
Qed.

Lemma download_and_get_target family gs : pres same_target (download_and_get_new_agent E N U family gs).
Proof.
  apply wp_pres. intros s. unfold download_and_get_new_agent. wp_step. wp_step. wp_step. wp_step. wp_step.
  eapply (wp_mono _ (λ _ s', same_target s s') _ (λ _ s', same_target s s')); [|intros pkgs s1 H1|done].
  - destruct (up_manifest (a_updater s)) eqn:Hm; [by wp_step|]. wp_step. wp_step; [|done]. wp_step. wp_step. wp_step.
    split_and!; [done..|]. intros m Hm'. by rewrite Hm in Hm'.
  - apply (pres_wp_from same_target); [|done]. pose proof download_new_agent_pkg_target. pose proof (@on_machine_target).
    pres_auto; eauto.
Qed.

Lemma download_and_get_ordinary family gs : raises ordinary (download_and_get_new_agent E N U family gs).
Proof.
  pose proof download_new_agent_pkg_ordinary. unfold download_and_get_new_agent. raises_auto; auto using ordinary_manifest.
Qed.

(** [wp] for code whose exceptions are ordinary and that preserves a relation *)
Lemma wp_quiet {X} (m : A X) (R : relation aust) s :
  pres R m → raises ordinary m → wp m (λ _ s', R s s') (λ e _, ordinary e) s.
Proof.
  intros Hp Hr. specialize (Hp s). specialize (Hr s). unfold wp. destruct (m s) as [[x|e] s']; [done|]. by apply Hr.
Qed.

Lemma try_candidates_ok family gs l s :
  (∀ v, v ∈ l → self_update_ok U (set_version v (a_updater s))) → is_rsm (a_updater s) = false →
  wp (try_candidates E N U family gs l)
    (λ o s', a_gs_id s' = a_gs_id s ∧ is_rsm (a_updater s') = is_rsm (a_updater s) ∧
       (is_Some o → target_ok U family (a_updater s'))) (λ e _, ordinary e) s.
Proof.
  revert s. induction l as [|v l IH]; intros s Hl Hk; simpl; [wp_step; split_and!; [done..|by intros []]|].
  wp_step. wp_step. set (s1 := set_updater (set_version v) s). apply wp_except.
  pose proof (download_and_get_target family gs s1) as Ht. pose proof (download_and_get_ordinary family gs s1) as Ho.
  wp_step. unfold wp at 1. destruct (download_and_get_new_agent E N U family gs s1) as [[a|e] s2]; simpl in Ht, Ho.
  - wp_step. destruct Ht as (H1 & H2 & H3 & H4) eqn:Hteq. split_and!; [done|unfold is_rsm; by rewrite H3|].
    intros _. apply (same_target_ok U family s1 s2 Ht).
    unfold target_ok. unfold is_rsm in Hk. simpl. destruct (up_kind (a_updater s)); [|done]. apply Hl. by left.
  - split; [|by rewrite (Ho e eq_refl)]. intros _. destruct l as [|v' l]; [wp_step; by apply Ho|].
    destruct Ht as (H1 & H2 & H3 & H4).
    eapply wp_mono; [apply IH| |done].
    + intros w Hw. destruct (Hl w) as (Hgt & pkgs & p & Hm & Hp); [by right|]. split; [done|].
      exists pkgs, p. split; [|done]. simpl. by apply H4.
    + unfold is_rsm in *. rewrite H3. done.
    + intros o s3 (H5 & H6 & H7). split_and!; [by rewrite H5| |done]. rewrite H6. unfold is_rsm. by rewrite H3.
Qed.

Lemma newer_versions_spec l r : newer_versions U l = Ok r → ∀ v, v ∈ r → v ∈ l ∧ fv_gt v current = Ok true.
Proof.
  revert r. induction l as [|x l IH]; intros r; simpl; [by intros [= <-] v ?%elem_of_nil|].
  destruct (fv_gt x current) as [b|] eqn:Hb; cbn; [|done].
  destruct (newer_versions U l) as [r'|]; cbn; [|done]. specialize (IH r' eq_refl). intros [= <-] v.
  destruct b; [rewrite elem_of_cons; intros [->|Hv]; [split; [by left|done]|]|intros Hv];
    (destruct (IH v Hv); split; [by right|done]).
Qed.

Lemma map_res_package_key_in pkgs keyed v p :
  map_res package_key pkgs = Ok keyed → (v, p) ∈ keyed → p ∈ pkgs ∧ FV (pkg_version p) = Ok v.
Proof.
  intros Hk Hin. destruct (map_res_package_key _ _ Hk) as [<- Hf]. split.
  - apply list_elem_of_fmap. by exists (v, p).
  - rewrite Forall_forall in Hf. by apply (Hf (v, p)).
Qed.

Lemma self_retrieve_ok family gs s :
  is_rsm (a_updater s) = false →
  wp (self_retrieve_and_download_agent E N U family gs)
    (λ o s', a_gs_id s' = a_gs_id s ∧ is_rsm (a_updater s') = is_rsm (a_updater s) ∧
       (is_Some o → target_ok U family (a_updater s'))) (λ e _, ordinary e) s.
Proof.
  intros Hk. unfold self_retrieve_and_download_agent.
  wp_step. wp_step. wp_step. wp_step; [|by eapply ordinary_manifest]. rename a into pkgs.
  wp_step. wp_step. wp_step. wp_step; [|by eapply map_res_fails; [|done]; apply package_key_ordinary]. rename a into keyed.
  wp_step. wp_step; [|by eapply sorted_reverse_ordinary]. rename a into sorted.
  wp_step. wp_step. wp_step. wp_step; [|by eapply fv_le_ordinary]. destruct a; [wp_step; split_and!; [done..|by intros []]|].
  wp_step. wp_step. wp_step. wp_step.
  match goal with |- context [set_updater (set_version ?v) _] => set (v0 := v) end.
  assert (∃ allowed k', (if is_initial_update E (w_fs (a_world s)) then (true, up_kind (a_updater s))
            else match up_kind (a_updater s) with
                 | SelfUpdate last next => new_agent_allowed_now_to_update U v0 last next (w_now (a_world s))
                 | RSM _ => (true, up_kind (a_updater s)) end) = (allowed, k') ∧
            is_rsm (mkUpdater "" v0 None k') = false) as (allowed & k' & Hk1 & Hk2).
  { unfold is_rsm in *. simpl. destruct (up_kind (a_updater s)); [|done].
    destruct (is_initial_update _ _); [eauto|]. unfold new_agent_allowed_now_to_update. destruct (_ <=? _); eauto. }
  cbn [a_updater a_world set_updater set_manifest set_version up_kind] in *. rewrite Hk1.
  assert (is_rsm (set_kind k' (set_version v0 (set_manifest pkgs (a_updater s)))) = is_rsm (a_updater s)) as Hk3.
  { rewrite Hk. exact Hk2. }
  wp_step. wp_step. wp_step; [wp_step; split_and!; [done..|by intros []]|]. wp_step. wp_step; [|by eapply newer_versions_ordinary].
  rename a into candidates. eapply wp_mono; [apply try_candidates_ok| |done].
  - intros v Hv. destruct (newer_versions_spec _ _ H3 v Hv) as [Hin Hgt]. split; [done|].
    apply list_elem_of_fmap in Hin as ([v1 p] & -> & Hin). rewrite (sorted_reverse_perm _ _ H1) in Hin.
    destruct (map_res_package_key_in _ _ _ _ H0 Hin). exists pkgs, p. done.
  - exact Hk2.
  - intros o s1 (G1 & G2 & G3). split_and!; [done| |done]. rewrite G2. exact Hk3.
Qed.

Lemma rsm_allowed_ok id v daemon family :
  is_retrieved_version_allowed_to_update U id v daemon family = Ok true →
  FV (default "" (vf_version family)) = Ok v → rsm_request_ok U daemon v family.
Proof.
  unfold is_retrieved_version_allowed_to_update, rsm_request_ok. intros H Hv.
  destruct (vf_is_version_from_rsm family) as [[]|]; [|done..]. simpl in H.
  destruct (fv_eq v current) as [[]|]; cbn in H; [done| |done].
  destruct (fv_lt v daemon) as [[]|]; cbn in H; [done| |done].
  destruct (fv_lt v current) as [[]|]; cbn in H; [|by eauto 10|done].
  destruct (FV (default "" (vf_from_version family))) as [from|]; cbn in H; [|done].
  unfold fv_ne in H. destruct (fv_eq current from) as [[]|] eqn:Hf; cbn in H; [|done..]. eauto 10.
Qed.

Lemma allowed_ordinary id v daemon family :
  fails_with ordinary (is_retrieved_version_allowed_to_update U id v daemon family).
Proof. unfold is_retrieved_version_allowed_to_update. raises_auto. Qed.

Lemma rsm_retrieve_ok daemon family gs s :
  up_kind (a_updater s) = RSM daemon →
  wp (rsm_retrieve_and_download_agent E N U daemon family gs)
    (λ o s', a_gs_id s' = a_gs_id s ∧ is_rsm (a_updater s') = is_rsm (a_updater s) ∧
       (is_Some o → target_ok U family (a_updater s'))) (λ e _, ordinary e) s.
Proof.
  intros Hk. unfold rsm_retrieve_and_download_agent. wp_step. wp_step; [|by eapply FV_ordinary].
  wp_step. wp_step. wp_step. wp_step. wp_step. wp_step; [|by eapply allowed_ordinary].
  destruct a0; simpl; [|wp_step; split_and!; [done..|by intros []]].
  wp_step. eapply wp_mono; [apply (wp_quiet _ same_target); [apply download_and_get_target|apply download_and_get_ordinary]| |done].
  intros g s2 Ht. wp_step. destruct Ht as (G1 & G2 & G3 & G4) eqn:Hteq. split_and!; [done|unfold is_rsm; by rewrite G3|].
  intros _. eapply same_target_ok; [exact Ht|].
  unfold target_ok. simpl. rewrite Hk. by eapply rsm_allowed_ok.
Qed.

Lemma retrieve_ok family gs s :
  wp (retrieve_and_download_agent E N U family gs)
    (λ o s', a_gs_id s' = a_gs_id s ∧ is_rsm (a_updater s') = is_rsm (a_updater s) ∧
       (is_Some o → target_ok U family (a_updater s'))) (λ e _, ordinary e) s.
Proof.
  unfold retrieve_and_download_agent. wp_step. wp_step. destruct (up_kind (a_updater s)) eqn:Hk.
  - apply self_retrieve_ok. unfold is_rsm. by rewrite Hk.
  - by apply rsm_retrieve_ok.
Qed.

Lemma is_rsm_update_enabled_ordinary family upd u : fails_with ordinary (is_rsm_update_enabled U family upd u).
Proof.
  unfold is_rsm_update_enabled, rsm_is_rsm_update_enabled, self_is_rsm_update_enabled. raises_auto.
Qed.

Lemma switch_updater_quiet daemon family upd s :
  wp (switch_updater E U daemon family upd) (λ _ s', a_gs_id s' = a_gs_id s) (λ e _, ordinary e) s.
Proof.
  assert (PreOrder (λ s s' : aust, a_gs_id s' = a_gs_id s)) by (split; [by intros ?|intros ??? -> ->; done]).
  apply (wp_quiet _ (λ s s', a_gs_id s' = a_gs_id s)).
  - assert (∀ m : M world exn unit, pres (λ s s', a_gs_id s' = a_gs_id s) (on_machine m)) as Hm.
    { intros m s1. by destruct (on_machine_target m s1). }
    unfold switch_updater. pres_auto; try (by intros s1); apply Hm.
  - unfold switch_updater. pose proof is_rsm_update_enabled_ordinary.
    unfold remove_rsm_update_state_file, save_rsm_update_state_file, save_state_file, on_machine. raises_auto.
Qed.

Lemma is_update_allowed_quiet upd s :
  wp (is_update_allowed_this_time U upd)
    (λ b s', a_gs_id s' = a_gs_id s ∧ (b = true → is_rsm (a_updater s') = true → upd = true)) (λ _ _, False) s.
Proof.
  unfold is_update_allowed_this_time. wp_step. wp_step. wp_step. wp_step.
  destruct (up_kind (a_updater s)) eqn:Hk; [|by wp_step].
  unfold should_agent_attempt_manifest_download. destruct (_ <? _); wp_step; wp_step; wp_step; by split.
Qed.

Lemma purge_ordinary : raises ordinary (purge_extra_agents_from_disk E U).
Proof.
  unfold purge_extra_agents_from_disk, purge_unknown_agents_from_disk, purge_one, on_machine. raises_auto.
Qed.

Definition exits (e : exn) : Prop := e_class e = AgentUpgradeExitException.

(** What holds when the process is about to exit for an update *)
Definition update_permitted (gs : goal_state) (ext_gs_updated : bool) (s : aust) : Prop :=
  auto_update_to_latest_version U = true ∧
  ∃ family, get_agent_family_manifest U (a_gs_id s) gs = Ok family ∧ target_ok U family (a_updater s) ∧
            (is_rsm (a_updater s) = true → ext_gs_updated = true).

Lemma load_agents_ordinary l : raises ordinary (load_agents E N l).
Proof. induction l; simpl; raises_auto. Qed.

Lemma available_agents_ordinary : raises ordinary (get_available_agents_on_disk E N).
Proof. pose proof load_agents_ordinary. unfold get_available_agents_on_disk, get_all_agents_on_disk. raises_auto. Qed.

Lemma mark_failure_ordinary b r a : raises ordinary (mark_failure E N b r a).
Proof. intros w e. destruct (mark_failure_ok E N b r a w) as (a' & w' & ->). done. Qed.

Lemma inc_attempt_ordinary a : raises ordinary (inc_update_attempt_count E N a).
Proof. intros w e. destruct (inc_update_attempt_count_ok E N a w) as (a' & w' & ->). done. Qed.
Hint Resolve available_agents_ordinary mark_failure_ordinary inc_attempt_ordinary : raises.

(** The last step: the process exits, for a version that is still the target. *)
Lemma proceed_exits family s :
  target_ok U family (a_updater s) →
  wp (proceed_with_update E N U) (λ _ _, False) (λ e s', ordinary e ∨ exits e ∧ same_target s s') s.
Proof.
  intros Hok. unfold proceed_with_update. wp_step. wp_step. wp_step.
  - unfold rsm_proceed_with_update. wp_step. wp_step. wp_step. wp_step; [|left; by eapply fv_lt_ordinary].
    destruct a; [|wp_step; right; by split]. wp_step.
    eapply wp_mono; [apply (wp_quiet _ same_target); [apply on_machine_target|auto with raises]| |by auto].
    intros agents s1 H1. wp_step. wp_step; [|left; by eapply find_version_ordinary]. wp_step.
    eapply (wp_mono _ (λ _ s', same_target s1 s') _ (λ e _, ordinary e)); [| |by auto].
    + destruct a; [|by wp_step]. wp_step.
      eapply wp_mono; [apply (wp_quiet _ same_target); [apply on_machine_target|auto with raises]| |done].
      intros a' s2 H2. by wp_step.
    + intros [] s2 H2. wp_step. right. split; [done|]. by transitivity s1.
  - unfold target_ok, is_rsm in *. destruct (up_kind (a_updater s)); [|done]. destruct Hok as [Hgt _].
    unfold self_proceed_with_update. wp_step. wp_step. wp_step. rewrite Hgt. wp_step; [|done].
    simplify_eq. wp_step. right. by split.
Qed.

Lemma too_many_attempts_ordinary a : fails_with ordinary (too_many_attempts N a).
Proof. unfold too_many_attempts. raises_auto. Qed.

Lemma update_steps family gs upd o s :
  auto_update_to_latest_version U = true → get_agent_family_manifest U (a_gs_id s) gs = Ok family →
  (is_rsm (a_updater s) = true → upd = true) → target_ok U family (a_updater s) →
  wp (record_attempt E N U o ;; proceed_with_update E N U)
    (λ _ _, True) (λ e s', ordinary e ∨ exits e ∧ update_permitted gs upd s') s.
Proof.
  intros Hauto Hfam Hrsm Hok.
  assert (∀ {X} (m : A X) s1 (Q : X → A unit), same_target s s1 → pres same_target m → raises ordinary m →
    (∀ x s2, same_target s s2 → wp (Q x) (λ _ _, True) (λ e s', ordinary e ∨ exits e ∧ update_permitted gs upd s') s2) →
    wp (m ≫= Q) (λ _ _, True) (λ e s', ordinary e ∨ exits e ∧ update_permitted gs upd s') s1) as Hstep.
  { intros X m s1 Q H1 Hp Hr HQ. wp_step. eapply wp_mono; [by apply (wp_quiet _ same_target)| |by auto].
    intros x s2 H2. apply HQ. by etrans. }
  pose proof purge_ordinary. apply Hstep; [done|..].
  { unfold record_attempt, purge_extra_agents_from_disk. pose proof (@on_machine_target). pres_auto; auto. }
  { unfold record_attempt. raises_auto. }
  intros [] s3 H3. eapply wp_mono; [apply (proceed_exits family); by apply (same_target_ok _ _ s)|done|].
  intros e s4 [He|[He Ht]]; [by left|right]. split; [done|]. assert (same_target s s4) as (G1 & G2 & G3 & G4) by (by etrans).
  split; [done|]. exists family. rewrite G1. split_and!; [done|by apply (same_target_ok _ _ s)|].
  unfold is_rsm in *. by rewrite G3.
Qed.

Lemma run_body_exits daemon gs upd s :
  wp (run_body E N U daemon gs upd) (λ _ _, True) (λ e s', ordinary e ∨ exits e ∧ update_permitted gs upd s') s.
Proof.
  unfold run_body. wp_step; [by wp_step|]. apply negb_false_iff in Heqb. wp_step.
  apply (wp_mono _ (λ _ _, True) _ (λ _ _, False)); [by wp_step; [wp_step|]| |done]. intros [] s1 _.
  wp_step. wp_step. wp_step. wp_step.
  2:{ left. revert H. unfold get_agent_family_manifest. repeat case_match; by intros [= <-]. }
  wp_step. wp_step. wp_step.
  eapply (wp_mono _ (λ _ s', a_gs_id s' = a_gs_id s1) _ (λ e _, ordinary e)); [| |by auto].
  { wp_step; [apply switch_updater_quiet|done]. }
  intros [] s2 H2. wp_step. eapply wp_mono; [apply is_update_allowed_quiet| |done].
  intros allowed s3 [H3 Hrsm]. destruct allowed; simpl; [|by wp_step].
  wp_step. eapply wp_mono; [apply retrieve_ok| |by auto].
  intros o s4 (H4 & Hk & Hok). destruct o as [o|]; [|by wp_step]. wp_step.
  wp_step; [|left; by eapply too_many_attempts_ordinary]. destruct a0; [wp_step; by left|].
  apply (update_steps a); [done|congruence| |by apply Hok]. intros Hr. apply Hrsm; [done|congruence].
Qed.
End exits.

(** C6: processing a goal state for updates either returns or exits the process for an
    update, whatever fails in between.  It exits only when automatic updates are enabled
    and the target is right: in RSM mode a version requested by the update manager in a new
    goal state, which is not the running version and not below the daemon's, and which is
    below the running version only when the request says that it is to be downgraded from;
    in self-update mode a published version above the running one. *)
Theorem update_exits_only_when_permitted (E : env) (N : numbers) (U : update_env) daemon gs ext_gs_updated s :
  OrdinaryEnv E → OrdinaryUpdate U →
  wp (run E N U daemon gs ext_gs_updated) (λ _ _, True)
    (λ e s', exits e ∧ update_permitted U gs ext_gs_updated s') s.
Proof.
  intros HE HU. unfold run. wp_step. apply wp_except.
  assert (∀ s1, wp (initial ← gets (λ s, is_initial_update E (w_fs (a_world s)));
     when initial (on_machine (save_initial_update_state_file E)))
     (λ _ s2, same_target s1 s2) (λ _ _, False) s1) as Hfin.
  { intros s1. wp_step. wp_step. wp_step; [|done]. unfold save_initial_update_state_file, save_state_file.
    pose proof (on_machine_target (except Exception_ (write_file (write_fault E) (get_initial_update_state_file E) (plain ""))
      (λ _, mret tt)) s1) as Ht.
    unfold wp. destruct (on_machine _ s1) as [[[]|e] s2] eqn:Hm; [done|].
    exfalso. revert Hm. unfold on_machine, zoom, except, catch.
    pose proof (write_env_ordinary E (get_initial_update_state_file E) (plain "") (a_world s1)) as Hw.
    destruct (write_file _ _ _ (a_world s1)) as [[[]|x] w]; [done|]. rewrite (Hw x eq_refl). done. }
  eapply wp_mono; [by apply run_body_exits|..].
  - intros [] s1 _. eapply wp_mono; [apply Hfin|done..].
  - intros e s1 [He|[He Hp]].
    + split; [|by rewrite He]. intros _. unfold handle_update_error. wp_step. wp_step. wp_step.
      eapply wp_mono; [apply Hfin|done..].
    + split; [unfold isinstance; by rewrite He|]. intros _. eapply wp_mono; [apply Hfin| |done].
      intros _ s2 (G1 & G2 & G3 & G4). split; [done|]. destruct Hp as (Ha & family & Hf & Hok & Hr).
      split; [done|]. exists family. rewrite G1. split_and!; [done|by apply (same_target_ok _ _ s1)|].
      unfold is_rsm in *. by rewrite G3.
Qed.

(** ** Purging old versions *)

Definition no_z (c : ascii) : bool := negb (Ascii.eqb c "z"%char).

Lemma substring_forallb P n m s : str_forallb P s = true → str_forallb P (String.substring n m s) = true.
Proof.
  revert n m. induction s as [|c s IH]; intros n m; [by destruct n, m|]. simpl. intros [Hc Hs]%andb_true_iff.
  destruct n; [destruct m; [done|]; simpl; rewrite Hc; by apply IH|by apply IH].
Qed.

Lemma digits_no_z s : is_digits s = true → str_forallb no_z s = true.
Proof.
  unfold is_digits. intros [_ H]%andb_true_iff. induction s as [|c s IH]; [done|]. simpl in *.
  apply andb_true_iff in H as [Hc Hs]. rewrite (IH Hs), andb_true_r. unfold no_z. apply negb_true_iff, Ascii.eqb_neq.
  intros ->. done.
Qed.

Lemma fv_str_no_z v : wf_version v → str_forallb no_z (fv_str v) = true.
Proof.
  intros (Hsep & _ & _ & Hpos & Hpre). unfold fv_str, assemble. rewrite Hsep.
  assert (str_forallb no_z (str_join "." (pretty <$> fv_version v)) = true) as Hj.
  { induction Hpos as [|n l Hn Hl IH]; [done|]. pose proof (digits_no_z _ (pretty_Z_digits n Hn)) as Hd.
    destruct l as [|m l]; [done|].
    change (str_join "." (pretty <$> n :: m :: l)) with (pretty n +:+ "." +:+ str_join "." (pretty <$> m :: l)).
    by rewrite !str_forallb_app, Hd, IH. }
  destruct (fv_prerelease v) as [[tag num]|]; [|done]. destruct Hpre as (Hs & Ht & Hn).
  rewrite !str_forallb_app, Hj. simpl.
  assert (str_forallb no_z (default "" (fv_prerel_sep v)) = true) as ->.
  { apply elem_of_three in Hs as [-> | [-> | ->]]; done. }
  assert (str_forallb no_z tag = true) as -> by (apply elem_of_three in Ht as [-> | [-> | ->]]; done).
  destruct num as [n|]; [by apply digits_no_z, pretty_Z_digits|done].
Qed.

Lemma trim_zip_agent v : wf_version v → trim_zip (agent_name v) = agent_name v.
Proof.
  intros Hv. unfold trim_zip. destruct (ends_with ".zip" (agent_name v)) eqn:He; [|done]. exfalso.
  unfold ends_with in He. apply andb_true_iff in He as [_ He%String.eqb_eq].
  assert (str_forallb no_z (agent_name v) = true) as Hz.
  { unfold agent_name. by rewrite !str_forallb_app, fv_str_no_z. }
  pose proof (substring_forallb no_z (String.length (agent_name v) - String.length ".zip") (String.length ".zip") _ Hz) as Hs.
  by rewrite He in Hs.
Qed.

Lemma version_of_agent v : wf_version v → version_of_dir (trim_zip (agent_name v)) = Some (fv_str v).
Proof.
  intros Hv. rewrite trim_zip_agent by done. unfold version_of_dir, agent_name.
  rewrite <-string_app_assoc. apply strip_prefix_app.
Qed.

Section purge.
Context (E : env) (Hfault : ∀ p, write_fault E p = None).

Lemma remove_tree_lookup (p q : path) (f : fs) : ¬ p `prefix_of` q → remove_tree p f !! q = f !! q.
Proof.
  intros Hp. unfold remove_tree. destruct (f !! q) as [n|] eqn:Hq; [|apply map_lookup_filter_None; by left].
  by apply map_lookup_filter_Some.
Qed.

(** Purging an entry removes it or nothing, and touches nothing else. *)
Lemma purge_one_effect known x w :
  let p := lib_dir E ++ [x] in
  let w' := (purge_one E known x w).2 in
  w' = w ∨ w_fs w' !! p = None ∧ (∀ q, ¬ p `prefix_of` q → w_fs w' !! q = w_fs w !! q) ∧
           (∀ q, w_fs w !! q = None → w_fs w' !! q = None) ∧
           ∃ s v, version_of_dir (trim_zip x) = Some s ∧ FV s = Ok v ∧ version_in v known = Ok false.
Proof.
  intros p w'. subst w'. unfold purge_one. destruct (version_of_dir (trim_zip x)) as [s|]; [|by left].
  unfold mbind, M_bind, lift. destruct (FV s) as [v|] eqn:Hv; [|by left].
  destruct (version_in v known) as [[]|] eqn:Hin; [by left| |by left]. unfold gets. fold p.
  destruct (isfile p (w_fs w)) eqn:Hf.
  - unfold remove_file. rewrite Hf, Hfault. right. simpl. split_and!; [by rewrite lookup_delete_eq| | |by eauto].
    + intros q Hq. apply lookup_delete_ne. by intros ->.
    + intros q Hq. destruct (decide (p = q)) as [->|]; [by rewrite lookup_delete_eq|by rewrite lookup_delete_ne].
  - unfold rmtree. destruct (isdir p (w_fs w)); [|by left]. rewrite Hfault. right. simpl. split_and!; [..|by eauto].
    + unfold remove_tree. apply map_lookup_filter_None. right. intros n _ Hn. simpl in Hn. by apply Hn.
    + intros q Hq. by apply remove_tree_lookup.
    + intros q Hq. unfold remove_tree. apply map_lookup_filter_None. by left.
Qed.

Lemma purge_one_removes known x w s v :
  version_of_dir (trim_zip x) = Some s → FV s = Ok v → version_in v known = Ok false →
  w_fs (purge_one E known x w).2 !! (lib_dir E ++ [x]) = None.
Proof.
  intros Hs Hv Hin. unfold purge_one. rewrite Hs. unfold mbind, M_bind, lift, gets. rewrite Hv, Hin.
  unfold remove_file, rmtree, isfile, isdir. rewrite Hfault.
  destruct (w_fs w !! (lib_dir E ++ [x])) as [[|c t]|] eqn:Hx; rewrite ?Hx; simpl.
  - unfold remove_tree. apply map_lookup_filter_None. right. intros n _ Hn. simpl in Hn. by apply Hn.
  - by rewrite lookup_delete_eq.
  - done.
Qed.

Definition purge_caught known x : M world exn unit := except Exception_ (purge_one E known x) (λ _, mret tt).

Lemma purge_caught_run known x w : purge_caught known x w = (Ok tt, (purge_one E known x w).2).
Proof.
  unfold purge_caught, except, catch.
  assert (raises ordinary (purge_one E known x)) as Ho.
  { assert (∀ p b e, write_fault E p = Some (b, e) → ordinary e) as Hw by (intros p b e; by rewrite Hfault).
    pose proof (remove_file_ordinary _ Hw). pose proof (rmtree_ordinary _ Hw).
    assert (∀ v l, fails_with ordinary (version_in v l)) by (intros v l; induction l; simpl; raises_auto).
    unfold purge_one. raises_auto. }
  specialize (Ho w). destruct (purge_one E known x w) as [[[]|e] w']; [done|]. by rewrite (Ho e eq_refl).
Qed.
End purge.

Lemma purge_spec (E : env) (known : list FlexibleVersion) (w : world) :
  (∀ p, write_fault E p = None) →
  wp (purge_unknown_agents_from_disk E known)
    (λ _ w',
      (∀ v p, wf_version v → version_in v known = Ok true →
         get_agent_dir E v `prefix_of` p → w_fs w' !! p = w_fs w !! p) ∧
      (∀ p, (∀ x, x ∈ agent_entries E (w_fs w) → ¬ lib_dir E ++ [x] `prefix_of` p) → w_fs w' !! p = w_fs w !! p) ∧
      (∀ x s v, x ∈ agent_entries E (w_fs w) → version_of_dir (trim_zip x) = Some s → FV s = Ok v →
         version_in v known = Ok false → w_fs w' !! (lib_dir E ++ [x]) = None))
    (λ _ _, False) w.
Proof.
  intros Hf. unfold purge_unknown_agents_from_disk. wp_step. wp_step.
  set (entries := agent_entries E (w_fs w)).
  apply (wp_for_each _ _ (λ done w',
    (∀ v p, wf_version v → version_in v known = Ok true → get_agent_dir E v `prefix_of` p → w_fs w' !! p = w_fs w !! p) ∧
    (∀ p, (∀ x, x ∈ entries → ¬ lib_dir E ++ [x] `prefix_of` p) → w_fs w' !! p = w_fs w !! p) ∧
    (∀ x s v, x ∈ done → version_of_dir (trim_zip x) = Some s → FV s = Ok v →
         version_in v known = Ok false → w_fs w' !! (lib_dir E ++ [x]) = None))); [| |done].
  { split_and!; [done..|]. intros x s v []%elem_of_nil. }
  intros dn x rest w1 Hl (H1 & H2 & H3). unfold wp. fold (purge_caught E known x).
  rewrite (purge_caught_run E Hf). pose proof (purge_one_effect E Hf known x w1) as He. simpl in He.
  destruct He as [Heq|(G1 & G2 & G3 & (s & v & Gs & Gv & Gin))].
  - pose proof (purge_one_removes E Hf known x w1) as Hr. rewrite Heq in Hr |- *. split_and!; [done..|].
    intros y s v [Hy| ->%list_elem_of_singleton]%elem_of_app; [by apply H3|apply Hr].
  - split_and!.
    + intros u p Hu Hk Hp. rewrite G2; [by apply (H1 u)|]. intros Hpre.
      assert (x = agent_name u) as ->.
      { destruct Hp as [r1 ->], Hpre as [r2 Hr]. unfold get_agent_dir in Hr. rewrite <-!app_assoc in Hr.
        by simplify_list_eq. }
      rewrite version_of_agent in Gs by done. injection Gs as <-. rewrite FV_str in Gv by done. congruence.
    + intros p Hp. rewrite G2; [by apply H2|]. apply Hp. rewrite Hl. apply elem_of_app. right. by left.
    + intros y s' v' [Hy| ->%list_elem_of_singleton]%elem_of_app Hs Hv Hin; [|done]. by eapply G3, H3.
Qed.

(** Purging the disk removes every file and directory whose name is that of a version
    of the agent other than the known ones, and leaves alone everything under the
    directory of a known version and everything that is not an agent. *)
Theorem purge_keeps_known_versions (E : env) (known : list FlexibleVersion) (w : world) :
  (∀ p, write_fault E p = None) →
  wp (purge_unknown_agents_from_disk E known)
    (λ _ w',
      (∀ v p, wf_version v → version_in v known = Ok true →
         get_agent_dir E v `prefix_of` p → w_fs w' !! p = w_fs w !! p) ∧
      (∀ p, (∀ x, x ∈ agent_entries E (w_fs w) → ¬ lib_dir E ++ [x] `prefix_of` p) → w_fs w' !! p = w_fs w !! p) ∧
      (∀ x s v, x ∈ agent_entries E (w_fs w) → version_of_dir (trim_zip x) = Some s → FV s = Ok v →
         version_in v known = Ok false → w_fs w' !! (lib_dir E ++ [x]) = None))
    (λ _ _, False) w.
Proof. apply purge_spec. Qed.

(** ** Counting the attempts *)

Lemma agent_prefix E v x : get_agent_dir E v `prefix_of` get_agent_dir E v ++ [x].
Proof. by exists [x]. Qed.

(** An attempt to update to a version is recorded before the process exits: after the
    old versions were purged, loading the version again gives one more attempt and no
    failure, so that the version is available; with the third attempt recorded, the next
    one is refused. *)
Theorem attempt_is_counted (E : env) (N : numbers) (U : update_env) a s n man :
  (∀ p, write_fault E p = None) → (∀ t, json_time N (time_json N t) = Some t) →
  wf_version (ga_version a) →
  version_in (ga_version a) [CURRENT_VERSION U; up_version (a_updater s)] = Ok true →
  (let f := w_fs (a_world s) in
   isdir (get_agent_dir E (ga_version a)) f = true ∧
   isdir (get_agent_error_file E (ga_version a)) f = false ∧
   isdir (get_agent_update_count_file E (ga_version a)) f = false ∧
   agent_load_manifest E (ga_version a) f = Ok man) →
  json_count N (ga_attempts a) = Some n →
  ∃ s' a', record_attempt E N U a s = (Ok tt, s') ∧
    load_agent E N None (ga_version a) (a_world s') = (Ok a', a_world s') ∧
    ga_attempts a' = JInt (n + 1) ∧ is_available E a' (w_fs (a_world s')) = true ∧
    too_many_attempts N a' = Ok (2 <=? n).
Proof.
  intros Hf Ht Hwf Hin (Hd & He & Hc & Hman) Hn. set (v := ga_version a) in *.
  set (fe := get_agent_error_file E v) in *. set (fc := get_agent_update_count_file E v) in *.
  assert (fe ≠ fc) as Hec by (by apply agent_file_ne).
  assert (get_agent_dir E v ≠ fe ∧ get_agent_dir E v ≠ fc) as [Hde Hdc].
  { split; intros Heq; apply (f_equal length) in Heq; unfold fe, fc, get_agent_error_file, get_agent_update_count_file in Heq;
      rewrite length_app in Heq; simpl in Heq; lia. }
  set (we := with_fs <[fe := File (json_content (error_to_json N cleared_error)) (w_now (a_world s))]> (a_world s)).
  set (wc := with_fs <[fc := File (json_content (attempt_to_json (JInt (n + 1)))) (w_now (a_world s))]> we).
  assert (clear_error E N a (a_world s) = (Ok (set_error cleared_error a), we)) as H1.
  { unfold clear_error, mbind, M_bind. fold v fe. rewrite (save_record_writes E Hf); [done| |done].
    unfold fe, get_agent_error_file. by rewrite parent_dir_snoc. }
  assert (∃ a2, inc_update_attempt_count E N (set_error cleared_error a) we = (Ok a2, wc)) as [a2 H2].
  { unfold inc_update_attempt_count, inc_count. simpl. fold v fc. rewrite Hn.
    rewrite (save_record_writes E Hf); [eauto|..].
    - unfold fc, get_agent_update_count_file. rewrite parent_dir_snoc. unfold isdir, we. simpl. by rewrite lookup_insert_ne.
    - unfold isdir, we. simpl. by rewrite lookup_insert_ne. }
  pose proof (purge_spec E [CURRENT_VERSION U; up_version (a_updater s)] wc Hf) as Hp. unfold wp in Hp.
  destruct (purge_unknown_agents_from_disk E _ wc) as [[[]|x] w'] eqn:Hpe; [|done]. destruct Hp as [Hkeep _].
  set (s' := mkAust (a_updater s) (a_gs_id s) (a_last_error s) (a_validation_disabled s) w').
  assert (record_attempt E N U a s = (Ok tt, s')) as Hrec.
  { unfold record_attempt, purge_extra_agents_from_disk, on_machine, zoom, mbind, M_bind, gets. rewrite H1. simpl.
    rewrite H2. simpl. by rewrite Hpe. }
  assert (∀ x, w_fs w' !! (get_agent_dir E v ++ [x]) = w_fs wc !! (get_agent_dir E v ++ [x])) as Hk
    by (intros x; apply (Hkeep v); [done..|apply agent_prefix]).
  assert (load_agent E N None v w' = (Ok (mkGuestAgent None v cleared_error (JInt (n + 1)) (Some man)), w')) as Hload.
  { apply (load_agent_full E N None v w' cleared_error (JInt (n + 1)) man (json_content (error_to_json N cleared_error))
      (w_now (a_world s)) (json_content (attempt_to_json (JInt (n + 1)))) (w_now (a_world s))).
    - rewrite <-Hman. apply agent_load_manifest_file. unfold get_agent_manifest_path at 1. rewrite Hk. simpl.
      rewrite !lookup_insert_ne by (by apply agent_file_ne). done.
    - unfold get_agent_error_file. rewrite Hk. simpl. rewrite lookup_insert_ne by done. by rewrite lookup_insert_eq.
    - done.
    - apply (error_roundtrip N Ht); simpl; [lia|lia|eauto..].
    - unfold get_agent_update_count_file. rewrite Hk. simpl. by rewrite lookup_insert_eq.
    - done. }
  eexists s', _. split_and!; [exact Hrec|exact Hload|done| |].
  - unfold is_available, is_downloaded, is_blacklisted, error_is_blacklisted. simpl. rewrite andb_true_r.
    unfold isfile, get_agent_manifest_path. rewrite Hk. simpl. rewrite !lookup_insert_ne by (by apply agent_file_ne).
    unfold agent_load_manifest, get_agent_manifest_path in Hman.
    by destruct (w_fs (a_world s) !! (get_agent_dir E v ++ ["HandlerManifest.json"])) as [[]|].
  - unfold too_many_attempts. simpl. f_equal. destruct (Z.leb_spec 3 (n + 1)), (Z.leb_spec 2 n); lia || done.
Qed.

(** ** The schedule of self-updates *)

(** The results of successive calls at the given times *)
Fixpoint calls (m : option Z → option Z → Z → bool * updater_kind) (k : updater_kind) (ts : list Z)
    : list (Z * bool) * updater_kind :=
  match ts with
  | [] => ([], k)
  | t :: ts' =>
      match k with
      | RSM _ => ([], k)
      | SelfUpdate last next =>
          let '(b, k1) := m last next t in
          let '(l, k2) := calls m k1 ts' in
          ((t, b) :: l, k2)
      end
  end.

Definition allowed_times (l : list (Z * bool)) : list Z := (filter (λ x, x.2 = true) l).*1.

Lemma downloads_after U last next ts :
  let l := allowed_times (calls (should_agent_attempt_manifest_download U) (SelfUpdate last next) ts).1 in
  Sorted (λ a b, a + autoupdate_frequency U * 1000000 ≤ b) (match last with Some t => t :: l | None => l end).
Proof.
  simpl. revert last. induction ts as [|t ts IH]; intros last; simpl.
  { destruct last; repeat constructor. }
  destruct (should_agent_attempt_manifest_download U last next t) as [b k1] eqn:Hd.
  unfold should_agent_attempt_manifest_download in Hd. destruct (t <? _) eqn:Hlt; simplify_eq.
  - specialize (IH last). destruct (calls _ _ ts) as [l k]. apply IH.
  - specialize (IH (Some t)). destruct (calls _ _ ts) as [l k]. unfold allowed_times in *. simpl in *.
    destruct last as [t0|]; [|done]. constructor; [done|]. constructor. by apply Z.ltb_ge.
Qed.

Lemma calls_app m k l1 l2 :
  calls m k (l1 ++ l2) =
    let '(r1, k1) := calls m k l1 in let '(r2, k2) := calls m k1 l2 in (r1 ++ r2, k2).
Proof.
  revert k. induction l1 as [|t l1 IH]; intros k; simpl; [by destruct (calls m k l2)|].
  destruct k as [last next|d].
  - destruct (m last next t) as [b k1]. rewrite IH. destruct (calls m k1 l1) as [r1 k2]. by destruct (calls m k2 l2).
  - by destruct l2.
Qed.

Lemma waiting_calls U v last T ts :
  Forall (λ t, t < T) ts →
  calls (new_agent_allowed_now_to_update U v) (SelfUpdate last (Some T)) ts = ((λ t, (t, false)) <$> ts, SelfUpdate last (Some T)).
Proof.
  induction 1 as [|t ts Ht Hts IH]; simpl; [done|]. unfold new_agent_allowed_now_to_update at 1. simpl.
  rewrite (proj2 (Z.leb_gt T t)) by done. by rewrite IH.
Qed.

(** Self-update contacts the repository at most once per period, however often it is
    asked and whatever the clock does; and when a new version is found, the time of the
    update is drawn once, within the configured period: the calls before that time refuse,
    the first call after it allows the update and resets the draw. *)
Theorem self_update_schedule (U : update_env) v last next t0 ts t :
  let hotfix := is_hotfix U v in
  let frequency := if hotfix then self_update_hotfix_frequency U else self_update_regular_frequency U in
  let T := get_next_process_time U hotfix t0 in
  Sorted (λ a b, a + autoupdate_frequency U * 1000000 ≤ b)
    (allowed_times (calls (should_agent_attempt_manifest_download U) (SelfUpdate None next) ts).1) ∧
  (0 ≤ randint U t0 frequency ≤ frequency → t0 ≤ T ≤ t0 + frequency * 1000000) ∧
  (Forall (λ x, x < T) (t0 :: ts) → T ≤ t →
   calls (new_agent_allowed_now_to_update U v) (SelfUpdate last None) (t0 :: ts ++ [t])
   = (((λ x, (x, false)) <$> t0 :: ts) ++ [(t, true)], SelfUpdate last None)).
Proof.
  intros hotfix frequency T. split; [apply (downloads_after U None)|]. split.
  { unfold T, get_next_process_time. fold frequency. lia. }
  intros [Ht0 Hts]%Forall_cons HT. cbn [calls]. unfold new_agent_allowed_now_to_update at 1. simpl. fold hotfix T.
  rewrite (proj2 (Z.leb_gt T t0)) by done.
  rewrite calls_app, waiting_calls by done. simpl. unfold new_agent_allowed_now_to_update. simpl.
  by rewrite (proj2 (Z.leb_le T t)).
Qed.

(** ** The update mode *)

(** The state file says which updater is in use. *)
Definition mode_recorded (E : env) (s : aust) : Prop :=
  is_rsm (a_updater s) = is_last_update_with_rsm E (w_fs (a_world s)).

Section mode_file.
Context (E : env) (Hf : ∀ p, write_fault E p = None).
Notation p := (get_rsm_update_state_file E).

Lemma remove_rsm_file_run w :
  isdir p (w_fs w) = false → remove_rsm_update_state_file E w = (Ok tt, with_fs (delete p) w).
Proof.
  intros Hd. unfold remove_rsm_update_state_file, except, catch, mbind, M_bind, gets, remove_file, exists_path, isdir, isfile, with_fs in *.
  destruct w as [f t l b]. simpl in *. destruct (f !! p) as [[]|] eqn:Hp; simpl; [done| |].
  - by rewrite Hp, Hf.
  - by rewrite delete_id.
Qed.

Lemma save_rsm_file_run w :
  isdir (lib_dir E) (w_fs w) = true → isdir p (w_fs w) = false →
  save_rsm_update_state_file E w = (Ok tt, with_fs <[p := File (plain "") (w_now w)]> w).
Proof.
  intros Hl Hd. unfold save_rsm_update_state_file, save_state_file, except, catch, write_file.
  assert (parent_dir p = lib_dir E) as -> by apply parent_dir_snoc. by rewrite Hd, Hl, Hf.
Qed.

Lemma exists_delete (q : path) (f : fs) : exists_path q (delete q f) = false.
Proof. unfold exists_path. by rewrite lookup_delete_eq. Qed.

Lemma exists_insert (q : path) (n : node) (f : fs) : exists_path q (<[q := n]> f) = true.
Proof. unfold exists_path. by rewrite lookup_insert_eq. Qed.
End mode_file.

Lemma on_machine_run {X} (m : M world exn X) s :
  on_machine m s = let '(r, w) := m (a_world s) in
                   (r, mkAust (a_updater s) (a_gs_id s) (a_last_error s) (a_validation_disabled s) w).
Proof. done. Qed.

(** The update mode survives a restart: switching between RSM updates and self-update
    keeps the state file in step with the updater in use, and fails only before it changed
    anything; a handler created from that disk uses the same kind of updater. *)
Theorem update_mode_survives_restart (E : env) (U : update_env) daemon family upd s :
  (∀ p, write_fault E p = None) → isdir (lib_dir E) (w_fs (a_world s)) = true →
  isdir (get_rsm_update_state_file E) (w_fs (a_world s)) = false →
  is_initial_update E (w_fs (a_world s)) = false → mode_recorded E s →
  wp (switch_updater E U daemon family upd)
    (λ _ s', mode_recorded E s' ∧
       ∀ h, new_handler E U (a_world s') = Ok h → is_rsm (a_updater h) = is_rsm (a_updater s'))
    (λ _ s', s' = s) s.
Proof.
  intros Hf Hlib Hdir Hini Hrec. set (p := get_rsm_update_state_file E) in *.
  assert (get_initial_update_state_file E ≠ p) as Hne by (unfold p, get_initial_update_state_file, get_rsm_update_state_file; by intros ?; simplify_list_eq).
  assert (∀ s', mode_recorded E s' → is_initial_update E (w_fs (a_world s')) = false →
    ∀ h, new_handler E U (a_world s') = Ok h → is_rsm (a_updater h) = is_rsm (a_updater s')) as Hnew.
  { intros s' Hr Hi h. unfold new_handler. destruct (get_daemon_version_for_update U) as [d|]; cbn; [|done].
    rewrite Hi, Hr, orb_false_r. destruct (is_last_update_with_rsm E (w_fs (a_world s'))); by intros [= <-]. }
  apply (wp_mono _ (λ _ s', mode_recorded E s' ∧ is_initial_update E (w_fs (a_world s')) = false) _ (λ _ s', s' = s));
    [|intros _ s' []; auto|done].
  unfold switch_updater. wp_step. wp_step. wp_step. wp_step. wp_step. wp_step; [|done]. rename a into enabled.
  unfold mode_recorded, is_last_update_with_rsm in *. fold p in Hrec |- *.
  destruct (is_rsm (a_updater s)) eqn:Hk, enabled; cbn [negb andb when].
  - wp_step. wp_step. wp_step. split; congruence.
  - wp_step. wp_step. wp_step. unfold wp at 1. rewrite on_machine_run, (remove_rsm_file_run E Hf) by done.
    wp_step. simpl. rewrite exists_delete. split; [done|]. unfold is_initial_update, exists_path. by rewrite lookup_delete_ne.
  - wp_step. wp_step. wp_step. wp_step. unfold wp at 1. rewrite on_machine_run, (save_rsm_file_run E Hf) by done.
    simpl. rewrite exists_insert. split; [done|]. unfold is_initial_update, exists_path. by rewrite lookup_insert_ne.
  - wp_step. wp_step. wp_step. split; congruence.
Qed.

(** ** A manifest that is never refreshed *)

(** In RSM mode the list of published packages is fetched once in the life of the
    updater: when a later goal state requests a version that was published since, the
    update fails with the list that is kept, whatever the repository would answer now, and
    the list stays for the next request. *)
Theorem rsm_manifest_is_never_refreshed (E : env) (N : numbers) (U : update_env) daemon d gs family pkgs v e s :
  auto_update_to_latest_version U = true →
  is_initial_update E (w_fs (a_world s)) = false →
  up_kind (a_updater s) = RSM d → up_manifest (a_updater s) = Some pkgs →
  get_agent_family_manifest U (gs_id gs) gs = Ok family →
  rsm_is_rsm_update_enabled U (gs_id gs) family true = Ok true →
  FV (default "" (vf_version family)) = Ok v →
  is_retrieved_version_allowed_to_update U (gs_id gs) v d family = Ok true →
  get_agent_package_to_download pkgs v (gs_id gs) = Err e → isinstance e AgentUpdateError = true →
  ∃ s', run E N U daemon gs true s = (Ok tt, s') ∧ a_last_error s' = "[RSM] " +:+ e_msg e ∧
    up_manifest (a_updater s') = Some pkgs ∧ up_kind (a_updater s') = RSM d ∧ a_world s' = a_world s.
Proof.
  intros Hauto Hini Hk Hm Hfam Hen Hv Hok Hp He.
  assert (isinstance e Exception_ = true) as Hex by (unfold isinstance in *; by destruct (e_class e)).
  set (u1 := sync_new_gs_id (gs_id gs) (a_updater s)).
  set (s1 := mkAust (set_version v u1) (gs_id gs) "" (a_validation_disabled s) (a_world s)).
  assert (run_body E N U daemon gs true s = (Err e, s1)) as Hb.
  { assert (wp (run_body E N U daemon gs true) (λ _ _, False) (λ e' s', e' = e ∧ s' = s1) s) as Hwp.
    2:{ unfold wp in Hwp. destruct (run_body E N U daemon gs true s) as [[x|x] s2]; [done|]. by destruct Hwp as [-> ->]. }
    unfold run_body. rewrite Hauto. cbn [negb when].
    wp_step. wp_step. wp_step. wp_step. cbn [a_gs_id]. wp_step. rewrite Hfam. wp_step; [|done]. simplify_eq.
    wp_step. wp_step. cbn [a_world]. rewrite Hini. cbn [negb when]. wp_step.
    unfold switch_updater. wp_step. wp_step. wp_step. wp_step. wp_step.
    unfold is_rsm_update_enabled, is_rsm. cbn [a_updater sync_new_gs_id up_kind up_gs_id]. rewrite Hk, Hen.
    wp_step; [|done]. simplify_eq. cbn [negb andb when]. wp_step. wp_step. wp_step. wp_step.
    unfold is_update_allowed_this_time. wp_step. wp_step. wp_step. wp_step. cbn [a_updater up_kind sync_new_gs_id]. rewrite Hk. wp_step.
    cbn [negb]. wp_step.
    unfold retrieve_and_download_agent. wp_step. wp_step. cbn [a_updater up_kind sync_new_gs_id]. rewrite Hk.
    unfold rsm_retrieve_and_download_agent. wp_step. rewrite Hv. wp_step; [|done]. simplify_eq.
    wp_step. wp_step. wp_step. wp_step. wp_step. cbn [sync_new_gs_id set_updater a_updater up_gs_id set_version]. rewrite Hok. wp_step; [|done].
    simplify_eq. cbn [negb]. wp_step. unfold download_and_get_new_agent. wp_step. wp_step. wp_step. wp_step. wp_step.
    cbn [sync_new_gs_id set_updater a_updater up_gs_id set_version up_manifest]. rewrite Hm. wp_step. wp_step.
    cbn [sync_new_gs_id set_updater a_updater up_gs_id set_version up_version]. rewrite Hp. wp_step; by simplify_eq. }
  set (s2 := set_last_error ("[RSM] " +:+ e_msg e) s1). exists s2.
  split; [|done].
  assert (handle_update_error U true e s1 = (Ok tt, s2)) as Hh.
  { unfold handle_update_error. rewrite He. cbv beta zeta delta [mbind M_bind gets modify orb].
    unfold update_mode, is_rsm. cbn [a_updater s1 set_version u1 sync_new_gs_id up_kind]. by rewrite Hk. }
  unfold run, finally, except, catch. rewrite Hb, Hex, Hh. unfold mbind, M_bind, gets. simpl. by rewrite Hini.
Qed.

(** ** The theorems on the sample machine *)

Definition published : list ExtHandlerPackage :=
  [mkPackage "2.8.0.1" ["https://a/2.8.0.1"]; mkPackage "2.10.0.1" ["https://a/2.10.0.1"];
   mkPackage "2.9.0.1" ["https://a/2.9.0.1"]].

(** Version 2.9.0.1 runs and 2.10.0.1 is published. *)
Definition sample_update : update_env :=
  mkUpdateEnv (agent_version [2; 9; 0; 1]) (Some "2.8.0.0") true "Prod" true 3600 14400 86400
    (λ _ n, n / 2) (λ _ _ _, Ok published) (λ _, false) (λ _, "").

Definition sample_family (version : string) : VMAgentFamily :=
  mkFamily "Prod" (Some version) None (Some true) (Some true) [] ["https://a/manifest"].
Definition sample_goal_state (version : string) : goal_state :=
  mkGoalState "incarnation_2" [sample_family version] false.

(** The disk of a machine whose first update was attempted *)
Definition update_world : world :=
  with_fs (λ f, <[["var"; "lib"; "waagent"; "waagent_initial_update"] := File (plain "") 0]>
                (<[["var"; "lib"; "waagent"; "WALinuxAgent-2.8.0.1"] := Dir]> f)) (agent_world sample_manifest).

Definition self_update_state : aust := mkAust (new_self_updater "incarnation_1") "incarnation_1" "" false update_world.
Definition daemon_2_8 : FlexibleVersion := agent_version [2; 8; 0; 0].

(** In RSM mode, with the list of packages of an earlier request *)
Definition rsm_state : aust :=
  mkAust (set_manifest published (new_rsm_updater "incarnation_1" daemon_2_8)) "incarnation_1" "" false
    (with_fs <[["var"; "lib"; "waagent"; "waagent_rsm_update"] := File (plain "") 0]> update_world).

#[export] Instance sample_env_ordinary : OrdinaryEnv sample_env.
Proof. split; unfold sample_env, sample_env_with; simpl; intros; simplify_eq. Qed.

#[export] Instance sample_update_ordinary : OrdinaryUpdate sample_update.
Proof. intros now name uris e. done. Qed.

Definition is_exit {X} (r : res exn X) : bool := match r with Ok _ => false | Err e => bool_decide (e_class e = AgentUpgradeExitException) end.

Lemma update_exits_only_when_permitted_witness :
  ∃ e s', run sample_env sample_numbers sample_update daemon_2_8 (sample_goal_state "2.10.0.1") true self_update_state = (Err e, s') ∧
    exits e ∧ update_permitted sample_update (sample_goal_state "2.10.0.1") true s'.
Proof.
  assert (is_exit (run sample_env sample_numbers sample_update daemon_2_8 (sample_goal_state "2.10.0.1") true self_update_state).1 = true)
    as Hx by (vm_compute; reflexivity).
  pose proof (update_exits_only_when_permitted sample_env sample_numbers sample_update daemon_2_8
    (sample_goal_state "2.10.0.1") true self_update_state sample_env_ordinary sample_update_ordinary) as H.
  unfold wp in H. destruct (run _ _ _ _ _ _ _) as [[[]|e] s']; [discriminate Hx|]. exists e, s'. split; [reflexivity|exact H].
Defined.

Lemma purge_keeps_known_versions_witness :
  ∃ w', purge_unknown_agents_from_disk sample_env [agent_version [2; 9; 0; 1]; agent_version [2; 10; 0; 1]] update_world = (Ok tt, w') ∧
    isdir (get_agent_dir sample_env (agent_version [2; 9; 0; 1])) (w_fs w') = true ∧
    w_fs w' !! ["var"; "lib"; "waagent"; "WALinuxAgent-2.8.0.1"] = None.
Proof.
  pose proof (purge_keeps_known_versions sample_env [agent_version [2; 9; 0; 1]; agent_version [2; 10; 0; 1]] update_world) as H.
  unfold wp in H. destruct (purge_unknown_agents_from_disk _ _ _) as [[[]|e] w']; [|destruct H; reflexivity].
  destruct H as (H1 & _ & H3); [reflexivity|]. exists w'. split_and!; [reflexivity| |].
  - unfold isdir. rewrite (H1 (agent_version [2; 9; 0; 1]) (get_agent_dir sample_env (agent_version [2; 9; 0; 1])));
      [vm_compute; reflexivity| |vm_compute; reflexivity|reflexivity].
    split_and!; try done. repeat constructor; done.
  - apply (H3 "WALinuxAgent-2.8.0.1" "2.8.0.1" (agent_version [2; 8; 0; 1])); try (vm_compute; reflexivity).
    apply list_elem_of_In. vm_compute. tauto.
Defined.

Lemma attempt_is_counted_witness :
  ∃ s' a', record_attempt sample_env sample_numbers sample_update (sample_agent 3) self_update_state = (Ok tt, s') ∧
    load_agent sample_env sample_numbers None (agent_version [2; 9; 0; 1]) (a_world s') = (Ok a', a_world s') ∧
    ga_attempts a' = JInt 1 ∧ is_available sample_env a' (w_fs (a_world s')) = true ∧ too_many_attempts sample_numbers a' = Ok false.
Proof.
  apply (attempt_is_counted sample_env sample_numbers sample_update (sample_agent 3) self_update_state 0
           (match sample_manifest with JArr (x :: _) => x | j => j end)).
  - reflexivity.
  - reflexivity.
  - split_and!; try done. repeat constructor; done.
  - vm_compute; reflexivity.
  - split_and!; vm_compute; reflexivity.
  - reflexivity.
Defined.

Lemma self_update_schedule_witness :
  calls (new_agent_allowed_now_to_update sample_update (agent_version [2; 9; 0; 2])) (SelfUpdate None None) [0; 3600000000; 7200000000]
  = ([(0, false); (3600000000, false); (7200000000, true)], SelfUpdate None None).
Proof.
  apply (self_update_schedule sample_update (agent_version [2; 9; 0; 2]) None None 0 [3600000000] 7200000000).
  - repeat constructor; vm_compute; reflexivity.
  - vm_compute; discriminate.
Defined.

Lemma update_mode_survives_restart_witness :
  ∃ s', switch_updater sample_env sample_update daemon_2_8 (sample_family "2.10.0.1") true self_update_state = (Ok tt, s') ∧
    is_rsm (a_updater s') = true ∧
    ∀ h, new_handler sample_env sample_update (a_world s') = Ok h → is_rsm (a_updater h) = true.
Proof.
  assert (match switch_updater sample_env sample_update daemon_2_8 (sample_family "2.10.0.1") true self_update_state with
          | (Ok _, s') => is_rsm (a_updater s') | _ => false end = true) as Hx by (vm_compute; reflexivity).
  pose proof (update_mode_survives_restart sample_env sample_update daemon_2_8 (sample_family "2.10.0.1") true self_update_state) as H.
  unfold wp in H. destruct (switch_updater _ _ _ _ _ _) as [[[]|e] s']; [|discriminate Hx].
  destruct H as [_ H]; try (vm_compute; reflexivity). exists s'. rewrite Hx in H. split_and!; [reflexivity|exact Hx|exact H].
Defined.

Lemma rsm_manifest_is_never_refreshed_witness :
  ∃ s', run sample_env sample_numbers sample_update daemon_2_8 (sample_goal_state "2.11.0.0") true rsm_state = (Ok tt, s') ∧
    up_manifest (a_updater s') = Some published.
Proof.
  destruct (rsm_manifest_is_never_refreshed sample_env sample_numbers sample_update daemon_2_8 daemon_2_8
    (sample_goal_state "2.11.0.0") (sample_family "2.11.0.0") published (agent_version [2; 11; 0; 0])
    (agent_update_error "No matching package found in the agent manifest for version: 2.11.0.0 in goal state incarnation: incarnation_2, skipping agent update")
    rsm_state) as (s' & H1 & _ & H2 & _); try (vm_compute; reflexivity).
  exists s'. split; [exact H1|exact H2].
Defined.
