(* ===== verification/VmSettings.v ===== *)
(** * The goal state of the host (common/protocol/extensions_goal_state_from_vm_settings.py)

    The vmSettings are a JSON document from the HostGAPlugin.  The parser fills the
    attributes of [ExtensionsGoalStateFromVmSettings] one after the other; when it fails, the
    attributes set so far decide what is removed from the text that is kept for
    diagnostics.  The values of attributes are what the document holds, of any type. *)
From S2P Require Import Prelude PyExn FlexVersion Datetime Json Ticks Policy World RestApi ExtInstance AgentUpdate Urls.
From Stdlib Require Import Ascii.

(** ** Data *)

(** [ExtensionSettings] and [Extension] as the parser fills them *)
Record vs_settings := mkVsSettings {
  vt_name : json;
  vt_sequenceNumber : json;
  vt_publicSettings : json;
  vt_protectedSettings : json;
  vt_certificateThumbprint : json;
  vt_dependencyLevel : json;
  vt_state : json
}.

Record vs_extension := mkVsExtension {
  vx_name : json;
  vx_version : json;
  vx_state : json;
  vx_settings : list vs_settings;
  vx_manifest_uris : list json;
  vx_supports_multi_config : json;
  vx_encoded_signature : json
}.

(** [VMAgentFamily] *)
Record vs_family := mkVsFamily {
  va_name : json;
  va_version : json;
  va_from_version : json;
  va_is_version_from_rsm : json;
  va_is_vm_enabled_for_rsm_upgrades : json;
  va_ga_version_to_signature_mapping : list (string * string);
  va_uris : list json
}.

(** [ExtensionsGoalStateFromVmSettings]; [vs_text] is the document, [vs_simple] the
    attributes that are copied from it. *)
Record vs_attributes := mkVsAttributes {
  vs_host_ga_plugin_version : FlexibleVersion;
  vs_activity_id : json;
  vs_correlation_id : json;
  vs_svd_sequence_number : json;
  vs_created_on_timestamp : string;
  vs_schema_version : FlexibleVersion;
  vs_on_hold : json;
  vs_source : json
}.

Record vm_settings := mkVmSettings {
  vs_etag : string;
  vs_text : string;
  vs_simple : vs_attributes;
  vs_status_upload_blob : json;
  vs_status_upload_blob_type : json;
  vs_required_features : list json;
  vs_agent_families : list vs_family;
  vs_extensions : list vs_extension
}.
Notation V X := (M vm_settings exn X).

Definition vs_id (v : vm_settings) : string := "etag_" +:+ vs_etag v.

Definition set_simple (f : vs_attributes → vs_attributes) (v : vm_settings) : vm_settings :=
  mkVmSettings (vs_etag v) (vs_text v) (f (vs_simple v)) (vs_status_upload_blob v) (vs_status_upload_blob_type v)
    (vs_required_features v) (vs_agent_families v) (vs_extensions v).
Definition set_blob (blob type : json) (v : vm_settings) : vm_settings :=
  mkVmSettings (vs_etag v) (vs_text v) (vs_simple v) blob type
    (vs_required_features v) (vs_agent_families v) (vs_extensions v).
Definition set_features (l : list json) (v : vm_settings) : vm_settings :=
  mkVmSettings (vs_etag v) (vs_text v) (vs_simple v) (vs_status_upload_blob v) (vs_status_upload_blob_type v)
    l (vs_agent_families v) (vs_extensions v).
Definition add_family (a : vs_family) (v : vm_settings) : vm_settings :=
  mkVmSettings (vs_etag v) (vs_text v) (vs_simple v) (vs_status_upload_blob v) (vs_status_upload_blob_type v)
    (vs_required_features v) (vs_agent_families v ++ [a]) (vs_extensions v).
Definition add_extension (x : vs_extension) (v : vm_settings) : vm_settings :=
  mkVmSettings (vs_etag v) (vs_text v) (vs_simple v) (vs_status_upload_blob v) (vs_status_upload_blob_type v)
    (vs_required_features v) (vs_agent_families v) (vs_extensions v ++ [x]).

(** ** Access to the document: the keys are compared without their case *)

(** [item.get(key)] *)
Definition cf_get (key : string) (item : json) : res exn json :=
  match item with
  | JObj d => Ok (default JNull (CaseFolded.get key d))
  | j => Err (py_error AttributeError ("'" +:+ type_name j +:+ "' object has no attribute 'get'"))
  end.

(** [item[key]] *)
Definition cf_getitem (key : string) (item : json) : res exn json :=
  match item with
  | JObj d => match CaseFolded.get key d with
              | Some v => Ok v
              | None => Err (py_error KeyError ("'" +:+ CaseFolded.casefold key +:+ "'"))
              end
  | JArr _ => Err (py_error TypeError "list indices must be integers or slices, not str")
  | JStr _ => Err (py_error TypeError "string indices must be integers, not 'str'")
  | j => Err (py_error TypeError ("'" +:+ type_name j +:+ "' object is not subscriptable"))
  end.

Definition vs_error {A} (msg : string) : res exn A := Err (py_error Exception_ msg).

Definition fv_of_json (j : json) : res exn FlexibleVersion :=
  match j with
  | JStr s => FV s
  | _ => Err (py_error TypeError "expected string or bytes-like object")
  end.

Definition GUID_ZERO : string := "00000000-0000-0000-0000-000000000000".

(** [_string_to_id] *)
Definition string_to_id (id : json) : json :=
  if is_null id || json_eqb id (JStr "") then JStr GUID_ZERO else id.

Fixpoint map_res {A B} (f : A → res exn B) (l : list A) : res exn (list B) :=
  match l with
  | [] => Ok []
  | x :: l' => y ← f x; ys ← map_res f l'; Ok (y :: ys)
  end.

Section parser.
(** [json.loads] and [float] of the standard library *)
Context (loads : string → res exn json) (float_text : string → option Z).

(** *** [_parse_simple_attributes] *)
Definition parse_simple_attributes (d : json) : V unit :=
  version ← lift (cf_get "hostGAPluginVersion" d);
  when (negb (is_null version))
    (v ← lift (fv_of_json version);
     modify (set_simple (λ a, mkVsAttributes v (vs_activity_id a) (vs_correlation_id a) (vs_svd_sequence_number a)
                                (vs_created_on_timestamp a) (vs_schema_version a) (vs_on_hold a) (vs_source a)))) ;;
  activity ← lift (cf_get "activityId" d);
  correlation ← lift (cf_get "correlationId" d);
  seq ← lift (cf_get "inSvdSeqNo" d);
  ticks ← lift (cf_get "extensionsLastModifiedTickCount" d);
  modify (set_simple (λ a, mkVsAttributes (vs_host_ga_plugin_version a) (string_to_id activity) (string_to_id correlation)
                             (string_to_id seq) (ticks_to_utc_timestamp float_text ticks)
                             (vs_schema_version a) (vs_on_hold a) (vs_source a))) ;;
  schema ← lift (cf_get "vmSettingsSchemaVersion" d);
  when (negb (is_null schema))
    (v ← lift (fv_of_json schema);
     modify (set_simple (λ a, mkVsAttributes (vs_host_ga_plugin_version a) (vs_activity_id a) (vs_correlation_id a)
                                (vs_svd_sequence_number a) (vs_created_on_timestamp a) v (vs_on_hold a) (vs_source a)))) ;;
  on_hold ← lift (cf_get "onHold" d);
  source ← lift (cf_get "extensionGoalStatesSource" d);
  modify (set_simple (λ a, mkVsAttributes (vs_host_ga_plugin_version a) (vs_activity_id a) (vs_correlation_id a)
                             (vs_svd_sequence_number a) (vs_created_on_timestamp a) (vs_schema_version a)
                             (if is_null on_hold then vs_on_hold a else on_hold)
                             (if is_null source then JStr "UNKNOWN" else source))).

(** *** [_parse_status_upload_blob] *)
Definition parse_status_upload_blob (d : json) : V unit :=
  blob ← lift (cf_get "statusUploadBlob" d);
  if is_null blob then modify (set_blob JNull (JStr "BlockBlob"))
  else
    value ← lift (cf_get "value" blob);
    modify (λ v, set_blob value (vs_status_upload_blob_type v) v) ;;
    if is_null value then lift (vs_error "Missing statusUploadBlob.value")
    else
      type ← lift (cf_get "statusBlobType" blob);
      modify (set_blob value (if is_null type then JStr "BlockBlob" else type)).

(** *** [_parse_required_features] *)
Definition feature_name (feature : json) : res exn json :=
  name ← cf_get "name" feature;
  if is_null name then vs_error ("A required feature is missing the 'name' property (got " +:+ py_str feature +:+ ")")
  else Ok name.

(** The names read before a failure stay in the list. *)
Definition parse_required_features (d : json) : V unit :=
  features ← lift (cf_get "requiredFeatures" d);
  match features with
  | JNull => mret tt
  | JArr l =>
      for_each l (λ feature,
        name ← lift (feature_name feature);
        modify (λ v, set_features (vs_required_features v ++ [name]) v))
  | j => lift (vs_error ("requiredFeatures should be an array (got " +:+ py_str j +:+ ")"))
  end.

(** *** [_parse_agent_manifests] *)
Definition signature_mappings (l : list json) : res exn (list (string * string)) :=
  foldl (λ acc m,
           acc ← acc;
           version ← cf_get "version" m;
           signature ← cf_get "encodedSignature" m;
           Ok (match version, signature with
               | JStr v, JStr s => dict_set v s acc
               | _, _ => acc
               end)) (Ok []) l.

Definition parse_family (family : json) : res exn vs_family :=
  name ← cf_getitem "name" family;
  version ← cf_get "version" family;
  from_version ← cf_get "fromVersion" family;
  is_version_from_rsm ← cf_get "isVersionFromRSM" family;
  is_vm_enabled ← cf_get "isVMEnabledForRSMUpgrades" family;
  uris ← cf_get "uris" family;
  mappings ← cf_get "versionToSignatureMappings" family;
  uris ← (if is_null uris then Ok [] else py_list uris);
  mappings ← (if is_null mappings then Ok [] else py_list mappings);
  mapping ← signature_mappings mappings;
  Ok (mkVsFamily name version from_version is_version_from_rsm is_vm_enabled mapping uris).

Definition parse_agent_manifests (d : json) : V unit :=
  families ← lift (cf_get "gaFamilies" d);
  match families with
  | JNull => mret tt
  | JArr l => for_each l (λ family, a ← lift (parse_family family); modify (add_family a))
  | j => lift (vs_error ("gaFamilies should be an array (got " +:+ py_str j +:+ ")"))
  end.

(** *** [_parse_extensions] *)

(** [None if public_settings is None else json.loads(public_settings)] *)
Definition load_public (public : json) : res exn json :=
  match public with
  | JNull => Ok JNull
  | JStr text => loads text
  | j => Err (py_error TypeError ("the JSON object must be str, bytes or bytearray, not " +:+ type_name j))
  end.

(** One entry of [settings] *)
Definition parse_settings (extension_gs name state multi_config : json) (s : json) : res exn vs_settings :=
  public ← cf_get "publicSettings" s;
  public ← load_public public;
  protected ← cf_get "protectedSettings" s;
  thumbprint ← cf_get "protectedSettingsCertThumbprint" s;
  if is_null thumbprint && negb (is_null protected)
  then vs_error ("The certificate thumbprint for protected settings is missing (extension: " +:+ py_str name +:+ ")")
  else if truthy multi_config then
    n ← cf_getitem "extensionName" s;
    seq ← cf_getitem "seqNo" s;
    st ← cf_getitem "extensionState" s;
    Ok (mkVsSettings n seq public protected thumbprint (JInt 0) st)
  else
    seq ← cf_getitem "settingsSeqNo" extension_gs;
    Ok (mkVsSettings name seq public protected thumbprint (JInt 0) state).

Definition set_level (level : json) (s : vs_settings) : vs_settings :=
  mkVsSettings (vt_name s) (vt_sequenceNumber s) (vt_publicSettings s) (vt_protectedSettings s)
    (vt_certificateThumbprint s) level (vt_state s).

Definition hashable (j : json) : res exn unit :=
  match j with
  | JArr _ | JObj _ => Err (py_error TypeError ("unhashable type: '" +:+ type_name j +:+ "'"))
  | _ => Ok tt
  end.

(** [settings_by_name.get(name)] and the assignment to the settings found: the last ones
    with that name.  [None]: there are none. *)
Fixpoint set_level_by_name (name level : json) (l : list vs_settings) : option (list vs_settings) :=
  match l with
  | [] => None
  | s :: l' =>
      match set_level_by_name name level l' with
      | Some r => Some (s :: r)
      | None => if json_eqb (vt_name s) name then Some (set_level level s :: l') else None
      end
  end.

Fixpoint set_levels (deps : list json) (settings : list vs_settings) : res exn (list vs_settings) :=
  match deps with
  | [] => Ok settings
  | dependency :: deps' =>
      name ← cf_getitem "name" dependency;
      _ ← hashable name;
      if bool_decide (is_Some (set_level_by_name name JNull settings)) then
        level ← cf_getitem "dependencyLevel" dependency;
        set_levels deps' (default settings (set_level_by_name name level settings))
      else vs_error ("Dependency '" +:+ py_str name +:+ "' does not correspond to any of the settings in the extension")
  end.

(** [_parse_dependency_level] *)
Definition parse_dependency_level (depends_on name multi_config : json) (settings : list vs_settings)
    : res exn (list vs_settings) :=
  match depends_on with
  | JArr deps =>
      if negb (truthy multi_config) then
        match deps with
        | _ :: _ :: _ =>
            vs_error ("dependsOn should be an array with exactly one item for single-config extensions (" +:+ py_str name
                      +:+ ") (got " +:+ py_str depends_on +:+ ")")
        | [] =>
            Ok (match settings with [] => [] | s :: l => set_level (JInt 0) s :: l end)
        | [dependency] =>
            level ← cf_getitem "dependencyLevel" dependency;
            _ ← cf_get "dependsOnExtension" dependency;
            Ok (match settings with [] => [] | s :: l => set_level level s :: l end)
        end
      else
        _ ← map_res (λ s, hashable (vt_name s)) settings;
        set_levels deps settings
  | j => vs_error ("dependsOn should be an array (" +:+ py_str name +:+ ") (got " +:+ py_str j +:+ ")")
  end.

Definition requested_states : list string :=
  [ExtensionRequestedState.Enabled; ExtensionRequestedState.Disabled; ExtensionRequestedState.Uninstall].

(** One entry of [extensionGoalStates] *)
Definition parse_vs_extension (gs : json) : res exn vs_extension :=
  name ← cf_getitem "name" gs;
  version ← cf_getitem "version" gs;
  state ← cf_getitem "state" gs;
  signature ← cf_get "encodedSignature" gs;
  let signature := if is_null signature then JStr "" else signature in
  if negb (existsb (λ s, json_eqb state (JStr s)) requested_states)
  then vs_error ("Invalid extension state: " +:+ py_str state +:+ " (" +:+ py_str name +:+ ")")
  else
    is_multi_config ← cf_get "isMultiConfig" gs;
    let multi_config := if is_null is_multi_config then JBool false else is_multi_config in
    location ← cf_get "location" gs;
    fail_over ← cf_get "failoverLocation" gs;
    additional ← cf_get "additionalLocations" gs;
    additional ← match additional with
                 | JNull => Ok []
                 | JArr l => Ok l
                 | j => vs_error ("additionalLocations should be an array (got " +:+ py_str j +:+ ")")
                 end;
    let uris := (if is_null location then [] else [location]) ++ (if is_null fail_over then [] else [fail_over]) ++ additional in
    settings ← cf_get "settings" gs;
    settings ← match settings with
               | JNull => Ok []
               | JArr l =>
                   if negb (truthy multi_config) && bool_decide (1 < length l)%nat
                   then vs_error ("Single-config extension includes multiple settings (extension: " +:+ py_str name +:+ ")")
                   else map_res (parse_settings gs name state multi_config) l
               | _ => vs_error ("'settings' should be an array (extension: " +:+ py_str name +:+ ")")
               end;
    depends_on ← cf_get "dependsOn" gs;
    settings ← (if is_null depends_on then Ok settings
                else parse_dependency_level depends_on name multi_config settings);
    Ok (mkVsExtension name version state settings uris multi_config signature).

Definition parse_vs_extensions (d : json) : V unit :=
  extensions ← lift (cf_get "extensionGoalStates" d);
  match extensions with
  | JNull => mret tt
  | JArr l => for_each l (λ gs, x ← lift (parse_vs_extension gs); modify (add_extension x))
  | j => lift (vs_error ("extension_goal_states should be an array (got <class '" +:+ type_name j +:+ "'>)"))
  end.

(** *** The whole document *)
Definition parse_vm_settings : V unit :=
  text ← gets vs_text;
  document ← lift (loads text);
  d ← lift (match document with
            | JObj d => Ok (JObj (CaseFolded.from_dict d))
            | j => Err (py_error AttributeError ("'" +:+ type_name j +:+ "' object has no attribute 'items'"))
            end);
  parse_simple_attributes d ;;
  parse_status_upload_blob d ;;
  parse_required_features d ;;
  parse_agent_manifests d ;;
  parse_vs_extensions d.

(** [_do_common_validations] *)
Definition do_common_validations : V unit :=
  modify (λ v, if existsb (λ t, json_eqb (vs_status_upload_blob_type v) (JStr t)) ["BlockBlob"; "PageBlob"] then v
               else set_blob (vs_status_upload_blob v) (JStr "BlockBlob") v).
End parser.

(** ** The text without its secrets *)

(** [s.replace(old, new)] for a text [old] that is not empty: the occurrences from the left,
    which do not overlap.  [skip] characters belong to the last one. *)
Fixpoint replace_go (old new : string) (skip : nat) (s : string) : string :=
  match s with
  | EmptyString => ""
  | String c s' =>
      match skip with
      | S k => replace_go old new k s'
      | O => if starts_with old s then new +:+ replace_go old new (String.length old - 1) s'
             else String c (replace_go old new 0 s')
      end
  end.

(** An empty [old] is found before every character and at the end. *)
Fixpoint intersperse (new s : string) : string :=
  match s with
  | EmptyString => new
  | String c s' => new +:+ String c (intersperse new s')
  end.

Definition str_replace (old new s : string) : string :=
  if String.eqb old "" then intersperse new s else replace_go old new 0 s.

Definition REDACTED : string := "***REDACTED***".

(** One secret: [None] when it is not in the text *)
Definition redact (secret text : string) : option string :=
  let text' := str_replace secret REDACTED text in
  if String.eqb text' text then None else Some text'.

Fixpoint redact_settings (l : list vs_settings) (text : string) : res exn (string + string) :=
  match l with
  | [] => Ok (inl text)
  | s :: l' =>
      match vt_protectedSettings s with
      | JNull => redact_settings l' text
      | JStr secret =>
          match redact secret text with
          | Some text => redact_settings l' text
          | None => Ok (inr ("Could not redact protectedSettings for " +:+ py_str (vt_name s)))
          end
      | j => Err (py_error TypeError ("replace() argument 1 must be str, not " +:+ type_name j))
      end
  end.

(** The body of the [try] of [get_redacted_text]: [inr] is an early return. *)
Definition redact_all (v : vm_settings) : res exn (string + string) :=
  text ← match vs_status_upload_blob v with
         | JNull => Ok (vs_text v)
         | JStr uri =>
             parsed ← urlparse uri;
             match redact (u_query parsed) (vs_text v) with
             | Some text => Ok text
             | None => vs_error "Could not redact the status upload blob"
             end
         | j => Err (py_error TypeError ("cannot parse a " +:+ type_name j))
         end;
  redact_settings (vs_extensions v ≫= vx_settings) text.

Definition get_redacted_text (v : vm_settings) : string :=
  match redact_all v with
  | Ok (inl text) => text
  | Ok (inr message) => message
  | Err e => "Error redacting text: " +:+ e_msg e
  end.

(** ** The constructor *)

Definition version_zero : FlexibleVersion := mkFV "." None default_tags None [0; 0; 0; 0].

Definition new_vm_settings (etag text : string) : vm_settings :=
  mkVmSettings etag text
    (mkVsAttributes version_zero (JStr GUID_ZERO) (JStr GUID_ZERO) (JInt 0)
       (create_utc_timestamp datetime_min_utc) version_zero (JBool false) JNull)
    JNull JNull [] [] [].

Definition create_from_vm_settings (loads : string → res exn json) (float_text : string → option Z) (etag text : string)
    : res exn vm_settings :=
  match (parse_vm_settings loads float_text ;; do_common_validations) (new_vm_settings etag text) with
  | (Ok _, v) => Ok v
  | (Err e, v) =>
      if isinstance e Exception_ then
        Err (mkExn VmSettingsParseError
               (agent_error_msg VmSettingsParseError
                  ("Error parsing vmSettings [HGAP: " +:+ fv_str (vs_host_ga_plugin_version (vs_simple v)) +:+ " Etag:" +:+ etag
                   +:+ "]: " +:+ e_msg e) None)
               (-1) (-1) [etag; get_redacted_text v])
      else Err e
  end.

Definition supports_encoded_signature (is_confidential_vm : bool) (v : vm_settings) : res exn bool :=
  ge ← fv_ge (vs_host_ga_plugin_version (vs_simple v)) (mkFV "." None default_tags None [1; 0; 8; 159]);
  Ok (ge && is_confidential_vm).

Definition supports_agent_signature_mapping (is_confidential_vm : bool) (v : vm_settings) : res exn bool :=
  ge ← fv_ge (vs_host_ga_plugin_version (vs_simple v)) (mkFV "." None default_tags None [1; 0; 8; 177]);
  Ok (ge && is_confidential_vm).

Example fv_constants :
  FV "0.0.0.0" = Ok version_zero ∧ FV "1.0.8.159" = Ok (mkFV "." None default_tags None [1; 0; 8; 159]) ∧
  FV "1.0.8.177" = Ok (mkFV "." None default_tags None [1; 0; 8; 177]).
Proof. vm_compute. auto. Qed.

Example str_replace_ex :
  str_replace "aa" "b" "aaaca" = "baca" ∧ str_replace "" "-" "ab" = "-a-b-" ∧ str_replace "x" "yy" "axb" = "ayyb".
Proof. vm_compute. auto. Qed.

(** ** Secrets do not stay in the redacted text *)

Definition occurs (w s : string) : Prop := ∃ a b, s = a +:+ w +:+ b.

(** What a secret looks like: it has no asterisk, and it is longer than the text that
    replaces it is between its asterisks. *)
Definition is_secret (w : string) : Prop :=
  str_forallb (λ c, negb (Ascii.eqb c "*")) w = true ∧ (8 < String.length w)%nat.

Lemma occurs_cons w c s : occurs w s → occurs w (String c s).
Proof. intros (a & b & ->). by exists (String c a), b. Qed.

Lemma occurs_cons_inv w c s : occurs w (String c s) → starts_with w (String c s) = true ∨ occurs w s.
Proof.
  intros ([|x a] & b & H).
  - left. change ("" +:+ w +:+ b) with (w +:+ b) in H. rewrite H. unfold starts_with. rewrite strip_prefix_app. by apply bool_decide_true.
  - right. rewrite string_app_cons in H. injection H as _ ->. by exists a, b.
Qed.

Lemma occurs_nil w : w ≠ "" → ¬ occurs w "".
Proof. intros Hw ([|] & b & H); [destruct w|]; done. Qed.

Lemma secret_not_empty w : is_secret w → w ≠ "".
Proof. intros [_ H] ->. simpl in H. lia. Qed.

(** A secret after the replacement text is after it as a whole. *)
Lemma occurs_after_redacted w s : is_secret w → occurs w (REDACTED +:+ s) → occurs w s.
Proof.
  intros [Hs Hl]. unfold REDACTED. rewrite !string_app_cons. change ("" +:+ s) with s.
  do 9 (destruct w as [|? w]; [simpl in Hl; lia|]). clear Hl. simpl in Hs.
  rewrite !andb_true_iff, !negb_true_iff, !Ascii.eqb_neq in Hs. destruct_and! Hs.
  do 14 (intros Ho; apply occurs_cons_inv in Ho as [Ho|Ho];
    [exfalso; unfold starts_with in Ho; simpl in Ho;
     repeat match type of Ho with
            | context [Ascii.eqb ?x ?y] => destruct (Ascii.eqb_spec x y); [subst; try congruence|done]
            end|revert Ho]).
  done.
Qed.

Lemma prefix_of_replaced old w s :
  str_forallb (λ c, negb (Ascii.eqb c "*")) w = true → starts_with w (replace_go old REDACTED 0 s) = true → starts_with w s = true.
Proof.
  revert w. induction s as [|c s IH]; intros w Hw; [done|]. cbn [replace_go].
  destruct (starts_with old (String c s)); destruct w as [|x w]; try done.
  - unfold starts_with. simpl in Hw. apply andb_true_iff in Hw as [Hx _]. unfold REDACTED. rewrite string_app_cons. simpl.
    by apply negb_true_iff in Hx as ->.
  - unfold starts_with in *. simpl in *. apply andb_true_iff in Hw as [_ Hw]. destruct (Ascii.eqb x c); [by apply IH|done].
Qed.

Lemma occurs_replaced old w s skip : is_secret w → occurs w (replace_go old REDACTED skip s) → occurs w s.
Proof.
  intros Hw. revert skip. induction s as [|c s IH]; intros skip H; [done|]. cbn [replace_go] in H.
  destruct skip as [|k]; [|by apply occurs_cons, (IH k)].
  destruct (starts_with old (String c s)).
  - apply occurs_after_redacted in H; [|done]. by eapply occurs_cons, IH.
  - apply occurs_cons_inv in H as [H|H]; [|by eapply occurs_cons, IH].
    assert (starts_with w (String c s) = true) as Hp; [|].
    { destruct w as [|x w]; [done|]. destruct Hw as [Hw _]. simpl in Hw. apply andb_true_iff in Hw as [_ Hw].
      unfold starts_with in *. simpl in *. destruct (Ascii.eqb x c); [|done]. by eapply prefix_of_replaced. }
    unfold starts_with in Hp. apply bool_decide_eq_true_1 in Hp as [r Hr]. apply strip_prefix_Some in Hr. rewrite Hr.
    by exists "", r.
Qed.

Lemma replaced_gone old s skip : is_secret old → ¬ occurs old (replace_go old REDACTED skip s).
Proof.
  intros Ho. revert skip. induction s as [|c s IH]; intros skip; cbn [replace_go].
  { apply occurs_nil. by apply secret_not_empty. }
  destruct skip as [|k]; [|apply IH]. destruct (starts_with old (String c s)) eqn:Hm.
  - intros H. apply occurs_after_redacted in H; [|done]. by eapply IH.
  - intros H. apply occurs_cons_inv in H as [H|H]; [|by eapply IH].
    destruct old as [|x old]; [done|]. destruct Ho as [Ho _]. simpl in Ho. apply andb_true_iff in Ho as [_ Ho].
    unfold starts_with in H, Hm. simpl in H, Hm. destruct (Ascii.eqb x c); [|done].
    pose proof (prefix_of_replaced (String x old) old s Ho) as Hp. unfold starts_with in Hp. rewrite Hp in Hm; done.
Qed.

Lemma occurs_intersperse w s : is_secret w → ¬ occurs w (intersperse REDACTED s).
Proof.
  intros Hw. induction s as [|c s IH]; simpl; intros H.
  - assert (occurs w "") as H0 by (apply occurs_after_redacted; [done|by rewrite string_app_nil_r]).
    by apply (occurs_nil w) in H0; [|apply secret_not_empty].
  - apply occurs_after_redacted in H; [|done]. apply occurs_cons_inv in H as [H|H]; [|by apply IH].
    destruct Hw as [Hs Hl]. do 2 (destruct w as [|? w]; [simpl in Hl; lia|]). unfold starts_with in H. simpl in H, Hs.
    destruct (Ascii.eqb _ c); [|done]. apply andb_true_iff in Hs as [_ [Hs _]%andb_true_iff]. apply negb_true_iff in Hs.
    destruct s; unfold REDACTED in H; simpl in H; rewrite ?string_app_cons in H; simpl in H; by rewrite Hs in H.
Qed.

Lemma redact_keeps w secret text text' : is_secret w → redact secret text = Some text' → ¬ occurs w text → ¬ occurs w text'.
Proof.
  intros Hw. unfold redact, str_replace. case_match; [done|]. intros [= <-] Hn.
  destruct (String.eqb secret ""); [by apply occurs_intersperse|]. intros Ho. by eapply Hn, occurs_replaced.
Qed.

Lemma redact_removes secret text text' : is_secret secret → redact secret text = Some text' → ¬ occurs secret text'.
Proof.
  intros Hs. unfold redact, str_replace. case_match; [done|]. intros [= <-].
  rewrite (proj2 (String.eqb_neq _ _)) by by apply secret_not_empty. by apply replaced_gone.
Qed.

Lemma redact_settings_keeps w l text text' :
  is_secret w → redact_settings l text = Ok (inl text') → ¬ occurs w text → ¬ occurs w text'.
Proof.
  intros Hw. revert text. induction l as [|s l IH]; intros text; simpl; [by intros [= ->]|].
  destruct (vt_protectedSettings s); try done; [by apply IH|]. destruct (redact _ _) eqn:Hr; [|done].
  intros H Hn. eapply IH; [done|]. by eapply redact_keeps.
Qed.

Lemma redact_settings_removes l text text' s secret :
  redact_settings l text = Ok (inl text') → s ∈ l → vt_protectedSettings s = JStr secret → is_secret secret →
  ¬ occurs secret text'.
Proof.
  revert text. induction l as [|s' l IH]; intros text H Hin Hp Hs; [by apply elem_of_nil in Hin|]. simpl in H.
  apply elem_of_cons in Hin as [<-|Hin].
  - rewrite Hp in H. destruct (redact _ _) eqn:Hr; [|done]. eapply redact_settings_keeps; [done..|]. by eapply redact_removes.
  - destruct (vt_protectedSettings s'); try done; [by eapply IH|]. destruct (redact _ _); [|done]. by eapply IH.
Qed.

(** The protected settings of a goal state and the access token of its status blob *)
Definition secrets (v : vm_settings) : list string :=
  omap (λ s, match vt_protectedSettings s with JStr t => Some t | _ => None end) (vs_extensions v ≫= vx_settings) ++
  match vs_status_upload_blob v with
  | JStr uri => match urlparse uri with Ok parsed => [u_query parsed] | Err _ => [] end
  | _ => []
  end.

Lemma redact_settings_message l text m : redact_settings l text = Ok (inr m) →
  ∃ name, m = "Could not redact protectedSettings for " +:+ name.
Proof.
  revert text. induction l as [|s l IH]; intros text; simpl; [done|].
  destruct (vt_protectedSettings s); try done; [by apply IH|]. destruct (redact _ _); [by apply IH|].
  intros [= <-]. by eexists.
Qed.


(** ** What an accepted goal state satisfies *)

Lemma bind_Ok {A B} (r : res exn A) (k : A → res exn B) b : (r ≫= k) = Ok b → ∃ a, r = Ok a ∧ k a = Ok b.
Proof. destruct r as [a|]; [|done]. intros H. by exists a. Qed.

Ltac bind_inv :=
  repeat match goal with
         | H : (_ ≫= _) = Ok _ |- _ =>
             let a := fresh "v" in let E := fresh "E" in apply bind_Ok in H as (a & E & H); cbv beta in H
         end.

Definition ok_settings (x : vs_extension) (s : vs_settings) : Prop :=
  (vt_protectedSettings s ≠ JNull → vt_certificateThumbprint s ≠ JNull) ∧
  (truthy (vx_supports_multi_config x) = false → vt_name s = vx_name x ∧ vt_state s = vx_state x).

Definition ok_extension (x : vs_extension) : Prop :=
  (∃ st, st ∈ requested_states ∧ vx_state x = JStr st) ∧
  (truthy (vx_supports_multi_config x) = false → (length (vx_settings x) ≤ 1)%nat) ∧
  Forall (ok_settings x) (vx_settings x).

Lemma json_eqb_str j s : json_eqb j (JStr s) = true → j = JStr s.
Proof. destruct j; try done. intros ->%String.eqb_eq. done. Qed.

Lemma map_res_Forall {A B} (f : A → res exn B) (P : B → Prop) l r :
  (∀ x y, f x = Ok y → P y) → map_res f l = Ok r → Forall P r ∧ length r = length l.
Proof.
  intros Hf. revert r. induction l as [|x l IH]; intros r Hr; simpl in Hr; bind_inv; simplify_eq; [done|].
  destruct (IH _ E0) as [HF Hl]. split; [|by simpl; f_equal]. constructor; [|done]. by eapply Hf.
Qed.

Section accepted.
Context (loads : string → res exn json) (float_text : string → option Z).
Implicit Types x : vs_extension.

Lemma parse_settings_ok gs name state multi s t :
  parse_settings loads gs name state multi s = Ok t →
  (vt_protectedSettings t ≠ JNull → vt_certificateThumbprint t ≠ JNull) ∧
  (truthy multi = false → vt_name t = name ∧ vt_state t = state).
Proof.
  unfold parse_settings. intros H. bind_inv. destruct (is_null v2 && negb (is_null v1)) eqn:Hn; [done|].
  assert (v1 ≠ JNull → v2 ≠ JNull) by (by destruct v1, v2).
  destruct (truthy multi) eqn:Hm; bind_inv; simplify_eq; done.
Qed.

Lemma set_level_ok x level s : ok_settings x s → ok_settings x (set_level level s).
Proof. done. Qed.

Lemma set_level_by_name_ok x name level l l' :
  set_level_by_name name level l = Some l' → Forall (ok_settings x) l → Forall (ok_settings x) l' ∧ length l' = length l.
Proof.
  revert l'. induction l as [|s l IH]; intros l' H HF; simpl in H; [done|]. apply Forall_cons in HF as [Hs HF].
  destruct (set_level_by_name name level l) as [r|] eqn:Hr.
  - simplify_eq. destruct (IH r) as [? ?]; [done..|]. split; [by constructor|by simpl; f_equal].
  - destruct (json_eqb _ _); simplify_eq. split; [|done]. by constructor.
Qed.

Lemma set_levels_ok x deps l l' :
  set_levels deps l = Ok l' → Forall (ok_settings x) l → Forall (ok_settings x) l' ∧ length l' = length l.
Proof.
  revert l. induction deps as [|dep deps IH]; intros l H HF; simpl in H; [by simplify_eq|]. bind_inv.
  case_bool_decide as Hsome; [|done]. bind_inv.
  destruct (set_level_by_name v v1 l) as [l1|] eqn:Hl; simpl in H; [|by apply IH].
  destruct (set_level_by_name_ok x v v1 l l1) as [HF1 Hlen1]; [done..|]. destruct (IH l1) as [? ?]; [done..|]. split; [done|congruence].
Qed.

Lemma parse_dependency_level_ok x deps name multi l l' :
  parse_dependency_level deps name multi l = Ok l' → Forall (ok_settings x) l →
  Forall (ok_settings x) l' ∧ length l' = length l.
Proof.
  unfold parse_dependency_level. destruct deps as [| | | | |deps|]; try done. intros H HF. destruct (truthy multi); simpl in H.
  - bind_inv. by eapply set_levels_ok.
  - destruct deps as [|dep [|? ?]]; try done; bind_inv; simplify_eq; destruct HF; try done; split; try done; by constructor.
Qed.

Lemma parse_vs_extension_ok gs x : parse_vs_extension loads gs = Ok x → ok_extension x.
Proof.
  unfold parse_vs_extension. intros H. bind_inv. destruct (existsb _ _) eqn:Hst; [|done]. simpl in H. bind_inv.
  apply existsb_exists in Hst as (st & Hin%list_elem_of_In & ->%json_eqb_str).
  set (multi := if is_null v3 then JBool false else v3) in *.
  injection H as <-. set (x := mkVsExtension _ _ _ _ _ _ _).
  assert (Forall (ok_settings x) v9 ∧ (truthy multi = false → (length v9 ≤ 1)%nat)) as [HF Hlen].
  { destruct v8 as [| | | | |l|]; simplify_eq; [split; [done|simpl; lia]|]. destruct (negb (truthy multi) && _) eqn:Hl; [done|].
    eapply (map_res_Forall _ (ok_settings x)) in E9 as [HF Hlen]; [|intros; by eapply parse_settings_ok].
    split; [done|]. intros Hm. rewrite Hm in Hl. apply bool_decide_eq_false_1 in Hl. lia. }
  split; [by eexists|]. simpl. destruct (is_null v10); [by simplify_eq|].
  destruct (parse_dependency_level_ok x _ _ _ _ _ E11 HF) as [? ->]. done.
Qed.

(** Preservation of the consistency of the extensions along the parser *)
Definition extensions_ok (v v' : vm_settings) : Prop :=
  vs_etag v' = vs_etag v ∧ (Forall ok_extension (vs_extensions v) → Forall ok_extension (vs_extensions v')).

#[local] Instance extensions_ok_preorder : PreOrder extensions_ok.
Proof. split; [by split|]. intros v1 v2 v3 [H1 H2] [H3 H4]. split; [congruence|auto]. Qed.

Lemma parse_vs_extensions_pres d : pres extensions_ok (parse_vs_extensions loads d).
Proof.
  unfold parse_vs_extensions. pres_step; [pres_auto|].
  destruct a as [| | | | |l|]; [by pres_auto..| |by pres_auto]. apply pres_for_each; [typeclasses eauto|]. intros gs.
  apply wp_pres. intros v. apply wp_bind, wp_lift; [|done]. intros y Hy. apply wp_modify. split; [done|]. intros HF. simpl. apply Forall_app. split; [done|]. constructor; [|done].
  by eapply parse_vs_extension_ok.
Qed.

Lemma parse_vm_settings_ok : pres extensions_ok (parse_vm_settings loads float_text).
Proof.
  unfold parse_vm_settings, parse_simple_attributes, parse_status_upload_blob, parse_required_features,
    parse_agent_manifests.
  pres_auto; try apply parse_vs_extensions_pres; try case_match; pres_auto; done.
Qed.

Lemma do_common_validations_spec v :
  ∃ v', do_common_validations v = (Ok tt, v') ∧ vs_etag v' = vs_etag v ∧ vs_extensions v' = vs_extensions v ∧
        vs_status_upload_blob_type v' ∈ [JStr "BlockBlob"; JStr "PageBlob"].
Proof.
  unfold do_common_validations, modify. eexists. split; [done|].
  destruct (existsb _ _) eqn:Hx; [|split_and!; [done..|set_solver]]. split_and!; [done..|].
  apply existsb_exists in Hx as (t & Hin & ->%json_eqb_str). destruct Hin as [<-|[<-|[]]]; set_solver.
Qed.

(** C11: A goal state of the host that the parser accepts is consistent: every extension asks
    for a state there is; an extension with a single configuration has at most one, under
    its own name and with its own state; protected settings come with the thumbprint of the
    certificate that decrypts them; and the type of the status blob is one there is. *)
Theorem accepted_vm_settings_are_consistent (etag text : string) (v : vm_settings) :
  create_from_vm_settings loads float_text etag text = Ok v →
  vs_id v = "etag_" +:+ etag ∧ Forall ok_extension (vs_extensions v) ∧
  vs_status_upload_blob_type v ∈ [JStr "BlockBlob"; JStr "PageBlob"].
Proof.
  unfold create_from_vm_settings. destruct ((parse_vm_settings _ _ ;; _) _) as [[[]|e] v'] eqn:Hp; [|by case_match].
  intros [= <-]. revert Hp. unfold mbind, M_bind. pose proof (parse_vm_settings_ok (new_vm_settings etag text)) as Hok.
  destruct (parse_vm_settings _ _ _) as [[?|?] v1]; [|done]. destruct Hok as [He HF]. cbn [snd] in *.
  destruct (do_common_validations_spec v1) as (v2 & -> & He2 & Hx & Ht). intros [= <-].
  unfold vs_id. rewrite He2, Hx, He. split_and!; [done|by apply HF|done].
Qed.
End accepted.

(** ** The document of a goal state is read back

    The extensions of a goal state ([RestApi.v]) as the host writes them. *)
Section document.
Context (loads : string → res exn json) (float_text : string → option Z) (dumps : json → string).

Definition settings_document (multi : bool) (s : ExtensionSettings) : json :=
  JObj ([("publicSettings", if is_null (es_publicSettings s) then JNull else JStr (dumps (es_publicSettings s)));
         ("protectedSettings", es_protectedSettings s);
         ("protectedSettingsCertThumbprint", es_certificateThumbprint s)] ++
        (if multi then [("seqNo", es_sequenceNumber s); ("extensionName", JStr (es_name s)); ("extensionState", JStr (es_state s))]
         else [])).

Definition dependency_document (s : ExtensionSettings) : json :=
  JObj [("name", JStr (es_name s)); ("dependencyLevel", JInt (es_dependencyLevel s))].

Definition extension_document (e : Extension) : json :=
  let multi := eh_supports_multi_config e in
  JObj [("name", JStr (eh_name e)); ("version", JStr (eh_version e)); ("state", JStr (eh_state e));
        ("encodedSignature", JStr (eh_encoded_signature e));
        ("isMultiConfig", JBool multi);
        ("location", match eh_manifest_uris e with u :: _ => JStr u | [] => JNull end);
        ("additionalLocations", JArr (JStr <$> tail (eh_manifest_uris e)));
        ("settingsSeqNo", match eh_settings e with s :: _ => es_sequenceNumber s | [] => JInt 0 end);
        ("settings", JArr (settings_document multi <$> eh_settings e));
        ("dependsOn", match eh_settings e with [] => JNull | _ => JArr (dependency_document <$> eh_settings e) end)].

Definition text_or_null (j : json) : Prop := j = JNull ∨ ∃ s, j = JStr s.

(** What the host promises of an extension; its public settings are a text that
    [json.loads] reads back. *)
Record wf_settings (e : Extension) (s : ExtensionSettings) : Prop := mkWfSettings {
  ws_public : loads (dumps (es_publicSettings s)) = Ok (es_publicSettings s);
  ws_seq : ∃ z, es_sequenceNumber s = JInt z;
  ws_protected : text_or_null (es_protectedSettings s);
  ws_thumbprint : text_or_null (es_certificateThumbprint s);
  ws_certificate : es_protectedSettings s ≠ JNull → es_certificateThumbprint s ≠ JNull;
  ws_single : eh_supports_multi_config e = false → es_name s = eh_name e ∧ es_state s = eh_state e
}.

Record wf_extension (e : Extension) : Prop := mkWfExtension {
  we_state : eh_state e ∈ requested_states;
  we_settings : Forall (wf_settings e) (eh_settings e);
  we_single : eh_supports_multi_config e = false → (length (eh_settings e) ≤ 1)%nat;
  we_multi : NoDup (es_name <$> eh_settings e)
}.

Definition embed_settings (level : Z) (s : ExtensionSettings) : vs_settings :=
  mkVsSettings (JStr (es_name s)) (es_sequenceNumber s) (es_publicSettings s) (es_protectedSettings s)
    (es_certificateThumbprint s) (JInt level) (JStr (es_state s)).

Definition embed (e : Extension) : vs_extension :=
  mkVsExtension (JStr (eh_name e)) (JStr (eh_version e)) (JStr (eh_state e))
    ((λ s, embed_settings (es_dependencyLevel s) s) <$> eh_settings e)
    (JStr <$> eh_manifest_uris e) (JBool (eh_supports_multi_config e)) (JStr (eh_encoded_signature e)).

Notation fold := CaseFolded.to_case_folded_dict_item.

Lemma fold_text_or_null j : text_or_null j → fold j = j.
Proof. by intros [->|[s ->]]. Qed.

Lemma fold_document_fields e :
  let d := fold (extension_document e) in
  cf_getitem "name" d = Ok (JStr (eh_name e)) ∧ cf_getitem "version" d = Ok (JStr (eh_version e)) ∧
  cf_getitem "state" d = Ok (JStr (eh_state e)) ∧ cf_get "encodedSignature" d = Ok (JStr (eh_encoded_signature e)) ∧
  cf_get "isMultiConfig" d = Ok (JBool (eh_supports_multi_config e)) ∧
  cf_get "location" d = Ok (fold (match eh_manifest_uris e with u :: _ => JStr u | [] => JNull end)) ∧
  cf_get "failoverLocation" d = Ok JNull ∧
  cf_get "additionalLocations" d = Ok (JArr (fold <$> (JStr <$> tail (eh_manifest_uris e)))) ∧
  cf_getitem "settingsSeqNo" d = Ok (fold (match eh_settings e with s :: _ => es_sequenceNumber s | [] => JInt 0 end)) ∧
  cf_get "settings" d = Ok (JArr (fold <$> (settings_document (eh_supports_multi_config e) <$> eh_settings e))) ∧
  cf_get "dependsOn" d = Ok (fold (match eh_settings e with [] => JNull | _ => JArr (dependency_document <$> eh_settings e) end)).
Proof. split_and!; reflexivity. Qed.

Lemma fold_settings_fields multi s :
  let d := fold (settings_document multi s) in
  cf_get "publicSettings" d = Ok (fold (if is_null (es_publicSettings s) then JNull else JStr (dumps (es_publicSettings s)))) ∧
  cf_get "protectedSettings" d = Ok (fold (es_protectedSettings s)) ∧
  cf_get "protectedSettingsCertThumbprint" d = Ok (fold (es_certificateThumbprint s)) ∧
  (multi = true → cf_getitem "extensionName" d = Ok (JStr (es_name s)) ∧
     cf_getitem "seqNo" d = Ok (fold (es_sequenceNumber s)) ∧ cf_getitem "extensionState" d = Ok (JStr (es_state s))).
Proof. destruct multi; split_and!; try reflexivity; done. Qed.

Lemma parse_settings_document e s gs :
  wf_settings e s →
  (eh_supports_multi_config e = false → cf_getitem "settingsSeqNo" gs = Ok (es_sequenceNumber s)) →
  parse_settings loads gs (JStr (eh_name e)) (JStr (eh_state e)) (JBool (eh_supports_multi_config e))
    (fold (settings_document (eh_supports_multi_config e) s)) = Ok (embed_settings 0 s).
Proof.
  intros [Hpub [z Hz] Hp Ht Hc Hs] Hseq. destruct (fold_settings_fields (eh_supports_multi_config e) s) as (E1 & E2 & E3 & E4).
  unfold parse_settings. rewrite E1, E2, E3. clear E1 E2 E3. cbn [mbind res_bind].
  rewrite (fold_text_or_null (es_protectedSettings s)), (fold_text_or_null (es_certificateThumbprint s)) by done.
  assert (load_public loads (fold (if is_null (es_publicSettings s) then JNull else JStr (dumps (es_publicSettings s))))
          = Ok (es_publicSettings s)) as ->.
  { destruct (es_publicSettings s) eqn:Ep; simpl; done. }
  cbn [mbind res_bind]. assert (is_null (es_certificateThumbprint s) && negb (is_null (es_protectedSettings s)) = false) as ->.
  { destruct Hp as [Hp|[p Hp]], Ht as [Ht|[t Ht]]; rewrite Hp, Ht in *; try done. exfalso. by apply Hc. }
  destruct (eh_supports_multi_config e).
  - cbn [truthy]. destruct E4 as (-> & -> & ->); [done|]. rewrite Hz. unfold embed_settings. by rewrite Hz.
  - cbn [truthy]. rewrite Hseq by done. unfold embed_settings. by destruct Hs as [-> ->].
Qed.

Lemma map_res_fmap {A B C} (f : B → res exn C) (g : A → B) (h : A → C) l :
  Forall (λ x, f (g x) = Ok (h x)) l → map_res f (g <$> l) = Ok (h <$> l).
Proof. induction 1 as [|x l Hx _ IH]; [done|]. rewrite !fmap_cons. cbn [map_res]. by rewrite Hx, IH. Qed.

Lemma set_level_by_name_none n level l : Forall (λ s, vt_name s ≠ JStr n) l → set_level_by_name (JStr n) level l = None.
Proof.
  induction 1 as [|s l Hs _ IH]; [done|]. simpl. rewrite IH.
  destruct (json_eqb (vt_name s) (JStr n)) eqn:He; [|done]. by apply json_eqb_str in He.
Qed.

Lemma set_level_by_name_app n level a s b :
  vt_name s = JStr n → Forall (λ s, vt_name s ≠ JStr n) b →
  set_level_by_name (JStr n) level (a ++ s :: b) = Some (a ++ set_level level s :: b).
Proof.
  intros Hs Hb. induction a as [|x a IH]; simpl; [|by rewrite IH].
  rewrite set_level_by_name_none by done. rewrite Hs. simpl. by rewrite String.eqb_refl.
Qed.

Lemma set_levels_document pre rest :
  NoDup (es_name <$> rest) →
  set_levels (fold <$> (dependency_document <$> rest)) (pre ++ (embed_settings 0 <$> rest))
  = Ok (pre ++ ((λ s, embed_settings (es_dependencyLevel s) s) <$> rest)).
Proof.
  revert pre. induction rest as [|s rest IH]; intros pre Hn; [done|]. apply NoDup_cons in Hn as [Hin Hn].
  rewrite !fmap_cons. cbn [set_levels].
  assert (∀ level, set_level_by_name (JStr (es_name s)) level (pre ++ embed_settings 0 s :: (embed_settings 0 <$> rest))
    = Some (pre ++ set_level level (embed_settings 0 s) :: (embed_settings 0 <$> rest))) as Hs.
  { intros level. apply set_level_by_name_app; [done|]. apply Forall_fmap, Forall_forall. intros x Hx [= Heq].
    apply Hin. rewrite <-Heq. by apply list_elem_of_fmap_2. }
  change (cf_getitem "name" (fold (dependency_document s))) with (Ok (JStr (es_name s)) : res exn json).
  change (cf_getitem "dependencyLevel" (fold (dependency_document s))) with (Ok (JInt (es_dependencyLevel s)) : res exn json).
  simpl. rewrite Hs. rewrite bool_decide_true by by eexists. simpl. rewrite Hs. simpl.
  rewrite (cons_middle _ pre), (app_assoc pre [_]), IH, <-app_assoc by done. done.
Qed.

Lemma dependency_levels_document e :
  wf_extension e →
  let deps := fold (match eh_settings e with [] => JNull | _ => JArr (dependency_document <$> eh_settings e) end) in
  (if is_null deps then Ok (embed_settings 0 <$> eh_settings e)
   else parse_dependency_level deps (JStr (eh_name e)) (JBool (eh_supports_multi_config e)) (embed_settings 0 <$> eh_settings e))
  = Ok ((λ s, embed_settings (es_dependencyLevel s) s) <$> eh_settings e).
Proof.
  intros [_ _ Hsingle Hmulti]. pose proof (set_levels_document [] (eh_settings e) Hmulti) as Hs.
  assert (∀ l, map_res (λ s, hashable (vt_name s)) (embed_settings 0 <$> l) = Ok ((λ _, tt) <$> l)) as Hh.
  { intros l. apply map_res_fmap, Forall_forall. done. }
  destruct (eh_settings e) as [|s l]; [done|]. cbn zeta.
  change (fold (JArr (dependency_document <$> s :: l))) with (JArr (fold <$> (dependency_document <$> s :: l))).
  cbn [is_null]. unfold parse_dependency_level. destruct (eh_supports_multi_config e); cbn [truthy negb].
  - by rewrite Hh.
  - specialize (Hsingle eq_refl). destruct l; simpl in Hsingle; [|lia]. reflexivity.
Qed.

Lemma parse_extension_document e :
  wf_extension e → parse_vs_extension loads (fold (extension_document e)) = Ok (embed e).
Proof.
  intros [Hst Hset Hsingle Hmulti].
  destruct (fold_document_fields e) as (E1 & E2 & E3 & E4 & E5 & E6 & E7 & E8 & E9 & E10 & E11).
  unfold parse_vs_extension. rewrite E1, E2, E3, E4, E5, E6, E7, E8, E10, E11.
  set (gs := fold (extension_document e)) in *. clearbody gs. clear E1 E2 E3 E4 E5 E6 E7 E8 E10 E11.
  cbn [mbind res_bind is_null].
  assert (existsb (λ s, json_eqb (JStr (eh_state e)) (JStr s)) requested_states = true) as ->.
  { apply existsb_exists. exists (eh_state e). split; [by apply list_elem_of_In|]. simpl. by rewrite String.eqb_refl. }
  cbn [negb]. assert (Forall (λ s, parse_settings loads gs (JStr (eh_name e)) (JStr (eh_state e))
      (JBool (eh_supports_multi_config e)) (fold (settings_document (eh_supports_multi_config e) s)) = Ok (embed_settings 0 s))
      (eh_settings e)) as HF.
  { apply Forall_forall. intros s Hs. pose proof (proj1 (Forall_forall _ _) Hset s Hs) as Hw.
    apply parse_settings_document; [done|]. intros Hm. rewrite E9.
    specialize (Hsingle Hm). destruct (eh_settings e) as [|s0 [|? ?]]; simpl in Hsingle; [by apply elem_of_nil in Hs| |lia].
    apply list_elem_of_singleton in Hs as ->. by destruct (ws_seq _ _ Hw) as [z ->]. }
  assert (∀ l : list string, fold <$> (JStr <$> l) = JStr <$> l) as Hl by (induction l as [|x l IH]; [done|by rewrite !fmap_cons, IH]).
  rewrite Hl. clear E9 Hl. cbn [mbind res_bind]. rewrite <-list_fmap_compose.
  rewrite (map_res_fmap _ _ (embed_settings 0)) by done.
  assert (negb (truthy (JBool (eh_supports_multi_config e))) &&
    bool_decide (1 < length (fold ∘ settings_document (eh_supports_multi_config e) <$> eh_settings e))%nat = false) as ->.
  { rewrite length_fmap. destruct (eh_supports_multi_config e); [done|]. apply bool_decide_false. specialize (Hsingle eq_refl). lia. }
  cbn [mbind res_bind]. rewrite (dependency_levels_document e) by done. unfold embed. cbn [mbind res_bind].
  by destruct (eh_manifest_uris e).
Qed.
(** The whole document *)
Record host_goal := mkHostGoal {
  hg_plugin_version : FlexibleVersion;
  hg_schema_version : FlexibleVersion;
  hg_activity_id : string;
  hg_correlation_id : string;
  hg_svd_sequence_number : Z;
  hg_ticks : Z;
  hg_on_hold : bool;
  hg_source : string;
  hg_status_blob : string;
  hg_status_blob_type : string;
  hg_required_features : list string;
  hg_families : list VMAgentFamily;
  hg_extensions : list Extension
}.

Definition json_option {A} (f : A → json) (o : option A) : json := match o with Some a => f a | None => JNull end.

Definition family_document (a : VMAgentFamily) : json :=
  JObj [("name", JStr (vf_name a)); ("version", json_option JStr (vf_version a));
        ("fromVersion", json_option JStr (vf_from_version a));
        ("isVersionFromRSM", json_option JBool (vf_is_version_from_rsm a));
        ("isVMEnabledForRSMUpgrades", json_option JBool (vf_is_vm_enabled_for_rsm_upgrades a));
        ("uris", JArr (JStr <$> vf_uris a));
        ("versionToSignatureMappings",
           JArr ((λ '(v, s), JObj [("version", JStr v); ("encodedSignature", JStr s)]) <$> vf_ga_version_to_signature_mapping a))].

Definition embed_family (a : VMAgentFamily) : vs_family :=
  mkVsFamily (JStr (vf_name a)) (json_option JStr (vf_version a)) (json_option JStr (vf_from_version a))
    (json_option JBool (vf_is_version_from_rsm a)) (json_option JBool (vf_is_vm_enabled_for_rsm_upgrades a))
    (vf_ga_version_to_signature_mapping a) (JStr <$> vf_uris a).

Definition goal_document (g : host_goal) : list (string * json) :=
  [("hostGAPluginVersion", JStr (fv_str (hg_plugin_version g)));
   ("vmSettingsSchemaVersion", JStr (fv_str (hg_schema_version g)));
   ("activityId", JStr (hg_activity_id g)); ("correlationId", JStr (hg_correlation_id g));
   ("inSvdSeqNo", JInt (hg_svd_sequence_number g));
   ("extensionsLastModifiedTickCount", JInt (hg_ticks g));
   ("extensionGoalStatesSource", JStr (hg_source g));
   ("onHold", JBool (hg_on_hold g));
   ("statusUploadBlob", JObj [("statusBlobType", JStr (hg_status_blob_type g)); ("value", JStr (hg_status_blob g))]);
   ("requiredFeatures", JArr ((λ f, JObj [("name", JStr f)]) <$> hg_required_features g));
   ("gaFamilies", JArr (family_document <$> hg_families g));
   ("extensionGoalStates", JArr (extension_document <$> hg_extensions g))].

Record wf_goal (g : host_goal) : Prop := mkWfGoal {
  wg_plugin : wf_version (hg_plugin_version g);
  wg_schema : wf_version (hg_schema_version g);
  wg_activity : hg_activity_id g ≠ "";
  wg_correlation : hg_correlation_id g ≠ "";
  wg_blob_type : hg_status_blob_type g ∈ ["BlockBlob"; "PageBlob"];
  wg_families : Forall (λ a, NoDup (vf_ga_version_to_signature_mapping a).*1) (hg_families g);
  wg_extensions : Forall wf_extension (hg_extensions g)
}.

Definition embed_goal (etag text : string) (g : host_goal) : vm_settings :=
  mkVmSettings etag text
    (mkVsAttributes (hg_plugin_version g) (JStr (hg_activity_id g)) (JStr (hg_correlation_id g))
       (JInt (hg_svd_sequence_number g)) (ticks_to_utc_timestamp float_text (JInt (hg_ticks g)))
       (hg_schema_version g) (JBool (hg_on_hold g)) (JStr (hg_source g)))
    (JStr (hg_status_blob g)) (JStr (hg_status_blob_type g))
    (JStr <$> hg_required_features g) (embed_family <$> hg_families g) (embed <$> hg_extensions g).

Lemma fold_json_option {A} (f : A → json) o : (∀ a, fold (f a) = f a) → fold (json_option f o) = json_option f o.
Proof. intros Hf. by destruct o; simpl. Qed.

Lemma fold_strings (l : list string) : fold <$> (JStr <$> l) = JStr <$> l.
Proof. induction l as [|x l IH]; [done|by rewrite !fmap_cons, IH]. Qed.

Lemma signature_mappings_document l acc :
  NoDup (acc ++ l).*1 →
  foldl (λ acc m,
           acc ← acc;
           version ← cf_get "version" m;
           signature ← cf_get "encodedSignature" m;
           Ok (match version, signature with
               | JStr v, JStr s => dict_set v s acc
               | _, _ => acc
               end)) (Ok acc : res exn (list (string * string)))
    (fold <$> ((λ '(v, s), JObj [("version", JStr v); ("encodedSignature", JStr s)]) <$> l)) = Ok (acc ++ l).
Proof.
  revert acc. induction l as [|[v s] l IH]; intros acc Hn; [by rewrite app_nil_r|]. rewrite !fmap_cons. cbn [foldl].
  change (cf_get "version" (fold (JObj [("version", JStr v); ("encodedSignature", JStr s)]))) with (Ok (JStr v) : res exn json).
  change (cf_get "encodedSignature" (fold (JObj [("version", JStr v); ("encodedSignature", JStr s)]))) with (Ok (JStr s) : res exn json).
  cbn [mbind res_bind]. assert (dict_set v s acc = acc ++ [(v, s)]) as ->.
  { rewrite fmap_app in Hn. apply NoDup_app in Hn as (_ & Hd & _). clear IH. revert Hd. induction acc as [|[k w] acc IHa]; intros Hd; [done|].
    simpl. destruct (String.eqb_spec v k) as [<-|Hne]; [exfalso; apply (Hd v); set_solver|].
    rewrite IHa; [done|]. intros x Hx. apply Hd. set_solver. }
  rewrite IH; [by rewrite <-app_assoc|]. by rewrite <-app_assoc.
Qed.

Lemma parse_family_document a :
  NoDup (vf_ga_version_to_signature_mapping a).*1 → parse_family (fold (family_document a)) = Ok (embed_family a).
Proof.
  intros Hn. unfold parse_family.
  change (cf_getitem "name" (fold (family_document a))) with (Ok (JStr (vf_name a)) : res exn json).
  change (cf_get "version" (fold (family_document a))) with (Ok (fold (json_option JStr (vf_version a))) : res exn json).
  change (cf_get "fromVersion" (fold (family_document a))) with (Ok (fold (json_option JStr (vf_from_version a))) : res exn json).
  change (cf_get "isVersionFromRSM" (fold (family_document a))) with (Ok (fold (json_option JBool (vf_is_version_from_rsm a))) : res exn json).
  change (cf_get "isVMEnabledForRSMUpgrades" (fold (family_document a)))
    with (Ok (fold (json_option JBool (vf_is_vm_enabled_for_rsm_upgrades a))) : res exn json).
  change (cf_get "uris" (fold (family_document a))) with (Ok (JArr (fold <$> (JStr <$> vf_uris a))) : res exn json).
  change (cf_get "versionToSignatureMappings" (fold (family_document a)))
    with (Ok (JArr (fold <$> ((λ '(v, s), JObj [("version", JStr v); ("encodedSignature", JStr s)])
                                <$> vf_ga_version_to_signature_mapping a))) : res exn json).
  cbn [mbind res_bind is_null py_list]. unfold signature_mappings. rewrite signature_mappings_document by done.
  rewrite !fold_json_option, fold_strings by done. reflexivity.
Qed.

(** A loop that reads items and appends them *)
Lemma for_each_read {A B} (f : A → res exn B) (add : B → vm_settings → vm_settings) (l : list A) (ys : list B) v :
  map_res f l = Ok ys → for_each l (λ x, y ← lift (f x); modify (add y)) v = (Ok tt, foldl (λ v y, add y v) v ys).
Proof.
  revert ys v. induction l as [|x l IH]; intros ys v H; simpl in H; [by simplify_eq|].
  bind_inv. simplify_eq. transitivity (for_each l (λ x, y ← lift (f x); modify (add y)) (add v0 v)); [|exact (IH v1 (add v0 v) E0)].
  cbn [for_each]. cbv [mbind M_bind lift modify]. by rewrite E.
Qed.

Lemma foldl_features names v :
  foldl (λ v y, set_features (vs_required_features v ++ [y]) v) v names = set_features (vs_required_features v ++ names) v.
Proof.
  revert v. induction names as [|n names IH]; intros v; simpl; [rewrite app_nil_r; by destruct v|].
  rewrite IH. destruct v. simpl. by rewrite <-app_assoc.
Qed.

Lemma foldl_families l v : vs_agent_families v = [] →
  foldl (λ v a, add_family a v) v l = mkVmSettings (vs_etag v) (vs_text v) (vs_simple v) (vs_status_upload_blob v)
    (vs_status_upload_blob_type v) (vs_required_features v) l (vs_extensions v).
Proof.
  intros Hv. cut (∀ v, foldl (λ v a, add_family a v) v l = mkVmSettings (vs_etag v) (vs_text v) (vs_simple v) (vs_status_upload_blob v)
    (vs_status_upload_blob_type v) (vs_required_features v) (vs_agent_families v ++ l) (vs_extensions v)).
  { intros ->. by rewrite Hv. }
  clear v Hv. induction l as [|a l IH]; intros v; simpl; [rewrite app_nil_r; by destruct v|]. rewrite IH. simpl. by rewrite <-app_assoc.
Qed.

Lemma foldl_extensions l v : vs_extensions v = [] →
  foldl (λ v x, add_extension x v) v l = mkVmSettings (vs_etag v) (vs_text v) (vs_simple v) (vs_status_upload_blob v)
    (vs_status_upload_blob_type v) (vs_required_features v) (vs_agent_families v) l.
Proof.
  intros Hv. cut (∀ v, foldl (λ v a, add_extension a v) v l = mkVmSettings (vs_etag v) (vs_text v) (vs_simple v)
    (vs_status_upload_blob v) (vs_status_upload_blob_type v) (vs_required_features v) (vs_agent_families v)
    (vs_extensions v ++ l)).
  { intros ->. by rewrite Hv. }
  clear v Hv. induction l as [|a l IH]; intros v; simpl; [rewrite app_nil_r; by destruct v|]. rewrite IH. simpl. by rewrite <-app_assoc.
Qed.

Lemma bind_run {A B} (m : V A) (k : A → V B) v a v' : m v = (Ok a, v') → (m ≫= k) v = k a v'.
Proof. unfold mbind, M_bind. by intros ->. Qed.

Lemma bind_lift {A B} (r : res exn A) (k : A → V B) v a : r = Ok a → (lift r ≫= k) v = k a v.
Proof. by intros ->. Qed.

Lemma bind_modify {B} (f : vm_settings → vm_settings) (k : unit → V B) v : (modify f ≫= k) v = k tt (f v).
Proof. done. Qed.

Lemma json_eqb_neq s t : s ≠ t → json_eqb (JStr s) (JStr t) = false.
Proof. intros H. simpl. by apply String.eqb_neq. Qed.

Notation J g := (JObj (CaseFolded.from_dict (goal_document g))).

Lemma parse_simple_document g v : wf_goal g →
  parse_simple_attributes float_text (J g) v = (Ok tt, set_simple (λ _, vs_simple (embed_goal "" "" g)) v).
Proof.
  intros [Hp Hs Ha Hc _ _ _]. unfold parse_simple_attributes.
  rewrite (bind_lift _ _ _ (JStr (fv_str (hg_plugin_version g))) eq_refl). cbn [is_null negb].
  erewrite bind_run; [|unfold when; erewrite bind_lift by (simpl; by apply FV_str); reflexivity].
  rewrite (bind_lift _ _ _ (JStr (hg_activity_id g)) eq_refl), (bind_lift _ _ _ (JStr (hg_correlation_id g)) eq_refl).
  rewrite (bind_lift _ _ _ (JInt (hg_svd_sequence_number g)) eq_refl), (bind_lift _ _ _ (JInt (hg_ticks g)) eq_refl), bind_modify.
  rewrite (bind_lift _ _ _ (JStr (fv_str (hg_schema_version g))) eq_refl). cbn [is_null negb].
  erewrite bind_run; [|unfold when; erewrite bind_lift by (simpl; by apply FV_str); reflexivity].
  rewrite (bind_lift _ _ _ (JBool (hg_on_hold g)) eq_refl), (bind_lift _ _ _ (JStr (hg_source g)) eq_refl).
  unfold modify, set_simple, string_to_id. cbn [is_null orb]. rewrite !json_eqb_neq by done. reflexivity.
Qed.

Lemma parse_blob_document g v :
  parse_status_upload_blob (J g) v = (Ok tt, set_blob (JStr (hg_status_blob g)) (JStr (hg_status_blob_type g)) v).
Proof. reflexivity. Qed.

Lemma parse_features_document g v :
  parse_required_features (J g) v = (Ok tt, set_features (vs_required_features v ++ (JStr <$> hg_required_features g)) v).
Proof.
  unfold parse_required_features.
  rewrite (bind_lift (cf_get "requiredFeatures" (J g)) _ _ (JArr (fold <$> ((λ f, JObj [("name", JStr f)]) <$> hg_required_features g))) eq_refl).
  rewrite (for_each_read feature_name (λ y v, set_features (vs_required_features v ++ [y]) v) _ (JStr <$> hg_required_features g)).
  - by rewrite foldl_features.
  - rewrite <-list_fmap_compose. by apply map_res_fmap, Forall_forall.
Qed.

Lemma parse_families_document g v : wf_goal g → vs_agent_families v = [] →
  parse_agent_manifests (J g) v =
  (Ok tt, mkVmSettings (vs_etag v) (vs_text v) (vs_simple v) (vs_status_upload_blob v) (vs_status_upload_blob_type v)
            (vs_required_features v) (embed_family <$> hg_families g) (vs_extensions v)).
Proof.
  intros Hg Hv. unfold parse_agent_manifests.
  rewrite (bind_lift (cf_get "gaFamilies" (J g)) _ _ (JArr (fold <$> (family_document <$> hg_families g))) eq_refl).
  rewrite (for_each_read parse_family add_family _ (embed_family <$> hg_families g)); [by rewrite foldl_families|].
  rewrite <-list_fmap_compose. apply map_res_fmap. eapply Forall_impl; [apply (wg_families g Hg)|]. intros a. apply parse_family_document.
Qed.

Lemma parse_extensions_document g v : wf_goal g → vs_extensions v = [] →
  parse_vs_extensions loads (J g) v =
  (Ok tt, mkVmSettings (vs_etag v) (vs_text v) (vs_simple v) (vs_status_upload_blob v) (vs_status_upload_blob_type v)
            (vs_required_features v) (vs_agent_families v) (embed <$> hg_extensions g)).
Proof.
  intros Hg Hv. unfold parse_vs_extensions.
  rewrite (bind_lift (cf_get "extensionGoalStates" (J g)) _ _ (JArr (fold <$> (extension_document <$> hg_extensions g))) eq_refl).
  rewrite (for_each_read (parse_vs_extension loads) add_extension _ (embed <$> hg_extensions g)); [by rewrite foldl_extensions|].
  rewrite <-list_fmap_compose. apply map_res_fmap. eapply Forall_impl; [apply (wg_extensions g Hg)|].
  intros a. apply parse_extension_document.
Qed.

(** C12: the goal state that the host writes is the one the agent reads: every attribute,
    agent family, extension, setting and dependency level comes back as it was, in
    whatever case the host writes the keys of its document. *)
Theorem vm_settings_are_read_back (etag text : string) (g : host_goal) (d : list (string * json)) :
  wf_goal g → loads text = Ok (JObj d) → CaseFolded.from_dict d = CaseFolded.from_dict (goal_document g) →
  create_from_vm_settings loads float_text etag text = Ok (embed_goal etag text g).
Proof.
  intros Hg Hl Hd. unfold create_from_vm_settings.
  assert (parse_vm_settings loads float_text (new_vm_settings etag text) = (Ok tt, embed_goal etag text g)) as Hp.
  { unfold parse_vm_settings. erewrite bind_run by reflexivity. erewrite bind_lift by exact Hl.
    erewrite bind_lift by reflexivity. rewrite Hd. erewrite bind_run by by apply parse_simple_document.
    erewrite bind_run by apply parse_blob_document. erewrite bind_run by apply parse_features_document.
    erewrite bind_run by by apply parse_families_document. by rewrite parse_extensions_document. }
  erewrite bind_run by exact Hp. unfold do_common_validations, modify.
  assert (existsb (λ t, json_eqb (vs_status_upload_blob_type (embed_goal etag text g)) (JStr t)) ["BlockBlob"; "PageBlob"] = true) as ->; [|done].
  apply existsb_exists. exists (hg_status_blob_type g). split; [apply list_elem_of_In, (wg_blob_type g Hg)|].
  simpl. by rewrite String.eqb_refl.
Qed.
End document.

(** ** Samples *)

Definition sample_version (l : list Z) : FlexibleVersion := mkFV "." None default_tags None l.

Definition sample_goal : host_goal :=
  mkHostGoal (sample_version [1; 0; 8; 133]) (sample_version [0; 0]) "a33f6f53" "9a47a2a2" 1 637726657706205217 false "FastTrack"
    "https://blob.core.windows.net/$system/vm.status?sv=2018-03-28&sig=KNWgC2" "BlockBlob" ["MultipleExtensionsPerHandler"]
    [mkFamily "Prod" (Some "9.9.9.9") None (Some true) None [("9.9.9.9", "c2lnbmF0dXJl")] ["https://prod/manifest.xml"]]
    [mkExtension "Acme.Single" "1.9.1" "enabled"
       [mkSettings "Acme.Single" (JInt 0) (JObj [("GCS_AUTO_CONFIG", JBool true)]) (JStr "MIIBsAYJKoZIhvcNAQcD") (JStr "BD447EF7") 2 "enabled"]
       ["https://zone/single.xml"; "https://other/single.xml"] false "MIIn" None;
     mkExtension "Acme.Multi" "1.2.0" "enabled"
       [mkSettings "MCExt1" (JInt 0) JNull JNull JNull 1 "enabled"; mkSettings "MCExt2" (JInt 3) JNull JNull JNull 3 "disabled"]
       [] true "" None].

(** A host that writes its keys in lower case *)
Definition sample_document : list (string * json) := CaseFolded.from_dict (goal_document json_dumps sample_goal).
Definition sample_text : string := json_dumps (JObj sample_document).
Definition sample_loads (text : string) : res exn json :=
  if String.eqb text sample_text then Ok (JObj sample_document)
  else if String.eqb text "null" then Ok JNull
  else if String.eqb text (json_dumps (JObj [("GCS_AUTO_CONFIG", JBool true)])) then Ok (JObj [("GCS_AUTO_CONFIG", JBool true)])
  else Err (py_error ValueError "Expecting value").

Lemma sample_version_wf l : l ≠ [] → Forall (λ n, 0 ≤ n) l → wf_version (sample_version l).
Proof. done. Qed.

Lemma sample_goal_wf : wf_goal sample_loads json_dumps sample_goal.
Proof.
  constructor.
  - apply sample_version_wf; [done|repeat constructor; lia].
  - apply sample_version_wf; [done|repeat constructor; lia].
  - discriminate.
  - discriminate.
  - left.
  - repeat constructor; by intros ?%elem_of_nil.
  - apply Forall_cons_2; [|apply Forall_cons_2; [|apply Forall_nil_2]].
    + split; [left| |intros _; apply le_n|repeat constructor; by intros ?%elem_of_nil].
      apply Forall_cons_2; [|apply Forall_nil_2].
      split; [vm_compute; reflexivity|eexists; reflexivity|right; eexists; reflexivity|right; eexists; reflexivity
             |intros _; discriminate|intros _; split; reflexivity].
    + split; [left| |discriminate|].
      * apply Forall_cons_2; [|apply Forall_cons_2; [|apply Forall_nil_2]];
        (split; [vm_compute; reflexivity|eexists; reflexivity|left; reflexivity|left; reflexivity|intros []; reflexivity|discriminate]).
      * apply NoDup_cons; split; [by intros ?%list_elem_of_singleton|apply NoDup_singleton].
Qed.

Lemma vm_settings_are_read_back_witness :
  create_from_vm_settings sample_loads (λ _, None) "292" sample_text = Ok (embed_goal (λ _, None) "292" sample_text sample_goal).
Proof.
  apply (vm_settings_are_read_back sample_loads (λ _, None) json_dumps "292" sample_text sample_goal sample_document).
  - exact sample_goal_wf.
  - vm_compute. reflexivity.
  - vm_compute. reflexivity.
Defined.

Lemma accepted_vm_settings_are_consistent_witness :
  ∃ v, create_from_vm_settings sample_loads (λ _, None) "292" sample_text = Ok v ∧
    vs_id v = "etag_" +:+ "292" ∧ Forall ok_extension (vs_extensions v) ∧
    vs_status_upload_blob_type v ∈ [JStr "BlockBlob"; JStr "PageBlob"].
Proof.
  eexists. split; [vm_compute; reflexivity|].
  apply (accepted_vm_settings_are_consistent sample_loads (λ _, None) "292" sample_text). vm_compute. reflexivity.
Defined.


(** A document whose second extension asks for a state there is not: the parser fails
    before it has recorded the extension, and the text that the error carries, which is
    kept in the history of goal states, has the extension's protected settings. *)
Definition broken_document : json :=
  JObj [("hostGAPluginVersion", JStr "1.0.8.133");
        ("extensionGoalStates",
           JArr [JObj [("name", JStr "Acme.Broken"); ("version", JStr "1.0.0"); ("state", JStr "unknown"); ("settingsSeqNo", JInt 0);
                       ("settings", JArr [JObj [("protectedSettings", JStr "MIIBsAYJKoZIhvcNAQcD");
                                                ("protectedSettingsCertThumbprint", JStr "BD447EF7")]])]])].

Example unparsed_secrets_are_kept :
  match create_from_vm_settings (λ _, Ok broken_document) (λ _, None) "293" (json_dumps broken_document) with
  | Err e => e_class e = VmSettingsParseError ∧
             match e_args e with [_; text] => str_contains "MIIBsAYJKoZIhvcNAQcD" text = true | _ => False end
  | Ok _ => False
  end.
Proof. vm_compute. auto. Qed.
