(* ===== verification/ExtConfig.v ===== *)
(** * The goal state of the wire server
      (common/protocol/extensions_goal_state_from_extensions_config.py)

    The ExtensionsConfig is an XML document of the wire server: the versions of the agent, the
    extensions ([Plugins]) and, apart from them, their settings ([PluginSettings]), which are
    JSON inside the XML.  An error in the settings of one extension marks that extension; what
    the parser had read of it until then stays.  Other errors fail the whole goal state.

    [parse_doc] and [loads] are the parsers of the standard library, [fetch_profile] the download
    of the artifacts profile, in the state [S] of the client. *)
From S2P Require Import Prelude PyExn FlexVersion Datetime Json Ticks TextUtil Xml World RestApi ExtInstance Urls VmSettings.
From Stdlib Require Import Ascii.

(** ** Data *)

(** [VMAgentFamily]; [None] is an element that is not there. *)
Record ec_family := mkEcFamily {
  ef_name : option string;
  ef_version : option string;
  ef_from_version : option string;
  ef_is_version_from_rsm : option bool;
  ef_is_vm_enabled_for_rsm_upgrades : option bool;
  ef_ga_version_to_signature_mapping : list (string * string);
  ef_uris : list (option string)
}.

(** [ExtensionsGoalStateFromExtensionsConfig] *)
Record extensions_config := mkExtensionsConfig {
  ec_incarnation : option string;
  ec_text : string;
  ec_status_upload_blob_node : option xml;
  ec_status_upload_blob : option string;
  ec_status_upload_blob_type : option string;
  ec_artifacts_profile_blob_node : option xml;
  ec_required_features : list (option string);
  ec_on_hold : bool;
  ec_activity_id : json;
  ec_correlation_id : json;
  ec_created_on_timestamp : string;
  ec_agent_families : list ec_family;
  ec_extensions : list Extension
}.

Definition ec_id (c : extensions_config) : string := "incarnation_" +:+ default "None" (ec_incarnation c).

Definition add_ec_family (f : ec_family) (c : extensions_config) : extensions_config :=
  mkExtensionsConfig (ec_incarnation c) (ec_text c) (ec_status_upload_blob_node c) (ec_status_upload_blob c) (ec_status_upload_blob_type c)
    (ec_artifacts_profile_blob_node c) (ec_required_features c) (ec_on_hold c) (ec_activity_id c) (ec_correlation_id c)
    (ec_created_on_timestamp c) (ec_agent_families c ++ [f]) (ec_extensions c).
Definition add_ec_extension (x : Extension) (c : extensions_config) : extensions_config :=
  mkExtensionsConfig (ec_incarnation c) (ec_text c) (ec_status_upload_blob_node c) (ec_status_upload_blob c) (ec_status_upload_blob_type c)
    (ec_artifacts_profile_blob_node c) (ec_required_features c) (ec_on_hold c) (ec_activity_id c) (ec_correlation_id c)
    (ec_created_on_timestamp c) (ec_agent_families c) (ec_extensions c ++ [x]).
Definition set_ec_features (l : list (option string)) (c : extensions_config) : extensions_config :=
  mkExtensionsConfig (ec_incarnation c) (ec_text c) (ec_status_upload_blob_node c) (ec_status_upload_blob c) (ec_status_upload_blob_type c)
    (ec_artifacts_profile_blob_node c) l (ec_on_hold c) (ec_activity_id c) (ec_correlation_id c)
    (ec_created_on_timestamp c) (ec_agent_families c) (ec_extensions c).
Definition set_ec_blob (n : option xml) (blob type : option string) (c : extensions_config) : extensions_config :=
  mkExtensionsConfig (ec_incarnation c) (ec_text c) n blob type
    (ec_artifacts_profile_blob_node c) (ec_required_features c) (ec_on_hold c) (ec_activity_id c) (ec_correlation_id c)
    (ec_created_on_timestamp c) (ec_agent_families c) (ec_extensions c).
Definition set_ec_profile (n : option xml) (c : extensions_config) : extensions_config :=
  mkExtensionsConfig (ec_incarnation c) (ec_text c) (ec_status_upload_blob_node c) (ec_status_upload_blob c) (ec_status_upload_blob_type c)
    n (ec_required_features c) (ec_on_hold c) (ec_activity_id c) (ec_correlation_id c)
    (ec_created_on_timestamp c) (ec_agent_families c) (ec_extensions c).
Definition set_ec_hold (b : bool) (c : extensions_config) : extensions_config :=
  mkExtensionsConfig (ec_incarnation c) (ec_text c) (ec_status_upload_blob_node c) (ec_status_upload_blob c) (ec_status_upload_blob_type c)
    (ec_artifacts_profile_blob_node c) (ec_required_features c) b (ec_activity_id c) (ec_correlation_id c)
    (ec_created_on_timestamp c) (ec_agent_families c) (ec_extensions c).
Definition set_ec_metadata (a r : json) (t : string) (c : extensions_config) : extensions_config :=
  mkExtensionsConfig (ec_incarnation c) (ec_text c) (ec_status_upload_blob_node c) (ec_status_upload_blob c) (ec_status_upload_blob_type c)
    (ec_artifacts_profile_blob_node c) (ec_required_features c) (ec_on_hold c) a r t (ec_agent_families c) (ec_extensions c).

(** The fields that are set before the parser runs; the timestamp is not read until it is set. *)
Definition new_extensions_config (incarnation : option string) (text : string) : extensions_config :=
  mkExtensionsConfig incarnation text None None None None [] false JNull JNull "" [] [].

(** ** One extension *)

Definition config_error (msg : string) : exn := agent_error ExtensionsConfigError msg None (-1).

(** [Extension()] *)
Definition new_extension : Extension := mkExtension "" "" "" [] [] false "" None.
Definition set_invalid (reason : string) (x : Extension) : Extension :=
  mkExtension (eh_name x) (eh_version x) (eh_state x) (eh_settings x) (eh_manifest_uris x) (eh_supports_multi_config x)
    (eh_encoded_signature x) (Some reason).
Definition add_settings (s : ExtensionSettings) (x : Extension) : Extension :=
  mkExtension (eh_name x) (eh_version x) (eh_state x) (eh_settings x ++ [s]) (eh_manifest_uris x) (eh_supports_multi_config x)
    (eh_encoded_signature x) (eh_invalid_setting_reason x).
Definition set_multi_config (x : Extension) : Extension :=
  mkExtension (eh_name x) (eh_version x) (eh_state x) (eh_settings x) (eh_manifest_uris x) true
    (eh_encoded_signature x) (eh_invalid_setting_reason x).
Notation X A := (M Extension exn A).

(** [_parse_plugin]; texts of additional locations that are missing are [None] in the list of
    URIs, which here are empty. *)
Definition parse_plugin (plugin : xml) : X unit :=
  let attr := λ k, get_attribute k plugin in
  modify (λ x, mkExtension (attr "name") (attr "version") (attr "state") (eh_settings x) (eh_manifest_uris x)
                 (eh_supports_multi_config x) (eh_encoded_signature x) (eh_invalid_setting_reason x)) ;;
  if String.eqb (attr "state") "" then raise (config_error "Received empty Extensions.Plugins.Plugin.state, failing Handler")
  else
    let wrapped := λ k, if String.eqb (attr k) "" then [] else [attr k] in
    let additional := (λ n, default "" (gettext (Some n))) <$> findall (find (Some plugin) "additionalLocations") "additionalLocation" in
    modify (λ x, mkExtension (eh_name x) (eh_version x) (eh_state x) (eh_settings x)
                   (eh_manifest_uris x ++ wrapped "location" ++ wrapped "failoverlocation" ++ additional)
                   (eh_supports_multi_config x) (attr "encodedSignature") (eh_invalid_setting_reason x)).

(** [int(s)] of a text: blanks around it, a sign, and underscores between digits *)
Fixpoint plain_digits (after_digit : bool) (s : string) : option string :=
  match s with
  | "" => if after_digit then Some "" else None
  | String c s' =>
      if is_digit c then String c <$> plain_digits true s'
      else if after_digit && Ascii.eqb c "_" then plain_digits false s' else None
  end.
Definition split_sign (t : string) : Z * string :=
  match t with
  | "" => (1, "")
  | String c r => if Ascii.eqb c "-" then (-1, r) else if Ascii.eqb c "+" then (1, r) else (1, t)
  end.
Definition int_text (s : string) : res exn Z :=
  let t := drop_spaces_end (drop_spaces s) in
  let '(sign, digits) := split_sign t in
  match plain_digits false digits with
  | Some d => Ok (sign * int_of_digits d)
  | None => Err (py_error ValueError ("invalid literal for int() with base 10: '" +:+ s +:+ "'"))
  end.

Section parser.
Context (parse_doc : string → res exn xml) (loads : string → res exn json) (float_text : string → option Z).

(** [json.loads(gettext(node))] *)
Definition load_settings (settings_node : xml) : res exn json :=
  match gettext (Some settings_node) with
  | Some text => loads text
  | None => Err (py_error TypeError "the JSON object must be str, bytes or bytearray, not NoneType")
  end.

(** [__parse_and_add_extension_settings] *)
Definition parse_and_add_extension_settings (settings_node : xml) (name : string) (depends_on_level : Z) (state : string) : X unit :=
  let seq_no := get_attribute "seqNo" settings_node in
  if String.eqb seq_no "" then raise (config_error ("SeqNo not specified for the Extension: " +:+ name))
  else
    loaded ← except ValueError (j ← lift (load_settings settings_node); mret (Some j)) (λ _, mret None);
    match loaded with
    | None => modify (add_settings (mkSettings name (JStr seq_no) JNull JNull JNull depends_on_level state))
    | Some runtime_settings =>
        l ← lift (json_getitem "runtimeSettings" runtime_settings);
        l ← lift (py_list l);
        for_each l (λ plugin_settings,
          handler_settings ← lift (json_getitem "handlerSettings" plugin_settings);
          seq ← lift (int_text seq_no);
          public ← lift (json_get "publicSettings" handler_settings);
          protected ← lift (json_get "protectedSettings" handler_settings);
          thumbprint ← lift (json_get "protectedSettingsCertThumbprint" handler_settings);
          modify (add_settings (mkSettings name (JInt seq) public protected thumbprint depends_on_level state)))
    end.

(** [__get_dependency_level_from_node] *)
Definition get_dependency_level_from_node (depends_on_node : option xml) : Z :=
  match depends_on_node with
  | None => 0
  | Some n => match int_text (get_attribute "dependencyLevel" n) with Ok l => l | Err _ => 0 end
  end.

(** [__parse_runtime_settings] *)
Definition parse_runtime_settings (plugin_settings_node runtime_settings_node : xml) (extension_name : string) : X unit :=
  let depends_on_nodes := findall (Some plugin_settings_node) "DependsOn" in
  if bool_decide (1 < length depends_on_nodes)%nat
  then raise (config_error ("Extension Handler can only have a single dependsOn node for Single config extensions. Found: " +:+
                            pretty (Z.of_nat (length depends_on_nodes))))
  else parse_and_add_extension_settings runtime_settings_node extension_name
         (get_dependency_level_from_node (head depends_on_nodes)) ExtensionState.Enabled.

(** [__parse_extension_runtime_settings]: the levels first, the last one of a name *)
Fixpoint dependency_levels (nodes : list xml) (levels : list (string * Z)) : res exn (list (string * Z)) :=
  match nodes with
  | [] => Ok levels
  | n :: nodes' =>
      let extension_name := get_attribute "name" n in
      if String.eqb extension_name ""
      then Err (config_error "No Name not specified for DependsOn object in ExtensionRuntimeSettings for MultiConfig!")
      else dependency_levels nodes' (dict_set extension_name (get_dependency_level_from_node (Some n)) levels)
  end.

Definition parse_extension_runtime_settings (plugin_settings_node : xml) (extension_runtime_settings_nodes : list xml) : X unit :=
  levels ← lift (dependency_levels (findall (Some plugin_settings_node) "DependsOn") []);
  modify set_multi_config ;;
  for_each extension_runtime_settings_nodes (λ n,
    let extension_name := get_attribute "name" n in
    if String.eqb extension_name "" then raise (config_error "Extension Name not specified for ExtensionRuntimeSettings for MultiConfig!")
    else
      let state := get_attribute "state" n in
      let state := if String.eqb state "" then ExtensionState.Enabled else str_lower state in
      parse_and_add_extension_settings n extension_name (default 0 (dict_get extension_name levels)) state).

(** [_parse_plugin_settings] *)
Definition parse_plugin_settings (plugin_settings : list xml) : X unit :=
  extension_name ← gets eh_name;
  version ← gets eh_version;
  let mine := filter (λ n, str_lower (get_attribute "name" n) = str_lower extension_name) plugin_settings in
  let settings := filter (λ n, get_attribute "version" n = version) mine in
  match mine with
  | [] => mret tt
  | _ =>
      if negb (bool_decide (length settings = length mine)) then
        raise (config_error ("Extension PluginSettings Version Mismatch! Expected PluginSettings version: " +:+ version +:+ " for Extension: "
          +:+ extension_name +:+ " but found versions: (" +:+ str_join ", " (remove_dups (get_attribute "version" <$> mine)) +:+ ")"))
      else
        match settings with
        | [] => mret tt
        | _ :: _ :: _ =>
            raise (config_error ("Multiple plugin settings found for the same extension: " +:+ extension_name +:+ " and version: " +:+ version
              +:+ " (Expected: 1; Available: " +:+ pretty (Z.of_nat (length settings)) +:+ ")"))
        | [n] =>
            let runtime_settings := findall (Some n) "RuntimeSettings" in
            let extension_runtime_settings := findall (Some n) "ExtensionRuntimeSettings" in
            match runtime_settings, extension_runtime_settings with
            | _ :: _, _ :: _ =>
                raise (config_error ("Both RuntimeSettings and ExtensionRuntimeSettings found for the same extension: " +:+ extension_name
                  +:+ " and version: " +:+ version))
            | _ :: _ :: _, [] =>
                raise (config_error ("Multiple RuntimeSettings found for the same extension: " +:+ extension_name +:+ " and version: " +:+ version
                  +:+ " (Expected: 1; Available: " +:+ pretty (Z.of_nat (length runtime_settings)) +:+ ")"))
            | [r], [] => parse_runtime_settings n r extension_name
            | [], _ :: _ => parse_extension_runtime_settings n extension_runtime_settings
            | [], [] => mret tt
            end
        end
  end.

(** The loop of [__parse_plugins_and_settings_and_populate_ext_handlers] *)
Definition parse_extension (plugin_settings : list xml) (plugin : xml) : res exn Extension :=
  match (parse_plugin plugin ;; parse_plugin_settings plugin_settings) new_extension with
  | (Ok _, x) => Ok x
  | (Err e, x) => if isinstance e ExtensionsConfigError then Ok (set_invalid (e_msg e) x) else Err e
  end.

(** ** The whole document *)

(** One [GAFamily] *)
Definition to_bool (s : string) : bool := String.eqb (str_lower s) "true".
Definition parse_ga_family (n : xml) : ec_family :=
  let text := findtext (Some n) in
  mkEcFamily (text "Name") (text "Version") (text "FromVersion") (to_bool <$> text "IsVersionFromRSM")
    (to_bool <$> text "IsVMEnabledForRSMUpgrades")
    (foldl (λ acc m, match findtext (Some m) "Version", findtext (Some m) "EncodedSignature" with
                     | Some v, Some s => dict_set v s acc
                     | _, _ => acc
                     end) [] (findall (find (Some n) "VersionToSignatureMappings") "GASignature"))
    ((λ u, gettext (Some u)) <$> findall (find (Some n) "Uris") "Uri").

(** [_InVMArtifactsProfile(profile).get_on_hold()] *)
Definition parse_on_hold (profile : string) : res exn bool :=
  j ← loads (rstrip_nul profile);
  on_hold ← json_get "onHold" j;
  match on_hold with
  | JNull => Ok false
  | v => if String.eqb (str_lower (py_str v)) "true" then Ok true
         else if String.eqb (str_lower (py_str v)) "false" then Ok false
         else Err (py_error Exception_ ("Invalid value for onHold: " +:+ py_str v))
  end.

Section client.
Context {S : Type} (fetch_profile : string → M S exn (option string)).
Notation C A := (M (extensions_config * S) exn A).
Definition on_config {A} (m : M extensions_config exn A) : C A := zoom fst (λ c s, (c, s.2)) m.
Definition on_client {A} (m : M S exn A) : C A := zoom snd (λ t s, (s.1, t)) m.

(** [_fetch_extensions_on_hold]: whatever goes wrong, the machine is not on hold. *)
Definition fetch_extensions_on_hold (node : option xml) : M S exn bool :=
  let blob := gettext node in
  if is_str_none_or_whitespace blob then mret false
  else
    profile ← except Exception_ (p ← fetch_profile (default "" blob); mret (Some p)) (λ _, mret None);
    match profile with
    | None => mret false
    | Some p =>
        if is_str_empty p then mret false
        else except Exception_ (lift (parse_on_hold (default "" p))) (λ _, mret false)
    end.

(** [_parse_extensions_config] *)
Definition text_json (s : option string) : json := match s with Some t => JStr t | None => JNull end.

Definition parse_extensions_config : C unit :=
  text ← on_config (gets ec_text);
  doc ← lift (parse_doc text);
  let doc := Some doc in
  on_config (for_each (findall (find doc "GAFamilies") "GAFamily") (λ n, modify (add_ec_family (parse_ga_family n)))) ;;
  let plugin_settings := findall (find doc "PluginSettings") "Plugin" in
  on_config (for_each (findall (find doc "Plugins") "Plugin") (λ n,
    x ← lift (parse_extension plugin_settings n); modify (add_ec_extension x))) ;;
  on_config (modify (set_ec_features ((λ n, findtext (Some n) "Name") <$> findall (find doc "RequiredFeatures") "RequiredFeature"))) ;;
  let blob := find doc "StatusUploadBlob" in
  on_config (modify (set_ec_blob blob (gettext blob) (getattrib blob "statusBlobType"))) ;;
  let profile := find doc "InVMArtifactsProfileBlob" in
  on_config (modify (set_ec_profile profile)) ;;
  hold ← on_client (fetch_extensions_on_hold profile);
  on_config (modify (set_ec_hold hold)) ;;
  let metadata := find doc "InVMGoalStateMetaData" in
  let attr := λ k, text_json (getattrib metadata k) in
  on_config (modify (set_ec_metadata (string_to_id (attr "activityId")) (string_to_id (attr "correlationId"))
                       (ticks_to_utc_timestamp float_text (attr "createdOnTicks")))).
End client.

(** [_do_common_validations] *)
Definition validate_blob_type (c : extensions_config) : extensions_config :=
  if bool_decide (ec_status_upload_blob_type c ∈ [Some "BlockBlob"; Some "PageBlob"]) then c
  else set_ec_blob (ec_status_upload_blob_node c) (ec_status_upload_blob c) (Some "BlockBlob") c.

(** [get_redacted_text] *)
Definition redact_url (text : string) (node : option xml) (name : string) : res exn string :=
  match gettextxml node with
  | None => Ok text
  | Some text_xml =>
      parsed ← urlparse text_xml;
      match redact (u_query parsed) text with
      | Some t => Ok t
      | None => Err (py_error Exception_ ("Could not redact " +:+ name))
      end
  end.

(** The same class of settings, as the parser of the vmSettings has it *)
Definition vs_of_settings (s : ExtensionSettings) : vs_settings :=
  mkVsSettings (JStr (es_name s)) (es_sequenceNumber s) (es_publicSettings s) (es_protectedSettings s) (es_certificateThumbprint s)
    (JInt (es_dependencyLevel s)) (JStr (es_state s)).

Definition redact_config (c : extensions_config) : res exn (string + string) :=
  text ← redact_url (ec_text c) (ec_status_upload_blob_node c) "StatusUploadBlob";
  text ← redact_url text (ec_artifacts_profile_blob_node c) "InVMArtifactsProfileBlob";
  redact_settings (vs_of_settings <$> (ec_extensions c ≫= eh_settings)) text.

Definition get_redacted_config (c : extensions_config) : string :=
  match redact_config c with
  | Ok (inl text) => text
  | Ok (inr message) => message
  | Err e => "Error redacting text: " +:+ e_msg e
  end.

(** The constructor *)
Definition create_from_extensions_config {S} (fetch_profile : string → M S exn (option string)) (incarnation : option string) (text : string)
    : M S exn extensions_config := λ s,
  match parse_extensions_config fetch_profile (new_extensions_config incarnation text, s) with
  | (Ok _, (c, s)) => (Ok (validate_blob_type c), s)
  | (Err e, (c, s)) =>
      if isinstance e Exception_ then
        (Err (config_error ("Error parsing ExtensionsConfig (incarnation: " +:+ default "None" incarnation +:+ "): " +:+ e_msg e
                            +:+ String "010" (get_redacted_config c))), s)
      else (Err e, s)
  end.
End parser.

(** ** No secret stays in the text that is kept *)

Definition url_secret (node : option xml) : list string :=
  match gettextxml node with
  | Some t => match urlparse t with Ok u => [u_query u] | Err _ => [] end
  | None => []
  end.

Definition config_secrets (c : extensions_config) : list string :=
  omap (λ s, match es_protectedSettings s with JStr p => Some p | _ => None end) (ec_extensions c ≫= eh_settings) ++
  url_secret (ec_status_upload_blob_node c) ++ url_secret (ec_artifacts_profile_blob_node c).

Lemma redact_url_keeps w text node name text' :
  is_secret w → redact_url text node name = Ok text' → ¬ occurs w text → ¬ occurs w text'.
Proof.
  intros Hw. unfold redact_url. destruct (gettextxml node); [|by intros [= ->]]. destruct (urlparse _); [|done]. simpl.
  destruct (redact _ _) eqn:Hr; [|done]. intros [= <-]. by eapply redact_keeps.
Qed.

Lemma redact_url_removes w text node name text' :
  is_secret w → redact_url text node name = Ok text' → w ∈ url_secret node → ¬ occurs w text'.
Proof.
  intros Hw. unfold redact_url, url_secret. destruct (gettextxml node); [|set_solver]. destruct (urlparse _) as [u|]; [|set_solver]. simpl.
  destruct (redact _ _) eqn:Hr; [|done]. intros [= <-] ->%list_elem_of_singleton. by eapply redact_removes.
Qed.

(** The ExtensionsConfig that is kept in the history holds neither the protected settings nor the
    access tokens of the blobs, or is a message. *)
Theorem redacted_config_has_no_secrets (c : extensions_config) (w : string) :
  is_secret w → w ∈ config_secrets c →
  (∃ name, get_redacted_config c = "Could not redact protectedSettings for " +:+ name) ∨
  (∃ msg, get_redacted_config c = "Error redacting text: " +:+ msg) ∨
  ¬ occurs w (get_redacted_config c).
Proof.
  intros Hw Hin. unfold get_redacted_config, redact_config.
  destruct (redact_url _ (ec_status_upload_blob_node c) _) as [t1|] eqn:H1; [|right; left; by eexists]. simpl.
  destruct (redact_url t1 _ _) as [t2|] eqn:H2; [|right; left; by eexists]. simpl.
  destruct (redact_settings _ t2) as [[t3|m]|] eqn:H3; [right; right| |right; left; by eexists].
  2: { left. by apply redact_settings_message in H3. }
  unfold config_secrets in Hin. rewrite !elem_of_app in Hin. destruct Hin as [Hin|[Hin|Hin]].
  - apply list_elem_of_omap in Hin as (s & Hs & Hp). destruct (es_protectedSettings s) eqn:Ep; simplify_eq.
    eapply (redact_settings_removes _ _ _ (vs_of_settings s)); [exact H3|by apply list_elem_of_fmap_2|done|done].
  - eapply redact_settings_keeps; [done|exact H3|]. eapply redact_url_keeps; [done|exact H2|]. by eapply redact_url_removes.
  - eapply redact_settings_keeps; [done|exact H3|]. by eapply redact_url_removes.
Qed.

(** ** Findings *)

(** A family that names no version, with signatures for the published ones: the version it is said
    to ask for is that of the first signature, since the search goes into the signatures. *)
Example version_is_taken_from_signatures :
  ef_version (parse_ga_family (Elem "GAFamily" [] [leaf "Name" "Prod"; Elem "VersionToSignatureMappings" []
    [Elem "GASignature" [] [leaf "Version" "2.14.0.1"; leaf "EncodedSignature" "MIIn"]]])) = Some "2.14.0.1".
Proof. reflexivity. Qed.

(** Settings without a text fail the whole goal state, although settings that cannot be parsed
    are taken as an extension without settings. *)
Example settings_without_text_fail :
  let plugin := Elem "Plugin" [("name", "Acme.A"); ("version", "1.0.0"); ("state", "enabled")] [] in
  let settings := λ cs, [Elem "Plugin" [("name", "Acme.A"); ("version", "1.0.0")] [Elem "RuntimeSettings" [("seqNo", "0")] cs]] in
  let loads := λ _, Err (py_error ValueError "Expecting value") in
  match parse_extension loads (settings [Text "x"]) plugin with
  | Ok x => es_sequenceNumber <$> eh_settings x = [JStr "0"]
  | Err _ => False
  end ∧
  match parse_extension loads (settings []) plugin with Err e => e_class e = TypeError | Ok _ => False end.
Proof. vm_compute. auto. Qed.

(** ** The document of a goal state is read back

    What the fabric asks for, and the document it writes for it.  The settings of an extension are
    one [RuntimeSettings] with at most one [DependsOn], or any number of named
    [ExtensionRuntimeSettings] with the levels of some of them. *)
Record gc_settings := mkGcSettings {
  gs_name : string;
  gs_seq_no : Z;
  gs_state : string;
  gs_public : json;
  gs_protected : json;
  gs_thumbprint : json
}.

Record gc_extension := mkGcExtension {
  gx_name : string;
  gx_version : string;
  gx_state : string;
  gx_location : list string;
  gx_failover : list string;
  gx_additional : list string;
  gx_signature : string;
  gx_depends : list (string * Z);
  gx_single : list gc_settings;
  gx_multi : list gc_settings
}.

Record gc_family := mkGcFamily {
  gf_name : string;
  gf_version : option string;
  gf_from_version : option string;
  gf_from_rsm : option bool;
  gf_rsm_enabled : option bool;
  gf_signatures : list (string * string);
  gf_uris : list string
}.

Record gc_goal := mkGcGoal {
  gg_families : list gc_family;
  gg_extensions : list gc_extension;
  gg_features : list string;
  gg_blob : string * string;
  gg_profile : list string;
  gg_metadata : string * string * string
}.

Section document.
Context (dumps : json → string).

Definition settings_document (s : gc_settings) : json :=
  JObj [("runtimeSettings", JArr [JObj [("handlerSettings",
    JObj [("protectedSettingsCertThumbprint", gs_thumbprint s); ("protectedSettings", gs_protected s); ("publicSettings", gs_public s)])]])].

Definition single_xml (s : gc_settings) : xml :=
  Elem "RuntimeSettings" [("seqNo", pretty (gs_seq_no s))] [Text (dumps (settings_document s))].
Definition multi_xml (s : gc_settings) : xml :=
  Elem "ExtensionRuntimeSettings" [("seqNo", pretty (gs_seq_no s)); ("name", gs_name s); ("state", gs_state s)]
    [Text (dumps (settings_document s))].
Definition depends_xml (d : string * Z) : xml :=
  Elem "DependsOn" [("dependencyLevel", pretty d.2); ("name", d.1)] [Elem "DependsOnExtension" [] []].
Definition settings_xml (x : gc_extension) : xml :=
  Elem "Plugin" [("name", gx_name x); ("version", gx_version x)]
    ((depends_xml <$> gx_depends x) ++ (single_xml <$> gx_single x) ++ (multi_xml <$> gx_multi x)).

Definition location_attr (k : string) (l : list string) : string * string := (k, match l with u :: _ => u | [] => "" end).
Definition plugin_xml (x : gc_extension) : xml :=
  Elem "Plugin" [("name", gx_name x); ("version", gx_version x); ("state", gx_state x); location_attr "location" (gx_location x);
                 location_attr "failoverlocation" (gx_failover x); ("encodedSignature", gx_signature x)]
    [Elem "additionalLocations" [] (leaf "additionalLocation" <$> gx_additional x)].

Definition bool_text (b : bool) : string := if b then "True" else "False".
Definition signature_xml (m : string * string) : xml := Elem "GASignature" [] [leaf "Version" m.1; leaf "EncodedSignature" m.2].
Definition family_xml (f : gc_family) : xml :=
  Elem "GAFamily" []
    (leaf "Name" (gf_name f) :: opt_leaf "Version" (gf_version f) ++ opt_leaf "FromVersion" (gf_from_version f) ++
     opt_leaf "IsVersionFromRSM" (bool_text <$> gf_from_rsm f) ++ opt_leaf "IsVMEnabledForRSMUpgrades" (bool_text <$> gf_rsm_enabled f) ++
     [Elem "Uris" [] (leaf "Uri" <$> gf_uris f); Elem "VersionToSignatureMappings" [] (signature_xml <$> gf_signatures f)]).

Definition feature_xml (name : string) : xml := Elem "RequiredFeature" [] [leaf "Name" name].
Definition has_settings (x : gc_extension) : Prop := gx_single x ++ gx_multi x ≠ [].

Definition config_xml (g : gc_goal) : xml :=
  Elem "#document" [] [Elem "Extensions" [("version", "1.0.0.0")]
    ([Elem "GuestAgentExtension" [] [Elem "GAFamilies" [] (family_xml <$> gg_families g)];
      Elem "Plugins" [] (plugin_xml <$> gg_extensions g);
      Elem "PluginSettings" [] (settings_xml <$> filter has_settings (gg_extensions g));
      Elem "RequiredFeatures" [] (feature_xml <$> gg_features g);
      Elem "StatusUploadBlob" [("statusBlobType", (gg_blob g).2)] [Text (gg_blob g).1]] ++
     (leaf "InVMArtifactsProfileBlob" <$> gg_profile g) ++
     [Elem "InVMGoalStateMetaData" [("activityId", (gg_metadata g).1.1); ("correlationId", (gg_metadata g).1.2);
                                    ("createdOnTicks", (gg_metadata g).2)] []])].
End document.

(** What is well formed: the settings have names and sequence numbers, the names of the extensions
    differ in more than their case, locations are not empty, and a family that has signatures
    names a version. *)
Definition wf_settings (x : gc_extension) : Prop :=
  (∀ s, s ∈ gx_single x ++ gx_multi x → 0 ≤ gs_seq_no s) ∧
  (∀ d, d ∈ gx_depends x → 0 ≤ d.2) ∧
  (gx_single x = [] ∧ gx_multi x = [] ∧ gx_depends x = [] ∨
   (∃ s, gx_single x = [s] ∧ gs_name s = gx_name x ∧ gs_state s = "enabled") ∧ gx_multi x = [] ∧ (length (gx_depends x) ≤ 1)%nat ∨
   gx_single x = [] ∧ gx_multi x ≠ [] ∧ (∀ s, s ∈ gx_multi x → gs_name s ≠ "" ∧ gs_state s ∈ ["enabled"; "disabled"]) ∧
   NoDup (gx_depends x).*1 ∧ "" ∉ (gx_depends x).*1).

Definition wf_extension (x : gc_extension) : Prop :=
  gx_state x ≠ "" ∧ (length (gx_location x) ≤ 1)%nat ∧ (length (gx_failover x) ≤ 1)%nat ∧
  "" ∉ gx_location x ++ gx_failover x ∧ wf_settings x.

Definition wf_family (f : gc_family) : Prop := (gf_version f = None → gf_signatures f = []) ∧ NoDup (gf_signatures f).*1.

Definition wf_goal (g : gc_goal) : Prop :=
  Forall wf_family (gg_families g) ∧ Forall wf_extension (gg_extensions g) ∧
  NoDup (str_lower ∘ gx_name <$> gg_extensions g) ∧ (gg_blob g).2 ∈ ["BlockBlob"; "PageBlob"] ∧ (length (gg_profile g) ≤ 1)%nat.

(** The level of a configuration *)
Definition level_of (x : gc_extension) (s : gc_settings) : Z :=
  match gx_single x with
  | [] => default 0 (dict_get (gs_name s) (gx_depends x))
  | _ => match gx_depends x with d :: _ => d.2 | [] => 0 end
  end.

Definition embed_settings (x : gc_extension) (s : gc_settings) : ExtensionSettings :=
  mkSettings (gs_name s) (JInt (gs_seq_no s)) (gs_public s) (gs_protected s) (gs_thumbprint s) (level_of x s) (gs_state s).

Definition embed_extension (x : gc_extension) : Extension :=
  mkExtension (gx_name x) (gx_version x) (gx_state x) (embed_settings x <$> gx_single x ++ gx_multi x)
    (gx_location x ++ gx_failover x ++ gx_additional x) (bool_decide (gx_multi x ≠ [])) (gx_signature x) None.

Definition embed_family (f : gc_family) : ec_family :=
  mkEcFamily (Some (gf_name f)) (gf_version f) (gf_from_version f) (gf_from_rsm f) (gf_rsm_enabled f) (gf_signatures f) (Some <$> gf_uris f).

Definition embed_config (float_text : string → option Z) (incarnation : option string) (text : string) (hold : bool) (g : gc_goal) : extensions_config :=
  mkExtensionsConfig incarnation text
    (Some (Elem "StatusUploadBlob" [("statusBlobType", (gg_blob g).2)] [Text (gg_blob g).1])) (Some (gg_blob g).1) (Some (gg_blob g).2)
    (head (leaf "InVMArtifactsProfileBlob" <$> gg_profile g)) (Some <$> gg_features g) hold
    (string_to_id (JStr (gg_metadata g).1.1)) (string_to_id (JStr (gg_metadata g).1.2))
    (ticks_to_utc_timestamp float_text (JStr (gg_metadata g).2)) (embed_family <$> gg_families g) (embed_extension <$> gg_extensions g).

(** *** Families *)

(** Setting distinct keys one after the other *)
Lemma dict_set_all {V} (d acc : list (string * V)) :
  NoDup (acc ++ d).*1 → foldl (λ acc m, dict_set m.1 m.2 acc) acc d = acc ++ d.
Proof.
  revert acc. induction d as [|[k v] d IH]; intros acc Hnd; simpl; [by rewrite app_nil_r|].
  rewrite dict_set_new.
  - rewrite IH, <- app_assoc; [done|]. by rewrite <- app_assoc.
  - rewrite fmap_app, fmap_cons in Hnd. apply NoDup_app in Hnd as (_ & Hd & _). intros Hin. by apply (Hd _ Hin); left.
Qed.

Lemma to_bool_text (o : option bool) : to_bool <$> (bool_text <$> o) = o.
Proof. by destruct o as [[]|]. Qed.

Lemma foldl_fmap {A B C} (f : C → B → C) (g : A → B) l acc : foldl f acc (g <$> l) = foldl (λ acc x, f acc (g x)) acc l.
Proof. revert acc. induction l as [|x l IH]; intros acc; [done|]. apply IH. Qed.

Lemma family_read_back f : wf_family f → parse_ga_family (family_xml f) = embed_family f.
Proof.
  intros [Hv Hnd]. unfold parse_ga_family, embed_family, findtext, find, family_xml. xml_search.
  rewrite !to_bool_text, gettext_leaves, foldl_fmap. f_equal.
  - destruct (gf_version f); [done|]. by rewrite Hv.
  - rewrite <- (dict_set_all (gf_signatures f) []) at 2 by done. reflexivity.
Qed.

(** *** Extensions *)

Lemma digit_not_space c : is_digit c = true → is_py_space c = false.
Proof. destruct c as [[] [] [] [] [] [] [] []]; vm_compute; done. Qed.

Lemma drop_spaces_digits s : str_forallb is_digit s = true → drop_spaces s = s.
Proof. destruct s as [|c s]; [done|]. simpl. intros [Hc _]%andb_true_iff. by rewrite digit_not_space. Qed.

Lemma drop_spaces_end_digits s : str_forallb is_digit s = true → drop_spaces_end s = s.
Proof.
  induction s as [|c s IH]; [done|]. simpl. intros [Hc Hs]%andb_true_iff. rewrite IH by done.
  destruct s; [by rewrite digit_not_space|done].
Qed.

Lemma plain_digits_digits b s : str_forallb is_digit s = true → b || negb (String.eqb s "") = true → plain_digits b s = Some s.
Proof.
  revert b. induction s as [|c s IH]; intros b; [by destruct b|]. simpl. intros [Hc Hs]%andb_true_iff _. rewrite Hc, IH; done.
Qed.

Lemma int_text_pretty z : 0 ≤ z → int_text (pretty z) = Ok z.
Proof.
  intros Hz. pose proof (int_of_pretty_Z z Hz) as Hi. pose proof (pretty_Z_digits z Hz) as Hd. unfold is_digits in Hd.
  apply andb_true_iff in Hd as [Hne Hd]. unfold int_text. rewrite drop_spaces_digits, drop_spaces_end_digits by done.
  assert (split_sign (pretty z) = (1, pretty z)) as ->.
  { destruct (pretty z) as [|c s]; [done|]. simpl in Hd. apply andb_true_iff in Hd as [Hc _].
    destruct c as [[] [] [] [] [] [] [] []]; done. }
  rewrite plain_digits_digits by done. by rewrite Hi, Z.mul_1_l.
Qed.

Section read_back.
Context (loads : string → res exn json) (dumps : json → string).

(** The settings of one node *)
Lemma add_settings_read_back n s name level state x :
  0 ≤ gs_seq_no s → get_attribute "seqNo" n = pretty (gs_seq_no s) → gettext (Some n) = Some (dumps (settings_document s)) →
  loads (dumps (settings_document s)) = Ok (settings_document s) →
  parse_and_add_extension_settings loads n name level state x =
  (Ok tt, add_settings (mkSettings name (JInt (gs_seq_no s)) (gs_public s) (gs_protected s) (gs_thumbprint s) level state) x).
Proof.
  intros Hz Hseq Htext Hl. unfold parse_and_add_extension_settings, load_settings. rewrite Hseq, Htext, Hl.
  pose proof (pretty_Z_digits _ Hz) as Hd. unfold is_digits in Hd. apply andb_true_iff in Hd as [Hne _].
  apply negb_true_iff in Hne. rewrite Hne. cbn -[int_text pretty]. unfold mbind, M_bind, lift, modify. cbn -[int_text pretty].
  rewrite int_text_pretty by done. reflexivity.
Qed.

Lemma findall_settings x :
  findall (Some (settings_xml dumps x)) "DependsOn" = depends_xml <$> gx_depends x ∧
  findall (Some (settings_xml dumps x)) "RuntimeSettings" = single_xml dumps <$> gx_single x ∧
  findall (Some (settings_xml dumps x)) "ExtensionRuntimeSettings" = multi_xml dumps <$> gx_multi x.
Proof. unfold settings_xml. split_and!; xml_search; by rewrite ?app_nil_r. Qed.

(** The settings of an extension are found by its name. *)
Lemma own_settings exts x :
  NoDup (str_lower ∘ gx_name <$> exts) → x ∈ exts →
  filter (λ n, str_lower (get_attribute "name" n) = str_lower (gx_name x)) (settings_xml dumps <$> filter has_settings exts) =
  if decide (has_settings x) then [settings_xml dumps x] else [].
Proof.
  intros Hnd Hx. induction exts as [|y exts IH]; [set_solver|]. rewrite fmap_cons in Hnd. apply NoDup_cons in Hnd as [Hy Hnd].
  assert (∀ z, z ∉ exts → str_lower (gx_name z) ∉ (str_lower ∘ gx_name <$> exts) →
    filter (λ n, str_lower (get_attribute "name" n) = str_lower (gx_name z)) (settings_xml dumps <$> filter has_settings exts) = []) as Hnone.
  { clear. intros z _ Hz. induction exts as [|y exts IH]; [done|]. rewrite fmap_cons, not_elem_of_cons in Hz. destruct Hz as [Hne Hz].
    rewrite filter_cons. case_decide; [|by apply IH]. rewrite fmap_cons, filter_cons, decide_False; [by apply IH|]. exact (λ Heq, Hne (eq_sym Heq)). }
  apply elem_of_cons in Hx as [->|Hx].
  - rewrite filter_cons. case_decide; [rewrite fmap_cons, filter_cons, decide_True by done; f_equal|].
    all: apply Hnone; [|done]; intros Hin; apply Hy; change (str_lower (gx_name y)) with ((str_lower ∘ gx_name) y); by apply list_elem_of_fmap_2.
  - rewrite filter_cons. destruct (decide (has_settings y)); [|by apply IH].
    rewrite fmap_cons, filter_cons, decide_False; [by apply IH|]. intros Heq. apply Hy. apply list_elem_of_fmap. by exists x.
Qed.

Definition add_all (l : list ExtensionSettings) (x : Extension) : Extension :=
  mkExtension (eh_name x) (eh_version x) (eh_state x) (eh_settings x ++ l) (eh_manifest_uris x) (eh_supports_multi_config x)
    (eh_encoded_signature x) (eh_invalid_setting_reason x).

Lemma for_each_add {A} (l : list A) (f : A → ExtensionSettings) (body : A → M Extension exn unit) :
  (∀ a x, a ∈ l → body a x = (Ok tt, add_settings (f a) x)) → ∀ x, for_each l body x = (Ok tt, add_all (f <$> l) x).
Proof.
  induction l as [|a l IH]; intros H x; simpl.
  - destruct x. unfold add_all. by rewrite app_nil_r.
  - unfold mbind, M_bind. rewrite H by set_solver. rewrite IH by set_solver. unfold add_all, add_settings. simpl. by rewrite <- app_assoc.
Qed.

Lemma for_each_fmap {S E A B} (g : A → B) (l : list A) (body : B → M S E unit) s : for_each (g <$> l) body s = for_each l (λ a, body (g a)) s.
Proof.
  revert s. induction l as [|a l IH]; intros s; [done|]. rewrite fmap_cons. simpl. unfold mbind, M_bind.
  destruct (body (g a) s) as [[]]; [apply IH|done].
Qed.

Lemma dependency_levels_read_back deps :
  NoDup deps.*1 → "" ∉ deps.*1 → (∀ d, d ∈ deps → 0 ≤ d.2) → dependency_levels (depends_xml <$> deps) [] = Ok deps.
Proof.
  intros Hnd Hne Hz. pose proof (dict_set_all deps [] Hnd) as Heq. simpl in Heq.
  assert (∀ acc, dependency_levels (depends_xml <$> deps) acc = Ok (foldl (λ acc m, dict_set m.1 m.2 acc) acc deps)) as Hgo;
    [|by rewrite Hgo, Heq]. clear Heq Hnd.
  induction deps as [|[k v] deps IH]; intros acc; [done|]. rewrite !fmap_cons. rewrite fmap_cons, not_elem_of_cons in Hne.
  destruct Hne as [Hk Hne]. cbn [dependency_levels foldl]. change (get_attribute "name" (depends_xml (k, v))) with k.
  rewrite (proj2 (String.eqb_neq _ _)) by done. unfold get_dependency_level_from_node.
  change (get_attribute "dependencyLevel" (depends_xml (k, v))) with (pretty v).
  rewrite int_text_pretty by (apply (Hz (k, v)); left). apply IH; [done|]. intros d Hd. apply Hz. by right.
Qed.

(** What [parse_plugin_settings] adds to the extension [e] *)
Definition with_settings (x : gc_extension) (e : Extension) : Extension :=
  add_all (embed_settings x <$> gx_single x ++ gx_multi x) (if decide (gx_multi x = []) then e else set_multi_config e).

(** The documents of the settings are JSON that is read back. *)
Definition readable (x : gc_extension) : Prop :=
  ∀ s, s ∈ gx_single x ++ gx_multi x → loads (dumps (settings_document s)) = Ok (settings_document s).

Lemma single_settings_read_back x s e :
  readable x → gx_single x = [s] → gx_multi x = [] → (length (gx_depends x) ≤ 1)%nat →
  gs_name s = gx_name x → gs_state s = "enabled" → 0 ≤ gs_seq_no s → (∀ d, d ∈ gx_depends x → 0 ≤ d.2) →
  parse_runtime_settings loads (settings_xml dumps x) (single_xml dumps s) (gx_name x) e = (Ok tt, with_settings x e).
Proof.
  intros Hr Hs Hm Hl Hn Hst Hz Hd. unfold parse_runtime_settings. destruct (findall_settings x) as (-> & _).
  rewrite length_fmap, bool_decide_false by lia. rewrite (add_settings_read_back _ s); [|done..|apply Hr; rewrite Hs; set_solver].
  unfold with_settings, embed_settings, level_of, add_settings, add_all. rewrite Hs, Hm. rewrite decide_True by done. simpl. rewrite Hn, Hst.
  repeat f_equal. unfold get_dependency_level_from_node. destruct (gx_depends x) as [|[k v] [|]]; [done| |simpl in Hl; lia]. simpl.
  unfold get_attribute. simpl. by rewrite int_text_pretty by (apply (Hd (k, v)); left).
Qed.

Lemma multi_settings_read_back x e :
  readable x → gx_single x = [] → gx_multi x ≠ [] → (∀ s, s ∈ gx_multi x → gs_name s ≠ "" ∧ gs_state s ∈ ["enabled"; "disabled"]) →
  NoDup (gx_depends x).*1 → "" ∉ (gx_depends x).*1 → (∀ s, s ∈ gx_multi x → 0 ≤ gs_seq_no s) → (∀ d, d ∈ gx_depends x → 0 ≤ d.2) →
  parse_extension_runtime_settings loads (settings_xml dumps x) (multi_xml dumps <$> gx_multi x) e = (Ok tt, with_settings x e).
Proof.
  intros Hr Hs Hm Hw Hnd Hne Hz Hd. unfold parse_extension_runtime_settings. destruct (findall_settings x) as (-> & _).
  rewrite dependency_levels_read_back by done. unfold mbind, M_bind, lift, modify. cbv beta iota.
  rewrite for_each_fmap, (for_each_add (gx_multi x) (embed_settings x)).
  - unfold with_settings. rewrite decide_False by done. by rewrite Hs.
  - intros s y Hin. destruct (Hw s Hin) as [Hn Hst]. change (get_attribute "name" (multi_xml dumps s)) with (gs_name s).
    change (get_attribute "state" (multi_xml dumps s)) with (gs_state s). rewrite (proj2 (String.eqb_neq _ _)) by done.
    assert ((if String.eqb (gs_state s) "" then ExtensionState.Enabled else str_lower (gs_state s)) = gs_state s) as ->.
    { rewrite !elem_of_cons in Hst. destruct Hst as [->|[->|Hst]]; [done|done|by apply elem_of_nil in Hst]. }
    rewrite (add_settings_read_back _ s); [|auto|done|done|apply Hr; set_solver].
    unfold embed_settings, level_of. by rewrite Hs.
Qed.

Definition plugin_of (x : gc_extension) : Extension :=
  mkExtension (gx_name x) (gx_version x) (gx_state x) [] (gx_location x ++ gx_failover x ++ gx_additional x) false (gx_signature x) None.

Lemma wrapped_location k l : (length l ≤ 1)%nat → "" ∉ l →
  (if String.eqb (location_attr k l).2 "" then [] else [(location_attr k l).2]) = l.
Proof.
  intros Hl Hne. destruct l as [|u [|]]; [done| |simpl in Hl; lia]. simpl. rewrite (proj2 (String.eqb_neq _ _)); [done|set_solver].
Qed.

Lemma plugin_read_back x : wf_extension x → parse_plugin (plugin_xml x) new_extension = (Ok tt, plugin_of x).
Proof.
  intros (Hst & Hl & Hf & Hne & _). unfold parse_plugin, mbind, M_bind, modify. cbv beta iota zeta.
  change (get_attribute "state" (plugin_xml x)) with (gx_state x). rewrite (proj2 (String.eqb_neq _ _)) by done.
  change (get_attribute "location" (plugin_xml x)) with (location_attr "location" (gx_location x)).2.
  change (get_attribute "failoverlocation" (plugin_xml x)) with (location_attr "failoverlocation" (gx_failover x)).2.
  rewrite !wrapped_location by set_solver.
  assert (findall (find (Some (plugin_xml x)) "additionalLocations") "additionalLocation" = leaf "additionalLocation" <$> gx_additional x) as ->
    by (unfold find, plugin_xml; xml_search; reflexivity).
  rewrite <- list_fmap_compose. unfold plugin_of. do 2 f_equal. simpl. do 2 f_equal. by rewrite list_fmap_id.
Qed.

Lemma embed_with_settings x : with_settings x (plugin_of x) = embed_extension x.
Proof.
  unfold with_settings, embed_extension, add_all, plugin_of. destruct (decide (gx_multi x = [])) as [Hm|Hm].
  - rewrite bool_decide_false; [done|]. by intros Hn.
  - by rewrite bool_decide_true.
Qed.

Lemma plugin_settings_read_back exts x :
  NoDup (str_lower ∘ gx_name <$> exts) → x ∈ exts → wf_settings x → readable x →
  parse_plugin_settings loads (settings_xml dumps <$> filter has_settings exts) (plugin_of x) = (Ok tt, embed_extension x).
Proof.
  intros Hnd Hx (Hseq & Hd & Hs) Hr. rewrite <- embed_with_settings. unfold parse_plugin_settings, mbind, M_bind, gets. cbv beta iota.
  change (eh_name (plugin_of x)) with (gx_name x). change (eh_version (plugin_of x)) with (gx_version x).
  rewrite (own_settings exts x) by done. destruct (decide (has_settings x)) as [Hhas|Hhas].
  - rewrite filter_cons, decide_True, filter_nil by done. cbv zeta. rewrite bool_decide_true by done. cbn [negb].
    destruct (findall_settings x) as (_ & -> & ->).
    destruct Hs as [(H1 & H2 & _)|[((s & H1 & Hn & Hst) & H2 & Hl)|(H1 & H2 & Hw & Hn & Hne)]].
    + unfold has_settings in Hhas. by rewrite H1, H2 in Hhas.
    + rewrite H1, H2. apply single_settings_read_back; try done. apply Hseq. rewrite H1. set_solver.
    + rewrite H1. pose proof (multi_settings_read_back x (plugin_of x)) as Hm.
      destruct (gx_multi x) as [|m ms] eqn:Em; [done|]. rewrite !fmap_cons. apply Hm; try done. intros s Hin. apply Hseq, elem_of_app. by right.
  - assert (gx_single x = [] ∧ gx_multi x = []) as [H1 H2].
    { unfold has_settings in Hhas. apply dec_stable in Hhas. by apply app_eq_nil in Hhas. }
    unfold with_settings. rewrite H1, H2. rewrite decide_True by done. unfold add_all, plugin_of. by rewrite app_nil_r.
Qed.

Lemma extension_read_back exts x :
  NoDup (str_lower ∘ gx_name <$> exts) → x ∈ exts → wf_extension x → readable x →
  parse_extension loads (settings_xml dumps <$> filter has_settings exts) (plugin_xml x) = Ok (embed_extension x).
Proof.
  intros Hnd Hx Hwf Hr. unfold parse_extension, mbind, M_bind. rewrite plugin_read_back by done.
  rewrite plugin_settings_read_back; [done..|apply Hwf|done].
Qed.

(** *** The goal state *)

Lemma for_each_lift_add {A B S} (l : list A) (f : A → res exn B) (add : B → S → S) (g : A → B) s :
  (∀ a, a ∈ l → f a = Ok (g a)) → for_each l (λ a, x ← lift (f a); modify (add x)) s = (Ok tt, foldl (λ s a, add (g a) s) s l).
Proof.
  revert s. induction l as [|a l IH]; intros s H; [done|]. simpl. unfold mbind, M_bind, lift, modify. rewrite H by set_solver.
  apply IH. set_solver.
Qed.

Lemma bind_ok {S E A B} (m : M S E A) (k : A → M S E B) s a s' r : m s = (Ok a, s') → k a s' = r → (m ≫= k) s = r.
Proof. unfold mbind, M_bind. by intros -> <-. Qed.

Lemma lift_run {S A} (r : res exn A) (s : S) a : r = Ok a → lift r s = (Ok a, s).
Proof. by intros ->. Qed.

Lemma on_config_run {S A} (m : M extensions_config exn A) c (s : S) a c' : m c = (Ok a, c') → on_config m (c, s) = (Ok a, (c', s)).
Proof. unfold on_config, zoom. simpl. by intros ->. Qed.

Lemma on_client_run {S A} (m : M S exn A) c s a s' : m s = (Ok a, s') → on_client m (c, s) = (Ok a, (c, s')).
Proof. unfold on_client, zoom. simpl. by intros ->. Qed.

Lemma for_each_modify {A S} (l : list A) (f : A → S → S) (s : S) :
  for_each (E := exn) l (λ a, modify (f a)) s = (Ok tt, foldl (λ s a, f a s) s l).
Proof. revert s. induction l as [|a l IH]; intros s; [done|]. apply IH. Qed.

Lemma foldl_families_config c l : foldl (λ c n, add_ec_family (parse_ga_family n) c) c l =
  mkExtensionsConfig (ec_incarnation c) (ec_text c) (ec_status_upload_blob_node c) (ec_status_upload_blob c) (ec_status_upload_blob_type c)
    (ec_artifacts_profile_blob_node c) (ec_required_features c) (ec_on_hold c) (ec_activity_id c) (ec_correlation_id c)
    (ec_created_on_timestamp c) (ec_agent_families c ++ (parse_ga_family <$> l)) (ec_extensions c).
Proof.
  revert c. induction l as [|n l IH]; intros c; simpl; [destruct c; by rewrite app_nil_r|]. rewrite IH. unfold add_ec_family. simpl.
  by rewrite <- app_assoc.
Qed.

Lemma foldl_extensions_config c l : foldl (λ c x, add_ec_extension (embed_extension x) c) c l =
  mkExtensionsConfig (ec_incarnation c) (ec_text c) (ec_status_upload_blob_node c) (ec_status_upload_blob c) (ec_status_upload_blob_type c)
    (ec_artifacts_profile_blob_node c) (ec_required_features c) (ec_on_hold c) (ec_activity_id c) (ec_correlation_id c)
    (ec_created_on_timestamp c) (ec_agent_families c) (ec_extensions c ++ (embed_extension <$> l)).
Proof.
  revert c. induction l as [|n l IH]; intros c; simpl; [destruct c; by rewrite app_nil_r|]. rewrite IH. unfold add_ec_extension. simpl.
  by rewrite <- app_assoc.
Qed.

Lemma config_nodes g :
  let doc := Some (config_xml dumps g) in
  findall (find doc "GAFamilies") "GAFamily" = family_xml <$> gg_families g ∧
  findall (find doc "Plugins") "Plugin" = plugin_xml <$> gg_extensions g ∧
  findall (find doc "PluginSettings") "Plugin" = settings_xml dumps <$> filter has_settings (gg_extensions g) ∧
  findall (find doc "RequiredFeatures") "RequiredFeature" = feature_xml <$> gg_features g ∧
  find doc "StatusUploadBlob" = Some (Elem "StatusUploadBlob" [("statusBlobType", (gg_blob g).2)] [Text (gg_blob g).1]) ∧
  find doc "InVMArtifactsProfileBlob" = head (leaf "InVMArtifactsProfileBlob" <$> gg_profile g) ∧
  find doc "InVMGoalStateMetaData" = Some (Elem "InVMGoalStateMetaData" [("activityId", (gg_metadata g).1.1);
    ("correlationId", (gg_metadata g).1.2); ("createdOnTicks", (gg_metadata g).2)] []).
Proof. unfold find, config_xml. split_and!; xml_search; reflexivity. Qed.

(** C13: the ExtensionsConfig that the fabric writes for a goal state is parsed into exactly that goal
    state: the families with their signatures, every extension with its locations, signature,
    settings and dependency levels, the required features, the status blob and the time of
    creation.  A family that has signatures has to name a version (otherwise the parser takes one
    of the signatures' versions). *)
Theorem extensions_config_is_read_back {S} (fetch_profile : string → M S exn (option string)) parse_doc float_text incarnation text g hold s s' :
  wf_goal g → parse_doc text = Ok (config_xml dumps g) → Forall readable (gg_extensions g) →
  fetch_extensions_on_hold loads fetch_profile (head (leaf "InVMArtifactsProfileBlob" <$> gg_profile g)) s = (Ok hold, s') →
  create_from_extensions_config parse_doc loads float_text fetch_profile incarnation text s =
  (Ok (embed_config float_text incarnation text hold g), s').
Proof.
  intros (Hf & Hx & Hnd & Hb & _) Hdoc Hr Hhold. rewrite Forall_forall in Hf. rewrite Forall_forall in Hx. rewrite Forall_forall in Hr.
  destruct (config_nodes g) as (N1 & N2 & N3 & N4 & N5 & N6 & N7).
  unfold create_from_extensions_config.
  assert (parse_extensions_config parse_doc loads float_text fetch_profile (new_extensions_config incarnation text, s) =
          (Ok tt, (embed_config float_text incarnation text hold g, s'))) as ->.
  { unfold parse_extensions_config. eapply bind_ok; [reflexivity|]. eapply bind_ok; [by apply lift_run|]. cbv zeta.
    rewrite N1, N2, N3, N4, N5, N6, N7.
    eapply bind_ok; [apply on_config_run, for_each_modify|]. rewrite foldl_families_config.
    eapply bind_ok; [apply on_config_run; rewrite for_each_fmap; apply (for_each_lift_add _ _ add_ec_extension embed_extension)|].
    { intros x Hin. apply extension_read_back; auto. }
    rewrite foldl_extensions_config. do 3 (eapply bind_ok; [reflexivity|]).
    eapply bind_ok; [by apply on_client_run|]. eapply bind_ok; [reflexivity|].
    rewrite <- !list_fmap_compose. unfold embed_config, on_config, zoom, modify, set_ec_metadata. simpl.
    do 3 f_equal. apply list_fmap_ext. intros i f Hi. simpl. apply family_read_back, Hf. by eapply list_elem_of_lookup_2. }
  unfold validate_blob_type. rewrite bool_decide_true; [done|]. simpl.
  rewrite !elem_of_cons in Hb. destruct Hb as [->|[->|Hb]]; [set_solver..|by apply elem_of_nil in Hb].
Qed.
End read_back.

(** ** A goal state *)

Definition sample_gc : gc_goal :=
  mkGcGoal [mkGcFamily "Prod" (Some "2.14.0.1") None (Some true) (Some true) [("2.14.0.1", "MIIn")] ["https://a/manifest.xml"]]
    [mkGcExtension "Acme.Single" "1.2.0" "enabled" ["https://a/s.xml"] [] ["https://b/s.xml"] "MIIB" [("", 1)]
       [mkGcSettings "Acme.Single" 3 "enabled" (JObj [("a", JInt 1)]) JNull JNull] [];
     mkGcExtension "Acme.Run" "2.0.2" "enabled" ["https://a/r.xml"] ["https://b/r.xml"] [] "" [("second", 2)] []
       [mkGcSettings "first" 4 "enabled" JNull JNull JNull; mkGcSettings "second" 5 "disabled" JNull (JStr "MIIBsAYJKoZIhvcNAQcD") (JStr "BD447EF7")];
     mkGcExtension "Acme.Bare" "1.0.0" "uninstall" [] [] [] "" [] [] []]
    ["MultipleExtensionsPerHandler"] ("https://a/status?sig=x", "BlockBlob") [] ("1", "2", "637405409304121230").

Definition sample_gc_loads (s : string) : res exn json :=
  match head (filter (λ d, json_dumps d = s) (settings_document <$> (gg_extensions sample_gc ≫= λ x, gx_single x ++ gx_multi x))) with
  | Some d => Ok d
  | None => Err (py_error ValueError "Expecting value")
  end.

Definition no_profile : string → M unit exn (option string) := λ _, raise (py_error Exception_ "not found").

Lemma sample_gc_wf : wf_goal sample_gc.
Proof.
  unfold wf_goal. split_and!.
  - repeat constructor; simpl; try done. set_solver.
  - repeat (apply Forall_cons; split); [..|constructor].
    + split_and!; simpl; [done|lia|lia|set_solver|]. split_and!; [set_solver by lia|set_solver by lia|right; left]. split_and!; [|done|simpl; lia].
      by eexists.
    + split_and!; simpl; [done|lia|lia|set_solver|]. split_and!; [set_solver by lia|set_solver by lia|right; right].
      split_and!; [done|done| |repeat constructor; set_solver|set_solver].
      intros s Hs. simpl in Hs. rewrite !elem_of_cons in Hs. destruct Hs as [->|[->|Hs]]; [split; set_solver..|by apply elem_of_nil in Hs].
    + split_and!; simpl; [done|lia|lia|set_solver|]. split_and!; [set_solver|set_solver|by left].
  - apply (bool_decide_unpack _). vm_compute. exact Logic.I.
  - set_solver.
  - simpl. lia.
Qed.

Lemma extensions_config_is_read_back_witness :
  wf_goal sample_gc ∧
  create_from_extensions_config (λ _, Ok (config_xml json_dumps sample_gc)) sample_gc_loads (λ _, None) no_profile (Some "7") "" tt =
  (Ok (embed_config (λ _, None) (Some "7") "" false sample_gc), tt).
Proof.
  split; [exact sample_gc_wf|].
  apply (extensions_config_is_read_back sample_gc_loads json_dumps no_profile (λ _, Ok (config_xml json_dumps sample_gc)) (λ _, None) (Some "7") ""
    sample_gc false tt tt); [exact sample_gc_wf|reflexivity| |reflexivity].
  repeat (apply Forall_cons; split); [..|constructor]; intros s Hs; simpl in Hs; rewrite ?elem_of_cons in Hs;
    repeat (destruct Hs as [->|Hs]; [vm_compute; reflexivity|]); by apply elem_of_nil in Hs.
Defined.
