(* ===== verification/History.v ===== *)
(** * The history of goal states (common/utils/archive.py)

    What the agent fetched is kept for diagnostics in [history], a directory per goal state
    that is zipped later.  Starting a new goal state deletes all but the 50 newest items;
    errors are only logged.  [getctime] is [os.path.getctime]; [zip] what [zipfile] makes of a
    directory. *)
From S2P Require Import Prelude PyExn FlexVersion Datetime Json Ticks World RestApi ExtInstance Samples.
From Stdlib Require Import Ascii.
Import Re.

Definition MAX_ARCHIVED_STATES : nat := 50.
Definition PLACEHOLDER_FILE_NAME : string := "GoalState.1.xml".

(** ** The names *)

(** [\d{n}] and [.*] *)
Fixpoint digits_n (n : nat) : matcher :=
  match n with
  | O => λ s, [("", s)]
  | S n' => λ s, match s with
                 | String c s' => if is_digit c then prod_map (String c) id <$> digits_n n' s' else []
                 | EmptyString => []
                 end
  end.
Fixpoint any_star (s : string) : list (string * string) :=
  match s with
  | EmptyString => [("", "")]
  | String c s' => (if Ascii.eqb c "010" then [] else prod_map (String c) id <$> any_star s') ++ [("", s)]
  end.
Definition opt (m : matcher) : matcher := alt [m; lit ""].

(** [_ARCHIVE_BASE_PATTERN] *)
Definition archive_base : matcher := λ s,
  let colon := alt [lit ":"; lit "-"] in
  foldr seq (lit "")
    [digits_n 4; lit "-"; digits_n 2; lit "-"; digits_n 2; lit "T"; digits_n 2; colon; digits_n 2; colon; digits_n 2;
     opt (seq (lit ".") digits_plus);
     opt (foldr seq (lit "") [opt (lit "_incarnation"); seq (lit "_") (star (String.length s) (lit "_")); alt [digits_plus; lit "status"];
                              opt (seq (lit "-") digits_plus)])] s.

Definition full_match (m : matcher) (s : string) : bool := existsb (λ '(_, r), at_end r) (m s).
(** [re.IGNORECASE]: the pattern is in lower case *)
Definition full_match_ci (m : matcher) (s : string) : bool := full_match m (str_lower s).

Definition is_archive_directory (name : string) : bool := full_match archive_base name.
Definition is_archive_zip (name : string) : bool := full_match (seq archive_base (lit ".zip")) name.

(** [_CACHE_PATTERNS] *)
Definition numbered (suffix : string) : matcher := foldr seq (lit "") [any_star; lit "."; digits_plus; lit suffix].
Definition is_cache_file (name : string) : bool :=
  full_match (foldr seq (lit "") [lit "VmSettings."; digits_plus; lit ".json"]) name ||
  full_match_ci (numbered ".agentsmanifest") name || full_match_ci (numbered ".manifest.xml") name ||
  full_match_ci (numbered ".xml") name || full_match_ci (lit "hostingenvironmentconfig.xml") name ||
  full_match_ci (lit "remoteaccess.xml") name ||
  full_match (foldr seq (lit "") [lit "waagent_status."; digits_plus; lit ".json"]) name.

Example archive_names :
  is_archive_directory <$> ["2018-04-06T08:21:37.142697"; "2018-04-06T08:21:37.142697_incarnation_12"; "2018-04-06T08-21-37__12-34";
                            "2018-04-06T08-21-37__status"; "2018-04-06T08-21-37__x"; "history"] = [true; true; true; true; false; false] ∧
  is_archive_zip "2018-04-06T08-21-37__12-34.zip" = true ∧
  is_cache_file <$> ["VmSettings.12.json"; "GoalState.7.XML"; "A.b.manifest.xml"; "SharedConfig.xml"] = [true; true; false; false].
Proof. vm_compute. auto. Qed.

Section history.
Context (E : env) (getctime : path → fs → Z) (zip : path → fs → content).

Definition history_root : path := lib_dir E ++ ["history"].

(** *** [GoalStateHistory] *)

(** [_create_timestamp]: [strftime('%Y-%m-%dT%H-%M-%S')] *)
Definition create_timestamp (t : datetime) : string :=
  fixed 4 (dt_year t) +:+ "-" +:+ fixed 2 (dt_month t) +:+ "-" +:+ fixed 2 (dt_day t) +:+ "T" +:+
  fixed 2 (dt_hour t) +:+ "-" +:+ fixed 2 (dt_minute t) +:+ "-" +:+ fixed 2 (dt_second t).

Definition history_dir (t : datetime) (tag : option string) : path :=
  history_root ++ [match tag with Some g => create_timestamp t +:+ "__" +:+ g | None => create_timestamp t end].

(** The items, the newest first ([reverse=True] keeps the order of items of the same age) *)
Definition newest_first (items : list path) (f : fs) : list path := sort_by_key (λ p, - getctime p f) items.

Definition remove_item (p : path) : M world exn unit :=
  file ← gets (λ w, isfile p (w_fs w));
  if (file : bool) then remove_file (write_fault E) p else rmtree (write_fault E) p.

(** [_purge] *)
Definition purge_history : M world exn unit :=
  except Exception_
    (present ← gets (λ w, exists_path history_root (w_fs w));
     when present
       (items ← gets (λ w, newest_first ((λ x, history_root ++ [x]) <$> listdir history_root (w_fs w)) (w_fs w));
        for_each (drop MAX_ARCHIVED_STATES items) remove_item))
    (λ _, mret tt).

(** The constructor: the directory is created by the first [save]. *)
Definition new_history (t : datetime) (tag : option string) : M world exn path :=
  purge_history ;; mret (history_dir t tag).

(** [tag_exists]: the pattern is ["*_" + tag], and tags have no wildcards. *)
Definition tag_exists (tag : string) (f : fs) : bool :=
  existsb (λ x, negb (starts_with "." x) && ends_with ("_" +:+ tag) x) (listdir history_root f).

(** [save] *)
Definition save (root : path) (data file_name : string) : M world exn unit :=
  except Exception_
    (write_in (write_fault E) root file_name (plain data))
    (λ _, mret tt).

(** [_save_placeholder], [save_goal_state] *)
Definition save_placeholder : M world exn unit :=
  except Exception_
    (write_file (write_fault E) (lib_dir E ++ [PLACEHOLDER_FILE_NAME]) (plain "<xml>empty placeholder file</xml>"))
    (λ _, mret tt).
Definition save_goal_state (root : path) (text : string) : M world exn unit := save root text "GoalState.xml" ;; save_placeholder.

(** *** [StateArchiver] *)

(** [_get_archive_states] *)
Definition get_archive_states (f : fs) : list path :=
  newest_first ((λ x, history_root ++ [x]) <$>
                filter (λ x, is_archive_directory x || is_archive_zip x = true) (listdir history_root f)) f.

(** [StateDirectory.archive]; a [StateZip] is left alone. *)
Definition with_suffix (suffix : string) (p : path) : path :=
  match last p with Some x => parent_dir p ++ [x +:+ suffix] | None => p end.

Definition archive_directory (p : path) : M world exn unit :=
  z ← gets (λ w, zip p (w_fs w));
  write_file (write_fault E) (with_suffix ".zip.tmp" p) z ;;
  rename (write_fault E) (with_suffix ".zip.tmp" p) (with_suffix ".zip" p) ;;
  rmtree (write_fault E) p.

Definition archive_state (p : path) : M world exn unit :=
  if is_archive_zip (default "" (last p)) then mret tt else archive_directory p.

(** [archive]: the most recent state may still be in use. *)
Definition archive : M world exn unit :=
  states ← gets (λ w, get_archive_states (w_fs w));
  for_each (drop 1 states) archive_state.

(** The constructor and [_archive_goal_state_history] (ga/update.py) *)
Definition archive_goal_state_history : M world exn unit :=
  except Exception_
    (present ← gets (λ w, isdir history_root (w_fs w));
     when (negb present) (except OSError (mkdir (write_fault E) history_root) (λ _, mret tt)) ;;
     archive)
    (λ _, mret tt).

(** [purge_legacy_goal_state_history], [_cleanup_legacy_goal_state_history] *)
Definition purge_legacy_goal_state_history : M world exn unit :=
  files ← gets (λ w, listdir (lib_dir E) (w_fs w));
  for_each files (λ x,
    when (negb (String.eqb x PLACEHOLDER_FILE_NAME) && is_cache_file x)
      (except Exception_ (remove_file (write_fault E) (lib_dir E ++ [x])) (λ _, mret tt))).
End history.

(** ** The history is bounded *)

Section bounded.
Context (E : env) (getctime : path → fs → Z) (Hfault : ∀ p, write_fault E p = None).
Notation H := (history_root E).

(** [w1] is [w] without the items [done]. *)
Definition removed (done : list path) (w w1 : world) : Prop :=
  (∀ p, p ∈ done → w_fs w1 !! p = None) ∧
  (∀ p, w_fs w1 !! p = w_fs w !! p ∨ w_fs w1 !! p = None ∧ ∃ q, q ∈ done ∧ q `prefix_of` p).

Lemma remove_item_spec p w : is_Some (w_fs w !! p) →
  wp (remove_item E p) (λ _ w1, removed [p] w w1) (λ _ _, False) w.
Proof.
  intros [n Hn]. unfold remove_item. wp_step. wp_step. unfold wp, isfile. rewrite Hn. destruct n as [|c t].
  - unfold rmtree, isdir. rewrite Hn, Hfault. split.
    + intros q ->%list_elem_of_singleton. cbn [w_fs with_fs]. unfold remove_tree. apply map_lookup_filter_None. right.
      intros x _ Hnp. by apply Hnp.
    + intros q. cbn [w_fs with_fs]. unfold remove_tree. destruct (decide (p `prefix_of` q)).
      * right. split; [|exists p; set_solver]. apply map_lookup_filter_None. right. intros x _ Hnp. by apply Hnp.
      * left. destruct (w_fs w !! q) as [x|] eqn:Hq; [by apply map_lookup_filter_Some|]. apply map_lookup_filter_None. by left.
  - unfold remove_file, isfile. rewrite Hn, Hfault. split.
    + intros q ->%list_elem_of_singleton. apply lookup_delete_eq.
    + intros q. cbn [w_fs with_fs]. destruct (decide (q = p)) as [->|]; [|left; by apply lookup_delete_ne].
      right. split; [apply lookup_delete_eq|]. exists p. set_solver.
Qed.

Lemma removed_trans d1 d2 w w1 w2 : removed d1 w w1 → removed d2 w1 w2 → removed (d1 ++ d2) w w2.
Proof.
  intros [A1 B1] [A2 B2]. split.
  - intros p [Hp|Hp]%elem_of_app; [|by apply A2]. destruct (B2 p) as [->|[-> _]]; [by apply A1|done].
  - intros p. destruct (B2 p) as [->|[-> (q & Hq & Hp)]]; [|right; split; [done|exists q; set_solver]].
    destruct (B1 p) as [->|[-> (q & Hq & Hp)]]; [by left|right]. split; [done|]. exists q. set_solver.
Qed.

Lemma item_prefix (x y : string) : (H ++ [x]) `prefix_of` (H ++ [y]) → x = y.
Proof. intros Hp%prefix_app_inv. by apply prefix_cons_inv_1 in Hp. Qed.

Lemma remove_items_spec items w :
  NoDup items → (∀ p, p ∈ items → ∃ x, p = H ++ [x] ∧ is_Some (w_fs w !! p)) →
  wp (for_each items (remove_item E)) (λ _ w1, removed items w w1) (λ _ _, False) w.
Proof.
  intros Hnd Hi. apply (wp_for_each items (remove_item E) (λ done w1, removed done w w1)); [split; [set_solver|by left]| |done].
  intros done p rest w1 Heq Hr. subst items.
  destruct (Hi p ltac:(set_solver)) as (x & -> & Hx).
  assert (w_fs w1 !! (H ++ [x]) = w_fs w !! (H ++ [x])) as Hsame.
  { destruct (proj2 Hr (H ++ [x])) as [->|[_ (q & Hq & Hp)]]; [done|]. exfalso.
    destruct (Hi q ltac:(set_solver)) as (y & -> & _). apply item_prefix in Hp as ->.
    apply NoDup_app in Hnd as (_ & Hd & _). by eapply Hd; [exact Hq|left]. }
  eapply wp_mono; [apply remove_item_spec; by rewrite Hsame| |done].
  intros [] w2 H2. by apply (removed_trans done [H ++ [x]] w w1 w2).
Qed.

Lemma newest_first_spec items f :
  newest_first getctime items f ≡ₚ items ∧
  ∀ n a b, a ∈ take n (newest_first getctime items f) → b ∈ drop n (newest_first getctime items f) → getctime b f ≤ getctime a f.
Proof.
  destruct (sort_by_key_spec (λ p, - getctime p f) items) as (Hp & Hs & _). split; [done|].
  intros n a b Ha Hb. fold (newest_first getctime items f) in Hs. rewrite <- (take_drop n (newest_first _ _ _)) in Hs.
  revert Hs Ha. induction (take n _) as [|c l IH]; intros Hs Ha; [set_solver|].
  inversion Hs as [|?? Hs' Hall]; subst. apply elem_of_cons in Ha as [->|Ha]; [|auto].
  rewrite Forall_forall in Hall. specialize (Hall b ltac:(set_solver)). lia.
Qed.

Definition items_of (w : world) : list path := newest_first getctime ((λ x, H ++ [x]) <$> listdir H (w_fs w)) (w_fs w).

Lemma items_of_spec w p : p ∈ items_of w ↔ ∃ x, p = H ++ [x] ∧ x ∈ listdir H (w_fs w).
Proof. unfold items_of. rewrite (proj1 (newest_first_spec _ _)). apply list_elem_of_fmap. Qed.

Lemma NoDup_items w : NoDup (items_of w).
Proof.
  unfold items_of. rewrite (proj1 (newest_first_spec _ _)). apply NoDup_fmap; [|apply NoDup_listdir].
  intros x y Heq. by simplify_eq.
Qed.

Lemma items_split n w : NoDup (drop n (items_of w)) ∧ ∀ p, p ∈ take n (items_of w) → p ∉ drop n (items_of w).
Proof.
  pose proof (NoDup_items w) as Hnd. rewrite <- (take_drop n (items_of w)) in Hnd.
  by apply NoDup_app in Hnd as (_ & Hd & Hn).
Qed.

Lemma elem_of_drop {A} n (x : A) l : x ∈ drop n l → x ∈ l.
Proof. rewrite <- (take_drop n l) at 2. set_solver. Qed.

Lemma purge_history_spec w :
  wp (purge_history E getctime)
    (λ _ w1, w1 = w ∧ exists_path H (w_fs w) = false ∨ removed (drop MAX_ARCHIVED_STATES (items_of w)) w w1) (λ _ _, False) w.
Proof.
  unfold purge_history. apply wp_except. wp_step. wp_step. apply wp_when; [|by auto]. intros _. wp_step. wp_step.
  eapply wp_mono; [apply remove_items_spec|by right|done].
  - apply items_split.
  - intros p (x & -> & Hx)%elem_of_drop%items_of_spec. exists x. split; [done|]. by apply listdir_inv.
Qed.

End bounded.

(** 51 goal states, created one after the other *)
Definition sample_history : world :=
  mkWorld (list_to_map ((history_root sample_env, Dir) ::
             ((λ n, (history_root sample_env ++ ["2024-01-01T00-00-00__" +:+ pretty (Z.of_nat n)], Dir)) <$> List.seq 0 51))) 0 [] false.
Definition sample_ctime (p : path) (_ : fs) : Z :=
  match last p with Some x => default 0 (int_of_digits <$> strip_prefix "2024-01-01T00-00-00__" x) | None => 0 end.


(** The oldest one is removed. *)
Example oldest_is_removed :
  bool_decide ("2024-01-01T00-00-00__0" ∈ listdir (history_root sample_env) (w_fs (purge_history sample_env sample_ctime sample_history).2)) = false.
Proof. vm_compute. reflexivity. Qed.
