(* ===== verification/Firewall.v ===== *)
(** * The firewall (ga/firewall_manager.py)

    Three rules protect the address of the wire server: DNS is accepted for everybody, the agent's own
    traffic is accepted, and other new connections are dropped.  [IpTables] and [FirewallCmd] handle the
    rules one by one, [NfTables] has a table of its own.  The tools run as commands of [Shell.v], what
    they do is its parameter [popen].

    [uid] is [os.getuid()], [loads] is [json.loads].  Log output and events are omitted, and with them
    the verbose mode, which logs the commands. *)
From S2P Require Import Prelude PyExn FlexVersion Datetime Json Urls TextUtil World History Shell.
From Stdlib Require Import Ascii.
Import Re.

(** The friendly names of the rules *)
Inductive rule_name := ACCEPT_DNS | ACCEPT | DROP.
Definition rule_text (r : rule_name) : string :=
  match r with ACCEPT_DNS => "ACCEPT DNS" | ACCEPT => "ACCEPT" | DROP => "DROP" end.
(** [_firewall_commands]: the order of the rules *)
Definition firewall_rules : list rule_name := [ACCEPT_DNS; ACCEPT; DROP].

(** The classes of managers; [IpTables] has a [_base_command]. *)
Inductive manager_class := IpTables_ (base_command : list string) | FirewallCmd_ | NfTables_.

Definition not_available (tool : string) : exn := py_error FirewallManagerNotAvailableError (tool +:+ " is not available").
(** [str] of a list of names *)
Definition list_text (l : list string) : string := "[" +:+ str_join ", " ((λ s, "'" +:+ s +:+ "'") <$> l) +:+ "]".
Definition names_text (l : list rule_name) : string := list_text (rule_text <$> l).
(** The first argument of the errors is [missing_rules]. *)
Definition rules_missing (l : list rule_name) : exn :=
  mkExn FirewallRulesMissingError ("The following rules are missing: " +:+ names_text l) (-1) (-1) (rule_text <$> l).
Definition iptables_inconsistency (l : list rule_name) (output_chain : string) : exn :=
  mkExn IptablesInconsistencyError
    ("Inconsistent results from iptables: -C reports that some rules are missing (" +:+ names_text l +:+
     "), but -L shows some of them exist:" +:+ String "010" output_chain) (-1) (-1) (rule_text <$> l).
Definition firewall_state_error (msg : string) : exn := py_error FirewallStateError msg.

Section firewall.
Context {K : Type} (popen : list string → option string → K → process * K).
Context (loads : string → res exn json) (uid : Z) (wire_server_address : string).
Notation SH X := (M (shell K) exn X).
Notation run_command c := (Shell.run_command popen c None).

Definition is_enoent (e : exn) : bool := isinstance e OSError && (e_code e =? ENOENT).

(** The interface of the managers: [FirewallManager] *)
Record FirewallManager := mkManager {
  fm_class : manager_class;
  fm_setup : SH unit;
  fm_remove : SH unit;
  fm_remove_legacy_rule : SH unit;
  fm_check : SH bool;
  fm_state_command : list string
}.

(** [get_state] *)
Definition get_state (m : FirewallManager) : SH string :=
  except Exception_ (run_command (fm_state_command m))
    (λ e, mret ("Failed to get the current state of the firewall rules: " +:+ e_msg e)).

(** ** Managers of individual rules: [_FirewallManagerIndividualRules] *)

Record individual := mkIndividual {
  in_append : string; in_check : string; in_delete : string;
  in_command : rule_name → string → list string;
  in_legacy_command : string → list string;
  in_delete_rule : list string → SH unit
}.

(** [_rule_exists] *)
Definition rule_exists (check_command : list string) : SH bool :=
  except CommandError (run_command check_command ;; mret true)
    (λ e, if returncode e =? 1 then mret false else raise e).

Definition individual_setup (m : individual) : SH unit :=
  for_each firewall_rules (λ r, run_command (in_command m r (in_append m)) ;; mret tt).

Definition remove_rule (m : individual) (command : string → list string) : SH unit :=
  b ← rule_exists (command (in_check m)); when b (in_delete_rule m (command (in_delete m))).
Definition individual_remove (m : individual) : SH unit := for_each firewall_rules (λ r, remove_rule m (in_command m r)).
Definition individual_remove_legacy_rule (m : individual) : SH unit := remove_rule m (in_legacy_command m).

(** The rules that are missing and those that exist *)
Fixpoint check_rules (m : individual) (l : list rule_name) : SH (list rule_name * list rule_name) :=
  match l with
  | [] => mret ([], [])
  | r :: l' =>
      b ← rule_exists (in_command m r (in_check m));
      '(missing, existing) ← check_rules m l';
      mret (if (b : bool) then (missing, r :: existing) else (r :: missing, existing))
  end.
Definition individual_check (m : individual) : SH bool :=
  '(missing_rules, existing_rules) ← check_rules m firewall_rules;
  if bool_decide (missing_rules = []) then mret true
  else if bool_decide (existing_rules = []) then mret false
  else raise (rules_missing missing_rules).

(** ** [IpTables] *)

Definition is_version_char (c : ascii) : bool := is_digit c || Ascii.eqb c ".".
(** [re.match(r"^[^\d.]*([\d.]+).*$", output).group(1)] *)
Definition find_version (output : string) : option string :=
  let r := (span (λ c, negb (is_version_char c)) output).2 in
  let '(v, rest) := span is_version_char r in
  if negb (String.eqb v "") && full_match any_star rest then Some v else None.

Definition uses_wait_option (output : string) : res exn bool :=
  match find_version output with
  | None => Err (py_error Exception_ ("output of --version: " +:+ output))
  | Some v => version ← FV v; minimum ← FV "1.4.21"; fv_ge version minimum
  end.

(** [IpTables.__init__]: the base of the commands *)
Definition new_iptables : SH (list string) :=
  use_wait_option ←
    except Exception_ (output ← run_command ["iptables"; "--version"]; lift (uses_wait_option output))
      (λ e, if is_enoent e then raise (not_available "iptables") else mret false);
  mret (if (use_wait_option : bool) then ["iptables"; "-w"; "-t"; "security"] else ["iptables"; "-t"; "security"]).

(** The specification of a rule, after the name of its chain *)
Definition iptables_spec (r : rule_name) : list string :=
  match r with
  | ACCEPT_DNS => ["-d"; wire_server_address; "-p"; "tcp"; "--destination-port"; "53"; "-j"; "ACCEPT"]
  | ACCEPT => ["-d"; wire_server_address; "-p"; "tcp"; "-m"; "owner"; "--uid-owner"; pretty uid; "-j"; "ACCEPT"]
  | DROP => ["-d"; wire_server_address; "-p"; "tcp"; "-m"; "conntrack"; "--ctstate"; "INVALID,NEW"; "-j"; "DROP"]
  end.
Definition iptables_legacy_spec : list string :=
  ["-d"; wire_server_address; "-p"; "tcp"; "-m"; "conntrack"; "--ctstate"; "INVALID,NEW"; "-j"; "ACCEPT"].
Definition iptables_command (base spec : list string) (command_option : string) : list string :=
  base ++ [command_option; "OUTPUT"] ++ spec.

(** [_delete_rule]: [n] attempts are left *)
Fixpoint delete_loop (n : nat) (command : list string) : SH unit :=
  match n with
  | O => mret tt
  | S n' =>
      more ← except CommandError (run_command command ;; mret true)
               (λ e, if returncode e =? 1 then mret false
                     else if returncode e =? 2 then raise (py_error Exception_ ("Invalid firewall deletion command '" +:+ list_text command +:+ "'"))
                     else mret true);
      if (more : bool) then delete_loop n' command else mret tt
  end.
Definition iptables_delete_rule (command : list string) : SH unit := delete_loop 99 command.

Definition iptables_rules (base : list string) : individual :=
  mkIndividual "-A" "-C" "-D" (λ r, iptables_command base (iptables_spec r)) (iptables_command base iptables_legacy_spec) iptables_delete_rule.

(** [_ip_tables_rule_regex]: [re.search] in the output of [iptables -L] *)
Definition one_space : matcher := λ s, match s with String c s' => if is_py_space c then [(String c "", s')] else [] | _ => [] end.
Fixpoint spaces_star (s : string) : list (string * string) :=
  match s with
  | EmptyString => [("", "")]
  | String c s' => (if is_py_space c then prod_map (String c) id <$> spaces_star s' else []) ++ [("", s)]
  end.
Definition spaces : matcher := seq one_space spaces_star.
Definition one_char : matcher := λ s, match s with String c s' => if Ascii.eqb c "010" then [] else [(String c "", s')] | _ => [] end.
Definition rule_regex (target detail : string) : matcher :=
  foldr seq (lit "")
    [one_space; lit target; spaces; lit "tcp"; spaces; one_char; any_star; one_space; lit wire_server_address; spaces; lit detail].
Definition ip_tables_rule_regex : list (string * matcher) :=
  [(rule_text ACCEPT_DNS, rule_regex "ACCEPT" "tcp dpt:53"); (rule_text ACCEPT, rule_regex "ACCEPT" "owner UID match 0");
   (rule_text DROP, rule_regex "DROP" "ctstate INVALID,NEW")].
Fixpoint search (m : matcher) (s : string) : bool :=
  negb (bool_decide (m s = [])) || match s with EmptyString => false | String _ s' => search m s' end.
Definition is_listed (output_chain rule : string) : bool :=
  match dict_get rule ip_tables_rule_regex with Some m => search m output_chain | None => false end.

Definition rule_of_text (t : string) : option rule_name := List.find (λ r, String.eqb (rule_text r) t) firewall_rules.

(** [IpTables.check] *)
Definition iptables_check (base : list string) : SH bool :=
  except FirewallRulesMissingError (individual_check (iptables_rules base))
    (λ e, output_chain ← run_command (base ++ ["-L"; "OUTPUT"; "-nxv"]);
          if existsb (is_listed output_chain) (e_args e) then raise (iptables_inconsistency (omap rule_of_text (e_args e)) output_chain)
          else raise e).

Definition IpTables (base : list string) : FirewallManager :=
  mkManager (IpTables_ base) (individual_setup (iptables_rules base)) (individual_remove (iptables_rules base))
    (individual_remove_legacy_rule (iptables_rules base)) (iptables_check base) (base ++ ["-L"; "-nxv"]).

(** [get_unresolved_modules] *)
Fixpoint unresolved_among (l : list string) : SH (list string) :=
  match l with
  | [] => mret []
  | x :: l' =>
      resolved ← except Exception_ (run_command ["modinfo"; x] ;; mret true) (λ e, mret (negb (isinstance e CommandError)));
      rest ← unresolved_among l';
      mret (if (resolved : bool) then rest else x :: rest)
  end.
Definition get_unresolved_modules : SH (list string) :=
  available ← except Exception_ (run_command ["modinfo"; "--version"] ;; mret true) (λ _, mret false);
  if (available : bool) then unresolved_among ["xt_owner"; "xt_conntrack"] else mret [].

(** [load_conntrack] *)
Definition load_conntrack (base : list string) : SH string :=
  let command := iptables_command base (iptables_spec DROP) "-C" in
  except CommandError (out ← run_command command; mret (list_text command +:+ ": " +:+ out)) (λ e, mret (e_msg e)).

(** ** [FirewallCmd] *)

(** The constructors of [FirewallCmd] and [NfTables]: whether the tool exists *)
Definition require_tool (tool : string) : SH unit :=
  except Exception_ (run_command [tool; "--version"] ;; mret tt) (λ e, if is_enoent e then raise (not_available tool) else mret tt).

Definition firewallcmd_command (position : string) (spec : list string) (command_option : string) : list string :=
  ["firewall-cmd"; "--permanent"; "--direct"; command_option; "ipv4"; "-t"; "security"; position; "OUTPUT"] ++ spec.
Definition firewallcmd_rules : individual :=
  mkIndividual "--passthrough" "--query-passthrough" "--remove-passthrough"
    (λ r, firewallcmd_command "-A" (iptables_spec r)) (firewallcmd_command "-I" (iptables_spec ACCEPT_DNS))
    (λ command, run_command command ;; mret tt).
Definition FirewallCmd : FirewallManager :=
  mkManager FirewallCmd_ (individual_setup firewallcmd_rules) (individual_remove firewallcmd_rules)
    (individual_remove_legacy_rule firewallcmd_rules) (individual_check firewallcmd_rules)
    ["firewall-cmd"; "--permanent"; "--direct"; "--get-all-passthroughs"].
Definition new_firewallcmd : SH FirewallManager := require_tool "firewall-cmd" ;; mret FirewallCmd.

(** ** [NfTables] *)

Definition nft_input : string :=
  "
            add table ip walinuxagent
            add chain ip walinuxagent output { type filter hook output priority 0 ; policy accept ; }
            add rule ip walinuxagent output ip daddr " +:+ wire_server_address +:+ " tcp dport != 53 skuid != " +:+ pretty uid +:+
  " ct state invalid,new counter drop
        ".
Definition nft_setup : SH unit := Shell.run_command popen ["nft"; "-f"; "-"] (Some nft_input) ;; mret tt.
Definition nft_remove : SH unit := run_command ["nft"; "delete"; "table"; "walinuxagent"] ;; mret tt.

(** [[i[k] for i in output["nftables"] if i.get(k) is not None]] *)
Fixpoint items_with (k : string) (l : list json) : res exn (list json) :=
  match l with
  | [] => Ok []
  | i :: l' => v ← json_get k i; rest ← items_with k l'; Ok (if is_null v then rest else v :: rest)
  end.
Definition nftables_items (k : string) (output_text : string) : res exn (list json) :=
  output ← loads output_text; items ← json_getitem "nftables" output; l ← py_list items; items_with k l.

(** [all(t["name"] != "walinuxagent" for t in tables)] *)
Fixpoint no_agent_table (tables : list json) : res exn bool :=
  match tables with
  | [] => Ok true
  | t :: tables' => name ← json_getitem "name" t; if json_eqb name (JStr "walinuxagent") then Ok false else no_agent_table tables'
  end.

(** Whether the rule is one of the chain [output] of the agent's table; [and] stops at the first test
    that fails. *)
Fixpoint has_fields (fields : list (string * string)) (r : json) : res exn bool :=
  match fields with
  | [] => Ok true
  | (k, v) :: fields' => x ← json_getitem k r; if json_eqb x (JStr v) then has_fields fields' r else Ok false
  end.
Definition jmatch (op : string) (left right : json) : json := JObj [("match", JObj [("op", JStr op); ("left", left); ("right", right)])].
Definition jpayload (protocol field : string) : json := JObj [("payload", JObj [("protocol", JStr protocol); ("field", JStr field)])].
Definition required_exprs : list (json * string) :=
  [(jmatch "==" (jpayload "ip" "daddr") (JStr wire_server_address), "No expression matches the WireServer address");
   (jmatch "!=" (jpayload "tcp" "dport") (JInt 53), "No expression excludes the DNS port");
   (jmatch "!=" (JObj [("meta", JObj [("key", JStr "skuid")])]) (JInt uid), "No expression excludes the Agent's UID");
   (JObj [("drop", JNull)], "The drop action is missing")].

Definition rule_errors (rules : list json) : res exn (list string) :=
  match rules with
  | [r] =>
      ours ← has_fields [("table", "walinuxagent"); ("family", "ip"); ("chain", "output")] r;
      if (ours : bool) then
        expr ← json_getitem "expr" r;
        exprs ← py_list expr;
        Ok (snd <$> filter (λ x, existsb (json_eqb x.1) exprs = false) required_exprs)
      else Err (firewall_state_error "Cannot find any rules for the 'output' chain")
  | _ => Err (firewall_state_error "There should be exactly one rule in the 'output' chain")
  end.

(** [except FirewallStateError: raise], [except Exception: raise Exception("Can't parse ...")] *)
Definition cannot_parse {A} (command output_text : string) (r : res exn A) : res exn A :=
  match r with
  | Err e => Err (if isinstance e FirewallStateError || negb (isinstance e Exception_) then e
                  else py_error Exception_ ("Can't parse the output of '" +:+ command +:+ "'" +:+ String "010" output_text +:+
                                            String "010" "ERROR: " +:+ e_msg e))
  | Ok a => Ok a
  end.

(** [NfTables.check] *)
Definition nft_check : SH bool :=
  output_text ← run_command ["nft"; "--json"; "list"; "tables"];
  absent ← lift (cannot_parse "nft list tables" output_text (tables ← nftables_items "table" output_text; no_agent_table tables));
  if (absent : bool) then mret false
  else
    output_text ← run_command ["nft"; "--json"; "list"; "table"; "walinuxagent"];
    errors ← lift (cannot_parse "nft list table walinuxagent" output_text (rules ← nftables_items "rule" output_text; rule_errors rules));
    if bool_decide (errors = []) then mret true else raise (firewall_state_error (list_text errors)).

Definition NfTables : FirewallManager :=
  mkManager NfTables_ nft_setup nft_remove (mret tt) nft_check ["nft"; "list"; "table"; "walinuxagent"].
Definition new_nftables : SH FirewallManager := require_tool "nft" ;; mret NfTables.

(** ** [FirewallManager.create] *)

Definition fall_back_to_nft (base : list string) : SH FirewallManager :=
  except FirewallManagerNotAvailableError
    (m ← new_nftables; except Exception_ (fm_remove (IpTables base)) (λ _, mret tt) ;; mret m)
    (λ _, mret (IpTables base)).
Definition create : SH FirewallManager :=
  except FirewallManagerNotAvailableError
    (base ← new_iptables;
     unresolved_modules ← get_unresolved_modules;
     if bool_decide (unresolved_modules = []) then mret (IpTables base) else fall_back_to_nft base)
    (λ _, except FirewallManagerNotAvailableError new_nftables
            (λ _, raise (py_error FirewallManagerNotAvailableError
                           "Cannot create a firewall manager; no known command-line tools are available"))).
End firewall.

(** ** What [iptables] promises

    [chain k] are the rules of the chain OUTPUT, each as its specification.  [-A] appends a rule, [-C]
    exits with 0 or 1 depending on whether there is such a rule, [-D] deletes the first one or exits
    with 1, [-L] lists them.  Any command may fail in another way, if [faults] holds; then it changed
    nothing. *)

Fixpoint delete_first (r : list string) (l : list (list string)) : list (list string) :=
  match l with [] => [] | x :: l' => if bool_decide (r = x) then l' else x :: delete_first r l' end.

Class Iptables {K} (popen : list string → option string → K → process * K) (wire_server_address : string) (uid : Z) (base : list string)
    (chain : K → list (list string)) (faults : Prop) : Prop := {
  ipt_errors : builtin_errors popen;
  ipt_append r k : match popen (iptables_command base r "-A") None k with
                   | (Started _ (Exited 0 _ _), k') => chain k' = chain k ++ [r]
                   | (_, k') => chain k' = chain k ∧ faults
                   end;
  ipt_check r k : match popen (iptables_command base r "-C") None k with
                  | (Started _ (Exited rc _ _), k') =>
                      chain k' = chain k ∧ (rc = 0 ∧ r ∈ chain k ∨ rc = 1 ∧ r ∉ chain k ∨ rc ≠ 0 ∧ rc ≠ 1 ∧ faults)
                  | (_, k') => chain k' = chain k ∧ faults
                  end;
  ipt_delete r k : match popen (iptables_command base r "-D") None k with
                   | (Started _ (Exited rc _ _), k') =>
                       rc = 0 ∧ r ∈ chain k ∧ chain k' = delete_first r (chain k) ∨
                       chain k' = chain k ∧ (rc = 1 ∧ r ∉ chain k ∨ rc ≠ 0 ∧ rc ≠ 1 ∧ faults)
                   | (_, k') => chain k' = chain k ∧ faults
                   end;
  ipt_list args k : match popen (base ++ "-L" :: args) None k with
                    | (Started _ (Exited rc out _), k') =>
                        chain k' = chain k ∧
                        (faults ∨ rc = 0 ∧ ∀ r, iptables_spec uid wire_server_address r ∉ chain k →
                                                is_listed wire_server_address out (rule_text r) = false)
                    | (_, k') => chain k' = chain k ∧ faults
                    end
}.

(** *** Lists of rules *)

Definition without (r : list string) (l : list (list string)) : list (list string) := filter (λ x, x ≠ r) l.
Definition copies (r : list string) (l : list (list string)) : nat := length (filter (λ x, x = r) l).

Lemma delete_first_without r l : without r (delete_first r l) = without r l.
Proof.
  induction l as [|x l IH]; [done|]. unfold without in *. simpl. case_bool_decide as H.
  - subst x. rewrite filter_cons_False by naive_solver. done.
  - rewrite !filter_cons_True by congruence. by rewrite IH.
Qed.

Lemma delete_first_copies r l : r ∈ l → copies r l = S (copies r (delete_first r l)).
Proof.
  induction l as [|x l IH]; [by intros ?%elem_of_nil|]. unfold copies in *. rewrite elem_of_cons. simpl. case_bool_decide as H; intros Hr.
  - subst x. by rewrite filter_cons_True.
  - rewrite !filter_cons_False by congruence. apply IH. by destruct Hr.
Qed.

Lemma copies_none r l : copies r l = 0%nat → r ∉ l.
Proof.
  unfold copies. intros H%length_zero_iff_nil Hr. apply (elem_of_nil r). rewrite <-H. by apply list_elem_of_filter.
Qed.

Section specs.
Context (uid : Z) (wire_server_address : string).
Notation spec := (iptables_spec uid wire_server_address).
Notation specs := (spec <$> firewall_rules).
Definition others (l : list (list string)) : list (list string) := filter (λ x, x ∉ specs) l.

Lemma spec_inj r r' : spec r = spec r' → r = r'.
Proof. by destruct r, r'. Qed.
Lemma in_firewall_rules r : r ∈ firewall_rules.
Proof. destruct r; set_solver. Qed.
Lemma in_specs r : spec r ∈ specs.
Proof. apply list_elem_of_fmap. eauto using in_firewall_rules. Qed.

Lemma others_without r l l' : without (spec r) l' = without (spec r) l → others l' = others l.
Proof.
  intros H. assert (∀ k, others k = others (without (spec r) k)) as Ho.
  { intros k. unfold others, without. rewrite list_filter_filter. apply list_filter_iff. intros x. split; [|tauto].
    intros Hx. split; [done|]. intros ->. by destruct Hx; apply in_specs. }
  by rewrite (Ho l'), H, <-Ho.
Qed.

Lemma copies_without r x l l' : x ≠ r → without r l' = without r l → copies x l' = copies x l.
Proof.
  intros Hx H. assert (∀ k, copies x k = copies x (without r k)) as Ho.
  { intros k. unfold copies, without. rewrite list_filter_filter. f_equal. apply list_filter_iff. intros y. split; [|tauto].
    intros ->. done. }
  by rewrite (Ho l'), H, <-Ho.
Qed.

Lemma elem_without r x l l' : x ≠ r → without r l' = without r l → x ∈ l' → x ∈ l.
Proof. intros Hx H Hl. assert (x ∈ without r l) as [_ ?]%list_elem_of_filter; [|done]. rewrite <-H. by apply list_elem_of_filter. Qed.

Lemma filter_id {A} (P : A → Prop) `{∀ x, Decision (P x)} (l : list A) : (∀ x, x ∈ l → P x) → filter P l = l.
Proof. induction l as [|x l IH]; [done|]. intros Hl. rewrite filter_cons_True by set_solver. by rewrite IH by set_solver. Qed.

Lemma others_none l : (∀ r, spec r ∉ l) → others l = l.
Proof.
  intros H. apply filter_id. intros x Hx (r & -> & _)%list_elem_of_fmap. by apply (H r).
Qed.

(** Too many copies for [_delete_rule] *)
Definition flooded (l : list (list string)) : Prop := ∃ r, (99 < copies (spec r) l)%nat.

(** [check]: some rules are there, others are not *)
Definition partial (l : list (list string)) : Prop := (∃ r, spec r ∈ l) ∧ ∃ r, spec r ∉ l.

Lemma filter_rules_nil (P : rule_name → Prop) `{∀ r, Decision (P r)} : filter P firewall_rules = [] → ∀ r, ¬ P r.
Proof. intros Hf r Hr. apply (elem_of_nil r). rewrite <-Hf. apply list_elem_of_filter. eauto using in_firewall_rules. Qed.
Lemma filter_rules_some (P : rule_name → Prop) `{∀ r, Decision (P r)} : filter P firewall_rules ≠ [] → ∃ r, P r.
Proof. destruct (filter P firewall_rules) as [|r l] eqn:E; [done|]. exists r. assert (r ∈ filter P firewall_rules) as [? _]%list_elem_of_filter; [rewrite E; set_solver|done]. Qed.

End specs.

Section iptables.
Context {K : Type} (popen : list string → option string → K → process * K).
Context (uid : Z) (wire_server_address : string) (base : list string) (chain : K → list (list string)) (faults : Prop).
Context `{!Iptables popen wire_server_address uid base chain faults}.
Notation rules_of s := (chain (sh_machine s)).
Notation spec := (iptables_spec uid wire_server_address).
Notation command := (iptables_command base).

Definition same (s s' : shell K) : Prop := rules_of s' = rules_of s.

(** What a command raises when it does not do its work *)
Definition tool_error (e : exn) : Prop := isinstance e FirewallStateError = false.
Lemma builtin_tool_error c e : (builtin_error e ∨ ∃ out err, e = command_error (format_command c) (-1) out err) → tool_error e.
Proof.
  unfold tool_error, isinstance. intros [H|(out & err & ->)]; [|done]. unfold builtin_error in H. rewrite !elem_of_cons, elem_of_nil in H.
  by repeat destruct H as [->|H].
Qed.
Lemma raised_returncode c e : (builtin_error e ∨ ∃ out err, e = command_error (format_command c) (-1) out err) →
  isinstance e CommandError = true → returncode e = -1.
Proof. intros [H|(out & err & ->)] He; [|done]. apply builtin_not_command in H. congruence. Qed.

Lemma wp_append r (Q : string → shell K → Prop) R s :
  (∀ out s', rules_of s' = rules_of s ++ [r] → Q out s') → (∀ e s', same s s' → faults → R e s') →
  wp (run_command popen (command r "-A") None) Q R s.
Proof.
  intros HQ HR. pose proof (ipt_append r (sh_machine s)) as Ha.
  eapply (wp_run_command _ _ _ (λ p k, match p with
                                | Started _ (Exited 0 _ _) => chain k = rules_of s ++ [r]
                                | _ => chain k = rules_of s ∧ faults
                                end)); [apply ipt_errors|..].
  - destruct (popen _ _ _) as [[e|pid [[|p|p] out err|e]] k]; simpl; auto.
  - intros pid out err h. apply HQ.
  - intros pid [|p|p] out err h Hrc; [done|..]; intros [Hh Hf]; by apply HR.
  - intros [e|pid [rc out err|e]] e' h; [|done|]; intros [??] _ _; by apply HR.
Qed.

Lemma wp_list args (Q : string → shell K → Prop) R s :
  (∀ out s', same s s' → (faults ∨ ∀ r, spec r ∉ rules_of s → is_listed wire_server_address out (rule_text r) = false) → Q out s') →
  (∀ e s', same s s' → faults → tool_error e → R e s') → wp (run_command popen (base ++ "-L" :: args) None) Q R s.
Proof.
  intros HQ HR. pose proof (ipt_list args (sh_machine s)) as Ha.
  eapply (wp_run_command _ _ _ (λ p k, match p with
                                | Started _ (Exited rc out _) =>
                                    chain k = rules_of s ∧
                                    (faults ∨ rc = 0 ∧ ∀ r, spec r ∉ rules_of s → is_listed wire_server_address out (rule_text r) = false)
                                | _ => chain k = rules_of s ∧ faults
                                end)); [apply ipt_errors|..].
  - by destruct (popen _ _ _) as [[e|pid [rc out err|e]] k].
  - intros pid out err h [Hh Hf]. apply HQ; [done|]. destruct Hf as [?|[_ ?]]; auto.
  - intros pid rc out err h Hrc [Hh [Hf|[? _]]]; [by apply HR|done].
  - intros [e|pid [rc out err|e]] e' h; [|done|]; intros [??] _ ?%builtin_tool_error; by apply HR.
Qed.

Lemma wp_exists r (Q : bool → shell K → Prop) R s :
  (∀ s', same s s' → r ∈ rules_of s → Q true s') → (∀ s', same s s' → r ∉ rules_of s → Q false s') →
  (∀ e s', same s s' → faults → tool_error e → R e s') → wp (rule_exists popen (command r "-C")) Q R s.
Proof.
  intros Ht Hf HR. pose proof (ipt_check r (sh_machine s)) as Ha. unfold rule_exists. apply wp_except. wp_step.
  eapply (wp_run_command _ _ _ (λ p k, match p with
                                | Started _ (Exited rc _ _) =>
                                    chain k = rules_of s ∧ (rc = 0 ∧ r ∈ rules_of s ∨ rc = 1 ∧ r ∉ rules_of s ∨ rc ≠ 0 ∧ rc ≠ 1 ∧ faults)
                                | _ => chain k = rules_of s ∧ faults
                                end)); [apply ipt_errors|..].
  - by destruct (popen _ _ _) as [[e|pid [rc out err|e]] k].
  - intros pid out err h [Hh H]. wp_step. apply Ht; [done|]. destruct H as [[_ ?]|[[? _]|[? _]]]; done.
  - intros pid rc out err h Hrc [Hh H]. cbv beta. split; [|done]. intros _. cbn [returncode command_error e_exit_code].
    destruct (Z.eqb_spec rc 1) as [->|H1]; wp_step.
    + apply Hf; [done|]. destruct H as [[? _]|[[_ ?]|[_ [? _]]]]; done.
    + destruct H as [[? _]|[[? _]|[_ [_ ?]]]]; [done..|by apply HR].
  - intros [e|pid [rc out err|e]] e' h; [|done|]; intros [Hh H] _ Hrc; pose proof (builtin_tool_error _ _ Hrc);
      (split; [|intros _; by apply HR]); intros He; rewrite (raised_returncode _ _ Hrc He); simpl; wp_step; by apply HR.
Qed.
(** *** Deleting *)

(** What deleting a rule leaves: the other rules, in order; and, without faults, no copy of it *)
Definition deleted (r : list string) (n : nat) (s s' : shell K) : Prop :=
  without r (rules_of s') = without r (rules_of s) ∧ (faults ∨ (n < copies r (rules_of s))%nat ∨ r ∉ rules_of s').

Lemma wp_delete_once r (Q : bool → shell K → Prop) R s :
  (∀ s', r ∈ rules_of s → rules_of s' = delete_first r (rules_of s) → Q true s') →
  (∀ s', same s s' → r ∉ rules_of s → Q false s') →
  (∀ s', same s s' → faults → Q true s') →
  (∀ e s', same s s' → faults → R e s') →
  wp (except CommandError (run_command popen (command r "-D") None ;; mret true)
        (λ e, if returncode e =? 1 then mret false
              else if returncode e =? 2 then raise (py_error Exception_ ("Invalid firewall deletion command '" +:+ list_text (command r "-D") +:+ "'"))
              else mret true)) Q R s.
Proof.
  intros Hd Hn Hf HR. pose proof (ipt_delete r (sh_machine s)) as Ha. apply wp_except. wp_step.
  eapply (wp_run_command _ _ _ (λ p k, match p with
    | Started _ (Exited rc _ _) =>
        rc = 0 ∧ r ∈ rules_of s ∧ chain k = delete_first r (rules_of s) ∨
        chain k = rules_of s ∧ (rc = 1 ∧ r ∉ rules_of s ∨ rc ≠ 0 ∧ rc ≠ 1 ∧ faults)
    | _ => chain k = rules_of s ∧ faults
    end)); [apply ipt_errors|..].
  - by destruct (popen _ _ _) as [[e|pid [rc out err|e]] k].
  - intros pid out err h H. wp_step. destruct H as [(_ & ? & ?)|(_ & [[? _]|[? _]])]; [by apply Hd|done..].
  - intros pid rc out err h Hrc H. split; [|done]. intros _. cbn [returncode command_error e_exit_code].
    destruct H as [(? & _)|(Hs & [[-> Hr]|(_ & H1 & ?)])]; [done|by apply wp_ret, Hn|].
    rewrite (proj2 (Z.eqb_neq rc 1)) by done. destruct (rc =? 2); wp_step; [by apply HR|by apply Hf].
  - intros [e|pid [rc out err|e]] e' h; [|done|]; intros [Hh H] _ Hrc;
      (split; [|intros _; by apply HR]); intros He; rewrite (raised_returncode _ _ Hrc He); simpl; wp_step; by apply Hf.
Qed.

Lemma wp_delete_loop n r (Q : unit → shell K → Prop) R s :
  (∀ s', deleted r n s s' → Q tt s') → (∀ e s', deleted r n s s' → faults → R e s') → wp (delete_loop popen n (command r "-D")) Q R s.
Proof.
  revert s. induction n as [|n IH]; intros s HQ HR; simpl.
  { wp_step. apply HQ. split; [done|]. destruct (copies r (rules_of s)) as [|m] eqn:Hc; [by right; right; apply copies_none|right; left; lia]. }
  wp_step. apply wp_delete_once.
  - intros s1 Hr Hs1. apply IH; [intros s2 [Hw Hc]; apply HQ|intros e s2 [Hw Hc] Hf; apply HR; [|done]]; unfold deleted;
      (split; [by rewrite Hw, Hs1, delete_first_without|]); rewrite (delete_first_copies r (rules_of s)) by done; rewrite <-Hs1;
      (destruct Hc as [?|[?|?]]; [by left|right; left; lia|by right; right]).
  - intros s1 Hs1 Hr. wp_step. apply HQ. split; [by rewrite Hs1|]. right; right. by rewrite Hs1.
  - intros s1 Hs1 Hf. apply IH; [intros s2 [Hw Hc]; apply HQ|intros e s2 [Hw Hc] _; apply HR; [|done]];
      (split; [by rewrite Hw, Hs1|by left]).
  - intros e s1 Hs1 Hf. apply HR; [|done]. split; [by rewrite Hs1|by left].
Qed.

Lemma wp_remove_rule r (Q : unit → shell K → Prop) R s :
  (∀ s', deleted r 99 s s' → Q tt s') → (∀ e s', deleted r 99 s s' → faults → R e s') →
  wp (remove_rule popen (iptables_rules popen uid wire_server_address base) (command r)) Q R s.
Proof.
  intros HQ HR. unfold remove_rule. wp_step. apply wp_exists.
  - intros s1 Hs1 Hr. apply wp_when; [intros _|done]. apply wp_delete_loop; unfold deleted; rewrite Hs1; [apply HQ|apply HR].
  - intros s1 Hs1 Hr. apply wp_when; [done|]. intros _. apply HQ. split; [by rewrite Hs1|]. right; right. by rewrite Hs1.
  - intros e s1 Hs1 Hf _. apply HR; [|done]. split; [by rewrite Hs1|by left].
Qed.
(** *** All rules *)

Notation rules := (iptables_rules popen uid wire_server_address base).
Notation specs := (spec <$> firewall_rules).
Notation others := (others uid wire_server_address).
Notation flooded := (flooded uid wire_server_address).
Notation partial := (partial uid wire_server_address).

(** [setup] appends the rules in order; if it fails, a part of them. *)
Lemma wp_setup (Q : unit → shell K → Prop) R s :
  (∀ s', rules_of s' = rules_of s ++ specs → Q tt s') →
  (∀ e s' p, p `prefix_of` specs → rules_of s' = rules_of s ++ p → faults → R e s') →
  wp (individual_setup popen rules) Q R s.
Proof.
  intros HQ HR. unfold individual_setup. cbn [for_each firewall_rules iptables_rules in_command in_append].
  wp_step. wp_step. apply wp_append; [|intros e s1 H1; apply (HR _ _ []); [apply prefix_nil|by rewrite app_nil_r]].
  intros _ s1 H1. wp_step. wp_step. wp_step.
  apply wp_append; [|intros e s2 H2; apply (HR _ _ (take 1 specs)); [by exists (drop 1 specs)|by rewrite H2, H1]].
  intros _ s2 H2. wp_step. wp_step. wp_step.
  apply wp_append; [|intros e s3 H3; apply (HR _ _ (take 2 specs)); [by exists (drop 2 specs)|by rewrite H3, H2, H1, <-app_assoc]].
  intros _ s3 H3. wp_step. wp_step. apply HQ. by rewrite H3, H2, H1, <-!app_assoc.
Qed.

Definition removed (l : list rule_name) (s s' : shell K) : Prop :=
  others (rules_of s') = others (rules_of s) ∧
  (∀ r, r ∉ l → copies (spec r) (rules_of s') = copies (spec r) (rules_of s)) ∧
  (faults ∨ flooded (rules_of s) ∨ ∀ r, r ∈ l → spec r ∉ rules_of s').

Lemma removed_more r l s s1 s2 : r ∉ l → removed l s s1 → deleted (spec r) 99 s1 s2 → removed (l ++ [r]) s s2.
Proof.
  intros Hr (Ho & Hc & Hl) [Hw Hd]. split_and!.
  - by rewrite (others_without _ _ r _ _ Hw).
  - intros x [Hx Hxr]%not_elem_of_app. rewrite <-Hc by done. apply (copies_without (spec r)); [|done].
    intros Heq. apply spec_inj in Heq as ->. set_solver.
  - destruct Hl as [?|[?|Hl]]; [by left|by right; left|]. destruct Hd as [?|[Hd|Hd]]; [by left|..].
    + right; left. exists r. by rewrite <-Hc.
    + right; right. intros x [Hx|Hx]%elem_of_app; [|apply list_elem_of_singleton in Hx as ->; done]. intros Hi. apply (Hl x Hx).
      apply (elem_without (spec r) _ _ (rules_of s2)); [|done..]. intros Heq. apply spec_inj in Heq as ->. done.
Qed.

Lemma wp_remove (Q : unit → shell K → Prop) R s :
  (∀ s', removed firewall_rules s s' → Q tt s') → (∀ e s', others (rules_of s') = others (rules_of s) → faults → R e s') →
  wp (individual_remove popen rules) Q R s.
Proof.
  intros HQ HR. unfold individual_remove.
  assert (∀ l gone s1, removed gone s s1 → gone ++ l = firewall_rules →
            wp (for_each l (λ r, remove_rule popen rules (in_command rules r))) Q R s1) as Hl.
  { induction l as [|r l IH]; intros gone s1 H1 Heq; simpl.
    - wp_step. apply HQ. by rewrite <-Heq, app_nil_r.
    - assert (r ∉ gone) as Hr.
      { assert (NoDup (gone ++ r :: l)) as (_ & Hd & _)%NoDup_app by (rewrite Heq; by apply NoDup_ListNoDup; repeat constructor; simpl; intuition). set_solver. }
      wp_step. apply (wp_remove_rule (spec r)).
      + intros s2 H2. apply (IH (gone ++ [r])); [by eapply removed_more|]. by rewrite <-app_assoc.
      + intros e s2 H2 Hf. apply HR; [|done]. by destruct (removed_more r gone s s1 s2 Hr H1 H2). }
  apply (Hl _ []); [|done]. split_and!; [done..|]. right; right. intros r ?%elem_of_nil. done.
Qed.

Lemma wp_check_rules l (Q : list rule_name * list rule_name → shell K → Prop) R s :
  (∀ s', same s s' → Q (filter (λ r, spec r ∉ rules_of s) l, filter (λ r, spec r ∈ rules_of s) l) s') →
  (∀ e s', same s s' → faults → tool_error e → R e s') → wp (check_rules popen rules l) Q R s.
Proof.
  revert Q s. induction l as [|r l IH]; intros Q s HQ HR; simpl; [wp_step; by apply HQ|]. wp_step. apply (wp_exists (spec r)); [..|done].
  - intros s1 Hs1 Hr. wp_step. apply IH.
    + intros s2 Hs2. wp_step. rewrite !Hs1. specialize (HQ s2). rewrite filter_cons_False, filter_cons_True in HQ by naive_solver.
      apply HQ. unfold same. by rewrite Hs2.
    + intros e s2 Hs2. apply HR. unfold same. by rewrite Hs2.
  - intros s1 Hs1 Hr. wp_step. apply IH.
    + intros s2 Hs2. wp_step. rewrite !Hs1. specialize (HQ s2). rewrite filter_cons_True, filter_cons_False in HQ by naive_solver.
      apply HQ. unfold same. by rewrite Hs2.
    + intros e s2 Hs2. apply HR. unfold same. by rewrite Hs2.
Qed.

Lemma wp_iptables_check (Q : bool → shell K → Prop) R s :
  (∀ s', same s s' → (∀ r, spec r ∈ rules_of s) → Q true s') →
  (∀ s', same s s' → (∀ r, spec r ∉ rules_of s) → Q false s') →
  (∀ e s', same s s' → (partial (rules_of s) ∧ (e_class e = FirewallRulesMissingError ∨ faults) ∨ faults ∧ tool_error e) → R e s') →
  wp (iptables_check popen uid wire_server_address base) Q R s.
Proof.
  intros Ht Hf HR. unfold iptables_check, individual_check. apply wp_except. wp_step. apply wp_check_rules.
  - intros s1 Hs1. case_bool_decide as Hm.
    { wp_step. apply Ht; [done|]. intros r. destruct (decide (spec r ∈ rules_of s)) as [|Hn]; [done|]. by destruct (filter_rules_nil _ Hm r). }
    case_bool_decide as He.
    { wp_step. apply Hf; [done|]. exact (filter_rules_nil _ He). }
    assert (partial (rules_of s)) as Hp by (split; [exact (filter_rules_some _ He)|exact (filter_rules_some _ Hm)]).
    wp_step. split; [|done]. intros _. wp_step. apply (wp_list ["OUTPUT"; "-nxv"]).
    + intros out s2 Hs2 Hl. assert (same s s2) by (unfold same; by rewrite Hs2). destruct (existsb _ _) eqn:Hx; wp_step.
      * apply HR; [done|]. left. split; [done|]. right. destruct Hl as [?|Hl]; [done|]. exfalso.
        apply existsb_exists in Hx as (t & Ht' & Hx). apply list_elem_of_In, list_elem_of_fmap in Ht' as (r & -> & [Hr _]%list_elem_of_filter).
        rewrite Hs1 in Hl. by rewrite Hl in Hx.
      * apply HR; [done|]. left. split; [done|by left].
    + intros e s2 Hs2 Hfa ?. apply HR; [unfold same; by rewrite Hs2|by right].
  - intros e s1 Hs1 Hfa He. split; [|intros _; apply HR; [done|by right]]. unfold tool_error, isinstance in He. intros Hc. exfalso.
    unfold isinstance in Hc. by destruct (e_class e).
Qed.
End iptables.
