(* ===== verification/EnableFirewall.v ===== *)
(** * Keeping the firewall set up (ga/env.py, ga/update.py, agent.py)

    [EnableFirewall] checks the rules periodically and sets them up again; it limits what it reports in
    a day.  [UpdateHandler._initialize_firewall] does the first check when the agent starts, and
    [Agent.setup_firewall] sets the rules up at boot.  [clock] is the time of the machine, in
    microseconds. *)
From S2P Require Import Prelude PyExn FlexVersion Datetime Json Urls TextUtil World History Shell Firewall.
From Stdlib Require Import Ascii.

Inductive FirewallState := OK | NotSet | Invalid | Inconsistent | Unknown.
#[export] Instance FirewallState_eq_dec : EqDecision FirewallState.
Proof. solve_decision. Defined.

Definition REPORTING_PERIOD : Z := 24 * 3600 * 1000000.
Definition MAX_REPORTS_WHEN_FIREWALL_OK : Z := 1.
Definition MAX_REPORTS_WHEN_FIREWALL_NOT_OK : Z := 3.
Definition MAX_REPORTS_PER_PERIOD : Z := 8.

Section enable_firewall.
Context {K : Type} (popen : list string → option string → K → process * K) (clock : K → Z).
Context (loads : string → res exn json) (uid : Z) (wire_server_address : string).
Notation SH X := (M (shell K) exn X).
Notation manager := (FirewallManager (K := K)).

(** [EnableFirewall]; [mo_emitted] are the events, with their operation *)
Record monitor := mkMonitor {
  mo_manager : option manager;
  mo_state : FirewallState;
  mo_is_first_iteration : bool;
  mo_period_end : Z;
  mo_report_count : Z;
  mo_period_report_count : Z;
  mo_should_report : bool;
  mo_emitted : list (string * string);
  mo_shell : shell K
}.
Notation EF X := (M monitor exn X).

Definition set_mo_manager (m : manager) (s : monitor) : monitor :=
  mkMonitor (Some m) (mo_state s) (mo_is_first_iteration s) (mo_period_end s) (mo_report_count s) (mo_period_report_count s) (mo_should_report s)
    (mo_emitted s) (mo_shell s).
Definition set_mo_shell (h : shell K) (s : monitor) : monitor :=
  mkMonitor (mo_manager s) (mo_state s) (mo_is_first_iteration s) (mo_period_end s) (mo_report_count s) (mo_period_report_count s) (mo_should_report s)
    (mo_emitted s) h.
Definition on_shell {A} (m : SH A) : EF A := zoom mo_shell set_mo_shell m.
Definition now_of (s : monitor) : Z := clock (sh_machine (mo_shell s)).

(** [__init__] *)
Definition new_monitor (h : shell K) : monitor :=
  mkMonitor None OK true (clock (sh_machine h) + REPORTING_PERIOD) 0 0 true [] h.

(** [_update_reporting_state] *)
Definition update_reporting_state (s : monitor) : monitor :=
  let elapsed := mo_period_end s <=? now_of s in
  let period_end := if elapsed then now_of s + REPORTING_PERIOD else mo_period_end s in
  let report_count := if elapsed then 0 else mo_report_count s in
  let period_report_count := if elapsed then 0 else mo_period_report_count s in
  let max_reports := if bool_decide (mo_state s = OK) then MAX_REPORTS_WHEN_FIREWALL_OK else MAX_REPORTS_WHEN_FIREWALL_NOT_OK in
  mkMonitor (mo_manager s) (mo_state s) (mo_is_first_iteration s) period_end report_count period_report_count
    ((report_count <? max_reports) && (period_report_count <? MAX_REPORTS_PER_PERIOD)) (mo_emitted s) (mo_shell s).

(** [_update_firewall_state] *)
Definition update_firewall_state (firewall_state : FirewallState) (s : monitor) : monitor :=
  let reset := xorb (bool_decide (mo_state s = OK)) (bool_decide (firewall_state = OK)) && (mo_period_report_count s <? MAX_REPORTS_PER_PERIOD) in
  mkMonitor (mo_manager s) firewall_state (mo_is_first_iteration s) (mo_period_end s) (if reset then 0 else mo_report_count s)
    (mo_period_report_count s) (reset || mo_should_report s) (mo_emitted s) (mo_shell s).

(** [_emit_event] *)
Definition emit_event (operation message : string) (s : monitor) : monitor :=
  mkMonitor (mo_manager s) (mo_state s) (mo_is_first_iteration s) (mo_period_end s) (mo_report_count s) (mo_period_report_count s) (mo_should_report s)
    (if mo_should_report s then mo_emitted s ++ [(operation, message)] else mo_emitted s) (mo_shell s).

(** The [finally] clause of [_operation] *)
Definition count_report (s : monitor) : monitor :=
  let n := if mo_should_report s then 1 else 0 in
  mkMonitor (mo_manager s) (mo_state s) false (mo_period_end s) (mo_report_count s + n) (mo_period_report_count s + n) (mo_should_report s)
    (mo_emitted s) (mo_shell s).

Definition newline : string := String "010" "".
Definition emit_state (operation message : string) (m : manager) : EF unit :=
  state ← on_shell (get_state popen m);
  modify (emit_event operation (message +:+ newline +:+ state)).

Definition get_manager : EF manager :=
  s ← gets mo_manager;
  match s with
  | Some m => mret m
  | None => m ← on_shell (create popen loads uid wire_server_address); modify (set_mo_manager m) ;; mret m
  end.

(** The inner [try]: whether the rules must be set up *)
Definition check_firewall (m : manager) : EF bool :=
  catch
    (ok ← on_shell (fm_check m);
     if (ok : bool) then
       modify (update_firewall_state OK) ;;
       emit_state "Firewall" "The firewall is configured correctly. Current state:" m ;;
       mret false
     else
       modify (update_firewall_state NotSet) ;;
       modify (emit_event "Firewall" "The firewall has not been setup. Will set it up.") ;;
       mret true)
    (λ e,
       if isinstance e IptablesInconsistencyError then
         modify (update_firewall_state Inconsistent) ;;
         modify (emit_event "FirewallInconsistency"
                   ("The results returned by iptables are inconsistent, will not change the current state of the firewall: " +:+ e_msg e)) ;;
         mret false
       else if isinstance e FirewallStateError then
         modify (update_firewall_state Invalid) ;;
         emit_state "ResetFirewall" ("The firewall is not configured correctly. " +:+ e_msg e +:+ ". Will reset it. Current state:") m ;;
         on_shell (fm_remove m) ;;
         mret true
       else raise e).

Definition operation_body : EF unit :=
  modify update_reporting_state ;;
  m ← get_manager;
  must_set_up ← check_firewall m;
  when must_set_up
    (on_shell (fm_setup m) ;;
     modify (update_firewall_state OK) ;;
     emit_state "Firewall" "The firewall was setup successfully:" m).

Definition on_operation_error (e : exn) : EF unit :=
  modify (update_firewall_state Unknown) ;;
  m ← gets mo_manager;
  let message := "An error occurred while verifying the state of the firewall: " +:+ e_msg e in
  match m with
  | None => modify (emit_event "Firewall" message)
  | Some m => emit_state "Firewall" (message +:+ ". Current state:") m
  end.

(** [_operation] *)
Definition operation : EF unit :=
  finally (except Exception_ operation_body on_operation_error) (modify count_report).

(** ** Start of the agent and of the machine *)

(** [UpdateHandler._initialize_firewall]; [persist] is [PersistFirewallRulesHandler(...).setup] *)
Definition initialize_firewall (enabled : bool) (persist : bool → SH unit) : SH unit :=
  except Exception_
    (if negb enabled then mret tt
     else
       m ← create popen loads uid wire_server_address;
       except Exception_ (fm_remove_legacy_rule m) (λ _, mret tt) ;;
       catch (ok ← fm_check m; when (negb ok) (fm_setup m) ;; get_state popen m ;; mret tt)
         (λ e, if isinstance e IptablesInconsistencyError then mret tt
               else if isinstance e FirewallStateError then get_state popen m ;; mret tt
               else raise e) ;;
       except Exception_ (persist (if fm_class m is NfTables_ then true else false)) (λ _, mret tt))
    (λ _, mret tt).

(** [Agent.setup_firewall]: the exit code of the process *)
Definition setup_firewall : SH Z :=
  started ← except Exception_
    (m ← create popen loads uid wire_server_address;
     match fm_class m with
     | IpTables_ base_command =>
         enabled ← except CommandError
                     (run_command popen ["systemctl"; "is-enabled"; "--type=service"; "firewalld.service"] None ;; mret true) (λ _, mret false);
         if (enabled : bool) then mret (inl 0)
         else except Exception_ (load_conntrack popen uid wire_server_address base_command ;; mret tt) (λ _, mret tt) ;; mret (inr m)
     | _ => mret (inr m)
     end)
    (λ _, mret (inl 1));
  match started with
  | inl code => mret code
  | inr m =>
      except Exception_ (fm_setup m ;; get_state popen m ;; mret 0) (λ _, get_state popen m ;; mret 1)
  end.
End enable_firewall.

(** ** The rules are restored *)

Section restored.
Context {K : Type} (popen : list string → option string → K → process * K) (clock : K → Z) (loads : string → res exn json).
Context (uid : Z) (wire_server_address : string) (base : list string) (chain : K → list (list string)) (faults : Prop).
Context `{!Iptables popen wire_server_address uid base chain faults}.
Notation rules_of s := (chain (sh_machine (mo_shell s))).
Notation spec := (iptables_spec uid wire_server_address).
Notation specs := (spec <$> firewall_rules).
Notation iptables := (IpTables popen uid wire_server_address base).
Notation others := (others uid wire_server_address).
Notation flooded := (flooded uid wire_server_address).

Lemma wp_get_state (Q : string → shell K → Prop) R s :
  (∀ t s', chain (sh_machine s') = chain (sh_machine s) → Q t s') →
  (∀ e s', chain (sh_machine s') = chain (sh_machine s) → faults → tool_error e → isinstance e Exception_ = false → R e s') → wp (get_state popen iptables) Q R s.
Proof.
  intros HQ HR. unfold get_state. apply wp_except. apply (wp_list popen uid wire_server_address base chain faults ["-nxv"]).
  - intros out s1 Hs1 _. by apply HQ.
  - intros e s1 Hs1 Hf He. split; intros Hx; [wp_step; by apply HQ|by apply HR].
Qed.

(** What an operation leaves when it returns, and when an error ends it *)
Definition restored (s s' : monitor) : Prop :=
  others (rules_of s') = others (rules_of s) ∧
  ((∀ r, spec r ∈ rules_of s) → rules_of s' = rules_of s) ∧
  (mo_state s' = OK → ∀ r, spec r ∈ rules_of s') ∧
  (faults ∨ flooded (rules_of s) ∨
   mo_state s' = OK ∧ ((∀ r, spec r ∈ rules_of s) ∨ rules_of s' = others (rules_of s) ++ specs)).
Definition interrupted (s s' : monitor) : Prop :=
  others (rules_of s') = others (rules_of s) ∧ ((∀ r, spec r ∈ rules_of s) → rules_of s' = rules_of s) ∧ faults ∧
  mo_manager s' = Some iptables.

Lemma wp_emit_state op msg (Q : unit → monitor → Prop) R s :
  (∀ s', rules_of s' = rules_of s → mo_state s' = mo_state s → mo_manager s' = mo_manager s → Q tt s') →
  (∀ e s', rules_of s' = rules_of s → mo_manager s' = mo_manager s → faults → tool_error e → isinstance e Exception_ = false → R e s') →
  wp (emit_state popen op msg iptables) Q R s.
Proof.
  intros HQ HR. unfold emit_state. wp_step. unfold on_shell. wp_step. apply wp_get_state.
  - intros t h Hh. wp_step. by apply HQ.
  - intros e h Hh Hf He Hx. by apply HR.
Qed.

Lemma not_partial l : (∀ r, spec r ∈ l) → ¬ partial uid wire_server_address l.
Proof. intros Ha [_ [r Hr]]. by apply Hr. Qed.

Lemma others_rules l p : (∀ x, x ∈ p → x ∈ specs) → others (l ++ p) = others l.
Proof.
  intros Hp. unfold Firewall.others. rewrite filter_app. rewrite <-(app_nil_r (filter _ l)) at 2. f_equal.
  induction p as [|x p IH]; [done|]. rewrite filter_cons_False; [apply IH; set_solver|]. intros Hx. apply Hx, Hp. set_solver.
Qed.

(** After [remove], or without any of the rules, [setup] completes the work. *)
Lemma wp_set_up s s1 (Q : unit → monitor → Prop) R :
  others (rules_of s1) = others (rules_of s) → ¬ (∀ r, spec r ∈ rules_of s) → mo_manager s1 = Some iptables →
  (faults ∨ flooded (rules_of s) ∨ rules_of s1 = others (rules_of s)) →
  (∀ s', restored s s' → Q tt s') → (∀ e s', interrupted s s' → R e s') →
  wp (on_shell (fm_setup iptables) ;; modify (update_firewall_state OK) ;; emit_state popen "Firewall" "The firewall was setup successfully:" iptables)
     Q R s1.
Proof.
  intros Ho Hna Hm Hr HQ HR. wp_step. unfold on_shell at 1. wp_step. apply (wp_setup popen uid wire_server_address base chain faults).
  - intros h Hh. wp_step. wp_step. apply wp_emit_state.
    + intros s2 Hs2 Hst _. apply HQ. assert (rules_of s2 = rules_of s1 ++ specs) as H2 by by rewrite Hs2.
      split_and!; [| |intros _ r; rewrite H2|]; [by rewrite H2, others_rules|done|apply elem_of_app; right; apply in_specs|].
      destruct Hr as [?|[?|Hr]]; [by left|by right; left|]. right; right. split; [by rewrite Hst|]. right. by rewrite H2, Hr.
    + intros e s2 Hs2 Hm2 Hf _ _. apply HR. split_and!; [|done|done|by rewrite Hm2]. rewrite Hs2. cbn -[iptables_spec]. by rewrite Hh, others_rules.
  - intros e h p Hp Hh Hf. apply HR. split_and!; [|done|done|done]. cbn [mo_shell set_mo_shell]. rewrite Hh, others_rules; [done|].
    intros x Hx. destruct Hp as [k ->]. set_solver.
Qed.

Lemma tool_error_inconsistency e : tool_error e → isinstance e IptablesInconsistencyError = false.
Proof. unfold tool_error, isinstance. by destruct (e_class e). Qed.

Lemma wp_operation_body s :
  mo_manager s = Some iptables →
  wp (operation_body popen clock loads uid wire_server_address) (λ _, restored s) (λ _, interrupted s) s.
Proof.
  intros Hm. unfold operation_body. wp_step. wp_step. set (s0 := update_reporting_state clock s). assert (rules_of s0 = rules_of s) as H0 by done.
  assert (mo_manager s0 = Some iptables) as Hm0 by done. unfold get_manager. wp_step. wp_step. wp_step. rewrite Hm0. wp_step. wp_step.
  unfold check_firewall. wp_step. wp_step. unfold on_shell at 1. wp_step. apply (wp_iptables_check popen uid wire_server_address base chain faults).
  - intros h Hh Hall. wp_step. wp_step. wp_step. apply wp_emit_state.
    + intros s2 Hs2 Hst Hmm. wp_step. apply wp_when; [done|]. intros _. assert (rules_of s2 = rules_of s) as H2 by by rewrite Hs2.
      split_and!; [by rewrite H2|done|intros _ r; by rewrite H2|]. right; right. split; [by rewrite Hst|by left].
    + intros e s2 Hs2 Hmm Hf He _. rewrite (tool_error_inconsistency e) by done. rewrite He. wp_step.
      assert (rules_of s2 = rules_of s) as H2 by by rewrite Hs2. split_and!; [by rewrite H2|by intros _|done|by rewrite Hmm].
  - intros h Hh Hnone. do 5 wp_step. apply wp_when; [intros _|done]. apply (wp_set_up s); try done.
    + cbn [emit_event update_firewall_state set_mo_shell mo_shell]. by rewrite Hh.
    + intros Hall. by apply (Hnone ACCEPT).
    + right; right. cbn [emit_event update_firewall_state set_mo_shell mo_shell]. by rewrite Hh, others_none.
  - intros e h Hh He. assert (rules_of (set_mo_shell h s0) = rules_of s) as H1 by done. destruct (isinstance e IptablesInconsistencyError) eqn:Hi.
    { do 5 wp_step. apply wp_when; [done|intros _]. split_and!; [exact (f_equal others H1)|done|done|]. left. destruct He as [[_ [He|?]]|[? _]]; [|done..]. by unfold isinstance in Hi; rewrite He in Hi. }
    destruct (isinstance e FirewallStateError) eqn:Hs.
    2:{ wp_step. split_and!; [exact (f_equal others H1)|done| |done]. destruct He as [[_ [He|?]]|[? _]]; [|done..]. by unfold isinstance in Hs; rewrite He in Hs. }
    destruct He as [[Hp _]|[_ He]]; [|by unfold tool_error in He; congruence].
    assert (¬ ∀ r, spec r ∈ rules_of s) as Hna by (intros Ha; by apply (not_partial _ Ha)).
    wp_step. wp_step. wp_step. apply wp_emit_state.
    2:{ intros e' s2 Hs2 Hmm Hf _ _. split_and!; [rewrite Hs2; exact (f_equal others H1)|done|done|by rewrite Hmm]. }
    intros s2 Hs2 _ Hmm. assert (rules_of s2 = rules_of s) as H2 by (rewrite Hs2; exact H1). wp_step. unfold on_shell at 1. wp_step. apply (wp_remove popen uid wire_server_address base chain faults).
    + intros h' (Ho & _ & Hr). wp_step. apply wp_when; [intros _|done]. rewrite H2 in Ho, Hr. apply (wp_set_up s); [done|done|by rewrite <-Hm0; exact Hmm| |done|done].
      destruct Hr as [?|[?|Hr]]; [by left|by right; left|]. right; right. rewrite <-Ho. symmetry. apply others_none. intros r. apply Hr, in_firewall_rules.
    + intros e' h' Ho Hf. rewrite H2 in Ho. split_and!; [done..|by rewrite <-Hm0; exact Hmm].
Qed.

Lemma wp_operation s :
  mo_manager s = Some iptables →
  wp (operation popen clock loads uid wire_server_address) (λ _, restored s)
    (λ e s', interrupted s s' ∧ isinstance e Exception_ = false) s.
Proof.
  intros Hm. unfold operation. wp_step. apply wp_except. eapply wp_mono; [by apply wp_operation_body|..].
  { intros [] s1 H1. cbv beta. by wp_step. }
  intros e s1 (Ho & Ha & Hf & Hm1). split; intros He; [|wp_step; split; [by split_and!|done]].
  unfold on_operation_error. wp_step. wp_step. wp_step. wp_step. change (mo_manager (update_firewall_state Unknown s1)) with (mo_manager s1). rewrite Hm1.
  apply wp_emit_state; cbn [update_firewall_state mo_shell mo_manager mo_state].
  - intros s2 Hs2 Hst Hmm. wp_step. split_and!; cbn [count_report mo_shell mo_state]; [by rewrite Hs2|intros H; rewrite Hs2; by apply Ha|by rewrite Hst|by left].
  - intros e' s2 Hs2 Hmm _ _ He'. wp_step. split; [|done].
    split_and!; cbn [count_report mo_shell mo_manager]; [by rewrite Hs2|intros H; rewrite Hs2; by apply Ha|done|by rewrite Hmm].
Qed.

End restored.

(** ** Packets

    What the rules mean: a packet meets the fate of the first rule that matches it.  [matches] is how the
    kernel matches packets; for the agent's rules it does what their options say. *)

Record packet := mkPacket { pk_protocol : string; pk_destination : string; pk_port : Z; pk_uid : Z; pk_ctstate : string }.
Definition target (rule : list string) : string := default "" (last rule).

Class Matches (matches : list string → packet → bool) (uid : Z) (wire_server_address : string) : Prop := {
  matches_spec r p :
    matches (iptables_spec uid wire_server_address r) p =
      (String.eqb (pk_protocol p) "tcp" && String.eqb (pk_destination p) wire_server_address &&
       match r with
       | ACCEPT_DNS => pk_port p =? 53
       | ACCEPT => pk_uid p =? uid
       | DROP => bool_decide (pk_ctstate p ∈ ["INVALID"; "NEW"])
       end)
}.

Fixpoint verdict (matches : list string → packet → bool) (rules : list (list string)) (p : packet) : string :=
  match rules with
  | [] => "ACCEPT"
  | r :: rules' => if matches r p then target r else verdict matches rules' p
  end.

(** The contract of the firewall, as the documentation of [FirewallManager] states it *)
Definition contract_verdict (uid : Z) (p : packet) : string :=
  if pk_port p =? 53 then "ACCEPT" else if pk_uid p =? uid then "ACCEPT"
  else if bool_decide (pk_ctstate p ∈ ["INVALID"; "NEW"]) then "DROP" else "ACCEPT".

Section packets.
Context {K : Type} (popen : list string → option string → K → process * K) (clock : K → Z) (loads : string → res exn json).
Context (uid : Z) (wire_server_address : string) (base : list string) (chain : K → list (list string)).
Context `{!Iptables popen wire_server_address uid base chain False} (matches : list string → packet → bool) `{!Matches matches uid wire_server_address}.
Notation rules_of s := (chain (sh_machine (mo_shell s))).
Notation spec := (iptables_spec uid wire_server_address).

Lemma verdict_others l k p : (∀ r, r ∈ l → matches r p = false) → verdict matches (l ++ k) p = verdict matches k p.
Proof. induction l as [|r l IH]; [done|]. intros Hl. simpl. rewrite Hl by set_solver. apply IH. set_solver. Qed.

Lemma verdict_specs p :
  pk_protocol p = "tcp" → pk_destination p = wire_server_address → verdict matches (spec <$> firewall_rules) p = contract_verdict uid p.
Proof.
  intros Hp Hd. cbn [fmap list_fmap firewall_rules verdict]. rewrite !matches_spec, Hp, Hd, !String.eqb_refl. simpl andb.
  unfold contract_verdict. by destruct (pk_port p =? 53), (pk_uid p =? uid); try case_bool_decide.
Qed.

End packets.

(** ** A firewall to try the code on *)

Module Sample.
Definition address : string := "168.63.129.16".
Definition base : list string := ["iptables"; "-w"; "-t"; "security"].
Definition exited (rc : Z) : process := Started 1 (Exited rc "" "").

(** [iptables] on a list of rules; [locked]: [-D] exits with 4 because of a lock *)
Definition sim (locked : bool) (command : list string) (_ : option string) (k : list (list string)) : process * list (list string) :=
  let opt := default "" (command !! 4%nat) in
  let r := drop 6 command in
  if String.eqb opt "-A" then (exited 0, k ++ [r])
  else if String.eqb opt "-C" then (exited (if bool_decide (r ∈ k) then 0 else 1), k)
  else if String.eqb opt "-D" then
    if locked then (exited 4, k) else if bool_decide (r ∈ k) then (exited 0, delete_first r k) else (exited 1, k)
  else (exited 0, k).

#[export] Instance sim_iptables : Iptables (sim false) address 0 base id False.
Proof.
  split.
  - intros c i k. unfold sim. repeat case_match; simplify_eq; done.
  - intros r k. done.
  - intros r k. cbn. case_bool_decide; split; auto.
  - intros r k. cbn. case_bool_decide; [by left|right; auto].
  - intros args k. change (sim false (base ++ "-L" :: args) None k) with (exited 0, k). split; [done|]. right. split; [done|].
    intros []; vm_compute; done.
Qed.

Definition start (locked : bool) (rules : list (list string)) : monitor :=
  set_mo_manager (IpTables (sim locked) 0 address base) (new_monitor (λ _, 0) (mkShell [] rules)).
Definition run_once (locked : bool) (s : monitor) : monitor := (operation (sim locked) (λ _, 0) (λ _, Ok JNull) 0 address s).2.
Notation spec := (iptables_spec 0 address).

(** A packet filter for these rules *)
Definition sim_matches (r : list string) (p : packet) : bool :=
  existsb (λ n, bool_decide (r = spec n) &&
                (String.eqb (pk_protocol p) "tcp" && String.eqb (pk_destination p) address &&
                 match n with
                 | ACCEPT_DNS => pk_port p =? 53
                 | ACCEPT => pk_uid p =? 0
                 | DROP => bool_decide (pk_ctstate p ∈ ["INVALID"; "NEW"])
                 end)) firewall_rules.
#[export] Instance sim_matches_spec : Matches sim_matches 0 address.
Proof. split. intros r p. unfold sim_matches. destruct r; cbn; rewrite ?orb_false_r; done. Qed.

Definition partial_rules : list (list string) := [spec DROP; ["-p"; "udp"; "-j"; "ACCEPT"]].



Example partial_rules_are_reset :
  let s := run_once false (start false partial_rules) in
  (sh_machine (mo_shell s), mo_state s) = (["-p"; "udp"; "-j"; "ACCEPT"] :: (spec <$> firewall_rules), OK).
Proof. vm_compute. reflexivity. Qed.

(** With the rules in another order the check is content, and the agent's own traffic is dropped. *)
Example order_is_not_checked :
  let rules := [spec DROP; spec ACCEPT_DNS; spec ACCEPT] in
  let s := run_once false (start false rules) in
  (sh_machine (mo_shell s), mo_state s) = (rules, OK) ∧ verdict sim_matches rules (mkPacket "tcp" address 80 0 "NEW") = "DROP".
Proof. vm_compute. done. Qed.

(** A deletion that keeps failing (99 times, for another process holds the lock) is not noticed: the
    rules are appended after the DROP rule that is still there. *)
Example failed_deletion_is_ignored :
  let s := run_once true (start true [spec DROP]) in
  (sh_machine (mo_shell s), mo_state s) = (spec DROP :: (spec <$> firewall_rules), OK) ∧
  verdict sim_matches (sh_machine (mo_shell s)) (mkPacket "tcp" address 80 0 "NEW") = "DROP".
Proof. vm_compute. done. Qed.
End Sample.

(** ** Reports are limited

    [step]: the operation runs, or time passes between two operations. *)

Section reports.
Context {K : Type} (popen : list string → option string → K → process * K) (clock : K → Z) (loads : string → res exn json).
Context (uid : Z) (wire_server_address : string).
Notation operation := (operation popen clock loads uid wire_server_address).

Inductive step (s : monitor (K := K)) : monitor (K := K) → Prop :=
| Operation : step s (operation s).2
| Elapse h : now_of clock s ≤ clock (sh_machine h) → step s (set_mo_shell h s).

Hypothesis clock_advances : ∀ c i k, clock k ≤ clock (popen c i k).2.

(** Commands do not turn the clock back. *)
Definition later (h h' : shell K) : Prop := clock (sh_machine h) ≤ clock (sh_machine h').
#[local] Instance later_preorder : PreOrder later.
Proof. split; unfold later; [intros h|intros h1 h2 h3]; lia. Qed.

Lemma run_later c i : pres later (run_command popen c i).
Proof.
  intros h. unfold later. pose proof (run_command_spec popen c i h) as Hs. specialize (clock_advances c i (sh_machine h)).
  destruct (popen c i (sh_machine h)) as [[e|pid [rc out err|e]] k]; simpl in *; [by rewrite Hs|by destruct Hs as (l & _ & ->)|by destruct Hs as (e' & _ & ->)].
Qed.
#[local] Hint Resolve run_later : pres.

Lemma delete_later n c : pres later (delete_loop popen n c).
Proof. induction n as [|n IH]; simpl; pres_auto. Qed.
Lemma check_rules_later m l : pres later (check_rules popen m l).
Proof. induction l as [|r l IH]; simpl; unfold rule_exists; pres_auto. Qed.
Lemma unresolved_later l : pres later (unresolved_among popen l).
Proof. induction l as [|r l IH]; simpl; pres_auto. Qed.
#[local] Hint Resolve delete_later check_rules_later unresolved_later : pres.

(** The managers that [create] returns *)
Definition sound (m : FirewallManager (K := K)) : Prop := pres later (fm_setup m) ∧ pres later (fm_remove m) ∧ pres later (fm_check m).
Lemma individual_later m : (∀ c, pres later (in_delete_rule m c)) →
  pres later (individual_setup popen m) ∧ pres later (individual_remove popen m) ∧ pres later (individual_check popen m).
Proof.
  intros Hd. unfold individual_setup, individual_remove, remove_rule, rule_exists, individual_check. split_and!; pres_auto.
Qed.
Lemma iptables_sound base : sound (IpTables popen uid wire_server_address base).
Proof.
  destruct (individual_later (iptables_rules popen uid wire_server_address base)) as (? & ? & ?); [intros c; apply delete_later|].
  split_and!; [done..|]. unfold fm_check, IpTables, iptables_check. pres_auto.
Qed.
Lemma nft_sound : sound (NfTables popen loads uid wire_server_address).
Proof. unfold sound, NfTables, fm_setup, fm_remove, fm_check, nft_setup, nft_remove, nft_check. split_and!; pres_auto. Qed.
Lemma get_state_later m : pres later (get_state popen m).
Proof. unfold get_state. pres_auto. Qed.

Lemma create_sound h : wp (create popen loads uid wire_server_address) (λ m _, sound m) (λ _ _, True) h.
Proof.
  assert (∀ h', wp (new_nftables popen loads uid wire_server_address) (λ m _, sound m) (λ _ _, True) h') as Hn.
  { intros h'. unfold new_nftables. wp_step. eapply wp_mono; [apply wp_any| |done]. intros [] h1 _. cbv beta. wp_step. apply nft_sound. }
  unfold create. apply wp_except. wp_step. eapply wp_mono; [apply wp_any|..].
  - intros base h1 _. cbv beta. wp_step. eapply wp_mono; [apply wp_any|..].
    + intros l h2 _. cbv beta. case_bool_decide; [wp_step; apply iptables_sound|]. unfold fall_back_to_nft. apply wp_except. wp_step.
      eapply wp_mono; [apply Hn|..].
      * intros m h3 Hm. cbv beta in *. wp_step. eapply wp_mono; [apply wp_any|..].
        -- intros [] h4 _. cbv beta. by wp_step.
        -- intros e h4 _. cbv beta. split; intros _; [wp_step; apply iptables_sound|]. split; [intros _|done]. apply wp_except.
           eapply wp_mono; [apply Hn|done|]. intros e' h5 _. split; [intros _; by wp_step|done].
      * intros e h3 _. cbv beta. split; intros _; [wp_step; apply iptables_sound|]. split; [intros _|done]. apply wp_except.
        eapply wp_mono; [apply Hn|done|]. intros e' h5 _. split; [intros _; by wp_step|done].
    + intros e h2 _. cbv beta. split; [intros _|done]. apply wp_except. eapply wp_mono; [apply Hn|done|]. intros e' h5 _. split; [intros _; by wp_step|done].
  - intros e h2 _. cbv beta. split; [intros _|done]. apply wp_except. eapply wp_mono; [apply Hn|done|]. intros e' h5 _. split; [intros _; by wp_step|done].
Qed.

Lemma create_later : pres later (create popen loads uid wire_server_address).
Proof.
  unfold create, fall_back_to_nft, new_iptables, get_unresolved_modules, new_nftables, require_tool. pres_auto.
  all: apply iptables_sound.
Qed.

(** *** What an operation does to the counters *)

Definition emitted (s : monitor) : Z := Z.of_nat (length (mo_emitted (K := K) s)).
Record grows (n : Z) (s s' : monitor (K := K)) : Prop := {
  gr_count : mo_period_report_count s' = mo_period_report_count s;
  gr_end : mo_period_end s' = mo_period_end s;
  gr_now : now_of clock s ≤ now_of clock s';
  gr_emitted : emitted s ≤ emitted s' ≤ emitted s + n;
  gr_reported : emitted s < emitted s' → mo_should_report s' = true;
  gr_still : mo_should_report s = true → mo_should_report s' = true;
  gr_allowed : mo_should_report s' = true → mo_should_report s = true ∨ mo_period_report_count s < MAX_REPORTS_PER_PERIOD;
  gr_manager : (∀ m, mo_manager s = Some m → sound m) → ∀ m, mo_manager s' = Some m → sound m
}.

Lemma grows_trans a b n s1 s2 s3 : grows a s1 s2 → grows b s2 s3 → a + b ≤ n → grows n s1 s3.
Proof.
  intros [] [] Hn. constructor; [congruence|congruence|lia|lia| | | |auto].
  - intros H. destruct (Z.lt_ge_cases (emitted s1) (emitted s2)) as [H1|H1]; [auto|]. apply gr_reported1. lia.
  - auto.
  - intros H. destruct (gr_allowed1 H) as [?|H1]; [auto|]. rewrite gr_count0 in H1. auto.
Qed.
Lemma grows_update st s : grows 0 s (update_firewall_state st s).
Proof.
  constructor; try done; unfold emitted; simpl; try lia.
  - intros ->. by rewrite orb_true_r.
  - intros [H|?]%orb_true_iff; [|auto]. right. apply andb_true_iff in H as [_ H]. lia.
Qed.
Lemma grows_emit op msg s : grows 1 s (emit_event op msg s).
Proof.
  constructor; try done; unfold emitted, now_of; simpl; try lia; destruct (mo_should_report s); rewrite ?length_app; simpl; auto; lia.
Qed.
Lemma grows_refl s : grows 0 s s.
Proof. constructor; auto; lia. Qed.

Lemma wp_on_shell {A} (m : M (shell K) exn A) s : pres later m → wp (on_shell m) (λ _, grows 0 s) (λ _, grows 0 s) s.
Proof.
  intros Hm. unfold on_shell. wp_step. specialize (Hm (mo_shell s)). unfold wp. destruct (m (mo_shell s)) as [[a|e] h]; simpl in *;
    (constructor; try done; unfold emitted; simpl; auto; lia).
Qed.

Lemma wp_emit op msg m s : wp (emit_state popen op msg m) (λ _, grows 1 s) (λ _, grows 0 s) s.
Proof.
  unfold emit_state. wp_step. eapply wp_mono; [apply wp_on_shell, get_state_later|..|done].
  intros t s1 H1. cbv beta. wp_step. eapply grows_trans; [exact H1|apply grows_emit|lia].
Qed.

Lemma wp_check m s : sound m → wp (check_firewall popen m) (λ _, grows 1 s) (λ _, grows 1 s) s.
Proof.
  intros (Hs & Hr & Hc). unfold check_firewall. wp_step. wp_step.
  assert (∀ (s1 : monitor) e, grows 0 s s1 → wp (
       if isinstance e IptablesInconsistencyError then
         modify (update_firewall_state Inconsistent) ;;
         modify (emit_event "FirewallInconsistency"
                   ("The results returned by iptables are inconsistent, will not change the current state of the firewall: " +:+ e_msg e)) ;;
         mret false
       else if isinstance e FirewallStateError then
         modify (update_firewall_state Invalid) ;;
         emit_state popen "ResetFirewall" ("The firewall is not configured correctly. " +:+ e_msg e +:+ ". Will reset it. Current state:") m ;;
         on_shell (fm_remove m) ;;
         mret true
       else raise e) (λ _ : bool, grows 1 s) (λ _, grows 1 s) s1) as Hh.
  { intros s1 e H1. destruct (isinstance e IptablesInconsistencyError); [|destruct (isinstance e FirewallStateError)].
    - repeat wp_step. eapply grows_trans; [exact H1|eapply grows_trans; [apply grows_update|apply grows_emit|reflexivity]|lia].
    - wp_step. wp_step. wp_step.
      assert (grows 0 s (update_firewall_state Invalid s1)) as H1' by (eapply grows_trans; [exact H1|apply grows_update|lia]).
      eapply wp_mono; [apply wp_emit|..].
      + intros [] s2 H2. cbv beta in *. wp_step. eapply wp_mono; [by apply wp_on_shell|..].
        * intros [] s3 H3. cbv beta in *. wp_step. eapply grows_trans; [exact H1'|eapply grows_trans; [exact H2|exact H3|reflexivity]|lia].
        * intros e' s3 H3. cbv beta in *. eapply grows_trans; [exact H1'|eapply grows_trans; [exact H2|exact H3|reflexivity]|lia].
      + intros e' s2 H2. cbv beta in *. eapply grows_trans; [exact H1'|exact H2|lia].
    - wp_step. eapply grows_trans; [exact H1|apply grows_refl|lia]. }
  eapply wp_mono; [by apply wp_on_shell|..].
  - intros [] s1 H1; cbv beta in *.
    + wp_step. wp_step. wp_step.
      assert (grows 0 s (update_firewall_state OK s1)) as H1' by (eapply grows_trans; [exact H1|apply grows_update|lia]).
      eapply wp_mono; [apply wp_emit|..].
      * intros [] s2 H2. cbv beta in *. wp_step. eapply grows_trans; [exact H1'|exact H2|lia].
      * intros e s2 H2. cbv beta in *. apply Hh. eapply grows_trans; [exact H1'|exact H2|lia].
    + repeat wp_step. eapply grows_trans; [exact H1|eapply grows_trans; [apply grows_update|apply grows_emit|reflexivity]|lia].
  - intros e s1 H1. cbv beta in *. by apply Hh.
Qed.

Lemma wp_get_manager s : (∀ m, mo_manager s = Some m → sound m) →
  wp (get_manager popen loads uid wire_server_address) (λ m s', sound m ∧ grows 0 s s') (λ _, grows 0 s) s.
Proof.
  intros Hm. unfold get_manager. wp_step. wp_step. destruct (mo_manager s) as [m|]; [wp_step; split; [by apply Hm|apply grows_refl]|].
  wp_step. pose proof (create_sound (mo_shell s)) as Hc. pose proof (create_later (mo_shell s)) as Hl. unfold on_shell. wp_step.
  unfold wp in *. destruct (create _ _ _ _ _) as [[m|e] h]; simpl in *.
  - unfold mbind, M_bind. simpl. split; [done|]. constructor; try done; unfold emitted; simpl; auto; try lia. congruence.
  - constructor; try done; unfold emitted; simpl; auto; lia.
Qed.

Lemma wp_body s : (∀ m, mo_manager s = Some m → sound m) →
  wp (operation_body popen clock loads uid wire_server_address)
     (λ _, grows 2 (update_reporting_state clock s)) (λ _, grows 1 (update_reporting_state clock s)) s.
Proof.
  intros Hm. unfold operation_body. wp_step. wp_step. set (s0 := update_reporting_state clock s). wp_step.
  eapply wp_mono; [by apply (wp_get_manager s0)|..].
  2:{ intros e s1 H1. cbv beta in *. eapply grows_trans; [exact H1|apply grows_refl|lia]. }
  intros m s1 [Hs H1]. wp_step. eapply wp_mono; [by apply wp_check|..]; cbv beta.
  2:{ intros e s2 H2. eapply grows_trans; [exact H1|exact H2|lia]. }
  intros b s2 H2. assert (grows 1 s0 s2) as H02 by (eapply grows_trans; [exact H1|exact H2|lia]).
  apply wp_when; intros _; [|eapply grows_trans; [exact H02|apply grows_refl|lia]].
  wp_step. eapply wp_mono; [apply wp_on_shell, Hs|..]; cbv beta.
  2:{ intros e s3 H3. eapply grows_trans; [exact H02|exact H3|lia]. }
  intros [] s3 H3. wp_step. wp_step. assert (grows 1 s0 (update_firewall_state OK s3)) as H03.
  { eapply grows_trans; [exact H02|eapply grows_trans; [exact H3|apply grows_update|reflexivity]|lia]. }
  eapply wp_mono; [apply wp_emit|..]; cbv beta; [intros [] s4 H4|intros e s4 H4]; (eapply grows_trans; [exact H03|exact H4|lia]).
Qed.

Lemma operation_grows s : (∀ m, mo_manager s = Some m → sound m) →
  ∃ s1, grows 2 (update_reporting_state clock s) s1 ∧ (operation s).2 = count_report s1.
Proof.
  intros Hm. assert (wp (except Exception_ (operation_body popen clock loads uid wire_server_address) (on_operation_error popen))
    (λ _, grows 2 (update_reporting_state clock s)) (λ _, grows 2 (update_reporting_state clock s)) s) as H.
  { apply wp_except. eapply wp_mono; [by apply wp_body|done|]. intros e s1 H1. cbv beta in *.
    split; intros _; [|eapply grows_trans; [exact H1|apply grows_refl|lia]]. unfold on_operation_error. wp_step. wp_step. wp_step. wp_step.
    assert (grows 1 (update_reporting_state clock s) (update_firewall_state Unknown s1)) as H1' by (eapply grows_trans; [exact H1|apply grows_update|lia]).
    destruct (mo_manager (update_firewall_state Unknown s1)) as [m|].
    - eapply wp_mono; [apply wp_emit|..]; cbv beta; [intros [] s2 H2|intros e' s2 H2]; (eapply grows_trans; [exact H1'|exact H2|lia]).
    - wp_step. eapply grows_trans; [exact H1'|apply grows_emit|lia]. }
  unfold wp in H. unfold EnableFirewall.operation, finally. destruct (except _ _ _ s) as [[[]|e] s1]; simpl; eauto.
Qed.

(** After [k] periods *)
Record limited (t0 k : Z) (s : monitor (K := K)) : Prop := {
  li_k : 0 ≤ k;
  li_end : t0 + (k + 1) * REPORTING_PERIOD ≤ mo_period_end s ≤ now_of clock s + REPORTING_PERIOD;
  li_count : 0 ≤ mo_period_report_count s ≤ MAX_REPORTS_PER_PERIOD;
  li_emitted : emitted s ≤ 2 * (MAX_REPORTS_PER_PERIOD * k + mo_period_report_count s);
  li_manager : ∀ m, mo_manager s = Some m → sound m
}.

Lemma update_limited t0 k s : limited t0 k s →
  ∃ k', limited t0 k' (update_reporting_state clock s) ∧
        (mo_should_report (update_reporting_state clock s) = true →
         mo_period_report_count (update_reporting_state clock s) < MAX_REPORTS_PER_PERIOD).
Proof.
  intros [Hk He Hc Hm Hs]. unfold MAX_REPORTS_PER_PERIOD, REPORTING_PERIOD in *. destruct (mo_period_end s <=? now_of clock s) eqn:H.
  - exists (k + 1). split; [constructor; cbn; rewrite ?H; unfold emitted, now_of, MAX_REPORTS_PER_PERIOD, REPORTING_PERIOD in *; cbn; try lia; try done|].
    cbn. rewrite H. lia.
  - exists k. split; [constructor; cbn; rewrite ?H; unfold emitted, now_of, MAX_REPORTS_PER_PERIOD, REPORTING_PERIOD in *; cbn; try lia; try done|].
    cbn. rewrite H. intros [_ ?]%andb_true_iff. unfold MAX_REPORTS_PER_PERIOD in *. lia.
Qed.

Lemma step_limited t0 k s s' : step s s' → limited t0 k s → ∃ k', limited t0 k' s'.
Proof.
  intros [|h Hh] Hl.
  - destruct (operation_grows s) as (s1 & [] & ->); [apply Hl|]. destruct (update_limited t0 k s Hl) as (k' & [Hk He Hc Hm Hs] & Hr).
    exists k'. unfold emitted in *. constructor; cbn [count_report mo_period_report_count mo_period_end mo_emitted mo_manager]; [done| |..].
    + split; [rewrite gr_end0; lia|]. transitivity (now_of clock (update_reporting_state clock s) + REPORTING_PERIOD); [rewrite gr_end0; lia|].
      apply Z.add_le_mono_r. exact gr_now0.
    + destruct (mo_should_report s1) eqn:Hsr; [|lia]. destruct (gr_allowed0 eq_refl) as [H|H]; [apply Hr in H|]; lia.
    + destruct (mo_should_report s1) eqn:Hsr; unfold emitted; cbn [count_report mo_emitted]; [lia|].
      assert (¬ (Z.of_nat (length (mo_emitted (update_reporting_state clock s))) < Z.of_nat (length (mo_emitted s1)))) by (intros H; by apply gr_reported0 in H). lia.
    + by apply gr_manager0.
  - exists k. destruct Hl as [Hk He Hc Hm Hs]. constructor; try done. cbn. unfold now_of in *. cbn. lia.
Qed.

(** Reports are limited.  However often the check runs and whatever the commands do, as long as the
    clock does not go back, at most sixteen events (two for each of eight reports) are emitted in each
    period of 24 hours. *)
Theorem firewall_reports_are_limited h s :
  rtc step (new_monitor clock h) s →
  Z.of_nat (length (mo_emitted s)) ≤ 16 * (1 + (now_of clock s - clock (sh_machine h)) / REPORTING_PERIOD).
Proof.
  intros Hs. assert (∃ k, limited (clock (sh_machine h)) k s) as [k [Hk He Hc Hm _]].
  { revert s Hs. apply rtc_ind_r; [|intros s1 s2 _ H12 [k Hk]; by eapply step_limited].
    exists 0. constructor; unfold emitted, now_of, MAX_REPORTS_PER_PERIOD, REPORTING_PERIOD; cbn; try lia; done. }
  unfold emitted, MAX_REPORTS_PER_PERIOD in *.
  assert (k ≤ (now_of clock s - clock (sh_machine h)) / REPORTING_PERIOD) by (apply Z.div_le_lower_bound; unfold REPORTING_PERIOD in *; lia). lia.
Qed.
End reports.

Lemma firewall_reports_are_limited_witness :
  let h := mkShell [] Sample.partial_rules in
  let s := (operation (Sample.sim false) (λ _, 0) (λ _, Ok JNull) 0 Sample.address (new_monitor (λ _, 0) h)).2 in
  rtc (step (Sample.sim false) (λ _, 0) (λ _, Ok JNull) 0 Sample.address) (new_monitor (λ _, 0) h) s ∧
  Z.of_nat (length (mo_emitted s)) ≤ 16 * (1 + (now_of (λ _, 0) s - 0) / REPORTING_PERIOD).
Proof.
  intros h s.
  assert (rtc (step (Sample.sim false) (λ _, 0) (λ _, Ok JNull) 0 Sample.address) (new_monitor (λ _, 0) h) s) as Hs by apply rtc_once, Operation.
  split; [exact Hs|]. refine (firewall_reports_are_limited (Sample.sim false) (λ _, 0) (λ _, Ok JNull) 0 Sample.address _ h s Hs). intros c i k. reflexivity.
Defined.
