(* ===== verification/PersistFirewall.v ===== *)
(** * Firewall rules across reboots (ga/persist_firewall_rules.py)

    With firewalld running the rules are permanent rules of firewalld; otherwise a service of systemd
    runs the agent at boot with [--setup-firewall].  The unit file of the service carries a version, so
    that a newer agent replaces it.

    The names and directories that depend on the distribution are fields of [persist_conf].  Log
    output and events are omitted. *)
From S2P Require Import Prelude PyExn FlexVersion Datetime Json Urls TextUtil World History Shell Machine Firewall EnableFirewall.
From S2P Require Import ExtInstance Samples.
From Stdlib Require Import Ascii.
Import Re.

Record persist_conf := mkPersistConf {
  pc_service_name : string;      (* osutil.get_service_name() *)
  pc_install_path : path;        (* osutil.get_network_setup_service_install_path() *)
  pc_distro : string;
  pc_is_systemd : bool;
  pc_python : string;            (* sys.executable *)
  pc_agent : string              (* os.path.join(os.getcwd(), sys.argv[0]) *)
}.

Definition nl : string := String "010" "".
Definition unlines (l : list string) : string := str_join nl l.

Section persist.
Context {K : Type} (popen : list string → option string → K → process * K).
Context (E : env) (c : persist_conf) (uid : Z) (dst_ip : string).

Notation PS X := (M (pstate K) exn X).
Notation run_command cmd := (on_ps_shell (Shell.run_command popen cmd None)).

Definition UNIT_VERSION : string := "1.5".
Definition BINARY_FILE_NAME : string := "waagent-network-setup.py".
(** [_AGENT_NETWORK_SETUP_NAME_FORMAT], [get_service_file_path] *)
Definition network_setup_service_name : string := pc_service_name c +:+ "-network-setup.service".
Definition service_file_path : path := pc_install_path c ++ [network_setup_service_name].
Definition binary_file_path : path := lib_dir E ++ [BINARY_FILE_NAME].

Definition service_file_content (after_dependencies : string) : string :=
  unlines
    ["";
     "# This unit file (Version=" +:+ UNIT_VERSION +:+ ") was created by the Azure VM Agent.";
     "# Do not edit.";
     "[Unit]";
     "Description=Setup network rules for WALinuxAgent";
     "After=" +:+ after_dependencies;
     "Before=network-pre.target";
     "Wants=network-pre.target";
     "DefaultDependencies=no";
     "ConditionPathExists=" +:+ path_str binary_file_path;
     "";
     "[Service]";
     "Type=oneshot";
     "ExecStart=" +:+ pc_python c +:+ " " +:+ path_str binary_file_path;
     "RemainAfterExit=yes";
     "";
     "[Install]";
     "WantedBy=network.target";
     ""].

Definition in_quotes (s : string) : string := String dquote (s +:+ String dquote "").
Definition binary_contents : string :=
  unlines
    ["";
     "# This python file was created by the Azure VM Agent. Please do not edit.";
     "";
     "import os ";
     "";
     "";
     "if __name__ == '__main__':";
     "    if os.path.exists(" +:+ in_quotes (pc_agent c) +:+ "):";
     "        os.system(" +:+ in_quotes (pc_python c +:+ " " +:+ pc_agent c +:+ " --setup-firewall=" +:+ dst_ip) +:+ ")";
     "    else:";
     "        print(" +:+ in_quotes (pc_agent c +:+ " file not found, skipping execution of firewall execution setup for this boot") +:+ ")";
     ""].

(** [_is_firewall_service_running] *)
Definition is_firewall_service_running : PS bool :=
  except Exception_ (out ← run_command ["firewall-cmd"; "--state"]; mret (String.eqb (drop_spaces_end out) "running")) (λ _, mret false).

(** [__remove_file_without_raising] *)
Definition remove_file_without_raising (p : path) : PS unit :=
  s ← gets ps_fs;
  when (exists_path p s) (except Exception_ (on_ps_world (remove_file (write_fault E) p)) (λ _, mret tt)).

(** [__setup_binary_file] *)
Definition setup_binary_file : PS unit :=
  except Exception_ (on_ps_world (write_file (write_fault E) binary_file_path (plain binary_contents)))
    (λ e, remove_file_without_raising binary_file_path ;; remove_file_without_raising service_file_path ;; raise e).

(** [__verify_network_setup_service_enabled] *)
Definition verify_network_setup_service_enabled : PS bool :=
  except Exception_
    (out ← run_command ["systemctl"; "is-enabled"; network_setup_service_name]; mret (String.eqb (drop_spaces_end out) "enabled"))
    (λ _, mret false).

(** [__set_service_unit_file] *)
Definition after_dependencies : string :=
  if String.eqb (pc_distro c) "azurecontainerlinux" then "local-fs.target systemd-sysext.service" else "local-fs.target".
Definition set_service_unit_file : PS unit :=
  except Exception_
    (on_ps_world (write_file (write_fault E) service_file_path (plain (service_file_content after_dependencies))) ;;
     except CommandError (run_command ["systemctl"; "enable"; network_setup_service_name] ;; mret tt)
       (λ e, raise (py_error Exception_ ("Unable to enable service: " +:+ network_setup_service_name +:+ "; deleting service file: " +:+
                                         path_str service_file_path +:+ ". Exit-code: " +:+ pretty (returncode e)))))
    (λ e, remove_file_without_raising service_file_path ;; raise e).

(** [__log_network_setup_service_logs]: the commands it runs *)
Definition log_network_setup_service_logs : PS unit :=
  except Exception_ (run_command ["systemctl"; "is-failed"; network_setup_service_name] ;; mret tt) (λ _, mret tt) ;;
  except Exception_ (run_command ["journalctl"; "-u"; network_setup_service_name; "-b"; "--utc"] ;; mret tt) (λ _, mret tt).

(** [fileutil.findre_in_file]: the group of the first line in which the expression is found; a file
    that cannot be read has none. *)
Fixpoint search_group (m : string → option string) (s : string) : option string :=
  match m s with
  | Some g => Some g
  | None => match s with EmptyString => None | String _ s' => search_group m s' end
  end.
Fixpoint first_group (m : string → option string) (l : list string) : option string :=
  match l with
  | [] => None
  | x :: l' => match search_group m x with Some g => Some g | None => first_group m l' end
  end.
Definition findre_in_file (m : string → option string) (p : path) (f : fs) : option string :=
  match read_file p f with Ok x => first_group m (lines (c_text x)) | Err _ => None end.

(** ["This unit file \(Version=([\d.]+)\) was created by the Azure VM Agent."] and ["ExecStart=(.*)"] *)
Definition version_re (s : string) : option string :=
  match strip_prefix "This unit file (Version=" s with
  | Some r =>
      let '(v, r') := span is_version_char r in
      match strip_prefix ") was created by the Azure VM Agent" r' with
      | Some (String _ _) => if String.eqb v "" then None else Some v
      | _ => None
      end
  | None => None
  end.
Definition exec_start_re (s : string) : option string := strip_prefix "ExecStart=" s.
Definition strip (s : string) : string := drop_spaces_end (drop_spaces s).

(** [__get_unit_file_version], [__get_unit_exec_start] *)
Definition get_from_unit_file (m : string → option string) (tag : string) (f : fs) : res exn string :=
  if negb (exists_path service_file_path f) then Err (py_error OSError (path_str service_file_path +:+ " not found"))
  else match findre_in_file m service_file_path f with
       | None => Err (py_error ValueError (tag +:+ " tag not found in the unit file"))
       | Some g => Ok (strip g)
       end.
Definition get_unit_file_version : fs → res exn string := get_from_unit_file version_re "Version".
Definition get_unit_exec_start : fs → res exn string := get_from_unit_file exec_start_re "ExecStart".

(** [__should_update_unit_file] *)
Definition should_update_unit_file (f : fs) : bool :=
  match get_unit_file_version f, get_unit_exec_start f with
  | Ok version, Ok exec_start =>
      negb (String.eqb version UNIT_VERSION) || negb (String.eqb exec_start (pc_python c +:+ " " +:+ path_str binary_file_path))
  | _, _ => true
  end.

(** The clean-up of the old service file in image mode *)
Definition clean_up_image_mode : PS unit :=
  f ← gets ps_fs;
  let old := ["usr"; "lib"; "systemd"; "system"; network_setup_service_name] in
  when (String.eqb (pc_distro c) "rhel" && exists_path ["run"; "ostree-booted"] f && exists_path old f && isfile old f)
    (except Exception_ (on_ps_world (remove_file (write_fault E) old)) (λ _, mret tt)).

(** [_setup_network_setup_service] *)
Definition setup_network_setup_service : PS unit :=
  clean_up_image_mode ;;
  setup_binary_file ;;
  network_service_enabled ← verify_network_setup_service_enabled;
  f ← gets ps_fs;
  if network_service_enabled && negb (should_update_unit_file f) then log_network_setup_service_logs else set_service_unit_file.

(** [setup] *)
Notation FirewallCmd := (FirewallCmd popen uid dst_ip).
Definition remove_passthrough_rules : PS unit :=
  except Exception_
    (m ← on_ps_shell (new_firewallcmd popen uid dst_ip);
     except Exception_ (on_ps_shell (fm_remove_legacy_rule m)) (λ _, mret tt) ;;
     except Exception_ (on_ps_shell (fm_remove m)) (λ _, mret tt))
    (λ _, mret tt).

Definition remove_custom_service : PS unit :=
  except Exception_
    (for_each [service_file_path; binary_file_path] (λ p,
       f ← gets ps_fs; when (isfile p f) (on_ps_world (remove_file (write_fault E) p))))
    (λ _, mret tt).

Definition setup_firewalld : PS unit :=
  m ← on_ps_shell (new_firewallcmd popen uid dst_ip);
  except Exception_ (on_ps_shell (fm_remove_legacy_rule m)) (λ _, mret tt) ;;
  except FirewallStateError
    (ok ← on_ps_shell (fm_check m);
     when (negb ok) (on_ps_shell (fm_setup m)) ;;
     on_ps_shell (get_state popen m) ;; mret tt)
    (λ _, on_ps_shell (get_state popen m) ;; on_ps_shell (fm_remove m) ;; on_ps_shell (fm_setup m) ;; on_ps_shell (get_state popen m) ;; mret tt) ;;
  remove_custom_service.

Definition setup (runtime_uses_nftables : bool) : PS unit :=
  firewalld_service_running ← is_firewall_service_running;
  if negb firewalld_service_running || runtime_uses_nftables then
    when firewalld_service_running remove_passthrough_rules ;;
    when (pc_is_systemd c) setup_network_setup_service
  else setup_firewalld.
End persist.

(** ** The service is recognised *)

Definition no_newline (s : string) : Prop := str_forallb (λ x, negb (Ascii.eqb x "010")) s = true.

Lemma lines_go_app cur x rest : no_newline x → lines_go cur (x +:+ nl +:+ rest) = (cur +:+ x) :: lines_go "" rest.
Proof.
  unfold no_newline. revert cur. induction x as [|a x IH]; intros cur; simpl; [by rewrite string_app_nil_r|].
  intros [Ha Hx]%andb_true_iff. apply negb_true_iff in Ha. rewrite Ha.
  rewrite IH by done. by rewrite string_app_assoc.
Qed.

Lemma lines_unlines l : Forall no_newline l → lines (unlines (l ++ [""])) = l.
Proof.
  unfold lines, unlines. induction 1 as [|x l Hx Hl IH]; [done|]. destruct l as [|y l].
  - change (str_join nl ([x] ++ [""])) with (x +:+ nl +:+ ""). by rewrite lines_go_app.
  - change (str_join nl ((x :: y :: l) ++ [""])) with (x +:+ nl +:+ str_join nl ((y :: l) ++ [""])). rewrite lines_go_app by done. by rewrite IH.
Qed.

Lemma search_absent k s : str_contains k s = false → search_group (strip_prefix k) s = None.
Proof.
  induction s as [|a s IH]; simpl; unfold starts_with.
  - by destruct (strip_prefix k "").
  - destruct (strip_prefix k (String a s)); [done|]. simpl. exact IH.
Qed.

Lemma drop_spaces_end_last s a : is_py_space a = false → drop_spaces_end (s +:+ String a "") = s +:+ String a "".
Proof. intros Ha. induction s as [|b s IH]; simpl; [by rewrite Ha|]. rewrite IH. by destruct s. Qed.

Lemma join_last l x : ∃ s, str_join "/" (l ++ [x]) = s +:+ x.
Proof.
  induction l as [|y l [s Hs]]; [by exists ""|]. exists (y +:+ "/" +:+ s).
  assert (str_join "/" ((y :: l) ++ [x]) = y +:+ "/" +:+ str_join "/" (l ++ [x])) as -> by by destruct l.
  by rewrite Hs, !string_app_assoc.
Qed.

Section recognised.
Context {K : Type} (popen : list string → option string → K → process * K) (E : env) (c : persist_conf) (uid : Z) (dst_ip : string).
Notation binary := (path_str (binary_file_path E)).
(** The names are sensible: no line breaks, the path of the interpreter is not empty and does not start
    with a space, and the directory of the agent is not named like an option of the unit file. *)
Context (a : ascii) (python : string) (Hpython : pc_python c = String a python) (Ha : is_py_space a = false) (Hnl : no_newline (pc_python c)).
Context (Hbin : no_newline binary) (Hexec : str_contains "ExecStart=" binary = false).

Lemma no_newline_app x y : no_newline x → no_newline y → no_newline (x +:+ y).
Proof. unfold no_newline. intros Hx Hy. by rewrite str_forallb_app, Hx, Hy. Qed.

Lemma exec_start_stripped : strip (pc_python c +:+ " " +:+ binary) = pc_python c +:+ " " +:+ binary.
Proof.
  unfold strip. assert (drop_spaces (pc_python c +:+ " " +:+ binary) = pc_python c +:+ " " +:+ binary) as -> by (rewrite Hpython; simpl; by rewrite Ha).
  unfold path_str, binary_file_path. destruct (join_last (lib_dir E) BINARY_FILE_NAME) as [s ->].
  replace (pc_python c +:+ " " +:+ "/" +:+ s +:+ BINARY_FILE_NAME)
    with ((pc_python c +:+ " " +:+ "/" +:+ s +:+ "waagent-network-setup.p") +:+ "y") by by rewrite !string_app_assoc.
  by apply drop_spaces_end_last.
Qed.

Lemma written_unit_is_recognised f t :
  f !! service_file_path c = Some (File (plain (service_file_content E c (after_dependencies c))) t) → should_update_unit_file E c f = false.
Proof.
  intros Hf. unfold should_update_unit_file, get_unit_file_version, get_unit_exec_start, get_from_unit_file, findre_in_file, exists_path, read_file.
  rewrite Hf. cbn [negb c_text plain].
  assert (no_newline (after_dependencies c)) as Hafter by (unfold after_dependencies; by destruct (String.eqb _ _)).
  assert (str_contains "ExecStart=" (after_dependencies c) = false) as Hafter' by (unfold after_dependencies; by destruct (String.eqb _ _)).
  unfold service_file_content. match goal with |- context [unlines ?l] => set (all := l) end.
  assert (lines (unlines all) = removelast all) as ->.
  { change all with (removelast all ++ [""]) at 1. apply lines_unlines. subst all. cbn [removelast].
    repeat (apply Forall_cons; split); try apply Forall_nil; try reflexivity.
    - by apply no_newline_app.
    - by apply no_newline_app.
    - apply no_newline_app; [reflexivity|]. apply no_newline_app; [done|]. by apply no_newline_app. }
  subst all.
  match goal with |- context [first_group version_re ?l] => assert (first_group version_re l = Some UNIT_VERSION) as -> by reflexivity end.
  assert (search_group exec_start_re ("After=" +:+ after_dependencies c) = None) as H1 by exact (search_absent _ _ Hafter').
  assert (search_group exec_start_re ("ConditionPathExists=" +:+ binary) = None) as H2 by exact (search_absent _ _ Hexec).
  match goal with |- context [first_group exec_start_re ?l] => assert (first_group exec_start_re l = Some (pc_python c +:+ " " +:+ binary)) as -> end.
  { cbn [removelast first_group]. rewrite H1, H2. reflexivity. }
  by rewrite exec_start_stripped, !String.eqb_refl.
Qed.

Definition unit_file_gone (s : pstate K) : Prop := isfile (service_file_path c) (ps_fs s) = false.

Lemma wp_remove_unit s (Q : unit → pstate K → Prop) R :
  write_fault E (service_file_path c) = None → (∀ s', unit_file_gone s' → Q tt s') →
  wp (remove_file_without_raising E (service_file_path c)) Q R (s : pstate K).
Proof.
  intros Hw HQ. unfold remove_file_without_raising. wp_step. wp_step. apply wp_when; intros He.
  - apply wp_except. unfold on_ps_world. wp_step. unfold wp, remove_file. destruct (isfile _ _) eqn:Hi.
    + rewrite Hw. apply HQ. unfold unit_file_gone, isfile, ps_fs. cbn. by rewrite lookup_delete_eq.
    + split; [|done]. intros _. by apply HQ.
  - apply HQ. unfold unit_file_gone, isfile. unfold exists_path in He. by destruct (_ !! _).
Qed.

Lemma wp_ps_write p x (Q : unit → pstate K → Prop) R (s : pstate K) :
  (∀ s' t, ps_fs s' = <[p := File x t]> (ps_fs s) → write_fault E p = None → Q tt s') → (∀ e s', R e s') →
  wp (on_ps_world (write_file (write_fault E) p x)) Q R s.
Proof.
  intros HQ HR. unfold on_ps_world. wp_step. unfold wp, write_file. destruct (isdir _ _); [apply HR|]. destruct (negb _); [apply HR|].
  destruct (write_fault E p) as [[tr e]|]; [apply HR|]. by eapply HQ.
Qed.

(** A removal that does not raise ordinary exceptions *)
Lemma wp_remove_quietly p (Q : unit → pstate K → Prop) R (s : pstate K) :
  (∀ s', Q tt s') → (∀ e s', isinstance e Exception_ = false → R e s') → wp (remove_file_without_raising E p) Q R s.
Proof.
  intros HQ HR. unfold remove_file_without_raising. wp_step. wp_step. apply wp_when; intros _; [|apply HQ]. apply wp_except.
  eapply wp_mono; [apply wp_any|intros [] ??; apply HQ|]. intros e s' _. cbv beta. split; intros He; [wp_step; apply HQ|by apply HR].
Qed.

Definition failed (e : exn) (s : pstate K) : Prop :=
  isinstance e Exception_ = true → write_fault E (service_file_path c) = None → unit_file_gone s.

Lemma wp_binary_file s :
  wp (setup_binary_file E c dst_ip)
    (λ _ s', read_file (binary_file_path E) (ps_fs s') = Ok (plain (binary_contents c dst_ip))) failed (s : pstate K).
Proof.
  unfold setup_binary_file. apply wp_except. apply wp_ps_write.
  - intros s' t Hs' _. unfold read_file. by rewrite Hs', lookup_insert_eq.
  - intros e s1. split; intros He; [|by unfold failed; congruence]. wp_step. apply wp_remove_quietly.
    2:{ intros e' s2 He'. unfold failed. congruence. }
    intros s2. wp_step. destruct (write_fault E (service_file_path c)) eqn:Hw.
    + apply wp_remove_quietly; [intros s3; wp_step; unfold failed; congruence|unfold failed; congruence].
    + apply wp_remove_unit; [done|]. intros s3 Hs3. wp_step. by intros _ _.
Qed.

Lemma wp_unit_file s :
  service_file_path c ≠ binary_file_path E →
  wp (set_service_unit_file popen E c)
    (λ _ s', ps_fs s' !! binary_file_path E = ps_fs s !! binary_file_path E ∧ should_update_unit_file E c (ps_fs s') = false) failed s.
Proof.
  intros Hne. unfold set_service_unit_file. apply wp_except. wp_step.
  assert (∀ e s1, isinstance e Exception_ = true →
            wp (remove_file_without_raising E (service_file_path c) ;; raise e)
               (λ (_ : unit) s', ps_fs s' !! binary_file_path E = ps_fs s !! binary_file_path E ∧ should_update_unit_file E c (ps_fs s') = false) failed s1) as Hh.
  { intros e s1 He. wp_step. destruct (write_fault E (service_file_path c)) eqn:Hw.
    - apply wp_remove_quietly; [intros s3; wp_step; unfold failed; congruence|unfold failed; congruence].
    - apply wp_remove_unit; [done|]. intros s3 Hs3. wp_step. by intros _ _. }
  apply wp_ps_write.
  - intros s1 t Hs1 Hw. apply wp_except. wp_step. apply wp_ps_shell.
    + intros _ s2 Hs2. wp_step. assert (ps_fs s2 = ps_fs s1) as Hfs by (unfold ps_fs; by rewrite Hs2).
      rewrite Hfs, Hs1. split; [by rewrite lookup_insert_ne|]. eapply written_unit_is_recognised. apply lookup_insert_eq.
    + intros e s2 Hs2. split; intros Hc; [|split; intros He; [by apply Hh|unfold failed; congruence]].
      wp_step. split; intros He; [by apply Hh|done].
  - intros e s1. split; intros He; [by apply Hh|unfold failed; congruence].
Qed.

(** C20: the service that sets up the firewall at boot is installed and recognised.  After the set-up the
    script runs the current agent with the current address, and the unit file is one that the next
    start leaves alone; if it fails with an ordinary error there is no unit file, provided the disk
    lets it be removed. *)
Theorem persistent_service_is_recognised s :
  service_file_path c ≠ binary_file_path E →
  wp (setup_network_setup_service popen E c dst_ip)
    (λ _ s', read_file (binary_file_path E) (ps_fs s') = Ok (plain (binary_contents c dst_ip)) ∧ should_update_unit_file E c (ps_fs s') = false)
    failed s.
Proof.
  intros Hne. unfold setup_network_setup_service. wp_step. unfold clean_up_image_mode. wp_step. wp_step.
  eapply (wp_mono _ (λ _ _, True) _ (λ e _, isinstance e Exception_ = false)); [apply wp_when; intros _; [by apply wp_swallow|done]| |by unfold failed; congruence].
  intros [] s1 _. cbv beta. wp_step. eapply wp_mono; [apply wp_binary_file| |done]. intros [] s2 Hb. cbv beta in Hb. wp_step.
  unfold verify_network_setup_service_enabled. apply wp_except. wp_step.
  assert (∀ (b : bool) s3, ps_world s3 = ps_world s2 →
    wp (f ← gets ps_fs; if b && negb (should_update_unit_file E c f) then log_network_setup_service_logs popen c else set_service_unit_file popen E c)
      (λ _ s', read_file (binary_file_path E) (ps_fs s') = Ok (plain (binary_contents c dst_ip)) ∧ should_update_unit_file E c (ps_fs s') = false)
      failed s3) as Hrest.
  { intros b s3 H3. assert (ps_fs s3 = ps_fs s2) as Hfs by (unfold ps_fs; by rewrite H3). wp_step. wp_step. destruct (b && _) eqn:Hu.
    - apply andb_true_iff in Hu as [_ Hu%negb_true_iff]. unfold log_network_setup_service_logs.
      eapply (wp_mono _ (λ _ s', ps_world s' = ps_world s2) _ (λ e _, isinstance e Exception_ = false)).
      + wp_step. apply wp_except. wp_step. apply wp_ps_shell; [intros _ s4 H4; wp_step|intros e s4 H4; split; [intros _; wp_step|done]];
          (apply wp_except; wp_step; apply wp_ps_shell; [intros _ s5 H5; wp_step|intros e' s5 H5; split; [intros _; wp_step|done]]; congruence).
      + intros [] s4 H4. assert (ps_fs s4 = ps_fs s3) as -> by (unfold ps_fs; by rewrite H4, H3). by rewrite Hfs in *.
      + unfold failed. congruence.
    - eapply wp_mono; [by apply wp_unit_file| |done]. intros [] s4 [Hbin4 Hu4]. split; [|done]. unfold read_file in *. by rewrite Hbin4, Hfs. }
  apply wp_ps_shell.
  - intros out s3 H3. wp_step. by apply Hrest.
  - intros e s3 H3. split; intros He; [wp_step; by apply Hrest|unfold failed; congruence].
Qed.
End recognised.

Definition sample_persist_conf : persist_conf :=
  mkPersistConf "walinuxagent" ["lib"; "systemd"; "system"] "ubuntu" true "/usr/bin/python3" "/usr/sbin/waagent".

Lemma persistent_service_is_recognised_witness :
  wp (setup_network_setup_service (Sample.sim false) sample_env sample_persist_conf "168.63.129.16")
    (λ _ s', read_file (binary_file_path sample_env) (ps_fs s') = Ok (plain (binary_contents sample_persist_conf "168.63.129.16")) ∧
             should_update_unit_file sample_env sample_persist_conf (ps_fs s') = false)
    (failed sample_env sample_persist_conf) (mkPState sample_world (mkShell [] [])).
Proof.
  apply (persistent_service_is_recognised (Sample.sim false) sample_env sample_persist_conf "168.63.129.16" "/" "usr/bin/python3").
  - reflexivity.
  - reflexivity.
  - reflexivity.
  - reflexivity.
  - reflexivity.
  - discriminate.
Defined.
