(* ===== verification/Http.v ===== *)
(** * The HTTP client (common/utils/restutil.py)

    [http_request] sends a request until it is answered, with delays that grow with the
    Fibonacci numbers, or that are fixed once the server throttled a request.  The network
    is a parameter: the answer to a request, or the exception raised, may depend on all the
    exchanges before it.  The state is the log of the exchanges, with the delay slept
    before each, and the counters of [IOErrorCounter]. *)
From S2P Require Import Prelude PyExn FlexVersion Json Urls.
From Stdlib Require Import Ascii.

(** [None] as the body: reading it raises. *)
Record response := mkResponse {
  r_status : Z;
  r_reason : string;
  r_headers : list (string * string);
  r_body : option string
}.

Record request := mkRequest {
  rq_method : string;
  rq_host : option string;
  rq_port : Z;
  rq_tunnel : option (option string * Z);
  rq_secure : bool;
  rq_url : string;
  rq_data : option string;
  rq_headers : list (string * string);
  rq_timeout : Z
}.

Record exchange := mkExchange {
  x_delay : Z;
  x_request : request;
  x_outcome : res exn response
}.

(** [IOErrorCounter._counts] and the log *)
Record hstate := mkHState {
  h_log : list exchange;
  h_hostplugin : Z;
  h_protocol : Z;
  h_other : Z
}.
Notation H X := (M hstate exn X).

Record http_env := mkHttpEnv {
  he_proxies : proxy_conf;
  he_allow_http : bool;
  (** Whether the interpreter has [HTTPSConnection] and its [set_tunnel] *)
  he_has_https : bool;
  he_has_tunnel : bool;
  he_protocol_endpoint : string;
  he_user_agent : string;
  transport : list exchange → request → res exn response
}.

Definition DEFAULT_RETRIES : Z := 6.
Definition DELAY_IN_SECONDS : Z := 1.
Definition FAIL_FAST_REQUEST_TIMEOUT : Z := 5.
Definition THROTTLE_RETRIES : Z := 25.
Definition THROTTLE_DELAY_IN_SECONDS : Z := 1.
Definition HOST_PLUGIN_PORT : Z := 32526.

Definition RETRY_CODES : list Z := [205; 206; 403; 500; 501; 502; 503; 504; 507; 429].
Definition HGAP_GET_EXTENSION_ARTIFACT_RETRY_CODES : list Z := RETRY_CODES ++ [400].
Definition RESOURCE_GONE_CODES : list Z := [410].
Definition OK_CODES : list Z := [200; 201; 202].
Definition NOT_MODIFIED_CODES : list Z := [304].
Definition HOSTPLUGIN_UPSTREAM_FAILURE_CODES : list Z := [502].
Definition THROTTLE_CODES : list Z := [403; 503; 429].
Definition RETRY_EXCEPTIONS : list exn_class := [NotConnected; IncompleteRead; ImproperConnectionState; BadStatusLine].
Definition HEADERS_TO_INCLUDE_IN_FAILURE_MSG : list string := ["x-ms-artifact-location"; "x-ms-artifact-manifest-location"].

Definition code_in (z : Z) (l : list Z) : bool := existsb (Z.eqb z) l.

(** The arguments of [http_request], with their defaults filled in *)
Record call := mkCall {
  c_method : string;
  c_url : string;
  c_data : option string;
  c_timeout : Z;
  c_headers : option (list (string * string));
  c_use_proxy : bool;
  c_max_retry : Z;
  c_retry_codes : list Z;
  c_retry_delay : Z;
  c_throttle_delay : Z;
  c_return_raw_response : bool;
  c_fail_fast_on_timeout : bool
}.

(** ** Classification *)

(** [_compute_delay] *)
Fixpoint fib_loop (n : nat) (fib : Z * Z) : Z * Z :=
  match n with
  | O => fib
  | S n' => fib_loop n' (fib.2, fib.1 + fib.2)
  end.
Definition compute_delay (retry_attempt delay : Z) : Z := delay * (fib_loop (Z.to_nat retry_attempt) (1, 1)).2.

Definition is_retry_status (status : Z) (retry_codes : list Z) : bool := code_in status retry_codes.
Definition is_retry_exception (e : exn) : bool := existsb (isinstance e) RETRY_EXCEPTIONS.
Definition is_throttle_status (status : Z) : bool := code_in status THROTTLE_CODES.
Definition is_telemetry_req (url : string) : bool := str_contains "telemetrydata" url.

(** The responses are there ([resp is not None]). *)
Definition request_succeeded (r : response) (ok_codes : list Z) : bool := code_in (r_status r) ok_codes.
Definition request_failed (r : response) (ok_codes : list Z) : bool := negb (request_succeeded r ok_codes).
Definition request_not_modified (r : response) : bool := code_in (r_status r) NOT_MODIFIED_CODES.
Definition request_failed_at_hostplugin (r : response) (upstream_failure_codes : list Z) : bool :=
  (500 <=? r_status r) && negb (code_in (r_status r) upstream_failure_codes).

(** [read_response_error]; characters that are not ASCII are dropped. *)
Definition read_response_error (r : response) : string :=
  match r_body r with
  | None => ""
  | Some b => str_filter (λ c, code c <? 128)
                ("[HTTP Failed] [" +:+ pretty (r_status r) +:+ ": " +:+ r_reason r +:+ "] " +:+ b)
  end.

Definition http_error (msg : string) : exn := agent_error HttpError msg None (-1).

Section http.
Context (E : http_env).

(** [IOErrorCounter.increment] and [get_and_reset] *)
Definition increment (host : option string) (port : option Z) (s : hstate) : hstate :=
  if bool_decide (host = Some (he_protocol_endpoint E)) then
    if bool_decide (port = Some HOST_PLUGIN_PORT)
    then mkHState (h_log s) (h_hostplugin s + 1) (h_protocol s) (h_other s)
    else mkHState (h_log s) (h_hostplugin s) (h_protocol s + 1) (h_other s)
  else mkHState (h_log s) (h_hostplugin s) (h_protocol s) (h_other s + 1).

Definition get_and_reset : H (Z * Z * Z) := λ s,
  (Ok (h_hostplugin s, h_protocol s, h_other s), mkHState (h_log s) 0 0 0).

(** Where a request goes, as [http_request] found out before its loop *)
Record target := mkTarget {
  t_host : option string;
  t_port : option Z;
  t_secure : bool;
  t_rel_uri : string;
  t_proxy_host : option string;
  t_proxy_port : option Z
}.

(** The part of [http_request] before the loop *)
Definition find_target (c : call) : res exn target :=
  '(host, port, secure, rel_uri) ← parse_url (c_url c);
  bypass ← (if c_use_proxy c then bypass_proxy (he_proxies E) host else Ok true);
  '(ph, pp) ← (if (bypass : bool) then Ok (None, None) else get_http_proxy (he_proxies E) secure);
  secure ← (if secure && negb (he_has_https E) then
              if he_allow_http E then Ok false else Err (http_error "HTTPS is unavailable and required")
            else Ok secure);
  secure ← (if (secure : bool) && bool_decide (is_Some ph) && bool_decide (is_Some pp) && negb (he_has_tunnel E) then
              if he_allow_http E then Ok false else Err (http_error "HTTPS tunnelling is unavailable and required")
            else Ok secure);
  Ok (mkTarget host port secure rel_uri ph pp).

(** [_http_request]: the request that is put on the wire.  The headers are changed in
    place, which is idempotent: every attempt sends the same ones. *)
Definition build_request (c : call) (t : target) (timeout : Z) : request :=
  let headers := dict_set "Connection" "close" (default [] (c_headers c)) in
  let headers := match dict_get "User-Agent" headers with
                 | Some _ => headers
                 | None => dict_set "User-Agent" (he_user_agent E) headers
                 end in
  let port := default (if t_secure t then 443 else 80) (t_port t) in
  match t_proxy_host t, t_proxy_port t with
  | Some ph, Some pp =>
      mkRequest (c_method c) (Some ph) pp (if t_secure t then Some (t_host t, port) else None) (t_secure t)
        ((if t_secure t then "https" else "http") +:+ "://" +:+ default "None" (t_host t) +:+ ":" +:+ pretty port +:+ t_rel_uri t)
        (c_data c) headers timeout
  | _, _ => mkRequest (c_method c) (t_host t) port None (t_secure t) (t_rel_uri t) (c_data c) headers timeout
  end.

(** Sending a request, [delay] seconds after the last *)
Definition send (delay : Z) (r : request) : H response := λ s,
  let o := transport E (h_log s) r in
  (o, mkHState (h_log s ++ [mkExchange delay r o]) (h_hostplugin s) (h_protocol s) (h_other s)).

(** The headers that are put into the messages of failures *)
Definition failure_headers (c : call) : string :=
  match filter (λ kv, kv.1 ∈ HEADERS_TO_INCLUDE_IN_FAILURE_MSG) (default [] (c_headers c)) with
  | [] => ""
  | l => " " +:+ json_dumps (JObj ((λ kv, (kv.1, JStr kv.2)) <$> l))
  end.

(** What an attempt ends with: a response to return, another attempt, or giving up *)
Inductive verdict :=
| Return (r : response)
| Continue (msg : string) (throttled : bool)
| Break (msg : string).

(** The body of the [try] and its [except] clauses, for one attempt *)
Definition attempt_request (c : call) (t : target) (delay timeout : Z) : H verdict :=
  let raw := c_return_raw_response c in
  catch
    (resp ← send delay (build_request c t timeout);
     if raw then mret (Return resp)
     else if request_failed resp OK_CODES && is_retry_status (r_status resp) (c_retry_codes c) then
       mret (Continue ("[HTTP Retry] " +:+ c_method c +:+ " " +:+ c_url c +:+ failure_headers c +:+ " -- " +:+ read_response_error resp)
               (is_throttle_status (r_status resp)))
     else if code_in (r_status resp) RESOURCE_GONE_CODES then
       raise (agent_error ResourceGoneError (read_response_error resp) None (-1))
     else mret (Return resp))
    (λ e,
       if isinstance e HTTPException then
         if raw then raise e
         else
           clean_url ← lift (trim_url_parameters (c_url c));
           let msg := "[HTTP Failed] " +:+ c_method c +:+ " " +:+ clean_url +:+ failure_headers c +:+ " -- HttpException " +:+ e_msg e in
           mret (if is_retry_exception e then Continue msg false else Break msg)
       else if isinstance e OSError then
         if raw then raise e
         else
           modify (increment (t_host t) (t_port t)) ;;
           clean_url ← lift (trim_url_parameters (c_url c));
           let msg := "[HTTP Failed] " +:+ c_method c +:+ " " +:+ clean_url +:+ failure_headers c +:+ " -- IOError " +:+ e_msg e in
           mret (if c_fail_fast_on_timeout c && (str_contains "timed out" (e_msg e) || str_contains "timeout" (e_msg e))
                 then Break msg else Continue msg false)
       else raise e).

Definition attempts_made (msg : string) (attempt : Z) : exn :=
  http_error (msg +:+ " -- " +:+ pretty attempt +:+ " attempts made").

(** The loop: [fuel] iterations at most *)
Fixpoint http_loop (c : call) (t : target) (fuel : nat) (msg : string) (attempt max_retry : Z) (was_throttled : bool)
    : H response :=
  match fuel with
  | O => raise (attempts_made msg attempt)
  | S fuel' =>
      if attempt <? max_retry then
        let delay := if 0 <? attempt then
                       if was_throttled then c_throttle_delay c else compute_delay attempt (c_retry_delay c)
                     else 0 in
        let attempt := attempt + 1 in
        let req_timeout := if negb (c_fail_fast_on_timeout c) || (1 <? attempt) then c_timeout c
                           else Z.min (c_timeout c) FAIL_FAST_REQUEST_TIMEOUT in
        v ← attempt_request c t delay req_timeout;
        match v with
        | Return r => mret r
        | Break msg => raise (attempts_made msg attempt)
        | Continue msg throttled =>
            let max_retry := if throttled && negb (is_telemetry_req (c_url c))
                             then Z.max max_retry THROTTLE_RETRIES else max_retry in
            http_loop c t fuel' msg attempt max_retry (was_throttled || throttled)
        end
      else raise (attempts_made msg attempt)
  end.

(** [http_request] *)
Definition http_fuel (max_retry : Z) : nat := S (Z.to_nat (Z.max max_retry THROTTLE_RETRIES)).

Definition http_request (c : call) : H response :=
  t ← lift (find_target c);
  http_loop c t (http_fuel (c_max_retry c)) "" 0 (c_max_retry c) false.

(** The methods *)
Definition http_get (url : string) (headers : option (list (string * string))) (use_proxy : bool)
    (max_retry : option Z) (retry_codes : option (list Z)) (retry_delay : Z) (raw : bool) (timeout : Z)
    (fail_fast : bool) : H response :=
  http_request (mkCall "GET" url None timeout headers use_proxy (default DEFAULT_RETRIES max_retry)
    (default RETRY_CODES retry_codes) retry_delay THROTTLE_DELAY_IN_SECONDS raw fail_fast).

Definition http_head (url : string) (headers : option (list (string * string))) (use_proxy : bool)
    (max_retry : option Z) (retry_codes : option (list Z)) (retry_delay timeout : Z) : H response :=
  http_request (mkCall "HEAD" url None timeout headers use_proxy (default DEFAULT_RETRIES max_retry)
    (default RETRY_CODES retry_codes) retry_delay THROTTLE_DELAY_IN_SECONDS false false).

Definition http_post (url : string) (data : option string) (headers : option (list (string * string))) (use_proxy : bool)
    (max_retry : option Z) (retry_codes : option (list Z)) (retry_delay throttle_delay timeout : Z) : H response :=
  http_request (mkCall "POST" url data timeout headers use_proxy (default DEFAULT_RETRIES max_retry)
    (default RETRY_CODES retry_codes) retry_delay throttle_delay false false).

Definition http_put (url : string) (data : option string) (headers : option (list (string * string))) (use_proxy : bool)
    (max_retry : option Z) (retry_codes : option (list Z)) (retry_delay timeout : Z) : H response :=
  http_request (mkCall "PUT" url data timeout headers use_proxy (default DEFAULT_RETRIES max_retry)
    (default RETRY_CODES retry_codes) retry_delay THROTTLE_DELAY_IN_SECONDS false false).

Definition http_delete (url : string) (headers : option (list (string * string))) (use_proxy : bool)
    (max_retry : option Z) (retry_codes : option (list Z)) (retry_delay timeout : Z) : H response :=
  http_request (mkCall "DELETE" url None timeout headers use_proxy (default DEFAULT_RETRIES max_retry)
    (default RETRY_CODES retry_codes) retry_delay THROTTLE_DELAY_IN_SECONDS false false).
End http.

(** ** What a request does

    The specification of the loop, as a property of the exchanges it leaves in the log. *)

Fixpoint fib (n : nat) : Z :=
  match n with
  | O => 1
  | S n' => match n' with O => 1 | S n'' => fib n' + fib n'' end
  end.

Lemma fib_loop_spec n a : fib_loop n (fib a, fib (S a)) = (fib (n + a), fib (S (n + a))).
Proof.
  revert a. induction n as [|n IH]; intros a; [done|]. cbn [fib_loop fst snd].
  replace (fib a + fib (S a)) with (fib (S (S a))) by (cbn [fib]; destruct a; lia).
  rewrite IH. by rewrite Nat.add_succ_r.
Qed.

Lemma compute_delay_fib n d : compute_delay (Z.of_nat n) d = d * fib (S n).
Proof. unfold compute_delay. rewrite Nat2Z.id. change (1, 1) with (fib 0, fib 1). rewrite fib_loop_spec. by rewrite Nat.add_0_r. Qed.

Section specification.
Context (c : call).

Definition timeout_text (e : exn) : bool := str_contains "timed out" (e_msg e) || str_contains "timeout" (e_msg e).

(** The outcomes after which the request is sent again *)
Definition retried (o : res exn response) : bool :=
  negb (c_return_raw_response c) &&
  match o with
  | Ok r => request_failed r OK_CODES && is_retry_status (r_status r) (c_retry_codes c)
  | Err e => if isinstance e HTTPException then is_retry_exception e
             else isinstance e OSError && negb (c_fail_fast_on_timeout c && timeout_text e)
  end.

Definition throttled (o : res exn response) : bool :=
  retried o && match o with Ok r => is_throttle_status (r_status r) | Err _ => false end.

(** How many attempts are made: more once the server throttled, but not for telemetry *)
Definition limit (xs : list exchange) : Z :=
  if existsb (λ x, throttled (x_outcome x)) xs && negb (is_telemetry_req (c_url c))
  then Z.max (c_max_retry c) THROTTLE_RETRIES else c_max_retry c.

(** The delay before an attempt, from the attempts before it *)
Definition delay_before (xs : list exchange) : Z :=
  match xs with
  | [] => 0
  | _ => if existsb (λ x, throttled (x_outcome x)) xs then c_throttle_delay c else c_retry_delay c * fib (S (length xs))
  end.

Definition timeout_at (n : nat) : Z :=
  if c_fail_fast_on_timeout c && Nat.eqb n 0 then Z.min (c_timeout c) FAIL_FAST_REQUEST_TIMEOUT else c_timeout c.

(** The text of an outcome that is retried or that ends the attempts *)
Definition failure_message (o : res exn response) : string :=
  match o with
  | Ok r => "[HTTP Retry] " +:+ c_method c +:+ " " +:+ c_url c +:+ failure_headers c +:+ " -- " +:+ read_response_error r
  | Err e => "[HTTP Failed] " +:+ c_method c +:+ " " +:+ match trim_url_parameters (c_url c) with Ok u => u | Err _ => "" end +:+ failure_headers c +:+
             (if isinstance e HTTPException then " -- HttpException " else " -- IOError ") +:+ e_msg e
  end.

(** The result that an outcome that is not retried leads to *)
Definition final (o r : res exn response) : Prop :=
  match o with
  | Ok resp => if negb (c_return_raw_response c) && code_in (r_status resp) RESOURCE_GONE_CODES
               then r = Err (agent_error ResourceGoneError (read_response_error resp) None (-1)) else r = Ok resp
  | Err e => if negb (c_return_raw_response c) && (isinstance e HTTPException || isinstance e OSError)
             then ∃ n, r = Err (attempts_made (failure_message o) n) else r = Err e
  end.

(** Each exchange sends the same request, after the delay, and follows exchanges that were
    all to be retried and fewer than the limit. *)
Definition history (E : http_env) (t : target) (xs : list exchange) : Prop :=
  ∀ i x, xs !! i = Some x →
    x_delay x = delay_before (take i xs) ∧ x_request x = build_request E c t (timeout_at i) ∧
    Z.of_nat i < limit (take i xs) ∧ Forall (λ y, retried (x_outcome y) = true) (take i xs).
End specification.

Lemma trim_ok u h : parse_url u = Ok h → ∃ s, trim_url_parameters u = Ok s.
Proof.
  unfold parse_url, trim_url_parameters. destruct (urlparse u) as [o|]; cbn; [|done].
  destruct (port o) as [p|]; cbn; [|done]. intros _. destruct (hostname o); eauto.
Qed.

Lemma find_target_trim E c t : find_target E c = Ok t → ∃ s, trim_url_parameters (c_url c) = Ok s.
Proof. unfold find_target. destruct (parse_url (c_url c)) eqn:Hp; cbn; [|done]. intros _. by eapply trim_ok. Qed.

Lemma attempt_request_spec E c t delay timeout s :
  find_target E c = Ok t →
  let rq := build_request E c t timeout in
  let o := transport E (h_log s) rq in
  ∃ v s', attempt_request E c t delay timeout s = (v, s') ∧ h_log s' = h_log s ++ [mkExchange delay rq o] ∧
    if retried c o then v = Ok (Continue (failure_message c o) (throttled c o))
    else match v with
         | Ok (Return r) => final c o (Ok r)
         | Ok (Break msg) => ∀ n, final c o (Err (attempts_made msg n))
         | Ok (Continue _ _) => False
         | Err e => final c o (Err e)
         end.
Proof.
  intros Ht. destruct (find_target_trim _ _ _ Ht) as [u Hu]. cbv zeta.
  unfold attempt_request, catch, mbind, M_bind, send, throttled, retried, final, failure_message.
  destruct (transport E (h_log s) (build_request E c t timeout)) as [r|e]; cbn beta iota.
  - destruct (c_return_raw_response c); cbn [negb andb]; [eexists _, _; by split_and!|].
    destruct (request_failed r OK_CODES && is_retry_status (r_status r) (c_retry_codes c)) eqn:Hretry; cbn [andb].
    { eexists _, _. by split_and!. }
    destruct (code_in (r_status r) RESOURCE_GONE_CODES); eexists _, _; by split_and!.
  - destruct (isinstance e HTTPException) eqn:Hh.
    + destruct (c_return_raw_response c); cbn [negb andb orb]; [eexists _, _; by split_and!|].
      unfold lift. rewrite Hu. destruct (is_retry_exception e); eexists _, _; (split_and!; [reflexivity|done|]); [done|intros n; by eexists].
    + destruct (isinstance e OSError) eqn:Ho; [|cbn [andb orb]; rewrite !andb_false_r; eexists _, _; by split_and!].
      destruct (c_return_raw_response c); cbn [negb andb orb]; [eexists _, _; by split_and!|].
      unfold lift, modify. rewrite Hu. unfold timeout_text.
      destruct (c_fail_fast_on_timeout c && _); cbn [negb andb]; eexists _, _; (split_and!; [reflexivity|unfold increment; by repeat case_match|]);
        [intros n; by eexists|done].
Qed.

Lemma limit_le c xs x : limit c xs ≤ limit c (xs ++ [x]).
Proof. unfold limit. rewrite existsb_app. destruct (existsb _ xs); simpl; [done|]. repeat case_match; lia. Qed.

Lemma history_snoc c E t xs x :
  history c E t xs → Forall (λ y, retried c (x_outcome y) = true) xs → Z.of_nat (length xs) < limit c xs →
  x_delay x = delay_before c xs → x_request x = build_request E c t (timeout_at c (length xs)) →
  history c E t (xs ++ [x]).
Proof.
  intros Hh Hr Hl Hd Hq i y Hi. apply lookup_app_Some in Hi as [Hi|[Hge Hi]].
  - pose proof (lookup_lt_Some _ _ _ Hi). rewrite take_app_le by lia. by apply Hh.
  - apply list_lookup_singleton_Some in Hi as [Hi ->]. assert (i = length xs) as -> by lia. by rewrite take_app_length.
Qed.

Lemma http_loop_spec E c t fuel msg xs s l0 :
  find_target E c = Ok t → h_log s = l0 ++ xs → history c E t xs →
  Forall (λ y, retried c (x_outcome y) = true) xs → Z.of_nat (length xs) ≤ limit c xs →
  (xs = [] → 0 < c_max_retry c) → (∀ x, last xs = Some x → msg = failure_message c (x_outcome x)) →
  Z.max (c_max_retry c) THROTTLE_RETRIES < Z.of_nat fuel + Z.of_nat (length xs) →
  ∃ ys x r s', http_loop E c t fuel msg (Z.of_nat (length xs)) (limit c xs) (existsb (λ x, throttled c (x_outcome x)) xs) s = (r, s') ∧
    h_log s' = l0 ++ ys ++ [x] ∧ history c E t (ys ++ [x]) ∧
    if retried c (x_outcome x)
    then r = Err (attempts_made (failure_message c (x_outcome x)) (limit c (ys ++ [x]))) ∧ Z.of_nat (S (length ys)) = limit c (ys ++ [x])
    else final c (x_outcome x) r.
Proof.
  intros Ht. revert msg xs s. induction fuel as [|fuel IH]; intros msg xs s Hlog Hh Hr Hle Hne Hmsg Hfuel.
  { exfalso. unfold limit in Hle. case_match; lia. }
  cbn [http_loop]. destruct (Z.ltb_spec (Z.of_nat (length xs)) (limit c xs)) as [Hlt|Hge].
  2:{ destruct xs as [|x ys _] using rev_ind; [exfalso; specialize (Hne eq_refl); unfold limit in Hge; simpl in Hge; lia|].
      exists ys, x. eexists _, s. split_and!; [reflexivity|done|done|]. apply Forall_app in Hr as [_ Hr]. apply Forall_cons in Hr as [Hx _].
      assert (Z.of_nat (length (ys ++ [x])) = limit c (ys ++ [x])) as Heq by lia.
      rewrite Hx, Heq. rewrite (Hmsg x) by apply last_snoc. split; [done|]. rewrite <-Heq, length_app. simpl. lia. }
  assert ((if 0 <? Z.of_nat (length xs) then if existsb (λ x, throttled c (x_outcome x)) xs then c_throttle_delay c
            else compute_delay (Z.of_nat (length xs)) (c_retry_delay c) else 0) = delay_before c xs) as ->.
  { unfold delay_before. rewrite compute_delay_fib. by destruct xs. }
  assert ((if negb (c_fail_fast_on_timeout c) || (1 <? Z.of_nat (length xs) + 1) then c_timeout c
            else Z.min (c_timeout c) FAIL_FAST_REQUEST_TIMEOUT) = timeout_at c (length xs)) as ->.
  { unfold timeout_at. destruct (c_fail_fast_on_timeout c); [|done]. simpl.
    destruct xs; [done|]. by rewrite (proj2 (Z.ltb_lt _ _)) by (simpl; lia). }
  destruct (attempt_request_spec E c t (delay_before c xs) (timeout_at c (length xs)) s Ht) as (v & s' & Hv & Hlog' & Hcase).
  unfold mbind, M_bind. rewrite Hv. set (x := mkExchange _ _ _) in Hlog'. rewrite Hlog, <-app_assoc in Hlog'.
  assert (history c E t (xs ++ [x])) as Hhx by (by apply history_snoc).
  change (transport E (h_log s) _) with (x_outcome x) in Hcase.
  destruct (retried c (x_outcome x)) eqn:Hret.
  - subst v.
    replace (Z.of_nat (length xs) + 1) with (Z.of_nat (length (xs ++ [x]))) by (rewrite length_app; simpl; lia).
    assert (existsb (λ x, throttled c (x_outcome x)) xs || throttled c (x_outcome x)
            = existsb (λ x, throttled c (x_outcome x)) (xs ++ [x])) as -> by (rewrite existsb_app; simpl; by rewrite orb_false_r).
    assert ((if throttled c (x_outcome x) && negb (is_telemetry_req (c_url c)) then Z.max (limit c xs) THROTTLE_RETRIES else limit c xs)
            = limit c (xs ++ [x])) as ->.
    { unfold limit. rewrite existsb_app. cbn [existsb]. rewrite orb_false_r.
      destruct (existsb _ xs), (throttled c (x_outcome x)), (is_telemetry_req (c_url c)); cbn [andb orb negb]; lia. }
    apply IH.
    + done.
    + done.
    + apply Forall_app. split; [done|]. by apply Forall_singleton.
    + pose proof (limit_le c xs x). rewrite length_app. simpl. lia.
    + by destruct xs.
    + intros y. rewrite last_snoc. by intros [= ->].
    + rewrite length_app. simpl. lia.
  - exists xs, x. destruct v as [[r|msg' b|msg']|e]; [|done|..]; (eexists _, s'; split_and!; [reflexivity|done|done|by rewrite Hret]).
Qed.

(** The loop from the start *)
Lemma http_request_loop E c t s : find_target E c = Ok t → 0 < c_max_retry c →
  ∃ xs x r s', http_request E c s = (r, s') ∧ h_log s' = h_log s ++ xs ++ [x] ∧ history c E t (xs ++ [x]) ∧
    if retried c (x_outcome x)
    then r = Err (attempts_made (failure_message c (x_outcome x)) (limit c (xs ++ [x]))) ∧ Z.of_nat (S (length xs)) = limit c (xs ++ [x])
    else final c (x_outcome x) r.
Proof.
  intros Ht Hm. destruct (http_loop_spec E c t (http_fuel (c_max_retry c)) "" [] s (h_log s) Ht) as (xs & x & r & s' & H1 & H2 & H3 & H4).
  - by rewrite app_nil_r.
  - by intros i y Hi.
  - constructor.
  - unfold limit. simpl. lia.
  - done.
  - done.
  - unfold http_fuel, THROTTLE_RETRIES. simpl length. lia.
  - exists xs, x, r, s'. split; [|done]. unfold http_request, mbind, M_bind, lift. rewrite Ht. exact H1.
Qed.


(** A host that throttles twice, fails once, and then answers *)
Definition sample_http : http_env :=
  mkHttpEnv (mkProxyConf None None [] true) false true true "168.63.129.16" "WALinuxAgent/9.9.9.9"
    (λ log _, match length log with
              | 0%nat => Err (py_error OSError "connection refused")
              | 1%nat => Ok (mkResponse 429 "Too Many Requests" [] None)
              | 2%nat => Ok (mkResponse 503 "Service Unavailable" [] (Some "busy"))
              | _ => Ok (mkResponse 200 "OK" [] (Some "done"))
              end).
Definition sample_call : call :=
  mkCall "GET" "http://168.63.129.16:32526/health" None 10 None false 3 RETRY_CODES 2 7 false false.
Definition sample_target : target := mkTarget (Some "168.63.129.16") (Some 32526) false "/health" None None.
Definition fresh_http : hstate := mkHState [] 0 0 0.


(** The fragment of a URL is put before its query. *)
Example fragment_precedes_query :
  parse_url "http://a/p?q=1#f" = Ok (Some "a", None, false, "/p#f?q=1").
Proof. reflexivity. Qed.
