(* ===== verification/HealthService.v ===== *)
(** * Health signals (common/protocol/healthservice.py)

    [HealthService] reports observations about the host plugin to the host.  The requests go
    through the client of [Http]; a report never keeps its observations. *)
From S2P Require Import Prelude PyExn Json Urls Http.
From Stdlib Require Import Ascii.

Module HealthService.

(** [Observation] *)
Record Observation := mkObservation {
  name : string;
  is_healthy : bool;
  description : string;
  value : string
}.

(** The constructor of [Observation] *)
Definition new_observation (name : option string) (is_healthy : option bool) (description value : option string)
    : res exn Observation :=
  match name, is_healthy with
  | None, _ => Err (py_error ValueError "Observation name must be provided")
  | Some _, None => Err (py_error ValueError "Observation health must be provided")
  | Some n, Some h => Ok (mkObservation n h (default "" description) (default "" value))
  end.

(** [Observation.as_obj] *)
Definition as_obj (o : Observation) : json :=
  JObj [("ObservationName", JStr (str_take 64 (name o))); ("IsHealthy", JBool (is_healthy o));
        ("Description", JStr (str_take 128 (description o))); ("Value", JStr (str_take 128 (value o)))].

Definition MAX_OBSERVATIONS : nat := 10.
Definition HOST_PLUGIN_HEARTBEAT_OBSERVATION_NAME : string := "GuestAgentPluginHeartbeat".
Definition HOST_PLUGIN_STATUS_OBSERVATION_NAME : string := "GuestAgentPluginStatus".
Definition HOST_PLUGIN_VERSIONS_OBSERVATION_NAME : string := "GuestAgentPluginVersions".
Definition HOST_PLUGIN_ARTIFACT_OBSERVATION_NAME : string := "GuestAgentPluginArtifact".
Definition IMDS_OBSERVATION_NAME : string := "InstanceMetadataHeartbeat".

(** The observations that wait, and the client they are sent with *)
Record state := mkState {
  observations : list Observation;
  client : hstate
}.
Definition set_observations (l : list Observation) (s : state) : state := mkState l (client s).
Definition set_client (c : hstate) (s : state) : state := mkState (observations s) c.
Notation HS X := (M state exn X).

Section service.
Context (HE : http_env) (host : string).

(** [HealthService.as_json] *)
Definition as_json (l : list Observation) : string :=
  json_dumps (JObj [("Api", JStr "reporttargethealth"); ("Version", JStr "1.0"); ("Source", JStr "WALinuxAgent");
                    ("Observations", JArr (as_obj <$> l))]).

(** [_observe] *)
Definition observe (name : string) (is_healthy : bool) (value description : string) : HS unit :=
  modify (λ s, if decide (MAX_OBSERVATIONS ≤ length (observations s))%nat
               then set_observations (drop (MAX_OBSERVATIONS - 1) (observations s)) s else s) ;;
  o ← lift (new_observation (Some name) (Some is_healthy) (Some description) (Some value));
  modify (λ s, set_observations (observations s ++ [o]) s).

(** [_report]; [_report_failures] sends telemetry only *)
Definition report : HS unit :=
  finally
    (except HttpError
       (l ← gets observations;
        zoom client set_client
          (http_post HE ("http://" +:+ host +:+ ":80/HealthService") (Some (as_json l))
             (Some [("Content-Type", "application/json")]) false None None DELAY_IN_SECONDS THROTTLE_DELAY_IN_SECONDS 10) ;;
        mret tt)
       (λ _, mret tt))
    (modify (set_observations [])).

Definition report_host_plugin_heartbeat (is_healthy : bool) : HS unit :=
  observe HOST_PLUGIN_HEARTBEAT_OBSERVATION_NAME is_healthy "" "" ;; report.
Definition report_host_plugin_versions (is_healthy : bool) (response : string) : HS unit :=
  observe HOST_PLUGIN_VERSIONS_OBSERVATION_NAME is_healthy response "" ;; report.
Definition report_host_plugin_extension_artifact (is_healthy : bool) (source response : string) : HS unit :=
  observe HOST_PLUGIN_ARTIFACT_OBSERVATION_NAME is_healthy response source ;; report.
Definition report_host_plugin_status (is_healthy : bool) (response : string) : HS unit :=
  observe HOST_PLUGIN_STATUS_OBSERVATION_NAME is_healthy response "" ;; report.
Definition report_imds_status (is_healthy : bool) (response : string) : HS unit :=
  observe IMDS_OBSERVATION_NAME is_healthy response "" ;; report.

(** A report, from any state, leaves no observation. *)
Lemma report_empties s : observations (report s).2 = [].
Proof.
  unfold report, finally. destruct (except _ _ _ s) as [r s']. by destruct r.
Qed.

Lemma observe_then_report n b v d s : observations ((observe n b v d ;; report) s).2 = [].
Proof.
  unfold observe, mbind, M_bind, modify, lift. cbn beta iota. case_decide; cbn; apply report_empties.
Qed.
End service.
End HealthService.
