(* ===== verification/Imds.v ===== *)
(** * The instance metadata service (common/protocol/imds.py, ga/confidential_vm_info.py)

    [ImdsClient] asks the metadata service of the machine for its description; the answers, and the
    failures of the HTTP client, are sorted into errors of the service and errors on the way to it.
    [ComputeInfo.image_origin] tells endorsed images by a table.  [loads] is the JSON parser, and
    [re_match] the search for a pattern of the table, which has none. *)
From S2P Require Import Prelude PyExn FlexVersion Json Urls Http TextUtil World Conf Machine Systemd CgroupApi Manifest RestApi ExtInstance.
From Stdlib Require Import Ascii.
Import Re.

Definition IMDS_ENDPOINT : string := "169.254.169.254".
Definition APIVERSION : string := "2018-02-01".
Definition MIN_IMDS_VERSION_WITH_SECURITY_TYPE : string := "2021-12-13".

(** ** Values of JSON *)

(** [x in j] *)
Definition json_in (x j : json) : res exn bool :=
  match j with
  | JObj d => match x with
              | JStr k => Ok (bool_decide (is_Some (dict_get k d)))
              | JArr _ | JObj _ => Err (py_error TypeError ("unhashable type: '" +:+ type_name x +:+ "'"))
              | _ => Ok false
              end
  | JArr l => Ok (existsb (json_eqb x) l)
  | JStr t => match x with
              | JStr s => Ok (str_contains s t)
              | _ => Err (py_error TypeError ("'in <string>' requires string as left operand, not " +:+ type_name x))
              end
  | _ => Err (py_error TypeError ("argument of type '" +:+ type_name j +:+ "' is not iterable"))
  end.
(** [len(j)] *)
Definition json_len (j : json) : res exn Z :=
  match j with
  | JStr s => Ok (str_len s)
  | JArr l => Ok (Z.of_nat (length l))
  | JObj d => Ok (Z.of_nat (length d))
  | _ => Err (py_error TypeError ("object of type '" +:+ type_name j +:+ "' has no len()"))
  end.
(** [j[0]] *)
Definition json_item0 (j : json) : res exn json :=
  match j with
  | JArr (x :: _) => Ok x
  | JArr [] => Err (py_error IndexError "list index out of range")
  | JStr (String c _) => Ok (JStr (String c ""))
  | JStr "" => Err (py_error IndexError "string index out of range")
  | JObj _ => Err (py_error KeyError "0")
  | _ => Err (py_error TypeError ("'" +:+ type_name j +:+ "' object is not subscriptable"))
  end.
(** [j.upper()] *)
Definition ascii_upper (c : ascii) : ascii :=
  let n := nat_of_ascii c in if bool_decide (97 ≤ n ≤ 122)%nat then ascii_of_nat (n - 32) else c.
Definition str_upper (s : string) : string := str_map ascii_upper s.
Definition json_upper (j : json) : res exn string :=
  match j with JStr s => Ok (str_upper s) | _ => Err (py_error AttributeError ("'" +:+ type_name j +:+ "' object has no attribute 'upper'")) end.
(** [FlexibleVersion(j)] *)
Definition json_version (j : json) : res exn FlexibleVersion := FV (if truthy j then py_str j else "").

(** ** The table of endorsed images *)

Definition strs (l : list string) : json := JArr (JStr <$> l).
Definition minimum (m : string) : list (string * json) := [("Minimum", JStr m)].
(** [ENDORSED_IMAGE_INFO_MATCHER_JSON] *)
Definition ubuntu_skus : list string :=
  ["14.04.0-LTS"; "14.04.1-LTS"; "14.04.2-LTS"; "14.04.3-LTS"; "14.04.4-LTS"; "14.04.5-LTS"; "14.04.6-LTS"; "14.04.7-LTS"; "14.04.8-LTS";
   "16.04-LTS"; "16.04.0-LTS"; "18.04-LTS"; "20.04-LTS"; "22.04-LTS"].
Definition sles_skus : list string := ["11-SP4"; "11-SP5"; "11-SP6"; "12-SP1"; "12-SP2"; "12-SP3"; "12-SP4"; "12-SP5"; "12-SP6"].
Definition sles_byos_skus : list string :=
  ["11-SP4"; "12"; "12-SP1"; "12-SP2"; "12-SP3"; "12-SP4"; "12-SP5"; "15"; "15-SP1"; "15-SP2"; "15-SP3"; "15-SP4"; "15-SP5"].
Definition sle_hpc_skus : list string := ["15-SP1"; "15-SP2"; "15-SP3"; "15-SP4"; "15-SP5"].
Definition lvm_skus : list string := ["7-LVM"; "7-RAW"].
Definition ENDORSED_IMAGE_INFO_MATCHER : json := JObj
  [("CANONICAL", JObj [("UBUNTUSERVER", JObj [("List", strs ubuntu_skus)])]);
   ("COREOS", JObj [("COREOS", JObj [("STABLE", JObj (minimum "494.4.0"))])]);
   ("CREDATIV", JObj [("DEBIAN", JObj (minimum "7"))]);
   ("OPENLOGIC", JObj [("CENTOS", JObj (minimum "6.3" ++ [("List", strs lvm_skus)])); ("CENTOS-HPC", JObj (minimum "6.3"))]);
   ("REDHAT", JObj [("RHEL", JObj (minimum "6.7" ++ [("List", strs lvm_skus)])); ("RHEL-HANA", JObj (minimum "6.7"));
                    ("RHEL-SAP", JObj (minimum "6.7")); ("RHEL-SAP-APPS", JObj (minimum "6.7")); ("RHEL-SAP-HANA", JObj (minimum "6.7"))]);
   ("SUSE", JObj [("SLES", JObj [("List", strs sles_skus)]); ("SLES-BYOS", JObj [("List", strs sles_byos_skus)]);
                  ("SLES-SAP", JObj [("List", strs sles_byos_skus)]); ("SLE-HPC", JObj [("List", strs sle_hpc_skus)])])].

Section imds.
Context (loads : string → res exn json) (re_match : json → json → res exn bool).

(** [ImageInfoMatcher.is_match] *)
Definition key0 (keys : list json) : res exn json :=
  match keys with k :: _ => Ok k | [] => Err (py_error IndexError "list index out of range") end.
(** [name in sub and test(sub[name], keys[0])] *)
Definition rule (name : string) (sub : json) (test : json → json → res exn bool) (keys : list json) : res exn bool :=
  present ← json_in (JStr name) sub;
  if (present : bool) then k ← key0 keys; v ← json_getitem name sub; test v k else Ok false.
Definition at_least (m k : json) : res exn bool := a ← json_version k; b ← json_version m; fv_ge a b.

Fixpoint is_match_walk (keys : list json) (doci : json) : res exn bool :=
  match keys with
  | [] => Err (py_error IndexError "pop from empty list")
  | k :: keys' =>
      key ← json_upper k;
      present ← json_in (JStr key) doci;
      if negb present then Ok false
      else
        sub ← json_getitem key doci;
        listed ← rule "List" sub (λ l x, json_in x l) keys';
        if (listed : bool) then Ok true
        else
          matched ← rule "Match" sub re_match keys';
          if (matched : bool) then Ok true
          else
            has_minimum ← json_in (JStr "Minimum") sub;
            if negb has_minimum then is_match_walk keys' sub
            else match rule "Minimum" sub at_least keys' with
                 | Ok b => Ok b
                 | Err e => if isinstance e ValueError then is_match_walk keys' sub else Err e
                 end
  end.
Definition is_match (publisher offer sku version : json) : res exn bool :=
  is_match_walk [publisher; offer; sku; version] ENDORSED_IMAGE_INFO_MATCHER.

(** [ComputeInfo]; an attribute is [None] until it is set *)
Definition ComputeInfo : contract := CObj ((λ k, (k, CData JNull)) <$>
  ["location"; "name"; "offer"; "osType"; "placementGroupId"; "platformFaultDomain"; "platformUpdateDomain"; "publisher"; "resourceGroupName";
   "sku"; "subscriptionId"; "tags"; "version"; "vmId"; "vmSize"; "vmScaleSetName"; "zone"]).
Definition attr (name : string) (c : contract) : json :=
  match c with CObj fs => match dict_get name fs with Some (CData v) => v | _ => JNull end | _ => JNull end.

Inductive origin := OriginUnknown | OriginCustom | OriginEndorsed | OriginPlatform.
Definition image_origin (c : contract) : res exn origin :=
  if json_eqb (attr "publisher" c) (JStr "") then Ok OriginCustom
  else match is_match (attr "publisher" c) (attr "offer" c) (attr "sku" c) (attr "version" c) with
       | Ok true => Ok OriginEndorsed
       | Ok false => Ok OriginPlatform
       | Err e => if isinstance e Exception_ then Ok OriginUnknown else Err e
       end.
Definition image_info (c : contract) : string :=
  py_str (attr "publisher" c) +:+ ":" +:+ py_str (attr "offer" c) +:+ ":" +:+ py_str (attr "sku" c) +:+ ":" +:+ py_str (attr "version" c).

(** ** [ImdsClient] *)

Context (E : http_env) (api_version : string).

Record MetadataResult := mkMetadataResult { success : bool; service_error : bool; mr_response : string }.
Inductive imds_status := IMDS_RESPONSE_SUCCESS | IMDS_RESPONSE_ERROR | IMDS_CONNECTION_ERROR | IMDS_INTERNAL_SERVER_ERROR.

Definition headers (is_health : bool) : list (string * string) :=
  [("User-Agent", he_user_agent E +:+ (if is_health then "+health" else "")); ("Metadata", "True")].
Definition get_metadata_url (endpoint resource_path : string) : string :=
  "http://" +:+ endpoint +:+ "/metadata/" +:+ resource_path +:+ "?api-version=" +:+ api_version.
(** The call of [restutil.http_get] *)
Definition metadata_call (resource_path : string) (is_health : bool) : call :=
  mkCall "GET" (get_metadata_url IMDS_ENDPOINT resource_path) None 10 (Some (headers is_health)) false DEFAULT_RETRIES RETRY_CODES
    DELAY_IN_SECONDS THROTTLE_DELAY_IN_SECONDS false false.

(** [r".*HTTP Failed. GET http://[^ ]+ -- IOError .*"] and
    [r".*HTTP Retry. GET http://[^ ]+ -- Status Code 429 .*"], at the start of the text *)
Definition not_blank (c : ascii) : bool := negb (Ascii.eqb c " ").
Definition failure_regex (what how : string) (s : string) : list unit :=
  '(_, r1) ← class_star not_newline s; '(_, r2) ← lit what r1;
  match r2 with
  | String c r3 => if not_newline c then '(_, r4) ← lit " GET http://" r3; '(_, r5) ← class_plus not_blank r4; '(_, _) ← lit how r5; [tt] else []
  | "" => []
  end.
Definition matches_regex (m : string → list unit) (s : string) : bool := bool_decide (is_Some (head (m s))).
Definition regex_ioerror : string → bool := matches_regex (failure_regex "HTTP Failed" " -- IOError ").
Definition regex_throttled : string → bool := matches_regex (failure_regex "HTTP Retry" " -- Status Code 429 ").

(** [resp.read()] *)
Definition read_body (r : response) : res exn string :=
  match r_body r with Some b => Ok b | None => Err (py_error OSError "the body cannot be read") end.

Definition imds_error (resource_path msg : string) : string := "IMDS error in /metadata/" +:+ resource_path +:+ ": " +:+ msg.
Definition get_metadata_from_endpoint (resource_path : string) (is_health : bool) : H (imds_status * string) :=
  resp ← catch (r ← http_request E (metadata_call resource_path is_health); mret (inl r))
    (λ e,
      if isinstance e ResourceGoneError then
        mret (inr (IMDS_INTERNAL_SERVER_ERROR, imds_error resource_path "HTTP Failed with Status Code 410: Gone"))
      else if isinstance e HttpError then
        mret (inr (if regex_throttled (e_msg e) then (IMDS_RESPONSE_ERROR, imds_error resource_path "Throttled")
                   else if regex_ioerror (e_msg e) then (IMDS_CONNECTION_ERROR, imds_error resource_path "Unable to connect to endpoint")
                   else (IMDS_INTERNAL_SERVER_ERROR, imds_error resource_path (e_msg e))))
      else raise e);
  match resp with
  | inr r => mret r
  | inl resp =>
      if 500 <=? r_status resp then mret (IMDS_INTERNAL_SERVER_ERROR, imds_error resource_path (read_response_error resp))
      else if request_failed resp OK_CODES then mret (IMDS_RESPONSE_ERROR, imds_error resource_path (read_response_error resp))
      else body ← lift (read_body resp); mret (IMDS_RESPONSE_SUCCESS, body)
  end.

Definition get_metadata (resource_path : string) (is_health : bool) : H MetadataResult :=
  '(status, resp) ← get_metadata_from_endpoint resource_path is_health;
  mret (match status with
        | IMDS_RESPONSE_SUCCESS => mkMetadataResult true false resp
        | IMDS_INTERNAL_SERVER_ERROR => mkMetadataResult false true resp
        | _ => mkMetadataResult false false resp
        end).

Definition get_compute : H contract :=
  result ← get_metadata "instance/compute" false;
  if negb (success result) then raise (http_error (mr_response result))
  else data ← lift (loads (mr_response result)); lift (set_properties "compute" ComputeInfo data).

(** [check_field] *)
Definition check_field (dict_obj : json) (field : string) : res exn unit :=
  present ← json_in (JStr field) dict_obj;
  missing ← (if (present : bool) then v ← json_getitem field dict_obj; Ok (is_null v) else Ok true);
  if (missing : bool) then Err (py_error ValueError ("Missing field: [" +:+ field +:+ "]"))
  else
    v ← json_getitem field dict_obj;
    n ← json_len v;
    if n =? 0 then Err (py_error ValueError ("Empty field: [" +:+ field +:+ "]")) else Ok tt.
Definition check_network_fields (json_data : json) : res exn unit :=
  _ ← check_field json_data "network";
  network ← json_getitem "network" json_data;
  _ ← check_field network "interface";
  interfaces ← json_getitem "interface" network;
  interface ← json_item0 interfaces;
  _ ← check_field interface "macAddress";
  _ ← check_field interface "ipv4";
  ipv4 ← json_getitem "ipv4" interface;
  _ ← check_field ipv4 "ipAddress";
  addresses ← json_getitem "ipAddress" ipv4;
  address ← json_item0 addresses;
  check_field address "privateIpAddress".

(** [validate] *)
Definition check_metadata (text : string) : res exn (bool * string) :=
  match loads text with
  | Err e => if isinstance e Exception_ then Ok (false, "JSON parsing failed: " +:+ e_msg e) else Err e
  | Ok json_data =>
      match check_network_fields json_data with
      | Ok _ => Ok (true, "")
      | Err e => if isinstance e ValueError then Ok (false, e_msg e) else Err e
      end
  end.
Definition validate : H (bool * string) :=
  result ← get_metadata "instance" true;
  if negb (success result) then mret (negb (service_error result), mr_response result)
  else lift (check_metadata (mr_response result)).
End imds.

(** ** [ConfidentialVMInfo] (ga/confidential_vm_info.py)

    [_is_confidential_vm] is [None] until the security type was fetched; the copy in [AgentGlobals] is the
    second component. *)
Record cvm_state := mkCvm { cvm_http : hstate; cvm_is_confidential_vm : option bool; cvm_global : option bool }.
Section cvm.
Context (loads : string → res exn json) (E : http_env).
Notation C X := (M cvm_state exn X).
Definition on_http {A} (m : H A) : C A := zoom cvm_http (λ h s, mkCvm h (cvm_is_confidential_vm s) (cvm_global s)) m.
Definition set_confidential (b : bool) (s : cvm_state) : cvm_state := mkCvm (cvm_http s) (Some b) (Some b).

Definition fetch_security_type_from_imds : H json :=
  result ← get_metadata E MIN_IMDS_VERSION_WITH_SECURITY_TYPE "instance/compute" false;
  if negb (success result) then raise (http_error (mr_response result))
  else
    compute_json ← lift (loads (mr_response result));
    security_profile ← lift (json_get "securityProfile" compute_json);
    if is_null security_profile then raise (py_error ValueError "missing field 'securityProfile'")
    else
      security_type ← lift (json_get "securityType" security_profile);
      if is_null security_type then raise (py_error ValueError "missing field 'securityType'") else mret security_type.
Definition fetch_and_initialize_cvm_info : C unit :=
  except Exception_
    (security_type ← on_http fetch_security_type_from_imds; modify (set_confidential (json_eqb security_type (JStr "ConfidentialVM"))))
    (λ e, modify (set_confidential false) ;; raise e).
Definition is_confidential_vm (s : cvm_state) : res exn bool :=
  match cvm_is_confidential_vm s with
  | Some b => Ok b
  | None => Err (py_error RuntimeError "Confidential VM Information is not initialized.")
  end.

(** After the security type was asked for, whatever became of it, the answer is known and the same in
    both places; it is yes only when the service said so. *)
Lemma cvm_info_is_initialized s :
  let '(r, s') := fetch_and_initialize_cvm_info s in
  (∀ e, r = Err e → isinstance e Exception_ = true) →
  ∃ b, is_confidential_vm s' = Ok b ∧ cvm_global s' = Some b ∧ (b = true → (fetch_security_type_from_imds (cvm_http s)).1 = Ok (JStr "ConfidentialVM")).
Proof.
  unfold fetch_and_initialize_cvm_info, except, on_http, zoom, mbind, M_bind, catch.
  destruct (fetch_security_type_from_imds (cvm_http s)) as [[t|e] h] eqn:H; simpl.
  - intros _. eexists. split_and!; [done..|]. destruct t; simpl; try done. by intros ->%String.eqb_eq.
  - destruct (isinstance e Exception_) eqn:He; simpl; [intros _; by exists false|]. intros Hx. specialize (Hx e eq_refl). congruence.
Qed.
End cvm.

(** ** Texts of failures *)

Lemma class_star_all p a b : str_forallb p a = true → (a, b) ∈ class_star p (a +:+ b).
Proof.
  induction a as [|c a IH]; simpl.
  - intros _. destruct b; simpl; set_solver.
  - intros [Hc Ha]%andb_prop. rewrite Hc. apply elem_of_app. left. apply list_elem_of_fmap. exists (a, b). auto.
Qed.
Lemma class_plus_all p a b : a ≠ "" → str_forallb p a = true → (a, b) ∈ class_plus p (a +:+ b).
Proof.
  destruct a as [|c a]; [done|]. intros _. simpl. intros [Hc Ha]%andb_prop. rewrite Hc.
  apply list_elem_of_fmap. exists (a, b). split; [done|]. by apply class_star_all.
Qed.

Lemma failure_regex_matches what how pre c url text :
  str_forallb not_newline pre = true → not_newline c = true → url ≠ "" → str_forallb not_blank url = true →
  matches_regex (failure_regex what how) (pre +:+ what +:+ String c (" GET http://" +:+ url +:+ how +:+ text)) = true.
Proof.
  intros Hp Hc Hn Hu. apply bool_decide_eq_true_2. assert (tt ∈ failure_regex what how (pre +:+ what +:+ String c (" GET http://" +:+ url +:+ how +:+ text))) as H.
  2: { by destruct (failure_regex _ _ _) as [|u l]; [apply elem_of_nil in H|]. }
  unfold failure_regex. apply list_elem_of_bind. eexists (_, _). split; [|by apply class_star_all].
  apply list_elem_of_bind. eexists (_, _). split; [|rewrite lit_app; by apply list_elem_of_here]. cbn beta iota. rewrite Hc.
  apply list_elem_of_bind. eexists (_, _). split; [|rewrite lit_app; by apply list_elem_of_here].
  apply list_elem_of_bind. eexists (_, _). split; [|by apply class_plus_all].
  apply list_elem_of_bind. eexists (_, _). split; [|rewrite lit_app; by apply list_elem_of_here]. by apply list_elem_of_here.
Qed.

(** ** The verdict on the service *)

Section health.
Context (loads : string → res exn json) (E : http_env).
Notation c := (metadata_call E APIVERSION "instance" true).

(** What the text of an [HttpError] is taken for: [true] unless the service is at fault *)
Definition on_the_way (e : exn) : bool := regex_throttled (e_msg e) || regex_ioerror (e_msg e).
Definition verdict_of_error (e : exn) : res exn bool :=
  if isinstance e ResourceGoneError then Ok false else if isinstance e HttpError then Ok (on_the_way e) else Err e.
(** The verdict, from the outcome of the last of [n] attempts *)
Definition verdict_of (o : res exn response) (n : Z) : res exn bool :=
  match o with
  | Ok r =>
      if code_in (r_status r) OK_CODES then fst <$> (b ← read_body r; check_metadata loads b)
      else if code_in (r_status r) RETRY_CODES then Ok (on_the_way (attempts_made (failure_message c o) n))
      else Ok ((r_status r <? 500) && negb (r_status r =? 410))
  | Err e =>
      if isinstance e HTTPException then Ok (on_the_way (attempts_made (failure_message c o) n))
      else if isinstance e OSError then Ok true
      else verdict_of_error e
  end.

Lemma target : find_target E c = Ok (mkTarget (Some IMDS_ENDPOINT) None false "/metadata/instance?api-version=2018-02-01" None None).
Proof. reflexivity. Qed.

Lemma io_error_text e n : isinstance e HTTPException = false → on_the_way (attempts_made (failure_message c (Err e)) n) = true.
Proof.
  intros He. unfold on_the_way. apply orb_true_iff. right. unfold failure_message. rewrite He.
  change (failure_headers c) with "".
  refine (eq_trans _ (failure_regex_matches "HTTP Failed" " -- IOError " "[HttpError] [" "]" "169.254.169.254/metadata/instance"
     (e_msg e +:+ " -- " +:+ pretty n +:+ " attempts made") eq_refl eq_refl _ eq_refl)); [|done].
  unfold regex_ioerror. by f_equal.
Qed.

Lemma ok_not_gone z : code_in z OK_CODES = true → code_in z RESOURCE_GONE_CODES = false.
Proof. unfold code_in, OK_CODES, RESOURCE_GONE_CODES. simpl. rewrite !orb_true_iff, !Z.eqb_eq. intros H. apply orb_false_iff. split; [apply Z.eqb_neq|done]. naive_solver lia. Qed.

Lemma ok_below z : code_in z OK_CODES = true → 500 <=? z = false.
Proof. unfold code_in, OK_CODES. simpl. rewrite !orb_true_iff, !Z.eqb_eq, Z.leb_gt. naive_solver lia. Qed.

(** What the request ends with, by the outcome of its last attempt *)
Definition ends_with_response (o : response) : Prop :=
  code_in (r_status o) OK_CODES = true ∨ code_in (r_status o) OK_CODES = false ∧ code_in (r_status o) RETRY_CODES = false ∧ r_status o ≠ 410.
Lemma request_outcome o r n :
  (if retried c o then r = Err (attempts_made (failure_message c o) n) else final c o r) →
  ∃ m, match r with
       | Ok x => o = Ok x ∧ ends_with_response x
       | Err e => verdict_of_error e = verdict_of o m
       end.
Proof.
  unfold verdict_of, ends_with_response, retried, final. cbn [negb andb c_return_raw_response c_fail_fast_on_timeout metadata_call c_retry_codes].
  destruct o as [o|e].
  - unfold request_failed, request_succeeded, is_retry_status. destruct (code_in (r_status o) OK_CODES) eqn:Hok; cbn [negb andb].
    { rewrite ok_not_gone by done. intros ->. exists n. auto. }
    destruct (code_in (r_status o) RETRY_CODES) eqn:Hre; [intros ->; by exists n|]. unfold code_in, RESOURCE_GONE_CODES. simpl.
    destruct (Z.eqb_spec (r_status o) 410) as [H410|H410]; intros ->; exists n; [rewrite H410|]; auto.
  - destruct (isinstance e HTTPException) eqn:Hh; cbn [orb].
    + destruct (is_retry_exception e); [intros ->; by exists n|]. intros [m ->]. by exists m.
    + destruct (isinstance e OSError) eqn:Ho; cbn [andb negb].
      * intros ->. exists n. unfold verdict_of_error. by rewrite io_error_text.
      * intros ->. by exists n.
Qed.

End health.

(** *** A service that throttles every request is called unhealthy: the text of the failure is not the one
    that [regex_throttled] looks for. *)
Definition throttling : http_env :=
  mkHttpEnv (mkProxyConf None None [] true) false true true "168.63.129.16" "WALinuxAgent/9.9.9.9"
    (λ _ _, Ok (mkResponse 429 "Too Many Requests" [] (Some "server busy"))).
Example throttled_service_is_unhealthy loads : fst <$> (validate loads throttling APIVERSION fresh_http).1 = Ok false.
Proof. vm_compute. reflexivity. Qed.
