(* ===== verification/ImageOrigin.v ===== *)
(** * Endorsed images

    The walk through the nested table of endorsed images ([ImageInfoMatcher.is_match] of
    common/protocol/imds.py) against a flat reading of the table. *)
From S2P Require Import Prelude PyExn FlexVersion Json Urls Http TextUtil Imds.
From Stdlib Require Import Ascii.

(** The table, without its nesting: the SKUs of an offer that are listed, and the lowest version of the
    SKUs of an offer that are compared *)
Definition listed_skus : list (string * string * list string) :=
  [("CANONICAL", "UBUNTUSERVER", ubuntu_skus); ("OPENLOGIC", "CENTOS", lvm_skus); ("REDHAT", "RHEL", lvm_skus); ("SUSE", "SLES", sles_skus);
   ("SUSE", "SLES-BYOS", sles_byos_skus); ("SUSE", "SLES-SAP", sles_byos_skus); ("SUSE", "SLE-HPC", sle_hpc_skus)].
Definition lowest_skus : list (string * string * string) :=
  [("CREDATIV", "DEBIAN", "7"); ("OPENLOGIC", "CENTOS", "6.3"); ("OPENLOGIC", "CENTOS-HPC", "6.3"); ("REDHAT", "RHEL", "6.7");
   ("REDHAT", "RHEL-HANA", "6.7"); ("REDHAT", "RHEL-SAP", "6.7"); ("REDHAT", "RHEL-SAP-APPS", "6.7"); ("REDHAT", "RHEL-SAP-HANA", "6.7")].
(** Whether a text is a version from [m] on *)
Definition from_version (m s : string) : bool :=
  match at_least (JStr m) (JStr s) with Ok b => b | Err _ => false end.
Definition endorsed_at (p o sku version : string) : bool :=
  existsb (λ '(p', o', l), String.eqb p p' && String.eqb o o' && existsb (String.eqb sku) l) listed_skus ||
  existsb (λ '(p', o', m), String.eqb p p' && String.eqb o o' && from_version m sku) lowest_skus ||
  String.eqb p "COREOS" && String.eqb o "COREOS" && String.eqb (str_upper sku) "STABLE" && from_version "494.4.0" version.
(** The publisher and the offer are compared without case. *)
Definition endorsed (publisher offer : string) : string → string → bool := endorsed_at (str_upper publisher) (str_upper offer).

Lemma upper_not_lower c : bool_decide (97 ≤ nat_of_ascii (ascii_upper c) ≤ 122)%nat = false.
Proof. revert c. intros [[] [] [] [] [] [] [] []]; reflexivity. Qed.
Lemma upper_has_no_lower s : str_forallb (λ c, negb (bool_decide (97 ≤ nat_of_ascii c ≤ 122)%nat)) (str_upper s) = true.
Proof. induction s as [|c s IH]; [done|]. simpl. unfold str_upper in IH. by rewrite upper_not_lower, IH. Qed.
Lemma upper_ne s t : str_forallb (λ c, negb (bool_decide (97 ≤ nat_of_ascii c ≤ 122)%nat)) t = false → String.eqb (str_upper s) t = false.
Proof. intros Ht. apply String.eqb_neq. intros <-. by rewrite upper_has_no_lower in Ht. Qed.

Lemma FV_value_error s : fails_with (λ e, isinstance e ValueError = true) (FV s).
Proof.
  assert (∀ x, fails_with (λ e, isinstance e ValueError = true) (py_int x)) as Hi by (intros x; unfold py_int; by case_match; intros e [= <-]).
  unfold FV, new_version, parse. repeat (raises_step || case_match); try (by intros e [= <-]); try (by apply map_res_fails).
Qed.
Lemma at_least_value_error m s b : FV m = Ok b → fv_prerelease b = None → m ≠ "" → fails_with (λ e, isinstance e ValueError = true) (at_least (JStr m) (JStr s)).
Proof.
  intros Hm Hb Hne. unfold at_least, json_version. simpl. rewrite (proj2 (String.eqb_neq m "") Hne). simpl.
  assert ((if negb (String.eqb s "") then s else "") = s) as -> by by destruct (String.eqb_spec s "") as [->|]. rewrite Hm.
  intros e. pose proof (FV_value_error s) as Hv. destruct (FV s) as [a|e']; simpl; [|intros [= <-]; by apply Hv].
  revert e. change (fails_with (λ e, isinstance e ValueError = true) (fv_ge a b)). unfold fv_ge, fv_lt, ensure_compatible. rewrite Hb.
  raises_auto.
Qed.

Section endorsed.
Context (re_match : json → json → res exn bool).
Notation walk := (is_match_walk re_match).

(** One step, in a dictionary *)
Definition after_key (keys : list json) (sub : json) : res exn bool :=
  listed ← rule "List" sub (λ l x, json_in x l) keys;
  if (listed : bool) then Ok true
  else
    matched ← rule "Match" sub re_match keys;
    if (matched : bool) then Ok true
    else
      has_minimum ← json_in (JStr "Minimum") sub;
      if negb has_minimum then walk keys sub
      else match rule "Minimum" sub at_least keys with
           | Ok b => Ok b
           | Err e => if isinstance e ValueError then walk keys sub else Err e
           end.
Lemma walk_step k keys d : walk (JStr k :: keys) (JObj d) = match dict_get (str_upper k) d with None => Ok false | Some sub => after_key keys sub end.
Proof.
  cbn [is_match_walk json_upper mbind res_bind json_in json_getitem]. by destruct (dict_get (str_upper k) d).
Qed.

Lemma rule_step name r test k keys :
  rule name (JObj r) test (k :: keys) = match dict_get name r with None => Ok false | Some v => test v k end.
Proof. unfold rule. cbn [mbind res_bind json_in json_getitem key0]. by destruct (dict_get name r). Qed.

(** A level without rules *)
Lemma after_plain k keys r : dict_get "List" r = None → dict_get "Match" r = None → dict_get "Minimum" r = None →
  after_key (k :: keys) (JObj r) = walk (k :: keys) (JObj r).
Proof. intros H1 H2 H3. unfold after_key. rewrite !rule_step, H1, H2. cbn [mbind res_bind json_in]. by rewrite H3. Qed.

(** Rules, which are the last level: the next key is in upper case and they are not *)
Definition listed_in (sku : string) (j : option json) : bool := match j with Some (JArr l) => existsb (json_eqb (JStr sku)) l | _ => false end.
Definition lowest_in (sku : string) (j : option json) : bool := match j with Some (JStr m) => from_version m sku | _ => false end.
Definition is_rules (r : list (string * json)) : Prop :=
  dict_get "Match" r = None ∧ Forall (λ k, str_forallb (λ c, negb (bool_decide (97 ≤ nat_of_ascii c ≤ 122)%nat)) k = false) r.*1 ∧
  match dict_get "List" r with None | Some (JArr _) => True | _ => False end ∧
  match dict_get "Minimum" r with
  | None => True
  | Some (JStr m) => m ≠ "" ∧ match FV m with Ok b => fv_prerelease b = None | Err _ => False end
  | _ => False
  end.
Lemma rules_end sku keys r : Forall (λ k, str_forallb (λ c, negb (bool_decide (97 ≤ nat_of_ascii c ≤ 122)%nat)) k = false) r.*1 →
  walk (JStr sku :: keys) (JObj r) = Ok false.
Proof.
  intros H. rewrite walk_step. assert (dict_get (str_upper sku) r = None) as ->; [|done]. induction r as [|[k v] r IH]; [done|].
  apply Forall_cons in H as [Hk H]. simpl. rewrite upper_ne by done. auto.
Qed.
Lemma after_rules sku keys r : is_rules r →
  after_key (JStr sku :: keys) (JObj r) = Ok (listed_in sku (dict_get "List" r) || lowest_in sku (dict_get "Minimum" r)).
Proof.
  intros (Hm & Hk & Hl & Hmin). unfold after_key. rewrite !rule_step, Hm. cbn [mbind res_bind json_in].
  assert (∀ b, (if (b : bool) then Ok true
     else if negb (bool_decide (is_Some (dict_get "Minimum" r))) then walk (JStr sku :: keys) (JObj r)
     else match match dict_get "Minimum" r with Some v => at_least v (JStr sku) | None => Ok false end with
          | Ok x => Ok x
          | Err e => if isinstance e ValueError then walk (JStr sku :: keys) (JObj r) else Err e
          end) = Ok (b || lowest_in sku (dict_get "Minimum" r))) as H.
  { intros []; [done|]. rewrite rules_end by done. unfold lowest_in, from_version.
    destruct (dict_get "Minimum" r) as [[| | | |m| |]|]; try done. destruct Hmin as [Hne Hf]. destruct (FV m) as [b|] eqn:Hb; [|done].
    simpl. pose proof (at_least_value_error m sku b Hb Hf Hne) as He. destruct (at_least _ _) as [x|e]; [done|]. by rewrite (He e). }
  unfold listed_in. destruct (dict_get "List" r) as [[| | | | |l|]|]; try done; [apply H|apply (H false)].
Qed.

(** The offers of a publisher, and what the walk finds there *)
Ltac rules_ok := split_and!; [reflexivity|repeat constructor|exact I|first [exact I|split; [discriminate|vm_compute; reflexivity]]].
Lemma coreos_rules sku version :
  after_key [JStr sku; JStr version] (JObj [("STABLE", JObj (minimum "494.4.0"))]) = Ok (String.eqb (str_upper sku) "STABLE" && from_version "494.4.0" version).
Proof.
  rewrite after_plain, walk_step by done. cbn [dict_get]. destruct (String.eqb (str_upper sku) "STABLE"); [|done].
  rewrite after_rules by rules_ok. done.
Qed.

Definition offer_rules (sku : string) (version : json) (offers : list (string * json)) (o : string) : res exn bool :=
  match dict_get o offers with None => Ok false | Some sub => after_key [JStr sku; version] sub end.
Ltac publisher p name tac := destruct (String.eqb_spec p name) as [->|?];
  [unfold offer_rules; cbn [dict_get String.eqb Ascii.eqb Bool.eqb andb orb]; tac; reflexivity|].
Ltac offer o name := destruct (String.eqb_spec o name) as [->|?];
  [rewrite after_rules by rules_ok; cbn; rewrite ?orb_false_r; reflexivity|].
Lemma publisher_found p o sku version :
  match dict_get p (match ENDORSED_IMAGE_INFO_MATCHER with JObj d => d | _ => [] end) with
  | None => Ok false
  | Some (JObj offers) => offer_rules sku (JStr version) offers o
  | Some _ => Ok true
  end = Ok (endorsed_at p o sku version).
Proof.
  unfold ENDORSED_IMAGE_INFO_MATCHER, endorsed_at, listed_skus, lowest_skus. cbn [dict_get existsb].
  publisher p "CANONICAL" ltac:(offer o "UBUNTUSERVER").
  publisher p "COREOS" ltac:(destruct (String.eqb_spec o "COREOS") as [->|?]; [by rewrite coreos_rules|]).
  publisher p "CREDATIV" ltac:(offer o "DEBIAN").
  publisher p "OPENLOGIC" ltac:(offer o "CENTOS"; offer o "CENTOS-HPC").
  publisher p "REDHAT" ltac:(offer o "RHEL"; offer o "RHEL-HANA"; offer o "RHEL-SAP"; offer o "RHEL-SAP-APPS"; offer o "RHEL-SAP-HANA").
  publisher p "SUSE" ltac:(offer o "SLES"; offer o "SLES-BYOS"; offer o "SLES-SAP"; offer o "SLE-HPC").
  by repeat match goal with |- context [String.eqb ?x ?y] => rewrite (proj2 (String.eqb_neq x y)) by done end.
Qed.
End endorsed.

(** The image of a machine is endorsed exactly when the table lists its SKU or has a lowest version that its
    SKU (of CoreOS, its version) reaches, for its publisher and its offer without regard to case; a walk
    through the table never runs out of keys. *)
Theorem endorsed_images_are_recognised re_match publisher offer sku version :
  is_match re_match (JStr publisher) (JStr offer) (JStr sku) (JStr version) = Ok (endorsed publisher offer sku version).
Proof.
  unfold is_match, endorsed. rewrite <-(publisher_found re_match). unfold ENDORSED_IMAGE_INFO_MATCHER. rewrite walk_step. cbn [dict_get].
  repeat (destruct (String.eqb (str_upper publisher) _); [rewrite after_plain, walk_step by done; reflexivity|]). reflexivity.
Qed.

Example image_origin_ex :
  endorsed "Canonical" "UbuntuServer" "18.04-LTS" "1" = true ∧ endorsed "Canonical" "UbuntuServer" "18.04-lts" "1" = false ∧
  endorsed "RedHat" "RHEL" "7.2" "" = true ∧ endorsed "RedHat" "RHEL" "6.6" "" = false ∧ endorsed "CoreOS" "CoreOS" "stable" "494.4.1" = true.
Proof. vm_compute. auto. Qed.
