(* ===== verification/HostPlugin.v ===== *)
(** * The host plugin (common/protocol/hostplugin.py)

    The HostGAPlugin serves the vmSettings and takes the status of the machine when it
    cannot be uploaded directly.  [HostPluginProtocol] remembers whether the plugin supports
    vmSettings, the last ones it fetched, and, in a file, when the last goal state that came
    through it (Fast Track) was created.

    The clock counts microseconds from the start of the calendar. *)
From S2P Require Import Prelude PyExn FlexVersion Datetime Json Ticks TextUtil Timers World RestApi ExtInstance Samples Urls Http HealthService VmSettings.
From Stdlib Require Import Ascii.

Definition API_VERSION : string := "2015-09-01".
Definition MAXIMUM_PAGEBLOB_PAGE_SIZE : Z := 4 * 1024 * 1024.
Definition hours (n : Z) : Z := n * 60 * 60 * 1000000.

(** ** [_VmSettingsErrorReporter] *)

Inductive vm_settings_error := ClientError | HttpStatusError | RequestFailed | ServerError | Timeout_.

Record reporter := mkReporter {
  er_request_count : Z;
  er_error_count : Z;
  er_client_error_count : Z;
  er_http_error_count : Z;
  er_request_failure_count : Z;
  er_server_error_count : Z;
  er_timeout_count : Z;
  er_next_period : Z
}.

Definition reset_reporter (now : Z) : reporter := mkReporter 0 0 0 0 0 0 0 (now + hours 1).

Definition report_request (r : reporter) : reporter :=
  mkReporter (er_request_count r + 1) (er_error_count r) (er_client_error_count r) (er_http_error_count r)
    (er_request_failure_count r) (er_server_error_count r) (er_timeout_count r) (er_next_period r).

Definition report_error (c : vm_settings_error) (r : reporter) : reporter :=
  let bump (b : bool) (n : Z) := if b then n + 1 else n in
  mkReporter (er_request_count r) (er_error_count r + 1)
    (bump (match c with ClientError => true | _ => false end) (er_client_error_count r))
    (bump (match c with HttpStatusError => true | _ => false end) (er_http_error_count r))
    (bump (match c with RequestFailed => true | _ => false end) (er_request_failure_count r))
    (bump (match c with ServerError => true | _ => false end) (er_server_error_count r))
    (bump (match c with Timeout_ => true | _ => false end) (er_timeout_count r)) (er_next_period r).

(** The event is sent; the counters start again. *)
Definition report_summary (now : Z) (r : reporter) : reporter :=
  if er_next_period r <=? now then reset_reporter now else r.

(** ** The state *)

(** The error states and the times of the last reports, for downloads and for status uploads *)
Record health := mkHealth {
  fetch_error_state : ErrorState.ErrorState;
  fetch_last_timestamp : option Z;
  status_error_state : ErrorState.ErrorState;
  status_last_timestamp : option Z
}.

(** [hp_fast_track_timestamp] is what the state file holds; [hp_observations] those of the
    [HealthService]. *)
Record host_plugin := mkHostPlugin {
  hp_container_id : option string;
  hp_role_config_name : option string;
  hp_deployment_id : option string;
  hp_is_initialized : bool;
  hp_is_available : bool;
  hp_version : FlexibleVersion;
  hp_supports_vm_settings : bool;
  hp_next_check : Z;
  hp_cached : option vm_settings;
  hp_fast_track_timestamp : json;
  hp_reporter : reporter;
  hp_health : health;
  hp_observations : list HealthService.Observation;
  hp_manifest_uri : option string;
  hp_http : hstate;
  hp_world : world
}.
Notation HP X := (M host_plugin exn X).

Definition set_ids (c r d : option string) (h : host_plugin) : host_plugin :=
  mkHostPlugin c r d (hp_is_initialized h) (hp_is_available h) (hp_version h) (hp_supports_vm_settings h) (hp_next_check h)
    (hp_cached h) (hp_fast_track_timestamp h) (hp_reporter h) (hp_health h) (hp_observations h) (hp_manifest_uri h) (hp_http h) (hp_world h).
Definition set_available (b : bool) (h : host_plugin) : host_plugin :=
  mkHostPlugin (hp_container_id h) (hp_role_config_name h) (hp_deployment_id h) b b (hp_version h) (hp_supports_vm_settings h)
    (hp_next_check h) (hp_cached h) (hp_fast_track_timestamp h) (hp_reporter h) (hp_health h) (hp_observations h) (hp_manifest_uri h)
    (hp_http h) (hp_world h).
Definition set_hp_version (v : FlexibleVersion) (h : host_plugin) : host_plugin :=
  mkHostPlugin (hp_container_id h) (hp_role_config_name h) (hp_deployment_id h) (hp_is_initialized h) (hp_is_available h) v
    (hp_supports_vm_settings h) (hp_next_check h) (hp_cached h) (hp_fast_track_timestamp h) (hp_reporter h) (hp_health h) (hp_observations h) (hp_manifest_uri h) (hp_http h) (hp_world h).
Definition set_support (b : bool) (next : Z) (h : host_plugin) : host_plugin :=
  mkHostPlugin (hp_container_id h) (hp_role_config_name h) (hp_deployment_id h) (hp_is_initialized h) (hp_is_available h)
    (hp_version h) b next (hp_cached h) (hp_fast_track_timestamp h) (hp_reporter h) (hp_health h) (hp_observations h) (hp_manifest_uri h) (hp_http h) (hp_world h).
Definition set_cached (v : vm_settings) (h : host_plugin) : host_plugin :=
  mkHostPlugin (hp_container_id h) (hp_role_config_name h) (hp_deployment_id h) (hp_is_initialized h) (hp_is_available h)
    (hp_version h) (hp_supports_vm_settings h) (hp_next_check h) (Some v) (hp_fast_track_timestamp h) (hp_reporter h)
    (hp_health h) (hp_observations h) (hp_manifest_uri h) (hp_http h) (hp_world h).
Definition set_timestamp (t : json) (h : host_plugin) : host_plugin :=
  mkHostPlugin (hp_container_id h) (hp_role_config_name h) (hp_deployment_id h) (hp_is_initialized h) (hp_is_available h)
    (hp_version h) (hp_supports_vm_settings h) (hp_next_check h) (hp_cached h) t (hp_reporter h)
    (hp_health h) (hp_observations h) (hp_manifest_uri h) (hp_http h) (hp_world h).
Definition set_reporter (f : reporter → reporter) (h : host_plugin) : host_plugin :=
  mkHostPlugin (hp_container_id h) (hp_role_config_name h) (hp_deployment_id h) (hp_is_initialized h) (hp_is_available h)
    (hp_version h) (hp_supports_vm_settings h) (hp_next_check h) (hp_cached h) (hp_fast_track_timestamp h) (f (hp_reporter h))
    (hp_health h) (hp_observations h) (hp_manifest_uri h) (hp_http h) (hp_world h).
Definition set_health (x : health) (h : host_plugin) : host_plugin :=
  mkHostPlugin (hp_container_id h) (hp_role_config_name h) (hp_deployment_id h) (hp_is_initialized h) (hp_is_available h)
    (hp_version h) (hp_supports_vm_settings h) (hp_next_check h) (hp_cached h) (hp_fast_track_timestamp h) (hp_reporter h)
    x (hp_observations h) (hp_manifest_uri h) (hp_http h) (hp_world h).
Definition set_service (x : HealthService.state) (h : host_plugin) : host_plugin :=
  mkHostPlugin (hp_container_id h) (hp_role_config_name h) (hp_deployment_id h) (hp_is_initialized h) (hp_is_available h)
    (hp_version h) (hp_supports_vm_settings h) (hp_next_check h) (hp_cached h) (hp_fast_track_timestamp h) (hp_reporter h)
    (hp_health h) (HealthService.observations x) (hp_manifest_uri h) (HealthService.client x) (hp_world h).
Definition update_manifest_uri (u : option string) (h : host_plugin) : host_plugin :=
  mkHostPlugin (hp_container_id h) (hp_role_config_name h) (hp_deployment_id h) (hp_is_initialized h) (hp_is_available h)
    (hp_version h) (hp_supports_vm_settings h) (hp_next_check h) (hp_cached h) (hp_fast_track_timestamp h) (hp_reporter h)
    (hp_health h) (hp_observations h) u (hp_http h) (hp_world h).
Definition set_hp_http (s : hstate) (h : host_plugin) : host_plugin :=
  mkHostPlugin (hp_container_id h) (hp_role_config_name h) (hp_deployment_id h) (hp_is_initialized h) (hp_is_available h)
    (hp_version h) (hp_supports_vm_settings h) (hp_next_check h) (hp_cached h) (hp_fast_track_timestamp h) (hp_reporter h)
    (hp_health h) (hp_observations h) (hp_manifest_uri h) s (hp_world h).
Definition set_hp_world (w : world) (h : host_plugin) : host_plugin :=
  mkHostPlugin (hp_container_id h) (hp_role_config_name h) (hp_deployment_id h) (hp_is_initialized h) (hp_is_available h)
    (hp_version h) (hp_supports_vm_settings h) (hp_next_check h) (hp_cached h) (hp_fast_track_timestamp h) (hp_reporter h)
    (hp_health h) (hp_observations h) (hp_manifest_uri h) (hp_http h) w.

Definition on_http {A} (m : M hstate exn A) : HP A := zoom hp_http set_hp_http m.
Definition on_hp_world {A} (m : M world exn A) : HP A := zoom hp_world set_hp_world m.
Definition hp_now : HP Z := gets (λ h, w_now (hp_world h)).

(** [_extract_deployment_id], [update_container_id], [update_role_config_name] *)
Definition extract_deployment_id (role_config_name : option string) : option string :=
  (λ s, (partition_at "." s).1) <$> role_config_name.
Definition update_host_plugin (container_id role_config_name : option string) : host_plugin → host_plugin :=
  set_ids container_id role_config_name (extract_deployment_id role_config_name).

Section host_plugin.
Context (E : env) (HE : http_env) (loads : string → res exn json) (float_text : string → option Z) (endpoint : string)
  (format_exception : exn → string).

Definition now_text (now : Z) : string := create_utc_timestamp (default datetime_min_utc (from_us now)).

(** *** The state of Fast Track on disk *)
Definition fast_track_state_file : path := lib_dir E ++ ["fast_track.json"].

(** [_save_fast_track_state] *)
Definition save_fast_track_state (timestamp : string) : M world exn unit :=
  except Exception_
    (write_file (write_fault E) fast_track_state_file (json_content (JObj [("timestamp", JStr timestamp)])))
    (λ _, mret tt).

(** [clear_fast_track_state] *)
Definition clear_fast_track_state : M world exn unit :=
  except Exception_
    (present ← gets (λ w, exists_path fast_track_state_file (w_fs w));
     when present (remove_file (write_fault E) fast_track_state_file))
    (λ _, mret tt).

(** [get_fast_track_timestamp] *)
Definition get_fast_track_timestamp (w : world) : json :=
  if negb (exists_path fast_track_state_file (w_fs w)) then JStr (create_utc_timestamp datetime_min_utc)
  else
    match read_file fast_track_state_file (w_fs w) with
    | Ok (mkContent _ (Some j)) =>
        match json_getitem "timestamp" j with
        | Ok t => t
        | Err _ => JStr (now_text (w_now w))
        end
    | _ => JStr (now_text (w_now w))
    end.

(** The constructor *)
Definition new_host_plugin (w : world) : host_plugin :=
  mkHostPlugin None None None false false version_zero (exists_path fast_track_state_file (w_fs w)) (w_now w) None
    (get_fast_track_timestamp w) (reset_reporter (w_now w))
    (mkHealth (ErrorState.init ErrorState.ERROR_STATE_HOST_PLUGIN_FAILURE) None (ErrorState.init ErrorState.ERROR_STATE_HOST_PLUGIN_FAILURE) None)
    [] None (mkHState [] 0 0 0) w.

(** *** vmSettings *)

Definition uri (path : string) : string := "http://" +:+ endpoint +:+ ":" +:+ pretty HOST_PLUGIN_PORT +:+ path.

(** A header that is [None] cannot be sent. *)
Definition header (name : string) (value : option string) : res exn (string * string) :=
  match value with
  | Some v => Ok (name, v)
  | None => Err (py_error TypeError "expected string or bytes-like object, got 'NoneType'")
  end.

(** [get_vm_settings_request] *)
Definition get_vm_settings_request (correlation_id : string) (h : host_plugin) : res exn (string * list (string * string)) :=
  container ← header "x-ms-containerid" (hp_container_id h);
  config ← header "x-ms-host-config-name" (hp_role_config_name h);
  Ok (uri "/vmSettings", [("x-ms-version", API_VERSION); container; config; ("x-ms-client-correlationid", correlation_id)]).

Definition not_supported (c : exn_class) : exn := mkExn c "" (-1) (-1) [].

(** [raise_not_supported]: the timestamp that [VmSettingsSupportStopped] carries is
    [hp_fast_track_timestamp]. *)
Definition raise_not_supported {A} : HP A :=
  finally
    (supports ← gets hp_supports_vm_settings;
     raise (not_supported (if (supports : bool) then VmSettingsSupportStopped else VmSettingsNotSupported)))
    (now ← hp_now; modify (set_support false (now + hours 6))).

(** [response.getheaders()]: the first [etag] *)
Definition response_etag (r : response) : option string :=
  snd <$> head (filter (λ x, str_lower x.1 = "etag") (r_headers r)).

Definition format_message (correlation_id : string) (etag : option string) (msg : string) : string :=
  "GET vmSettings [correlation ID: " +:+ correlation_id +:+ " eTag: " +:+ default "None" etag +:+ "]: " +:+ msg.

Definition protocol_error (msg : string) : exn := agent_error ProtocolError msg None (-1).

Definition HGAP_MIN_VERSION : FlexibleVersion := mkFV "." None default_tags None [1; 0; 8; 133].

(** [response.read()] *)
Definition read_body (r : response) : res exn string :=
  match r_body r with
  | Some b => Ok b
  | None => Err (py_error OSError "the body of the response cannot be read")
  end.

(** The goal state of a response with the status 200 *)
Definition take_vm_settings (correlation_id : string) (etag : option string) (r : response) : HP (option vm_settings * bool) :=
  response_etag ← match response_etag r with
                  | Some t => mret t
                  | None => raise (protocol_error (format_message correlation_id etag "The vmSettings response does not include an Etag header"))
                  end;
  content ← lift (read_body r);
  v ← lift (create_from_vm_settings loads float_text response_etag content);
  let version := vs_host_ga_plugin_version (vs_simple v) in
  current ← gets hp_version;
  changed ← lift (fv_ne version current);
  when changed (modify (set_hp_version version)) ;;
  old ← lift (fv_lt version HGAP_MIN_VERSION);
  if (old : bool) then raise_not_supported
  else
    next ← gets hp_next_check;
    modify (set_support true next) ;;
    modify (set_cached v) ;;
    (if json_eqb (vs_source (vs_simple v)) (JStr "FastTrack") then
       modify (set_timestamp (JStr (vs_created_on_timestamp (vs_simple v)))) ;;
       on_hp_world (save_fast_track_state (vs_created_on_timestamp (vs_simple v)))
     else on_hp_world clear_fast_track_state) ;;
    mret (Some v, true).

(** The body of the [try] of [fetch_vm_settings] *)
Definition query_vm_settings (correlation_id : string) (force_update : bool) : HP (option vm_settings * bool) :=
  h ← get_state;
  now ← hp_now;
  if negb (hp_supports_vm_settings h) && (now <? hp_next_check h) then raise (not_supported VmSettingsNotSupported)
  else
    let etag := if force_update then None else vs_etag <$> hp_cached h in
    modify (set_reporter report_request) ;;
    '(url, headers) ← lift (get_vm_settings_request correlation_id h);
    let headers := match etag with Some t => headers ++ [("if-none-match", t)] | None => headers end in
    response ← on_http (http_get HE url (Some headers) false (Some 1) None DELAY_IN_SECONDS true 10 false);
    if r_status response =? 410 then raise (agent_error ResourceGoneError "" None (-1))
    else if r_status response =? 404 then raise_not_supported
    else if r_status response =? 304 then mret (hp_cached h, false)
    else if negb (r_status response =? 200) then
      let description := read_response_error response in
      let description := if r_status response =? 502 then "[Internal error in HostGAPlugin] " +:+ description else description in
      let description := format_message correlation_id etag description in
      modify (set_reporter (report_error
        (if (400 <=? r_status response) && (r_status response <=? 499) then ClientError
         else if (500 <=? r_status response) && (r_status response <=? 599) then ServerError else HttpStatusError))) ;;
      raise (protocol_error description)
    else take_vm_settings correlation_id etag response.

(** The exceptions that [fetch_vm_settings] documents *)
Definition documented : list exn_class := [ProtocolError; ResourceGoneError; VmSettingsNotSupported; VmSettingsParseError].

(** [fetch_vm_settings] *)
Definition fetch_vm_settings (correlation_id : string) (force_update : bool) : HP (option vm_settings * bool) :=
  h ← get_state;
  let etag := if force_update then None else vs_etag <$> hp_cached h in
  finally
    (catch (query_vm_settings correlation_id force_update)
       (λ e,
          if existsb (isinstance e) documented then raise e
          else if isinstance e Exception_ then
            let timed_out := isinstance e OSError && str_contains "timed out" (e_msg e) in
            modify (set_reporter (report_error (if timed_out then Timeout_ else RequestFailed))) ;;
            raise (protocol_error (format_message correlation_id etag
                     (if timed_out then "Timeout" else "Request failed: " +:+ format_exception e)))
          else raise e))
    (now ← hp_now; modify (set_reporter (report_summary now))).

(** [check_vm_settings_support]: the attribute is a boolean from the constructor on. *)
Definition check_vm_settings_support : HP bool := gets hp_supports_vm_settings.

(** *** The other channels *)

Definition on_service {A} (m : M HealthService.state exn A) : HP A :=
  zoom (λ h, HealthService.mkState (hp_observations h) (hp_http h)) set_service m.

(** [get_health] *)
Definition get_health : HP bool :=
  r ← on_http (http_get HE (uri "/health") None false (Some 1) None DELAY_IN_SECONDS false 10 false);
  mret (request_succeeded r OK_CODES).

(** [get_api_versions]: [None] is the empty list, [Some] the text of the response. *)
Definition get_api_versions : HP (option string) :=
  '(versions, error_response, is_healthy) ← except HttpError
    (h ← get_state;
     container ← lift (header "x-ms-containerid" (hp_container_id h));
     r ← on_http (http_get HE (uri "/versions") (Some [container]) false None None DELAY_IN_SECONDS false 10 false);
     if request_failed r OK_CODES then
       mret (None, read_response_error r, negb (request_failed_at_hostplugin r HOSTPLUGIN_UPSTREAM_FAILURE_CODES))
     else
       b ← lift (read_body r);
       mret (Some (remove_bom b), "", true))
    (λ _, mret (None, "", false));
  on_service (HealthService.report_host_plugin_versions HE endpoint is_healthy error_response) ;;
  mret versions.

(** [ensure_initialized]: the version is looked for in the text of the response. *)
Definition ensure_initialized : HP bool :=
  h ← get_state;
  if hp_is_initialized h then mret (hp_is_available h)
  else
    versions ← get_api_versions;
    modify (set_available (match versions with Some text => str_contains API_VERSION text | None => false end)) ;;
    gets hp_is_available.

(** [get_artifact_request] *)
Definition get_artifact_request (artifact_url : option string) (use_verify_header : bool) (artifact_manifest_url : option string)
    : HP (string * list (string * option string)) :=
  available ← ensure_initialized;
  if negb available then raise (protocol_error "HostGAPlugin: Host plugin channel is not available")
  else if is_str_none_or_whitespace artifact_url then raise (protocol_error "HostGAPlugin: No extension artifact url was provided")
  else
    h ← get_state;
    mret (uri "/extensionArtifact",
          [("x-ms-version", Some API_VERSION); ("x-ms-containerid", hp_container_id h);
           ("x-ms-host-config-name", hp_role_config_name h); ("x-ms-artifact-location", artifact_url)] ++
          (if use_verify_header then [("x-ms-verify-from-artifacts-blob", Some "true")] else []) ++
          (if artifact_manifest_url is Some u then [("x-ms-artifact-manifest-location", Some u)] else [])).

Definition REPORTING_PERIOD : Z := minutes 1.

(** [should_report]: the error state is changed in place. *)
Definition should_report (is_healthy : bool) (error_state : ErrorState.ErrorState) (last_timestamp : option Z) (period now : Z)
    : bool * ErrorState.ErrorState :=
  let error_state := if is_healthy then ErrorState.reset error_state else ErrorState.incr now error_state in
  let last_timestamp := default (now - period) last_timestamp in
  (last_timestamp + period <=? now, error_state).

(** [report_fetch_health] *)
Definition report_fetch_health (u : string) (is_healthy : bool) (source response : string) : HP unit :=
  if negb (String.eqb u (uri "/extensionArtifact")) then mret tt
  else
    now ← hp_now;
    x ← gets hp_health;
    let '(report, es) := should_report is_healthy (fetch_error_state x) (fetch_last_timestamp x) REPORTING_PERIOD now in
    modify (set_health (mkHealth es (if report then Some now else fetch_last_timestamp x) (status_error_state x) (status_last_timestamp x))) ;;
    when report
      (on_service (HealthService.report_host_plugin_extension_artifact HE endpoint (negb (ErrorState.is_triggered now es)) source response)).

(** [report_status_health] *)
Definition report_status_health (is_healthy : bool) (response : string) : HP unit :=
  now ← hp_now;
  x ← gets hp_health;
  let '(report, es) := should_report is_healthy (status_error_state x) (status_last_timestamp x) REPORTING_PERIOD now in
  modify (set_health (mkHealth (fetch_error_state x) (fetch_last_timestamp x) es (if report then Some now else status_last_timestamp x))) ;;
  when report (on_service (HealthService.report_host_plugin_status HE endpoint (negb (ErrorState.is_triggered now es)) response)).

(** [_build_status_headers] *)
Definition build_status_headers (h : host_plugin) : res exn (list (string * string)) :=
  container ← header "x-ms-containerid" (hp_container_id h);
  config ← header "x-ms-host-config-name" (hp_role_config_name h);
  Ok [("x-ms-version", API_VERSION); ("Content-type", "application/json"); container; config].

(** [_build_log_headers] *)
Definition build_log_headers (agent_version correlation_id : string) (h : host_plugin) : res exn (list (string * string)) :=
  container ← header "x-ms-containerid" (hp_container_id h);
  deployment ← header "x-ms-vmagentlog-deploymentid" (hp_deployment_id h);
  Ok [("x-ms-version", API_VERSION); container; deployment; ("x-ms-client-name", "WALinuxAgent");
      ("x-ms-client-version", agent_version); ("x-ms-client-correlationid", correlation_id)].

Definition upload_failed (msg : string) : exn := agent_error HttpError msg None (-1).

(** [put_vm_log] *)
Definition put_vm_log (agent_version correlation_id : string) (content : option string) : HP response :=
  available ← ensure_initialized;
  if negb available then raise (protocol_error "HostGAPlugin: HostGAPlugin is not available")
  else
    match content with
    | None => raise (protocol_error "HostGAPlugin: Invalid argument passed to upload VM logs. Content was not provided.")
    | Some data =>
        h ← get_state;
        headers ← lift (build_log_headers agent_version correlation_id h);
        r ← on_http (http_put HE (uri "/vmAgentLog") (Some data) (Some headers) false None None DELAY_IN_SECONDS 30);
        if request_failed r OK_CODES then raise (upload_failed ("HostGAPlugin: Upload VM logs failed: " +:+ read_response_error r))
        else mret r
    end.
End host_plugin.

(** ** The contract of [fetch_vm_settings] *)

Section contract.
Context (E : env) (HE : http_env) (loads : string → res exn json) (float_text : string → option Z) (endpoint : string)
  (format_exception : exn → string).
Hypothesis faults_ordinary : ∀ p b e, write_fault E p = Some (b, e) → ordinary e.
Implicit Types h : host_plugin.

(** The network raises the errors of the network. *)
Hypothesis transport_errors : ∀ log r e, transport HE log r = Err e → isinstance e VmSettingsNotSupported = false.

Lemma parse_url_errors s : fails_with (λ e, isinstance e VmSettingsNotSupported = false) (parse_url s).
Proof. unfold parse_url, urlparse, port. raises_auto. Qed.

(** A raw request is one attempt. *)
Lemma raw_attempt c t delay timeout s :
  c_return_raw_response c = true →
  match (attempt_request HE c t delay timeout s).1 with
  | Ok (Return _) => True
  | Ok _ => False
  | Err e => isinstance e VmSettingsNotSupported = false
  end.
Proof.
  intros Hc. unfold attempt_request, catch, mbind, M_bind, send. rewrite Hc.
  destruct (transport HE (h_log s) (build_request HE c t timeout)) as [r|x] eqn:Ht; [done|].
  pose proof (transport_errors _ _ _ Ht) as Hx. by destruct (isinstance x HTTPException), (isinstance x OSError).
Qed.

Lemma raw_request c :
  c_return_raw_response c = true → c_use_proxy c = false → 0 < c_max_retry c →
  raises (λ e, isinstance e VmSettingsNotSupported = false) (http_request HE c).
Proof.
  intros Hc Hp Hm. unfold http_request. apply raises_bind.
  { apply raises_lift. unfold find_target. rewrite Hp. apply fails_bind; [apply parse_url_errors|]. intros [[[host p] secure] rel].
    simpl. unfold http_error. raises_auto. }
  intros t s e. unfold http_fuel. cbn [http_loop]. rewrite (proj2 (Z.ltb_lt _ _) Hm). unfold mbind, M_bind.
  match goal with |- context [attempt_request HE c t ?d ?u s] => pose proof (raw_attempt c t d u s Hc) as Ha;
    destruct (attempt_request HE c t d u s) as [[[]|x] s'] end; simpl in *; try done. by intros [= <-].
Qed.

Lemma raw_get url headers : raises (λ e, isinstance e VmSettingsNotSupported = false)
  (http_get HE url headers false (Some 1) None DELAY_IN_SECONDS true 10 false).
Proof. unfold http_get. by apply raw_request. Qed.

Lemma wp_on_http url headers (Q : response → host_plugin → Prop) (R : exn → host_plugin → Prop) h :
  (∀ s, (∀ a, Q a (set_hp_http s h)) ∧ (∀ e, isinstance e VmSettingsNotSupported = false → R e (set_hp_http s h))) →
  wp (on_http (http_get HE url headers false (Some 1) None DELAY_IN_SECONDS true 10 false)) Q R h.
Proof.
  intros H. unfold on_http, zoom, wp. pose proof (raw_get url headers (hp_http h)) as Hr.
  destruct (http_get _ _ _ _ _ _ _ _ _ _ _) as [[a|e] s]; [by apply H|]. apply H. by apply Hr.
Qed.

Lemma wp_on_hp_world (m : M world exn unit) (Q : unit → host_plugin → Prop) R h :
  wp m (λ _ w, Q tt (set_hp_world w h)) (λ _ _, False) (hp_world h) → wp (on_hp_world m) Q R h.
Proof. unfold on_hp_world, zoom, wp. destruct (m (hp_world h)) as [[[]|e] w]; [done|by intros []]. Qed.

(** What is done to the state file: it raises nothing. *)
Definition record_fast_track (v : vm_settings) : M world exn unit :=
  if json_eqb (vs_source (vs_simple v)) (JStr "FastTrack") then save_fast_track_state E (vs_created_on_timestamp (vs_simple v))
  else clear_fast_track_state E.

Lemma wp_swallowed (m : M world exn unit) w :
  raises ordinary m →
  let n := except Exception_ m (λ _, mret tt) in wp n (λ _ w', w' = (n w).2) (λ _ _, False) w.
Proof.
  intros Hm n. unfold wp. subst n. unfold except, catch. pose proof (Hm w) as H.
  destruct (m w) as [[a|e] w'] eqn:Hw; [done|]. specialize (H e eq_refl). unfold ordinary in H. by rewrite H.
Qed.

Lemma record_quiet v w : wp (record_fast_track v) (λ _ w', w' = (record_fast_track v w).2) (λ _ _, False) w.
Proof.
  unfold record_fast_track. case_match.
  - apply wp_swallowed, write_file_ordinary, faults_ordinary.
  - apply wp_swallowed. raises_auto. apply remove_file_ordinary, faults_ordinary.
Qed.

(** What an error leaves: the vmSettings in use stay; the plugin is known not to support them
    exactly when the error says so, and the error says that support stopped exactly when it
    was there.  The plugin is then not asked for six hours. *)
Definition failed (h : host_plugin) (e : exn) (h' : host_plugin) : Prop :=
  hp_cached h' = hp_cached h ∧ hp_fast_track_timestamp h' = hp_fast_track_timestamp h ∧ hp_world h' = hp_world h ∧
  if isinstance e VmSettingsNotSupported
  then hp_supports_vm_settings h' = false ∧ isinstance e VmSettingsSupportStopped = hp_supports_vm_settings h ∧
       (hp_next_check h' = w_now (hp_world h) + hours 6 ∨
        w_now (hp_world h) < hp_next_check h ∧ hp_next_check h' = hp_next_check h ∧ hp_http h' = hp_http h)
  else hp_supports_vm_settings h' = hp_supports_vm_settings h.

(** What a response leaves *)
Definition fetched (h : host_plugin) (r : option vm_settings * bool) (h' : host_plugin) : Prop :=
  match r with
  | (Some v, true) =>
      hp_cached h' = Some v ∧ hp_supports_vm_settings h' = true ∧ fv_lt (vs_host_ga_plugin_version (vs_simple v)) HGAP_MIN_VERSION = Ok false ∧
      hp_fast_track_timestamp h' =
        (if json_eqb (vs_source (vs_simple v)) (JStr "FastTrack") then JStr (vs_created_on_timestamp (vs_simple v))
         else hp_fast_track_timestamp h) ∧
      hp_world h' = (record_fast_track v (hp_world h)).2
  | (None, true) => False
  | (v, false) =>
      v = hp_cached h ∧ hp_cached h' = hp_cached h ∧ hp_supports_vm_settings h' = hp_supports_vm_settings h ∧
      hp_fast_track_timestamp h' = hp_fast_track_timestamp h ∧ hp_world h' = hp_world h
  end.

Definition same_use (h h' : host_plugin) : Prop :=
  hp_cached h' = hp_cached h ∧ hp_fast_track_timestamp h' = hp_fast_track_timestamp h ∧ hp_world h' = hp_world h ∧
  hp_supports_vm_settings h' = hp_supports_vm_settings h.

Lemma failed_other h e h' : isinstance e VmSettingsNotSupported = false → same_use h h' → failed h e h'.
Proof. intros He (H1 & H2 & H3 & H4). unfold failed. by rewrite He. Qed.

Lemma raise_not_supported_spec {A} (Q : A → host_plugin → Prop) h0 h : same_use h0 h → wp raise_not_supported Q (failed h0) h.
Proof.
  intros (H1 & H2 & H3 & H4). unfold raise_not_supported. wp_steps. unfold hp_now. wp_steps.
  unfold failed. simpl. rewrite H4, H3.
  destruct (hp_supports_vm_settings h0); (split_and!; [done..|]); (split_and!; [done..|]); by left.
Qed.

Lemma not_supported_ordinary e : isinstance e VmSettingsNotSupported = true → ordinary e.
Proof. unfold ordinary, isinstance. by destruct (e_class e). Qed.

Lemma create_errors etag text :
  fails_with (λ e, isinstance e VmSettingsNotSupported = false) (create_from_vm_settings loads float_text etag text).
Proof.
  unfold create_from_vm_settings. intros e. destruct ((parse_vm_settings _ _ ;; _) _) as [[[]|x] v]; [done|].
  destruct (isinstance x Exception_) eqn:Hx; intros [= <-]; [done|].
  apply not_true_iff_false. intros Hn%not_supported_ordinary. unfold ordinary in Hn. congruence.
Qed.

Lemma compatible_errors u v : fails_with (λ e, isinstance e VmSettingsNotSupported = false) (ensure_compatible u v).
Proof. unfold ensure_compatible. raises_auto. Qed.
Hint Resolve compatible_errors : raises.

Lemma fv_ne_errors u v : fails_with (λ e, isinstance e VmSettingsNotSupported = false) (fv_ne u v).
Proof. unfold fv_ne, fv_eq. raises_auto. Qed.

Lemma fv_lt_errors u v : fails_with (λ e, isinstance e VmSettingsNotSupported = false) (fv_lt u v).
Proof. unfold fv_lt, tag_index, opt_ltb. raises_auto. Qed.

Lemma take_spec id etag r h0 h :
  same_use h0 h → wp (take_vm_settings E loads float_text id etag r) (fetched h0) (failed h0) h.
Proof.
  intros Hs. unfold take_vm_settings. apply wp_bind. case_match; [|by apply wp_raise, failed_other].
  apply wp_ret, wp_bind, wp_lift.
  2: { intros e. unfold read_body. case_match; [done|]. intros [= <-]. by apply failed_other. }
  intros content _. apply wp_bind, wp_lift; [|intros e He; apply failed_other; [by eapply create_errors|done]].
  intros v _. apply wp_bind, wp_gets, wp_bind, wp_lift; [|intros e He; apply failed_other; [by eapply fv_ne_errors|done]].
  intros changed _. apply wp_bind. eapply (wp_mono _ (λ _, same_use h0) _ (λ _ _, False)); [|clear h Hs; intros _ h Hs|by intros e ? []].
  { by apply wp_when; intros _. }
  apply wp_bind, wp_lift; [|intros e He; apply failed_other; [by eapply fv_lt_errors|done]].
  intros [] Hold; [by apply raise_not_supported_spec|]. destruct Hs as (H1 & H2 & H3 & H4).
  apply wp_bind, wp_gets, wp_bind, wp_modify, wp_bind, wp_modify, wp_bind.
  assert (Hw := record_quiet v (hp_world h)). unfold record_fast_track in Hw at 1.
  destruct (json_eqb _ _) eqn:Hsource.
  1: apply wp_bind, wp_modify.
  all: apply wp_on_hp_world; cbn [hp_world set_timestamp set_cached set_support]; (eapply wp_mono; [exact Hw| |done]);
    intros _ w ->; apply wp_ret; unfold fetched; cbn; rewrite Hsource, <- H3; by split_and!.
Qed.

Lemma query_spec cid force h :
  wp (query_vm_settings E HE loads float_text endpoint cid force) (fetched h) (failed h) h.
Proof.
  unfold query_vm_settings. apply wp_bind, (wp_gets id). unfold hp_now, id. apply wp_bind, wp_gets.
  destruct (negb _ && _) eqn:Hwait.
  { apply andb_true_iff in Hwait as [Hs%negb_true_iff Hn%Z.ltb_lt]. apply wp_raise. unfold failed. simpl.
    rewrite Hs. split_and!; [done..|]. by right. }
  apply wp_bind, wp_modify, wp_bind, wp_lift.
  2: { intros e He. apply failed_other; [|done]. revert e He. change (fails_with (λ e, isinstance e VmSettingsNotSupported = false)
         (get_vm_settings_request endpoint cid h)). unfold get_vm_settings_request, header. raises_auto. }
  intros [url headers] _. apply wp_bind, wp_on_http. intros s. split; [|intros e He; by apply failed_other].
  intros r. case_match; [by apply failed_other|]. case_match; [by apply raise_not_supported_spec|].
  case_match; [apply wp_ret; cbn; by destruct (hp_cached h)|].
  case_match; [|by apply take_spec]. apply wp_bind, wp_modify, wp_raise. by apply failed_other.
Qed.

Lemma existsb_documented e : existsb (isinstance e) documented = false → isinstance e VmSettingsNotSupported = false.
Proof. unfold documented. cbn [existsb]. rewrite !orb_false_iff. tauto. Qed.

Lemma failed_same h e h' : isinstance e VmSettingsNotSupported = false → failed h e h' → same_use h h'.
Proof. unfold failed. intros ->. by intros (H1 & H2 & H3 & H4). Qed.

Lemma fetch_spec cid force h :
  wp (fetch_vm_settings E HE loads float_text endpoint format_exception cid force) (fetched h)
    (λ e h', (ordinary e → existsb (isinstance e) documented = true) ∧ failed h e h') h.
Proof.
  unfold fetch_vm_settings. apply wp_bind, (wp_gets id), wp_finally, wp_catch.
  eapply wp_mono; [apply query_spec| |].
  - intros [[v|] []] h' Hf; exact Hf || (unfold hp_now; by wp_steps).
  - intros e h' Hf. unfold hp_now. destruct (existsb (isinstance e) documented) eqn:Hd; [wp_steps; by split|].
    destruct (isinstance e Exception_) eqn:Hx; [|wp_steps; split; [unfold ordinary; congruence|done]].
    apply existsb_documented in Hd. wp_steps; (split; [done|]); by apply failed_other, (failed_same _ _ _ Hd Hf).
Qed.

(** C9: [fetch_vm_settings] either returns vmSettings or raises one of the errors it
    documents; an exception that ends the process apart, nothing else escapes.  With new
    vmSettings: they are the cached ones, the plugin supports them and is recent enough, the
    time of the last Fast Track goal state moves to theirs when they are Fast Track and stays
    otherwise, and only the state file is written.  Without (304): what was cached is returned
    and nothing changes.  With an error: the vmSettings in use, the timestamp and the disk
    stay; "not supported" makes the plugin unsupported and unasked for six hours, and says that
    support stopped exactly when it was there before. *)
Theorem fetch_vm_settings_contract cid force h :
  wp (fetch_vm_settings E HE loads float_text endpoint format_exception cid force) (fetched h)
    (λ e h', (ordinary e → existsb (isinstance e) documented = true) ∧ failed h e h') h.
Proof. apply fetch_spec. Qed.

(** The disk takes the state file: it can be written and removed, and its directory is there. *)
Definition takes_state_file (w : world) : Prop :=
  write_fault E (fast_track_state_file E) = None ∧ isdir (fast_track_state_file E) (w_fs w) = false ∧
  isdir (parent_dir (fast_track_state_file E)) (w_fs w) = true.

Lemma recorded v w :
  takes_state_file w →
  let w' := (record_fast_track v w).2 in
  let fast := json_eqb (vs_source (vs_simple v)) (JStr "FastTrack") in
  exists_path (fast_track_state_file E) (w_fs w') = fast ∧
  get_fast_track_timestamp E w' =
    JStr (if fast then vs_created_on_timestamp (vs_simple v) else create_utc_timestamp datetime_min_utc).
Proof.
  intros (Hf & Hd & Hp). unfold record_fast_track. cbv zeta. destruct (json_eqb _ _).
  - unfold save_fast_track_state, except, catch, write_file. rewrite Hd, Hp, Hf. cbn.
    unfold get_fast_track_timestamp, exists_path, read_file. cbn. by rewrite lookup_insert_eq.
  - assert (Hno : w_fs (clear_fast_track_state E w).2 !! fast_track_state_file E = None).
    { unfold clear_fast_track_state, except, catch, mbind, M_bind, gets, exists_path, when, remove_file, isfile, isdir in *.
      destruct (w_fs w !! fast_track_state_file E) as [[]|] eqn:Hl; [done| |done]. cbn beta iota. rewrite Hl, Hf. cbn.
      by rewrite lookup_delete_eq. }
    unfold get_fast_track_timestamp, exists_path. by rewrite Hno.
Qed.

(** What [fetch_vm_settings] learnt survives a restart: on the disk it leaves, a new
    [HostPluginProtocol] starts as supporting vmSettings exactly when the last goal state was
    Fast Track, with the time of that goal state, and otherwise with the earliest time. *)
Theorem fast_track_state_survives_restart cid force h v h' :
  takes_state_file (hp_world h) →
  fetch_vm_settings E HE loads float_text endpoint format_exception cid force h = (Ok (Some v, true), h') →
  let fast := json_eqb (vs_source (vs_simple v)) (JStr "FastTrack") in
  hp_supports_vm_settings (new_host_plugin E (hp_world h')) = fast ∧
  hp_fast_track_timestamp (new_host_plugin E (hp_world h')) =
    JStr (if fast then vs_created_on_timestamp (vs_simple v) else create_utc_timestamp datetime_min_utc).
Proof.
  intros Hw Hrun. pose proof (wp_run _ _ _ _ _ _ (fetch_spec cid force h) Hrun) as (_ & _ & _ & _ & ->).
  by apply recorded.
Qed.
End contract.

(** ** Concrete runs *)

(** A plugin that answers with the vmSettings of [sample_goal], and with 304 to their etag *)
Definition sample_plugin_http : http_env :=
  mkHttpEnv (mkProxyConf None None [] true) true true true "168.63.129.16" "WALinuxAgent/2.13"
    (λ _ r, if dict_get "if-none-match" (rq_headers r) is None
            then Ok (mkResponse 200 "OK" [("Content-Type", "application/json"); ("ETag", "292")] (Some sample_text))
            else Ok (mkResponse 304 "Not Modified" [] (Some ""))).

Definition sample_host_plugin : host_plugin :=
  update_host_plugin (Some "c6d5526c") (Some "db00a7755a5e4e8a.1._sample") (new_host_plugin sample_env sample_world).

Definition sample_fetch : HP (option vm_settings * bool) :=
  fetch_vm_settings sample_env sample_plugin_http sample_loads (λ _, None) "168.63.129.16" e_msg "9a47a2a2" false.

Definition is_update (r : res exn (option vm_settings * bool)) : option bool :=
  match r with Ok (_, b) => Some b | Err _ => None end.

(** The first request brings the vmSettings, the second says that they are current. *)
Example fetched_once : is_update (sample_fetch sample_host_plugin).1 = Some true.
Proof. vm_compute. reflexivity. Qed.

Example then_not_modified : is_update (sample_fetch (sample_fetch sample_host_plugin).2).1 = Some false.
Proof. vm_compute. reflexivity. Qed.

Lemma sample_transport_errors log r e :
  transport sample_plugin_http log r = Err e → isinstance e VmSettingsNotSupported = false.
Proof. simpl. by case_match. Qed.

Lemma fetch_vm_settings_contract_witness :
  is_update (sample_fetch sample_host_plugin).1 = Some true ∧
  wp sample_fetch (fetched sample_env sample_host_plugin)
    (λ e h', (ordinary e → existsb (isinstance e) documented = true) ∧ failed sample_host_plugin e h') sample_host_plugin.
Proof.
  split; [vm_compute; reflexivity|]. apply fetch_vm_settings_contract; [discriminate|exact sample_transport_errors].
Defined.

Lemma fast_track_state_survives_restart_witness :
  ∃ v h', sample_fetch sample_host_plugin = (Ok (Some v, true), h') ∧
    hp_supports_vm_settings (new_host_plugin sample_env (hp_world h')) = true ∧
    hp_fast_track_timestamp (new_host_plugin sample_env (hp_world h')) = JStr (vs_created_on_timestamp (vs_simple v)).
Proof.
  assert (Hok : match (sample_fetch sample_host_plugin).1 with
                | Ok (Some v, true) => json_eqb (vs_source (vs_simple v)) (JStr "FastTrack") = true
                | _ => False
                end) by (vm_compute; reflexivity).
  destruct (sample_fetch sample_host_plugin) as [r h'] eqn:Hrun. cbn in Hok.
  destruct r as [[[v|] []]|]; try contradiction. exists v, h'. split; [reflexivity|].
  destruct (fast_track_state_survives_restart sample_env sample_plugin_http sample_loads (λ _, None) "168.63.129.16" e_msg
    ltac:(discriminate) sample_transport_errors "9a47a2a2" false sample_host_plugin v h' ltac:(by split_and!) Hrun) as [Hs Ht].
  rewrite Hok in Hs, Ht. by split.
Defined.
