(* ===== verification/WireClient.v ===== *)
(** * The client of the fabric (common/protocol/wire.py)

    [WireClient] sends requests to the wire server, downloads artifacts directly or through the host
    plugin, and refreshes what it sends to the plugin (the container and the role configuration)
    from the goal state.  It also reports the health and the role properties of the machine.

    The host plugin is created when it is first needed; until then [cl_plugin] only carries the
    state of the network and of the machine.  [request_time] is the time the download of a URI
    takes. *)
From S2P Require Import Prelude PyExn FlexVersion Datetime Json Ticks TextUtil Xml Timers World RestApi ExtInstance Urls Http HealthService VmSettings HostPlugin.
From Stdlib Require Import Ascii.

Definition PROTOCOL_VERSION : string := "2012-11-30".
Definition INVALID_CONTAINER_CONFIGURATION : string := "InvalidContainerConfiguration".

Record client := mkClient {
  cl_created : bool;
  cl_plugin : host_plugin;
  cl_host_is_default : bool;
  cl_container_id : option string
}.
Notation CL X := (M client exn X).

Definition set_cl_plugin (h : host_plugin) (c : client) : client := mkClient (cl_created c) h (cl_host_is_default c) (cl_container_id c).
Definition set_cl_created (h : host_plugin) (c : client) : client := mkClient true h (cl_host_is_default c) (cl_container_id c).
Definition flip_channel (c : client) : client := mkClient (cl_created c) (cl_plugin c) (negb (cl_host_is_default c)) (cl_container_id c).
Definition set_container (i : option string) (c : client) : client := mkClient (cl_created c) (cl_plugin c) (cl_host_is_default c) i.

Definition on_hp {A} (m : HP A) : CL A := zoom cl_plugin set_cl_plugin m.

(** ** Headers *)

Definition get_header : list (string * string) := [("x-ms-agent-name", "WALinuxAgent"); ("x-ms-version", PROTOCOL_VERSION)].
Definition get_header_for_xml_content : list (string * string) := get_header ++ [("Content-Type", "text/xml;charset=utf-8")].

Section client.
Context (E : env) (HE : http_env) (parse_doc : string → res exn xml) (endpoint : string) (request_time : hstate → Z).

Definition on_net {A} (m : M hstate exn A) : CL A := on_hp (on_http m).

(** [get_headers_for_encrypted_request] *)
Definition get_headers_for_encrypted_request (cypher : option string) (f : fs) : res exn (list (string * string)) :=
  match read_file (lib_dir E ++ ["TransportCert.pem"]) f with
  | Ok c => Ok (get_header ++ [("x-ms-guest-agent-public-x509-cert", get_bytes_from_pem (str_split (String "010" "") (c_text c)))] ++
                match cypher with Some x => [("x-ms-cipher-name", x)] | None => [] end)
  | Err e => Err (protocol_error ("Failed to read " +:+ path_str (lib_dir E ++ ["TransportCert.pem"]) +:+ ": " +:+ e_msg e))
  end.
Definition get_header_for_remote_access (f : fs) : res exn (list (string * string)) := get_headers_for_encrypted_request (Some "AES128_CBC") f.

(** ** The wire server *)

(** [call_wireserver]: the request never uses a proxy. *)
Definition call_wireserver (uri : string) (http_req : M hstate exn response) : M hstate exn response :=
  catch (resp ← http_req;
         if request_failed resp OK_CODES
         then raise (protocol_error ("[Wireserver Failed] URI " +:+ uri +:+ "  [HTTP Failed] Status Code " +:+ pretty (r_status resp)))
         else mret resp)
    (λ e, if isinstance e ResourceGoneError then raise e
          else if isinstance e Exception_ then raise (protocol_error ("[Wireserver Exception] " +:+ e_msg e))
          else raise e).

(** [decode_config]; texts are their UTF-8 encodings. *)
Definition decode_config (data : string) : string := remove_bom data.

Definition fetch_config (uri : string) (headers : option (list (string * string))) : M hstate exn string :=
  resp ← call_wireserver uri (http_get HE uri headers false None None DELAY_IN_SECONDS false 10 false);
  b ← lift (read_body resp);
  mret (decode_config b).

(** [check_wire_protocol_version] *)
Definition check_wire_protocol_version : CL unit :=
  text ← on_net (fetch_config ("http://" +:+ endpoint +:+ "/?comp=versions") None);
  '(preferred, supported) ← lift (parse_version_info parse_doc text);
  if bool_decide (preferred = Some PROTOCOL_VERSION) || bool_decide (Some PROTOCOL_VERSION ∈ supported) then mret tt
  else raise (agent_error ProtocolNotFoundError
                ("Agent supported wire protocol version: " +:+ PROTOCOL_VERSION +:+ " was not advised by Fabric.") None (-1)).

(** *** [GoalState._fetch_goal_state] (common/protocol/goal_state.py) *)

Definition GET_GOAL_STATE_MAX_ATTEMPTS : nat := 6.
Definition goal_state_uri : string := "http://" +:+ endpoint +:+ "/machine/?comp=goalstate".

(** [time.sleep(0.5)] *)
Definition pause : HP unit :=
  modify (λ h, set_hp_world (mkWorld (w_fs (hp_world h)) (w_now (hp_world h) + 500000) (w_trace (hp_world h))
                               (w_ext_validation_disabled (hp_world h))) h).

(** The loop: the incarnation, the text, the document and its role instance *)
Fixpoint fetch_goal_attempts (n : nat) (incarnation : option string) : CL (option string * string * xml * xml) :=
  match n with
  | O => raise (protocol_error ("Fetched goal state without a RoleInstance [incarnation " +:+ default "None" incarnation +:+ "]"))
  | S n' =>
      text ← on_net (fetch_config goal_state_uri (Some get_header));
      doc ← lift (parse_doc text);
      let incarnation := findtext (Some doc) "Incarnation" in
      match find (Some doc) "RoleInstance" with
      | Some role_instance => mret (incarnation, text, doc, role_instance)
      | None => on_hp pause ;; fetch_goal_attempts n' incarnation
      end
  end.

Definition fetch_goal_state : CL (option string * string * xml) :=
  '(incarnation, text, doc, role_instance) ← fetch_goal_attempts GET_GOAL_STATE_MAX_ATTEMPTS (Some "unknown");
  let container_id := findtext (find (Some doc) "Container") "ContainerId" in
  let role_config_name := findtext (find (Some role_instance) "Configuration") "ConfigName" in
  modify (set_container container_id) ;;
  created ← gets cl_created;
  when created (on_hp (modify (update_host_plugin container_id role_config_name))) ;;
  mret (incarnation, text, doc).

(** [update_host_plugin_headers], [update_host_plugin_from_goal_state], [get_host_plugin] *)
Definition update_host_plugin_headers : CL unit := _ ← fetch_goal_state; mret tt.
Definition update_host_plugin_from_goal_state : CL unit := created ← gets cl_created; when created update_host_plugin_headers.
Definition get_host_plugin : CL unit :=
  created ← gets cl_created;
  when (negb created)
    (modify (λ c, set_cl_created (set_hp_http (hp_http (cl_plugin c)) (new_host_plugin E (hp_world (cl_plugin c)))) c) ;;
     update_host_plugin_headers).

(** ** Downloads *)

(** [_fetch_response] *)
Definition headers_text (headers : option (list (string * string))) : string :=
  match filter (λ h, h.1 ∈ HEADERS_TO_INCLUDE_IN_FAILURE_MSG) (default [] headers) with
  | [] => ""
  | l => " with headers [" +:+ json_dumps (JObj (prod_map id JStr <$> l)) +:+ "]"
  end.

Definition fetch_response (uri : string) (headers : option (list (string * string))) (use_proxy : option bool) (retry_codes : option (list Z))
    (ok_codes : option (list Z)) (fail_fast_on_timeout : bool) : CL response :=
  catch
    (resp ← on_net (http_get HE uri headers (default true use_proxy) None retry_codes DELAY_IN_SECONDS false 10 fail_fast_on_timeout);
     get_host_plugin ;;
     if (r_status resp =? 400) && str_contains INVALID_CONTAINER_CONFIGURATION (read_response_error resp)
     then raise (agent_error InvalidContainerError (read_response_error resp) None (-1))
     else if request_failed resp (default OK_CODES ok_codes) then
       on_hp (report_fetch_health HE endpoint uri (negb (request_failed_at_hostplugin resp HOSTPLUGIN_UPSTREAM_FAILURE_CODES)) "WireClient"
                (read_response_error resp)) ;;
       raise (protocol_error ("Fetch failed from [" +:+ uri +:+ "]" +:+ headers_text headers +:+ ": " +:+ read_response_error resp))
     else
       on_hp (report_fetch_health HE endpoint uri true "WireClient" "") ;;
       mret resp)
    (λ e, if isinstance e HttpError || isinstance e ProtocolError || isinstance e OSError then raise e
          else if isinstance e Exception_
          then raise (protocol_error ("Fetch failed with exception from [" +:+ uri +:+ "]" +:+ headers_text headers +:+ ": " +:+ e_msg e))
          else raise e).

(** [fetch]: the content and the headers *)
Definition fetch (uri : string) (headers : option (list (string * string))) (use_proxy : option bool) (decode : bool)
    (retry_codes ok_codes : option (list Z)) (fail_fast_on_timeout : bool) : CL (option string * option (list (string * string))) :=
  resp ← fetch_response uri headers use_proxy retry_codes ok_codes fail_fast_on_timeout;
  if request_failed resp (default OK_CODES ok_codes) then mret (None, None)
  else
    b ← lift (read_body resp);
    mret (Some (if decode then decode_config b else b), Some (r_headers resp)).

(** [_call_hostplugin_with_container_check] *)
Definition is_stale (e : exn) : bool := isinstance e ResourceGoneError || isinstance e InvalidContainerError.
Definition call_hostplugin_with_container_check {A} (host_func : CL A) : CL A :=
  catch host_func (λ e,
    if is_stale e then get_host_plugin ;; update_host_plugin_from_goal_state ;; host_func else raise e).

(** [_download_using_appropriate_channel] *)
Definition download_using_appropriate_channel {A} (direct_download hgap_download : CL A) : CL A :=
  let hgap := call_hostplugin_with_container_check hgap_download in
  host_first ← gets cl_host_is_default;
  let '(primary, secondary) := if (host_first : bool) then (hgap, direct_download) else (direct_download, hgap) in
  except Exception_ primary (λ primary_error,
    except Exception_ (v ← secondary; modify flip_channel ;; mret v) (λ e,
      raise (upload_failed ("Download failed both on the primary and fallback channels. Primary: [" +:+ e_msg primary_error +:+
                            "] Fallback: [" +:+ e_msg e +:+ "]")))).

(** The loop of [_download_with_fallback_channel] without [on_downloaded]: the URI and what was
    downloaded; [uris] are in the order they are tried. *)
Definition DOWNLOAD_TIMEOUT_US : Z := 5 * 60 * 1000000.
Definition advance : HP unit :=
  modify (λ h, set_hp_world (mkWorld (w_fs (hp_world h)) (w_now (hp_world h) + request_time (hp_http h)) (w_trace (hp_world h))
                               (w_ext_validation_disabled (hp_world h))) h).

Definition download_error (msg : string) : exn := agent_error ExtensionDownloadError msg None ErrorCodes.PluginManifestDownloadError.

Fixpoint fetch_from_uris {A} (download_type : string) (start_time : Z) (direct hgap : string → CL A) (uris : list string) (last_error : string)
    : CL (string * A) :=
  match uris with
  | [] => raise (download_error ("Failed to download " +:+ download_type +:+ " from all URIs. Last error: " +:+ last_error))
  | uri :: uris' =>
      now ← on_hp hp_now;
      if DOWNLOAD_TIMEOUT_US <? now - start_time
      then raise (download_error ("Timeout downloading " +:+ download_type +:+ ". Last error: " +:+ last_error))
      else
        catch (v ← download_using_appropriate_channel (direct uri) (hgap uri); mret (uri, v))
          (λ e, if isinstance e SignatureValidationError then raise e
                else if isinstance e Exception_ then on_hp advance ;; fetch_from_uris download_type start_time direct hgap uris' (e_msg e)
                else raise e)
  end.

(** A header that is [None] cannot be sent. *)
Definition sendable (headers : list (string * option string)) : res exn (list (string * string)) :=
  map_res (λ h, header h.1 h.2) headers.

(** [_fetch_content] *)
Definition fetch_content (download_type : string) (uris : list string) (use_verify_header : bool) : CL (string * option string) :=
  get_host_plugin ;;
  start ← on_hp hp_now;
  fetch_from_uris download_type start
    (λ uri, '(content, _) ← fetch uri None None true None None true; mret content)
    (λ uri,
       '(request_uri, request_headers) ← on_hp (get_artifact_request HE endpoint (Some uri) use_verify_header None);
       headers ← lift (sendable request_headers);
       '(content, _) ← fetch request_uri (Some headers) (Some false) true (Some HGAP_GET_EXTENSION_ARTIFACT_RETRY_CODES) None false;
       mret content)
    uris "None".

(** [fetch_artifacts_profile_blob], [fetch_manifest] *)
Definition fetch_artifacts_profile_blob (uri : string) : CL (option string) :=
  '(_, content) ← fetch_content "artifacts profile blob" [uri] false; mret content.
Definition fetch_manifest (manifest_type : string) (uris : list string) (use_verify_header : bool) : CL (option string) :=
  '(uri, content) ← fetch_content (manifest_type +:+ " manifest") uris use_verify_header;
  get_host_plugin ;;
  on_hp (modify (update_manifest_uri (Some uri))) ;;
  mret content.
End client.
