(* ===== verification/GoalState.v ===== *)
(** * The goal state (common/protocol/goal_state.py)

    [GoalState] holds what the fabric wants of the machine.  The wire server's goal state has an
    incarnation and the addresses of the other documents: the ExtensionsConfig, the hosting
    environment, the shared configuration, the certificates and the remote users.  The host
    plugin may serve the extensions (Fast Track) instead.  [update] fetches what changed and
    uses the more recent of the two for the extensions, by the time of their creation.

    Telemetry, the events about signatures included, is omitted.  [uuid] are the correlation ids
    and [enable_fast_track] is a setting of the configuration. *)
From S2P Require Import Prelude PyExn FlexVersion Datetime Json Ticks TextUtil Xml Timers World RestApi ExtInstance Samples Urls Http HealthService.
From S2P Require Import VmSettings ExtConfig History HostPlugin WireClient Certificates.
From Stdlib Require Import Ascii.

(** ** The extensions goal state *)

(** [EmptyExtensionsGoalState] is used when the wire server names no ExtensionsConfig.  Only goal
    states of the wire server are ever marked outdated. *)
Inductive egs :=
| VmGs (v : vm_settings)
| ConfigGs (c : extensions_config) (outdated : bool)
| EmptyGs (incarnation : option string) (outdated : bool).

Definition is_outdated (g : egs) : bool := match g with VmGs _ => false | ConfigGs _ b | EmptyGs _ b => b end.
Definition mark_outdated (g : egs) : egs := match g with VmGs v => VmGs v | ConfigGs c _ => ConfigGs c true | EmptyGs i _ => EmptyGs i true end.
Definition egs_id (g : egs) : string :=
  match g with
  | VmGs v => vs_id v
  | ConfigGs c _ => ec_id c
  | EmptyGs i _ => "incarnation_" +:+ default "None" i
  end.
Definition egs_source (g : egs) : json :=
  match g with VmGs v => vs_source (vs_simple v) | ConfigGs _ _ => JStr "Fabric" | EmptyGs _ _ => JStr "Empty" end.

(** [created_on_timestamp]: a text, but for [EmptyExtensionsGoalState], where it is a datetime; a
    comparison of the two raises. *)
Inductive created := CText (s : string) | CDatetime (t : datetime) | CJson (j : json).
Definition created_on (g : egs) : created :=
  match g with
  | VmGs v => CText (vs_created_on_timestamp (vs_simple v))
  | ConfigGs c _ => CText (ec_created_on_timestamp c)
  | EmptyGs _ _ => CDatetime datetime_min_utc
  end.
Definition created_of_json (j : json) : created := match j with JStr s => CText s | _ => CJson j end.

Definition created_lt (a b : created) : res exn bool :=
  match a, b with
  | CText s, CText t => Ok (str_ltb s t)
  | CDatetime t, CDatetime u => Ok (to_us t <? to_us u)
  | _, _ => Err (py_error TypeError "'<' not supported between instances of different types")
  end.

(** ** The goal state *)

Module GoalStateProperties.
Definition RoleConfig : Z := 1.
Definition HostingEnv : Z := 2.
Definition SharedConfig : Z := 4.
Definition ExtensionsGoalState : Z := 8.
Definition Certificates : Z := 16.
Definition RemoteAccessInfo : Z := 32.
Definition All : Z := foldr Z.lor 0 [RoleConfig; HostingEnv; SharedConfig; ExtensionsGoalState; Certificates; RemoteAccessInfo].
End GoalStateProperties.
Import GoalStateProperties.

(** What comes from the wire server, set at once by [_fetch_full_wire_server_goal_state] *)
Record wire_goal := mkWireGoal {
  wg_incarnation : option string;
  wg_role_instance_id : option string;
  wg_role_config_name : option string;
  wg_container_id : option string;
  wg_hosting_env : option Xml.HostingEnv;
  wg_shared_conf : option string;
  wg_certs : list cert;
  wg_certs_uri : option string;
  wg_remote_access : option RemoteAccess
}.
Definition empty_wire_goal : wire_goal := mkWireGoal None None None None None None [] None None.

Record goal := mkGoal {
  go_properties : Z;
  go_save_to_history : bool;
  go_ignore_certificate_errors : bool;
  go_wire : wire_goal;
  go_extensions : option egs;
  go_history : option path
}.
Definition new_goal (properties : Z) (save_to_history ignore_certificate_errors : bool) : goal :=
  mkGoal properties save_to_history ignore_certificate_errors empty_wire_goal None None.

Definition has (p : Z) (g : goal) : bool := negb (Z.land (go_properties g) p =? 0).
Definition set_go_wire (w : wire_goal) (g : goal) : goal :=
  mkGoal (go_properties g) (go_save_to_history g) (go_ignore_certificate_errors g) w (go_extensions g) (go_history g).
Definition set_go_extensions (x : egs) (g : goal) : goal :=
  mkGoal (go_properties g) (go_save_to_history g) (go_ignore_certificate_errors g) (go_wire g) (Some x) (go_history g).
Definition set_go_history (h : path) (g : goal) : goal :=
  mkGoal (go_properties g) (go_save_to_history g) (go_ignore_certificate_errors g) (go_wire g) (go_extensions g) (Some h).

Record gst := mkGst { gt_goal : goal; gt_client : client }.
Notation G X := (M gst exn X).
Definition set_gt_goal (g : goal) (s : gst) : gst := mkGst g (gt_client s).
Definition set_gt_client (c : client) (s : gst) : gst := mkGst (gt_goal s) c.
Definition on_cl {A} (m : CL A) : G A := zoom gt_client set_gt_client m.
Definition change (f : goal → goal) : G unit := modify (λ s, set_gt_goal (f (gt_goal s)) s).

Section goal_state.
Context (E : env) (HE : http_env) (parse_doc : string → res exn xml) (loads : string → res exn json) (float_text : string → option Z).
Context (endpoint : string) (request_time : hstate → Z) (format_exception : exn → string).
Context (openssl : list string → fs → res exn string) (getctime : path → fs → Z).
Context (enable_fast_track : bool) (uuid : hstate → string).

Notation fetch_goal_state := (WireClient.fetch_goal_state HE parse_doc endpoint).
Notation get_host_plugin := (WireClient.get_host_plugin E HE parse_doc endpoint).
Notation update_host_plugin_headers := (WireClient.update_host_plugin_headers HE parse_doc endpoint).

(** *** The history *)

Definition utc_now (c : client) : datetime := default datetime_min_utc (from_us (w_now (hp_world (cl_plugin c)))).
Definition on_machine {A} (m : M world exn A) : G A := on_cl (on_hp (on_hp_world m)).

Definition start_history (t : datetime) (tag : option string) : G unit :=
  root ← on_machine (new_history E getctime t tag);
  change (set_go_history root).

(** [self._history.save...], when [save_to_history] *)
Definition history_save (data file_name : string) : G unit :=
  g ← gets gt_goal;
  when (go_save_to_history g)
    match go_history g with
    | Some root => on_machine (save E root data file_name)
    | None => raise (py_error AttributeError "'NoneType' object has no attribute 'save'")
    end.

Definition history_save_goal_state (text : string) : G unit :=
  history_save text "GoalState.xml" ;;
  g ← gets gt_goal;
  when (go_save_to_history g) (on_machine (save_placeholder E)).

(** *** [_fetch_vm_settings] *)

Definition query_plugin (force_update : bool) : CL (option vm_settings * bool) :=
  get_host_plugin ;;
  c ← get_state;
  on_hp (HostPlugin.fetch_vm_settings E HE loads float_text endpoint format_exception (uuid (hp_http (cl_plugin c))) force_update).

Definition save_parse_error (e : exn) : CL unit :=
  match e_args e with
  | [etag; text] =>
      c ← get_state;
      on_hp (on_hp_world (
        known ← gets (λ w, tag_exists E etag (w_fs w));
        when (negb known) (root ← new_history E getctime (utc_now c) (Some etag); save E root text "VmSettings.json")))
  | _ => mret tt
  end.

Definition fetch_vm_settings (force_update : bool) : CL (option vm_settings * bool) :=
  if negb enable_fast_track then mret (None, false)
  else
    catch
      (catch (query_plugin force_update) (λ e,
         if isinstance e ResourceGoneError then update_host_plugin_headers ;; query_plugin force_update else raise e))
      (λ e,
         if isinstance e VmSettingsSupportStopped then raise e
         else if isinstance e VmSettingsNotSupported then mret (None, false)
         else if isinstance e VmSettingsParseError then save_parse_error e ;; raise e
         else raise e).

(** *** [_download_certificates], [_check_and_download_missing_certs_on_disk] *)

Definition summary_text (l : list cert) : string :=
  json_dumps (JArr ((λ c, JObj [("thumbprint", JStr (ct_thumbprint c)); ("hasPrivateKey", JBool (ct_has_private_key c))]) <$> l)).

Definition goal_certificates (uri : string) : G (list cert) :=
  g ← gets gt_goal;
  certs ← on_cl (download_certificates E HE parse_doc openssl (go_ignore_certificate_errors g) uri);
  history_save (summary_text certs) "Certificates.json" ;;
  mret certs.

Definition check_and_download_missing_certs_on_disk : G unit :=
  s ← get_state;
  match wg_certs_uri (go_wire (gt_goal s)) with
  | None => mret tt
  | Some uri =>
      let f := w_fs (hp_world (cl_plugin (gt_client s))) in
      when (existsb (λ c, negb (isfile (lib E (ct_thumbprint c +:+ ".crt")) f)) (wg_certs (go_wire (gt_goal s))))
        (except Exception_ (_ ← goal_certificates uri; mret tt) (λ _, mret tt))
  end.

(** *** [_fetch_full_wire_server_goal_state] *)

Definition fetch (uri : option string) (headers : list (string * string)) : G string :=
  match uri with
  | Some u => on_cl (on_net (fetch_config HE u (Some headers)))
  | None => raise (protocol_error "[Wireserver Exception] no URI")
  end.

Definition save_shared_config (text : string) : G unit :=
  on_machine (except Exception_ (write_file (write_fault E) (lib E "SharedConfig.xml") (plain text)) (λ _, mret tt)).

Definition fetch_extensions_config (incarnation : option string) (doc : xml) : G egs :=
  g ← gets gt_goal;
  match findtext (Some doc) "ExtensionsConfig" with
  | Some uri =>
      if has ExtensionsGoalState g then
        text ← fetch (Some uri) get_header;
        c ← on_cl (create_from_extensions_config parse_doc loads float_text
                     (fetch_artifacts_profile_blob E HE parse_doc endpoint request_time) incarnation text);
        history_save (get_redacted_config c) "ExtensionsConfig.xml" ;;
        mret (ConfigGs c false)
      else mret (EmptyGs incarnation false)
  | None => mret (EmptyGs incarnation false)
  end.

Definition fetch_full_body (incarnation : option string) (doc : xml) : G egs :=
  g ← gets gt_goal;
  let d := Some doc in
  let role := λ x : option string, if has RoleConfig g then x else None in
  let role_instance := find d "RoleInstance" in
  extensions_config ← fetch_extensions_config incarnation doc;
  hosting_env ← (if has HostingEnv g then
                   text ← fetch (findtext d "HostingEnvironmentConfig") get_header;
                   h ← lift (parse_hosting_env parse_doc text);
                   history_save text "HostingEnvironmentConfig.xml" ;; mret (Some h)
                 else mret None);
  shared_config ← (if has SharedConfig g then
                     text ← fetch (findtext d "SharedConfig") get_header;
                     history_save text "SharedConfig.xml" ;; save_shared_config text ;; mret (Some text)
                   else mret None);
  let certs_uri := findtext d "Certificates" in
  certs ← match certs_uri with
          | Some uri => if has Certificates g then goal_certificates uri else mret []
          | None => mret []
          end;
  remote_access ← (if has RemoteAccessInfo g then
                     match findtext (find d "Container") "RemoteAccessInfo" with
                     | None => mret None
                     | Some uri =>
                         f ← gets (λ s, w_fs (hp_world (cl_plugin (gt_client s))));
                         headers ← lift (get_header_for_remote_access E f);
                         text ← fetch (Some uri) headers;
                         r ← lift (parse_remote_access parse_doc (Some text));
                         history_save text "RemoteAccess.xml" ;; mret (Some r)
                     end
                   else mret None);
  change (set_go_wire (mkWireGoal incarnation (role (findtext role_instance "InstanceId"))
                         (role (findtext (find role_instance "Configuration") "ConfigName"))
                         (role (findtext (find d "Container") "ContainerId"))
                         hosting_env shared_config certs certs_uri remote_access)) ;;
  mret extensions_config.

Definition fetch_full_wire_server_goal_state (incarnation : option string) (doc : xml) : G egs :=
  except Exception_ (fetch_full_body incarnation doc)
    (λ e, raise (agent_error ProtocolError "Error fetching goal state" (Some e) (-1))).

(** *** [_restore_wire_server_goal_state]: the timestamp is that of the error. *)
Definition restore_wire_server_goal_state (incarnation : option string) (text : string) (doc : xml) (timestamp : json) : G unit :=
  s ← get_state;
  when (go_save_to_history (gt_goal s)) (start_history (utc_now (gt_client s)) incarnation) ;;
  history_save_goal_state text ;;
  x ← fetch_full_wire_server_goal_state incarnation doc;
  change (set_go_extensions x) ;;
  older ← lift (created_lt (created_on x) (created_of_json timestamp));
  when older (change (set_go_extensions (mark_outdated x))).

(** *** [update] *)

(** The part after the goal states were fetched: [vm_settings] are of Fast Track, if they are there. *)
Definition most_recent (goal_state_updated : bool) (vm_settings : option egs) (extensions_config : option egs) : res exn (option egs) :=
  match goal_state_updated, extensions_config with
  | true, Some x =>
      match vm_settings with
      | Some v => newer ← created_lt (created_on x) (created_on v); Ok (Some (if (newer : bool) then v else x))
      | None => Ok (Some x)
      end
  | _, _ => Ok vm_settings
  end.

Definition use_extensions (x : egs) : G unit :=
  g ← gets gt_goal;
  older ← match go_extensions g with
          | None => mret false
          | Some cur => lift (created_lt (created_on x) (created_on cur))
          end;
  when (negb older) (change (set_go_extensions x)).

Definition update_from (timestamp : datetime) (force_update : bool) (incarnation : option string) (text : string) (doc : xml)
    (vm_settings : option vm_settings) (vm_settings_updated : bool) : G unit :=
  g ← gets gt_goal;
  let goal_state_updated := force_update || negb (bool_decide (incarnation = wg_incarnation (go_wire g))) in
  let fabric := match vm_settings with Some v => json_eqb (vs_source (vs_simple v)) (JStr "Fabric") | None => false end in
  let '(vm_settings, vm_settings_updated) := if fabric then (None, false) else (vm_settings, vm_settings_updated) in
  if negb goal_state_updated && negb vm_settings_updated then mret tt
  else
    let tag := match vm_settings with
               | None => default "None" incarnation
               | Some v => default "None" incarnation +:+ "-" +:+ vs_etag v
               end in
    when (go_save_to_history g) (start_history timestamp (Some tag)) ;;
    when goal_state_updated (history_save_goal_state text) ;;
    match vm_settings with
    | Some v => when vm_settings_updated (history_save (get_redacted_text v) "VmSettings.json")
    | None => mret tt
    end ;;
    extensions_config ← (if goal_state_updated then x ← fetch_full_wire_server_goal_state incarnation doc; mret (Some x) else mret None);
    if has ExtensionsGoalState g then
      x ← lift (most_recent goal_state_updated (VmGs <$> vm_settings) extensions_config);
      match x with
      | Some x => use_extensions x
      | None => raise (py_error AttributeError "'NoneType' object has no attribute 'created_on_timestamp'")
      end ;;
      g ← gets gt_goal;
      when (match go_extensions g with Some x => json_eqb (egs_source x) (JStr "FastTrack") | None => false end && has Certificates g)
        check_and_download_missing_certs_on_disk
    else mret tt.

Definition update (force_update : bool) : G unit :=
  now ← gets (λ s, utc_now (gt_client s));
  '(incarnation, text, doc) ← on_cl fetch_goal_state;
  g ← gets gt_goal;
  fetched ← (if has ExtensionsGoalState g then
               catch (v ← on_cl (fetch_vm_settings force_update); mret (Some v))
                 (λ e, if isinstance e VmSettingsSupportStopped then
                         timestamp ← gets (λ s, hp_fast_track_timestamp (cl_plugin (gt_client s)));
                         restore_wire_server_goal_state incarnation text doc timestamp ;; mret None
                       else raise e)
             else mret (Some (None, false)));
  match fetched with
  | None => mret tt
  | Some (v, updated) => update_from now force_update incarnation text doc v updated
  end.

(** ** [WireClient.update_goal_state], [reset_goal_state] (wire.py) *)

(** The constructor of [GoalState] *)
Definition create_goal_state (properties : Z) (save_to_history ignore_certificate_errors : bool) : CL goal := λ c,
  match update false (mkGst (new_goal properties save_to_history ignore_certificate_errors) c) with
  | (Ok _, s) => (Ok (gt_goal s), gt_client s)
  | (Err e, s) =>
      (Err (if isinstance e ProtocolError || negb (isinstance e Exception_) then e
            else agent_error ProtocolError "Error fetching goal state" (Some e) (-1)), gt_client s)
  end.

Record wire_state := mkWireState { ws_goal : option goal; ws_client : client }.

Definition fetching_error (e : exn) : exn :=
  if isinstance e ProtocolError || negb (isinstance e Exception_) then e else protocol_error ("Error fetching goal state: " +:+ e_msg e).

(** A goal state is updated in place: what it holds when an exception is raised stays. *)
Definition update_goal_state (force_update save_to_history : bool) : M wire_state exn unit := λ s,
  match ws_goal s with
  | None =>
      match create_goal_state All save_to_history true (ws_client s) with
      | (Ok g, c) => (Ok tt, mkWireState (Some g) c)
      | (Err e, c) => (Err (fetching_error e), mkWireState None c)
      end
  | Some g =>
      match update force_update (mkGst g (ws_client s)) with
      | (Ok _, t) => (Ok tt, mkWireState (Some (gt_goal t)) (gt_client t))
      | (Err e, t) => (Err (fetching_error e), mkWireState (Some (gt_goal t)) (gt_client t))
      end
  end.

Definition reset_goal_state (properties : Z) (save_to_history : bool) : M wire_state exn unit := λ s,
  match create_goal_state properties save_to_history true (ws_client s) with
  | (Ok g, c) => (Ok tt, mkWireState (Some g) c)
  | (Err e, c) => (Err (fetching_error e), mkWireState (ws_goal s) c)
  end.

(** [fetch_agent_manifest], [fetch_extension_manifest]: the packages *)
Definition goal_manifest (manifest_type name : string) (uris : list string) : G (list manifest_package) :=
  except Exception_
    (g ← gets gt_goal;
     fast ← lift (match go_extensions g with
                  | Some x => if has ExtensionsGoalState g then Ok (json_eqb (egs_source x) (JStr "FastTrack"))
                              else Err (protocol_error "ExtensionsGoalState is not in goal state properties")
                  | None => Err (py_error AttributeError "'NoneType' object has no attribute 'source'")
                  end);
     text ← on_cl (fetch_manifest E HE parse_doc endpoint request_time manifest_type uris fast);
     history_save (default "None" text) (name +:+ ".manifest.xml") ;;
     lift (parse_extension_manifest parse_doc text))
    (λ e, raise (protocol_error ("Failed to retrieve " +:+ manifest_type +:+ " manifest. Error: " +:+ e_msg e))).
Definition fetch_agent_manifest (family_name : string) (uris : list string) : G (list manifest_package) :=
  goal_manifest "agent" ("waagent." +:+ family_name) uris.
Definition fetch_extension_manifest (extension_name : string) (uris : list string) : G (list manifest_package) :=
  goal_manifest "extension" extension_name uris.
End goal_state.

(** ** What the operations leave alone

    Everything but asking the plugin for vmSettings leaves the vmSettings it has cached and the time
    of the last Fast Track goal state. *)
Definition same_source (h h' : host_plugin) : Prop :=
  hp_cached h' = hp_cached h ∧ hp_fast_track_timestamp h' = hp_fast_track_timestamp h.
#[export] Instance same_source_preorder : PreOrder same_source.
Proof. split; [by intros h|]. intros h1 h2 h3 [H1 H2] [H3 H4]. split; congruence. Qed.

Definition same_source_cl (c c' : client) : Prop :=
  if cl_created c then cl_created c' = true ∧ same_source (cl_plugin c) (cl_plugin c')
  else cl_created c' = true → hp_cached (cl_plugin c') = None.
#[export] Instance same_source_cl_preorder : PreOrder same_source_cl.
Proof.
  unfold same_source_cl. split; [intros c; destruct (cl_created c); [by split|congruence]|]. intros c1 c2 c3.
  destruct (cl_created c1), (cl_created c2).
  - intros [_ H1] [H2 H3]. split; [done|]. by etrans.
  - by intros [? _].
  - intros H1 [H2 [H3 _]] _. rewrite H3. auto.
  - auto.
Qed.

Lemma same_source_created c c' : cl_created c = true → same_source_cl c c' → cl_created c' = true ∧ same_source (cl_plugin c) (cl_plugin c').
Proof. unfold same_source_cl. by intros ->. Qed.

(** With a plugin, what it has cached and recorded stays; a plugin that is created has nothing. *)
Lemma same_source_cl_intro c c' :
  cl_created c' = cl_created c → same_source (cl_plugin c) (cl_plugin c') → same_source_cl c c'.
Proof. unfold same_source_cl. intros -> H. destruct (cl_created c); [by split|done]. Qed.

Lemma on_hp_source {A} (m : HP A) : pres same_source m → pres same_source_cl (on_hp m).
Proof. intros H. apply (pres_zoom _ same_source); [done|]. intros c h Hh. by apply same_source_cl_intro. Qed.
Lemma on_http_source {A} (m : M hstate exn A) : pres same_source (on_http m).
Proof. apply (pres_zoom _ (λ _ _, True)); [by intros s|]. by intros h t _. Qed.
Lemma on_hp_world_source {A} (m : M world exn A) : pres same_source (on_hp_world m).
Proof. apply (pres_zoom _ (λ _ _, True)); [by intros s|]. by intros h t _. Qed.
Lemma on_service_source {A} (m : M HealthService.state exn A) : pres same_source (on_service m).
Proof. apply (pres_zoom _ (λ _ _, True)); [by intros s|]. by intros h t _. Qed.
Lemma on_net_source {A} (m : M hstate exn A) : pres same_source_cl (on_net m).
Proof. apply on_hp_source, on_http_source. Qed.
Lemma on_cl_world_source {A} (m : M world exn A) : pres same_source_cl (on_cl_world m).
Proof. apply on_hp_source, on_hp_world_source. Qed.
#[export] Hint Resolve on_http_source on_hp_world_source on_service_source on_net_source on_cl_world_source : pres.

(** A change that leaves both *)
Lemma modify_source (f : host_plugin → host_plugin) :
  (∀ h, same_source h (f h)) → pres same_source (modify f : HP unit).
Proof. apply pres_modify. Qed.

Ltac source_step :=
  match goal with
  | |- pres same_source_cl (on_hp _) => apply on_hp_source
  | |- pres same_source (modify _) => by apply pres_modify
  | |- pres same_source_cl (modify _) => apply pres_modify; intros ?; by apply same_source_cl_intro
  | |- pres _ (except _ _ _) => apply pres_except; [apply _| |intros ?]
  | |- pres _ get_state => by intros ?
  | |- pres _ (gets _) => by intros ?
  | |- pres _ hp_now => by intros ?
  | _ => pres_step
  end.
Ltac source_auto := intros; repeat source_step.

Section sources.
Context (E : env) (HE : http_env) (parse_doc : string → res exn xml) (loads : string → res exn json) (float_text : string → option Z).
Context (endpoint : string) (request_time : hstate → Z).

Lemma fetch_goal_attempts_source n i : pres same_source_cl (fetch_goal_attempts HE parse_doc endpoint n i).
Proof. revert i. induction n as [|n IH]; intros i; simpl; [source_auto|]. unfold pause. source_auto. Qed.

Lemma fetch_goal_state_source : pres same_source_cl (fetch_goal_state HE parse_doc endpoint).
Proof. unfold fetch_goal_state. pose proof fetch_goal_attempts_source. source_auto; eauto. Qed.
Hint Resolve fetch_goal_state_source : pres.

Lemma update_headers_source : pres same_source_cl (update_host_plugin_headers HE parse_doc endpoint).
Proof. unfold update_host_plugin_headers. source_auto. Qed.
Hint Resolve update_headers_source : pres.

(** The plugin that is there is used. *)
Lemma get_host_plugin_created c : cl_created c = true → get_host_plugin E HE parse_doc endpoint c = (Ok tt, c).
Proof. intros H. unfold get_host_plugin, mbind, M_bind, gets. by rewrite H. Qed.

Lemma get_host_plugin_source : pres same_source_cl (get_host_plugin E HE parse_doc endpoint).
Proof.
  intros c. destruct (cl_created c) eqn:Hc; [by rewrite get_host_plugin_created|].
  unfold get_host_plugin, mbind, M_bind, gets, modify. rewrite Hc. cbn [negb when].
  set (c1 := set_cl_created _ c). pose proof (update_headers_source c1) as H. unfold same_source_cl in *. rewrite Hc.
  change (cl_created c1) with true in H. cbv iota in H. destruct H as [_ [-> _]]. done.
Qed.
Hint Resolve get_host_plugin_source : pres.

Lemma report_fetch_health_source u b s r : pres same_source (report_fetch_health HE endpoint u b s r).
Proof. unfold report_fetch_health. source_auto. Qed.
Hint Resolve report_fetch_health_source : pres.

Lemma fetch_source uri h p d rc oc ff : pres same_source_cl (WireClient.fetch E HE parse_doc endpoint uri h p d rc oc ff).
Proof. unfold WireClient.fetch, fetch_response. source_auto. Qed.
Hint Resolve fetch_source : pres.

Lemma ensure_initialized_source : pres same_source (ensure_initialized HE endpoint).
Proof. unfold ensure_initialized, get_api_versions. source_auto. Qed.
Hint Resolve ensure_initialized_source : pres.

Lemma get_artifact_request_source u v m : pres same_source (get_artifact_request HE endpoint u v m).
Proof. unfold get_artifact_request. source_auto. Qed.
Hint Resolve get_artifact_request_source : pres.

Lemma channel_source {A} (direct hgap : CL A) :
  pres same_source_cl direct → pres same_source_cl hgap → pres same_source_cl (download_using_appropriate_channel E HE parse_doc endpoint direct hgap).
Proof.
  intros Hd Hh. unfold download_using_appropriate_channel.
  assert (pres same_source_cl (call_hostplugin_with_container_check E HE parse_doc endpoint hgap)) as Hc.
  { unfold call_hostplugin_with_container_check, update_host_plugin_from_goal_state. source_auto; done. }
  apply pres_bind; [apply _|source_auto|]. intros []; source_auto; done.
Qed.

Lemma fetch_from_uris_source {A} ty st (d h : string → CL A) us err :
  (∀ u, pres same_source_cl (d u)) → (∀ u, pres same_source_cl (h u)) →
  pres same_source_cl (fetch_from_uris E HE parse_doc endpoint request_time ty st d h us err).
Proof.
  intros Hd Hh. revert err.
  induction us as [|u us IH]; intros err; simpl; [source_auto|]. apply pres_bind; [apply _|source_auto|]. intros now.
  destruct (_ <? _); [source_auto|].
  apply pres_catch; [apply _|apply pres_bind; [apply _|apply channel_source; [apply Hd|apply Hh]|source_auto]|].
  unfold advance. source_auto.
Qed.

Lemma fetch_content_source ty us v : pres same_source_cl (fetch_content E HE parse_doc endpoint request_time ty us v).
Proof.
  unfold fetch_content. apply pres_bind; [apply _|source_auto|]. intros []. apply pres_bind; [apply _|source_auto|]. intros st.
  apply fetch_from_uris_source; source_auto.
Qed.
Hint Resolve fetch_content_source : pres.

Lemma fetch_profile_source uri : pres same_source_cl (fetch_artifacts_profile_blob E HE parse_doc endpoint request_time uri).
Proof. unfold fetch_artifacts_profile_blob. source_auto. Qed.

Lemma create_config_source i t : pres same_source_cl
  (create_from_extensions_config parse_doc loads float_text (fetch_artifacts_profile_blob E HE parse_doc endpoint request_time) i t).
Proof.
  intros c. unfold create_from_extensions_config.
  assert (pres (λ p p' : extensions_config * client, same_source_cl p.2 p'.2)
    (parse_extensions_config parse_doc loads float_text (fetch_artifacts_profile_blob E HE parse_doc endpoint request_time))) as Hp.
  { assert (PreOrder (λ p p' : extensions_config * client, same_source_cl p.2 p'.2)).
    { split; [intros p; reflexivity|]. intros p1 p2 p3 H1 H2. by etrans. }
    assert (∀ A (m : M extensions_config exn A), pres (λ p p' : extensions_config * client, same_source_cl p.2 p'.2) (on_config m)) as Hcfg.
    { intros A m. apply (pres_zoom _ (λ _ _, True)); [by intros s|]. intros s t' _. reflexivity. }
    assert (∀ A (m : CL A), pres same_source_cl m → pres (λ p p' : extensions_config * client, same_source_cl p.2 p'.2) (on_client m)) as Hcl.
    { intros A m Hm. by apply (pres_zoom _ same_source_cl). }
    unfold parse_extensions_config. pres_auto; try apply Hcfg. apply Hcl. unfold fetch_extensions_on_hold.
    pose proof fetch_profile_source. source_auto; eauto. }
  specialize (Hp (new_extensions_config i t, c)). destruct (parse_extensions_config _ _ _ _ _) as [[[]|e] [cfg c']]; [done|].
  by case_match.
Qed.

Lemma download_certificates_source openssl b uri : pres same_source_cl (download_certificates E HE parse_doc openssl b uri).
Proof.
  unfold download_certificates, try_download_certificates_pfx. generalize ["AES128_CBC"; "DES_EDE3_CBC"]. intros cs.
  assert (pres same_source_cl (try_cyphers E HE parse_doc openssl uri cs)) as Hc; [|source_auto; done].
  induction cs as [|c cs IH]; simpl; source_auto; done.
Qed.
End sources.

(** ** The contract of [update] *)

(** The history apart, [g'] is [g]. *)
Definition kept (g g' : goal) : Prop :=
  go_properties g' = go_properties g ∧ go_save_to_history g' = go_save_to_history g ∧
  go_ignore_certificate_errors g' = go_ignore_certificate_errors g ∧ go_wire g' = go_wire g ∧ go_extensions g' = go_extensions g.
#[export] Instance kept_preorder : PreOrder kept.
Proof.
  split; [by intros g|]. intros g1 g2 g3 (A1 & A2 & A3 & A4 & A5) (B1 & B2 & B3 & B4 & B5). unfold kept. split_and!; congruence.
Qed.

Definition quiet (s s' : gst) : Prop := kept (gt_goal s) (gt_goal s') ∧ same_source_cl (gt_client s) (gt_client s').
#[export] Instance quiet_preorder : PreOrder quiet.
Proof. split; [intros s; by split|]. intros s1 s2 s3 [H1 H2] [H3 H4]. split; by etrans. Qed.

Definition from_wire (x : egs) : Prop := match x with VmGs _ => False | ConfigGs _ b | EmptyGs _ b => b = false end.

Lemma wp_on_cl {A} (m : CL A) (Q : A → gst → Prop) R s :
  wp m (λ a c, Q a (set_gt_client c s)) (λ e c, R e (set_gt_client c s)) (gt_client s) → wp (on_cl m) Q R s.
Proof. unfold on_cl, zoom, wp. by destruct (m (gt_client s)) as [[a|e] c]. Qed.

Lemma on_cl_quiet {A} (m : CL A) : pres same_source_cl m → pres quiet (on_cl m).
Proof. intros H. apply (pres_zoom _ same_source_cl); [done|]. intros s c Hc. by split. Qed.
Lemma on_machine_quiet {A} (m : M world exn A) : pres quiet (on_machine m).
Proof. apply on_cl_quiet, on_hp_source, on_hp_world_source. Qed.
#[export] Hint Resolve on_machine_quiet : pres.

Ltac quiet_step :=
  match goal with
  | |- pres quiet (on_cl _) => apply on_cl_quiet
  | |- pres quiet (change (set_go_history _)) => apply pres_modify; by intros s
  | _ => source_step
  end.
Ltac quiet_auto := intros; repeat quiet_step.

Section contract.
Context (E : env) (HE : http_env) (parse_doc : string → res exn xml) (loads : string → res exn json) (float_text : string → option Z).
Context (endpoint : string) (request_time : hstate → Z) (format_exception : exn → string).
Context (openssl : list string → fs → res exn string) (getctime : path → fs → Z).
Context (enable_fast_track : bool) (uuid : hstate → string).
Hint Resolve fetch_goal_state_source update_headers_source get_host_plugin_source create_config_source download_certificates_source : pres.

Lemma history_save_quiet d n : pres quiet (history_save E d n).
Proof. unfold history_save. quiet_auto. Qed.
Hint Resolve history_save_quiet : pres.

Lemma history_save_goal_state_quiet t : pres quiet (history_save_goal_state E t).
Proof. unfold history_save_goal_state. quiet_auto. Qed.

Lemma start_history_quiet t g : pres quiet (start_history E getctime t g).
Proof. unfold start_history. quiet_auto. Qed.
Hint Resolve history_save_goal_state_quiet start_history_quiet : pres.

Lemma fetch_quiet uri h : pres quiet (fetch HE uri h).
Proof. unfold fetch. quiet_auto. Qed.

Lemma goal_certificates_quiet uri : pres quiet (goal_certificates E HE parse_doc openssl uri).
Proof. unfold goal_certificates. quiet_auto. Qed.
Hint Resolve fetch_quiet goal_certificates_quiet : pres.

Lemma check_certs_quiet : pres quiet (check_and_download_missing_certs_on_disk E HE parse_doc openssl).
Proof. unfold check_and_download_missing_certs_on_disk. quiet_auto. Qed.

Notation fetch_extensions_config := (fetch_extensions_config E HE parse_doc loads float_text endpoint request_time).
Notation fetch_full_body := (fetch_full_body E HE parse_doc loads float_text endpoint request_time openssl).
Notation fetch_full := (fetch_full_wire_server_goal_state E HE parse_doc loads float_text endpoint request_time openssl).

Lemma fetch_extensions_config_spec i doc s :
  wp (fetch_extensions_config i doc) (λ x s', from_wire x ∧ quiet s s') (λ _ s', quiet s s') s.
Proof.
  unfold fetch_extensions_config. wp_step. wp_step. destruct (findtext _ _) as [uri|]; [|by wp_step].
  wp_step; [|by wp_step]. wp_step. eapply wp_mono; [apply (pres_wp quiet), fetch_quiet| |done]. intros text s1 H1.
  wp_step. eapply wp_mono; [apply (pres_wp_from quiet); [|exact H1]; quiet_auto| |done]. intros c s2 H2.
  wp_step. eapply wp_mono; [apply (pres_wp_from quiet); [apply history_save_quiet|exact H2]| |done]. intros [] s3 H3. by wp_step.
Qed.

(** The fields from the wire server are set together, after everything was fetched. *)
Definition wire_fetched (i : option string) (s : gst) (x : egs) (s' : gst) : Prop :=
  from_wire x ∧ same_source_cl (gt_client s) (gt_client s') ∧
  ∃ w, wg_incarnation w = i ∧ kept (set_go_wire w (gt_goal s)) (gt_goal s').

Lemma fetch_full_spec i doc s : wp (fetch_full i doc) (wire_fetched i s) (λ _ s', quiet s s') s.
Proof.
  unfold fetch_full_wire_server_goal_state. apply wp_except. eapply wp_mono; [|done|].
  2: { intros e s' Hq. split; [intros _; wp_step; exact Hq|intros _; exact Hq]. }
  unfold fetch_full_body. wp_step. wp_step. cbv zeta. wp_step.
  eapply wp_mono; [apply fetch_extensions_config_spec| |done]. intros x s1 [Hx H1].
  do 4 (wp_step; eapply wp_mono; [apply (pres_wp_from quiet); [|exact H1]; quiet_auto| |done]; clear s1 H1; intros ? s1 H1).
  wp_step. unfold change. wp_step. wp_step. destruct H1 as [Hk Hs]. split; [done|]. split; [done|].
  destruct Hk as (K1 & K2 & K3 & K4 & K5). eexists. split; [|unfold kept; simpl; split_and!; [done..|reflexivity|done]]. reflexivity.
Qed.

(** *** The choice between the two sources *)

Definition not_older (x y : egs) : Prop := created_lt (created_on x) (created_on y) = Ok false.

Lemma created_lt_irrefl t : created_lt t t = Ok false ∨ ∃ j, t = CJson j.
Proof. destruct t; simpl; rewrite ?str_ltb_irrefl, ?Z.ltb_irrefl; eauto. Qed.

Lemma not_older_refl x : not_older x x.
Proof. unfold not_older. destruct (created_lt_irrefl (created_on x)) as [|[j Hj]]; [done|]. by destruct x. Qed.

Lemma created_lt_negtrans a b c : created_lt a b = Ok false → created_lt b c = Ok false → created_lt a c = Ok false.
Proof.
  destruct a, b, c; simpl; try done; intros [= H1] [= H2]; f_equal; [by eapply str_ltb_negtrans|].
  rewrite Z.ltb_ge in *. lia.
Qed.

Lemma created_lt_asym a b : created_lt a b = Ok true → created_lt b a = Ok false.
Proof.
  destruct a, b; simpl; try done; intros [= H]; f_equal; [|rewrite Z.ltb_lt in H; apply Z.ltb_ge; lia].
  by apply str_ltb_asym.
Qed.

Lemma not_older_trans x y z : not_older x y → not_older y z → not_older x z.
Proof. apply created_lt_negtrans. Qed.

Lemma created_lt_error a b e : created_lt a b = Err e → e_class e = TypeError.
Proof. destruct a, b; simpl; by intros [= <-]. Qed.

(** [x] is one of [l], and none of them is more recent. *)
Definition most_recent_of (x : egs) (l : list egs) : Prop := x ∈ l ∧ Forall (not_older x) l.

Lemma most_recent_error b v ec e : most_recent b v ec = Err e → e_class e = TypeError.
Proof.
  unfold most_recent. destruct b, ec, v; try done. simpl. destruct (created_lt _ _) eqn:H; simpl; [done|]. intros [= ->].
  by eapply created_lt_error.
Qed.

Lemma most_recent_some (b : bool) (v ec : option egs) :
  (b = true ↔ is_Some ec) → (b = false → is_Some v) → most_recent b v ec ≠ Ok None.
Proof.
  unfold most_recent. intros Hb Hv. destruct b, ec as [ec|].
  - destruct v; simpl; [|done]. by destruct (created_lt _ _).
  - destruct Hb as [Hb _]. by destruct (Hb eq_refl).
  - destruct Hb as [_ Hb]. by discriminate Hb.
  - by destruct (Hv eq_refl) as [? ->].
Qed.

Lemma most_recent_spec (b : bool) (v ec : option egs) x :
  (b = true ↔ is_Some ec) → most_recent b v ec = Ok (Some x) →
  most_recent_of x (option_list v ++ option_list ec).
Proof.
  unfold most_recent, most_recent_of. intros Hb. destruct b, ec as [ec|]; try by destruct Hb as [H1 H2]; (destruct H1 || discriminate H2).
  - destruct v as [v|]; simpl; [|intros [= <-]; split; [set_solver|by repeat constructor; apply not_older_refl]].
    destruct (created_lt _ _) as [older|] eqn:Hlt; simpl; [|done]. intros [= <-]. destruct older; (split; [set_solver|]).
    + repeat constructor; [apply not_older_refl|by apply created_lt_asym].
    + repeat constructor; [done|apply not_older_refl].
  - destruct Hb as [_ H]. by discriminate H.
  - intros [= ->]. split; [set_solver|]. simpl. repeat constructor. apply not_older_refl.
Qed.

Lemma use_extensions_spec x l s :
  most_recent_of x l →
  wp (use_extensions x)
    (λ _ s', gt_client s' = gt_client s ∧ ∃ y, gt_goal s' = set_go_extensions y (gt_goal s) ∧
             most_recent_of y (option_list (go_extensions (gt_goal s)) ++ l))
    (λ e s', s' = s ∧ e_class e = TypeError) s.
Proof.
  intros [Hx Hl]. unfold use_extensions. wp_step. wp_step. destruct (go_extensions (gt_goal s)) as [cur|] eqn:Hc; simpl.
  2: { wp_step. wp_step. simpl. unfold change. wp_step. split; [done|]. by exists x. }
  wp_step. wp_step; [|split; [done|]; by eapply created_lt_error]. rename a into older. destruct older; simpl; unfold change; wp_step.
  - split; [done|]. exists cur. split; [destruct s as [[] ?]; simpl in *; by rewrite Hc|].
    apply created_lt_asym in H. split; [set_solver|]. constructor; [apply not_older_refl|].
    eapply Forall_impl; [exact Hl|]. intros y. by apply not_older_trans.
  - split; [done|]. exists x. split; [done|]. split; [set_solver|]. by constructor.
Qed.

(** The vmSettings that are used: those of the fabric are left to the wire server. *)
Definition offered (v : option vm_settings) : option vm_settings :=
  match v with Some v => if json_eqb (vs_source (vs_simple v)) (JStr "Fabric") then None else Some v | None => None end.

Definition same_settings (g g' : goal) : Prop :=
  go_properties g' = go_properties g ∧ go_save_to_history g' = go_save_to_history g ∧
  go_ignore_certificate_errors g' = go_ignore_certificate_errors g.

(** What an update without an error leaves, given the incarnation [i] of the wire server's goal
    state, the [answer] of the host plugin and the time [t] of its last Fast Track goal state. *)
Definition updated (force : bool) (i : option string) (answer : res exn (option vm_settings * bool)) (t : json) (g g' : goal) : Prop :=
  same_settings g g' ∧ wg_incarnation (go_wire g') = i ∧
  if has ExtensionsGoalState g then
    match answer with
    | Err e =>
        isinstance e VmSettingsSupportStopped = true ∧ ∃ x older, from_wire x ∧
          created_lt (created_on x) (created_of_json t) = Ok older ∧
          go_extensions g' = Some (if (older : bool) then mark_outdated x else x)
    | Ok (v, new) =>
        let changed := force || negb (bool_decide (i = wg_incarnation (go_wire g))) in
        if changed || new && bool_decide (is_Some (offered v)) then
          ∃ extensions_config x, (changed = true ↔ is_Some extensions_config) ∧ Forall from_wire (option_list extensions_config) ∧
            go_extensions g' = Some x ∧
            most_recent_of x (option_list (go_extensions g) ++ option_list (VmGs <$> offered v) ++ option_list extensions_config)
        else go_wire g' = go_wire g ∧ go_extensions g' = go_extensions g
    end
  else go_extensions g' = go_extensions g.

(** What an update with an error leaves *)
Definition update_failed (g : goal) (e : exn) (g' : goal) : Prop :=
  ordinary e → e_class e ≠ TypeError → kept g g'.


Lemma check_certs_swallows s :
  wp (check_and_download_missing_certs_on_disk E HE parse_doc openssl) (λ _ s', quiet s s') (λ e s', quiet s s' ∧ ¬ ordinary e) s.
Proof.
  pose proof (check_certs_quiet s) as Hq. unfold wp.
  destruct (check_and_download_missing_certs_on_disk E HE parse_doc openssl s) as [[[]|e] s'] eqn:Hr; [done|].
  split; [done|]. intros He. revert Hr. unfold check_and_download_missing_certs_on_disk, mbind, M_bind, get_state, gets.
  case_match; [|done]. unfold when. case_match; [|done]. unfold except, catch.
  destruct (goal_certificates _ _ _ _ _ _) as [[l|e'] s1]; [done|]. destruct (isinstance e' Exception_) eqn:Hi; [done|].
  intros [= <- <-]. unfold ordinary in He. congruence.
Qed.

Lemma offered_pair v new :
  (new = true → v ≠ None) →
  (if match v with Some v => json_eqb (vs_source (vs_simple v)) (JStr "Fabric") | None => false end then (None, false) else (v, new)) =
  (offered v, new && bool_decide (is_Some (offered v))).
Proof.
  intros H. destruct v as [v|]; simpl; [case_match; simpl; by rewrite ?andb_false_r, ?andb_true_r|].
  destruct new; [by destruct H|done].
Qed.

Lemma kept_settings g g' : kept g g' → same_settings g g'.
Proof. by intros (? & ? & ? & _). Qed.

(** Nothing but the history changes before the wire server's goal state is fetched. *)
Lemma wp_bind_quiet {A B} (m : G A) (k : A → G B) Q (R : exn → gst → Prop) s0 s :
  pres quiet m → quiet s0 s → (∀ e s', quiet s0 s' → R e s') → (∀ a s', quiet s0 s' → wp (k a) Q R s') → wp (m ≫= k) Q R s.
Proof. intros Hm Hs HR Hk. apply wp_bind. eapply wp_mono; [by apply (pres_wp_from quiet)|done|auto]. Qed.

Lemma kept_failed g e g' : kept g g' → update_failed g e g'.
Proof. by intros H _ _. Qed.

(** The wire server's goal state is fetched when it changed. *)
Lemma fetch_changed_spec (changed : bool) i doc s0 s :
  quiet s0 s → (changed = false → i = wg_incarnation (go_wire (gt_goal s0))) →
  wp (if changed then x ← fetch_full i doc; mret (Some x) else mret None)
    (λ ec s', (changed = true ↔ is_Some ec) ∧ Forall from_wire (option_list ec) ∧
       wg_incarnation (go_wire (gt_goal s')) = i ∧ same_settings (gt_goal s0) (gt_goal s') ∧
       go_extensions (gt_goal s') = go_extensions (gt_goal s0))
    (λ _ s', kept (gt_goal s0) (gt_goal s')) s.
Proof.
  intros [Hk _] Hi. destruct changed.
  - wp_step. eapply wp_mono; [apply fetch_full_spec| |].
    + intros x s' (Hx & _ & w & Hw & K1 & K2 & K3 & K4 & K5). wp_step. simpl in *. rewrite K4. destruct Hk as (L1 & L2 & L3 & _ & L5).
      unfold same_settings. split_and!; [done|by repeat constructor|done|congruence..].
    + intros _ s' [H _]. by etrans.
  - wp_step. destruct Hk as (L1 & L2 & L3 & L4 & L5). rewrite L4, Hi by done. simpl.
    unfold same_settings. split_and!; [by split; [|intros []]|done..].
Qed.

Lemma update_from_spec t force i text doc v new ts s :
  (new = true → v ≠ None) →
  wp (update_from E HE parse_doc loads float_text endpoint request_time openssl getctime t force i text doc v new)
    (λ _ s', updated force i (Ok (v, new)) ts (gt_goal s) (gt_goal s'))
    (λ e s', update_failed (gt_goal s) e (gt_goal s')) s.
Proof.
  intros Hv. unfold update_from. wp_step. wp_step. rewrite (offered_pair _ _ Hv). unfold updated.
  set (changed := force || _). set (upd := new && _). cbv beta iota zeta.
  destruct (negb changed && negb upd) eqn:Hnone.
  { apply andb_true_iff in Hnone as [Hc%negb_true_iff Hu%negb_true_iff]. wp_step. rewrite Hc, Hu. simpl. unfold changed in Hc.
    apply orb_false_iff in Hc as [_ Hc%negb_false_iff%bool_decide_eq_true]. split; [done|]. split; [done|]. by case_match. }
  assert (changed || upd = true) as -> by (destruct changed, upd; done).
  eapply (wp_bind_quiet _ _ _ _ s); [quiet_auto|done|by intros ?? [Hk _]; apply kept_failed|]. intros _ s1 H1.
  eapply (wp_bind_quiet _ _ _ _ s); [quiet_auto|done|by intros ?? [Hk _]; apply kept_failed|]. intros _ s2 H2.
  eapply (wp_bind_quiet _ _ _ _ s); [quiet_auto|done|by intros ?? [Hk _]; apply kept_failed|]. intros _ s3 H3. clear s1 s2 H1 H2.
  wp_step. eapply wp_mono; [apply (fetch_changed_spec changed i doc s s3 H3)| |by intros ???; apply kept_failed].
  { unfold changed. rewrite orb_false_iff, negb_false_iff, bool_decide_eq_true. tauto. }
  clear s3 H3. intros ec s3 (Hec & Hw & Hi & Hs & Hx).
  assert (∀ e s', e_class e = TypeError → update_failed (gt_goal s) e (gt_goal s')) as Htype by (intros e s' He _ Hne; done).
  destruct (has ExtensionsGoalState (gt_goal s)) eqn:Hp; [|by wp_step].
  wp_step. wp_step; [|by eapply Htype, most_recent_error]. destruct a as [x|].
  2: { exfalso. eapply most_recent_some; [exact Hec| |exact H]. intros Hc. unfold upd in Hnone. rewrite Hc in Hnone.
       destruct (offered v); [by eexists|]. by rewrite andb_false_r in Hnone. }
  wp_step. eapply wp_mono; [eapply use_extensions_spec, most_recent_spec; eassumption| |by intros e s' [_ He]; apply Htype].
  intros _ s4 (_ & y & Hy & Hm). wp_step. wp_step. rewrite Hy.
  eapply (wp_mono _ (λ _, quiet s4) _ (λ e _, ¬ ordinary e)).
  { apply wp_when; intros _; [|done]. eapply wp_mono; [apply check_certs_swallows|done|by intros e s' []]. }
  - intros _ s' [(K1 & K2 & K3 & K4 & K5) _]. rewrite K4, K5, Hy. simpl. rewrite Hy in K1, K2, K3. simpl in *.
    destruct Hs as (S1 & S2 & S3). split; [unfold same_settings; split_and!; congruence|]. split; [done|].
    exists ec, y. by rewrite <- Hx.
  - by intros e s' Hn Ho.
Qed.

(** *** The goal state of the wire server when support for vmSettings stopped *)

Lemma restore_spec i text doc t e s :
  isinstance e VmSettingsSupportStopped = true → has ExtensionsGoalState (gt_goal s) = true →
  wp (restore_wire_server_goal_state E HE parse_doc loads float_text endpoint request_time openssl getctime i text doc t)
    (λ _ s', ∀ force, updated force i (Err e) t (gt_goal s) (gt_goal s')) (λ e s', update_failed (gt_goal s) e (gt_goal s')) s.
Proof.
  intros He Hp. unfold restore_wire_server_goal_state. wp_step. wp_step. unfold id.
  eapply (wp_bind_quiet _ _ _ _ s); [quiet_auto|done|by intros ?? [Hk _]; apply kept_failed|]. intros _ s0 H0.
  eapply (wp_bind_quiet _ _ _ _ s); [quiet_auto|done|by intros ?? [Hk _]; apply kept_failed|]. clear s0 H0. intros _ s1 H1.
  wp_step. eapply wp_mono; [apply fetch_full_spec| |].
  2: { intros ? s' [Hk _]. apply kept_failed. etrans; [|exact Hk]. by destruct H1. }
  intros x s2 (Hx & _ & w & Hw & K1 & K2 & K3 & K4 & K5). destruct H1 as [(L1 & L2 & L3 & _) _]. simpl in *.
  wp_step. unfold change. wp_step. wp_step. wp_step; [|by intros _ Hne; destruct Hne; eapply created_lt_error].
  assert (∀ y force, y = (if a then mark_outdated x else x) → updated force i (Err e) t (gt_goal s) (set_go_extensions y (gt_goal s2))) as Hu.
  { intros y force ->. unfold updated. rewrite Hp. simpl. rewrite K4. unfold same_settings. simpl.
    split; [split_and!; congruence|]. split; [done|]. split; [done|]. by exists x, a. }
  apply wp_when; intros ->; [wp_step|]; intros force; by apply Hu.
Qed.

(** *** The answer of the host plugin *)

(** The value that [m] returns, if it returns one, satisfies [P]. *)
Definition returns {S A} (P : A → Prop) (m : M S exn A) : Prop := ∀ s, wp m (λ a _, P a) (λ _ _, True) s.

Lemma returns_bind {S A B} P (m : M S exn A) (k : A → M S exn B) : (∀ a, returns P (k a)) → returns P (m ≫= k).
Proof. intros H s. wp_step. unfold wp. destruct (m s) as [[a|e] s']; [apply H|done]. Qed.
Lemma returns_catch {S A} P (m : M S exn A) h : returns P m → (∀ e, returns P (h e)) → returns P (catch m h).
Proof. intros Hm Hh s. wp_step. eapply wp_mono; [apply Hm|done|]. intros e s' _. apply Hh. Qed.
Lemma returns_finally {S A} P (m : M S exn A) f : returns P m → returns P (finally m f).
Proof. intros Hm s. specialize (Hm s). unfold finally, wp in *. destruct (m s) as [[a|e] s'], (f s') as [[]?]; done. Qed.
Lemma returns_zoom {S T A} P (g : S → T) (u : T → S → S) (m : M T exn A) : returns P m → returns P (zoom g u m).
Proof. intros Hm s. apply wp_zoom. eapply wp_mono; [apply Hm|done|done]. Qed.

Ltac returns_auto :=
  repeat first
    [ apply returns_bind; intros ?
    | apply returns_catch; [|intros ?]
    | apply returns_finally
    | apply returns_zoom
    | progress case_match
    | by intros ? ].

(** vmSettings that are new are there. *)
Definition consistent (a : option vm_settings * bool) : Prop := a.2 = true → a.1 ≠ None.

Lemma query_plugin_consistent force :
  returns consistent (query_plugin E HE parse_doc loads float_text endpoint format_exception uuid force).
Proof.
  unfold query_plugin, on_hp, HostPlugin.fetch_vm_settings, query_vm_settings, take_vm_settings, raise_not_supported. returns_auto.
Qed.

Lemma fetch_vm_settings_consistent force :
  returns consistent (fetch_vm_settings E HE parse_doc loads float_text endpoint format_exception getctime enable_fast_track uuid force).
Proof. unfold fetch_vm_settings. pose proof query_plugin_consistent. returns_auto; auto. Qed.

Notation fetch_vm_settings := (fetch_vm_settings E HE parse_doc loads float_text endpoint format_exception getctime enable_fast_track uuid).
Notation update :=
  (update E HE parse_doc loads float_text endpoint request_time format_exception openssl getctime enable_fast_track uuid).

Lemma updated_unused force i answer answer' t t' g g' :
  has ExtensionsGoalState g = false → updated force i answer t g g' → updated force i answer' t' g g'.
Proof. unfold updated. by intros ->. Qed.

End contract.

(** ** Runs

    Fast Track vmSettings, then a plugin that no longer knows vmSettings, then a new incarnation
    of the wire server with the same ExtensionsConfig, as when the tenant certificate is rotated *)
Definition leaf (name text : string) : xml := Elem name [] [Text text].

Definition sample_goal_document (incarnation : string) (config : list xml) : xml :=
  Elem "GoalState" []
    [leaf "Incarnation" incarnation;
     Elem "Container" []
       [leaf "ContainerId" "c6d5526c";
        Elem "RoleInstance" []
          [leaf "InstanceId" "i1"; Elem "Configuration" [] (leaf "ConfigName" "db00a7755a5e4e8a.1._sample" :: config)]]].

Definition sample_config_document : xml :=
  Elem "Extensions" []
    [Elem "StatusUploadBlob" [("statusBlobType", "BlockBlob")] [Text "https://a/status"];
     Elem "InVMGoalStateMetaData" [("activityId", "1"); ("correlationId", "2"); ("createdOnTicks", "637405409304121230")] []].

Definition sample_parse_doc (config : list xml) (text : string) : res exn xml :=
  if String.eqb text "config" then Ok sample_config_document else Ok (sample_goal_document text config).

(** The number of requests for vmSettings so far *)
Definition asked (log : list exchange) : nat := length (filter (λ x, rq_url (x_request x) = "/vmSettings") log).

Definition sample_wire : http_env :=
  mkHttpEnv (mkProxyConf None None [] true) true true true "168.63.129.16" "WALinuxAgent/2.13"
    (λ log r,
       if String.eqb (rq_url r) "/vmSettings" then
         if (asked log =? 0)%nat then Ok (mkResponse 200 "OK" [("ETag", "292")] (Some sample_text)) else Ok (mkResponse 404 "Not Found" [] (Some ""))
       else if String.eqb (rq_url r) "/config" then Ok (mkResponse 200 "OK" [] (Some "config"))
       else Ok (mkResponse 200 "OK" [] (Some (if (asked log <? 2)%nat then "1" else "2")))).

Definition sample_client : client := mkClient false (new_host_plugin sample_env sample_world) false None.

Definition sample_update (config : list xml) : G unit :=
  update sample_env sample_wire (sample_parse_doc config) sample_loads (λ _, None) "168.63.129.16" (λ _, 0) e_msg
    (λ _ _, Ok "") (λ _ _, 0) true (λ _, "9a47a2a2") false.

Definition sample_start : gst := mkGst (new_goal ExtensionsGoalState false false) sample_client.
Definition in_use (s : gst) : option (json * bool) := (λ x, (egs_source x, is_outdated x)) <$> go_extensions (gt_goal s).
Definition with_config : list xml := [leaf "ExtensionsConfig" "http://168.63.129.16/config"].

Definition sample_run (config : list xml) (n : nat) : gst := Nat.iter n (λ s, (sample_update config s).2) sample_start.

(** The ExtensionsConfig is older than the Fast Track goal state and is marked as outdated when
    it is restored; the same ExtensionsConfig in a new incarnation is then used, and no longer
    marked. *)
Example outdated_goal_state_is_used_again :
  (λ n, in_use (sample_run with_config n)) <$> [1; 2; 3]%nat =
  [Some (JStr "FastTrack", false); Some (JStr "Fabric", true); Some (JStr "Fabric", false)].
Proof. vm_compute. reflexivity. Qed.

(** Without an ExtensionsConfig the vmSettings cannot be compared: the goal state is not created. *)
Example empty_goal_state_is_not_comparable :
  match sample_update [] sample_start with
  | (Err e, s) => e_class e = TypeError ∧ wg_incarnation (go_wire (gt_goal s)) = Some "1" ∧ go_extensions (gt_goal s) = None
  | _ => False
  end.
Proof. vm_compute. done. Qed.
