(* ===== verification/Telemetry.v ===== *)
(** * Telemetry events (common/telemetryevent.py, common/event.py, common/protocol/wire.py)

    An event is a list of named parameters.  [EventLogger] completes it with the parameters all
    events have, redacts its message and writes it to a file of the events directory, or sends it at
    once.  [report_event] groups events by provider and posts them to the wire server in batches.

    A parameter's value is plain data.  Texts are their UTF-8 encodings. *)
From S2P Require Import Prelude PyExn FlexVersion Datetime Json TextUtil Xml World RestApi ExtInstance Samples Urls Http HealthService VmSettings HostPlugin WireClient.
From Stdlib Require Import Ascii.

(** ** Events *)

Record TelemetryEventParam := mkParam { pa_name : json; pa_value : json }.
Record TelemetryEvent := mkEvent {
  te_eventId : json;
  te_providerId : json;
  te_parameters : list TelemetryEventParam;
  te_file_type : string
}.
Definition new_event (event_id provider_id : json) : TelemetryEvent := mkEvent event_id provider_id [] "".
Definition set_parameters (l : list TelemetryEventParam) (e : TelemetryEvent) : TelemetryEvent :=
  mkEvent (te_eventId e) (te_providerId e) l (te_file_type e).
Definition set_file_type (t : string) (e : TelemetryEvent) : TelemetryEvent :=
  mkEvent (te_eventId e) (te_providerId e) (te_parameters e) t.
Definition param (name : string) (value : json) : TelemetryEventParam := mkParam (JStr name) value.
Definition named (name : string) (p : TelemetryEventParam) : bool := json_eqb (pa_name p) (JStr name).

(** [is_extension_event], [get_version] *)
Definition is_extension_event (e : TelemetryEvent) : bool :=
  match List.find (named "Name") (te_parameters e) with
  | Some p => negb (json_eqb (pa_value p) (JStr "WALinuxAgent"))
  | None => false
  end.
Definition get_version (e : TelemetryEvent) : json :=
  match List.find (named "Version") (te_parameters e) with Some p => pa_value p | None => JNull end.

(** ** The document of an event *)

Definition dquote_s : string := String dquote "".

(** [saxutils.quoteattr] *)
Definition attr_char (c : ascii) : string :=
  if Ascii.eqb c "&" then "&amp;" else if Ascii.eqb c ">" then "&gt;" else if Ascii.eqb c "<" then "&lt;"
  else if Ascii.eqb c "010" then "&#10;" else if Ascii.eqb c "013" then "&#13;" else if Ascii.eqb c "009" then "&#9;"
  else String c "".
Fixpoint str_flat_map (f : ascii → string) (s : string) : string :=
  match s with "" => "" | String c s' => f c +:+ str_flat_map f s' end.
Definition quoteattr (s : string) : string :=
  let data := str_flat_map attr_char s in
  if str_contains dquote_s data then
    if str_contains "'" data
    then dquote_s +:+ str_flat_map (λ c, if Ascii.eqb c dquote then "&quot;" else String c "") data +:+ dquote_s
    else "'" +:+ data +:+ "'"
  else dquote_s +:+ data +:+ dquote_s.

Definition attr_type (v : json) : string :=
  match v with
  | JInt _ => "mt:uint64"
  | JStr _ => "mt:wstr"
  | JBool _ => "mt:bool"
  | JFloat _ => "mt:float64"
  | _ => ""
  end.

Definition event_param_to_v1 (p : TelemetryEventParam) : string :=
  "<Param Name=" +:+ dquote_s +:+ py_str (pa_name p) +:+ dquote_s +:+ " Value=" +:+ quoteattr (py_str (pa_value p)) +:+
  " T=" +:+ dquote_s +:+ attr_type (pa_value p) +:+ dquote_s +:+ " />".

Definition event_to_v1_encoded (e : TelemetryEvent) : string :=
  "<Event id=" +:+ dquote_s +:+ py_str (te_eventId e) +:+ dquote_s +:+ "><![CDATA[" +:+
  String.concat "" (event_param_to_v1 <$> te_parameters e) +:+ "]]></Event>".

(** ** Sending *)

Definition MAX_EVENT_BUFFER_SIZE : nat := Z.to_nat (2 ^ 16 - 2 ^ 10).
Definition TELEMETRY_THROTTLE_DELAY_IN_SECONDS : Z := 8.
Definition TELEMETRY_FLUSH_THROTTLE_DELAY_IN_SECONDS : Z := 2.

(** [_send_encoded_event]: [call_wireserver] turns every error into [ProtocolError]. *)
Definition send_encoded_event (HE : http_env) (endpoint : string) (flush : bool) (provider_id : json) (event_str : string) : CL unit :=
  let uri := "http://" +:+ endpoint +:+ "/machine?comp=telemetrydata" in
  let data := "<?xml version=" +:+ dquote_s +:+ "1.0" +:+ dquote_s +:+ "?><TelemetryData version=" +:+ dquote_s +:+ "1.0" +:+ dquote_s +:+
              "><Provider id=" +:+ dquote_s +:+ py_str provider_id +:+ dquote_s +:+ ">" +:+ event_str +:+ "</Provider></TelemetryData>" in
  resp ← except HttpError
    (on_net (call_wireserver uri
       (http_post HE uri (Some data) (Some get_header_for_xml_content) false (Some 3) None DELAY_IN_SECONDS
          (if flush then TELEMETRY_FLUSH_THROTTLE_DELAY_IN_SECONDS else TELEMETRY_THROTTLE_DELAY_IN_SECONDS) 10)))
    (λ e, raise (protocol_error ("Failed to send events:" +:+ e_msg e)));
  if request_failed resp OK_CODES then raise (protocol_error ("Failed to send events:" +:+ pretty (r_status resp))) else mret tt.

(** The buffers of the providers; a list or a dictionary cannot be a key. *)
Definition buffers := list (json * string).
Definition hashable (j : json) : bool := match j with JArr _ | JObj _ => false | _ => true end.
Fixpoint buf_get (k : json) (b : buffers) : option string :=
  match b with [] => None | (k', v) :: b' => if json_eqb k k' then Some v else buf_get k b' end.
Fixpoint buf_set (k : json) (v : string) (b : buffers) : buffers :=
  match b with [] => [(k, v)] | (k', v') :: b' => if json_eqb k k' then (k', v) :: b' else (k', v') :: buf_set k v b' end.

Section report.
Context {S : Type} (send : json → string → M S exn unit).

(** [_send_event] in [report_event]: the number of errors *)
Definition send_event (provider_id : json) (body : string) (errors : nat) : M S exn nat :=
  except Exception_ (send provider_id body ;; mret errors) (λ _, mret (Datatypes.S errors)).

Fixpoint group_events (events : list TelemetryEvent) (buf : buffers) (errors : nat) : M S exn (buffers * nat) :=
  match events with
  | [] => mret (buf, errors)
  | event :: events' =>
      let p := te_providerId event in
      if negb (hashable p) then group_events events' buf errors
      else
        let buf := match buf_get p buf with None => buf_set p "" buf | Some _ => buf end in
        let event_str := event_to_v1_encoded event in
        let buffered := default "" (buf_get p buf) in
        if bool_decide (MAX_EVENT_BUFFER_SIZE ≤ String.length event_str)%nat then group_events events' buf errors
        else if bool_decide (MAX_EVENT_BUFFER_SIZE ≤ String.length (buffered +:+ event_str))%nat then
          errors ← send_event p buffered errors;
          group_events events' (buf_set p event_str buf) errors
        else group_events events' (buf_set p (buffered +:+ event_str) buf) errors
  end.

Fixpoint send_rest (buf : buffers) (errors : nat) : M S exn nat :=
  match buf with
  | [] => mret errors
  | (p, body) :: buf' =>
      errors ← (if String.eqb body "" then mret errors else send_event p body errors);
      send_rest buf' errors
  end.

(** [report_event]: whether there were no errors *)
Definition report_event (events : list TelemetryEvent) : M S exn bool :=
  '(buf, errors) ← group_events events [] 0;
  errors ← send_rest buf errors;
  mret (bool_decide (errors = 0)%nat).
End report.

(** ** What is sent *)

Section batches.
Context {S : Type} (send : json → string → M S exn unit).

(** The batches one after the other; a batch that cannot be sent does not stop the others. *)
Fixpoint send_all (batches : list (json * string)) (errors : nat) : M S exn nat :=
  match batches with
  | [] => mret errors
  | (p, body) :: batches' => errors ← send_event send p body errors; send_all batches' errors
  end.
End batches.

Fixpoint batches_of (events : list TelemetryEvent) (buf : buffers) : list (json * string) * buffers :=
  match events with
  | [] => ([], buf)
  | event :: events' =>
      let p := te_providerId event in
      let buf1 := match buf_get p buf with None => buf_set p "" buf | Some _ => buf end in
      let buffered := default "" (buf_get p buf1) in
      let event_str := event_to_v1_encoded event in
      if negb (hashable p) then batches_of events' buf
      else if bool_decide (MAX_EVENT_BUFFER_SIZE ≤ String.length event_str)%nat then batches_of events' buf1
      else if bool_decide (MAX_EVENT_BUFFER_SIZE ≤ String.length (buffered +:+ event_str))%nat
      then let '(out, buf2) := batches_of events' (buf_set p event_str buf1) in ((p, buffered) :: out, buf2)
      else batches_of events' (buf_set p (buffered +:+ event_str) buf1)
  end.

Definition rest_of (buf : buffers) : list (json * string) := filter (λ x, x.2 ≠ "") buf.

Lemma rest_of_cons p b buf : rest_of ((p, b) :: buf) = if String.eqb b "" then rest_of buf else (p, b) :: rest_of buf.
Proof.
  unfold rest_of, filter. cbn [list_filter snd]. destruct (String.eqb_spec b "") as [->|Hne]; [|by rewrite decide_True].
  rewrite decide_False; [done|]. auto.
Qed.

Section sending.
Context {S : Type} (send : json → string → M S exn unit).

Lemma group_events_batches events buf errors s :
  group_events send events buf errors s =
  (errors' ← send_all send (batches_of events buf).1 errors; mret ((batches_of events buf).2, errors')) s.
Proof.
  revert buf errors s. induction events as [|e events IH]; intros buf errors s; [done|]. cbn [group_events batches_of]. cbv zeta.
  destruct (negb (hashable _)); [apply IH|]. destruct (bool_decide _); [apply IH|]. destruct (bool_decide _); [|apply IH].
  destruct (batches_of events _) as [out buf2] eqn:Hb. cbn [fst snd send_all]. unfold mbind, M_bind.
  destruct (send_event _ _ _ _ s) as [[n|x] s']; [|done]. specialize (IH (buf_set (te_providerId e) (event_to_v1_encoded e)
    match buf_get (te_providerId e) buf with None => buf_set (te_providerId e) "" buf | Some _ => buf end) n s').
  rewrite Hb in IH. exact IH.
Qed.

Lemma send_rest_batches buf errors s : send_rest send buf errors s = send_all send (rest_of buf) errors s.
Proof.
  revert errors s. induction buf as [|[p b] buf IH]; intros errors s; [done|]. cbn [send_rest].
  rewrite rest_of_cons. destruct (String.eqb_spec b "") as [->|Hne]; [unfold mbind at 1, M_bind; apply IH|].
  cbn [send_all]. unfold mbind, M_bind. destruct (send_event _ _ _ _ s) as [[n|x] s']; [apply IH|done].
Qed.

Lemma send_all_app a b errors s : send_all send (a ++ b) errors s = (n ← send_all send a errors; send_all send b n) s.
Proof.
  revert errors s. induction a as [|[p x] a IH]; intros errors s; [done|]. cbn [app send_all]. unfold mbind, M_bind in *.
  destruct (send_event _ _ _ _ s) as [[n|e] s']; [|done]. rewrite IH. done.
Qed.
End sending.

(** *** Keys *)

Lemma json_eqb_refl_key p : hashable p = true → json_eqb p p = true.
Proof. destruct p as [|[]| | | | |]; simpl; intros; rewrite ?Z.eqb_refl, ?String.eqb_refl; done. Qed.

Lemma json_eqb_key p q r : hashable p = true → json_eqb p q = true → json_eqb p r = json_eqb q r.
Proof.
  intros Hp H. destruct p as [|[]| | | | |], q as [|[]| | | | |]; cbn [json_eqb hashable Bool.eqb] in H, Hp; try discriminate; try reflexivity;
    rewrite ?Z.eqb_eq, ?String.eqb_eq in H; subst; try reflexivity; by destruct r as [|[]| | | | |].
Qed.

Lemma json_eqb_sym_key p q : hashable p = true → json_eqb p q = json_eqb q p.
Proof.
  destruct p as [|[]| | | | |], q as [|[]| | | | |]; simpl; try done; intros _; try apply Z.eqb_sym; apply String.eqb_sym.
Qed.

(** Every key is there once. *)
Fixpoint uniq (buf : buffers) : Prop :=
  match buf with [] => True | (k, _) :: buf' => hashable k = true ∧ buf_get k buf' = None ∧ uniq buf' end.

Lemma buf_get_key p q buf : hashable p = true → json_eqb p q = true → buf_get p buf = buf_get q buf.
Proof. intros Hp H. induction buf as [|[k v] buf IH]; simpl; [done|]. by rewrite (json_eqb_key p q), IH. Qed.

Lemma buf_get_set p q v buf :
  hashable p = true → hashable q = true → buf_get q (buf_set p v buf) = if json_eqb q p then Some v else buf_get q buf.
Proof.
  intros Hp Hq. induction buf as [|[k w] buf IH]; simpl; [done|]. destruct (json_eqb p k) eqn:Hk; simpl.
  - destruct (json_eqb q p) eqn:Hqp; [by rewrite (json_eqb_key q p), Hk|]. destruct (json_eqb q k) eqn:Hqk; [|done]. exfalso.
    rewrite (json_eqb_sym_key q p), (json_eqb_key p k), <- (json_eqb_sym_key q k) in Hqp by done. congruence.
  - destruct (json_eqb q k) eqn:Hqk; [|done]. destruct (json_eqb q p) eqn:Hqp; [|done]. rewrite (json_eqb_key q p) in Hqk by done. congruence.
Qed.

Lemma uniq_set p v buf : hashable p = true → uniq buf → uniq (buf_set p v buf).
Proof.
  intros Hp. induction buf as [|[k w] buf IH]; simpl; [done|]. intros (Hk & Hn & Hu). destruct (json_eqb p k) eqn:He; simpl; [done|].
  split_and!; [done| |auto]. rewrite buf_get_set by done. by rewrite json_eqb_sym_key, He.
Qed.

(** The texts that were sent for a provider, and those of its events that fit *)
Fixpoint bodies (p : json) (l : list (json * string)) : string :=
  match l with [] => "" | (q, b) :: l' => (if json_eqb p q then b else "") +:+ bodies p l' end.

Definition fits (e : TelemetryEvent) : bool := bool_decide (String.length (event_to_v1_encoded e) < MAX_EVENT_BUFFER_SIZE)%nat.
Fixpoint encoded (p : json) (l : list TelemetryEvent) : string :=
  match l with
  | [] => ""
  | e :: l' => (if json_eqb p (te_providerId e) && fits e then event_to_v1_encoded e else "") +:+ encoded p l'
  end.

Lemma bodies_app p a b : bodies p (a ++ b) = bodies p a +:+ bodies p b.
Proof. induction a as [|[q x] a IH]; simpl; [done|]. by rewrite IH, string_app_assoc. Qed.

Lemma bodies_none p buf : hashable p = true → uniq buf → buf_get p buf = None → bodies p (rest_of buf) = "".
Proof.
  intros Hp. induction buf as [|[k v] buf IH]; [done|]. intros (Hk & Hn & Hu) Hg. rewrite rest_of_cons. simpl in Hg.
  destruct (json_eqb p k) eqn:He; [done|]. case_match; [by apply IH|]. simpl. rewrite He. by apply IH.
Qed.

Lemma rest_bodies p buf : hashable p = true → uniq buf → bodies p (rest_of buf) = default "" (buf_get p buf).
Proof.
  intros Hp. induction buf as [|[k v] buf IH]; [done|]. intros (Hk & Hn & Hu). rewrite rest_of_cons. simpl.
  destruct (json_eqb p k) eqn:He.
  - assert (bodies p (rest_of buf) = "") as Hr by (apply bodies_none; [done..|]; by rewrite (buf_get_key p k)).
    destruct (String.eqb_spec v "") as [->|_]; [done|]. simpl. rewrite He, Hr. apply string_app_nil_r.
  - case_match; [by apply IH|]. simpl. rewrite He. by apply IH.
Qed.

Definition small (x : json * string) : Prop := (String.length x.2 < MAX_EVENT_BUFFER_SIZE)%nat.

Lemma small_set p v buf : (String.length v < MAX_EVENT_BUFFER_SIZE)%nat → Forall small buf → Forall small (buf_set p v buf).
Proof.
  intros Hv Hb. induction Hb as [|[k w] buf Hw Hb IH]; simpl; [by constructor|]. case_match; by constructor.
Qed.

(** The first event of a provider adds an empty buffer. *)
Definition touch (p : json) (buf : buffers) : buffers := match buf_get p buf with None => buf_set p "" buf | Some _ => buf end.
Lemma touch_get p q buf : hashable p = true → hashable q = true → default "" (buf_get q (touch p buf)) = default "" (buf_get q buf).
Proof.
  intros Hp Hq. unfold touch. destruct (buf_get p buf) eqn:Hg; [done|]. rewrite buf_get_set by done.
  destruct (json_eqb q p) eqn:He; [|done]. by rewrite (buf_get_key q p), Hg.
Qed.
Lemma touch_uniq p buf : hashable p = true → uniq buf → uniq (touch p buf).
Proof. unfold touch. intros. case_match; [done|by apply uniq_set]. Qed.
Lemma touch_small p buf : Forall small buf → Forall small (touch p buf).
Proof. unfold touch. intros. case_match; [done|]. apply small_set; [|done]. unfold MAX_EVENT_BUFFER_SIZE. simpl. lia. Qed.

Lemma batches_of_text p events buf :
  hashable p = true → uniq buf →
  let r := batches_of events buf in
  uniq r.2 ∧ bodies p r.1 +:+ default "" (buf_get p r.2) = default "" (buf_get p buf) +:+ encoded p events.
Proof.
  intros Hp. revert buf. induction events as [|e events IH]; intros buf Hu; [split; [done|]; simpl; by rewrite string_app_nil_r|].
  cbn [batches_of encoded]. fold (touch (te_providerId e) buf). set (q := te_providerId e). set (x := event_to_v1_encoded e).
  destruct (hashable q) eqn:Hq; simpl negb; cbv iota.
  2: { assert (json_eqb p q = false) as ->; [|by apply IH]. clear -Hp Hq. destruct p as [|[]| | | | |], q; done. }
  pose proof (touch_uniq q buf Hq Hu) as Ht. unfold fits. fold x.
  destruct (bool_decide (MAX_EVENT_BUFFER_SIZE ≤ _)%nat) eqn:Hbig.
  { apply bool_decide_eq_true in Hbig. rewrite (bool_decide_false (_ < _)%nat) by lia. rewrite andb_false_r.
    destruct (IH _ Ht) as [H1 H2]. split; [done|]. rewrite H2. by rewrite touch_get. }
  apply bool_decide_eq_false in Hbig. rewrite (bool_decide_true (_ < _)%nat), andb_true_r by lia.
  set (b := default "" (buf_get q (touch q buf))).
  destruct (bool_decide (MAX_EVENT_BUFFER_SIZE ≤ _)%nat).
  - destruct (IH (buf_set q x (touch q buf)) (uniq_set _ _ _ Hq Ht)) as [H1 H2].
    destruct (batches_of events _) as [out buf2]. cbn [fst snd bodies] in *. split; [done|].
    rewrite string_app_assoc, H2, buf_get_set by done. destruct (json_eqb p q) eqn:He; cbn [default].
    + rewrite (buf_get_key p q) by done. rewrite <- (touch_get q q buf) by done. done.
    + by rewrite touch_get.
  - destruct (IH (buf_set q (b +:+ x) (touch q buf)) (uniq_set _ _ _ Hq Ht)) as [H1 H2]. split; [done|].
    rewrite H2, buf_get_set by done. destruct (json_eqb p q) eqn:He; cbn [default].
    + rewrite (buf_get_key p q buf), <- (touch_get q q buf) by done.
      apply string_app_assoc.
    + by rewrite touch_get.
Qed.

Lemma batches_of_small events buf :
  Forall small buf → let r := batches_of events buf in Forall (λ x, x.2 ≠ "" ∧ small x) r.1 ∧ Forall small r.2.
Proof.
  revert buf. induction events as [|e events IH]; intros buf Hb; [by split|].
  cbn [batches_of]. fold (touch (te_providerId e) buf). set (q := te_providerId e). set (x := event_to_v1_encoded e).
  destruct (negb (hashable q)); [by apply IH|]. pose proof (touch_small q buf Hb) as Ht.
  destruct (bool_decide _) eqn:Hbig; [by apply IH|]. apply bool_decide_eq_false in Hbig.
  set (b := default "" (buf_get q (touch q buf))). destruct (bool_decide _) eqn:Hfull.
  - apply bool_decide_eq_true in Hfull. assert (small (q, b)) as Hsmall.
    { clear -Ht. subst b. unfold small. cbn [snd]. induction Ht as [|[k w] l Hw Hl IH]; simpl; [unfold MAX_EVENT_BUFFER_SIZE; simpl; lia|].
      by case_match. }
    assert (Forall small (buf_set q x (touch q buf))) as Hs by (apply small_set; [lia|done]).
    destruct (IH _ Hs) as [H1 H2]. destruct (batches_of events _) as [out buf2]. split; [|done]. constructor; [|done].
    split; [|done]. cbn [snd]. intros ->. simpl in Hfull. done.
  - apply bool_decide_eq_false in Hfull. apply IH, small_set; [lia|done].
Qed.

Lemma rest_of_small buf : Forall small buf → Forall (λ x, x.2 ≠ "" ∧ small x) (rest_of buf).
Proof.
  induction 1 as [|[k w] buf Hw Hb IH]; [constructor|]. rewrite rest_of_cons. destruct (String.eqb_spec w ""); [done|]. by constructor.
Qed.

(** C15: events are sent in batches below the limit.  What [report_event] sends depends only on the
    events: it is one sequence of batches, of which none is empty or reaches the limit, sent one
    after the other whether or not the ones before arrived.  For every provider, the batches one
    after the other are the documents of its events, each once and in their order, without those
    that alone reach the limit. *)
Theorem events_are_sent_in_batches events :
  ∃ batches,
    (∀ S (send : json → string → M S exn unit) s,
       report_event send events s = (errors ← send_all send batches 0; mret (bool_decide (errors = 0)%nat)) s) ∧
    Forall (λ x, x.2 ≠ "" ∧ small x) batches ∧
    ∀ p, hashable p = true → bodies p batches = encoded p events.
Proof.
  exists ((batches_of events []).1 ++ rest_of (batches_of events []).2). split_and!.
  - intros S send s. unfold report_event. unfold mbind at 1, M_bind. rewrite group_events_batches. unfold mbind, M_bind.
    rewrite send_all_app. unfold mbind, M_bind. destruct (send_all send _ 0%nat s) as [[n|e] s']; [|done]. cbn.
    by rewrite send_rest_batches.
  - destruct (batches_of_small events []) as [H1 H2]; [constructor|]. apply Forall_app. split; [done|by apply rest_of_small].
  - intros p Hp. destruct (batches_of_text p events [] Hp Logic.I) as [H1 H2].
    rewrite bodies_app, rest_bodies by done. exact H2.
Qed.
