(* ===== verification/EventLog.v ===== *)
(** * Events on disk (common/event.py)

    [EventLogger] writes every event to a file of its own.  The directory keeps a thousand files; when
    it is full the oldest names are removed, and names are times.  [EventStatus] remembers the last
    outcome of operations that are reported only when their outcome changes.

    Threads and processes have their ids in the events: [thread], [pid], [tid].  The hash that
    identifies a periodic event is taken to be the text that is hashed.  Log output is omitted. *)
From S2P Require Import Prelude PyExn FlexVersion Datetime Json Ticks TextUtil Xml World RestApi ExtInstance Samples Urls Http HealthService VmSettings HostPlugin History WireClient Telemetry.
From Stdlib Require Import Ascii.
Import Re.

Definition TELEMETRY_EVENT_PROVIDER_ID : string := "69B669B9-4AF8-4C50-BDC4-6006FA76E975".
Definition TELEMETRY_LOG_PROVIDER_ID : string := "FFF0196F-EE4C-4EAF-9AA5-776F622DEB4F".
Definition TELEMETRY_EVENT_EVENT_ID : Z := 1.
Definition TELEMETRY_METRICS_EVENT_ID : Z := 4.
Definition TELEMETRY_LOG_EVENT_ID : Z := 7.
Definition MAX_NUMBER_OF_EVENTS : nat := 1000.
Definition AGENT_EVENT_FILE_EXTENSION : string := ".waagent.tld".

(** ** Reading events *)

Section parse.
Context (loads : string → res exn json) (parse_doc : string → res exn xml) (float_text : string → option string).

Definition event_contract : contract :=
  CObj [("eventId", CData JNull); ("providerId", CData JNull);
        ("parameters", CList (CObj [("name", CData JNull); ("value", CData JNull)]) []); ("file_type", CData (JStr ""))].

Definition data_of (c : option contract) : json := match c with Some (CData v) => v | _ => JNull end.
Definition param_of (c : contract) : TelemetryEventParam :=
  match c with CObj d => mkParam (data_of (dict_get "name" d)) (data_of (dict_get "value" d)) | _ => mkParam JNull JNull end.
Definition params_of (c : option contract) : list TelemetryEventParam := match c with Some (CList _ l) => param_of <$> l | _ => [] end.

(** [parse_json_event] *)
Definition parse_json_event (data_str : string) : res exn TelemetryEvent :=
  data ← loads data_str;
  c ← set_properties "TelemetryEvent" event_contract data;
  Ok match c with
     | CObj d => mkEvent (data_of (dict_get "eventId" d)) (data_of (dict_get "providerId" d)) (params_of (dict_get "parameters" d)) "json"
     | _ => new_event JNull JNull
     end.

(** [parse_xml_param]: [bool] of a text is whether it is not empty. *)
Definition parse_xml_param (n : xml) : res exn TelemetryEventParam :=
  let value_str := get_attribute "Value" n in
  let type := get_attribute "T" n in
  value ← (if String.eqb type "mt:uint64" then
             match Urls.int_text value_str with Some z => Ok (JInt z) | None => Err (py_error ValueError "invalid literal for int()") end
           else if String.eqb type "mt:bool" then Ok (JBool (negb (String.eqb value_str "")))
           else if String.eqb type "mt:float64" then
             match float_text value_str with Some f => Ok (JFloat f) | None => Err (py_error ValueError "could not convert string to float") end
           else Ok (JStr value_str));
  Ok (param (get_attribute "Name" n) value).

Definition text_or_none (t : option string) : json := match t with Some s => JStr s | None => JNull end.

(** [parse_xml_event] *)
Definition parse_xml_event (data_str : string) : res exn TelemetryEvent :=
  match (doc ← parse_doc data_str;
         params ← map_res parse_xml_param (findall (Some doc) "Param");
         Ok (mkEvent (text_or_none (getattrib (find (Some doc) "Event") "id")) (text_or_none (getattrib (find (Some doc) "Provider") "id"))
               params "xml")) with
  | Err e => Err (if isinstance e Exception_ then py_error ValueError (e_msg e) else e)
  | r => r
  end.

(** [parse_event] *)
Definition parse_event (data_str : string) : res exn TelemetryEvent :=
  match parse_json_event data_str with
  | Err e => if isinstance e ValueError then parse_xml_event data_str else Err e
  | r => r
  end.
End parse.

(** A parameter that is false in an XML event is read as true. *)
Example false_is_read_as_true float_text :
  parse_xml_param float_text (Elem "Param" [("Name", "OperationSuccess"); ("Value", "False"); ("T", "mt:bool")] []) =
  Ok (param "OperationSuccess" (JBool true)).
Proof. reflexivity. Qed.

(** [redact_event_msg]; the message is a text ([re.sub] raises for other values). *)
Definition redact_param (p : TelemetryEventParam) : res exn TelemetryEventParam :=
  if named "Message" p then
    match pa_value p with
    | JStr s => Ok (mkParam (pa_name p) (JStr (redact_sas_token s)))
    | _ => Err (py_error TypeError "expected string or bytes-like object")
    end
  else Ok p.
Definition redact_event_msg (e : TelemetryEvent) : res exn TelemetryEvent :=
  l ← map_res redact_param (te_parameters e); Ok (set_parameters l e).

(** ** [EventLogger] *)

(** [_clean_up_message] *)
Definition is_stamp_char (c : ascii) : bool :=
  is_digit c || existsb (Ascii.eqb c) [":"; "/"; "-"; "T"; "Z"; "."]%char || is_py_space c.

(** The last group of the first match that ends the text *)
Definition last_group (prefix : matcher) (s : string) : option string :=
  head ('(_, r) ← prefix s; '(g, r') ← any_star r; if at_end r' then [g] else []).
Definition log_level_prefix : matcher :=
  seq any_star (seq (alt [lit "INFO"; lit "WARNING"; lit "ERROR"; lit "VERBOSE"]) (class_star is_py_space)).
Definition log_prefix : matcher := seq (class_star is_stamp_char) (λ s, match s with String c s' => if is_py_space c then [(String c "", s')] else [] | _ => [] end).
Definition clean_up_message (message : string) : string :=
  match last_group log_level_prefix message with
  | Some m => m
  | None => default message (last_group log_prefix message)
  end.

Example clean_up_message_ex :
  clean_up_message <$> ["2019/11/20 08:20:01.123456 INFO a log"; "2019-11-20T08:20:01Z plain text"; "no stamp"] =
  ["a log"; "plain text"; "no stamp"].
Proof. vm_compute. reflexivity. Qed.

(** The text up to the last word that looks like a level is lost. *)
Example level_in_the_text_truncates :
  clean_up_message "2019/11/20 08:20:01.123456 ERROR The disk is full, see the INFO messages" = "messages".
Proof. vm_compute. reflexivity. Qed.

(** [existing_events.sort()] *)
Fixpoint insert_name (x : string) (l : list string) : list string :=
  match l with [] => [x] | y :: l' => if str_ltb x y then x :: y :: l' else y :: insert_name x l' end.
Definition sort_names (l : list string) : list string := foldl (λ acc x, insert_name x acc) [] l.

Record event_logger := mkLogger {
  el_event_dir : option path;
  el_periodic : list (string * Z);
  el_has_protocol : bool;
  el_common : list TelemetryEventParam;
  el_status_path : option path;
  el_status : list (string * json);
  el_client : client
}.
Notation EL X := (M event_logger exn X).
Definition set_el_client (c : client) (l : event_logger) : event_logger :=
  mkLogger (el_event_dir l) (el_periodic l) (el_has_protocol l) (el_common l) (el_status_path l) (el_status l) c.
Definition set_periodic (d : list (string * Z)) (l : event_logger) : event_logger :=
  mkLogger (el_event_dir l) d (el_has_protocol l) (el_common l) (el_status_path l) (el_status l) (el_client l).
Definition set_el_common (c : list TelemetryEventParam) (l : event_logger) : event_logger :=
  mkLogger (el_event_dir l) (el_periodic l) (el_has_protocol l) c (el_status_path l) (el_status l) (el_client l).
Definition set_el_status (d : list (string * json)) (l : event_logger) : event_logger :=
  mkLogger (el_event_dir l) (el_periodic l) (el_has_protocol l) (el_common l) (el_status_path l) d (el_client l).
Definition set_status_path (p : path) (l : event_logger) : event_logger :=
  mkLogger (el_event_dir l) (el_periodic l) (el_has_protocol l) (el_common l) (Some p) (el_status l) (el_client l).
Definition init_event_logger (d : path) (l : event_logger) : event_logger :=
  mkLogger (Some d) (el_periodic l) (el_has_protocol l) (el_common l) (el_status_path l) (el_status l) (el_client l).
Definition reset_periodic : event_logger → event_logger := set_periodic [].

Definition on_el_client {A} (m : CL A) : EL A := zoom el_client set_el_client m.
Definition on_el_world {A} (m : M world exn A) : EL A := on_el_client (on_hp (on_hp_world m)).
Definition el_now : EL Z := gets (λ l, w_now (hp_world (cl_plugin (el_client l)))).

Section logger.
Context (E : env) (HE : http_env) (endpoint : string).
Context (ga_version thread : string) (pid tid : Z).

(** *** [save_event], with the directory [d] *)

Definition event_error (msg : string) (e : exn) : exn := agent_error EventError (msg +:+ e_msg e) None (-1).
Definition as_event_error {S A} (msg : string) (m : M S exn A) : M S exn A := except OSError m (λ e, raise (event_error msg e)).

Definition remove_oldest (d : path) : M world exn unit :=
  existing_events ← gets (λ w, listdir d (w_fs w));
  when (bool_decide (MAX_NUMBER_OF_EVENTS ≤ length existing_events)%nat)
    (for_each (take (length existing_events - 999) (sort_names existing_events)) (λ x, remove_file (write_fault E) (d ++ [x]))).

Definition event_file (d : path) (now : Z) (suffix : string) : path := d ++ [pretty now +:+ suffix].

Definition write_event (d : path) (data : string) : M world exn unit :=
  now ← gets w_now;
  write_file (write_fault E) (event_file d now ".tmp") (plain data) ;;
  rename (write_fault E) (event_file d now ".tmp") (event_file d now AGENT_EVENT_FILE_EXTENSION).

Definition save_event (event_dir : option path) (data : string) : M world exn unit :=
  match event_dir with
  | None => mret tt
  | Some d =>
      as_event_error "Failed to create events folder" (mkdir (write_fault E) d) ;;
      as_event_error "Failed to remove old events from events folder" (remove_oldest d) ;;
      as_event_error "Failed to write events to file: " (write_event d data)
  end.

(** *** Adding events *)

Definition add_common_event_parameters (container_id : option string) (common : list TelemetryEventParam) (now : Z) (e : TelemetryEvent)
    : TelemetryEvent :=
  let extension_columns :=
    if json_eqb (te_eventId e) (JInt TELEMETRY_EVENT_EVENT_ID) && json_eqb (te_providerId e) (JStr TELEMETRY_EVENT_PROVIDER_ID)
    then [param "ExtensionType" (JStr (te_file_type e)); param "IsInternal" (JBool false)] else [] in
  set_parameters
    (te_parameters e ++
     [param "GAVersion" (JStr ga_version); param "ContainerId" (text_or_none container_id); param "OpcodeName" (JStr (now_text now));
      param "EventTid" (JInt tid); param "EventPid" (JInt pid); param "TaskName" (JStr thread)] ++ extension_columns ++ common) e.

Definition event_json (e : TelemetryEvent) : json :=
  JObj [("eventId", te_eventId e); ("providerId", te_providerId e);
        ("parameters", JArr ((λ p, JObj [("name", pa_name p); ("value", pa_value p)]) <$> te_parameters e)); ("file_type", JStr (te_file_type e))].

(** [report_or_save_event] *)
Definition report_or_save_event (e : TelemetryEvent) (flush : bool) : EL unit :=
  e ← lift (redact_event_msg e);
  l ← get_state;
  report_success ← (if flush && el_has_protocol l then on_el_client (report_event (send_encoded_event HE endpoint flush) [e]) else mret false);
  when (negb report_success)
    (except EventError (on_el_world (save_event (el_event_dir l) (json_dumps (event_json e)))) (λ _, mret tt)).

Definition complete_and_report (e : TelemetryEvent) (flush : bool) : EL unit :=
  l ← get_state;
  now ← el_now;
  report_or_save_event (add_common_event_parameters (cl_container_id (el_client l)) (el_common l) now e) flush.

(** The methods [add_event], [add_log_event], [add_metric] *)
Definition logger_add_event (name version op message : string) (is_success : bool) (duration : Z) (flush : bool) : EL unit :=
  complete_and_report
    (set_parameters [param "Name" (JStr name); param "Version" (JStr version); param "Operation" (JStr op);
                     param "OperationSuccess" (JBool is_success); param "Message" (JStr message); param "Duration" (JInt duration)]
       (new_event (JInt TELEMETRY_EVENT_EVENT_ID) (JStr TELEMETRY_EVENT_PROVIDER_ID))) flush.

Definition logger_add_log_event (level message : string) : EL unit :=
  now ← el_now;
  complete_and_report
    (set_parameters [param "EventName" (JStr "Log"); param "CapabilityUsed" (JStr level); param "Context1" (JStr (clean_up_message message));
                     param "Context2" (JStr (now_text now)); param "Context3" (JStr "")]
       (new_event (JInt TELEMETRY_LOG_EVENT_ID) (JStr TELEMETRY_LOG_PROVIDER_ID))) false.

Definition add_metric (category counter instance_ value : string) : EL unit :=
  complete_and_report
    (set_parameters [param "Category" (JStr category); param "Counter" (JStr counter); param "Instance" (JStr instance_);
                     param "Value" (JFloat value)]
       (new_event (JInt TELEMETRY_METRICS_EVENT_ID) (JStr TELEMETRY_EVENT_PROVIDER_ID))) false.

(** [is_period_elapsed], [add_periodic] *)
Definition is_period_elapsed (delta : Z) (h : string) (now : Z) (l : event_logger) : bool :=
  match dict_get h (el_periodic l) with None => true | Some t => t + delta <=? now end.

Definition logger_add_periodic (delta : Z) (name version op message : string) (is_success : bool) (duration : Z) (force : bool) : EL unit :=
  let h := name +:+ op +:+ (if is_success then "True" else "False") +:+ message in
  l ← get_state;
  now ← el_now;
  when (force || is_period_elapsed delta h now l)
    (logger_add_event name version op message is_success duration false ;;
     now ← el_now;
     modify (λ l, set_periodic (dict_set h now (el_periodic l)) l)).

(** *** [initialize_vminfo_common_parameters]: what the goal state (tenant, role, instance), the
    metadata service and [AgentGlobals] answer are parameters. *)
Definition set_common (name : string) (value : json) : EL unit :=
  modify (λ l, set_el_common ((λ p, if named name p then mkParam (pa_name p) value else p) <$> el_common l) l).

Record vm_info := mkVmInfo { vi_tenantName : json; vi_roleName : json; vi_roleInstanceName : json }.
Record imds_info := mkImdsInfo {
  ii_location : json; ii_subscriptionId : json; ii_resourceGroupName : json; ii_vmId : json; ii_image_origin : res exn Z
}.

Definition update_keyword_name (loads : string → res exn json) (is_cvm : res exn json) : EL unit :=
  l ← get_state;
  keyword_name ← match List.find (named "KeywordName") (el_common l) with
                 | Some p => match pa_value p with
                             | JStr s => lift (loads s)
                             | _ => raise (py_error TypeError "the JSON object must be str, bytes or bytearray")
                             end
                 | None => raise (py_error KeyError "KeywordName")
                 end;
  v ← lift is_cvm;
  match keyword_name with
  | JObj d => set_common "KeywordName" (JStr (json_dumps (JObj (dict_set "IsCVM" v d))))
  | _ => raise (py_error TypeError "object does not support item assignment")
  end.

Definition initialize_vminfo_common_parameters (loads : string → res exn json) (vminfo : res exn vm_info) (imds : res exn imds_info)
    (is_cvm : res exn json) : EL unit :=
  except Exception_
    (v ← lift vminfo;
     set_common "TenantName" (vi_tenantName v) ;; set_common "RoleName" (vi_roleName v) ;; set_common "RoleInstanceName" (vi_roleInstanceName v))
    (λ _, mret tt) ;;
  except Exception_
    (i ← lift imds;
     set_common "Location" (ii_location i) ;; set_common "SubscriptionId" (ii_subscriptionId i) ;;
     set_common "ResourceGroupName" (ii_resourceGroupName i) ;; set_common "VMId" (ii_vmId i) ;;
     origin ← lift (ii_image_origin i);
     set_common "ImageOrigin" (JInt origin))
    (λ _, mret tt) ;;
  when (String.eqb thread "ExtHandler") (except Exception_ (update_keyword_name loads is_cvm) (λ _, mret tt)).

(** *** [EventStatus]: the file holds what [_save] wrote. *)

Definition event_name (name version op : string) : string := name +:+ "-" +:+ version +:+ "-" +:+ op.
Definition event_marked (name version op : string) (l : event_logger) : bool :=
  bool_decide (is_Some (dict_get (event_name name version op) (el_status l))).
Definition event_succeeded (name version op : string) (l : event_logger) : bool :=
  match dict_get (event_name name version op) (el_status l) with
  | None | Some (JBool true) => true
  | Some _ => false
  end.

Definition save_status : EL unit :=
  l ← get_state;
  match el_status_path l with
  | Some p => on_el_world (except Exception_ (write_file (write_fault E) p (json_content (JObj (el_status l)))) (λ _, mret tt))
  | None => mret tt
  end.
Definition mark_status (name version op : string) (status : bool) : EL unit :=
  modify (λ l, set_el_status (dict_set (event_name name version op) (JBool status) (el_status l)) l) ;; save_status.

Definition init_event_status (status_dir : path) : EL unit :=
  let p := status_dir ++ ["event_status.json"] in
  modify (set_status_path p) ;;
  modify (λ l, set_el_status
    match read_file p (w_fs (hp_world (cl_plugin (el_client l)))) with Ok (mkContent _ (Some (JObj d))) => d | _ => [] end l).

(** *** The functions of the module: [reporter] is the global logger. *)

Definition should_emit_event (name version op : string) (status : bool) (l : event_logger) : bool :=
  negb (String.eqb op "ReportStatus") || negb (event_marked name version op l) || negb (Bool.eqb (event_succeeded name version op l) status).

Definition add_event (name version op message : string) (is_success : bool) (duration : Z) (flush : bool) : EL unit :=
  l ← get_state;
  match el_event_dir l with
  | None => mret tt
  | Some _ =>
      when (should_emit_event name version op is_success l)
        (when (String.eqb op "ReportStatus") (mark_status name version op is_success) ;;
         logger_add_event name version op message is_success duration flush)
  end.

(** Levels of the log from [WARNING] on; [SEND_LOGS_TO_TELEMETRY] is off. *)
Definition add_log_event (level : string) (message : string) (forced : bool) : EL unit :=
  l ← get_state;
  when (bool_decide (is_Some (el_event_dir l)) && forced && bool_decide (level ∈ ["WARNING"; "ERROR"])) (logger_add_log_event level message).

Definition add_periodic (delta : Z) (name version op message : string) (is_success : bool) (duration : Z) (force : bool) : EL unit :=
  l ← get_state;
  when (bool_decide (is_Some (el_event_dir l))) (logger_add_periodic delta name version op message is_success duration force).

Definition report_metric (category counter instance_ : string) (value : res exn string) : EL unit :=
  l ← get_state;
  when (bool_decide (is_Some (el_event_dir l)))
    (except ValueError (v ← lift value; add_metric category counter instance_ v) (λ _, mret tt)).
End logger.

(** ** The directory is bounded *)

Definition name_le (x y : string) : Prop := str_ltb y x = false.

Lemma insert_name_perm x l : insert_name x l ≡ₚ x :: l.
Proof. induction l as [|y l IH]; simpl; [done|]. case_match; [done|]. rewrite IH. apply perm_swap. Qed.

Lemma insert_name_sorted x l : StronglySorted name_le l → StronglySorted name_le (insert_name x l).
Proof.
  induction 1 as [|y l Hl IH Hy]; simpl; [repeat constructor|]. destruct (str_ltb x y) eqn:Hxy.
  - repeat constructor; [done|done|by apply str_ltb_asym|]. eapply Forall_impl; [exact Hy|]. intros z Hz.
    unfold name_le in *. eapply str_ltb_negtrans; [exact Hz|]. by apply str_ltb_asym.
  - constructor; [done|]. rewrite insert_name_perm. by constructor.
Qed.

Lemma sort_names_spec l : sort_names l ≡ₚ l ∧ StronglySorted name_le (sort_names l).
Proof.
  unfold sort_names. assert (∀ acc, StronglySorted name_le acc →
    foldl (λ acc x, insert_name x acc) acc l ≡ₚ l ++ acc ∧ StronglySorted name_le (foldl (λ acc x, insert_name x acc) acc l)) as H.
  { induction l as [|x l IH]; intros acc Ha; [done|]. simpl. destruct (IH (insert_name x acc)) as [H1 H2]; [by apply insert_name_sorted|].
    split; [|done]. rewrite H1, insert_name_perm. by rewrite Permutation_middle. }
  destruct (H []) as [H1 H2]; [constructor|]. by rewrite app_nil_r in H1.
Qed.

Section bounded.
Context (E : env) (disk_errors : ∀ p b e, write_fault E p = Some (b, e) → isinstance e OSError = true).

Hint Resolve mkdir_os remove_file_os write_file_os rename_os : raises.

Lemma as_event_error_class {A} msg (m : M world exn A) : raises os_errors m → raises (λ e, e_class e = EventError) (as_event_error msg m).
Proof.
  intros Hm. apply (raises_except _ os_errors); [done| |].
  - unfold os_errors. congruence.
  - intros e _ _. by apply raises_raise.
Qed.

Lemma save_event_errors d data : raises (λ e, e_class e = EventError) (save_event E (Some d) data).
Proof.
  unfold save_event, remove_oldest, write_event. apply raises_bind; [|intros _; apply raises_bind; [|intros _]];
    apply as_event_error_class; raises_auto.
Qed.

(** The entries of [d] afterwards: those of [l] that are gone are gone, the others are as they were. *)
Definition entries_gone (d : path) (gone : list string) (w w1 : world) : Prop :=
  w_now w1 = w_now w ∧ (∀ x, x ∈ gone → w_fs w1 !! (d ++ [x]) = None) ∧ (∀ x, x ∉ gone → w_fs w1 !! (d ++ [x]) = w_fs w !! (d ++ [x])).

Lemma entry_inj (d : path) x y : d ++ [x] = d ++ [y] → x = y.
Proof. intros H%app_inv_head. by injection H. Qed.

Lemma mkdir_entries d w : wp (mkdir (write_fault E) d) (λ _ w1, entries_gone d [] w w1) (λ _ _, True) w.
Proof.
  unfold wp, mkdir. destruct (isdir d (w_fs w)); [by repeat split; intros x ?%elem_of_nil|]. destruct (existsb _ _); [done|].
  destruct (write_fault E d) as [[??]|]; [done|]. split_and!; [done|by intros x ?%elem_of_nil|]. intros x _. cbn [w_fs with_fs].
  rewrite lookup_mkdirs, decide_False; [done|]. apply not_dir_upto.
Qed.

Lemma remove_files_entries d l w :
  wp (for_each l (λ x, remove_file (write_fault E) (d ++ [x]))) (λ _ w1, entries_gone d l w w1) (λ _ _, True) w.
Proof.
  apply (wp_for_each _ _ (λ dn w1, entries_gone d dn w w1)); [by repeat split; intros x ?%elem_of_nil| |done].
  intros dn x rest w1 _ (Hn & Hg & Hk). unfold wp, remove_file. destruct (isfile _ _); [|done].
  destruct (write_fault E _) as [[??]|]; [done|]. split_and!; [done|..]; intros y; cbn [w_fs with_fs].
  - intros [Hy| ->%list_elem_of_singleton]%elem_of_app; [|apply lookup_delete_eq].
    destruct (decide (y = x)) as [->|Hne]; [apply lookup_delete_eq|]. rewrite lookup_delete_ne; [by apply Hg|]. by intros ?%entry_inj.
  - intros Hy. rewrite lookup_delete_ne; [apply Hk; set_solver|]. intros ->%entry_inj. set_solver.
Qed.

Definition oldest (d : path) (w : world) : list string :=
  let l := listdir d (w_fs w) in
  if bool_decide (MAX_NUMBER_OF_EVENTS ≤ length l)%nat then take (length l - 999) (sort_names l) else [].

Lemma remove_oldest_entries d w : wp (remove_oldest E d) (λ _ w1, entries_gone d (oldest d w) w w1) (λ _ _, True) w.
Proof.
  unfold remove_oldest, oldest. wp_step. wp_step. case_bool_decide; simpl.
  - apply remove_files_entries.
  - wp_step. by repeat split; intros x ?%elem_of_nil.
Qed.

Lemma write_event_entries d data w :
  wp (write_event E d data)
    (λ _ w1, let new := pretty (w_now w) +:+ AGENT_EVENT_FILE_EXTENSION in
       w_fs w1 !! (d ++ [new]) = Some (File (plain data) (w_now w)) ∧
       ∀ x, x ≠ new → w_fs w1 !! (d ++ [x]) = if String.eqb x (pretty (w_now w) +:+ ".tmp") then None else w_fs w !! (d ++ [x]))
    (λ _ _, True) w.
Proof.
  unfold write_event, event_file. wp_step. wp_step. wp_step. set (tmp := pretty (w_now w) +:+ ".tmp"). set (new := pretty _ +:+ _).
  unfold wp at 1, write_file. destruct (isdir (d ++ [tmp]) _); [done|]. destruct (isdir (parent_dir _) _); [simpl|done].
  destruct (write_fault E _) as [[??]|]; [done|]. unfold wp, rename. cbn [w_fs with_fs]. rewrite lookup_insert_eq.
  destruct (match <[_ := _]> _ !! _ with Some Dir => true | _ => false end); [done|]. destruct (isdir _ _); [simpl|done].
  destruct (write_fault E _) as [[??]|]; [done|]. cbn [w_fs with_fs w_now]. split; [apply lookup_insert_eq|].
  intros x Hx. rewrite lookup_insert_ne by (by intros ?%entry_inj). destruct (String.eqb_spec x tmp) as [->|Hne].
  - apply lookup_delete_eq.
  - by rewrite lookup_delete_ne, lookup_insert_ne by (by intros ?%entry_inj).
Qed.

Lemma NoDup_length_le {A} (l k : list A) : NoDup l → (∀ x, x ∈ l → x ∈ k) → (length l ≤ length k)%nat.
Proof. intros Hl H. by apply submseteq_length, NoDup_submseteq. Qed.

Lemma oldest_bound d w : ∃ kept, (length kept < MAX_NUMBER_OF_EVENTS)%nat ∧ (∀ x, x ∈ listdir d (w_fs w) → x ∈ oldest d w ∨ x ∈ kept) ∧
  ∀ x y, x ∈ oldest d w → y ∈ listdir d (w_fs w) → y ∉ oldest d w → name_le x y.
Proof.
  unfold oldest. set (l := listdir d (w_fs w)). destruct (sort_names_spec l) as [Hp Hs]. case_bool_decide as Hn.
  - exists (drop (length l - 999) (sort_names l)). split_and!.
    + rewrite length_drop, Hp. unfold MAX_NUMBER_OF_EVENTS in *. lia.
    + intros x Hx. rewrite <- Hp, <- (take_drop (length l - 999) (sort_names l)) in Hx. by apply elem_of_app in Hx.
    + intros x y Hx Hy Hny. rewrite <- Hp, <- (take_drop (length l - 999) (sort_names l)) in Hy.
      apply elem_of_app in Hy as [Hy|Hy]; [done|]. rewrite <- (take_drop (length l - 999) (sort_names l)) in Hs.
      revert Hs Hx. generalize (take (length l - 999) (sort_names l)). intros pre Hs Hx. induction pre as [|a pre IH]; [set_solver|].
      inversion Hs as [|?? Hs' Ha]; subst. apply elem_of_cons in Hx as [->|Hx]; [|by apply IH]. rewrite Forall_forall in Ha.
      apply Ha. set_solver.
  - exists l. split_and!; [lia|auto|]. by intros x y ?%elem_of_nil.
Qed.

Lemma wp_as_event_error {A} msg (m : M world exn A) Q w : wp m Q (λ _ _, True) w → wp (as_event_error msg m) Q (λ _ _, True) w.
Proof. unfold as_event_error, except, wp, catch. destruct (m w) as [[a|e] w']; [done|]. by destruct (isinstance e OSError). Qed.

Lemma same_listing d w w1 : entries_gone d [] w w1 → ∀ x, x ∈ listdir d (w_fs w1) ↔ x ∈ listdir d (w_fs w).
Proof.
  intros (_ & _ & H) x. split; intros Hx%listdir_inv; apply listdir_elem; [rewrite <- H|rewrite H]; done || apply not_elem_of_nil.
Qed.

(** The events directory is bounded.  Saving an event either fails with [EventError] or leaves at
    most a thousand files, the event among them; of the files that were there before, only those
    with the first names were removed (and a temporary file of the same time). *)
Theorem events_directory_is_bounded d data w :
  wp (save_event E (Some d) data)
    (λ _ w', let new := pretty (w_now w) +:+ AGENT_EVENT_FILE_EXTENSION in
       (length (listdir d (w_fs w')) ≤ MAX_NUMBER_OF_EVENTS)%nat ∧
       w_fs w' !! (d ++ [new]) = Some (File (plain data) (w_now w)) ∧
       ∀ x y, x ∈ listdir d (w_fs w) → x ∉ listdir d (w_fs w') → x ≠ pretty (w_now w) +:+ ".tmp" →
              y ∈ listdir d (w_fs w) → y ∈ listdir d (w_fs w') → y ≠ new → name_le x y)
    (λ e _, e_class e = EventError) w.
Proof.
  pose proof (save_event_errors d data w) as Herr. cbv zeta. set (new := pretty _ +:+ _).
  match goal with |- wp _ ?Q _ _ => assert (wp (save_event E (Some d) data) Q (λ _ _, True) w) as Hok end.
  2: { unfold wp in *. destruct (save_event E (Some d) data w) as [[[]|e] w']; [done|]. by apply Herr. }
  unfold save_event. wp_step. apply wp_as_event_error. eapply wp_mono; [apply mkdir_entries| |done]. intros [] w1 H1. cbv beta in H1.
  wp_step. apply wp_as_event_error. eapply wp_mono; [apply remove_oldest_entries| |done]. intros [] w2 H2. cbv beta in H2.
  apply wp_as_event_error. eapply wp_mono; [apply write_event_entries| |done]. intros [] w3.
  assert (w_now w2 = w_now w) as -> by (destruct H1, H2; congruence). cbv zeta. fold new. intros [Hnew Hothers].
  destruct (oldest_bound d w1) as (kept & Hlen & Hkept & Hold). destruct H2 as (_ & Hgone & Hsame).
  assert (∀ x, x ∈ listdir d (w_fs w3) → x = new ∨ x ∈ listdir d (w_fs w1) ∧ x ∉ oldest d w1) as Hafter.
  { intros x Hx%listdir_inv. destruct (decide (x = new)) as [->|Hne]; [by left|right]. rewrite Hothers in Hx by done.
    destruct (String.eqb _ _); [by destruct Hx|]. destruct (decide (x ∈ oldest d w1)) as [Ho|Ho]; [rewrite Hgone in Hx by done; by destruct Hx|].
    split; [|done]. apply listdir_elem. by rewrite <- Hsame. }
  split_and!; [|done|].
  - etrans; [apply (NoDup_length_le _ (new :: kept)); [apply NoDup_listdir|]|simpl; lia].
    intros x [->|[Hx Hn]]%Hafter; [left|right]. destruct (Hkept x Hx); done.
  - intros x y Hx Hnx Htmp Hy Hy' Hne. rewrite <- (same_listing d w w1 H1) in Hx, Hy. apply Hold; [|done|].
    + destruct (decide (x ∈ oldest d w1)) as [|Hno]; [done|]. destruct Hnx. apply listdir_elem.
      destruct (decide (x = new)) as [->|Hxn]; [by rewrite Hnew|]. rewrite Hothers, (proj2 (String.eqb_neq _ _)), Hsame by done.
      by apply listdir_inv.
    + destruct (Hafter y Hy') as [->|[_ ?]]; done.
Qed.
End bounded.

(** ** A directory with one event *)

Definition sample_events_dir : path := ["var"; "lib"; "waagent"; "events"].

Lemma events_directory_is_bounded_witness :
  (save_event sample_env (Some sample_events_dir) "{}" sample_world).1 = Ok tt ∧
  (let w' := (save_event sample_env (Some sample_events_dir) "{}" sample_world).2 in
   (length (listdir sample_events_dir (w_fs w')) ≤ MAX_NUMBER_OF_EVENTS)%nat).
Proof.
  assert (Hok : (save_event sample_env (Some sample_events_dir) "{}" sample_world).1 = Ok tt) by (vm_compute; reflexivity).
  split; [exact Hok|].
  pose proof (events_directory_is_bounded sample_env ltac:(discriminate) sample_events_dir "{}" sample_world) as H.
  unfold wp in H. destruct (save_event _ _ _ _) as [[[]|e] w']; [exact (proj1 H)|discriminate Hok].
Defined.
