(* ===== verification/Daemon.v ===== *)
(** * Choosing and watching the version that runs (ga/update.py, daemon/main.py)

    The daemon calls [UpdateHandler.run_latest] in a loop: it picks the latest version of
    the agent on disk that is not blacklisted and newer than itself, or else the installed
    one, starts it and waits until it exits.  A version that was started three times within
    five minutes is blacklisted, so that the daemon falls back to the next one.

    What a child process does is a parameter: the text of the error when it cannot be
    started, or how long it runs, its exit code and what it leaves on the disk.  A child that
    never exits keeps [run_latest] from returning and is not described here. *)
From S2P Require Import Prelude PyExn Json FlexVersion World Manifest RestApi ExtInstance ExtVersion Download GuestAgent AgentUpdate.
From S2P Require Import Samples Urls.
From Stdlib Require Import Ascii.

Definition CHILD_HEALTH_INTERVAL : Z := 15 * 60.
Definition CHILD_LAUNCH_INTERVAL : Z := 5 * 60.
Definition CHILD_LAUNCH_RESTART_MAX : Z := 3.

(** Times are in microseconds. *)
Definition seconds (n : Z) : Z := n * 1000000.

(** ** [shlex.split] (POSIX rules, no comments)

    The state is the token being read, if any, and what the next character belongs to. *)
Inductive shlex_mode := InWord | InQuote (q : ascii) | Escaped (back : option ascii).

Definition squote : ascii := ascii_of_nat 39.
Definition backslash : ascii := ascii_of_nat 92.
Definition is_shlex_space (c : ascii) : bool := (code c =? 32) || (code c =? 9) || (code c =? 10) || (code c =? 13).
Definition is_quote (c : ascii) : bool := Ascii.eqb c squote || Ascii.eqb c dquote.

Definition push (token : option string) (c : ascii) : option string := Some (default "" token +:+ String c "").

Fixpoint shlex_go (mode : shlex_mode) (token : option string) (s : string) : res exn (list string) :=
  match s, mode with
  | EmptyString, InWord => Ok (match token with Some t => [t] | None => [] end)
  | EmptyString, InQuote _ => Err (py_error ValueError "No closing quotation")
  | EmptyString, Escaped _ => Err (py_error ValueError "No escaped character")
  | String c s', InWord =>
      if is_shlex_space c then
        l ← shlex_go InWord None s'; Ok (match token with Some t => t :: l | None => l end)
      else if is_quote c then shlex_go (InQuote c) (Some (default "" token)) s'
      else if Ascii.eqb c backslash then shlex_go (Escaped None) (Some (default "" token)) s'
      else shlex_go InWord (push token c) s'
  | String c s', InQuote q =>
      if Ascii.eqb c q then shlex_go InWord token s'
      else if Ascii.eqb c backslash && Ascii.eqb q dquote then shlex_go (Escaped (Some q)) token s'
      else shlex_go (InQuote q) (push token c) s'
  | String c s', Escaped (Some q) =>
      shlex_go (InQuote q)
        (push (if Ascii.eqb c backslash || Ascii.eqb c q then token else push token backslash) c) s'
  | String c s', Escaped None => shlex_go InWord (push token c) s'
  end.

Definition safe_shlex_split (s : string) : res exn (list string) := shlex_go InWord None s.

(** ** The daemon *)

(** A child process: when it exits (in microseconds after its start), its exit code,
    whether polling it then raises, and what it did to the disk *)
Record child := mkChild {
  ch_duration : Z;
  ch_code : Z;
  ch_poll_raises : bool;
  ch_disk : fs → fs
}.

(** A start of a child: which version ([None]: the installed one), with which command *)
Record launch := mkLaunch {
  l_version : option FlexibleVersion;
  l_cmds : list string;
  l_dir : path;
  l_time : Z
}.

Record daemon_env := mkDaemonEnv {
  d_current : FlexibleVersion;
  update_to_latest_present : bool;
  autoupdate_enabled : bool;
  sys_executable : string;
  sys_argv0 : string;
  d_cwd : path;
  d_traceback : exn → string;
  (** [subprocess.Popen], given the starts before this one *)
  popen : list launch → launch → res exn child
}.

(** The attributes of [UpdateHandler] the daemon uses, the starts, and the machine *)
Record dstate := mkDState {
  d_running : bool;
  d_agents : list GuestAgent;
  child_agent : option GuestAgent;
  child_launch_time : option Z;
  child_launch_attempts : Z;
  child_process : bool;
  d_launches : list launch;
  d_world : world
}.
Notation D X := (M dstate exn X).

Definition set_agents (l : list GuestAgent) (s : dstate) : dstate :=
  mkDState (d_running s) l (child_agent s) (child_launch_time s) (child_launch_attempts s) (child_process s) (d_launches s) (d_world s).
Definition set_child (a : option GuestAgent) (t : option Z) (n : Z) (s : dstate) : dstate :=
  mkDState (d_running s) (d_agents s) a t n (child_process s) (d_launches s) (d_world s).
Definition set_process (b : bool) (s : dstate) : dstate :=
  mkDState (d_running s) (d_agents s) (child_agent s) (child_launch_time s) (child_launch_attempts s) b (d_launches s) (d_world s).
Definition log_launch (l : launch) (s : dstate) : dstate :=
  mkDState (d_running s) (d_agents s) (child_agent s) (child_launch_time s) (child_launch_attempts s) (child_process s)
    (d_launches s ++ [l]) (d_world s).
Definition set_world (w : world) (s : dstate) : dstate :=
  mkDState (d_running s) (d_agents s) (child_agent s) (child_launch_time s) (child_launch_attempts s) (child_process s) (d_launches s) w.
Definition on_disk {X} (m : M world exn X) : D X := zoom d_world set_world m.

Definition advance (t : Z) (w : world) : world := mkWorld (w_fs w) t (w_trace w) (w_ext_validation_disabled w).

Section daemon.
Context (E : env) (N : numbers) (C : daemon_env).
Notation current := (d_current C).

(** [_find_agents]: an error leaves the list as far as it was assigned. *)
Definition find_agents : D unit :=
  except Exception_
    (agents ← on_disk (get_all_agents_on_disk E N);
     modify (set_agents agents) ;;
     sorted ← lift (sorted_reverse ((λ a, (ga_version a, a)) <$> agents));
     modify (set_agents (filter (λ a, is_blacklisted a = false) sorted.*2)))
    (λ _, mret tt).

(** [agent.is_available and agent.version != CURRENT_VERSION and agent.version > daemon_version] *)
Fixpoint available_agents (daemon_version : FlexibleVersion) (f : fs) (l : list GuestAgent) : res exn (list GuestAgent) :=
  match l with
  | [] => Ok []
  | a :: l' =>
      b ← (if is_available E a f then
             other ← fv_ne (ga_version a) current;
             if (other : bool) then fv_gt (ga_version a) daemon_version else Ok false
           else Ok false);
      r ← available_agents daemon_version f l';
      Ok (if (b : bool) then a :: r else r)
  end.

(** [get_latest_agent_greater_than_daemon], with the version given *)
Definition get_latest_agent_greater_than_daemon (daemon_version : FlexibleVersion) : D (option GuestAgent) :=
  find_agents ;;
  agents ← gets d_agents;
  f ← gets (λ s, w_fs (d_world s));
  l ← lift (available_agents daemon_version f agents);
  mret (match l with a :: _ => Some a | [] => None end).

(** [_evaluate_agent_health] *)
Definition evaluate_agent_health (latest_agent : option GuestAgent) : D unit :=
  match latest_agent with
  | None => t ← gets child_launch_time; n ← gets child_launch_attempts; modify (set_child None t n)
  | Some a =>
      now ← gets (λ s, w_now (d_world s));
      c ← gets child_agent;
      fresh ← lift (match c with None => Ok true | Some c => fv_ne (ga_version a) (ga_version c) end);
      when fresh (modify (set_child (Some a) None 0)) ;;
      c ← gets child_agent;
      t ← gets child_launch_time;
      n ← gets child_launch_attempts;
      let t := default now t in
      let n := n + 1 in
      modify (set_child c (Some t) n) ;;
      if (now - t <=? seconds CHILD_LAUNCH_INTERVAL) && (CHILD_LAUNCH_RESTART_MAX <=? n) then
        raise (py_error Exception_ ("Agent " +:+ agent_name (ga_version (default a c)) +:+ " restarted more than "
                 +:+ pretty CHILD_LAUNCH_RESTART_MAX +:+ " times in " +:+ pretty CHILD_LAUNCH_INTERVAL +:+ " seconds"))
      else mret tt
  end.

(** The polling loop: one poll per second for fifteen minutes; [Some] is the exit code. *)
Fixpoint poll_loop (fuel : nat) (start : Z) (c : child) (w : world) : option Z * world :=
  match fuel with
  | O => (None, w)
  | S fuel' =>
      if w_now w - start <? seconds CHILD_HEALTH_INTERVAL then
        let w := advance (w_now w + seconds 1) w in
        if ch_duration c <=? w_now w - start
        then (Some (if ch_poll_raises c then -1 else ch_code c), w)
        else poll_loop fuel' start c w
      else (None, w)
  end.

Definition poll_fuel : nat := S (Z.to_nat CHILD_HEALTH_INTERVAL).

(** Watching the child until it exits *)
Definition watch (c : child) : M world exn unit := λ w,
  let start := w_now w in
  let '(ret, w) := poll_loop poll_fuel start c w in
  let w := match ret with
           | Some _ => w
           | None => advance (Z.max (w_now w) (start + ch_duration c)) w
           end in
  (Ok tt, with_fs (ch_disk c) w).

(** The command of the version to start: a text, unless the manifest is malformed *)
Definition agent_command (a : GuestAgent) : res exn json :=
  match ga_manifest a with
  | Some man => get_enable_command man
  | None => Err (py_error AttributeError "'GuestAgent' object has no attribute 'manifest'")
  end.

(** [cmds] with the running interpreter for "python" *)
Definition split_command (cmd : json) (child_args : option string) : res exn (list string) :=
  cmds ← match cmd, child_args with
         | _, Some args => safe_shlex_split (py_str cmd +:+ " " +:+ args)
         | JStr s, None => safe_shlex_split s
         | _, None => Err (py_error TypeError "expected a string")
         end;
  match cmds with
  | [] => Err (py_error IndexError "list index out of range")
  | x :: l => Ok (if String.eqb (str_lower x) "python" then sys_executable C :: l else x :: l)
  end.

(** [agent_cmd] as it is when an exception is caught: the interpreter may be filled in. *)
Definition command_text (cmd : json) (child_args : option string) : string :=
  let text := match child_args with Some args => py_str cmd +:+ " " +:+ args | None => py_str cmd end in
  match safe_shlex_split text with
  | Ok (x :: l) => if String.eqb (str_lower x) "python" then str_join " " (sys_executable C :: l) else text
  | _ => text
  end.

(** The reason a version is blacklisted for *)
Definition launch_failure (a : GuestAgent) (cmd : json) (child_args : option string) (e : exn) : string :=
  "Agent " +:+ agent_name (ga_version a) +:+ " launched with command '" +:+ command_text cmd child_args
  +:+ "' failed with exception: " +:+ newline +:+ " " +:+ e_msg e +:+ newline +:+ d_traceback C e.

(** The body of the [try] of [run_latest] *)
Definition start_child (latest : option GuestAgent) (cmd : json) (child_args : option string) (dir : path) : D unit :=
  cmds ← lift (split_command cmd child_args);
  evaluate_agent_health latest ;;
  now ← gets (λ s, w_now (d_world s));
  let l := mkLaunch (ga_version <$> latest) cmds dir now in
  launches ← gets d_launches;
  c ← lift (popen C launches l);
  modify (λ s, set_process true (log_launch l s)) ;;
  on_disk (watch c).

(** [run_latest] *)
Definition run_latest (child_args : option string) : D unit :=
  busy ← gets child_process;
  if (busy : bool) then raise (py_error Exception_ "Illegal attempt to launch multiple goal state Agent processes")
  else
    latest ← (if update_to_latest_present C || autoupdate_enabled C
              then get_latest_agent_greater_than_daemon current else mret None);
    cmd ← lift (match latest with
                | None => Ok (JStr ("python -u " +:+ sys_argv0 C +:+ " -run-exthandlers"))
                | Some a => agent_command a
                end);
    let dir := match latest with None => d_cwd C | Some a => get_agent_dir E (ga_version a) end in
    except Exception_ (start_child latest cmd child_args dir)
      (λ e,
         running ← gets d_running;
         if (running : bool) then
           match latest with
           | Some a => _ ← on_disk (mark_failure E N true (launch_failure a cmd child_args e) a); mret tt
           | None => mret tt
           end
         else mret tt) ;;
    modify (set_process false).

(** The loop of the daemon, for a number of iterations *)
Fixpoint daemon_loop (n : nat) (child_args : option string) : D unit :=
  match n with
  | O => mret tt
  | S n' => run_latest child_args ;; daemon_loop n' child_args
  end.
End daemon.

(** ** Versions that crash are abandoned *)

Lemma comparable_ne u v : comparable u → comparable v → ∃ b, fv_ne u v = Ok b.
Proof. intros Hu Hv. unfold fv_ne. destruct (comparable_eq u v Hu Hv) as (b & -> & _). cbn. eauto. Qed.

Lemma comparable_gt u v : comparable u → comparable v → ∃ b, fv_gt u v = Ok b.
Proof.
  intros Hu Hv. unfold fv_gt. destruct (comparable_lt u v Hu Hv) as (b & -> & _), (comparable_eq u v Hu Hv) as (c & -> & _).
  cbn. destruct b; cbn; eauto.
Qed.

Lemma insert_by_version_ok {X} (x : FlexibleVersion * X) l :
  comparable x.1 → Forall (λ y, comparable y.1) l → ∃ r, insert_by_version x l = Ok r.
Proof.
  intros Hx. induction 1 as [|y l Hy Hl [r IH]]; simpl; [eauto|].
  destruct (comparable_lt x.1 y.1 Hx Hy) as (b & -> & _). cbn. destruct b; [eauto|]. rewrite IH. cbn. eauto.
Qed.

Lemma sort_by_version_ok {X} (l acc : list (FlexibleVersion * X)) :
  Forall (λ y, comparable y.1) acc → Forall (λ y, comparable y.1) l → ∃ r, sort_by_version acc l = Ok r.
Proof.
  intros Ha Hl. revert acc Ha. induction Hl as [|x l Hx Hl IH]; intros acc Ha; simpl; [eauto|].
  destruct (insert_by_version_ok x acc Hx Ha) as [r Hr]. rewrite Hr. cbn. apply IH.
  rewrite (insert_by_version_perm _ _ _ Hr). by constructor.
Qed.

Lemma sorted_reverse_ok {X} (l : list (FlexibleVersion * X)) :
  Forall (λ y, comparable y.1) l → ∃ r, sorted_reverse l = Ok r ∧ r ≡ₚ l.
Proof.
  intros Hl. destruct (sort_by_version_ok (reverse l) []) as [r Hr]; [done|by apply Forall_reverse|].
  exists (reverse r). assert (sorted_reverse l = Ok (reverse r)) as Hs by (unfold sorted_reverse; rewrite Hr; done).
  split; [done|]. by apply sorted_reverse_perm.
Qed.

Section abandon.
Context (E : env) (N : numbers) (C : daemon_env) (child_args : option string).
Context (Hfault : ∀ p, write_fault E p = None) (Htime : ∀ t, json_time N (time_json N t) = Some t).
Context (Hcurrent : comparable (d_current C)).
Notation current := (d_current C).
Notation name a := (agent_name (ga_version a)).

(** What a file of the directory of a version holds, when it can be read *)
Definition record_ok {A} (p : path) (from_json : json → M A exn unit) (init a : A) (f : fs) : Prop :=
  match f !! p with
  | Some (File c _) => ∃ j, c_json c = Some j ∧ from_json j init = (Ok tt, a)
  | _ => a = init
  end.

(** A version on disk that loads as [a] *)
Definition good_agent (f : fs) (a : GuestAgent) : Prop :=
  let v := ga_version a in
  wf_version v ∧ comparable v ∧ ga_pkg a = None ∧
  isdir (get_agent_dir E v) f = true ∧ isdir (get_agent_error_file E v) f = false ∧
  record_ok (get_agent_error_file E v) (error_from_json N) cleared_error (ga_error a) f ∧
  record_ok (get_agent_update_count_file E v) attempt_from_json (JInt 0) (ga_attempts a) f ∧
  0 ≤ failure_count (ga_error a) ∧
  ∃ man, ga_manifest a = Some man ∧ agent_load_manifest E v f = Ok man.

(** The versions on disk load as [A], which are different versions *)
Definition good_disk (f : fs) (A : list GuestAgent) : Prop :=
  filter (λ x, isdir (lib_dir E ++ [x]) f = true) (agent_entries E f) ≡ₚ ((λ a, name a) <$> A) ∧
  Forall (good_agent f) A ∧ NoDup A ∧
  ∀ a b, a ∈ A → b ∈ A → a ≠ b → fv_eq (ga_version a) (ga_version b) = Ok false.

(** The versions that the daemon would start *)
Definition is_candidate (a : GuestAgent) : bool :=
  negb (is_blacklisted a) &&
  match fv_ne (ga_version a) current, fv_gt (ga_version a) current with Ok true, Ok true => true | _, _ => false end.
Definition candidates (A : list GuestAgent) : list GuestAgent := filter (λ a, is_candidate a = true) A.

Lemma load_record_good {A} p (from_json : json → M A exn unit) init a w :
  record_ok p from_json init a (w_fs w) → load_record E p from_json init w = (Ok a, w).
Proof.
  unfold record_ok, load_record. destruct (w_fs w !! p) as [[|c t]|]; [by intros ->| |by intros ->].
  by intros (j & -> & ->).
Qed.

Lemma good_agent_loads f a w :
  good_agent f a → w_fs w = f → from_installed_agent E N (name a) w = (Ok a, w).
Proof.
  intros (Hwf & Hc & Hp & Hd & He & Hre & Hra & _ & man & Hm & Hl) <-. unfold from_installed_agent.
  assert (version_of_dir (name a) = Some (fv_str (ga_version a))) as ->
    by (rewrite <-(trim_zip_agent _ Hwf); by apply version_of_agent).
  unfold mbind, M_bind, lift. rewrite FV_str by done. unfold load_agent, mbind, M_bind.
  rewrite (load_record_good _ _ _ (ga_error a)) by done. rewrite (load_record_good _ _ _ (ga_attempts a)) by done.
  unfold gets. rewrite Hl. rewrite (load_record_good _ _ _ (ga_error a)) by done.
  destruct a as [pk v e t m]. simpl in *. by subst.
Qed.

Lemma load_agents_good f A w :
  Forall (good_agent f) A → w_fs w = f → load_agents E N ((λ a, name a) <$> A) w = (Ok A, w).
Proof.
  intros HA Hw. induction HA as [|a A Ha HA IH]; [done|]. cbn [fmap list_fmap load_agents].
  unfold mbind, M_bind. rewrite (good_agent_loads f a w Ha Hw). change (list_fmap _ _ (λ a, name a) A) with ((λ a, name a) <$> A).
  by rewrite IH.
Qed.

Lemma get_all_agents_good f A :
  good_disk f A → ∃ A', A' ≡ₚ A ∧ ∀ w, w_fs w = f → get_all_agents_on_disk E N w = (Ok A', w).
Proof.
  intros (Hp & HA & _). destruct (Permutation_map_inv _ _ Hp) as (A' & Heq & Hperm).
  exists A'. split; [by symmetry|]. intros w Hw. unfold get_all_agents_on_disk, mbind, M_bind, gets. rewrite Hw, Heq.
  apply (load_agents_good f); [by rewrite <-Hperm|done].
Qed.

Lemma good_available f a : good_agent f a → is_available E a f = negb (is_blacklisted a).
Proof.
  intros (_ & _ & _ & _ & _ & _ & _ & _ & man & _ & Hl). unfold is_available, is_downloaded.
  assert (isfile (get_agent_manifest_path E (ga_version a)) f = true) as ->; [|by destruct (is_blacklisted a)].
  unfold isfile. unfold agent_load_manifest in Hl. by destruct (f !! get_agent_manifest_path E (ga_version a)) as [[]|].
Qed.

Lemma available_agents_good f l :
  Forall (good_agent f) l → available_agents E C current f l = Ok (candidates l).
Proof.
  induction 1 as [|a l Ha Hl IH]; [done|]. cbn [available_agents]. rewrite (good_available f a Ha), IH.
  destruct (comparable_ne (ga_version a) current) as [b Hb]; [apply Ha|done|].
  destruct (comparable_gt (ga_version a) current) as [g Hg]; [apply Ha|done|].
  assert (is_candidate a = negb (is_blacklisted a) && (b && g)) as Hi
    by (unfold is_candidate; rewrite Hb, Hg; by destruct b, g).
  unfold candidates. rewrite filter_cons, Hi, Hb, Hg. by destruct (is_blacklisted a), b, g.
Qed.

(** The choice of the daemon on such a disk: the same each time, and a candidate if any *)
Lemma latest_good f A :
  good_disk f A →
  ∃ L o, (∀ s, w_fs (d_world s) = f → get_latest_agent_greater_than_daemon E N C current s = (Ok o, set_agents L s)) ∧
    match o with Some a => a ∈ candidates A | None => candidates A = [] end.
Proof.
  intros Hd. destruct (get_all_agents_good f A Hd) as (A' & Hperm & Hget). destruct Hd as (_ & HA & _).
  assert (Forall (good_agent f) A') as HA' by (by rewrite Hperm).
  destruct (sorted_reverse_ok ((λ a, (ga_version a, a)) <$> A')) as (r & Hr & Hrp).
  { apply Forall_fmap. eapply Forall_impl; [exact HA'|]. intros a Ha. apply Ha. }
  assert (r.*2 ≡ₚ A) as HrA.
  { rewrite Hrp, <-Hperm, <-list_fmap_compose. unfold compose. simpl. by rewrite list_fmap_id. }
  set (L := filter (λ a, is_blacklisted a = false) r.*2).
  exists L, (match candidates L with a :: _ => Some a | [] => None end). split.
  - intros s Hs. unfold get_latest_agent_greater_than_daemon, find_agents, except, catch, on_disk, zoom, mbind, M_bind, gets, lift, modify.
    rewrite (Hget _ Hs). rewrite Hr. cbn [d_world set_world set_agents d_agents].
    assert (Forall (good_agent f) L) as HL.
    { unfold L. apply Forall_forall. intros a Ha. apply list_elem_of_filter in Ha as [_ Ha]. rewrite HrA in Ha.
      rewrite Forall_forall in HA. by apply HA. }
    fold L. rewrite Hs, (available_agents_good f L HL). by destruct s.
  - assert (candidates L ≡ₚ candidates A) as HcL.
    { unfold candidates, L. rewrite list_filter_filter. rewrite <-HrA.
      rewrite (list_filter_iff _ (λ a, is_candidate a = true)); [done|].
      intros a. unfold is_candidate. destruct (is_blacklisted a); simpl; naive_solver. }
    destruct (candidates L) as [|a l]; [by apply Permutation_nil_l in HcL|]. rewrite <-HcL. by left.
Qed.

Lemma good_disk_perm f A B : A ≡ₚ B → good_disk f A → good_disk f B.
Proof.
  intros HAB (H1 & H2 & H3 & H4). split_and!; [by rewrite <-HAB|by rewrite <-HAB|by rewrite <-HAB|].
  intros a b. rewrite <-!HAB. apply H4.
Qed.

Lemma good_agent_frame f f' a :
  (∀ q, get_agent_dir E (ga_version a) `prefix_of` q → f' !! q = f !! q) → good_agent f a → good_agent f' a.
Proof.
  intros Hq (H1 & H2 & H3 & H4 & H5 & H6 & H7 & H8 & man & H9 & H10).
  assert (∀ x, f' !! (get_agent_dir E (ga_version a) ++ [x]) = f !! (get_agent_dir E (ga_version a) ++ [x])) as Hx
    by (intros x; apply Hq, agent_prefix).
  unfold good_agent, isdir, record_ok, get_agent_error_file, get_agent_update_count_file in *. rewrite !Hx.
  rewrite (Hq (get_agent_dir E (ga_version a))) by done. split_and!; try done. exists man. split; [done|].
  rewrite <-H10. apply agent_load_manifest_file. apply Hx.
Qed.

(** The directories of different versions *)
Lemma good_names f A a b : good_disk f A → a ∈ A → b ∈ A → a ≠ b → name a ≠ name b.
Proof.
  intros (_ & HA & _ & Hd) Ha Hb Hab Hn. rewrite Forall_forall in HA. specialize (Hd a b Ha Hb Hab).
  assert (fv_str (ga_version a) = fv_str (ga_version b)) as Hs.
  { unfold agent_name in Hn. by do 2 apply (inj (String.append _)) in Hn. }
  destruct (HA a Ha) as (Hwa & Hca & _), (HA b Hb) as (Hwb & _). pose proof (FV_str _ Hwa) as Hfa.
  rewrite Hs, FV_str in Hfa by done. injection Hfa as Hv. rewrite Hv in Hd.
  destruct (comparable_eq (ga_version a) (ga_version a) Hca Hca) as (c & Hc & Hce). rewrite Hd in Hc. injection Hc as <-.
  destruct Hce as [_ Hce]. discriminate Hce. by split.
Qed.

Lemma agent_dirs_write f p n :
  length p = S (S (length (lib_dir E))) →
  filter (λ x, isdir (lib_dir E ++ [x]) (<[p := n]> f) = true) (agent_entries E (<[p := n]> f))
  ≡ₚ filter (λ x, isdir (lib_dir E ++ [x]) f = true) (agent_entries E f).
Proof.
  intros Hp.
  assert (∀ m, listdir (lib_dir E) (<[p := m]> (delete p f)) ≡ₚ listdir (lib_dir E) (delete p f)) as Hl.
  { intros m. unfold listdir. rewrite map_to_list_insert by (by rewrite lookup_delete_eq). simpl.
    assert (child_of (lib_dir E) p = None) as ->; [|done]. unfold child_of. destruct (last p) as [x|]; [|done].
    destruct (decide _) as [->|]; [|done]. rewrite length_app in Hp. simpl in Hp. lia. }
  assert (listdir (lib_dir E) (<[p := n]> f) ≡ₚ listdir (lib_dir E) f) as Hld.
  { rewrite <-insert_delete_eq, Hl. destruct (f !! p) as [m|] eqn:Hf; [|by rewrite delete_id].
    rewrite <-(Hl m). by rewrite insert_delete_id. }
  unfold agent_entries. rewrite Hld. rewrite (list_filter_iff _ (λ x, isdir (lib_dir E ++ [x]) f = true)); [done|].
  intros x. unfold isdir. rewrite lookup_insert_ne; [done|]. intros ->. rewrite length_app in Hp. simpl in Hp. lia.
Qed.

Lemma mark_good w A a reason :
  good_disk (w_fs w) A → a ∈ candidates A → 0 ≤ w_now w →
  ∃ a' w' A', mark_failure E N true reason a w = (Ok a', w') ∧ w_now w' = w_now w ∧ good_disk (w_fs w') A' ∧
    S (length (candidates A')) = length (candidates A) ∧
    ∀ b, b ∈ candidates A' → b ∈ candidates A ∧ fv_ne (ga_version b) (ga_version a) = Ok true.
Proof.
  intros Hd [Hca Ha]%list_elem_of_filter Hnow.
  apply elem_of_Permutation in Ha as [B HB].
  assert (good_disk (w_fs w) (a :: B)) as Hd' by (by apply (good_disk_perm _ A)).
  assert (candidates A ≡ₚ a :: candidates B) as Hsub
    by (unfold candidates; rewrite HB, filter_cons; by rewrite decide_True).
  rewrite (Permutation_length Hsub).
  clear Hd HB. pose proof (λ b, good_names (w_fs w) (a :: B) a b Hd') as Hnames.
  destruct Hd' as (Hdirs & HA & Hnd & Hdist).
  apply Forall_cons in HA as [Hga HgB]. apply NoDup_cons in Hnd as [Hna HnB].
  destruct Hga as (G1 & G2 & G3 & G4 & G5 & G6 & G7 & G8 & man & G9 & G10).
  set (e' := error_mark_failure (w_now w) true reason (ga_error a)).
  set (p := get_agent_error_file E (ga_version a)).
  set (n := File (json_content (error_to_json N e')) (w_now w)).
  exists (set_error e' a), (with_fs <[p := n]> w), (set_error e' a :: B).
  assert (mark_failure E N true reason a w = (Ok (set_error e' a), with_fs <[p := n]> w)) as Hm.
  { unfold mark_failure. rewrite G4, (save_record_writes E Hfault); [done| |done].
    unfold get_agent_error_file. by rewrite parent_dir_snoc. }
  assert (∀ x, x ≠ "error.json" → (<[p := n]> (w_fs w)) !! (get_agent_dir E (ga_version a) ++ [x])
     = w_fs w !! (get_agent_dir E (ga_version a) ++ [x])) as Hne.
  { intros x Hx. apply lookup_insert_ne. apply agent_file_ne. congruence. }
  assert (candidates (set_error e' a :: B) = candidates B) as Hcand
    by (unfold candidates; rewrite filter_cons, decide_False; [done|]; done).
  assert (∀ b, b ∈ B → ga_version b ≠ ga_version a) as Hself.
  { intros b Hb Hv. specialize (Hdist b a). rewrite Hv in Hdist.
    destruct (comparable_eq (ga_version a) (ga_version a) G2 G2) as (c & Hc & Hce).
    rewrite Hdist in Hc; [|by right|by left|by intros ->]. injection Hc as <-. destruct Hce as [_ Hce].
    discriminate Hce. by split. }
  assert (length p = S (S (length (lib_dir E)))) as Hlen
    by (unfold p, get_agent_error_file, get_agent_dir; rewrite !length_app; simpl; lia).
  split_and!; [done|done| | |].
  - split_and!.
    + simpl w_fs. rewrite agent_dirs_write by done. exact Hdirs.
    + constructor.
      * unfold good_agent. cbn [ga_version set_error ga_pkg ga_error ga_attempts ga_manifest w_fs with_fs].
        split_and!; try done.
        -- unfold isdir. rewrite lookup_insert_ne; [exact G4|]. intros Heq. apply (f_equal length) in Heq.
           rewrite Hlen in Heq. unfold get_agent_dir in Heq. rewrite length_app in Heq. simpl in Heq. lia.
        -- unfold isdir. fold p. by rewrite lookup_insert_eq.
        -- unfold record_ok. fold p. rewrite lookup_insert_eq. exists (error_to_json N e'). split; [done|].
           apply (error_roundtrip N Htime); simpl; [done|lia|eauto..].
        -- unfold record_ok, get_agent_update_count_file. rewrite Hne by done. exact G7.
        -- simpl. lia.
        -- exists man. split; [done|]. rewrite <-G10. apply agent_load_manifest_file. by apply Hne.
      * apply Forall_forall. intros b Hb. rewrite Forall_forall in HgB. eapply good_agent_frame; [|by apply HgB].
        intros q Hq. apply lookup_insert_ne. intros <-. unfold p, get_agent_error_file, get_agent_dir in Hq.
        destruct Hq as [r Hq]. rewrite <-!app_assoc in Hq. simplify_list_eq.
        apply (Hnames b); [by left|by right|by intros ->|unfold agent_name; congruence].
    + constructor; [|done]. intros Hin. by apply (Hself (set_error e' a)).
    + intros x y [->|Hx]%elem_of_cons [->|Hy]%elem_of_cons Hxy; [done| | |].
      * apply (Hdist a y); [by left|by right|by intros ->].
      * apply (Hdist x a); [by right|by left|by intros ->].
      * apply Hdist; [by right..|done].
  - by rewrite Hcand.
  - intros b Hb. rewrite Hcand in Hb. split; [rewrite Hsub; by right|]. apply list_elem_of_filter in Hb as [_ Hb]. unfold fv_ne.
    rewrite (Hdist b a); [done|by right|by left|by intros ->].
Qed.

(** The versions on disk run for at most two minutes, or cannot be started. *)
Context (Hpopen : ∀ ls l, is_Some (l_version l) →
  match popen C ls l with Ok c => ch_duration c ≤ seconds 120 ∧ ch_disk c = id | Err e => ordinary e end).
Context (Hauto : update_to_latest_present C || autoupdate_enabled C = true).

Lemma poll_loop_time fuel start c w :
  ch_duration c ≤ seconds 120 → start ≤ w_now w ≤ start + seconds 120 →
  let w' := (poll_loop fuel start c w).2 in
  w_fs w' = w_fs w ∧ start ≤ w_now w' ≤ start + seconds 121.
Proof.
  intros Hc. revert w. induction fuel as [|fuel IH]; intros w Hw; cbn [poll_loop].
  { cbn. unfold seconds in *. split; [done|lia]. }
  destruct (_ <? _); [|cbn; unfold seconds in *; split; [done|lia]].
  destruct (Z.leb_spec (ch_duration c) (w_now (advance (w_now w + seconds 1) w) - start)) as [H|H]; cbn in *.
  - unfold seconds in *. split; [done|lia].
  - specialize (IH (advance (w_now w + seconds 1) w)). cbn in IH. apply IH. unfold seconds in *. lia.
Qed.

Lemma watch_time c w :
  ch_duration c ≤ seconds 120 → ch_disk c = id →
  ∃ w', watch c w = (Ok tt, w') ∧ w_fs w' = w_fs w ∧ w_now w ≤ w_now w' ≤ w_now w + seconds 121.
Proof.
  intros Hc Hd. unfold watch. pose proof (poll_loop_time poll_fuel (w_now w) c w Hc) as Hp.
  destruct (poll_loop poll_fuel (w_now w) c w) as [r w1]. cbn in Hp. destruct Hp as [Hf Ht]; [unfold seconds; lia|].
  destruct r as [z|]; (eexists; split; [reflexivity|]); rewrite Hd; cbn; unfold seconds in *; split; (done || lia).
Qed.

(** The state of the daemon between two starts, after [k] starts in a row of the version
    that it would start next *)
Definition watching (A : list GuestAgent) (k : Z) (s : dstate) : Prop :=
  good_disk (w_fs (d_world s)) A ∧ child_process s = false ∧ d_running s = true ∧ 0 ≤ w_now (d_world s) ∧ 0 ≤ k ≤ 2 ∧
  if k =? 0 then match child_agent s with
                 | None => True
                 | Some c => ∀ b, b ∈ candidates A → fv_ne (ga_version b) (ga_version c) = Ok true
                 end
  else ∃ a t, child_agent s = Some a ∧ (get_latest_agent_greater_than_daemon E N C current s).1 = Ok (Some a) ∧
         child_launch_attempts s = k ∧
         child_launch_time s = Some t ∧ t ≤ w_now (d_world s) ≤ t + k * seconds 121.

Lemma good_ne_self f A a : good_disk f A → a ∈ candidates A → fv_ne (ga_version a) (ga_version a) = Ok false.
Proof.
  intros (_ & HA & _) [_ Ha]%list_elem_of_filter. rewrite Forall_forall in HA. destruct (HA a Ha) as (_ & Hc & _).
  unfold fv_ne. destruct (comparable_eq (ga_version a) (ga_version a) Hc Hc) as (c & -> & _ & Hce). cbn.
  by rewrite Hce by (by split).
Qed.

Lemma evaluate_spec A k s a L :
  watching A k s → (∀ s', w_fs (d_world s') = w_fs (d_world s) →
     get_latest_agent_greater_than_daemon E N C current s' = (Ok (Some a), set_agents L s')) → a ∈ candidates A →
  ∃ r s1, evaluate_agent_health (Some a) (set_agents L s) = (r, s1) ∧
    d_world s1 = d_world s ∧ d_running s1 = true ∧ d_launches s1 = d_launches s ∧ child_process s1 = false ∧
    child_agent s1 = Some a ∧
    if k =? 2 then ∃ e, r = Err e ∧ ordinary e
    else r = Ok tt ∧ child_launch_attempts s1 = k + 1 ∧
         ∃ t, child_launch_time s1 = Some t ∧ t ≤ w_now (d_world s) ≤ t + k * seconds 121.
Proof.
  intros (Hd & Hp & Hr & Hn & Hk & Hw) Hl Ha. unfold evaluate_agent_health, mbind, M_bind, gets, lift, modify, when, mret, M_ret.
  destruct (Z.eqb_spec k 0) as [->|Hk0].
  - assert (match child_agent s with None => Ok true | Some c => fv_ne (ga_version a) (ga_version c) end = Ok true) as Hf.
    { destruct (child_agent s) as [c|]; [by apply Hw|done]. }
    cbn [child_agent set_agents]. rewrite Hf. cbn [set_child child_agent child_launch_time child_launch_attempts d_world set_agents].
    cbn [default]. rewrite Z.sub_diag. cbn.
    eexists _, _. split_and!; [reflexivity|done..|]. eexists. split; [reflexivity|lia].
  - destruct Hw as (a' & t & Hc & Hla & Hatt & Ht & Htime').
    rewrite (Hl s eq_refl) in Hla. injection Hla as <-.
    assert (fv_ne (ga_version a) (ga_version a) = Ok false) as Hne by (by eapply good_ne_self).
    cbn [child_agent set_agents]. rewrite Hc, Hne. cbn beta iota; cbn [child_agent child_launch_time child_launch_attempts set_agents d_world].
    rewrite ?Hc, Ht, Hatt. cbn [from_option id].
    assert (k = 1 ∨ k = 2) as [-> | ->] by lia.
    + change (1 =? 2) with false. cbn iota. rewrite (proj2 (Z.leb_gt CHILD_LAUNCH_RESTART_MAX (1 + 1))) by (unfold CHILD_LAUNCH_RESTART_MAX; lia).
      rewrite andb_false_r. eexists _, _. split_and!; [reflexivity|done..|].
      eexists. split; [reflexivity|exact Htime'].
    + rewrite (proj2 (Z.leb_le (w_now (d_world s) - t) (seconds CHILD_LAUNCH_INTERVAL)))
        by (unfold seconds, CHILD_LAUNCH_INTERVAL in *; lia).
      cbn. eexists _, _. split_and!; [reflexivity|done..|by eexists].
Qed.

Lemma shlex_ordinary mode token t : fails_with ordinary (shlex_go mode token t).
Proof. revert mode token. induction t as [|c t IH]; intros mode token; simpl; destruct mode as [| |[]]; raises_auto. Qed.

Lemma split_ordinary cmd : fails_with ordinary (split_command C cmd child_args).
Proof. pose proof shlex_ordinary. unfold split_command, safe_shlex_split. raises_auto. Qed.

(** Starting the version [a] that was chosen: it fails, or it runs until it exits. *)
Lemma start_child_spec A k s a L cmd dir :
  watching A k s → (∀ s', w_fs (d_world s') = w_fs (d_world s) →
     get_latest_agent_greater_than_daemon E N C current s' = (Ok (Some a), set_agents L s')) → a ∈ candidates A →
  ∃ r s2, start_child C (Some a) cmd child_args dir (set_agents L s) = (r, s2) ∧ d_running s2 = true ∧
    ((∃ e, r = Err e ∧ ordinary e ∧ d_world s2 = d_world s ∧ child_process s2 = false ∧
           (child_agent s2 = Some a ∨ child_agent s2 = child_agent s)) ∨
     (r = Ok tt ∧ k < 2 ∧ w_fs (d_world s2) = w_fs (d_world s) ∧ child_agent s2 = Some a ∧ child_launch_attempts s2 = k + 1 ∧
      0 ≤ w_now (d_world s2) ∧
      ∃ t, child_launch_time s2 = Some t ∧ t ≤ w_now (d_world s2) ≤ t + (k + 1) * seconds 121)).
Proof.
  intros Hw Hl Ha. unfold start_child, mbind, M_bind, lift.
  destruct (split_command C cmd child_args) as [cmds|e] eqn:Hs.
  2:{ destruct Hw as (_ & Hp & Hr & _). eexists _, _. split_and!; [reflexivity|done|]. left. exists e.
      split_and!; [done|by eapply split_ordinary|done..|by right]. }
  destruct (evaluate_spec A k s a L Hw Hl Ha) as (r & s1 & He & Hw1 & Hr1 & Hl1 & Hp1 & Hc1 & Hk). rewrite He.
  destruct Hw as (_ & _ & _ & Hn & Hk02 & _). destruct (Z.eqb_spec k 2) as [->|Hk2].
  { destruct Hk as (e & -> & Ho). eexists _, _. split_and!; [reflexivity|done|]. left. exists e. auto 10. }
  destruct Hk as (-> & Hatt & t & Ht & Htime'). unfold gets. rewrite Hw1.
  pose proof (Hpopen (d_launches s1) (mkLaunch (Some (ga_version a)) cmds dir (w_now (d_world s))) ltac:(by eexists)) as Hpo.
  cbn [fmap option_fmap option_map].
  destruct (popen C (d_launches s1) (mkLaunch (Some (ga_version a)) cmds dir (w_now (d_world s)))) as [c|e].
  2:{ eexists _, _. split_and!; [reflexivity|done|]. left. exists e. auto 10. }
  destruct Hpo as [Hdur Hdisk]. destruct (watch_time c (d_world s) Hdur Hdisk) as (w' & Hwt & Hfs & Hnow).
  unfold modify, on_disk, zoom. cbn [d_world set_process log_launch]. rewrite Hw1, Hwt.
  eexists _, _. split_and!; [reflexivity|done|]. right. cbn [d_world set_world child_agent child_launch_attempts child_launch_time set_process log_launch].
  split_and!; [done|lia|done|done|done|lia|]. exists t. split; [done|]. unfold seconds in *. lia.
Qed.

Lemma loaded_manifest_command v f man :
  agent_load_manifest E v f = Ok man → ∃ cmd, get_enable_command man = Ok cmd.
Proof.
  intros H. assert (∃ m, checked_manifest m = Ok man) as [m Hm].
  { unfold agent_load_manifest in H. repeat (case_match; try done); injection H as <-; eauto. }
  unfold checked_manifest in Hm. destruct (new_manifest m) as [x|]; cbn in Hm; [|done].
  destruct (get_enable_command x) as [c|] eqn:Hg; cbn in Hm; [|done]. destruct (json_len c); cbn in Hm; [|done].
  case_match; [done|]. injection Hm as <-. eauto.
Qed.

Lemma run_latest_step A k s :
  watching A k s → candidates A ≠ [] →
  ∃ s', run_latest E N C child_args s = (Ok tt, s') ∧
    ((∃ A', watching A' 0 s' ∧ S (length (candidates A')) = length (candidates A)) ∨ (k < 2 ∧ watching A (k + 1) s')).
Proof.
  intros Hw Hne. pose proof Hw as (Hd & Hp & Hr & Hn & Hk & Hc).
  destruct (latest_good _ _ Hd) as (L & o & Hl & Ho). destruct o as [a|]; [|done].
  assert (good_agent (w_fs (d_world s)) a) as Hga.
  { destruct Hd as (_ & HA & _). rewrite Forall_forall in HA. apply HA. by apply list_elem_of_filter in Ho as [_ ?]. }
  assert (∃ cmd, agent_command a = Ok cmd) as [cmd Hcmd].
  { destruct Hga as (_ & _ & _ & _ & _ & _ & _ & _ & man & Hman & Hload). unfold agent_command. rewrite Hman.
    by eapply loaded_manifest_command. }
  set (dir := get_agent_dir E (ga_version a)).
  destruct (start_child_spec A k s a L cmd dir Hw Hl Ho) as (r & s2 & Hst & Hr2 & Hcase).
  unfold run_latest, mbind, M_bind, gets, lift, modify. rewrite Hp, Hauto, (Hl s eq_refl), Hcmd. fold dir.
  unfold except, catch. rewrite Hst. destruct Hcase as [(e & -> & Hoe & Hw2 & Hp2 & Hc2)|(-> & Hk2 & Hf2 & Hc2 & Hatt & Hn2 & t & Ht & Htt)].
  - rewrite Hoe. unfold mbind, M_bind, gets, on_disk, zoom. rewrite Hr2.
    destruct (mark_good (d_world s2) A a (launch_failure C a cmd child_args e)) as (a' & w' & A' & Hm & Hnow & Hd' & Hlen & Hb);
      [by rewrite Hw2|done|by rewrite Hw2|].
    rewrite Hm. eexists. split; [reflexivity|]. left. exists A'. split; [|done].
    split_and!; [done|done|done|cbn; rewrite Hnow, Hw2; done|done|done|]. cbn [Z.eqb].
    cbn [child_agent set_process set_world]. destruct Hc2 as [-> | ->].
    + intros b Hb'. by apply Hb.
    + destruct (Z.eqb_spec k 0) as [->|].
      * destruct (child_agent s) as [c|]; [|done]. intros b Hb'. by apply Hc, Hb.
      * destruct Hc as (a0 & t0 & -> & Hl0 & _). rewrite (Hl s eq_refl) in Hl0. injection Hl0 as <-. intros b Hb'. by apply Hb.
  - eexists. split; [reflexivity|]. right. split; [done|]. split_and!; [cbn; by rewrite Hf2|done|done|done|lia|lia|].
    rewrite (proj2 (Z.eqb_neq (k + 1) 0)) by lia. exists a, t. cbn [child_agent set_process child_launch_attempts child_launch_time d_world].
    split_and!; [done| |done|done|lia|lia]. by rewrite (Hl (set_process false s2)).
Qed.

Lemma daemon_loop_app j k s :
  daemon_loop E N C (j + k) child_args s =
  match daemon_loop E N C j child_args s with (Ok _, s') => daemon_loop E N C k child_args s' | (Err e, s') => (Err e, s') end.
Proof.
  revert s. induction j as [|j IH]; intros s; [done|]. cbn [Nat.add daemon_loop]. unfold mbind, M_bind.
  destruct (run_latest E N C child_args s) as [[[]|e] s1]; [apply IH|done].
Qed.

Lemma daemon_loop_1 s s' : run_latest E N C child_args s = (Ok tt, s') → daemon_loop E N C 1 child_args s = (Ok tt, s').
Proof. intros H. cbn [daemon_loop]. unfold mbind, M_bind. by rewrite H. Qed.

(** At most three starts until the version is blacklisted *)
Lemma abandon_one m A k s :
  (2 - k < Z.of_nat m) → watching A k s → candidates A ≠ [] →
  ∃ j A' s', (j ≤ m)%nat ∧ daemon_loop E N C j child_args s = (Ok tt, s') ∧ watching A' 0 s' ∧
    S (length (candidates A')) = length (candidates A).
Proof.
  revert k s. induction m as [|m IH]; intros k s Hm Hw Hne; [destruct Hw as (_ & _ & _ & _ & ? & _); lia|].
  destruct (run_latest_step A k s Hw Hne) as (s1 & Hr & [(A' & Hw' & Hlen)|(Hk & Hw')]).
  - exists 1%nat, A', s1. split_and!; [lia|by apply daemon_loop_1|done..].
  - destruct (IH (k + 1) s1) as (j & A' & s' & Hj & Hl & Hw2 & Hlen); [lia|done..|].
    exists (S j), A', s'. split_and!; [lia| |done..]. change (S j) with (1 + j)%nat.
    rewrite daemon_loop_app, (daemon_loop_1 s s1 Hr). done.
Qed.

Lemma abandon_all n A s :
  watching A 0 s → length (candidates A) = n →
  ∃ j A' s', (j ≤ 3 * n)%nat ∧ daemon_loop E N C j child_args s = (Ok tt, s') ∧ watching A' 0 s' ∧ candidates A' = [].
Proof.
  revert A s. induction n as [|n IH]; intros A s Hw Hn.
  { exists 0%nat, A, s. split_and!; [done..|]. by apply nil_length_inv. }
  destruct (abandon_one 3 A 0 s) as (j & A1 & s1 & Hj & Hl & Hw1 & Hlen); [lia|done|by intros Hnil; rewrite Hnil in Hn|].
  destruct (IH A1 s1 Hw1) as (j2 & A2 & s2 & Hj2 & Hl2 & Hw2 & Hnil); [lia|].
  exists (j + j2)%nat, A2, s2. split_and!; [lia| |done..]. by rewrite daemon_loop_app, Hl.
Qed.

Definition installed_command : json := JStr ("python -u " +:+ sys_argv0 C +:+ " -run-exthandlers").

Lemma run_installed A s cmds :
  watching A 0 s → candidates A = [] → split_command C installed_command child_args = Ok cmds →
  (∀ ls l, l_version l = None → ∃ c, popen C ls l = Ok c) →
  ∃ s' l, run_latest E N C child_args s = (Ok tt, s') ∧ d_launches s' = d_launches s ++ [l] ∧
    l_version l = None ∧ l_cmds l = cmds.
Proof.
  intros (Hd & Hp & Hr & _) Hnil Hs Hpo. destruct (latest_good _ _ Hd) as (L & o & Hl & Ho).
  destruct o as [a|]; [rewrite Hnil in Ho; by apply elem_of_nil in Ho|].
  set (l := mkLaunch None cmds (d_cwd C) (w_now (d_world s))). destruct (Hpo (d_launches s) l eq_refl) as [c Hc].
  unfold run_latest, mbind, M_bind, gets, lift, modify. rewrite Hp, Hauto, (Hl s eq_refl).
  unfold except, catch, start_child, mbind, M_bind, lift. fold installed_command. rewrite Hs.
  unfold evaluate_agent_health, mbind, M_bind, gets, modify.
  cbn [child_launch_time child_launch_attempts set_agents set_child d_world d_launches fmap option_fmap option_map]. fold l. rewrite Hc.
  unfold on_disk, zoom, watch. cbn [d_world set_process log_launch set_child set_agents].
  destruct (poll_loop poll_fuel (w_now (d_world s)) c (d_world s)) as [r w']. eexists _, l. by split_and!.
Qed.
End abandon.


(** A version that exits at once *)
Definition crashing_daemon : daemon_env :=
  mkDaemonEnv (agent_version [2; 8; 0; 0]) true true "/usr/bin/python3" "/usr/sbin/waagent" ["var"; "lib"; "waagent"] (λ _, "")
    (λ _ _, Ok (mkChild (seconds 1) 1 false id)).
Definition daemon_start : dstate := mkDState true [] None None 0 false [] (agent_world sample_manifest).
Definition loaded_agent : GuestAgent :=
  mkGuestAgent None (agent_version [2; 9; 0; 1]) cleared_error (JInt 0)
    (Some (match sample_manifest with JArr (x :: _) => x | j => j end)).

Lemma daemon_start_good : good_disk sample_env sample_numbers (agent_files sample_manifest) [loaded_agent].
Proof.
  split_and!.
  - vm_compute. reflexivity.
  - apply Forall_singleton. split_and!; try done.
    + repeat constructor; done.
    + by eexists.
  - apply NoDup_singleton.
  - intros a b ->%list_elem_of_singleton ->%list_elem_of_singleton. done.
Qed.


(** The time of the first start is kept as long as the version does not change: five minutes
    later the restarts of the version are no longer limited. *)
Lemma late_restarts_are_not_limited s a t :
  comparable (ga_version a) → child_agent s = Some a → child_launch_time s = Some t →
  t + seconds CHILD_LAUNCH_INTERVAL < w_now (d_world s) →
  evaluate_agent_health (Some a) s = (Ok tt, set_child (Some a) (Some t) (child_launch_attempts s + 1) s).
Proof.
  intros Hc Ha Ht Hlt. unfold evaluate_agent_health, mbind, M_bind, gets, lift, modify, when, mret, M_ret.
  assert (fv_ne (ga_version a) (ga_version a) = Ok false) as Hne.
  { unfold fv_ne. destruct (comparable_eq (ga_version a) (ga_version a) Hc Hc) as (c & -> & _ & Hce). cbn. by rewrite Hce by (by split). }
  rewrite Ha, Hne, Ha, Ht. cbn [from_option id]. by rewrite (proj2 (Z.leb_gt _ _)) by (unfold seconds in *; lia).
Qed.
