(* ===== verification/ExtReport.v ===== *)
(** * Reporting and cleaning up ([ExtHandlersHandler] of exthandlers.py)

    What happens around the loop of [ExtGoalState.v]: [run] takes the extensions of a goal
    state, processes them and removes the handlers the goal state no longer names;
    [report_ext_handlers_status] collects the status of each handler, with its heartbeat
    and the status files of its extensions, and sends them to the host;
    [migrate_handler_state] moves the state files of older agents.

    The reports of a goal state with unsupported features are about the handlers found on
    disk, the others about those of the goal state. *)
From S2P Require Import Timers Policy Prelude PyExn Json FlexVersion World Manifest RestApi ExtInstance.
From S2P Require Import Samples ExtVersion ExtCommands Download ExtStatus ExtHandlers ExtGoalState.
From Stdlib Require Import Ascii.

(** ** Names in the library directory *)

Definition AGENT_NAME_PREFIX : string := "WALinuxAgent-".

(** [version.is_agent_path]; a name [is_agent_package] accepts is accepted here too. *)
Definition is_agent_path (name : string) : bool := starts_with AGENT_NAME_PREFIX name.

(** [name[0:separator]] and [name[separator + 1:]] where [separator] is
    [name.rfind('-')]: without a dash the last character is lost. *)
Definition split_handler_name (name : string) : string * string :=
  match after_last_dash name with
  | Some v => (str_take (String.length name - String.length v - 1) name, v)
  | None => (str_take (String.length name - 1) name, name)
  end.

(** [re.match(HANDLER_NAME_PATTERN, name)] *)
Definition handler_name_match (name : string) : bool :=
  negb (String.eqb (span (λ c, negb (Ascii.eqb c "-")) name).1 "").

(** [re.match(_HANDLER_PKG_PATTERN, item)] *)
Definition handler_pkg_match (item : string) : bool :=
  let '(name, r) := span (λ c, negb (Ascii.eqb c "-")) item in
  match (if String.eqb name "" then None else strip_prefix "-" r) with
  | Some v => existsb (λ '(_, r), match strip_prefix ".zip" (str_lower r) with
                                  | Some e => Re.at_end e
                                  | None => false
                                  end) (version_group "." v)
  | None => false
  end.

(** [re.search("(?P<extname>\\w+)\\.\\d+\\.settings", s)]: the group of the leftmost match *)
Fixpoint search_extname (s : string) : option string :=
  let '(w, r) := span is_word s in
  match (if String.eqb w "" then None else strip_prefix "." r) with
  | Some r1 =>
      let '(d, r2) := span is_digit r1 in
      if negb (String.eqb d "") && starts_with ".settings" r2 then Some w
      else match s with EmptyString => None | String _ s' => search_extname s' end
  | None => match s with EmptyString => None | String _ s' => search_extname s' end
  end.

(** A name that matches the glob [*.*.settings]; a leading dot hides a file from a glob. *)
Definition settings_glob (x : string) : bool :=
  ends_with ".settings" x && negb (starts_with "." x) &&
  str_contains "." (str_take (String.length x - 9) x).

(** The first occurrences, for a set whose order does not matter *)
Fixpoint unique (l : list string) : list string :=
  match l with
  | [] => []
  | x :: l' => x :: filter (λ y, y ≠ x) (unique l')
  end.

(** ** The status report *)

(** One [ExtHandlerStatus] of the report.  [ri_extension] is [None] when no status was
    attached to it. *)
Record report_item := mkItem {
  ri_handler : ExtHandlerStatus;
  ri_extension : option ExtensionStatus
}.

(** [VMStatus], less what it says of the operating system.  [vs_update_status] is the
    [VMAgentUpdateStatus] as the agent's update reports it. *)
Record vm_status := mkVMStatus {
  vs_status : string;
  vs_message : string;
  vs_aggregate : option aggregate_status;
  vs_update_status : json;
  vs_fast_track : bool;
  vs_handlers : list report_item
}.

(** What the handler of extensions reads of a goal state *)
Record goal_state := mkGoalState {
  gs_extensions : list Extension;
  gs_on_hold : bool;
  gs_required_features : list string;
  gs_svd_sequence_number : string;
  gs_id : string
}.

Definition set_hs_status (v : json) (h : ExtHandlerStatus) : ExtHandlerStatus :=
  mkHandlerStatus (hs_name h) (hs_version h) v (hs_code h) (hs_message h)
    (hs_supports_multi_config h) (hs_extension_status h) (hs_signature_validated h).
Definition set_hs_message (v : json) (h : ExtHandlerStatus) : ExtHandlerStatus :=
  mkHandlerStatus (hs_name h) (hs_version h) (hs_status h) (hs_code h) v
    (hs_supports_multi_config h) (hs_extension_status h) (hs_signature_validated h).

(** [message += text]: a list takes the characters. *)
Definition add_text (message : json) (text : string) : res exn json :=
  match message with
  | JStr s => Ok (JStr (s +:+ text))
  | JArr l => Ok (JArr (l ++ ((λ c, JStr (String c "")) <$> String.list_ascii_of_string text)))
  | j => Err (py_error TypeError ("unsupported operand type(s) for +=: '" +:+ type_name j +:+ "' and 'str'"))
  end.

Section report.
Context (E : env).

(** *** Heartbeats *)

(** [is_responsive]: [int] truncates the seconds towards zero. *)
Definition is_responsive (now mtime : Z) : bool := Z.quot (now - mtime) 1000000 <=? 600.

Definition unresponsive : json :=
  JObj [("status", JStr "Unresponsive"); ("code", JInt (-1));
        ("message", JStr "Extension heartbeat is not responsive")].

(** [json.loads(heartbeat_json)[0]['heartbeat']] and its [except] clauses *)
Definition parse_heartbeat (c : content) : res exn json :=
  let r := match c_json c with
           | None => Err (py_error ValueError "Expecting value")
           | Some j => first ← index0 j; json_getitem "heartbeat" first
           end in
  match r with
  | Ok heartbeat => Ok heartbeat
  | Err e =>
      if isinstance e OSError then Err (agent_error ExtensionError ("Failed to get heartbeat file:" +:+ e_msg e) None (-1))
      else if isinstance e ValueError || isinstance e KeyError
      then Err (agent_error ExtensionError ("Malformed heartbeat file: " +:+ e_msg e) None (-1))
      else Err e
  end.

(** [collect_heartbeat]: [None] when the manifest does not ask for one *)
Definition collect_heartbeat : I (option json) :=
  man ← load_manifest E;
  reports ← lift (is_report_heartbeat man);
  if negb reports then mret None
  else
    heartbeat_file ← self (get_heartbeat_file E);
    f ← files id;
    now ← gets (λ s, w_now (s_world s));
    match f !! heartbeat_file with
    | Some (File c mtime) =>
        if negb (is_responsive now mtime) then mret (Some unresponsive)
        else heartbeat ← lift (parse_heartbeat c); mret (Some heartbeat)
    | _ => raise (agent_error ExtensionError "Failed to get heart beat file" None (-1))
    end.

(** What a heartbeat changes of the handler status: its status and message, or for a
    disallowed extension its message only.  The state of the computation is the status
    object, which keeps the assignments made before an exception. *)
Definition apply_heartbeat (ext_disallowed : bool) (heartbeat : json) : M ExtHandlerStatus exn unit :=
  when (negb ext_disallowed)
    (status ← lift (json_get "status" heartbeat); modify (set_hs_status status)) ;;
  has_message ← lift (json_in "formattedMessage" heartbeat);
  when has_message
    (formatted ← lift (json_get "formattedMessage" heartbeat);
     heartbeat_message ← lift (parse_formatted_message formatted);
     if ext_disallowed then
       h ← get_state;
       if is_null (hs_message h) then
         modify (set_hs_message (JStr
           ("Extension was not executed, but it was previously enabled and reported the following heartbeat:
" +:+ py_str heartbeat_message)))
       else
         m ← lift (add_text (hs_message h)
               (" Extension was previously enabled and reported the following heartbeat:
" +:+ py_str heartbeat_message));
         modify (set_hs_message m)
     else modify (set_hs_message heartbeat_message)).

(** The [try] block of [report_ext_handler_status]: the status object after it *)
Definition heartbeat_status (ext_disallowed : bool) (handler_status : ExtHandlerStatus) : I ExtHandlerStatus :=
  heartbeat ← except ExtensionError
    (h ← collect_heartbeat; mret (inl h))
    (λ e, mret (inr e));
  match heartbeat with
  | inl None => mret handler_status
  | inl (Some heartbeat) =>
      match apply_heartbeat ext_disallowed heartbeat handler_status with
      | (Ok _, h) => mret h
      | (Err e, h) =>
          if isinstance e ExtensionError
          then set_handler_status E ExtHandlerStatusValue.not_ready (e_msg e) (e_code e) ;; mret h
          else raise e
      end
  | inr e =>
      set_handler_status E ExtHandlerStatusValue.not_ready (e_msg e) (e_code e) ;; mret handler_status
  end.

(** *** Extensions of a handler *)

(** The status reported for one extension of a handler: [None] skips it, [inr] ends the
    loop *)
Definition extension_report (handler_status : ExtHandlerStatus) (ext : ExtensionSettings)
    : I (option report_item + unit) :=
  i ← self id;
  let multi := should_perform_multi_config_op i (Some ext) in
  on_vm ← (if multi && String.eqb (es_state ext) ExtensionState.Disabled
           then get_extension_state E (Some ext) else mret "");
  if multi && String.eqb (es_state ext) ExtensionState.Disabled && String.eqb on_vm ExtensionState.Disabled
  then mret (inl None)
  else
    match handler_status_of_json (handler_status_json handler_status) with
    | Err e =>
        if isinstance e Exception_ then
          set_handler_status E ExtHandlerStatusValue.not_ready
            ("Something went wrong when trying to get a copy of the Handler status for "
             +:+ get_extension_full_name i None) (-1) ;;
          mret (inr tt)
        else raise e
    | Ok copy =>
        except ExtensionError
          (ext_status ← collect_ext_status E (Some ext); mret (inl (Some (mkItem copy ext_status))))
          (λ error,
             if negb multi then
               set_handler_status E ExtHandlerStatusValue.not_ready (e_msg error) (e_code error) ;; mret (inr tt)
             else
               mret (inl (Some (mkItem copy (Some
                 (mkStatus (es_name ext) JNull JNull (JStr StatusValue.error) (es_sequenceNumber ext)
                    (JInt ErrorCodes.PluginUnknownFailure)
                    (JStr ("Unknown error when trying to fetch status from extension "
                           +:+ get_extension_full_name i (Some ext))) []))))))
    end.

Fixpoint extension_reports (handler_status : ExtHandlerStatus) (exts : list ExtensionSettings)
    : I (list report_item) :=
  match exts with
  | [] => mret []
  | ext :: exts' =>
      r ← extension_report handler_status ext;
      match r with
      | inr _ => mret []
      | inl None => extension_reports handler_status exts'
      | inl (Some item) => rest ← extension_reports handler_status exts'; mret (item :: rest)
      end
  end.

(** [get_extension_handler_statuses] *)
Definition get_extension_handler_statuses (handler_status : ExtHandlerStatus) : I (list report_item) :=
  exts ← self extensions; extension_reports handler_status exts.

(** [report_ext_handler_status]: what it appends to the report *)
Definition report_ext_handler_status (ext_disallowed : bool) : I (list report_item) :=
  handler_status ← get_handler_status E;
  match handler_status with
  | None => mret []
  | Some handler_status =>
      handler_state ← get_handler_state E;
      multi_config ← self supports_multi_config;
      let installed := negb (String.eqb handler_state ExtHandlerState.NotInstalled) in
      if installed || multi_config || ext_disallowed then
        handler_status ← (if installed then heartbeat_status ext_disallowed handler_status else mret handler_status);
        items ← get_extension_handler_statuses handler_status;
        mret (match items with [] => [mkItem handler_status None] | _ => items end)
      else mret [mkItem handler_status None]
  end.
End report.

(** ** Handlers on disk *)

Section handlers_on_disk.
Context (E : env).

Definition EVENTS_DIRECTORY : string := "events".
Definition ARCHIVE_DIRECTORY_NAME : string := "history".
Definition HANDLER_PKG_EXT : string := ".zip".

(** [list_agent_lib_directory]: the names; the path of each is in [lib_dir]. *)
Definition list_agent_lib_directory (skip_agent_package : bool) (ignore_names : list string) (f : fs) : list string :=
  filter (λ name, name ∉ ignore_names ∧ (skip_agent_package && is_agent_path name) = false)
    (listdir (lib_dir E) f).

(** [Extension(name=handler_name)] with a version; its requested state is [None]. *)
Definition bare_extension (name version : string) : Extension :=
  mkExtension name version "" [] [] false "" None.

(** [get_ext_handler_instance_from_path] *)
Definition get_ext_handler_instance_from_path (name : string) (skip_handlers : list string) (f : fs)
    : res exn (option inst) :=
  if negb (isdir (lib_dir E ++ [name]) f) || negb (handler_name_match name) then Ok None
  else
    let '(handler_name, version) := split_handler_name name in
    if bool_decide (handler_name ∈ skip_handlers) then Ok None
    else
      v ← FV version;
      i ← new_instance E (bare_extension handler_name (fv_str v)) f;
      Ok (Some i).

(** *** Clean-up *)

(** One entry of the first loop of [_cleanup_outdated_handlers]: a handler to remove, an
    orphaned package, or neither *)
Definition cleanup_entry (ext_handlers_in_gs : list string) (f : fs) (item : string) : res exn (option (inst + path)) :=
  match get_ext_handler_instance_from_path item ext_handlers_in_gs f with
  | Ok (Some i) => Ok (Some (inl i))
  | Err e => if isinstance e Exception_ then Ok None else Err e
  | Ok None =>
      let p := lib_dir E ++ [item] in
      if isfile p f && negb (isdir (lib_dir E ++ [str_take (String.length item - 4) item]) f) && handler_pkg_match item
      then Ok (Some (inr p)) else Ok None
  end.

Fixpoint cleanup_entries (ext_handlers_in_gs : list string) (f : fs) (items : list string)
    : res exn (list inst * list path) :=
  match items with
  | [] => Ok ([], [])
  | item :: items' =>
      r ← cleanup_entry ext_handlers_in_gs f item;
      '(handlers, pkgs) ← cleanup_entries ext_handlers_in_gs f items';
      Ok (match r with
          | Some (inl i) => (i :: handlers, pkgs)
          | Some (inr p) => (handlers, p :: pkgs)
          | None => (handlers, pkgs)
          end)
  end.

(** [os.remove] with its [except OSError] *)
Definition remove_quietly (p : path) : M world exn unit :=
  except OSError (remove_file (write_fault E) p) (λ _, mret tt).

(** Calling a method of an instance kept in a local variable *)
Definition call_on {A} (i : inst) (m : I A) : M world exn A := λ w,
  match m (mkIst i w) with (r, s) => (r, s_world s) end.

(** The last loop, for one handler *)
Definition remove_handler (i : inst) : M world exn unit :=
  call_on i (remove_ext_handler E) ;;
  let pkg := lib_dir E ++ [get_full_name i None +:+ HANDLER_PKG_EXT] in
  present ← gets (λ w, isfile pkg (w_fs w));
  when present (remove_quietly pkg).

(** The body of [_cleanup_outdated_handlers] *)
Definition cleanup_handlers (ext_handlers_in_gs : list string) : M world exn unit :=
  f ← gets w_fs;
  '(handlers, pkgs) ← lift (cleanup_entries ext_handlers_in_gs f (list_agent_lib_directory true [] f));
  for_each pkgs remove_quietly ;;
  for_each handlers remove_handler.

Definition last_gs_unsupported (a : option aggregate_status) : bool :=
  match a with
  | Some a => String.eqb (ag_status a) "Failed" &&
              (ag_code a =? AggregateCodes.GoalStateUnsupportedRequiredFeatures)
  | None => false
  end.

Definition on_g_world {A} (m : M world exn A) : GS A :=
  zoom g_world (λ w g, mkGst (g_handlers g) (g_disallowed g) (g_engine g) (g_aggregate g) w) m.

Definition cleanup_outdated_handlers : GS unit :=
  g ← get_state;
  if last_gs_unsupported (g_aggregate g) then mret tt
  else on_g_world (cleanup_handlers (eh_name <$> g_handlers g)).

(** *** The handlers to report after an unsupported goal state *)

(** The extensions of a handler on disk, from the names of its settings files *)
Definition extension_names (i : inst) (f : fs) : list string :=
  unique (omap (λ x, search_extname (path_str (get_conf_dir E i ++ [x])))
            (filter (λ x, settings_glob x = true) (listdir (get_conf_dir E i) f))).

Fixpoint settings_on_disk (i : inst) (f : fs) (names : list string) : res exn (list ExtensionSettings) :=
  match names with
  | [] => Ok []
  | name :: names' =>
      let ext seq := mkSettings name seq JNull JNull JNull 0 ExtensionState.Enabled in
      '(seq_no, _) ← get_status_file_path E i (Some (ext JNull)) f;
      rest ← settings_on_disk i f names';
      Ok (ext (JInt seq_no) :: rest)
  end.

Definition handler_on_disk (name : string) (f : fs) : res exn (option Extension) :=
  i ← get_ext_handler_instance_from_path name [] f;
  match i with
  | None => Ok None
  | Some i =>
      let e := ext_handler i in
      let found := extension_names i f in
      let multi := match found with [] => false | _ => true end in
      let e' := mkExtension (eh_name e) (eh_version e) (eh_state e) [] [] multi "" None in
      settings ← settings_on_disk (set_ext_handler e' i) f (match found with [] => [eh_name e] | _ => found end);
      Ok (Some (mkExtension (eh_name e) (eh_version e) (eh_state e) settings [] multi "" None))
  end.

(** [__get_handlers_on_file_system]: an entry that raises is left out. *)
Fixpoint handlers_on_disk (names : list string) (f : fs) : res exn (list Extension) :=
  match names with
  | [] => Ok []
  | name :: names' =>
      match handler_on_disk name f with
      | Err e => if isinstance e Exception_ then handlers_on_disk names' f else Err e
      | Ok None => handlers_on_disk names' f
      | Ok (Some e) => rest ← handlers_on_disk names' f; Ok (e :: rest)
      end
  end.

Definition get_handlers_on_file_system (f : fs) : res exn (list Extension) :=
  handlers_on_disk (list_agent_lib_directory true [EVENTS_DIRECTORY; ARCHIVE_DIRECTORY_NAME] f) f.

(** *** State files of older agents *)

(** [shutil.move] of a file: [os.rename], or a copy and [os.unlink] when it fails; both
    leave the file at its new place only. *)
Definition move_file (src dst : path) : M world exn unit :=
  copy2 (write_fault E) src dst ;; remove_file (write_fault E) src.

Definition migrate_file (handler_state_path : path) (handler file : string) : M world exn unit :=
  let from_path := handler_state_path ++ [handler; str_lower file] in
  let to_path := lib_dir E ++ [handler; "config"; "Handler" +:+ file] in
  f ← gets w_fs;
  when (isfile from_path f && negb (isfile to_path f))
    (except Exception_ (move_file from_path to_path) (λ _, mret tt)).

(** [migrate_handler_state]; the glob [*] leaves out the hidden names. *)
Definition migrate_handler_state : M world exn unit :=
  let handler_state_path := lib_dir E ++ ["handler_state"] in
  f ← gets w_fs;
  if negb (isdir handler_state_path f) then mret tt
  else
    for_each (filter (λ x, starts_with "." x = false) (listdir handler_state_path f))
      (λ handler,
         f ← gets w_fs;
         when (isdir (lib_dir E ++ [handler; "config"]) f)
           (for_each ["State"; "Status"] (migrate_file handler_state_path handler))) ;;
    except Exception_ (rmtree (write_fault E) handler_state_path) (λ _, mret tt).
End handlers_on_disk.

(** ** The handler of extensions *)

(** [h_started]: [ext_handlers] is no longer [None]; [h_reports]: what
    [report_vm_status] was called with, oldest first. *)
Record hst := mkHst {
  h_gs : gst;
  h_started : bool;
  h_error_state : ErrorState.ErrorState;
  h_reports : list vm_status
}.
#[local] Notation H A := (M hst exn A).

Definition on_gs {A} (m : GS A) : H A :=
  zoom h_gs (λ g h, mkHst g (h_started h) (h_error_state h) (h_reports h)) m.
Definition on_errors (f : Z → ErrorState.ErrorState → ErrorState.ErrorState) : H unit :=
  modify (λ h, mkHst (h_gs h) (h_started h) (f (w_now (g_world (h_gs h))) (h_error_state h)) (h_reports h)).

Section handler.
Context (E : env) (penv : policy_env).
Context (conf_ignore extensions_enabled : bool) (conf_file : string).
(** [conf.get_enable_overprovisioning()] and the features the agent supports *)
Context (overprovisioning : bool) (supported : list string).
(** [protocol.report_vm_status]: it may depend on the reports sent before. *)
Context (report_vm_status : list vm_status → vm_status → res exn unit).

(** The new [ext_handlers] of [run].  [_disallowed_ext_handlers] holds objects: those of
    the previous goal state are none of the new ones. *)
Definition take_extensions (gs : goal_state) : H unit :=
  modify (λ h, let g := h_gs h in
               mkHst (mkGst (gs_extensions gs) [] (g_engine g) (g_aggregate g) (g_world g)) true
                 (h_error_state h) (h_reports h)).

(** [run] for the goal state that [protocol.get_goal_state()] returns, or the error it
    raises; [copy.deepcopy] gives fresh objects *)
Definition run (goal : res exn goal_state) : H unit :=
  except Exception_
    (gs ← lift goal;
     take_extensions gs ;;
     if overprovisioning && gs_on_hold gs then mret tt
     else
       except Exception_
         (on_gs (process_and_handle_extensions E penv conf_ignore extensions_enabled conf_file
                   (gs_required_features gs) supported (gs_svd_sequence_number gs) (gs_id gs)) ;;
          on_gs (cleanup_outdated_handlers E))
         (λ _, mret tt))
    (λ _, mret tt).

(** The handlers of a report, with whether each is disallowed *)
Definition handlers_to_report (h : hst) : res exn (list (Extension * bool)) :=
  let g := h_gs h in
  if last_gs_unsupported (g_aggregate g) then
    l ← get_handlers_on_file_system E (w_fs (g_world g)); Ok (List.map (λ e, (e, false)) l)
  else if h_started h then Ok (imap (λ n (e : Extension), (e, bool_decide (n ∈ g_disallowed g))) (g_handlers g))
  else Ok [].

(** The loop over the handlers: an [ExtensionError] leaves a handler out. *)
Fixpoint collect_reports (l : list (Extension * bool)) : M world exn (list report_item) :=
  match l with
  | [] => mret []
  | (e, disallowed) :: l' =>
      items ← except ExtensionError
        (f ← gets w_fs; i ← lift (new_instance E e f); call_on i (report_ext_handler_status E disallowed))
        (λ _, mret []);
      rest ← collect_reports l'; mret (items ++ rest)
  end.

(** Sending a report *)
Definition send_report (v : vm_status) : H unit := λ h,
  (report_vm_status (h_reports h) v, mkHst (h_gs h) (h_started h) (h_error_state h) (h_reports h ++ [v])).

(** [report_ext_handlers_status]: [None] when an error occurred *)
Definition report_ext_handlers_status (update_status : json) (supports_fast_track : bool) : H (option vm_status) :=
  except Exception_
    (h ← get_state;
     to_report ← lift (handlers_to_report h);
     items ← on_gs (on_g_world (collect_reports to_report));
     let v := mkVMStatus "Ready" "Guest Agent is running" (g_aggregate (h_gs h)) update_status supports_fast_track items in
     except ProtocolError
       (send_report v ;; on_errors (λ _, ErrorState.reset))
       (λ _, on_errors ErrorState.incr) ;;
     h ← get_state;
     when (ErrorState.is_triggered (w_now (g_world (h_gs h))) (h_error_state h))
       (on_errors (λ _, ErrorState.reset)) ;;
     mret (Some v))
    (λ _, mret None).
End handler.

(** ** Names of handler directories *)

Lemma after_last_dash_app h v : no_dash v = true → after_last_dash (h +:+ "-" +:+ v) = Some v.
Proof.
  intros Hv.
  assert (after_last_dash v = None) as Hn.
  { clear h. induction v as [|c v IH]; [done|]. unfold no_dash in *. simpl in *.
    apply andb_true_iff in Hv as [Hc Hv]. rewrite IH by done. by apply negb_true_iff in Hc as ->. }
  induction h as [|c h IH]; [change ("" +:+ "-" +:+ v) with (String "-" v); cbn [after_last_dash]; by rewrite Hn|].
  rewrite string_app_cons. cbn [after_last_dash]. by rewrite IH.
Qed.

Lemma after_last_dash_no_dash x v : after_last_dash x = Some v → no_dash v = true.
Proof.
  assert (∀ y, after_last_dash y = None → no_dash y = true) as Hn.
  { induction y as [|c y IH]; [done|]. unfold no_dash in *. simpl.
    destruct (after_last_dash y); [done|]. destruct (Ascii.eqb c "-"); [done|]. by rewrite IH. }
  revert v. induction x as [|c x IH]; intros v; simpl; [done|].
  destruct (after_last_dash x) as [r|] eqn:Hr; [intros [= <-]; by apply IH|].
  destruct (Ascii.eqb c "-"); [|done]. intros [= <-]. by apply Hn.
Qed.

Lemma split_no_dash x : no_dash (split_handler_name x).2 = true.
Proof.
  unfold split_handler_name. destruct (after_last_dash x) as [v|] eqn:Hv; [by eapply after_last_dash_no_dash|].
  simpl. induction x as [|c x IH]; [done|]. simpl in Hv. destruct (after_last_dash x); [done|].
  unfold no_dash in *. simpl. destruct (Ascii.eqb c "-"); [done|]. by apply IH.
Qed.

Lemma str_take_app a b : str_take (String.length a) (a +:+ b) = a.
Proof. induction a as [|c a IH]; [by destruct b|]. rewrite string_app_cons. simpl. by rewrite IH. Qed.

Lemma split_full_name h v : no_dash v = true → split_handler_name (h +:+ "-" +:+ v) = (h, v).
Proof.
  intros Hv. unfold split_handler_name. rewrite after_last_dash_app by done. f_equal.
  rewrite !string_length_app. simpl.
  replace (String.length h + S (String.length v) - String.length v - 1)%nat with (String.length h) by lia.
  apply str_take_app.
Qed.

(** ** Clean-up *)

Section cleanup.
Context (E : env).

(** The tree under [d], when it is a directory, is as it was. *)
Definition keeps_dir (d : path) (w w' : world) : Prop :=
  isdir d (w_fs w) = true → ∀ p, d `prefix_of` p → w_fs w' !! p = w_fs w !! p.

#[export] Instance keeps_dir_preorder d : PreOrder (keeps_dir d).
Proof.
  split; [by intros w Hd p|]. intros w1 w2 w3 H1 H2 Hd p Hp. rewrite H2; [by apply H1| |done].
  unfold isdir in *. by rewrite H1.
Qed.

(** The path of an entry of the library directory *)
Notation lib x := (lib_dir E ++ [x]).

Lemma lib_prefix x y p : lib x `prefix_of` p → lib y `prefix_of` p → x = y.
Proof. intros [k ->] [k' Hk]. rewrite <-!app_assoc in Hk. by simplify_list_eq. Qed.

Lemma remove_file_keeps_dir x y : pres (keeps_dir (lib x)) (remove_file (write_fault E) (lib y)).
Proof.
  intros w Hd p Hp. unfold remove_file. destruct (isfile (lib y) (w_fs w)) eqn:Hf; [|done].
  destruct (write_fault E (lib y)) as [[]|]; [done|]. simpl. apply lookup_delete_ne. intros <-.
  assert (x = y) as -> by (by eapply lib_prefix). unfold isdir, isfile in *. by destruct (w_fs w !! lib y) as [[]|].
Qed.

Lemma rmtree_keeps_dir x y : x ≠ y → pres (keeps_dir (lib x)) (rmtree (write_fault E) (lib y)).
Proof.
  intros Hxy w Hd p Hp. unfold rmtree. destruct (isdir (lib y) (w_fs w)); [|done].
  destruct (write_fault E (lib y)) as [[]|]; [done|]. simpl. unfold remove_tree.
  destruct (w_fs w !! p) as [n|] eqn:Hn.
  - apply map_lookup_filter_Some. split; [done|]. simpl. intros Hy. apply Hxy. by eapply lib_prefix.
  - apply map_lookup_filter_None. by left.
Qed.

Lemma remove_quietly_keeps_dir x y : pres (keeps_dir (lib x)) (remove_quietly E (lib y)).
Proof.
  unfold remove_quietly. apply pres_except; [apply _| |intros ?; apply pres_ret; apply _]. apply remove_file_keeps_dir.
Qed.

(** A property of the machine that a method of an instance preserves *)
Lemma call_on_pres (R : relation world) {A} i (m : I A) :
  pres (λ s s', R (s_world s) (s_world s')) m → pres R (call_on i m).
Proof. intros H w. specialize (H (mkIst i w)). unfold call_on. by destruct (m (mkIst i w)) as [r s]. Qed.

Lemma wp_call_on {A} i (m : I A) Q R w :
  wp m (λ a s, Q a (s_world s)) (λ e s, R e (s_world s)) (mkIst i w) → wp (call_on i m) Q R w.
Proof. unfold wp, call_on. by destruct (m (mkIst i w)) as [[a|e] s]. Qed.

Lemma on_world_pres (R : relation world) {A} (m : M world exn A) :
  pres R m → pres (λ s s', R (s_world s) (s_world s')) (on_world m).
Proof. intros H [i w]. specialize (H w). unfold on_world, zoom. simpl. by destruct (m w) as [r w']. Qed.

Instance world_preorder (R : relation world) `{!PreOrder R} :
  PreOrder (λ s s' : ist, R (s_world s) (s_world s')).
Proof. split; [intros s; reflexivity|intros a b c ??; by etrans]. Qed.

Lemma remove_ext_handler_pres (R : relation world) `{!PreOrder R} i :
  pres R (remove_file (write_fault E) (lib (get_extension_package_zipfile_name i))) →
  pres R (rmtree (write_fault E) (lib (get_full_name i None))) →
  (∀ op t w, R w (log_event (ECgroup op t) w)) →
  pres R (call_on i (remove_ext_handler E)).
Proof.
  intros Hz Hd Hc.
  assert (∀ op t, pres (λ s s' : ist, R (s_world s) (s_world s')) (cgroup op t)) as Hcg
    by (intros; apply on_world_pres, pres_modify, Hc).
  intros w. unfold call_on, remove_ext_handler, self, mbind at 1, M_bind at 1, gets at 1, id. cbv beta iota zeta.
  match goal with |- context [except OSError ?m ?h ?st] =>
    assert (pres (λ s s' : ist, R (s_world s) (s_world s')) (except OSError m h)) as H
  end.
  { unfold files. pres_auto; try apply on_world_pres; done. }
  specialize (H (mkIst i w)). by destruct (except _ _ _ _) as [r s].
Qed.

(** The instances to remove are of handlers that the goal state does not name. *)
Lemma outdated_instance item names f i :
  get_ext_handler_instance_from_path E item names f = Ok (Some i) →
  ∃ v, no_dash v = true ∧ (split_handler_name item).1 ∉ names ∧
       get_full_name i None = (split_handler_name item).1 +:+ "-" +:+ v.
Proof.
  unfold get_ext_handler_instance_from_path. destruct (_ || _); [done|].
  pose proof (split_no_dash item) as Hd. destruct (split_handler_name item) as [h ver]. simpl in *.
  case_bool_decide as Hin; [done|]. destruct (FV ver) as [v|] eqn:Hv; [|done]. simpl.
  unfold new_instance. simpl. destruct (get_signature_validated _ _) as [sv|]; [|done]. simpl. intros [= <-].
  exists (fv_str v). split; [by eapply fv_str_no_dash|]. done.
Qed.

Lemma cleanup_entries_outdated names f items handlers pkgs :
  cleanup_entries E names f items = Ok (handlers, pkgs) →
  Forall (λ i, (split_handler_name (get_full_name i None)).1 ∉ names) handlers ∧
  Forall (λ p, ∃ y, p = lib y) pkgs.
Proof.
  revert handlers pkgs. induction items as [|item items IH]; intros handlers pkgs; simpl; [by intros [= <- <-]|].
  destruct (cleanup_entry E names f item) as [r|] eqn:Hr; [|done]. simpl.
  destruct (cleanup_entries E names f items) as [[hs ps]|]; [|done]. simpl.
  destruct (IH _ _ eq_refl) as [Hhs Hps]. unfold cleanup_entry in Hr.
  destruct (get_ext_handler_instance_from_path E item names f) as [[i|]|e] eqn:Hi.
  - injection Hr as <-. intros [= <- <-]. split; [|done]. constructor; [|done].
    apply outdated_instance in Hi as (v & Hv & Hn & ->). by rewrite split_full_name.
  - destruct (_ && _); injection Hr as <-; intros [= <- <-]; split; eauto.
  - destruct (isinstance e Exception_); [|done]. injection Hr as <-. by intros [= <- <-].
Qed.

(** Whatever the disk refuses, the directories of the handlers that are named stay. *)
Lemma cleanup_keeps_named names x :
  (split_handler_name x).1 ∈ names → pres (keeps_dir (lib x)) (cleanup_handlers E names).
Proof.
  intros Hx w. unfold cleanup_handlers, mbind, M_bind, gets, lift.
  destruct (cleanup_entries _ _ _ _) as [[handlers pkgs]|] eqn:He; [|reflexivity]. cbv beta iota.
  apply cleanup_entries_outdated in He as [Hh Hp].
  assert (∀ p, p ∈ pkgs → pres (keeps_dir (lib x)) (remove_quietly E p)) as Hpk.
  { intros p Hin. rewrite Forall_forall in Hp. destruct (Hp p Hin) as [y ->]. apply remove_quietly_keeps_dir. }
  assert (∀ i, i ∈ handlers → pres (keeps_dir (lib x)) (remove_handler E i)) as Hhk.
  { intros i Hin. rewrite Forall_forall in Hh. specialize (Hh i Hin). unfold remove_handler.
    assert (x ≠ get_full_name i None) as Hne by congruence.
    pres_auto; [|apply remove_quietly_keeps_dir].
    apply remove_ext_handler_pres; [apply _|apply remove_file_keeps_dir|by apply rmtree_keeps_dir|]. by intros op t w' Hd p. }
  apply (pres_bind (keeps_dir (lib x)) (for_each pkgs (remove_quietly E)) (λ _, for_each handlers (remove_handler E))).
  - apply pres_for_each_in; [apply _|exact Hpk].
  - intros _. apply pres_for_each_in; [apply _|exact Hhk].
Qed.

(** *** Completeness *)

Definition gone (d : path) (w : world) : Prop := ∀ p, d `prefix_of` p → w_fs w !! p = None.

(** Files only disappear, and the directory of an entry is there or has gone with all its
    contents. *)
Definition shrinks (x : string) (w w' : world) : Prop :=
  w_fs w' ⊆ w_fs w ∧
  (isdir (lib x) (w_fs w) = true ∨ gone (lib x) w → isdir (lib x) (w_fs w') = true ∨ gone (lib x) w').

#[export] Instance shrinks_preorder x : PreOrder (shrinks x).
Proof.
  split; [by intros w|]. intros w1 w2 w3 [H1 H1'] [H2 H2']. split; [by etrans|auto].
Qed.

Lemma gone_shrinks x w w' : shrinks x w w' → gone (lib x) w → gone (lib x) w'.
Proof. intros [Hs _] Hg p Hp. eapply lookup_weaken_None; [|exact Hs]. by apply Hg. Qed.

Lemma shrinks_keeps x w w' :
  w_fs w' ⊆ w_fs w → keeps_dir (lib x) w w' → shrinks x w w'.
Proof.
  intros Hs Hk. split; [done|]. intros [Hd|Hg].
  - left. unfold isdir. by rewrite (Hk Hd).
  - right. intros p Hp. eapply lookup_weaken_None; [by apply Hg|done].
Qed.

Lemma remove_file_subset y w : w_fs (remove_file (write_fault E) y w).2 ⊆ w_fs w.
Proof.
  unfold remove_file. destruct (isfile _ _); [|done]. destruct (write_fault E _) as [[]|]; [done|]. apply delete_subseteq.
Qed.

Lemma rmtree_subset y w : w_fs (rmtree (write_fault E) y w).2 ⊆ w_fs w.
Proof.
  unfold rmtree. destruct (isdir _ _); [|done]. destruct (write_fault E _) as [[]|]; [done|]. apply map_filter_subseteq.
Qed.

Lemma remove_file_shrinks x y : pres (shrinks x) (remove_file (write_fault E) (lib y)).
Proof. intros w. apply shrinks_keeps; [apply remove_file_subset|apply remove_file_keeps_dir]. Qed.

Lemma rmtree_gone y w : isdir (lib y) (w_fs w) = true → write_fault E (lib y) = None →
  gone (lib y) (rmtree (write_fault E) (lib y) w).2.
Proof.
  intros Hd Hf p Hp. unfold rmtree. rewrite Hd, Hf. simpl. apply map_lookup_filter_None. right.
  intros n _ H. by apply H.
Qed.

Lemma rmtree_shrinks x y : pres (shrinks x) (rmtree (write_fault E) (lib y)).
Proof.
  intros w. destruct (decide (x = y)) as [<-|Hne]; [|apply shrinks_keeps; [apply rmtree_subset|by apply rmtree_keeps_dir]].
  split; [apply rmtree_subset|]. intros H.
  destruct (isdir (lib x) (w_fs w)) eqn:Hd; [|destruct H; [done|]; unfold rmtree; rewrite Hd; by right].
  destruct (write_fault E (lib x)) as [[]|] eqn:Hf; [unfold rmtree; rewrite Hd, Hf; by left|].
  right. by apply rmtree_gone.
Qed.

Lemma remove_quietly_shrinks x y : pres (shrinks x) (remove_quietly E (lib y)).
Proof.
  unfold remove_quietly. apply pres_except; [apply _| |intros ?; apply pres_ret; apply _]. apply remove_file_shrinks.
Qed.

Lemma remove_handler_shrinks x i : pres (shrinks x) (remove_handler E i).
Proof.
  unfold remove_handler. pres_auto; [|apply remove_quietly_shrinks].
  apply remove_ext_handler_pres; [apply _|apply remove_file_shrinks|apply rmtree_shrinks|].
  by intros op t w; apply shrinks_keeps.
Qed.

Context (Hfault : ∀ p, write_fault E p = None).

Lemma no_disk_errors p b e : write_fault E p = Some (b, e) → isinstance e OSError = true.
Proof. by rewrite Hfault. Qed.

Lemma remove_quietly_total p : raises (λ _, False) (remove_quietly E p).
Proof.
  unfold remove_quietly. eapply raises_except; [apply (remove_file_os _ no_disk_errors)|intros e H H'; congruence|].
  intros e _ _. apply raises_ret.
Qed.

(** With a disk that takes every write, removing a handler removes its directory. *)
Lemma remove_ext_handler_removes i w :
  isdir (lib (get_extension_package_zipfile_name i)) (w_fs w) = false →
  isdir (lib (get_full_name i None)) (w_fs w) = true ∨ gone (lib (get_full_name i None)) w →
  ∃ w', call_on i (remove_ext_handler E) w = (Ok tt, w') ∧ gone (lib (get_full_name i None)) w'.
Proof.
  intros Hz Hd. set (x := get_full_name i None) in *. set (z := lib (get_extension_package_zipfile_name i)) in *.
  assert (∃ w1, when (exists_path z (w_fs w)) (remove_file (write_fault E) z) w = (Ok tt, w1) ∧ shrinks x w w1)
    as (w1 & Hw1 & Hs).
  { pose proof (remove_file_shrinks x (get_extension_package_zipfile_name i) w) as Hs. fold z in Hs.
    unfold exists_path, when. destruct (w_fs w !! z) as [[|c t]|] eqn:Hzf; [unfold isdir in Hz; by rewrite Hzf in Hz| |by exists w].
    assert (isfile z (w_fs w) = true) as Hf by (unfold isfile; by rewrite Hzf).
    unfold remove_file in *. rewrite Hf, Hfault in *. by eexists. }
  apply Hs in Hd. unfold call_on, remove_ext_handler, cgroup, get_base_dir. fold z x.
  unfold except, catch, mbind, M_bind, self, files, gets, id. cbv beta iota zeta. cbn [s_inst s_world]. fold x z.
  assert (∀ b m, when b (on_world m) (mkIst i w) =
    (λ r, (r.1, mkIst i r.2)) (when b m w)) as Hwhen.
  { intros [] m; [|done]. unfold when, on_world, zoom. simpl. by destruct (m w). }
  rewrite Hwhen, Hw1. cbn [fst snd s_world s_inst].
  destruct (isdir (lib x) (w_fs w1)) eqn:Hx.
  - eexists. unfold when, on_world, zoom, modify. cbn [s_world s_inst].
    pose proof (rmtree_gone x w1 Hx (Hfault _)) as Hg. unfold rmtree in *. rewrite Hx, Hfault in *.
    cbn [fst snd s_world s_inst]. split; [reflexivity|]. exact Hg.
  - destruct Hd as [Hd|Hg]; [done|]. eexists. split; [reflexivity|]. exact Hg.
Qed.

Lemma remove_handler_removes i w :
  isdir (lib (get_extension_package_zipfile_name i)) (w_fs w) = false →
  isdir (lib (get_full_name i None)) (w_fs w) = true ∨ gone (lib (get_full_name i None)) w →
  wp (remove_handler E i) (λ _ w', gone (lib (get_full_name i None)) w') (λ _ _, False) w.
Proof.
  intros Hz Hd. destruct (remove_ext_handler_removes i w Hz Hd) as (w1 & Hw & Hg).
  unfold remove_handler. apply wp_bind. unfold wp at 1. rewrite Hw. wp_step. wp_step.
  set (p := get_full_name i None +:+ HANDLER_PKG_EXT).
  apply wp_when; [|done]. intros _.
  pose proof (remove_quietly_shrinks (get_full_name i None) p w1) as Hs.
  pose proof (remove_quietly_total (lib p) w1) as Ht. unfold wp. fold p.
  destruct (remove_quietly E (lib p) w1) as [[[]|e] w2]; [by eapply gone_shrinks|]. by apply (Ht e).
Qed.

Lemma remove_handler_total i : raises (λ _, False) (remove_handler E i).
Proof.
  unfold remove_handler. apply raises_bind; [|intros []; raises_auto; apply remove_quietly_total].
  intros w e. unfold call_on.
  assert (raises (λ _, False) (remove_ext_handler E)) as Hr.
  { unfold remove_ext_handler, cgroup, on_world, self, files. apply raises_bind; [raises_auto|intros i'].
    apply (raises_except _ (λ e, isinstance e OSError = true)); [|intros; congruence|intros; apply raises_ret].
    apply raises_bind; [raises_auto|intros ?].
    apply raises_bind; [apply raises_when, raises_zoom, (remove_file_os _ no_disk_errors)|intros ?].
    apply raises_bind; [raises_auto|intros ?]. apply raises_bind; [apply raises_when|intros ?; raises_auto].
    apply (raises_except _ (λ e, isinstance e OSError = true)); [apply raises_zoom, (rmtree_os _ no_disk_errors)|done|].
    intros e' He' _. destruct (_ =? _); [apply raises_ret|by apply raises_raise]. }
  specialize (Hr (mkIst i w) e). by destruct (remove_ext_handler E _) as [r s].
Qed.

Lemma instance_from_path_ordinary item names f :
  fails_with ordinary (get_ext_handler_instance_from_path E item names f).
Proof. unfold get_ext_handler_instance_from_path. raises_auto. apply new_instance_ordinary. Qed.

Lemma cleanup_entries_total names f items : ∃ handlers pkgs, cleanup_entries E names f items = Ok (handlers, pkgs) ∧
  ∀ x i, x ∈ items → get_ext_handler_instance_from_path E x names f = Ok (Some i) → i ∈ handlers.
Proof.
  induction items as [|item items (hs & ps & IH & Hin)]; simpl; [do 2 eexists; split; [done|]; intros x i ?%elem_of_nil; done|].
  assert (∃ r, cleanup_entry E names f item = Ok r ∧
    ∀ i, get_ext_handler_instance_from_path E item names f = Ok (Some i) → r = Some (inl i)) as (r & Hr & Hi).
  { unfold cleanup_entry. pose proof (instance_from_path_ordinary item names f) as Ho.
    destruct (get_ext_handler_instance_from_path E item names f) as [[i|]|e].
    - eexists. split; [done|]. by intros ? [= <-].
    - destruct (_ && _); by eexists.
    - pose proof (Ho e eq_refl) as Hoe. unfold ordinary in Hoe. rewrite Hoe. by eexists. }
  rewrite Hr, IH. simpl.
  assert (∀ (handlers : list inst) (pkgs : list path), (∀ i, r = Some (inl i) → i ∈ handlers) → (∀ i, i ∈ hs → i ∈ handlers) →
    ∃ handlers0 pkgs0, (Ok (handlers, pkgs) : res exn _) = Ok (handlers0, pkgs0) ∧
      ∀ x i, x ∈ item :: items → get_ext_handler_instance_from_path E x names f = Ok (Some i) → i ∈ handlers0) as Hgo.
  { intros handlers pkgs H1 H2. do 2 eexists. split; [done|]. intros x i [->|Hx]%elem_of_cons Hxi; [by apply H1, Hi|].
    by eapply H2, Hin. }
  destruct r as [[i|p]|]; apply Hgo; set_solver.
Qed.

(** With a disk that takes every write, an entry whose handler is to be removed is gone. *)
Lemma cleanup_removes_outdated names x i w :
  x ∈ list_agent_lib_directory E true [] (w_fs w) →
  get_ext_handler_instance_from_path E x names (w_fs w) = Ok (Some i) → get_full_name i None = x →
  isdir (lib (get_extension_package_zipfile_name i)) (w_fs w) = false →
  wp (cleanup_handlers E names) (λ _ w', gone (lib x) w') (λ _ _, False) w.
Proof.
  intros Hx Hi Hfull Hz.
  destruct (cleanup_entries_total names (w_fs w) (list_agent_lib_directory E true [] (w_fs w))) as (hs & ps & He & Hin).
  assert (isdir (lib x) (w_fs w) = true) as Hd.
  { unfold get_ext_handler_instance_from_path in Hi. by destruct (isdir (lib x) (w_fs w)). }
  specialize (Hin x i Hx Hi). apply cleanup_entries_outdated in He as Hps. destruct Hps as [_ Hps].
  unfold cleanup_handlers. wp_step. wp_step. wp_step. unfold wp at 1, lift. rewrite He. cbv beta iota. wp_step.
  apply (wp_for_each _ _ (λ _ w', shrinks x w w')); [reflexivity| |intros w1 Hw1].
  - intros dn p rest w1 -> Hw1. apply Forall_app in Hps as [_ [[y ->] _]%Forall_cons].
    pose proof (remove_quietly_shrinks x y w1) as Hs. pose proof (remove_quietly_total (lib y) w1) as Ht.
    unfold wp. destruct (remove_quietly E (lib y) w1) as [[[]|e] w2]; [by etrans|by apply (Ht e)].
  - apply (wp_for_each _ _ (λ dn w', shrinks x w w' ∧ (i ∈ dn → gone (lib x) w'))).
    + split; [done|]. by intros ?%elem_of_nil.
    + intros dn i' rest w2 _ [Hw2 Hg]. pose proof (remove_handler_shrinks x i' w2) as Hs.
      pose proof (remove_handler_total i' w2) as Ht.
      assert (i' = i → wp (remove_handler E i') (λ _ w', gone (lib x) w') (λ _ _, False) w2) as Hrm.
      { intros ->. rewrite <-Hfull. apply remove_handler_removes; rewrite ?Hfull.
        - apply not_true_iff_false. intros Hzd. apply not_true_iff_false in Hz. apply Hz.
          unfold isdir in *. destruct Hw2 as [Hsub _].
          destruct (w_fs w2 !! _) as [n|] eqn:Hn; [|done]. by rewrite (lookup_weaken _ _ _ _ Hn Hsub).
        - apply Hw2. by left. }
      unfold wp in *. destruct (remove_handler E i' w2) as [[[]|e] w3]; [|by apply (Ht e)].
      split; [by etrans|]. intros [Hdn|<-%list_elem_of_singleton]%elem_of_app; [|by apply Hrm].
      by eapply gone_shrinks; [|apply Hg].
    + intros w2 [_ Hg]. by apply Hg.
Qed.

End cleanup.

(** C31: removing outdated handlers leaves alone, whatever the disk refuses, the directory
    tree of every handler that the goal state names, and everything after a goal state with
    unsupported features; and with a disk that takes every write it ends normally and
    leaves nothing of a directory [<name>-<version>] whose handler the goal state does not
    name. *)
Theorem cleanup_removes_only_outdated (E : env) (g : gst) :
  (∀ x, last_gs_unsupported (g_aggregate g) = true ∨ (split_handler_name x).1 ∈ eh_name <$> g_handlers g →
     keeps_dir (lib_dir E ++ [x]) (g_world g) (g_world (cleanup_outdated_handlers E g).2)) ∧
  ((∀ p, write_fault E p = None) → last_gs_unsupported (g_aggregate g) = false →
   ∀ x i, x ∈ list_agent_lib_directory E true [] (w_fs (g_world g)) →
     get_ext_handler_instance_from_path E x (eh_name <$> g_handlers g) (w_fs (g_world g)) = Ok (Some i) →
     get_full_name i None = x →
     isdir (lib_dir E ++ [get_extension_package_zipfile_name i]) (w_fs (g_world g)) = false →
     wp (cleanup_outdated_handlers E) (λ _ g', gone (lib_dir E ++ [x]) (g_world g')) (λ _ _, False) g).
Proof.
  split.
  - intros x Hx. unfold cleanup_outdated_handlers, get_state, mbind, M_bind, gets, id.
    destruct (last_gs_unsupported _); [reflexivity|]. destruct Hx as [|Hx]; [done|].
    pose proof (cleanup_keeps_named E _ x Hx (g_world g)) as Hk. unfold on_g_world, zoom.
    by destruct (cleanup_handlers E _ _) as [r w].
  - intros Hfault Hl x i Hx Hi Hn Hz. unfold cleanup_outdated_handlers. wp_step. wp_step. unfold id. rewrite Hl.
    unfold on_g_world. wp_step. by eapply cleanup_removes_outdated.
Qed.

(** ** What is reported of a handler *)

Definition same_inst (s s' : ist) : Prop := s_inst s' = s_inst s.

#[export] Instance same_inst_preorder : PreOrder same_inst.
Proof. unfold same_inst. split; [by intros s|]. intros a b c H1 H2. congruence. Qed.

Lemma on_world_same_inst {A} (m : M world exn A) : pres same_inst (on_world m).
Proof. intros s. unfold on_world, zoom, same_inst. by destruct (m (s_world s)). Qed.

Lemma set_handler_status_same_inst E st m c : pres same_inst (set_handler_status E st m c).
Proof. unfold set_handler_status, self, files. pres_auto; apply on_world_same_inst. Qed.

(** The fields of a handler status that a heartbeat leaves alone; a heartbeat changes the
    status only when it may. *)
Definition reflects (ext_disallowed : bool) (h h' : ExtHandlerStatus) : Prop :=
  hs_name h' = hs_name h ∧ hs_version h' = hs_version h ∧ hs_code h' = hs_code h ∧
  hs_supports_multi_config h' = hs_supports_multi_config h ∧
  hs_signature_validated h' = hs_signature_validated h ∧
  (ext_disallowed = true → hs_status h' = hs_status h).

#[export] Instance reflects_preorder d : PreOrder (reflects d).
Proof. unfold reflects. split; [by intros h|]. intros a b c. naive_solver congruence. Qed.

Lemma apply_heartbeat_reflects d heartbeat : pres (reflects d) (apply_heartbeat d heartbeat).
Proof.
  assert (∀ v, pres (reflects d) (modify (set_hs_message v) : M _ exn unit)) as Hm
    by (intros v; apply pres_modify; intros h; unfold reflects; simpl; auto 10).
  unfold apply_heartbeat. apply pres_bind; [apply _| |intros _; unfold get_state; pres_auto; apply Hm].
  destruct d; [apply pres_ret; apply _|]. cbn [negb]. unfold when. pres_auto.
  apply pres_modify. intros h. unfold reflects. simpl. split_and!; done.
Qed.

Lemma heartbeat_status_reflects E d h s :
  wp (heartbeat_status E d h) (λ h' s', reflects d h h' ∧ same_inst s s') (λ _ _, True) s.
Proof.
  unfold heartbeat_status. apply wp_bind.
  apply (wp_mono _ (λ _ s', same_inst s s') _ (λ _ _, True)).
  - eapply wp_mono; [apply (pres_wp same_inst)|done..].
    unfold collect_heartbeat, load_manifest, self, files. pres_auto.
  - intros r s1 Hs1.
    assert (∀ st m c h', reflects d h h' →
      wp (set_handler_status E st m c ;; mret h') (λ h' s', reflects d h h' ∧ same_inst s s') (λ _ _, True) s1) as Hset.
    { intros st m c h' Hh'. wp_step. eapply wp_mono; [apply (pres_wp same_inst), set_handler_status_same_inst|..]; [|done].
      intros [] s2 Hs2. wp_step. split; [done|]. by etrans. }
    destruct r as [[heartbeat|]|e]; [|by wp_step|by apply Hset].
    pose proof (apply_heartbeat_reflects d heartbeat h) as Hr.
    destruct (apply_heartbeat d heartbeat h) as [[[]|e] h'] eqn:Ha; simpl in Hr; [by wp_step|].
    destruct (isinstance e ExtensionError); [by apply Hset|by wp_step].
  - done.
Qed.

Lemma parse_ext_status_name data : pres (λ x x', xs_name x' = xs_name x) (parse_ext_status data).
Proof.
  assert (PreOrder (λ x x' : ExtensionStatus, xs_name x' = xs_name x)) as Hpre
    by (split; [by intros x|intros a b c H1 H2; congruence]).
  unfold parse_ext_status. pres_auto; by apply pres_modify.
Qed.

Lemma parsed_status_name i x seq_no p t j xs :
  parsed_status i x seq_no p t j = Ok xs → xs_name xs = es_name x.
Proof.
  unfold parsed_status. pose proof (parse_ext_status_name j (new_ext_status (es_name x) (JInt seq_no))) as Hn.
  destruct (parse_ext_status j _) as [r xs0]. simpl in Hn.
  set (r' := match r with Ok _ => _ | Err e => _ end). destruct r' as [?|e]; [by intros [= <-]|].
  destruct (isinstance e ExtensionStatusError); [|done].
  destruct (_ =? _); [|destruct (_ =? _); by intros [= <-]].
  destruct (unpack_truncated _) as [[m n]|]; [|done]. simpl.
  destruct (process_substatus_list _ _); [|done]. by intros [= <-].
Qed.

Lemma collect_ext_status_named E x s :
  wp (collect_ext_status E (Some x))
    (λ r s', same_inst s s' ∧ ∀ xs, r = Some xs → xs_name xs = es_name x) (λ _ s', same_inst s s') s.
Proof.
  unfold collect_ext_status. wp_step. wp_step. wp_step. wp_step. wp_step. wp_step; [|done].
  destruct a as [seq_no file]. wp_step; [by wp_step|]. wp_step.
  apply (wp_mono _ (λ r s', same_inst s s' ∧
    match r with inr xs => xs_name xs = es_name x | inl _ => True end) _ (λ _ s', same_inst s s')); [|intros r s1 [Hs1 Hr]|done].
  - wp_step. wp_step. eapply wp_mono; [apply (pres_wp same_inst), on_world_same_inst|..].
    + intros [t j] s1 Hs1. by wp_step.
    + intros e s1 Hs1. split; [|done]. intros _. wp_step. split; [done|].
      unfold unreadable_status, set_xs_error. by repeat case_match.
  - destruct r as [[t j]|xs]; [|wp_step; split; [done|]; by intros ? [= <-]].
    wp_step. wp_step; [|done]. wp_step. split; [done|]. intros ? [= <-].
    by eapply parsed_status_name.
Qed.

(** The report of one extension *)
Lemma extension_report_named E h ext s :
  wp (extension_report E h ext)
    (λ r s', same_inst s s' ∧
       ∀ item, r = inl (Some item) → ri_handler item = h ∧
         ∀ xs, ri_extension item = Some xs → xs_name xs = es_name ext)
    (λ _ s', same_inst s s') s.
Proof.
  unfold extension_report. wp_step. wp_step. wp_step.
  apply (wp_mono _ (λ _ s', s' = s) _ (λ _ s', s' = s)).
  { wp_step; [|by wp_step]. apply wp_pure; [apply get_extension_state_pure|done..]. }
  - intros on_vm ? ->. wp_step; [by wp_step|]. rewrite handler_status_roundtrip. wp_step. wp_step.
    eapply wp_mono; [apply collect_ext_status_named|..].
    + intros r s1 [Hs1 Hr]. wp_step. split; [done|]. intros item [= <-]. split; [done|]. exact Hr.
    + intros e s1 Hs1. split; [|done]. intros _. wp_step.
      * wp_step. eapply wp_mono; [apply (pres_wp same_inst), set_handler_status_same_inst|..].
        -- intros [] s2 Hs2. wp_step. split; [exact (transitivity Hs1 Hs2)|done].
        -- intros e' s2 Hs2. exact (transitivity Hs1 Hs2).
      * wp_step. split; [done|]. intros item [= <-]. split; [done|]. by intros xs [= <-].
  - by intros e ? ->.
Qed.

Lemma extension_reports_named E h exts s :
  wp (extension_reports E h exts)
    (λ items s', Forall (λ item, ri_handler item = h) items ∧ (length items ≤ length exts)%nat ∧
       omap (λ item, xs_name <$> ri_extension item) items `sublist_of` es_name <$> exts)
    (λ _ _, True) s.
Proof.
  revert s. induction exts as [|ext exts IH]; intros s; cbn [extension_reports]; [by wp_step|].
  wp_step. eapply wp_mono; [apply extension_report_named|..]; [|done].
  intros [[item|]|[]] s1 [_ Hi].
  - wp_step. eapply wp_mono; [apply IH|..]; [|done]. intros items s2 (Hf & Hl & Hs). wp_step.
    destruct (Hi item eq_refl) as [Hh Hn]. split; [by constructor|]. split; [simpl; lia|].
    simpl. destruct (ri_extension item) as [xs|]; simpl; [|by constructor].
    rewrite (Hn xs eq_refl). by constructor.
  - eapply wp_mono; [apply IH|..]; [|done]. intros items s2 (Hf & Hl & Hs). split; [done|]. split; [simpl; lia|].
    simpl. by constructor.
  - wp_step. split; [done|]. split; [simpl; lia|]. apply sublist_nil_l.
Qed.

(** The report of a handler follows its status file.  A handler without one is not
    reported; any other is reported at least once, with one entry at most for each of its
    extensions, in their order and under their names, and every entry has the name,
    version, code and signature of the status file.  A heartbeat may replace the status of
    the handler, but never that of a disallowed one. *)
Theorem handler_report_reflects_status (E : env) (disallowed : bool) (s : ist) :
  wp (report_ext_handler_status E disallowed)
    (λ items _,
       match read_handler_status (get_conf_dir E (s_inst s)) (w_fs (s_world s)) with
       | Ok None => items = []
       | Ok (Some h) =>
           items ≠ [] ∧ Forall (λ item, reflects disallowed h (ri_handler item)) items ∧
           (length items ≤ Nat.max 1 (length (extensions (s_inst s))))%nat ∧
           omap (λ item, xs_name <$> ri_extension item) items `sublist_of` es_name <$> extensions (s_inst s)
       | Err _ => False
       end)
    (λ _ _, True) s.
Proof.
  unfold report_ext_handler_status, get_handler_status. wp_step. wp_step. wp_step. wp_step. wp_step. wp_step; [|done].
  unfold id in *. rewrite H. destruct a as [h|]; [|by wp_step]. wp_step.
  apply wp_pure; [apply get_handler_state_pure| |done]. intros state. wp_step. wp_step.
  assert (∀ h', reflects disallowed h h' →
    [mkItem h' None] ≠ [] ∧ Forall (λ item, reflects disallowed h (ri_handler item)) [mkItem h' None] ∧
    (length [mkItem h' None] ≤ Nat.max 1 (length (extensions (s_inst s))))%nat ∧
    omap (λ item, xs_name <$> ri_extension item) [mkItem h' None] `sublist_of` es_name <$> extensions (s_inst s)) as Hone.
  { intros h' Hh'. split; [done|]. split; [constructor; [exact Hh'|constructor]|]. split; [simpl; lia|]. apply sublist_nil_l. }
  wp_step; [|wp_step; by apply Hone].
  wp_step. apply (wp_mono _ (λ h' s', reflects disallowed h h' ∧ same_inst s s') _ (λ _ _, True)).
  { wp_step; [apply heartbeat_status_reflects|by wp_step]. }
  - intros h' s1 [Hh' Hs1]. wp_step. unfold get_extension_handler_statuses. wp_step. wp_step. rewrite Hs1.
    eapply wp_mono; [apply extension_reports_named|..]; [|done]. intros items s2 (Hf & Hl & Hsub). wp_step.
    destruct items as [|item items]; [by apply Hone|]. split; [done|]. split; [|split; [simpl in *; lia|done]].
    eapply Forall_impl; [exact Hf|]. by intros it ->.
  - done.
Qed.

(** ** Processing a goal state *)

Section run.
Context (E : env) (penv : policy_env) (conf_ignore extensions_enabled : bool) (conf_file : string).
Context (overprovisioning : bool) (supported : list string).

Definition unsupported_features (gs : goal_state) : list string :=
  filter (λ f, f ∉ supported) (gs_required_features gs).

(** The aggregate status of a goal state that was processed *)
Definition outcome_of (gs : goal_state) (a : option aggregate_status) : Prop :=
  ∃ code msg,
    a = Some (mkAggregate (if code =? AggregateCodes.Success then "Success" else "Failed")
                (gs_svd_sequence_number gs) code msg) ∧
    (unsupported_features gs ≠ [] ↔ code = AggregateCodes.GoalStateUnsupportedRequiredFeatures) ∧
    code ∈ [AggregateCodes.Success; AggregateCodes.GoalStateUnknownFailure;
            AggregateCodes.GoalStateUnsupportedRequiredFeatures].

Lemma process_outcome gs g :
  wp (process_and_handle_extensions E penv conf_ignore extensions_enabled conf_file
        (gs_required_features gs) supported (gs_svd_sequence_number gs) (gs_id gs))
    (λ _ g', outcome_of gs (g_aggregate g') ∧ (unsupported_features gs ≠ [] → g_world g' = g_world g))
    (λ e _, ¬ ordinary e) g.
Proof.
  unfold process_and_handle_extensions. wp_step. fold (unsupported_features gs).
  assert (∀ (P : Prop) code msg g', (unsupported_features gs ≠ [] → P) →
    (unsupported_features gs ≠ [] ↔ code = AggregateCodes.GoalStateUnsupportedRequiredFeatures) →
    code ∈ [AggregateCodes.Success; AggregateCodes.GoalStateUnknownFailure;
            AggregateCodes.GoalStateUnsupportedRequiredFeatures] →
    outcome_of gs (g_aggregate (set_aggregate (Some (mkAggregate (if code =? AggregateCodes.Success then "Success" else "Failed")
      (gs_svd_sequence_number gs) code msg)) g')) ∧ (unsupported_features gs ≠ [] → P)) as Hset.
  { intros P code msg g' HP Hc Hin. split; [|done]. by do 2 eexists. }
  destruct (unsupported_features gs) as [|u us] eqn:Hu.
  - wp_step. apply (wp_mono _ (λ _ _, True) _ (λ _ _, True)); [unfold wp; by destruct (handle_ext_handlers _ _ _ _ _ _) as [[]]|..].
    + intros [] g1 _. wp_step. apply (Hset _ AggregateCodes.Success); [done|split; [done|discriminate]|set_solver].
    + intros e g1 _. split; [|unfold ordinary; congruence]. intros _. wp_step.
      apply (Hset _ AggregateCodes.GoalStateUnknownFailure); [done|split; [done|discriminate]|set_solver].
  - wp_step. apply (Hset _ AggregateCodes.GoalStateUnsupportedRequiredFeatures); [done|done|set_solver].
Qed.

Lemma cleanup_aggregate g : g_aggregate (cleanup_outdated_handlers E g).2 = g_aggregate g.
Proof.
  unfold cleanup_outdated_handlers, get_state, mbind, M_bind, gets, id, on_g_world, zoom.
  destruct (last_gs_unsupported _); [done|]. by destruct (cleanup_handlers _ _ _).
Qed.

End run.

(** ** On a machine with two extensions *)

Definition beat_base : path := ["var"; "lib"; "waagent"; "Acme.Beat-1.0.0"].

Definition beat_manifest : json :=
  JArr [JObj [("version", JFloat "1.0");
              ("handlerManifest", JObj [("enableCommand", JStr "bin/enable"); ("reportHeartbeat", JBool true)])]].

Definition ready_status (name version : string) : content :=
  json_content (handler_status_json
    (mkHandlerStatus (JStr name) (JStr version) (JStr "Ready") (JInt 0) (JStr "ok") (JBool false) JNull (JBool false))).

(** Two enabled extensions; the second one has the given heartbeat file. *)
Definition two_extensions (heartbeat : json) : fs :=
  list_to_map [(["var"; "lib"; "waagent"], Dir);
               (sample_base, Dir); (sample_base ++ ["config"], Dir);
               (sample_base ++ ["config"; "HandlerState"], File (plain "Enabled") 0);
               (sample_base ++ ["config"; "HandlerStatus"], File (ready_status "Acme.Sample" "1.1.0") 0);
               (sample_base ++ ["HandlerManifest.json"], File (json_content sample_manifest) 0);
               (beat_base, Dir); (beat_base ++ ["config"], Dir);
               (beat_base ++ ["config"; "HandlerState"], File (plain "Enabled") 0);
               (beat_base ++ ["config"; "HandlerStatus"], File (ready_status "Acme.Beat" "1.0.0") 0);
               (beat_base ++ ["HandlerManifest.json"], File (json_content beat_manifest) 0);
               (beat_base ++ ["heartbeat.log"], File (json_content heartbeat) 0)].

Definition two_handlers (heartbeat : json) : hst :=
  mkHst (mkGst [mkExtension "Acme.Sample" "1.1.0" "enabled" [] [] false "" None;
                mkExtension "Acme.Beat" "1.0.0" "enabled" [] [] false "" None] []
           (Policy.init_engine Policy.broken_env) None (mkWorld (two_extensions heartbeat) 1000000 [] false))
    true (ErrorState.init ErrorState.ERROR_STATE_DELTA_DEFAULT) [].

Definition report_status (heartbeat : json) : option (list (json * json)) * nat :=
  let '(r, h) := report_ext_handlers_status sample_env (λ _ _, Ok tt) JNull false (two_handlers heartbeat) in
  (match r with
   | Ok (Some v) => Some ((λ item, (hs_name (ri_handler item), hs_status (ri_handler item))) <$> vs_handlers v)
   | _ => None
   end, length (h_reports h)).

(** A heartbeat is part of the report, and one that is malformed is reported as such. *)
Example heartbeat_is_reported :
  report_status (JArr [JObj [("heartbeat", JObj [("status", JStr "Resting")])]]) =
    (Some [(JStr "Acme.Sample", JStr "Ready"); (JStr "Acme.Beat", JStr "Resting")], 1%nat) ∧
  report_status (JObj []) = (Some [(JStr "Acme.Sample", JStr "Ready"); (JStr "Acme.Beat", JStr "Ready")], 1%nat).
Proof. split; vm_compute; reflexivity. Qed.

(** An extension whose heartbeat file holds an empty list, or whose heartbeat is not an
    object, keeps the status of every extension from being reported: [IndexError],
    [TypeError] and [AttributeError] are none of the exceptions that are handled. *)
Example malformed_heartbeat_drops_the_report :
  report_status (JArr []) = (None, 0%nat) ∧ report_status (JArr [JObj [("heartbeat", JStr "up")]]) = (None, 0%nat).
Proof. split; vm_compute; reflexivity. Qed.

(** The second extension is no longer in the goal state. *)
Definition outdated_state : gst :=
  mkGst [mkExtension "Acme.Sample" "1.1.0" "enabled" [] [] false "" None] []
    (Policy.init_engine Policy.broken_env) None (mkWorld (two_extensions (JArr [])) 1000000 [] false).

Lemma cleanup_removes_only_outdated_witness :
  keeps_dir sample_base (g_world outdated_state) (g_world (cleanup_outdated_handlers sample_env outdated_state).2) ∧
  wp (cleanup_outdated_handlers sample_env) (λ _ g', gone beat_base (g_world g')) (λ _ _, False) outdated_state.
Proof.
  destruct (cleanup_removes_only_outdated sample_env outdated_state) as [H1 H2]. split.
  - apply (H1 "Acme.Sample-1.1.0"). right. apply (bool_decide_unpack _). vm_compute. exact Logic.I.
  - apply (H2 (λ _, eq_refl) eq_refl "Acme.Beat-1.0.0" (mkInst (bare_extension "Acme.Beat" "1.0.0") None None None (JBool false) false)).
    + apply (bool_decide_unpack _). vm_compute. exact Logic.I.
    + vm_compute. reflexivity.
    + reflexivity.
    + vm_compute. reflexivity.
Defined.
