(* ===== verification/StatusBlob.v ===== *)
(** * The status of the machine and its upload (common/protocol/wire.py, hostplugin.py)

    The status is a JSON document that is written to a blob, as one block or in pages, through
    the host plugin or directly.  The uploads are written over an interface, the operation
    that sends one request to the storage service; it is implemented by the HTTP client
    ([Http]) and by the host plugin ([HostPlugin]), and the theorems run it on a model of the
    storage service itself.

    The document is ASCII ([json.dumps]), so a character of it is a byte. *)
From S2P Require Import Prelude PyExn FlexVersion Json Urls TextUtil Timers World RestApi ExtInstance ExtGoalState ExtReport AgentUpdate VmSettings Http HealthService HostPlugin.
From Stdlib Require Import Ascii.

(** ** The document *)

(** [redact_sas_token], on any value *)
Definition redact_message (msg : json) : res exn json :=
  match msg with
  | JNull => Ok JNull
  | JStr s => Ok (JStr (redact_sas_token s))
  | _ => Err (py_error TypeError "expected string or bytes-like object")
  end.

(** [__get_formatted_msg_for_status_reporting] *)
Definition formatted_msg (msg : json) : res exn json :=
  m ← redact_message msg; Ok (JObj [("lang", JStr "en-US"); ("message", m)]).

(** What [VMAgentStatus] says of the machine *)
Record machine := mkMachine {
  mc_hostname : string;
  mc_osname : string;
  mc_osversion : string;
  mc_version : string
}.

Definition ga_status_to_guest_info (m : machine) : json :=
  JObj [("computerName", JStr (mc_hostname m)); ("osName", JStr (mc_osname m)); ("osVersion", JStr (mc_osversion m));
        ("version", JStr (mc_version m))].

Definition get_ga_update_status_to_v1 (u : json) : res exn json :=
  version ← json_getitem "expected_version" u;
  status ← json_getitem "status" u;
  code ← json_getitem "code" u;
  message ← json_getitem "message" u;
  msg ← formatted_msg message;
  Ok (JObj [("expectedVersion", version); ("status", status); ("code", code); ("formattedMessage", msg)]).

Definition ga_status_to_v1 (m : machine) (v : vm_status) : res exn json :=
  msg ← formatted_msg (JStr (vs_message v));
  let fields := [("version", JStr (mc_version m)); ("status", JStr (vs_status v)); ("formattedMessage", msg)] in
  if is_null (vs_update_status v) then Ok (JObj fields)
  else u ← get_ga_update_status_to_v1 (vs_update_status v); Ok (JObj (fields ++ [("updateStatus", u)])).

Fixpoint ext_substatus_to_v1 (l : list ExtensionSubStatus) : res exn (list json) :=
  match l with
  | [] => Ok []
  | s :: l' =>
      msg ← formatted_msg (ss_message s);
      rest ← ext_substatus_to_v1 l';
      Ok (JObj [("name", ss_name s); ("status", ss_status s); ("code", ss_code s); ("formattedMessage", msg)] :: rest)
  end.

(** [timestamp] is the text of the current time. *)
Definition ext_status_to_v1 (timestamp : string) (x : ExtensionStatus) : res exn json :=
  sub ← ext_substatus_to_v1 (xs_substatusList x);
  msg ← formatted_msg (xs_message x);
  let status := [("name", JStr (xs_name x)); ("configurationAppliedTime", xs_configurationAppliedTime x);
                 ("operation", xs_operation x); ("status", xs_status x); ("code", xs_code x); ("formattedMessage", msg)] in
  let status := match sub with [] => status | _ => status ++ [("substatus", JArr sub)] end in
  Ok (JObj [("status", JObj status); ("version", JFloat "1.0"); ("timestampUTC", JStr timestamp)]).

Definition ext_handler_status_to_v1 (timestamp : string) (item : report_item) : res exn json :=
  let h := ri_handler item in
  let fields := [("handlerVersion", hs_version h); ("handlerName", hs_name h); ("status", hs_status h); ("code", hs_code h);
                 ("useExactVersion", JBool true)] in
  fields ← (if is_null (hs_message h) then Ok fields
            else msg ← formatted_msg (hs_message h); Ok (fields ++ [("formattedMessage", msg)]));
  match ri_extension item with
  | None => Ok (JObj fields)
  | Some x =>
      st ← ext_status_to_v1 timestamp x;
      let settings := [("settingsStatus", st); ("sequenceNumber", xs_sequenceNumber x)] in
      let settings := if truthy (hs_supports_multi_config h) then settings ++ [("extensionName", JStr (xs_name x))] else settings in
      Ok (JObj (fields ++ [("runtimeSettingsStatus", JObj settings)]))
  end.

(** [processed] is the text of the time the goal state was processed at. *)
Definition vm_artifacts_aggregate_status_to_v1 (processed : string) (a : option aggregate_status) : res exn json :=
  match a with
  | None => Ok JNull
  | Some a =>
      msg ← formatted_msg (JStr (ag_message a));
      Ok (JObj [("goalStateAggregateStatus",
                 JObj [("formattedMessage", msg); ("timestampUTC", JStr processed); ("inSvdSeqNo", JStr (ag_seq_no a));
                       ("status", JStr (ag_status a)); ("code", JInt (ag_code a))])])
  end.

(** [get_agent_supported_features_list_for_crp] *)
Definition supported_features_for_crp (auto_update ga_versioning : bool) : list (string * string) :=
  [("MultipleExtensionsPerHandler", "1.0")] ++ if auto_update && ga_versioning then [("VersioningGovernance", "1.0")] else [].

Definition vm_status_to_v1 (m : machine) (timestamp processed : string) (auto_update ga_versioning : bool) (v : vm_status) : res exn json :=
  ga ← ga_status_to_v1 m v;
  aggregate ← vm_artifacts_aggregate_status_to_v1 processed (vs_aggregate v);
  handlers ← map_res (ext_handler_status_to_v1 timestamp) (vs_handlers v);
  let agg := [("guestAgentStatus", ga); ("handlerAggregateStatus", JArr handlers)] in
  let agg := if is_null aggregate then agg else agg ++ [("vmArtifactsAggregateStatus", aggregate)] in
  let features := supported_features_for_crp auto_update ga_versioning ++ if vs_fast_track v then [("FastTrack", "1.0")] else [] in
  let doc := [("version", JStr "1.1"); ("timestampUTC", JStr timestamp); ("aggregateStatus", JObj agg);
              ("guestOSInfo", ga_status_to_guest_info m)] in
  Ok (JObj (match features with
            | [] => doc
            | l => doc ++ [("supportedFeatures", JArr ((λ '(k, x), JObj [("Key", JStr k); ("Value", JStr x)]) <$> l))]
            end)).

(** ** [StatusBlob] *)

Definition storage_version : string := "2014-02-14".
Notation headers := (list (string * string)).

Definition get_block_blob_headers (date : string) (blob_size : Z) : headers :=
  [("Content-Length", pretty blob_size); ("x-ms-blob-type", "BlockBlob"); ("x-ms-date", date); ("x-ms-version", storage_version)].
Definition get_page_blob_create_headers (date : string) (blob_size : Z) : headers :=
  [("Content-Length", "0"); ("x-ms-blob-content-length", pretty blob_size); ("x-ms-blob-type", "PageBlob"); ("x-ms-date", date);
   ("x-ms-version", storage_version)].
Definition get_page_blob_page_headers (date : string) (start end_ : Z) : headers :=
  [("Content-Length", pretty (end_ - start)); ("x-ms-date", date);
   ("x-ms-range", "bytes=" +:+ pretty start +:+ "-" +:+ pretty (end_ - 1)); ("x-ms-page-write", "update");
   ("x-ms-version", storage_version)].

(** [int((n + 511) / 512) * 512] *)
Definition align512 (n : Z) : Z := (n + 511) / 512 * 512.
Definition page_max : Z := 4 * 1024 * 1024.
Definition len (s : chars) : Z := Z.of_nat (length s).
Definition sub (s : chars) (a b : Z) : chars := take (Z.to_nat (b - a)) (drop (Z.to_nat a) s).
Definition fill (c : ascii) (n : Z) : chars := replicate (Z.to_nat n) c.
Definition nul : ascii := ascii_of_nat 0.
Definition blank : ascii := " "%char.

(** ["{0}?comp=page"] or ["{0}&comp=page"] *)
Definition page_url (url : string) : string := url +:+ (if count_char "?"%char url <=? 0 then "?comp=page" else "&comp=page").

Section upload.
(** Sending one request to the storage service: the URL, the headers and the content *)
Context {S : Type} (put : string → headers → option chars → M S exn response).
(** [report_status_health] of the host plugin *)
Context (report_status_health : bool → string → M S exn unit).
(** The text of the current time *)
Context (date : string).

Definition upload_error (msg : string) : exn := agent_error UploadError msg None (-1).

(** *** Directly *)

(** [put_block_blob] *)
Definition put_block_blob (url : string) (data : chars) : M S exn unit :=
  resp ← put url (get_block_blob_headers date (len data)) (Some data);
  if r_status resp =? 201 then mret tt else raise (upload_error ("Failed to upload block blob: " +:+ pretty (r_status resp))).

(** The loop of [put_page_blob] *)
Fixpoint put_pages (fuel : nat) (url : string) (data : chars) (start end_ : Z) : M S exn unit :=
  match fuel with
  | O => mret tt
  | Datatypes.S fuel' =>
      if end_ <? len data then
        let end_ := Z.min (len data) (start + page_max) in
        let content_size := end_ - start in
        let page_end := align512 end_ in
        let buf_size := page_end - start in
        let buf := sub data start end_ ++ fill nul (buf_size - content_size) in
        resp ← put url (get_page_blob_page_headers date start page_end) (Some buf);
        if r_status resp =? 201 then put_pages fuel' url data end_ end_
        else raise (upload_error ("Failed to upload page blob: " +:+ pretty (r_status resp)))
      else mret tt
  end.

(** [put_page_blob] *)
Definition put_page_blob (url : string) (data : chars) : M S exn unit :=
  resp ← put url (get_page_blob_create_headers date (align512 (len data))) (Some []);
  if r_status resp =? 201 then put_pages (Datatypes.S (length data)) (page_url url) data 0 0
  else raise (upload_error ("Failed to clean up page blob: " +:+ pretty (r_status resp))).

(** [upload] *)
Definition upload (blob_type : string) (url : string) (data : chars) : M S exn bool :=
  except Exception_
    ((if String.eqb blob_type "BlockBlob" then put_block_blob url data
      else if String.eqb blob_type "PageBlob" then put_page_blob url data
      else raise (protocol_error ("Illegal blob type: " +:+ blob_type))) ;;
     mret true)
    (λ _, mret false).

(** *** Through the host plugin *)

(** What both uploads do with a response *)
Definition check_response (resp : response) (msg : string) : M S exn unit :=
  if request_failed resp OK_CODES then
    let error_response := read_response_error resp in
    report_status_health (negb (request_failed_at_hostplugin resp HOSTPLUGIN_UPSTREAM_FAILURE_CODES)) error_response ;;
    raise (upload_failed (msg +:+ error_response))
  else mret tt.

(** [_put_block_blob_status] *)
Definition put_block_blob_status (sas_url : string) (data : chars) : M S exn unit :=
  resp ← put sas_url (get_block_blob_headers date (len data)) (Some data);
  check_response resp "HostGAPlugin: Put BlockBlob failed: " ;;
  report_status_health true "".

(** The loop of [_put_page_blob_status] *)
Fixpoint put_status_pages (fuel : nat) (sas_url : string) (status : chars) (start : Z) : M S exn unit :=
  match fuel with
  | O => mret tt
  | Datatypes.S fuel' =>
      if start <? len status then
        let end_ := start + Z.min (len status - start) MAXIMUM_PAGEBLOB_PAGE_SIZE in
        let page_size := align512 (end_ - start) in
        let buf := sub status start end_ ++ fill nul (page_size - (end_ - start)) in
        resp ← put sas_url (get_page_blob_page_headers date start end_) (Some buf);
        check_response resp ("HostGAPlugin Error: Put PageBlob bytes [" +:+ pretty start +:+ "," +:+ pretty end_ +:+ "]: ") ;;
        put_status_pages fuel' sas_url status end_
      else mret tt
  end.

(** [_put_page_blob_status]: [ljust] counts characters, which are bytes here. *)
Definition put_page_blob_status (sas_url : string) (data : chars) : M S exn unit :=
  let status_size := align512 (len data) in
  let status := data ++ fill blank (status_size - len data) in
  resp ← put sas_url (get_page_blob_create_headers date status_size) None;
  check_response resp "HostGAPlugin: Failed PageBlob clean-up: " ;;
  report_status_health true "" ;;
  put_status_pages (Datatypes.S (length status)) (page_url sas_url) status 0.

(** What [put_vm_status] does when the plugin is available *)
Definition put_status (blob_type : string) (sas_url : string) (data : chars) : M S exn unit :=
  if String.eqb blob_type "BlockBlob" then put_block_blob_status sas_url data else put_page_blob_status sas_url data.
End upload.

(** ** The storage service

    A blob and what the service makes of a request, as its documentation has it: creating a
    page blob gives zeros; a page has to be aligned, inside the blob, as long as its range
    says and at most 4 MB; everything else is refused. *)

Definition num (s : string) : option Z := match py_int s with Ok n => Some n | Err _ => None end.

Definition parse_range (s : string) : option (Z * Z) :=
  r ← strip_prefix "bytes=" s;
  match partition_at "-"%char r with
  | (a, Some z) => a ← num a; z ← num z; Some (a, z)
  | _ => None
  end.

Definition serve (b : chars) (url : string) (h : headers) (data : chars) : option chars :=
  match dict_get "x-ms-blob-type" h with
  | Some t =>
      if String.eqb t "BlockBlob" then
        n ← dict_get "Content-Length" h ≫= num; if n =? len data then Some data else None
      else if String.eqb t "PageBlob" then
        n ← dict_get "x-ms-blob-content-length" h ≫= num; if n mod 512 =? 0 then Some (fill nul n) else None
      else None
  | None =>
      '(a, z) ← dict_get "x-ms-range" h ≫= parse_range;
      n ← dict_get "Content-Length" h ≫= num;
      if ends_with "comp=page" url && bool_decide (dict_get "x-ms-page-write" h = Some "update") &&
         (a mod 512 =? 0) && ((z + 1) mod 512 =? 0) && (a <=? z) && (z <? len b) && (len data =? z + 1 - a) && (n =? len data) &&
         (len data <=? 4194304)
      then Some (take (Z.to_nat a) b ++ data ++ drop (Z.to_nat (z + 1)) b)
      else None
  end.

(** The service as an implementation of the interface, with the blob as its state *)
Definition storage_put (url : string) (h : headers) (content : option chars) : M chars exn response := λ b,
  match serve b url h (default [] content) with
  | Some b' => (Ok (mkResponse 201 "Created" [] (Some "")), b')
  | None => (Ok (mkResponse 400 "Bad Request" [] (Some "")), b)
  end.

Lemma num_pretty n : 0 ≤ n → num (pretty n) = Some n.
Proof. intros H. unfold num. by rewrite py_int_pretty. Qed.

Lemma parse_range_text a z : 0 ≤ a → 0 ≤ z → parse_range ("bytes=" +:+ pretty a +:+ "-" +:+ pretty z) = Some (a, z).
Proof.
  intros Ha Hz. unfold parse_range. rewrite strip_prefix_app. simpl. unfold partition_at.
  change ("-" +:+ pretty z) with (String "-" (pretty z)). rewrite span_stop; [|by apply pretty_no_dash|done].
  simpl. by rewrite !num_pretty.
Qed.

(** *** Pages *)

Lemma fill_app c n m : 0 ≤ n → 0 ≤ m → fill c n ++ fill c m = fill c (n + m).
Proof. intros Hn Hm. unfold fill. by rewrite <- replicate_add, Z2Nat.inj_add. Qed.

Lemma len_fill c n : 0 ≤ n → len (fill c n) = n.
Proof. intros Hn. unfold len, fill. rewrite length_replicate. lia. Qed.

Lemma len_app s t : len (s ++ t) = len s + len t.
Proof. unfold len. rewrite length_app. lia. Qed.

Lemma len_sub s a b : 0 ≤ a ≤ b → b ≤ len s → len (sub s a b) = b - a.
Proof. unfold len, sub. intros Ha Hb. rewrite length_take, length_drop. lia. Qed.

Lemma take_sub s a b : 0 ≤ a ≤ b → take (Z.to_nat a) s ++ sub s a b = take (Z.to_nat b) s.
Proof.
  intros H. unfold sub. rewrite take_take_drop. f_equal. lia.
Qed.

Lemma align512_spec n : 0 ≤ n → n ≤ align512 n < n + 512 ∧ align512 n mod 512 = 0.
Proof. unfold align512. intros H. split; [Z.to_euclidean_division_equations; lia|by apply Z.mod_mul]. Qed.

Lemma align512_aligned n : n mod 512 = 0 → align512 n = n.
Proof. unfold align512. intros H. Z.to_euclidean_division_equations; lia. Qed.

Lemma align512_le n m : n ≤ m → m mod 512 = 0 → align512 n ≤ m.
Proof. unfold align512. intros H1 H2. Z.to_euclidean_division_equations; lia. Qed.

(** A blob whose first [s] bytes are written *)
Definition written (data : chars) (size s : Z) : chars := take (Z.to_nat s) data ++ fill nul (size - s).

Lemma len_written data size s : 0 ≤ s ≤ len data → s ≤ size → len (written data size s) = size.
Proof.
  unfold written, len. intros H1 H2. rewrite length_app, length_take. unfold fill. rewrite length_replicate. lia.
Qed.

(** Writing the page from [s] to [e], filled up to [pe] *)
Lemma write_page data size s e pe :
  0 ≤ s ≤ e → e ≤ len data → e ≤ pe ≤ size →
  take (Z.to_nat s) (written data size s) ++ (sub data s e ++ fill nul (pe - e)) ++ drop (Z.to_nat pe) (written data size s) =
  written data size e.
Proof.
  unfold written. intros Hs He Hp. assert (Hl : length (take (Z.to_nat s) data) = Z.to_nat s) by (unfold len in He; rewrite length_take; lia).
  rewrite take_app_le, take_ge by lia. rewrite drop_app_ge by lia. rewrite Hl. unfold fill at 2. rewrite drop_replicate.
  replace (Z.to_nat (size - s) - (Z.to_nat pe - Z.to_nat s))%nat with (Z.to_nat (size - pe)) by lia.
  fold (fill nul (size - pe)). rewrite <- app_assoc, fill_app by lia. rewrite app_assoc, take_sub by lia.
  by replace (pe - e + (size - pe)) with (size - e) by lia.
Qed.

Lemma ends_page_url url : ends_with "comp=page" (page_url url) = true.
Proof.
  unfold page_url. assert (H : ∀ t, ends_with t (url +:+ String "?" t) = true ∧ ends_with t (url +:+ String "&" t) = true); [|by case_match; apply H].
  intros t. 
  assert (Hend : ∀ c, ends_with t (url +:+ String c t) = true); [|by split].
  intros c. unfold ends_with. rewrite string_length_app. cbn [String.length]. rewrite bool_decide_eq_true_2 by lia. simpl andb.
  apply String.eqb_eq. replace (String.length url + Datatypes.S (String.length t) - String.length t)%nat with (Datatypes.S (String.length url)) by lia.
  clear. induction url as [|x url IH]; [simpl|].
  - induction t as [|y t IH]; [done|]. simpl. by f_equal.
  - rewrite string_app_cons. cbn [String.substring String.length]. exact IH.
Qed.

(** The service takes an aligned page. *)
Lemma serve_page date url data size s e pe :
  0 ≤ s < e → e ≤ len data → e ≤ pe ≤ size → s mod 512 = 0 → pe mod 512 = 0 → pe - s ≤ 4194304 →
  serve (written data size s) (page_url url) (get_page_blob_page_headers date s pe) (sub data s e ++ fill nul (pe - e)) =
  Some (written data size e).
Proof.
  intros Hs He Hp Hm1 Hm2 Hmax. unfold serve, get_page_blob_page_headers. cbn [dict_get String.eqb Ascii.eqb Bool.eqb].
  simpl dict_get. cbn [mbind option_bind]. rewrite parse_range_text, num_pretty by lia. cbn [mbind option_bind].
  assert (Hl : len (sub data s e ++ fill nul (pe - e)) = pe - s) by (rewrite len_app, len_sub, len_fill by lia; lia).
  rewrite Hl, ends_page_url, len_written by lia. replace (pe - 1 + 1) with pe by lia. rewrite Hm1, Hm2, !Z.eqb_refl.
  rewrite (proj2 (Z.leb_le s (pe - 1))), (proj2 (Z.ltb_lt (pe - 1) size)), (proj2 (Z.leb_le (pe - s) 4194304)) by lia.
  simpl andb. cbn iota. f_equal. apply write_page; lia.
Qed.

Lemma wp_storage_put url h content b b' (Q : response → chars → Prop) R :
  serve b url h (default [] content) = Some b' → Q (mkResponse 201 "Created" [] (Some "")) b' → wp (storage_put url h content) Q R b.
Proof. intros H HQ. unfold wp, storage_put. by rewrite H. Qed.

Lemma put_pages_spec date url fuel data s :
  0 ≤ s ≤ len data → (s mod 512 = 0 ∨ s = len data) → len data - s < Z.of_nat fuel →
  wp (put_pages storage_put date fuel (page_url url) data s s)
    (λ _ b, b = written data (align512 (len data)) (len data)) (λ _ _, False) (written data (align512 (len data)) s).
Proof.
  revert s. induction fuel as [|fuel IH]; intros s Hs Hm Hf; [lia|]. cbn [put_pages]. unfold page_max. change (4 * 1024 * 1024) with 4194304.
  destruct (align512_spec (len data)) as [Hsize _]; [unfold len; lia|].
  destruct (Z.ltb_spec s (len data)) as [Hlt|Hge]; [|apply wp_ret; by replace (len data) with s at 3 by lia].
  destruct Hm as [Hm|?]; [|lia]. set (e := Z.min (len data) (s + 4194304)).
  assert (He : s < e ≤ len data) by (subst e; lia). assert (Hmax : (s + 4194304) mod 512 = 0) by (Z.to_euclidean_division_equations; lia).
  destruct (align512_spec e) as [Hpe Hpem]; [lia|]. pose proof (align512_le e (s + 4194304) ltac:(subst e; lia) Hmax) as Hpe2.
  assert (Hpe3 : align512 e ≤ align512 (len data)) by (apply align512_le; [lia|apply align512_spec; unfold len; lia]).
  assert (Hem : e mod 512 = 0 ∨ e = len data) by (subst e; destruct (Z.min_spec (len data) (s + 4194304)) as [[_ ->]|[_ ->]]; auto).
  apply wp_bind. eapply wp_storage_put.
  - replace (align512 e - s - (e - s)) with (align512 e - e) by lia. apply serve_page; lia.
  - cbn iota. change (201 =? 201) with true. cbn iota. apply IH; [lia|done|lia].
Qed.

Lemma put_status_pages_spec date url fuel status s health :
  0 ≤ s ≤ len status → s mod 512 = 0 → len status mod 512 = 0 → len status - s < Z.of_nat fuel →
  wp (put_status_pages storage_put health date fuel (page_url url) status s)
    (λ _ b, b = written status (len status) (len status)) (λ _ _, False) (written status (len status) s).
Proof.
  revert s. induction fuel as [|fuel IH]; intros s Hs Hm Hl Hf; [lia|]. cbn [put_status_pages]. unfold MAXIMUM_PAGEBLOB_PAGE_SIZE.
  change (4 * 1024 * 1024) with 4194304.
  destruct (Z.ltb_spec s (len status)) as [Hlt|Hge]; [|apply wp_ret; by replace (len status) with s at 3 by lia].
  set (n := Z.min (len status - s) 4194304). assert (Hn : 0 < n ≤ len status - s) by (subst n; lia).
  assert (Hnm : n mod 512 = 0) by (subst n; destruct (Z.min_spec (len status - s) 4194304) as [[_ ->]|[_ ->]]; [|done];
    Z.to_euclidean_division_equations; lia).
  assert (Hem : (s + n) mod 512 = 0) by (Z.to_euclidean_division_equations; lia).
  replace (s + n - s) with n by lia. rewrite (align512_aligned n Hnm). apply wp_bind. eapply wp_storage_put.
  - replace (n - n) with (s + n - (s + n)) by lia. apply serve_page; lia.
  - apply wp_bind, wp_ret. apply IH; [lia|done..|lia].
Qed.

Lemma written_0 data size : written data size 0 = fill nul size.
Proof. unfold written. by rewrite Z.sub_0_r. Qed.

Lemma written_all data size : written data size (len data) = data ++ fill nul (size - len data).
Proof. unfold written, len. by rewrite Nat2Z.id, firstn_all. Qed.

Lemma serve_create date url size b : 0 ≤ size → size mod 512 = 0 →
  serve b url (get_page_blob_create_headers date size) [] = Some (fill nul size).
Proof. intros H0 H. unfold serve. simpl dict_get. cbn. rewrite num_pretty by done. cbn. by rewrite H. Qed.

Lemma serve_block date url data b : serve b url (get_block_blob_headers date (len data)) data = Some data.
Proof. unfold serve. simpl dict_get. cbn. rewrite num_pretty by (unfold len; lia). cbn. by rewrite Z.eqb_refl. Qed.

Lemma wp_runs (m : M chars exn unit) b b' : wp m (λ _ x, x = b') (λ _ _, False) b → m b = (Ok tt, b').
Proof. unfold wp. destruct (m b) as [[[]|e] x]; [by intros ->|done]. Qed.

Lemma put_page_blob_runs date url data b :
  put_page_blob storage_put date url data b = (Ok tt, data ++ fill nul (align512 (len data) - len data)).
Proof.
  apply wp_runs. destruct (align512_spec (len data)) as [H1 H2]; [unfold len; lia|]. unfold put_page_blob. apply wp_bind.
  eapply wp_storage_put; [apply serve_create; unfold len in *; lia|]. cbn iota. change (201 =? 201) with true. cbn iota.
  rewrite <- (written_0 data (align512 (len data))), <- (written_all data (align512 (len data))). apply put_pages_spec; [unfold len; lia|by left|unfold len; lia].
Qed.

Lemma put_page_blob_status_runs date url data b health :
  (∀ ok msg b, health ok msg b = (Ok tt, b)) →
  put_page_blob_status storage_put health date url data b = (Ok tt, data ++ fill blank (align512 (len data) - len data)).
Proof.
  intros Hh. apply wp_runs. destruct (align512_spec (len data)) as [H1 H2]; [unfold len; lia|]. unfold put_page_blob_status.
  set (status := data ++ fill blank (align512 (len data) - len data)).
  assert (Hl : len status = align512 (len data)) by (subst status; rewrite len_app, len_fill by lia; lia).
  apply wp_bind. eapply wp_storage_put; [apply serve_create; unfold len in *; lia|]. apply wp_bind, wp_ret, wp_bind.
  unfold wp at 1. rewrite Hh, <- (written_0 status (align512 (len data))), <- Hl.
  eapply wp_mono; [apply put_status_pages_spec; [unfold len; lia|done|by rewrite Hl|unfold len; lia]| |done].
  intros _ x ->. by rewrite written_all, Z.sub_diag, app_nil_r.
Qed.

(** The blob that an upload leaves *)
Definition stored (pad : ascii) (blob_type : string) (data : chars) : chars :=
  if String.eqb blob_type "BlockBlob" then data else data ++ fill pad (align512 (len data) - len data).


(** ** The implementations *)

(** [call_storage_service(restutil.http_put, url, data, headers)]: through the proxy, if one is
    configured *)
Definition call_storage_service (HE : http_env) (url : string) (h : headers) (content : option chars) : M hstate exn response :=
  http_put HE url (implode <$> content) (Some h) true None None DELAY_IN_SECONDS 10.

(** [base64.b64encode] *)
Definition b64_alphabet : string := "ABCDEFGHIJKLMNOPQRSTUVWXYZabcdefghijklmnopqrstuvwxyz0123456789+/".
Definition b64_char (n : Z) : ascii := default "="%char (String.get (Z.to_nat n) b64_alphabet).
Fixpoint base64_encode (data : chars) : chars :=
  match data with
  | [] => []
  | [a] => let n := code a * 65536 in [b64_char (n / 262144); b64_char (n / 4096 mod 64); "="%char; "="%char]
  | [a; b] =>
      let n := code a * 65536 + code b * 256 in
      [b64_char (n / 262144); b64_char (n / 4096 mod 64); b64_char (n / 64 mod 64); "="%char]
  | a :: b :: c :: rest =>
      let n := code a * 65536 + code b * 256 + code c in
      b64_char (n / 262144) :: b64_char (n / 4096 mod 64) :: b64_char (n / 64 mod 64) :: b64_char (n mod 64) :: base64_encode rest
  end.

(** [_build_status_data]: the keys are sorted. *)
Definition build_status_data (sas_url : string) (h : headers) (content : option chars) : string :=
  json_dumps (JObj ((if content is Some c then [("content", JStr (implode (base64_encode c)))] else []) ++
                    [("headers", JArr ((λ '(n, x), JObj [("headerName", JStr n); ("headerValue", JStr x)]) <$> h));
                     ("requestUri", JStr sas_url)])).

Section host.
Context (HE : http_env) (endpoint : string).

(** A request through the host plugin *)
Definition host_put (sas_url : string) (h : headers) (content : option chars) : HP response :=
  p ← get_state;
  status_headers ← lift (build_status_headers p);
  on_http (http_put HE (uri endpoint "/status") (Some (build_status_data sas_url h content)) (Some status_headers) false None None
             DELAY_IN_SECONDS 10).

(** [put_vm_status]: [status_blob] is the type of the blob and the document, if there is one. *)
Definition put_vm_status (date : string) (sas_url : string) (data : option chars) (blob_type : string) : HP unit :=
  available ← ensure_initialized HE endpoint;
  if negb available then raise (protocol_error "HostGAPlugin: HostGAPlugin is not available")
  else
    match data with
    | None => raise (protocol_error "HostGAPlugin: Status blob was not provided")
    | Some data => put_status host_put (report_status_health HE endpoint) date blob_type sas_url data
    end.
End host.

(** ** [WireClient.upload_status_blob] *)

(** What the upload needs of the goal state *)
Record status_goal := mkStatusGoal {
  sg_upload_blob : option string;
  sg_upload_blob_type : string
}.

Record wire_client := mkWireClient {
  wc_goal : status_goal;
  wc_host : host_plugin
}.
Definition set_wc_goal (g : status_goal) (w : wire_client) : wire_client := mkWireClient g (wc_host w).
Definition set_wc_host (h : host_plugin) (w : wire_client) : wire_client := mkWireClient (wc_goal w) h.
Notation WC X := (M wire_client exn X).

Section client.
Context (HE : http_env) (endpoint date : string).
(** [reset_goal_state], [update_host_plugin_from_goal_state] *)
Context (reset_goal_state : host_plugin → res exn status_goal * host_plugin) (update_headers : M host_plugin exn unit).

Definition on_plugin {A} (m : HP A) : WC A := zoom wc_host set_wc_host m.

Definition refresh_goal : WC unit := λ w,
  match reset_goal_state (wc_host w) with
  | (Ok g, h) => (Ok tt, mkWireClient g h)
  | (Err e, h) => (Err e, set_wc_host h w)
  end.

(** [document] is the outcome of [StatusBlob.to_json]. *)
Definition upload_status_blob (document : res exn json) : WC unit :=
  g ← gets wc_goal;
  match sg_upload_blob g with
  | Some _ => mret tt
  | None =>
      refresh_goal ;;
      g ← gets wc_goal;
      match sg_upload_blob g with
      | Some _ => mret tt
      | None => raise (agent_error ProtocolNotFoundError "Status upload uri is missing" None (-1))
      end
  end ;;
  g ← gets wc_goal;
  let url := default "" (sg_upload_blob g) in
  data ← match document with
         | Ok j => mret (explode (json_dumps j))
         | Err e => if isinstance e Exception_ then raise (protocol_error ("Exception creating status blob: " +:+ e_msg e)) else raise e
         end;
  uploaded ← catch (on_plugin (put_vm_status HE endpoint date url (Some data) (sg_upload_blob_type g)) ;; mret true)
    (λ e, if isinstance e ResourceGoneError then on_plugin update_headers ;; mret true
          else if isinstance e Exception_ then mret false else raise e);
  if (uploaded : bool) then mret tt
  else
    direct ← except Exception_ (on_plugin (on_http (upload (call_storage_service HE) date (sg_upload_blob_type g) url data)))
               (λ _, mret false);
    if (direct : bool) then mret tt else raise (protocol_error "Failed to upload status blob via either channel").
End client.

Example base64_ex : (λ s, implode (base64_encode (explode s))) <$> ["M"; "Ma"; "Man"; "status"] = ["TQ=="; "TWE="; "TWFu"; "c3RhdHVz"].
Proof. vm_compute. reflexivity. Qed.

