(* ===== verification/Collect.v ===== *)
(** * Collecting events (ga/collect_telemetry_events.py, ga/send_telemetry_events.py)

    A thread collects the events that the agent saved and those that extensions write to their event
    directories, and queues them for the thread that sends them.  Extensions are held to a contract:
    the fields of an event, their size and the number of events in a period.

    The sending thread may be stopped at any time: [stops n] is what the [n]-th look at it sees.
    [reporter] has what the logger of events adds to each of them: versions, ids and common parameters.
    Log output and the events about collecting events are omitted. *)
From S2P Require Import Prelude PyExn FlexVersion Datetime Json Ticks TextUtil Xml World RestApi ExtInstance Samples Urls Http HealthService VmSettings HostPlugin History WireClient Telemetry EventLog ExtReport.
From Stdlib Require Import Ascii.
Import Re.

Definition NUM_OF_EVENT_FILE_RETRIES : nat := 3.
Definition EVENT_FILE_RETRY_DELAY : Z := 1.
Definition MAX_NUMBER_OF_EVENTS_PER_EXTENSION_PER_PERIOD : nat := 360.
Definition EXTENSION_EVENT_FILE_MAX_SIZE : Z := 4 * 1024 * 1024.
Definition EXTENSION_EVENT_MAX_SIZE : Z := 1024 * 6.
Definition EXTENSION_EVENT_MAX_MSG_LEN : nat := Z.to_nat (1024 * 3).

Record collector := mkCollector { co_queue : list TelemetryEvent; co_looks : nat; co_world : world }.
Notation CO X := (M collector exn X).
Definition enqueue (e : TelemetryEvent) (c : collector) : collector := mkCollector (co_queue c ++ [e]) (co_looks c) (co_world c).
Definition look (c : collector) : collector := mkCollector (co_queue c) (S (co_looks c)) (co_world c).
Definition set_co_world (w : world) (c : collector) : collector := mkCollector (co_queue c) (co_looks c) w.
Definition on_co_world {A} (m : M world exn A) : CO A := zoom co_world set_co_world m.

(** ** The contract of extension events *)

(** [_EXTENSION_EVENT_REQUIRED_FIELDS]: [dir] sorts the names. *)
Definition REQUIRED_FIELDS : list string :=
  ["eventlevel"; "eventpid"; "eventtid"; "message"; "operationid"; "taskname"; "timestamp"; "version"].

(** [_clean_value]: a boolean is an integer. *)
Definition clean_value (k : string) (v : json) : res exn json :=
  let strip (s : string) := drop_spaces_end (drop_spaces s) in
  match v with
  | JNull => Ok JNull
  | JStr s => Ok (JStr (redact_sas_token (strip s)))
  | JInt _ | JBool _ =>
      if bool_decide (str_lower k ∈ ["eventpid"; "eventtid"]) then Ok (JStr (py_str v))
      else Err (py_error AttributeError ("'" +:+ type_name v +:+ "' object has no attribute 'strip'"))
  | _ => Err (py_error AttributeError ("'" +:+ type_name v +:+ "' object has no attribute 'strip'"))
  end.

Fixpoint clean_fields (d : list (string * json)) (acc : list (string * json)) : res exn (list (string * json)) :=
  match d with
  | [] => Ok acc
  | (k, v) :: d' =>
      if bool_decide (str_lower k ∈ REQUIRED_FIELDS)
      then v ← clean_value k v; clean_fields d' (dict_set (str_lower k) v acc)
      else clean_fields d' acc
  end.

Definition invalid_event (msg : string) : exn := agent_error InvalidExtensionEventError msg None (-1).
Definition none_error : exn := py_error TypeError "'NoneType' object is not subscriptable".

(** The loop over the required fields: the size so far is tested before a field is added. *)
Fixpoint check_fields (keys : list string) (event : list (string * json)) (event_size : Z) : res exn unit :=
  match keys with
  | [] => Ok tt
  | k :: keys' =>
      match dict_get k event with
      | None => Err (invalid_event ("MissingKeyError: " +:+ k +:+ " not found"))
      | Some v =>
          if EXTENSION_EVENT_MAX_SIZE <? event_size
          then Err (invalid_event ("OversizeEventError: max event size allowed: " +:+ pretty EXTENSION_EVENT_MAX_SIZE))
          else match v with
               | JStr s => check_fields keys' event (event_size + Z.of_nat (String.length s))
               | _ => Err (py_error TypeError "object of type 'NoneType' has no len()")
               end
      end
  end.

Definition parse_event_and_ensure_it_is_valid (extension_event : json) : res exn (list (string * json)) :=
  match extension_event with
  | JObj d =>
      event ← clean_fields d [];
      message ← match dict_get "message" event with
                | None => Err (invalid_event "MissingKeyError: Message not found")
                | Some (JStr m) => Ok (str_take EXTENSION_EVENT_MAX_MSG_LEN m)
                | Some _ => Err none_error
                end;
      let event := dict_set "message" (JStr message) event in
      if String.eqb message "" then Err (invalid_event "EmptyMessageError: Message should not be empty")
      else check_fields REQUIRED_FIELDS event 0 ;; Ok event
  | _ => Err (py_error AttributeError ("'" +:+ type_name extension_event +:+ "' object has no attribute 'items'"))
  end.

(** [_replace_or_add_param_in_event] *)
Fixpoint replace_params (params : list TelemetryEventParam) (d : list (string * json)) : list TelemetryEventParam * list (string * json) :=
  match params with
  | [] => ([], d)
  | p :: params' =>
      match pa_name p with
      | JStr n =>
          match dict_get n d with
          | Some v => let '(l, d') := replace_params params' (filter (λ kv, kv.1 ≠ n) d) in (mkParam (pa_name p) v :: l, d')
          | None => let '(l, d') := replace_params params' d in (p :: l, d')
          end
      | _ => let '(l, d') := replace_params params' d in (p :: l, d')
      end
  end.
Definition replace_or_add_param_in_event (d : list (string * json)) (e : TelemetryEvent) : TelemetryEvent :=
  let '(l, rest) := replace_params (te_parameters e) d in set_parameters (l ++ ((λ '(k, v), param k v) <$> rest)) e.

(** [CollectTelemetryEventsHandler.add_common_params_to_telemetry_event]: the logger of events is the
    one of the module; only the parts that it adds to an event matter here. *)
Record event_reporter := mkReporter {
  er_version : string; er_thread : string; er_pid : Z; er_tid : Z; er_container_id : option string; er_common : list TelemetryEventParam
}.
Definition add_common_params_to_telemetry_event (r : event_reporter) (event_time : Z) (e : TelemetryEvent) : TelemetryEvent :=
  add_common_event_parameters (er_version r) (er_thread r) (er_pid r) (er_tid r) (er_container_id r) (er_common r) event_time e.

Section collect.
Context (E : env) (loads : string → res exn json) (parse_doc : string → res exn xml) (float_text : string → option string).
Context (reporter : event_reporter) (stops : nat → bool).

(** [_parse_telemetry_event]; the values of a valid event are texts. *)
Definition parse_telemetry_event (handler_name : string) (unparsed : json) (event_file_time : Z) : res exn TelemetryEvent :=
  x ← parse_event_and_ensure_it_is_valid unparsed;
  let field k := default JNull (dict_get k x) in
  Ok (replace_or_add_param_in_event
        [("EventName", JStr (handler_name +:+ "-" +:+ py_str (field "version"))); ("CapabilityUsed", field "eventlevel"); ("TaskName", field "taskname");
         ("Context1", field "message"); ("Context2", field "timestamp"); ("Context3", field "operationid"); ("EventPid", field "eventpid");
         ("EventTid", field "eventtid")]
        (add_common_params_to_telemetry_event reporter event_file_time
           (set_file_type "json" (new_event (JInt TELEMETRY_LOG_EVENT_ID) (JStr TELEMETRY_LOG_PROVIDER_ID))))).

(** ** The queue *)

Definition stopped : CO bool := n ← gets co_looks; modify look ;; mret (stops n).

(** [SendTelemetryEventsHandler.enqueue_event]: the queue has no limit. *)
Definition enqueue_event (e : TelemetryEvent) : CO unit :=
  s ← stopped;
  if (s : bool) then raise (agent_error ServiceStoppedError "SendTelemetryHandler is stopped, not accepting anymore events" None (-1))
  else modify (enqueue e).

(** ** Extension events ([_ProcessExtensionEvents]) *)

Definition os_missing : exn := os_error ENOENT "No such file or directory".

(** [_get_extension_events_dir_with_handler_name] *)
Definition get_extension_events_dir_with_handler_name (log_dir : path) (f : fs) : res exn (list (string * path)) :=
  if negb (isdir log_dir f) then Err os_missing
  else Ok ((λ x, (x, log_dir ++ [x; "events"])) <$>
           filter (λ x, isdir (log_dir ++ [x]) f && handler_name_match x && exists_path (log_dir ++ [x; "events"]) f = true) (listdir log_dir f)).

(** [_event_file_size_allowed] *)
Definition event_file_size_allowed (p : path) (f : fs) : res exn bool :=
  match f !! p with
  | Some (File c _) => Ok (Z.of_nat (String.length (c_text c)) <=? EXTENSION_EVENT_FILE_MAX_SIZE)
  | Some Dir => Ok true
  | None => Err os_missing
  end.

(** [_read_event_file] and [_read_and_parse_event_file]: a file that is missing or cannot be parsed
    is read again. *)
Definition is_retried (e : exn) : bool := isinstance e OSError && (e_code e =? ENOENT) || isinstance e ValueError.

Fixpoint read_with_retries {A} (n : nat) (parse : string → res exn A) (other : exn → exn) (p : path) : M world exn A :=
  catch (c ← (λ w, (read_file p (w_fs w), w)); lift (parse (c_text c)))
    (λ e, if isinstance e Exception_ then
            if is_retried e then match n with
                                 | O => raise e
                                 | S n' => sleep (background E) EVENT_FILE_RETRY_DELAY ;; read_with_retries n' parse other p
                                 end
            else raise (other e)
          else raise e).
Definition read_event_file (p : path) : M world exn json := read_with_retries (NUM_OF_EVENT_FILE_RETRIES - 1) loads id p.

(** The loop of [_enqueue_events_and_get_count] *)
Fixpoint enqueue_events (handler_name : string) (time : Z) (events : list json) (count : nat) : CO nat :=
  match events with
  | [] => mret count
  | event :: events' =>
      count ← catch (e ← lift (parse_telemetry_event handler_name event time); enqueue_event e ;; mret (S count))
                (λ e, if isinstance e ServiceStoppedError then raise e
                      else if isinstance e Exception_ then mret count
                      else raise e);
      if bool_decide (MAX_NUMBER_OF_EVENTS_PER_EXTENSION_PER_PERIOD ≤ count)%nat then mret count
      else enqueue_events handler_name time events' count
  end.

Definition mtime_of (p : path) (f : fs) : res exn Z :=
  match f !! p with Some (File _ t) => Ok t | Some Dir => Ok 0 | None => Err os_missing end.

Definition enqueue_events_and_get_count (handler_name : string) (p : path) (count : nat) : CO nat :=
  f ← gets (λ c, w_fs (co_world c));
  time ← lift (mtime_of p f);
  j ← on_co_world (read_event_file p);
  enqueue_events handler_name time (match j with JArr l => l | _ => [j] end) count.

(** [_EXTENSION_EVENT_FILE_NAME_REGEX] *)
Definition is_event_file_name (x : string) : bool := full_match_ci (seq digits_plus (lit ".json")) x.

(** The loop of [_capture_extension_events] *)
Fixpoint capture_files (handler_name : string) (dir : path) (files : list string) (count : nat) : CO unit :=
  match files with
  | [] => mret tt
  | x :: files' =>
      let p := dir ++ [x] in
      r ← finally
        (catch
           (f ← gets (λ c, w_fs (co_world c));
            allowed ← lift (event_file_size_allowed p f);
            if negb allowed then mret (Some count)
            else
              n ← enqueue_events_and_get_count handler_name p count;
              mret (if bool_decide (MAX_NUMBER_OF_EVENTS_PER_EXTENSION_PER_PERIOD ≤ n)%nat then None else Some n))
           (λ e, if isinstance e ServiceStoppedError then raise e
                 else if isinstance e Exception_ then mret (Some count) else raise e))
        (on_co_world (remove_file (write_fault E) p));
      match r with Some n => capture_files handler_name dir files' n | None => mret tt end
  end.

Definition capture_extension_events (handler_name : string) (dir : path) : CO unit :=
  f ← gets (λ c, w_fs (co_world c));
  if negb (isdir dir f) then raise (if exists_path dir f then os_error ENOTDIR "Not a directory" else os_missing)
  else capture_files handler_name dir (reverse (sort_names (filter (λ x, is_event_file_name x = true) (listdir dir f)))) 0.

(** [_ensure_all_events_directories_empty]: a directory that is missing ends the loop. *)
Fixpoint ensure_all_events_directories_empty (dirs : list (string * path)) : M world exn unit :=
  match dirs with
  | [] => mret tt
  | (_, d) :: dirs' =>
      f ← gets w_fs;
      if negb (exists_path d f) then mret tt
      else if negb (isdir d f) then raise (os_error ENOTDIR "Not a directory")
      else
        for_each (listdir d f) (λ x, except Exception_ (remove_file (write_fault E) (d ++ [x])) (λ _, mret tt)) ;;
        ensure_all_events_directories_empty dirs'
  end.

(** [_ProcessExtensionEvents._operation] *)
Definition process_extension_events : CO unit :=
  s ← stopped;
  if (s : bool) then mret tt
  else
    f ← gets (λ c, w_fs (co_world c));
    let found := get_extension_events_dir_with_handler_name (ext_log_dir E) f in
    let dirs := match found with Ok l => l | Err _ => [] end in
    let clean := on_co_world (ensure_all_events_directories_empty dirs) in
    delete_all ← catch (l ← lift found; for_each l (λ '(name, d), capture_extension_events name d) ;; mret true)
                   (λ e, if isinstance e ServiceStoppedError then mret false
                         else if isinstance e Exception_ then mret true
                         else clean ;; raise e);
    when delete_all clean.

(** ** The agent's own events ([_CollectAndEnqueueEvents]) *)

(** [EVENT_FILE_REGEX.search(name)]: whether the file is of a version that writes complete events *)
Definition match_event_file (name : string) : option bool :=
  let n := if ends_with (String "010" "") name then str_take (String.length name - 1) name else name in
  if ends_with ".waagent.tld" n then Some true else if ends_with ".tld" n then Some false else None.

(** [_trim_legacy_extension_event_parameters] *)
Definition trim_legacy_extension_event_parameters (e : TelemetryEvent) : TelemetryEvent :=
  set_parameters (filter (λ p, existsb (λ n, named n p) ["Name"; "Version"; "Operation"; "OperationSuccess"; "Message"; "Duration"] = true)
                    (te_parameters e)) e.

(** [_update_legacy_agent_event]; the parameters that are missing come from a set: their order is not
    specified, here it is that of the common parameters. *)
Definition update_legacy_agent_event (time : Z) (e : TelemetryEvent) : res exn TelemetryEvent :=
  let new_params := te_parameters (add_common_params_to_telemetry_event reporter time (new_event JNull JNull)) in
  if existsb (λ p, negb (hashable (pa_name p))) (te_parameters e) then Err (py_error TypeError "unhashable type")
  else Ok (set_parameters (te_parameters e ++
             filter (λ p, existsb (λ q, json_eqb (pa_name q) (pa_name p)) (te_parameters e) = false) new_params) e).

(** [_read_and_parse_event_file] *)
Definition read_and_parse_event_file (p : path) : M world exn TelemetryEvent :=
  read_with_retries (NUM_OF_EVENT_FILE_RETRIES - 1) (parse_event loads parse_doc float_text)
    (λ e, agent_error EventError ("Error parsing event: " +:+ e_msg e) None (-1)) p.

Definition complete_legacy_event (p : path) (e : TelemetryEvent) (f : fs) : res exn TelemetryEvent :=
  time ← mtime_of p f;
  if is_extension_event e then Ok (add_common_params_to_telemetry_event reporter time (trim_legacy_extension_event_parameters e)) else update_legacy_agent_event time e.

Definition process_event_file (dir : path) (x : string) : CO unit :=
  match match_event_file x with
  | None => mret tt
  | Some is_complete =>
      let p := dir ++ [x] in
      except Exception_
        (finally
           (e ← on_co_world (read_and_parse_event_file p);
            e ← lift (redact_event_msg e);
            f ← gets (λ c, w_fs (co_world c));
            e ← (if (is_complete : bool) then mret e else lift (complete_legacy_event p e f));
            enqueue_event e)
           (f ← gets (λ c, w_fs (co_world c));
            when (exists_path p f) (on_co_world (remove_file (write_fault E) p))))
        (λ _, mret tt)
  end.

Definition process_events : CO unit :=
  f ← gets (λ c, w_fs (co_world c));
  let dir := lib_dir E ++ ["events"] in
  if negb (isdir dir f) then raise os_missing else for_each (listdir dir f) (process_event_file dir).

(** [_CollectAndEnqueueEvents._operation] *)
Definition collect_and_enqueue_events : CO unit :=
  except Exception_ (s ← stopped; if (s : bool) then mret tt else process_events) (λ _, mret tt).
End collect.

(** ** What is queued for an extension *)

Definition param_value (name : string) (e : TelemetryEvent) : option json := pa_value <$> List.find (named name) (te_parameters e).

(** The fields of an event that an extension wrote, as they are sent *)
Record extension_event := mkExtEvent {
  xe_version : string; xe_level : string; xe_task : string; xe_message : string; xe_timestamp : string; xe_operation : string;
  xe_pid : string; xe_tid : string
}.

Definition carries (handler_name : string) (x : extension_event) (e : TelemetryEvent) : Prop :=
  param_value "EventName" e = Some (JStr (handler_name +:+ "-" +:+ xe_version x)) ∧ param_value "CapabilityUsed" e = Some (JStr (xe_level x)) ∧
  param_value "TaskName" e = Some (JStr (xe_task x)) ∧ param_value "Context1" e = Some (JStr (xe_message x)) ∧
  param_value "Context2" e = Some (JStr (xe_timestamp x)) ∧ param_value "Context3" e = Some (JStr (xe_operation x)) ∧
  param_value "EventPid" e = Some (JStr (xe_pid x)) ∧ param_value "EventTid" e = Some (JStr (xe_tid x)).

Definition within_contract (x : extension_event) : Prop :=
  xe_message x ≠ "" ∧ (String.length (xe_message x) ≤ EXTENSION_EVENT_MAX_MSG_LEN)%nat ∧
  Z.of_nat (String.length (xe_level x) + String.length (xe_pid x) + String.length (xe_tid x) + String.length (xe_message x) +
            String.length (xe_operation x) + String.length (xe_task x) + String.length (xe_timestamp x))%nat ≤ EXTENSION_EVENT_MAX_SIZE.

Definition acceptable (handler_name : string) (e : TelemetryEvent) : Prop := ∃ x, carries handler_name x e ∧ within_contract x.

Lemma check_fields_inv keys event n :
  check_fields keys event n = Ok tt →
  Forall (λ k, ∃ s, dict_get k event = Some (JStr s)) keys ∧
  ∀ k, last keys = Some k → n + foldr (λ k n, match dict_get k event with Some (JStr s) => Z.of_nat (String.length s) | _ => 0 end + n) 0
         (take (length keys - 1) keys) ≤ EXTENSION_EVENT_MAX_SIZE.
Proof.
  revert n. induction keys as [|k keys IH]; intros n; simpl; [by split|].
  destruct (dict_get k event) as [v|] eqn:Hk; [|done]. destruct (EXTENSION_EVENT_MAX_SIZE <? n) eqn:Hn; [done|]. apply Z.ltb_ge in Hn.
  destruct v; try done. intros [H1 H2]%IH. split; [constructor; eauto|]. intros k' Hk'.
  destruct keys as [|k2 keys]; [simpl; lia|]. specialize (H2 k' Hk'). simpl in *. rewrite Nat.sub_0_r in *. rewrite Hk. lia.
Qed.

Lemma dict_get_filter_ne {V} k n (d : list (string * V)) : n ≠ k → dict_get n (filter (λ kv, kv.1 ≠ k) d) = dict_get n d.
Proof.
  intros Hne. induction d as [|[k' v] d IH]; [done|]. rewrite filter_cons. cbn [fst]. case_decide as Hk; simpl; [by rewrite IH|].
  rewrite IH. subst k'. by rewrite (proj2 (String.eqb_neq _ _)).
Qed.

Lemma named_spec n m v : named n (mkParam (JStr m) v) = String.eqb m n.
Proof. done. Qed.

Lemma find_param_list n (d : list (string * json)) v :
  dict_get n d = Some v → pa_value <$> List.find (named n) ((λ '(k, v), param k v) <$> d) = Some v.
Proof.
  induction d as [|[k u] d IH]; simpl; [done|]. change (named n (param k u)) with (String.eqb k n).
  destruct (String.eqb_spec n k) as [->|Hne]; [rewrite String.eqb_refl; by intros [= ->]|].
  rewrite (proj2 (String.eqb_neq k n)) by done. exact IH.
Qed.

Lemma replace_params_find n params d v :
  dict_get n d = Some v →
  let '(l, rest) := replace_params params d in
  (pa_value <$> List.find (named n) l = Some v) ∨ List.find (named n) l = None ∧ dict_get n rest = Some v.
Proof.
  revert d. induction params as [|p params IH]; intros d Hd; simpl; [by right|].
  assert (∀ m q, pa_name q = JStr m → m ≠ n → named n q = false) as Hneq.
  { intros m q Hq Hne. unfold named. rewrite Hq. simpl. by apply String.eqb_neq. }
  destruct (pa_name p) as [| | | |m| |] eqn:Hp.
  all: try (specialize (IH d Hd); destruct (replace_params params d) as [l1 rest]; simpl; unfold named at 1 3; rewrite Hp; exact IH).
  destruct (dict_get m d) as [u|] eqn:Hm.
  - destruct (decide (m = n)) as [->|Hne].
    + destruct (replace_params params _) as [l rest]. left. simpl. rewrite named_spec, String.eqb_refl. simpl. congruence.
    + specialize (IH (filter (λ kv, kv.1 ≠ m) d)). rewrite dict_get_filter_ne in IH by done. specialize (IH Hd).
      destruct (replace_params params _) as [l rest]. simpl. rewrite named_spec, (proj2 (String.eqb_neq m n)) by done. exact IH.
  - specialize (IH d Hd). destruct (replace_params params d) as [l rest]. simpl. rewrite (Hneq m p Hp); [exact IH|]. intros ->. congruence.
Qed.

Lemma find_app_none {A} (f : A → bool) l k : List.find f l = None → List.find f (l ++ k) = List.find f k.
Proof. induction l as [|x l IH]; simpl; [done|]. by destruct (f x). Qed.
Lemma find_app_some {A} (f : A → bool) l k x : List.find f l = Some x → List.find f (l ++ k) = Some x.
Proof. induction l as [|y l IH]; simpl; [done|]. by destruct (f y). Qed.

Lemma replaced_param d e n v : dict_get n d = Some v → param_value n (replace_or_add_param_in_event d e) = Some v.
Proof.
  intros Hd. unfold replace_or_add_param_in_event, param_value. pose proof (replace_params_find n (te_parameters e) d v Hd) as H.
  destruct (replace_params _ _) as [l rest]. cbn [te_parameters set_parameters]. destruct H as [H|[H1 H2]].
  - destruct (List.find (named n) l) eqn:Hl; [|done]. by erewrite find_app_some.
  - rewrite find_app_none by done. by apply find_param_list.
Qed.

(** An event that is accepted has all fields, within the limits. *)
Lemma parse_valid j ev :
  parse_event_and_ensure_it_is_valid j = Ok ev →
  ∃ x, within_contract x ∧
    dict_get "version" ev = Some (JStr (xe_version x)) ∧ dict_get "eventlevel" ev = Some (JStr (xe_level x)) ∧
    dict_get "taskname" ev = Some (JStr (xe_task x)) ∧ dict_get "message" ev = Some (JStr (xe_message x)) ∧
    dict_get "timestamp" ev = Some (JStr (xe_timestamp x)) ∧ dict_get "operationid" ev = Some (JStr (xe_operation x)) ∧
    dict_get "eventpid" ev = Some (JStr (xe_pid x)) ∧ dict_get "eventtid" ev = Some (JStr (xe_tid x)).
Proof.
  unfold parse_event_and_ensure_it_is_valid. destruct j as [| | | | | |d]; try done.
  destruct (clean_fields d []) as [c|] eqn:Hc; [|done]. unfold mbind, res_bind.
  destruct (dict_get "message" c) as [[| | | |m| |]|]; try done.
  set (msg := str_take EXTENSION_EVENT_MAX_MSG_LEN m). destruct (String.eqb_spec msg "") as [|Hne]; [done|].
  set (ev' := dict_set "message" (JStr msg) c). destruct (check_fields REQUIRED_FIELDS ev' 0) as [[]|] eqn:Hcheck; [|done].
  intros [= <-]. apply check_fields_inv in Hcheck as [Hall Hsize]. specialize (Hsize "version" eq_refl).
  unfold REQUIRED_FIELDS in *. rewrite !Forall_cons in Hall.
  destruct Hall as ([lv Hlv] & [pid Hpid] & [tid Htid] & [ms Hms] & [op Hop] & [tk Htk] & [ts Hts] & [vr Hvr] & _).
  assert (ms = msg) as -> by (unfold ev' in Hms; rewrite dict_get_set_eq in Hms; congruence).
  exists (mkExtEvent vr lv tk msg ts op pid tid). split; [|by split_and!].
  split; [done|]. split; [apply str_take_length|]. cbn [length take foldr Nat.sub] in Hsize.
  rewrite Hlv, Hpid, Htid, Hms, Hop, Htk, Hts in Hsize. cbn [xe_level xe_pid xe_tid xe_message xe_operation xe_task xe_timestamp].
  rewrite !Nat2Z.inj_add. lia.
Qed.

Section acceptable.
Context (reporter : event_reporter).

Lemma parse_acceptable name j t e : parse_telemetry_event reporter name j t = Ok e → acceptable name e.
Proof.
  unfold parse_telemetry_event. destruct (parse_event_and_ensure_it_is_valid j) as [ev|] eqn:Hj; [|done]. simpl. intros [= <-].
  apply parse_valid in Hj as (x & Hx & Hvr & Hlv & Htk & Hms & Hts & Hop & Hpid & Htid). exists x. split; [|done].
  rewrite Hvr, Hlv, Htk, Hms, Hts, Hop, Hpid, Htid. unfold carries. split_and!; by apply replaced_param.
Qed.
End acceptable.

Section limits.
Context (E : env) (loads : string → res exn json) (reporter : event_reporter) (stops : nat → bool).
Notation MAX := MAX_NUMBER_OF_EVENTS_PER_EXTENSION_PER_PERIOD.

(** What was queued between two states *)
Definition queued (name : string) (s : collector) (k : nat) (s' : collector) : Prop :=
  ∃ new, co_queue s' = co_queue s ++ new ∧ Forall (acceptable name) new ∧ length new = k.

Lemma queued_refl name s s' : co_queue s' = co_queue s → queued name s 0 s'.
Proof. intros H. exists []. by rewrite H, app_nil_r. Qed.
Lemma queued_trans name s s1 s2 a b : queued name s a s1 → queued name s1 b s2 → queued name s (a + b) s2.
Proof.
  intros (n1 & H1 & F1 & L1) (n2 & H2 & F2 & L2). exists (n1 ++ n2). rewrite H2, H1, app_assoc, length_app, L1, L2.
  split_and!; [done|by apply Forall_app|done].
Qed.

Lemma enqueue_event_spec name e s :
  acceptable name e → wp (enqueue_event stops e) (λ _ s', queued name s 1 s') (λ x s', queued name s 0 s' ∧ isinstance x ServiceStoppedError = true) s.
Proof.
  intros He. unfold enqueue_event, stopped. wp_steps; [split; [by apply queued_refl|done]|]. exists [e]. split_and!; [done| |done]. by repeat constructor.
Qed.

Lemma enqueue_events_spec name t events count s :
  (count < MAX)%nat →
  wp (enqueue_events reporter stops name t events count)
    (λ n s', ∃ k, queued name s k s' ∧ n = (count + k)%nat ∧ (n ≤ MAX)%nat)
    (λ x s', ∃ k, queued name s k s' ∧ (count + k ≤ MAX)%nat ∧ (isinstance x Exception_ = true → isinstance x ServiceStoppedError = true)) s.
Proof.
  revert count s. induction events as [|j events IH]; intros count s Hc; simpl.
  { wp_step. exists 0%nat. split_and!; [by apply queued_refl|lia..]. }
  wp_step.
  eapply (wp_mono _ (λ n s1, queued name s (n - count) s1 ∧ (count ≤ n ≤ S count)%nat) _
    (λ x s1, queued name s 0 s1 ∧ (isinstance x Exception_ = true → isinstance x ServiceStoppedError = true))).
  - wp_step. wp_step. wp_step.
    + wp_step. eapply wp_mono; [by eapply enqueue_event_spec, parse_acceptable| |].
      * intros [] s1 H1. wp_step. replace (S count - count)%nat with 1%nat by lia. split; [done|lia].
      * intros x s1 [H1 Hx]. rewrite Hx. wp_step. done.
    + destruct (isinstance e ServiceStoppedError) eqn:Hs; [wp_step; split; [by apply queued_refl|done]|].
      destruct (isinstance e Exception_) eqn:Hx; wp_step.
      * rewrite Nat.sub_diag. split; [by apply queued_refl|lia].
      * split; [by apply queued_refl|congruence].
  - intros n s1 [Hq Hn]. cbv beta. case_bool_decide.
    + wp_step. exists (n - count)%nat. split_and!; [done|lia..].
    + eapply wp_mono; [apply IH; lia| |].
      * intros m s2 (k & Hk & -> & Hm). exists (n - count + k)%nat. split_and!; [by eapply queued_trans|lia..].
      * intros x s2 (k & Hk & Hm & Hx). exists (n - count + k)%nat. split_and!; [by eapply queued_trans|lia|done].
  - intros x s1 [Hq Hx]. exists 0%nat. split_and!; [done|lia|done].
Qed.

Notation enqueue_file := (enqueue_events_and_get_count E loads reporter stops).

Lemma wp_co_world {A} (m : M world exn A) (Q : A → collector → Prop) R s :
  (∀ a s', co_queue s' = co_queue s → Q a s') → (∀ e s', co_queue s' = co_queue s → R e s') → wp (on_co_world m) Q R s.
Proof. intros HQ HR. unfold on_co_world, zoom, wp. destruct (m (co_world s)) as [[a|e] w]; [by apply HQ|by apply HR]. Qed.

Lemma queued_from name s k s1 s2 : co_queue s1 = co_queue s → queued name s1 k s2 → queued name s k s2.
Proof. unfold queued. by intros ->. Qed.
Lemma queued_to name s k s1 s2 : queued name s k s1 → co_queue s2 = co_queue s1 → queued name s k s2.
Proof. unfold queued. by intros H ->. Qed.

Lemma enqueue_file_spec name p count s :
  (count < MAX)%nat →
  wp (enqueue_file name p count)
    (λ n s', ∃ k, queued name s k s' ∧ n = (count + k)%nat ∧ (n ≤ MAX)%nat)
    (λ x s', ∃ k, queued name s k s' ∧ (count + k ≤ MAX)%nat ∧ (isinstance x Exception_ = true → isinstance x ServiceStoppedError = true ∨ k = 0%nat)) s.
Proof.
  intros Hc. unfold enqueue_events_and_get_count. do 4 wp_step; [|exists 0%nat; split_and!; [by apply queued_refl|lia|by right]].
  wp_step. apply wp_co_world.
  - intros j s1 Hs1. eapply wp_mono; [by apply enqueue_events_spec| |].
    + intros n s2 (k & Hk & Hn). exists k. split; [by eapply queued_from|done].
    + intros x s2 (k & Hk & Hn & Hx). exists k. split_and!; [by eapply queued_from|done|auto].
  - intros e s1 Hs1. exists 0%nat. split_and!; [by apply queued_refl|lia|by right].
Qed.

(** The bound for the files that are left, when [count] events were queued before *)
Definition bounded (name : string) (s : collector) (count : nat) (s' : collector) : Prop := ∃ k, queued name s k s' ∧ (count + k ≤ MAX)%nat.

Lemma wp_finally_world {A} (m : CO A) (g : M world exn unit) (Q : A → collector → Prop) (R : collector → Prop) s :
  (∀ a s1 s2, co_queue s2 = co_queue s1 → Q a s1 → Q a s2) → (∀ s1 s2, co_queue s2 = co_queue s1 → R s1 → R s2) →
  (∀ a s1, Q a s1 → R s1) → wp m Q (λ _, R) s → wp (finally m (on_co_world g)) Q (λ _, R) s.
Proof.
  intros HQ HR HQR Hm. apply wp_finally. eapply wp_mono; [exact Hm|..].
  - intros a s1 H1. apply wp_co_world; [intros _ s2 Hs; by eapply HQ|]. intros e s2 Hs. eapply HR; [exact Hs|]. by eapply HQR.
  - intros e s1 H1. apply wp_co_world; [intros _ s2 Hs|intros e' s2 Hs]; by eapply HR.
Qed.

Lemma bounded_to name s count s1 s2 : co_queue s2 = co_queue s1 → bounded name s count s1 → bounded name s count s2.
Proof. intros Hs (k & Hk & Hl). exists k. split; [by eapply queued_to|done]. Qed.

(** What a file leaves: the number of events to go on with, or none when the limit is reached *)
Definition after_file (name : string) (count : nat) (s : collector) (r : option nat) (s1 : collector) : Prop :=
  ∃ k, queued name s k s1 ∧ (count + k ≤ MAX)%nat ∧ match r with Some n => n = (count + k)%nat ∧ (n < MAX)%nat | None => True end.

Lemma capture_files_spec name dir files count s :
  (count < MAX)%nat → wp (capture_files E loads reporter stops name dir files count) (λ _, bounded name s count) (λ _, bounded name s count) s.
Proof.
  revert count s. induction files as [|x files IH]; intros count s Hc; simpl.
  { wp_step. exists 0%nat. split; [by apply queued_refl|lia]. }
  assert (bounded name s count s) as H0 by (exists 0%nat; split; [by apply queued_refl|lia]).
  assert (after_file name count s (Some count) s) as H1 by (exists 0%nat; split_and!; [by apply queued_refl|lia..]).
  wp_step. eapply (wp_mono _ (after_file name count s) _ (λ _, bounded name s count)); [|intros r s1 (k & Hk & Hl & Hr)|done].
  - apply wp_finally_world.
    + intros r s1 s2 Hs (k & Hk & Hl & Hr). exists k. split; [by eapply queued_to|done].
    + intros s1 s2. apply bounded_to.
    + intros r s1 (k & Hk & Hl & _). by exists k.
    + apply wp_catch. do 4 wp_step; [|by repeat case_match; wp_step]. wp_step; [by wp_step|]. wp_step.
      eapply wp_mono; [by apply enqueue_file_spec| |].
      * intros n s1 (k & Hk & -> & Hn). wp_step. exists k. split_and!; [done..|]. case_bool_decide; [done|lia].
      * intros e s1 (k & Hk & Hl & Hx). destruct (isinstance e ServiceStoppedError) eqn:Hs; [wp_step; by exists k|].
        destruct (isinstance e Exception_) eqn:He; [|wp_step; by exists k]. wp_step. destruct (Hx eq_refl) as [| ->]; [done|].
        exists 0%nat. split_and!; [done|lia..].
  - destruct r as [n|]; [|wp_step; by exists k]. destruct Hr as [-> Hn]. eapply wp_mono; [by apply IH|..].
    all: intros _ s2 (k2 & Hk2 & Hl2); exists (k + k2)%nat; split; [by eapply queued_trans|lia].
Qed.

Lemma capture_spec name dir s :
  wp (capture_extension_events E loads reporter stops name dir) (λ _, bounded name s 0) (λ _, bounded name s 0) s.
Proof.
  unfold capture_extension_events. wp_step. wp_step. wp_step; [|apply capture_files_spec; unfold MAX_NUMBER_OF_EVENTS_PER_EXTENSION_PER_PERIOD; lia].
  wp_step. exists 0%nat. split; [by apply queued_refl|]. unfold MAX_NUMBER_OF_EVENTS_PER_EXTENSION_PER_PERIOD. lia.
Qed.

(** A period: the events of each extension, in the order the extensions were visited *)
Definition period (s s' : collector) : Prop :=
  ∃ batches : list (string * list TelemetryEvent),
    co_queue s' = co_queue s ++ concat (batches.*2) ∧ NoDup (batches.*1) ∧
    Forall (λ b, (length b.2 ≤ MAX)%nat ∧ Forall (acceptable b.1) b.2) batches.

Definition visited (dn : list (string * path)) (s s' : collector) : Prop :=
  ∃ batches : list (string * list TelemetryEvent),
    co_queue s' = co_queue s ++ concat (batches.*2) ∧ batches.*1 = dn.*1 ∧
    Forall (λ b, (length b.2 ≤ MAX)%nat ∧ Forall (acceptable b.1) b.2) batches.

Lemma visited_period dn s s' : NoDup dn.*1 → visited dn s s' → period s s'.
Proof. intros Hd (b & H1 & H2 & H3). exists b. by rewrite H2. Qed.

Lemma visited_step dn name d s s1 s2 : visited dn s s1 → bounded name s1 0 s2 → visited (dn ++ [(name, d)]) s s2.
Proof.
  intros (b & H1 & H2 & H3) (k & (new & N1 & N2 & N3) & Hk). exists (b ++ [(name, new)]).
  rewrite !fmap_app, concat_app, N1, H1, H2. cbn. rewrite app_nil_r, app_assoc. split_and!; [done..|].
  apply Forall_app. split; [done|]. apply Forall_singleton. cbn. split; [lia|done].
Qed.

Lemma visited_to dn s s1 s2 : co_queue s2 = co_queue s1 → visited dn s s1 → visited dn s s2.
Proof. unfold visited. by intros ->. Qed.

Lemma NoDup_dirs log_dir f l : get_extension_events_dir_with_handler_name log_dir f = Ok l → NoDup l.*1.
Proof.
  unfold get_extension_events_dir_with_handler_name. case_match; [done|]. intros [= <-]. rewrite <- list_fmap_compose.
  rewrite (list_fmap_ext _ id), list_fmap_id by done. apply NoDup_filter, NoDup_listdir.
Qed.

Lemma period_to s s1 s2 : co_queue s2 = co_queue s1 → period s s1 → period s s2.
Proof. unfold period. by intros ->. Qed.
Lemma period_refl s s' : co_queue s' = co_queue s → period s s'.
Proof. intros H. exists []. rewrite H. cbn. rewrite app_nil_r. split_and!; [done|constructor|constructor]. Qed.

Lemma capture_all_spec l s s0 :
  NoDup l.*1 → co_queue s0 = co_queue s →
  wp (for_each l (λ '(name, d), capture_extension_events E loads reporter stops name d)) (λ _, period s) (λ _, period s) s0.
Proof.
  intros Hd Hs. apply (wp_for_each _ _ (λ dn, visited dn s)).
  - exists []. rewrite Hs. cbn. rewrite app_nil_r. split_and!; [done..|constructor].
  - intros dn [name d] rest s1 Hl Hv. eapply wp_mono; [apply capture_spec|..].
    + intros ? s2 Hb. cbv beta in Hb. by eapply visited_step.
    + intros e s2 Hb. cbv beta in Hb. eapply (visited_period (dn ++ [(name, d)])); [|by eapply visited_step].
      rewrite Hl in Hd. rewrite fmap_app, fmap_cons in Hd. rewrite fmap_app. cbn in *. rewrite (cons_middle name dn.*1), app_assoc in Hd.
      by apply NoDup_app in Hd as [Hd _].
  - intros s1 Hv. by eapply visited_period.
Qed.

End limits.

(** ** Two limits of the code *)

(** The size is tested before the last field, the version, is added: it has no limit. *)
Definition long_version : string := Nat.iter 7000 (String "1") "".
Example version_has_no_limit :
  let event := JObj ((λ k, (k, JStr (if String.eqb k "version" then long_version else "x"))) <$> REQUIRED_FIELDS) in
  (λ ev, (λ v, String.length (py_str v)) <$> dict_get "version" ev) <$> parse_event_and_ensure_it_is_valid event = Ok (Some 7000%nat).
Proof. vm_compute. reflexivity. Qed.

(** A directory that is gone ends the clean-up: the events of the extensions after it stay. *)
Example clean_up_stops_at_a_missing_directory :
  let d := ["var"; "log"; "azure"; "Acme.Other"; "events"] in
  let w := with_fs (λ f, <[d ++ ["1.json"] := File (plain "{}") 0]> (<[d := Dir]> f)) sample_world in
  let w' := (ensure_all_events_directories_empty sample_env
               [("Acme.Gone", ["var"; "log"; "azure"; "Acme.Gone"; "events"]); ("Acme.Other", d)] w).2 in
  isfile (d ++ ["1.json"]) (w_fs w') = true.
Proof. vm_compute. reflexivity. Qed.

(** ** The thread that sends (ga/send_telemetry_events.py)

    [put] is the second half of [enqueue_event], after it saw that the thread is not stopped.  The
    thread takes a first event, and then everything that is in the queue until it finds it empty;
    these events are one call of [report_event].  It ends when it is stopped and the queue is empty. *)
Module Sender.
Record state := mkState {
  queue : list TelemetryEvent;
  stopped : bool;
  pending : list TelemetryEvent;
  current : option (list TelemetryEvent);
  reported : list (list TelemetryEvent);
  finished : bool;
  (** Everything that was put, in order *)
  accepted : list TelemetryEvent
}.
Definition init : state := mkState [] false [] None [] false [].

Inductive step : state → state → Prop :=
| Check e s : stopped s = false →
    step s (mkState (queue s) (stopped s) (e :: pending s) (current s) (reported s) (finished s) (accepted s))
| Put p1 e p2 s : pending s = p1 ++ e :: p2 →
    step s (mkState (queue s ++ [e]) (stopped s) (p1 ++ p2) (current s) (reported s) (finished s) (accepted s ++ [e]))
| Stop s : step s (mkState (queue s) true (pending s) (current s) (reported s) (finished s) (accepted s))
| First e q s : finished s = false → current s = None → queue s = e :: q →
    step s (mkState q (stopped s) (pending s) (Some [e]) (reported s) (finished s) (accepted s))
| Next b e q s : finished s = false → current s = Some b → queue s = e :: q →
    step s (mkState q (stopped s) (pending s) (Some (b ++ [e])) (reported s) (finished s) (accepted s))
| Report b s : finished s = false → current s = Some b → queue s = [] →
    step s (mkState [] (stopped s) (pending s) None (reported s ++ [b]) (finished s) (accepted s))
| Finish s : finished s = false → current s = None → stopped s = true → queue s = [] →
    step s (mkState [] (stopped s) (pending s) None (reported s) true (accepted s)).

Definition in_order (s : state) : Prop := concat (reported s) ++ default [] (current s) ++ queue s = accepted s.

Lemma step_in_order s s' : step s s' → in_order s → in_order s'.
Proof.
  unfold in_order. destruct 1 as [e s|p1 e p2 s|s|e q s _ Hc Hq|b e q s _ Hc Hq|b s _ Hc Hq|s _ Hc _ Hq]; simpl; try rewrite Hc, Hq; simpl; intros <-;
    rewrite ?concat_app, <- ?app_assoc; simpl; rewrite ?app_nil_r; done.
Qed.


(** An event, and the thread that sends it and ends *)
Definition sample_event : TelemetryEvent := new_event (JInt 1) (JStr "p").
Definition sample_end : state := mkState [] true [] None [[sample_event]] true [sample_event].


(** A thread that was stopped can go on until it has ended. *)
Definition work (s : state) : nat := 2 * length (queue s) + (if current s is Some _ then 1 else 0) + (if finished s then 0 else 1).

Lemma stopped_thread_ends s : stopped s = true → finished s = false → ∃ s', step s s' ∧ (work s' < work s)%nat.
Proof.
  intros Hs Hf. destruct s as [q st p c r f a]; simpl in *; subst. destruct q as [|e q], c as [b|].
  - eexists. split; [by apply (Report b)|]. unfold work. simpl. lia.
  - eexists. split; [by apply Finish|]. unfold work. simpl. lia.
  - eexists. split; [by apply (Next b e q)|]. unfold work. simpl. lia.
  - eexists. split; [by apply (First e q)|]. unfold work. simpl. lia.
Qed.
End Sender.
