(* ===== verification/MemoryRestart.v ===== *)
(** * Restarting the agent when it uses too much memory

    [AgentMemoryRestartHistory] (ga/agent_memory_restart_history.py), the record of such
    restarts that survives them, and the part of [UpdateHandler] (ga/update.py) that checks
    the memory at the end of each iteration of the agent's loop
    ([_check_agent_memory_usage]) and limits the events it emits
    ([_report_agent_memory_event]), with [check_agent_memory_usage] of
    ga/cgroupconfigurator.py.

    The clock is read several times in a check; each reading is a field of [reading], those
    of the reports of one check being one. *)
From S2P Require Import Prelude PyExn Json FlexVersion Datetime World ExtInstance Samples.

(** ** The history *)

Definition HISTORY_FILE_NAME : string := "agent_memory_restart_history.json".
Definition SCHEMA_VERSION : Z := 1.
Definition MAX_VERSIONS_RETAINED : nat := 3.

(** [datetime.strptime(e.get("timestamp", ""), _TIMESTAMP_FORMAT)] *)
Definition entry_time (e : json) : res exn datetime :=
  t ← json_get_default "timestamp" (JStr "") e;
  match t with
  | JStr s => strptime s
  | j => Err (py_error TypeError ("strptime() argument 1 must be str, not " +:+ type_name j))
  end.

(** [max] of the times of a non-empty list of entries, in microseconds *)
Definition latest_time (entries : list json) : res exn Z :=
  ts ← map_res entry_time entries;
  match to_us <$> ts with
  | [] => Err (py_error ValueError "max() arg is an empty sequence")
  | t :: ts => Ok (foldl Z.max t ts)
  end.

(** [datetime.min] *)
Definition datetime_min : Z := to_us (mkDatetime 1 1 1 0 0 0 0).

(** The versions of [self._data], in the order of the dictionary *)
Notation versions := (list (string * json)).

(** The document that is saved *)
Definition history_json (vs : versions) : json :=
  JObj [("schema_version", JInt SCHEMA_VERSION); ("versions", JObj vs)].

(** What [_load] makes of a document; [True] is an integer, equal to one. *)
Definition versions_of_json (data : json) : option versions :=
  match data with
  | JObj d =>
      match dict_get "schema_version" d, dict_get "versions" d with
      | Some (JInt 1), Some (JObj vs) => Some vs
      | Some (JBool true), Some (JObj vs) => Some vs
      | _, _ => None
      end
  | _ => None
  end.

(** [get_version_restarts] *)
Definition get_version_restarts (v : string) (vs : versions) : res exn (list json) :=
  py_list (default (JArr []) (dict_get v vs)).

(** [get_version_latest_restart_time] *)
Definition get_version_latest_restart_time (v : string) (vs : versions) : res exn (option Z) :=
  entries ← get_version_restarts v vs;
  match entries with
  | [] => Ok None
  | _ => t ← latest_time entries; Ok (Some t)
  end.

(** [version_can_restart], without the reason *)
Definition version_can_restart (v : string) (max_per_version min_interval_seconds : Z) (now : datetime)
    (vs : versions) : res exn bool :=
  entries ← get_version_restarts v vs;
  if max_per_version <=? Z.of_nat (length entries) then Ok false
  else
    latest ← get_version_latest_restart_time v vs;
    match latest with
    | None => Ok true
    | Some t =>
        let delta := Z.max 0 (to_us now - t) in
        Ok (negb (delta <? min_interval_seconds * 1000000))
    end.

(** [_latest_ts] *)
Definition latest_ts (entries : json) : res exn Z :=
  l ← py_list entries;
  match l with
  | [] => Ok datetime_min
  | _ => latest_time l
  end.

(** The stable sort with [reverse=True]: an item goes after those that are as recent *)
Fixpoint insert_recent (x : Z * (string * json)) (l : list (Z * (string * json))) : list (Z * (string * json)) :=
  match l with
  | [] => [x]
  | y :: l' => if y.1 <? x.1 then x :: y :: l' else y :: insert_recent x l'
  end.

(** [_prune_versions] *)
Definition prune_versions (vs : versions) : res exn versions :=
  if bool_decide (length vs ≤ MAX_VERSIONS_RETAINED)%nat then Ok vs
  else
    keyed ← map_res (λ kv, t ← latest_ts kv.2; Ok (t, kv)) vs;
    Ok (take MAX_VERSIONS_RETAINED (foldl (λ acc x, insert_recent x acc) [] keyed).*2).

(** [versions.setdefault(v, []).append(entry)] *)
Definition append_entry (v : string) (entry : json) (vs : versions) : res exn versions :=
  match dict_get v vs with
  | None => Ok (dict_set v (JArr [entry]) vs)
  | Some (JArr l) => Ok (dict_set v (JArr (l ++ [entry])) vs)
  | Some j => Err (py_error AttributeError ("'" +:+ type_name j +:+ "' object has no attribute 'append'"))
  end.

Section history.
Context (E : env).

Definition state_dir : path := lib_dir E ++ ["state"].
Definition history_path : path := state_dir ++ [HISTORY_FILE_NAME].
Definition history_tmp : path := state_dir ++ [HISTORY_FILE_NAME +:+ ".tmp"].
Definition history_corrupt : path := state_dir ++ [HISTORY_FILE_NAME +:+ ".corrupt"].

(** [_load] *)
Definition load_history : M world exn versions :=
  f ← gets w_fs;
  if negb (exists_path history_path f) then mret []
  else
    match read_file history_path f with
    | Ok (mkContent _ (Some data)) => mret (default [] (versions_of_json data))
    | _ => except Exception_ (rename (write_fault E) history_path history_corrupt) (λ _, mret tt) ;; mret []
    end.

(** [_save] *)
Definition save_history (vs : versions) : M world exn unit :=
  except Exception_
    (write_file (write_fault E) history_tmp (json_content (history_json vs)) ;;
     rename (write_fault E) history_tmp history_path)
    (λ e,
       except Exception_
         (present ← gets (λ w, exists_path history_tmp (w_fs w));
          when present (remove_file (write_fault E) history_tmp))
         (λ _, mret tt) ;;
       raise e).

Definition restart_entry (now : datetime) (anon_bytes : Z) : json :=
  JObj [("timestamp", JStr (create_utc_timestamp now)); ("anon_bytes", JInt anon_bytes)].

(** [record_restart]: a failure to prune keeps every version. *)
Definition record_restart (v : string) (now : datetime) (anon_bytes : Z) (vs : versions) : M world exn unit :=
  vs ← lift (append_entry v (restart_entry now anon_bytes) vs);
  save_history (match prune_versions vs with Ok vs' => vs' | Err _ => vs end).
End history.

(** ** The check *)

(** [AgentMemoryEventCategory] *)
Inductive category := BREACH | RESET | SKIP | EXCEPTION.

#[export] Instance category_eq_dec : EqDecision category.
Proof. solve_decision. Defined.
#[export] Instance category_countable : Countable category.
Proof.
  refine (inj_countable' (λ c, match c with BREACH => 0 | RESET => 1 | SKIP => 2 | EXCEPTION => 3 end)
            (λ n, match n with 0 => BREACH | 1 => RESET | 2 => SKIP | _ => EXCEPTION end) _). by intros [].
Defined.

Definition AGENT_MEMORY_REPORT_PERIOD : Z := 12 * 60 * 60 * 1000000.
Definition AGENT_MEMORY_REPORT_MAX_EVENTS : nat := 5.
Definition CHILD_LAUNCH_INTERVAL : Z := 5 * 60 * 1000000.
Definition ANON_MEM_USAGE : string := "Anon Memory Usage (B)".

(** The configuration and the version of the agent *)
Record memory_conf := mkMemoryConf {
  c_version : string;
  c_enabled : bool;
  c_check_period : Z;                  (* seconds *)
  c_quota : Z;
  c_consecutive : Z;
  c_max_restarts : Z;
  c_min_interval : Z                   (* seconds *)
}.

(** What a check reads: [time.time()] in microseconds, [datetime.now(UTC)] for the
    reports, for the guard and for the record, whether the extensions have converged and
    cgroup v2 is used, and the metrics of the agent's cgroup: [None] when they are not
    tracked. *)
Record reading := mkReading {
  k_time : Z;
  k_report : Z;
  k_guard : datetime;
  k_record : datetime;
  k_converged : bool;
  k_cgroup_v2 : bool;
  k_metrics : res exn (option (list (string * Z)))
}.

(** The attributes of [UpdateHandler], and the events emitted, oldest first *)
Record mst := mkMst {
  m_process_start_time : Z;
  m_last_check : Z;
  m_breaches : Z;
  m_last_report : gmap category (list Z);
  m_emitted : list (category * Z);
  m_world : world
}.

Definition set_breaches (n : Z) (s : mst) : mst :=
  mkMst (m_process_start_time s) (m_last_check s) n (m_last_report s) (m_emitted s) (m_world s).

Section check.
Context (E : env) (C : memory_conf).

(** [_report_agent_memory_event] *)
Definition report_agent_memory_event (now : Z) (c : category) : M mst exn unit := modify (λ s,
  let window_start := now - AGENT_MEMORY_REPORT_PERIOD in
  let recent := filter (λ t, window_start < t) (default [] (m_last_report s !! c)) in
  if bool_decide (AGENT_MEMORY_REPORT_MAX_EVENTS ≤ length recent)%nat
  then mkMst (m_process_start_time s) (m_last_check s) (m_breaches s) (<[c := recent]> (m_last_report s))
         (m_emitted s) (m_world s)
  else mkMst (m_process_start_time s) (m_last_check s) (m_breaches s) (<[c := recent ++ [now]]> (m_last_report s))
         (m_emitted s ++ [(c, now)]) (m_world s)).

(** [CGroupConfigurator.check_agent_memory_usage]: the usage that exceeds the quota *)
Definition check_agent_memory_usage (metrics : res exn (option (list (string * Z)))) : res exn (option Z) :=
  m ← metrics;
  match m with
  | None => Ok None
  | Some l =>
      let anon_usage := default 0 (dict_get ANON_MEM_USAGE l) in
      Ok (if c_quota C <? anon_usage then Some anon_usage else None)
  end.

Definition on_memory_world {A} (m : M world exn A) : M mst exn A :=
  zoom m_world (λ w s, mkMst (m_process_start_time s) (m_last_check s) (m_breaches s) (m_last_report s) (m_emitted s) w) m.

(** The handler of [AgentMemoryExceededException] *)
Definition on_breach (k : reading) (anon_bytes : Z) : M mst exn unit :=
  modify (λ s, set_breaches (m_breaches s + 1) s) ;;
  report_agent_memory_event (k_report k) BREACH ;;
  breaches ← gets m_breaches;
  if breaches <? c_consecutive C then mret tt
  else
    vs ← on_memory_world (load_history E);
    allowed ← lift (version_can_restart (c_version C) (c_max_restarts C) (c_min_interval C) (k_guard k) vs);
    if negb allowed then
      report_agent_memory_event (k_report k) SKIP ;; modify (set_breaches 0)
    else
      on_memory_world (record_restart E (c_version C) (k_record k) anon_bytes vs) ;;
      raise (mkExn ExitException "exiting due to sustained anon memory breach" (-1) (-1) []).

(** [_check_agent_memory_usage] *)
Definition check_agent_memory (k : reading) : M mst exn unit :=
  except Exception_
    (if negb (c_enabled C && k_converged k) then mret tt
     else if negb (k_cgroup_v2 k) then mret tt
     else
       s ← get_state;
       if k_time k - m_process_start_time s <? CHILD_LAUNCH_INTERVAL then mret tt
       else if k_time k - m_last_check s <? c_check_period C * 1000000 then mret tt
       else
         modify (λ s, mkMst (m_process_start_time s) (k_time k) (m_breaches s) (m_last_report s) (m_emitted s) (m_world s)) ;;
         exceeded ← lift (check_agent_memory_usage (k_metrics k));
         match exceeded with
         | None =>
             s ← get_state;
             when (negb (m_breaches s =? 0))
               (report_agent_memory_event (k_report k) RESET ;; modify (set_breaches 0))
         | Some anon_bytes => on_breach k anon_bytes
         end)
    (λ _, modify (set_breaches 0) ;; report_agent_memory_event (k_report k) EXCEPTION).

(** The process that the daemon starts after an exit *)
Definition new_process (start : Z) (s : mst) : mst := mkMst start 0 0 ∅ [] (m_world s).

(** Checks of successive processes of one version of the agent: the times recorded for
    its exits, oldest first *)
Fixpoint lives (ks : list reading) (s : mst) : list datetime * mst :=
  match ks with
  | [] => ([], s)
  | k :: ks' =>
      match check_agent_memory k s with
      | (Ok _, s') => lives ks' s'
      | (Err _, s') => let '(exits, s'') := lives ks' (new_process (k_time k) s') in (k_record k :: exits, s'')
      end
  end.
End check.

(** ** The file of the history *)

Section file.
Context (E : env) (C : memory_conf).
Context (Hfault : ∀ p b e, write_fault E p = Some (b, e) → ordinary e).

Notation hpath := (history_path E).

Lemma tmp_ne : history_tmp E ≠ hpath.
Proof. unfold history_tmp, history_path, state_dir. intros H. by simplify_list_eq. Qed.

(** Only a rename to the file changes it. *)
Definition keeps_history (w w' : world) : Prop := w_fs w' !! hpath = w_fs w !! hpath.

Instance keeps_history_preorder : PreOrder keeps_history.
Proof. unfold keeps_history. split; [by intros w|]. intros a b c H1 H2. congruence. Qed.

Lemma write_tmp_keeps c : pres keeps_history (write_file (write_fault E) (history_tmp E) c).
Proof.
  intros w. unfold keeps_history, write_file. repeat case_match; simpl; try done; apply lookup_insert_ne, tmp_ne.
Qed.

Lemma remove_tmp_keeps : pres keeps_history (remove_file (write_fault E) (history_tmp E)).
Proof. intros w. unfold keeps_history, remove_file. repeat case_match; simpl; try done. apply lookup_delete_ne, tmp_ne. Qed.

(** Saving is atomic: the file has the new contents, or an exception is raised and it is
    what it was. *)
Lemma save_history_atomic vs w :
  wp (save_history E vs)
    (λ _ w', ∃ t, w_fs w' !! hpath = Some (File (json_content (history_json vs)) t))
    (λ e w', ordinary e ∧ keeps_history w w') w.
Proof.
  unfold save_history. apply wp_except.
  apply (wp_mono _ (λ _ w', ∃ t, w_fs w' !! hpath = Some (File (json_content (history_json vs)) t)) _
           (λ e w', ordinary e ∧ keeps_history w w')); [|done|].
  - apply wp_bind. unfold wp at 1.
    pose proof (write_tmp_keeps (json_content (history_json vs)) w) as Hk.
    pose proof (write_file_ordinary (write_fault E) Hfault (history_tmp E) (json_content (history_json vs)) w) as Ho.
    destruct (write_file _ _ _ w) as [[[]|e] w1] eqn:Hw; [|by split; [apply Ho|]]. simpl in Hk.
    assert (∃ t, w_fs w1 !! history_tmp E = Some (File (json_content (history_json vs)) t)) as [t Ht].
    { unfold write_file in Hw. repeat case_match; simplify_eq. eexists. apply lookup_insert_eq. }
    unfold wp, rename. rewrite Ht. repeat case_match; simplify_eq.
    all: first [by split | by split; [eapply Hfault|] | simpl; eexists; apply lookup_insert_eq].
  - intros e w1 [He Hk]. split; [|unfold ordinary in He; congruence]. intros _. apply wp_bind.
    match goal with |- wp ?m _ _ _ => assert (raises (λ _, False) m) as Hr; [|assert (pres keeps_history m) as Hp] end.
    + apply (raises_except _ ordinary); [|unfold ordinary; intros; congruence|intros; apply raises_ret].
      raises_auto. by apply remove_file_ordinary.
    + apply pres_except; [apply _| |intros ?; apply pres_ret; apply _]. pres_auto. apply remove_tmp_keeps.
    + specialize (Hr w1). specialize (Hp w1). unfold wp. destruct (except _ _ _ w1) as [[[]|e'] w2]; [|by destruct (Hr e')].
      simpl in Hp. split; [done|]. unfold keeps_history in *. congruence.
Qed.

(** The restarts of the version at [times] are what the file has. *)
Definition recorded (times : list datetime) (w : world) : Prop :=
  match times with
  | [] => w_fs w !! hpath = None
  | _ => ∃ bytes t, length bytes = length times ∧
           w_fs w !! hpath = Some (File (json_content (history_json
             [(c_version C, JArr (zip_with restart_entry times bytes))])) t)
  end.

(** The same as a value of [_data] *)
Definition represents_times (times : list datetime) (vs : versions) : Prop :=
  match times with
  | [] => vs = []
  | _ => ∃ bytes, length bytes = length times ∧ vs = [(c_version C, JArr (zip_with restart_entry times bytes))]
  end.

Lemma recorded_load times w : recorded times w →
  ∃ vs, load_history E w = (Ok vs, w) ∧ represents_times times vs.
Proof.
  intros Hr. unfold load_history, mbind, M_bind, gets, exists_path, read_file. destruct times as [|t ts]; simpl in Hr.
  - rewrite Hr. by eexists.
  - destruct Hr as (bytes & mt & Hl & Hf). rewrite Hf. eexists. split; [reflexivity|]. by exists bytes.
Qed.

Lemma recorded_keeps times w w' : keeps_history w w' → recorded times w → recorded times w'.
Proof. unfold keeps_history, recorded. intros ->. done. Qed.

Lemma represented_entries times vs : represents_times times vs →
  ∃ bytes, length bytes = length times ∧
    get_version_restarts (c_version C) vs = Ok (zip_with restart_entry times bytes).
Proof.
  destruct times as [|t ts]; simpl; [by intros ->; exists []|]. intros (bytes & Hl & ->). exists bytes. split; [done|].
  unfold get_version_restarts. simpl. by rewrite String.eqb_refl.
Qed.

Lemma entry_times times bytes : Forall (λ t, valid_datetime t = true) times → length bytes = length times →
  map_res entry_time (zip_with restart_entry times bytes) = Ok times.
Proof.
  intros Hv. revert bytes. induction Hv as [|t ts Ht Hts IH]; intros [|b bs] Hl; [done..|].
  injection Hl as Hl. cbn [zip_with map_res].
  assert (entry_time (restart_entry t b) = Ok t) as ->.
  { unfold entry_time, restart_entry. cbn [json_get_default dict_get String.eqb Ascii.eqb Bool.eqb default from_option id mbind res_bind].
    by apply strptime_timestamp. }
  cbn [mbind res_bind]. by rewrite IH.
Qed.

Lemma foldl_max_le (l : list Z) (z x : Z) : x = z ∨ x ∈ l → x ≤ foldl Z.max z l.
Proof.
  assert (∀ l' z', z' ≤ foldl Z.max z' l') as Hge.
  { induction l' as [|y l' IH]; intros z'; simpl; [lia|]. specialize (IH (Z.max z' y)). lia. }
  revert z. induction l as [|y l IH]; intros z Hx; simpl.
  - destruct Hx as [->|?%elem_of_nil]; [lia|done].
  - destruct Hx as [->|[->|Hx]%elem_of_cons].
    + pose proof (Hge l (Z.max z y)). lia.
    + pose proof (Hge l (Z.max z y)). lia.
    + apply IH. by right.
Qed.

(** The guard lets the version restart only when few enough restarts are on record, each
    of them long enough ago. *)
Lemma can_restart_spec times vs now :
  represents_times times vs → Forall (λ t, valid_datetime t = true) times → 0 < c_min_interval C →
  ∃ b, version_can_restart (c_version C) (c_max_restarts C) (c_min_interval C) now vs = Ok b ∧
    (b = true → Z.of_nat (length times) < c_max_restarts C ∧
       Forall (λ t, to_us t + c_min_interval C * 1000000 ≤ to_us now) times).
Proof.
  intros Hr Hv Hpos. destruct (represented_entries times vs Hr) as (bytes & Hl & He).
  pose proof (entry_times times bytes Hv Hl) as Hm.
  assert (length (zip_with restart_entry times bytes) = length times) as Hlen by (rewrite length_zip_with; lia).
  generalize dependent (zip_with restart_entry times bytes). intros es He Hm Hlen.
  unfold version_can_restart, get_version_latest_restart_time. rewrite He. cbn [mbind res_bind].
  rewrite Hlen. destruct (Z.leb_spec (c_max_restarts C) (Z.of_nat (length times))) as [|Hlt]; [by eexists|].
  destruct times as [|t ts], es as [|e es]; [exists true; split; [done|]; by split|done..|].
  unfold latest_time. rewrite Hm. cbn [mbind res_bind fmap list_fmap].
  eexists. split; [done|]. rewrite negb_true_iff, Z.ltb_ge. intros Hd. split; [done|].
  apply Forall_forall. intros x Hx.
  assert (to_us x ≤ foldl Z.max (to_us t) (to_us <$> ts)); [|lia]. apply foldl_max_le.
  apply elem_of_cons in Hx as [->|Hx]; [by left|right]. by apply list_elem_of_fmap_2.
Qed.

Lemma append_represented times vs now bytes : represents_times times vs →
  ∃ vs', append_entry (c_version C) (restart_entry now bytes) vs = Ok vs' ∧ prune_versions vs' = Ok vs' ∧
    ∀ w t, w_fs w !! hpath = Some (File (json_content (history_json vs')) t) → recorded (times ++ [now]) w.
Proof.
  destruct times as [|t ts]; simpl.
  - intros ->. eexists. split; [done|]. split; [done|]. intros w t Hw. by exists [bytes], t.
  - intros (bs & Hl & ->). unfold append_entry. simpl. rewrite String.eqb_refl. eexists. split; [done|]. split; [done|].
    intros w mt Hw. exists (bs ++ [bytes]), mt. split; [rewrite length_app, Hl; simpl; rewrite length_app; simpl; lia|].
    rewrite Hw. destruct bs as [|b bs]; [done|]. simpl in *. simplify_eq.
    by rewrite zip_with_app.
Qed.

(** A reading of the clock that does not go back within a check *)
Definition reading_ok (k : reading) : Prop :=
  valid_datetime (k_record k) = true ∧ to_us (k_guard k) ≤ to_us (k_record k) ∧ fails_with ordinary (k_metrics k).

Context (Hinterval : 0 < c_min_interval C).

(** An exit that the check decides, after the restarts at [times] *)
Definition exit_ok (times : list datetime) (k : reading) (e : exn) : Prop :=
  e_class e = ExitException ∧ Z.of_nat (length times) < c_max_restarts C ∧
  Forall (λ t, to_us t + c_min_interval C * 1000000 ≤ to_us (k_record k)) times.

Lemma on_breach_recorded times k bytes s :
  recorded times (m_world s) → Forall (λ t, valid_datetime t = true) times → reading_ok k →
  wp (on_breach E C k bytes) (λ _ s', recorded times (m_world s'))
    (λ e s', (ordinary e ∧ recorded times (m_world s')) ∨
             (exit_ok times k e ∧ recorded (times ++ [k_record k]) (m_world s'))) s.
Proof.
  intros Hr Hv (Hk & Hmono & _). unfold on_breach, report_agent_memory_event. wp_step. wp_step. wp_step. wp_step.
  set (s1 := if bool_decide _ then _ else _). assert (m_world s1 = m_world s) as Hs1 by (subst s1; by case_bool_decide).
  wp_step. wp_step. wp_step; [wp_step; by rewrite Hs1|]. wp_step. unfold on_memory_world. wp_step. rewrite Hs1.
  destruct (recorded_load times (m_world s) Hr) as (vs & Hload & Hvs). unfold wp at 1. rewrite Hload. wp_step.
  destruct (can_restart_spec times vs (k_guard k) Hvs Hv Hinterval) as (b & Hb & Hallow).
  unfold wp at 1, lift. rewrite Hb. destruct b; cbn [negb].
  - specialize (Hallow eq_refl) as [Hlen Hsp]. wp_step. wp_step. cbn [m_world].
    destruct (append_represented times vs (k_record k) bytes Hvs) as (vs' & Ha & Hp & Hrec).
    unfold record_restart. wp_step. unfold wp at 1, lift. rewrite Ha, Hp.
    eapply wp_mono; [apply save_history_atomic|..].
    + intros [] w' [t Hw]. wp_step. right. split; [|by eapply Hrec].
      split; [done|]. split; [done|]. eapply Forall_impl; [exact Hsp|]. simpl. intros; lia.
    + intros e w' [He Hkeep]. left. split; [done|]. by eapply recorded_keeps.
  - wp_step. wp_step. wp_step. cbn [m_world set_breaches]. by case_bool_decide.
Qed.

Lemma check_recorded times k s :
  recorded times (m_world s) → Forall (λ t, valid_datetime t = true) times → reading_ok k →
  wp (check_agent_memory E C k) (λ _ s', recorded times (m_world s'))
    (λ e s', exit_ok times k e ∧ recorded (times ++ [k_record k]) (m_world s') ∧
       CHILD_LAUNCH_INTERVAL ≤ k_time k - m_process_start_time s) s.
Proof.
  intros Hr Hv Hk. unfold check_agent_memory. apply wp_except.
  apply (wp_mono _ (λ _ s', recorded times (m_world s')) _
    (λ e s', (ordinary e ∧ recorded times (m_world s')) ∨
      (exit_ok times k e ∧ recorded (times ++ [k_record k]) (m_world s') ∧
       CHILD_LAUNCH_INTERVAL ≤ k_time k - m_process_start_time s))); [|done|].
  - wp_step; [by wp_step|]. wp_step; [by wp_step|]. wp_step. wp_step. unfold id. wp_step; [by wp_step|].
    apply Z.ltb_ge in Heqb1. wp_step; [by wp_step|]. wp_step. wp_step. wp_step. wp_step; [|left].
    + destruct a as [bytes|].
      * eapply wp_mono; [apply (on_breach_recorded times); done|done|]. naive_solver.
      * wp_step. wp_step. wp_step; [|done]. unfold report_agent_memory_event. wp_step. wp_step. wp_step.
        cbn [m_world set_breaches]. by case_bool_decide.
    + split; [|done]. unfold check_agent_memory_usage in *. destruct Hk as (_ & _ & Hm).
      destruct (k_metrics k) as [[l|]|x]; simplify_eq/=. by apply Hm.
  - intros e s' [[He Hr']|(Hx & Hr' & Ht)].
    + split; [|unfold ordinary in He; congruence]. intros _. unfold report_agent_memory_event. wp_step. wp_step. wp_step.
      cbn [m_world set_breaches]. by case_bool_decide.
    + destruct Hx as (Hc & Hx). split; [unfold isinstance; by rewrite Hc|]. intros _. split; [done|]. done.
Qed.

(** Two restarts at least the minimum interval apart *)
Definition restart_apart (t u : datetime) : Prop := to_us t + c_min_interval C * 1000000 ≤ to_us u.

Lemma lives_limited ks s times :
  recorded times (m_world s) → Forall (λ t, valid_datetime t = true) times →
  StronglySorted restart_apart times → Z.of_nat (length times) ≤ Z.max 0 (c_max_restarts C) →
  Forall reading_ok ks →
  let all := times ++ (lives E C ks s).1 in
  StronglySorted restart_apart all ∧ Z.of_nat (length all) ≤ Z.max 0 (c_max_restarts C) ∧
  recorded all (m_world (lives E C ks s).2).
Proof.
  intros Hr Hv Hs Hl Hks. revert s times Hr Hv Hs Hl. induction Hks as [|k ks Hk Hks IH]; intros s times Hr Hv Hs Hl.
  - cbn [lives fst snd]. rewrite app_nil_r. done.
  - cbn [lives]. pose proof (check_recorded times k s Hr Hv Hk) as Hc. unfold wp in Hc.
    destruct (check_agent_memory E C k s) as [[[]|e] s'].
    + by apply IH.
    + destruct Hc as ((_ & Hlen & Hap) & Hr' & _).
      specialize (IH (new_process (k_time k) s') (times ++ [k_record k])).
      destruct (lives E C ks (new_process (k_time k) s')) as [exits s'']. simpl in IH |- *. rewrite <-app_assoc in IH.
      apply IH; [done|..].
      * apply Forall_app. split; [done|]. constructor; [apply Hk|constructor].
      * apply StronglySorted_app. split_and!; [|done|by repeat constructor].
        intros t u Ht ->%list_elem_of_singleton. rewrite Forall_forall in Hap. by apply Hap.
      * rewrite length_app. simpl. lia.
Qed.
End file.


(** ** The events *)

Definition emissions (c : category) (s : mst) : list Z := (filter (λ x, x.1 = c) (m_emitted s)).*2.

(** Six events of a category span a period at least. *)
Definition throttled (l : list Z) : Prop :=
  ∀ i a b, l !! i = Some a → l !! (i + AGENT_MEMORY_REPORT_MAX_EVENTS)%nat = Some b → a + AGENT_MEMORY_REPORT_PERIOD ≤ b.

(** The state after reports up to the time [now]: the times kept are those of the period *)
Definition reports_inv (now : Z) (s : mst) : Prop := ∀ c,
  StronglySorted Z.le (emissions c s) ∧ Forall (λ t, t ≤ now) (emissions c s) ∧ throttled (emissions c s) ∧
  ∀ start, now - AGENT_MEMORY_REPORT_PERIOD ≤ start →
    filter (λ t, start < t) (default [] (m_last_report s !! c)) = filter (λ t, start < t) (emissions c s).

Lemma filter_all (l : list Z) (start : Z) : Forall (λ t, start < t) l → filter (λ t, start < t) l = l.
Proof. induction 1 as [|x l Hx Hl IH]; [done|]. by rewrite filter_cons_True, IH. Qed.

Lemma sorted_suffix (l : list Z) (start : Z) i a :
  StronglySorted Z.le l → l !! i = Some a → start < a →
  (length l - i ≤ length (filter (λ t : Z, (start < t)%Z) l))%nat.
Proof.
  intros Hs. revert i. induction Hs as [|x l Hs IH Hx]; intros [|i] Hi Ha; simplify_eq/=.
  - rewrite filter_cons_True by done. rewrite filter_all; [simpl; lia|].
    eapply Forall_impl; [exact Hx|]. simpl. intros; lia.
  - rewrite filter_cons. case_decide; simpl; specialize (IH i Hi Ha); lia.
Qed.

Lemma filter_filter_le (l : list Z) (a b : Z) : a ≤ b →
  filter (λ t, b < t) (filter (λ t, a < t) l) = filter (λ t, b < t) l.
Proof.
  intros Hab. induction l as [|x l IH]; [done|]. rewrite !filter_cons.
  destruct (decide (a < x)); [rewrite filter_cons; by rewrite IH|]. rewrite decide_False by lia. done.
Qed.

Lemma emissions_snoc c c' t s e :
  m_emitted s = m_emitted e ++ [(c', t)] → emissions c s = emissions c e ++ (if decide (c' = c) then [t] else []).
Proof.
  intros Hs. unfold emissions. rewrite Hs, filter_app, fmap_app. f_equal. rewrite filter_cons. simpl.
  by case_decide.
Qed.

Lemma report_keeps_inv now now' c s : reports_inv now s → now ≤ now' →
  reports_inv now' (report_agent_memory_event now' c s).2.
Proof.
  intros Hinv Hle. unfold report_agent_memory_event, modify. cbn [snd].
  set (recent := filter _ _). intros c'. destruct (Hinv c') as (Hs & Hall & Hth & Hf).
  assert (recent = filter (λ t, now' - AGENT_MEMORY_REPORT_PERIOD < t) (emissions c s)) as Hrecent.
  { destruct (Hinv c) as (_ & _ & _ & Hfc). apply Hfc. lia. }
  assert (Forall (λ t, t ≤ now') (emissions c' s)) as Hall' by (eapply Forall_impl; [exact Hall|]; simpl; intros; lia).
  case_bool_decide as Hfull.
  - change (emissions c' (mkMst _ _ _ _ (m_emitted s) _)) with (emissions c' s). split_and!; [done..|].
    intros start Hst. cbn [m_last_report]. destruct (decide (c = c')) as [<-|Hne].
    + rewrite lookup_insert_eq. simpl. rewrite Hrecent. by apply filter_filter_le.
    + rewrite lookup_insert_ne by done. apply Hf. lia.
  - rewrite (emissions_snoc c' c now' (mkMst _ _ _ _ _ _) s eq_refl). destruct (decide (c = c')) as [<-|Hne].
    + assert (length recent < 5)%nat as Hlt by (unfold AGENT_MEMORY_REPORT_MAX_EVENTS in Hfull; lia).
      split_and!.
      * apply StronglySorted_app. split_and!; [|done|by repeat constructor].
        intros x y Hx ->%list_elem_of_singleton. rewrite Forall_forall in Hall'. by apply Hall'.
      * apply Forall_app. split; [done|]. by constructor.
      * intros i a b Ha Hb. apply lookup_snoc_Some in Hb as [[Hi Hb]|[Hi <-]].
        -- apply (Hth i); [|done]. rewrite lookup_app_l in Ha; [done|]. unfold AGENT_MEMORY_REPORT_MAX_EVENTS in Hi. lia.
        -- rewrite lookup_app_l in Ha by (unfold AGENT_MEMORY_REPORT_MAX_EVENTS in Hi; lia).
           destruct (decide (now' - AGENT_MEMORY_REPORT_PERIOD < a)) as [Hin|]; [|lia].
           pose proof (sorted_suffix _ _ _ _ Hs Ha Hin) as Hsuf. rewrite <-Hrecent in Hsuf.
           unfold AGENT_MEMORY_REPORT_MAX_EVENTS in Hi. lia.
      * intros start Hst. cbn [m_last_report]. rewrite lookup_insert_eq. simpl.
        rewrite !filter_app, Hrecent, filter_filter_le by lia. done.
    + rewrite app_nil_r. split_and!; [done..|]. intros start Hst. cbn [m_last_report].
      rewrite lookup_insert_ne by done. apply Hf. lia.
Qed.

(** A check reports at the time of its reading only. *)
Definition reports_from (now : Z) (s s' : mst) : Prop := reports_inv now s → reports_inv now s'.

Instance reports_from_preorder now : PreOrder (reports_from now).
Proof. unfold reports_from. split; [by intros s|]. intros a b c. auto. Qed.

Lemma same_reports now s s' : m_last_report s' = m_last_report s → m_emitted s' = m_emitted s → reports_from now s s'.
Proof.
  intros H1 H2 H c. specialize (H c). unfold emissions in *. by rewrite H1, H2.
Qed.

Lemma check_reports E C k : pres (reports_from (k_report k)) (check_agent_memory E C k).
Proof.
  assert (∀ c, pres (reports_from (k_report k)) (report_agent_memory_event (k_report k) c)) as Hrep.
  { intros c s H. by eapply report_keeps_inv. }
  assert (∀ A (m : M world exn A), pres (reports_from (k_report k)) (on_memory_world m)) as Hw.
  { intros A m s. unfold on_memory_world, zoom. destruct (m (m_world s)). by apply same_reports. }
  assert (∀ f, (∀ s, m_last_report (f s) = m_last_report s ∧ m_emitted (f s) = m_emitted s) →
    pres (reports_from (k_report k)) (modify f : M mst exn unit)) as Hm.
  { intros f Hf. apply pres_modify. intros s. destruct (Hf s). by apply same_reports. }
  unfold check_agent_memory, on_breach, get_state. pres_auto; auto.
Qed.

(** The checks of one process, which stops when one of them exits *)
Definition run_checks (E : env) (C : memory_conf) (ks : list reading) : M mst exn unit :=
  for_each ks (check_agent_memory E C).

(** In a process whose clock does not go back, at most five events of each category are
    emitted in any twelve hours, whatever the checks find. *)
Theorem memory_events_are_throttled (E : env) (C : memory_conf) (ks : list reading) (start last : Z) (w : world) c :
  Sorted Z.le (k_report <$> ks) →
  throttled (emissions c (run_checks E C ks (mkMst start last 0 ∅ [] w)).2).
Proof.
  intros Hs.
  assert (∀ s now, reports_inv now s → Forall (λ k, now ≤ k_report k) ks →
    ∃ now', reports_inv now' (run_checks E C ks s).2) as Hgo.
  { apply Sorted_StronglySorted in Hs; [|intros x y z; lia]. unfold run_checks.
    induction ks as [|k ks IH]; intros s now Hinv Hnow; [by exists now|]. cbn [for_each].
    inversion_clear Hs as [|? ? Hs' Hk]. inversion_clear Hnow as [|? ? Hle _].
    assert (reports_inv (k_report k) s) as Hinv'.
    { intros c'. destruct (Hinv c') as (H1 & H2 & H3 & H4). split_and!; [done|..|done|].
      - eapply Forall_impl; [exact H2|]. simpl. intros; lia.
      - intros st Hst. apply H4. lia. }
    pose proof (check_reports E C k s Hinv') as Hc. unfold mbind, M_bind.
    destruct (check_agent_memory E C k s) as [[[]|e] s']; simpl in *; [|by exists (k_report k)].
    apply (IH Hs' s' (k_report k)); [done|]. rewrite Forall_fmap in Hk. exact Hk. }
  set (s0 := mkMst start last 0 ∅ [] w).
  assert (∀ now, reports_inv now s0) as H0.
  { intros now c'. split_and!; [constructor|constructor|by intros i a b|done]. }
  destruct ks as [|k ks]; [apply (H0 0)|].
  destruct (Hgo s0 (k_report k) (H0 _)) as [now' H]; [|apply H].
  apply Sorted_StronglySorted in Hs; [|intros x y z; lia]. inversion_clear Hs as [|? ? _ Hk].
  constructor; [lia|]. by rewrite Forall_fmap in Hk.
Qed.

(** ** A version that leaks *)

Definition memory_world : world :=
  mkWorld (list_to_map [(["var"; "lib"; "waagent"], Dir); (["var"; "lib"; "waagent"; "state"], Dir)]) 0 [] false.

Definition memory_sample : memory_conf := mkMemoryConf "2.15.0.1" true 300 1000 1 5 86400.

(** A breach at noon of a day *)
Definition breach_on (day : Z) : reading :=
  let t := mkDatetime 2024 3 day 12 0 0 0 in
  mkReading (to_us t) (to_us t) t t true true (Ok (Some [(ANON_MEM_USAGE, 2000)])).

Definition leaking : mst := mkMst 0 0 0 ∅ [] memory_world.


(** Seven breaches, one an hour *)
Definition hourly : list reading :=
  (λ h, let t := mkDatetime 2024 3 1 h 0 0 0 in
        mkReading (to_us t) (to_us t) t t true true (Ok (Some [(ANON_MEM_USAGE, 2000)]))) <$> [1; 2; 3; 4; 5; 6; 7].

Lemma memory_events_are_throttled_witness :
  let s := (run_checks sample_env (mkMemoryConf "2.15.0.1" true 300 1000 99 5 86400) hourly (mkMst 0 0 0 ∅ [] memory_world)).2 in
  m_breaches s = 7 ∧ length (emissions BREACH s) = 5%nat ∧ throttled (emissions BREACH s).
Proof.
  split; [vm_compute; reflexivity|]. split; [vm_compute; reflexivity|].
  apply memory_events_are_throttled. vm_compute. repeat constructor; discriminate.
Defined.
