(* ===== verification/MainLoop.v ===== *)
(** * The loop of the agent ([UpdateHandler] of ga/update.py)

    One iteration fetches the goal state ([_try_update_goal_state]), lets the agent update
    itself, processes the extensions of a goal state that is new, reports status, handles
    remote access for a new incarnation and archives the history
    ([_process_goal_state]); [_report_status] follows the summary of the extensions, which
    tells when the first goal state of the machine has converged.

    The components it calls are those of the other files: the handler of extensions
    ([ExtReport.v]) and the update of the agent ([AgentUpdate.v]) share the machine.  The
    fetch itself is a parameter.  Calls whose effects are not modelled are events of the
    trace of the loop. *)
From S2P Require Import Timers Policy Prelude PyExn Json FlexVersion World RestApi ExtInstance Samples.
From S2P Require Import ExtStatus ExtGoalState GuestAgent AgentUpdate ExtReport.

(** A goal state as the loop sees it *)
Record goal := mkGoal {
  gl_incarnation : string;
  gl_fast_track : bool;                    (* source == GoalStateSource.FastTrack *)
  gl_is_outdated : bool;
  gl_extensions : ExtReport.goal_state;
  gl_agent : AgentUpdate.goal_state
}.

Definition gl_id (g : goal) : string := ExtReport.gs_id (gl_extensions g).

(** ** The summary of the extensions *)

(** [ExtensionsSummary] *)
Record summary := mkSummary { sm_summary : list (json * json); sm_converged : bool }.

Definition empty_summary : summary := mkSummary [] true.

Definition summary_entry (item : report_item) : res exn (json * json) :=
  match ri_extension item with
  | Some xs => Ok (JStr (xs_name xs), xs_status xs)
  | None =>
      if is_null (hs_extension_status (ri_handler item)) then Ok (hs_name (ri_handler item), hs_status (ri_handler item))
      else Err (py_error AttributeError ("'" +:+ type_name (hs_extension_status (ri_handler item)) +:+ "' object has no attribute 'name'"))
  end.

Fixpoint insert_by_name (x : json * json) (l : list (json * json)) : res exn (list (json * json)) :=
  match l with
  | [] => Ok [x]
  | y :: l' =>
      match x.1, y.1 with
      | JStr a, JStr b => if String.ltb a b then Ok (x :: l) else r ← insert_by_name x l'; Ok (y :: r)
      | _, _ => Err (py_error TypeError "'<' not supported between these names")
      end
  end.

(** [summary.sort(key=lambda s: s[0])], for names that are strings *)
Fixpoint sort_by_name (acc l : list (json * json)) : res exn (list (json * json)) :=
  match l with
  | [] => Ok acc
  | x :: l' => acc ← insert_by_name x acc; sort_by_name acc l'
  end.

Definition terminal_status (j : json) : bool :=
  existsb (json_eqb j) (JStr <$> [StatusValue.success; StatusValue.error; ExtHandlerStatusValue.ready;
                                   ExtHandlerStatusValue.not_ready]).

(** [ExtensionsSummary(vm_status)] *)
Definition new_summary (v : vm_status) : res exn summary :=
  l ← map_res summary_entry (vs_handlers v);
  l ← sort_by_name [] l;
  Ok (mkSummary l (forallb (λ x, terminal_status x.2) l)).

Fixpoint summary_eqb (l m : list (json * json)) : bool :=
  match l, m with
  | [], [] => true
  | x :: l', y :: m' => json_eqb x.1 y.1 && json_eqb x.2 y.2 && summary_eqb l' m'
  | _, _ => false
  end.

(** ** The state *)

(** What the loop does besides calling the modelled components *)
Inductive loop_event :=
| LFetched (g : goal)
| LExtensions (id : string)
| LReported
| LRemoteAccess (incarnation : string)
| LCheckCgroups
| LCloudInit
| LArchive
| LSaveStatus
| LClearFastTrack.

Record lst := mkLst {
  l_handler : hst;
  l_update : aust;
  l_goal_state : option goal;
  l_last_incarnation : option string;
  l_last_id : option string;
  l_summary : summary;
  l_initial : bool;
  l_period : Z;
  l_errors : Z;
  l_heartbeat_errors : Z;
  l_next_error_report : Z;
  l_fast_track : bool;
  l_cloud_init_completed : bool;
  l_last_failed : option string;
  l_fetches : nat;
  l_trace : list loop_event
}.
Notation L A := (M lst exn A).

Definition set_handler (h : hst) (l : lst) : lst :=
  mkLst h (l_update l) (l_goal_state l) (l_last_incarnation l) (l_last_id l) (l_summary l) (l_initial l) (l_period l)
    (l_errors l) (l_heartbeat_errors l) (l_next_error_report l) (l_fast_track l) (l_cloud_init_completed l)
    (l_last_failed l) (l_fetches l) (l_trace l).
Definition set_update (u : aust) (l : lst) : lst :=
  mkLst (l_handler l) u (l_goal_state l) (l_last_incarnation l) (l_last_id l) (l_summary l) (l_initial l) (l_period l)
    (l_errors l) (l_heartbeat_errors l) (l_next_error_report l) (l_fast_track l) (l_cloud_init_completed l)
    (l_last_failed l) (l_fetches l) (l_trace l).
Definition set_goal (g : option goal) (l : lst) : lst :=
  mkLst (l_handler l) (l_update l) g (l_last_incarnation l) (l_last_id l) (l_summary l) (l_initial l) (l_period l)
    (l_errors l) (l_heartbeat_errors l) (l_next_error_report l) (l_fast_track l) (l_cloud_init_completed l)
    (l_last_failed l) (l_fetches l) (l_trace l).
Definition set_last (inc id : option string) (l : lst) : lst :=
  mkLst (l_handler l) (l_update l) (l_goal_state l) inc id (l_summary l) (l_initial l) (l_period l)
    (l_errors l) (l_heartbeat_errors l) (l_next_error_report l) (l_fast_track l) (l_cloud_init_completed l)
    (l_last_failed l) (l_fetches l) (l_trace l).
Definition set_summary (s : summary) (l : lst) : lst :=
  mkLst (l_handler l) (l_update l) (l_goal_state l) (l_last_incarnation l) (l_last_id l) s (l_initial l) (l_period l)
    (l_errors l) (l_heartbeat_errors l) (l_next_error_report l) (l_fast_track l) (l_cloud_init_completed l)
    (l_last_failed l) (l_fetches l) (l_trace l).
Definition set_initial (b : bool) (period : Z) (l : lst) : lst :=
  mkLst (l_handler l) (l_update l) (l_goal_state l) (l_last_incarnation l) (l_last_id l) (l_summary l) b period
    (l_errors l) (l_heartbeat_errors l) (l_next_error_report l) (l_fast_track l) (l_cloud_init_completed l)
    (l_last_failed l) (l_fetches l) (l_trace l).
Definition set_errors (n heartbeat next : Z) (l : lst) : lst :=
  mkLst (l_handler l) (l_update l) (l_goal_state l) (l_last_incarnation l) (l_last_id l) (l_summary l) (l_initial l)
    (l_period l) n heartbeat next (l_fast_track l) (l_cloud_init_completed l) (l_last_failed l) (l_fetches l) (l_trace l).
Definition set_fast_track (b : bool) (l : lst) : lst :=
  mkLst (l_handler l) (l_update l) (l_goal_state l) (l_last_incarnation l) (l_last_id l) (l_summary l) (l_initial l)
    (l_period l) (l_errors l) (l_heartbeat_errors l) (l_next_error_report l) b (l_cloud_init_completed l)
    (l_last_failed l) (l_fetches l) (l_trace l).
Definition set_cloud_init (l : lst) : lst :=
  mkLst (l_handler l) (l_update l) (l_goal_state l) (l_last_incarnation l) (l_last_id l) (l_summary l) (l_initial l)
    (l_period l) (l_errors l) (l_heartbeat_errors l) (l_next_error_report l) (l_fast_track l) true
    (l_last_failed l) (l_fetches l) (l_trace l).
Definition set_last_failed (id : string) (l : lst) : lst :=
  mkLst (l_handler l) (l_update l) (l_goal_state l) (l_last_incarnation l) (l_last_id l) (l_summary l) (l_initial l)
    (l_period l) (l_errors l) (l_heartbeat_errors l) (l_next_error_report l) (l_fast_track l) (l_cloud_init_completed l)
    (Some id) (l_fetches l) (l_trace l).
Definition count_fetch (l : lst) : lst :=
  mkLst (l_handler l) (l_update l) (l_goal_state l) (l_last_incarnation l) (l_last_id l) (l_summary l) (l_initial l)
    (l_period l) (l_errors l) (l_heartbeat_errors l) (l_next_error_report l) (l_fast_track l) (l_cloud_init_completed l)
    (l_last_failed l) (S (l_fetches l)) (l_trace l).
Definition log_loop (e : loop_event) (l : lst) : lst :=
  mkLst (l_handler l) (l_update l) (l_goal_state l) (l_last_incarnation l) (l_last_id l) (l_summary l) (l_initial l)
    (l_period l) (l_errors l) (l_heartbeat_errors l) (l_next_error_report l) (l_fast_track l) (l_cloud_init_completed l)
    (l_last_failed l) (l_fetches l) (l_trace l ++ [e]).

(** The machine is that of the handler of extensions; the update sees the same one. *)
Definition loop_world (l : lst) : world := g_world (h_gs (l_handler l)).

Definition set_loop_world (w : world) (l : lst) : lst :=
  let h := l_handler l in
  let g := h_gs h in
  set_handler (mkHst (mkGst (g_handlers g) (g_disallowed g) (g_engine g) (g_aggregate g) w)
                 (h_started h) (h_error_state h) (h_reports h)) l.

Definition on_loop_world {A} (m : M world exn A) : L A := zoom loop_world set_loop_world m.
Definition on_handler {A} (m : M hst exn A) : L A := zoom l_handler set_handler m.
Definition on_update {A} (m : M aust exn A) : L A :=
  zoom (λ l, let u := l_update l in
             mkAust (a_updater u) (a_gs_id u) (a_last_error u) (a_validation_disabled u) (loop_world l))
       (λ u l, set_loop_world (a_world u) (set_update u l)) m.

(** ** The operations *)

Record loop_params := mkLoopParams {
  (** [client.update_goal_state(force_update)] and [get_goal_state()], the n-th time *)
  p_fetch : nat → bool → fs → res exn goal * fs;
  (** [WireProtocol.create_transport_certificate()]: an openssl call *)
  p_create_certificate : fs → res exn unit * fs;
  (** [get_host_plugin().check_vm_settings_support()]; [None] is [VmSettingsNotSupported] *)
  p_vm_settings_support : nat → res exn (option bool);
  p_enable_fast_track : bool;
  p_goal_state_period : Z;                  (* seconds *)
  p_wait_for_cloud_init : bool;
  (** [ustr(extensions_summary)] *)
  p_summary_text : summary → string
}.

Section loop.
Context (E : env) (penv : policy_env).
Context (conf_ignore extensions_enabled : bool) (conf_file : string).
Context (overprovisioning : bool) (supported : list string).
Context (report_vm_status : list vm_status → vm_status → res exn unit).
Context (N : numbers) (U : update_env) (daemon : FlexibleVersion).
Context (P : loop_params).

Definition now_of_loop : L Z := gets (λ l, w_now (loop_world l)).

(** A parameter that works on the file system *)
Definition on_files {A} (m : fs → res exn A * fs) : L A := on_loop_world (λ w,
  match m (w_fs w) with (r, f) => (r, with_fs (λ _, f) w) end).

(** *** Fetching *)

Definition trans_cert_file : path := lib_dir E ++ ["TransportCert.pem"].

Definition processing_new_incarnation (l : lst) : bool :=
  match l_goal_state l with
  | Some g => negb (bool_decide (Some (gl_incarnation g) = l_last_incarnation l))
  | None => false
  end.

Definition processing_new_extensions_goal_state (l : lst) : bool :=
  match l_goal_state l with
  | Some g => negb (bool_decide (Some (gl_id g) = l_last_id l)) && negb (gl_is_outdated g)
  | None => false
  end.

(** The certificates of the settings of one extension *)
Fixpoint check_settings (l : list ExtensionSettings) (f : fs) : res exn bool :=
  match l with
  | [] => Ok true
  | x :: l' =>
      if is_null (es_protectedSettings x) then check_settings l' f
      else
        match es_certificateThumbprint x with
        | JStr t => if isfile (lib_dir E ++ [t +:+ ".crt"]) f then check_settings l' f else Ok false
        | j => Err (py_error TypeError ("unsupported operand type(s) for +: '" +:+ type_name j +:+ "' and 'str'"))
        end
  end.

(** [_check_certificates] *)
Fixpoint check_certificates (exts : list Extension) (f : fs) : res exn bool :=
  match exts with
  | [] => Ok true
  | e :: exts' =>
      ok ← check_settings (eh_settings e) f;
      if (ok : bool) then check_certificates exts' f else Ok false
  end.

(** The loop over the attempts; [remaining] are left. *)
Fixpoint fetch_attempts (remaining attempt : nat) : L unit :=
  match remaining with
  | O => mret tt
  | S remaining' =>
      n ← gets l_fetches;
      modify count_fetch ;;
      g ← on_files (p_fetch P n (bool_decide (0 < attempt)%nat));
      modify (set_goal (Some g)) ;;
      is_new ← gets processing_new_extensions_goal_state;
      if negb (is_new && gl_fast_track g) then mret tt
      else
        f ← gets (λ l, w_fs (loop_world l));
        in_sync ← lift (check_certificates (ExtReport.gs_extensions (gl_extensions g)) f);
        if (in_sync : bool) then mret tt
        else
          match attempt with
          | O => fetch_attempts remaining' 1
          | S O => on_loop_world (sleep (background E) (p_goal_state_period P)) ;; fetch_attempts remaining' 2
          | _ => mret tt
          end
  end.

Definition hours (n : Z) : Z := n * 60 * 60 * 1000000.

(** [_try_update_goal_state] *)
Definition try_update_goal_state : L bool :=
  except Exception_
    (missing ← gets (λ l, negb (exists_path trans_cert_file (w_fs (loop_world l))));
     when missing (on_files (p_create_certificate P)) ;;
     fetch_attempts 3 0 ;;
     l ← get_state;
     when (0 <? l_errors l) (modify (set_errors 0 (l_heartbeat_errors l) (l_next_error_report l))) ;;
     support ← (if p_enable_fast_track P then lift (p_vm_settings_support P (l_fetches l)) else mret (Some false));
     modify (set_fast_track (default false support)) ;;
     when (bool_decide (is_Some (l_goal_state l)))
       (modify (λ l, match l_goal_state l with Some g => log_loop (LFetched g) l | None => l end)) ;;
     mret true)
    (λ _,
       l ← get_state;
       now ← now_of_loop;
       let errors := l_errors l + 1 in
       let next := if errors <=? 3 then now
                   else if l_next_error_report l <=? now then now + hours 6 else l_next_error_report l in
       modify (set_errors errors (l_heartbeat_errors l + 1) next) ;;
       mret false).

(** *** Reporting *)

Definition initial_goal_state_file : path := lib_dir E ++ ["initial_goal_state"].

(** [_on_initial_goal_state_completed] *)
Definition on_initial_goal_state_completed (s : summary) : L unit :=
  on_loop_world (write_file (write_fault E) initial_goal_state_file (plain (p_summary_text P s))) ;;
  modify (λ l, set_initial false (if extensions_enabled then p_goal_state_period P else l_period l) l).

(** [_report_extensions_summary] *)
Definition report_extensions_summary (v : vm_status) : L unit :=
  except Exception_
    (s ← lift (new_summary v);
     l ← get_state;
     if summary_eqb (sm_summary (l_summary l)) (sm_summary s) then mret tt
     else
       modify (set_summary s) ;;
       when (sm_converged s && l_initial l) (on_initial_goal_state_completed s))
    (λ _,
       g ← gets l_goal_state;
       match g with
       | None => raise (py_error AttributeError "'NoneType' object has no attribute 'extensions_goal_state'")
       | Some g => modify (set_last_failed (gl_id g))
       end).

Definition update_status_json (u : option VMAgentUpdateStatus) : json :=
  match u with
  | None => JNull
  | Some u => JObj [("expected_version", JStr (us_expected_version u)); ("status", JStr (us_status u));
                    ("code", JInt (us_code u)); ("message", JStr (us_message u))]
  end.

(** [_report_status] *)
Definition report_status : L unit :=
  l ← get_state;
  modify (log_loop LReported) ;;
  v ← on_handler (report_ext_handlers_status E report_vm_status
                    (update_status_json (get_vmagent_update_status U (l_update l))) (l_fast_track l));
  match v with
  | None => mret tt
  | Some v =>
      report_extensions_summary v ;;
      g ← gets l_goal_state;
      match g with
      | None => mret tt
      | Some g =>
          modify (log_loop LSaveStatus) ;;
          when (gl_is_outdated g) (modify (log_loop LClearFastTrack))
      end
  end.

(** *** One iteration *)

(** [agent_update_handler.run(self._goal_state, ...)]; there is a goal state once the agent
    was initialized, without one the attribute access fails in the handler's [try]. *)
Definition run_agent_update : L unit :=
  l ← get_state;
  match l_goal_state l with
  | Some g => on_update (AgentUpdate.run E N U daemon (gl_agent g) (processing_new_extensions_goal_state l))
  | None =>
      on_update
        (finally
           (if negb (auto_update_to_latest_version U)
            then modify (set_last_error "Auto update is disabled, skipping agent update")
            else handle_update_error U false (py_error AttributeError "'NoneType' object has no attribute 'extensions_goal_state'"))
           (initial ← gets (λ s, is_initial_update E (w_fs (a_world s)));
            when initial (on_machine (save_initial_update_state_file E))))
  end.

(** [_wait_for_cloud_init] *)
Definition wait_for_cloud_init : L unit :=
  l ← get_state;
  when (p_wait_for_cloud_init P && negb (l_cloud_init_completed l))
    (modify (log_loop LCloudInit) ;; modify set_cloud_init).

(** The body of the [try] of [_process_goal_state] *)
Definition process_fetched : L unit :=
  l ← get_state;
  when (processing_new_extensions_goal_state l)
    (when (negb (sm_converged (l_summary l)) && l_initial l) (on_initial_goal_state_completed (l_summary l)) ;;
     modify (set_summary empty_summary) ;;
     match l_goal_state l with
     | Some g =>
         modify (log_loop (LExtensions (gl_id g))) ;;
         on_handler (ExtReport.run E penv conf_ignore extensions_enabled conf_file overprovisioning supported
                       (Ok (gl_extensions g)))
     | None => mret tt
     end ;;
     modify (log_loop LCheckCgroups)) ;;
  report_status ;;
  l ← get_state;
  when (processing_new_incarnation l)
    (match l_goal_state l with Some g => modify (log_loop (LRemoteAccess (gl_incarnation g))) | None => mret tt end) ;;
  when (processing_new_extensions_goal_state l) (modify (log_loop LArchive)).

(** [_process_goal_state] *)
Definition process_goal_state : L unit :=
  updated ← try_update_goal_state;
  if negb updated then run_agent_update ;; report_status
  else
    run_agent_update ;;
    wait_for_cloud_init ;;
    finally process_fetched
      (modify (λ l, match l_goal_state l with
                    | Some g => set_last (Some (gl_incarnation g)) (Some (gl_id g)) l
                    | None => l
                    end)).

(** [n] iterations of the loop: until an exception ends it *)
Definition iterations (n : nat) : L unit :=
  for_each (replicate n tt)
    (λ _, process_goal_state ;; l ← get_state; on_loop_world (sleep (background E) (l_period l))).
End loop.

(** ** Which goal states are processed *)

Definition fetched_of (e : loop_event) : option goal := match e with LFetched g => Some g | _ => None end.
Definition extensions_of (e : loop_event) : option string := match e with LExtensions id => Some id | _ => None end.
Definition remote_of (e : loop_event) : option string := match e with LRemoteAccess i => Some i | _ => None end.
Definition reported_of (e : loop_event) : option unit := match e with LReported => Some tt | _ => None end.

(** The specification: of a sequence of goal states, those whose id differs from the one
    before are processed, unless they are outdated; remote access is for those whose
    incarnation differs from the one before. *)
Fixpoint ids_to_process (last : option string) (goals : list goal) : list string :=
  match goals with
  | [] => []
  | g :: goals' =>
      (if decide (Some (gl_id g) = last) then [] else if gl_is_outdated g then [] else [gl_id g])
      ++ ids_to_process (Some (gl_id g)) goals'
  end.

Fixpoint incarnations_to_process (last : option string) (goals : list goal) : list string :=
  match goals with
  | [] => []
  | g :: goals' =>
      (if decide (Some (gl_incarnation g) = last) then [] else [gl_incarnation g])
      ++ incarnations_to_process (Some (gl_incarnation g)) goals'
  end.

(** What a piece of the loop adds to the trace; the goal state and the last ones stay. *)
Record did (fe : list goal) (ex re : list string) (n : nat) (l l' : lst) : Prop := mkDid {
  did_evs : ∃ evs, l_trace l' = l_trace l ++ evs ∧ omap fetched_of evs = fe ∧ omap extensions_of evs = ex ∧
                   omap remote_of evs = re ∧ length (omap reported_of evs) = n;
  did_goal : l_goal_state l' = l_goal_state l;
  did_last : l_last_id l' = l_last_id l ∧ l_last_incarnation l' = l_last_incarnation l
}.

Lemma did_nothing l l' :
  l_trace l' = l_trace l → l_goal_state l' = l_goal_state l → l_last_id l' = l_last_id l →
  l_last_incarnation l' = l_last_incarnation l → did [] [] [] 0 l l'.
Proof. intros H1 H2 H3 H4. split; [|done..]. exists []. by rewrite app_nil_r. Qed.

Lemma did_trans fe1 ex1 re1 n1 fe2 ex2 re2 n2 l1 l2 l3 :
  did fe1 ex1 re1 n1 l1 l2 → did fe2 ex2 re2 n2 l2 l3 →
  did (fe1 ++ fe2) (ex1 ++ ex2) (re1 ++ re2) (n1 + n2) l1 l3.
Proof.
  intros [(e1 & T1 & F1 & X1 & R1 & N1) G1 [A1 B1]] [(e2 & T2 & F2 & X2 & R2 & N2) G2 [A2 B2]]. split.
  - exists (e1 ++ e2). rewrite T2, T1, !omap_app, length_app, F1, F2, X1, X2, R1, R2, N1, N2. by rewrite app_assoc.
  - congruence.
  - split; congruence.
Qed.

Lemma did_log e l : did (omap fetched_of [e]) (omap extensions_of [e]) (omap remote_of [e]) (length (omap reported_of [e]))
  l (log_loop e l).
Proof. split; [|done..]. by exists [e]. Qed.

(** The pieces that add nothing *)
Definition silent {A} (m : L A) : Prop := pres (did [] [] [] 0) m.

#[export] Instance did_preorder : PreOrder (did [] [] [] 0).
Proof. split; [intros l; by apply did_nothing|]. intros a b c H1 H2. exact (did_trans _ _ _ _ _ _ _ _ _ _ _ H1 H2). Qed.

Lemma silent_zoom {T A} (g : lst → T) (u : T → lst → lst) (m : M T exn A) :
  (∀ t l, l_trace (u t l) = l_trace l ∧ l_goal_state (u t l) = l_goal_state l ∧ l_last_id (u t l) = l_last_id l ∧
          l_last_incarnation (u t l) = l_last_incarnation l) → silent (zoom g u m).
Proof.
  intros Hu l. unfold zoom. destruct (m (g l)) as [r t]. simpl. destruct (Hu t l) as (? & ? & ? & ?). by apply did_nothing.
Qed.

Lemma on_handler_silent {A} (m : M hst exn A) : silent (on_handler m).
Proof. by apply silent_zoom. Qed.
Lemma on_update_silent {A} (m : M aust exn A) : silent (on_update m).
Proof. by apply silent_zoom. Qed.
Lemma on_loop_world_silent {A} (m : M world exn A) : silent (on_loop_world m).
Proof. by apply silent_zoom. Qed.

Lemma modify_silent (f : lst → lst) :
  (∀ l, l_trace (f l) = l_trace l ∧ l_goal_state (f l) = l_goal_state l ∧ l_last_id (f l) = l_last_id l ∧
        l_last_incarnation (f l) = l_last_incarnation l) → silent (modify f : L unit).
Proof. intros Hf. apply pres_modify. intros l. destruct (Hf l) as (? & ? & ? & ?). by apply did_nothing. Qed.
#[export] Hint Resolve on_handler_silent on_update_silent on_loop_world_silent : pres.

Section processed.
Context (E : env) (penv : policy_env).
Context (conf_ignore extensions_enabled : bool) (conf_file : string).
Context (overprovisioning : bool) (supported : list string).
Context (report_vm_status : list vm_status → vm_status → res exn unit).
Context (N : numbers) (U : update_env) (daemon : FlexibleVersion).
Context (P : loop_params).

(** The goal state may change, the rest of what matters stays. *)
Definition same_last (l l' : lst) : Prop :=
  l_trace l' = l_trace l ∧ l_last_id l' = l_last_id l ∧ l_last_incarnation l' = l_last_incarnation l.

Instance same_last_preorder : PreOrder same_last.
Proof. unfold same_last. split; [by intros l|]. intros a b c. naive_solver congruence. Qed.

Lemma same_last_zoom {T A} (g : lst → T) (u : T → lst → lst) (m : M T exn A) :
  (∀ t l, same_last l (u t l)) → pres same_last (zoom g u m).
Proof. intros Hu l. unfold zoom. destruct (m (g l)) as [r t]. apply Hu. Qed.

Lemma fetch_attempts_pres (R : relation lst) `{!PreOrder R} :
  (∀ A (m : M world exn A), pres R (on_loop_world m)) → (∀ g, pres R (modify (set_goal (Some g)) : L unit)) →
  pres R (modify count_fetch : L unit) → ∀ r a, pres R (fetch_attempts E P r a).
Proof.
  intros Hw Hg Hc.
  assert (∀ A (m : fs → res exn A * fs), pres R (on_files m)) as Hf by (intros; by apply Hw).
  induction r as [|r IH]; intros a; cbn [fetch_attempts]; pres_auto; auto.
Qed.

Lemma fetch_attempts_same r a : pres same_last (fetch_attempts E P r a).
Proof. apply fetch_attempts_pres; [apply _|intros; by apply same_last_zoom|intros; by apply pres_modify|by apply pres_modify]. Qed.

(** A fetch that returns has set the goal state. *)
Definition keeps_goal (l l' : lst) : Prop := is_Some (l_goal_state l) → is_Some (l_goal_state l').

Instance keeps_goal_preorder : PreOrder keeps_goal.
Proof. unfold keeps_goal. split; [by intros l|]. intros a b c. auto. Qed.

Lemma on_loop_world_keeps_goal {A} (m : M world exn A) : pres keeps_goal (on_loop_world m).
Proof. intros l. unfold on_loop_world, zoom. destruct (m (loop_world l)). intros H. exact H. Qed.

Lemma fetch_attempts_keeps_goal r a : pres keeps_goal (fetch_attempts E P r a).
Proof.
  apply fetch_attempts_pres; [apply _|intros; apply on_loop_world_keeps_goal|intros; apply pres_modify|apply pres_modify].
  - intros l _. by eexists.
  - intros l H. exact H.
Qed.

Lemma fetch_attempts_goal r a l :
  wp (fetch_attempts E P (S r) a) (λ _ l', is_Some (l_goal_state l')) (λ _ _, True) l.
Proof.
  cbn [fetch_attempts]. wp_step. wp_step. wp_step. wp_step. wp_step. unfold on_files at 1, on_loop_world at 1. wp_step.
  unfold wp at 1. destruct (p_fetch P _ _ _) as [[g|e] f]; [|done]. wp_step. wp_step.
  match goal with |- wp ?m _ _ ?l0 => assert (pres keeps_goal m) as Hk; [|assert (is_Some (l_goal_state l0)) as H0 by by eexists] end.
  - pose proof (@on_loop_world_keeps_goal) as Hw. pose proof fetch_attempts_keeps_goal. pres_auto; auto.
  - eapply wp_mono; [by apply (pres_wp keeps_goal)| |done]. intros [] l' Hl'. by apply Hl'.
Qed.

(** [_try_update_goal_state] never raises; when it succeeds there is a goal state, which is
    the one it is recorded to have fetched. *)
Lemma try_update_spec l :
  wp (try_update_goal_state E P)
    (λ b l', l_last_id l' = l_last_id l ∧ l_last_incarnation l' = l_last_incarnation l ∧
       if (b : bool) then ∃ g, l_goal_state l' = Some g ∧ l_trace l' = l_trace l ++ [LFetched g]
       else l_trace l' = l_trace l)
    (λ e _, ¬ ordinary e) l.
Proof.
  assert (∀ f, (∀ l, same_last l (f l)) → pres same_last (modify f : L unit)) as Hm by (intros; by apply pres_modify).
  unfold try_update_goal_state. apply wp_except.
  apply (wp_mono _ (λ b l', l_last_id l' = l_last_id l ∧ l_last_incarnation l' = l_last_incarnation l ∧
     b = true ∧ ∃ g, l_goal_state l' = Some g ∧ l_trace l' = l_trace l ++ [LFetched g]) _ (λ _ l', same_last l l')).
  - wp_step. wp_step. wp_step.
    eapply wp_mono; [apply (pres_wp same_last); apply pres_when; [apply _|by apply same_last_zoom]|..]; [|done].
    intros [] l1 H1. wp_step.
    apply (wp_mono _ (λ _ l', is_Some (l_goal_state l') ∧ same_last l l') _ (λ _ l', same_last l l')); [|intros [] l2 [[g Hg] H2]|done].
    { pose proof (fetch_attempts_goal 2 0 l1) as Hg. pose proof (fetch_attempts_same 3 0 l1) as Hs. unfold wp in *.
      destruct (fetch_attempts E P 3 0 l1) as [[[]|e] l2]; simpl in *; [split; [done|]|]; exact (transitivity H1 Hs). }
    wp_step. wp_step. unfold id. wp_step.
    apply (wp_mono _ (λ _ l', l_goal_state l' = Some g ∧ same_last l l') _ (λ _ l', same_last l l')); [|intros [] l3 [Hg3 H3]|done].
    { wp_step; [wp_step|]; done. }
    wp_step.
    apply (wp_mono _ (λ _ l', l' = l3) _ (λ _ l', l' = l3)); [|intros sup ? ->|by intros e ? ->].
    { wp_step; [wp_step; done|by wp_step]. }
    wp_step. wp_step. wp_step. wp_step; [|exfalso; by rewrite Hg, bool_decide_true in *; [|eexists]]. wp_step. wp_step.
    simpl. rewrite Hg3. destruct H3 as (T3 & A3 & B3). simpl. split_and!; [done..|]. exists g. simpl. by rewrite T3.
  - intros b l' (H1 & H2 & -> & H3). done.
  - intros e l1 (T1 & A1 & B1). split; [|unfold ordinary; congruence]. intros _.
    unfold now_of_loop. wp_steps. done.
Qed.

Lemma wp_silent {A} (m : L A) fe ex re n (Q : A → lst → Prop) l0 l :
  silent m → did fe ex re n l0 l → (∀ a l', did fe ex re n l0 l' → Q a l') → wp m Q (λ _ _, True) l.
Proof.
  intros Hm H0 HQ. eapply wp_mono; [by apply (pres_wp (did [] [] [] 0))| |done].
  intros a l' Hl'. apply HQ. pose proof (did_trans _ _ _ _ _ _ _ _ _ _ _ H0 Hl') as H.
  by rewrite !app_nil_r, Nat.add_0_r in H.
Qed.

Lemma report_extensions_summary_silent v : silent (report_extensions_summary E extensions_enabled P v).
Proof.
  unfold silent, report_extensions_summary, on_initial_goal_state_completed, get_state.
  pose proof modify_silent as Hm. unfold silent in Hm. pres_auto; try (by apply Hm); by apply on_loop_world_silent.
Qed.

Lemma report_status_did l :
  wp (report_status E extensions_enabled report_vm_status U P) (λ _ l', did [] [] [] 1 l l') (λ _ _, True) l.
Proof.
  unfold report_status. wp_step. wp_step. wp_step. wp_step.
  pose proof (did_log LReported l) as H0. simpl in H0. wp_step.
  eapply wp_silent; [apply on_handler_silent|exact H0|]. intros [v|] l1 H1; [|by wp_step]. wp_step.
  eapply wp_silent; [apply report_extensions_summary_silent|exact H1|]. intros [] l2 H2. wp_step. wp_step.
  destruct (l_goal_state l2) as [g|]; [|by wp_step]. wp_step. wp_step.
  pose proof (did_trans _ _ _ _ _ _ _ _ _ _ _ H2 (did_log LSaveStatus l2)) as H3. simpl in H3.
  wp_step; [|done]. wp_step. exact (did_trans _ _ _ _ _ _ _ _ _ _ _ H3 (did_log LClearFastTrack _)).
Qed.

(** The goal state of an iteration that succeeds *)
Definition processed_once (g : goal) (l l' : lst) : Prop :=
  did [] (ids_to_process (l_last_id l) [g]) (incarnations_to_process (l_last_incarnation l) [g]) 1 l l'.

Lemma is_new_ids l g : l_goal_state l = Some g →
  ids_to_process (l_last_id l) [g] = if processing_new_extensions_goal_state l then [gl_id g] else [].
Proof.
  intros Hg. unfold processing_new_extensions_goal_state. rewrite Hg. simpl. rewrite app_nil_r.
  case_decide as Hd; [by rewrite bool_decide_true|]. rewrite bool_decide_false by done. simpl. by destruct (gl_is_outdated g).
Qed.

Lemma is_new_incarnations l g : l_goal_state l = Some g →
  incarnations_to_process (l_last_incarnation l) [g] = if processing_new_incarnation l then [gl_incarnation g] else [].
Proof.
  intros Hg. unfold processing_new_incarnation. rewrite Hg. simpl. rewrite app_nil_r.
  case_decide as Hd; [by rewrite bool_decide_true|by rewrite bool_decide_false].
Qed.

Lemma process_fetched_did l g : l_goal_state l = Some g →
  wp (process_fetched E penv conf_ignore extensions_enabled conf_file overprovisioning supported report_vm_status U P)
    (λ _ l', processed_once g l l') (λ _ _, True) l.
Proof.
  intros Hg. unfold process_fetched. wp_step. wp_step. unfold id at 1 2 3 4. wp_step.
  apply (wp_mono _ (λ _ l', did [] (ids_to_process (l_last_id l) [g]) [] 0 l l') _ (λ _ _, True)); [|intros [] l1 H1|done].
  { rewrite (is_new_ids l g Hg). wp_step; [|rewrite H; by apply did_nothing]. rewrite H. wp_step.
    eapply (wp_silent _ [] [] [] 0 _ l); [|by apply did_nothing|].
    - unfold silent, on_initial_goal_state_completed. pose proof modify_silent as Hm. unfold silent in Hm.
      pres_auto. apply on_loop_world_silent.
    - intros [] l1 H1. wp_step. eapply wp_silent; [by apply modify_silent|exact H1|]. intros [] l2 H2. rewrite Hg. wp_step. wp_step.
      wp_step. pose proof (did_trans _ _ _ _ _ _ _ _ _ _ _ H2 (did_log (LExtensions (gl_id g)) l2)) as H3. simpl in H3.
      eapply wp_silent; [apply on_handler_silent|exact H3|]. intros [] l3 H4. wp_step.
      exact (did_trans _ _ _ _ _ _ _ _ _ _ _ H4 (did_log LCheckCgroups l3)). }
  unfold processed_once. set (ids := ids_to_process (l_last_id l) [g]) in *. clearbody ids.
  wp_step. eapply wp_mono; [apply report_status_did| |done]. intros [] l2 H2.
  pose proof (did_trans _ _ _ _ _ _ _ _ _ _ _ H1 H2) as H3. rewrite !app_nil_r in H3. simpl in H3.
  destruct (did_last _ _ _ _ _ _ H3) as [Hid Hinc]. pose proof (did_goal _ _ _ _ _ _ H3) as Hg3. rewrite Hg in Hg3.
  wp_step. wp_step. unfold id. wp_step.
  set (incs := incarnations_to_process (l_last_incarnation l) [g]).
  apply (wp_mono _ (λ _ l', did [] ids incs 1 l l') _ (λ _ _, True)); [|intros [] l4 H4|done].
  - subst incs. rewrite <-Hinc, (is_new_incarnations l2 g Hg3). wp_step; [|by rewrite H]. rewrite H, Hg3. wp_step.
    pose proof (did_trans _ _ _ _ _ _ _ _ _ _ _ H3 (did_log (LRemoteAccess (gl_incarnation g)) l2)) as H5.
    simpl in H5. by rewrite !app_nil_r in H5.
  - clearbody incs. wp_step; [|done]. wp_step. pose proof (did_trans _ _ _ _ _ _ _ _ _ _ _ H4 (did_log LArchive l4)) as H5.
    simpl in H5. by rewrite !app_nil_r in H5.
Qed.

(** One iteration: the goal states it fetched, one or none *)
Definition iteration_did (goals : list goal) (l l' : lst) : Prop :=
  (∃ evs, l_trace l' = l_trace l ++ evs ∧ omap fetched_of evs = goals ∧
     omap extensions_of evs = ids_to_process (l_last_id l) goals ∧
     omap remote_of evs = incarnations_to_process (l_last_incarnation l) goals ∧ length (omap reported_of evs) = 1%nat) ∧
  l_last_id l' = match last goals with Some g => Some (gl_id g) | None => l_last_id l end ∧
  l_last_incarnation l' = match last goals with Some g => Some (gl_incarnation g) | None => l_last_incarnation l end.

Lemma run_agent_update_silent : silent (run_agent_update E N U daemon).
Proof. unfold silent, run_agent_update, get_state. pres_auto; apply on_update_silent. Qed.

Lemma wait_for_cloud_init_did l :
  wp (wait_for_cloud_init P) (λ _ l', did [] [] [] 0 l l') (λ _ _, True) l.
Proof.
  unfold wait_for_cloud_init. wp_step. wp_step. wp_step; [|by apply did_nothing]. wp_step. wp_step.
  pose proof (did_log LCloudInit l) as H0. simpl in H0. wp_step. by apply (did_trans _ _ _ _ _ _ _ _ _ _ _ H0), did_nothing.
Qed.

Lemma process_goal_state_did l :
  wp (process_goal_state E penv conf_ignore extensions_enabled conf_file overprovisioning supported report_vm_status N U daemon P)
    (λ _ l', ∃ goals, iteration_did goals l l') (λ _ _, True) l.
Proof.
  unfold process_goal_state. wp_step. eapply wp_mono; [apply try_update_spec| |done].
  intros [] l1 (Hid & Hinc & H); cbn [negb].
  - destruct H as (g & Hg & Ht). wp_step.
    eapply (wp_silent _ [] [] [] 0 _ l1); [apply run_agent_update_silent|by apply did_nothing|]. intros [] l2 H2. wp_step.
    eapply wp_mono; [apply wait_for_cloud_init_did| |done]. intros [] l3 H3.
    pose proof (did_trans _ _ _ _ _ _ _ _ _ _ _ H2 H3) as H4. simpl in H4. destruct (did_last _ _ _ _ _ _ H4) as [Hi4 Hc4].
    pose proof (did_goal _ _ _ _ _ _ H4) as Hg4. rewrite Hg in Hg4. wp_step.
    eapply wp_mono; [by apply process_fetched_did|..].
    + intros [] l5 H5. wp_step. exists [g].
      pose proof (did_goal _ _ _ _ _ _ H5) as Hg5. rewrite Hg4 in Hg5. rewrite Hg5. split; [|done].
      unfold processed_once in H5. rewrite Hi4, Hc4, Hid, Hinc in H5.
      destruct (did_evs _ _ _ _ _ _ (did_trans _ _ _ _ _ _ _ _ _ _ _ H4 H5)) as (evs & Te & Fe & Xe & Re & Ne).
      exists (LFetched g :: evs). cbn [l_trace set_last]. rewrite Te, Ht, <-app_assoc. split; [done|].
      change (omap fetched_of (LFetched g :: evs)) with (g :: omap fetched_of evs).
      change (omap extensions_of (LFetched g :: evs)) with (omap extensions_of evs).
      change (omap remote_of (LFetched g :: evs)) with (omap remote_of evs).
      change (omap reported_of (LFetched g :: evs)) with (omap reported_of evs).
      rewrite Fe, Xe, Re, Ne. done.
    + intros e l5 _. by wp_step.
  - wp_step. eapply (wp_silent _ [] [] [] 0 _ l1); [apply run_agent_update_silent|by apply did_nothing|]. intros [] l2 H2.
    eapply wp_mono; [apply report_status_did| |done]. intros [] l3 H3. exists [].
    pose proof (did_trans _ _ _ _ _ _ _ _ _ _ _ H2 H3) as H4. destruct (did_last _ _ _ _ _ _ H4) as [Hi4 Hc4].
    split; [|simpl; split; congruence]. destruct (did_evs _ _ _ _ _ _ H4) as (evs & Te & Fe & Xe & Re & Ne).
    exists evs. rewrite Te, H. done.
Qed.

Lemma ids_to_process_app lst goals goals' :
  ids_to_process lst (goals ++ goals') =
  ids_to_process lst goals ++ ids_to_process (match last goals with Some g => Some (gl_id g) | None => lst end) goals'.
Proof.
  revert lst. induction goals as [|g goals IH]; intros lst; [done|]. rewrite last_cons. cbn [app ids_to_process].
  rewrite IH, app_assoc. by destruct (last goals).
Qed.

Lemma incarnations_to_process_app lst goals goals' :
  incarnations_to_process lst (goals ++ goals') =
  incarnations_to_process lst goals ++
  incarnations_to_process (match last goals with Some g => Some (gl_incarnation g) | None => lst end) goals'.
Proof.
  revert lst. induction goals as [|g goals IH]; intros lst; [done|]. rewrite last_cons. cbn [app incarnations_to_process].
  rewrite IH, app_assoc. by destruct (last goals).
Qed.

(** C7: as long as the agent runs, whatever fails in between: status is reported once in
    every iteration, the extensions of a fetched goal state are processed when its id is
    not that of the goal state fetched before it and it is not outdated, and only then, and
    remote access is handled when its incarnation is new.  None is skipped and none is
    processed again while it stays the current one. *)
Theorem goal_states_processed_once (n : nat) (l : lst) :
  wp (iterations E penv conf_ignore extensions_enabled conf_file overprovisioning supported report_vm_status N U daemon P n)
    (λ _ l', ∃ evs, l_trace l' = l_trace l ++ evs ∧
       omap extensions_of evs = ids_to_process (l_last_id l) (omap fetched_of evs) ∧
       omap remote_of evs = incarnations_to_process (l_last_incarnation l) (omap fetched_of evs) ∧
       length (omap reported_of evs) = n)
    (λ _ _, True) l.
Proof.
  assert (∀ n l0, wp (iterations E penv conf_ignore extensions_enabled conf_file overprovisioning supported report_vm_status N U daemon P n)
    (λ _ l', ∃ evs, l_trace l' = l_trace l0 ++ evs ∧
       omap extensions_of evs = ids_to_process (l_last_id l0) (omap fetched_of evs) ∧
       omap remote_of evs = incarnations_to_process (l_last_incarnation l0) (omap fetched_of evs) ∧
       length (omap reported_of evs) = n) (λ _ _, True) l0) as Hall; [|apply Hall].
  clear n l. unfold iterations. induction n as [|n IH]; intros l; cbn [replicate for_each].
  { wp_step. exists []. by rewrite app_nil_r. }
  wp_step. wp_step. eapply wp_mono; [apply process_goal_state_did| |done].
  intros [] l1 (goals & (e1 & T1 & F1 & X1 & R1 & N1) & Hid & Hinc). wp_step. wp_step.
  eapply (wp_silent _ [] [] [] 0 _ l1); [apply on_loop_world_silent|by apply did_nothing|]. intros [] l2 H2.
  destruct (did_evs _ _ _ _ _ _ H2) as (e2 & T2 & F2 & X2 & R2 & N2). destruct (did_last _ _ _ _ _ _ H2) as [Hid2 Hinc2].
  eapply wp_mono; [apply IH| |done]. intros [] l3 (e3 & T3 & X3 & R3 & N3).
  exists (e1 ++ e2 ++ e3). rewrite T3, T2, T1, !omap_app, !length_app, <-!app_assoc. split; [done|].
  rewrite F1, F2, X1, X2, R1, R2, X3, R3, N1, N2, N3, Hid2, Hinc2, Hid, Hinc.
  split; [|split; [|done]]; simpl; [by rewrite ids_to_process_app|by rewrite incarnations_to_process_app].
Qed.
End processed.

(** ** Five iterations on the sample machine

    The fetch fails once, gives the same goal state twice, then a new one that is outdated,
    then a new one. *)

Definition sample_goal (incarnation id : string) (outdated : bool) : goal :=
  mkGoal incarnation false outdated (ExtReport.mkGoalState [] false [] "1" id) (AgentUpdate.mkGoalState id [] false).

Definition sample_params : loop_params :=
  mkLoopParams
    (λ n _ f, (match n with
               | O => Err (agent_error ProtocolError "no answer" None (-1))
               | 1%nat | 2%nat => Ok (sample_goal "1" "a" false)
               | 3%nat => Ok (sample_goal "2" "b" true)
               | _ => Ok (sample_goal "2" "c" false)
               end, f))
    (λ f, (Ok tt, f)) (λ _, Ok (Some true)) true 6 false (λ _, "").

Definition no_update : update_env :=
  mkUpdateEnv (agent_version [2; 9; 0; 1]) (Some "2.8.0.0") false "Prod" true 3600 14400 86400
    (λ _ n, n / 2) (λ _ _ _, Ok []) (λ _, false) (λ _, "").

Definition loop_start : lst :=
  mkLst (mkHst (mkGst [] [] (Policy.init_engine Policy.sample_env) None (AgentUpdate.update_world)) false
           (ErrorState.init ErrorState.ERROR_STATE_DELTA_DEFAULT) [])
    AgentUpdate.self_update_state None None None empty_summary true 6 0 0 0 false false None 0 [].

Example five_iterations :
  let '(r, l) := iterations sample_env Policy.sample_env false true "/etc/waagent.conf" false [] (λ _ _, Ok tt)
                   sample_numbers no_update AgentUpdate.daemon_2_8 sample_params 5 loop_start in
  r = Ok tt ∧ omap extensions_of (l_trace l) = ["a"; "c"] ∧ omap remote_of (l_trace l) = ["1"; "2"] ∧
  length (omap reported_of (l_trace l)) = 5%nat ∧ length (h_reports (l_handler l)) = 5%nat.
Proof. vm_compute. auto. Qed.
