(* ===== verification/Process.v ===== *)
(** * The process of the agent (ga/update.py)

    How the process that runs the loop of [MainLoop.v] begins and ends: the files with the
    ids of its processes and the wait for those that are left ([_get_pid_files],
    [_write_pid_file], [_ensure_no_orphans]), the check that its parent is the daemon
    ([_is_orphaned]), its threads ([_check_threads_running], [_shutdown]) and the file that
    tells the next process whether this one ended cleanly ([_set_sentinel]). *)
From S2P Require Import Prelude PyExn Json FlexVersion World ExtInstance Samples.
From Stdlib Require Import Ascii.

(** ** The sentinel *)

Section sentinel.
Context (E : env).

Definition AGENT_SENTINEL_FILE : string := "current_version".
Definition sentinel_file_path : path := lib_dir E ++ [AGENT_SENTINEL_FILE].

(** [_set_sentinel] *)
Definition set_sentinel (agent msg : string) : M world exn unit :=
  except Exception_
    (write_file (write_fault E) sentinel_file_path (plain ("[" +:+ agent +:+ "] [" +:+ msg +:+ "]")))
    (λ _, mret tt).

(** [_is_clean_start] *)
Definition is_clean_start (f : fs) : bool := negb (isfile sentinel_file_path f).

(** The end of [_shutdown] *)
Definition remove_sentinel : M world exn unit :=
  present ← gets (λ w, isfile sentinel_file_path (w_fs w));
  when present (except Exception_ (remove_file (write_fault E) sentinel_file_path) (λ _, mret tt)).
End sentinel.

(** ** Threads *)

(** A thread handler: its name, whether [keep_alive()] and [is_alive()], and what [stop()]
    and [join()] raise *)
Record thread := mkThread {
  t_name : string;
  t_keep_alive : bool;
  t_is_alive : bool;
  t_stop : option exn;
  t_join : option exn
}.

Inductive thread_event := TStart (name : string) | TStop (name : string) | TJoin (name : string).

Definition COLLECTOR : string := "TelemetryEventsCollector".
Definition SENDER : string := "SendTelemetryHandler".

(** [_check_threads_running]: what it starts *)
Definition check_threads_running (threads : list thread) : list thread_event :=
  omap (λ t, if t_keep_alive t && negb (t_is_alive t) then Some (TStart (t_name t)) else None) threads.

(** [dict((h.get_thread_name(), h) for h in threads)] *)
Definition handlers_by_name (threads : list thread) : list (string * thread) :=
  foldl (λ d t, dict_set (t_name t) t d) [] threads.

(** [d.pop(name, None)] *)
Definition dict_pop {V} (name : string) (d : list (string * V)) : option V * list (string * V) :=
  (dict_get name d, filter (λ kv, kv.1 ≠ name) d).

Section shutdown.
Context (E : env).

(** The trace of the calls, and the machine *)
Definition tst : Type := list thread_event * world.

Definition call (e : thread_event) (raises : option exn) : M tst exn unit := λ s,
  (match raises with Some x => Err x | None => Ok tt end, (s.1 ++ [e], s.2)).

(** [_stop_handler], [_wait_for_handler] *)
Definition stop_handler (t : thread) : M tst exn unit :=
  except Exception_ (call (TStop (t_name t)) (t_stop t)) (λ _, mret tt).
Definition wait_for_handler (t : thread) : M tst exn unit :=
  except Exception_ (call (TJoin (t_name t)) (t_join t)) (λ _, mret tt).

(** The first phase: each handler of the ordered names is stopped and waited for in turn. *)
Fixpoint stop_in_order (names : list string) (d : list (string * thread)) : M tst exn (list (string * thread)) :=
  match names with
  | [] => mret d
  | name :: names' =>
      let '(h, d') := dict_pop name d in
      match h with
      | None => stop_in_order names' d'
      | Some t => stop_handler t ;; wait_for_handler t ;; stop_in_order names' d'
      end
  end.

(** [_shutdown] *)
Definition shutdown (threads : list thread) : M tst exn unit :=
  rest ← stop_in_order [COLLECTOR; SENDER] (handlers_by_name threads);
  for_each rest.*2 stop_handler ;;
  for_each rest.*2 wait_for_handler ;;
  zoom snd (λ w s, (s.1, w)) (remove_sentinel E).

(** The [except] clauses of [UpdateHandler.run]: the exit code of the process whose loop
    ended with an exception, or because it is no longer to run *)
Definition finish (agent : string) (threads : list thread) (outcome : res exn unit) : M tst exn Z :=
  match outcome with
  | Ok _ => shutdown threads ;; mret 0
  | Err e =>
      if isinstance e ExitException then shutdown threads ;; mret 0
      else if isinstance e Exception_ then
        zoom snd (λ w s, (s.1, w))
          (set_sentinel E agent ("Agent " +:+ agent +:+ " failed with exception: " +:+ e_msg e)) ;; mret 1
      else raise e
  end.
End shutdown.

(** ** Processes *)

(** A process id file [<n>_<name>]: [re.match(r"(\d+)_<name>", f)] does not look at what
    follows the name. *)
Definition pid_index (pid_name f : string) : option Z :=
  let '(d, r) := span is_digit f in
  match (if String.eqb d "" then None else strip_prefix "_" r) with
  | Some r' => if starts_with pid_name r' then Some (int_of_digits d) else None
  | None => None
  end.

Fixpoint insert_pid (x : Z * string) (l : list (Z * string)) : list (Z * string) :=
  match l with
  | [] => [x]
  | y :: l' => if x.1 <? y.1 then x :: y :: l' else y :: insert_pid x l'
  end.

Section processes.
Context (E : env).
(** The directory and the name of the process id file, this process and its parent *)
Context (pid_dir : path) (pid_name : string) (pid ppid : Z).
(** [osutil.check_pid_alive(pid)] at a time *)
Context (check_pid_alive : Z → string → bool).

(** [_get_pid_files], with their indices *)
Definition get_pid_files (f : fs) : list (Z * string) :=
  foldl (λ acc x, insert_pid x acc) []
    (omap (λ x, (λ n, (n, x)) <$> pid_index pid_name x) (listdir pid_dir f)).

(** [_write_pid_file] *)
Definition write_pid_file : M world exn (list string * option string) :=
  files ← gets (λ w, get_pid_files (w_fs w));
  let pid_index := match last files with Some (n, _) => n | None => -1 end in
  let pid_file := pretty (pid_index + 1) +:+ "_" +:+ pid_name in
  written ← except Exception_
    (write_file (write_fault E) (pid_dir ++ [pid_file]) (plain (pretty pid)) ;; mret true)
    (λ _, mret false);
  mret (files.*2, if (written : bool) then Some pid_file else None).

Definition ORPHAN_POLL_INTERVAL : Z := 3.
Definition ORPHAN_WAIT_INTERVAL : Z := 15 * 60.

(** [os.kill(pid, SIGKILL)] with the text of the file *)
Definition kill_text (pid : string) : M world exn unit :=
  raise (py_error TypeError "'str' object cannot be interpreted as an integer").

(** The [while] loop; [fuel] polls at most *)
Fixpoint wait_for_orphan (fuel : nat) (pid : string) (wait_interval : Z) : M world exn unit :=
  match fuel with
  | O => mret tt
  | S fuel' =>
      now ← gets w_now;
      if negb (check_pid_alive now pid) then mret tt
      else
        let wait_interval := wait_interval - ORPHAN_POLL_INTERVAL in
        if wait_interval <=? 0 then kill_text pid
        else sleep (background E) ORPHAN_POLL_INTERVAL ;; wait_for_orphan fuel' pid wait_interval
  end.

(** Each poll takes three seconds of the interval. *)
Definition orphan_fuel (wait_interval : Z) : nat := S (Z.to_nat (wait_interval / ORPHAN_POLL_INTERVAL)).

(** One file of [_ensure_no_orphans] *)
Definition ensure_no_orphan (interval : Z) (file : string) : M world exn unit :=
  except Exception_
    (f ← gets w_fs;
     c ← lift (read_file (pid_dir ++ [file]) f);
     wait_for_orphan (orphan_fuel interval) (c_text c) interval ;;
     remove_file (write_fault E) (pid_dir ++ [file]))
    (λ _, mret tt).

(** [_ensure_no_orphans] *)
Definition ensure_no_orphans (interval : Z) : M world exn unit :=
  '(files, _) ← write_pid_file;
  for_each files (ensure_no_orphan interval).

(** [_is_orphaned] *)
Definition is_orphaned (f : fs) : res exn bool :=
  if ppid =? 1 then Ok true
  else if negb (isfile (pid_dir ++ [pid_name]) f) then Ok true
  else c ← read_file (pid_dir ++ [pid_name]) f; Ok (negb (String.eqb (c_text c) (pretty ppid))).

(** [_check_daemon_running] *)
Definition check_daemon_running (debug : bool) (agent : string) : M world exn unit :=
  if debug then mret tt
  else
    f ← gets w_fs;
    orphaned ← lift (is_orphaned f);
    if (orphaned : bool) then raise (mkExn ExitException ("Agent " +:+ agent +:+ " is an orphan -- exiting") (-1) (-1) [])
    else mret tt.
End processes.

(** ** Shutting down *)

Lemma handlers_by_name_distinct threads :
  NoDup (t_name <$> threads) → handlers_by_name threads = (λ t, (t_name t, t)) <$> threads.
Proof.
  induction threads as [|t threads IH] using rev_ind; [done|]. rewrite fmap_app. intros (Hn & Hd & _)%NoDup_app.
  unfold handlers_by_name in *. rewrite foldl_snoc, IH by done. rewrite dict_set_new, fmap_app; [done|].
  unfold dict_keys. rewrite <-list_fmap_compose. intros Hin. apply (Hd (t_name t)); [|by left]. done.
Qed.

(** The threads of a name, and the calls of the first phase for it *)
Definition in_turn (name : string) (threads : list thread) : list thread_event :=
  if decide (name ∈ t_name <$> threads) then [TStop name; TJoin name] else [].

Definition others (threads : list thread) : list thread :=
  filter (λ t, t_name t ≠ COLLECTOR ∧ t_name t ≠ SENDER) threads.

Definition shutdown_calls (threads : list thread) : list thread_event :=
  in_turn COLLECTOR threads ++ in_turn SENDER threads ++
  (TStop ∘ t_name <$> others threads) ++ (TJoin ∘ t_name <$> others threads).

Definition thread_ok (t : thread) : Prop :=
  (∀ e, t_stop t = Some e → ordinary e) ∧ (∀ e, t_join t = Some e → ordinary e).

Lemma call_quiet e o s : (∀ x, o = Some x → ordinary x) →
  except Exception_ (call e o) (λ _, mret tt) s = (Ok tt, (s.1 ++ [e], s.2)).
Proof.
  intros Ho. unfold except, catch, call. destruct o as [x|]; [|done].
  specialize (Ho x eq_refl). unfold ordinary in Ho. by rewrite Ho.
Qed.

Lemma call_all (f : string → thread_event) (g : thread → option exn) (ts : list thread) s :
  (∀ t, t ∈ ts → ∀ x, g t = Some x → ordinary x) →
  for_each ts (λ t, except Exception_ (call (f (t_name t)) (g t)) (λ _, mret tt)) s =
  (Ok tt, (s.1 ++ (f ∘ t_name <$> ts), s.2)).
Proof.
  revert s. induction ts as [|t ts IH]; intros s Hg; cbn [for_each]; [by rewrite app_nil_r; destruct s|].
  unfold mbind, M_bind. rewrite call_quiet by (apply Hg; by left). rewrite IH by (intros ? ?; apply Hg; by right).
  simpl. by rewrite <-app_assoc.
Qed.

Notation pairs ts := ((λ t, (t_name t, t)) <$> ts).

Lemma dict_get_pairs name (ts : list thread) :
  match dict_get name (pairs ts) with
  | Some t => t ∈ ts ∧ t_name t = name
  | None => name ∉ t_name <$> ts
  end.
Proof.
  induction ts as [|t ts IH]; simpl; [by intros ?%elem_of_nil|].
  destruct (String.eqb_spec name (t_name t)) as [->|Hne]; [split; [by left|done]|].
  destruct (dict_get name _) as [t'|]; [split; [right|]; apply IH|]. by apply not_elem_of_cons.
Qed.

Lemma filter_pairs name (ts : list thread) :
  filter (λ kv : string * thread, kv.1 ≠ name) (pairs ts) = pairs (filter (λ t, t_name t ≠ name) ts).
Proof.
  induction ts as [|t ts IH]; [done|]. rewrite fmap_cons, !filter_cons. simpl. case_decide; [|done].
  by rewrite IH.
Qed.

Lemma stop_in_order_step name names (ts : list thread) s :
  Forall thread_ok ts →
  stop_in_order (name :: names) (pairs ts) s =
  stop_in_order names (pairs (filter (λ t, t_name t ≠ name) ts)) (s.1 ++ in_turn name ts, s.2).
Proof.
  intros Hok. cbn [stop_in_order]. unfold dict_pop. rewrite filter_pairs. unfold in_turn.
  pose proof (dict_get_pairs name ts) as Hget. destruct (dict_get name (pairs ts)) as [t|].
  - destruct Hget as [Hin <-]. rewrite decide_True by (by apply list_elem_of_fmap_2).
    rewrite Forall_forall in Hok. destruct (Hok t Hin) as [Hs Hj].
    unfold mbind at 1, M_bind at 1, stop_handler. rewrite call_quiet by done.
    unfold mbind at 1, M_bind at 1, wait_for_handler. rewrite call_quiet by done. simpl. by rewrite <-app_assoc.
  - rewrite decide_False by done. rewrite app_nil_r. by destruct s.
Qed.

Lemma filter_ok (Q : thread → Prop) `{!∀ t, Decision (Q t)} ts : Forall thread_ok ts → Forall thread_ok (filter Q ts).
Proof. rewrite !Forall_forall. intros Hall t [_ Ht]%list_elem_of_filter. by apply Hall. Qed.

Lemma in_turn_filter name name' ts : name ≠ name' →
  in_turn name (filter (λ t, t_name t ≠ name') ts) = in_turn name ts.
Proof.
  intros Hne. unfold in_turn. apply decide_ext. rewrite !list_elem_of_fmap. split.
  - intros (t & -> & [_ Ht]%list_elem_of_filter). eauto.
  - intros (t & -> & Ht). exists t. split; [done|]. by apply list_elem_of_filter.
Qed.

Lemma others_filter ts :
  filter (λ t, t_name t ≠ SENDER) (filter (λ t, t_name t ≠ COLLECTOR) ts) = others ts.
Proof.
  unfold others. induction ts as [|t ts IH]; [done|]. rewrite !filter_cons.
  destruct (decide (t_name t ≠ COLLECTOR)) as [H1|H1]; [rewrite filter_cons; destruct (decide (t_name t ≠ SENDER))|];
    repeat case_decide; rewrite ?IH; naive_solver.
Qed.

Definition event_name (e : thread_event) : string :=
  match e with TStart n | TStop n | TJoin n => n end.

Lemma in_turn_spec name ts : NoDup (in_turn name ts) ∧ ∀ e, e ∈ in_turn name ts → event_name e = name.
Proof.
  unfold in_turn. case_decide; (split; [|intros e]).
  - repeat constructor; [by intros ?%list_elem_of_singleton|by intros ?%elem_of_nil].
  - rewrite !elem_of_cons, elem_of_nil. naive_solver.
  - constructor.
  - by intros ?%elem_of_nil.
Qed.

Lemma shutdown_calls_distinct ts : NoDup (t_name <$> ts) → NoDup (shutdown_calls ts).
Proof.
  intros Hnd.
  assert (NoDup (t_name <$> others ts)) as Ho.
  { eapply sublist_NoDup; [exact Hnd|]. apply fmap_sublist, sublist_filter. }
  assert (∀ f : string → thread_event, (∀ n, event_name (f n) = n) → NoDup (f ∘ t_name <$> others ts) ∧
    ∀ e, e ∈ (f ∘ t_name <$> others ts) → event_name e ≠ COLLECTOR ∧ event_name e ≠ SENDER) as Hf.
  { intros f Hf. split.
    - rewrite list_fmap_compose. apply NoDup_fmap_2_strong; [|done]. intros x y _ _ Hxy.
      rewrite <-(Hf x), <-(Hf y). by f_equal.
    - intros e (t & -> & [Ht _]%list_elem_of_filter)%list_elem_of_fmap. simpl. by rewrite Hf. }
  destruct (Hf TStop) as [S1 S2]; [done|]. destruct (Hf TJoin) as [J1 J2]; [done|].
  destruct (in_turn_spec COLLECTOR ts) as [C1 C2]. destruct (in_turn_spec SENDER ts) as [D1 D2].
  unfold shutdown_calls. apply NoDup_app. split_and!; [done| |].
  { intros e He. apply C2 in He. rewrite !elem_of_app. intros [H|[H|H]].
    - apply D2 in H. rewrite H in He. discriminate.
    - by destruct (S2 e H).
    - by destruct (J2 e H). }
  apply NoDup_app. split_and!; [done| |].
  { intros e He. apply D2 in He. rewrite elem_of_app. intros [H|H]; [by destruct (S2 e H)|by destruct (J2 e H)]. }
  apply NoDup_app. split_and!; [done| |done].
  intros e (t & -> & _)%list_elem_of_fmap (t' & Heq & _)%list_elem_of_fmap. discriminate.
Qed.

Section ends.
Context (E : env) (Hfault : ∀ p b e, write_fault E p = Some (b, e) → ordinary e).

Lemma remove_sentinel_total : raises (λ _, False) (remove_sentinel E).
Proof.
  unfold remove_sentinel. apply raises_bind; [raises_auto|intros ?]. apply raises_when.
  apply (raises_except _ ordinary); [by apply remove_file_ordinary|unfold ordinary; intros; congruence|intros; apply raises_ret].
Qed.

Lemma shutdown_runs threads s :
  NoDup (t_name <$> threads) → Forall thread_ok threads →
  shutdown E threads s = (Ok tt, (s.1 ++ shutdown_calls threads, (remove_sentinel E s.2).2)).
Proof.
  intros Hnd Hok. unfold shutdown. rewrite handlers_by_name_distinct by done.
  unfold mbind at 1, M_bind at 1. rewrite stop_in_order_step by done.
  rewrite stop_in_order_step by (by apply filter_ok). cbn [stop_in_order]. unfold mret at 1, M_ret at 1. cbn [fst snd].
  rewrite in_turn_filter by done. rewrite others_filter. set (ts := others threads).
  assert (snd <$> (pairs ts) = ts) as -> by (rewrite <-list_fmap_compose; apply list_fmap_id).
  assert (Forall thread_ok ts) as Hts by (by apply filter_ok). rewrite Forall_forall in Hts.
  unfold mbind at 1, M_bind at 1, stop_handler.
  rewrite (call_all TStop t_stop) by (intros t Ht; by apply Hts).
  unfold mbind at 1, M_bind at 1, wait_for_handler.
  rewrite (call_all TJoin t_join) by (intros t Ht; by apply Hts).
  unfold zoom. cbn [fst snd]. pose proof (remove_sentinel_total s.2) as Ht.
  destruct (remove_sentinel E s.2) as [[[]|e] w]; [|by destruct (Ht e)]. cbn [fst snd].
  unfold shutdown_calls. fold ts. by rewrite <-!app_assoc.
Qed.
End ends.

(** C29: shutting down calls [stop] and [join] of every thread exactly once, in this order
    and whatever they raise: the collector of telemetry events is stopped and waited for,
    then the sender of events is, so that no event is produced after the sender stopped;
    then the other threads are all told to stop before any of them is waited for. *)
Theorem shutdown_stops_producers_first (E : env) (threads : list thread) (s : tst) :
  (∀ p b e, write_fault E p = Some (b, e) → ordinary e) → NoDup (t_name <$> threads) → Forall thread_ok threads →
  ∃ w, shutdown E threads s = (Ok tt, (s.1 ++ shutdown_calls threads, w)) ∧
    (∀ t, t ∈ threads → TStop (t_name t) ∈ shutdown_calls threads ∧ TJoin (t_name t) ∈ shutdown_calls threads) ∧
    NoDup (shutdown_calls threads) ∧
    (COLLECTOR ∈ t_name <$> threads → SENDER ∈ t_name <$> threads →
     ∃ rest, shutdown_calls threads = [TStop COLLECTOR; TJoin COLLECTOR; TStop SENDER; TJoin SENDER] ++ rest).
Proof.
  intros Hf Hnd Hok. eexists. split; [by apply shutdown_runs|]. unfold shutdown_calls, in_turn. split_and!.
  - intros t Ht. assert (t_name t ∈ t_name <$> threads) as Hn by (by apply list_elem_of_fmap_2).
    destruct (decide (t_name t = COLLECTOR)) as [Heq|H1]; [rewrite <-Heq, decide_True by done; set_solver|].
    destruct (decide (t_name t = SENDER)) as [Heq|H2]; [rewrite <-Heq, (decide_True (P := t_name t ∈ _)) by done; set_solver|].
    assert (t ∈ others threads) as Ho by (by apply list_elem_of_filter).
    split; apply elem_of_app; right; apply elem_of_app; right; apply elem_of_app; [left|right];
      apply list_elem_of_fmap; by exists t.
  - apply shutdown_calls_distinct. done.
  - intros Hc Hs. rewrite !decide_True by done. by eexists.
Qed.

(** ** Process id files *)

Lemma insert_pid_elem x y l : y ∈ insert_pid x l ↔ y = x ∨ y ∈ l.
Proof.
  induction l as [|z l IH]; simpl; [set_solver|]. destruct (x.1 <? z.1); rewrite !elem_of_cons, ?IH; naive_solver.
Qed.

Lemma foldl_insert_pid_elem y l acc : y ∈ foldl (λ acc x, insert_pid x acc) acc l ↔ y ∈ acc ∨ y ∈ l.
Proof.
  revert acc. induction l as [|x l IH]; intros acc; simpl; [rewrite elem_of_nil; naive_solver|].
  rewrite IH, insert_pid_elem, elem_of_cons. naive_solver.
Qed.

Notation by_index := (StronglySorted (λ a b : Z * string, a.1 ≤ b.1)).

Lemma insert_pid_sorted x l : by_index l → by_index (insert_pid x l).
Proof.
  induction 1 as [|z l Hs IH Hz]; simpl; [by repeat constructor|]. destruct (Z.ltb_spec x.1 z.1).
  - constructor; [by constructor|]. constructor; [lia|]. eapply Forall_impl; [exact Hz|]. simpl. intros; lia.
  - constructor; [done|]. rewrite Forall_forall in *. intros y [->|Hy]%insert_pid_elem; [lia|by apply Hz].
Qed.

Lemma get_pid_files_sorted d n f : by_index (get_pid_files d n f).
Proof.
  unfold get_pid_files. generalize (omap (λ x, (λ i, (i, x)) <$> pid_index n x) (listdir d f)). intros l.
  assert (∀ acc, by_index acc → by_index (foldl (λ acc x, insert_pid x acc) acc l)) as H; [|apply H; constructor].
  induction l as [|x l IH]; intros acc Hacc; [done|]. simpl. by apply IH, insert_pid_sorted.
Qed.

Lemma last_is_largest l x y : by_index l → last l = Some x → y ∈ l → y.1 ≤ x.1.
Proof.
  induction 1 as [|z l Hs IH Hz]; [done|]. rewrite last_cons. intros Hx Hy.
  destruct (last l) as [x'|] eqn:Hl.
  - injection Hx as ->. apply elem_of_cons in Hy as [->|Hy]; [|by apply IH].
    rewrite Forall_forall in Hz. apply Hz. apply last_Some in Hl as [l' ->]. set_solver.
  - injection Hx as ->. apply last_None in Hl as ->. set_solver.
Qed.

Lemma pid_index_pretty z name : 0 ≤ z → pid_index name (pretty z +:+ "_" +:+ name) = Some z.
Proof.
  intros Hz. pose proof (pretty_Z_digits z Hz) as Hd. unfold is_digits in Hd. apply andb_true_iff in Hd as [Hne Hd].
  unfold pid_index.
  assert (span is_digit (pretty z +:+ "_" +:+ name) = (pretty z, "_" +:+ name)) as ->.
  { clear Hne. induction (pretty z) as [|c s IH]; [done|]. simpl in Hd. apply andb_true_iff in Hd as [Hc Hd].
    rewrite string_app_cons. cbn [span]. by rewrite Hc, IH. }
  apply negb_true_iff in Hne. rewrite Hne, strip_prefix_app.
  assert (starts_with name name = true) as ->.
  { unfold starts_with. apply bool_decide_true. exists "". pose proof (strip_prefix_app name "") as H.
    by rewrite string_app_nil_r in H. }
  by rewrite int_of_pretty_Z.
Qed.

Lemma pid_index_nonneg name f z : pid_index name f = Some z → 0 ≤ z.
Proof.
  unfold pid_index.
  assert (str_forallb is_digit (span is_digit f).1 = true) as Hd.
  { induction f as [|c f IH]; [done|]. cbn [span]. destruct (is_digit c) eqn:Hc; [|done].
    destruct (span is_digit f) as [a b]. simpl in *. by rewrite Hc. }
  destruct (span is_digit f) as [d r]. simpl in Hd. destruct (if String.eqb d "" then None else _); [|done].
  destruct (starts_with name s); [|done]. intros [= <-]. by apply int_of_digits_nonneg.
Qed.

(** The file in which a process of the agent records its id is a new one, numbered after
    all those of earlier processes, so that it never hides a process to wait for. *)
Theorem pid_file_is_fresh (E : env) (pid_dir : path) (pid_name : string) (pid : Z) (w : world) :
  wp (write_pid_file E pid_dir pid_name pid)
    (λ r w', ∀ file, r.2 = Some file →
       w_fs w !! (pid_dir ++ [file]) = None ∧ (∃ t, w_fs w' !! (pid_dir ++ [file]) = Some (File (plain (pretty pid)) t)) ∧
       ∃ n, pid_index pid_name file = Some n ∧
         ∀ other m, other ∈ listdir pid_dir (w_fs w) → pid_index pid_name other = Some m → m < n ∧ other ∈ r.1)
    (λ e _, ¬ ordinary e) w.
Proof.
  unfold write_pid_file. wp_step. wp_step. set (files := get_pid_files pid_dir pid_name (w_fs w)).
  set (n := (match last files with Some (n, _) => n | None => -1 end + 1)).
  assert (∀ other m, other ∈ listdir pid_dir (w_fs w) → pid_index pid_name other = Some m → (m, other) ∈ files) as Hin.
  { intros other m Ho Hm. subst files. unfold get_pid_files. apply foldl_insert_pid_elem. right.
    apply list_elem_of_omap. exists other. split; [done|]. by rewrite Hm. }
  assert (∀ x, x ∈ files → x.1 < n) as Hlt.
  { intros x Hx. subst n. destruct (last files) as [[m f]|] eqn:Hl; [|by apply last_None in Hl; rewrite Hl in Hx; apply elem_of_nil in Hx].
    pose proof (last_is_largest files (m, f) x (get_pid_files_sorted _ _ _) Hl Hx). simpl in *. lia. }
  assert (0 ≤ n) as Hn.
  { subst n. destruct (last files) as [[m f]|] eqn:Hl; [|lia].
    assert ((m, f) ∈ files) as Hmf by (apply last_Some in Hl as [l' ->]; set_solver).
    subst files. unfold get_pid_files in Hmf. apply foldl_insert_pid_elem in Hmf as [?%elem_of_nil|Hmf]; [done|].
    apply list_elem_of_omap in Hmf as (y & _ & Hy). destruct (pid_index pid_name y) as [z|] eqn:Hz; simplify_eq/=.
    apply pid_index_nonneg in Hz. lia. }
  set (file := pretty n +:+ "_" +:+ pid_name). pose proof (pid_index_pretty n pid_name Hn) as Hidx. fold file in Hidx.
  wp_step. apply wp_except. wp_step.
  destruct (write_file (write_fault E) (pid_dir ++ [file]) (plain (pretty pid)) w) as [[[]|e] w1] eqn:Hw;
    unfold wp at 1; rewrite Hw.
  - wp_step. wp_step. intros ? [= <-]. split_and!.
    + destruct (w_fs w !! (pid_dir ++ [file])) eqn:Hf; [|done]. exfalso.
      specialize (Hlt _ (Hin file n (listdir_elem _ _ _ (mk_is_Some _ _ Hf)) Hidx)). simpl in Hlt. lia.
    + unfold write_file in Hw. repeat case_match; simplify_eq. eexists. apply lookup_insert_eq.
    + exists n. split; [done|]. intros other m Ho Hm. specialize (Hin other m Ho Hm).
      split; [by apply (Hlt (m, other))|]. apply list_elem_of_fmap. by exists (m, other).
  - split; [intros _; wp_step; wp_step; by intros ?|]. unfold ordinary. congruence.
Qed.

(** ** Orphans *)

Section orphans.
Context (E : env) (pid_dir : path) (check_pid_alive : Z → string → bool).

(** The polls that fit in the interval are enough: allowing more changes nothing. *)
Lemma wait_for_orphan_fuel n pid wait extra w :
  (Z.to_nat (wait / ORPHAN_POLL_INTERVAL) < n)%nat →
  wait_for_orphan E check_pid_alive (n + extra) pid wait w = wait_for_orphan E check_pid_alive n pid wait w.
Proof.
  revert wait w. induction n as [|n IH]; intros wait w Hn; [lia|]. simpl.
  unfold mbind, M_bind, gets. destruct (negb _); [done|].
  destruct (Z.leb_spec (wait - ORPHAN_POLL_INTERVAL) 0) as [|Hpos]; [done|].
  unfold sleep. apply IH. unfold ORPHAN_POLL_INTERVAL in *.
  replace wait with ((wait - 3) + 1 * 3) in Hn by lia. rewrite Z.div_add in Hn by lia.
  pose proof (Z.div_pos (wait - 3) 3). lia.
Qed.

(** While the process lives, the wait ends in the attempt to kill it, which raises. *)
Lemma wait_for_live_orphan n pid wait w :
  (∀ t, check_pid_alive t pid = true) → (Z.to_nat (wait / ORPHAN_POLL_INTERVAL) < n)%nat →
  (wait_for_orphan E check_pid_alive n pid wait w).1 =
  Err (py_error TypeError "'str' object cannot be interpreted as an integer").
Proof.
  intros Ha. revert wait w. induction n as [|n IH]; intros wait w Hn; [lia|]. simpl.
  unfold mbind, M_bind, gets. rewrite Ha. cbn [negb].
  destruct (Z.leb_spec (wait - ORPHAN_POLL_INTERVAL) 0) as [|Hpos]; [done|].
  unfold sleep. apply IH. unfold ORPHAN_POLL_INTERVAL in *.
  replace wait with ((wait - 3) + 1 * 3) in Hn by lia. rewrite Z.div_add in Hn by lia.
  pose proof (Z.div_pos (wait - 3) 3). lia.
Qed.

(** The file of a process is only removed when the process is found to have ended.  One
    that never ends is not killed, since the id that is passed to [os.kill] is the text of
    the file: the exception is swallowed and the file stays. *)
Lemma live_orphan_is_left interval file pid w c t :
  w_fs w !! (pid_dir ++ [file]) = Some (File c t) → c_text c = pid → (∀ t, check_pid_alive t pid = true) →
  let w' := (wait_for_orphan E check_pid_alive (orphan_fuel interval) pid interval w).2 in
  ensure_no_orphan E pid_dir check_pid_alive interval file w = (Ok tt, w').
Proof.
  intros Hf <- Ha. unfold ensure_no_orphan, except, catch, mbind, M_bind, gets, lift, read_file. rewrite Hf.
  pose proof (wait_for_live_orphan (orphan_fuel interval) (c_text c) interval w Ha) as Hw.
  destruct (wait_for_orphan _ _ _ _ _ w) as [r w'] eqn:Hr. simpl in Hw. rewrite Hw; [done|]. unfold orphan_fuel. lia.
Qed.
End orphans.

(** ** The end of the process *)

(** How the process ended is known to the next one.  When the loop ended because it was
    told to, or with the exception that exits for an update or a restart, the exit code is 0
    and the next start is clean; when it ended with any other exception the exit code is 1
    and the next start is not clean.  The disk takes every write, and nothing but a file is
    in the place of the sentinel. *)
Theorem exit_tells_clean_start (E : env) (agent : string) (threads : list thread) (outcome : res exn unit) (s : tst) :
  (∀ p, write_fault E p = None) → NoDup (t_name <$> threads) → Forall thread_ok threads →
  isdir (lib_dir E) (w_fs s.2) = true → isdir (sentinel_file_path E) (w_fs s.2) = false →
  wp (finish E agent threads outcome)
    (λ code s', let clean := match outcome with Ok _ => true | Err e => isinstance e ExitException end in
       code = (if clean then 0 else 1) ∧ is_clean_start E (w_fs s'.2) = clean)
    (λ e _, outcome = Err e ∧ ¬ ordinary e) s.
Proof.
  intros Hf Hnd Hok Hlib Hdir.
  assert (∀ p b e, write_fault E p = Some (b, e) → ordinary e) as Hf' by (intros p b e; by rewrite Hf).
  assert (wp (shutdown E threads ;; mret 0) (λ code s', code = 0 ∧ is_clean_start E (w_fs s'.2) = true) (λ _ _, False) s) as Hsh.
  { wp_step. unfold wp at 1. rewrite (shutdown_runs E Hf' threads s Hnd Hok). wp_step. split; [done|]. cbn [snd].
    unfold remove_sentinel, mbind, M_bind, gets, when, is_clean_start.
    destruct (isfile (sentinel_file_path E) (w_fs s.2)) eqn:Hfile; [|simpl; by rewrite Hfile].
    unfold except, catch, remove_file. rewrite Hfile, Hf. simpl. unfold isfile. by rewrite lookup_delete_eq. }
  unfold finish. destruct outcome as [[]|e]; [eapply wp_mono; [exact Hsh|done|done]|].
  destruct (isinstance e ExitException) eqn:Hx; [eapply wp_mono; [exact Hsh|done|done]|].
  destruct (isinstance e Exception_) eqn:Ho; [|wp_step; split; [done|]; unfold ordinary; congruence].
  wp_step. wp_step. unfold wp, set_sentinel, except, catch, write_file.
  rewrite Hdir. unfold sentinel_file_path at 1. rewrite parent_dir_snoc, Hlib, Hf. simpl. split; [done|].
  unfold is_clean_start, isfile. by rewrite lookup_insert_eq.
Qed.

(** ** The threads of the agent *)

Definition agent_threads : list thread :=
  (λ n, mkThread n true true None None) <$> ["MonitorHandler"; "EnvHandler"; SENDER; COLLECTOR; "CollectLogsHandler"].

Lemma agent_threads_ok : NoDup (t_name <$> agent_threads) ∧ Forall thread_ok agent_threads.
Proof.
  split; [apply (bool_decide_unpack _); vm_compute; exact Logic.I|]. apply Forall_fmap, Forall_forall. by intros n _.
Qed.

Lemma shutdown_stops_producers_first_witness :
  shutdown_calls agent_threads =
    [TStop COLLECTOR; TJoin COLLECTOR; TStop SENDER; TJoin SENDER; TStop "MonitorHandler"; TStop "EnvHandler";
     TStop "CollectLogsHandler"; TJoin "MonitorHandler"; TJoin "EnvHandler"; TJoin "CollectLogsHandler"] ∧
  ∃ w, shutdown sample_env agent_threads ([], sample_world) = (Ok tt, (shutdown_calls agent_threads, w)).
Proof.
  split; [vm_compute; reflexivity|].
  destruct (shutdown_stops_producers_first sample_env agent_threads ([], sample_world)) as (w & Hw & _);
    [intros p b e; discriminate|apply agent_threads_ok|apply agent_threads_ok|]. by exists w.
Defined.

Lemma exit_tells_clean_start_witness :
  wp (finish sample_env "WALinuxAgent-2.15.0.1" agent_threads (Err (py_error ValueError "bad")))
    (λ code s', code = 1 ∧ is_clean_start sample_env (w_fs s'.2) = false) (λ _ _, False) ([], sample_world).
Proof.
  pose proof (exit_tells_clean_start sample_env "WALinuxAgent-2.15.0.1" agent_threads (Err (py_error ValueError "bad"))
    ([], sample_world) (λ _, eq_refl) (proj1 agent_threads_ok) (proj2 agent_threads_ok)
    ltac:(vm_compute; reflexivity) ltac:(vm_compute; reflexivity)) as H.
  eapply wp_mono; [exact H|done|]. intros e s' [[= <-] Ho]. by apply Ho.
Defined.
